(* ===== verification/_CoqProject ===== *)
-Q . S2P
Prelude.v
GoStrings.v
Regex.v
Cron.v
Store.v
Roles.v
Permissions.v
Invitations.v
Platform.v
Crypto.v
Auth.v
Setup.v
AuthTheorems.v
Players.v
Servers.v
Worlds.v
Net.v
Alerts.v
Daemon.v
Middleware.v
Words.v
Http.v
GameCommands.v
ServerHandlers.v
Mods.v
Databases.v
AccountHandlers.v
PlayerHandlers.v
Settings.v
HytaleAuth.v
Registries.v
Pki.v
Destinations.v
Mail.v
Webhooks.v
Backups.v
ResourceHandlers.v
Activity.v
Router.v
NetworkRouting.v
Nodes.v
NodeHandlers.v
Startup.v
Panel.v
PanelInvariants.v
PanelTheorems.v
