(* ===== verification/Prelude.v ===== *)
(** * TalePanel control plane: a verification library

    TalePanel hosts Hytale game servers.  Its control plane is the Go API under
    [src/services/api]: an HTTP server with services over PostgreSQL and Redis.
    Users own servers, servers run on nodes, and a daemon on each node polls
    the API for commands, answers its requests and reports back.  A request
    goes through the middleware of its route to a handler, the handler calls
    services, the services read and write the tables and call the daemons and
    a few outside services.  The library models all of these layers and proves
    what makes them correct.

    ** Files, in dependency order (paths under [internal/])

    Foundations:
    - [Prelude]: results, 64-bit integers, list lemmas, the tactics [case_ifs]
      and [breflect] and the hint database [panel].
    - [GoStrings], [Words]: UTF-8, package [strings], [strconv], hex and JSON
      values on byte strings; how splitting at spaces and concatenation
      commute.  The Unicode tables outside ASCII are the class [Unicode].
    - [Regex]: the regular expressions the code uses, decided by derivatives.
    - [Store]: the rows and tables, the errors, the effect monad [M], healthy
      runs, and the calculus [preserves] of database invariants.
    - [Platform]: third-party calls as the class [Platform] (bcrypt, SHA-256,
      AES-GCM, JWT, TOTP, UUID text, two PostgreSQL functions) with the laws
      the code relies on, [PlatformLaws], and an instance of both.
    - [Http]: replies and path parameters of the handlers.

    Services:
    - [Cron] ([services/cron.go]), [Roles] ([models/console_roles.go] and the
      roles of [models.go]), [Permissions], [Invitations], [Crypto]
      ([crypto/crypto.go]).
    - [Auth], [Setup], [AuthTheorems]: [services/auth_service.go] and
      [setup_service.go].
    - [Players]: [services/player_service.go], [network_player_service.go].
    - [Servers], [Worlds], [Alerts], [Nodes]: the services of these names, with
      [services/enrollment_service.go].
    - [Net]: [alerting/safehttp.go] and [daemon/host.go], on [net/netip].
    - [Webhooks]: the posts of [alerting/notifier.go], their HTTP client and
      [alerting/evaluator.go].
    - [Daemon]: [daemon/client.go] and [daemon/rclone.go].
    - [GameCommands], [Mods], [Databases], [NetworkRouting]: the services of
      these names together with their handlers.
    - [Settings], [Pki]: [services/app_settings_service.go], the backup key ring
      and the certificate authority of [pki/] and [services/mtls_ca_store.go].
    - [Destinations], [Backups]: the off-site destinations and
      [services/backup_service.go].
    - [HytaleAuth], [Registries]: the game account, CurseForge, the published
      versions and the release check.
    - [Mail]: [alerting/smtp.go] with its settings and handlers.

    Requests:
    - [Middleware], [Activity], [Router]: the gates and limits, the audit log,
      and the route table with the middleware of every route.
    - [ServerHandlers], [AccountHandlers], [PlayerHandlers], [NodeHandlers],
      [ResourceHandlers] (backups, destinations, worlds, alerts): [handlers/].
    - [Startup]: [config/config.go], [db/migrate.go], [cmd/talecli] and the
      session cleanup of [cmd/server/main.go].

    The whole:
    - [Panel]: every route of [router/router.go] with the handler that answers
      it, the jobs, loops and start-up steps beside the requests, and the panel
      as a transition system, [panel_step].
    - [PanelInvariants]: the class [PanelInvariant], what an invariant must
      survive of each component, and that every step of the panel keeps it.
    - [PanelTheorems]: the invariants of the components as instances, and the
      theorems about everything the panel does over time.

    ** How the code is modelled

    A service method is a function in the monad [M] of [Store]: from a world to
    a result ([Ok] or an [error], wrapped as [fmt.Errorf] wraps) and a new
    world.  A world holds the database, the Redis keys with their expiry, the
    clock, a source of random values, the links to the daemons with a record
    of what was sent, and an oracle of faults; each statement to the database
    and to Redis first asks the oracle, so every error branch of the code, and
    every error it drops, is in the model.  A table is a finite map from its
    key to a row (or a list where order matters); a statement is one atomic
    step with the constraints of [src/services/api/migrations] it can run
    into.  Transactions ([tx], [tx_if]) undo their writes when the body or the
    commit fails.  Where the code leaves a window between two statements
    (rotating a refresh token, placing a server), the two halves are
    definitions of their own and theorems interleave them.  A goroutine is a
    value, such as the jobs of [Backups] and [ServerHandlers], which the
    theorems run in any order with what else happens.

    In [panel_step] a handler runs as a whole (the wait of a refresh apart, in
    which other requests run), and what the process keeps in memory between
    requests (the active mail settings, the CurseForge key, the login to the
    game account) is an arbitrary argument of each request, which covers what
    any earlier request left there.  [routes_answered] says that no route of
    the table is without its handler.

    A handler takes the decoded request and returns its result or a [Reply]
    with status and message.  What daemons, the game provider, the registries,
    MariaDB, the mail server and webhook receivers answer is an argument, and
    the theorems quantify over it.  A call to a daemon may also end without an
    answer, by a transport error (the timeout of the short HTTP client is one)
    or by the end of its context, [Expired]; jobs and handlers that have set a
    deadline and go on with the ended context send nothing more on it and have
    their statements refused ([call_on], [stmt_on] of [Daemon]).  The end of
    the context of a request or of the process is a run of failing statements,
    which the faults cover; a call that never returns is not in the model.

    Loops of the code are structural recursions or have fuel with a theorem
    that it is enough: the cron search has the 367 days of the code, the field
    expansion the number of values of a field, log ingestion the number of
    lines, the scan for placeholders the length of the token, the IPv6 parser
    its eight groups, the lookup of the game N/50+1 pages for N games, the
    wait for a rotated token the code's own twenty polls, redirects the ten of
    [net/http].  Tickers are modelled by their ticks: [runDueSchedules] of
    [Backups] is one, [Start] of [Webhooks] any number.

    ** What the theorems show

    - The whole: from a fresh database, whatever requests come, jobs run and
      statements fail, the ledger of playtimes balances, rules of alerts keep
      to allowed webhooks, an owner remains once there is one and no backup key
      is lost ([panel_always_sound]); and without an owner acting, nothing the
      panel does changes who is an owner or an owner's credentials
      ([owners_untouched]).
    - Requests: every route answers through its gates, the routes of a server
      reach only who may use that server, and each group of handlers is
      confined to what its caller may touch ([handlers_gated],
      [server_routes_isolated], [admin_requests_bounded],
      [player_requests_scoped], [node_requests_confined],
      [backup_requests_authorized]).
    - Accounts: an active owner always remains; owners are protected from
      everyone else; login, second factor, refresh rotation (also under a
      race), logout and password change.
    - Access: the permission checks compute what the tables say and never cross
      a tenant; invitations grant nothing beyond their role, nor, unless a
      query fails, what the inviter lacks; a stored command
      never asks for less than its template needs; who sees and changes a
      server.
    - Records: the playtime ledger balances after any sequence of player
      operations and any faults; removing a server leaves no dangling
      reference; a version switch is atomic; a linked account stays linked.
    - Backups: a job settles whatever the daemon answers, unless its context
      ends in the archive or the upload; retention removes only what it may, a
      due schedule fires at most once, and a restore always has the key its
      archive was encrypted with, since no key is ever lost from the ring.
    - Nodes and networks: an enrolment token redeems once and its node
      authenticates; a start sends at most one provision and one start; a
      migration moves the server last and then asks for the removal of its
      archive, unless its time has run out; tickets a hub signs verify at its
      gamemodes, and a role change reaches all of them.
    - Input and output: no console line, SQL statement, node URL, mail header
      or download name escapes its shape; a webhook reaches public addresses
      only (an address with a zone is the one hole), without redirects, and
      its secret stays out of the log; rate
      limits admit exactly the quota of a window; cron schedules mean what
      they say.
    - Start-up: migrations are taken in order and once, each run as a whole or
      passed over as its objects exist, a configuration that loads is
      sound, mail settings survive a restart.
    - Some theorems state behaviour that differs from what the code or a
      comment intends (for instance [migration_port_clash],
      [create_race_same_port], [zone_passes_guard], [limiters_share_counter],
      [audit_body_prefix], [heartbeat_ends_draining],
      [node_metrics_never_alert], [relink_can_mix_accounts],
      [update_info_outlives_update], [partial_object_skips_file],
      [expired_job_stays_open], [expired_migration_leaves_archive],
      [registration_blocks_setup]).

    ** What is not modelled

    Logging other than the log of webhook posts, connection pools, the
    construction of the services and the start of the HTTP server; CORS and
    the matching of paths by gin; request ids; flag parsing and prompts of the
    command line; [ListAllPermissions]; the wording of quoted values
    (percent-q) in messages and of JSON texts.  The parts written in Rust,
    TypeScript, Java and shell are outside the Go code.  The order of texts in
    SQL is byte order, a Go map is iterated in the order of [gmap] where the
    code fixes none, rows of an [UPDATE ... RETURNING] come in key order, and
    concurrent statements interleave as whole statements. *)

From stdpp Require Import base numbers list strings option gmap.

(** ** Results of fallible Go functions

    A Go function returning [(T, error)] is a function into [res T]. *)

Inductive res (E A : Type) : Type :=
| Ok (a : A)
| Err (e : E).
Arguments Ok {E A} a.
Arguments Err {E A} e.

Definition res_bind {E A B} (r : res E A) (k : A -> res E B) : res E B :=
  match r with
  | Ok a => k a
  | Err e => Err e
  end.

Definition is_ok {E A} (r : res E A) : bool :=
  match r with Ok _ => true | Err _ => false end.

Declare Scope res_scope.
Delimit Scope res_scope with res.
Notation "x <-? c ;; k" := (res_bind c (fun x => k))
  (at level 100, c at next level, right associativity) : res_scope.

Lemma res_bind_ok {E A B} (r : res E A) (k : A -> res E B) (b : B) :
  res_bind r k = Ok b -> exists a, r = Ok a /\ k a = Ok b.
Proof. destruct r; simpl; [eauto | discriminate]. Qed.

(** ** Machine integers

    Go's [int] is 64 bits wide on every platform the panel is built for. *)

Definition int64_min : Z := (- 2 ^ 63)%Z.
Definition int64_max : Z := (2 ^ 63 - 1)%Z.

Definition int64_wrap (z : Z) : Z :=
  ((z + 2 ^ 63) mod 2 ^ 64 - 2 ^ 63)%Z.

Lemma int64_wrap_id (z : Z) :
  (int64_min <= z <= int64_max)%Z -> int64_wrap z = z.
Proof.
  unfold int64_min, int64_max, int64_wrap. intros H.
  rewrite Z.mod_small; lia.
Qed.

Lemma int64_wrap_bounds (z : Z) :
  (int64_min <= int64_wrap z <= int64_max)%Z.
Proof.
  unfold int64_min, int64_max, int64_wrap.
  pose proof (Z.mod_pos_bound (z + 2 ^ 63) (2 ^ 64)). lia.
Qed.

Lemma int64_wrap_overflow (z : Z) :
  (int64_max < z <= 2 * int64_max)%Z -> int64_wrap z = (z - 2 ^ 64)%Z.
Proof.
  unfold int64_max, int64_wrap. intros H.
  replace (z + 2 ^ 63)%Z with ((z + 2 ^ 63 - 2 ^ 64) + 1 * 2 ^ 64)%Z by lia.
  rewrite Z.mod_add by lia. rewrite Z.mod_small; lia.
Qed.

(** ** Lists *)

Lemma existsb_elem {A} (f : A -> bool) (l : list A) :
  existsb f l = true <-> exists x, x ∈ l /\ f x = true.
Proof.
  rewrite existsb_exists. setoid_rewrite list_elem_of_In. done.
Qed.

Lemma forallb_elem {A} (f : A -> bool) (l : list A) :
  forallb f l = true <-> forall x, x ∈ l -> f x = true.
Proof.
  rewrite forallb_forall. setoid_rewrite list_elem_of_In. done.
Qed.

(** [slices.Contains] and the membership tests of Go's set-like maps. *)
Definition contains `{EqDecision A} (l : list A) (x : A) : bool :=
  bool_decide (x ∈ l).

Lemma contains_spec `{EqDecision A} (l : list A) (x : A) :
  contains l x = true <-> x ∈ l.
Proof. apply bool_decide_eq_true. Qed.

(** ** Automation *)

Create HintDb panel.
#[export] Hint Resolve int64_wrap_bounds : panel.

(** [case_ifs] splits every boolean test and option match of the goal and of
    the hypotheses, keeping the equations. *)
Ltac case_ifs :=
  repeat match goal with
  | |- context [if ?b then _ else _] => destruct b eqn:?
  | |- context [match ?x with _ => _ end] => destruct x eqn:?
  | H : context [if ?b then _ else _] |- _ => destruct b eqn:?
  | H : context [match ?x with _ => _ end] |- _ => destruct x eqn:?
  end.

(** Moves between boolean tests of the code and the propositions they decide. *)
Ltac breflect :=
  repeat match goal with
  | H : _ && _ = true |- _ => apply andb_true_iff in H; destruct H
  | H : _ && _ = false |- _ => apply andb_false_iff in H
  | H : _ || _ = true |- _ => apply orb_true_iff in H
  | H : _ || _ = false |- _ => apply orb_false_iff in H; destruct H
  | H : negb _ = true |- _ => apply negb_true_iff in H
  | H : negb _ = false |- _ => apply negb_false_iff in H
  | H : (_ <? _)%Z = true |- _ => apply Z.ltb_lt in H
  | H : (_ <? _)%Z = false |- _ => apply Z.ltb_ge in H
  | H : (_ <=? _)%Z = true |- _ => apply Z.leb_le in H
  | H : (_ <=? _)%Z = false |- _ => apply Z.leb_gt in H
  | H : (_ =? _)%Z = true |- _ => apply Z.eqb_eq in H
  | H : (_ =? _)%Z = false |- _ => apply Z.eqb_neq in H
  | H : (_ =? _)%N = true |- _ => apply N.eqb_eq in H
  | H : (_ =? _)%N = false |- _ => apply N.eqb_neq in H
  | H : String.eqb _ _ = true |- _ => apply String.eqb_eq in H
  | H : String.eqb _ _ = false |- _ => apply String.eqb_neq in H
  | H : bool_decide _ = true |- _ => apply bool_decide_eq_true in H
  | H : bool_decide _ = false |- _ => apply bool_decide_eq_false in H
  end.
