(* ===== verification/GoStrings.v ===== *)
(** * Go strings

    A Go string is a sequence of bytes; here a [string] whose characters are
    the bytes.  The functions of the packages [strings], [strconv], [unicode],
    [unicode/utf8] and [encoding/hex] that the control plane calls, with the
    behaviour of the Go standard library: ranging over a string decodes UTF-8
    and yields U+FFFD for a malformed byte. *)

From stdpp Require Import base numbers list strings option.
From Stdlib Require Import Ascii.
From S2P Require Import Prelude.

Local Open Scope Z_scope.

(** ** Bytes *)

Definition byte_of (a : ascii) : Z := Z.of_N (N_of_ascii a).
Definition ascii_of (b : Z) : ascii := ascii_of_N (Z.to_N b).

Lemma byte_of_bounds (a : ascii) : 0 <= byte_of a < 256.
Proof. unfold byte_of. pose proof (N_ascii_bounded a). lia. Qed.

Lemma ascii_of_byte_of (a : ascii) : ascii_of (byte_of a) = a.
Proof. unfold ascii_of, byte_of. rewrite N2Z.id. apply ascii_N_embedding. Qed.

Lemma byte_of_ascii_of (b : Z) : 0 <= b < 256 -> byte_of (ascii_of b) = b.
Proof.
  intros H. unfold ascii_of, byte_of. rewrite N_ascii_embedding; lia.
Qed.

Lemma byte_of_inj (a b : ascii) : byte_of a = byte_of b -> a = b.
Proof. intros H. rewrite <- (ascii_of_byte_of a), H. apply ascii_of_byte_of. Qed.

(** [len(s)]: the number of bytes. *)
Definition len (s : string) : Z := Z.of_nat (String.length s).

(** ** UTF-8 *)

(** A decoded rune with the bytes it was decoded from. *)
Record rune := mkRune { rune_val : Z; rune_raw : string }.

Definition RuneError : Z := 65533.

Definition in_range (lo hi x : Z) : bool := (lo <=? x) && (x <=? hi).

Definition cont (b : Z) : Z := Z.land b 63.

Definition bad (a : ascii) : rune := mkRune RuneError (String a "").

(** [for _, r := range s]: the accepted ranges of the second byte are those of
    [unicode/utf8]. *)
Fixpoint runes (s : string) : list rune :=
  match s with
  | EmptyString => []
  | String a s1 =>
    let x := byte_of a in
    if x <? 128 then mkRune x (String a "") :: runes s1
    else match s1 with
    | EmptyString => [bad a]
    | String b s2 =>
      let y := byte_of b in
      if in_range 194 223 x && in_range 128 191 y
      then mkRune (Z.lor (Z.shiftl (Z.land x 31) 6) (cont y))
                  (String a (String b "")) :: runes s2
      else match s2 with
      | EmptyString => bad a :: runes s1
      | String c s3 =>
        let z := byte_of c in
        if in_range 224 239 x
           && in_range (if x =? 224 then 160 else 128)
                       (if x =? 237 then 159 else 191) y
           && in_range 128 191 z
        then mkRune (Z.lor (Z.shiftl (Z.land x 15) 12)
                           (Z.lor (Z.shiftl (cont y) 6) (cont z)))
                    (String a (String b (String c ""))) :: runes s3
        else match s3 with
        | EmptyString => bad a :: runes s1
        | String d s4 =>
          let t := byte_of d in
          if in_range 240 244 x
             && in_range (if x =? 240 then 144 else 128)
                         (if x =? 244 then 143 else 191) y
             && in_range 128 191 z && in_range 128 191 t
          then mkRune (Z.lor (Z.shiftl (Z.land x 7) 18)
                        (Z.lor (Z.shiftl (cont y) 12)
                           (Z.lor (Z.shiftl (cont z) 6) (cont t))))
                      (String a (String b (String c (String d "")))) :: runes s4
          else bad a :: runes s1
        end
      end
    end
  end.

(** [utf8.EncodeRune]. *)
Definition encode_rune (r : Z) : string :=
  let b x := ascii_of x in
  if in_range 0 127 r then String (b r) ""
  else if in_range 128 2047 r
  then String (b (Z.lor 192 (Z.shiftr r 6))) (String (b (Z.lor 128 (Z.land r 63))) "")
  else if (in_range 2048 65535 r) && negb (in_range 55296 57343 r)
  then String (b (Z.lor 224 (Z.shiftr r 12)))
         (String (b (Z.lor 128 (Z.land (Z.shiftr r 6) 63)))
            (String (b (Z.lor 128 (Z.land r 63))) ""))
  else if in_range 65536 1114111 r
  then String (b (Z.lor 240 (Z.shiftr r 18)))
         (String (b (Z.lor 128 (Z.land (Z.shiftr r 12) 63)))
            (String (b (Z.lor 128 (Z.land (Z.shiftr r 6) 63)))
               (String (b (Z.lor 128 (Z.land r 63))) "")))
  else String (b 239) (String (b 191) (String (b 189) "")).

(** [utf8.RuneCountInString]. *)
Definition RuneCount (s : string) : Z := Z.of_nat (length (runes s)).

Definition raw_concat (l : list rune) : string :=
  fold_right (fun r acc => rune_raw r +:+ acc) "" l.

(** Decoding loses no byte. *)
Lemma raw_concat_runes (s : string) : raw_concat (runes s) = s.
Proof.
  remember (String.length s) as n eqn:Hn.
  assert (Hle : (String.length s <= n)%nat) by lia. clear Hn.
  revert s Hle. induction n as [|n IH]; intros s Hle.
  { destruct s; simpl in *; [done | lia]. }
  destruct s as [|a s1]; [done|]. simpl in Hle.
  assert (H1 : raw_concat (runes s1) = s1) by (apply IH; lia).
  cbn [runes]. destruct (byte_of a <? 128); [simpl; f_equal; done|].
  destruct s1 as [|b s2]; [done|]. simpl in Hle.
  destruct (_ && _); [simpl; rewrite IH by lia; done|].
  destruct s2 as [|c s3]; [simpl; f_equal; done|]. simpl in Hle.
  destruct (_ && _); [simpl; rewrite IH by lia; done|].
  destruct s3 as [|d s4]; [simpl; f_equal; done|]. simpl in Hle.
  destruct (_ && _); [simpl; rewrite IH by lia; done|].
  simpl. f_equal. done.
Qed.

(** ** Unicode tables

    The simple case mappings and the letter and digit categories outside
    ASCII are data of the Go release; the code is verified for any tables.
    The ASCII part, [unicode.IsSpace] and [unicode.IsControl] are fixed. *)
Class Unicode := {
  uni_lower : Z -> Z;
  uni_upper : Z -> Z;
  uni_fold : Z -> Z;
  uni_letter : Z -> bool;
  uni_digit : Z -> bool
}.

(** A table that maps nothing outside ASCII, for evaluation. *)
Definition ascii_tables : Unicode := {|
  uni_lower r := r; uni_upper r := r; uni_fold r := r;
  uni_letter _ := false; uni_digit _ := false |}.

Definition IsSpace (r : Z) : bool :=
  in_range 9 13 r || (r =? 32) || (r =? 133) || (r =? 160) || (r =? 5760)
  || in_range 8192 8202 r || (r =? 8232) || (r =? 8233) || (r =? 8239)
  || (r =? 8287) || (r =? 12288).

Definition IsControl (r : Z) : bool := in_range 0 31 r || in_range 127 159 r.

Definition unicode_ToLower `{Unicode} (r : Z) : Z :=
  if r <? 128 then (if in_range 65 90 r then r + 32 else r) else uni_lower r.

Definition unicode_ToUpper `{Unicode} (r : Z) : Z :=
  if r <? 128 then (if in_range 97 122 r then r - 32 else r) else uni_upper r.

Definition unicode_IsLetter `{Unicode} (r : Z) : bool :=
  if r <? 128 then in_range 65 90 r || in_range 97 122 r else uni_letter r.

Definition unicode_IsDigit `{Unicode} (r : Z) : bool :=
  if r <? 128 then in_range 48 57 r else uni_digit r.

(** ** Package strings *)

(** [strings.Map]; [None] drops the rune (a negative result in Go). *)
Definition Map (f : Z -> option Z) (s : string) : string :=
  fold_right (fun r acc =>
    match f (rune_val r) with
    | Some r' => encode_rune r' +:+ acc
    | None => acc
    end) "" (runes s).

Definition ToLower `{Unicode} (s : string) : string :=
  Map (fun r => Some (unicode_ToLower r)) s.

Definition ToUpper `{Unicode} (s : string) : string :=
  Map (fun r => Some (unicode_ToUpper r)) s.

(** [strings.Fields]: the maximal runs of non-space runes. [cur] is the field
    being read, [None] between fields. *)
Fixpoint fields_loop (cur : option string) (l : list rune) : list string :=
  match l with
  | [] => match cur with Some f => [f] | None => [] end
  | r :: l' =>
    if IsSpace (rune_val r)
    then match cur with
         | Some f => f :: fields_loop None l'
         | None => fields_loop None l'
         end
    else fields_loop (Some (default "" cur +:+ rune_raw r)) l'
  end.

Definition Fields (s : string) : list string := fields_loop None (runes s).

Fixpoint drop_space (l : list rune) : list rune :=
  match l with
  | [] => []
  | r :: l' => if IsSpace (rune_val r) then drop_space l' else l
  end.

Definition TrimSpace (s : string) : string :=
  raw_concat (rev (drop_space (rev (drop_space (runes s))))).

Definition HasPrefix (s p : string) : bool := String.prefix p s.

Fixpoint str_drop (n : nat) (s : string) : string :=
  match n, s with
  | O, _ => s
  | S n', String _ s' => str_drop n' s'
  | S _, EmptyString => EmptyString
  end.

Fixpoint str_take (n : nat) (s : string) : string :=
  match n, s with
  | S n', String a s' => String a (str_take n' s')
  | _, _ => EmptyString
  end.

Definition TrimPrefix (s p : string) : string :=
  if HasPrefix s p then str_drop (String.length p) s else s.

Definition HasSuffix (s p : string) : bool :=
  (String.length p <=? String.length s)%nat
  && String.eqb (str_drop (String.length s - String.length p) s) p.

Definition TrimSuffix (s p : string) : string :=
  if HasSuffix s p then str_take (String.length s - String.length p) s else s.

(** [strings.Index(s, c)] for a one-byte separator: the part before the first
    occurrence and the part after it, [None] when there is none. *)
Fixpoint cut (c : ascii) (s : string) : option (string * string) :=
  match s with
  | EmptyString => None
  | String a s' =>
    if Ascii.eqb a c then Some (EmptyString, s')
    else match cut c s' with
         | Some (p, q) => Some (String a p, q)
         | None => None
         end
  end.

(** [strings.Split(s, c)] for a one-byte separator. *)
Fixpoint Split (c : ascii) (s : string) : list string :=
  match s with
  | EmptyString => [EmptyString]
  | String a s' =>
    if Ascii.eqb a c then EmptyString :: Split c s'
    else match Split c s' with
         | p :: ps => String a p :: ps
         | [] => [String a EmptyString]
         end
  end.

Definition Join (l : list string) (sep : string) : string := String.concat sep l.

(** [strings.EqualFold]: [uni_fold] names one member of each orbit of
    [unicode.SimpleFold]; the ASCII letters are named by their lower case. *)
Definition fold_rune `{Unicode} (r : Z) : Z :=
  if r <? 128 then (if in_range 65 90 r then r + 32 else r) else uni_fold r.

Definition EqualFold `{Unicode} (s t : string) : bool :=
  bool_decide (map (fun r => fold_rune (rune_val r)) (runes s)
               = map (fun r => fold_rune (rune_val r)) (runes t)).

Fixpoint str_forallb (f : ascii -> bool) (s : string) : bool :=
  match s with
  | EmptyString => true
  | String a s' => f a && str_forallb f s'
  end.

(** ** Package strconv *)

(** The value of a non-empty run of decimal digits. *)
Fixpoint digits_val (acc : Z) (s : string) : option Z :=
  match s with
  | EmptyString => Some acc
  | String a s' =>
    let d := byte_of a - 48 in
    if in_range 0 9 d then digits_val (10 * acc + d) s' else None
  end.

Definition parse_digits (s : string) : option Z :=
  match s with EmptyString => None | _ => digits_val 0 s end.

(** [strconv.Atoi]: an optional sign, decimal digits, and the 64-bit range. *)
Definition Atoi (s : string) : option Z :=
  let '(sign, body) :=
    match s with
    | String a s' =>
      if Ascii.eqb a "+" then (1, s')
      else if Ascii.eqb a "-" then (-1, s') else (1, s)
    | EmptyString => (1, s)
    end in
  match parse_digits body with
  | Some n => let v := sign * n in
              if in_range int64_min int64_max v then Some v else None
  | None => None
  end.

Lemma Atoi_bounds (s : string) (v : Z) :
  Atoi s = Some v -> int64_min <= v <= int64_max.
Proof.
  unfold Atoi. intros H.
  destruct (match s with EmptyString => (1, s) | String _ _ => _ end) as [sg b].
  destruct (parse_digits b); [|done].
  destruct (in_range _ _ _) eqn:E; [|done]. simplify_eq.
  unfold in_range in E. breflect. lia.
Qed.

(** ** Package encoding/hex *)

Definition hex_digit (n : Z) : ascii :=
  ascii_of (if n <? 10 then 48 + n else 87 + n).

(** Lower-case hex of the [k] low-order bytes of [n], most significant first. *)
Fixpoint hex_bytes (k : nat) (n : Z) : string :=
  match k with
  | O => EmptyString
  | S k' =>
    String (hex_digit (Z.shiftr n (8 * Z.of_nat k' + 4) mod 16))
      (String (hex_digit (Z.shiftr n (8 * Z.of_nat k') mod 16)) (hex_bytes k' n))
  end.

Lemma hex_bytes_length (k : nat) (n : Z) :
  String.length (hex_bytes k n) = (2 * k)%nat.
Proof. induction k as [|k IH]; simpl; [done | rewrite IH; lia]. Qed.

(** ** ASCII strings *)

Definition is_ascii (s : string) : bool := str_forallb (fun a => byte_of a <? 128) s.

Lemma runes_cons_ascii (a : ascii) (s : string) :
  byte_of a < 128 -> runes (String a s) = mkRune (byte_of a) (String a "") :: runes s.
Proof. intros H. cbn [runes]. apply Z.ltb_lt in H. by rewrite H. Qed.

(** [utf8.ValidString]. *)
Definition ValidUTF8 (s : string) : bool :=
  forallb (fun r => negb ((rune_val r =? RuneError) && (len (rune_raw r) =? 1))) (runes s).

Lemma ascii_valid_utf8 (s : string) : is_ascii s = true -> ValidUTF8 s = true.
Proof.
  unfold ValidUTF8. induction s as [|a s IH]; [done|]. intros [Ha Hs]%andb_true_iff.
  rewrite runes_cons_ascii by lia. cbn [forallb rune_val]. rewrite IH by exact Hs.
  unfold RuneError. destruct (Z.eqb_spec (byte_of a) 65533); [lia|]. done.
Qed.

Lemma encode_rune_ascii (a : ascii) :
  byte_of a < 128 -> encode_rune (byte_of a) = String a "".
Proof.
  intros H. pose proof (byte_of_bounds a). unfold encode_rune, in_range.
  replace ((0 <=? byte_of a) && (byte_of a <=? 127)) with true.
  - by rewrite ascii_of_byte_of.
  - symmetry. apply andb_true_iff. lia.
Qed.

Lemma str_forallb_app (f : ascii -> bool) (s t : string) :
  str_forallb f (s +:+ t) = str_forallb f s && str_forallb f t.
Proof. induction s as [|a s IH]; simpl; [done | rewrite IH; by rewrite andb_assoc]. Qed.

(** A weaker character test holds wherever a stronger one does. *)
Lemma str_forallb_impl (f g : ascii -> bool) (s : string) :
  (forall a, f a = true -> g a = true) ->
  str_forallb f s = true -> str_forallb g s = true.
Proof.
  intros Hfg. induction s as [|a s IH]; simpl; [done|].
  rewrite !andb_true_iff. intros [H1 H2]. auto.
Qed.

(** ** Bytes and runes *)

Lemma lor_ge_128 (a b : Z) :
  0 <= a -> 0 <= b -> 128 <= a \/ 128 <= b -> 128 <= Z.lor a b.
Proof.
  intros Ha Hb Hab. destruct (Z.le_gt_cases 128 (Z.lor a b)) as [?|Hlt]; [done|].
  assert (Hn : 0 <= Z.lor a b) by by apply Z.lor_nonneg.
  assert (Hs : Z.shiftr (Z.lor a b) 7 = 0) by (rewrite Z.shiftr_div_pow2 by lia; apply Z.div_small; lia).
  rewrite Z.shiftr_lor, Z.lor_eq_0_iff, !Z.shiftr_div_pow2 in Hs by lia. destruct Hs as [H1 H2].
  apply Z.div_small_iff in H1; [|lia]. apply Z.div_small_iff in H2; lia.
Qed.

(** Every property of one byte can be checked on all of them. *)
Lemma byte_cases (f : Z -> bool) (a : ascii) :
  forallb (fun n => f (Z.of_nat n)) (seq 0 256) = true -> f (byte_of a) = true.
Proof.
  intros H. rewrite forallb_forall in H. pose proof (byte_of_bounds a).
  specialize (H (Z.to_nat (byte_of a))). rewrite Z2Nat.id in H by lia. apply H, in_seq. lia.
Qed.

Lemma shl_bounds x m k lo :
  0 <= k -> 0 <= m -> lo <= Z.land x m -> 0 <= Z.shiftl (Z.land x m) k /\ lo * 2 ^ k <= Z.shiftl (Z.land x m) k.
Proof.
  intros Hk Hm Hlo. assert (0 <= Z.land x m) by (apply Z.land_nonneg; auto).
  rewrite Z.shiftl_mul_pow2 by done. assert (0 < 2 ^ k) by (apply Z.pow_pos_nonneg; lia). nia.
Qed.

Definition lead (f : Z -> bool) (lo m : Z) (x : Z) : bool := negb (f x) || (lo <=? Z.land x m).

Lemma lead_ok f lo m a :
  forallb (fun n => lead f lo m (Z.of_nat n)) (seq 0 256) = true ->
  f (byte_of a) = true -> lo <= Z.land (byte_of a) m.
Proof.
  intros H%(byte_cases _ a) Hf. unfold lead in H. rewrite Hf in H. simpl in H. by apply Z.leb_le.
Qed.

Lemma cont_nonneg y : 0 <= cont y.
Proof. unfold cont. apply Z.land_nonneg. right. lia. Qed.

Lemma shl_nonneg x k : 0 <= x -> 0 <= Z.shiftl x k.
Proof. apply Z.shiftl_nonneg. Qed.

(** A byte outside ASCII starts a rune outside ASCII. *)
Lemma runes_cons_other (a : ascii) (s : string) :
  128 <= byte_of a -> exists r l, runes (String a s) = r :: l /\ 128 <= rune_val r.
Proof.
  intros Ha. cbn [runes]. assert (E : (byte_of a <? 128) = false) by lia. rewrite E. clear E.
  assert (Hbad : 128 <= rune_val (bad a)) by (simpl; unfold RuneError; lia).
  destruct s as [|b s2]; [by eauto|].
  destruct (in_range 194 223 (byte_of a) && _) eqn:E2.
  { apply andb_true_iff in E2 as [Hx _]. eexists _, _. split; [reflexivity|]. simpl.
    apply (lead_ok _ 2 31) in Hx; [|by vm_compute].
    destruct (shl_bounds (byte_of a) 31 6 2) as [? ?]; try lia. apply lor_ge_128; [done | apply cont_nonneg|].
    left. lia. }
  destruct s2 as [|c s3]; [by eauto|].
  destruct (in_range 224 239 (byte_of a) && _ && _) eqn:E3.
  { apply andb_true_iff in E3 as [[Hx Hy]%andb_true_iff _]. eexists _, _. split; [reflexivity|]. simpl.
    apply lor_ge_128; [apply shl_nonneg, Z.land_nonneg; right; lia
                      | apply Z.lor_nonneg; split; [apply shl_nonneg|]; apply cont_nonneg|].
    destruct (byte_of a =? 224) eqn:Eq.
    - right. apply lor_ge_128; [apply shl_nonneg, cont_nonneg | apply cont_nonneg|]. left.
      assert (Hy' : in_range 160 191 (byte_of b) = true).
      { unfold in_range in *. apply Z.eqb_eq in Eq. rewrite Eq in Hy. simpl in Hy. done. }
      apply (lead_ok _ 32 63) in Hy'; [|by vm_compute].
      destruct (shl_bounds (byte_of b) 63 6 32) as [? ?]; try lia. unfold cont. lia.
    - left. assert (Hx' : in_range 225 239 (byte_of a) = true)
        by (unfold in_range in *; apply Z.eqb_neq in Eq; lia).
      apply (lead_ok _ 1 15) in Hx'; [|by vm_compute].
      destruct (shl_bounds (byte_of a) 15 12 1) as [? ?]; lia. }
  destruct s3 as [|d s4]; [by eauto|].
  destruct (in_range 240 244 (byte_of a) && _ && _ && _) eqn:E4; [|by eauto].
  apply andb_true_iff in E4 as [[[Hx Hy]%andb_true_iff _]%andb_true_iff _].
  eexists _, _. split; [reflexivity|]. simpl.
  assert (Hr : 0 <= Z.lor (Z.shiftl (cont (byte_of c)) 6) (cont (byte_of d)))
    by (apply Z.lor_nonneg; split; [apply shl_nonneg|]; apply cont_nonneg).
  apply lor_ge_128; [apply shl_nonneg, Z.land_nonneg; right; lia
                    | apply Z.lor_nonneg; split; [apply shl_nonneg, cont_nonneg | done]|].
  destruct (byte_of a =? 240) eqn:Eq.
  - right. apply lor_ge_128; [apply shl_nonneg, cont_nonneg | done|]. left.
    assert (Hy' : in_range 144 191 (byte_of b) = true).
    { unfold in_range in *. apply Z.eqb_eq in Eq. rewrite Eq in Hy. simpl in Hy. done. }
    apply (lead_ok _ 16 63) in Hy'; [|by vm_compute].
    destruct (shl_bounds (byte_of b) 63 12 16) as [? ?]; try lia. unfold cont. lia.
  - left. assert (Hx' : in_range 241 244 (byte_of a) = true)
      by (unfold in_range in *; apply Z.eqb_neq in Eq; lia).
    apply (lead_ok _ 1 7) in Hx'; [|by vm_compute].
    destruct (shl_bounds (byte_of a) 7 18 1) as [? ?]; lia.
Qed.

(** A test on runes that only ASCII runes pass is the same test on bytes. *)
Lemma runes_ascii_test (f : Z -> bool) (s : string) :
  (forall r, f r = true -> r < 128) ->
  forallb (fun r => f (rune_val r)) (runes s) = str_forallb (fun a => f (byte_of a)) s.
Proof.
  intros Hf. induction s as [|a s IH]; [done|]. cbn [str_forallb].
  destruct (Z.lt_ge_cases (byte_of a) 128) as [Hlt|Hge].
  - rewrite runes_cons_ascii by done. cbn [forallb rune_val]. by rewrite IH.
  - destruct (runes_cons_other a s Hge) as (r & l & -> & Hr). cbn [forallb].
    assert (E1 : f (rune_val r) = false) by (apply not_true_is_false; intros ?%Hf; lia).
    assert (E2 : f (byte_of a) = false) by (apply not_true_is_false; intros ?%Hf; lia).
    by rewrite E1, E2.
Qed.

(** ** Package encoding/json *)

(** A decoded JSON value; an object lists its fields in the order the map is
    walked. *)
Inductive json :=
| JNull
| JBool (b : bool)
| JNum (text : string)
| JStr (s : string)
| JArr (l : list json)
| JObj (fields : list (string * json)).
