(* ===== verification/Regex.v ===== *)
(** * Regular expressions

    The anchored patterns the control plane compiles with
    [regexp.MustCompile(`^...$`)], as syntax, with a derivative-based matcher
    for [MatchString] and its correctness against the language of the
    pattern.  Every character class used is a set of ASCII characters, so a
    byte of a non-ASCII rune matches no class and matching the bytes agrees
    with matching the runes. *)

From stdpp Require Import base numbers list strings option.
From Stdlib Require Import Ascii.
From S2P Require Import Prelude GoStrings.

Local Open Scope Z_scope.

(** ** Syntax and language *)

Inductive re :=
| Void
| Eps
| Cls (ranges : list (ascii * ascii))
| Cat (r1 r2 : re)
| Alt (r1 r2 : re)
| Star (r : re).

(** Membership of a character class. *)
Definition in_cls (rs : list (ascii * ascii)) (a : ascii) : bool :=
  existsb (fun '(lo, hi) => in_range (byte_of lo) (byte_of hi) (byte_of a)) rs.

Inductive lang : re -> string -> Prop :=
| lang_eps : lang Eps ""
| lang_cls rs a : in_cls rs a = true -> lang (Cls rs) (String a "")
| lang_cat r1 r2 s1 s2 : lang r1 s1 -> lang r2 s2 -> lang (Cat r1 r2) (s1 +:+ s2)
| lang_alt_l r1 r2 s : lang r1 s -> lang (Alt r1 r2) s
| lang_alt_r r1 r2 s : lang r2 s -> lang (Alt r1 r2) s
| lang_star_nil r : lang (Star r) ""
| lang_star_step r s1 s2 :
    lang r s1 -> lang (Star r) s2 -> lang (Star r) (s1 +:+ s2).

#[export] Hint Constructors lang : panel.

(** [r+], [r{n}], [r{n,}] and [r{n,m}]. *)
Definition Plus (r : re) : re := Cat r (Star r).

Fixpoint rep (n : nat) (r : re) : re :=
  match n with O => Eps | S n' => Cat r (rep n' r) end.

Fixpoint upto (n : nat) (r : re) : re :=
  match n with O => Eps | S n' => Alt Eps (Cat r (upto n' r)) end.

Definition rep_min (n : nat) (r : re) : re := Cat (rep n r) (Star r).
Definition rep_range (n m : nat) (r : re) : re := Cat (rep n r) (upto (m - n) r).

Definition Chr (a : ascii) : re := Cls [(a, a)].

(** ** Matching by derivatives *)

Fixpoint nullable (r : re) : bool :=
  match r with
  | Void | Cls _ => false
  | Eps | Star _ => true
  | Cat r1 r2 => nullable r1 && nullable r2
  | Alt r1 r2 => nullable r1 || nullable r2
  end.

Fixpoint deriv (a : ascii) (r : re) : re :=
  match r with
  | Void | Eps => Void
  | Cls rs => if in_cls rs a then Eps else Void
  | Cat r1 r2 =>
    if nullable r1 then Alt (Cat (deriv a r1) r2) (deriv a r2)
    else Cat (deriv a r1) r2
  | Alt r1 r2 => Alt (deriv a r1) (deriv a r2)
  | Star r1 => Cat (deriv a r1) (Star r1)
  end.

Fixpoint MatchString (r : re) (s : string) : bool :=
  match s with
  | EmptyString => nullable r
  | String a s' => MatchString (deriv a r) s'
  end.

(** ** Correctness *)

Lemma str_length_app (s t : string) :
  String.length (s +:+ t) = (String.length s + String.length t)%nat.
Proof.
  induction s as [|a s IH]; [done|].
  change (S (String.length (s +:+ t)) = S (String.length s + String.length t)).
  by rewrite IH.
Qed.

Lemma str_app_cons (a : ascii) (s t : string) :
  String a s +:+ t = String a (s +:+ t).
Proof. reflexivity. Qed.

Lemma str_app_nil (s t : string) : s +:+ t = "" -> s = "" /\ t = "".
Proof. destruct s; [done | discriminate]. Qed.

Lemma str_app_assoc (s t u : string) : (s +:+ t) +:+ u = s +:+ (t +:+ u).
Proof. induction s as [|a s IH]; [done|]. rewrite !str_app_cons. by rewrite IH. Qed.

Lemma str_app_nil_r (s : string) : s +:+ "" = s.
Proof. induction s as [|a s IH]; [done|]. rewrite !str_app_cons. by rewrite IH. Qed.

Lemma nullable_sound (r : re) : nullable r = true -> lang r "".
Proof.
  induction r; simpl; intros H; breflect; try discriminate;
    try solve [constructor]; eauto with panel.
  - change "" with ("" +:+ ""). eauto with panel.
  - destruct H; eauto with panel.
Qed.

Lemma nullable_complete (r : re) (s : string) : lang r s -> s = "" -> nullable r = true.
Proof.
  induction 1; simpl; intros Hs; try done.
  - apply str_app_nil in Hs as [-> ->]. rewrite IHlang1, IHlang2; done.
  - by rewrite IHlang.
  - rewrite IHlang by done. apply orb_true_r.
Qed.

Lemma deriv_sound (a : ascii) (r : re) (s : string) :
  lang (deriv a r) s -> lang r (String a s).
Proof.
  revert s. induction r; simpl; intros s H.
  - inversion H.
  - inversion H.
  - destruct (in_cls ranges a) eqn:E; inversion H; subst. by constructor.
  - destruct (nullable r1) eqn:E.
    + inversion H as [| | | ? ? ? Hl | ? ? ? Hr | |]; subst.
      * inversion Hl; subst. change (String a (s1 +:+ s2)) with (String a s1 +:+ s2).
        eauto with panel.
      * apply nullable_sound in E. change (String a s) with ("" +:+ String a s).
        eauto with panel.
    + inversion H; subst. change (String a (s1 +:+ s2)) with (String a s1 +:+ s2).
      eauto with panel.
  - inversion H; subst; eauto with panel.
  - inversion H; subst. change (String a (s1 +:+ s2)) with (String a s1 +:+ s2).
    eauto with panel.
Qed.

Lemma deriv_complete (r : re) (t : string) :
  lang r t -> forall a s, t = String a s -> lang (deriv a r) s.
Proof.
  induction 1; intros c u Ht; simpl; try discriminate.
  - simplify_eq. rewrite H. constructor.
  - destruct s1 as [|b s1].
    + change ("" +:+ s2) with s2 in Ht.
      rewrite (nullable_complete r1 "") by done. subst. eauto with panel.
    + rewrite str_app_cons in Ht. simplify_eq. destruct (nullable r1); eauto with panel.
  - eauto with panel.
  - eauto with panel.
  - destruct s1 as [|b s1].
    + change ("" +:+ s2) with s2 in Ht. by apply IHlang2 in Ht.
    + rewrite str_app_cons in Ht. simplify_eq. eauto with panel.
Qed.

(** The matcher decides the language of the pattern. *)
Lemma MatchString_lang (r : re) (s : string) : MatchString r s = true <-> lang r s.
Proof.
  revert r. induction s as [|a s IH]; intros r; simpl.
  - split; [apply nullable_sound | intros H; by apply (nullable_complete r "")].
  - rewrite IH. split; [apply deriv_sound | intros H; by eapply deriv_complete].
Qed.

(** ** Repetitions of a character class *)

Definition all_cls (rs : list (ascii * ascii)) (s : string) : bool :=
  str_forallb (in_cls rs) s.

Lemma lang_cls_inv rs s : lang (Cls rs) s -> exists a, s = String a "" /\ in_cls rs a = true.
Proof. inversion 1; eauto. Qed.

Lemma lang_cat_cls_inv rs r s :
  lang (Cat (Cls rs) r) s ->
  exists a s', s = String a s' /\ in_cls rs a = true /\ lang r s'.
Proof.
  inversion 1 as [| |? ? s1 s2 H1 H2| | | |]; subst.
  apply lang_cls_inv in H1 as (a & -> & Ha). exists a, s2. done.
Qed.

Lemma lang_cat_cls rs r a s :
  in_cls rs a = true -> lang r s -> lang (Cat (Cls rs) r) (String a s).
Proof.
  intros Ha Hr. change (String a s) with (String a "" +:+ s). eauto with panel.
Qed.

Lemma lang_star_cls rs s : lang (Star (Cls rs)) s <-> all_cls rs s = true.
Proof.
  split.
  - remember (Star (Cls rs)) as r eqn:Hr. induction 1; simplify_eq; [done|].
    apply lang_cls_inv in H as (a & -> & Ha).
    unfold all_cls in *. simpl. rewrite Ha. by apply IHlang2.
  - induction s as [|a s IH]; [constructor|].
    unfold all_cls in *. simpl. intros H. breflect.
    change (String a s) with (String a "" +:+ s). eauto with panel.
Qed.

Lemma lang_upto_cls rs n s :
  lang (upto n (Cls rs)) s <-> (String.length s <= n)%nat /\ all_cls rs s = true.
Proof.
  revert s. induction n as [|n IH]; intros s; simpl.
  - split; [inversion 1; subst; done|].
    intros [Hl _]. destruct s; simpl in Hl; [constructor | lia].
  - split.
    + inversion 1 as [| | | ? ? ? Hl | ? ? ? Hr | |]; subst.
      * inversion Hl; subst. split; [simpl; lia | done].
      * apply lang_cat_cls_inv in Hr as (a & s' & -> & Ha & Hs').
        apply IH in Hs' as [H1 H2]. unfold all_cls in *. simpl.
        rewrite Ha. split; [lia | done].
    + intros [Hl Ha]. destruct s as [|a s]; [eauto with panel|].
      unfold all_cls in *. simpl in *. breflect.
      apply lang_alt_r, lang_cat_cls; [done|]. apply IH. split; [lia | done].
Qed.

Lemma lang_cat_eps r s : lang (Cat Eps r) s <-> lang r s.
Proof.
  split.
  - inversion 1 as [| |? ? s1 s2 H1 H2| | | |]; subst. inversion H1; subst. done.
  - intros H. change s with ("" +:+ s). eauto with panel.
Qed.

Lemma lang_cat_assoc r1 r2 r3 s :
  lang (Cat (Cat r1 r2) r3) s <-> lang (Cat r1 (Cat r2 r3)) s.
Proof.
  split; inversion 1 as [| |? ? s1 s2 H1 H2| | | |]; subst.
  - inversion H1; subst. rewrite str_app_assoc. eauto with panel.
  - inversion H2; subst. rewrite <- str_app_assoc. eauto with panel.
Qed.

Lemma lang_rep_cls_cat rs n r s :
  lang (Cat (rep n (Cls rs)) r) s <->
  exists s1 s2, s = s1 +:+ s2 /\ String.length s1 = n /\ all_cls rs s1 = true /\ lang r s2.
Proof.
  revert s. induction n as [|n IH]; intros s; simpl.
  - rewrite lang_cat_eps. split.
    + intros H. by exists "", s.
    + intros (s1 & s2 & -> & Hl & _ & H). destruct s1; done.
  - rewrite lang_cat_assoc. split.
    + intros H. apply lang_cat_cls_inv in H as (a & s' & -> & Ha & H).
      apply IH in H as (s1 & s2 & -> & Hl & Hc & H).
      exists (String a s1), s2. unfold all_cls in *. simpl. rewrite Ha, Hl. done.
    + intros (s1 & s2 & -> & Hl & Hc & H).
      destruct s1 as [|a s1]; [done|]. unfold all_cls in *. simpl in *. breflect.
      apply lang_cat_cls; [done|]. apply IH. exists s1, s2.
      split_and!; [done | lia | done | done].
Qed.

Lemma str_take_drop (k : nat) (t : string) : (k <= String.length t)%nat ->
  t = str_take k t +:+ str_drop k t /\ String.length (str_take k t) = k.
Proof.
  revert t. induction k as [|k IH]; intros [|a t] Hk; simpl in *; try (done || lia).
  destruct (IH t) as [H1 H2]; [lia|]. rewrite str_app_cons, <- H1, H2. done.
Qed.

(** A repeated character class bounds the length and constrains every byte. *)
Lemma match_rep_range_cls rs n m s : (n <= m)%nat ->
  MatchString (rep_range n m (Cls rs)) s = true <->
  (n <= String.length s <= m)%nat /\ all_cls rs s = true.
Proof.
  intros Hnm. rewrite MatchString_lang. unfold rep_range.
  rewrite lang_rep_cls_cat. setoid_rewrite lang_upto_cls. split.
  - intros (s1 & s2 & -> & Hl & Hc & Hl2 & Hc2).
    rewrite str_length_app. unfold all_cls in *.
    rewrite str_forallb_app, Hc, Hc2. split; [lia | done].
  - intros [Hl Hc]. exists (str_take n s), (str_drop n s).
    destruct (str_take_drop n s) as [H1 H2]; [lia|].
    unfold all_cls in *. rewrite H1 in Hc at 1. rewrite str_forallb_app in Hc. breflect.
    split_and!; try done.
    apply (f_equal String.length) in H1. rewrite str_length_app in H1. lia.
Qed.
