(* ===== verification/Cron.v ===== *)
(** * Cron expressions of the backup schedules

    Models [services/api/internal/services/cron.go]: the parser of one cron
    field, the day rule and the minute-by-minute search for the next run.
    Instants are nanoseconds since the Unix epoch; the civil fields of an
    instant come from the location of the time value. *)

From stdpp Require Import base numbers list strings option gmap sets.
From Stdlib Require Import Ascii.
From S2P Require Import Prelude GoStrings.

Local Open Scope Z_scope.

(** ** Civil time *)

Definition Minute : Z := 60 * 10 ^ 9.
Definition Hour : Z := 60 * Minute.

Record civil := mkCivil {
  c_month : Z; c_day : Z; c_weekday : Z; c_hour : Z; c_minute : Z
}.

(** A [time.Location]: the civil fields shown at an instant. *)
Class Location := civil_of : Z -> civil.

(** The proleptic Gregorian calendar in UTC. *)
Definition utc_civil (t : Z) : civil :=
  let secs := t / 10 ^ 9 in
  let days := secs / 86400 in
  let sod := secs mod 86400 in
  let z := days + 719468 in
  let era := z / 146097 in
  let doe := z mod 146097 in
  let yoe := (doe - doe / 1460 + doe / 36524 - doe / 146096) / 365 in
  let doy := doe - (365 * yoe + yoe / 4 - yoe / 100) in
  let mp := (5 * doy + 2) / 153 in
  mkCivil (if mp <? 10 then mp + 3 else mp - 9)
          (doy - (153 * mp + 2) / 5 + 1)
          ((days + 4) mod 7)
          (sod / 3600) (sod mod 3600 / 60).

Definition UTC : Location := utc_civil.

(** [t.Truncate(time.Minute)]. The zero time is a whole number of minutes
    before the Unix epoch. *)
Definition Truncate (t d : Z) : Z := t - t mod d.

(** ** Parsing *)

Inductive field_err :=
| BadStep (part : string)
| BadRange (part : string)
| BadValue (part : string)
| OutOfRange (part : string)
| FieldFuel.

Inductive cron_err :=
| WrongFieldCount (n : nat)
| BadField (which : string) (e : field_err)
| NoMatch
| CronFuel.

(** The step of one comma-separated part and what is left before the slash. *)
Definition parseStep (part : string) : res field_err (Z * string) :=
  match cut "/" part with
  | Some (rangePart, q) =>
    match Atoi q with
    | Some s => if s <? 1 then Err (BadStep part) else Ok (s, rangePart)
    | None => Err (BadStep part)
    end
  | None => Ok (1, part)
  end.

(** The bounds [lo, hi] of the rest. *)
Definition parseRange (rangePart : string) (min max : Z) : res field_err (Z * Z) :=
  if String.eqb rangePart "*" then Ok (min, max)
  else match cut "-" rangePart with
  | Some (p, q) =>
    match Atoi p, Atoi q with
    | Some a, Some b => Ok (a, b)
    | _, _ => Err (BadRange rangePart)
    end
  | None =>
    match Atoi rangePart with
    | Some v => Ok (v, v)
    | None => Err (BadValue rangePart)
    end
  end.

(** One part: step, bounds, and the range check. *)
Definition parsePart (part : string) (min max : Z) : res field_err (Z * Z * Z) :=
  match parseStep part with
  | Err e => Err e
  | Ok (step, rangePart) =>
    match parseRange rangePart min max with
    | Err e => Err e
    | Ok (lo, hi) =>
      if (lo <? min) || (max <? hi) || (hi <? lo) then Err (OutOfRange part)
      else Ok (lo, hi, step)
    end
  end.

(** [for v := lo; v <= hi; v += step { out[v] = true }] on 64-bit integers. *)
Fixpoint fillRange (fuel : nat) (v hi step : Z) (out : gset Z) : option (gset Z) :=
  match fuel with
  | O => None
  | S fuel' =>
    if v <=? hi
    then fillRange fuel' (int64_wrap (v + step)) hi step ({[v]} ∪ out)
    else Some out
  end.

(** Enough for every bound up to 59: see [fillRange_total]. *)
Definition fill_fuel : nat := 200.

Fixpoint parseParts (parts : list string) (min max : Z) (out : gset Z)
  : res field_err (gset Z) :=
  match parts with
  | [] => Ok out
  | part :: parts' =>
    match parsePart part min max with
    | Err e => Err e
    | Ok (lo, hi, step) =>
      match fillRange fill_fuel lo hi step out with
      | Some out' => parseParts parts' min max out'
      | None => Err FieldFuel
      end
    end
  end.

Definition parseCronField (field : string) (min max : Z) : res field_err (gset Z) :=
  parseParts (Split "," field) min max ∅.

(** The parsed expression. *)
Record cron_spec := mkCron {
  cs_minute : gset Z; cs_hour : gset Z; cs_dom : gset Z; cs_month : gset Z;
  cs_dow : gset Z; cs_domRestricted : bool; cs_dowRestricted : bool
}.

Definition in_field (which : string) (r : res field_err (gset Z)) : res cron_err (gset Z) :=
  match r with Ok x => Ok x | Err e => Err (BadField which e) end.

Definition parseCron (expr : string) : res cron_err cron_spec :=
  match Fields expr with
  | [f0; f1; f2; f3; f4] =>
    (minute <-? in_field "minute" (parseCronField f0 0 59) ;;
     hour <-? in_field "hour" (parseCronField f1 0 23) ;;
     dom <-? in_field "day-of-month" (parseCronField f2 1 31) ;;
     month <-? in_field "month" (parseCronField f3 1 12) ;;
     dow <-? in_field "day-of-week" (parseCronField f4 0 7) ;;
     Ok (mkCron minute hour dom month
           (if bool_decide (7 ∈ dow) then {[0]} ∪ dow else dow)
           (negb (String.eqb f2 "*")) (negb (String.eqb f4 "*"))))%res
  | fs => Err (WrongFieldCount (length fs))
  end.

(** ** Searching *)

Definition dayMatches (c : civil) (dom dow : gset Z)
    (domRestricted dowRestricted : bool) : bool :=
  let dMatch := bool_decide (c_day c ∈ dom) in
  let wMatch := bool_decide (c_weekday c ∈ dow) in
  if domRestricted && dowRestricted then dMatch || wMatch
  else if domRestricted then dMatch
  else if dowRestricted then wMatch
  else true.

Section search.
Context `{Location}.

Fixpoint searchCron (fuel : nat) (s : cron_spec) (t limit : Z) : res cron_err Z :=
  match fuel with
  | O => Err CronFuel
  | S fuel' =>
    if t <? limit then
      let c := civil_of t in
      if negb (bool_decide (c_month c ∈ cs_month s))
      then searchCron fuel' s (t + Minute) limit
      else if negb (dayMatches c (cs_dom s) (cs_dow s)
                      (cs_domRestricted s) (cs_dowRestricted s))
      then searchCron fuel' s (t + Minute) limit
      else if bool_decide (c_hour c ∈ cs_hour s) && bool_decide (c_minute c ∈ cs_minute s)
      then Ok t
      else searchCron fuel' s (t + Minute) limit
    else Err NoMatch
  end.

(** One step of fuel per minute of the 367-day window, plus the last test. *)
Definition search_fuel : nat := Z.to_nat (367 * 24 * 60 + 1).

Definition nextCronTime (expr : string) (after : Z) : res cron_err Z :=
  (s <-? parseCron expr ;;
   searchCron search_fuel s (Truncate after Minute + Minute)
     (after + 367 * 24 * Hour))%res.

End search.

(** ** What a field means *)

(** [v] is produced by a part with bounds [lo..hi] and step [step]. *)
Definition in_progression (lo hi step v : Z) : Prop :=
  exists k, 0 <= k /\ v = lo + k * step /\ v <= hi.

(** [v] is selected by some part of the field. *)
Definition field_selects (field : string) (min max v : Z) : Prop :=
  exists part lo hi step,
    part ∈ Split "," field /\ parsePart part min max = Ok (lo, hi, step)
    /\ in_progression lo hi step v.

(** Every step of the field leaves room for one more addition in an [int]. *)
Definition steps_fit (field : string) (min max : Z) : Prop :=
  forall part lo hi step,
    part ∈ Split "," field -> parsePart part min max = Ok (lo, hi, step) ->
    step <= int64_max - max.

(** The instants an expression selects. *)
Definition cron_matches `{Location} (s : cron_spec) (t : Z) : Prop :=
  let c := civil_of t in
  c_month c ∈ cs_month s
  /\ dayMatches c (cs_dom s) (cs_dow s) (cs_domRestricted s) (cs_dowRestricted s) = true
  /\ c_hour c ∈ cs_hour s /\ c_minute c ∈ cs_minute s.

(** ** Lemmas on the parser *)

Lemma parseStep_bounds part step rp :
  parseStep part = Ok (step, rp) -> 1 <= step <= int64_max.
Proof.
  unfold parseStep. intros H.
  destruct (cut "/" part) as [[rp' q]|]; [|simplify_eq; unfold int64_max; lia].
  destruct (Atoi q) as [s|] eqn:Ea; [|done]. apply Atoi_bounds in Ea.
  destruct (s <? 1) eqn:E; [done|]. breflect. simplify_eq. lia.
Qed.

Lemma parsePart_bounds part min max lo hi step :
  parsePart part min max = Ok (lo, hi, step) ->
  min <= lo <= hi /\ hi <= max /\ 1 <= step <= int64_max.
Proof.
  unfold parsePart. intros H.
  destruct (parseStep part) as [[st rp]|] eqn:Es; [|done].
  apply parseStep_bounds in Es.
  destruct (parseRange rp min max) as [[l h]|]; [|done].
  destruct (_ || _) eqn:E; [done|]. simplify_eq. breflect. lia.
Qed.

Lemma parsePart_no_fuel part min max : parsePart part min max <> Err FieldFuel.
Proof. unfold parsePart, parseStep, parseRange. case_ifs; congruence. Qed.

(** With room for one more addition the loop is the arithmetic progression. *)
Lemma fillRange_fits fuel v hi step out :
  0 <= v -> 1 <= step -> step <= int64_max - hi -> Z.of_nat fuel > hi - v + 1 ->
  (fuel > 0)%nat ->
  exists out', fillRange fuel v hi step out = Some out'
    /\ forall x, x ∈ out' <-> x ∈ out \/ in_progression v hi step x.
Proof.
  revert v out. induction fuel as [|fuel IH]; intros v out Hv Hs Hfit Hf Hp; [lia|].
  simpl. destruct (v <=? hi) eqn:E; breflect.
  - rewrite int64_wrap_id by (unfold int64_min, int64_max in *; lia).
    destruct (IH (v + step) ({[v]} ∪ out)) as (out' & He & Hx); [lia..|].
    exists out'. split; [done|]. intros x. rewrite Hx, elem_of_union, elem_of_singleton.
    split.
    + intros [[->|?]|(k & Hk & -> & Hle)]; [right|by left|right].
      * exists 0. lia.
      * exists (k + 1). lia.
    + intros [?|(k & Hk & -> & Hle)]; [tauto|].
      destruct (decide (k = 0)) as [->|]; [left; left; lia|].
      right. exists (k - 1). lia.
  - exists out. split; [done|]. intros x. split; [tauto|].
    intros [?|(k & Hk & -> & Hle)]; [done | nia].
Qed.

(** With a step so large that an addition can wrap around, the value strictly
    decreases every second round, so the loop still ends. *)
Lemma fillRange_wraps n v hi step out :
  0 <= v <= hi -> hi <= 59 -> int64_max - hi < step <= int64_max ->
  v < 2 * Z.of_nat n -> forall fuel, (fuel >= 2 * n + 3)%nat ->
  is_Some (fillRange fuel v hi step out).
Proof.
  revert v out. induction n as [|n IH]; intros v out Hv Hhi Hs Hn fuel Hfuel; [lia|].
  assert (Hexit : forall f w o, (f > 0)%nat -> hi < w -> is_Some (fillRange f w hi step o)).
  { intros [|f] w o Hf Hw; [lia|]. simpl. destruct (w <=? hi) eqn:E; [breflect; lia | eauto]. }
  assert (Hgo : forall f w o, w <= hi -> fillRange (S f) w hi step o
            = fillRange f (int64_wrap (w + step)) hi step ({[w]} ∪ o)).
  { intros f w o Hw. simpl. destruct (w <=? hi) eqn:E; [done | breflect; lia]. }
  unfold int64_max in *.
  destruct fuel as [|[|[|fuel]]]; [lia..|]. rewrite Hgo by lia.
  destruct (decide (v + step <= int64_max)) as [Hle|Hgt]; unfold int64_max in *.
  { rewrite int64_wrap_id by (unfold int64_min, int64_max; lia). apply Hexit; lia. }
  rewrite int64_wrap_overflow by (unfold int64_max; lia). rewrite Hgo by lia.
  rewrite int64_wrap_id by (unfold int64_min, int64_max; lia).
  destruct (decide (0 <= v + step - 2 ^ 64 + step)) as [Hpos|Hneg].
  - apply IH; lia.
  - rewrite Hgo by lia. rewrite int64_wrap_id by (unfold int64_min, int64_max; lia).
    apply Hexit; lia.
Qed.

Lemma fillRange_total v hi step out :
  0 <= v <= hi -> hi <= 59 -> 1 <= step <= int64_max ->
  is_Some (fillRange fill_fuel v hi step out).
Proof.
  intros Hv Hhi Hs.
  destruct (decide (step <= int64_max - hi)) as [Hfit|Hbig].
  - destruct (fillRange_fits fill_fuel v hi step out) as (o & Ho & _);
      unfold fill_fuel; [lia..|]. eauto.
  - apply (fillRange_wraps 60); unfold fill_fuel; lia.
Qed.

Lemma parseParts_total parts min max out :
  0 <= min -> max <= 59 -> parseParts parts min max out <> Err FieldFuel.
Proof.
  intros Hmin Hmax. revert out. induction parts as [|p parts IH]; intros out; cbn [parseParts]; [done|].
  destruct (parsePart p min max) as [[[lo hi] step]|e] eqn:E.
  - pose proof (parsePart_bounds _ _ _ _ _ _ E).
    destruct (fillRange_total lo hi step out) as [o ->]; [lia..|]. apply IH.
  - intros [= ->]. by apply parsePart_no_fuel in E.
Qed.

Lemma parseParts_spec parts min max out out' :
  0 <= min -> max <= 59 ->
  (forall part lo hi step, part ∈ parts -> parsePart part min max = Ok (lo, hi, step) ->
     step <= int64_max - max) ->
  parseParts parts min max out = Ok out' ->
  forall v, v ∈ out' <-> v ∈ out \/ exists part lo hi step,
    part ∈ parts /\ parsePart part min max = Ok (lo, hi, step)
    /\ in_progression lo hi step v.
Proof.
  intros Hmin Hmax. revert out.
  induction parts as [|p parts IH]; intros out Hfit H v; cbn [parseParts] in H.
  { simplify_eq. split; [by left|]. intros [?|(q & l & h & st & Hq & _)]; [done|].
    by apply not_elem_of_nil in Hq. }
  destruct (parsePart p min max) as [[[lo hi] step]|e] eqn:E; [|done].
  pose proof (parsePart_bounds _ _ _ _ _ _ E) as Hb.
  pose proof (Hfit p lo hi step ltac:(left) E) as Hstep.
  destruct (fillRange_fits fill_fuel lo hi step out) as (o & Ho & Hov);
    [unfold fill_fuel; lia..|].
  rewrite Ho in H.
  assert (Hfit' : forall q l h st, q ∈ parts -> parsePart q min max = Ok (l, h, st) ->
    st <= int64_max - max) by (intros; eapply Hfit; [by right | done]).
  rewrite (IH o Hfit' H v), Hov. setoid_rewrite elem_of_cons. split.
  - intros [[?|?]|(q & l & h & st & Hq & Hp & Hin)].
    + by left.
    + right. exists p, lo, hi, step. auto.
    + right. exists q, l, h, st. auto.
  - intros [?|(q & l & h & s & [->|Hq] & Hp & Hin)]; [by do 2 left | | right; eauto 10].
    left. right. rewrite E in Hp. by simplify_eq.
Qed.

(** ** Lemmas on the search *)

Section search_lemmas.
Context `{Location}.

Lemma cron_matches_dec s t :
  cron_matches s t <->
  bool_decide (c_month (civil_of t) ∈ cs_month s)
  && dayMatches (civil_of t) (cs_dom s) (cs_dow s) (cs_domRestricted s) (cs_dowRestricted s)
  && (bool_decide (c_hour (civil_of t) ∈ cs_hour s)
      && bool_decide (c_minute (civil_of t) ∈ cs_minute s)) = true.
Proof.
  unfold cron_matches. rewrite !andb_true_iff, !bool_decide_eq_true. tauto.
Qed.

(** One iteration: return on a match, else go to the next minute. *)
Lemma searchCron_step fuel s t limit :
  (cron_matches s t /\ t < limit /\ searchCron (S fuel) s t limit = Ok t)
  \/ (~ cron_matches s t /\ t < limit
      /\ searchCron (S fuel) s t limit = searchCron fuel s (t + Minute) limit)
  \/ (limit <= t /\ searchCron (S fuel) s t limit = Err NoMatch).
Proof.
  rewrite cron_matches_dec. simpl.
  destruct (t <? limit) eqn:El; breflect; [|by right; right].
  destruct (bool_decide (c_month _ ∈ _)); simpl; [|by right; left].
  destruct (dayMatches _ _ _ _ _); simpl; [|by right; left].
  destruct (_ && _); [by left | by right; left].
Qed.

Lemma searchCron_spec fuel s t limit :
  limit - t <= (Z.of_nat fuel - 1) * Minute -> (fuel > 0)%nat ->
  match searchCron fuel s t limit with
  | Ok u => exists k, 0 <= k /\ u = t + k * Minute /\ u < limit /\ cron_matches s u
              /\ forall j, 0 <= j < k -> ~ cron_matches s (t + j * Minute)
  | Err e => e = NoMatch
              /\ forall j, 0 <= j -> t + j * Minute < limit -> ~ cron_matches s (t + j * Minute)
  end.
Proof.
  revert t. induction fuel as [|fuel IH]; intros t Hf Hpos; [lia|].
  destruct (searchCron_step fuel s t limit)
    as [(Hm & Hl & ->)|[(Hn & Hl & ->)|(Hl & ->)]].
  - exists 0. rewrite Z.add_0_r. split_and!; try done; lia.
  - assert (Hnext : forall j, t + Minute + j * Minute = t + (j + 1) * Minute) by lia.
    assert (Hfuel : (fuel > 0)%nat) by (unfold Minute in *; lia).
    specialize (IH (t + Minute) ltac:(unfold Minute in *; lia) Hfuel).
    destruct (searchCron fuel s (t + Minute) limit) as [u|e].
    + destruct IH as (k & Hk & -> & Hu & Hm & Hmin). exists (k + 1).
      rewrite Hnext in *. split_and!; try done; [lia|].
      intros j Hj. destruct (decide (j = 0)) as [->|]; [by rewrite Z.add_0_r|].
      specialize (Hmin (j - 1)). rewrite Hnext in Hmin.
      replace (j - 1 + 1) with j in Hmin by lia. apply Hmin. lia.
    + destruct IH as [-> Hno]. split; [done|]. intros j Hj Hlt.
      destruct (decide (j = 0)) as [->|]; [by rewrite Z.add_0_r|].
      specialize (Hno (j - 1)). rewrite Hnext in Hno.
      replace (j - 1 + 1) with j in Hno by lia. apply Hno; [lia | done].
  - split; [done|]. intros j Hj Hlt. unfold Minute in *. lia.
Qed.

Lemma searchCron_none fuel s t limit :
  limit - t <= (Z.of_nat fuel - 1) * Minute -> (fuel > 0)%nat ->
  (forall u, t <= u -> u < limit -> ~ cron_matches s u) ->
  searchCron fuel s t limit = Err NoMatch.
Proof.
  intros Hf Hp Hno. pose proof (searchCron_spec fuel s t limit Hf Hp) as Hs.
  destruct (searchCron fuel s t limit) as [u|e]; [|by destruct Hs as [-> _]].
  destruct Hs as (k & Hk & -> & Hlt & Hm & _). exfalso.
  eapply Hno; [| |exact Hm]; unfold Minute in *; lia.
Qed.

(** A whole minute after [after] is a step of the search. *)
Lemma minute_index (after t : Z) :
  t mod Minute = 0 -> after < t ->
  exists k, 0 <= k /\ t = Truncate after Minute + Minute + k * Minute.
Proof.
  intros Hm Hlt. unfold Truncate. exists (t / Minute - after / Minute - 1).
  pose proof (Z.div_mod t Minute ltac:(done)).
  pose proof (Z.div_mod after Minute ltac:(done)).
  pose proof (Z.mod_pos_bound after Minute ltac:(done)).
  unfold Minute in *. lia.
Qed.

Lemma first_minute (after k : Z) :
  0 <= k ->
  let t := Truncate after Minute + Minute + k * Minute in
  t mod Minute = 0 /\ after < t.
Proof.
  intros Hk t. unfold t, Truncate.
  pose proof (Z.div_mod after Minute ltac:(done)).
  pose proof (Z.mod_pos_bound after Minute ltac:(done)). split.
  - replace (after - after mod Minute + Minute + k * Minute)
      with ((after / Minute + 1 + k) * Minute) by lia.
    by apply Z.mod_mul.
  - unfold Minute in *. lia.
Qed.
End search_lemmas.

(** The window of the search fits its fuel. *)
Lemma search_window (after : Z) :
  after + 367 * 24 * Hour - (Truncate after Minute + Minute) <= (Z.of_nat search_fuel - 1) * Minute
  /\ (search_fuel > 0)%nat.
Proof.
  split; [|unfold search_fuel; lia]. unfold search_fuel, Truncate, Hour. rewrite Z2Nat.id by lia.
  pose proof (Z.mod_pos_bound after Minute ltac:(done)). unfold Minute in *. lia.
Qed.

(** A run that is found lies ahead. *)
Lemma nextCronTime_after `{Location} (expr : string) (after t : Z) :
  nextCronTime expr after = Ok t -> after < t.
Proof.
  unfold nextCronTime. intros (s & _ & H1)%res_bind_ok. destruct (search_window after) as [Hf Hp].
  pose proof (searchCron_spec _ s _ _ Hf Hp) as Hs. rewrite H1 in Hs.
  destruct Hs as (k & Hk & -> & _). by apply first_minute.
Qed.

(** ** Theorems *)

(** C13. The search is exact: when the expression parses, [nextCronTime]
    returns the least whole minute strictly after [after] that the expression
    selects within 367 days, and reports [NoMatch] exactly when there is none;
    when the expression does not parse, its error is the parser's.  In
    particular the loop always ends. *)
Theorem nextCronTime_least `{Location} (expr : string) (after : Z) :
  match parseCron expr with
  | Err e => nextCronTime expr after = Err e
  | Ok s =>
    match nextCronTime expr after with
    | Ok t => t mod Minute = 0 /\ after < t < after + 367 * 24 * Hour /\ cron_matches s t
        /\ forall u, u mod Minute = 0 -> after < u < t -> ~ cron_matches s u
    | Err e => e = NoMatch
        /\ forall u, u mod Minute = 0 -> after < u < after + 367 * 24 * Hour ->
             ~ cron_matches s u
    end
  end.
Proof.
  unfold nextCronTime. destruct (parseCron expr) as [s|e]; cbn [res_bind]; [|done].
  destruct (search_window after) as [Hf Hp].
  pose proof (searchCron_spec _ s _ _ Hf Hp) as Hs.
  destruct (searchCron search_fuel s _ _) as [t|e].
  - destruct Hs as (k & Hk & -> & Hlt & Hm & Hmin).
    destruct (first_minute after k Hk) as [H1 H2]. split_and!; try done.
    intros u Hu Hlu. destruct (minute_index after u Hu) as (j & Hj & ->); [lia|].
    apply Hmin. unfold Minute in *. lia.
  - destruct Hs as [-> Hno]. split; [done|]. intros u Hu [Hlu Hul].
    destruct (minute_index after u Hu Hlu) as (j & Hj & ->). by apply Hno.
Qed.

(** A field parser that never gives up: on the bounds the cron parser uses
    the fill loop ends within its fuel even when a huge step makes the 64-bit
    addition wrap around, and when the steps leave room for the addition the
    resulting set is exactly what the comma-separated parts select, all of it
    between [min] and [max]. *)
Theorem parseCronField_exact (field : string) (min max : Z) :
  0 <= min -> max <= 59 ->
  parseCronField field min max <> Err FieldFuel
  /\ forall out, parseCronField field min max = Ok out -> steps_fit field min max ->
     forall v, (v ∈ out <-> field_selects field min max v) /\ (v ∈ out -> min <= v <= max).
Proof.
  intros Hmin Hmax. unfold parseCronField. split; [by apply parseParts_total|].
  intros out H Hfit v.
  assert (Hv : v ∈ out <-> field_selects field min max v).
  { rewrite (parseParts_spec _ _ _ _ _ Hmin Hmax Hfit H). unfold field_selects.
    split; [intros [Hn|]; [by apply elem_of_empty in Hn | done] | by right]. }
  split; [done|]. rewrite Hv. intros (part & lo & hi & step & _ & Hp & k & Hk & -> & Hle).
  apply parsePart_bounds in Hp. nia.
Qed.

Lemma parseCronField_exact_witness :
  parseCronField "*/15,7" 0 59 <> Err FieldFuel
  /\ forall out, parseCronField "*/15,7" 0 59 = Ok out -> steps_fit "*/15,7" 0 59 ->
     forall v, (v ∈ out <-> field_selects "*/15,7" 0 59 v) /\ (v ∈ out -> 0 <= v <= 59).
Proof. apply (parseCronField_exact "*/15,7" 0 59); [lia | lia]. Defined.

(** A step near the largest 64-bit integer puts values outside
    [[min,max]] into the set of a minute field. *)
Theorem parseCronField_step_overflow :
  match parseCronField "1-5/9223372036854775807" 0 59 with
  | Ok out => -1 ∈ out /\ 1 ∈ out
  | Err _ => False
  end.
Proof. vm_compute. split; reflexivity. Qed.

(** *** Leap days *)

Definition Day : Z := 24 * Hour.

(** The date of an instant depends on its day only. *)
Lemma utc_civil_day (t u : Z) :
  t / Day = u / Day ->
  c_month (utc_civil t) = c_month (utc_civil u) /\ c_day (utc_civil t) = c_day (utc_civil u).
Proof.
  intros H. assert (Hd : forall x, x / 10 ^ 9 / 86400 = x / Day).
  { intros x. rewrite Z.div_div by lia. done. }
  unfold utc_civil. cbn [c_month c_day]. rewrite !Hd, H. done.
Qed.

(** No day of the [n] days from day [d] on is a 29th of February. *)
Fixpoint no_leap_day (n : nat) (d : Z) : bool :=
  match n with
  | O => true
  | S n' => let c := utc_civil (d * Day) in
            negb ((c_month c =? 2) && (c_day c =? 29)) && no_leap_day n' (d + 1)
  end.

Lemma no_leap_day_sound n d t :
  no_leap_day n d = true -> d <= t / Day < d + Z.of_nat n ->
  ~ (c_month (utc_civil t) = 2 /\ c_day (utc_civil t) = 29).
Proof.
  revert d. induction n as [|n IH]; intros d H Ht; [lia|].
  cbn [no_leap_day] in H. apply andb_true_iff in H as [H1 H2].
  destruct (decide (t / Day = d)) as [Heq|].
  - destruct (utc_civil_day t (d * Day)) as [-> ->].
    { rewrite Heq, Z.div_mul; done. }
    intros [Hm Hd]. rewrite Hm, Hd in H1. done.
  - apply (IH (d + 1)); [done | lia].
Qed.

(** 2026-03-01 and 2028-02-29, both at midnight UTC. *)
Definition mar_2026 : Z := 20513 * Day.
Definition feb29_2028 : Z := 21243 * Day.

Lemma leap_spec : exists s, parseCron "0 0 29 2 *" = Ok s
  /\ cs_month s = {[2]} /\ cs_dom s = {[29]}
  /\ cs_domRestricted s = true /\ cs_dowRestricted s = false
  /\ @cron_matches UTC s feb29_2028.
Proof.
  destruct (parseCron "0 0 29 2 *") as [s|] eqn:Es; vm_compute in Es; [|done].
  injection Es as <-. eexists. split; [done|]. split_and!; try reflexivity.
  by apply (@cron_matches_dec UTC).
Qed.

(** A schedule for the 29th of February is refused, or disabled after its
    first run, although it does select instants: the search window of 367
    days is shorter than the gap between leap days. *)
Theorem nextCronTime_leap_day :
  @nextCronTime UTC "0 0 29 2 *" mar_2026 = Err NoMatch
  /\ mar_2026 < feb29_2028
  /\ exists s, parseCron "0 0 29 2 *" = Ok s /\ @cron_matches UTC s feb29_2028.
Proof.
  destruct leap_spec as (s & Es & Hs1 & Hs2 & Hs3 & Hs4 & Hm).
  split_and!; [|done|by exists s].
  unfold nextCronTime. rewrite Es. cbn [res_bind].
  apply searchCron_none.
  { unfold search_fuel, mar_2026, Truncate. rewrite Z2Nat.id by lia. vm_compute. discriminate. }
  { unfold search_fuel. lia. }
  intros t Hlo Hhi (Hmonth & Hday & _).
  unfold dayMatches in Hday. rewrite Hs2, Hs3, Hs4 in Hday. simpl in Hday.
  rewrite Hs1 in Hmonth. apply bool_decide_eq_true, elem_of_singleton in Hday.
  apply elem_of_singleton in Hmonth.
  apply (no_leap_day_sound 368 20513 t); [by vm_compute | | done].
  assert (Ht : Truncate mar_2026 Minute = mar_2026) by (vm_compute; done).
  rewrite Ht in Hlo. unfold mar_2026 in *. split.
  - apply Z.div_le_lower_bound; [done|]. unfold Day, Hour, Minute in *. lia.
  - apply Z.div_lt_upper_bound; [done|]. unfold Day, Hour, Minute in *. lia.
Qed.
