(* ===== verification/Store.v ===== *)
(** * The store: rows, tables, and the effects of a service call

    The rows of [services/api/internal/models/models.go] and the tables of
    [services/api/migrations] that the services read and write, and the small
    monad in which a service method is modelled.

    A world holds the database, the Redis keys, the clock, the source of
    random values and an oracle of database faults.  Every database call
    first asks the oracle whether the connection fails, so the error branches
    of the code, and the errors it ignores, are part of the model.  A method
    is a function from worlds to a result and a new world. *)

From Stdlib Require Import Sorting.Sorted.
From stdpp Require Import base numbers list strings option gmap sets.
From Stdlib Require Import QArith_base.
From S2P Require Import Prelude GoStrings.

Local Open Scope Z_scope.

(** A [uuid.UUID] is its 128-bit number; [uuid.Nil] is 0. *)
Abbreviation uuid := N.
Definition uuid_Nil : uuid := 0%N.

(** ** Errors

    A sentinel is [ErrNew] of its text; [fmt.Errorf("...: %w", e)] is [ErrWrap]
    and [fmt.Errorf("%w: ...", e)] is [ErrDetail]. *)
Inductive error :=
| ErrNoRows
| ErrDriver
| ErrConstraint (name : string)
| ErrNew (msg : string)
| ErrWrap (msg : string) (e : error)
| ErrDetail (e : error) (msg : string).

#[export] Instance error_eq_dec : EqDecision error.
Proof. solve_decision. Defined.

(** [errors.Is]. *)
Fixpoint error_Is (e target : error) : bool :=
  bool_decide (e = target) ||
  match e with
  | ErrWrap _ e' | ErrDetail e' _ => error_Is e' target
  | _ => false
  end.

(** ** Rows and tables *)

(** models.User: a row of users; an empty TOTPSecret is SQL NULL. *)
Record User := mkUser {
  user_ID : uuid;
  user_Email : string;
  user_Username : string;
  user_PasswordHash : string;
  user_Role : string;
  user_TOTPSecret : string;
  user_TOTPEnabled : bool;
  user_CreatedAt : Z;
  user_LastLoginAt : option Z;
  user_IsActive : bool;
  user_DisplayName : option string;
  user_AvatarURL : option string;
  user_Language : string;
  user_Timezone : string
}.

Definition user_with_Timezone (v : string) (r : User) : User :=
    mkUser (user_ID r) (user_Email r) (user_Username r) (user_PasswordHash r) (user_Role r)
    (user_TOTPSecret r) (user_TOTPEnabled r) (user_CreatedAt r) (user_LastLoginAt r)
    (user_IsActive r) (user_DisplayName r) (user_AvatarURL r) (user_Language r) v.
Definition user_with_Language (v : string) (r : User) : User :=
    mkUser (user_ID r) (user_Email r) (user_Username r) (user_PasswordHash r) (user_Role r)
    (user_TOTPSecret r) (user_TOTPEnabled r) (user_CreatedAt r) (user_LastLoginAt r)
    (user_IsActive r) (user_DisplayName r) (user_AvatarURL r) v (user_Timezone r).
Definition user_with_AvatarURL (v : option string) (r : User) : User :=
    mkUser (user_ID r) (user_Email r) (user_Username r) (user_PasswordHash r) (user_Role r)
    (user_TOTPSecret r) (user_TOTPEnabled r) (user_CreatedAt r) (user_LastLoginAt r)
    (user_IsActive r) (user_DisplayName r) v (user_Language r) (user_Timezone r).
Definition user_with_DisplayName (v : option string) (r : User) : User :=
    mkUser (user_ID r) (user_Email r) (user_Username r) (user_PasswordHash r) (user_Role r)
    (user_TOTPSecret r) (user_TOTPEnabled r) (user_CreatedAt r) (user_LastLoginAt r)
    (user_IsActive r) v (user_AvatarURL r) (user_Language r) (user_Timezone r).
Definition user_with_PasswordHash (v : string) (r : User) : User :=
    mkUser (user_ID r) (user_Email r) (user_Username r) v (user_Role r) (user_TOTPSecret r)
    (user_TOTPEnabled r) (user_CreatedAt r) (user_LastLoginAt r) (user_IsActive r)
    (user_DisplayName r) (user_AvatarURL r) (user_Language r) (user_Timezone r).
Definition user_with_Role (v : string) (r : User) : User :=
    mkUser (user_ID r) (user_Email r) (user_Username r) (user_PasswordHash r) v
    (user_TOTPSecret r) (user_TOTPEnabled r) (user_CreatedAt r) (user_LastLoginAt r)
    (user_IsActive r) (user_DisplayName r) (user_AvatarURL r) (user_Language r)
    (user_Timezone r).
Definition user_with_TOTPSecret (v : string) (r : User) : User :=
    mkUser (user_ID r) (user_Email r) (user_Username r) (user_PasswordHash r) (user_Role r)
    v (user_TOTPEnabled r) (user_CreatedAt r) (user_LastLoginAt r) (user_IsActive r)
    (user_DisplayName r) (user_AvatarURL r) (user_Language r) (user_Timezone r).
Definition user_with_TOTPEnabled (v : bool) (r : User) : User :=
    mkUser (user_ID r) (user_Email r) (user_Username r) (user_PasswordHash r) (user_Role r)
    (user_TOTPSecret r) v (user_CreatedAt r) (user_LastLoginAt r) (user_IsActive r)
    (user_DisplayName r) (user_AvatarURL r) (user_Language r) (user_Timezone r).
Definition user_with_LastLoginAt (v : option Z) (r : User) : User :=
    mkUser (user_ID r) (user_Email r) (user_Username r) (user_PasswordHash r) (user_Role r)
    (user_TOTPSecret r) (user_TOTPEnabled r) (user_CreatedAt r) v (user_IsActive r)
    (user_DisplayName r) (user_AvatarURL r) (user_Language r) (user_Timezone r).
Definition user_with_IsActive (v : bool) (r : User) : User :=
    mkUser (user_ID r) (user_Email r) (user_Username r) (user_PasswordHash r) (user_Role r)
    (user_TOTPSecret r) (user_TOTPEnabled r) (user_CreatedAt r) (user_LastLoginAt r) v
    (user_DisplayName r) (user_AvatarURL r) (user_Language r) (user_Timezone r).

(** models.Session: a refresh-token session. *)
Record Session := mkSession {
  session_ID : uuid;
  session_UserID : uuid;
  session_TokenHash : string;
  session_IPAddress : string;
  session_UserAgent : string;
  session_CreatedAt : Z;
  session_ExpiresAt : Z;
  session_Revoked : bool
}.

Definition session_with_Revoked (v : bool) (r : Session) : Session :=
    mkSession (session_ID r) (session_UserID r) (session_TokenHash r) (session_IPAddress r)
    (session_UserAgent r) (session_CreatedAt r) (session_ExpiresAt r) v.

(** models.Node: a row of nodes, with the token hash the model leaves out of its JSON. *)
Record Node := mkNode {
  node_ID : uuid;
  node_Name : string;
  node_FQDN : string;
  node_PublicAddress : option string;
  node_Port : Z;
  node_Location : option string;
  node_CertThumbprint : option string;
  node_TotalCPU : Z;
  node_TotalRAMMB : Z;
  node_TotalDiskMB : Z;
  node_MaxServers : Z;
  node_Status : string;
  node_LastHeartbeat : option Z;
  node_CreatedAt : Z;
  node_Metadata : string;
  node_MTLSEnabled : bool;
  node_CertSerial : option string;
  node_CertNotAfter : option Z;
  node_TokenHash : string
}.

Definition node_with_FQDN (v : string) (r : Node) : Node :=
    mkNode (node_ID r) (node_Name r) v (node_PublicAddress r) (node_Port r) (node_Location
    r) (node_CertThumbprint r) (node_TotalCPU r) (node_TotalRAMMB r) (node_TotalDiskMB r)
    (node_MaxServers r) (node_Status r) (node_LastHeartbeat r) (node_CreatedAt r)
    (node_Metadata r) (node_MTLSEnabled r) (node_CertSerial r) (node_CertNotAfter r)
    (node_TokenHash r).
Definition node_with_TokenHash (v : string) (r : Node) : Node :=
    mkNode (node_ID r) (node_Name r) (node_FQDN r) (node_PublicAddress r) (node_Port r)
    (node_Location r) (node_CertThumbprint r) (node_TotalCPU r) (node_TotalRAMMB r)
    (node_TotalDiskMB r) (node_MaxServers r) (node_Status r) (node_LastHeartbeat r)
    (node_CreatedAt r) (node_Metadata r) (node_MTLSEnabled r) (node_CertSerial r)
    (node_CertNotAfter r) v.
Definition node_with_CertSerial (v : option string) (r : Node) : Node :=
    mkNode (node_ID r) (node_Name r) (node_FQDN r) (node_PublicAddress r) (node_Port r)
    (node_Location r) (node_CertThumbprint r) (node_TotalCPU r) (node_TotalRAMMB r)
    (node_TotalDiskMB r) (node_MaxServers r) (node_Status r) (node_LastHeartbeat r)
    (node_CreatedAt r) (node_Metadata r) (node_MTLSEnabled r) v (node_CertNotAfter r)
    (node_TokenHash r).
Definition node_with_Name (v : string) (r : Node) : Node :=
    mkNode (node_ID r) v (node_FQDN r) (node_PublicAddress r) (node_Port r) (node_Location
    r) (node_CertThumbprint r) (node_TotalCPU r) (node_TotalRAMMB r) (node_TotalDiskMB r)
    (node_MaxServers r) (node_Status r) (node_LastHeartbeat r) (node_CreatedAt r)
    (node_Metadata r) (node_MTLSEnabled r) (node_CertSerial r) (node_CertNotAfter r)
    (node_TokenHash r).
Definition node_with_PublicAddress (v : option string) (r : Node) : Node :=
    mkNode (node_ID r) (node_Name r) (node_FQDN r) v (node_Port r) (node_Location r)
    (node_CertThumbprint r) (node_TotalCPU r) (node_TotalRAMMB r) (node_TotalDiskMB r)
    (node_MaxServers r) (node_Status r) (node_LastHeartbeat r) (node_CreatedAt r)
    (node_Metadata r) (node_MTLSEnabled r) (node_CertSerial r) (node_CertNotAfter r)
    (node_TokenHash r).
Definition node_with_Location (v : option string) (r : Node) : Node :=
    mkNode (node_ID r) (node_Name r) (node_FQDN r) (node_PublicAddress r) (node_Port r) v
    (node_CertThumbprint r) (node_TotalCPU r) (node_TotalRAMMB r) (node_TotalDiskMB r)
    (node_MaxServers r) (node_Status r) (node_LastHeartbeat r) (node_CreatedAt r)
    (node_Metadata r) (node_MTLSEnabled r) (node_CertSerial r) (node_CertNotAfter r)
    (node_TokenHash r).
Definition node_with_TotalCPU (v : Z) (r : Node) : Node :=
    mkNode (node_ID r) (node_Name r) (node_FQDN r) (node_PublicAddress r) (node_Port r)
    (node_Location r) (node_CertThumbprint r) v (node_TotalRAMMB r) (node_TotalDiskMB r)
    (node_MaxServers r) (node_Status r) (node_LastHeartbeat r) (node_CreatedAt r)
    (node_Metadata r) (node_MTLSEnabled r) (node_CertSerial r) (node_CertNotAfter r)
    (node_TokenHash r).
Definition node_with_TotalRAMMB (v : Z) (r : Node) : Node :=
    mkNode (node_ID r) (node_Name r) (node_FQDN r) (node_PublicAddress r) (node_Port r)
    (node_Location r) (node_CertThumbprint r) (node_TotalCPU r) v (node_TotalDiskMB r)
    (node_MaxServers r) (node_Status r) (node_LastHeartbeat r) (node_CreatedAt r)
    (node_Metadata r) (node_MTLSEnabled r) (node_CertSerial r) (node_CertNotAfter r)
    (node_TokenHash r).
Definition node_with_TotalDiskMB (v : Z) (r : Node) : Node :=
    mkNode (node_ID r) (node_Name r) (node_FQDN r) (node_PublicAddress r) (node_Port r)
    (node_Location r) (node_CertThumbprint r) (node_TotalCPU r) (node_TotalRAMMB r) v
    (node_MaxServers r) (node_Status r) (node_LastHeartbeat r) (node_CreatedAt r)
    (node_Metadata r) (node_MTLSEnabled r) (node_CertSerial r) (node_CertNotAfter r)
    (node_TokenHash r).
Definition node_with_MaxServers (v : Z) (r : Node) : Node :=
    mkNode (node_ID r) (node_Name r) (node_FQDN r) (node_PublicAddress r) (node_Port r)
    (node_Location r) (node_CertThumbprint r) (node_TotalCPU r) (node_TotalRAMMB r)
    (node_TotalDiskMB r) v (node_Status r) (node_LastHeartbeat r) (node_CreatedAt r)
    (node_Metadata r) (node_MTLSEnabled r) (node_CertSerial r) (node_CertNotAfter r)
    (node_TokenHash r).
Definition node_with_Status (v : string) (r : Node) : Node :=
    mkNode (node_ID r) (node_Name r) (node_FQDN r) (node_PublicAddress r) (node_Port r)
    (node_Location r) (node_CertThumbprint r) (node_TotalCPU r) (node_TotalRAMMB r)
    (node_TotalDiskMB r) (node_MaxServers r) v (node_LastHeartbeat r) (node_CreatedAt r)
    (node_Metadata r) (node_MTLSEnabled r) (node_CertSerial r) (node_CertNotAfter r)
    (node_TokenHash r).
Definition node_with_LastHeartbeat (v : option Z) (r : Node) : Node :=
    mkNode (node_ID r) (node_Name r) (node_FQDN r) (node_PublicAddress r) (node_Port r)
    (node_Location r) (node_CertThumbprint r) (node_TotalCPU r) (node_TotalRAMMB r)
    (node_TotalDiskMB r) (node_MaxServers r) (node_Status r) v (node_CreatedAt r)
    (node_Metadata r) (node_MTLSEnabled r) (node_CertSerial r) (node_CertNotAfter r)
    (node_TokenHash r).
Definition node_with_MTLSEnabled (v : bool) (r : Node) : Node :=
    mkNode (node_ID r) (node_Name r) (node_FQDN r) (node_PublicAddress r) (node_Port r)
    (node_Location r) (node_CertThumbprint r) (node_TotalCPU r) (node_TotalRAMMB r)
    (node_TotalDiskMB r) (node_MaxServers r) (node_Status r) (node_LastHeartbeat r)
    (node_CreatedAt r) (node_Metadata r) v (node_CertSerial r) (node_CertNotAfter r)
    (node_TokenHash r).
Definition node_with_CertNotAfter (v : option Z) (r : Node) : Node :=
    mkNode (node_ID r) (node_Name r) (node_FQDN r) (node_PublicAddress r) (node_Port r)
    (node_Location r) (node_CertThumbprint r) (node_TotalCPU r) (node_TotalRAMMB r)
    (node_TotalDiskMB r) (node_MaxServers r) (node_Status r) (node_LastHeartbeat r)
    (node_CreatedAt r) (node_Metadata r) (node_MTLSEnabled r) (node_CertSerial r) v
    (node_TokenHash r).

(** models.Server: a row of servers; NodeFQDN is filled by the join in GetServer. *)
Record Server := mkServer {
  server_ID : uuid;
  server_Name : string;
  server_NodeID : uuid;
  server_OwnerID : uuid;
  server_Status : string;
  server_HytaleVersion : string;
  server_CPULimit : Z;
  server_RAMLimitMB : Z;
  server_DiskLimitMB : Z;
  server_Port : Z;
  server_DataPath : string;
  server_AutoRestart : bool;
  server_CrashLimit : Z;
  server_CrashWindowS : Z;
  server_ActiveWorld : string;
  server_CreatedAt : Z;
  server_UpdatedAt : Z;
  server_Metadata : string;
  server_NodeFQDN : string;
  server_LaunchFlags : list string;
  server_UseHytaleAccount : bool;
  server_LastExitCode : option Z;
  server_NetworkRole : option string;
  server_RequireReferral : bool
}.

Definition server_with_Name (v : string) (r : Server) : Server :=
    mkServer (server_ID r) v (server_NodeID r) (server_OwnerID r) (server_Status r)
    (server_HytaleVersion r) (server_CPULimit r) (server_RAMLimitMB r) (server_DiskLimitMB
    r) (server_Port r) (server_DataPath r) (server_AutoRestart r) (server_CrashLimit r)
    (server_CrashWindowS r) (server_ActiveWorld r) (server_CreatedAt r) (server_UpdatedAt r)
    (server_Metadata r) (server_NodeFQDN r) (server_LaunchFlags r) (server_UseHytaleAccount
    r) (server_LastExitCode r) (server_NetworkRole r) (server_RequireReferral r).
Definition server_with_NodeID (v : uuid) (r : Server) : Server :=
    mkServer (server_ID r) (server_Name r) v (server_OwnerID r) (server_Status r)
    (server_HytaleVersion r) (server_CPULimit r) (server_RAMLimitMB r) (server_DiskLimitMB
    r) (server_Port r) (server_DataPath r) (server_AutoRestart r) (server_CrashLimit r)
    (server_CrashWindowS r) (server_ActiveWorld r) (server_CreatedAt r) (server_UpdatedAt r)
    (server_Metadata r) (server_NodeFQDN r) (server_LaunchFlags r) (server_UseHytaleAccount
    r) (server_LastExitCode r) (server_NetworkRole r) (server_RequireReferral r).
Definition server_with_Status (v : string) (r : Server) : Server :=
    mkServer (server_ID r) (server_Name r) (server_NodeID r) (server_OwnerID r) v
    (server_HytaleVersion r) (server_CPULimit r) (server_RAMLimitMB r) (server_DiskLimitMB
    r) (server_Port r) (server_DataPath r) (server_AutoRestart r) (server_CrashLimit r)
    (server_CrashWindowS r) (server_ActiveWorld r) (server_CreatedAt r) (server_UpdatedAt r)
    (server_Metadata r) (server_NodeFQDN r) (server_LaunchFlags r) (server_UseHytaleAccount
    r) (server_LastExitCode r) (server_NetworkRole r) (server_RequireReferral r).
Definition server_with_RAMLimitMB (v : Z) (r : Server) : Server :=
    mkServer (server_ID r) (server_Name r) (server_NodeID r) (server_OwnerID r)
    (server_Status r) (server_HytaleVersion r) (server_CPULimit r) v (server_DiskLimitMB r)
    (server_Port r) (server_DataPath r) (server_AutoRestart r) (server_CrashLimit r)
    (server_CrashWindowS r) (server_ActiveWorld r) (server_CreatedAt r) (server_UpdatedAt r)
    (server_Metadata r) (server_NodeFQDN r) (server_LaunchFlags r) (server_UseHytaleAccount
    r) (server_LastExitCode r) (server_NetworkRole r) (server_RequireReferral r).
Definition server_with_DataPath (v : string) (r : Server) : Server :=
    mkServer (server_ID r) (server_Name r) (server_NodeID r) (server_OwnerID r)
    (server_Status r) (server_HytaleVersion r) (server_CPULimit r) (server_RAMLimitMB r)
    (server_DiskLimitMB r) (server_Port r) v (server_AutoRestart r) (server_CrashLimit r)
    (server_CrashWindowS r) (server_ActiveWorld r) (server_CreatedAt r) (server_UpdatedAt r)
    (server_Metadata r) (server_NodeFQDN r) (server_LaunchFlags r) (server_UseHytaleAccount
    r) (server_LastExitCode r) (server_NetworkRole r) (server_RequireReferral r).
Definition server_with_AutoRestart (v : bool) (r : Server) : Server :=
    mkServer (server_ID r) (server_Name r) (server_NodeID r) (server_OwnerID r)
    (server_Status r) (server_HytaleVersion r) (server_CPULimit r) (server_RAMLimitMB r)
    (server_DiskLimitMB r) (server_Port r) (server_DataPath r) v (server_CrashLimit r)
    (server_CrashWindowS r) (server_ActiveWorld r) (server_CreatedAt r) (server_UpdatedAt r)
    (server_Metadata r) (server_NodeFQDN r) (server_LaunchFlags r) (server_UseHytaleAccount
    r) (server_LastExitCode r) (server_NetworkRole r) (server_RequireReferral r).
Definition server_with_CrashLimit (v : Z) (r : Server) : Server :=
    mkServer (server_ID r) (server_Name r) (server_NodeID r) (server_OwnerID r)
    (server_Status r) (server_HytaleVersion r) (server_CPULimit r) (server_RAMLimitMB r)
    (server_DiskLimitMB r) (server_Port r) (server_DataPath r) (server_AutoRestart r) v
    (server_CrashWindowS r) (server_ActiveWorld r) (server_CreatedAt r) (server_UpdatedAt r)
    (server_Metadata r) (server_NodeFQDN r) (server_LaunchFlags r) (server_UseHytaleAccount
    r) (server_LastExitCode r) (server_NetworkRole r) (server_RequireReferral r).
Definition server_with_ActiveWorld (v : string) (r : Server) : Server :=
    mkServer (server_ID r) (server_Name r) (server_NodeID r) (server_OwnerID r)
    (server_Status r) (server_HytaleVersion r) (server_CPULimit r) (server_RAMLimitMB r)
    (server_DiskLimitMB r) (server_Port r) (server_DataPath r) (server_AutoRestart r)
    (server_CrashLimit r) (server_CrashWindowS r) v (server_CreatedAt r) (server_UpdatedAt
    r) (server_Metadata r) (server_NodeFQDN r) (server_LaunchFlags r)
    (server_UseHytaleAccount r) (server_LastExitCode r) (server_NetworkRole r)
    (server_RequireReferral r).
Definition server_with_UpdatedAt (v : Z) (r : Server) : Server :=
    mkServer (server_ID r) (server_Name r) (server_NodeID r) (server_OwnerID r)
    (server_Status r) (server_HytaleVersion r) (server_CPULimit r) (server_RAMLimitMB r)
    (server_DiskLimitMB r) (server_Port r) (server_DataPath r) (server_AutoRestart r)
    (server_CrashLimit r) (server_CrashWindowS r) (server_ActiveWorld r) (server_CreatedAt
    r) v (server_Metadata r) (server_NodeFQDN r) (server_LaunchFlags r)
    (server_UseHytaleAccount r) (server_LastExitCode r) (server_NetworkRole r)
    (server_RequireReferral r).
Definition server_with_NodeFQDN (v : string) (r : Server) : Server :=
    mkServer (server_ID r) (server_Name r) (server_NodeID r) (server_OwnerID r)
    (server_Status r) (server_HytaleVersion r) (server_CPULimit r) (server_RAMLimitMB r)
    (server_DiskLimitMB r) (server_Port r) (server_DataPath r) (server_AutoRestart r)
    (server_CrashLimit r) (server_CrashWindowS r) (server_ActiveWorld r) (server_CreatedAt
    r) (server_UpdatedAt r) (server_Metadata r) v (server_LaunchFlags r)
    (server_UseHytaleAccount r) (server_LastExitCode r) (server_NetworkRole r)
    (server_RequireReferral r).
Definition server_with_LaunchFlags (v : list string) (r : Server) : Server :=
    mkServer (server_ID r) (server_Name r) (server_NodeID r) (server_OwnerID r)
    (server_Status r) (server_HytaleVersion r) (server_CPULimit r) (server_RAMLimitMB r)
    (server_DiskLimitMB r) (server_Port r) (server_DataPath r) (server_AutoRestart r)
    (server_CrashLimit r) (server_CrashWindowS r) (server_ActiveWorld r) (server_CreatedAt
    r) (server_UpdatedAt r) (server_Metadata r) (server_NodeFQDN r) v
    (server_UseHytaleAccount r) (server_LastExitCode r) (server_NetworkRole r)
    (server_RequireReferral r).
Definition server_with_UseHytaleAccount (v : bool) (r : Server) : Server :=
    mkServer (server_ID r) (server_Name r) (server_NodeID r) (server_OwnerID r)
    (server_Status r) (server_HytaleVersion r) (server_CPULimit r) (server_RAMLimitMB r)
    (server_DiskLimitMB r) (server_Port r) (server_DataPath r) (server_AutoRestart r)
    (server_CrashLimit r) (server_CrashWindowS r) (server_ActiveWorld r) (server_CreatedAt
    r) (server_UpdatedAt r) (server_Metadata r) (server_NodeFQDN r) (server_LaunchFlags r) v
    (server_LastExitCode r) (server_NetworkRole r) (server_RequireReferral r).
Definition server_with_LastExitCode (v : option Z) (r : Server) : Server :=
    mkServer (server_ID r) (server_Name r) (server_NodeID r) (server_OwnerID r)
    (server_Status r) (server_HytaleVersion r) (server_CPULimit r) (server_RAMLimitMB r)
    (server_DiskLimitMB r) (server_Port r) (server_DataPath r) (server_AutoRestart r)
    (server_CrashLimit r) (server_CrashWindowS r) (server_ActiveWorld r) (server_CreatedAt
    r) (server_UpdatedAt r) (server_Metadata r) (server_NodeFQDN r) (server_LaunchFlags r)
    (server_UseHytaleAccount r) v (server_NetworkRole r) (server_RequireReferral r).
Definition server_with_NetworkRole (v : option string) (r : Server) : Server :=
    mkServer (server_ID r) (server_Name r) (server_NodeID r) (server_OwnerID r)
    (server_Status r) (server_HytaleVersion r) (server_CPULimit r) (server_RAMLimitMB r)
    (server_DiskLimitMB r) (server_Port r) (server_DataPath r) (server_AutoRestart r)
    (server_CrashLimit r) (server_CrashWindowS r) (server_ActiveWorld r) (server_CreatedAt
    r) (server_UpdatedAt r) (server_Metadata r) (server_NodeFQDN r) (server_LaunchFlags r)
    (server_UseHytaleAccount r) (server_LastExitCode r) v (server_RequireReferral r).

(** models.Player: one account on one server. *)
Record Player := mkPlayer {
  player_ID : uuid;
  player_ServerID : uuid;
  player_HytaleUUID : uuid;
  player_Username : string;
  player_FirstSeen : Z;
  player_LastSeen : option Z;
  player_PlaytimeS : Z;
  player_IsWhitelisted : bool;
  player_IsBanned : bool;
  player_BanReason : option string;
  player_BannedAt : option Z;
  player_BannedBy : option uuid;
  player_IsOp : bool;
  player_IsMuted : bool
}.

Definition player_with_BannedBy (v : option uuid) (r : Player) : Player :=
    mkPlayer (player_ID r) (player_ServerID r) (player_HytaleUUID r) (player_Username r)
    (player_FirstSeen r) (player_LastSeen r) (player_PlaytimeS r) (player_IsWhitelisted r)
    (player_IsBanned r) (player_BanReason r) (player_BannedAt r) v (player_IsOp r)
    (player_IsMuted r).
Definition player_with_Username (v : string) (r : Player) : Player :=
    mkPlayer (player_ID r) (player_ServerID r) (player_HytaleUUID r) v (player_FirstSeen r)
    (player_LastSeen r) (player_PlaytimeS r) (player_IsWhitelisted r) (player_IsBanned r)
    (player_BanReason r) (player_BannedAt r) (player_BannedBy r) (player_IsOp r)
    (player_IsMuted r).
Definition player_with_LastSeen (v : option Z) (r : Player) : Player :=
    mkPlayer (player_ID r) (player_ServerID r) (player_HytaleUUID r) (player_Username r)
    (player_FirstSeen r) v (player_PlaytimeS r) (player_IsWhitelisted r) (player_IsBanned r)
    (player_BanReason r) (player_BannedAt r) (player_BannedBy r) (player_IsOp r)
    (player_IsMuted r).
Definition player_with_PlaytimeS (v : Z) (r : Player) : Player :=
    mkPlayer (player_ID r) (player_ServerID r) (player_HytaleUUID r) (player_Username r)
    (player_FirstSeen r) (player_LastSeen r) v (player_IsWhitelisted r) (player_IsBanned r)
    (player_BanReason r) (player_BannedAt r) (player_BannedBy r) (player_IsOp r)
    (player_IsMuted r).
Definition player_with_IsWhitelisted (v : bool) (r : Player) : Player :=
    mkPlayer (player_ID r) (player_ServerID r) (player_HytaleUUID r) (player_Username r)
    (player_FirstSeen r) (player_LastSeen r) (player_PlaytimeS r) v (player_IsBanned r)
    (player_BanReason r) (player_BannedAt r) (player_BannedBy r) (player_IsOp r)
    (player_IsMuted r).
Definition player_with_IsOp (v : bool) (r : Player) : Player :=
    mkPlayer (player_ID r) (player_ServerID r) (player_HytaleUUID r) (player_Username r)
    (player_FirstSeen r) (player_LastSeen r) (player_PlaytimeS r) (player_IsWhitelisted r)
    (player_IsBanned r) (player_BanReason r) (player_BannedAt r) (player_BannedBy r) v
    (player_IsMuted r).
Definition player_with_IsMuted (v : bool) (r : Player) : Player :=
    mkPlayer (player_ID r) (player_ServerID r) (player_HytaleUUID r) (player_Username r)
    (player_FirstSeen r) (player_LastSeen r) (player_PlaytimeS r) (player_IsWhitelisted r)
    (player_IsBanned r) (player_BanReason r) (player_BannedAt r) (player_BannedBy r)
    (player_IsOp r) v.

(** A row of player_sessions. *)
Record PlayerSessionRow := mkPlayerSessionRow {
  psession_ID : uuid;
  psession_PlayerID : uuid;
  psession_JoinedAt : Z;
  psession_LeftAt : option Z;
  psession_DurationS : option Z
}.

(** A row of network_bans, keyed by the account. *)
Record NetworkBan := mkNetworkBan {
  netban_UsernameAtBan : option string;
  netban_Reason : string;
  netban_BannedBy : option uuid;
  netban_BannedAt : Z
}.

Definition netban_with_BannedBy (v : option uuid) (r : NetworkBan) : NetworkBan :=
    mkNetworkBan (netban_UsernameAtBan r) (netban_Reason r) v (netban_BannedAt r).

(** A row of server_members; permissions is the per-server override map. *)
Record ServerMember := mkServerMember {
  member_Role : string;
  member_Permissions : gmap string bool
}.

Definition member_with_Permissions (v : gmap string bool) (r : ServerMember) : ServerMember :=
  mkServerMember (member_Role r) v.

(** models.ServerInvitation. *)
Record ServerInvitation := mkServerInvitation {
  invitation_ID : uuid;
  invitation_ServerID : uuid;
  invitation_InviterID : uuid;
  invitation_InviteeEmail : string;
  invitation_Token : string;
  invitation_Role : string;
  invitation_Permissions : gmap string bool;
  invitation_Status : string;
  invitation_CreatedAt : Z;
  invitation_ExpiresAt : Z
}.

Definition invitation_with_Status (v : string) (r : ServerInvitation) : ServerInvitation :=
    mkServerInvitation (invitation_ID r) (invitation_ServerID r) (invitation_InviterID r)
    (invitation_InviteeEmail r) (invitation_Token r) (invitation_Role r)
    (invitation_Permissions r) v (invitation_CreatedAt r) (invitation_ExpiresAt r).

(** A row of node_enrollments. *)
Record Enrollment := mkEnrollment {
  enrollment_ID : uuid;
  enrollment_TokenHash : string;
  enrollment_NodeName : string;
  enrollment_TotalCPU : option Z;
  enrollment_TotalRAMMB : option Z;
  enrollment_TotalDiskMB : option Z;
  enrollment_MaxServers : Z;
  enrollment_CreatedBy : option uuid;
  enrollment_CreatedAt : Z;
  enrollment_ExpiresAt : Z;
  enrollment_UsedAt : option Z;
  enrollment_NodeID : option uuid
}.

Definition enrollment_with_NodeID (v : option uuid) (r : Enrollment) : Enrollment :=
    mkEnrollment (enrollment_ID r) (enrollment_TokenHash r) (enrollment_NodeName r)
    (enrollment_TotalCPU r) (enrollment_TotalRAMMB r) (enrollment_TotalDiskMB r)
    (enrollment_MaxServers r) (enrollment_CreatedBy r) (enrollment_CreatedAt r)
    (enrollment_ExpiresAt r) (enrollment_UsedAt r) v.
Definition enrollment_with_UsedAt (v : option Z) (r : Enrollment) : Enrollment :=
    mkEnrollment (enrollment_ID r) (enrollment_TokenHash r) (enrollment_NodeName r)
    (enrollment_TotalCPU r) (enrollment_TotalRAMMB r) (enrollment_TotalDiskMB r)
    (enrollment_MaxServers r) (enrollment_CreatedBy r) (enrollment_CreatedAt r)
    (enrollment_ExpiresAt r) v (enrollment_NodeID r).

(** A row of node_commands, the queue a daemon polls. *)
Record NodeCommand := mkNodeCommand {
  ncmd_ID : uuid;
  ncmd_NodeID : uuid;
  ncmd_ServerID : option uuid;
  ncmd_CommandType : string;
  ncmd_Payload : list (string * string);
  ncmd_Status : string;
  ncmd_CreatedAt : Z;
  ncmd_AckedAt : option Z
}.

Definition ncmd_with_AckedAt (v : option Z) (r : NodeCommand) : NodeCommand :=
    mkNodeCommand (ncmd_ID r) (ncmd_NodeID r) (ncmd_ServerID r) (ncmd_CommandType r)
    (ncmd_Payload r) (ncmd_Status r) (ncmd_CreatedAt r) v.
Definition ncmd_with_Status (v : string) (r : NodeCommand) : NodeCommand :=
    mkNodeCommand (ncmd_ID r) (ncmd_NodeID r) (ncmd_ServerID r) (ncmd_CommandType r)
    (ncmd_Payload r) v (ncmd_CreatedAt r) (ncmd_AckedAt r).

(** models.AlertRule with its webhook URL. *)
Record AlertRule := mkAlertRule {
  rule_ID : uuid;
  rule_ServerID : option uuid;
  rule_UserID : uuid;
  rule_Type : string;
  rule_Threshold : option Q;
  rule_Channels : list string;
  rule_Enabled : bool;
  rule_CreatedAt : Z;
  rule_WebhookURL : string
}.

Definition rule_with_Enabled (v : bool) (r : AlertRule) : AlertRule :=
    mkAlertRule (rule_ID r) (rule_ServerID r) (rule_UserID r) (rule_Type r) (rule_Threshold
    r) (rule_Channels r) v (rule_CreatedAt r) (rule_WebhookURL r).

(** models.AlertEvent, without its body and metadata, which no modelled
    operation reads. *)
Record AlertEvent := mkAlertEvent {
  event_ID : uuid;
  event_RuleID : option uuid;
  event_ServerID : option uuid;
  event_NodeID : option uuid;
  event_Type : string;
  event_Severity : string;
  event_Title : string;
  event_Resolved : bool;
  event_ResolvedAt : option Z;
  event_CreatedAt : Z
}.

Definition event_with_ResolvedAt (v : option Z) (r : AlertEvent) : AlertEvent :=
    mkAlertEvent (event_ID r) (event_RuleID r) (event_ServerID r) (event_NodeID r)
    (event_Type r) (event_Severity r) (event_Title r) (event_Resolved r) v (event_CreatedAt
    r).
Definition event_with_Resolved (v : bool) (r : AlertEvent) : AlertEvent :=
    mkAlertEvent (event_ID r) (event_RuleID r) (event_ServerID r) (event_NodeID r)
    (event_Type r) (event_Severity r) (event_Title r) v (event_ResolvedAt r)
    (event_CreatedAt r).
Definition event_with_NodeID (v : option uuid) (r : AlertEvent) : AlertEvent :=
    mkAlertEvent (event_ID r) (event_RuleID r) (event_ServerID r) v (event_Type r)
    (event_Severity r) (event_Title r) (event_Resolved r) (event_ResolvedAt r)
    (event_CreatedAt r).
Definition event_with_ServerID (v : option uuid) (r : AlertEvent) : AlertEvent :=
    mkAlertEvent (event_ID r) (event_RuleID r) v (event_NodeID r) (event_Type r)
    (event_Severity r) (event_Title r) (event_Resolved r) (event_ResolvedAt r)
    (event_CreatedAt r).
Definition event_with_RuleID (v : option uuid) (r : AlertEvent) : AlertEvent :=
    mkAlertEvent (event_ID r) v (event_ServerID r) (event_NodeID r) (event_Type r)
    (event_Severity r) (event_Title r) (event_Resolved r) (event_ResolvedAt r)
    (event_CreatedAt r).

(** models.World: a world directory the daemon reported; its seed, thumbnail
    and metadata are never read back and are left out. *)
Record World_ := mkWorld_ {
  world_ID : uuid;
  world_ServerID : uuid;
  world_Name : string;
  world_Generator : option string;
  world_IsActive : bool;
  world_SizeBytes : option Z;
  world_CreatedAt : Z;
  world_UpdatedAt : Z
}.

Definition world_with_IsActive (v : bool) (r : World_) : World_ :=
    mkWorld_ (world_ID r) (world_ServerID r) (world_Name r) (world_Generator r) v
    (world_SizeBytes r) (world_CreatedAt r) (world_UpdatedAt r).
Definition world_with_SizeBytes (v : option Z) (r : World_) : World_ :=
    mkWorld_ (world_ID r) (world_ServerID r) (world_Name r) (world_Generator r)
    (world_IsActive r) v (world_CreatedAt r) (world_UpdatedAt r).
Definition world_with_UpdatedAt (v : Z) (r : World_) : World_ :=
    mkWorld_ (world_ID r) (world_ServerID r) (world_Name r) (world_Generator r)
    (world_IsActive r) (world_SizeBytes r) (world_CreatedAt r) v.

(** models.ActivityLog: one audit record, without its id, client address and
    payload (the payload text is the subject of Activity). *)
Record ActivityLog := mkActivityLog {
  alog_UserID : option uuid;
  alog_ServerID : option uuid;
  alog_Action : string;
  alog_TargetType : string;
  alog_TargetID : option uuid;
  alog_CreatedAt : Z
}.

Definition alog_with_ServerID (v : option uuid) (r : ActivityLog) : ActivityLog :=
    mkActivityLog (alog_UserID r) v (alog_Action r) (alog_TargetType r) (alog_TargetID r)
    (alog_CreatedAt r).
Definition alog_with_UserID (v : option uuid) (r : ActivityLog) : ActivityLog :=
    mkActivityLog v (alog_ServerID r) (alog_Action r) (alog_TargetType r) (alog_TargetID r)
    (alog_CreatedAt r).

(** A row of server_logs; its serial id is its place in the table. *)
Record ServerLog := mkServerLog {
  slog_ServerID : uuid;
  slog_LoggedAt : Z;
  slog_Level : string;
  slog_Message : string
}.

(** A row of node_metrics. *)
Record NodeMetric := mkNodeMetric {
  metric_NodeID : uuid;
  metric_SampledAt : Z;
  metric_CPUPct : Q;
  metric_RAMUsedMB : Z;
  metric_DiskUsedMB : Z;
  metric_ActiveServers : Z
}.

(** models.Backup: a row of backups, with its key id; DestinationName is a
    join, and the world name, the checksum and the expiry, which are only
    listed, are left out. *)
Record Backup := mkBackup {
  backup_ID : uuid;
  backup_ServerID : option uuid;
  backup_Type : string;
  backup_Storage : string;
  backup_StoragePath : string;
  backup_SizeBytes : option Z;
  backup_Status : string;
  backup_TriggeredBy : string;
  backup_CreatedAt : Z;
  backup_CompletedAt : option Z;
  backup_Error : option string;
  backup_DestinationID : option uuid;
  backup_RemotePath : option string;
  backup_UploadStatus : option string;
  backup_UploadError : option string;
  backup_LocalPresent : bool;
  backup_EncKeyID : option Z
}.

Definition backup_with_LocalPresent (v : bool) (r : Backup) : Backup :=
    mkBackup (backup_ID r) (backup_ServerID r) (backup_Type r) (backup_Storage r)
    (backup_StoragePath r) (backup_SizeBytes r) (backup_Status r) (backup_TriggeredBy r)
    (backup_CreatedAt r) (backup_CompletedAt r) (backup_Error r) (backup_DestinationID r)
    (backup_RemotePath r) (backup_UploadStatus r) (backup_UploadError r) v (backup_EncKeyID
    r).
Definition backup_with_UploadError (v : option string) (r : Backup) : Backup :=
    mkBackup (backup_ID r) (backup_ServerID r) (backup_Type r) (backup_Storage r)
    (backup_StoragePath r) (backup_SizeBytes r) (backup_Status r) (backup_TriggeredBy r)
    (backup_CreatedAt r) (backup_CompletedAt r) (backup_Error r) (backup_DestinationID r)
    (backup_RemotePath r) (backup_UploadStatus r) v (backup_LocalPresent r) (backup_EncKeyID
    r).
Definition backup_with_UploadStatus (v : option string) (r : Backup) : Backup :=
    mkBackup (backup_ID r) (backup_ServerID r) (backup_Type r) (backup_Storage r)
    (backup_StoragePath r) (backup_SizeBytes r) (backup_Status r) (backup_TriggeredBy r)
    (backup_CreatedAt r) (backup_CompletedAt r) (backup_Error r) (backup_DestinationID r)
    (backup_RemotePath r) v (backup_UploadError r) (backup_LocalPresent r) (backup_EncKeyID
    r).
Definition backup_with_RemotePath (v : option string) (r : Backup) : Backup :=
    mkBackup (backup_ID r) (backup_ServerID r) (backup_Type r) (backup_Storage r)
    (backup_StoragePath r) (backup_SizeBytes r) (backup_Status r) (backup_TriggeredBy r)
    (backup_CreatedAt r) (backup_CompletedAt r) (backup_Error r) (backup_DestinationID r) v
    (backup_UploadStatus r) (backup_UploadError r) (backup_LocalPresent r) (backup_EncKeyID
    r).
Definition backup_with_DestinationID (v : option uuid) (r : Backup) : Backup :=
    mkBackup (backup_ID r) (backup_ServerID r) (backup_Type r) (backup_Storage r)
    (backup_StoragePath r) (backup_SizeBytes r) (backup_Status r) (backup_TriggeredBy r)
    (backup_CreatedAt r) (backup_CompletedAt r) (backup_Error r) v (backup_RemotePath r)
    (backup_UploadStatus r) (backup_UploadError r) (backup_LocalPresent r) (backup_EncKeyID
    r).
Definition backup_with_Error (v : option string) (r : Backup) : Backup :=
    mkBackup (backup_ID r) (backup_ServerID r) (backup_Type r) (backup_Storage r)
    (backup_StoragePath r) (backup_SizeBytes r) (backup_Status r) (backup_TriggeredBy r)
    (backup_CreatedAt r) (backup_CompletedAt r) v (backup_DestinationID r)
    (backup_RemotePath r) (backup_UploadStatus r) (backup_UploadError r)
    (backup_LocalPresent r) (backup_EncKeyID r).
Definition backup_with_CompletedAt (v : option Z) (r : Backup) : Backup :=
    mkBackup (backup_ID r) (backup_ServerID r) (backup_Type r) (backup_Storage r)
    (backup_StoragePath r) (backup_SizeBytes r) (backup_Status r) (backup_TriggeredBy r)
    (backup_CreatedAt r) v (backup_Error r) (backup_DestinationID r) (backup_RemotePath r)
    (backup_UploadStatus r) (backup_UploadError r) (backup_LocalPresent r) (backup_EncKeyID
    r).
Definition backup_with_Status (v : string) (r : Backup) : Backup :=
    mkBackup (backup_ID r) (backup_ServerID r) (backup_Type r) (backup_Storage r)
    (backup_StoragePath r) (backup_SizeBytes r) v (backup_TriggeredBy r) (backup_CreatedAt
    r) (backup_CompletedAt r) (backup_Error r) (backup_DestinationID r) (backup_RemotePath
    r) (backup_UploadStatus r) (backup_UploadError r) (backup_LocalPresent r)
    (backup_EncKeyID r).
Definition backup_with_SizeBytes (v : option Z) (r : Backup) : Backup :=
    mkBackup (backup_ID r) (backup_ServerID r) (backup_Type r) (backup_Storage r)
    (backup_StoragePath r) v (backup_Status r) (backup_TriggeredBy r) (backup_CreatedAt r)
    (backup_CompletedAt r) (backup_Error r) (backup_DestinationID r) (backup_RemotePath r)
    (backup_UploadStatus r) (backup_UploadError r) (backup_LocalPresent r) (backup_EncKeyID
    r).
Definition backup_with_StoragePath (v : string) (r : Backup) : Backup :=
    mkBackup (backup_ID r) (backup_ServerID r) (backup_Type r) (backup_Storage r) v
    (backup_SizeBytes r) (backup_Status r) (backup_TriggeredBy r) (backup_CreatedAt r)
    (backup_CompletedAt r) (backup_Error r) (backup_DestinationID r) (backup_RemotePath r)
    (backup_UploadStatus r) (backup_UploadError r) (backup_LocalPresent r) (backup_EncKeyID
    r).
Definition backup_with_ServerID (v : option uuid) (r : Backup) : Backup :=
    mkBackup (backup_ID r) v (backup_Type r) (backup_Storage r) (backup_StoragePath r)
    (backup_SizeBytes r) (backup_Status r) (backup_TriggeredBy r) (backup_CreatedAt r)
    (backup_CompletedAt r) (backup_Error r) (backup_DestinationID r) (backup_RemotePath r)
    (backup_UploadStatus r) (backup_UploadError r) (backup_LocalPresent r) (backup_EncKeyID
    r).

(** models.BackupSchedule. *)
Record BackupSchedule := mkBackupSchedule {
  schedule_ID : uuid;
  schedule_ServerID : uuid;
  schedule_CronExpr : string;
  schedule_Type : string;
  schedule_Storage : string;
  schedule_RetentionCount : option Z;
  schedule_RetentionDays : option Z;
  schedule_Enabled : bool;
  schedule_LastRun : option Z;
  schedule_NextRun : option Z;
  schedule_CreatedAt : Z;
  schedule_DestinationID : option uuid
}.

Definition schedule_with_DestinationID (v : option uuid) (r : BackupSchedule) : BackupSchedule :=
    mkBackupSchedule (schedule_ID r) (schedule_ServerID r) (schedule_CronExpr r)
    (schedule_Type r) (schedule_Storage r) (schedule_RetentionCount r)
    (schedule_RetentionDays r) (schedule_Enabled r) (schedule_LastRun r) (schedule_NextRun
    r) (schedule_CreatedAt r) v.
Definition schedule_with_NextRun (v : option Z) (r : BackupSchedule) : BackupSchedule :=
    mkBackupSchedule (schedule_ID r) (schedule_ServerID r) (schedule_CronExpr r)
    (schedule_Type r) (schedule_Storage r) (schedule_RetentionCount r)
    (schedule_RetentionDays r) (schedule_Enabled r) (schedule_LastRun r) v
    (schedule_CreatedAt r) (schedule_DestinationID r).
Definition schedule_with_LastRun (v : option Z) (r : BackupSchedule) : BackupSchedule :=
    mkBackupSchedule (schedule_ID r) (schedule_ServerID r) (schedule_CronExpr r)
    (schedule_Type r) (schedule_Storage r) (schedule_RetentionCount r)
    (schedule_RetentionDays r) (schedule_Enabled r) v (schedule_NextRun r)
    (schedule_CreatedAt r) (schedule_DestinationID r).
Definition schedule_with_Enabled (v : bool) (r : BackupSchedule) : BackupSchedule :=
    mkBackupSchedule (schedule_ID r) (schedule_ServerID r) (schedule_CronExpr r)
    (schedule_Type r) (schedule_Storage r) (schedule_RetentionCount r)
    (schedule_RetentionDays r) v (schedule_LastRun r) (schedule_NextRun r)
    (schedule_CreatedAt r) (schedule_DestinationID r).

(** A row of backup_destinations; the options are the decoded JSON object, the
    secrets the stored envelope.  The creator is never read back. *)
Record DestinationRow := mkDestinationRow {
  dest_ID : uuid;
  dest_Name : string;
  dest_Provider : string;
  dest_BasePath : string;
  dest_Options : gmap string string;
  dest_Secrets : string;
  dest_KeepLocal : bool;
  dest_RetentionCount : option Z;
  dest_CreatedAt : Z;
  dest_UpdatedAt : Z
}.

Definition dest_with_UpdatedAt (v : Z) (r : DestinationRow) : DestinationRow :=
    mkDestinationRow (dest_ID r) (dest_Name r) (dest_Provider r) (dest_BasePath r)
    (dest_Options r) (dest_Secrets r) (dest_KeepLocal r) (dest_RetentionCount r)
    (dest_CreatedAt r) v.
Definition dest_with_RetentionCount (v : option Z) (r : DestinationRow) : DestinationRow :=
    mkDestinationRow (dest_ID r) (dest_Name r) (dest_Provider r) (dest_BasePath r)
    (dest_Options r) (dest_Secrets r) (dest_KeepLocal r) v (dest_CreatedAt r)
    (dest_UpdatedAt r).
Definition dest_with_KeepLocal (v : bool) (r : DestinationRow) : DestinationRow :=
    mkDestinationRow (dest_ID r) (dest_Name r) (dest_Provider r) (dest_BasePath r)
    (dest_Options r) (dest_Secrets r) v (dest_RetentionCount r) (dest_CreatedAt r)
    (dest_UpdatedAt r).
Definition dest_with_Secrets (v : string) (r : DestinationRow) : DestinationRow :=
    mkDestinationRow (dest_ID r) (dest_Name r) (dest_Provider r) (dest_BasePath r)
    (dest_Options r) v (dest_KeepLocal r) (dest_RetentionCount r) (dest_CreatedAt r)
    (dest_UpdatedAt r).
Definition dest_with_Options (v : gmap string string) (r : DestinationRow) : DestinationRow :=
    mkDestinationRow (dest_ID r) (dest_Name r) (dest_Provider r) (dest_BasePath r) v
    (dest_Secrets r) (dest_KeepLocal r) (dest_RetentionCount r) (dest_CreatedAt r)
    (dest_UpdatedAt r).
Definition dest_with_BasePath (v : string) (r : DestinationRow) : DestinationRow :=
    mkDestinationRow (dest_ID r) (dest_Name r) (dest_Provider r) v (dest_Options r)
    (dest_Secrets r) (dest_KeepLocal r) (dest_RetentionCount r) (dest_CreatedAt r)
    (dest_UpdatedAt r).
Definition dest_with_Provider (v : string) (r : DestinationRow) : DestinationRow :=
    mkDestinationRow (dest_ID r) (dest_Name r) v (dest_BasePath r) (dest_Options r)
    (dest_Secrets r) (dest_KeepLocal r) (dest_RetentionCount r) (dest_CreatedAt r)
    (dest_UpdatedAt r).
Definition dest_with_Name (v : string) (r : DestinationRow) : DestinationRow :=
    mkDestinationRow (dest_ID r) v (dest_Provider r) (dest_BasePath r) (dest_Options r)
    (dest_Secrets r) (dest_KeepLocal r) (dest_RetentionCount r) (dest_CreatedAt r)
    (dest_UpdatedAt r).

(** models.GameCommand; the parameter list is the stored JSON text. *)
Record GameCommand := mkGameCommand {
  gcmd_ID : uuid;
  gcmd_ServerID : option uuid;
  gcmd_Category : string;
  gcmd_Name : string;
  gcmd_Description : string;
  gcmd_CommandTemplate : string;
  gcmd_Icon : string;
  gcmd_Params : json;
  gcmd_SortOrder : Z;
  gcmd_IsDefault : bool;
  gcmd_MinRole : string;
  gcmd_CreatedAt : Z;
  gcmd_Source : string;
  gcmd_SourcePlugin : option string
}.

(** models.ServerMod; the scanned lists are kept as lists. *)
Record ServerMod := mkServerMod {
  mod_ID : uuid;
  mod_ServerID : uuid;
  mod_Filename : string;
  mod_DisplayName : string;
  mod_Version : string;
  mod_DownloadURL : string;
  mod_CFModID : option Z;
  mod_CFFileID : option Z;
  mod_InstalledAt : Z;
  mod_Source : string;
  mod_PluginName : option string;
  mod_Author : option string;
  mod_Description : option string;
  mod_DetectedCommands : list string;
  mod_ConfigFiles : list string;
  mod_FileHash : option string;
  mod_LastScannedAt : option Z;
  mod_IsPresent : bool;
  mod_ModDir : string
}.

Definition mod_with_IsPresent (v : bool) (r : ServerMod) : ServerMod :=
    mkServerMod (mod_ID r) (mod_ServerID r) (mod_Filename r) (mod_DisplayName r)
    (mod_Version r) (mod_DownloadURL r) (mod_CFModID r) (mod_CFFileID r) (mod_InstalledAt r)
    (mod_Source r) (mod_PluginName r) (mod_Author r) (mod_Description r)
    (mod_DetectedCommands r) (mod_ConfigFiles r) (mod_FileHash r) (mod_LastScannedAt r) v
    (mod_ModDir r).

(** models.ServerDatabase; [server_id] is unique. *)
Record ServerDatabase := mkServerDatabase {
  sdb_ID : uuid;
  sdb_ServerID : uuid;
  sdb_DBName : string;
  sdb_DBUser : string;
  sdb_DBPassword : string;
  sdb_Host : string;
  sdb_Port : Z;
  sdb_CreatedAt : Z
}.

Definition sdb_with_DBPassword (v : string) (r : ServerDatabase) : ServerDatabase :=
    mkServerDatabase (sdb_ID r) (sdb_ServerID r) (sdb_DBName r) (sdb_DBUser r) v (sdb_Host
    r) (sdb_Port r) (sdb_CreatedAt r).

(** The PostgreSQL schema. *)
Record DB := mkDB {
  users : gmap uuid User;
  sessions : gmap uuid Session;
  permissions : gset string;
  role_permissions : gset (string * string);
  user_permissions : gmap (uuid * string) bool;
  nodes : gmap uuid Node;
  servers : gmap uuid Server;
  server_members : gmap (uuid * uuid) ServerMember;
  server_invitations : gmap uuid ServerInvitation;
  node_enrollments : gmap uuid Enrollment;
  node_commands : list NodeCommand;
  players : gmap uuid Player;
  player_sessions : gmap uuid PlayerSessionRow;
  network_bans : gmap uuid NetworkBan;
  worlds : gmap uuid World_;
  alert_rules : gmap uuid AlertRule;
  alert_events : gmap uuid AlertEvent;
  activity_logs : list ActivityLog;
  notification_prefs : gmap (uuid * string) (bool * bool * bool);
  server_logs : list ServerLog;
  node_metrics : list NodeMetric;
  backups : gmap uuid Backup;
  backup_schedules : gmap uuid BackupSchedule;
  backup_destinations : gmap uuid DestinationRow;
  app_settings : gmap string string;
  network_settings : option (string * option string);
  game_commands : gmap uuid GameCommand;
  server_mods : gmap uuid ServerMod;
  server_databases : gmap uuid ServerDatabase
}.

Definition with_users (v : gmap uuid User) (d : DB) : DB :=
    mkDB v (sessions d) (permissions d) (role_permissions d) (user_permissions d) (nodes d)
    (servers d) (server_members d) (server_invitations d) (node_enrollments d)
    (node_commands d) (players d) (player_sessions d) (network_bans d) (worlds d)
    (alert_rules d) (alert_events d) (activity_logs d) (notification_prefs d) (server_logs
    d) (node_metrics d) (backups d) (backup_schedules d) (backup_destinations d)
    (app_settings d) (network_settings d) (game_commands d) (server_mods d)
    (server_databases d).
Definition with_sessions (v : gmap uuid Session) (d : DB) : DB :=
    mkDB (users d) v (permissions d) (role_permissions d) (user_permissions d) (nodes d)
    (servers d) (server_members d) (server_invitations d) (node_enrollments d)
    (node_commands d) (players d) (player_sessions d) (network_bans d) (worlds d)
    (alert_rules d) (alert_events d) (activity_logs d) (notification_prefs d) (server_logs
    d) (node_metrics d) (backups d) (backup_schedules d) (backup_destinations d)
    (app_settings d) (network_settings d) (game_commands d) (server_mods d)
    (server_databases d).
Definition with_permissions (v : gset string) (d : DB) : DB :=
    mkDB (users d) (sessions d) v (role_permissions d) (user_permissions d) (nodes d)
    (servers d) (server_members d) (server_invitations d) (node_enrollments d)
    (node_commands d) (players d) (player_sessions d) (network_bans d) (worlds d)
    (alert_rules d) (alert_events d) (activity_logs d) (notification_prefs d) (server_logs
    d) (node_metrics d) (backups d) (backup_schedules d) (backup_destinations d)
    (app_settings d) (network_settings d) (game_commands d) (server_mods d)
    (server_databases d).
Definition with_role_permissions (v : gset (string * string)) (d : DB) : DB :=
    mkDB (users d) (sessions d) (permissions d) v (user_permissions d) (nodes d) (servers d)
    (server_members d) (server_invitations d) (node_enrollments d) (node_commands d)
    (players d) (player_sessions d) (network_bans d) (worlds d) (alert_rules d)
    (alert_events d) (activity_logs d) (notification_prefs d) (server_logs d) (node_metrics
    d) (backups d) (backup_schedules d) (backup_destinations d) (app_settings d)
    (network_settings d) (game_commands d) (server_mods d) (server_databases d).
Definition with_user_permissions (v : gmap (uuid * string) bool) (d : DB) : DB :=
    mkDB (users d) (sessions d) (permissions d) (role_permissions d) v (nodes d) (servers d)
    (server_members d) (server_invitations d) (node_enrollments d) (node_commands d)
    (players d) (player_sessions d) (network_bans d) (worlds d) (alert_rules d)
    (alert_events d) (activity_logs d) (notification_prefs d) (server_logs d) (node_metrics
    d) (backups d) (backup_schedules d) (backup_destinations d) (app_settings d)
    (network_settings d) (game_commands d) (server_mods d) (server_databases d).
Definition with_nodes (v : gmap uuid Node) (d : DB) : DB :=
    mkDB (users d) (sessions d) (permissions d) (role_permissions d) (user_permissions d) v
    (servers d) (server_members d) (server_invitations d) (node_enrollments d)
    (node_commands d) (players d) (player_sessions d) (network_bans d) (worlds d)
    (alert_rules d) (alert_events d) (activity_logs d) (notification_prefs d) (server_logs
    d) (node_metrics d) (backups d) (backup_schedules d) (backup_destinations d)
    (app_settings d) (network_settings d) (game_commands d) (server_mods d)
    (server_databases d).
Definition with_servers (v : gmap uuid Server) (d : DB) : DB :=
    mkDB (users d) (sessions d) (permissions d) (role_permissions d) (user_permissions d)
    (nodes d) v (server_members d) (server_invitations d) (node_enrollments d)
    (node_commands d) (players d) (player_sessions d) (network_bans d) (worlds d)
    (alert_rules d) (alert_events d) (activity_logs d) (notification_prefs d) (server_logs
    d) (node_metrics d) (backups d) (backup_schedules d) (backup_destinations d)
    (app_settings d) (network_settings d) (game_commands d) (server_mods d)
    (server_databases d).
Definition with_server_members (v : gmap (uuid * uuid) ServerMember) (d : DB) : DB :=
    mkDB (users d) (sessions d) (permissions d) (role_permissions d) (user_permissions d)
    (nodes d) (servers d) v (server_invitations d) (node_enrollments d) (node_commands d)
    (players d) (player_sessions d) (network_bans d) (worlds d) (alert_rules d)
    (alert_events d) (activity_logs d) (notification_prefs d) (server_logs d) (node_metrics
    d) (backups d) (backup_schedules d) (backup_destinations d) (app_settings d)
    (network_settings d) (game_commands d) (server_mods d) (server_databases d).
Definition with_server_invitations (v : gmap uuid ServerInvitation) (d : DB) : DB :=
    mkDB (users d) (sessions d) (permissions d) (role_permissions d) (user_permissions d)
    (nodes d) (servers d) (server_members d) v (node_enrollments d) (node_commands d)
    (players d) (player_sessions d) (network_bans d) (worlds d) (alert_rules d)
    (alert_events d) (activity_logs d) (notification_prefs d) (server_logs d) (node_metrics
    d) (backups d) (backup_schedules d) (backup_destinations d) (app_settings d)
    (network_settings d) (game_commands d) (server_mods d) (server_databases d).
Definition with_node_enrollments (v : gmap uuid Enrollment) (d : DB) : DB :=
    mkDB (users d) (sessions d) (permissions d) (role_permissions d) (user_permissions d)
    (nodes d) (servers d) (server_members d) (server_invitations d) v (node_commands d)
    (players d) (player_sessions d) (network_bans d) (worlds d) (alert_rules d)
    (alert_events d) (activity_logs d) (notification_prefs d) (server_logs d) (node_metrics
    d) (backups d) (backup_schedules d) (backup_destinations d) (app_settings d)
    (network_settings d) (game_commands d) (server_mods d) (server_databases d).
Definition with_node_commands (v : list NodeCommand) (d : DB) : DB :=
    mkDB (users d) (sessions d) (permissions d) (role_permissions d) (user_permissions d)
    (nodes d) (servers d) (server_members d) (server_invitations d) (node_enrollments d) v
    (players d) (player_sessions d) (network_bans d) (worlds d) (alert_rules d)
    (alert_events d) (activity_logs d) (notification_prefs d) (server_logs d) (node_metrics
    d) (backups d) (backup_schedules d) (backup_destinations d) (app_settings d)
    (network_settings d) (game_commands d) (server_mods d) (server_databases d).
Definition with_players (v : gmap uuid Player) (d : DB) : DB :=
    mkDB (users d) (sessions d) (permissions d) (role_permissions d) (user_permissions d)
    (nodes d) (servers d) (server_members d) (server_invitations d) (node_enrollments d)
    (node_commands d) v (player_sessions d) (network_bans d) (worlds d) (alert_rules d)
    (alert_events d) (activity_logs d) (notification_prefs d) (server_logs d) (node_metrics
    d) (backups d) (backup_schedules d) (backup_destinations d) (app_settings d)
    (network_settings d) (game_commands d) (server_mods d) (server_databases d).
Definition with_player_sessions (v : gmap uuid PlayerSessionRow) (d : DB) : DB :=
    mkDB (users d) (sessions d) (permissions d) (role_permissions d) (user_permissions d)
    (nodes d) (servers d) (server_members d) (server_invitations d) (node_enrollments d)
    (node_commands d) (players d) v (network_bans d) (worlds d) (alert_rules d)
    (alert_events d) (activity_logs d) (notification_prefs d) (server_logs d) (node_metrics
    d) (backups d) (backup_schedules d) (backup_destinations d) (app_settings d)
    (network_settings d) (game_commands d) (server_mods d) (server_databases d).
Definition with_network_bans (v : gmap uuid NetworkBan) (d : DB) : DB :=
    mkDB (users d) (sessions d) (permissions d) (role_permissions d) (user_permissions d)
    (nodes d) (servers d) (server_members d) (server_invitations d) (node_enrollments d)
    (node_commands d) (players d) (player_sessions d) v (worlds d) (alert_rules d)
    (alert_events d) (activity_logs d) (notification_prefs d) (server_logs d) (node_metrics
    d) (backups d) (backup_schedules d) (backup_destinations d) (app_settings d)
    (network_settings d) (game_commands d) (server_mods d) (server_databases d).
Definition with_worlds (v : gmap uuid World_) (d : DB) : DB :=
    mkDB (users d) (sessions d) (permissions d) (role_permissions d) (user_permissions d)
    (nodes d) (servers d) (server_members d) (server_invitations d) (node_enrollments d)
    (node_commands d) (players d) (player_sessions d) (network_bans d) v (alert_rules d)
    (alert_events d) (activity_logs d) (notification_prefs d) (server_logs d) (node_metrics
    d) (backups d) (backup_schedules d) (backup_destinations d) (app_settings d)
    (network_settings d) (game_commands d) (server_mods d) (server_databases d).
Definition with_alert_rules (v : gmap uuid AlertRule) (d : DB) : DB :=
    mkDB (users d) (sessions d) (permissions d) (role_permissions d) (user_permissions d)
    (nodes d) (servers d) (server_members d) (server_invitations d) (node_enrollments d)
    (node_commands d) (players d) (player_sessions d) (network_bans d) (worlds d) v
    (alert_events d) (activity_logs d) (notification_prefs d) (server_logs d) (node_metrics
    d) (backups d) (backup_schedules d) (backup_destinations d) (app_settings d)
    (network_settings d) (game_commands d) (server_mods d) (server_databases d).
Definition with_alert_events (v : gmap uuid AlertEvent) (d : DB) : DB :=
    mkDB (users d) (sessions d) (permissions d) (role_permissions d) (user_permissions d)
    (nodes d) (servers d) (server_members d) (server_invitations d) (node_enrollments d)
    (node_commands d) (players d) (player_sessions d) (network_bans d) (worlds d)
    (alert_rules d) v (activity_logs d) (notification_prefs d) (server_logs d) (node_metrics
    d) (backups d) (backup_schedules d) (backup_destinations d) (app_settings d)
    (network_settings d) (game_commands d) (server_mods d) (server_databases d).
Definition with_activity_logs (v : list ActivityLog) (d : DB) : DB :=
    mkDB (users d) (sessions d) (permissions d) (role_permissions d) (user_permissions d)
    (nodes d) (servers d) (server_members d) (server_invitations d) (node_enrollments d)
    (node_commands d) (players d) (player_sessions d) (network_bans d) (worlds d)
    (alert_rules d) (alert_events d) v (notification_prefs d) (server_logs d) (node_metrics
    d) (backups d) (backup_schedules d) (backup_destinations d) (app_settings d)
    (network_settings d) (game_commands d) (server_mods d) (server_databases d).
Definition with_notification_prefs (v : gmap (uuid * string) (bool * bool * bool)) (d : DB) : DB :=
    mkDB (users d) (sessions d) (permissions d) (role_permissions d) (user_permissions d)
    (nodes d) (servers d) (server_members d) (server_invitations d) (node_enrollments d)
    (node_commands d) (players d) (player_sessions d) (network_bans d) (worlds d)
    (alert_rules d) (alert_events d) (activity_logs d) v (server_logs d) (node_metrics d)
    (backups d) (backup_schedules d) (backup_destinations d) (app_settings d)
    (network_settings d) (game_commands d) (server_mods d) (server_databases d).
Definition with_server_logs (v : list ServerLog) (d : DB) : DB :=
    mkDB (users d) (sessions d) (permissions d) (role_permissions d) (user_permissions d)
    (nodes d) (servers d) (server_members d) (server_invitations d) (node_enrollments d)
    (node_commands d) (players d) (player_sessions d) (network_bans d) (worlds d)
    (alert_rules d) (alert_events d) (activity_logs d) (notification_prefs d) v
    (node_metrics d) (backups d) (backup_schedules d) (backup_destinations d) (app_settings
    d) (network_settings d) (game_commands d) (server_mods d) (server_databases d).
Definition with_node_metrics (v : list NodeMetric) (d : DB) : DB :=
    mkDB (users d) (sessions d) (permissions d) (role_permissions d) (user_permissions d)
    (nodes d) (servers d) (server_members d) (server_invitations d) (node_enrollments d)
    (node_commands d) (players d) (player_sessions d) (network_bans d) (worlds d)
    (alert_rules d) (alert_events d) (activity_logs d) (notification_prefs d) (server_logs
    d) v (backups d) (backup_schedules d) (backup_destinations d) (app_settings d)
    (network_settings d) (game_commands d) (server_mods d) (server_databases d).
Definition with_backups (v : gmap uuid Backup) (d : DB) : DB :=
    mkDB (users d) (sessions d) (permissions d) (role_permissions d) (user_permissions d)
    (nodes d) (servers d) (server_members d) (server_invitations d) (node_enrollments d)
    (node_commands d) (players d) (player_sessions d) (network_bans d) (worlds d)
    (alert_rules d) (alert_events d) (activity_logs d) (notification_prefs d) (server_logs
    d) (node_metrics d) v (backup_schedules d) (backup_destinations d) (app_settings d)
    (network_settings d) (game_commands d) (server_mods d) (server_databases d).
Definition with_backup_schedules (v : gmap uuid BackupSchedule) (d : DB) : DB :=
    mkDB (users d) (sessions d) (permissions d) (role_permissions d) (user_permissions d)
    (nodes d) (servers d) (server_members d) (server_invitations d) (node_enrollments d)
    (node_commands d) (players d) (player_sessions d) (network_bans d) (worlds d)
    (alert_rules d) (alert_events d) (activity_logs d) (notification_prefs d) (server_logs
    d) (node_metrics d) (backups d) v (backup_destinations d) (app_settings d)
    (network_settings d) (game_commands d) (server_mods d) (server_databases d).
Definition with_backup_destinations (v : gmap uuid DestinationRow) (d : DB) : DB :=
    mkDB (users d) (sessions d) (permissions d) (role_permissions d) (user_permissions d)
    (nodes d) (servers d) (server_members d) (server_invitations d) (node_enrollments d)
    (node_commands d) (players d) (player_sessions d) (network_bans d) (worlds d)
    (alert_rules d) (alert_events d) (activity_logs d) (notification_prefs d) (server_logs
    d) (node_metrics d) (backups d) (backup_schedules d) v (app_settings d)
    (network_settings d) (game_commands d) (server_mods d) (server_databases d).
Definition with_app_settings (v : gmap string string) (d : DB) : DB :=
    mkDB (users d) (sessions d) (permissions d) (role_permissions d) (user_permissions d)
    (nodes d) (servers d) (server_members d) (server_invitations d) (node_enrollments d)
    (node_commands d) (players d) (player_sessions d) (network_bans d) (worlds d)
    (alert_rules d) (alert_events d) (activity_logs d) (notification_prefs d) (server_logs
    d) (node_metrics d) (backups d) (backup_schedules d) (backup_destinations d) v
    (network_settings d) (game_commands d) (server_mods d) (server_databases d).
Definition with_network_settings (v : option (string * option string)) (d : DB) : DB :=
    mkDB (users d) (sessions d) (permissions d) (role_permissions d) (user_permissions d)
    (nodes d) (servers d) (server_members d) (server_invitations d) (node_enrollments d)
    (node_commands d) (players d) (player_sessions d) (network_bans d) (worlds d)
    (alert_rules d) (alert_events d) (activity_logs d) (notification_prefs d) (server_logs
    d) (node_metrics d) (backups d) (backup_schedules d) (backup_destinations d)
    (app_settings d) v (game_commands d) (server_mods d) (server_databases d).
Definition with_game_commands (v : gmap uuid GameCommand) (d : DB) : DB :=
    mkDB (users d) (sessions d) (permissions d) (role_permissions d) (user_permissions d)
    (nodes d) (servers d) (server_members d) (server_invitations d) (node_enrollments d)
    (node_commands d) (players d) (player_sessions d) (network_bans d) (worlds d)
    (alert_rules d) (alert_events d) (activity_logs d) (notification_prefs d) (server_logs
    d) (node_metrics d) (backups d) (backup_schedules d) (backup_destinations d)
    (app_settings d) (network_settings d) v (server_mods d) (server_databases d).
Definition with_server_mods (v : gmap uuid ServerMod) (d : DB) : DB :=
    mkDB (users d) (sessions d) (permissions d) (role_permissions d) (user_permissions d)
    (nodes d) (servers d) (server_members d) (server_invitations d) (node_enrollments d)
    (node_commands d) (players d) (player_sessions d) (network_bans d) (worlds d)
    (alert_rules d) (alert_events d) (activity_logs d) (notification_prefs d) (server_logs
    d) (node_metrics d) (backups d) (backup_schedules d) (backup_destinations d)
    (app_settings d) (network_settings d) (game_commands d) v (server_databases d).
Definition with_server_databases (v : gmap uuid ServerDatabase) (d : DB) : DB :=
    mkDB (users d) (sessions d) (permissions d) (role_permissions d) (user_permissions d)
    (nodes d) (servers d) (server_members d) (server_invitations d) (node_enrollments d)
    (node_commands d) (players d) (player_sessions d) (network_bans d) (worlds d)
    (alert_rules d) (alert_events d) (activity_logs d) (notification_prefs d) (server_logs
    d) (node_metrics d) (backups d) (backup_schedules d) (backup_destinations d)
    (app_settings d) (network_settings d) (game_commands d) (server_mods d) v.

(** Reduces a table of an updated database. *)
Ltac db_simpl :=
  cbn [users sessions permissions role_permissions user_permissions nodes servers
       server_members server_invitations node_enrollments node_commands players
       player_sessions network_bans worlds alert_rules alert_events activity_logs
       notification_prefs server_logs node_metrics backups backup_schedules
       backup_destinations app_settings network_settings game_commands server_mods
       server_databases] in *.

(** ** Worlds and the service monad *)

(** A request to the daemon of a node, as [net/http] gets it, and the answer:
    a transport error with its text, or a status and a body.  A file body is
    the bytes of the stream with their content type. *)
Inductive Body :=
| NoBody
| JSONBody (j : json)
| StreamBody (contentType data : string)
| FormBody (fileName data : string).

Record Request := mkRequest {
  req_Method : string;
  req_Base : string;
  req_Path : string;
  req_Query : list (string * string);
  req_Body : Body;
  req_Token : string
}.

(** What comes of a request: a transport error, the end of the context the
    call was made with before an answer came, or an answer. *)
Inductive Response :=
| NoResponse (text : string)
| Expired (text : string)
| HTTPResponse (status : Z) (body : string).

(** daemon.Client: where and how one node is reached. *)
Record Client := mkClient {
  client_baseURL : string;
  client_nodeToken : string;
  client_tls : bool
}.

(** What the panel knows of its nodes and sends to them: the client pool by
    node id, whether the pool has TLS material, the requests sent so far, and
    the network, which answers the n-th request. *)
Record Link := mkLink {
  pool_clients : gmap string Client;
  pool_tls : option (string * string * string);
  link_sent : list Request;
  link_net : nat -> Request -> Response
}.

Definition link_with_clients (v : gmap string Client) (l : Link) : Link :=
  mkLink v (pool_tls l) (link_sent l) (link_net l).
Definition link_with_tls (v : option (string * string * string)) (l : Link) : Link :=
  mkLink (pool_clients l) v (link_sent l) (link_net l).
Definition link_with_sent (v : list Request) (l : Link) : Link :=
  mkLink (pool_clients l) (pool_tls l) v (link_net l).

(** No node is connected. *)
Definition no_link : Link := mkLink ∅ None [] (fun _ _ => NoResponse "").

Record World := MkWorld {
  w_db : DB;
  w_redis : gmap string (string * option Z);  (* value and expiry of a key *)
  w_now : Z;                           (* time.Now() and NOW() *)
  w_faults : list bool;                (* does the next database call fail? *)
  w_rand : nat -> N;                   (* the random source *)
  w_ctr : nat;                         (* values drawn from it *)
  w_link : Link                        (* the nodes *)
}.

(** A world without nodes. *)
Definition mkWorld (d : DB) (redis : gmap string (string * option Z)) (t : Z) (faults : list bool)
    (rnd : nat -> N) (ctr : nat) : World := MkWorld d redis t faults rnd ctr no_link.

Definition with_db (d : DB) (w : World) : World :=
  MkWorld d (w_redis w) (w_now w) (w_faults w) (w_rand w) (w_ctr w) (w_link w).
Definition with_faults (f : list bool) (w : World) : World :=
  MkWorld (w_db w) (w_redis w) (w_now w) f (w_rand w) (w_ctr w) (w_link w).
Definition with_redis (m : gmap string (string * option Z)) (w : World) : World :=
  MkWorld (w_db w) m (w_now w) (w_faults w) (w_rand w) (w_ctr w) (w_link w).
Definition with_ctr (n : nat) (w : World) : World :=
  MkWorld (w_db w) (w_redis w) (w_now w) (w_faults w) (w_rand w) n (w_link w).
Definition with_now (t : Z) (w : World) : World :=
  MkWorld (w_db w) (w_redis w) t (w_faults w) (w_rand w) (w_ctr w) (w_link w).
Definition with_link (l : Link) (w : World) : World :=
  MkWorld (w_db w) (w_redis w) (w_now w) (w_faults w) (w_rand w) (w_ctr w) l.

Definition M (A : Type) : Type := World -> res error A * World.

Definition ret {A} (a : A) : M A := fun w => (Ok a, w).
Definition fail {A} (e : error) : M A := fun w => (Err e, w).
Definition bind {A B} (m : M A) (k : A -> M B) : M B := fun w =>
  match m w with
  | (Ok a, w') => k a w'
  | (Err e, w') => (Err e, w')
  end.

Declare Scope svc_scope.
Delimit Scope svc_scope with svc.
Notation "'let*' x := c 'in' k" := (bind c (fun x => k))
  (at level 10, x pattern, c at level 200, k at level 200) : svc_scope.
Notation "'run*' c 'in' k" := (bind c (fun _ => k))
  (at level 10, c at level 200, k at level 200) : svc_scope.
Open Scope svc_scope.

(** The error of a call as a value, for code that inspects or drops it. *)
Definition attempt {A} (m : M A) : M (res error A) := fun w =>
  match m w with (r, w') => (Ok r, w') end.

(** [_ = f(...)]. *)
Definition ignore {A} (m : M A) : M unit :=
  let* _ := attempt m in ret tt.

(** [if err != nil { return fmt.Errorf("msg: %w", err) }]. *)
Definition wrap {A} (msg : string) (m : M A) : M A :=
  let* r := attempt m in
  match r with Ok a => ret a | Err e => fail (ErrWrap msg e) end.

Definition now : M Z := fun w => (Ok (w_now w), w).

Definition rand : M N := fun w =>
  (Ok (w_rand w (w_ctr w)), with_ctr (S (w_ctr w)) w).

(** [uuid.New()] and [gen_random_uuid()]. *)
Definition new_uuid : M uuid := rand.

(** [k] random bytes as hex. *)
Definition rand_hex (k : nat) : M string :=
  let* n := rand in ret (hex_bytes k (Z.of_N n)).

(** Does the next database call fail? *)
Definition fault : M bool := fun w =>
  match w_faults w with
  | [] => (Ok false, w)
  | b :: fs => (Ok b, with_faults fs w)
  end.

Definition get_db : M DB := fun w => (Ok (w_db w), w).
Definition put_db (d : DB) : M unit := fun w => (Ok tt, with_db d w).

(** A read-only statement. *)
Definition query {A} (f : DB -> res error A) : M A :=
  let* b := fault in
  if b then fail ErrDriver
  else let* d := get_db in
       match f d with Ok a => ret a | Err e => fail e end.

(** A statement that changes the database; one that is refused changes
    nothing. *)
Definition exec {A} (f : DB -> res error (A * DB)) : M A :=
  let* b := fault in
  if b then fail ErrDriver
  else let* d := get_db in
       match f d with
       | Ok (a, d') => run* put_db d' in ret a
       | Err e => fail e
       end.

(** A transaction: begin, body, commit; the deferred rollback restores the
    database when the body or the commit fails.  [commit_err] is what the
    method makes of a failed commit. *)
Definition tx {A} (begin_msg : string) (commit_err : error -> error) (body : M A) : M A :=
  run* wrap begin_msg (let* b := fault in if b then fail ErrDriver else ret tt) in
  let* d := get_db in
  let* r := attempt body in
  match r with
  | Err e => run* put_db d in fail e
  | Ok a =>
    let* b := fault in
    if b then run* put_db d in fail (commit_err ErrDriver)
    else ret a
  end.

(** ** Redis

    The keys share the oracle of faults.  A positive time to live sets an
    expiry; the other values store the key without one. *)

(** Redis counts the life of a key in milliseconds; the client sends a
    positive duration as at least one. *)
Definition redis_px (ttl : Z) : Z :=
  if (0 <? ttl) && (ttl <? 1000000) then 1000000 else ttl / 1000000 * 1000000.

(** [SET key value] with an expiry. *)
Definition redis_set (key value : string) (ttl : Z) : M unit :=
  let* b := fault in
  if b then fail ErrDriver
  else fun w =>
    (Ok tt, with_redis (<[key := (value, if 0 <? ttl then Some (w_now w + redis_px ttl) else None)]>
                          (w_redis w)) w).

(** [GET key], where a missing or expired key is [redis.Nil]. *)
Definition redis_live (w : World) (key : string) : option string :=
  match w_redis w !! key with
  | Some (v, None) => Some v
  | Some (v, Some e) => if w_now w <? e then Some v else None
  | None => None
  end.

Definition redis_get (key : string) : M (option string) :=
  let* b := fault in
  if b then fail ErrDriver else fun w => (Ok (redis_live w key), w).

(** A wait of [d] nanoseconds. *)
Definition sleep (d : Z) : M unit := fun w =>
  (Ok tt, with_now (w_now w + d) w).

(** A request to a node: the network answers it. *)
Definition send (r : Request) : M Response := fun w =>
  let l := w_link w in
  (Ok (link_net l (length (link_sent l)) r), with_link (link_with_sent (link_sent l ++ [r]) l) w).

(** The client pool. *)
Definition get_link : M Link := fun w => (Ok (w_link w), w).
Definition put_link (l : Link) : M unit := fun w => (Ok tt, with_link l w).

(** A transaction that commits only when its body says so; a body that
    returns without committing leaves the database as it was. *)
Definition tx_if (begin_msg : string) (commit_err : error -> error) (body : M bool) : M unit :=
  run* wrap begin_msg (let* b := fault in if b then fail ErrDriver else ret tt) in
  let* d := get_db in
  let* r := attempt body in
  match r with
  | Err e => run* put_db d in fail e
  | Ok false => run* put_db d in ret tt
  | Ok true =>
    let* b := fault in
    if b then run* put_db d in fail (commit_err ErrDriver)
    else ret tt
  end.

(** Transactions whose errors are passed on as they are; the body says whether
    to commit. *)
Definition bare_tx_if {A} (commit : A -> bool) (m : M A) : M A :=
  let* b := fault in
  if b then fail ErrDriver
  else
    let* d := get_db in
    let* r := attempt m in
    match r with
    | Err e => run* put_db d in fail e
    | Ok a =>
      if negb (commit a) then run* put_db d in ret a
      else let* b' := fault in if b' then run* put_db d in fail ErrDriver else ret a
    end.

Definition bare_tx {A} (m : M A) : M A := bare_tx_if (fun _ => true) m.

#[global] Arguments bind : simpl never.
#[global] Arguments attempt : simpl never.
#[global] Arguments ignore : simpl never.
#[global] Arguments wrap : simpl never.
#[global] Arguments query : simpl never.
#[global] Arguments exec : simpl never.
#[global] Arguments tx : simpl never.
#[global] Arguments tx_if : simpl never.
#[global] Arguments redis_set : simpl never.
#[global] Arguments redis_get : simpl never.
#[global] Arguments send : simpl never.

(** ** Tables as SQL sees them *)

(** [SELECT ... WHERE p] in no particular order. *)
Definition rows {A} (t : gmap uuid A) (p : A -> bool) : list A :=
  List.filter p (map snd (map_to_list t)).

(** [SELECT ... WHERE p] expecting one row. *)
Definition row {A} (t : gmap uuid A) (p : A -> bool) : res error A :=
  match rows t p with
  | r :: _ => Ok r
  | [] => Err ErrNoRows
  end.

(** [SELECT EXISTS(...)] and [SELECT COUNT( * )]. *)
Definition exists_row {A} (t : gmap uuid A) (p : A -> bool) : bool :=
  existsb p (map snd (map_to_list t)).

Definition count_rows {A} (t : gmap uuid A) (p : A -> bool) : nat := length (rows t p).

(** [UPDATE t SET ... WHERE p]. *)
Definition update_where {A} (f : A -> A) (p : A -> bool) (t : gmap uuid A) : gmap uuid A :=
  (fun a => if p a then f a else a) <$> t.

(** [DELETE FROM t WHERE p]. *)
Definition delete_where {A} (p : A -> bool) (t : gmap uuid A) : gmap uuid A :=
  filter (fun kv => p (snd kv) = false) t.

(** [INSERT] of a row with a fresh primary key. *)
Definition insert_row {A} (id : uuid) (r : A) (t : gmap uuid A) : res error (gmap uuid A) :=
  match t !! id with
  | Some _ => Err (ErrConstraint "primary key")
  | None => Ok (<[id := r]> t)
  end.

(** [SELECT id, ... WHERE p] expecting one row, with its primary key. *)
Definition find_key {A} (t : gmap uuid A) (p : A -> bool) : res error (uuid * A) :=
  match List.filter (fun kv => p (snd kv)) (map_to_list t) with
  | kv :: _ => Ok kv
  | [] => Err ErrNoRows
  end.

(** [SELECT ... WHERE id = k]. *)
Definition get_key `{Countable K} {A} (t : gmap K A) (k : K) : res error A :=
  match t !! k with Some a => Ok a | None => Err ErrNoRows end.

(** [SELECT COUNT( * ) WHERE p], where [p] also reads the primary key. *)
Definition count_key {A} (t : gmap uuid A) (p : uuid -> A -> bool) : nat :=
  length (List.filter (fun kv => p (fst kv) (snd kv)) (map_to_list t)).

(** [ORDER BY]: a stable insertion sort, [le a b] when [a] may come first. *)
Fixpoint insert_by {A} (le : A -> A -> bool) (a : A) (l : list A) : list A :=
  match l with
  | [] => [a]
  | b :: l' => if le a b then a :: l else b :: insert_by le a l'
  end.

Definition order_by {A} (le : A -> A -> bool) (l : list A) : list A :=
  fold_right (insert_by le) [] l.

Lemma insert_by_perm {A} (le : A -> A -> bool) a l : insert_by le a l ≡ₚ a :: l.
Proof.
  induction l as [|b l IH]; simpl; [done|]. destruct (le a b); [done|].
  rewrite IH. apply Permutation_swap.
Qed.

Lemma order_by_perm {A} (le : A -> A -> bool) l : order_by le l ≡ₚ l.
Proof.
  induction l as [|a l IH]; simpl; [done|]. by rewrite insert_by_perm, IH.
Qed.

(** The first row of an ordered result is a least one. *)
Lemma order_by_head {A} (le : A -> A -> bool) l x r y :
  (forall a b, le a b = false -> le b a = true) ->
  (forall a b c, le a b = true -> le b c = true -> le a c = true) ->
  order_by le l = x :: r -> y ∈ l -> le x y = true.
Proof.
  intros Htot Htr.
  assert (Hrefl : forall a, le a a = true).
  { intros a. destruct (le a a) eqn:E; [done|]. by apply Htot in E as E'; rewrite E in E'. }
  revert x r y. induction l as [|a l IH]; simpl; intros x r y H Hy; [done|].
  destruct (order_by le l) as [|z o] eqn:Eo; simpl in H.
  - injection H as <- <-. assert (l = []) as -> by (apply Permutation_nil; by rewrite <- Eo, order_by_perm).
    apply list_elem_of_singleton in Hy as ->. done.
  - destruct (le a z) eqn:Ez; injection H as <- <-; apply elem_of_cons in Hy as [-> | Hy]; eauto.
Qed.

(** An ordered result is sorted. *)
Lemma order_by_sorted {A} (le : A -> A -> bool) l :
  (forall a b, le a b = false -> le b a = true) ->
  (forall a b c, le a b = true -> le b c = true -> le a c = true) ->
  StronglySorted (fun a b => le a b = true) (order_by le l).
Proof.
  intros Htot Htr. induction l as [|a l IH]; cbn [order_by fold_right]; [constructor|]. fold (order_by le l).
  induction IH as [|b o Ho IHo Hb]; cbn [insert_by]; [repeat constructor|]. destruct (le a b) eqn:E.
  - constructor; [by constructor|]. constructor; [done|]. eapply Forall_impl; [exact Hb|]. intros c. by apply Htr.
  - constructor; [done|]. rewrite (insert_by_perm le a o). constructor; [by apply Htot | done].
Qed.

Lemma find_key_ok {A} (t : gmap uuid A) p k a :
  find_key t p = Ok (k, a) -> t !! k = Some a /\ p a = true.
Proof.
  unfold find_key. destruct (List.filter _ _) as [|kv l] eqn:E; [done|]. intros [= ->].
  assert (Hin : In (k, a) (List.filter (fun kv => p kv.2) (map_to_list t)))
    by (rewrite E; by left).
  apply filter_In in Hin as [Hin Hp]. apply list_elem_of_In, elem_of_map_to_list in Hin. done.
Qed.

Lemma find_key_err {A} (t : gmap uuid A) p e :
  find_key t p = Err e -> e = ErrNoRows /\ forall k a, t !! k = Some a -> p a = false.
Proof.
  unfold find_key. destruct (List.filter _ _) as [|kv l] eqn:E; [|done]. intros [= <-].
  split; [done|]. intros k a Hk. destruct (p a) eqn:Ep; [|done].
  assert (Hin : In (k, a) (List.filter (fun kv => p kv.2) (map_to_list t))).
  { apply filter_In. split; [|done]. by apply list_elem_of_In, elem_of_map_to_list. }
  rewrite E in Hin. destruct Hin.
Qed.

Lemma count_key_pos {A} (t : gmap uuid A) p :
  count_key t p <> 0%nat <-> exists k a, t !! k = Some a /\ p k a = true.
Proof.
  unfold count_key. split.
  - destruct (List.filter _ _) as [|[k a] l] eqn:E; [done|]. intros _. exists k, a.
    assert (Hin : In (k, a) (List.filter (fun kv => p kv.1 kv.2) (map_to_list t)))
      by (rewrite E; by left).
    apply filter_In in Hin as [Hin Hp]. by apply list_elem_of_In, elem_of_map_to_list in Hin.
  - intros (k & a & Hk & Hp) H. apply length_zero_iff_nil in H.
    assert (Hin : In (k, a) (List.filter (fun kv => p kv.1 kv.2) (map_to_list t))).
    { apply filter_In. split; [|done]. by apply list_elem_of_In, elem_of_map_to_list. }
    rewrite H in Hin. destruct Hin.
Qed.

Lemma elem_of_rows {A} (t : gmap uuid A) (p : A -> bool) (r : A) :
  r ∈ rows t p <-> (exists i, t !! i = Some r) /\ p r = true.
Proof.
  unfold rows. rewrite list_elem_of_In, filter_In, <- list_elem_of_In, list_elem_of_fmap.
  split.
  - intros [([i r'] & -> & Hin) Hp]. apply elem_of_map_to_list in Hin. eauto.
  - intros [[i Hi] Hp]. split; [|done]. exists (i, r). split; [done|].
    by apply elem_of_map_to_list.
Qed.

Lemma exists_row_true {A} (t : gmap uuid A) (p : A -> bool) :
  exists_row t p = true <-> exists i r, t !! i = Some r /\ p r = true.
Proof.
  unfold exists_row. rewrite existsb_elem. setoid_rewrite list_elem_of_fmap. split.
  - intros (r & ([i r'] & -> & Hin) & Hp). apply elem_of_map_to_list in Hin. eauto.
  - intros (i & r & Hi & Hp). exists r. split; [|done]. exists (i, r).
    split; [done|]. by apply elem_of_map_to_list.
Qed.

Lemma exists_row_false {A} (t : gmap uuid A) (p : A -> bool) :
  exists_row t p = false <-> forall i r, t !! i = Some r -> p r = false.
Proof.
  rewrite <- not_true_iff_false, exists_row_true. split.
  - intros H i r Hi. destruct (p r) eqn:E; [|done]. exfalso. eauto.
  - intros H (i & r & Hi & Hp). apply H in Hi. congruence.
Qed.

Lemma row_ok {A} (t : gmap uuid A) (p : A -> bool) (r : A) :
  row t p = Ok r -> (exists i, t !! i = Some r) /\ p r = true.
Proof.
  unfold row. destruct (rows t p) as [|r' l] eqn:E; [done|]. intros [= ->].
  apply elem_of_rows. rewrite E. left.
Qed.

Lemma row_err {A} (t : gmap uuid A) (p : A -> bool) (e : error) :
  row t p = Err e -> e = ErrNoRows /\ forall i r, t !! i = Some r -> p r = false.
Proof.
  unfold row. destruct (rows t p) as [|r' l] eqn:E; [|done]. intros [= <-].
  split; [done|]. intros i r Hi. destruct (p r) eqn:Ep; [|done].
  assert (r ∈ rows t p) as Hin by (apply elem_of_rows; eauto).
  rewrite E in Hin. by apply not_elem_of_nil in Hin.
Qed.

Lemma count_rows_zero {A} (t : gmap uuid A) (p : A -> bool) :
  count_rows t p = 0%nat <-> forall i r, t !! i = Some r -> p r = false.
Proof.
  unfold count_rows. rewrite length_zero_iff_nil. split.
  - intros H i r Hi. destruct (p r) eqn:Ep; [|done].
    assert (r ∈ rows t p) as Hin by (apply elem_of_rows; eauto).
    rewrite H in Hin. by apply not_elem_of_nil in Hin.
  - intros H. destruct (rows t p) as [|r l] eqn:E; [done|].
    assert (r ∈ rows t p) as Hin by (rewrite E; left).
    apply elem_of_rows in Hin as [[i Hi] Hp]. apply H in Hi. congruence.
Qed.

Lemma filter_perm {A} (p : A -> bool) (l l' : list A) :
  l ≡ₚ l' -> List.filter p l ≡ₚ List.filter p l'.
Proof.
  induction 1 as [|a l l' _ IH|a b l|l1 l2 l3 _ IH1 _ IH2]; simpl; [done| | |by etrans].
  - destruct (p a); by rewrite ?IH.
  - destruct (p a), (p b); try done. apply Permutation_swap.
Qed.

Lemma filter_map {A B} (f : A -> B) (p : B -> bool) (l : list A) :
  List.filter p (map f l) = map f (List.filter (fun a => p (f a)) l).
Proof. induction l as [|a l IH]; simpl; [done|]. destruct (p (f a)); simpl; by rewrite IH. Qed.

Lemma filter_filter {A} (p q : A -> bool) (l : list A) :
  List.filter p (List.filter q l) = List.filter (fun a => q a && p a) l.
Proof.
  induction l as [|a l IH]; simpl; [done|]. destruct (q a); simpl; [|done].
  destruct (p a); by rewrite IH.
Qed.

Lemma map_snd_fmap {K A B} (f : A -> B) (l : list (K * A)) :
  map snd (prod_map id f <$> l) = map f (map snd l).
Proof. induction l as [|[k a] l IH]; simpl; [done|]. by rewrite <- IH. Qed.

(** The rows after an INSERT, and after an UPDATE that the selection does not
    notice. *)
Lemma rows_insert {A} (t : gmap uuid A) (p : A -> bool) i a :
  t !! i = None -> rows (<[i := a]> t) p ≡ₚ (if p a then [a] else []) ++ rows t p.
Proof.
  intros Hi. unfold rows.
  etrans; [apply filter_perm, Permutation_map, map_to_list_insert, Hi|].
  simpl. by destruct (p a).
Qed.

Lemma rows_update_where {A} (t : gmap uuid A) (p q : A -> bool) (f : A -> A) :
  (forall a, q (f a) = q a) ->
  rows (update_where f p t) q = map (fun a => if p a then f a else a) (rows t q).
Proof.
  intros Hq. unfold rows, update_where. rewrite map_to_list_fmap.
  rewrite map_snd_fmap, filter_map. f_equal. apply filter_ext. intros a. by destruct (p a).
Qed.

Lemma lookup_update_where {A} (f : A -> A) (p : A -> bool) (t : gmap uuid A) (i : uuid) :
  update_where f p t !! i = (fun a => if p a then f a else a) <$> t !! i.
Proof. unfold update_where. apply lookup_fmap. Qed.

Lemma lookup_delete_where {A} (p : A -> bool) (t : gmap uuid A) (i : uuid) (r : A) :
  delete_where p t !! i = Some r <-> t !! i = Some r /\ p r = false.
Proof. unfold delete_where. rewrite map_lookup_filter_Some. done. Qed.

Lemma insert_row_ok {A} (id : uuid) (r : A) (t t' : gmap uuid A) :
  insert_row id r t = Ok t' -> t !! id = None /\ t' = <[id := r]> t.
Proof. unfold insert_row. destruct (t !! id); [done|]. by intros [= <-]. Qed.

(** ** Reasoning about methods *)

(** [m] started in [w] ends with result [r] in [w']. *)
Definition runs {A} (m : M A) (w : World) (r : res error A) (w' : World) : Prop :=
  m w = (r, w').

Section runs.
Context {A B : Type}.
Implicit Types (m : M A) (k : A -> M B) (w : World).

Lemma bind_inv m k w r w' :
  bind m k w = (r, w') ->
  (exists a w1, m w = (Ok a, w1) /\ k a w1 = (r, w'))
  \/ (exists e, m w = (Err e, w') /\ r = Err e).
Proof.
  unfold bind. destruct (m w) as [[a|e] w1]; intros H; [left; eauto | right].
  simplify_eq. eauto.
Qed.

Lemma bind_ok m k w b w' :
  bind m k w = (Ok b, w') ->
  exists a w1, m w = (Ok a, w1) /\ k a w1 = (Ok b, w').
Proof. intros [?|(e & _ & ?)]%bind_inv; [done | discriminate]. Qed.

Lemma ret_inv (a : A) w r w' : ret a w = (r, w') -> r = Ok a /\ w' = w.
Proof. unfold ret. intros. by simplify_eq. Qed.

Lemma fail_inv e w (r : res error A) w' : fail e w = (r, w') -> r = Err e /\ w' = w.
Proof. unfold fail. intros. by simplify_eq. Qed.

Lemma attempt_inv m w r w' :
  attempt m w = (r, w') -> exists r', r = Ok r' /\ m w = (r', w').
Proof. unfold attempt. destruct (m w) as [r' w1]. intros. simplify_eq. eauto. Qed.

Lemma wrap_inv msg m w r w' :
  wrap msg m w = (r, w') ->
  (exists a, r = Ok a /\ m w = (Ok a, w'))
  \/ (exists e, r = Err (ErrWrap msg e) /\ m w = (Err e, w')).
Proof.
  unfold wrap, attempt, bind, ret, fail. destruct (m w) as [[a|e] w1];
    intros; simplify_eq; eauto.
Qed.

Lemma query_inv f w (r : res error A) w' :
  query f w = (r, w') ->
  w_db w' = w_db w /\ w_now w' = w_now w /\ w_redis w' = w_redis w /\
  w_rand w' = w_rand w /\ w_ctr w' = w_ctr w /\
  (r = Err ErrDriver \/ r = f (w_db w)).
Proof.
  unfold query, fault, get_db, bind, ret, fail.
  destruct (w_faults w) as [|[|] fs]; simpl; intros H; simplify_eq;
    try (by split_and!; auto).
  all: destruct (f (w_db w)); simplify_eq; split_and!; auto.
Qed.

Lemma exec_inv f w (r : res error A) w' :
  exec f w = (r, w') ->
  w_now w' = w_now w /\ w_redis w' = w_redis w /\
  w_rand w' = w_rand w /\ w_ctr w' = w_ctr w /\
  ((exists a d, r = Ok a /\ f (w_db w) = Ok (a, d) /\ w_db w' = d)
   \/ (exists e, r = Err e /\ w_db w' = w_db w /\ (e = ErrDriver \/ f (w_db w) = Err e))).
Proof.
  unfold exec, fault, get_db, put_db, bind, ret, fail.
  destruct (w_faults w) as [|[|] fs]; simpl; intros H; simplify_eq.
  2: by split_and!; auto; right; eauto.
  all: destruct (f (w_db w)) as [[a d]|e]; simplify_eq; simpl; split_and!; auto; eauto 10.
Qed.

Lemma wrap_ok msg m w a w' : wrap msg m w = (Ok a, w') -> m w = (Ok a, w').
Proof. intros [(a' & [= <-] & H)|(e & ? & _)]%wrap_inv; [exact H | discriminate]. Qed.

Lemma query_ok f w (a : A) w' :
  query f w = (Ok a, w') -> f (w_db w) = Ok a /\ w_db w' = w_db w.
Proof.
  intros (Hd & _ & _ & _ & _ & [H|H])%query_inv; [discriminate|]. done.
Qed.

Lemma exec_ok f w (a : A) w' : exec f w = (Ok a, w') -> f (w_db w) = Ok (a, w_db w').
Proof.
  intros (_ & _ & _ & _ & [(a' & d & Ha & Hf & Hd)|(e & ? & _)])%exec_inv; [|discriminate].
  rewrite Hf, Hd. congruence.
Qed.

Lemma tx_inv msg msg' m w (r : res error A) w' :
  tx msg msg' m w = (r, w') ->
  (exists a, r = Ok a /\ exists w0 w1, m w0 = (Ok a, w1) /\ w_db w0 = w_db w
     /\ w_now w0 = w_now w /\ w_db w' = w_db w1)
  \/ (exists e, r = Err e /\ w_db w' = w_db w).
Proof.
  unfold tx, wrap, attempt, fault, get_db, put_db, bind, ret, fail.
  intros H.
  destruct (w_faults w) as [|[|] fs]; simpl in H; simplify_eq; simpl; eauto.
  - destruct (m w) as [[a|e] w1] eqn:Em; simpl in H; simplify_eq; simpl; eauto.
    destruct (w_faults w1) as [|[|] fs1]; simplify_eq; simpl; eauto 10.
  - destruct (m _) as [[a|e] w1] eqn:Em; simpl in H; simplify_eq; simpl; eauto.
    destruct (w_faults w1) as [|[|] fs1]; simplify_eq; simpl;
      [left; eauto 10 | right; eauto | left; eauto 10].
Qed.
End runs.

Lemma rand_inv w r w' : rand w = (r, w') ->
  r = Ok (w_rand w (w_ctr w)) /\ w_db w' = w_db w /\ w_now w' = w_now w
  /\ w_redis w' = w_redis w.
Proof. unfold rand. intros [= <- <-]. done. Qed.

Lemma now_inv w r w' : now w = (r, w') -> r = Ok (w_now w) /\ w' = w.
Proof. unfold now. by intros [= <- <-]. Qed.

Lemma rand_hex_inv k w s w' : rand_hex k w = (Ok s, w') ->
  w_db w' = w_db w /\ w_now w' = w_now w.
Proof.
  intros (n & w1 & (_ & H1 & H2 & _)%rand_inv & [_ ->]%ret_inv)%bind_ok. done.
Qed.

Lemma ignore_inv {A} (m : M A) w r w' :
  ignore m w = (r, w') -> r = Ok tt /\ exists r0, m w = (r0, w').
Proof.
  unfold ignore, attempt, bind, ret. destruct (m w) as [r0 w1]. intros [= <- <-]. eauto.
Qed.

Lemma tx_if_inv msg ce (m : M bool) w r w' :
  tx_if msg ce m w = (r, w') ->
  (r = Ok tt /\ exists w0 w1 b, m w0 = (Ok b, w1) /\ w_db w0 = w_db w
     /\ w_now w0 = w_now w /\ w_db w' = if b then w_db w1 else w_db w)
  \/ (exists e, r = Err e /\ w_db w' = w_db w).
Proof.
  unfold tx_if, wrap, attempt, fault, get_db, put_db, bind, ret, fail. intros H.
  assert (Hm : forall w0, w_db w0 = w_db w -> w_now w0 = w_now w ->
    match m w0 with
    | (Err e, w1) => r = Err e /\ w' = with_db (w_db w) w1
    | (Ok false, w1) => r = Ok tt /\ w' = with_db (w_db w) w1
    | (Ok true, w1) => (r = Ok tt /\ w_db w' = w_db w1)
                       \/ (exists e, r = Err e /\ w_db w' = w_db w)
    end ->
    (r = Ok tt /\ exists w0 w1 b, m w0 = (Ok b, w1) /\ w_db w0 = w_db w
     /\ w_now w0 = w_now w /\ w_db w' = if b then w_db w1 else w_db w)
    \/ (exists e, r = Err e /\ w_db w' = w_db w)).
  { intros w0 Hd Hn. destruct (m w0) as [[[|]|e] w1] eqn:Em.
    - intros [[-> Hw']|?]; [|by right]. left. split; [done|]. by exists w0, w1, true.
    - intros [-> ->]. left. split; [done|]. by exists w0, w1, false.
    - intros [-> ->]. right. eauto. }
  destruct (w_faults w) as [|[|] fs]; simpl in H.
  - apply (Hm w); [done | done|].
    destruct (m w) as [[[|]|e] w1]; [|by injection H as <- <-..].
    destruct (w_faults w1) as [|[|] fs1]; injection H as <- <-; eauto.
  - injection H as <- <-. right. eauto.
  - apply (Hm (with_faults fs w)); [done | done|].
    destruct (m (with_faults fs w)) as [[[|]|e] w1]; [|by injection H as <- <-..].
    destruct (w_faults w1) as [|[|] fs1]; injection H as <- <-; eauto.
Qed.

(** ** Runs without faults *)

(** No database call of the run fails. *)
Definition healthy (w : World) : Prop := w_faults w = [].

Lemma query_healthy {A} (f : DB -> res error A) w :
  healthy w -> query f w = (f (w_db w), w).
Proof.
  unfold healthy, query, fault, get_db, bind, ret, fail. intros ->.
  by destruct (f (w_db w)).
Qed.

Lemma exec_healthy {A} (f : DB -> res error (A * DB)) w :
  healthy w ->
  exec f w = match f (w_db w) with
             | Ok (a, d) => (Ok a, with_db d w)
             | Err e => (Err e, w)
             end.
Proof.
  unfold healthy, exec, fault, get_db, put_db, bind, ret, fail. intros ->.
  destruct (f (w_db w)) as [[a d]|e]; done.
Qed.

Lemma exec_healthy_ok {A} (f : DB -> res error (A * DB)) w a d :
  healthy w -> f (w_db w) = Ok (a, d) -> exec f w = (Ok a, with_db d w).
Proof. intros Hw Hf. rewrite exec_healthy by done. by rewrite Hf. Qed.

Lemma bind_run {A B} (m : M A) (k : A -> M B) w r w1 :
  m w = (r, w1) ->
  bind m k w = match r with Ok a => k a w1 | Err e => (Err e, w1) end.
Proof. intros H. unfold bind. rewrite H. by destruct r. Qed.

Lemma attempt_run {A} (m : M A) w r w1 : m w = (r, w1) -> attempt m w = (Ok r, w1).
Proof. intros H. unfold attempt. by rewrite H. Qed.

Lemma wrap_run {A} msg (m : M A) w r w1 :
  m w = (r, w1) ->
  wrap msg m w = (match r with Ok a => Ok a | Err e => Err (ErrWrap msg e) end, w1).
Proof.
  intros H. unfold wrap. rewrite (bind_run _ _ _ _ _ (attempt_run _ _ _ _ H)). by destruct r.
Qed.

Lemma wrap_run_ok {A} msg (m : M A) w a w1 : m w = (Ok a, w1) -> wrap msg m w = (Ok a, w1).
Proof. intros H. by erewrite wrap_run by exact H. Qed.

(** A healthy transaction is its body, undone when the body fails. *)
Lemma tx_healthy {A} msg ce (m : M A) w r w1 :
  healthy w -> m w = (r, w1) -> healthy w1 ->
  tx msg ce m w = match r with
                  | Ok a => (Ok a, w1)
                  | Err e => (Err e, with_db (w_db w) w1)
                  end.
Proof.
  unfold healthy. intros Hw Hm H1.
  unfold tx, wrap, attempt, fault, get_db, put_db, bind, ret, fail.
  rewrite Hw. cbv beta iota. rewrite Hm. destruct r; [|done]. by rewrite H1.
Qed.

(** [inv_run H] takes one step of the run [H] apart and keeps what is known
    of the world. *)
Ltac inv_run :=
  match goal with
  | H : bind _ _ _ = (Ok _, _) |- _ =>
    apply bind_ok in H; destruct H as (? & ? & ? & H); cbn beta in H
  | H : ret _ _ = (_, _) |- _ => apply ret_inv in H; destruct H; simplify_eq
  | H : fail _ _ = (_, _) |- _ => apply fail_inv in H; destruct H; simplify_eq
  | H : attempt _ _ = (_, _) |- _ =>
    apply attempt_inv in H; destruct H as (? & ? & H); simplify_eq
  end.

(** ** Invariants of the database

    [preserves I m]: a run of [m] keeps the database invariant [I], whether it
    succeeds or fails. *)
Definition preserves {A} (I : DB -> Prop) (m : M A) : Prop :=
  forall w, I (w_db w) -> I (w_db (snd (m w))).

Section preserves.
Context (I : DB -> Prop).

Lemma preserves_ret {A} (a : A) : preserves I (ret a).
Proof. by intros w H. Qed.

Lemma preserves_fail {A} e : preserves I (@fail A e).
Proof. by intros w H. Qed.

Lemma preserves_bind {A B} (m : M A) (k : A -> M B) :
  preserves I m -> (forall a, preserves I (k a)) -> preserves I (bind m k).
Proof.
  intros Hm Hk w Hw. unfold bind. specialize (Hm w Hw).
  destruct (m w) as [[a|e] w1]; simpl in *; [by apply Hk | done].
Qed.

(** With a postcondition of the first method. *)
Lemma preserves_bind_post {A B} (Q : A -> Prop) (m : M A) (k : A -> M B) :
  (forall w a w', m w = (Ok a, w') -> Q a) ->
  preserves I m -> (forall a, Q a -> preserves I (k a)) -> preserves I (bind m k).
Proof.
  intros HQ Hm Hk w Hw. unfold bind. specialize (Hm w Hw).
  destruct (m w) as [[a|e] w1] eqn:E; simpl in *; [|done]. apply Hk; [|done]. eauto.
Qed.

(** The same with a postcondition that the invariant implies. *)
Lemma preserves_bind_inv {A B} (Q : A -> Prop) (m : M A) (k : A -> M B) :
  (forall w a w', I (w_db w) -> m w = (Ok a, w') -> Q a) ->
  preserves I m -> (forall a, Q a -> preserves I (k a)) -> preserves I (bind m k).
Proof.
  intros HQ Hm Hk w Hw. unfold bind. specialize (Hm w Hw).
  destruct (m w) as [[a|e] w1] eqn:E; simpl in *; [|done]. apply Hk; [|done]. eauto.
Qed.

Lemma preserves_attempt {A} (m : M A) : preserves I m -> preserves I (attempt m).
Proof.
  intros Hm w Hw. unfold attempt. specialize (Hm w Hw). by destruct (m w).
Qed.

Lemma preserves_ignore {A} (m : M A) : preserves I m -> preserves I (ignore m).
Proof.
  intros Hm. apply preserves_bind; [by apply preserves_attempt | intros; apply preserves_ret].
Qed.

Lemma preserves_wrap {A} msg (m : M A) : preserves I m -> preserves I (wrap msg m).
Proof.
  intros Hm. apply preserves_bind; [by apply preserves_attempt|].
  intros [a|e]; [apply preserves_ret | apply preserves_fail].
Qed.

Lemma preserves_now : preserves I now.
Proof. by intros w H. Qed.

Lemma preserves_rand : preserves I rand.
Proof. by intros w H. Qed.

Lemma preserves_rand_hex k : preserves I (rand_hex k).
Proof. by intros w H. Qed.

Lemma preserves_redis_set k v t : preserves I (redis_set k v t).
Proof.
  intros w Hw. unfold redis_set, fault, bind, fail.
  by destruct (w_faults w) as [|[|] fs].
Qed.

Lemma preserves_redis_get k : preserves I (redis_get k).
Proof.
  intros w Hw. unfold redis_get, fault, bind, fail.
  by destruct (w_faults w) as [|[|] fs].
Qed.

Lemma preserves_sleep d : preserves I (sleep d).
Proof. by intros w H. Qed.

Lemma preserves_send r : preserves I (send r).
Proof. by intros w H. Qed.

Lemma preserves_get_link : preserves I get_link.
Proof. by intros w H. Qed.

Lemma preserves_put_link l : preserves I (put_link l).
Proof. by intros w H. Qed.

Lemma preserves_query {A} (f : DB -> res error A) : preserves I (query f).
Proof.
  intros w Hw. destruct (query f w) as [r w'] eqn:E. simpl.
  apply query_inv in E as (-> & _). done.
Qed.

Lemma preserves_exec {A} (f : DB -> res error (A * DB)) :
  (forall d a d', I d -> f d = Ok (a, d') -> I d') -> preserves I (exec f).
Proof.
  intros Hf w Hw. destruct (exec f w) as [r w'] eqn:E. simpl.
  apply exec_inv in E as (_ & _ & _ & _ & [(a & d & -> & Hd & <-)|(e & -> & -> & _)]);
    simpl; eauto.
Qed.

Lemma preserves_tx {A} msg msg' (m : M A) : preserves I m -> preserves I (tx msg msg' m).
Proof.
  intros Hm w Hw. destruct (tx msg msg' m w) as [r w'] eqn:E. simpl.
  apply tx_inv in E as [(a & -> & w0 & w1 & Hr & Hd & _ & ->)|(e & -> & ->)]; [|done].
  specialize (Hm w0). rewrite Hr, Hd in Hm. simpl in *. auto.
Qed.

Lemma preserves_tx_if msg ce (m : M bool) : preserves I m -> preserves I (tx_if msg ce m).
Proof.
  intros Hm w Hw. destruct (tx_if msg ce m w) as [r w'] eqn:E. simpl.
  apply tx_if_inv in E as [(-> & w0 & w1 & b & Hr & Hd & _ & ->)|(e & -> & ->)]; [|done].
  specialize (Hm w0). rewrite Hr, Hd in Hm. destruct b; [|done]. simpl in *. auto.
Qed.

Lemma preserves_fault : preserves I fault.
Proof. intros w Hw. unfold fault. by destruct (w_faults w) as [|b fs]. Qed.

Lemma preserves_bare_tx_if {A} commit (m : M A) : preserves I m -> preserves I (bare_tx_if commit m).
Proof.
  intros Hm w Hw. unfold bare_tx_if, bind at 1. pose proof (preserves_fault w Hw) as Hf.
  destruct (fault w) as [[b|e] w0]; cbn [snd] in *; [|done]. destruct b; [done|].
  unfold get_db, attempt, bind. specialize (Hm w0 Hf). destruct (m w0) as [[a|e] w1]; cbn [snd] in *; [|done].
  destruct (negb (commit a)); [done|]. pose proof (preserves_fault w1 Hm) as Hf1.
  destruct (fault w1) as [[b'|e'] w2]; cbn [snd] in *; [|done]. by destruct b'.
Qed.
End preserves.

(** From [J] at the start, [m] leads to [I], whether it succeeds or fails. *)
Definition leads {A} (J I : DB -> Prop) (m : M A) : Prop :=
  forall w, J (w_db w) -> I (w_db (snd (m w))).

Lemma leads_bind {A B} (J I : DB -> Prop) (Q : A -> Prop) (m : M A) (k : A -> M B) :
  (forall d, J d -> I d) -> (forall w a w', J (w_db w) -> m w = (Ok a, w') -> Q a) ->
  preserves J m -> (forall a, Q a -> leads J I (k a)) -> leads J I (bind m k).
Proof.
  intros HJ HQ Hm Hk w Hw. unfold bind. specialize (Hm w Hw).
  destruct (m w) as [[a|e] w1] eqn:E; simpl in *; [|by apply HJ]. apply Hk; [|done]. eauto.
Qed.

Lemma leads_exec {A} (J I : DB -> Prop) (f : DB -> res error (A * DB)) :
  (forall d, J d -> I d) -> (forall d a d', J d -> f d = Ok (a, d') -> I d') -> leads J I (exec f).
Proof.
  intros HJ Hf w Hw. destruct (exec f w) as [r w'] eqn:E. simpl.
  apply exec_inv in E as (_ & _ & _ & _ & [(a & d & -> & Hd & <-)|(e & -> & -> & _)]); simpl; eauto.
Qed.

#[export] Hint Resolve preserves_ret preserves_fail preserves_bind preserves_attempt
  preserves_ignore preserves_wrap preserves_now preserves_rand preserves_rand_hex
  preserves_query preserves_tx : panel.

(** Proves that a method preserves an invariant from its statements. *)
Ltac solve_preserves :=
  repeat lazymatch goal with
  | |- preserves _ (bind _ _) => apply preserves_bind; [|intros]
  | |- preserves _ (ret _) => apply preserves_ret
  | |- preserves _ (fail _) => apply preserves_fail
  | |- preserves _ now => apply preserves_now
  | |- preserves _ (redis_set _ _ _) => apply preserves_redis_set
  | |- preserves _ (redis_get _) => apply preserves_redis_get
  | |- preserves _ (sleep _) => apply preserves_sleep
  | |- preserves _ rand => apply preserves_rand
  | |- preserves _ new_uuid => apply preserves_rand
  | |- preserves _ (rand_hex _) => apply preserves_rand_hex
  | |- preserves _ (query _) => apply preserves_query
  | |- preserves _ (send _) => apply preserves_send
  | |- preserves _ get_link => apply preserves_get_link
  | |- preserves _ (put_link _) => apply preserves_put_link
  | |- preserves _ (attempt _) => apply preserves_attempt
  | |- preserves _ (ignore _) => apply preserves_ignore
  | |- preserves _ (wrap _ _) => apply preserves_wrap
  | |- preserves _ (tx _ _ _) => apply preserves_tx
  | |- preserves _ (tx_if _ _ _) => apply preserves_tx_if
  | |- preserves _ (bare_tx_if _ _) => apply preserves_bare_tx_if
  | |- preserves _ (bare_tx _) => apply preserves_bare_tx_if
  | |- preserves _ (match ?x with _ => _ end) => destruct x
  end.

(** ** The clock

    Only a wait moves it: [timeless m] says a run of [m] takes no time. *)
Definition timeless {A} (m : M A) : Prop := forall w, w_now (snd (m w)) = w_now w.

Lemma timeless_bind {A B} (m : M A) (k : A -> M B) :
  timeless m -> (forall a, timeless (k a)) -> timeless (bind m k).
Proof.
  intros Hm Hk w. unfold bind. specialize (Hm w). destruct (m w) as [[a|e] w1]; simpl in *; [|done].
  by rewrite Hk.
Qed.

Lemma timeless_attempt {A} (m : M A) : timeless m -> timeless (attempt m).
Proof. intros Hm w. unfold attempt. specialize (Hm w). by destruct (m w). Qed.

Lemma timeless_wrap {A} msg (m : M A) : timeless m -> timeless (wrap msg m).
Proof. intros Hm. apply timeless_bind; [by apply timeless_attempt|]. by intros [a|e]. Qed.

Lemma timeless_ignore {A} (m : M A) : timeless m -> timeless (ignore m).
Proof. intros Hm. apply timeless_bind; [by apply timeless_attempt|]. by intros r. Qed.

Lemma timeless_query {A} (f : DB -> res error A) : timeless (query f).
Proof. intros w. destruct (query f w) as [r w'] eqn:E. by apply query_inv in E as (_ & Hn & _). Qed.

Lemma timeless_exec {A} (f : DB -> res error (A * DB)) : timeless (exec f).
Proof. intros w. destruct (exec f w) as [r w'] eqn:E. by apply exec_inv in E as (Hn & _). Qed.

Lemma timeless_tx {A} msg ce (m : M A) : timeless m -> timeless (tx msg ce m).
Proof.
  intros Hm. unfold tx. apply timeless_bind.
  { apply timeless_wrap, timeless_bind; [by intros w; unfold fault; destruct (w_faults w)|]. by intros []. }
  intros _. apply timeless_bind; [done|]. intros d. apply timeless_bind; [by apply timeless_attempt|].
  intros [a|e]; apply timeless_bind; try done; [by intros w; unfold fault; destruct (w_faults w)|].
  intros []; [by apply timeless_bind | done].
Qed.

Ltac solve_timeless :=
  repeat lazymatch goal with
  | |- timeless (bind _ _) => apply timeless_bind; [|intros]
  | |- timeless (query _) => apply timeless_query
  | |- timeless (exec _) => apply timeless_exec
  | |- timeless (attempt _) => apply timeless_attempt
  | |- timeless (ignore _) => apply timeless_ignore
  | |- timeless (wrap _ _) => apply timeless_wrap
  | |- timeless (tx _ _ _) => apply timeless_tx
  | |- timeless (match ?x with _ => _ end) => destruct x
  | |- timeless _ => done
  end.

(** ** Framing

    [frames L Q m]: a run of [m] takes no time, stays without faults if it
    started without, and changes the nodes and the database only as the
    preorders [L] and [Q] allow. *)
Definition framed (L : Link -> Link -> Prop) (Q : DB -> DB -> Prop) (w w' : World) : Prop :=
  (healthy w -> healthy w') /\ w_now w' = w_now w /\ L (w_link w) (w_link w') /\ Q (w_db w) (w_db w').

Definition frames {A} (L : Link -> Link -> Prop) (Q : DB -> DB -> Prop) (m : M A) : Prop :=
  forall w, framed L Q w (snd (m w)).

(** Requests are sent; clients and network stay. *)
Definition sending (l l' : Link) : Prop :=
  pool_clients l' = pool_clients l /\ link_net l' = link_net l /\ exists reqs, link_sent l' = link_sent l ++ reqs.

#[export] Instance sending_preorder : PreOrder sending.
Proof.
  split; [intros l; repeat split; exists []; by rewrite app_nil_r|].
  intros a b c (? & ? & r1 & H1) (? & ? & r2 & H2). repeat split; [congruence.. | exists (r1 ++ r2)].
  by rewrite H2, H1, app_assoc.
Qed.

Lemma sending_send (r : Request) (l : Link) : sending l (link_with_sent (link_sent l ++ [r]) l).
Proof. repeat split. by exists [r]. Qed.

Section frames.
Context (L : Link -> Link -> Prop) (Q : DB -> DB -> Prop) `{!PreOrder L} `{!PreOrder Q}.

Lemma framed_refl w : framed L Q w w.
Proof. by repeat split. Qed.

Lemma framed_trans w1 w2 w3 : framed L Q w1 w2 -> framed L Q w2 w3 -> framed L Q w1 w3.
Proof.
  intros (H1 & H2 & H3 & H4) (G1 & G2 & G3 & G4). repeat split; [auto | congruence | by etrans | by etrans].
Qed.

Lemma frames_ret {A} (a : A) : frames L Q (ret a).
Proof. intros w. apply framed_refl. Qed.

Lemma frames_fail {A} e : frames L Q (@fail A e).
Proof. intros w. apply framed_refl. Qed.

Lemma frames_bind {A B} (m : M A) (k : A -> M B) :
  frames L Q m -> (forall a, frames L Q (k a)) -> frames L Q (bind m k).
Proof.
  intros Hm Hk w. unfold bind. specialize (Hm w). destruct (m w) as [[a|e] w1]; cbn [snd] in *; [|done].
  eapply framed_trans; [done | apply Hk].
Qed.

Lemma frames_attempt {A} (m : M A) : frames L Q m -> frames L Q (attempt m).
Proof. intros Hm w. unfold attempt. specialize (Hm w). by destruct (m w). Qed.

Lemma frames_wrap {A} msg (m : M A) : frames L Q m -> frames L Q (wrap msg m).
Proof.
  intros Hm. apply frames_bind; [by apply frames_attempt|]. intros [a|e]; [apply frames_ret | apply frames_fail].
Qed.

Lemma frames_ignore {A} (m : M A) : frames L Q m -> frames L Q (ignore m).
Proof. intros Hm. apply frames_bind; [by apply frames_attempt|]. intros r. apply frames_ret. Qed.

Lemma frames_now : frames L Q now.
Proof. intros w. apply framed_refl. Qed.

Lemma frames_rand : frames L Q rand.
Proof. intros w. by repeat split. Qed.

Lemma frames_fault : frames L Q fault.
Proof.
  intros w. unfold fault. destruct (w_faults w) as [|b fs] eqn:E; cbn [snd]; [apply framed_refl|].
  repeat split; try done. unfold healthy. congruence.
Qed.

Lemma frames_get_db : frames L Q get_db.
Proof. intros w. apply framed_refl. Qed.

Lemma frames_get_link : frames L Q get_link.
Proof. intros w. apply framed_refl. Qed.

Lemma frames_send r : (forall l, L l (link_with_sent (link_sent l ++ [r]) l)) -> frames L Q (send r).
Proof. intros Hl w. by repeat split. Qed.

Lemma frames_query {A} (f : DB -> res error A) : frames L Q (query f).
Proof.
  apply frames_bind; [apply frames_fault|]. intros []; [apply frames_fail|].
  apply frames_bind; [apply frames_get_db|]. intros d. destruct (f d); [apply frames_ret | apply frames_fail].
Qed.

Lemma frames_exec {A} (f : DB -> res error (A * DB)) :
  (forall d a d', f d = Ok (a, d') -> Q d d') -> frames L Q (exec f).
Proof.
  intros Hf. apply frames_bind; [apply frames_fault|]. intros []; [apply frames_fail|].
  intros w. unfold bind, get_db, put_db. destruct (f (w_db w)) as [[a d']|e] eqn:E; [|apply framed_refl].
  cbn. repeat split; try done. by eapply Hf.
Qed.

Lemma frames_bare_tx_if {A} commit (m : M A) : frames L Q m -> frames L Q (bare_tx_if commit m).
Proof.
  intros Hm. apply frames_bind; [apply frames_fault|]. intros []; [apply frames_fail|]. intros w.
  assert (Hback : forall w', framed L Q w w' -> framed L Q w (with_db (w_db w) w'))
    by (intros w' (? & ? & ? & _); by repeat split).
  unfold bind at 1, get_db. unfold bind at 1, attempt. specialize (Hm w). destruct (m w) as [[a|e] w1]; cbn [snd] in *.
  - destruct (negb (commit a)); [by apply Hback|]. unfold bind. pose proof (frames_fault w1) as Hf.
    destruct (fault w1) as [[b|e] w2]; cbn [snd] in *; [|by eapply framed_trans]. 
    destruct b; [apply Hback|]; by eapply framed_trans.
  - by apply Hback.
Qed.
End frames.

(** Proves a framing from the statements of a method; the changes of the
    database are left as goals. *)
Ltac solve_frames :=
  repeat lazymatch goal with
  | |- frames _ _ (bind _ _) => apply frames_bind; [tc_solve.. | |intros]
  | |- frames _ _ (ret _) => apply frames_ret; tc_solve
  | |- frames _ _ (fail _) => apply frames_fail; tc_solve
  | |- frames _ _ now => apply frames_now; tc_solve
  | |- frames _ _ rand => apply frames_rand; tc_solve
  | |- frames _ _ new_uuid => apply frames_rand; tc_solve
  | |- frames _ _ get_link => apply frames_get_link; tc_solve
  | |- frames _ _ (send _) => apply frames_send; [tc_solve..|]; try exact (sending_send _)
  | |- frames _ _ (query _) => apply frames_query; tc_solve
  | |- frames _ _ (exec _) => apply frames_exec; [tc_solve..|]
  | |- frames _ _ (attempt _) => apply frames_attempt
  | |- frames _ _ (ignore _) => apply frames_ignore; [tc_solve..|]
  | |- frames _ _ (wrap _ _) => apply frames_wrap; [tc_solve..|]
  | |- frames _ _ (bare_tx_if _ _) => apply frames_bare_tx_if; [tc_solve..|]
  | |- frames _ _ (match ?x with _ => _ end) => destruct x
  end.

(** ** Texts

    A text PostgreSQL stores: UTF-8 without a NUL byte; a statement with any
    other text parameter is refused. *)
Definition sql_text (s : string) : bool :=
  ValidUTF8 s && str_forallb (fun a => negb (byte_of a =? 0)) s.

Definition text_param {A} (s : string) (r : res error A) : res error A :=
  if sql_text s then r else Err (ErrConstraint "invalid byte sequence for encoding UTF8").

(** ** An empty installation *)

Definition empty_db : DB :=
  mkDB ∅ ∅ ∅ ∅ ∅ ∅ ∅ ∅ ∅ ∅ [] ∅ ∅ ∅ ∅ ∅ ∅ [] ∅ [] [] ∅ ∅ ∅ ∅ None ∅ ∅ ∅.

Definition empty_world : World := mkWorld empty_db ∅ 0 [] N.of_nat 0.

(** ** Sample rows *)

Definition sample_node (id : uuid) : Node :=
  mkNode id "node" "10.0.0.9" None 8444 None None 8 16384 100000 10 "online" None 0 "{}" false
    None None "".

Definition sample_server (id node owner : uuid) : Server :=
  mkServer id "srv" node owner "stopped" "latest" 0 2048 10240 5520 "/srv" true 3 300 "" 0 0 "{}"
    "" [] false None None false.
