(* ===== verification/Roles.v ===== *)
(** * Roles and console commands

    Models the role constants of [models/models.go] and
    [models/console_roles.go]: which role a console line needs and which role
    a user acts with on a server's console. *)

From stdpp Require Import base numbers list strings option gmap sets.
From S2P Require Import Prelude GoStrings Store.

Local Open Scope Z_scope.

(** ** Role and status constants *)

Definition RoleUser : string := "user".
Definition RoleModerator : string := "moderator".
Definition RoleAdmin : string := "admin".
Definition RoleOwner : string := "owner".

Definition RoleWeight (role : string) : Z :=
  if String.eqb role RoleOwner then 4
  else if String.eqb role RoleAdmin then 3
  else if String.eqb role RoleModerator then 2
  else if String.eqb role RoleUser then 1
  else 0.

Definition StatusInstalling : string := "installing".
Definition StatusStopped : string := "stopped".
Definition StatusStarting : string := "starting".
Definition StatusRunning : string := "running".
Definition StatusStopping : string := "stopping".
Definition StatusCrashed : string := "crashed".

Definition ExitCodeNeedsReinstall (code : Z) : bool := (code =? 8) || (code =? 11).

(** [models.RoleWeight(role) >= models.RoleWeight(models.RoleAdmin)]. *)
Definition is_staff (role : string) : bool := RoleWeight RoleAdmin <=? RoleWeight role.

Lemma is_staff_spec (role : string) :
  is_staff role = true <-> role = RoleOwner \/ role = RoleAdmin.
Proof.
  unfold is_staff, RoleWeight. change (RoleAdmin =? RoleOwner)%string with false.
  change (RoleAdmin =? RoleAdmin)%string with true. cbn iota.
  split.
  - intros H. case_ifs; breflect; auto; lia.
  - intros [-> | ->]; done.
Qed.

(** ** Console commands *)

Definition moderatorConsoleVerbs : list string :=
  ["kick"; "ban"; "unban"; "whitelist"; "time"; "weather"; "teleport"; "say"].

Section console.
Context `{Unicode}.

Definition ConsoleCommandMinRole (cmd : string) : string :=
  match Fields (ToLower cmd) with
  | [] => RoleAdmin
  | f0 :: rest =>
    let verb := TrimPrefix f0 "/" in
    if String.eqb verb "help" then RoleUser
    else if String.eqb verb "world" &&
            match rest with f1 :: _ => String.eqb f1 "save" | [] => false end
    then RoleUser
    else if contains moderatorConsoleVerbs verb then RoleModerator
    else RoleAdmin
  end.

Definition ConsoleRole (user : User) (serverOwnerID : uuid) : string :=
  if String.eqb (user_Role user) RoleOwner || String.eqb (user_Role user) RoleAdmin
     || (user_ID user =? serverOwnerID)%N
  then RoleAdmin
  else user_Role user.

Definition CanRunConsoleCommand (role cmd : string) : bool :=
  RoleWeight (ConsoleCommandMinRole cmd) <=? RoleWeight role.

(** The verb the console runs for a line: the first word, lower-cased,
    without one leading slash. *)
Definition console_verb (cmd : string) : option string :=
  match Fields (ToLower cmd) with
  | [] => None
  | f0 :: _ => Some (TrimPrefix f0 "/")
  end.

Lemma ConsoleRole_weight (user : User) (owner : uuid) :
  RoleWeight RoleAdmin <= RoleWeight (ConsoleRole user owner) ->
  is_staff (user_Role user) = true \/ user_ID user = owner.
Proof.
  unfold ConsoleRole, is_staff. destruct (_ || _) eqn:E.
  - breflect. intros _. destruct E as [E|E]; breflect; [left|by right].
    destruct E as [E|E]; breflect; rewrite E; done.
  - intros Hw. left. by apply Z.leb_le.
Qed.

Lemma min_role_weight (cmd : string) :
  RoleWeight (ConsoleCommandMinRole cmd) = RoleWeight RoleAdmin
  \/ exists verb, console_verb cmd = Some verb
     /\ (verb ∈ moderatorConsoleVerbs \/ verb = "help" \/ verb = "world").
Proof.
  unfold ConsoleCommandMinRole, console_verb.
  destruct (Fields (ToLower cmd)) as [|f0 rest]; [by left|].
  destruct (String.eqb _ "help") eqn:E1; [right; breflect; eauto|].
  destruct (String.eqb _ "world") eqn:E2; simpl.
  - breflect. right. eauto.
  - destruct (contains _ _) eqn:E3; [|by left]. right.
    apply contains_spec in E3. eauto.
Qed.
End console.

(** The console allowlist: whoever runs a command whose verb is not one
    of the eight moderation verbs, [help] or [world] acts with at least the
    admin role, hence is cluster staff or the owner of that server.  New or
    unknown commands are admin-only, whatever the Unicode tables map. *)
Theorem console_allowlist `{Unicode} (user : User) (owner : uuid) (cmd : string) :
  CanRunConsoleCommand (ConsoleRole user owner) cmd = true ->
  (forall verb, console_verb cmd = Some verb ->
     (verb ∉ moderatorConsoleVerbs) /\ verb <> "help" /\ verb <> "world") ->
  is_staff (user_Role user) = true \/ user_ID user = owner.
Proof.
  intros Hrun Hverb. apply ConsoleRole_weight.
  unfold CanRunConsoleCommand in Hrun. apply Z.leb_le in Hrun.
  destruct (min_role_weight cmd) as [<-|(verb & Hv & Hin)]; [done|].
  destruct (Hverb verb Hv) as (H1 & H2 & H3). tauto.
Qed.

Definition sample_user (id : uuid) (role : string) : User :=
  mkUser id "a@example.com" "alice" "" role "" false 0 None true None None "en" "UTC".

Lemma console_allowlist_witness :
  is_staff (user_Role (sample_user 7 RoleUser)) = true
  \/ user_ID (sample_user 7 RoleUser) = 7%N.
Proof.
  apply (@console_allowlist ascii_tables (sample_user 7 RoleUser) 7%N "/Stop now").
  - reflexivity.
  - intros verb Hv. vm_compute in Hv. injection Hv as <-.
    split_and!; [|discriminate|discriminate].
    apply (bool_decide_unpack _). vm_compute. exact Logic.I.
Defined.
