(* ===== verification/Permissions.v ===== *)
(** * Permissions

    Models [services/permission_service.go]: the global and per-server
    permission checks, the management of overrides, and the permission maps
    of the server member roles. *)

From stdpp Require Import base numbers list strings option gmap sets.
From S2P Require Import Prelude GoStrings Store Roles.

Local Open Scope Z_scope.

(** ** Checks *)

(** [HasPermission]: owner, then the user's override, then the role default.
    Any error of the override query falls through to the role default. *)
Definition HasPermission (user : User) (perm : string) : M bool :=
  if String.eqb (user_Role user) RoleOwner then ret true
  else
    let* granted := attempt (query (fun d =>
      match user_permissions d !! (user_ID user, perm) with
      | Some g => Ok g
      | None => Err ErrNoRows
      end)) in
    match granted with
    | Ok g => ret g
    | Err _ =>
      let* count := wrap "checking role permission" (query (fun d =>
        Ok (if decide ((user_Role user, perm) ∈ role_permissions d) then 1 else 0))) in
      ret (0 <? count)
    end.

(** [HasServerPermission]: staff, owner of the server, then membership with
    the per-server override before the global role default. *)
Definition HasServerPermission (user : User) (serverID : uuid) (perm : string) : M bool :=
  if String.eqb (user_Role user) RoleOwner || String.eqb (user_Role user) RoleAdmin
  then ret true
  else
    let* isOwner := wrap "checking server ownership" (query (fun d =>
      Ok match servers d !! serverID with
         | Some s => (server_OwnerID s =? user_ID user)%N
         | None => false
         end)) in
    if (isOwner : bool) then ret true
    else
      let* m := attempt (query (fun d =>
        match server_members d !! (serverID, user_ID user) with
        | Some m => Ok m
        | None => Err ErrNoRows
        end)) in
      match m with
      | Err e =>
        if error_Is e ErrNoRows then ret false
        else fail (ErrWrap "checking server membership" e)
      | Ok m =>
        if decide (member_Permissions m = ∅) then HasPermission user perm
        else match member_Permissions m !! perm with
             | Some v => ret v
             | None => HasPermission user perm
             end
      end.

(** ** Overrides *)

Definition SetUserPermission (userID : uuid) (permKey : string) (granted : bool) : M unit :=
  wrap "setting user permission" (exec (fun d =>
    if decide (is_Some (users d !! userID)) then
      if decide (permKey ∈ permissions d) then
        Ok (tt, with_user_permissions (<[(userID, permKey) := granted]> (user_permissions d)) d)
      else Err (ErrConstraint "user_permissions_perm_key_fkey")
    else Err (ErrConstraint "user_permissions_user_id_fkey"))).

Definition DeleteUserPermission (userID : uuid) (permKey : string) : M unit :=
  exec (fun d =>
    Ok (tt, with_user_permissions (delete (userID, permKey) (user_permissions d)) d)).

Definition SetServerMemberPermissions (serverID userID : uuid) (perms : gmap string bool)
  : M unit :=
  let* n := wrap "updating server member permissions" (exec (fun d =>
    match server_members d !! (serverID, userID) with
    | Some m => Ok (1, with_server_members
        (<[(serverID, userID) := member_with_Permissions perms m]> (server_members d)) d)
    | None => Ok (0, d)
    end)) in
  if n =? 0 then fail (ErrNew "server member not found") else ret tt.

(** ** Member roles *)

Definition ErrInvalidMemberRole : error := ErrNew "role must be viewer, moderator or admin".

Definition ServerScopedPermissions : list string :=
  ["server.view"; "server.manage"; "server.start"; "server.stop";
   "server.console"; "server.files"; "server.delete";
   "mod.install"; "mod.remove";
   "backup.create"; "backup.restore";
   "player.ban"; "player.whitelist";
   "database.view"; "database.reset"].

Definition serverMemberRoleGrants (role : string) : option (list string) :=
  if String.eqb role "viewer" then Some ["server.view"]
  else if String.eqb role "moderator" then
    Some ["server.view"; "server.start"; "server.stop"; "server.console";
          "mod.install"; "mod.remove"; "backup.create";
          "player.ban"; "player.whitelist"; "database.view"]
  else if String.eqb role "admin" then
    Some ["server.view"; "server.manage"; "server.start"; "server.stop";
          "server.console"; "server.files";
          "mod.install"; "mod.remove"; "backup.create"; "backup.restore";
          "player.ban"; "player.whitelist"; "database.view"; "database.reset"]
  else None.

Definition set_all (v : bool) (keys : list string) (m : gmap string bool) : gmap string bool :=
  fold_left (fun m k => <[k := v]> m) keys m.

Definition ServerMemberRolePermissions (role : string) : res error (gmap string bool) :=
  match serverMemberRoleGrants role with
  | None => Err ErrInvalidMemberRole
  | Some grants => Ok (set_all true grants (set_all false ServerScopedPermissions ∅))
  end.

(** The loop of [MissingServerPermissions] over the remaining keys. *)
Fixpoint missing_loop (user : User) (serverID : uuid) (perms : gmap string bool)
    (keys : list string) : M (list string) :=
  match keys with
  | [] => ret []
  | key :: keys' =>
    if negb (default false (perms !! key)) then missing_loop user serverID perms keys'
    else
      let* ok := HasServerPermission user serverID key in
      let* missing := missing_loop user serverID perms keys' in
      ret (if (ok : bool) then missing else key :: missing)
  end.

Definition MissingServerPermissions (user : User) (serverID : uuid) (perms : gmap string bool)
  : M (list string) :=
  missing_loop user serverID perms ServerScopedPermissions.

(** ** Specification

    What the tables say, with no database fault in between. *)

Definition global_allowed (d : DB) (user : User) (perm : string) : bool :=
  String.eqb (user_Role user) RoleOwner ||
  match user_permissions d !! (user_ID user, perm) with
  | Some g => g
  | None => bool_decide ((user_Role user, perm) ∈ role_permissions d)
  end.

Definition owns_server (d : DB) (userID serverID : uuid) : bool :=
  match servers d !! serverID with
  | Some s => (server_OwnerID s =? userID)%N
  | None => false
  end.

Definition server_allowed (d : DB) (user : User) (serverID : uuid) (perm : string) : bool :=
  is_staff (user_Role user) || owns_server d (user_ID user) serverID ||
  match server_members d !! (serverID, user_ID user) with
  | None => false
  | Some m => default (global_allowed d user perm) (member_Permissions m !! perm)
  end.

(** ** Runs without faults *)

Lemma HasPermission_healthy user perm w :
  healthy w -> HasPermission user perm w = (Ok (global_allowed (w_db w) user perm), w).
Proof.
  intros Hw. unfold HasPermission, global_allowed.
  destruct (String.eqb _ _); [done|]. simpl.
  erewrite bind_run by (apply attempt_run, query_healthy, Hw).
  destruct (user_permissions (w_db w) !! _); [done|].
  erewrite bind_run by (apply wrap_run, query_healthy, Hw). cbv beta iota.
  unfold ret. by case_decide; case_bool_decide.
Qed.

Lemma HasServerPermission_healthy user sid perm w :
  healthy w ->
  HasServerPermission user sid perm w = (Ok (server_allowed (w_db w) user sid perm), w).
Proof.
  intros Hw. unfold HasServerPermission, server_allowed, owns_server.
  destruct (is_staff (user_Role user)) eqn:Es.
  { apply is_staff_spec in Es as [-> | ->]; done. }
  destruct (_ || String.eqb _ _) eqn:E.
  { exfalso. apply not_true_iff_false in Es. apply Es, is_staff_spec.
    apply orb_true_iff in E as [E|E]; breflect; auto. }
  simpl. erewrite bind_run by (apply wrap_run, query_healthy, Hw). cbv beta iota.
  destruct (match servers (w_db w) !! sid with Some _ => _ | None => _ end); [done|]. simpl.
  erewrite bind_run by (apply attempt_run, query_healthy, Hw). cbv beta iota.
  destruct (server_members (w_db w) !! _) as [m|]; [|done].
  case_decide as Hm.
  - rewrite Hm, lookup_empty. by apply HasPermission_healthy.
  - destruct (member_Permissions m !! perm); [done|]. by apply HasPermission_healthy.
Qed.

(** A check changes no table, faults or not. *)
Lemma HasPermission_reads user perm I : preserves I (HasPermission user perm).
Proof. unfold HasPermission. solve_preserves. Qed.

Lemma HasServerPermission_reads user sid perm I :
  preserves I (HasServerPermission user sid perm).
Proof.
  unfold HasServerPermission. solve_preserves; apply HasPermission_reads.
Qed.

Lemma missing_reads user sid perms I : preserves I (MissingServerPermissions user sid perms).
Proof.
  unfold MissingServerPermissions. induction ServerScopedPermissions as [|k keys IH];
    cbn [missing_loop]; solve_preserves; auto using HasServerPermission_reads.
Qed.

Lemma missing_loop_healthy user sid perms keys w :
  healthy w ->
  missing_loop user sid perms keys w =
  (Ok (List.filter (fun k => default false (perms !! k)
                        && negb (server_allowed (w_db w) user sid k)) keys), w).
Proof.
  intros Hw. induction keys as [|k keys IH]; [done|].
  cbn [missing_loop List.filter].
  destruct (default false (perms !! k)); simpl; [|done].
  erewrite (bind_run (HasServerPermission user sid k)) by (by apply HasServerPermission_healthy).
  cbv beta iota. erewrite (bind_run (missing_loop user sid perms keys)) by exact IH. unfold ret.
  by destruct (server_allowed (w_db w) user sid k).
Qed.

(** ** Member role maps *)

Lemma lookup_set_all v keys m k :
  set_all v keys m !! k = if decide (k ∈ keys) then Some v else m !! k.
Proof.
  revert m. induction keys as [|k' keys IH]; intros m; simpl.
  { destruct (decide (k ∈ [])) as [H|H]; [by apply not_elem_of_nil in H | done]. }
  fold (set_all v keys (<[k' := v]> m)). rewrite IH.
  destruct (decide (k ∈ keys)) as [H1|H1], (decide (k ∈ k' :: keys)) as [H2|H2];
    rewrite ?elem_of_cons in *; try done.
  - tauto.
  - destruct (decide (k = k')) as [->|]; [by rewrite lookup_insert_eq | tauto].
  - rewrite lookup_insert_ne; [done|]. intros ->. tauto.
Qed.

Lemma grants_scoped role grants k :
  serverMemberRoleGrants role = Some grants -> k ∈ grants ->
  k ∈ ServerScopedPermissions /\ k <> "server.delete".
Proof.
  assert (H : forall l, forallb (fun k => contains ServerScopedPermissions k
    && negb (String.eqb k "server.delete")) l = true -> k ∈ l ->
    k ∈ ServerScopedPermissions /\ k <> "server.delete").
  { intros l Hl Hk. rewrite forallb_elem in Hl. apply Hl in Hk. breflect.
    split; [by apply contains_spec | done]. }
  unfold serverMemberRoleGrants. case_ifs; intros [= <-]; apply H; reflexivity.
Qed.

(** The map of a member role lists every server-scoped key, and only those. *)
Lemma ServerMemberRolePermissions_lookup role perms k :
  ServerMemberRolePermissions role = Ok perms ->
  exists grants, serverMemberRoleGrants role = Some grants
    /\ perms !! k = if decide (k ∈ grants) then Some true
                    else if decide (k ∈ ServerScopedPermissions) then Some false else None.
Proof.
  unfold ServerMemberRolePermissions.
  destruct (serverMemberRoleGrants role) as [grants|]; [|done]. intros H.
  exists grants. split; [done|].
  assert (perms = set_all true grants (set_all false ServerScopedPermissions ∅)) as ->
    by congruence. by rewrite !lookup_set_all, lookup_empty.
Qed.

(** ** Theorems *)

(** C10. Refinement: without database faults the two checks compute exactly
    what the tables say, leave the world unchanged, and
    [MissingServerPermissions] lists precisely the requested server-scoped
    keys the user does not hold. *)
Theorem permission_checks_refine (user : User) (sid : uuid) (perm : string)
    (perms : gmap string bool) (w : World) :
  healthy w ->
  HasPermission user perm w = (Ok (global_allowed (w_db w) user perm), w)
  /\ HasServerPermission user sid perm w = (Ok (server_allowed (w_db w) user sid perm), w)
  /\ exists missing, MissingServerPermissions user sid perms w = (Ok missing, w)
     /\ forall k, k ∈ missing <-> k ∈ ServerScopedPermissions /\ perms !! k = Some true
                               /\ server_allowed (w_db w) user sid k = false.
Proof.
  intros Hw. split_and!;
    [by apply HasPermission_healthy | by apply HasServerPermission_healthy|].
  eexists. split; [by apply missing_loop_healthy|]. intros k.
  rewrite list_elem_of_In, filter_In, <- list_elem_of_In, andb_true_iff, negb_true_iff.
  destruct (perms !! k) as [[|]|]; simpl; intuition congruence.
Qed.

Lemma permission_checks_refine_witness :
  HasPermission (sample_user 7 RoleUser) "server.view" empty_world
  = (Ok (global_allowed empty_db (sample_user 7 RoleUser) "server.view"), empty_world).
Proof.
  apply (permission_checks_refine (sample_user 7 RoleUser) 1 "server.view" ∅ empty_world).
  reflexivity.
Defined.

(** A grant on a server has a reason. *)
Lemma HasServerPermission_granted (user : User) (sid : uuid) (perm : string) (w w' : World) :
  HasServerPermission user sid perm w = (Ok true, w') ->
  is_staff (user_Role user) = true
  \/ owns_server (w_db w) (user_ID user) sid = true
  \/ is_Some (server_members (w_db w) !! (sid, user_ID user)).
Proof.
  unfold HasServerPermission. intros H.
  destruct (_ || String.eqb _ _) eqn:E.
  { left. apply is_staff_spec. apply orb_true_iff in E as [E|E]; breflect; auto. }
  right. apply bind_ok in H as (isOwner & w1 & H1 & H).
  apply wrap_inv in H1 as [(o & [= <-] & H1)|(e & ? & _)]; [|done].
  apply query_inv in H1 as (Hd & _ & _ & _ & _ & [?|Ho]); [done|].
  unfold owns_server. simplify_eq.
  destruct (match servers (w_db w) !! sid with Some _ => _ | None => _ end); [by left|right].
  apply bind_ok in H as (m & w2 & H2 & H).
  apply attempt_inv in H2 as (m' & ? & H2). simplify_eq.
  apply query_inv in H2 as (_ & _ & _ & _ & _ & Hm). rewrite Hd in Hm.
  destruct (server_members (w_db w) !! _) as [mm|]; [eauto|].
  destruct Hm as [-> | ->]; simpl in H; inv_run.
Qed.

(** Tenant isolation: whatever database calls fail on the way, a user who
    is not cluster staff is granted a permission on a server only if they own
    the server or have a membership row for it. *)
Theorem tenant_isolation (user : User) (sid : uuid) (perm : string) (w w' : World) :
  HasServerPermission user sid perm w = (Ok true, w') ->
  is_staff (user_Role user) = true
  \/ owns_server (w_db w) (user_ID user) sid = true
  \/ is_Some (server_members (w_db w) !! (sid, user_ID user)).
Proof. apply HasServerPermission_granted. Qed.

Lemma tenant_isolation_witness :
  is_staff (user_Role (sample_user 7 RoleAdmin)) = true
  \/ owns_server empty_db 7 1 = true
  \/ is_Some (server_members empty_db !! (1%N, 7%N)).
Proof.
  apply (tenant_isolation (sample_user 7 RoleAdmin) 1 "server.files" empty_world empty_world).
  reflexivity.
Defined.

(** Member roles: every accepted role yields a map that decides each
    server-scoped key and no other, and never grants [server.delete]. *)
Theorem member_role_map (role : string) (perms : gmap string bool) :
  ServerMemberRolePermissions role = Ok perms ->
  (forall k, is_Some (perms !! k) <-> k ∈ ServerScopedPermissions)
  /\ perms !! "server.delete" = Some false
  /\ perms !! "server.view" = Some true.
Proof.
  intros H. split_and!.
  - intros k. destruct (ServerMemberRolePermissions_lookup role perms k H) as (g & Hg & ->).
    destruct (decide (k ∈ g)) as [Hk|Hk].
    + apply (grants_scoped role) in Hk as [Hk _]; [|done]. split; [done | eauto].
    + destruct (decide _); split; try done; intros [? ?]; done.
  - destruct (ServerMemberRolePermissions_lookup role perms "server.delete" H) as (g & Hg & ->).
    destruct (decide _) as [Hk|Hk]; [|done].
    by apply (grants_scoped role) in Hk as [_ ?].
  - destruct (ServerMemberRolePermissions_lookup role perms "server.view" H) as (g & Hg & ->).
    unfold serverMemberRoleGrants in Hg. case_ifs; simplify_eq; reflexivity.
Qed.

Lemma member_role_map_witness :
  exists perms, ServerMemberRolePermissions "moderator" = Ok perms
    /\ perms !! "server.delete" = Some false.
Proof.
  eexists. split; [reflexivity|].
  apply (member_role_map "moderator"). reflexivity.
Defined.

(** A database in which user 7 is explicitly denied a permission that the
    role [user] has by default. *)
Definition deny_db : DB :=
  with_user_permissions {[ (7%N, "server.start") := false ]}
    (with_role_permissions {[ (RoleUser, "server.start") ]} empty_db).

(** An explicit denial is not honoured when the query that reads it
    fails: the error is dropped and the role default is used, so a transient
    database fault grants a permission the tables deny. *)
Theorem denial_lost_on_fault :
  let u := sample_user 7 RoleUser in
  let w faults := mkWorld deny_db ∅ 0 faults N.of_nat 0 in
  fst (HasPermission u "server.start" (w [])) = Ok false
  /\ fst (HasPermission u "server.start" (w [true])) = Ok true.
Proof. split; vm_compute; reflexivity. Qed.
