(* ===== verification/Invitations.v ===== *)
(** * Server invitations

    Models [services/invitation_service.go]: creating, listing, accepting,
    declining and revoking an invitation to a server.  The life cycle of an
    invitation is pending, then accepted, declined or revoked. *)

From stdpp Require Import base numbers list strings option gmap sets.
From S2P Require Import Prelude GoStrings Store Roles Permissions.

Local Open Scope Z_scope.

(** ** Errors and requests *)

Definition ErrInvitationNotFound : error := ErrNew "invitation not found".
Definition ErrInvitationExpired : error := ErrNew "invitation has expired".
Definition ErrInvitationUsed : error := ErrNew "invitation already used or revoked".
Definition ErrInvitationForbidden : error :=
  ErrNew "invitation was issued to a different account".
Definition ErrInvitationExceedsInviter : error :=
  ErrNew "you cannot grant permissions you do not have on this server".

Record CreateInvitationRequest := mkCreateInvitationRequest {
  cir_InviteeEmail : string;
  cir_Role : string
}.

(** Seven days, in nanoseconds. *)
Definition invitation_ttl : Z := 7 * 24 * 3600 * 10 ^ 9.

Definition generateInviteToken : M string := rand_hex 24.

(** The row read by [findByToken]: tokens are unique. *)
Definition findByToken (token : string) : M ServerInvitation :=
  let* r := attempt (query (fun d =>
    row (server_invitations d) (fun i => String.eqb (invitation_Token i) token))) in
  match r with
  | Ok inv => ret inv
  | Err e => if error_Is e ErrNoRows then fail ErrInvitationNotFound
             else fail (ErrWrap "finding invitation" e)
  end.

Section with_unicode.
Context `{Unicode}.

(** ** CreateInvitation *)

Definition CreateInvitation (serverID : uuid) (inviter : User) (req : CreateInvitationRequest)
  : M ServerInvitation :=
  let role0 := ToLower (TrimSpace (cir_Role req)) in
  let role := if String.eqb role0 "" then "viewer" else role0 in
  match ServerMemberRolePermissions role with
  | Err e => fail e
  | Ok perms =>
    let* missing := wrap "checking inviter permissions"
      (MissingServerPermissions inviter serverID perms) in
    if (0 <? length missing)%nat
    then fail (ErrWrap ("(missing: " +:+ Join missing ", " +:+ ")") ErrInvitationExceedsInviter)
    else
      let* token := generateInviteToken in
      let* id := new_uuid in
      let* t := now in
      wrap "creating invitation" (exec (fun d =>
        let inv := mkServerInvitation id serverID (user_ID inviter)
          (TrimSpace (cir_InviteeEmail req)) token role perms "pending"
          t (t + invitation_ttl) in
        if decide (is_Some (servers d !! serverID)) then
          if decide (is_Some (users d !! user_ID inviter)) then
            if exists_row (server_invitations d)
                 (fun i => String.eqb (invitation_Token i) token)
            then Err (ErrConstraint "server_invitations_token_key")
            else match insert_row id inv (server_invitations d) with
                 | Ok t' => Ok (inv, with_server_invitations t' d)
                 | Err e => Err e
                 end
          else Err (ErrConstraint "server_invitations_inviter_id_fkey")
        else Err (ErrConstraint "server_invitations_server_id_fkey")))
  end.

(** ** Lists *)

(** Newest first. *)
Definition order_created_desc : list ServerInvitation -> list ServerInvitation :=
  order_by (fun i j => invitation_CreatedAt j <=? invitation_CreatedAt i).

Definition ListInvitations (serverID : uuid) : M (list ServerInvitation) :=
  wrap "listing invitations" (query (fun d =>
    Ok (order_created_desc (rows (server_invitations d)
          (fun i => (invitation_ServerID i =? serverID)%N))))).

Definition ListMyInvitations (email : string) : M (list ServerInvitation) :=
  let* t := now in
  wrap "listing my invitations" (query (fun d =>
    Ok (order_created_desc (rows (server_invitations d)
          (fun i => String.eqb (invitation_InviteeEmail i) email
                    && String.eqb (invitation_Status i) "pending"
                    && (t <? invitation_ExpiresAt i)))))).

(** ** AcceptInvitation *)

(** [&models.User{ID: id, Role: role}]. *)
Definition inviter_user (id : uuid) (role : string) : User :=
  mkUser id "" "" "" role "" false 0 None false None None "" "".

(** The stored map narrows the role's map; what the inviter no longer holds
    is switched off. *)
Definition grantedPermissions (inv : ServerInvitation) : M (gmap string bool) :=
  match ServerMemberRolePermissions (invitation_Role inv) with
  | Err e => fail e
  | Ok rolePerms =>
    let perms :=
      if (0 <? size (invitation_Permissions inv))%nat
      then map_imap (fun key v =>
             Some (v && default false (invitation_Permissions inv !! key))) rolePerms
      else rolePerms in
    let* inviterRole := wrap "loading inviter" (query (fun d =>
      match users d !! invitation_InviterID inv with
      | Some u => Ok (user_Role u)
      | None => Err ErrNoRows
      end)) in
    let inviter := inviter_user (invitation_InviterID inv) inviterRole in
    let* missing := wrap "checking inviter permissions"
      (MissingServerPermissions inviter (invitation_ServerID inv) perms) in
    ret (set_all false missing perms)
  end.

(** [UPDATE server_invitations SET status = to WHERE p AND status = 'pending'],
    returning the number of rows changed. *)
Definition move_pending (to : string) (p : ServerInvitation -> bool) (d : DB) : Z * DB :=
  let q i := p i && String.eqb (invitation_Status i) "pending" in
  (Z.of_nat (count_rows (server_invitations d) q),
   with_server_invitations
     (update_where (invitation_with_Status to) q (server_invitations d)) d).

Definition AcceptInvitation (token : string) (userID : uuid) (userEmail : string) : M unit :=
  let* inv := findByToken token in
  if negb (EqualFold (TrimSpace (invitation_InviteeEmail inv)) (TrimSpace userEmail))
  then fail ErrInvitationForbidden
  else if negb (String.eqb (invitation_Status inv) "pending") then fail ErrInvitationUsed
  else
    let* t := now in
    if invitation_ExpiresAt inv <? t then fail ErrInvitationExpired
    else
      let* perms := grantedPermissions inv in
      tx "begin tx" (fun e => e)
        (let* n := wrap "updating invitation" (exec (fun d =>
           Ok (move_pending "accepted" (fun i => (invitation_ID i =? invitation_ID inv)%N) d))) in
         if n =? 0 then fail ErrInvitationUsed
         else
           wrap "adding server member" (exec (fun d =>
             if decide (is_Some (servers d !! invitation_ServerID inv)) then
               if decide (is_Some (users d !! userID)) then
                 Ok (tt, with_server_members
                   (<[(invitation_ServerID inv, userID) :=
                       mkServerMember (invitation_Role inv) perms]> (server_members d)) d)
               else Err (ErrConstraint "server_members_user_id_fkey")
             else Err (ErrConstraint "server_members_server_id_fkey")))).

(** ** DeclineInvitation and RevokeInvitation *)

Definition DeclineInvitation (token : string) : M unit :=
  let* n := wrap "declining invitation" (exec (fun d =>
    Ok (move_pending "declined" (fun i => String.eqb (invitation_Token i) token) d))) in
  if n =? 0 then fail ErrInvitationNotFound else ret tt.

Definition RevokeInvitation (serverID invitationID : uuid) : M unit :=
  let* n := wrap "revoking invitation" (exec (fun d =>
    Ok (move_pending "revoked" (fun i => (invitation_ID i =? invitationID)%N
          && (invitation_ServerID i =? serverID)%N) d))) in
  if n =? 0 then fail ErrInvitationNotFound else ret tt.
End with_unicode.

(** ** Lemmas *)

Lemma grantedPermissions_healthy inv w r w' :
  healthy w -> grantedPermissions inv w = (r, w') ->
  w' = w /\
  forall perms, r = Ok perms ->
    exists inviter, users (w_db w) !! invitation_InviterID inv = Some inviter
    /\ forall k, k ∈ ServerScopedPermissions ->
         exists b, perms !! k = Some b /\ (b = true ->
           server_allowed (w_db w) (inviter_user (invitation_InviterID inv) (user_Role inviter))
             (invitation_ServerID inv) k = true
           /\ exists grants, serverMemberRoleGrants (invitation_Role inv) = Some grants
                /\ k ∈ grants).
Proof.
  intros Hw H. unfold grantedPermissions in H.
  destruct (ServerMemberRolePermissions (invitation_Role inv)) as [rp|e] eqn:Er;
    [|by apply fail_inv in H as [-> ->]].
  set (perms0 := if (0 <? size (invitation_Permissions inv))%nat then _ else rp) in H.
  assert (Hp0 : forall k, perms0 !! k = Some true -> rp !! k = Some true).
  { intros k. unfold perms0. destruct (0 <? _)%nat; [|done]. rewrite map_lookup_imap.
    destruct (rp !! k) as [[|]|]; simpl; congruence. }
  assert (Hs0 : forall k, is_Some (rp !! k) -> is_Some (perms0 !! k)).
  { intros k [b Hb]. unfold perms0. destruct (0 <? _)%nat; [|eauto].
    rewrite map_lookup_imap, Hb. eauto. }
  erewrite bind_run in H by (apply wrap_run, query_healthy, Hw). cbv beta iota in H.
  destruct (users (w_db w) !! invitation_InviterID inv) as [u|]; [|by simplify_eq].
  set (iu := inviter_user _ _) in *. cbv zeta in H.
  erewrite bind_run in H by (eapply wrap_run, missing_loop_healthy, Hw).
  cbv beta iota in H. remember (List.filter _ _) as miss eqn:Emiss in H.
  apply ret_inv in H as [-> ->]. split; [done|].
  intros perms Heq. assert (perms = set_all false miss perms0) as -> by congruence. exists u. split; [done|]. intros k Hk.
  destruct (ServerMemberRolePermissions_lookup _ _ k Er) as (grants & Hg & Hlk).
  assert (is_Some (rp !! k)) as Hrp.
  { rewrite Hlk. destruct (decide (k ∈ grants)); [eauto|].
    rewrite decide_True by done. eauto. }
  rewrite lookup_set_all. destruct (decide (k ∈ miss)) as [|Hmiss]; [by exists false|].
  destruct (Hs0 k Hrp) as [b Hb]. exists b. split; [done|]. intros ->.
  assert (rp !! k = Some true) as Hrk by auto. split.
  - rewrite Emiss, list_elem_of_In, filter_In, <- list_elem_of_In in Hmiss.
    rewrite Hb in Hmiss. simpl in Hmiss. fold iu.
    destruct (server_allowed (w_db w) iu (invitation_ServerID inv) k); [done|].
    exfalso. by apply Hmiss.
  - exists grants. split; [done|]. rewrite Hlk in Hrk.
    destruct (decide (k ∈ grants)); [done|]. by destruct (decide _).
Qed.

Lemma findByToken_healthy token w inv w' :
  healthy w -> findByToken token w = (Ok inv, w') ->
  w' = w /\ (exists i, server_invitations (w_db w) !! i = Some inv)
  /\ invitation_Token inv = token.
Proof.
  intros Hw H. unfold findByToken in H. apply bind_ok in H as (r & w1 & H1 & H).
  apply attempt_inv in H1 as (r' & ? & H1). rewrite query_healthy in H1 by done. simplify_eq.
  destruct (row _ _) as [inv'|e] eqn:Er; [inv_run | case_match; inv_run].
  apply row_ok in Er as [Hi Ht]. by breflect.
Qed.

(** What any acceptance grants: at most what the invited role does. *)
Lemma grantedPermissions_inv inv w perms w' :
  grantedPermissions inv w = (Ok perms, w') ->
  w_db w' = w_db w /\ is_Some (users (w_db w) !! invitation_InviterID inv)
  /\ forall k, k ∈ ServerScopedPermissions ->
       exists b, perms !! k = Some b /\ (b = true ->
         exists grants, serverMemberRoleGrants (invitation_Role inv) = Some grants /\ k ∈ grants).
Proof.
  intros H. unfold grantedPermissions in H.
  destruct (ServerMemberRolePermissions (invitation_Role inv)) as [rp|e] eqn:Er; [|by apply fail_inv in H as [? _]].
  set (perms0 := if (0 <? size (invitation_Permissions inv))%nat then _ else rp) in H.
  assert (Hp0 : forall k, is_Some (rp !! k) -> exists b, perms0 !! k = Some b /\ (b = true -> rp !! k = Some true)).
  { intros k [b Hb]. unfold perms0. destruct (0 <? _)%nat; [|exists b; rewrite Hb; by intuition subst].
    rewrite map_lookup_imap, Hb. eexists. split; [done|]. destruct b; [done | cbn; congruence]. }
  apply bind_ok in H as (role & w1 & [Hq Hd1]%wrap_ok%query_ok & H).
  destruct (users (w_db w) !! invitation_InviterID inv) as [u|]; [|done].
  apply bind_ok in H as (miss & w2 & Hm%wrap_ok & H). apply ret_inv in H as [[= ->] ->].
  assert (Hd2 : w_db w2 = w_db w1).
  { change w2 with (snd (Ok (E := error) miss, w2)). rewrite <- Hm.
    by apply (missing_reads _ _ _ (fun d => d = w_db w1)). }
  split_and!; [congruence | done|]. intros k Hk.
  destruct (ServerMemberRolePermissions_lookup _ _ k Er) as (grants & Hg & Hlk).
  destruct (Hp0 k) as (b & Hb & Htrue).
  { rewrite Hlk. destruct (decide (k ∈ grants)); [eauto|]. rewrite decide_True by done. eauto. }
  rewrite lookup_set_all. destruct (decide (k ∈ miss)); [by exists false|]. exists b. split; [done|].
  intros Hb1. exists grants. split; [done|]. specialize (Htrue Hb1). rewrite Hlk in Htrue.
  destruct (decide (k ∈ grants)); [done|]. by destruct (decide _).
Qed.

Lemma findByToken_inv token w inv w' :
  findByToken token w = (Ok inv, w') ->
  w_db w' = w_db w /\ w_now w' = w_now w /\ (healthy w -> w' = w)
  /\ (exists i, server_invitations (w_db w) !! i = Some inv) /\ invitation_Token inv = token.
Proof.
  intros H. assert (Hh : healthy w -> w' = w) by (intros Hw; by apply findByToken_healthy in H as (-> & _)).
  unfold findByToken in H. apply bind_ok in H as (r & w1 & (r' & [= <-] & Hq)%attempt_inv & H).
  destruct r as [inv'|e]; [|destruct (error_Is _ _); by apply fail_inv in H as [? _]].
  apply ret_inv in H as [[= ->] ->]. pose proof (query_inv _ _ _ _ Hq) as (_ & Hn & _).
  apply query_ok in Hq as [[Hi Ht]%row_ok Hd]. breflect. split_and!; done.
Qed.

(** What a successful acceptance has checked and done. *)
Lemma AcceptInvitation_inv {U : Unicode} token uid email w w' :
  AcceptInvitation token uid email w = (Ok tt, w') ->
  exists inv perms w1 w2,
    (exists i, server_invitations (w_db w) !! i = Some inv)
    /\ invitation_Token inv = token /\ invitation_Status inv = "pending"
    /\ w_now w <= invitation_ExpiresAt inv
    /\ EqualFold (TrimSpace (invitation_InviteeEmail inv)) (TrimSpace email) = true
    /\ w_db w1 = w_db w /\ (healthy w -> w1 = w) /\ grantedPermissions inv w1 = (Ok perms, w2)
    /\ w_db w' = with_server_members
         (<[(invitation_ServerID inv, uid) := mkServerMember (invitation_Role inv) perms]>
            (server_members (w_db w)))
         (snd (move_pending "accepted" (fun i => (invitation_ID i =? invitation_ID inv)%N) (w_db w))).
Proof.
  intros H. unfold AcceptInvitation in H.
  apply bind_ok in H as (inv & w1 & (Hd1 & Hn1 & Hh1 & Hi & Ht)%findByToken_inv & H).
  destruct (negb (EqualFold _ _)) eqn:E1; [inv_run|].
  destruct (negb (String.eqb _ _)) eqn:E2; [inv_run|].
  apply bind_ok in H as (t & w1' & [[= ->] ->]%now_inv & H).
  destruct (invitation_ExpiresAt inv <? w_now w1) eqn:E3; [inv_run|].
  apply bind_ok in H as (perms & w2 & Hg & H). pose proof (grantedPermissions_inv _ _ _ _ Hg) as [Hd2 _].
  breflect. exists inv, perms, w1, w2. split_and!; try done; [lia|].
  apply tx_inv in H as [(a & _ & w3 & w4 & Hb & Hd & _ & Hd')|(e & ? & _)]; [|done].
  apply bind_ok in Hb as (n & w5 & He%wrap_ok%exec_ok & Hb).
  destruct (n =? 0); [inv_run|]. apply wrap_ok, exec_ok in Hb.
  rewrite Hd'. rewrite Hd, Hd2, Hd1 in He. injection He as _ He. rewrite <- He in Hb.
  case_decide; [|done]. case_decide; [|done]. injection Hb as <-. done.
Qed.

(** A finished invitation stays as it is. *)
Definition finished (id : uuid) (inv : ServerInvitation) (d : DB) : Prop :=
  server_invitations d !! id = Some inv /\ invitation_Status inv <> "pending".

Lemma move_pending_finished to p id inv d :
  finished id inv d -> finished id inv (snd (move_pending to p d)).
Proof.
  intros [Hl Hs]. split; [|done]. unfold move_pending. cbn [snd]. unfold with_server_invitations.
  db_simpl. rewrite lookup_update_where, Hl. simpl.
  apply String.eqb_neq in Hs. by rewrite Hs, andb_false_r.
Qed.

(** ** Theorems *)

(** C5. Accepting an invitation never escalates: it succeeds only for a
    pending, unexpired invitation addressed to the caller, and afterwards a
    caller who is neither staff nor the server's owner holds a server-scoped
    permission on that server only if the invited role grants it, whatever
    database calls fail, and, when none fails, only if the inviter holds it
    too at that moment. *)
Theorem accept_no_escalation {U : Unicode} (token : string) (uid : uuid) (email : string)
    (w w' : World) :
  AcceptInvitation token uid email w = (Ok tt, w') ->
  exists inv inviter,
    (exists i, server_invitations (w_db w) !! i = Some inv)
    /\ invitation_Token inv = token /\ invitation_Status inv = "pending"
    /\ w_now w <= invitation_ExpiresAt inv
    /\ EqualFold (TrimSpace (invitation_InviteeEmail inv)) (TrimSpace email) = true
    /\ users (w_db w) !! invitation_InviterID inv = Some inviter
    /\ forall u k, user_ID u = uid -> is_staff (user_Role u) = false ->
         owns_server (w_db w) uid (invitation_ServerID inv) = false ->
         k ∈ ServerScopedPermissions ->
         server_allowed (w_db w') u (invitation_ServerID inv) k = true ->
         (exists grants, serverMemberRoleGrants (invitation_Role inv) = Some grants /\ k ∈ grants)
         /\ (healthy w ->
             server_allowed (w_db w) (inviter_user (invitation_InviterID inv) (user_Role inviter))
               (invitation_ServerID inv) k = true).
Proof.
  intros H. destruct (AcceptInvitation_inv token uid email w w' H)
    as (inv & perms & w1 & w2 & Hi & Ht & Hs & He & Hf & Hd1 & Hh1 & Hg & Hd).
  pose proof (grantedPermissions_inv _ _ _ _ Hg) as (_ & [inviter Hu] & Hk). rewrite Hd1 in Hu.
  exists inv, inviter. split_and!; try done.
  intros u k <- Hstaff Hown Hscoped Hall.
  assert (Htrue : perms !! k = Some true).
  { destruct (Hk k Hscoped) as (b & Hb & _). rewrite Hb.
    unfold server_allowed in Hall. rewrite Hstaff in Hall. unfold owns_server in *.
    rewrite Hd in Hall. unfold move_pending, with_server_invitations, with_server_members in Hall.
    cbn [snd] in Hall. db_simpl. rewrite Hown, lookup_insert_eq in Hall. simpl in Hall.
    rewrite Hb in Hall. simpl in Hall. by rewrite Hall. }
  split.
  - destruct (Hk k Hscoped) as (b & Hb & Himp). apply Himp. congruence.
  - intros Hw. rewrite (Hh1 Hw) in Hg. destruct (grantedPermissions_healthy inv w _ _ Hw Hg) as [_ Hperms].
    destruct (Hperms perms eq_refl) as (inviter' & Hu' & Hk').
    assert (inviter' = inviter) as -> by congruence.
    destruct (Hk' k Hscoped) as (b & Hb & Himp). apply Himp. congruence.
Qed.

(** User 5 owns server 1 and has invited bob as a moderator. *)
Definition invite_db : DB :=
  with_server_invitations
    {[ 30%N := mkServerInvitation 30 1 5 "Bob@Example.com" "tok" "moderator" ∅ "pending" 0 100 ]}
  (with_users {[ 5%N := sample_user 5 RoleUser; 8%N := sample_user 8 RoleUser ]}
  (with_servers {[ 1%N := mkServer 1 "s" 2 5 StatusStopped "latest" 0 2048 10240 5520 "" true
                      3 300 "" 0 0 "" "" [] false None None false ]} empty_db)).

Definition invite_world : World := mkWorld invite_db ∅ 50 [] N.of_nat 0.

Lemma accept_no_escalation_witness :
  exists inv inviter,
    (exists i, server_invitations invite_db !! i = Some inv)
    /\ invitation_Token inv = "tok"
    /\ users invite_db !! invitation_InviterID inv = Some inviter.
Proof.
  destruct (@accept_no_escalation ascii_tables "tok" 8 "bob@example.com" invite_world
    (snd (@AcceptInvitation ascii_tables "tok" 8 "bob@example.com" invite_world)))
    as (inv & inviter & H1 & H2 & _ & _ & _ & H3 & _).
  - vm_compute. reflexivity.
  - exists inv, inviter. split; [exact H1|]. split; [exact H2 | exact H3].
Defined.

(** An invitation is used at most once: one that is no longer pending is
    never changed again by accepting, declining, revoking or creating
    invitations, whatever database calls fail. *)
Theorem invitation_final {U : Unicode} (id : uuid) (inv : ServerInvitation) :
  (forall token uid email, preserves (finished id inv) (AcceptInvitation token uid email))
  /\ (forall token, preserves (finished id inv) (DeclineInvitation token))
  /\ (forall sid i, preserves (finished id inv) (RevokeInvitation sid i))
  /\ (forall sid u req, preserves (finished id inv) (CreateInvitation sid u req)).
Proof.
  assert (Hmove : forall to p, preserves (finished id inv)
            (exec (fun d => Ok (move_pending to p d)))).
  { intros to p. apply preserves_exec. intros d a d' Hd Heq.
    pose proof (move_pending_finished to p id inv d Hd) as Hm.
    assert (move_pending to p d = (a, d')) as Hp by congruence. by rewrite Hp in Hm. }
  split_and!; intros.
  - unfold AcceptInvitation, findByToken, grantedPermissions. solve_preserves; try apply Hmove.
    + apply missing_reads.
    + apply preserves_exec. intros d u d' Hd Heq.
      case_decide; [|done]. case_decide; [|done]. by injection Heq as <- <-.
  - unfold DeclineInvitation. solve_preserves. apply Hmove.
  - unfold RevokeInvitation. solve_preserves. apply Hmove.
  - unfold CreateInvitation, generateInviteToken. solve_preserves.
    + apply missing_reads.
    + apply preserves_exec. intros d i d' [Hd Hs] Heq.
      case_decide; [|done]. case_decide; [|done]. destruct (exists_row _ _); [done|].
      destruct (insert_row _ _ _) as [t'|] eqn:Ei; [|done].
      apply insert_row_ok in Ei as [Hnone ->]. injection Heq as <- <-.
      split; [|done]. unfold with_server_invitations. db_simpl.
      rewrite lookup_insert_ne; [done|]. congruence.
Qed.

(** An invitation sent to an address with an upper-case letter can be
    accepted by its addressee but is missing from their list of pending
    invitations: the list compares the addresses byte by byte, the acceptance
    ignores case, and account addresses are stored in lower case. *)
Theorem invitation_hidden_from_invitee :
  fst (@AcceptInvitation ascii_tables "tok" 8 "bob@example.com" invite_world) = Ok tt
  /\ fst (ListMyInvitations "bob@example.com" invite_world) = Ok [].
Proof. split; vm_compute; reflexivity. Qed.
