(* ===== verification/Platform.v ===== *)
(** * The libraries the services call

    Code outside the repository, as an interface: password hashing, digests,
    authenticated encryption, JSON Web Tokens, one-time codes, UUID text, and
    the two PostgreSQL functions whose result depends on the server.  The
    operations are [Platform]; what the services rely on is [PlatformLaws].
    [sample_platform] is a concrete implementation of both. *)

From stdpp Require Import base numbers list strings option gmap countable.
From Stdlib Require Import Ascii.
From S2P Require Import Prelude GoStrings Store.

Local Open Scope Z_scope.

(** [jwt.MapClaims]: claim names with a text or a number. *)
Abbreviation claims := (list (string * (string + Z))).

Fixpoint claim (k : string) (c : claims) : option (string + Z) :=
  match c with
  | [] => None
  | (k', v) :: c' => if String.eqb k k' then Some v else claim k c'
  end.

(** [claims[k].(string)]. *)
Definition claim_string (k : string) (c : claims) : option string :=
  match claim k c with Some (inl s) => Some s | _ => None end.

Definition claim_number (k : string) (c : claims) : option Z :=
  match claim k c with Some (inr n) => Some n | _ => None end.

Class Platform := {
  (* bcrypt.GenerateFromPassword with a random salt; CompareHashAndPassword *)
  bcrypt_generate : string -> N -> res error string;
  bcrypt_compare : string -> string -> bool;
  (* sha256.Sum256, 32 bytes *)
  sha256 : string -> string;
  (* AES-256-GCM: key, nonce, text *)
  gcm_seal : string -> string -> string -> string;
  gcm_open : string -> string -> string -> option string;
  (* HS256: secret and claims; jwt.Parse with the secret, at a time in seconds *)
  jwt_sign : string -> claims -> string;
  jwt_parse : string -> Z -> string -> option claims;
  (* totp.Generate: a random value and the account give a secret and a URI *)
  totp_generate : N -> string -> res error (string * string);
  totp_png : string -> res error string;
  (* totp.Validate at a time in nanoseconds: code, secret *)
  totp_validate : Z -> string -> string -> bool;
  (* github.com/google/uuid *)
  uuid_string : uuid -> string;
  uuid_parse : string -> option uuid;
  (* PostgreSQL: lower(), and whether a text is an inet value *)
  sql_lower : string -> string;
  sql_inet : string -> bool;
  (* hmac.New(sha256.New, key): the 32-byte code of a text *)
  hmac_sha256 : string -> string -> string;
  (* the wording of an error of the database driver *)
  driver_text : error -> string
}.

Class PlatformLaws (P : Platform) := {
  bcrypt_compare_generate p salt h :
    bcrypt_generate p salt = Ok h -> bcrypt_compare h p = true;
  gcm_open_seal key nonce text :
    gcm_open key nonce (gcm_seal key nonce text) = Some text;
  jwt_parse_sign secret secret' t c c' :
    jwt_parse secret t (jwt_sign secret' c) = Some c' -> c' = c;
  jwt_parse_exp secret t tok c e :
    jwt_parse secret t tok = Some c -> claim_number "exp" c = Some e -> t < e;
  uuid_parse_string u : uuid_parse (uuid_string u) = Some u
}.

(** [json.Marshal] and [json.Unmarshal] at a type. *)
Class Json (A : Type) := {
  json_marshal : A -> option string;
  json_unmarshal : string -> option A
}.

(** What is relied on of JSON text at a type: a value whose texts are UTF-8
    comes back, what comes back is such a value, and the empty text is no
    JSON. *)
Class JsonLaws (A : Type) `{Json A} (wf : A -> Prop) := {
  json_unmarshal_marshal a s : wf a -> json_marshal a = Some s -> json_unmarshal s = Some a;
  json_unmarshal_wf s a : json_unmarshal s = Some a -> wf a;
  json_unmarshal_empty : json_unmarshal "" = None
}.

(** ** Answers of the HTTP handlers *)

(** [c.JSON(status, body)]. *)
Record Reply := mkReply {
  reply_Status : Z;
  reply_Body : json
}.

(** [gin.H{"error": msg}]. *)
Definition reply_error (status : Z) (msg : string) : Reply :=
  mkReply status (JObj [("error", JStr msg)]).

(** ** A concrete platform *)

Fixpoint pos_bits (p : positive) : string :=
  match p with
  | xH => ""
  | xO p' => String "0"%char (pos_bits p')
  | xI p' => String "1"%char (pos_bits p')
  end.

Fixpoint bits_pos (s : string) : option positive :=
  match s with
  | EmptyString => Some xH
  | String a s' =>
    match bits_pos s' with
    | Some p => if Ascii.eqb a "0"%char then Some (xO p)
                else if Ascii.eqb a "1"%char then Some (xI p) else None
    | None => None
    end
  end.

Lemma bits_pos_bits (p : positive) : bits_pos (pos_bits p) = Some p.
Proof. by induction p as [p IH|p IH|]; simpl; rewrite ?IH. Qed.

(** Any countable value as text. *)
Definition to_text `{Countable A} (a : A) : string := pos_bits (encode a).
Definition of_text `{Countable A} (s : string) : option A := bits_pos s ≫= decode.

Lemma of_to_text `{Countable A} (a : A) : of_text (to_text a) = Some a.
Proof. unfold of_text, to_text. rewrite bits_pos_bits. simpl. apply decode_encode. Qed.

Definition sample_parse (secret : string) (t : Z) (tok : string) : option claims :=
  match of_text (A := string * claims) tok with
  | Some (s, c) =>
    if String.eqb s secret &&
       match claim_number "exp" c with Some e => t <? e | None => true end
    then Some c else None
  | None => None
  end.

Definition sample_platform : Platform := {|
  bcrypt_generate p salt := Ok (to_text (p, salt));
  bcrypt_compare h p :=
    match of_text (A := string * N) h with
    | Some (q, _) => String.eqb p q
    | None => false
    end;
  sha256 s := if len s <? 32 then str_take 32 (s +:+ hex_bytes 16 0) else s;
  gcm_seal key nonce text := text;
  gcm_open key nonce text := Some text;
  jwt_sign secret c := to_text (secret, c);
  jwt_parse := sample_parse;
  totp_generate r account := Ok (hex_bytes 10 (Z.of_N r), account);
  totp_png url := Ok url;
  totp_validate t code secret := String.eqb code secret;
  uuid_string := to_text;
  uuid_parse := of_text;
  sql_lower := @ToLower ascii_tables;
  sql_inet s := negb (String.eqb s "");
  hmac_sha256 key text := to_text (key, text);
  driver_text e := "driver error"
|}.

(** [err.Error()]. *)
Fixpoint error_Error `{Platform} (e : error) : string :=
  match e with
  | ErrNoRows => "no rows in result set"
  | ErrNew msg => msg
  | ErrWrap msg e' => msg +:+ ": " +:+ error_Error e'
  | ErrDetail e' msg => error_Error e' +:+ ": " +:+ msg
  | _ => driver_text e
  end.

#[export] Instance sample_platform_laws : PlatformLaws sample_platform.
Proof.
  split.
  - intros p salt h [= <-]. simpl. rewrite of_to_text. apply String.eqb_refl.
  - done.
  - intros secret secret' t c c'. simpl. unfold sample_parse. rewrite of_to_text.
    destruct (_ && _); congruence.
  - intros secret t tok c e. simpl. unfold sample_parse.
    destruct (of_text tok) as [[s c0]|]; [|done].
    destruct (_ && _) eqn:E; [|done]. intros [= <-] He. rewrite He in E.
    apply andb_true_iff in E as [_ E]. lia.
  - intros u. simpl. apply of_to_text.
Qed.
