(* ===== verification/Crypto.v ===== *)
(** * Secrets at rest

    Models [internal/crypto/crypto.go]: the envelope
    base64(nonce || ciphertext || tag) around AES-256-GCM, with the standard
    base64 encoding written out. *)

From stdpp Require Import base numbers list strings option.
From Stdlib Require Import Ascii.
From S2P Require Import Prelude GoStrings Regex Store Platform.

Local Open Scope Z_scope.

(** ** encoding/base64, StdEncoding *)

Definition b64_char (i : Z) : ascii :=
  if i <? 26 then ascii_of (65 + i)
  else if i <? 52 then ascii_of (97 + (i - 26))
  else if i <? 62 then ascii_of (48 + (i - 52))
  else if i =? 62 then "+"%char else "/"%char.

Definition b64_value (a : ascii) : option Z :=
  let b := byte_of a in
  if in_range 65 90 b then Some (b - 65)
  else if in_range 97 122 b then Some (b - 97 + 26)
  else if in_range 48 57 b then Some (b - 48 + 52)
  else if b =? 43 then Some 62
  else if b =? 47 then Some 63
  else None.

Fixpoint b64_encode (s : string) : string :=
  match s with
  | EmptyString => ""
  | String a EmptyString =>
    let x := byte_of a in
    String (b64_char (x / 4)) (String (b64_char (x mod 4 * 16)) "==")
  | String a (String b EmptyString) =>
    let x := byte_of a in let y := byte_of b in
    String (b64_char (x / 4)) (String (b64_char (x mod 4 * 16 + y / 16))
      (String (b64_char (y mod 16 * 4)) "="))
  | String a (String b (String c s')) =>
    let x := byte_of a in let y := byte_of b in let z := byte_of c in
    String (b64_char (x / 4)) (String (b64_char (x mod 4 * 16 + y / 16))
      (String (b64_char (y mod 16 * 4 + z / 64)) (String (b64_char (z mod 64))
        (b64_encode s'))))
  end.

(** The decoder skips line breaks, reads quanta of four characters, and
    accepts padding only in the last one. *)
Fixpoint drop_breaks (s : string) : string :=
  match s with
  | EmptyString => ""
  | String a s' => if (byte_of a =? 10) || (byte_of a =? 13) then drop_breaks s'
                   else String a (drop_breaks s')
  end.

Definition is_pad (a : ascii) : bool := byte_of a =? 61.

Fixpoint b64_quanta (s : string) : option string :=
  match s with
  | EmptyString => Some ""
  | String a (String b (String c (String d s'))) =>
    match b64_value a, b64_value b with
    | Some i, Some j =>
      let x := ascii_of ((i * 4 + j / 16) mod 256) in
      if is_pad c then
        if is_pad d && String.eqb s' "" then Some (String x "") else None
      else
        match b64_value c with
        | None => None
        | Some k =>
          let y := ascii_of ((j mod 16 * 16 + k / 4) mod 256) in
          if is_pad d then
            if String.eqb s' "" then Some (String x (String y "")) else None
          else
            match b64_value d, b64_quanta s' with
            | Some l, Some rest =>
              Some (String x (String y (String (ascii_of ((k mod 4 * 64 + l) mod 256)) rest)))
            | _, _ => None
            end
        end
    | _, _ => None
    end
  | _ => None
  end.

Definition b64_decode (s : string) : option string := b64_quanta (drop_breaks s).

(** Every character of the alphabet decodes to its index and is neither
    padding nor a line break. *)
Lemma b64_char_spec (i : Z) : 0 <= i < 64 ->
  b64_value (b64_char i) = Some i /\ is_pad (b64_char i) = false
  /\ (byte_of (b64_char i) =? 10) || (byte_of (b64_char i) =? 13) = false.
Proof.
  intros Hi.
  assert (H : forallb (fun n => let i := Z.of_nat n in
     bool_decide (b64_value (b64_char i) = Some i) && negb (is_pad (b64_char i))
     && negb ((byte_of (b64_char i) =? 10) || (byte_of (b64_char i) =? 13))) (seq 0 64) = true)
    by (vm_compute; reflexivity).
  rewrite forallb_elem in H. specialize (H (Z.to_nat i)).
  rewrite elem_of_seq in H. cbv beta zeta in H. rewrite Z2Nat.id in H by lia.
  assert (Hn : (0 <= Z.to_nat i < 0 + 64)%nat) by lia. specialize (H Hn).
  apply andb_true_iff in H as [[Hv Hp]%andb_true_iff Hb].
  apply bool_decide_eq_true in Hv. apply negb_true_iff in Hp, Hb. done.
Qed.

(** Induction three bytes at a time. *)
Lemma string_ind3 (P : string -> Prop) :
  P "" -> (forall a, P (String a "")) -> (forall a b, P (String a (String b ""))) ->
  (forall a b c s, P s -> P (String a (String b (String c s)))) ->
  forall s, P s.
Proof.
  intros H0 H1 H2 H3. fix IH 1.
  intros [|a [|b [|c s]]]; [exact H0 | exact (H1 a) | exact (H2 a b) | exact (H3 a b c s (IH s))].
Qed.

Lemma ascii_of_eq (e : Z) (a : ascii) : e = byte_of a -> ascii_of (e mod 256) = a.
Proof.
  intros ->. pose proof (byte_of_bounds a). rewrite Z.mod_small by lia. apply ascii_of_byte_of.
Qed.

Ltac euclid := Z.to_euclidean_division_equations; lia.

Lemma b64_decode_encode (s : string) : b64_decode (b64_encode s) = Some s.
Proof.
  unfold b64_decode.
  induction s as [|a|a b|a b c s IH] using string_ind3; [done|..];
    pose proof (byte_of_bounds a) as Ha; try pose proof (byte_of_bounds b) as Hb;
    try pose proof (byte_of_bounds c) as Hc; cbn [b64_encode drop_breaks].
  - destruct (b64_char_spec (byte_of a / 4)) as (V1 & P1 & B1); [euclid|].
    destruct (b64_char_spec (byte_of a mod 4 * 16)) as (V2 & P2 & B2); [euclid|].
    rewrite B1, B2. cbn [drop_breaks b64_quanta]. rewrite V1, V2.
    cbn -[ascii_of Z.mul Z.div Z.modulo Z.add].
    rewrite (ascii_of_eq _ a) by euclid. done.
  - destruct (b64_char_spec (byte_of a / 4)) as (V1 & P1 & B1); [euclid|].
    destruct (b64_char_spec (byte_of a mod 4 * 16 + byte_of b / 16)) as (V2 & P2 & B2); [euclid|].
    destruct (b64_char_spec (byte_of b mod 16 * 4)) as (V3 & P3 & B3); [euclid|].
    rewrite B1, B2, B3. cbn [drop_breaks b64_quanta]. rewrite V1, V2, P3, V3.
    cbn -[ascii_of Z.mul Z.div Z.modulo Z.add].
    rewrite (ascii_of_eq _ a), (ascii_of_eq _ b) by euclid. done.
  - destruct (b64_char_spec (byte_of a / 4)) as (V1 & P1 & B1); [euclid|].
    destruct (b64_char_spec (byte_of a mod 4 * 16 + byte_of b / 16)) as (V2 & P2 & B2); [euclid|].
    destruct (b64_char_spec (byte_of b mod 16 * 4 + byte_of c / 64)) as (V3 & P3 & B3); [euclid|].
    destruct (b64_char_spec (byte_of c mod 64)) as (V4 & P4 & B4); [euclid|].
    rewrite B1, B2, B3, B4. cbn [b64_quanta]. rewrite V1, V2, P3, V3, P4, V4, IH.
    rewrite (ascii_of_eq _ a), (ascii_of_eq _ b), (ascii_of_eq _ c) by euclid. done.
Qed.

(** ** Encrypt and Decrypt *)

Section envelope.
Context `{P : Platform}.

Definition ErrInvalidKey : error := ErrNew "key must be exactly 32 bytes for AES-256-GCM".

(** [gcm.NonceSize()]. *)
Definition nonce_size : nat := 12.

(** Random bytes as a byte string. *)
Fixpoint rand_bytes (k : nat) (n : Z) : string :=
  match k with
  | O => ""
  | S k' => String (ascii_of (n mod 256)) (rand_bytes k' (n / 256))
  end.

Definition Encrypt (key plaintext : string) : M string :=
  if negb (len key =? 32) then fail ErrInvalidKey
  else
    let* r := rand in
    let nonce := rand_bytes nonce_size (Z.of_N r) in
    ret (b64_encode (nonce +:+ gcm_seal key nonce plaintext)).

Definition Decrypt (key envelope : string) : res error string :=
  if negb (len key =? 32) then Err ErrInvalidKey
  else
    match b64_decode envelope with
    | None => Err (ErrWrap "base64" (ErrNew "illegal base64 data"))
    | Some raw =>
      if (String.length raw <? nonce_size)%nat then Err (ErrNew "ciphertext too short")
      else
        match gcm_open key (str_take nonce_size raw) (str_drop nonce_size raw) with
        | None => Err (ErrWrap "gcm.Open" (ErrNew "cipher: message authentication failed"))
        | Some plaintext => Ok plaintext
        end
    end.

Lemma rand_bytes_length (k : nat) (n : Z) : String.length (rand_bytes k n) = k.
Proof. revert n. induction k; intros n; simpl; auto. Qed.

Lemma str_take_app (s t : string) : str_take (String.length s) (s +:+ t) = s.
Proof. induction s as [|a s IH]; [by destruct t|]. rewrite str_app_cons. simpl. by rewrite IH. Qed.

Lemma str_drop_app (s t : string) : str_drop (String.length s) (s +:+ t) = t.
Proof. induction s as [|a s IH]; [by destruct t|]. rewrite str_app_cons. simpl. apply IH. Qed.

(** An envelope opens again, and sealing only draws a nonce. *)
Lemma Encrypt_ok `{L : !PlatformLaws P} key plaintext w envelope w' :
  Encrypt key plaintext w = (Ok envelope, w') ->
  len key = 32 /\ Decrypt key envelope = Ok plaintext /\ w' = with_ctr (S (w_ctr w)) w.
Proof.
  unfold Encrypt, Decrypt. destruct (len key =? 32) eqn:E; cbn [negb]; [|by intros [? _]%fail_inv].
  unfold bind, rand, ret. cbv beta iota zeta.
  remember (rand_bytes nonce_size (Z.of_N (w_rand w (w_ctr w)))) as nonce eqn:Hn.
  intros [= <- <-]. split_and!; [lia | | done]. rewrite b64_decode_encode, str_length_app.
  assert (En : nonce_size = String.length nonce) by (subst nonce; symmetry; apply rand_bytes_length).
  rewrite En. destruct (Nat.ltb_spec (String.length nonce + String.length
    (gcm_seal key nonce plaintext)) (String.length nonce)); [lia|].
  rewrite str_take_app, str_drop_app, gcm_open_seal. done.
Qed.

Lemma Encrypt_total key plaintext w : len key = 32 -> is_ok (fst (Encrypt key plaintext w)) = true.
Proof. intros Hk. unfold Encrypt. rewrite Hk. done. Qed.

Lemma Encrypt_preserves key plaintext I : preserves I (Encrypt key plaintext).
Proof. unfold Encrypt. solve_preserves. Qed.

(** Round trip of a secret at rest: with a 32-byte key [Encrypt] always
    returns an envelope, which [Decrypt] opens to the plaintext; with any
    other key both refuse with [ErrInvalidKey]. *)
Theorem decrypt_encrypt `{L : !PlatformLaws P} (key plaintext : string) (w : World) :
  match Encrypt key plaintext w with
  | (Ok envelope, w') => len key = 32 /\ Decrypt key envelope = Ok plaintext
                         /\ w_db w' = w_db w
  | (Err e, w') => len key <> 32 /\ e = ErrInvalidKey /\ w' = w
                   /\ forall envelope, Decrypt key envelope = Err ErrInvalidKey
  end.
Proof.
  destruct (Encrypt key plaintext w) as [[env|e] w'] eqn:H.
  - apply Encrypt_ok in H as (Hk & Hd & ->). done.
  - unfold Encrypt, Decrypt in *. destruct (len key =? 32) eqn:E; cbn [negb] in *; [done|].
    apply fail_inv in H as [[= ->] ->]. split_and!; [lia | done | done | done].
Qed.
End envelope.

Lemma decrypt_encrypt_witness :
  exists envelope w', @Encrypt sample_platform (hex_bytes 16 7) "JBSWY3DPEHPK3PXP" empty_world
    = (Ok envelope, w')
  /\ @Decrypt sample_platform (hex_bytes 16 7) envelope = Ok "JBSWY3DPEHPK3PXP".
Proof.
  pose proof (@decrypt_encrypt sample_platform sample_platform_laws
    (hex_bytes 16 7) "JBSWY3DPEHPK3PXP" empty_world) as H.
  destruct (@Encrypt sample_platform (hex_bytes 16 7) "JBSWY3DPEHPK3PXP" empty_world)
    as [[env|e] w'].
  - exists env, w'. destruct H as (_ & H & _). done.
  - destruct H as (H & _). by destruct H.
Defined.
