(* ===== verification/Auth.v ===== *)
(** * Accounts and sessions

    Models [services/auth_service.go]: registration, login, refresh-token
    rotation, logout, two-factor codes, password change, and the
    administration of accounts.  The tokens and hashes come from the
    [Platform] interface. *)

From stdpp Require Import base numbers list strings option gmap sets.
From Stdlib Require Import Ascii.
From S2P Require Import Prelude GoStrings Regex Store Roles Platform Crypto.

Local Open Scope Z_scope.

(** ** Constants, errors and data *)

Definition second : Z := 10 ^ 9.
Definition accessTokenDuration : Z := 15 * 60 * second.
Definition refreshTokenDuration : Z := 7 * 24 * 3600 * second.
Definition partialTokenDuration : Z := 5 * 60 * second.
Definition refreshGracePeriod : Z := 30 * second.

Definition alnum : list (ascii * ascii) := [("a", "z"); ("A", "Z"); ("0", "9")]%char.

(** [^[a-zA-Z0-9._%+\-]+@[a-zA-Z0-9.\-]+\.[a-zA-Z]{2,}$]. *)
Definition emailRegex : re :=
  Cat (Plus (Cls (alnum ++ [(".", "."); ("_", "_"); ("%", "%"); ("+", "+"); ("-", "-")]%char)))
 (Cat (Chr "@"%char)
 (Cat (Plus (Cls (alnum ++ [(".", "."); ("-", "-")]%char)))
 (Cat (Chr "."%char) (rep_min 2 (Cls [("a", "z"); ("A", "Z")]%char))))).

(** [^[a-zA-Z0-9_]{3,20}$]. *)
Definition usernameRegex : re := rep_range 3 20 (Cls (alnum ++ [("_", "_")]%char)).

Definition ErrEmailTaken : error := ErrNew "email already in use".
Definition ErrUsernameTaken : error := ErrNew "username already in use".
Definition ErrInvalidCreds : error := ErrNew "invalid email or password".
Definition ErrUserInactive : error := ErrNew "account is disabled".
Definition ErrTOTPInvalid : error := ErrNew "invalid TOTP code".
Definition ErrSessionExpired : error := ErrNew "session expired or revoked".
Definition ErrWeakPasswordForRole : error :=
  ErrNew "owner and admin accounts require passwords of at least 12 characters including a digit and a symbol".
Definition ErrUserNotFound : error := ErrNew "user not found".
Definition ErrOwnerProtected : error := ErrNew "only owners can modify owner accounts".
Definition ErrLastOwner : error := ErrNew "cannot remove the last active owner".

Record Config := mkConfig {
  cfg_JWTSecret : string;
  cfg_JWTRefreshSecret : string;
  cfg_TOTPEncKey : string;
  cfg_SetupCodeHash : string
}.

Record LoginResult := mkLoginResult {
  lr_AccessToken : string;
  lr_RefreshToken : string;
  lr_User : option User;
  lr_RequiresTOTP : bool;
  lr_PartialToken : string
}.

Record TOTPSetupResult := mkTOTPSetupResult {
  ts_Secret : string;
  ts_OtpauthURI : string;
  ts_QRCodePNG : string
}.

(** ** Passwords *)

Definition is_digit (r : Z) : bool := in_range 48 57 r.
Definition is_alpha (r : Z) : bool := in_range 97 122 r || in_range 65 90 r.

(** The loop over the runes of a privileged password. *)
Definition password_scan (l : list rune) : bool * bool :=
  fold_left (fun '(hasDigit, hasSymbol) r =>
    if is_digit (rune_val r) then (true, hasSymbol)
    else if is_alpha (rune_val r) then (hasDigit, hasSymbol)
    else (hasDigit, true)) l (false, false).

Definition validatePasswordForRole (role password : string) : res error unit :=
  let privileged := String.eqb role RoleOwner || String.eqb role RoleAdmin in
  let minLen := if privileged then 12 else 8 in
  if RuneCount password <? minLen then
    Err (ErrNew (if privileged then "password must be at least 12 characters long"
                 else "password must be at least 8 characters long"))
  else if negb privileged then Ok tt
  else
    let '(hasDigit, hasSymbol) := password_scan (runes password) in
    if negb hasDigit || negb hasSymbol then Err ErrWeakPasswordForRole else Ok tt.

(** ** Rows of users *)

Section auth.
Context `{U : Unicode} `{P : Platform} `{J : Json LoginResult} (cfg : Config).

(** Equality of CITEXT values. *)
Definition citext_eq (a b : string) : bool := String.eqb (sql_lower a) (sql_lower b).

(** The columns of [SELECT id, email, username, password_hash, role,
    totp_enabled, created_at, last_login_at, is_active]. *)
Definition select_user (u : User) : User :=
  mkUser (user_ID u) (user_Email u) (user_Username u) (user_PasswordHash u) (user_Role u) ""
    (user_TOTPEnabled u) (user_CreatedAt u) (user_LastLoginAt u) (user_IsActive u)
    None None "" "".

(** The constraint [username_chars] of the users table. *)
Definition username_chars : re :=
  Plus (Cls (alnum ++ [("_", "_"); ("-", "-")]%char)).

(** [INSERT INTO users]: the row with the column defaults, and the
    constraints of the table. *)
Definition insert_user (id : uuid) (email username hash role : string) (t : Z) (d : DB)
  : res error DB :=
  let u := mkUser id email username hash role "" false t None true None None "en" "UTC" in
  if exists_row (users d) (fun v => citext_eq (user_Email v) email)
  then Err (ErrConstraint "users_email_key")
  else if exists_row (users d) (fun v => String.eqb (user_Username v) username)
  then Err (ErrConstraint "users_username_key")
  else if negb (in_range 3 30 (RuneCount username)) then Err (ErrConstraint "username_length")
  else if negb (MatchString username_chars username) then Err (ErrConstraint "username_chars")
  else if RoleWeight role =? 0 then Err (ErrConstraint "user_role")
  else match insert_row id u (users d) with
       | Ok t' => Ok (with_users t' d)
       | Err e => Err e
       end.

(** [RETURNING id, email, username, password_hash, role, totp_enabled,
    is_active, created_at]. *)
Definition create_user (id : uuid) (email username hash role : string) : M User :=
  let* t := now in
  exec (fun d =>
    match insert_user id email username hash role t d with
    | Ok d' => Ok (mkUser id email username hash role "" false t None true None None "" "", d')
    | Err e => Err e
    end).

Definition count_email (email : string) : M Z :=
  query (fun d => Ok (Z.of_nat (count_rows (users d) (fun u => citext_eq (user_Email u) email)))).

Definition count_username (username : string) : M Z :=
  query (fun d => Ok (Z.of_nat (count_rows (users d)
    (fun u => String.eqb (sql_lower (user_Username u)) (sql_lower username))))).

(** [bcrypt.GenerateFromPassword] with its random salt. *)
Definition hash_password (password : string) : M string :=
  let* salt := rand in
  match bcrypt_generate password salt with
  | Ok h => ret h
  | Err e => fail (ErrWrap "hashing password" e)
  end.

(** ** Register *)

Definition Register (email0 username0 password : string) : M User :=
  let email := ToLower (TrimSpace email0) in
  let username := TrimSpace username0 in
  if negb (MatchString emailRegex email) then fail (ErrNew "invalid email format")
  else if negb (MatchString usernameRegex username)
  then fail (ErrNew "username must be 3–20 characters and contain only letters, numbers, and underscores")
  else match validatePasswordForRole RoleUser password with
  | Err e => fail e
  | Ok _ =>
    let* emailCount := wrap "checking email uniqueness" (count_email email) in
    if 0 <? emailCount then fail ErrEmailTaken
    else
      let* usernameCount := wrap "checking username uniqueness" (count_username username) in
      if 0 <? usernameCount then fail ErrUsernameTaken
      else
        let* hash := hash_password password in
        let* id := new_uuid in
        wrap "inserting user" (create_user id email username hash RoleUser)
  end.

(** ** Tokens *)

(** [hashToken]: hex of SHA-256. *)
Fixpoint hex_string (s : string) : string :=
  match s with
  | EmptyString => ""
  | String a s' => hex_bytes 1 (byte_of a) +:+ hex_string s'
  end.

Definition hashToken (token : string) : string := hex_string (sha256 token).

Definition generateSecureToken : M string := rand_hex 32.

Definition unix (t : Z) : Z := t / second.

Definition access_claims (user : User) (jti : string) (t : Z) : claims :=
  [("sub", inl (uuid_string (user_ID user))); ("role", inl (user_Role user));
   ("jti", inl jti); ("iat", inr (unix t)); ("exp", inr (unix (t + accessTokenDuration)))].

Definition signAccessToken (user : User) (jti : string) : M string :=
  let* t := now in ret (jwt_sign (cfg_JWTSecret cfg) (access_claims user jti t)).

Definition partial_claims (userID : uuid) (t : Z) : claims :=
  [("sub", inl (uuid_string userID)); ("type", inl "totp_partial");
   ("exp", inr (unix (t + partialTokenDuration)))].

Definition issuePartialToken (userID : uuid) : M string :=
  let* t := now in ret (jwt_sign (cfg_JWTRefreshSecret cfg) (partial_claims userID t)).

(** [INSERT INTO sessions], with the constraints of the table. *)
Definition insert_session (s : Session) (d : DB) : res error (unit * DB) :=
  if negb (sql_inet (session_IPAddress s)) then Err (ErrConstraint "inet")
  else if bool_decide (users d !! session_UserID s = None)
  then Err (ErrConstraint "sessions_user_id_fkey")
  else if exists_row (sessions d) (fun s' => String.eqb (session_TokenHash s') (session_TokenHash s))
  then Err (ErrConstraint "sessions_token_hash_key")
  else match insert_row (session_ID s) s (sessions d) with
       | Ok t => Ok (tt, with_sessions t d)
       | Err e => Err e
       end.

Definition issueFullTokens (user : User) (ip userAgent : string) : M LoginResult :=
  let* jti := new_uuid in
  let* accessToken := wrap "signing access token" (signAccessToken user (uuid_string jti)) in
  let* refreshToken := wrap "generating refresh token" generateSecureToken in
  let* t := now in
  let* id := new_uuid in
  run* wrap "creating session" (exec (insert_session
    (mkSession id (user_ID user) (hashToken refreshToken) ip userAgent t
       (t + refreshTokenDuration) false))) in
  run* ignore (exec (fun d =>
    Ok (tt, with_users (alter (user_with_LastLoginAt (Some t)) (user_ID user) (users d)) d))) in
  ret (mkLoginResult accessToken refreshToken (Some user) false "").

(** ** Login *)

Definition findUserByEmail (email : string) : M User :=
  query (fun d =>
    match find_key (users d) (fun u => citext_eq (user_Email u) email) with
    | Ok (_, u) => Ok (select_user u)
    | Err e => Err e
    end).

Definition Login (email0 password ip userAgent : string) : M LoginResult :=
  let email := ToLower (TrimSpace email0) in
  let* r := attempt (findUserByEmail email) in
  match r with
  | Err e => if error_Is e ErrNoRows then fail ErrInvalidCreds
             else fail (ErrWrap "finding user" e)
  | Ok user =>
    if negb (bcrypt_compare (user_PasswordHash user) password) then fail ErrInvalidCreds
    else if negb (user_IsActive user) then fail ErrUserInactive
    else if user_TOTPEnabled user then
      let* partialToken := wrap "issuing partial token" (issuePartialToken (user_ID user)) in
      ret (mkLoginResult "" "" None true partialToken)
    else issueFullTokens user ip userAgent
  end.

(** ** RefreshToken *)

Definition refreshGraceKey (tokenHash : string) : string := "refresh_grace:" +:+ tokenHash.
Definition refreshRotatingKey (tokenHash : string) : string := "refresh_rotating:" +:+ tokenHash.

(** The polling loop: [wait n] is what happens during the wait of the
    attempt with [n] attempts left, [None] when the request is cancelled. *)
Fixpoint rotated_loop (wait : nat -> option (M unit)) (tokenHash : string) (attempts : nat)
  : M LoginResult :=
  match attempts with
  | O => fail ErrSessionExpired
  | S remaining =>
    let* g := attempt (redis_get (refreshGraceKey tokenHash)) in
    match g with
    | Err _ => fail ErrSessionExpired
    | Ok (Some body) =>
      match json_unmarshal body with
      | Some result => ret result
      | None => fail ErrSessionExpired
      end
    | Ok None =>
      let* n := attempt (redis_get (refreshRotatingKey tokenHash)) in
      match n with
      | Ok (Some _) =>
        match wait remaining with
        | None => fail ErrSessionExpired
        | Some others =>
          run* sleep (100 * 10 ^ 6) in
          run* ignore others in
          rotated_loop wait tokenHash remaining
        end
      | _ => fail ErrSessionExpired
      end
    end
  end.

Definition rotatedResult (wait : nat -> option (M unit)) (tokenHash : string) : M LoginResult :=
  rotated_loop wait tokenHash 20.

(** The session of a token hash joined with its user: session id, expiry,
    revoked, user. *)
Definition find_session (tokenHash : string) (d : DB) : res error (uuid * Session * User) :=
  match find_key (sessions d) (fun s => String.eqb (session_TokenHash s) tokenHash) with
  | Err e => Err e
  | Ok (id, s) => match users d !! session_UserID s with
                  | Some u => Ok (id, s, select_user u)
                  | None => Err ErrNoRows
                  end
  end.

(** [UPDATE sessions SET revoked = true WHERE id = $1 AND NOT revoked]. *)
Definition claim_session (id : uuid) (d : DB) : res error (Z * DB) :=
  match sessions d !! id with
  | Some s => if session_Revoked s then Ok (0, d)
              else Ok (1, with_sessions (<[id := session_with_Revoked true s]> (sessions d)) d)
  | None => Ok (0, d)
  end.

(** From the claim of the rotation on. *)
Definition rotate (wait : nat -> option (M unit)) (tokenHash : string) (id : uuid) (user : User)
    (ip userAgent : string) : M LoginResult :=
  let* n := wrap "revoking old session" (exec (claim_session id)) in
  if n =? 0 then rotatedResult wait tokenHash
  else
    run* ignore (redis_set (refreshRotatingKey tokenHash) "1" (5 * second)) in
    let* result := issueFullTokens user ip userAgent in
    run* match json_marshal result with
         | Some body => ignore (redis_set (refreshGraceKey tokenHash) body refreshGracePeriod)
         | None => ret tt
         end in
    ret result.

Definition RefreshToken (wait : nat -> option (M unit)) (refreshToken ip userAgent : string)
  : M LoginResult :=
  let tokenHash := hashToken refreshToken in
  let* r := attempt (query (find_session tokenHash)) in
  match r with
  | Err e => if error_Is e ErrNoRows then fail ErrSessionExpired
             else fail (ErrWrap "fetching session" e)
  | Ok (id, session, user) =>
    let* t := now in
    if session_ExpiresAt session <? t then fail ErrSessionExpired
    else if session_Revoked session then rotatedResult wait tokenHash
    else if negb (user_IsActive user) then fail ErrUserInactive
    else rotate wait tokenHash id user ip userAgent
  end.

(** ** Logout *)

Definition blacklist_key (jti : string) : string := "blacklist:" +:+ jti.

Definition revoke_where (p : Session -> bool) (d : DB) : DB :=
  with_sessions (update_where (session_with_Revoked true) p (sessions d)) d.

Definition Logout (jti refreshToken : string) (remainingTTL : Z) : M unit :=
  run* (if negb (String.eqb jti "")
        then wrap "blacklisting jti" (redis_set (blacklist_key jti) "1" remainingTTL)
        else ret tt) in
  if negb (String.eqb refreshToken "") then
    wrap "revoking refresh session" (exec (fun d =>
      Ok (tt, revoke_where (fun s => String.eqb (session_TokenHash s) (hashToken refreshToken)) d)))
  else ret tt.

(** ** Two-factor authentication *)

(** [findUserByID], with the secret decrypted. *)
Definition findUserByID (id : uuid) : M User :=
  let* user := query (fun d =>
    match users d !! id with
    | Some u => Ok (user_with_TOTPSecret (user_TOTPSecret u) (select_user u))
    | None => Err ErrNoRows
    end) in
  if negb (String.eqb (user_TOTPSecret user) "") then
    match Decrypt (cfg_TOTPEncKey cfg) (user_TOTPSecret user) with
    | Ok plain => ret (user_with_TOTPSecret plain user)
    | Err e => fail (ErrWrap "decrypting TOTP secret" e)
    end
  else ret user.

Definition GetMe (userID : uuid) : M User := findUserByID userID.

(** [UPDATE users SET ... WHERE id = $n]. *)
Definition update_user (id : uuid) (f : User -> User) : M unit :=
  exec (fun d => Ok (tt, with_users (alter f id (users d)) d)).

Definition SetupTOTP (userID : uuid) : M TOTPSetupResult :=
  let* user := wrap "loading user" (findUserByID userID) in
  if user_TOTPEnabled user then fail (ErrNew "TOTP is already enabled; disable it first")
  else
    let* r := rand in
    match totp_generate r (user_Email user) with
    | Err e => fail (ErrWrap "generating TOTP key" e)
    | Ok (secret, url) =>
      let* encrypted := wrap "encrypting TOTP secret" (Encrypt (cfg_TOTPEncKey cfg) secret) in
      run* wrap "storing pending TOTP secret" (update_user userID (fun u =>
        user_with_TOTPEnabled false (user_with_TOTPSecret encrypted u))) in
      match totp_png url with
      | Err e => fail (ErrWrap "rendering QR image" e)
      | Ok png => ret (mkTOTPSetupResult secret url png)
      end
    end.

Definition ConfirmTOTP (userID : uuid) (code : string) : M unit :=
  let* user := wrap "loading user" (findUserByID userID) in
  if user_TOTPEnabled user then fail (ErrNew "TOTP is already enabled")
  else if String.eqb (user_TOTPSecret user) ""
  then fail (ErrNew "no pending TOTP setup — call setup first")
  else
    let* t := now in
    if negb (totp_validate t code (user_TOTPSecret user)) then fail ErrTOTPInvalid
    else update_user userID (user_with_TOTPEnabled true).

Definition DisableTOTP (userID : uuid) (password : string) : M unit :=
  let* user := wrap "loading user" (findUserByID userID) in
  if negb (bcrypt_compare (user_PasswordHash user) password) then fail ErrInvalidCreds
  else update_user userID (fun u =>
         user_with_TOTPSecret "" (user_with_TOTPEnabled false u)).

Definition VerifyTOTP (partialTokenStr code ip userAgent : string) : M LoginResult :=
  let* t := now in
  match jwt_parse (cfg_JWTRefreshSecret cfg) (unix t) partialTokenStr with
  | None => fail (ErrNew "invalid or expired partial token")
  | Some claims =>
    if negb (bool_decide (claim_string "type" claims = Some "totp_partial"))
    then fail (ErrNew "token is not a TOTP partial token")
    else match claim "sub" claims with
    | Some (inr _) => fail (ErrNew "invalid partial token subject")
    | sub =>
      match uuid_parse (match sub with Some (inl s) => s | _ => "" end) with
      | None => fail (ErrNew "invalid user ID in partial token")
      | Some userID =>
        let* user := wrap "loading user" (findUserByID userID) in
        if negb (user_IsActive user) then fail ErrUserInactive
        else
          let* t' := now in
          if negb (totp_validate t' code (user_TOTPSecret user)) then fail ErrTOTPInvalid
          else issueFullTokens user ip userAgent
      end
    end
  end.

(** ** ChangePassword *)

Definition ChangePassword (userID : uuid) (oldPassword newPassword : string) : M unit :=
  let* user := findUserByID userID in
  if negb (bcrypt_compare (user_PasswordHash user) oldPassword)
  then fail (ErrNew "current password is incorrect")
  else match validatePasswordForRole (user_Role user) newPassword with
  | Err e => fail e
  | Ok _ =>
    let* hash := hash_password newPassword in
    run* update_user userID (user_with_PasswordHash hash) in
    run* ignore (exec (fun d =>
      Ok (tt, revoke_where (fun s => (session_UserID s =? userID)%N) d))) in
    ret tt
  end.

(** ** Administration of accounts *)

Definition ListUsers : M (list User) :=
  wrap "querying users" (query (fun d =>
    Ok (order_by (fun u v => user_CreatedAt u <=? user_CreatedAt v)
          (map select_user (rows (users d) (fun _ => true)))))).

(** [adminTargetChange]: the owner hierarchy around a change, in one
    transaction. *)
Definition adminTargetChange (callerRole : string) (targetID : uuid)
    (removesOwner : string -> bool -> bool) (fn : M unit) : M unit :=
  tx "beginning transaction" (fun e => e)
    (run* wrap "locking owners" (query (fun _ => Ok tt)) in
     let* r := attempt (query (fun d => get_key (users d) targetID)) in
     match r with
     | Err e => if error_Is e ErrNoRows then fail ErrUserNotFound
                else fail (ErrWrap "loading target user" e)
     | Ok target =>
       let targetRole := user_Role target in
       if String.eqb targetRole RoleOwner && negb (String.eqb callerRole RoleOwner)
       then fail ErrOwnerProtected
       else
         run* (if removesOwner targetRole (user_IsActive target) then
                 let* others := wrap "counting owners" (query (fun d =>
                   Ok (Z.of_nat (count_key (users d) (fun k u =>
                     String.eqb (user_Role u) RoleOwner && user_IsActive u
                     && negb (k =? targetID)%N))))) in
                 if others =? 0 then fail ErrLastOwner else ret tt
               else ret tt) in
         fn
     end).

Definition UpdateUserRole (callerRole : string) (targetID : uuid) (role : string) : M unit :=
  if String.eqb role RoleOwner && negb (String.eqb callerRole RoleOwner)
  then fail ErrOwnerProtected
  else adminTargetChange callerRole targetID
    (fun targetRole active =>
       String.eqb targetRole RoleOwner && active && negb (String.eqb role RoleOwner))
    (wrap "updating user role" (exec (fun d =>
       if RoleWeight role =? 0 then Err (ErrConstraint "user_role")
       else Ok (tt, with_users (alter (user_with_Role role) targetID (users d)) d)))).

Definition SetUserActive (callerRole : string) (targetID : uuid) (active : bool) : M unit :=
  adminTargetChange callerRole targetID
    (fun targetRole wasActive =>
       String.eqb targetRole RoleOwner && wasActive && negb active)
    (wrap "updating user active status" (update_user targetID (user_with_IsActive active))).

(** [DELETE FROM users WHERE id = $1]: refused while the user owns a server;
    the rows that reference the user go, or lose the reference. *)
Definition delete_user (id : uuid) (d : DB) : res error (unit * DB) :=
  if exists_row (servers d) (fun s => (server_OwnerID s =? id)%N)
  then Err (ErrConstraint "servers_owner_id_fkey")
  else
    let gone := delete_where (fun r => (rule_UserID r =? id)%N) (alert_rules d) in
    Ok (tt,
      with_users (delete id (users d))
     (with_sessions (delete_where (fun s => (session_UserID s =? id)%N) (sessions d))
     (with_user_permissions (filter (fun kv => (kv.1).1 <> id) (user_permissions d))
     (with_server_members (filter (fun kv => (kv.1).2 <> id) (server_members d))
     (with_server_invitations
        (delete_where (fun i => (invitation_InviterID i =? id)%N) (server_invitations d))
     (with_node_enrollments
        (delete_where (fun e => bool_decide (enrollment_CreatedBy e = Some id)) (node_enrollments d))
     (with_notification_prefs (filter (fun kv => (kv.1).1 <> id) (notification_prefs d))
     (with_alert_rules gone
     (with_alert_events
        (update_where (event_with_RuleID None)
           (fun e => match event_RuleID e with
                     | Some r => bool_decide (gone !! r = None)
                     | None => false
                     end) (alert_events d))
     (with_players
        (update_where (player_with_BannedBy None)
           (fun p => bool_decide (player_BannedBy p = Some id)) (players d))
     (with_network_bans
        (update_where (netban_with_BannedBy None)
           (fun b => bool_decide (netban_BannedBy b = Some id)) (network_bans d))
     (with_activity_logs
        (map (fun l => if bool_decide (alog_UserID l = Some id)
                       then alog_with_UserID None l else l) (activity_logs d)) d)))))))))))).

Definition DeleteUser (callerRole : string) (targetID : uuid) : M unit :=
  adminTargetChange callerRole targetID
    (fun targetRole active => String.eqb targetRole RoleOwner && active)
    (run* wrap "revoking sessions" (exec (fun d =>
       Ok (tt, revoke_where (fun s => (session_UserID s =? targetID)%N) d))) in
     wrap "deleting user" (exec (delete_user targetID))).

(** The errors of the two counts are dropped: a failed count reads as 0. *)
Definition CreateUserByAdmin (email0 username0 password role : string) : M User :=
  let email := ToLower (TrimSpace email0) in
  let username := TrimSpace username0 in
  if negb (MatchString emailRegex email) then fail (ErrNew "invalid email format")
  else if negb (MatchString usernameRegex username)
  then fail (ErrNew "username must be 3-20 characters and contain only letters, numbers, and underscores")
  else if RoleWeight role =? 0
  then fail (ErrNew "invalid role: must be user, moderator, admin, or owner")
  else match validatePasswordForRole role password with
  | Err e => fail e
  | Ok _ =>
    let* c1 := attempt (count_email email) in
    if 0 <? match c1 with Ok n => n | Err _ => 0 end then fail ErrEmailTaken
    else
      let* c2 := attempt (count_username username) in
      if 0 <? match c2 with Ok n => n | Err _ => 0 end then fail ErrUsernameTaken
      else
        let* hash := hash_password password in
        let* id := new_uuid in
        wrap "inserting user" (create_user id email username hash role)
  end.

(** ** Activity and sessions *)

Definition by_time_desc (a b : ActivityLog) : bool := alog_CreatedAt b <=? alog_CreatedAt a.

Definition GetUserActivity (userID : uuid) (limit : nat) : M (list ActivityLog) :=
  wrap "querying user activity" (query (fun d =>
    Ok (take limit (order_by by_time_desc
          (List.filter (fun l => bool_decide (alog_UserID l = Some userID)) (activity_logs d)))))).

Definition GetActivityLogs (limit : nat) : M (list ActivityLog) :=
  wrap "querying activity logs" (query (fun d =>
    Ok (take limit (order_by by_time_desc (activity_logs d))))).

Definition GetUserSessions (userID : uuid) : M (list Session) :=
  let* t := now in
  wrap "querying sessions" (query (fun d =>
    Ok (order_by (fun a b => session_CreatedAt b <=? session_CreatedAt a)
          (rows (sessions d) (fun s => (session_UserID s =? userID)%N
             && negb (session_Revoked s) && (t <? session_ExpiresAt s)))))).

Definition RevokeSession (userID sessionID : uuid) : M unit :=
  let* n := wrap "revoking session" (exec (fun d =>
    match sessions d !! sessionID with
    | Some s => if (session_UserID s =? userID)%N
                then Ok (1, with_sessions (<[sessionID := session_with_Revoked true s]> (sessions d)) d)
                else Ok (0, d)
    | None => Ok (0, d)
    end)) in
  if n =? 0 then fail (ErrNew "session not found") else ret tt.
End auth.
