(* ===== verification/Setup.v ===== *)
(** * First-run setup

    Models [services/setup_service.go]: the one-time setup code and the
    creation of the first owner. *)

From stdpp Require Import base numbers list strings option gmap sets.
From Stdlib Require Import Ascii.
From S2P Require Import Prelude GoStrings Regex Store Roles Platform Crypto Auth.

Local Open Scope Z_scope.

Definition ErrSetupDisabled : error := ErrNew "setup with a code is not enabled".
Definition ErrSetupCodeInvalid : error := ErrNew "invalid setup code".
Definition ErrSetupCompleted : error := ErrNew "setup already completed".
Definition ErrSetupLoginFailed : error := ErrNew "account created but sign-in failed".

(** A [SetupInputError] carries a message for the user. *)
Definition SetupInputError (msg : string) : error := ErrWrap "setup input" (ErrNew msg).

(** [A-HJ-NP-Z2-9]: no 0/O and no 1/I. *)
Definition code_class : list (ascii * ascii) :=
  [("A", "H"); ("J", "N"); ("P", "Z"); ("2", "9")]%char.

(** [^[A-HJ-NP-Z2-9]{4}-[A-HJ-NP-Z2-9]{4}-[A-HJ-NP-Z2-9]{4}$]. *)
Definition setupCodeRegex : re :=
  Cat (rep 4 (Cls code_class)) (Cat (Chr "-"%char)
 (Cat (rep 4 (Cls code_class)) (Cat (Chr "-"%char) (rep 4 (Cls code_class))))).

(** [hex.DecodeString]. *)
Definition hex_value (a : ascii) : option Z :=
  let b := byte_of a in
  if in_range 48 57 b then Some (b - 48)
  else if in_range 97 102 b then Some (b - 87)
  else if in_range 65 70 b then Some (b - 55)
  else None.

Fixpoint hex_decode (s : string) : option string :=
  match s with
  | EmptyString => Some ""
  | String a (String b s') =>
    match hex_value a, hex_value b, hex_decode s' with
    | Some x, Some y, Some t => Some (String (ascii_of (x * 16 + y)) t)
    | _, _, _ => None
    end
  | _ => None
  end.

Section setup.
Context `{U : Unicode} `{P : Platform} `{J : Json LoginResult} (cfg : Config).

Definition NormalizeSetupCode (code : string) : string * bool :=
  let code' := Map (fun r => if IsSpace r then None else Some (unicode_ToUpper r)) code in
  (code', MatchString setupCodeRegex code').

Definition SetupCodeEnabled : bool := negb (String.eqb (cfg_SetupCodeHash cfg) "").

Definition checkSetupCode (code : string) : bool :=
  match hex_decode (cfg_SetupCodeHash cfg) with
  | None => false
  | Some want =>
    if negb (len want =? 32) then false
    else
      let '(norm, ok) := NormalizeSetupCode code in
      String.eqb (sha256 norm) want && ok
  end.

Definition users_exist : M bool := query (fun d => Ok (exists_row (users d) (fun _ => true))).

(** [INSERT INTO activity_logs] of the setup, in the same transaction. *)
Definition log_setup (userID : uuid) (ip : string) : M unit :=
  let* t := now in
  exec (fun d =>
    if negb (String.eqb ip "") && negb (sql_inet ip) then Err (ErrConstraint "inet")
    else Ok (tt, with_activity_logs
      (mkActivityLog (Some userID) None "setup.complete" "users" (Some userID) t
         :: activity_logs d) d)).

(** The transaction that creates the owner. *)
Definition create_owner (email username hash ip : string) : M User :=
  tx "begin" (ErrWrap "commit")
    (run* wrap "locking users" (query (fun _ => Ok tt)) in
     let* again := wrap "checking users" users_exist in
     if (again : bool) then fail ErrSetupCompleted
     else
       let* id := new_uuid in
       let* user := wrap "inserting user" (create_user id email username hash RoleOwner) in
       run* wrap "writing audit log" (log_setup (user_ID user) ip) in
       ret user).

Definition CompleteSetup (code email0 username0 password ip userAgent : string)
  : M LoginResult :=
  if negb SetupCodeEnabled then fail ErrSetupDisabled
  else
    let* exists_ := wrap "checking users" users_exist in
    if (exists_ : bool) then fail ErrSetupCompleted
    else if negb (checkSetupCode code) then fail ErrSetupCodeInvalid
    else
      let email := ToLower (TrimSpace email0) in
      let username := TrimSpace username0 in
      if negb (MatchString emailRegex email)
      then fail (SetupInputError "invalid email format")
      else if negb (MatchString usernameRegex username)
      then fail (SetupInputError "username must be 3-20 characters and contain only letters, numbers, and underscores")
      else match validatePasswordForRole RoleOwner password with
      | Err e => fail (SetupInputError (error_Error e))
      | Ok _ =>
        let* hash := hash_password password in
        let* user := create_owner email username hash ip in
        let* r := attempt (issueFullTokens cfg user ip userAgent) in
        match r with
        | Ok result => ret result
        | Err e => fail (ErrDetail ErrSetupLoginFailed (error_Error e))
        end
      end.
End setup.
