(* ===== verification/AuthTheorems.v ===== *)
(** * What the accounts service guarantees

    Theorems about [Auth] and [Setup]: an active owner always remains, only
    owners touch owners, a refresh token is used once, a login proves the
    password, a password change ends every session, and setup runs once. *)

From stdpp Require Import base numbers list strings option gmap sets relations.
From S2P Require Import Prelude GoStrings Regex Store Roles Platform Crypto Auth Setup.

Local Open Scope Z_scope.

(** ** The operations of the service *)

Section ops.
Context `{U : Unicode} `{P : Platform} `{J : Json LoginResult} (cfg : Config).

(** The other requests that run while a refresh waits. *)
Definition rely (I : DB -> Prop) (wait : nat -> option (M unit)) : Prop :=
  forall n m, wait n = Some m -> preserves I m.

(** The methods of the service that write, [DeleteUser] apart. *)
Inductive account_op (I : DB -> Prop) : forall A, M A -> Prop :=
| op_Register e u p : account_op I User (Register e u p)
| op_Login e p ip ua : account_op I LoginResult (Login cfg e p ip ua)
| op_RefreshToken wait t ip ua :
    rely I wait -> account_op I LoginResult (RefreshToken cfg wait t ip ua)
| op_Logout j t ttl : account_op I unit (Logout j t ttl)
| op_SetupTOTP u : account_op I TOTPSetupResult (SetupTOTP cfg u)
| op_ConfirmTOTP u c : account_op I unit (ConfirmTOTP cfg u c)
| op_DisableTOTP u p : account_op I unit (DisableTOTP cfg u p)
| op_VerifyTOTP t c ip ua : account_op I LoginResult (VerifyTOTP cfg t c ip ua)
| op_ChangePassword u o n : account_op I unit (ChangePassword cfg u o n)
| op_UpdateUserRole c t r : account_op I unit (UpdateUserRole c t r)
| op_SetUserActive c t a : account_op I unit (SetUserActive c t a)
| op_CreateUserByAdmin e u p r : account_op I User (CreateUserByAdmin e u p r)
| op_RevokeSession u s : account_op I unit (RevokeSession u s)
| op_CompleteSetup c e u p ip ua :
    account_op I LoginResult (CompleteSetup cfg c e u p ip ua).

(** ** Invariants by statement

    An invariant of the database that survives each kind of statement the
    service sends survives every method. *)
Record stable (I : DB -> Prop) : Prop := {
  st_revoke p d : I d -> I (revoke_where p d);
  st_revoke_one id s d : sessions d !! id = Some s -> I d ->
    I (with_sessions (<[id := session_with_Revoked true s]> (sessions d)) d);
  st_session s d d' : insert_session s d = Ok (tt, d') -> I d -> I d';
  st_insert_user id e u h r t d d' : insert_user id e u h r t d = Ok d' -> I d -> I d';
  st_alter f id d :
    (forall u, user_Role (f u) = user_Role u /\ user_IsActive (f u) = user_IsActive u) ->
    I d -> I (with_users (alter f id (users d)) d);
  st_logs l d : I d -> I (with_activity_logs l d);
  st_role c t r : preserves I (UpdateUserRole c t r);
  st_active c t a : preserves I (SetUserActive c t a)
}.

Section stable_ops.
Context (I : DB -> Prop) (HI : stable I).

Lemma create_user_preserves id e u h r : preserves I (create_user id e u h r).
Proof.
  unfold create_user. solve_preserves. apply preserves_exec. intros d x d' Hd H.
  destruct (insert_user _ _ _ _ _ _ d) as [d0|] eqn:E; [|done].
  assert (d0 = d') as <- by congruence. by eapply st_insert_user.
Qed.

Lemma hash_password_preserves p : preserves I (hash_password p).
Proof. unfold hash_password. solve_preserves. Qed.

Lemma update_user_preserves id f :
  (forall u, user_Role (f u) = user_Role u /\ user_IsActive (f u) = user_IsActive u) ->
  preserves I (update_user id f).
Proof.
  intros Hf. apply preserves_exec. intros d x d' Hd [= _ <-]. by apply st_alter.
Qed.

Lemma findUserByID_preserves id : preserves I (findUserByID cfg id).
Proof. unfold findUserByID. solve_preserves. Qed.

Lemma issueFullTokens_preserves user ip ua : preserves I (issueFullTokens cfg user ip ua).
Proof.
  unfold issueFullTokens, signAccessToken, generateSecureToken. solve_preserves.
  - apply preserves_exec. intros d [] d' Hd H. by eapply st_session.
  - apply preserves_exec. intros d x d' Hd [= _ <-]. by apply st_alter.
Qed.

Lemma rotated_loop_preserves wait h n : rely I wait -> preserves I (rotated_loop wait h n).
Proof.
  intros Hw. induction n as [|n IH]; cbn [rotated_loop]; [solve_preserves|].
  destruct (wait n) as [m|] eqn:E; solve_preserves; eauto.
Qed.

Lemma rotate_preserves wait h id u ip ua :
  rely I wait -> preserves I (rotate cfg wait h id u ip ua).
Proof.
  intros Hw. unfold rotate, rotatedResult.
  solve_preserves; auto using rotated_loop_preserves, issueFullTokens_preserves.
  apply preserves_exec. intros d x d' Hd. unfold claim_session.
  destruct (sessions d !! id) as [s|] eqn:E; [|congruence].
  destruct (session_Revoked s); [congruence|]. intros [= _ <-]. by apply st_revoke_one.
Qed.

Lemma account_op_preserves A (m : M A) : account_op I A m -> preserves I m.
Proof.
  intros H. destruct H.
  - unfold Register, count_email, count_username. solve_preserves;
      auto using create_user_preserves, hash_password_preserves.
  - unfold Login, findUserByEmail, issuePartialToken.
    solve_preserves; auto using issueFullTokens_preserves.
  - unfold RefreshToken, rotatedResult.
    solve_preserves; auto using rotated_loop_preserves, rotate_preserves.
  - unfold Logout. solve_preserves. apply preserves_exec.
    intros d x d' Hd [= _ <-]. by apply st_revoke.
  - unfold SetupTOTP. solve_preserves;
      auto using findUserByID_preserves, Encrypt_preserves, update_user_preserves.
  - unfold ConfirmTOTP. solve_preserves;
      auto using findUserByID_preserves, update_user_preserves.
  - unfold DisableTOTP. solve_preserves;
      auto using findUserByID_preserves, update_user_preserves.
  - unfold VerifyTOTP. solve_preserves;
      auto using findUserByID_preserves, issueFullTokens_preserves.
  - unfold ChangePassword. solve_preserves;
      auto using findUserByID_preserves, update_user_preserves, hash_password_preserves.
    apply preserves_exec. intros d x d' Hd [= _ <-]. by apply st_revoke.
  - by apply st_role.
  - by apply st_active.
  - unfold CreateUserByAdmin, count_email, count_username. solve_preserves;
      auto using create_user_preserves, hash_password_preserves.
  - unfold RevokeSession. solve_preserves. apply preserves_exec.
    intros d x d' Hd. destruct (sessions d !! s) as [ss|] eqn:E; [|congruence].
    destruct (_ =? _)%N; [|congruence]. intros [= _ <-]. by apply st_revoke_one.
  - unfold CompleteSetup, users_exist, create_owner, log_setup, users_exist.
    solve_preserves;
      auto using create_user_preserves, hash_password_preserves, issueFullTokens_preserves.
    apply preserves_exec. intros d x d' Hd.
    destruct (_ && _); [done|]. intros [= _ <-]. by apply st_logs.
Qed.
End stable_ops.
End ops.

(** ** The owner hierarchy *)

Definition is_active_owner (u : User) : Prop :=
  user_Role u = RoleOwner /\ user_IsActive u = true.

Definition has_owner (d : DB) : Prop :=
  exists i u, users d !! i = Some u /\ is_active_owner u.

(** What is known when an administrative change has gone through. *)
Lemma adminTargetChange_inv cr tid rem fn w r w' :
  adminTargetChange cr tid rem fn w = (r, w') ->
  (exists e, r = Err e /\ w_db w' = w_db w)
  \/ (exists w1 w2 target, r = Ok tt /\ users (w_db w) !! tid = Some target
      /\ (user_Role target = RoleOwner -> cr = RoleOwner)
      /\ (rem (user_Role target) (user_IsActive target) = true ->
          exists k u, k <> tid /\ users (w_db w) !! k = Some u /\ is_active_owner u)
      /\ w_db w1 = w_db w /\ fn w1 = (Ok tt, w2) /\ w_db w' = w_db w2).
Proof.
  intros H. apply tx_inv in H as [(a & -> & w0 & w2 & Hb & Hd & _ & Hw')|(e & -> & Hw')];
    [|left; eauto].
  right. rewrite <- Hd. apply bind_ok in Hb as ([] & wa & Hq & Hb).
  apply wrap_inv in Hq as [(? & _ & Hq)|(? & ? & _)]; [|done].
  apply query_inv in Hq as (Ha & _). rewrite <- Ha. cbv beta in Hb.
  apply bind_ok in Hb as (rt & wb & Hq2 & Hb). apply attempt_inv in Hq2 as (rt' & [= <-] & Hq2).
  apply query_inv in Hq2 as (Hb2 & _ & _ & _ & _ & Hrt). rewrite <- Hb2.
  destruct rt as [target|e]; [|by destruct (error_Is e ErrNoRows)].
  destruct Hrt as [Hrt|Hrt]; [done|]. rewrite <- Hb2 in Hrt. unfold get_key in Hrt.
  destruct (users (w_db wb) !! tid) as [tg|] eqn:Et; [|done].
  assert (target = tg) as -> by congruence. clear Hrt.
  cbv zeta in Hb.
  destruct (String.eqb (user_Role tg) RoleOwner && _) eqn:Eo; [done|].
  apply bind_ok in Hb as ([] & wc & Hchk & Hfn). destruct a.
  assert (Hc : w_db wc = w_db wb
    /\ (rem (user_Role tg) (user_IsActive tg) = true ->
        exists k u, k <> tid /\ users (w_db wb) !! k = Some u /\ is_active_owner u)).
  { destruct (rem _ _); [|by apply ret_inv in Hchk as [_ ->]].
    apply bind_ok in Hchk as (n & wd & Hq3 & Hn).
    apply wrap_inv in Hq3 as [(? & [= <-] & Hq3)|(? & ? & _)]; [|done].
    apply query_inv in Hq3 as (Hd3 & _ & _ & _ & _ & [?|Hcnt]); [done|].
    destruct (n =? 0) eqn:En; [done|]. apply ret_inv in Hn as [_ ->]. split; [done|].
    intros _. assert (Hpos : count_key (users (w_db wb)) (fun k u =>
      String.eqb (user_Role u) RoleOwner && user_IsActive u && negb (k =? tid)%N) <> 0%nat).
    { intros Hz. rewrite Hz in Hcnt. assert (n = Z.of_nat 0) by congruence. lia. }
    apply count_key_pos in Hpos as (k & u & Hk & Hp). breflect. by exists k, u. }
  destruct Hc as [Hc Hrem]. exists wc, w2, tg. split_and!; try done.
  intros Hr. rewrite Hr in Eo. change (String.eqb RoleOwner RoleOwner) with true in Eo.
  by breflect; destruct Eo as [|Eo]; [|breflect].
Qed.

Lemma has_owner_alter d tid target f :
  users d !! tid = Some target ->
  (is_active_owner target -> is_active_owner (f target)
     \/ exists k u, k <> tid /\ users d !! k = Some u /\ is_active_owner u) ->
  has_owner d -> has_owner (with_users (alter f tid (users d)) d).
Proof.
  intros Ht Hf (i & u & Hi & Hu). unfold has_owner. simpl.
  destruct (decide (i = tid)) as [->|Hne].
  - assert (u = target) as -> by congruence. destruct (Hf Hu) as [Hf'|(k & v & Hk & Hv & Ho)].
    + exists tid, (f target). by rewrite lookup_alter_eq, Ht.
    + exists k, v. by rewrite lookup_alter_ne.
  - exists i, u. by rewrite lookup_alter_ne.
Qed.

Lemma UpdateUserRole_owner c t r : preserves has_owner (UpdateUserRole c t r).
Proof.
  intros w Hw. unfold UpdateUserRole. destruct (_ && _); [done|].
  destruct (adminTargetChange _ _ _ _ w) as [res w'] eqn:E. simpl.
  apply adminTargetChange_inv in E as [(e & _ & ->)|(w1 & w2 & tg & _ & Ht & _ & Hrem & H1 & Hfn & ->)];
    [done|].
  apply wrap_ok, exec_ok in Hfn as Hf.
  destruct (RoleWeight r =? 0); [done|]. rewrite H1 in Hf.
  assert (Hd : with_users (alter (user_with_Role r) t (users (w_db w))) (w_db w) = w_db w2)
    by congruence.
  rewrite <- Hd. eapply has_owner_alter; [done| |done]. intros [Hr Ha].
  destruct (String.eqb r RoleOwner) eqn:Er; breflect.
  - left. split; [done|]. done.
  - right. apply Hrem. rewrite Hr, Ha. simpl. done.
Qed.

Lemma SetUserActive_owner c t a : preserves has_owner (SetUserActive c t a).
Proof.
  intros w Hw. unfold SetUserActive.
  destruct (adminTargetChange _ _ _ _ w) as [res w'] eqn:E. simpl.
  apply adminTargetChange_inv in E as [(e & _ & ->)|(w1 & w2 & tg & _ & Ht & _ & Hrem & H1 & Hfn & ->)];
    [done|].
  apply wrap_ok, exec_ok in Hfn as Hf. rewrite H1 in Hf.
  assert (Hd : with_users (alter (user_with_IsActive a) t (users (w_db w))) (w_db w) = w_db w2)
    by congruence.
  rewrite <- Hd. eapply has_owner_alter; [done| |done]. intros [Hr Ha].
  destruct a; [by left|]. right. apply Hrem. rewrite Hr, Ha. done.
Qed.

Lemma DeleteUser_owner c t : preserves has_owner (DeleteUser c t).
Proof.
  intros w Hw. unfold DeleteUser.
  destruct (adminTargetChange _ _ _ _ w) as [res w'] eqn:E. simpl.
  apply adminTargetChange_inv in E as [(e & _ & ->)|(w1 & w2 & tg & _ & Ht & _ & Hrem & H1 & Hfn & ->)];
    [done|].
  apply bind_ok in Hfn as ([] & w3 & He & Hfn).
  apply wrap_ok, exec_ok in He. apply wrap_ok, exec_ok in Hfn as Hf4.
  assert (Hu3 : users (w_db w3) = users (w_db w)).
  { assert (w_db w3 = revoke_where (fun s => (session_UserID s =? t)%N) (w_db w1)) as ->
      by congruence. simpl. by rewrite H1. }
  unfold delete_user in Hf4. destruct (exists_row _ _); [done|].
  assert (Hd4 : users (w_db w2) = delete t (users (w_db w3))).
  { cbv zeta in Hf4. remember (with_users _ _) as d5 eqn:Ed5 in Hf4.
    assert (w_db w2 = d5) as -> by congruence. by rewrite Ed5. }
  unfold has_owner. rewrite Hd4, Hu3. destruct Hw as (i & u & Hi & Hu).
  destruct (decide (i = t)) as [->|Hne].
  - assert (u = tg) as -> by congruence. destruct Hu as [Hr Ha].
    destruct Hrem as (k & v & Hk & Hv & Ho); [by rewrite Hr, Ha|].
    exists k, v. by rewrite lookup_delete_ne.
  - exists i, u. by rewrite lookup_delete_ne.
Qed.

Lemma insert_user_inv `{P : Platform} id e u h r t d d' :
  insert_user id e u h r t d = Ok d' ->
  users d !! id = None /\ RoleWeight r <> 0
  /\ d' = with_users (<[id := mkUser id e u h r "" false t None true None None "en" "UTC"]>
                        (users d)) d.
Proof.
  unfold insert_user. do 4 (destruct (exists_row _ _) || destruct (negb _); [done|]).
  destruct (RoleWeight r =? 0) eqn:E; [done|].
  destruct (insert_row _ _ _) as [t'|] eqn:Ei; [|done]. intros [= <-].
  apply insert_row_ok in Ei as [Hn ->]. split_and!; [done| |done]. lia.
Qed.

Lemma insert_session_inv `{P : Platform} s d d' :
  insert_session s d = Ok (tt, d') ->
  sessions d !! session_ID s = None
  /\ (forall i s', sessions d !! i = Some s' -> session_TokenHash s' <> session_TokenHash s)
  /\ is_Some (users d !! session_UserID s)
  /\ d' = with_sessions (<[session_ID s := s]> (sessions d)) d.
Proof.
  unfold insert_session. destruct (negb _); [done|].
  destruct (bool_decide _) eqn:Eu; [done|]. destruct (exists_row _ _) eqn:Ex; [done|].
  destruct (insert_row _ _ _) as [t'|] eqn:Ei; [|done]. intros [= <-].
  apply insert_row_ok in Ei as [Hn ->]. split_and!; [done| | |done].
  - intros i s' Hi. eapply exists_row_false in Ex; [|done]. by breflect.
  - breflect. by apply not_eq_None_Some.
Qed.

Lemma has_owner_stable `{P : Platform} : stable has_owner.
Proof.
  split.
  - intros p d H. exact H.
  - intros id s d _ H. exact H.
  - intros s d d' (_ & _ & _ & ->)%insert_session_inv H. exact H.
  - intros id e u h r t d d' (Hn & _ & ->)%insert_user_inv (i & v & Hi & Hv).
    exists i, v. simpl. rewrite lookup_insert_ne; [done|]. congruence.
  - intros f id d Hf (i & v & Hi & Hr & Ha). destruct (decide (i = id)) as [->|Hne].
    + exists id, (f v). simpl. rewrite lookup_alter_eq, Hi. destruct (Hf v) as [H1 H2].
      split; [done|]. unfold is_active_owner. by rewrite H1, H2.
    + exists i, v. simpl. by rewrite lookup_alter_ne.
  - intros l d H. exact H.
  - apply UpdateUserRole_owner.
  - apply SetUserActive_owner.
Qed.

(** One call of the accounts service, whatever it returns. *)
Inductive account_step `{U : Unicode} `{P : Platform} `{J : Json LoginResult} (cfg : Config)
  : World -> World -> Prop :=
| step_op A (m : M A) w : account_op cfg has_owner A m -> account_step cfg w (snd (m w))
| step_delete c t w : account_step cfg w (snd (DeleteUser c t w))
| step_time w t : account_step cfg w (snd (sleep t w)).

(** An installation is never left without an owner: from a database with
    an active owner, any sequence of calls to the accounts service, by any
    caller and with any database faults, leads to one with an active owner. *)
Theorem active_owner_remains `{U : Unicode} `{P : Platform} `{J : Json LoginResult}
    (cfg : Config) (w w' : World) :
  has_owner (w_db w) -> rtc (account_step cfg) w w' -> has_owner (w_db w').
Proof.
  intros Hw H. induction H as [w|w1 w2 w3 Hs _ IH]; [done|]. apply IH.
  destruct Hs as [A m w1 Hop|c t w1|w1 t].
  - by eapply account_op_preserves; [apply has_owner_stable| |].
  - by apply DeleteUser_owner.
  - done.
Qed.

(** ** Refresh tokens *)

(** The token with hash [h] has been used: its session exists and is revoked. *)
Definition retired (h : string) (d : DB) : Prop :=
  (exists i s, sessions d !! i = Some s /\ session_TokenHash s = h)
  /\ forall i s, sessions d !! i = Some s -> session_TokenHash s = h -> session_Revoked s = true.

Lemma retired_sessions h d d' : sessions d' = sessions d -> retired h d -> retired h d'.
Proof. unfold retired. by intros ->. Qed.

Lemma admin_sessions I c t rem fn :
  preserves I fn -> preserves I (adminTargetChange c t rem fn).
Proof. intros Hf. unfold adminTargetChange. solve_preserves; done. Qed.

Lemma retired_stable `{P : Platform} h : stable (retired h).
Proof.
  split.
  - intros p d [(i & s & Hi & Hh) Hr]. split.
    + exists i, (if p s then session_with_Revoked true s else s). simpl.
      rewrite lookup_update_where, Hi. simpl. by destruct (p s).
    + intros j s' Hj Hs'. simpl in Hj. rewrite lookup_update_where in Hj.
      destruct (sessions d !! j) as [s0|] eqn:E; [|done]. simpl in Hj.
      destruct (p s0); simplify_eq; [done|]. eauto.
  - intros id s d Hs [(i & s0 & Hi & Hh) Hr]. split.
    + destruct (decide (i = id)) as [->|].
      * exists id, (session_with_Revoked true s). simpl. rewrite lookup_insert_eq.
        split; [done|]. simpl. congruence.
      * exists i, s0. simpl. by rewrite lookup_insert_ne.
    + intros j s' Hj Hs'. simpl in Hj. destruct (decide (j = id)) as [->|].
      * rewrite lookup_insert_eq in Hj. by simplify_eq.
      * rewrite lookup_insert_ne in Hj by done. eauto.
  - intros s d d' (Hn & Hu & _ & ->)%insert_session_inv [(i & s0 & Hi & Hh) Hr]. split.
    + exists i, s0. simpl. rewrite lookup_insert_ne; [done|]. congruence.
    + intros j s' Hj Hs'. simpl in Hj. destruct (decide (j = session_ID s)) as [->|].
      * rewrite lookup_insert_eq in Hj. simplify_eq. exfalso. eapply Hu; [done|]. done.
      * rewrite lookup_insert_ne in Hj by done. eauto.
  - intros id e u h' r t d d' (_ & _ & ->)%insert_user_inv. by apply retired_sessions.
  - intros f id d _. by apply retired_sessions.
  - intros l d. by apply retired_sessions.
  - intros c t r. unfold UpdateUserRole. destruct (_ && _); [apply preserves_fail|].
    apply admin_sessions, preserves_wrap, preserves_exec. intros d a d' Hd.
    destruct (_ =? 0); [done|]. intros [= _ <-]. by eapply retired_sessions.
  - intros c t a. unfold SetUserActive.
    apply admin_sessions, preserves_wrap, preserves_exec. intros d x d' Hd [= _ <-].
    by eapply retired_sessions.
Qed.

(** The session a successful [issueFullTokens] adds. *)
Definition issued_session `{P : Platform} (id : uuid) (user : User) (token ip ua : string) (t : Z)
  : Session :=
  mkSession id (user_ID user) (hashToken token) ip ua t (t + refreshTokenDuration) false.

Lemma issueFullTokens_ok `{P : Platform} cfg user ip ua w r w' :
  issueFullTokens cfg user ip ua w = (Ok r, w') ->
  lr_User r = Some user /\ lr_RequiresTOTP r = false
  /\ (exists jti, lr_AccessToken r
       = jwt_sign (cfg_JWTSecret cfg) (access_claims user (uuid_string jti) (w_now w)))
  /\ is_Some (users (w_db w) !! user_ID user)
  /\ exists id, sessions (w_db w) !! id = None
     /\ (forall i s, sessions (w_db w) !! i = Some s ->
           session_TokenHash s <> hashToken (lr_RefreshToken r))
     /\ sessions (w_db w') = <[id := issued_session id user (lr_RefreshToken r) ip ua (w_now w)]>
          (sessions (w_db w))
     /\ (users (w_db w') = users (w_db w)
         \/ users (w_db w') = alter (user_with_LastLoginAt (Some (w_now w))) (user_ID user)
                                (users (w_db w))).
Proof.
  intros H. unfold issueFullTokens in H.
  apply bind_ok in H as (jti & w1 & (_ & D1 & N1 & _)%rand_inv & H).
  apply bind_ok in H as (at_ & w2 & Hat%wrap_ok & H).
  apply bind_ok in Hat as (t0 & w2' & ([= ->] & ->)%now_inv & ([= ->] & ->)%ret_inv).
  apply bind_ok in H as (rt & w3 & (D3 & N3)%wrap_ok%rand_hex_inv & H).
  apply bind_ok in H as (t & w4 & ([= ->] & ->)%now_inv & H).
  apply bind_ok in H as (id & w5 & (_ & D5 & N5 & _)%rand_inv & H).
  apply bind_ok in H as ([] & w6 & He%wrap_ok%exec_ok & H).
  apply insert_session_inv in He as (Hn & Hu & Hfk & Hd6). rewrite D5, D3, D1 in *.
  simpl in Hn, Hu, Hfk.
  apply bind_ok in H as ([] & w7 & Hig & ([= ->] & ->)%ret_inv). simpl.
  apply ignore_inv in Hig as (_ & r0 & He).
  apply exec_inv in He as (_ & _ & _ & _ & He).
  split_and!; [done | done | by exists jti; rewrite N1 | done |].
  exists id. rewrite N3, N1 in *. split_and!; [done | done | |].
  - destruct He as [(a & d & _ & [= _ Hd] & Hw7)|(e & _ & Hw7 & _)]; rewrite Hw7, ?Hd6.
    + rewrite <- Hd, Hd6. done.
    + done.
  - destruct He as [(a & d & _ & [= _ Hd] & Hw7)|(e & _ & Hw7 & _)]; rewrite Hw7, ?Hd6.
    + right. rewrite <- Hd, Hd6. done.
    + by left.
Qed.

(** While it waits for another rotation, a request changes nothing itself. *)
Lemma rotatedResult_reads `{P : Platform} `{J : Json LoginResult} wait h w :
  rely (fun d => d = w_db w) wait -> w_db (snd (rotatedResult wait h w)) = w_db w.
Proof.
  intros Hw. unfold rotatedResult. generalize 20%nat. intros n.
  exact (rotated_loop_preserves (fun d => d = w_db w) wait h n Hw w eq_refl).
Qed.

Lemma rotate_dead `{P : Platform} `{J : Json LoginResult} cfg wait h id u ip ua w :
  (forall s, sessions (w_db w) !! id = Some s -> session_Revoked s = true) ->
  rely (fun d => d = w_db w) wait ->
  w_db (snd (rotate cfg wait h id u ip ua w)) = w_db w.
Proof.
  intros Hs Hw. unfold rotate.
  destruct (wrap "revoking old session" (exec (claim_session id)) w) as [r w1] eqn:E.
  erewrite bind_run by exact E.
  apply wrap_inv in E as [(n & -> & E%exec_ok)|(e & -> & E)].
  - assert (Hn : n = 0 /\ w_db w1 = w_db w).
    { unfold claim_session in E. destruct (sessions (w_db w) !! id) as [s|] eqn:Es.
      - rewrite (Hs s eq_refl) in E. split; congruence.
      - split; congruence. }
    destruct Hn as [-> Hd]. simpl. rewrite rotatedResult_reads, Hd; [done|]. by rewrite Hd.
  - apply exec_inv in E as (_ & _ & _ & _ & [(? & ? & ? & _)|(? & _ & Hd & _)]); [done|].
    done.
Qed.

(** A successful rotation leaves the session it was given revoked. *)
Lemma rotate_claims `{P : Platform} `{J : Json LoginResult} cfg wait h id u ip ua w r w' :
  rely (fun d => d = w_db w) wait ->
  rotate cfg wait h id u ip ua w = (Ok r, w') ->
  forall s, sessions (w_db w') !! id = Some s -> session_Revoked s = true.
Proof.
  intros Hw H. unfold rotate in H. apply bind_ok in H as (n & w1 & E%wrap_ok%exec_ok & H).
  unfold claim_session in E. destruct (sessions (w_db w) !! id) as [s0|] eqn:Es.
  - destruct (session_Revoked s0) eqn:Er.
    + assert (n = 0 /\ w_db w1 = w_db w) as [-> Hd] by (split; congruence). simpl in H.
      rewrite <- Hd in Hw.
      apply (f_equal snd) in H. simpl in H. rewrite <- H, rotatedResult_reads by done.
      intros s. rewrite Hd, Es. by intros [= <-].
    + assert (n = 1 /\ w_db w1 = with_sessions (<[id := session_with_Revoked true s0]>
        (sessions (w_db w))) (w_db w)) as [-> Hd] by (split; congruence). simpl in H.
      apply bind_ok in H as ([] & w2 & (_ & r2 & H2)%ignore_inv & H).
      apply bind_ok in H as (lr & w3 & Hi & H).
      apply bind_ok in H as ([] & w4 & H4 & ([= ->] & ->)%ret_inv).
      assert (D2 : w_db w2 = w_db w1).
      { pose proof (preserves_redis_set (fun d => d = w_db w1)
          (refreshRotatingKey h) "1" (5 * second) w1 eq_refl) as Hp. by rewrite H2 in Hp. }
      apply issueFullTokens_ok in Hi as (_ & _ & _ & _ & id' & Hn' & _ & Hs3 & _).
      assert (D4 : w_db w4 = w_db w3).
      { assert (Hp : preserves (fun d => d = w_db w3) (match json_marshal lr with
          | Some body => ignore (redis_set (refreshGraceKey h) body refreshGracePeriod)
          | None => ret () end)) by solve_preserves.
        specialize (Hp w3 eq_refl). by rewrite H4 in Hp. }
      rewrite D4, Hs3, D2, Hd. simpl. intros s. rewrite lookup_insert_ne.
      * rewrite lookup_insert_eq. by intros [= <-].
      * intros ->. rewrite D2, Hd in Hn'. simpl in Hn'. by rewrite lookup_insert_eq in Hn'.
  - assert (n = 0 /\ w_db w1 = w_db w) as [-> Hd] by (split; congruence). simpl in H.
    rewrite <- Hd in Hw. apply (f_equal snd) in H. simpl in H.
    rewrite <- H, rotatedResult_reads by done. intros s. by rewrite Hd, Es.
Qed.

(** C6. Two refreshes race with the same token: both have read its session as
    live and go on to rotate it.  After the first has succeeded the second
    changes nothing in the database, so one token yields one new session. *)
Theorem refresh_race `{P : Platform} `{J : Json LoginResult} (cfg : Config)
    (wait wait' : nat -> option (M unit)) (h : string) (id : uuid) (u u' : User)
    (ip ua ip' ua' : string) (r : LoginResult) (w w1 w2 : World) :
  rely (fun d => d = w_db w) wait ->
  rotate cfg wait h id u ip ua w = (Ok r, w1) ->
  w_db w2 = w_db w1 ->
  rely (fun d => d = w_db w2) wait' ->
  w_db (snd (rotate cfg wait' h id u' ip' ua' w2)) = w_db w1.
Proof.
  intros Hw H Hd Hw'. rewrite <- Hd. apply rotate_dead; [|done].
  rewrite Hd. exact (rotate_claims _ _ _ _ _ _ _ _ _ _ Hw H).
Qed.

(** Sessions with the hash [h] are revoked. *)
Definition spent (h : string) (d : DB) : Prop :=
  forall i s, sessions d !! i = Some s -> session_TokenHash s = h -> session_Revoked s = true.

Lemma DeleteUser_spent h c t : preserves (spent h) (DeleteUser c t).
Proof.
  apply admin_sessions, preserves_bind; [|intros _]; apply preserves_wrap, preserves_exec;
    intros d [] d' Hd.
  - intros [= <-] i s Hi Hs. simpl in Hi. rewrite lookup_update_where in Hi.
    destruct (sessions d !! i) as [s0|] eqn:E; [|done]. simpl in Hi.
    destruct (_ =? _)%N; simplify_eq; [done|]. eauto.
  - unfold delete_user. destruct (exists_row _ _); [done|]. cbv zeta.
    remember (with_users _ _) as d5 eqn:E5. intros H. assert (d' = d5) as -> by congruence.
    intros i s Hi Hs. rewrite E5 in Hi. simpl in Hi. apply lookup_delete_where in Hi as [Hi _].
    eauto.
Qed.

(** A refresh token is used once: after its session is revoked, by
    rotation, logout or a password change, no call of the accounts service
    brings it back, and refreshing with it never writes to the database. *)
Theorem refresh_single_use `{U : Unicode} `{P : Platform} `{J : Json LoginResult} (cfg : Config)
    (token : string) (w : World) :
  retired (hashToken token) (w_db w) ->
  (forall A m, account_op cfg (retired (hashToken token)) A m ->
     retired (hashToken token) (w_db (snd (m w))))
  /\ (forall c t, spent (hashToken token) (w_db (snd (DeleteUser c t w))))
  /\ forall wait ip ua, rely (fun d => d = w_db w) wait ->
       w_db (snd (RefreshToken cfg wait token ip ua w)) = w_db w.
Proof.
  intros Hr. split_and!.
  - intros A m Hop. by eapply account_op_preserves; [apply retired_stable| |].
  - intros c t. apply DeleteUser_spent. exact (proj2 Hr).
  - intros wait ip ua Hw. unfold RefreshToken.
    destruct (attempt (query (find_session (hashToken token))) w) as [res w1] eqn:E.
    erewrite bind_run by exact E. apply attempt_inv in E as (res' & -> & E).
    apply query_inv in E as (Hd & Hn & _ & _ & _ & E).
    destruct res' as [[[id s] u]|e]; [|by destruct (error_Is e ErrNoRows)].
    destruct E as [E|E]; [done|]. unfold find_session in E.
    destruct (find_key _ _) as [[id' s']|] eqn:Ef; [|done].
    apply find_key_ok in Ef as [Hl Hh]. breflect.
    destruct (users (w_db w) !! session_UserID s'); [|done].
    assert (s = s') as -> by congruence.
    cbv beta iota. erewrite (bind_run now) by reflexivity. cbv beta iota.
    destruct (session_ExpiresAt s' <? w_now w1); [done|].
    destruct Hr as [_ Hr]. rewrite (Hr id' s' Hl Hh).
    rewrite rotatedResult_reads, Hd; [done|]. by rewrite Hd.
Qed.

(** ** Only owners touch owners *)

(** The administrative changes of an account. *)
Inductive admin_change (callerRole : string) : M unit -> Prop :=
| change_role t r : admin_change callerRole (UpdateUserRole callerRole t r)
| change_active t a : admin_change callerRole (SetUserActive callerRole t a)
| change_delete t : admin_change callerRole (DeleteUser callerRole t).

(** The effect of a change on the users table. *)
Lemma admin_change_users c m w : admin_change c m ->
  users (w_db (snd (m w))) = users (w_db w)
  \/ exists t tg, users (w_db w) !! t = Some tg
     /\ (user_Role tg = RoleOwner -> c = RoleOwner)
     /\ (users (w_db (snd (m w))) = delete t (users (w_db w))
         \/ exists v, users (w_db (snd (m w))) = <[t := v]> (users (w_db w))
            /\ (user_Role v = RoleOwner -> c = RoleOwner \/ user_Role tg = RoleOwner)).
Proof.
  intros [t r|t a|t].
  - unfold UpdateUserRole. destruct (_ && _) eqn:Eg; [by left|].
    destruct (adminTargetChange _ _ _ _ w) as [res w'] eqn:E. simpl.
    apply adminTargetChange_inv in E as [(e & _ & ->)|(w1 & w2 & tg & _ & Ht & Ho & _ & H1 & Hf & ->)];
      [by left|]. right. exists t, tg. split_and!; [done | done|]. right.
    apply wrap_ok, exec_ok in Hf. destruct (RoleWeight r =? 0); [done|]. rewrite H1 in Hf.
    exists (user_with_Role r tg). split.
    + assert (w_db w2 = with_users (alter (user_with_Role r) t (users (w_db w))) (w_db w))
        as -> by congruence.
      simpl. apply map_eq. intros i. destruct (decide (i = t)) as [->|].
      * by rewrite lookup_alter_eq, lookup_insert_eq, Ht.
      * by rewrite lookup_alter_ne, lookup_insert_ne.
    + simpl. intros ->. apply andb_false_iff in Eg as [Eg|Eg]; breflect; [done|by left].
  - unfold SetUserActive.
    destruct (adminTargetChange _ _ _ _ w) as [res w'] eqn:E. simpl.
    apply adminTargetChange_inv in E as [(e & _ & ->)|(w1 & w2 & tg & _ & Ht & Ho & _ & H1 & Hf & ->)];
      [by left|]. right. exists t, tg. split_and!; [done | done|]. right.
    apply wrap_ok, exec_ok in Hf. rewrite H1 in Hf.
    exists (user_with_IsActive a tg). split; [|by right].
    assert (w_db w2 = with_users (alter (user_with_IsActive a) t (users (w_db w))) (w_db w))
      as -> by congruence.
    simpl. apply map_eq. intros i. destruct (decide (i = t)) as [->|].
    + by rewrite lookup_alter_eq, lookup_insert_eq, Ht.
    + by rewrite lookup_alter_ne, lookup_insert_ne.
  - unfold DeleteUser.
    destruct (adminTargetChange _ _ _ _ w) as [res w'] eqn:E. simpl.
    apply adminTargetChange_inv in E as [(e & _ & ->)|(w1 & w2 & tg & _ & Ht & Ho & _ & H1 & Hf & ->)];
      [by left|]. right. exists t, tg. split_and!; [done | done|]. left.
    apply bind_ok in Hf as ([] & w3 & He%wrap_ok%exec_ok & Hf%wrap_ok%exec_ok).
    unfold delete_user in Hf. destruct (exists_row _ _); [done|]. cbv zeta in Hf.
    remember (with_users _ _) as d5 eqn:E5 in Hf. assert (w_db w2 = d5) as -> by congruence.
    rewrite E5. simpl.
    assert (w_db w3 = revoke_where (fun s => (session_UserID s =? t)%N) (w_db w1)) as ->
      by congruence. simpl. by rewrite H1.
Qed.

(** Only owners touch owners: a change requested by a caller who is not an
    owner neither alters nor removes the row of an owner, and makes nobody an
    owner. *)
Theorem owner_protected (c : string) (m : M unit) (w : World) (i : uuid) (u : User) :
  admin_change c m -> c <> RoleOwner -> user_Role u = RoleOwner ->
  users (w_db (snd (m w))) !! i = Some u <-> users (w_db w) !! i = Some u.
Proof.
  intros Hm Hc Hu.
  destruct (admin_change_users c m w Hm) as [->|(t & tg & Ht & Ho & [->|(v & -> & Hv)])]; [done|..].
  - destruct (decide (i = t)) as [->|]; [|by rewrite lookup_delete_ne].
    rewrite lookup_delete_eq. split; [done|]. intros H. exfalso. apply Hc, Ho. congruence.
  - destruct (decide (i = t)) as [->|]; [|by rewrite lookup_insert_ne].
    rewrite lookup_insert_eq. split; intros H; exfalso; apply Hc.
    + assert (v = u) as -> by congruence. destruct (Hv Hu) as [|Hv']; [done|]. by apply Ho.
    + apply Ho. congruence.
Qed.

(** ** Passwords and logins *)

Definition privileged (role : string) : Prop := role = RoleOwner \/ role = RoleAdmin.

Lemma password_scan_spec (l : list rune) :
  password_scan l =
  (existsb (fun r => is_digit (rune_val r)) l,
   existsb (fun r => negb (is_digit (rune_val r)) && negb (is_alpha (rune_val r))) l).
Proof.
  unfold password_scan.
  assert (H : forall l a b, fold_left (fun '(hasDigit, hasSymbol) r =>
     if is_digit (rune_val r) then (true, hasSymbol)
     else if is_alpha (rune_val r) then (hasDigit, hasSymbol) else (hasDigit, true)) l (a, b)
   = (a || existsb (fun r => is_digit (rune_val r)) l,
      b || existsb (fun r => negb (is_digit (rune_val r)) && negb (is_alpha (rune_val r))) l)).
  { clear l. induction l as [|r l IH]; intros a b; simpl; [by rewrite !orb_false_r|].
    destruct (is_digit (rune_val r)), (is_alpha (rune_val r)); rewrite IH; simpl;
      by rewrite ?orb_true_r. }
  apply H.
Qed.

(** Password policy: a password is accepted for a role exactly when it has
    at least 8 characters, and for owners and admins at least 12 characters
    with a digit and a character that is neither a digit nor a letter. *)
Theorem password_policy (role password : string) :
  validatePasswordForRole role password = Ok tt <->
  (8 <= RuneCount password
   /\ (privileged role ->
       12 <= RuneCount password
       /\ (exists r, r ∈ runes password /\ is_digit (rune_val r) = true)
       /\ exists r, r ∈ runes password /\ is_digit (rune_val r) = false
                    /\ is_alpha (rune_val r) = false)).
Proof.
  unfold validatePasswordForRole. rewrite password_scan_spec.
  set (p := String.eqb role RoleOwner || String.eqb role RoleAdmin).
  assert (Hp : p = true <-> privileged role).
  { unfold p, privileged. rewrite orb_true_iff, !String.eqb_eq. done. }
  destruct p; cbn [negb].
  - assert (privileged role) as Hr by (by apply Hp).
    destruct (_ <? 12) eqn:E; [split; [done|]; intros [_ H]; apply H in Hr; lia|].
    split.
    + destruct (existsb _ _) eqn:E1; [|done]. destruct (existsb _ (runes password)) eqn:E2 in |- *;
        [|done]. intros _. apply existsb_elem in E1 as (r1 & H1 & H1'), E2 as (r2 & H2 & H2').
      split; [lia|]. intros _. breflect. split_and!; [lia | eauto | eauto].
    + intros [_ H]. destruct (H Hr) as (_ & (r1 & H1 & H1') & r2 & H2 & H2' & H3').
      assert (E1 : existsb (fun r => is_digit (rune_val r)) (runes password) = true)
        by (apply existsb_elem; eauto).
      assert (E2 : existsb (fun r => negb (is_digit (rune_val r)) && negb (is_alpha (rune_val r)))
        (runes password) = true).
      { apply existsb_elem. exists r2. by rewrite H2', H3'. }
      by rewrite E1, E2.
  - assert (~ privileged role) as Hr by (intros H; apply Hp in H; done).
    destruct (_ <? 8) eqn:E; split; try done; [intros [H _]; lia|].
    intros _. split; [lia|]. done.
Qed.

(** A login proves the password: whatever faults occur, [Login] succeeds
    only for an active account with that address whose hash matches the
    password.  With two-factor authentication on it hands out no tokens and
    writes nothing; otherwise it adds exactly one live session, for that
    account, that expires in seven days. *)
Theorem login_sound `{U : Unicode} `{P : Platform} (cfg : Config)
    (email password ip ua : string) (w w' : World) (r : LoginResult) :
  Login cfg email password ip ua w = (Ok r, w') ->
  exists k u, users (w_db w) !! k = Some u
  /\ citext_eq (user_Email u) (ToLower (TrimSpace email)) = true
  /\ bcrypt_compare (user_PasswordHash u) password = true
  /\ user_IsActive u = true
  /\ if user_TOTPEnabled u
     then lr_RequiresTOTP r = true /\ lr_AccessToken r = "" /\ lr_RefreshToken r = ""
          /\ w_db w' = w_db w
     else lr_RequiresTOTP r = false
          /\ exists id, sessions (w_db w) !! id = None
             /\ sessions (w_db w') =
                <[id := issued_session id (select_user u) (lr_RefreshToken r) ip ua (w_now w)]>
                  (sessions (w_db w)).
Proof.
  intros H. unfold Login in H. apply bind_ok in H as (res & w1 & Ha & H).
  apply attempt_inv in Ha as (res' & [= <-] & Ha).
  destruct res as [user|e]; [|by destruct (error_Is e ErrNoRows)].
  apply query_inv in Ha as (Hd & Hn & _ & _ & _ & [Ha|Ha]); [done|].
  destruct (find_key _ _) as [[k u]|] eqn:Ef; [|done].
  assert (user = select_user u) as -> by congruence.
  apply find_key_ok in Ef as [Hk He]. exists k, u.
  destruct (bcrypt_compare _ _) eqn:Eb; [|done]. simpl in H, Eb.
  destruct (user_IsActive u) eqn:Ea; [|done]. simpl in H.
  split_and!; try done. destruct (user_TOTPEnabled u).
  - apply bind_ok in H as (t & w2 & Ht & ([= ->] & ->)%ret_inv).
    apply wrap_ok in Ht. apply bind_ok in Ht as (t0 & w3 & (_ & ->)%now_inv & (_ & ->)%ret_inv).
    done.
  - apply issueFullTokens_ok in H as (_ & Hr & _ & _ & id & Hid & _ & Hs & _).
    rewrite Hd, Hn in *. eauto.
Qed.

(** No account with the address accepts the password. *)
Definition credentials_refused `{U : Unicode} `{P : Platform} (d : DB) (email password : string)
  : Prop :=
  forall k u, users d !! k = Some u ->
    citext_eq (user_Email u) (ToLower (TrimSpace email)) = true ->
    bcrypt_compare (user_PasswordHash u) password = false.

(** A login attempt does not reveal whether an account exists: with the
    database up, an unknown address and a wrong password for every account
    with that address, disabled ones included, end in the same error and
    leave the world as it was. *)
Theorem login_no_enumeration `{U : Unicode} `{P : Platform} (cfg : Config)
    (email password ip ua : string) (w : World) :
  healthy w -> credentials_refused (w_db w) email password ->
  Login cfg email password ip ua w = (Err ErrInvalidCreds, w).
Proof.
  intros Hw H. unfold Login.
  erewrite bind_run by (apply attempt_run, query_healthy, Hw). cbv beta iota.
  destruct (find_key _ _) as [[k u]|e] eqn:Ef.
  - apply find_key_ok in Ef as [Hk He]. simpl. by rewrite (H k u Hk He).
  - by apply find_key_err in Ef as [-> _].
Qed.

Lemma findUserByID_ok `{P : Platform} cfg id w user w' :
  findUserByID cfg id w = (Ok user, w') ->
  w_db w' = w_db w /\ w_now w' = w_now w /\ exists u, users (w_db w) !! id = Some u
    /\ user_ID user = user_ID u /\ user_PasswordHash user = user_PasswordHash u
    /\ user_Role user = user_Role u /\ user_IsActive user = user_IsActive u
    /\ user_TOTPEnabled user = user_TOTPEnabled u
    /\ (user_TOTPSecret u = "" /\ user_TOTPSecret user = ""
        \/ Decrypt (cfg_TOTPEncKey cfg) (user_TOTPSecret u) = Ok (user_TOTPSecret user)).
Proof.
  intros H. unfold findUserByID in H. apply bind_ok in H as (v & w1 & Hq & H).
  apply query_inv in Hq as (D1 & N1 & _ & _ & _ & [Hq|Hq]); [done|].
  destruct (users (w_db w) !! id) as [u|] eqn:Eu; [|done].
  assert (v = user_with_TOTPSecret (user_TOTPSecret u) (select_user u)) as -> by congruence.
  cbn [user_TOTPSecret user_with_TOTPSecret] in H.
  destruct (String.eqb (user_TOTPSecret u) "") eqn:Es; cbn [negb] in H.
  - apply ret_inv in H as [[= ->] ->]. split_and!; [done | done|]. exists u. breflect.
    split_and!; try done. by left.
  - destruct (Decrypt _ _) as [plain|e] eqn:Ed; [|done].
    apply ret_inv in H as [[= ->] ->]. split_and!; [done | done|]. exists u.
    split_and!; try done. by right.
Qed.

Lemma findUserByID_same `{P : Platform} cfg id w r w' :
  healthy w -> findUserByID cfg id w = (r, w') -> w' = w.
Proof.
  intros Hw H. unfold findUserByID in H.
  erewrite bind_run in H by (apply query_healthy, Hw). cbv beta iota in H.
  destruct (users (w_db w) !! id) as [u|]; [|by simplify_eq].
  destruct (negb _); [|by apply ret_inv in H as [_ ->]].
  destruct (Decrypt _ _); [by apply ret_inv in H as [_ ->] | by apply fail_inv in H as [_ ->]].
Qed.

(** Every session of the account is revoked in [d'], and the sessions of the
    other accounts are those of [d]. *)
Definition sessions_ended (userID : uuid) (d d' : DB) : Prop :=
  (forall i s, sessions d' !! i = Some s -> session_UserID s = userID ->
     session_Revoked s = true)
  /\ (forall i s, session_UserID s <> userID ->
        sessions d' !! i = Some s <-> sessions d !! i = Some s).

(** A password change ends every session: with the database up,
    [ChangePassword] succeeds only when the old password matches and the new
    one meets the policy of the account's role; the stored hash then accepts
    the new password, no other row changes, and every session of the account
    is revoked. *)
Theorem change_password_ends_sessions `{P : Platform} `{L : !PlatformLaws P} (cfg : Config)
    (userID : uuid) (old new : string) (w w' : World) :
  healthy w -> ChangePassword cfg userID old new w = (Ok tt, w') ->
  exists u h, users (w_db w) !! userID = Some u
  /\ bcrypt_compare (user_PasswordHash u) old = true
  /\ validatePasswordForRole (user_Role u) new = Ok tt
  /\ bcrypt_compare h new = true
  /\ users (w_db w') = <[userID := user_with_PasswordHash h u]> (users (w_db w))
  /\ sessions_ended userID (w_db w) (w_db w').
Proof.
  intros Hw H. unfold ChangePassword in H. apply bind_ok in H as (user & w1 & Hf & H).
  assert (w1 = w) as -> by (by eapply findUserByID_same).
  apply findUserByID_ok in Hf as (_ & _ & u & Hu & _ & Hh & Hr & _). rewrite Hh, Hr in H.
  destruct (bcrypt_compare (user_PasswordHash u) old) eqn:Eb; [|done]. simpl in H.
  destruct (validatePasswordForRole (user_Role u) new) as [[]|] eqn:Ev; [|done].
  apply bind_ok in H as (h & w2 & Hp & H). unfold hash_password in Hp.
  apply bind_ok in Hp as (salt & w3 & Hr3 & Hp).
  assert (H3 : w_faults w3 = [] /\ w_db w3 = w_db w).
  { unfold rand in Hr3. injection Hr3 as _ <-. done. }
  destruct (bcrypt_generate new salt) as [h'|] eqn:Eg; [|done].
  apply ret_inv in Hp as [[= ->] ->]. destruct H3 as [H3 D3].
  unfold update_user in H.
  erewrite bind_run in H by (apply exec_healthy_ok; [exact H3 | reflexivity]). cbv beta iota in H.
  set (w4 := with_db _ w3) in H. assert (H4 : healthy w4) by exact H3.
  erewrite bind_run in H.
  2:{ unfold ignore. erewrite bind_run
        by (apply attempt_run, exec_healthy_ok; [exact H4 | reflexivity]). reflexivity. }
  cbv beta iota in H. apply ret_inv in H as [_ ->]. exists u, h'.
  unfold sessions_ended. split_and!; try done.
  - by eapply bcrypt_compare_generate.
  - simpl. rewrite D3. apply map_eq. intros i. destruct (decide (i = userID)) as [->|].
    + by rewrite lookup_alter_eq, lookup_insert_eq, Hu.
    + by rewrite lookup_alter_ne, lookup_insert_ne.
  - intros i s Hi Hs. simpl in Hi. rewrite lookup_update_where in Hi.
    destruct (sessions _ !! i) as [s0|]; [|done]. simpl in Hi.
    destruct (_ =? _)%N eqn:E; simplify_eq; [done|]. breflect. congruence.
  - intros i s Hs. simpl. rewrite lookup_update_where, D3.
    destruct (sessions (w_db w) !! i) as [s0|]; simpl; [|done].
    destruct (session_UserID s0 =? userID)%N eqn:E; [|done]. breflect.
    split; intros [= <-]; done.
Qed.

(** ** Setup *)

Lemma users_exist_inv w b w' : users_exist w = (Ok b, w') ->
  w_db w' = w_db w /\ b = exists_row (users (w_db w)) (fun _ => true).
Proof. intros [H1 H2]%query_ok. split; [done|]. congruence. Qed.

Lemma no_user_rows {A} (t : gmap uuid A) : exists_row t (fun _ => true) = false -> t = ∅.
Proof.
  intros H. apply map_eq. intros i. rewrite lookup_empty.
  destruct (t !! i) eqn:E; [|done]. eapply exists_row_false in H; [|done]. done.
Qed.

Lemma create_owner_inv `{P : Platform} e u h ip w r w' :
  create_owner e u h ip w = (r, w') ->
  (exists x, r = Err x /\ w_db w' = w_db w)
  \/ (exists id v, r = Ok v /\ users (w_db w) = ∅ /\ user_ID v = id
      /\ users (w_db w') = {[id := mkUser id e u h RoleOwner "" false (user_CreatedAt v) None
                                     true None None "en" "UTC"]}).
Proof.
  intros H. apply tx_inv in H as [(v & -> & w0 & w1 & Hb & Hd & Hn & Hw')|(x & -> & Hw')];
    [|left; eauto].
  right. apply bind_ok in Hb as ([] & wa & (_ & Ha)%wrap_ok%query_ok & Hb).
  apply bind_ok in Hb as (ex & wb & (Hb1 & ->)%wrap_ok%users_exist_inv & Hb).
  destruct (exists_row _ _) eqn:Ex; [done|]. apply no_user_rows in Ex.
  apply bind_ok in Hb as (id & wc & (_ & Hc & _)%rand_inv & Hb).
  apply bind_ok in Hb as (v' & wd & Hcu%wrap_ok & Hb).
  apply bind_ok in Hb as ([] & we & Hl%wrap_ok & ([= ->] & ->)%ret_inv).
  apply bind_ok in Hcu as (t & wc' & ([= ->] & ->)%now_inv & Hcu%exec_ok).
  destruct (insert_user _ _ _ _ _ _ _) as [d'|] eqn:Ei; [|done].
  apply insert_user_inv in Ei as (_ & _ & ->).
  apply bind_ok in Hl as (t & wd' & ([= ->] & ->)%now_inv & Hl%exec_ok).
  destruct (_ && _); [done|].
  remember (with_activity_logs _ _) as d3 eqn:E3 in Hl.
  assert (w_db we = d3) as He by congruence.
  remember (mkUser id e u h RoleOwner "" false (w_now wc) None true None None "" "") as v0 eqn:Ev in Hcu.
  assert (v' = v0) as -> by congruence. exists id, v0.
  remember (with_users _ _) as d4 eqn:E4 in Hcu. assert (w_db wd = d4) as Hwd by congruence.
  split_and!; [done | by rewrite <- Hd, <- Ha | by rewrite Ev |].
  rewrite Hw', He, E3. simpl. rewrite Hwd, E4. simpl. rewrite Hc, Hb1, Ex, Ev. done.
Qed.

(** Setup runs once: while any account exists [CompleteSetup] fails and
    writes nothing; when it succeeds the installation had no account, the code
    matched the configured hash and its single account is the new active
    owner, with a validated address, name and password. *)
Theorem setup_once `{U : Unicode} `{P : Platform} (cfg : Config)
    (code email username password ip ua : string) (w w' : World) (r : res error LoginResult) :
  CompleteSetup cfg code email username password ip ua w = (r, w') ->
  (users (w_db w) <> ∅ -> w_db w' = w_db w /\ is_ok r = false)
  /\ (is_ok r = true ->
      users (w_db w) = ∅
      /\ cfg_SetupCodeHash cfg <> "" /\ checkSetupCode cfg code = true
      /\ validatePasswordForRole RoleOwner password = Ok tt
      /\ exists id u, users (w_db w') = {[id := u]} /\ is_active_owner u
         /\ user_Email u = ToLower (TrimSpace email)
         /\ MatchString emailRegex (user_Email u) = true
         /\ MatchString usernameRegex (user_Username u) = true).
Proof.
  intros H. unfold CompleteSetup in H.
  destruct (negb (SetupCodeEnabled cfg)) eqn:Ec; [by apply fail_inv in H as [-> ->]|].
  apply bind_inv in H as [(ex & w1 & (Hd1 & ->)%wrap_ok%users_exist_inv & H)|(e & H & ->)].
  2:{ split; [|done]. intros _. split; [|done].
      apply (f_equal snd) in H. simpl in H. rewrite <- H.
      by apply (preserves_wrap (fun d => d = w_db w)); [apply preserves_query|]. }
  destruct (exists_row (users (w_db w)) (fun _ => true)) eqn:Ex.
  { apply fail_inv in H as [-> ->]. split; [|done]. by rewrite Hd1. }
  apply no_user_rows in Ex. split; [congruence|]. intros Hok.
  destruct (checkSetupCode cfg code) eqn:Ek; [|by apply fail_inv in H as [-> ->]].
  cbn [negb] in H. destruct (MatchString emailRegex _) eqn:Ee; [|by apply fail_inv in H as [-> ->]].
  cbn [negb] in H.
  destruct (MatchString usernameRegex _) eqn:Eu; [|by apply fail_inv in H as [-> ->]].
  cbn [negb] in H. destruct (validatePasswordForRole _ _) as [[]|]; [|by apply fail_inv in H as [-> ->]].
  destruct r as [lr|]; [|done].
  apply bind_ok in H as (h & w2 & Hp & H). apply bind_ok in H as (v & w3 & Hc & H).
  apply create_owner_inv in Hc as [(x & [=] & _)|(id & v' & [= ->] & _ & _ & Hu)].
  apply bind_ok in H as (res' & w4 & Ha & H). apply attempt_inv in Ha as (r0 & [= ->] & Ha).
  destruct r0 as [lr'|]; [|done]. apply ret_inv in H as [_ ->].
  apply issueFullTokens_ok in Ha as (_ & _ & _ & _ & _ & _ & _ & _ & Hus).
  split_and!; [done | | done | done |].
  { unfold SetupCodeEnabled in Ec. rewrite negb_involutive in Ec. by apply String.eqb_neq. }
  destruct Hus as [Hus|Hus]; rewrite Hus, Hu.
  - eexists id, _. split; [done|]. done.
  - destruct (decide (user_ID v' = id)) as [->|Hne].
    + eexists id, _. rewrite alter_singleton_eq. split; [done|]. done.
    + eexists id, _. rewrite alter_singleton_ne by done. split; [done|]. done.
Qed.

(** Rotation: refreshing with a live token of an active account revokes
    the session of that token and adds one live session for the same account;
    the token is then retired. *)
Theorem refresh_rotation `{P : Platform} `{J : Json LoginResult} (cfg : Config)
    (wait : nat -> option (M unit)) (token ip ua : string) (w w' : World) (r : LoginResult)
    (id : uuid) (s : Session) :
  sessions (w_db w) !! id = Some s -> session_TokenHash s = hashToken token ->
  (forall i s', sessions (w_db w) !! i = Some s' ->
     session_TokenHash s' = hashToken token -> i = id) ->
  session_Revoked s = false ->
  RefreshToken cfg wait token ip ua w = (Ok r, w') ->
  w_now w <= session_ExpiresAt s
  /\ exists u id', users (w_db w) !! session_UserID s = Some u /\ user_IsActive u = true
  /\ id' <> id
  /\ sessions (w_db w') =
       <[id' := issued_session id' (select_user u) (lr_RefreshToken r) ip ua (w_now w)]>
         (<[id := session_with_Revoked true s]> (sessions (w_db w)))
  /\ retired (hashToken token) (w_db w').
Proof.
  intros Hs Hh Huniq Hrev H. unfold RefreshToken in H.
  apply bind_ok in H as (res & w1 & Ha & H). apply attempt_inv in Ha as (res' & [= <-] & Ha).
  destruct res as [[[id0 s0] u0]|e]; [|by destruct (error_Is e ErrNoRows)].
  apply query_inv in Ha as (D1 & N1 & _ & _ & _ & [Ha|Ha]); [done|].
  unfold find_session in Ha. destruct (find_key _ _) as [[id1 s1]|] eqn:Ef; [|done].
  apply find_key_ok in Ef as [Hl Hh1]. breflect. assert (id1 = id) as -> by eauto.
  assert (s1 = s) as -> by congruence.
  destruct (users (w_db w) !! session_UserID s) as [u|] eqn:Eu; [|done].
  assert (id0 = id /\ s0 = s /\ u0 = select_user u) as (-> & -> & ->) by (split_and!; congruence).
  apply bind_ok in H as (t & w2 & ([= ->] & ->)%now_inv & H).
  destruct (session_ExpiresAt s <? w_now w1) eqn:Et; [done|]. rewrite Hrev in H.
  destruct (user_IsActive (select_user u)) eqn:Ea; [|done]. cbn [negb] in H.
  split; [lia|]. unfold rotate in H.
  apply bind_ok in H as (n & w2 & E%wrap_ok%exec_inv & H).
  destruct E as (N2 & _ & _ & _ & [(n' & d & [= <-] & E & D2)|(e & [=] & _)]).
  unfold claim_session in E. rewrite D1, Hs, Hrev in E.
  assert (n = 1 /\ d = with_sessions (<[id := session_with_Revoked true s]>
    (sessions (w_db w))) (w_db w)) as [-> ->] by (split; congruence). simpl in H.
  apply bind_ok in H as ([] & w3 & (_ & r3 & H3)%ignore_inv & H).
  apply bind_ok in H as (lr & w4 & Hi & H).
  apply bind_ok in H as ([] & w5 & H5 & ([= ->] & ->)%ret_inv).
  assert (D3 : w_db w3 = w_db w2 /\ w_now w3 = w_now w2).
  { unfold redis_set, fault, bind, fail in H3.
    by destruct (w_faults w2) as [|[|] fs]; simplify_eq. }
  destruct D3 as [D3 N3].
  assert (D5 : w_db w5 = w_db w4).
  { assert (Hp : preserves (fun d => d = w_db w4) (match json_marshal lr with
      | Some body => ignore (redis_set (refreshGraceKey (hashToken token)) body refreshGracePeriod)
      | None => ret () end)) by solve_preserves.
    specialize (Hp w4 eq_refl). by rewrite H5 in Hp. }
  apply issueFullTokens_ok in Hi as (_ & _ & _ & _ & id' & Hn' & Hnew & Hs4 & _).
  rewrite D3, D2 in Hn', Hnew, Hs4. simpl in Hn', Hnew, Hs4.
  assert (Hne : id' <> id) by (intros ->; by rewrite lookup_insert_eq in Hn').
  exists u, id'. split_and!; [done | done | done | |].
  { rewrite D5, Hs4, N3, N2, N1. done. }
  unfold retired. rewrite D5, Hs4. split.
  - exists id, (session_with_Revoked true s). rewrite lookup_insert_ne, lookup_insert_eq by done.
    done.
  - intros j sj Hj Hhj. destruct (decide (j = id')) as [->|].
    + rewrite lookup_insert_eq in Hj. simplify_eq. exfalso.
      eapply (Hnew id); [by rewrite lookup_insert_eq|]. simpl in *. congruence.
    + rewrite lookup_insert_ne in Hj by done. destruct (decide (j = id)) as [->|].
      * rewrite lookup_insert_eq in Hj. by simplify_eq.
      * rewrite lookup_insert_ne in Hj by done. exfalso. eauto.
Qed.

(** [d'] has one more session than [d], a live one of the account. *)
Definition session_added (userID : uuid) (d d' : DB) : Prop :=
  exists id s, sessions d !! id = None /\ session_UserID s = userID
    /\ session_Revoked s = false /\ sessions d' = <[id := s]> (sessions d).

(** The second factor: [VerifyTOTP] succeeds only with an unexpired token
    of the partial kind signed with the refresh secret, for an active account
    and a code that the account's decrypted secret accepts now; it then adds
    one session for that account. *)
Theorem verify_totp_sound `{P : Platform} `{L : !PlatformLaws P} (cfg : Config)
    (tok code ip ua : string) (w w' : World) (r : LoginResult) :
  VerifyTOTP cfg tok code ip ua w = (Ok r, w') ->
  exists c uid u secret,
    jwt_parse (cfg_JWTRefreshSecret cfg) (unix (w_now w)) tok = Some c
    /\ claim_string "type" c = Some "totp_partial"
    /\ (forall e, claim_number "exp" c = Some e -> unix (w_now w) < e)
    /\ users (w_db w) !! uid = Some u /\ user_IsActive u = true
    /\ (user_TOTPSecret u = "" /\ secret = ""
        \/ Decrypt (cfg_TOTPEncKey cfg) (user_TOTPSecret u) = Ok secret)
    /\ totp_validate (w_now w) code secret = true
    /\ session_added (user_ID u) (w_db w) (w_db w').
Proof.
  intros H. unfold VerifyTOTP in H. apply bind_ok in H as (t & w1 & ([= ->] & ->)%now_inv & H).
  destruct (jwt_parse _ _ tok) as [c|] eqn:Ep; [|done].
  destruct (bool_decide _) eqn:Et; [|done]. cbn [negb] in H. breflect.
  assert (Hs : exists uid, (let* user := wrap "loading user" (findUserByID cfg uid) in
    if negb (user_IsActive user) then fail ErrUserInactive
    else let* t' := now in
         if negb (totp_validate t' code (user_TOTPSecret user)) then fail ErrTOTPInvalid
         else issueFullTokens cfg user ip ua) w = (Ok r, w')).
  { destruct (claim "sub" c) as [[sub|n]|]; [| done |];
      destruct (uuid_parse _) as [uid|]; try done; eauto. }
  destruct Hs as [uid Hs].
  apply bind_ok in Hs as (user & w1 & (D1 & N1 & u & Hu & Hid & _ & _ & Ha & _ & Hsec)%wrap_ok%findUserByID_ok & Hs).
  destruct (user_IsActive user) eqn:Ea; [|done]. cbn [negb] in Hs.
  apply bind_ok in Hs as (t & w2 & ([= ->] & ->)%now_inv & Hs).
  destruct (totp_validate _ _ _) eqn:Ev; [|done]. cbn [negb] in Hs. rewrite N1 in *.
  exists c, uid, u, (user_TOTPSecret user). split_and!; try done.
  - intros e He. exact (jwt_parse_exp _ _ _ _ _ Ep He).
  - apply issueFullTokens_ok in Hs as (_ & _ & _ & _ & id & Hn & _ & Hss & _). rewrite D1 in *.
    exists id. eexists. split; [exact Hn|]. split; [|split; [|exact Hss]]; [exact Hid | done].
Qed.

(** ** Concrete runs *)

Definition sample_json : Json LoginResult := {|
  json_marshal r := Some (to_text (lr_AccessToken r, lr_RefreshToken r));
  json_unmarshal s :=
    match of_text (A := string * string) s with
    | Some (a, t) => Some (mkLoginResult a t None false "")
    | None => None
    end
|}.

Definition sample_cfg : Config :=
  mkConfig "access-secret" "refresh-secret" (hex_bytes 16 7)
    (hex_string (@sha256 sample_platform "ABCD-EFGH-JKLM")).

(** Account 1 is the owner and account 2 an admin, with password
    "correct-horse-7"; session 5 belongs to the owner and to the token "tok". *)
Definition sample_hash : string := to_text ("correct-horse-7", 0%N).

Definition sample_account (id : uuid) (name role : string) : User :=
  mkUser id (name +:+ "@example.com") name sample_hash role "" false 0 None true None None "en" "UTC".

Definition sample_session : Session :=
  mkSession 5 1 (@hashToken sample_platform "tok") "10.0.0.1" "ua" 0 refreshTokenDuration false.

Definition sample_world : World :=
  mkWorld
    (with_users {[1%N := sample_account 1 "root" RoleOwner; 2%N := sample_account 2 "adm" RoleAdmin]}
      (with_sessions {[5%N := sample_session]} empty_db))
    ∅ second [] (fun n => N.of_nat (100 + n)) 0.

Lemma sample_has_owner : has_owner (w_db sample_world).
Proof. by exists 1%N, (sample_account 1 "root" RoleOwner). Qed.

Lemma active_owner_remains_witness :
  has_owner (w_db (snd (SetUserActive RoleOwner 1 false sample_world))).
Proof.
  apply (@active_owner_remains ascii_tables sample_platform sample_json sample_cfg sample_world).
  - apply sample_has_owner.
  - apply rtc_once, step_op, op_SetUserActive.
Defined.

Lemma refresh_race_witness :
  exists r w1,
    @rotate sample_platform sample_json sample_cfg (fun _ => None) "h" 5
      (sample_account 1 "root" RoleOwner) "10.0.0.1" "ua" sample_world = (Ok r, w1)
    /\ w_db (snd (@rotate sample_platform sample_json sample_cfg (fun _ => None) "h" 5
         (sample_account 1 "root" RoleOwner) "10.0.0.2" "ua" w1)) = w_db w1.
Proof.
  destruct (@rotate sample_platform sample_json sample_cfg (fun _ => None) "h" 5
      (sample_account 1 "root" RoleOwner) "10.0.0.1" "ua" sample_world) as [[r|e] w1] eqn:E.
  - exists r, w1. split; [done|].
    apply (@refresh_race sample_platform sample_json sample_cfg (fun _ => None) (fun _ => None)
      "h" 5 (sample_account 1 "root" RoleOwner) (sample_account 1 "root" RoleOwner)
      "10.0.0.1" "ua" "10.0.0.2" "ua" r sample_world w1 w1); done.
  - exfalso. apply (f_equal (fun x => is_ok (fst x))) in E. vm_compute in E. done.
Defined.

Definition used_world : World :=
  with_db (revoke_where (fun _ => true) (w_db sample_world)) sample_world.

Lemma refresh_single_use_witness :
  w_db (snd (@RefreshToken sample_platform sample_json sample_cfg (fun _ => None)
               "tok" "10.0.0.1" "ua" used_world)) = w_db used_world.
Proof.
  apply (@refresh_single_use ascii_tables sample_platform sample_json sample_cfg "tok" used_world).
  - split.
    + exists 5%N, (session_with_Revoked true sample_session). done.
    + intros i s. unfold used_world, revoke_where. simpl. rewrite lookup_update_where.
      destruct (_ !! i); simpl; [|done]. by intros [= <-].
  - done.
Defined.

Lemma owner_protected_witness :
  users (w_db (snd (DeleteUser RoleAdmin 1 sample_world))) !! 1%N
  = Some (sample_account 1 "root" RoleOwner).
Proof.
  apply (owner_protected RoleAdmin (DeleteUser RoleAdmin 1) sample_world 1
           (sample_account 1 "root" RoleOwner)); [constructor | done | done | done].
Defined.

Lemma login_sound_witness :
  exists r w', @Login ascii_tables sample_platform sample_cfg
      "root@example.com" "correct-horse-7" "10.0.0.1" "ua" sample_world = (Ok r, w')
  /\ exists k u, users (w_db sample_world) !! k = Some u /\ user_IsActive u = true.
Proof.
  destruct (@Login ascii_tables sample_platform sample_cfg
      "root@example.com" "correct-horse-7" "10.0.0.1" "ua" sample_world) as [[r|e] w'] eqn:E.
  - exists r, w'. split; [done|].
    apply (@login_sound ascii_tables sample_platform) in E as (k & u & Hk & _ & _ & Ha & _). eauto.
  - exfalso. apply (f_equal (fun x => is_ok (fst x))) in E. vm_compute in E. done.
Defined.

Lemma login_no_enumeration_witness :
  @Login ascii_tables sample_platform sample_cfg "nobody@example.com" "x" "10.0.0.1" "ua"
    empty_world = (Err ErrInvalidCreds, empty_world).
Proof.
  apply (@login_no_enumeration ascii_tables sample_platform); [done|].
  intros k u H. change (users (w_db empty_world)) with (∅ : gmap uuid User) in H.
  by rewrite lookup_empty in H.
Defined.

Lemma change_password_ends_sessions_witness :
  exists w', @ChangePassword sample_platform sample_cfg 1 "correct-horse-7" "battery-staple-9"
    sample_world = (Ok tt, w')
  /\ forall i s, sessions (w_db w') !! i = Some s -> session_UserID s = 1%N ->
       session_Revoked s = true.
Proof.
  destruct (@ChangePassword sample_platform sample_cfg 1 "correct-horse-7" "battery-staple-9"
    sample_world) as [[[]|e] w'] eqn:E.
  - exists w'. split; [done|].
    apply (@change_password_ends_sessions sample_platform sample_platform_laws) in E
      as (u & h & _ & _ & _ & _ & _ & [Hs _]); done.
  - exfalso. apply (f_equal (fun x => is_ok (fst x))) in E. vm_compute in E. done.
Defined.

Lemma setup_once_witness :
  exists r w', @CompleteSetup ascii_tables sample_platform sample_cfg "abcd-efgh-jklm"
    "Me@example.com" "me_1" "correct-horse-7" "10.0.0.1" "ua" empty_world = (r, w')
  /\ is_ok r = true /\ exists id u, users (w_db w') = {[id := u]} /\ is_active_owner u.
Proof.
  destruct (@CompleteSetup ascii_tables sample_platform sample_cfg "abcd-efgh-jklm"
    "Me@example.com" "me_1" "correct-horse-7" "10.0.0.1" "ua" empty_world) as [r w'] eqn:E.
  assert (Hok : is_ok r = true).
  { apply (f_equal (fun x => is_ok (fst x))) in E. simpl fst in E. rewrite <- E. by vm_compute. }
  exists r, w'. split_and!; [done | done|].
  apply (@setup_once ascii_tables sample_platform) in E as [_ H].
  destruct (H Hok) as (_ & _ & _ & _ & id & u & Hu & Ho & _). eauto.
Defined.

Lemma refresh_rotation_witness :
  exists r w', @RefreshToken sample_platform sample_json sample_cfg (fun _ => None)
    "tok" "10.0.0.1" "ua" sample_world = (Ok r, w')
  /\ retired (@hashToken sample_platform "tok") (w_db w').
Proof.
  destruct (@RefreshToken sample_platform sample_json sample_cfg (fun _ => None)
    "tok" "10.0.0.1" "ua" sample_world) as [[r|e] w'] eqn:E.
  - exists r, w'. split; [done|].
    apply (@refresh_rotation sample_platform sample_json sample_cfg (fun _ => None) "tok" _ _
      sample_world w' r 5 sample_session) in E as (_ & u & id' & _ & _ & _ & _ & H); try done.
    intros i s' Hi _. simpl in Hi. apply lookup_singleton_Some in Hi as [<- _]. done.
  - exfalso. apply (f_equal (fun x => is_ok (fst x))) in E. vm_compute in E. done.
Defined.

Lemma verify_totp_sound_witness :
  exists r w', @VerifyTOTP sample_platform sample_cfg
    (@jwt_sign sample_platform "refresh-secret" (@partial_claims sample_platform 1 second))
    "" "10.0.0.1" "ua" sample_world = (Ok r, w')
  /\ exists c, claim_string "type" c = Some "totp_partial".
Proof.
  destruct (@VerifyTOTP sample_platform sample_cfg
    (@jwt_sign sample_platform "refresh-secret" (@partial_claims sample_platform 1 second))
    "" "10.0.0.1" "ua" sample_world) as [[r|e] w'] eqn:E.
  - exists r, w'. split; [done|].
    apply (@verify_totp_sound sample_platform sample_platform_laws) in E
      as (c & _ & _ & _ & _ & Hc & _). eauto.
  - exfalso. apply (f_equal (fun x => is_ok (fst x))) in E. vm_compute in E. done.
Defined.

(** The revocation after a password change is best effort: when that one
    statement fails, [ChangePassword] still reports success and the session of
    the account stays live. *)
Theorem change_password_revoke_lost :
  exists w w',
    @ChangePassword sample_platform sample_cfg 1 "correct-horse-7" "battery-staple-9" w
      = (Ok tt, w')
    /\ sessions (w_db w') !! 5%N = Some sample_session
    /\ session_UserID sample_session = 1%N /\ session_Revoked sample_session = false.
Proof.
  eexists (with_faults [false; false; true] sample_world), _.
  split; [vm_compute; reflexivity | done].
Qed.
