(* ===== verification/Players.v ===== *)
(** * Players, sessions and network bans

    Models [services/player_service.go] and
    [services/network_player_service.go]: the join and leave events a daemon
    reports, the sessions and the playtime they add up to, the moderation of a
    player on one server, and bans across the whole installation. *)

From stdpp Require Import base numbers list strings option gmap sets relations.
From Stdlib Require Import Ascii.
From S2P Require Import Prelude GoStrings Regex Store Roles Auth.

Local Open Scope Z_scope.

Definition ErrPlayerNotFound : error := ErrNew "player not found".
Definition ErrUnsafePlayerName : error := ErrNew "player username contains unsafe characters".

(** [^[A-Za-z0-9_]{1,32}$]. *)
Definition name_class : list (ascii * ascii) :=
  [("A", "Z"); ("a", "z"); ("0", "9"); ("_", "_")]%char.
Definition playerNameRe : re := rep_range 1 32 (Cls name_class).
Definition isSafePlayerName (name : string) : bool := MatchString playerNameRe name.

(** ** The queue of a node *)

(** [INSERT INTO node_commands (node_id, server_id, command_type, payload)]. *)
Definition enqueue_node_command (id node server : uuid) (kind : string)
    (payload : list (string * string)) (t : Z) (d : DB) : res error DB :=
  if bool_decide (nodes d !! node = None) then Err (ErrConstraint "node_commands_node_id_fkey")
  else if bool_decide (servers d !! server = None)
  then Err (ErrConstraint "node_commands_server_id_fkey")
  else Ok (with_node_commands (node_commands d ++
             [mkNodeCommand id node (Some server) kind payload "pending" t None]) d).

(** A console line for a server, as the daemon reads it. *)
Definition queue_line (node server : uuid) (cmd : string) : M unit :=
  let* id := new_uuid in
  let* t := now in
  exec (fun d =>
    match enqueue_node_command id node server "send_command" [("cmd", cmd)] t d with
    | Ok d' => Ok (tt, d')
    | Err e => Err e
    end).

(** [enqueueConsoleCommand]: a failure is only logged. *)
Definition enqueueConsoleCommand (node server : uuid) (cmd : string) : M unit :=
  ignore (queue_line node server cmd).

(** ** Sessions *)

Definition is_open (s : PlayerSessionRow) : bool := bool_decide (psession_LeftAt s = None).

(** [GREATEST(0, EXTRACT(EPOCH FROM (NOW() - joined_at))::INT)]: seconds,
    rounded to the nearest. *)
Definition session_duration (t : Z) (s : PlayerSessionRow) : Z :=
  Z.max 0 ((t - psession_JoinedAt s + 500000000) / 1000000000).

Definition close_session (t : Z) (s : PlayerSessionRow) : PlayerSessionRow :=
  mkPlayerSessionRow (psession_ID s) (psession_PlayerID s) (psession_JoinedAt s) (Some t)
    (Some (session_duration t s)).

(** The duration that [UPDATE players ... FROM closed] adds to a player: the
    one of a closed row of that player. *)
Definition credit (t : Z) (closed : list PlayerSessionRow) (pid : uuid) : Z :=
  match List.filter (fun s => (psession_PlayerID s =? pid)%N) closed with
  | s :: _ => session_duration t s
  | [] => 0
  end.

Definition close_sessions (where_ : PlayerSessionRow -> bool) (t : Z) (d : DB) : DB :=
  let p s := is_open s && where_ s in
  let closed := rows (player_sessions d) p in
  with_players (map_imap (fun pid pl =>
      Some (player_with_PlaytimeS (player_PlaytimeS pl + credit t closed pid) pl)) (players d))
    (with_player_sessions (update_where (close_session t) p (player_sessions d)) d).

(** [closeOpenSessions], where the duration has to fit an INTEGER. *)
Definition closeOpenSessions (where_ : DB -> PlayerSessionRow -> bool) : M unit :=
  let* t := now in
  wrap "closing player sessions" (exec (fun d =>
    if existsb (fun s => 2 ^ 31 <=? session_duration t s)
         (rows (player_sessions d) (fun s => is_open s && where_ d s))
    then Err (ErrConstraint "integer out of range")
    else Ok (tt, close_sessions (where_ d) t d))).

(** [player_id = $1]. *)
Definition of_player (pid : uuid) (_ : DB) (s : PlayerSessionRow) : bool :=
  (psession_PlayerID s =? pid)%N.

(** [player_id IN (SELECT id FROM players WHERE server_id = $1)]. *)
Definition of_server (sid : uuid) (d : DB) (s : PlayerSessionRow) : bool :=
  match players d !! psession_PlayerID s with
  | Some p => (player_ServerID p =? sid)%N
  | None => false
  end.

(** ** Join and leave *)

Definition find_player (sid h : uuid) (d : DB) : res error (uuid * Player) :=
  find_key (players d) (fun p => (player_ServerID p =? sid)%N && (player_HytaleUUID p =? h)%N).

(** [INSERT INTO players ... ON CONFLICT DO UPDATE ... RETURNING id]. *)
Definition upsert_player (fresh sid h : uuid) (username : string) (t : Z) (d : DB)
  : res error (uuid * DB) :=
  match find_player sid h d with
  | Ok (pid, _) =>
    Ok (pid, with_players
          (alter (fun p => player_with_LastSeen (Some t) (player_with_Username username p))
             pid (players d)) d)
  | Err _ =>
    if bool_decide (servers d !! sid = None) then Err (ErrConstraint "players_server_id_fkey")
    else match insert_row fresh (mkPlayer fresh sid h username t (Some t) 0 false false
                                   None None None false false) (players d) with
         | Ok t' => Ok (fresh, with_players t' d)
         | Err e => Err e
         end
  end.

(** [INSERT INTO player_sessions], with the index that allows one open session. *)
Definition open_session (id pid : uuid) (t : Z) (d : DB) : res error (unit * DB) :=
  if bool_decide (players d !! pid = None) then Err (ErrConstraint "player_sessions_player_id_fkey")
  else if exists_row (player_sessions d) (fun s => is_open s && (psession_PlayerID s =? pid)%N)
  then Err (ErrConstraint "idx_player_sessions_one_open")
  else match insert_row id (mkPlayerSessionRow id pid t None None) (player_sessions d) with
       | Ok t' => Ok (tt, with_player_sessions t' d)
       | Err e => Err e
       end.

(** [enforceNetworkBanOnJoin]: the kick is queued by one INSERT ... SELECT. *)
Definition enforceNetworkBanOnJoin (sid h : uuid) (username : string) : M unit :=
  if negb (isSafePlayerName username) then ret tt
  else
    let* id := new_uuid in
    let* t := now in
    wrap "enforcing network ban on join" (exec (fun d =>
      match servers d !! sid with
      | Some sv =>
        if bool_decide (network_bans d !! h = None) then Ok (tt, d)
        else match enqueue_node_command id (server_NodeID sv) sid "send_command"
                     [("cmd", "kick" +:+ " " +:+ username)] t d with
             | Ok d' => Ok (tt, d')
             | Err e => Err e
             end
      | None => Ok (tt, d)
      end)).

Definition record_join (sid : uuid) (username : string) (h : uuid) : M bool :=
  let* fresh := new_uuid in
  let* t := now in
  let* pid := wrap "recording player join" (exec (upsert_player fresh sid h username t)) in
  run* closeOpenSessions (of_player pid) in
  let* id := new_uuid in
  run* wrap "opening player session" (exec (open_session id pid t)) in
  run* enforceNetworkBanOnJoin sid h username in
  ret true.

(** [UPDATE players SET last_seen = NOW() ... RETURNING id]. *)
Definition touch_player (sid h : uuid) (t : Z) (d : DB) : res error (uuid * DB) :=
  match find_player sid h d with
  | Ok (pid, _) => Ok (pid, with_players (alter (player_with_LastSeen (Some t)) pid (players d)) d)
  | Err e => Err e
  end.

(** A leave without a player row ends the call, without an error and without
    a commit. *)
Definition record_leave (sid h : uuid) : M bool :=
  let* t := now in
  let* r := attempt (exec (touch_player sid h t)) in
  match r with
  | Err e => if error_Is e ErrNoRows then ret false
             else fail (ErrWrap "recording player leave" e)
  | Ok pid => run* closeOpenSessions (of_player pid) in ret true
  end.

Definition RecordPlayerEvent (sid : uuid) (action username : string) (h : uuid) : M unit :=
  if negb (String.eqb action "join" || String.eqb action "leave")
  then fail (ErrNew ("unknown player event action: " +:+ action))
  else tx_if "recording player event" (ErrWrap "recording player event")
         (if String.eqb action "join" then record_join sid username h else record_leave sid h).

(** ** Moderation on one server *)

(** [playerTarget]: the name and the node of a player; an unsafe name is
    refused. *)
Definition playerTarget (sid pid : uuid) : M (string * uuid) :=
  let* r := attempt (query (fun d =>
    match players d !! pid with
    | Some p =>
      if (player_ServerID p =? sid)%N then
        match servers d !! sid with
        | Some sv => Ok (player_Username p, server_NodeID sv)
        | None => Err ErrNoRows
        end
      else Err ErrNoRows
    | None => Err ErrNoRows
    end)) in
  match r with
  | Err e => if error_Is e ErrNoRows then fail ErrPlayerNotFound
             else fail (ErrWrap "fetching player" e)
  | Ok (username, node) =>
    if negb (isSafePlayerName username) then fail ErrUnsafePlayerName else ret (username, node)
  end.

(** [UPDATE players SET ... WHERE id = $ AND server_id = $], with the number
    of rows. *)
Definition update_player (sid pid : uuid) (f : Player -> Player) : M Z :=
  exec (fun d =>
    match players d !! pid with
    | Some p => if (player_ServerID p =? sid)%N
                then Ok (1, with_players (<[pid := f p]> (players d)) d)
                else Ok (0, d)
    | None => Ok (0, d)
    end).

Definition player_with_ban (banned : bool) (reason : option string) (at_ : option Z)
    (by_ : option uuid) (p : Player) : Player :=
  mkPlayer (player_ID p) (player_ServerID p) (player_HytaleUUID p) (player_Username p)
    (player_FirstSeen p) (player_LastSeen p) (player_PlaytimeS p) (player_IsWhitelisted p)
    banned reason at_ by_ (player_IsOp p) (player_IsMuted p).

(** The shape BanPlayer, UnbanPlayer, SetWhitelist, SetOp and SetMute share:
    resolve, update the row, queue the line. *)
Definition moderate (sid pid : uuid) (what : string) (f : Player -> Player) (verb : string)
  : M unit :=
  let* (username, node) := playerTarget sid pid in
  let* n := wrap what (update_player sid pid f) in
  if n =? 0 then fail ErrPlayerNotFound
  else enqueueConsoleCommand node sid (verb +:+ " " +:+ username).

Definition BanPlayer (sid pid bannedBy : uuid) (reason : string) : M unit :=
  let* (username, node) := playerTarget sid pid in
  let* t := now in
  let* n := wrap "banning player" (exec (fun d =>
    match players d !! pid with
    | Some p =>
      if (player_ServerID p =? sid)%N then
        if bool_decide (users d !! bannedBy = None)
        then Err (ErrConstraint "players_banned_by_fkey")
        else Ok (1, with_players
               (<[pid := player_with_ban true (Some reason) (Some t) (Some bannedBy) p]>
                  (players d)) d)
      else Ok (0, d)
    | None => Ok (0, d)
    end)) in
  if n =? 0 then fail ErrPlayerNotFound
  else enqueueConsoleCommand node sid ("ban" +:+ " " +:+ username).

Definition UnbanPlayer (sid pid : uuid) : M unit :=
  moderate sid pid "unbanning player" (player_with_ban false None None None) "unban".

Definition SetWhitelist (sid pid : uuid) (whitelisted : bool) : M unit :=
  moderate sid pid "updating whitelist" (player_with_IsWhitelisted whitelisted)
    (if whitelisted then "whitelist add" else "whitelist remove").

Definition SetOp (sid pid : uuid) (op : bool) : M unit :=
  moderate sid pid "updating op status" (player_with_IsOp op)
    (if op then "op add" else "op remove").

Definition SetMute (sid pid : uuid) (muted : bool) : M unit :=
  moderate sid pid "updating mute status" (player_with_IsMuted muted)
    (if muted then "mute" else "unmute").

Definition log_activity (l : Z -> ActivityLog) : M unit :=
  let* t := now in
  exec (fun d => Ok (tt, with_activity_logs (l t :: activity_logs d) d)).

(** The kick itself is not best effort; its audit record is. *)
Definition KickPlayer (sid pid : uuid) (reason actorName : string) : M unit :=
  let* (username, node) := playerTarget sid pid in
  run* wrap "enqueuing kick command" (queue_line node sid ("kick" +:+ " " +:+ username)) in
  ignore (log_activity (mkActivityLog None (Some sid) "player.kick" "player" (Some pid))).

(** ** Reading *)

(** [ORDER BY last_seen DESC NULLS LAST]. *)
Definition seen_desc (p q : Player) : bool :=
  match player_LastSeen p, player_LastSeen q with
  | Some a, Some b => b <=? a
  | Some _, None => true
  | None, Some _ => false
  | None, None => true
  end.

Definition ListPlayers (sid : uuid) : M (list Player) :=
  wrap "querying players" (query (fun d =>
    Ok (order_by seen_desc (rows (players d) (fun p => (player_ServerID p =? sid)%N))))).

Definition GetPlayer (sid pid : uuid) : M Player :=
  let* r := attempt (query (fun d =>
    match players d !! pid with
    | Some p => if (player_ServerID p =? sid)%N then Ok p else Err ErrNoRows
    | None => Err ErrNoRows
    end)) in
  match r with
  | Ok p => ret p
  | Err e => if error_Is e ErrNoRows then fail ErrPlayerNotFound
             else fail (ErrWrap "fetching player" e)
  end.

Definition GetPlayerSessions (sid pid : uuid) : M (list PlayerSessionRow) :=
  let* exists_ := wrap "verifying player ownership" (query (fun d =>
    Ok match players d !! pid with
       | Some p => (player_ServerID p =? sid)%N
       | None => false
       end)) in
  if negb exists_ then fail ErrPlayerNotFound
  else wrap "querying player sessions" (query (fun d =>
    Ok (take 50 (order_by (fun a b => psession_JoinedAt b <=? psession_JoinedAt a)
          (rows (player_sessions d) (of_player pid d)))))).

(** ** Bans across the installation *)

(** The name an account was last seen under. *)
Definition latestUsername (h : uuid) : M string :=
  let* r := attempt (query (fun d =>
    match order_by seen_desc (rows (players d) (fun p => (player_HytaleUUID p =? h)%N)) with
    | p :: _ => Ok (player_Username p)
    | [] => Err ErrNoRows
    end)) in
  match r with
  | Err e => if error_Is e ErrNoRows then fail ErrPlayerNotFound
             else fail (ErrWrap "resolving player name" e)
  | Ok username => if negb (isSafePlayerName username) then fail ErrUnsafePlayerName
                   else ret username
  end.

(** One value per server of the installation. *)
Definition rand_per_server : M (list N) := fun w =>
  (Ok (map (fun i => w_rand w (w_ctr w + i)%nat) (seq 0 (size (servers (w_db w))))),
   with_ctr (w_ctr w + size (servers (w_db w)))%nat w).

(** [INSERT INTO node_commands ... SELECT ... FROM servers]: all rows or none. *)
Fixpoint enqueue_all (ids : list N) (l : list (uuid * Server)) (cmd : string) (t : Z) (d : DB)
    {struct l} : res error DB :=
  match l, ids with
  | [], _ => Ok d
  | (sid, sv) :: l', id :: ids' =>
    match enqueue_node_command id (server_NodeID sv) sid "send_command" [("cmd", cmd)] t d with
    | Ok d' => enqueue_all ids' l' cmd t d'
    | Err e => Err e
    end
  | _ :: _, [] => Err ErrDriver
  end.

Definition fanOutConsoleCommand (cmd : string) : M unit :=
  let* ids := rand_per_server in
  let* t := now in
  ignore (exec (fun d =>
    match enqueue_all ids (map_to_list (servers d)) cmd t d with
    | Ok d' => Ok (tt, d')
    | Err e => Err e
    end)).

Definition auditNetworkBan (action : string) (h actor : uuid) : M unit :=
  ignore (log_activity (mkActivityLog (Some actor) None action "player" (Some h))).

(** [INSERT INTO network_bans ... ON CONFLICT DO UPDATE]: a second ban keeps
    the name recorded at the first. *)
Definition upsert_ban (h bannedBy : uuid) (username reason : string) (t : Z) (d : DB)
  : res error (unit * DB) :=
  if bool_decide (users d !! bannedBy = None)
  then Err (ErrConstraint "network_bans_banned_by_fkey")
  else
    let name := match network_bans d !! h with
                | Some b => netban_UsernameAtBan b
                | None => Some username
                end in
    Ok (tt, with_network_bans
          (<[h := mkNetworkBan name reason (Some bannedBy) t]> (network_bans d)) d).

Definition BanNetworkPlayer (h bannedBy : uuid) (reason : string) : M unit :=
  let* username := latestUsername h in
  let* t := now in
  run* wrap "recording network ban" (exec (upsert_ban h bannedBy username reason t)) in
  run* wrap "marking per-server bans" (exec (fun d =>
    if bool_decide (users d !! bannedBy = None)
    then Err (ErrConstraint "players_banned_by_fkey")
    else Ok (tt, with_players
           (update_where (player_with_ban true (Some reason) (Some t) (Some bannedBy))
              (fun p => (player_HytaleUUID p =? h)%N) (players d)) d))) in
  run* fanOutConsoleCommand ("ban" +:+ " " +:+ username) in
  auditNetworkBan "player.network_ban" h bannedBy.

Definition UnbanNetworkPlayer (h actor : uuid) : M unit :=
  let* r := attempt (exec (fun d =>
    match network_bans d !! h with
    | Some b => Ok (default "" (netban_UsernameAtBan b),
                    with_network_bans (delete h (network_bans d)) d)
    | None => Err ErrNoRows
    end)) in
  match r with
  | Err e => if error_Is e ErrNoRows then fail ErrPlayerNotFound
             else fail (ErrWrap "removing network ban" e)
  | Ok name =>
    let* current := attempt (latestUsername h) in
    let username := match current with Ok n => n | Err _ => name end in
    run* (if isSafePlayerName username
          then fanOutConsoleCommand ("unban" +:+ " " +:+ username) else ret tt) in
    run* wrap "clearing per-server bans" (exec (fun d =>
      Ok (tt, with_players
        (update_where (player_with_ban false None None None)
           (fun p => (player_HytaleUUID p =? h)%N && player_IsBanned p) (players d)) d))) in
    auditNetworkBan "player.network_unban" h actor
  end.

Definition IsNetworkBanned (h : uuid) : M bool :=
  wrap "checking network ban" (query (fun d =>
    Ok (negb (bool_decide (network_bans d !! h = None))))).

(** ** The list of an installation's players *)

Record NetworkPlayer := mkNetworkPlayer {
  np_HytaleUUID : uuid;
  np_Username : string;
  np_FirstSeen : option Z;
  np_LastSeen : option Z;
  np_PlaytimeS : Z;
  np_ServerIDs : list uuid;
  np_IsBanned : bool;
  np_BanReason : option string;
  np_BannedAt : option Z
}.

(** The servers a caller may see: all for admin and owner, otherwise those
    they own or are a member of. *)
Definition visible_server (d : DB) (userID : uuid) (role : string) (sid : uuid) : bool :=
  match servers d !! sid with
  | None => false
  | Some sv =>
    negb (RoleWeight role <? RoleWeight RoleAdmin)
    || (server_OwnerID sv =? userID)%N
    || negb (bool_decide (server_members d !! (sid, userID) = None))
  end.

Definition opt_max (a b : option Z) : option Z :=
  match a, b with
  | Some x, Some y => Some (Z.max x y)
  | Some x, None => Some x
  | None, o => o
  end.

(** One account: the rows of [players] with its id. *)
Definition aggregate (d : DB) (h : uuid) (l : list Player) : NetworkPlayer :=
  mkNetworkPlayer h
    (match order_by seen_desc l with p :: _ => player_Username p | [] => "" end)
    (match l with
     | [] => None
     | p :: l' => Some (fold_left (fun a q => Z.min a (player_FirstSeen q)) l' (player_FirstSeen p))
     end)
    (fold_right (fun p a => opt_max (player_LastSeen p) a) None l)
    (fold_right (fun p a => player_PlaytimeS p + a) 0 l)
    (map player_ServerID l)
    (existsb player_IsBanned l || negb (bool_decide (network_bans d !! h = None)))
    (match network_bans d !! h with Some b => Some (netban_Reason b) | None => None end)
    (match network_bans d !! h with Some b => Some (netban_BannedAt b) | None => None end).

Definition last_desc (a b : NetworkPlayer) : bool :=
  match np_LastSeen a, np_LastSeen b with
  | Some x, Some y => y <=? x
  | Some _, None => true
  | None, Some _ => false
  | None, None => true
  end.

Definition ListNetworkPlayers (userID : uuid) (role : string) : M (list NetworkPlayer) :=
  wrap "listing network players" (query (fun d =>
    let seen := rows (players d) (fun p => visible_server d userID role (player_ServerID p)) in
    Ok (order_by last_desc
          (map (fun h => aggregate d h
                  (List.filter (fun p => (player_HytaleUUID p =? h)%N) seen))
             (remove_dups (map player_HytaleUUID seen)))))).

(** ** The ledger of playtime *)

Definition sumZ (l : list Z) : Z := fold_right Z.add 0 l.

(** The recorded seconds of a player: the durations of all their sessions. *)
Definition played (d : DB) (pid : uuid) : Z :=
  sumZ (map (fun s => default 0 (psession_DurationS s))
          (rows (player_sessions d) (of_player pid d))).

Definition open_of (pid : uuid) (s : PlayerSessionRow) : bool :=
  is_open s && (psession_PlayerID s =? pid)%N.

(** Sessions belong to players, a player has at most one open session, an open
    session has no duration, and playtime_s is the sum of the durations. *)
Record ledger (d : DB) : Prop := {
  ledger_fk i s : player_sessions d !! i = Some s -> is_Some (players d !! psession_PlayerID s);
  ledger_one pid : (length (rows (player_sessions d) (open_of pid)) <= 1)%nat;
  ledger_open i s : player_sessions d !! i = Some s -> is_open s = true ->
    psession_DurationS s = None;
  ledger_sum pid p : players d !! pid = Some p -> player_PlaytimeS p = played d pid
}.

Lemma sumZ_perm l l' : l ≡ₚ l' -> sumZ l = sumZ l'.
Proof. induction 1; simpl in *; lia. Qed.

(** Closing at most one session of a list adds its duration. *)
Lemma sum_closed t (p : PlayerSessionRow -> bool) l :
  (forall s, s ∈ l -> p s = true -> psession_DurationS s = None) ->
  (length (List.filter p l) <= 1)%nat ->
  sumZ (map (fun s => default 0 (psession_DurationS s))
          (map (fun s => if p s then close_session t s else s) l))
  = sumZ (map (fun s => default 0 (psession_DurationS s)) l)
    + match List.filter p l with s :: _ => session_duration t s | [] => 0 end.
Proof.
  induction l as [|s l IH]; intros Ho Hl; [done|]. simpl in *.
  assert (Ho' : forall s0, s0 ∈ l -> p s0 = true -> psession_DurationS s0 = None)
    by (intros s0 Hs0; apply Ho; by right).
  destruct (p s) eqn:Ep; simpl in *.
  - rewrite (Ho s) by (done || left). rewrite IH by (done || lia).
    destruct (List.filter p l); simpl in *; lia.
  - rewrite IH by done. lia.
Qed.

Lemma rows_elem {A} (t : gmap uuid A) p a : a ∈ rows t p -> exists i, t !! i = Some a.
Proof. intros [H _]%elem_of_rows. done. Qed.

Lemma credit_rows d where_ t pid :
  credit t (rows (player_sessions d) (fun s => is_open s && where_ s)) pid
  = match List.filter (fun s => is_open s && where_ s)
            (rows (player_sessions d) (of_player pid d)) with
    | s :: _ => session_duration t s
    | [] => 0
    end.
Proof.
  unfold credit, rows. rewrite !filter_filter.
  erewrite filter_ext; [done|]. intros s. unfold of_player. apply andb_comm.
Qed.

Lemma length_filter_le {A} (p q : A -> bool) l :
  (forall a, p a = true -> q a = true) ->
  (length (List.filter p l) <= length (List.filter q l))%nat.
Proof.
  intros H. induction l as [|a l IH]; simpl; [lia|].
  destruct (p a) eqn:Ep; [rewrite (H a Ep); simpl; lia|]. destruct (q a); simpl; lia.
Qed.

Lemma close_open_le where_ t (m : gmap uuid PlayerSessionRow) pid :
  (length (rows (update_where (close_session t) (fun s => is_open s && where_ s) m) (open_of pid))
   <= length (rows m (open_of pid)))%nat.
Proof.
  unfold rows, update_where. rewrite map_to_list_fmap, map_snd_fmap.
  induction (map snd (map_to_list m)) as [|s l IH]; simpl; [lia|].
  assert (Hc : open_of pid (close_session t s) = false) by done.
  destruct (is_open s && where_ s); rewrite ?Hc; destruct (open_of pid s); simpl; lia.
Qed.

Lemma close_sessions_ledger where_ t d : ledger d -> ledger (close_sessions where_ t d).
Proof.
  intros [Hfk Hone Hopen Hsum]. unfold close_sessions. split; simpl.
  - intros i s. rewrite lookup_update_where, map_lookup_imap.
    destruct (player_sessions d !! i) as [s0|] eqn:E; [|done]. simpl. intros [= <-].
    destruct (Hfk i s0 E) as [p Hp]. exists (player_with_PlaytimeS (player_PlaytimeS p + credit t
      (rows (player_sessions d) (fun s => is_open s && where_ s)) (psession_PlayerID s0)) p).
    destruct (_ && _); simpl; by rewrite Hp.
  - intros pid. etrans; [apply close_open_le | apply Hone].
  - intros i s. rewrite lookup_update_where.
    destruct (player_sessions d !! i) as [s0|] eqn:E; [|done]. simpl. intros [= <-].
    destruct (is_open s0 && where_ s0); [done|]. eauto.
  - intros pid p. rewrite map_lookup_imap.
    destruct (players d !! pid) as [p0|] eqn:E; [|done]. simpl. intros [= <-]. simpl.
    rewrite (Hsum pid p0 E), credit_rows. unfold played. simpl.
    rewrite rows_update_where by done. rewrite sum_closed.
    + done.
    + intros s [i Hi]%rows_elem Hp. breflect. eauto.
    + etrans; [|apply (Hone pid)]. unfold rows. rewrite filter_filter.
      apply length_filter_le. intros s Hs. unfold open_of, of_player in *. breflect.
      apply andb_true_iff. split; [done|]. by apply N.eqb_eq.
Qed.

(** A change of other columns of the players. *)
Lemma ledger_frame d d' :
  player_sessions d' = player_sessions d ->
  (forall pid, fmap player_PlaytimeS (players d' !! pid)
               = fmap player_PlaytimeS (players d !! pid)) ->
  ledger d -> ledger d'.
Proof.
  intros Hs Hp [Hfk Hone Hopen Hsum]. split.
  - intros i s. rewrite Hs. intros Hi. destruct (Hfk i s Hi) as [p E].
    specialize (Hp (psession_PlayerID s)). rewrite E in Hp. simpl in Hp.
    apply fmap_Some in Hp as (p' & Hp' & _). eauto.
  - intros pid. rewrite Hs. apply Hone.
  - intros i s. rewrite Hs. apply Hopen.
  - intros pid p Hpid. specialize (Hp pid). rewrite Hpid in Hp. simpl in Hp. symmetry in Hp.
    apply fmap_Some in Hp as (p0 & H0 & ->). rewrite (Hsum pid p0 H0).
    unfold played. by rewrite Hs.
Qed.

Lemma lookup_alter_playtime (f : Player -> Player) pid k (t : gmap uuid Player) :
  (forall p, player_PlaytimeS (f p) = player_PlaytimeS p) ->
  fmap player_PlaytimeS (alter f pid t !! k) = fmap player_PlaytimeS (t !! k).
Proof.
  intros Hf. destruct (decide (k = pid)) as [->|].
  - rewrite lookup_alter_eq. destruct (t !! pid); simpl; by rewrite ?Hf.
  - by rewrite lookup_alter_ne.
Qed.

Lemma lookup_update_playtime (f : Player -> Player) q k (t : gmap uuid Player) :
  (forall p, player_PlaytimeS (f p) = player_PlaytimeS p) ->
  fmap player_PlaytimeS (update_where f q t !! k) = fmap player_PlaytimeS (t !! k).
Proof.
  intros Hf. rewrite lookup_update_where. destruct (t !! k) as [p|]; simpl; [|done].
  by destruct (q p); rewrite ?Hf.
Qed.

Lemma upsert_player_ledger fresh sid h name t d pid d' :
  upsert_player fresh sid h name t d = Ok (pid, d') -> ledger d -> ledger d'.
Proof.
  unfold upsert_player. destruct (find_player sid h d) as [[pid0 p0]|].
  - intros [= -> <-]. apply ledger_frame; [done|]. intros k. by apply lookup_alter_playtime.
  - destruct (bool_decide _); [done|]. destruct (insert_row _ _ _) as [m|] eqn:E; [|done].
    intros [= <- <-]. apply insert_row_ok in E as [Hn ->]. intros [Hfk Hone Hopen Hsum].
    split; simpl; [|done|done|].
    + intros i s Hi. destruct (decide (psession_PlayerID s = fresh)) as [->|].
      * rewrite lookup_insert_eq. eauto.
      * rewrite lookup_insert_ne by done. eauto.
    + intros k p. destruct (decide (k = fresh)) as [->|].
      * rewrite lookup_insert_eq. intros [= <-]. simpl. unfold played. simpl.
        assert (rows (player_sessions d) (of_player fresh d) = []) as Hr; [|by setoid_rewrite Hr].
        apply length_zero_iff_nil, count_rows_zero. intros i s Hi.
        apply N.eqb_neq. intros Hs. destruct (Hfk i s Hi) as [q Hq]. congruence.
      * rewrite lookup_insert_ne by done. apply Hsum.
Qed.

Lemma open_session_ledger id pid t d d' :
  open_session id pid t d = Ok (tt, d') -> ledger d -> ledger d'.
Proof.
  unfold open_session. destruct (bool_decide _) eqn:Eb; [done|].
  destruct (exists_row _ _) eqn:Ex; [done|].
  destruct (insert_row _ _ _) as [m|] eqn:E; [|done]. intros [= <-].
  apply insert_row_ok in E as [Hn ->]. intros [Hfk Hone Hopen Hsum].
  set (s0 := mkPlayerSessionRow id pid t None None). split; simpl.
  - intros i s. destruct (decide (i = id)) as [->|].
    + rewrite lookup_insert_eq. intros [= <-]. simpl. breflect. by apply not_eq_None_Some.
    + rewrite lookup_insert_ne by done. apply Hfk.
  - intros k. rewrite rows_insert by done. rewrite length_app. unfold open_of at 1. simpl.
    specialize (Hone k). destruct (pid =? k)%N eqn:Ek; simpl; [|done]. breflect. subst k.
    assert (H0 : count_rows (player_sessions d) (open_of pid) = 0%nat).
    { apply count_rows_zero. intros i s Hi. unfold open_of.
      eapply exists_row_false in Ex; [|done]. done. }
    unfold count_rows in H0. lia.
  - intros i s. destruct (decide (i = id)) as [->|].
    + rewrite lookup_insert_eq. by intros [= <-].
    + rewrite lookup_insert_ne by done. apply Hopen.
  - intros k p Hk. rewrite (Hsum k p Hk). unfold played. simpl.
    erewrite (sumZ_perm (map _ (rows (<[id := _]> _) _)))
      by (apply Permutation_map, rows_insert, Hn).
    by destruct (of_player k _ _).
Qed.

(** The methods of the service that write. *)
Inductive player_op : M unit -> Prop :=
| op_event sid a n h : player_op (RecordPlayerEvent sid a n h)
| op_close f : player_op (closeOpenSessions f)
| op_ban sid pid b r : player_op (BanPlayer sid pid b r)
| op_unban sid pid : player_op (UnbanPlayer sid pid)
| op_whitelist sid pid b : player_op (SetWhitelist sid pid b)
| op_op sid pid b : player_op (SetOp sid pid b)
| op_mute sid pid b : player_op (SetMute sid pid b)
| op_kick sid pid r n : player_op (KickPlayer sid pid r n)
| op_network_ban h b r : player_op (BanNetworkPlayer h b r)
| op_network_unban h a : player_op (UnbanNetworkPlayer h a).

Definition console_verbs : list string :=
  ["ban"; "unban"; "whitelist add"; "whitelist remove"; "op add"; "op remove";
   "mute"; "unmute"; "kick"].

(** An invariant that survives each kind of statement of the service. *)
Record player_stable (I : DB -> Prop) : Prop := {
  ps_close f t d : I d -> I (close_sessions f t d);
  ps_upsert fresh sid h n t d pid d' : upsert_player fresh sid h n t d = Ok (pid, d') -> I d -> I d';
  ps_open id pid t d d' : open_session id pid t d = Ok (tt, d') -> I d -> I d';
  ps_players m d : (forall k, fmap player_PlaytimeS (m !! k)
                              = fmap player_PlaytimeS (players d !! k)) ->
    I d -> I (with_players m d);
  ps_bans b d : I d -> I (with_network_bans b d);
  ps_log l d : I d -> I (with_activity_logs l d);
  ps_line id node sid verb name t d d' :
    verb ∈ console_verbs ->
    isSafePlayerName name = true ->
    enqueue_node_command id node sid "send_command" [("cmd", verb +:+ " " +:+ name)] t d = Ok d' ->
    I d -> I d'
}.

Lemma playerTarget_safe sid pid w name node w' :
  playerTarget sid pid w = (Ok (name, node), w') -> isSafePlayerName name = true.
Proof.
  intros H. unfold playerTarget in H. apply bind_ok in H as (r & w1 & _ & H).
  destruct r as [[n nd]|e]; [|by destruct (error_Is e ErrNoRows)].
  destruct (isSafePlayerName n) eqn:E; [|done]. apply ret_inv in H as [[= -> _] _]. done.
Qed.

Lemma latestUsername_safe h w name w' :
  latestUsername h w = (Ok name, w') -> isSafePlayerName name = true.
Proof.
  intros H. unfold latestUsername in H. apply bind_ok in H as (r & w1 & _ & H).
  destruct r as [n|e]; [|by destruct (error_Is e ErrNoRows)].
  destruct (isSafePlayerName n) eqn:E; [|done]. apply ret_inv in H as [[= ->] _]. done.
Qed.

Section player_stable.
Context (I : DB -> Prop) (HI : player_stable I).

Lemma queue_line_preserves node sid verb name :
  verb ∈ console_verbs -> isSafePlayerName name = true ->
  preserves I (queue_line node sid (verb +:+ " " +:+ name)).
Proof.
  intros Hv Hn. unfold queue_line. solve_preserves. apply preserves_exec. intros d u d' Hd.
  destruct (enqueue_node_command _ _ _ _ _ _ d) as [d0|] eqn:E; [|done]. intros [= _ <-].
  by eapply ps_line.
Qed.

Lemma playerTarget_preserves sid pid : preserves I (playerTarget sid pid).
Proof. unfold playerTarget. solve_preserves. Qed.

Lemma latestUsername_preserves h : preserves I (latestUsername h).
Proof. unfold latestUsername. solve_preserves. Qed.

Lemma log_activity_preserves l : preserves I (log_activity l).
Proof.
  unfold log_activity. solve_preserves. apply preserves_exec. intros d u d' Hd [= _ <-].
  by apply ps_log.
Qed.

Lemma closeOpenSessions_preserves f : preserves I (closeOpenSessions f).
Proof.
  unfold closeOpenSessions. solve_preserves. apply preserves_exec. intros d u d' Hd.
  destruct (existsb _ _); [done|]. intros [= _ <-]. by apply ps_close.
Qed.

Lemma enqueue_all_preserves verb name t ids l d d' :
  verb ∈ console_verbs -> isSafePlayerName name = true ->
  enqueue_all ids l (verb +:+ " " +:+ name) t d = Ok d' -> I d -> I d'.
Proof.
  intros Hv Hn. revert ids d. induction l as [|[sid sv] l IH]; intros ids d; simpl.
  - intros H Hd. by assert (d = d') as <- by congruence.
  - destruct ids as [|id ids]; [done|].
    destruct (enqueue_node_command _ _ _ _ _ _ d) as [d1|] eqn:E; [|done].
    intros H Hd. eapply IH; [exact H|]. by eapply ps_line.
Qed.

Lemma fanOut_preserves verb name :
  verb ∈ console_verbs -> isSafePlayerName name = true ->
  preserves I (fanOutConsoleCommand (verb +:+ " " +:+ name)).
Proof.
  intros Hv Hn. unfold fanOutConsoleCommand. apply preserves_bind; [by intros w Hw|]. intros ids.
  solve_preserves. apply preserves_exec. intros d u d' Hd.
  destruct (enqueue_all _ _ _ _ d) as [d0|] eqn:E; [|done]. intros [= _ <-].
  by eapply enqueue_all_preserves.
Qed.

Lemma moderate_preserves sid pid what f verb :
  (forall p, player_PlaytimeS (f p) = player_PlaytimeS p) -> verb ∈ console_verbs ->
  preserves I (moderate sid pid what f verb).
Proof.
  intros Hf Hv. unfold moderate.
  apply (preserves_bind_post _ (fun x => isSafePlayerName x.1 = true));
    [|apply playerTarget_preserves|].
  { intros w [n nd] w' H. by eapply playerTarget_safe. }
  intros [n nd] Hn. simpl in Hn. unfold update_player, enqueueConsoleCommand.
  solve_preserves; [|by apply queue_line_preserves].
  apply preserves_exec. intros d z d' Hd. destruct (players d !! pid) as [p|] eqn:E; [|congruence].
  destruct (_ =? _)%N; [|congruence]. intros [= _ <-]. apply ps_players; [done| |done].
  intros k. destruct (decide (k = pid)) as [->|].
  - rewrite lookup_insert_eq, E. simpl. by rewrite Hf.
  - by rewrite lookup_insert_ne.
Qed.

Lemma verb_listed verb : contains console_verbs verb = true -> verb ∈ console_verbs.
Proof. by rewrite contains_spec. Qed.

Lemma enforce_preserves sid h n : preserves I (enforceNetworkBanOnJoin sid h n).
Proof.
  unfold enforceNetworkBanOnJoin. destruct (isSafePlayerName n) eqn:Hn; cbn [negb]; [|solve_preserves].
  solve_preserves. apply preserves_exec. intros d u d' Hd.
  destruct (servers d !! sid) as [sv|]; [|congruence]. destruct (bool_decide _); [congruence|].
  destruct (enqueue_node_command _ _ _ _ _ _ d) as [d0|] eqn:E; [|done]. intros [= _ <-].
  eapply (ps_line _ HI _ _ _ "kick"); [by apply verb_listed | exact Hn | exact E | exact Hd].
Qed.

Lemma RecordPlayerEvent_preserves sid a n h : preserves I (RecordPlayerEvent sid a n h).
Proof.
  unfold RecordPlayerEvent, record_join, record_leave.
  solve_preserves; auto using closeOpenSessions_preserves, enforce_preserves.
  - apply preserves_exec. intros d u d' Hd H. by eapply ps_upsert.
  - apply preserves_exec. intros d [] d' Hd H. by eapply ps_open.
  - apply preserves_exec. intros d u d' Hd. unfold touch_player.
    destruct (find_player sid h d) as [[pid p]|]; [|done]. intros [= _ <-].
    apply ps_players; [done| |done]. intros k. by apply lookup_alter_playtime.
Qed.

Lemma BanPlayer_preserves sid pid b r : preserves I (BanPlayer sid pid b r).
Proof.
  unfold BanPlayer, enqueueConsoleCommand.
  apply (preserves_bind_post _ (fun x => isSafePlayerName x.1 = true));
    [|apply playerTarget_preserves|].
  { intros w [n nd] w' H. by eapply playerTarget_safe. }
  intros [n nd] Hn. simpl in Hn.
  solve_preserves; [|by apply queue_line_preserves; [apply verb_listed|]].
  apply preserves_exec. intros d z d' Hd. destruct (players d !! pid) as [p|] eqn:E; [|congruence].
  destruct (_ =? _)%N; [|congruence]. destruct (bool_decide _); [done|]. intros [= _ <-].
  apply ps_players; [done| |done]. intros k. destruct (decide (k = pid)) as [->|].
  - by rewrite lookup_insert_eq, E.
  - by rewrite lookup_insert_ne.
Qed.

Lemma player_op_preserves m : player_op m -> preserves I m.
Proof.
  intros []; try (apply moderate_preserves; [done | apply verb_listed]; by destruct b).
  - apply RecordPlayerEvent_preserves.
  - apply closeOpenSessions_preserves.
  - apply BanPlayer_preserves.
  - apply moderate_preserves; [done | by apply verb_listed].
  - unfold KickPlayer.
    apply (preserves_bind_post _ (fun x => isSafePlayerName x.1 = true));
      [|apply playerTarget_preserves|].
    { intros w [n' nd] w' H. by eapply playerTarget_safe. }
    intros [n' nd] Hn. simpl in Hn. solve_preserves;
      [by apply queue_line_preserves; [apply verb_listed|] | apply log_activity_preserves].
  - unfold BanNetworkPlayer, auditNetworkBan.
    apply (preserves_bind_post _ (fun n => isSafePlayerName n = true));
      [intros w n w' H; by eapply latestUsername_safe | apply latestUsername_preserves|].
    intros n Hn. solve_preserves; try apply log_activity_preserves;
      try (by apply fanOut_preserves; [apply verb_listed|]); apply preserves_exec.
    + intros d u d' Hd. unfold upsert_ban. destruct (bool_decide _); [done|]. intros [= _ <-].
      by apply ps_bans.
    + intros d u d' Hd. destruct (bool_decide _); [done|]. intros [= _ <-].
      apply ps_players; [done| |done]. intros k. by apply lookup_update_playtime.
  - unfold UnbanNetworkPlayer, auditNetworkBan. apply preserves_bind.
    { apply preserves_attempt, preserves_exec. intros d u d' Hd.
      destruct (network_bans d !! h); [|done]. intros [= _ <-]. by apply ps_bans. }
    intros [name|e]; [|solve_preserves].
    apply preserves_bind; [apply preserves_attempt, latestUsername_preserves|]. intros cur.
    destruct (isSafePlayerName _) eqn:Hn; solve_preserves; try apply log_activity_preserves;
      try (by apply fanOut_preserves; [apply verb_listed|]); apply preserves_exec;
      intros d u d' Hd [= _ <-]; (apply ps_players; [done| |done]); intros k;
      by apply lookup_update_playtime.
Qed.
End player_stable.

(** ** Theorems *)

Lemma enqueue_inv id node sid kind payload t d d' :
  enqueue_node_command id node sid kind payload t d = Ok d' ->
  d' = with_node_commands (node_commands d ++
         [mkNodeCommand id node (Some sid) kind payload "pending" t None]) d.
Proof.
  unfold enqueue_node_command. do 2 (destruct (bool_decide _); [done|]). by intros [= <-].
Qed.

Lemma ledger_stable : player_stable ledger.
Proof.
  split.
  - apply close_sessions_ledger.
  - apply upsert_player_ledger.
  - apply open_session_ledger.
  - intros m d H. by apply ledger_frame.
  - intros b d. by apply ledger_frame.
  - intros l d. by apply ledger_frame.
  - intros id node sid verb name t d d' _ _ ->%enqueue_inv. by apply ledger_frame.
Qed.

Definition player_step (w w' : World) : Prop :=
  (exists m, player_op m /\ w' = snd (m w)) \/ exists t, w' = snd (sleep t w).

(** Playtime adds up: from a consistent ledger, any sequence of joins,
    leaves, server stops and moderation, with any database faults, keeps at
    most one open session per player and playtime_s equal to the sum of the
    recorded session durations. *)
Theorem playtime_ledger (w w' : World) :
  ledger (w_db w) -> rtc player_step w w' -> ledger (w_db w').
Proof.
  intros Hw H. induction H as [w|w1 w2 w3 [(m & Hm & ->)|(t & ->)] _ IH]; [done| |by apply IH].
  apply IH. by apply (player_op_preserves ledger ledger_stable m Hm).
Qed.

Definition safe_char (a : ascii) : bool := in_cls name_class a || (byte_of a =? 32).

(** A queued console line that is one line of letters, digits, underscores and
    spaces. *)
Definition console_safe (c : NodeCommand) : Prop :=
  exists line, ncmd_CommandType c = "send_command" /\ ncmd_Payload c = [("cmd", line)]
    /\ str_forallb safe_char line = true /\ (String.length line <= 49)%nat.

Lemma safe_name_chars name : isSafePlayerName name = true ->
  str_forallb safe_char name = true /\ (String.length name <= 32)%nat.
Proof.
  intros H. apply match_rep_range_cls in H as [Hl Hc]; [|lia]. split; [|lia].
  eapply str_forallb_impl; [|exact Hc]. intros a Ha. unfold safe_char. by rewrite Ha.
Qed.

Lemma console_line_safe verb name :
  verb ∈ console_verbs -> isSafePlayerName name = true ->
  str_forallb safe_char (verb +:+ " " +:+ name) = true
  /\ (String.length (verb +:+ " " +:+ name) <= 49)%nat.
Proof.
  intros Hv [Hc Hl]%safe_name_chars.
  assert (Hverbs : forallb (fun v => str_forallb safe_char v && (String.length v <=? 16)%nat)
    console_verbs = true) by reflexivity.
  rewrite forallb_elem in Hverbs. specialize (Hverbs verb Hv). breflect.
  rewrite !str_forallb_app, !str_length_app. split; [by rewrite H, Hc|].
  apply Nat.leb_le in H0. change (String.length " ") with 1%nat. lia.
Qed.

(** No console injection: every line the moderation of players queues for
    a daemon is a verb and a validated name, with no line break, quote or
    other special character; lines queued before stay. *)
Theorem console_lines_safe (m : M unit) (w : World) (c : NodeCommand) :
  player_op m -> c ∈ node_commands (w_db (snd (m w))) ->
  c ∈ node_commands (w_db w) \/ console_safe c.
Proof.
  intros Hm. set (I := fun d => forall c, c ∈ node_commands d ->
    c ∈ node_commands (w_db w) \/ console_safe c).
  assert (HI : player_stable I).
  { split; unfold I; try by auto.
    - intros fresh sid h n t d pid d'. unfold upsert_player.
      destruct (find_player sid h d) as [[? ?]|]; [by intros [= _ <-]|].
      destruct (bool_decide _); [done|]. destruct (insert_row _ _ _); [|done].
      by intros [= _ <-].
    - intros id pid t d d'. unfold open_session. destruct (bool_decide _); [done|].
      destruct (exists_row _ _); [done|]. destruct (insert_row _ _ _); [|done].
      by intros [= <-].
    - intros id node sid verb name t d d' Hv Hn ->%enqueue_inv Hd c'. simpl.
      rewrite elem_of_app, list_elem_of_singleton. intros [? | ->]; [auto|]. right.
      destruct (console_line_safe verb name Hv Hn) as [H1 H2].
      exists (verb +:+ " " +:+ name). done. }
  revert c. apply (player_op_preserves I HI m Hm w). unfold I. auto.
Qed.

(** A banned account is kicked as it joins: when the report of a join is
    recorded and the account has a network ban, a kick for the reported name
    waits in the queue of the node that hosts the server; when recording
    fails, nothing is recorded, so no join is recorded without its kick. *)
Theorem banned_join_is_kicked (sid h : uuid) (name : string) (sv : Server) (w w' : World)
    (r : res error unit) :
  RecordPlayerEvent sid "join" name h w = (r, w') ->
  servers (w_db w) !! sid = Some sv -> isSafePlayerName name = true ->
  network_bans (w_db w) !! h <> None ->
  (is_ok r = false -> w_db w' = w_db w)
  /\ (is_ok r = true -> exists c, node_commands (w_db w') = node_commands (w_db w) ++ [c]
      /\ console_safe c
      /\ ncmd_NodeID c = server_NodeID sv /\ ncmd_ServerID c = Some sid
      /\ ncmd_Status c = "pending" /\ ncmd_Payload c = [("cmd", "kick " +:+ name)]).
Proof.
  intros H Hsv Hn Hban. unfold RecordPlayerEvent in H. simpl in H.
  apply tx_if_inv in H as [(-> & w0 & w1 & b & H & Hd & _ & Hw')|(e & -> & Hw')]; [|done].
  split; [done|]. intros _. unfold record_join in H.
  apply bind_ok in H as (fresh & wa & (_ & Da & _)%rand_inv & H).
  apply bind_ok in H as (t & wb & (_ & ->)%now_inv & H).
  apply bind_ok in H as (pid & wb & Hu%wrap_ok%exec_ok & H).
  apply bind_ok in H as ([] & wc & Hc & H).
  apply bind_ok in H as (id & wd & (_ & Dd & _)%rand_inv & H).
  apply bind_ok in H as ([] & we & Ho%wrap_ok%exec_ok & H).
  apply bind_ok in H as ([] & wf & Hk & ([= ->] & ->)%ret_inv).
  set (same d := node_commands d = node_commands (w_db w) /\ servers d = servers (w_db w)
                 /\ network_bans d = network_bans (w_db w)).
  assert (Sb : same (w_db wb)).
  { unfold upsert_player in Hu. rewrite Da, Hd in Hu.
    destruct (find_player _ _ _) as [[? ?]|]; [by injection Hu as _ <-|].
    destruct (bool_decide _); [done|]. destruct (insert_row _ _ _); [|done].
    by injection Hu as _ <-. }
  assert (Sc : same (w_db wc)).
  { unfold closeOpenSessions in Hc. apply bind_ok in Hc as (tc & wc' & (_ & ->)%now_inv & Hc).
    apply wrap_ok, exec_ok in Hc. destruct (existsb _ _); [done|]. by injection Hc as <-. }
  assert (Se : same (w_db we)).
  { unfold open_session in Ho. destruct (bool_decide _); [done|].
    destruct (exists_row _ _); [done|]. destruct (insert_row _ _ _); [|done].
    injection Ho as <-. unfold same. simpl. by rewrite Dd. }
  unfold enforceNetworkBanOnJoin in Hk. rewrite Hn in Hk. cbn [negb] in Hk.
  apply bind_ok in Hk as (kid & wg & (_ & Dg & _)%rand_inv & Hk).
  apply bind_ok in Hk as (tk & wh & (_ & ->)%now_inv & Hk%wrap_ok%exec_ok).
  destruct Se as (E1 & E2 & E3). rewrite Dg, E2, Hsv, E3 in Hk.
  rewrite bool_decide_eq_false_2 in Hk by done.
  destruct (enqueue_node_command _ _ _ _ _ _ _) as [d|] eqn:Eq; [|done].
  apply enqueue_inv in Eq. assert (w_db wf = d) as D1 by congruence.
  rewrite Hw', D1, Eq. simpl. rewrite E1. eexists. split; [done|]. simpl. split_and!; try done.
  destruct (console_line_safe "kick" name) as [H1 H2]; [by apply verb_listed | done|].
  by exists ("kick" +:+ " " +:+ name).
Qed.

(** The open sessions of a player are those a join closes first. *)
Lemma closed_no_open pid t d :
  exists_row (player_sessions (close_sessions (of_player pid d) t d))
    (fun s => is_open s && (psession_PlayerID s =? pid)%N) = false.
Proof.
  apply exists_row_false. intros i s. unfold close_sessions. simpl. rewrite lookup_update_where.
  destruct (player_sessions d !! i) as [s0|]; [|done]. simpl. intros [= <-].
  unfold of_player. destruct (is_open s0) eqn:Eo; simpl; [|by rewrite Eo].
  destruct (psession_PlayerID s0 =? pid)%N eqn:Ep; simpl; [done|]. by rewrite Ep, andb_false_r.
Qed.

Lemma upsert_player_ok fresh sid h name t d :
  is_Some (servers d !! sid) -> players d !! fresh = None ->
  exists pid d', upsert_player fresh sid h name t d = Ok (pid, d')
    /\ is_Some (players d' !! pid) /\ player_sessions d' = player_sessions d
    /\ node_commands d' = node_commands d /\ servers d' = servers d /\ nodes d' = nodes d.
Proof.
  intros Hsv Hf. unfold upsert_player. destruct (find_player sid h d) as [[pid p]|] eqn:E.
  - apply find_key_ok in E as [Hp _]. eexists pid, _. split; [done|]. simpl.
    rewrite lookup_alter_eq, Hp. simpl. eauto.
  - rewrite bool_decide_eq_false_2 by (by apply not_eq_None_Some).
    unfold insert_row. rewrite Hf. eexists fresh, _. split; [done|]. simpl.
    rewrite lookup_insert_eq. eauto.
Qed.

(** An INSERT into the queue of an existing node goes through. *)
Lemma enqueue_ok id node sid kind payload t d :
  nodes d !! node <> None -> servers d !! sid <> None ->
  exists d', enqueue_node_command id node sid kind payload t d = Ok d'.
Proof.
  intros Hn Hs. unfold enqueue_node_command. rewrite !bool_decide_eq_false_2 by done. eauto.
Qed.

Lemma enforce_ok sid h name sv w :
  healthy w -> servers (w_db w) !! sid = Some sv -> nodes (w_db w) !! server_NodeID sv <> None ->
  exists w', enforceNetworkBanOnJoin sid h name w = (Ok tt, w') /\ healthy w'
    /\ players (w_db w') = players (w_db w)
    /\ player_sessions (w_db w') = player_sessions (w_db w).
Proof.
  intros Hw Hsv Hn. unfold enforceNetworkBanOnJoin.
  destruct (isSafePlayerName name); cbn [negb]; [|by exists w].
  erewrite bind_run by reflexivity. cbv beta iota. erewrite (bind_run now) by reflexivity.
  cbv beta iota. set (w1 := with_ctr _ w). assert (Hw1 : healthy w1) by exact Hw.
  destruct (bool_decide (network_bans (w_db w) !! h = None)) eqn:Eb.
  - exists (with_db (w_db w) w1). split; [|done].
    apply wrap_run_ok, exec_healthy_ok; [done|].
    change (w_db w1) with (w_db w). by rewrite Hsv, Eb.
  - destruct (enqueue_ok (w_rand w (w_ctr w)) (server_NodeID sv) sid "send_command"
      [("cmd", "kick" +:+ " " +:+ name)] (w_now w1) (w_db w)) as [d' Ed]; [done|by rewrite Hsv|].
    exists (with_db d' w1). split.
    + apply wrap_run_ok, exec_healthy_ok; [done|].
      change (w_db w1) with (w_db w). rewrite Hsv, Eb. by rewrite Ed.
    + apply enqueue_inv in Ed as ->. done.
Qed.

Lemma closeOpenSessions_ok pid w :
  healthy w ->
  (forall i s, player_sessions (w_db w) !! i = Some s -> session_duration (w_now w) s < 2 ^ 31) ->
  closeOpenSessions (of_player pid) w
  = (Ok tt, with_db (close_sessions (of_player pid (w_db w)) (w_now w) (w_db w)) w).
Proof.
  intros Hw Hdur. unfold closeOpenSessions. erewrite (bind_run now) by reflexivity. cbv beta iota.
  apply wrap_run_ok, exec_healthy_ok; [done|].
  assert (existsb (fun s => 2 ^ 31 <=? session_duration (w_now w) s)
    (rows (player_sessions (w_db w)) (fun s => is_open s && of_player pid (w_db w) s)) = false)
    as ->; [|done].
  apply not_true_iff_false. rewrite existsb_elem. intros (s & [i Hi]%rows_elem & Hs).
  apply Hdur in Hi. breflect. lia.
Qed.

Lemma open_after_close id pid t d :
  is_Some (players d !! pid) -> player_sessions d !! id = None ->
  let d2 := close_sessions (of_player pid d) t d in
  open_session id pid t d2 = Ok (tt, with_player_sessions
    (<[id := mkPlayerSessionRow id pid t None None]> (player_sessions d2)) d2).
Proof.
  intros [p Hp] Hid d2. unfold open_session. rewrite bool_decide_eq_false_2.
  2:{ unfold d2, close_sessions. simpl. by rewrite map_lookup_imap, Hp. }
  unfold d2 at 1. rewrite closed_no_open. unfold insert_row.
  assert (player_sessions d2 !! id = None) as ->; [|done].
  unfold d2, close_sessions. simpl. by rewrite lookup_update_where, Hid.
Qed.

(** With one open session at most, a row known to be open is the only one. *)
Lemma ledger_only_open d pid i s :
  ledger d -> player_sessions d !! i = Some s -> open_of pid s = true ->
  rows (player_sessions d) (open_of pid) = [s].
Proof.
  intros L Hi Hs. pose proof (ledger_one d L pid) as Hone.
  assert (Hin : s ∈ rows (player_sessions d) (open_of pid)) by (apply elem_of_rows; eauto).
  destruct (rows (player_sessions d) (open_of pid)) as [|x [|y l]]; simpl in Hone; [| |lia].
  - by apply not_elem_of_nil in Hin.
  - apply list_elem_of_singleton in Hin. by subst.
Qed.

Lemma tx_if_commit msg ce (m : M bool) w w' :
  healthy w -> m w = (Ok true, w') -> healthy w' -> tx_if msg ce m w = (Ok tt, w').
Proof.
  unfold healthy. intros Hw Hm Hw'.
  unfold tx_if, wrap, attempt, fault, get_db, put_db, bind, ret, fail.
  rewrite Hw. cbv beta iota. rewrite Hm. by rewrite Hw'.
Qed.

(** A join is always recorded: with the database up, a consistent ledger,
    a hosted server and unused fresh identifiers, the report of a join
    succeeds even when the player still has an open session, and it leaves
    exactly one session of that player open, started now. *)
Theorem join_is_recorded (sid h : uuid) (name : string) (sv : Server) (w : World) :
  healthy w -> ledger (w_db w) ->
  servers (w_db w) !! sid = Some sv -> nodes (w_db w) !! server_NodeID sv <> None ->
  players (w_db w) !! w_rand w (w_ctr w) = None ->
  player_sessions (w_db w) !! w_rand w (S (w_ctr w)) = None ->
  (forall i s, player_sessions (w_db w) !! i = Some s -> session_duration (w_now w) s < 2 ^ 31) ->
  exists w' pid s,
    RecordPlayerEvent sid "join" name h w = (Ok tt, w')
    /\ is_Some (players (w_db w') !! pid)
    /\ rows (player_sessions (w_db w')) (open_of pid) = [s]
    /\ psession_JoinedAt s = w_now w.
Proof.
  intros Hw Hl Hsv Hnode Hf1 Hf2 Hdur.
  destruct (upsert_player_ok (w_rand w (w_ctr w)) sid h name (w_now w) (w_db w))
    as (pid & d1 & Hu & Hp1 & Hs1 & Hc1 & Hv1 & Hn1); [by eexists | done|].
  pose proof (upsert_player_ledger _ _ _ _ _ _ _ _ Hu Hl) as L1.
  set (w1 := with_db d1 (with_ctr (S (w_ctr w)) w)).
  assert (Hcl := closeOpenSessions_ok pid w1 Hw).
  assert (Ho := open_after_close (w_rand w (S (w_ctr w))) pid (w_now w) d1 Hp1).
  rewrite Hs1 in Ho. specialize (Ho Hf2). cbv zeta in Ho.
  change (w_db w1) with d1 in Hcl. rewrite Hs1 in Hcl. specialize (Hcl Hdur).
  change (w_now w1) with (w_now w) in Hcl.
  set (d2 := close_sessions (of_player pid d1) (w_now w) d1) in *.
  set (d3 := with_player_sessions _ d2) in Ho.
  assert (L3 : ledger d3)
    by (eapply open_session_ledger; [exact Ho|]; by apply close_sessions_ledger).
  destruct (enforce_ok sid h name sv (with_db d3 (with_ctr (S (S (w_ctr w))) w)))
    as (w4 & Hk & Hh4 & Hp4 & Hs4); [exact Hw | by simpl; rewrite Hv1 | by simpl; rewrite Hn1|].
  assert (Hj : record_join sid name h w = (Ok true, w4)).
  { unfold record_join. erewrite bind_run by reflexivity. cbv beta iota.
    erewrite (bind_run now) by reflexivity. cbv beta iota.
    erewrite bind_run by (eapply wrap_run_ok, exec_healthy_ok; [exact Hw | exact Hu]).
    cbv beta iota. erewrite bind_run by exact Hcl. cbv beta iota.
    erewrite bind_run by reflexivity. cbv beta iota.
    erewrite bind_run by (eapply wrap_run_ok, exec_healthy_ok; [exact Hw | exact Ho]).
    cbv beta iota. erewrite bind_run by exact Hk. done. }
  exists w4, pid, (mkPlayerSessionRow (w_rand w (S (w_ctr w))) pid (w_now w) None None).
  split_and!; [by apply tx_if_commit| | |done].
  - rewrite Hp4. simpl. rewrite map_lookup_imap. destruct Hp1 as [p Hp1]. rewrite Hp1. simpl. eauto.
  - rewrite Hs4. eapply ledger_only_open; [done | apply lookup_insert_eq|].
    unfold open_of. simpl. apply N.eqb_refl.
Qed.

(** The list of an installation's players respects tenants: every account
    it shows has rows only on servers the caller may see, and the playtime and
    servers it shows are exactly those of the caller's visible rows. *)
Theorem network_players_isolated (userID : uuid) (role : string) (w w' : World)
    (l : list NetworkPlayer) (np : NetworkPlayer) :
  ListNetworkPlayers userID role w = (Ok l, w') -> np ∈ l ->
  w_db w' = w_db w
  /\ (forall sid, sid ∈ np_ServerIDs np -> visible_server (w_db w) userID role sid = true)
  /\ let mine := rows (players (w_db w)) (fun p =>
        visible_server (w_db w) userID role (player_ServerID p)
        && (player_HytaleUUID p =? np_HytaleUUID np)%N) in
     np_PlaytimeS np = sumZ (map player_PlaytimeS mine)
     /\ np_ServerIDs np = map player_ServerID mine.
Proof.
  intros [Hq Hd]%wrap_ok%query_ok Hin. cbv zeta in Hq.
  remember (order_by _ _) as l0 eqn:El0 in Hq. assert (l = l0) as -> by congruence. clear Hq.
  rewrite El0, order_by_perm in Hin. apply list_elem_of_fmap in Hin as (h & -> & _).
  cbn [np_ServerIDs np_PlaytimeS np_HytaleUUID aggregate].
  assert (E : forall l, fold_right (fun p a => player_PlaytimeS p + a) 0 l
                        = sumZ (map player_PlaytimeS l)).
  { intros l. induction l as [|p l IH]; simpl; [done|]. by rewrite IH. }
  split_and!; [done| |rewrite E; by unfold rows; rewrite filter_filter
              |by unfold rows; rewrite filter_filter].
  intros sid Hs. apply list_elem_of_fmap in Hs as (p & -> & Hp).
  rewrite list_elem_of_In, filter_In, <- list_elem_of_In in Hp. destruct Hp as [Hp _].
  by apply elem_of_rows in Hp as [_ Hp].
Qed.

(** ** Concrete runs *)

(** Server 3 of user 1 on node 9; account 77 is banned. *)
Definition play_world : World :=
  mkWorld
    (with_users {[1%N := sample_user 1 RoleUser]}
    (with_nodes {[9%N := sample_node 9]}
    (with_servers {[3%N := sample_server 3 9 1]}
    (with_network_bans {[77%N := mkNetworkBan (Some "Griefer") "grief" None 0]} empty_db))))
    ∅ second [] (fun n => N.of_nat (100 + n)) 0.

Lemma play_ledger : ledger (w_db play_world).
Proof.
  split.
  - intros i s H. by vm_compute in H.
  - intros pid. vm_compute. lia.
  - intros i s H. by vm_compute in H.
  - intros pid p H. by vm_compute in H.
Qed.

Lemma playtime_ledger_witness :
  ledger (w_db (snd (RecordPlayerEvent 3 "join" "Griefer" 77 play_world))).
Proof.
  apply (playtime_ledger play_world); [apply play_ledger|].
  apply rtc_once. left. eexists. split; [apply op_event | reflexivity].
Defined.

Lemma console_lines_safe_witness :
  exists c, c ∈ node_commands (w_db (snd (RecordPlayerEvent 3 "join" "Griefer" 77 play_world)))
  /\ console_safe c.
Proof.
  destruct (node_commands (w_db (snd (RecordPlayerEvent 3 "join" "Griefer" 77 play_world))))
    as [|c l] eqn:E; [by vm_compute in E|].
  exists c. split; [left|].
  destruct (console_lines_safe (RecordPlayerEvent 3 "join" "Griefer" 77) play_world c) as [H|H].
  - apply op_event.
  - rewrite E. left.
  - change (c ∈ []) in H. by apply not_elem_of_nil in H.
  - done.
Defined.

Lemma banned_join_is_kicked_witness :
  exists c, node_commands (w_db (snd (RecordPlayerEvent 3 "join" "Griefer" 77 play_world))) = [c]
  /\ ncmd_Payload c = [("cmd", "kick Griefer")].
Proof.
  destruct (RecordPlayerEvent 3 "join" "Griefer" 77 play_world) as [r w'] eqn:E.
  assert (Hok : is_ok r = true).
  { apply (f_equal (fun x => is_ok (fst x))) in E. vm_compute in E. by symmetry in E. }
  destruct (banned_join_is_kicked 3 77 "Griefer" (sample_server 3 9 1) play_world w' r E)
    as [_ H]; [done | done | done|].
  destruct (H Hok) as (c & Hc & _ & _ & _ & _ & Hp). exists c. done.
Defined.

Lemma join_is_recorded_witness :
  exists w' pid s, RecordPlayerEvent 3 "join" "Griefer" 77 play_world = (Ok tt, w')
  /\ is_Some (players (w_db w') !! pid)
  /\ rows (player_sessions (w_db w')) (open_of pid) = [s] /\ psession_JoinedAt s = second.
Proof.
  apply (join_is_recorded 3 77 "Griefer" (sample_server 3 9 1) play_world);
    [done | apply play_ledger | done | done | done | done|].
  intros i s H. by vm_compute in H.
Defined.

(** Player 20 on server 3. *)
Definition seen_world : World :=
  with_db (with_players {[20%N := mkPlayer 20 3 77 "Griefer" 0 (Some 5) 60 false false None None
             None false false]} (w_db play_world)) play_world.

Lemma network_players_isolated_witness :
  exists l w', ListNetworkPlayers 1 RoleUser seen_world = (Ok l, w')
  /\ forall np, np ∈ l -> forall sid, sid ∈ np_ServerIDs np ->
       visible_server (w_db seen_world) 1 RoleUser sid = true.
Proof.
  destruct (ListNetworkPlayers 1 RoleUser seen_world) as [[l|e] w'] eqn:E.
  - exists l, w'. split; [done|]. intros np Hnp.
    apply (network_players_isolated 1 RoleUser seen_world w' l np E Hnp).
  - exfalso. apply (f_equal (fun x => is_ok (fst x))) in E. vm_compute in E. done.
Defined.
