(* ===== verification/Servers.v ===== *)
(** * Game servers

    Models [services/server_service.go] and [NormalizeHytaleVersion] of
    [services/hytale_version_service.go]: who sees a server, placing a new
    one on a node, changing its settings, its status, its logs, its console,
    its migration and its removal. *)

From stdpp Require Import base numbers list strings option gmap sets.
From Stdlib Require Import QArith_base.
From S2P Require Import Prelude GoStrings Store Roles Players.

Local Open Scope Z_scope.

Definition ErrServerNotFound : error := ErrNew "server not found".
Definition ErrServerForbidden : error := ErrNew "access denied".
Definition ErrNoAvailableNode : error := ErrNew "no available node to host the server".
Definition ErrInvalidServerSettings : error := ErrNew "invalid server settings".
Definition ErrInvalidConsoleCommand : error :=
  ErrNew "console command must not contain line breaks or control characters".
Definition ErrMigrationTarget : error := ErrNew "invalid migration target".
Definition ErrNodeNotFound : error := ErrNew "node not found".

Record CreateServerRequest := mkCreateServerRequest {
  csr_Name : string;
  csr_HytaleVersion : string;
  csr_CPULimit : Z;
  csr_RAMLimitMB : Z;
  csr_DiskLimitMB : Z;
  csr_AutoRestart : bool;
  csr_DataPath : string
}.

Record UpdateServerRequest := mkUpdateServerRequest {
  usr_Name : option string;
  usr_AutoRestart : option bool;
  usr_CrashLimit : option Z;
  usr_RAMLimitMB : option Z;
  usr_LaunchFlags : option (list string);
  usr_UseHytaleAccount : option bool
}.

Definition MinServerRAMMB : Z := 512.
Definition AllowedLaunchFlags : list string :=
  ["--accept-early-plugins"; "--allow-op"; "--disable-sentry"].
Definition AdminOnlyLaunchFlags : list string := ["--allow-op"].

(** ** Settings *)

Fixpoint normalize_loop (flags out : list string) : res error (list string) :=
  match flags with
  | [] => Ok out
  | f0 :: rest =>
    let f := TrimSpace f0 in
    if negb (contains AllowedLaunchFlags f)
    then Err (ErrDetail ErrInvalidServerSettings ("launch flag " +:+ f +:+ " is not allowed"))
    else normalize_loop rest (if contains out f then out else out ++ [f])
  end.

Definition normalizeLaunchFlags (flags : list string) : res error (list string) :=
  normalize_loop flags [].

Definition NormalizeHytaleVersion `{Unicode} (v0 : string) : res error string :=
  let v := ToLower (TrimSpace v0) in
  if String.eqb v "" || String.eqb v "latest" then Ok "latest"
  else if contains ["release"; "pre-release"] v then Ok v
  else Err (ErrNew "hytale_version must be one of latest, release, pre-release").

(** An INTEGER column. *)
Definition int4 (z : Z) : bool := (- 2 ^ 31 <=? z) && (z <? 2 ^ 31).

(** The CHECK constraints of servers. *)
Definition server_checks (s : Server) : res error unit :=
  if negb (in_range 1 100 (RuneCount (server_Name s))) then Err (ErrConstraint "name_length")
  else if negb (in_range 1024 65535 (server_Port s)) then Err (ErrConstraint "port_range")
  else if negb (0 <? server_RAMLimitMB s) then Err (ErrConstraint "ram_positive")
  else if negb (0 <? server_CrashLimit s) then Err (ErrConstraint "crash_limit_positive")
  else if negb (int4 (server_CPULimit s) && int4 (server_RAMLimitMB s)
                && int4 (server_DiskLimitMB s) && int4 (server_CrashLimit s))
  then Err (ErrConstraint "integer out of range")
  else Ok tt.

(** ** Access *)

Definition created_desc (a b : Server) : bool := server_CreatedAt b <=? server_CreatedAt a.

(** The columns [scanServers] reads. *)
Definition scan_server (s : Server) : Server :=
  mkServer (server_ID s) (server_Name s) (server_NodeID s) (server_OwnerID s) (server_Status s)
    (server_HytaleVersion s) (server_CPULimit s) (server_RAMLimitMB s) (server_DiskLimitMB s)
    (server_Port s) (server_DataPath s) (server_AutoRestart s) (server_CrashLimit s)
    (server_CrashWindowS s) (server_ActiveWorld s) (server_CreatedAt s) (server_UpdatedAt s)
    (server_Metadata s) "" [] false None None false.

(** The servers with their ids that satisfy [p]. *)
Definition servers_where (p : uuid -> bool) (d : DB) : list Server :=
  map snd (List.filter (fun kv => p (fst kv)) (map_to_list (servers d))).

Definition ListServers (userID : uuid) (role : string) : M (list Server) :=
  wrap "querying servers" (query (fun d =>
    Ok (map scan_server (order_by created_desc
          (if RoleWeight RoleAdmin <=? RoleWeight role then servers_where (fun _ => true) d
           else servers_where (fun id =>
                  match servers d !! id with
                  | Some sv => (server_OwnerID sv =? userID)%N
                               || negb (bool_decide (server_members d !! (id, userID) = None))
                  | None => false
                  end) d))))).

(** [COALESCE(NULLIF(n.public_address, ''), n.fqdn, '')]. *)
Definition node_address (d : DB) (node : uuid) : string :=
  match nodes d !! node with
  | Some n => match node_PublicAddress n with
              | Some a => if String.eqb a "" then node_FQDN n else a
              | None => node_FQDN n
              end
  | None => ""
  end.

Definition GetServer (serverID userID : uuid) (role : string) : M Server :=
  let* r := attempt (query (fun d =>
    match servers d !! serverID with
    | Some s => Ok (server_with_NodeFQDN (node_address d (server_NodeID s)) s)
    | None => Err ErrNoRows
    end)) in
  match r with
  | Err e => if error_Is e ErrNoRows then fail ErrServerNotFound
             else fail (ErrWrap "fetching server" e)
  | Ok server =>
    if RoleWeight role <? RoleWeight RoleAdmin then
      if negb (server_OwnerID server =? userID)%N then
        let* count := attempt (query (fun d =>
          Ok (if bool_decide (server_members d !! (serverID, userID) = None) then 0 else 1))) in
        if match count with Ok n => n | Err _ => 0 end =? 0
        then fail ErrServerForbidden else ret server
      else ret server
    else ret server
  end.

(** ** Placement *)

Definition down (status : string) : bool :=
  String.eqb status "stopped" || String.eqb status "crashed".

(** Servers of a node that are not down. *)
Definition active_on (d : DB) (node : uuid) : nat :=
  count_rows (servers d) (fun s => (server_NodeID s =? node)%N && negb (down (server_Status s))).

Definition hosted_on (d : DB) (node : uuid) : nat :=
  count_rows (servers d) (fun s => (server_NodeID s =? node)%N).

(** The latest sample of a node's CPU, or ten times its servers. *)
Definition node_load (d : DB) (node : uuid) : Q :=
  match order_by (fun a b => metric_SampledAt b <=? metric_SampledAt a)
          (List.filter (fun m => (metric_NodeID m =? node)%N) (node_metrics d)) with
  | m :: _ => metric_CPUPct m
  | [] => inject_Z (10 * Z.of_nat (hosted_on d node))
  end.

Definition select_node (d : DB) : res error uuid :=
  match order_by (fun a b => Qle_bool (node_load d (fst a)) (node_load d (fst b)))
          (List.filter (fun kv => String.eqb (node_Status (snd kv)) "online"
                          && (Z.of_nat (active_on d (fst kv)) <? node_MaxServers (snd kv)))
             (map_to_list (nodes d))) with
  | (id, _) :: _ => Ok id
  | [] => Err ErrNoRows
  end.

(** [SELECT COALESCE(MAX(port), 5519) + 1 ... WHERE port >= 5520]. *)
Definition next_port (d : DB) (node : uuid) : Z :=
  fold_right (fun s a => Z.max (server_Port s) a) 5519
    (rows (servers d) (fun s => (server_NodeID s =? node)%N && (5520 <=? server_Port s))) + 1.

Definition insert_server (s : Server) (d : DB) : res error (Server * DB) :=
  match server_checks s with
  | Err e => Err e
  | Ok _ =>
    if bool_decide (nodes d !! server_NodeID s = None) then Err (ErrConstraint "servers_node_id_fkey")
    else if bool_decide (users d !! server_OwnerID s = None)
    then Err (ErrConstraint "servers_owner_id_fkey")
    else match insert_row (server_ID s) s (servers d) with
         | Ok t => Ok (scan_server s, with_servers t d)
         | Err e => Err e
         end
  end.

Section create.
Context `{U : Unicode}.

(** The request after normalisation: name, version and limits. *)
Definition normalize_request (req : CreateServerRequest) : res error CreateServerRequest :=
  let name := TrimSpace (csr_Name req) in
  if String.eqb name "" then Err (ErrNew "server name cannot be empty")
  else match NormalizeHytaleVersion (csr_HytaleVersion req) with
  | Err e => Err e
  | Ok version =>
    Ok (mkCreateServerRequest name version
          (if csr_CPULimit req <? 0 then 0 else csr_CPULimit req)
          (if csr_RAMLimitMB req <=? 0 then 2048 else csr_RAMLimitMB req)
          (if csr_DiskLimitMB req <=? 0 then 10240 else csr_DiskLimitMB req)
          (csr_AutoRestart req) (csr_DataPath req))
  end.

(** The node and the port of a new server: two reads. *)
Definition place_server : M (uuid * Z) :=
  let* r := attempt (query select_node) in
  match r with
  | Err e => if error_Is e ErrNoRows then fail ErrNoAvailableNode
             else fail (ErrWrap "selecting node" e)
  | Ok nodeID =>
    let* port := wrap "allocating port" (query (fun d => Ok (next_port d nodeID))) in
    ret (nodeID, port)
  end.

Definition insert_placed (req : CreateServerRequest) (ownerID nodeID : uuid) (port : Z) : M Server :=
  let* id := new_uuid in
  let* t := now in
  wrap "inserting server" (exec (insert_server
    (mkServer id (csr_Name req) nodeID ownerID StatusInstalling (csr_HytaleVersion req)
       (csr_CPULimit req) (csr_RAMLimitMB req) (csr_DiskLimitMB req) port (csr_DataPath req)
       (csr_AutoRestart req) 3 300 "" t t "{}" "" [] false None None false))).

Definition CreateServer (req0 : CreateServerRequest) (ownerID : uuid) : M Server :=
  match normalize_request req0 with
  | Err e => fail e
  | Ok req =>
    let* (nodeID, port) := place_server in
    insert_placed req ownerID nodeID port
  end.
End create.

(** ** UpdateServer *)

Definition is_admin (role : string) : bool := negb (RoleWeight role <? RoleWeight RoleAdmin).

Definition is_none {A} (o : option A) : bool := match o with None => true | Some _ => false end.

(** The assignments of the SET clause, checked in the order of the code. *)
Definition set_name (req : UpdateServerRequest) : res error (Server -> Server) :=
  match usr_Name req with
  | None => Ok id
  | Some n => let name := TrimSpace n in
              if String.eqb name ""
              then Err (ErrDetail ErrInvalidServerSettings "server name cannot be empty")
              else Ok (server_with_Name name)
  end.

Definition set_crash_limit (req : UpdateServerRequest) : res error (Server -> Server) :=
  match usr_CrashLimit req with
  | None => Ok id
  | Some n => if n <? 0
              then Err (ErrDetail ErrInvalidServerSettings "crash_limit cannot be negative")
              else Ok (server_with_CrashLimit n)
  end.

Definition set_ram (role : string) (server : Server) (req : UpdateServerRequest)
  : M (Server -> Server) :=
  match usr_RAMLimitMB req with
  | None => ret id
  | Some ram =>
    if negb (is_admin role) then fail ErrServerForbidden
    else
      let* nodeRAM := wrap "loading node capacity" (query (fun d =>
        match nodes d !! server_NodeID server with
        | Some n => Ok (node_TotalRAMMB n)
        | None => Err ErrNoRows
        end)) in
      if (ram <? MinServerRAMMB) || (nodeRAM <? ram)
      then fail (ErrDetail ErrInvalidServerSettings "ram_limit_mb out of range")
      else ret (server_with_RAMLimitMB ram)
  end.

Definition set_flags (role : string) (server : Server) (req : UpdateServerRequest)
  : res error (Server -> Server) :=
  match usr_LaunchFlags req with
  | None => Ok id
  | Some fs =>
    match normalizeLaunchFlags fs with
    | Err e => Err e
    | Ok flags =>
      if negb (is_admin role) &&
         existsb (fun f => negb (Bool.eqb (contains flags f)
                                  (contains (server_LaunchFlags server) f))) AdminOnlyLaunchFlags
      then Err (ErrDetail ErrServerForbidden "only an admin can change --allow-op")
      else Ok (server_with_LaunchFlags flags)
    end
  end.

Definition set_account (role : string) (server : Server) (req : UpdateServerRequest)
  : res error (Server -> Server) :=
  match usr_UseHytaleAccount req with
  | None => Ok id
  | Some use =>
    if use && negb (server_UseHytaleAccount server) && negb (is_admin role)
    then Err (ErrDetail ErrServerForbidden "only an admin can let a server use the linked Hytale account")
    else Ok (server_with_UseHytaleAccount use)
  end.

Definition lift {A} (r : res error A) : M A :=
  match r with Ok a => ret a | Err e => fail e end.

(** [UPDATE servers SET ... WHERE id = $n], with the constraints. *)
Definition update_server (serverID : uuid) (f : Server -> Server) (d : DB) : res error (unit * DB) :=
  match servers d !! serverID with
  | None => Ok (tt, d)
  | Some s =>
    match server_checks (f s) with
    | Err e => Err e
    | Ok _ => Ok (tt, with_servers (<[serverID := f s]> (servers d)) d)
    end
  end.

Definition UpdateServer (serverID userID : uuid) (role : string) (req : UpdateServerRequest)
  : M Server :=
  let* server := GetServer serverID userID role in
  if negb (is_admin role) && negb (server_OwnerID server =? userID)%N then fail ErrServerForbidden
  else
    let* f1 := lift (set_name req) in
    let f2 := match usr_AutoRestart req with Some b => server_with_AutoRestart b | None => id end in
    let* f3 := lift (set_crash_limit req) in
    let* f4 := set_ram role server req in
    let* f5 := lift (set_flags role server req) in
    let* f6 := lift (set_account role server req) in
    let* t := now in
    run* wrap "updating server" (exec (update_server serverID (fun s =>
      f6 (f5 (f4 (f3 (f2 (f1 (server_with_UpdatedAt t s))))))))) in
    GetServer serverID userID role.

(** ** Status, exit code, data path *)

(** [UPDATE servers] of columns without constraints. *)
Definition touch_server (serverID : uuid) (f : Server -> Server) : M unit :=
  exec (fun d => Ok (tt, with_servers (alter f serverID (servers d)) d)).

Definition UpdateServerDataPath (serverID : uuid) (dataPath : string) : M unit :=
  let* t := now in
  touch_server serverID (fun s => server_with_DataPath dataPath (server_with_UpdatedAt t s)).

Definition server_statuses : list string :=
  [StatusInstalling; StatusStopped; StatusStarting; StatusRunning; StatusStopping; StatusCrashed].

(** The status column is an enum. *)
Definition UpdateServerStatus (serverID : uuid) (status : string) : M unit :=
  let* t := now in
  run* exec (fun d =>
    if negb (contains server_statuses status) then Err (ErrConstraint "server_status")
    else Ok (tt, with_servers (alter (fun s =>
           server_with_Status status (server_with_UpdatedAt t s)) serverID (servers d)) d)) in
  if String.eqb status "stopped" || String.eqb status "crashed"
  then closeOpenSessions (of_server serverID)
  else ret tt.

Definition SetLastExitCode (serverID : uuid) (code : option Z) : M unit :=
  touch_server serverID (server_with_LastExitCode code).

Definition GetServerStatus (serverID : uuid) : M string :=
  query (fun d => match servers d !! serverID with
                  | Some s => Ok (server_Status s)
                  | None => Err ErrNoRows
                  end).

Definition UsesHytaleAccount (serverID : uuid) : M bool :=
  query (fun d => match servers d !! serverID with
                  | Some s => Ok (server_UseHytaleAccount s)
                  | None => Err ErrNoRows
                  end).

Definition ActiveWorld (serverID : uuid) : M string :=
  let* r := attempt (query (fun d => match servers d !! serverID with
                                     | Some s => Ok (server_ActiveWorld s)
                                     | None => Err ErrNoRows
                                     end)) in
  match r with
  | Ok world => ret world
  | Err e => if error_Is e ErrNoRows then fail ErrServerNotFound
             else fail (ErrWrap "fetching active world" e)
  end.

Definition ServerBelongsToNode (serverID nodeID : uuid) : M bool :=
  wrap "checking server node ownership" (query (fun d =>
    Ok match servers d !! serverID with
       | Some s => (server_NodeID s =? nodeID)%N
       | None => false
       end)).

(** ** Logs *)

Record LogLineInput := mkLogLineInput {
  lli_Timestamp : Z;
  lli_Level : string;
  lli_Message : string
}.

Definition logInsertChunk : nat := 1000.

Definition log_row (serverID : uuid) (l : LogLineInput) : ServerLog :=
  mkServerLog serverID (lli_Timestamp l)
    (if String.eqb (lli_Level l) "" then "INFO" else lli_Level l) (lli_Message l).

(** One multi-row INSERT; level is a varchar(10). *)
Definition insertLogChunk (serverID : uuid) (lines : list LogLineInput) : M unit :=
  wrap "inserting log lines" (exec (fun d =>
    if bool_decide (servers d !! serverID = None) then Err (ErrConstraint "server_logs_server_id_fkey")
    else if existsb (fun l => 10 <? RuneCount (slog_Level (log_row serverID l))) lines
    then Err (ErrConstraint "value too long")
    else Ok (tt, with_server_logs (server_logs d ++ map (log_row serverID) lines) d))).

(** [for start := 0; start < len(lines); start += logInsertChunk]; the number of
    lines is enough fuel. *)
Fixpoint ingest_loop (fuel : nat) (serverID : uuid) (lines : list LogLineInput) : M unit :=
  match fuel, lines with
  | _, [] => ret tt
  | O, _ => fail ErrDriver
  | S fuel', _ =>
    run* insertLogChunk serverID (take logInsertChunk lines) in
    ingest_loop fuel' serverID (drop logInsertChunk lines)
  end.

Definition IngestLogs (serverID : uuid) (lines : list LogLineInput) : M unit :=
  ingest_loop (length lines) serverID lines.

(** The newest [limit] lines of a server, oldest first. *)
Definition GetLogs (serverID : uuid) (limit0 : Z) : M (list ServerLog) :=
  let limit := if (limit0 <=? 0) || (500 <? limit0) then 100 else limit0 in
  wrap "querying server logs" (query (fun d =>
    Ok (rev (take (Z.to_nat limit)
          (order_by (fun a b => slog_LoggedAt b <=? slog_LoggedAt a)
             (rev (List.filter (fun l => (slog_ServerID l =? serverID)%N) (server_logs d)))))))).

(** ** DeleteServer *)

(** [DELETE FROM servers WHERE id = $1]: the rows of the server go with it,
    alerts, backups and audit records lose the reference. *)
Definition delete_server (id : uuid) (d : DB) : DB :=
  let kept_players := delete_where (fun p => (player_ServerID p =? id)%N) (players d) in
  let kept_rules := delete_where (fun r => bool_decide (rule_ServerID r = Some id)) (alert_rules d) in
  with_servers (delete id (servers d))
 (with_server_members (filter (fun kv => (kv.1).1 <> id) (server_members d))
 (with_server_invitations
    (delete_where (fun i => (invitation_ServerID i =? id)%N) (server_invitations d))
 (with_node_commands
    (List.filter (fun c => negb (bool_decide (ncmd_ServerID c = Some id))) (node_commands d))
 (with_players kept_players
 (with_player_sessions
    (delete_where (fun s => bool_decide (kept_players !! psession_PlayerID s = None)) (player_sessions d))
 (with_worlds (delete_where (fun x => (world_ServerID x =? id)%N) (worlds d))
 (with_server_logs (List.filter (fun l => negb (slog_ServerID l =? id)%N) (server_logs d))
 (with_alert_rules kept_rules
 (with_alert_events
    (fmap (fun e =>
       let e1 := if bool_decide (event_ServerID e = Some id) then event_with_ServerID None e else e in
       match event_RuleID e1 with
       | Some r => if bool_decide (kept_rules !! r = None) then event_with_RuleID None e1 else e1
       | None => e1
       end) (alert_events d))
 (with_activity_logs
    (map (fun l => if bool_decide (alog_ServerID l = Some id) then alog_with_ServerID None l else l)
       (activity_logs d))
 (with_backups (update_where (backup_with_ServerID None)
    (fun b => bool_decide (backup_ServerID b = Some id)) (backups d))
 (with_backup_schedules (delete_where (fun s => (schedule_ServerID s =? id)%N) (backup_schedules d))
 (with_game_commands
    (delete_where (fun c => bool_decide (gcmd_ServerID c = Some id)) (game_commands d))
 (with_server_mods (delete_where (fun m => (mod_ServerID m =? id)%N) (server_mods d))
 (with_server_databases (delete_where (fun b => (sdb_ServerID b =? id)%N) (server_databases d)) d))))))))))))))).

Definition DeleteServer (serverID userID : uuid) (role : string) : M unit :=
  let* server := GetServer serverID userID role in
  if (RoleWeight role <? RoleWeight RoleAdmin) && negb (server_OwnerID server =? userID)%N
  then fail ErrServerForbidden
  else wrap "deleting server" (exec (fun d => Ok (tt, delete_server serverID d))).

(** ** Console *)

Definition SendConsoleCommand (serverID : uuid) (cmd : string) : M unit :=
  if existsb (fun r => IsControl (rune_val r)) (runes cmd) then fail ErrInvalidConsoleCommand
  else
    let* r := attempt (query (fun d =>
      match servers d !! serverID with
      | Some s => Ok (server_NodeID s)
      | None => Err ErrNoRows
      end)) in
    match r with
    | Err e => if error_Is e ErrNoRows then fail ErrServerNotFound
               else fail (ErrWrap "fetching server node" e)
    | Ok nodeID => wrap "enqueuing send_command" (queue_line nodeID serverID cmd)
    end.

(** ** Migration *)

Definition MigratePreflight (callerRole : string) (serverID target : uuid) : M uuid :=
  if RoleWeight callerRole <? RoleWeight RoleAdmin then fail ErrServerForbidden
  else
    let* r := attempt (query (fun d => get_key (servers d) serverID)) in
    match r with
    | Err e => if error_Is e ErrNoRows then fail ErrServerNotFound
               else fail (ErrWrap "fetching server" e)
    | Ok s =>
      if negb (String.eqb (server_Status s) "stopped")
      then fail (ErrNew "server must be stopped before migrating")
      else if (server_NodeID s =? target)%N
      then fail (ErrNew "server is already on the target node")
      else
        let* r2 := attempt (query (fun d =>
          match nodes d !! target with
          | Some n => Ok (n, Z.of_nat (hosted_on d target))
          | None => Err ErrNoRows
          end)) in
        match r2 with
        | Err e => if error_Is e ErrNoRows then fail ErrNodeNotFound
                   else fail (ErrWrap "checking target node" e)
        | Ok (n, hosted) =>
          if negb (String.eqb (node_Status n) "online")
          then fail (ErrDetail ErrMigrationTarget "target node is not online")
          else if node_MaxServers n <=? hosted
          then fail (ErrDetail ErrMigrationTarget "target node is at its server limit")
          else if (node_TotalRAMMB n <? server_RAMLimitMB s) || (node_TotalDiskMB n <? server_DiskLimitMB s)
          then fail (ErrDetail ErrMigrationTarget "server limits exceed the target node's capacity")
          else ret (server_NodeID s)
        end
    end.

Definition CompleteMigration (serverID target : uuid) : M unit :=
  let* n := wrap "updating server node" (exec (fun d =>
    match servers d !! serverID with
    | Some s =>
      if bool_decide (nodes d !! target = None) then Err (ErrConstraint "servers_node_id_fkey")
      else Ok (1, with_servers (<[serverID := server_with_NodeID target s]> (servers d)) d)
    | None => Ok (0, d)
    end)) in
  if n =? 0 then fail ErrServerNotFound else ret tt.

(** ** Theorems: access *)

(** What GetServer answers in a database. *)
Definition server_view (d : DB) (serverID userID : uuid) (role : string) : res error Server :=
  match servers d !! serverID with
  | None => Err ErrServerNotFound
  | Some s => if visible_server d userID role serverID
              then Ok (server_with_NodeFQDN (node_address d (server_NodeID s)) s)
              else Err ErrServerForbidden
  end.

Lemma GetServer_ok sid uid role w sv w' :
  GetServer sid uid role w = (Ok sv, w') ->
  server_view (w_db w) sid uid role = Ok sv /\ w_db w' = w_db w.
Proof.
  unfold GetServer, server_view, visible_server. intros H.
  apply bind_ok in H as (r & w1 & (r' & [= ->] & H1)%attempt_inv & H). cbv beta in H.
  destruct r' as [s|e]; [|by case_ifs; inv_run].
  apply query_ok in H1 as [Hs Hd]. destruct (servers (w_db w) !! sid) as [row|]; [|done].
  injection Hs as <-. change (server_OwnerID (server_with_NodeFQDN _ row)) with (server_OwnerID row) in H.
  destruct (RoleWeight role <? RoleWeight RoleAdmin); simpl; [|by inv_run].
  destruct (server_OwnerID row =? uid)%N; simpl in *; [by inv_run|].
  apply bind_ok in H as (r & w2 & (r' & [= ->] & H2)%attempt_inv & H). cbv beta in H.
  apply query_inv in H2 as (Hd2 & _ & _ & _ & _ & [-> | ->]); [by simpl in H; inv_run|].
  rewrite Hd in *. destruct (bool_decide _); simpl in *; inv_run; rewrite ?Hd2; done.
Qed.

Lemma GetServer_healthy sid uid role w :
  healthy w -> GetServer sid uid role w = (server_view (w_db w) sid uid role, w).
Proof.
  intros Hw. unfold GetServer, server_view, visible_server.
  erewrite bind_run by (apply attempt_run, query_healthy; done). cbv beta iota.
  destruct (servers (w_db w) !! sid) as [row|]; [|done].
  change (server_OwnerID (server_with_NodeFQDN _ row)) with (server_OwnerID row).
  destruct (RoleWeight role <? RoleWeight RoleAdmin); simpl; [|done].
  destruct (server_OwnerID row =? uid)%N; simpl; [done|].
  erewrite bind_run by (apply attempt_run, query_healthy; done). cbv beta iota.
  by destruct (bool_decide _).
Qed.

Lemma servers_where_elem p d sv :
  sv ∈ servers_where p d <-> exists id, servers d !! id = Some sv /\ p id = true.
Proof.
  unfold servers_where. rewrite list_elem_of_fmap. split.
  - intros ([id s] & -> & Hin). exists id.
    rewrite list_elem_of_In, filter_In, <- list_elem_of_In, elem_of_map_to_list in Hin. done.
  - intros (id & Hs & Hp). exists (id, sv). split; [done|].
    rewrite list_elem_of_In, filter_In, <- list_elem_of_In, elem_of_map_to_list. done.
Qed.

Lemma ListServers_elem uid role w l w' : ListServers uid role w = (Ok l, w') ->
  forall sv, sv ∈ l <-> exists id row, servers (w_db w) !! id = Some row
    /\ visible_server (w_db w) uid role id = true /\ sv = scan_server row.
Proof.
  intros [Hq _]%wrap_ok%query_ok sv.
  assert (l = map scan_server (order_by created_desc
    (servers_where (fun id => visible_server (w_db w) uid role id) (w_db w)))) as ->.
  { injection Hq as <-. unfold visible_server, servers_where.
    rewrite Z.ltb_antisym, negb_involutive. destruct (_ <=? _); do 3 f_equal.
    apply filter_ext_in. intros [id s] Hin%list_elem_of_In%elem_of_map_to_list. cbn [fst].
    by rewrite Hin. }
  rewrite list_elem_of_fmap. setoid_rewrite order_by_perm.
  setoid_rewrite servers_where_elem. naive_solver.
Qed.

(** C12. A caller sees a server exactly when they are panel staff, own it or are a
    member of it: GetServer answers the row then, "not found" when there is no
    such server and "access denied" otherwise; a database fault never opens a
    server (a result is always the result of a fault-free run); and
    ListServers lists exactly the servers GetServer opens. *)
Theorem server_access (sid uid : uuid) (role : string) (w : World) :
  (forall sv w', GetServer sid uid role w = (Ok sv, w') ->
     server_view (w_db w) sid uid role = Ok sv /\ w_db w' = w_db w)
  /\ (healthy w -> GetServer sid uid role w = (server_view (w_db w) sid uid role, w))
  /\ (forall l w', ListServers uid role w = (Ok l, w') ->
        forall sv, sv ∈ l <-> exists id row, servers (w_db w) !! id = Some row
          /\ visible_server (w_db w) uid role id = true /\ sv = scan_server row).
Proof.
  split_and!; [apply GetServer_ok | apply GetServer_healthy | apply ListServers_elem].
Qed.

(** Staff 1, owner 5 of server 4 on node 9, and a stranger 6. *)
Definition farm_db : DB :=
  with_nodes {[9%N := sample_node 9; 10%N := sample_node 10]}
 (with_servers {[4%N := sample_server 4 9 5; 7%N := sample_server 7 10 5]}
 (with_users {[5%N := mkUser 5 "o@x.io" "olga" "" RoleUser "" false 0 None true None None "en" "UTC"]}
    empty_db)).
Definition farm_world : World := mkWorld farm_db ∅ 1000 [] (fun n => N.of_nat (100 + n)) 0.

Lemma server_access_witness :
  is_ok (fst (GetServer 4 5 RoleUser farm_world)) = true
  /\ fst (GetServer 4 6 RoleUser farm_world) = Err ErrServerForbidden
  /\ fst (GetServer 3 5 RoleUser farm_world) = Err ErrServerNotFound.
Proof.
  assert (Hw : healthy farm_world) by reflexivity.
  rewrite (proj1 (proj2 (server_access 4 5 RoleUser farm_world)) Hw).
  rewrite (proj1 (proj2 (server_access 4 6 RoleUser farm_world)) Hw).
  rewrite (proj1 (proj2 (server_access 3 5 RoleUser farm_world)) Hw).
  vm_compute. done.
Defined.

(** ** Theorems: settings *)

(** Launch flags the code may store: allowed ones, each at most once. *)
Definition good_flags (flags : list string) : Prop :=
  NoDup flags /\ forall f, f ∈ flags -> f ∈ AllowedLaunchFlags.

Lemma normalize_loop_good fs out flags :
  normalize_loop fs out = Ok flags -> good_flags out -> good_flags flags.
Proof.
  revert out. induction fs as [|f0 fs IH]; cbn [normalize_loop]; intros out H [Hn Ha].
  { assert (flags = out) as -> by congruence. done. }
  destruct (contains AllowedLaunchFlags _) eqn:Hc; cbn [negb] in H; [|done].
  apply contains_spec in Hc. apply IH in H; [done|].
  destruct (contains out _) eqn:Ho; [done|]. apply bool_decide_eq_false in Ho.
  split; [apply NoDup_app; split_and!; [done | set_solver | apply NoDup_singleton]|].
  intros f [?|?]%elem_of_app; [auto|]. set_solver.
Qed.

(** The columns an update must not touch on its own authority. *)
Definition guarded (s : Server) :=
  (server_OwnerID s, server_NodeID s, server_Port s, server_RAMLimitMB s,
   server_LaunchFlags s, server_UseHytaleAccount s).

Lemma set_name_ok req f s : set_name req = Ok f -> guarded (f s) = guarded s.
Proof. unfold set_name. case_ifs; intros; simplify_eq; done. Qed.

Lemma set_crash_limit_ok req f s : set_crash_limit req = Ok f -> guarded (f s) = guarded s.
Proof. unfold set_crash_limit. case_ifs; intros; simplify_eq; done. Qed.

Lemma set_ram_ok role server req w f w' :
  set_ram role server req w = (Ok f, w') ->
  w_db w' = w_db w /\
  (f = id \/ exists ram n, f = server_with_RAMLimitMB ram /\ is_admin role = true
     /\ nodes (w_db w) !! server_NodeID server = Some n
     /\ MinServerRAMMB <= ram <= node_TotalRAMMB n).
Proof.
  unfold set_ram. destruct (usr_RAMLimitMB req) as [ram|]; [|by intros; inv_run; auto].
  destruct (is_admin role); cbn [negb]; [|by intros; inv_run].
  intros (r & w1 & [Hq Hd]%wrap_ok%query_ok & H)%bind_ok. cbv beta in H.
  destruct (nodes (w_db w) !! _) as [n|] eqn:Hn; [|done]. injection Hq as <-.
  destruct (_ || _) eqn:Hb; inv_run. split; [done|]. right. exists ram, n.
  breflect. done.
Qed.

Lemma set_flags_ok role server req f :
  set_flags role server req = Ok f ->
  f = id \/ exists flags, f = server_with_LaunchFlags flags /\ good_flags flags
    /\ (is_admin role = false ->
        forall g, g ∈ AdminOnlyLaunchFlags -> g ∈ flags <-> g ∈ server_LaunchFlags server).
Proof.
  unfold set_flags. destruct (usr_LaunchFlags req) as [fs|]; [|intros [= <-]; by left].
  destruct (normalizeLaunchFlags fs) as [flags|e] eqn:Hn; [|done].
  destruct (_ && _) eqn:Hb; [done|]. intros [= <-]. right. exists flags.
  split_and!; [done | eapply normalize_loop_good; [exact Hn | split; [constructor | set_solver]]|].
  intros Ha. rewrite Ha in Hb. cbn [negb andb] in Hb. intros g Hg.
  assert (Hx : negb (Bool.eqb (contains flags g) (contains (server_LaunchFlags server) g)) = false).
  { apply not_true_is_false. intros Ht. apply not_true_iff_false in Hb. apply Hb.
    apply existsb_elem. eauto. }
  apply negb_false_iff, eqb_prop in Hx. rewrite <- !contains_spec. by rewrite Hx.
Qed.

Lemma set_account_ok role server req f :
  set_account role server req = Ok f ->
  f = id \/ exists b, f = server_with_UseHytaleAccount b
    /\ (is_admin role = false -> b = true -> server_UseHytaleAccount server = true).
Proof.
  unfold set_account. destruct (usr_UseHytaleAccount req) as [b|]; [|intros [= <-]; by left].
  destruct (_ && _) eqn:Hb; [done|]. intros [= <-]. right. exists b. split; [done|].
  intros Ha ->. rewrite Ha in Hb. by destruct (server_UseHytaleAccount server).
Qed.

(** The change an update may make to a row. *)
Definition permitted_update (d : DB) (role : string) (old new : Server) : Prop :=
  server_checks new = Ok tt
  /\ server_OwnerID new = server_OwnerID old /\ server_NodeID new = server_NodeID old
  /\ server_Port new = server_Port old
  /\ (server_LaunchFlags new = server_LaunchFlags old \/ good_flags (server_LaunchFlags new))
  /\ (server_RAMLimitMB new = server_RAMLimitMB old
      \/ exists n, nodes d !! server_NodeID old = Some n
           /\ MinServerRAMMB <= server_RAMLimitMB new <= node_TotalRAMMB n)
  /\ (is_admin role = false ->
      server_RAMLimitMB new = server_RAMLimitMB old
      /\ (forall g, g ∈ AdminOnlyLaunchFlags ->
            g ∈ server_LaunchFlags new <-> g ∈ server_LaunchFlags old)
      /\ (server_UseHytaleAccount new = true -> server_UseHytaleAccount old = true)).

(** The assignments together. *)
Lemma setters_permitted d role old req f1 f2 f3 f4 f5 f6 t :
  (forall s, guarded (f1 s) = guarded s) -> (forall s, guarded (f2 s) = guarded s) ->
  (forall s, guarded (f3 s) = guarded s) ->
  (f4 = id \/ exists ram n, f4 = server_with_RAMLimitMB ram /\ is_admin role = true
     /\ nodes d !! server_NodeID old = Some n /\ MinServerRAMMB <= ram <= node_TotalRAMMB n) ->
  set_flags role old req = Ok f5 -> set_account role old req = Ok f6 ->
  let new := f6 (f5 (f4 (f3 (f2 (f1 (server_with_UpdatedAt t old)))))) in
  server_checks new = Ok tt -> permitted_update d role old new.
Proof.
  intros H1 H2 H3 H4 H5%set_flags_ok H6%set_account_ok.
  assert (Hg : guarded (f3 (f2 (f1 (server_with_UpdatedAt t old)))) = guarded old)
    by by rewrite H3, H2, H1.
  remember (f3 (f2 (f1 (server_with_UpdatedAt t old)))) as s0 eqn:E. clear E.
  unfold guarded in Hg. injection Hg as Ho Hn Hp Hr Hf Ha. cbv zeta. intros Hc. split; [exact Hc|]. clear Hc.
  destruct H4 as [-> | (ram & n & -> & Had & Hnode & Hram)],
    H5 as [-> | (flags & -> & Hgood & Hfl)], H6 as [-> | (b & -> & Hb)];
    unfold id; cbn [server_OwnerID server_NodeID server_Port server_LaunchFlags server_RAMLimitMB
      server_UseHytaleAccount server_with_RAMLimitMB server_with_LaunchFlags
      server_with_UseHytaleAccount];
    rewrite ?Ho, ?Hn, ?Hp, ?Hr, ?Hf, ?Ha; split_and!; eauto;
    try (by intros Hx; rewrite Hx in Had); intros Hx; split_and!; auto.
Qed.

Lemma lift_ok {A} (r : res error A) w a w' : lift r w = (Ok a, w') -> r = Ok a /\ w' = w.
Proof. destruct r; intros; simpl in *; inv_run; done. Qed.

Lemma lift_inv {A} (r : res error A) w r' w' : lift r w = (r', w') -> w' = w.
Proof. destruct r; intros H; [by apply ret_inv in H as [_ ->] | by apply fail_inv in H as [_ ->]]. Qed.

(** The statements of UpdateServer before the UPDATE leave the database alone. *)
Lemma set_ram_reads role server req I : preserves I (set_ram role server req).
Proof. unfold set_ram. solve_preserves. Qed.

Lemma GetServer_reads sid uid role I : preserves I (GetServer sid uid role).
Proof. unfold GetServer. solve_preserves. Qed.

Lemma lift_reads {A} (r : res error A) I : preserves I (lift r).
Proof. unfold lift. solve_preserves. Qed.

(** A method that only reads leaves the database as it was. *)
Lemma reads_same {A} (m : M A) w r w' :
  (forall I, preserves I m) -> m w = (r, w') -> w_db w' = w_db w.
Proof.
  intros Hm E. specialize (Hm (fun d => d = w_db w) w eq_refl). by rewrite E in Hm.
Qed.

Lemma update_server_ok sid f d d' :
  update_server sid f d = Ok (tt, d') ->
  d' = d \/ exists s, servers d !! sid = Some s /\ server_checks (f s) = Ok tt
            /\ d' = with_servers (<[sid := f s]> (servers d)) d.
Proof.
  unfold update_server. destruct (servers d !! sid) as [s|]; [|intros [= <-]; by left].
  destruct (server_checks (f s)) as [[]|e] eqn:Hc; [|done]. intros [= <-]. right. eauto.
Qed.

(** A reading statement fails, and nothing was written, or it succeeds. *)
Lemma bind_reads {A B} (m : M A) (k : A -> M B) w r w' :
  (forall I, preserves I m) -> bind m k w = (r, w') ->
  w_db w' = w_db w \/ exists a w1, m w = (Ok a, w1) /\ w_db w1 = w_db w /\ k a w1 = (r, w').
Proof.
  intros Hm [(a & w1 & H1 & H)|(e & H & ->)]%bind_inv.
  - right. exists a, w1. split_and!; [done | by eapply reads_same | done].
  - left. by eapply reads_same.
Qed.

(** C8. UpdateServer changes one row, and only for the owner of the server or
    panel staff.  Owner, node and port never change; the stored flags are
    allowed flags without duplicates; a new RAM limit is between 512 MB and
    the node's memory; and a caller who is not staff can change neither the
    RAM limit nor whether the server runs with an admin-only flag, and cannot
    switch the linked game account on.  Every other outcome, errors and
    database faults included, leaves the database as it was. *)
Theorem update_no_escalation (sid uid : uuid) (role : string) (req : UpdateServerRequest)
    (w w' : World) (r : res error Server) :
  UpdateServer sid uid role req w = (r, w') ->
  w_db w' = w_db w \/
  exists old new, servers (w_db w) !! sid = Some old
    /\ w_db w' = with_servers (<[sid := new]> (servers (w_db w))) (w_db w)
    /\ (is_admin role = true \/ server_OwnerID old = uid)
    /\ permitted_update (w_db w) role old new.
Proof.
  unfold UpdateServer. intros H.
  apply bind_reads in H as [?|(sv & w1 & [Hv _]%GetServer_ok & Hd1 & H)];
    [by left | |intros; apply GetServer_reads].
  unfold server_view in Hv. destruct (servers (w_db w) !! sid) as [old|] eqn:Hold; [|done].
  destruct (visible_server _ _ _ _); [|done]. injection Hv as <-. rewrite <- Hd1 in *.
  destruct (_ && _) eqn:Hown; [apply fail_inv in H as [_ ->]; by left|].
  apply bind_reads in H as [?|(f1 & w2 & [H1 ->]%lift_ok & _ & H)]; [by left | |intros; apply lift_reads].
  apply bind_reads in H as [?|(f3 & w2 & [H3 ->]%lift_ok & _ & H)]; [by left | |intros; apply lift_reads].
  apply bind_reads in H as [?|(f4 & w4 & [_ H4]%set_ram_ok & Hd4 & H)];
    [by left | |intros; apply set_ram_reads]. rewrite <- Hd4 in *.
  apply bind_reads in H as [?|(f5 & w5 & [H5 ->]%lift_ok & _ & H)]; [by left | |intros; apply lift_reads].
  apply bind_reads in H as [?|(f6 & w6 & [H6 ->]%lift_ok & _ & H)]; [by left | |intros; apply lift_reads].
  apply bind_reads in H as [?|(t & w7 & [_ ->]%now_inv & _ & H)]; [by left | |intros; apply preserves_now].
  apply bind_inv in H as [([] & w8 & Hu%wrap_ok%exec_ok%update_server_ok & H%reads_same)|(e & H & _)];
    [|intros; apply GetServer_reads|].
  - rewrite H. destruct Hu as [?|(s & Hs & Hc & Hw)]; [by left|].
    assert (s = old) as -> by congruence. right. eexists old, _.
    split_and!; [done | exact Hw | apply andb_false_iff in Hown as [Hx|Hx]; apply negb_false_iff in Hx;
      [by left | right; by apply N.eqb_eq] |].
    eapply setters_permitted; [.. | exact Hc];
      [intros; by eapply set_name_ok | |intros; by eapply set_crash_limit_ok | exact H4 | exact H5 | exact H6].
    by destruct (usr_AutoRestart req).
  - apply wrap_inv in H as [(? & ? & _)|(e' & _ & H)]; [done|].
    apply exec_inv in H as (_ & _ & _ & _ & [(? & ? & ? & _)|(? & _ & ? & _)]); [done | by left].
Qed.

(** The owner (who is not staff) renames the server and sets flags. *)
Definition owner_request : UpdateServerRequest :=
  mkUpdateServerRequest (Some " lobby ") None None None (Some ["--disable-sentry"; "--disable-sentry"]) None.

Lemma update_no_escalation_witness :
  exists old new, servers farm_db !! 4%N = Some old /\ permitted_update farm_db RoleUser old new
    /\ server_Name new = "lobby" /\ server_LaunchFlags new = ["--disable-sentry"].
Proof.
  destruct (UpdateServer 4 5 RoleUser owner_request farm_world) as [r w'] eqn:E.
  assert (Hn : (fun s => (server_Name s, server_LaunchFlags s)) <$> servers (w_db w') !! 4%N
               = Some ("lobby", ["--disable-sentry"])).
  { change w' with (snd (r, w')). rewrite <- E. by vm_compute. }
  destruct (update_no_escalation 4 5 RoleUser owner_request farm_world w' r E)
    as [Hd|(old & new & Ho & Hd & _ & Hp)].
  - rewrite Hd in Hn. by vm_compute in Hn.
  - exists old, new. rewrite Hd in Hn. cbn [servers with_servers] in Hn.
    rewrite lookup_insert_eq in Hn. simpl in Hn. injection Hn as H1 H2.
    split_and!; [exact Ho | exact Hp | exact H1 | exact H2].
Defined.

(** ** Theorems: placement *)

Definition eligible (d : DB) (kv : uuid * Node) : Prop :=
  nodes d !! fst kv = Some (snd kv) /\ node_Status (snd kv) = "online"
  /\ Z.of_nat (active_on d (fst kv)) < node_MaxServers (snd kv).

Lemma eligible_elem d kv :
  eligible d kv <->
  kv ∈ List.filter (fun kv => String.eqb (node_Status (snd kv)) "online"
                   && (Z.of_nat (active_on d (fst kv)) <? node_MaxServers (snd kv)))
         (map_to_list (nodes d)).
Proof.
  destruct kv as [id n]. unfold eligible. cbn [fst snd].
  rewrite list_elem_of_In, filter_In, <- list_elem_of_In, elem_of_map_to_list. cbn [fst snd].
  rewrite andb_true_iff, String.eqb_eq, Z.ltb_lt. done.
Qed.

Definition load_le (d : DB) (a b : uuid * Node) : bool :=
  Qle_bool (node_load d (fst a)) (node_load d (fst b)).

(** The chosen node is eligible and no eligible node carries less. *)
Lemma select_node_ok d id :
  select_node d = Ok id ->
  exists n, eligible d (id, n)
    /\ forall id' n', eligible d (id', n') -> (node_load d id <= node_load d id')%Q.
Proof.
  unfold select_node. fold (load_le d). destruct (order_by _ _) as [|[i n] l] eqn:E; [done|].
  intros [= ->]. exists n. split.
  - apply eligible_elem. rewrite <- (order_by_perm (load_le d)), E. set_solver.
  - intros id' n' He%eligible_elem. apply Qle_bool_iff.
    apply (order_by_head (load_le d) _ _ _ (id', n')) in E; [exact E | | |exact He]; unfold load_le.
    + intros a b Hab. destruct (Qlt_le_dec (node_load d (fst b)) (node_load d (fst a))) as [Hl|Hl].
      * by apply Qle_bool_iff, Qlt_le_weak.
      * apply Qle_bool_iff in Hl. congruence.
    + intros a b c. rewrite !Qle_bool_iff. apply Qle_trans.
Qed.

Lemma select_node_err d e :
  select_node d = Err e -> e = ErrNoRows /\ forall kv, ~ eligible d kv.
Proof.
  unfold select_node. destruct (order_by _ _) as [|[i n] l] eqn:E; [|done]. intros [= <-].
  split; [done|]. intros kv He%eligible_elem. erewrite <- order_by_perm in He.
  erewrite E in He. set_solver.
Qed.

Lemma next_port_min d node : 5520 <= next_port d node.
Proof. unfold next_port. induction (rows _ _); simpl; lia. Qed.

Lemma next_port_bound d node i s :
  servers d !! i = Some s -> server_NodeID s = node -> server_Port s < next_port d node.
Proof.
  intros Hi Hn. unfold next_port. destruct (5520 <=? server_Port s) eqn:Hp.
  - assert (Hin : s ∈ rows (servers d) (fun s => (server_NodeID s =? node)%N && (5520 <=? server_Port s))).
    { unfold rows. rewrite list_elem_of_In, filter_In, <- list_elem_of_In. split.
      - apply list_elem_of_fmap. exists (i, s). split; [done|]. by apply elem_of_map_to_list.
      - rewrite Hp. subst node. by rewrite N.eqb_refl. }
    revert Hin. generalize (rows (servers d) (fun s => (server_NodeID s =? node)%N && (5520 <=? server_Port s))).
    intros l Hin. clear - Hin. induction Hin as [l|y l Hin IH]; simpl in *; lia.
  - pose proof (next_port_min d node). unfold next_port in *. breflect. lia.
Qed.

Lemma place_server_ok w node port w' :
  place_server w = (Ok (node, port), w') ->
  w_db w' = w_db w /\ select_node (w_db w) = Ok node /\ port = next_port (w_db w) node.
Proof.
  unfold place_server. intros (r & w1 & (r' & [= ->] & H1)%attempt_inv & H)%bind_ok. cbv beta in H.
  destruct r' as [id|e]; [|by case_ifs; inv_run]. apply query_ok in H1 as [Hs Hd].
  apply bind_ok in H as (p & w2 & [Hp Hd2]%wrap_ok%query_ok & [H ->]%ret_inv).
  injection H as -> ->. injection Hp as <-. rewrite Hd2, Hd. done.
Qed.

Lemma place_server_reads I : preserves I place_server.
Proof. unfold place_server. solve_preserves. Qed.

Lemma place_server_none w :
  healthy w -> (forall kv, ~ eligible (w_db w) kv) -> place_server w = (Err ErrNoAvailableNode, w).
Proof.
  intros Hw Hno. unfold place_server.
  erewrite bind_run by (apply attempt_run, query_healthy; done). cbv beta iota.
  destruct (select_node (w_db w)) as [id|e] eqn:E.
  - apply select_node_ok in E as (n & Hel & _). by apply Hno in Hel.
  - apply select_node_err in E as [-> _]. done.
Qed.

Lemma insert_placed_err req owner node port w e w' :
  insert_placed req owner node port w = (Err e, w') -> w_db w' = w_db w.
Proof.
  unfold insert_placed. intros [(id & w1 & (_ & Hd & _)%rand_inv & H)|(e' & H & _)]%bind_inv;
    [|by apply rand_inv in H as (? & _)].
  apply bind_inv in H as [(t & w2 & [_ ->]%now_inv & H)|(e' & H & _)]; [|by apply now_inv in H as [? _]].
  apply wrap_inv in H as [(? & ? & _)|(e' & _ & H)]; [done|].
  apply exec_inv in H as (_ & _ & _ & _ & [(? & ? & ? & _)|(? & _ & ? & _)]); [done | congruence].
Qed.

Lemma insert_server_ok s d sv d' :
  insert_server s d = Ok (sv, d') ->
  sv = scan_server s /\ d' = with_servers (<[server_ID s := s]> (servers d)) d
  /\ servers d !! server_ID s = None /\ server_checks s = Ok tt
  /\ is_Some (nodes d !! server_NodeID s) /\ is_Some (users d !! server_OwnerID s).
Proof.
  unfold insert_server. destruct (server_checks s) as [[]|e]; [|done].
  destruct (bool_decide (nodes _ !! _ = None)) eqn:Hn; [done|].
  destruct (bool_decide (users _ !! _ = None)) eqn:Hu; [done|].
  destruct (insert_row _ _ _) as [t|e] eqn:Hi; [|done]. intros [= <- <-].
  apply insert_row_ok in Hi as [Hnone ->]. breflect.
  split_and!; [done.. | by apply not_eq_None_Some | by apply not_eq_None_Some].
Qed.

Lemma server_checks_port s : server_checks s = Ok tt -> 1024 <= server_Port s <= 65535.
Proof.
  unfold server_checks. destruct (in_range 1 100 _); [|done]. cbn [negb].
  destruct (in_range 1024 65535 (server_Port s)) eqn:E; [|done]. intros _.
  unfold in_range in E. breflect. lia.
Qed.

(** A created server goes to an online node with a free slot, the least
    loaded of those, on a port from 5520 up that no server of that node uses;
    it starts as "installing", belongs to the caller and nothing else in the
    database changes.  A refused request changes nothing, and without faults
    and without an online node with a free slot the answer is "no available
    node". *)
Theorem create_server_placement `{Unicode} (req : CreateServerRequest) (owner : uuid)
    (w w' : World) (r : res error Server) :
  CreateServer req owner w = (r, w') ->
  match r with
  | Ok sv =>
    exists id row n, sv = scan_server row /\ server_ID row = id
      /\ servers (w_db w) !! id = None
      /\ w_db w' = with_servers (<[id := row]> (servers (w_db w))) (w_db w)
      /\ eligible (w_db w) (server_NodeID row, n)
      /\ (forall id' n', eligible (w_db w) (id', n') ->
            (node_load (w_db w) (server_NodeID row) <= node_load (w_db w) id')%Q)
      /\ 5520 <= server_Port row <= 65535
      /\ (forall i s, servers (w_db w) !! i = Some s ->
            server_NodeID s = server_NodeID row -> server_Port s <> server_Port row)
      /\ server_OwnerID row = owner /\ server_Status row = StatusInstalling
      /\ 0 < server_RAMLimitMB row
  | Err e =>
    w_db w' = w_db w
    /\ (healthy w -> (forall kv, ~ eligible (w_db w) kv) ->
        is_ok (normalize_request req) = true -> e = ErrNoAvailableNode)
  end.
Proof.
  unfold CreateServer. intros H0.
  destruct (normalize_request req) as [req'|e0] eqn:Hreq;
    [|apply fail_inv in H0 as [-> ->]; split; [done | by intros]].
  destruct r as [sv|e].
  - apply bind_ok in H0 as ([node port] & w1 & (Hd & Hsel & ->)%place_server_ok & H0).
    apply bind_ok in H0 as (id & w2 & (_ & Hd2 & _)%rand_inv & H0).
    apply bind_ok in H0 as (t & w3 & [_ ->]%now_inv & H0%wrap_ok%exec_ok).
    apply insert_server_ok in H0 as (-> & Hdb & Hnone & Hc & _). rewrite Hd2, Hd in *.
    apply select_node_ok in Hsel as (n & Hel & Hleast).
    remember (mkServer id _ _ _ _ _ _ _ _ _ _ _ _ _ _ _ _ _ _ _ _ _ _ _) as row eqn:Erow.
    pose proof (server_checks_port _ Hc). exists (server_ID row), row, n.
    assert (server_NodeID row = node /\ server_Port row = next_port (w_db w) node
            /\ server_OwnerID row = owner /\ server_Status row = StatusInstalling
            /\ server_RAMLimitMB row = csr_RAMLimitMB req') as (-> & Hp & -> & -> & ->) by by subst row.
    pose proof (next_port_min (w_db w) node). rewrite Hp in *.
    split_and!; [done | done | done | exact Hdb | exact Hel | exact Hleast | lia | lia | | done | done |].
    + intros i s Hi Hn. pose proof (next_port_bound _ _ _ _ Hi Hn). lia.
    + clear - Hreq. unfold normalize_request in Hreq. case_ifs; simplify_eq; simpl; breflect; lia.
  - apply bind_inv in H0 as [([node port] & w1 & (Hd & Hsel & _)%place_server_ok & H0)|(e' & H0 & [= <-])].
    + apply insert_placed_err in H0. split; [congruence|]. intros _ Hno.
      apply select_node_ok in Hsel as (n & Hel & _). by apply Hno in Hel.
    + split; [eapply reads_same; [|exact H0]; intros; apply place_server_reads|].
      intros Hw Hno _. rewrite place_server_none in H0 by done. congruence.
Qed.

Definition sample_request : CreateServerRequest :=
  mkCreateServerRequest "arena" "latest" 0 2048 10240 true "".

Lemma create_server_placement_witness :
  exists row, servers farm_db !! server_ID row = None
    /\ (exists n, eligible farm_db (server_NodeID row, n)) /\ 5520 <= server_Port row <= 65535
    /\ server_OwnerID row = 5%N.
Proof.
  destruct (CreateServer (U := ascii_tables) sample_request 5 farm_world) as [[sv|e] w'] eqn:E.
  - destruct (create_server_placement (H := ascii_tables) sample_request 5 farm_world w' (Ok sv) E)
      as (id & row & n & _ & <- & Hnone & _ & Hel & _ & Hp & _ & Ho & _).
    exists row. split_and!; [exact Hnone | exists n; exact Hel | apply Hp | apply Hp | exact Ho].
  - apply (f_equal (fun x => is_ok (fst x))) in E. vm_compute in E. done.
Defined.

(** Choosing the port and inserting the row are separate statements and
    nothing makes (node, port) unique: two requests that both place their
    server before either inserts end up on the same port of the same node. *)
Theorem create_race_same_port :
  exists w1 w2 p1 p2 s1 w3 s2 w4,
    place_server farm_world = (Ok p1, w1) /\ place_server w1 = (Ok p2, w2)
    /\ insert_placed sample_request 5 (fst p1) (snd p1) w2 = (Ok s1, w3)
    /\ insert_placed sample_request 5 (fst p2) (snd p2) w3 = (Ok s2, w4)
    /\ server_NodeID s1 = server_NodeID s2 /\ server_Port s1 = server_Port s2
    /\ server_ID s1 <> server_ID s2
    /\ is_Some (servers (w_db w4) !! server_ID s1) /\ is_Some (servers (w_db w4) !! server_ID s2).
Proof.
  do 8 eexists. split_and!; try (vm_compute; reflexivity); [done | vm_compute; eauto..].
Qed.

(** A migration keeps the server's port, and nothing compares it with the
    ports of the target node: after an accepted migration two servers of one
    node can have the same port. *)
Theorem migration_port_clash :
  exists src w1 w2 a b,
    MigratePreflight RoleAdmin 4 10 farm_world = (Ok src, w1)
    /\ CompleteMigration 4 10 w1 = (Ok tt, w2)
    /\ servers (w_db w2) !! 4%N = Some a /\ servers (w_db w2) !! 7%N = Some b
    /\ server_NodeID a = server_NodeID b /\ server_Port a = server_Port b.
Proof. repeat eexists; vm_compute; reflexivity. Qed.

(** ** Theorems: logs *)

(** The database with more log lines. *)
Definition logged (sid : uuid) (lines : list LogLineInput) (d : DB) : DB :=
  with_server_logs (server_logs d ++ map (log_row sid) lines) d.

Lemma logged_nil sid d : logged sid [] d = d.
Proof. unfold logged. simpl. rewrite app_nil_r. by destruct d. Qed.

Lemma logged_app sid l1 l2 d : logged sid l2 (logged sid l1 d) = logged sid (l1 ++ l2) d.
Proof. unfold logged. rewrite map_app, app_assoc. by destruct d. Qed.

Lemma insertLogChunk_inv sid lines w r w' :
  insertLogChunk sid lines w = (r, w') ->
  (r = Ok tt /\ w_db w' = logged sid lines (w_db w)) \/ (is_ok r = false /\ w_db w' = w_db w).
Proof.
  unfold insertLogChunk. intros [([] & -> & H)|(e & -> & H)]%wrap_inv.
  - left. split; [done|]. apply exec_ok in H. case_ifs; simplify_eq; unfold logged; congruence.
  - right. apply exec_inv in H as (_ & _ & _ & _ & [(? & ? & ? & _)|(? & _ & ? & _)]); done.
Qed.

(** Lines the table takes for a server: it exists and levels fit the column. *)
Definition storable (sid : uuid) (lines : list LogLineInput) (d : DB) : bool :=
  negb (bool_decide (servers d !! sid = None))
  && forallb (fun l => RuneCount (slog_Level (log_row sid l)) <=? 10) lines.

Lemma insertLogChunk_healthy sid lines w :
  healthy w -> storable sid lines (w_db w) = true ->
  insertLogChunk sid lines w = (Ok tt, with_db (logged sid lines (w_db w)) w).
Proof.
  intros Hw [Hs Hl]%andb_true_iff. unfold insertLogChunk. apply wrap_run_ok.
  apply exec_healthy_ok; [done|]. apply negb_true_iff in Hs. rewrite Hs.
  destruct (existsb _ _) eqn:Ex; [|done].
  apply existsb_elem in Ex as (l & Hin & Hlt). rewrite forallb_elem in Hl. apply Hl in Hin.
  breflect. lia.
Qed.

Lemma ingest_loop_inv fuel sid lines w r w' :
  (length lines <= fuel)%nat -> ingest_loop fuel sid lines w = (r, w') ->
  exists n, w_db w' = logged sid (take n lines) (w_db w)
    /\ (is_ok r = true -> (length lines <= n)%nat)
    /\ (is_ok r = false -> exists k, n = (k * logInsertChunk)%nat).
Proof.
  revert lines w. induction fuel as [|fuel IH]; intros lines w Hf H.
  - destruct lines; [|simpl in Hf; lia]. apply ret_inv in H as [-> ->]. exists 0%nat.
    split_and!; [by rewrite logged_nil | simpl; lia | done].
  - destruct lines as [|x lines].
    { apply ret_inv in H as [-> ->]. exists 0%nat. split_and!; [by rewrite logged_nil | simpl; lia | done]. }
    cbn [ingest_loop] in H. remember (x :: lines) as l eqn:El.
    assert (Hpos : (0 < length l)%nat) by (subst l; simpl; lia). clear El.
    apply bind_inv in H as [([] & w1 & H1 & H)|(e & H & ->)].
    + apply insertLogChunk_inv in H1 as [[_ Hd]|[? _]]; [|done].
      apply IH in H as (n & Hn & Hok & Herr); [|rewrite length_drop; unfold logInsertChunk; lia].
      exists (logInsertChunk + n)%nat. split_and!.
      * rewrite Hn, Hd, logged_app. by rewrite take_take_drop.
      * intros Hr. apply Hok in Hr. rewrite length_drop in Hr. lia.
      * intros Hr. apply Herr in Hr as [k ->]. exists (S k). lia.
    + apply insertLogChunk_inv in H as [[? _]|[_ Hd]]; [done|]. exists 0%nat.
      split_and!; [by rewrite logged_nil | done | by exists 0%nat].
Qed.

Lemma ingest_loop_healthy fuel sid lines w :
  (length lines <= fuel)%nat -> healthy w -> storable sid lines (w_db w) = true ->
  is_ok (fst (ingest_loop fuel sid lines w)) = true.
Proof.
  revert lines w. induction fuel as [|fuel IH]; intros lines w Hf Hw Hs.
  - destruct lines; [done | simpl in Hf; lia].
  - destruct lines as [|x lines]; [done|]. cbn [ingest_loop]. remember (x :: lines) as l eqn:El.
    assert (Hpos : (0 < length l)%nat) by (subst l; simpl; lia). clear El.
    unfold storable in Hs. apply andb_true_iff in Hs as [Hs Hl]. rewrite <- (take_drop logInsertChunk l) in Hl.
    rewrite forallb_app in Hl. apply andb_true_iff in Hl as [Hl1 Hl2].
    erewrite bind_run by (apply insertLogChunk_healthy; [done|]; unfold storable; by rewrite Hs, Hl1).
    cbv beta iota. apply IH; [rewrite length_drop; unfold logInsertChunk; lia | done|].
    unfold storable. cbn [w_db with_db logged servers with_server_logs]. by rewrite Hs, Hl2.
Qed.

(** Log lines are stored in order and in whole chunks of 1000: a failed call
    has stored a prefix made of complete chunks and nothing else, a successful
    one every line, and without faults the lines of an existing server whose
    levels fit the column are all stored. *)
Theorem ingest_logs_chunks (sid : uuid) (lines : list LogLineInput) (w w' : World) (r : res error unit) :
  IngestLogs sid lines w = (r, w') ->
  (exists n, w_db w' = logged sid (take n lines) (w_db w)
     /\ (is_ok r = true -> (length lines <= n)%nat)
     /\ (is_ok r = false -> exists k, n = (k * logInsertChunk)%nat))
  /\ (healthy w -> storable sid lines (w_db w) = true -> is_ok r = true).
Proof.
  intros H. split; [by eapply ingest_loop_inv|]. intros Hw Hs.
  pose proof (ingest_loop_healthy (length lines) sid lines w (Nat.le_refl _) Hw Hs) as Hr.
  unfold IngestLogs in H. by rewrite H in Hr.
Qed.

Definition many_lines : list LogLineInput := repeat (mkLogLineInput 7 "" "tick") 2500.

(** The second of three chunks meets a fault: the first one stays. *)
Lemma ingest_logs_chunks_witness :
  exists k, server_logs (w_db (snd (IngestLogs 4 many_lines (with_faults [false; true] farm_world))))
            = map (log_row 4) (take (k * logInsertChunk) many_lines).
Proof.
  destruct (IngestLogs 4 many_lines (with_faults [false; true] farm_world)) as [r w'] eqn:E.
  destruct (ingest_logs_chunks 4 many_lines _ w' r E) as [(n & Hd & _ & Herr) _].
  destruct Herr as [k ->].
  { change r with (fst (r, w')). rewrite <- E. vm_compute. reflexivity. }
  exists k. cbn [snd]. rewrite Hd. reflexivity.
Defined.

(** ** Theorems: console *)

(** A line the console takes: no line break and no other control character,
    so it is one command for the game server. *)
Definition one_line (cmd : string) : bool :=
  forallb (fun r => negb (IsControl (rune_val r))) (runes cmd).

Lemma one_line_spec cmd :
  existsb (fun r => IsControl (rune_val r)) (runes cmd) = negb (one_line cmd).
Proof.
  unfold one_line. induction (runes cmd) as [|x l IH]; simpl; [done|].
  rewrite IH, negb_andb, negb_involutive. done.
Qed.

Lemma queue_line_inv node sid cmd w r w' :
  queue_line node sid cmd w = (r, w') ->
  (is_ok r = false /\ w_db w' = w_db w) \/
  (r = Ok tt /\ exists id t, w_db w' = with_node_commands (node_commands (w_db w) ++
     [mkNodeCommand id node (Some sid) "send_command" [("cmd", cmd)] "pending" t None]) (w_db w)).
Proof.
  unfold queue_line. intros [(id & w1 & (_ & Hd & _)%rand_inv & H)|(e & H & ->)]%bind_inv;
    [|by apply rand_inv in H as (? & _)].
  apply bind_inv in H as [(t & w2 & [_ ->]%now_inv & H)|(e' & H & _)]; [|by apply now_inv in H as [? _]].
  apply exec_inv in H as (_ & _ & _ & _ & [([] & d & -> & Hq & Hd')|(e & -> & Hd' & _)]).
  - right. split; [done|]. exists id, t. rewrite Hd', <- Hd. unfold enqueue_node_command in Hq.
    case_ifs; simplify_eq. done.
  - left. split; [done | congruence].
Qed.

Lemma queue_line_healthy node sid cmd w :
  healthy w -> is_Some (nodes (w_db w) !! node) -> is_Some (servers (w_db w) !! sid) ->
  exists w', queue_line node sid cmd w = (Ok tt, w').
Proof.
  intros Hw [n Hn] [sv Hsv]. eexists. unfold queue_line.
  erewrite bind_run by reflexivity. cbv beta iota. erewrite bind_run by reflexivity. cbv beta iota.
  apply exec_healthy_ok; [done|]. unfold enqueue_node_command. simpl. by rewrite Hn, Hsv.
Qed.

(** What sending a console command does. *)
Lemma SendConsoleCommand_inv sid cmd w r w' :
  SendConsoleCommand sid cmd w = (r, w') ->
  (is_ok r = false /\ w_db w' = w_db w) \/
  (r = Ok tt /\ one_line cmd = true /\ exists sv id t, servers (w_db w) !! sid = Some sv
     /\ w_db w' = with_node_commands (node_commands (w_db w) ++
          [mkNodeCommand id (server_NodeID sv) (Some sid) "send_command" [("cmd", cmd)] "pending" t None])
          (w_db w)).
Proof.
  unfold SendConsoleCommand. rewrite one_line_spec. intros H.
  destruct (one_line cmd); cbn [negb] in H; [|apply fail_inv in H as [-> ->]; by left].
  apply bind_inv in H as [(r1 & w1 & (r' & [= ->] & H1)%attempt_inv & H)|(e & (r' & ? & _)%attempt_inv & _)];
    [|done].
  apply query_inv in H1 as (Hd & _ & _ & _ & _ & Hr).
  destruct r' as [node|e]; [|left; case_ifs; apply fail_inv in H as [-> ->]; done].
  destruct Hr as [|Hr]; [done|]. destruct (servers (w_db w) !! sid) as [sv|]; [|done].
  injection Hr as ->.
  apply wrap_inv in H as [([] & -> & H)|(e & -> & H)];
    apply queue_line_inv in H as [[? Hd']|(? & id & t & Hd')]; try done; [right | left; split; [done | congruence]].
  split_and!; [done.. |]. exists sv, id, t. rewrite <- Hd. done.
Qed.

(** A console command is queued only when it is a single line without
    control characters, once, unchanged, and for the node that hosts the
    server; a refused or failed command queues nothing; without faults every
    single line for an existing server is queued. *)
Theorem console_single_line (sid : uuid) (cmd : string) (w w' : World) (r : res error unit) :
  SendConsoleCommand sid cmd w = (r, w') ->
  ((is_ok r = false /\ w_db w' = w_db w) \/
   (r = Ok tt /\ one_line cmd = true /\ exists sv id t, servers (w_db w) !! sid = Some sv
      /\ w_db w' = with_node_commands (node_commands (w_db w) ++
           [mkNodeCommand id (server_NodeID sv) (Some sid) "send_command" [("cmd", cmd)] "pending" t None])
           (w_db w)))
  /\ (one_line cmd = false -> r = Err ErrInvalidConsoleCommand)
  /\ (healthy w -> one_line cmd = true ->
      (exists sv, servers (w_db w) !! sid = Some sv /\ is_Some (nodes (w_db w) !! server_NodeID sv)) ->
      r = Ok tt).
Proof.
  intros H. split_and!; [by apply SendConsoleCommand_inv | |]; unfold SendConsoleCommand in H; rewrite one_line_spec in H.
  - intros Hl. rewrite Hl in H. by apply fail_inv in H as [-> _].
  - intros Hw Hl (sv & Hsv & n & Hn). rewrite Hl in H. cbn [negb] in H.
    erewrite bind_run in H by (apply attempt_run, query_healthy; done). rewrite Hsv in H. cbv beta iota in H.
    destruct (queue_line_healthy (server_NodeID sv) sid cmd w Hw) as [w2 E]; [eauto..|].
    rewrite (wrap_run_ok _ _ _ _ _ E) in H. by injection H as <- _.
Qed.

Lemma console_single_line_witness :
  fst (SendConsoleCommand 4 ("say hi" +:+ String (Ascii.ascii_of_nat 10) "op mallory") farm_world)
  = Err ErrInvalidConsoleCommand
  /\ fst (SendConsoleCommand 4 "say hi" farm_world) = Ok tt.
Proof.
  split.
  - destruct (SendConsoleCommand 4 _ farm_world) as [r w'] eqn:E.
    destruct (console_single_line 4 _ farm_world w' r E) as (_ & H & _). apply H. by vm_compute.
  - destruct (SendConsoleCommand 4 "say hi" farm_world) as [r w'] eqn:E.
    destruct (console_single_line 4 _ farm_world w' r E) as (_ & _ & H).
    apply H; [done | by vm_compute | by exists (sample_server 4 9 5)].
Defined.

(** ** Theorems: migration *)

(** A server that moves adds one to the count of its new node. *)
Lemma hosted_moved d sid s target :
  servers d !! sid = Some s -> server_NodeID s <> target ->
  hosted_on (with_servers (<[sid := server_with_NodeID target s]> (servers d)) d) target
  = S (hosted_on d target).
Proof.
  intros Hs Hn. unfold hosted_on, count_rows. cbn [servers with_servers].
  rewrite <- (insert_delete_id (servers d) sid s Hs) at 2.
  rewrite <- insert_delete_eq.
  rewrite !rows_insert by apply lookup_delete_eq.
  cbn [server_NodeID server_with_NodeID]. rewrite N.eqb_refl.
  apply N.eqb_neq in Hn. by rewrite Hn.
Qed.

Lemma MigratePreflight_ok role sid target w src w' :
  MigratePreflight role sid target w = (Ok src, w') ->
  w_db w' = w_db w /\ is_admin role = true
  /\ exists s n, servers (w_db w) !! sid = Some s /\ nodes (w_db w) !! target = Some n
       /\ server_Status s = "stopped" /\ src = server_NodeID s /\ src <> target
       /\ node_Status n = "online" /\ Z.of_nat (hosted_on (w_db w) target) < node_MaxServers n
       /\ server_RAMLimitMB s <= node_TotalRAMMB n /\ server_DiskLimitMB s <= node_TotalDiskMB n.
Proof.
  unfold MigratePreflight, is_admin.
  destruct (RoleWeight role <? RoleWeight RoleAdmin) eqn:Hr; [by intros; inv_run|].
  intros (r1 & w1 & (r' & [= ->] & H1)%attempt_inv & H)%bind_ok. cbv beta in H.
  destruct r' as [s|e]; [|by case_ifs; inv_run]. apply query_ok in H1 as [Hs Hd1].
  unfold get_key in Hs. destruct (servers (w_db w) !! sid) as [s'|]; [|done]. injection Hs as ->.
  destruct (String.eqb (server_Status s) "stopped") eqn:Hst; cbn [negb] in H; [|by inv_run].
  destruct (server_NodeID s =? target)%N eqn:Ht; [by inv_run|].
  apply bind_ok in H as (r2 & w2 & (r' & [= ->] & H2)%attempt_inv & H). cbv beta in H.
  destruct r' as [[n hosted]|e]; [|by case_ifs; inv_run]. apply query_ok in H2 as [Hq Hd2].
  rewrite Hd1 in *. destruct (nodes (w_db w) !! target) as [n'|]; [|done]. injection Hq as -> <-.
  destruct (String.eqb (node_Status n) "online") eqn:Hon; cbn [negb] in H; [|by inv_run].
  destruct (node_MaxServers n <=? _) eqn:Hmax; [by inv_run|].
  destruct (_ || _) eqn:Hcap; [by inv_run|]. apply ret_inv in H as [[= ->] ->].
  breflect. split_and!; [done | done|]. exists s, n. split_and!; done.
Qed.

(** A migration is admitted only for panel staff, for a stopped server that
    is not on the target yet, and to an online node that has a free slot and
    the memory and disk the server asks for; the check itself writes nothing.
    Moving the server afterwards changes nothing but its node and leaves the
    target within its server limit. *)
Theorem migration_sound (role : string) (sid target src : uuid) (w w1 w2 : World) :
  MigratePreflight role sid target w = (Ok src, w1) ->
  CompleteMigration sid target w1 = (Ok tt, w2) ->
  is_admin role = true
  /\ exists s n, servers (w_db w) !! sid = Some s /\ nodes (w_db w) !! target = Some n
       /\ server_Status s = "stopped" /\ src = server_NodeID s /\ src <> target
       /\ node_Status n = "online"
       /\ server_RAMLimitMB s <= node_TotalRAMMB n /\ server_DiskLimitMB s <= node_TotalDiskMB n
       /\ w_db w2 = with_servers (<[sid := server_with_NodeID target s]> (servers (w_db w))) (w_db w)
       /\ Z.of_nat (hosted_on (w_db w2) target) <= node_MaxServers n.
Proof.
  intros (Hd & Ha & s & n & Hs & Hn & Hst & -> & Hne & Hon & Hmax & Hram & Hdisk)%MigratePreflight_ok H.
  split; [done|]. exists s, n.
  apply bind_ok in H as (k & w3 & Hx%wrap_ok%exec_ok & H). cbv beta in H. rewrite Hd, Hs in Hx.
  destruct (bool_decide _); [done|]. injection Hx as <- Hw3. simpl in H.
  apply ret_inv in H as [_ ->]. rewrite <- Hw3. rewrite (hosted_moved _ _ _ _ Hs Hne).
  split_and!; try done. lia.
Qed.

Lemma migration_sound_witness :
  exists s, servers farm_db !! 4%N = Some s /\ server_Status s = "stopped" /\ 9%N <> 10%N.
Proof.
  destruct (MigratePreflight RoleAdmin 4 10 farm_world) as [[src|e] w1] eqn:E1;
    [|apply (f_equal (fun x => is_ok (fst x))) in E1; vm_compute in E1; done].
  assert (src = 9%N) as -> by (vm_compute in E1; congruence).
  destruct (CompleteMigration 4 10 w1) as [[[]|e] w2] eqn:E2.
  - destruct (migration_sound RoleAdmin 4 10 9 farm_world w1 w2 E1 E2)
      as (_ & s & n & Hs & _ & Hst & _ & Hne & _).
    exists s. split_and!; [exact Hs | exact Hst | exact Hne].
  - change w1 with (snd (Ok (A := uuid) (E := error) 9%N, w1)) in E2. rewrite <- E1 in E2.
    apply (f_equal (fun x => is_ok (fst x))) in E2. vm_compute in E2. done.
Defined.

(** ** Theorems: removal *)

(** Every reference to a server, a player or an alert rule leads to a row. *)
Record refs_ok (d : DB) : Prop := {
  ref_members : forall k m, server_members d !! k = Some m -> is_Some (servers d !! fst k);
  ref_invitations : forall k i, server_invitations d !! k = Some i ->
    is_Some (servers d !! invitation_ServerID i);
  ref_commands : forall c id, c ∈ node_commands d -> ncmd_ServerID c = Some id -> is_Some (servers d !! id);
  ref_players : forall k p, players d !! k = Some p -> is_Some (servers d !! player_ServerID p);
  ref_sessions : forall k s, player_sessions d !! k = Some s -> is_Some (players d !! psession_PlayerID s);
  ref_worlds : forall k x, worlds d !! k = Some x -> is_Some (servers d !! world_ServerID x);
  ref_logs : forall l, l ∈ server_logs d -> is_Some (servers d !! slog_ServerID l);
  ref_rules : forall k r id, alert_rules d !! k = Some r -> rule_ServerID r = Some id ->
    is_Some (servers d !! id);
  ref_event_server : forall k e id, alert_events d !! k = Some e -> event_ServerID e = Some id ->
    is_Some (servers d !! id);
  ref_event_rule : forall k e id, alert_events d !! k = Some e -> event_RuleID e = Some id ->
    is_Some (alert_rules d !! id);
  ref_activity : forall l id, l ∈ activity_logs d -> alog_ServerID l = Some id -> is_Some (servers d !! id);
  ref_backups : forall k b id, backups d !! k = Some b -> backup_ServerID b = Some id ->
    is_Some (servers d !! id);
  ref_schedules : forall k s, backup_schedules d !! k = Some s -> is_Some (servers d !! schedule_ServerID s);
  ref_game_commands : forall k c id, game_commands d !! k = Some c -> gcmd_ServerID c = Some id ->
    is_Some (servers d !! id)
}.

Lemma kept_server (t : gmap uuid Server) id sid :
  id <> sid -> is_Some (t !! id) -> is_Some (delete sid t !! id).
Proof. intros Hne ?. by rewrite lookup_delete_ne by done. Qed.

(** The reference of an event after the removal. *)
Definition event_after (sid : uuid) (kept : gmap uuid AlertRule) (e : AlertEvent) : AlertEvent :=
  let e1 := if bool_decide (event_ServerID e = Some sid) then event_with_ServerID None e else e in
  match event_RuleID e1 with
  | Some r => if bool_decide (kept !! r = None) then event_with_RuleID None e1 else e1
  | None => e1
  end.

Lemma event_after_server sid kept e id :
  event_ServerID (event_after sid kept e) = Some id -> event_ServerID e = Some id /\ id <> sid.
Proof.
  unfold event_after. destruct (bool_decide (event_ServerID e = Some sid)) eqn:Hb; cbv zeta;
    case_ifs; simpl; intros H; try done; breflect; split; congruence.
Qed.

Lemma event_after_rule sid kept e id :
  event_RuleID (event_after sid kept e) = Some id -> is_Some (kept !! id).
Proof.
  unfold event_after. cbv zeta.
  generalize (if bool_decide (event_ServerID e = Some sid) then event_with_ServerID None e else e).
  intros e1 H. destruct (event_RuleID e1) as [r|] eqn:Hr; [|congruence].
  destruct (bool_decide (kept !! r = None)) eqn:Hb; [done|].
  assert (r = id) as -> by congruence. breflect. by apply not_eq_None_Some.
Qed.

Lemma delete_server_refs sid d : refs_ok d -> refs_ok (delete_server sid d).
Proof.
  intros R. unfold delete_server. split;
    cbn [servers server_members server_invitations node_commands players player_sessions worlds
         server_logs alert_rules alert_events activity_logs backups backup_schedules game_commands
         with_backups with_backup_schedules with_game_commands with_server_mods with_server_databases with_servers with_server_members
         with_server_invitations with_node_commands with_players with_player_sessions with_worlds
         with_server_logs with_alert_rules with_alert_events with_activity_logs].
  - intros k m [Hk Hne]%map_lookup_filter_Some. apply kept_server; [done|]. by eapply ref_members.
  - intros k i [Hk Hne%N.eqb_neq]%lookup_delete_where. apply kept_server; [done|]. by eapply ref_invitations.
  - intros c id Hc Hid. rewrite list_elem_of_In, filter_In, <- list_elem_of_In in Hc. destruct Hc as [Hc Hb].
    breflect. apply kept_server; [congruence|]. by eapply ref_commands.
  - intros k p [Hk Hne%N.eqb_neq]%lookup_delete_where. apply kept_server; [done|]. by eapply ref_players.
  - intros k s [Hk Hb%bool_decide_eq_false]%lookup_delete_where. by apply not_eq_None_Some.
  - intros k x [Hk Hne%N.eqb_neq]%lookup_delete_where. apply kept_server; [done|]. by eapply ref_worlds.
  - intros l Hl. rewrite list_elem_of_In, filter_In, <- list_elem_of_In in Hl. destruct Hl as [Hl Hb].
    breflect. apply kept_server; [done|]. by eapply ref_logs.
  - intros k r id [Hk Hb%bool_decide_eq_false]%lookup_delete_where Hid.
    apply kept_server; [congruence|]. by eapply ref_rules.
  - intros k e id Hk Hid. rewrite lookup_fmap in Hk. apply fmap_Some in Hk as (e0 & Hk & ->).
    apply event_after_server in Hid as [Hid Hne]. apply kept_server; [done|]. by eapply ref_event_server.
  - intros k e id Hk Hid. rewrite lookup_fmap in Hk. apply fmap_Some in Hk as (e0 & Hk & ->).
    by eapply event_after_rule.
  - intros l id Hl Hid. apply list_elem_of_fmap in Hl as (l0 & -> & Hl0).
    destruct (bool_decide _) eqn:Hb; [done|]. breflect. apply kept_server; [congruence|].
    by eapply ref_activity.
  - intros k b id Hk Hid. rewrite lookup_update_where in Hk. apply fmap_Some in Hk as (b0 & Hk & ->).
    destruct (bool_decide _) eqn:Hb; [done|]. breflect. apply kept_server; [congruence|].
    by eapply ref_backups.
  - intros k x [Hk Hne%N.eqb_neq]%lookup_delete_where. apply kept_server; [done|]. by eapply ref_schedules.
  - intros k c id [Hk Hb%bool_decide_eq_false]%lookup_delete_where Hid.
    apply kept_server; [congruence|]. by eapply ref_game_commands.
Qed.

(** Removing a server is for its owner and panel staff.  It removes that
    server and no other, keeps the players, worlds and members of every other
    server, and leaves no dangling reference; every other outcome leaves the
    database as it was. *)
Theorem delete_server_sound (sid uid : uuid) (role : string) (w w' : World) (r : res error unit) :
  refs_ok (w_db w) -> DeleteServer sid uid role w = (r, w') ->
  (is_ok r = false /\ w_db w' = w_db w) \/
  (r = Ok tt /\ refs_ok (w_db w')
   /\ (exists sv, servers (w_db w) !! sid = Some sv /\ (is_admin role = true \/ server_OwnerID sv = uid))
   /\ servers (w_db w') = delete sid (servers (w_db w))
   /\ (forall k p, players (w_db w') !! k = Some p <->
         players (w_db w) !! k = Some p /\ player_ServerID p <> sid)
   /\ (forall k x, worlds (w_db w') !! k = Some x <->
         worlds (w_db w) !! k = Some x /\ world_ServerID x <> sid)
   /\ (forall k m, server_members (w_db w') !! k = Some m <->
         server_members (w_db w) !! k = Some m /\ fst k <> sid)).
Proof.
  intros R H. unfold DeleteServer in H.
  apply bind_inv in H as [(sv & w1 & [Hv Hd1]%GetServer_ok & H)|(e & H & ->)].
  2: { left. split; [done|]. eapply reads_same; [|exact H]. intros; apply GetServer_reads. }
  destruct (_ && _) eqn:Hown; [apply fail_inv in H as [-> ->]; by left|].
  apply wrap_inv in H as [([] & -> & H%exec_ok)|(e & -> & H)].
  2: { apply exec_inv in H as (_ & _ & _ & _ & [(? & ? & ? & _)|(? & _ & ? & _)]); [done|].
       left. split; [done | congruence]. }
  right. split; [done|]. rewrite Hd1 in H. injection H as <-.
  split; [by apply delete_server_refs|]. split.
  { unfold server_view in Hv. destruct (servers (w_db w) !! sid) as [row|]; [|done].
    exists row. split; [done|]. destruct (visible_server _ _ _ _); [|done]. injection Hv as <-.
    apply andb_false_iff in Hown as [Hx|Hx]; [left; unfold is_admin; by rewrite Hx|right].
    by apply negb_false_iff, N.eqb_eq in Hx. }
  unfold delete_server; cbn [servers server_members players worlds with_servers with_server_members
    with_server_invitations with_node_commands with_players with_player_sessions with_worlds].
  split_and!; [done | ..]; intros; rewrite ?lookup_delete_where, ?map_lookup_filter_Some, ?N.eqb_neq; done.
Qed.

Lemma farm_refs : refs_ok farm_db.
Proof. split; try (by intros; vm_compute in *); intros; set_solver. Qed.

Lemma delete_server_sound_witness :
  exists w', DeleteServer 4 5 RoleUser farm_world = (Ok tt, w') /\ refs_ok (w_db w')
    /\ servers (w_db w') !! 4%N = None.
Proof.
  destruct (DeleteServer 4 5 RoleUser farm_world) as [r w'] eqn:E.
  destruct (delete_server_sound 4 5 RoleUser farm_world w' r farm_refs E)
    as [[Hr _]|(-> & HR & _ & Hs & _)].
  - change r with (fst (r, w')) in Hr. rewrite <- E in Hr. vm_compute in Hr. done.
  - exists w'. split_and!; [done | exact HR | by rewrite Hs, lookup_delete_eq].
Defined.
