(* ===== verification/Worlds.v ===== *)
(** * Worlds of a server

    Models [services/world_service.go]: the worlds a daemon reports, the
    switch of the active world and the removal of a world, each with the
    command the daemon of the node gets.  Theorems: a switch is atomic and
    leaves one active world; the active world is never removed; every world
    name that is stored or sent to a daemon is one safe path component. *)

From stdpp Require Import base numbers list strings option gmap relations.
From Stdlib Require Import Ascii.
From S2P Require Import Prelude GoStrings Regex Store Roles Auth Players Servers.

Local Open Scope Z_scope.

Definition ErrWorldNotFound : error := ErrNew "world not found".
Definition ErrWorldActive : error :=
  ErrNew "cannot delete the active world; activate another world first".
Definition ErrUnsafeWorldName : error := ErrNew "unsafe world name".

(** [^[A-Za-z0-9_-]{1,64}$]. *)
Definition world_class : list (ascii * ascii) :=
  [("A", "Z"); ("a", "z"); ("0", "9"); ("_", "_"); ("-", "-")]%char.
Definition worldNameRe : re := rep_range 1 64 (Cls world_class).
Definition isSafeWorldName (name : string) : bool := MatchString worldNameRe name.

Definition serverNode (serverID : uuid) : M (uuid * string) :=
  let* r := attempt (query (fun d => get_key (servers d) serverID)) in
  match r with
  | Ok s => ret (server_NodeID s, server_DataPath s)
  | Err e => if error_Is e ErrNoRows then fail ErrServerNotFound
             else fail (ErrWrap "fetching server" e)
  end.

(** services.ScannedWorld. *)
Record ScannedWorld := mkScannedWorld {
  sw_Name : string;
  sw_SizeBytes : Z
}.

(** ** SyncWorlds *)

Definition world_key (serverID : uuid) (name : string) (x : World_) : bool :=
  (world_ServerID x =? serverID)%N && String.eqb (world_Name x) name.

(** [INSERT INTO worlds ... ON CONFLICT (server_id, name) DO UPDATE]; without
    [active] the flag of an existing row is kept. *)
Definition upsert_world (fresh serverID : uuid) (sw : ScannedWorld) (active : option bool) (t : Z)
    (d : DB) : res error (unit * DB) :=
  match find_key (worlds d) (world_key serverID (sw_Name sw)) with
  | Ok (wid, _) =>
    Ok (tt, with_worlds (alter (fun x =>
          let x' := world_with_UpdatedAt t (world_with_SizeBytes (Some (sw_SizeBytes sw)) x) in
          match active with Some b => world_with_IsActive b x' | None => x' end)
        wid (worlds d)) d)
  | Err _ =>
    if bool_decide (servers d !! serverID = None) then Err (ErrConstraint "worlds_server_id_fkey")
    else match insert_row fresh (mkWorld_ fresh serverID (sw_Name sw) (Some "imported")
                 (default false active) (Some (sw_SizeBytes sw)) t t) (worlds d) with
         | Ok t' => Ok (tt, with_worlds t' d)
         | Err e => Err e
         end
  end.

Fixpoint sync_loop (serverID : uuid) (l : list ScannedWorld) (activeWorld : string) : M unit :=
  match l with
  | [] => ret tt
  | sw :: l' =>
    if isSafeWorldName (sw_Name sw) then
      let* fresh := new_uuid in
      let* t := now in
      run* wrap ("syncing world " +:+ sw_Name sw) (exec (upsert_world fresh serverID sw
             (if String.eqb activeWorld "" then None
              else Some (String.eqb (sw_Name sw) activeWorld)) t)) in
      sync_loop serverID l' activeWorld
    else sync_loop serverID l' activeWorld
  end.

(** [UPDATE servers SET active_world = $1, updated_at = NOW() WHERE id = $2]. *)
Definition set_server_world (serverID : uuid) (name : string) (t : Z) (d : DB) : DB :=
  with_servers (alter (fun s => server_with_UpdatedAt t (server_with_ActiveWorld name s))
                  serverID (servers d)) d.

Definition SyncWorlds (serverID : uuid) (l : list ScannedWorld) (activeWorld0 : string) : M unit :=
  let activeWorld := if isSafeWorldName activeWorld0 then activeWorld0 else "" in
  run* sync_loop serverID l activeWorld in
  if String.eqb activeWorld "" then ret tt
  else let* t := now in
       ignore (exec (fun d => Ok (tt, set_server_world serverID activeWorld t d))).

Definition ListWorlds (serverID : uuid) : M (list World_) :=
  wrap "querying worlds" (query (fun d =>
    Ok (order_by (fun a b => world_CreatedAt b <=? world_CreatedAt a)
          (rows (worlds d) (fun x => (world_ServerID x =? serverID)%N))))).

(** ** SetActiveWorld *)

(** [SELECT ... FROM worlds WHERE id = $1 AND server_id = $2]. *)
Definition world_of (serverID worldID : uuid) (d : DB) : res error World_ :=
  match worlds d !! worldID with
  | Some x => if (world_ServerID x =? serverID)%N then Ok x else Err ErrNoRows
  | None => Err ErrNoRows
  end.

Definition fetch_world (msg : string) (serverID worldID : uuid) : M World_ :=
  let* r := attempt (query (world_of serverID worldID)) in
  match r with
  | Ok x => ret x
  | Err e => if error_Is e ErrNoRows then fail ErrWorldNotFound else fail (ErrWrap msg e)
  end.

Definition world_command (kind : string) (nodeID serverID : uuid) (dataPath name : string) : M unit :=
  let* id := new_uuid in
  let* t := now in
  wrap ("enqueuing " +:+ kind) (exec (fun d =>
    match enqueue_node_command id nodeID serverID kind [("data_path", dataPath); ("world", name)] t d with
    | Ok d' => Ok (tt, d')
    | Err e => Err e
    end)).

Definition SetActiveWorld (serverID worldID : uuid) : M unit :=
  let* sn := serverNode serverID in
  let '(nodeID, dataPath) := sn in
  tx "begin tx" id (
    let* x := fetch_world "fetching world name" serverID worldID in
    let worldName := world_Name x in
    if negb (isSafeWorldName worldName) then fail (ErrDetail ErrUnsafeWorldName worldName)
    else
      let* t := now in
      run* wrap "deactivating worlds" (exec (fun d =>
        Ok (tt, with_worlds (update_where (world_with_IsActive false)
                  (fun y => (world_ServerID y =? serverID)%N) (worlds d)) d))) in
      run* wrap "activating world" (exec (fun d =>
        Ok (tt, match world_of serverID worldID d with
                | Ok _ => with_worlds (alter (fun y =>
                            world_with_UpdatedAt t (world_with_IsActive true y)) worldID (worlds d)) d
                | Err _ => d
                end))) in
      run* wrap "updating server active_world" (exec (fun d =>
        Ok (tt, set_server_world serverID worldName t d))) in
      world_command "set_active_world" nodeID serverID dataPath worldName).

(** ** DeleteWorld *)

Definition DeleteWorld (serverID worldID : uuid) : M unit :=
  let* sn := serverNode serverID in
  let '(nodeID, dataPath) := sn in
  tx "begin tx" id (
    let* x := fetch_world "fetching world" serverID worldID in
    if world_IsActive x then fail ErrWorldActive
    else if negb (isSafeWorldName (world_Name x)) then fail (ErrDetail ErrUnsafeWorldName (world_Name x))
    else
      run* wrap "deleting world" (exec (fun d =>
        Ok (tt, match world_of serverID worldID d with
                | Ok _ => with_worlds (delete worldID (worlds d)) d
                | Err _ => d
                end))) in
      world_command "delete_world" nodeID serverID dataPath (world_Name x)).

(** ** Names are single path components *)

Lemma safe_world_name (name : string) : isSafeWorldName name = true ->
  (1 <= String.length name <= 64)%nat /\ str_forallb (in_cls world_class) name = true.
Proof. apply match_rep_range_cls. lia. Qed.

(** A safe name cannot leave the directory of the worlds. *)
Lemma safe_world_component (name : string) :
  isSafeWorldName name = true -> name <> "" /\ name <> "." /\ name <> ".."
  /\ str_forallb (fun a => negb (Ascii.eqb a "/" || Ascii.eqb a "\")) name = true.
Proof.
  intros H. apply safe_world_name in H as [Hl Hc].
  assert (Hd : forall a, in_cls world_class a = true -> negb (Ascii.eqb a "/" || Ascii.eqb a "\") = true).
  { intros a Ha. destruct (Ascii.eqb_spec a "/") as [->|]; [by vm_compute in Ha|].
    destruct (Ascii.eqb_spec a "\") as [->|]; [by vm_compute in Ha | done]. }
  split_and!; [intros ->; simpl in Hl; lia | by intros -> | by intros -> |].
  by eapply str_forallb_impl.
Qed.

(** ** The switch is atomic *)

Lemma serverNode_ok sid w p w' :
  serverNode sid w = (Ok p, w') ->
  w_db w' = w_db w /\ w_now w' = w_now w
  /\ exists s, servers (w_db w) !! sid = Some s /\ p = (server_NodeID s, server_DataPath s).
Proof.
  unfold serverNode. intros H. apply bind_ok in H as (r & w1 & H1 & H).
  apply attempt_inv in H1 as (r' & [= ->] & H1). apply query_inv in H1 as (Hd & Hn & _ & _ & _ & Hr).
  destruct r' as [s|e]; [|destruct (error_Is e ErrNoRows); apply fail_inv in H as [? ?]; done].
  apply ret_inv in H as [[= ->] ->]. split_and!; [done | done |]. exists s. split; [|done].
  destruct Hr as [?|Hr]; [done|]. unfold get_key in Hr. destruct (servers _ !! sid); congruence.
Qed.

Lemma serverNode_reads sid I : preserves I (serverNode sid).
Proof. unfold serverNode. solve_preserves. Qed.

Lemma fetch_world_reads msg sid wid I : preserves I (fetch_world msg sid wid).
Proof. unfold fetch_world. solve_preserves. Qed.

Lemma fetch_world_ok msg sid wid w x w' :
  fetch_world msg sid wid w = (Ok x, w') ->
  w_db w' = w_db w /\ w_now w' = w_now w
  /\ worlds (w_db w) !! wid = Some x /\ world_ServerID x = sid.
Proof.
  unfold fetch_world. intros H. apply bind_ok in H as (r & w1 & H1 & H).
  apply attempt_inv in H1 as (r' & [= ->] & H1). apply query_inv in H1 as (Hd & Hn & _ & _ & _ & Hr).
  destruct r' as [y|e]; [|destruct (error_Is e ErrNoRows); apply fail_inv in H as [? ?]; done].
  apply ret_inv in H as [[= <-] ->]. destruct Hr as [?|Hr]; [done|].
  split; [done|]. split; [done|]. unfold world_of in Hr. destruct (worlds _ !! wid) as [z|]; [|done].
  destruct (world_ServerID z =? sid)%N eqn:E; [|done]. apply N.eqb_eq in E. split; congruence.
Qed.

Lemma world_command_ok kind n sid dp name w w' :
  world_command kind n sid dp name w = (Ok tt, w') ->
  exists cid, w_db w' = with_node_commands (node_commands (w_db w) ++
    [mkNodeCommand cid n (Some sid) kind [("data_path", dp); ("world", name)] "pending" (w_now w) None])
    (w_db w).
Proof.
  unfold world_command. intros H. apply bind_ok in H as (cid & w1 & (_ & Hd & Hn & _)%rand_inv & H).
  apply bind_ok in H as (t & w2 & [[= ->] ->]%now_inv & H). apply wrap_ok, exec_ok in H.
  unfold enqueue_node_command in H. rewrite Hd, Hn in H. case_bool_decide; [done|]. case_bool_decide; [done|].
  injection H as <-. eauto.
Qed.

(** One statement of a transaction. *)
Lemma wrap_exec_det msg (f : DB -> DB) w w' :
  wrap msg (exec (fun d => Ok (tt, f d))) w = (Ok tt, w') -> w_db w' = f (w_db w) /\ w_now w' = w_now w.
Proof.
  intros H%wrap_ok. pose proof (exec_inv _ _ _ _ H) as (Hn & _). apply exec_ok in H.
  injection H as <-. done.
Qed.

(** What [SetActiveWorld] does to the rows. *)
Definition switched (sid wid : uuid) (t : Z) (k : uuid) (y : World_) : World_ :=
  if (k =? wid)%N then world_with_UpdatedAt t (world_with_IsActive true (world_with_IsActive false y))
  else if (world_ServerID y =? sid)%N then world_with_IsActive false y else y.

Lemma switch_worlds sid wid t (m : gmap uuid World_) x :
  m !! wid = Some x -> world_ServerID x = sid ->
  alter (fun y => world_with_UpdatedAt t (world_with_IsActive true y)) wid
    (update_where (world_with_IsActive false) (fun y => (world_ServerID y =? sid)%N) m)
  = map_imap (fun k y => Some (switched sid wid t k y)) m.
Proof.
  intros Hx Hs. apply map_eq. intros k. rewrite map_lookup_imap. unfold switched.
  destruct (decide (k = wid)) as [->|Hne].
  - rewrite lookup_alter_eq, lookup_update_where, Hx. simpl. by rewrite Hs, !N.eqb_refl.
  - rewrite lookup_alter_ne, lookup_update_where by done. apply N.eqb_neq in Hne. rewrite Hne.
    destruct (m !! k) as [y|]; simpl; [|done]. by destruct (world_ServerID y =? sid)%N.
Qed.

Lemma SetActiveWorld_ok sid wid w w' :
  SetActiveWorld sid wid w = (Ok tt, w') ->
  exists x sv cid, worlds (w_db w) !! wid = Some x /\ world_ServerID x = sid
    /\ isSafeWorldName (world_Name x) = true /\ servers (w_db w) !! sid = Some sv
    /\ worlds (w_db w') = map_imap (fun k y => Some (switched sid wid (w_now w) k y)) (worlds (w_db w))
    /\ servers (w_db w') = servers (set_server_world sid (world_Name x) (w_now w) (w_db w))
    /\ node_commands (w_db w') = node_commands (w_db w) ++
         [mkNodeCommand cid (server_NodeID sv) (Some sid) "set_active_world"
            [("data_path", server_DataPath sv); ("world", world_Name x)] "pending" (w_now w) None].
Proof.
  intros H. unfold SetActiveWorld in H.
  apply bind_ok in H as (p & w1 & (Hd1 & Hn1 & sv & Hsv & ->)%serverNode_ok & H). cbv iota in H.
  apply tx_inv in H as [(u & [= <-] & w0 & w2 & H & Hd0 & Hn0 & Hdw)|(e & ? & _)]; [|done].
  rewrite Hd1 in Hd0. rewrite Hn1 in Hn0.
  apply bind_ok in H as (x & w3 & (Hd3 & Hn3 & Hx & Hs)%fetch_world_ok & H). cbv zeta in H.
  destruct (isSafeWorldName (world_Name x)) eqn:Hsafe; [|done]. cbn [negb] in H.
  apply bind_ok in H as (t & w4 & [[= ->] ->]%now_inv & H).
  apply bind_ok in H as ([] & w5 & (Hd5 & Hn5)%wrap_exec_det & H).
  apply bind_ok in H as ([] & w6 & (Hd6 & Hn6)%wrap_exec_det & H).
  apply bind_ok in H as ([] & w7 & (Hd7 & Hn7)%wrap_exec_det & H).
  apply world_command_ok in H as (cid & H). rewrite Hdw, H, Hd7, Hd6, Hd5, Hd3, Hd0.
  rewrite Hd0 in Hx. exists x, sv, cid.
  assert (Hn : w_now w7 = w_now w) by congruence. rewrite Hn.
  assert (Hn' : w_now w3 = w_now w) by congruence. rewrite Hn'.
  unfold world_of. cbn [worlds with_worlds]. rewrite lookup_update_where, Hx. cbn [fmap option_fmap option_map].
  rewrite Hs, N.eqb_refl. cbn [world_ServerID world_with_IsActive]. rewrite Hs, N.eqb_refl.
  split_and!; try done. cbn. by eapply switch_worlds.
Qed.

(** A switch of the active world is all or nothing, whatever database calls
    fail.  When it succeeds exactly the chosen world of the server is active,
    the worlds of other servers and every name are as before, the server
    mirrors the name of the chosen world, and one command with that name waits
    for the node of the server; any other outcome leaves the database as it
    was. *)
Theorem active_world_switch (sid wid : uuid) (w w' : World) (r : res error unit) :
  SetActiveWorld sid wid w = (r, w') ->
  (is_ok r = false /\ w_db w' = w_db w) \/
  (r = Ok tt /\ exists x sv cid, worlds (w_db w) !! wid = Some x /\ servers (w_db w) !! sid = Some sv
   /\ isSafeWorldName (world_Name x) = true
   /\ (forall k y, worlds (w_db w') !! k = Some y -> world_ServerID y = sid ->
         (world_IsActive y = true <-> k = wid))
   /\ (forall k y, world_ServerID y <> sid ->
         worlds (w_db w') !! k = Some y <-> worlds (w_db w) !! k = Some y)
   /\ (forall k, world_Name <$> worlds (w_db w') !! k = world_Name <$> worlds (w_db w) !! k)
   /\ server_ActiveWorld <$> servers (w_db w') !! sid = Some (world_Name x)
   /\ node_commands (w_db w') = node_commands (w_db w) ++
        [mkNodeCommand cid (server_NodeID sv) (Some sid) "set_active_world"
           [("data_path", server_DataPath sv); ("world", world_Name x)] "pending" (w_now w) None]).
Proof.
  intros H. destruct r as [[]|e].
  - right. split; [done|]. apply SetActiveWorld_ok in H as (x & sv & cid & Hx & Hs & Hsafe & Hsv & Hw & Hsrv & Hc).
    exists x, sv, cid. rewrite Hw, Hsrv, Hc. split_and!; try done.
    + intros k y Hy Hys. rewrite map_lookup_imap in Hy. destruct (worlds (w_db w) !! k) as [z|]; [|done].
      injection Hy as <-. unfold switched in *. destruct (k =? wid)%N eqn:E; [by apply N.eqb_eq in E|].
      apply N.eqb_neq in E. destruct (world_ServerID z =? sid)%N eqn:Ez; [done|].
      apply N.eqb_neq in Ez. done.
    + intros k y Hy. rewrite map_lookup_imap. destruct (worlds (w_db w) !! k) as [z|] eqn:Ek; [|done].
      simpl. unfold switched. destruct (k =? wid)%N eqn:E.
      * apply N.eqb_eq in E as ->. rewrite Hx in Ek. injection Ek as <-.
        split; intros [= <-]; done.
      * destruct (world_ServerID z =? sid)%N eqn:Ez; [|done]. apply N.eqb_eq in Ez.
        split; intros [= <-]; done.
    + intros k. rewrite map_lookup_imap. destruct (worlds (w_db w) !! k) as [z|]; [|done]. simpl.
      unfold switched. destruct (k =? wid)%N; [done|]. by destruct (world_ServerID z =? sid)%N.
    + unfold set_server_world. cbn. by rewrite lookup_alter_eq, Hsv.
  - left. split; [done|]. unfold SetActiveWorld in H.
    apply bind_reads in H as [?|([n dp] & w1 & _ & Hd1 & H)]; [done | |intros; apply serverNode_reads].
    cbv iota in H. apply tx_inv in H as [(a & ? & _)|(e' & _ & Hd)]; [done | congruence].
Qed.

(** A small installation: server 3 on node 9 with two worlds. *)
Definition worlds_world : World :=
  mkWorld
    (with_worlds {[ 21%N := mkWorld_ 21 3 "default" (Some "imported") true (Some 10) 0 0;
                    22%N := mkWorld_ 22 3 "lobby" (Some "imported") false (Some 20) 0 0 ]}
    (with_servers {[3%N := sample_server 3 9 5]}
    (with_nodes {[9%N := sample_node 9]} empty_db))) ∅ 1000 [] (fun n => N.of_nat (100 + n)) 0.

Lemma active_world_switch_witness :
  exists w' y, SetActiveWorld 3 22 worlds_world = (Ok tt, w')
    /\ worlds (w_db w') !! 21%N = Some y /\ world_IsActive y = false.
Proof.
  destruct (SetActiveWorld 3 22 worlds_world) as [r w'] eqn:E.
  destruct (active_world_switch 3 22 worlds_world w' r E)
    as [[Hr _]|(-> & x & sv & cid & _ & _ & _ & Hact & _)].
  - change r with (fst (r, w')) in Hr. rewrite <- E in Hr. vm_compute in Hr. done.
  - assert (Hy : worlds (w_db w') !! 21%N = Some (mkWorld_ 21 3 "default" (Some "imported") false (Some 10) 0 0)).
    { change w' with (snd (Ok (E := error) tt, w')). rewrite <- E. by vm_compute. }
    exists w', (mkWorld_ 21 3 "default" (Some "imported") false (Some 10) 0 0). split_and!; [done | exact Hy |].
    apply not_true_is_false. intros Ht. by apply (Hact 21%N _ Hy eq_refl) in Ht.
Defined.

(** ** The active world stays *)

(** A removal takes one inactive world of the server away, together with the
    command that deletes its directory, or changes nothing. *)
Theorem delete_world_sound (sid wid : uuid) (w w' : World) (r : res error unit) :
  DeleteWorld sid wid w = (r, w') ->
  (is_ok r = false /\ w_db w' = w_db w) \/
  (r = Ok tt /\ exists x sv cid, worlds (w_db w) !! wid = Some x /\ world_ServerID x = sid
   /\ world_IsActive x = false /\ isSafeWorldName (world_Name x) = true
   /\ servers (w_db w) !! sid = Some sv
   /\ w_db w' = with_node_commands (node_commands (w_db w) ++
        [mkNodeCommand cid (server_NodeID sv) (Some sid) "delete_world"
           [("data_path", server_DataPath sv); ("world", world_Name x)] "pending" (w_now w) None])
        (with_worlds (delete wid (worlds (w_db w))) (w_db w))).
Proof.
  intros H. unfold DeleteWorld in H.
  apply bind_inv in H as [(p & w1 & (Hd1 & Hn1 & sv & Hsv & ->)%serverNode_ok & H)|(e & H & ->)];
    [|left; split; [done|]; eapply reads_same; [|exact H]; intros; apply serverNode_reads].
  cbv iota in H. apply tx_inv in H as [([] & -> & w0 & w2 & H & Hd0 & Hn0 & Hdw)|(e & -> & Hd)];
    [|left; split; [done | congruence]].
  right. split; [done|]. rewrite Hd1 in Hd0. rewrite Hn1 in Hn0.
  apply bind_ok in H as (x & w3 & (Hd3 & Hn3 & Hx & Hs)%fetch_world_ok & H).
  destruct (world_IsActive x) eqn:Ha; [done|].
  destruct (isSafeWorldName (world_Name x)) eqn:Hsafe; [|done]. cbn [negb] in H.
  apply bind_ok in H as ([] & w5 & (Hd5 & Hn5)%wrap_exec_det & H).
  apply world_command_ok in H as (cid & H). rewrite Hd0 in Hx. exists x, sv, cid.
  assert (Hn : w_now w5 = w_now w) by congruence.
  rewrite Hdw, H, Hd5, Hn, Hd3, Hd0. unfold world_of. rewrite Hx, Hs, N.eqb_refl. done.
Qed.

(** ** Stored and queued names are safe *)

Definition is_world_command (c : NodeCommand) : bool :=
  contains ["set_active_world"; "delete_world"] (ncmd_CommandType c).

Definition world_command_safe (c : NodeCommand) : Prop :=
  exists dp name, ncmd_Payload c = [("data_path", dp); ("world", name)] /\ isSafeWorldName name = true.

(** The calls that write worlds. *)
Inductive world_op : M unit -> Prop :=
| op_SyncWorlds sid l active : world_op (SyncWorlds sid l active)
| op_SetActiveWorld sid wid : world_op (SetActiveWorld sid wid)
| op_DeleteWorld sid wid : world_op (DeleteWorld sid wid).

Definition names_safe (d : DB) : Prop :=
  (forall k x, worlds d !! k = Some x -> isSafeWorldName (world_Name x) = true)
  /\ (forall c, c ∈ node_commands d -> is_world_command c = true -> world_command_safe c).

Lemma names_safe_worlds d f :
  (forall k x, f !! k = Some x -> exists y, worlds d !! k = Some y /\ world_Name y = world_Name x) ->
  names_safe d -> names_safe (with_worlds f d).
Proof.
  intros Hf [Hw Hc]. split; [|done]. intros k x Hx. cbn in Hx. apply Hf in Hx as (y & Hy & <-). eauto.
Qed.

Lemma names_safe_command kind n sid dp name :
  isSafeWorldName name = true -> preserves names_safe (world_command kind n sid dp name).
Proof.
  intros Hs. unfold world_command. solve_preserves. apply preserves_exec. intros d u d' [Hw Hc] H.
  unfold enqueue_node_command in H. case_bool_decide; [done|]. case_bool_decide; [done|].
  injection H as <- <-. split; [done|]. intros c [Hin|Hin%list_elem_of_singleton]%elem_of_app Hk; [eauto|].
  subst c. exists dp, name. done.
Qed.

Lemma upsert_world_safe fresh sid sw active t d u d' :
  isSafeWorldName (sw_Name sw) = true -> names_safe d ->
  upsert_world fresh sid sw active t d = Ok (u, d') -> names_safe d'.
Proof.
  intros Hs HI H. unfold upsert_world in H. destruct (find_key _ _) as [[wid x]|e].
  - injection H as <- <-. apply names_safe_worlds; [|done]. intros k y Hy.
    apply lookup_alter_Some in Hy as [(-> & z & Hz & ->)|[_ Hy]]; [|eauto].
    exists z. split; [done|]. by destruct active.
  - case_bool_decide; [done|]. destruct (insert_row _ _ _) as [t'|] eqn:Ei; [|done].
    injection H as <- <-. apply insert_row_ok in Ei as [_ ->]. destruct HI as [Hw Hc]. split; [|done].
    intros k y Hy. cbn in Hy. apply lookup_insert_Some in Hy as [[<- <-]|[_ Hy]]; [done | eauto].
Qed.

Lemma sync_loop_safe sid l active : preserves names_safe (sync_loop sid l active).
Proof.
  induction l as [|sw l IH]; simpl; [apply preserves_ret|].
  destruct (isSafeWorldName (sw_Name sw)) eqn:Hs; [|done]. solve_preserves; [|done].
  apply preserves_exec. intros d u d' HI H. by eapply upsert_world_safe.
Qed.

(** Whatever a node reports and whatever database calls fail, the world names
    the panel stores and the ones in the commands it queues for a node are
    single path components of letters, digits, [-] and [_], at most 64 long:
    no call of the service changes that. *)
Theorem world_names_safe (m : M unit) (w : World) :
  world_op m -> names_safe (w_db w) ->
  let d := w_db (snd (m w)) in
  names_safe d
  /\ forall c dp name, c ∈ node_commands d -> is_world_command c = true ->
       ncmd_Payload c = [("data_path", dp); ("world", name)] ->
       name <> "" /\ name <> ".." /\ (String.length name <= 64)%nat
       /\ str_forallb (fun a => negb (Ascii.eqb a "/" || Ascii.eqb a "\")) name = true.
Proof.
  intros Hm HI. assert (Hp : preserves names_safe m).
  { destruct Hm; unfold SyncWorlds, SetActiveWorld, DeleteWorld.
    - solve_preserves; [apply sync_loop_safe|]. apply preserves_exec. intros d u d' Hd [= <- <-]. done.
    - apply preserves_bind; [apply serverNode_reads | intros [n dp]]. apply preserves_tx.
      apply preserves_bind; [apply fetch_world_reads | intros x]. cbv zeta.
      destruct (isSafeWorldName (world_Name x)) eqn:Hs; [|apply preserves_fail]. cbn [negb].
      solve_preserves; [apply preserves_exec; intros d u d' Hd [= <- <-].. | by apply names_safe_command].
      + apply names_safe_worlds; [|done]. intros k y Hy. rewrite lookup_update_where in Hy.
        apply fmap_Some in Hy as (z & Hz & ->). exists z. split; [done|]. by destruct (_ =? _)%N.
      + destruct (world_of _ _ d); [|done]. apply names_safe_worlds; [|done]. intros k y Hy.
        apply lookup_alter_Some in Hy as [(-> & z & Hz & ->)|[_ Hy]]; eauto.
      + done.
    - apply preserves_bind; [apply serverNode_reads | intros [n dp]]. apply preserves_tx.
      apply preserves_bind; [apply fetch_world_reads | intros x].
      destruct (world_IsActive x); [apply preserves_fail|].
      destruct (isSafeWorldName (world_Name x)) eqn:Hs; [|apply preserves_fail]. cbn [negb].
      solve_preserves; [apply preserves_exec; intros d u d' Hd [= <- <-] | by apply names_safe_command].
      destruct (world_of _ _ d); [|done]. apply names_safe_worlds; [|done]. intros k y Hy.
      apply lookup_delete_Some in Hy as [_ Hy]. eauto. }
  cbv zeta. specialize (Hp w HI). split; [done|]. intros c dp name Hc Hk Hpay.
  destruct (proj2 Hp c Hc Hk) as (dp' & name' & Heq & Hs). assert (name' = name) as -> by congruence.
  destruct (safe_world_component _ Hs) as (? & ? & ? & ?). split_and!; try done.
  apply safe_world_name in Hs. lia.
Qed.

Lemma world_names_safe_witness :
  names_safe (w_db (snd (SyncWorlds 3 [mkScannedWorld "../etc" 1; mkScannedWorld "arena" 7] "arena" worlds_world))).
Proof.
  apply (world_names_safe (SyncWorlds 3 [mkScannedWorld "../etc" 1; mkScannedWorld "arena" 7] "arena") worlds_world);
    [constructor|]. split.
  - intros k x Hx. cbn in Hx. apply lookup_insert_Some in Hx as [[_ <-]|[_ Hx]]; [by vm_compute|].
    apply lookup_singleton_Some in Hx as [_ <-]. by vm_compute.
  - intros c Hc. by apply not_elem_of_nil in Hc.
Defined.

(** ** What a report leaves behind *)

(** The row of a reported world with its flag. *)
Definition listed (sid : uuid) (active name : string) (d : DB) : Prop :=
  exists k x, worlds d !! k = Some x /\ world_key sid name x = true
    /\ (active <> "" -> world_IsActive x = String.eqb name active).

Lemma upsert_world_listed fresh sid sw active t d u d' :
  upsert_world fresh sid sw (if String.eqb active "" then None
    else Some (String.eqb (sw_Name sw) active)) t d = Ok (u, d') ->
  listed sid active (sw_Name sw) d'
  /\ forall name, listed sid active name d -> listed sid active name d'.
Proof.
  intros H. unfold upsert_world in H. destruct (find_key _ _) as [[wid x]|e] eqn:Ef.
  - apply find_key_ok in Ef as [Hx Hk]. injection H as <- <-.
    set (f := fun x => _). assert (Hf : forall y, world_key sid (sw_Name sw) y = true ->
      world_key sid (sw_Name sw) (f y) = true
      /\ (active <> "" -> world_IsActive (f y) = String.eqb (sw_Name sw) active)).
    { intros y Hy. unfold f. destruct (String.eqb_spec active ""); [by split|]. done. }
    split.
    + exists wid, (f x). cbn. rewrite lookup_alter_eq, Hx. split; [done | by apply Hf].
    + intros name (k & y & Hy & Hky & Hact). destruct (decide (k = wid)) as [->|Hne].
      * assert (y = x) as -> by congruence. exists wid, (f x). cbn. rewrite lookup_alter_eq, Hx.
        split; [done|]. assert (name = sw_Name sw) as -> by (unfold world_key in *; breflect; congruence).
        by apply Hf.
      * exists k, y. cbn. by rewrite lookup_alter_ne by done.
  - case_bool_decide; [done|]. destruct (insert_row _ _ _) as [t'|] eqn:Ei; [|done].
    injection H as <- <-. apply insert_row_ok in Ei as [Hnone ->]. split.
    + eexists fresh, _. cbn. rewrite lookup_insert_eq. split; [done|]. unfold world_key. cbn.
      rewrite N.eqb_refl, String.eqb_refl. split; [done|]. destruct (String.eqb_spec active ""); done.
    + intros name (k & y & Hy & Hr). exists k, y. cbn. rewrite lookup_insert_ne by congruence. done.
Qed.

Lemma sync_loop_listed sid active l w w' :
  sync_loop sid l active w = (Ok tt, w') ->
  (forall name, listed sid active name (w_db w) -> listed sid active name (w_db w'))
  /\ forall sw, sw ∈ l -> isSafeWorldName (sw_Name sw) = true -> listed sid active (sw_Name sw) (w_db w').
Proof.
  revert w. induction l as [|sw l IH]; simpl; intros w H.
  { apply ret_inv in H as [_ ->]. split; [done|]. intros sw Hsw. by apply not_elem_of_nil in Hsw. }
  destruct (isSafeWorldName (sw_Name sw)) eqn:Hs.
  - apply bind_ok in H as (fresh & w1 & (_ & Hd & _)%rand_inv & H).
    apply bind_ok in H as (t & w2 & [_ ->]%now_inv & H).
    apply bind_ok in H as ([] & w3 & Hu%wrap_ok%exec_ok & H).
    apply upsert_world_listed in Hu as [Hnew Hold]. rewrite Hd in Hold. apply IH in H as [Hkeep Hall].
    split; [by auto|]. intros s [->|Hin]%elem_of_cons Hsafe; auto.
  - apply IH in H as [Hkeep Hall]. split; [done|].
    intros s [->|Hin]%elem_of_cons Hsafe; [congruence | auto].
Qed.

(** After a report that succeeds every reported world with a safe name has a
    row, and with a known active world its flag says whether it is the active
    one; an unsafe active world counts as unknown. *)
Theorem sync_worlds_listed (sid : uuid) (l : list ScannedWorld) (active : string) (w w' : World)
    (sw : ScannedWorld) :
  SyncWorlds sid l active w = (Ok tt, w') -> sw ∈ l -> isSafeWorldName (sw_Name sw) = true ->
  exists k x, worlds (w_db w') !! k = Some x /\ world_ServerID x = sid
    /\ world_Name x = sw_Name sw
    /\ (isSafeWorldName active = true -> world_IsActive x = String.eqb (sw_Name sw) active).
Proof.
  unfold SyncWorlds. cbv zeta. intros H Hin Hs.
  set (a := if isSafeWorldName active then active else "") in *.
  apply bind_ok in H as ([] & w1 & [_ Hall]%sync_loop_listed & H).
  destruct (Hall _ Hin Hs) as (k & x & Hk & Hkey & Hact).
  assert (Hw : worlds (w_db w') = worlds (w_db w1)).
  { destruct (String.eqb a ""); [by apply ret_inv in H as [_ ->]|].
    apply bind_ok in H as (t & w2 & [_ ->]%now_inv & H). apply ignore_inv in H as (_ & r0 & H).
    apply exec_inv in H as (_ & _ & _ & _ & [(? & d & _ & [= <- <-] & ->)|(? & _ & -> & _)]); done. }
  exists k, x. rewrite Hw. unfold world_key in Hkey. breflect. split_and!; try done.
  intros Hsa. unfold a in Hact. rewrite Hsa in Hact. apply Hact.
  by destruct (safe_world_component _ Hsa) as (? & _).
Qed.

(** Rows the report does not mention keep their flag: when the active world
    disappears from the disk and the server boots into another one, both are
    marked active and the one that is gone can no longer be removed. *)
Theorem sync_keeps_stale_flag :
  let w1 := snd (SyncWorlds 3 [mkScannedWorld "lobby" 20] "lobby" worlds_world) in
  world_IsActive <$> worlds (w_db w1) !! 21%N = Some true
  /\ world_IsActive <$> worlds (w_db w1) !! 22%N = Some true
  /\ fst (DeleteWorld 3 21 w1) = Err ErrWorldActive.
Proof. split_and!; by vm_compute. Qed.
