(* ===== verification/Net.v ===== *)
(** * Addresses: webhook targets, node hosts, file names

    Models [alerting/safehttp.go] and the address and file name helpers of
    [daemon/host.go], on the parts of [net], [net/netip] and [path] they use.
    [url.Parse] is a parameter: the checks hold for every parser. *)

From stdpp Require Import base numbers list strings option.
From Stdlib Require Import Ascii DecimalString DecimalFacts.
From S2P Require Import Prelude GoStrings Store.

Local Open Scope Z_scope.

(** ** net/netip *)

(** [netip.Addr]: the number of the address, and the zone of an IPv6 one
    (empty when there is none). *)
Inductive Addr :=
| Addr4 (ip : Z)
| Addr6 (ip : Z) (zone : string).

(** A field of a dotted quad: decimal, at most 255, no leading zero. *)
Definition octet (s : string) : option Z :=
  match s with
  | String a (String _ _) => if Ascii.eqb a "0" then None else
      match parse_digits s with Some v => if v <=? 255 then Some v else None | None => None end
  | _ => match parse_digits s with Some v => if v <=? 255 then Some v else None | None => None end
  end.

Definition parseIPv4Fields (s : string) : option (list Z) :=
  match Split "." s with
  | [a; b; c; d] =>
    match octet a, octet b, octet c, octet d with
    | Some a, Some b, Some c, Some d => Some [a; b; c; d]
    | _, _, _, _ => None
    end
  | _ => None
  end.

Definition hex_val (a : ascii) : option Z :=
  let c := byte_of a in
  if in_range 48 57 c then Some (c - 48)
  else if in_range 97 102 c then Some (c - 97 + 10)
  else if in_range 65 70 c then Some (c - 65 + 10)
  else None.

(** Hex digits from position [off]: their count, value and the rest. *)
Fixpoint hex_group (off : nat) (acc : Z) (s : string) : option (nat * Z * string) :=
  match s with
  | EmptyString => Some (off, acc, s)
  | String a s' =>
    match hex_val a with
    | None => Some (off, acc, s)
    | Some d =>
      let acc' := 16 * acc + d in
      if (3 <? Z.of_nat off) || (65535 <? acc') then None else hex_group (S off) acc' s'
    end
  end.

Definition head_is (c : ascii) (s : string) : bool :=
  match s with String a _ => Ascii.eqb a c | EmptyString => false end.

(** The loop over the groups of an IPv6 address; each round adds two bytes, so
    eight rounds fill the sixteen. *)
Fixpoint groups (fuel : nat) (ip : list Z) (ellipsis : option nat) (s : string)
  : option (list Z * option nat * string) :=
  match fuel with
  | O => Some (ip, ellipsis, s)
  | S fuel' =>
    match hex_group 0 0 s with
    | None => None
    | Some (off, acc, rest) =>
      if (off =? 0)%nat then None
      else if head_is "." rest then
        if bool_decide (ellipsis = None) && negb (length ip =? 12)%nat then None
        else if (16 <? length ip + 4)%nat then None
        else match parseIPv4Fields s with
             | Some f => Some (ip ++ f, ellipsis, "")
             | None => None
             end
      else
        let ip' := ip ++ [acc / 256; acc mod 256] in
        match rest with
        | EmptyString => Some (ip', ellipsis, "")
        | String c s1 =>
          if negb (Ascii.eqb c ":") then None
          else match s1 with
          | EmptyString => None
          | String c2 s2 =>
            if Ascii.eqb c2 ":" then
              match ellipsis with
              | Some _ => None
              | None => if String.eqb s2 "" then Some (ip', Some (length ip'), "")
                        else groups fuel' ip' (Some (length ip')) s2
              end
            else groups fuel' ip' ellipsis s1
          end
        end
    end
  end.

Definition bytes_val (l : list Z) : Z := fold_left (fun a b => 256 * a + b) l 0.

(** The bytes of the address once the text is used up: the ellipsis expands to
    at least one group. *)
Definition expand (ip : list Z) (ellipsis : option nat) (s : string) : option Z :=
  if negb (String.eqb s "") then None
  else if (length ip <? 16)%nat then
    match ellipsis with
    | None => None
    | Some e => Some (bytes_val (take e ip ++ repeat 0 (16 - length ip) ++ drop e ip))
    end
  else match ellipsis with
       | Some _ => None
       | None => Some (bytes_val ip)
       end.

Definition parseIPv6 (text : string) : option Addr :=
  match match cut "%" text with
        | Some (s, zone) => if String.eqb zone "" then None else Some (s, zone)
        | None => Some (text, "")
        end with
  | None => None
  | Some (s, zone) =>
    let '(ellipsis, s1) := if HasPrefix s "::" then (Some O, str_drop 2 s) else (None, s) in
    if HasPrefix s "::" && String.eqb s1 "" then Some (Addr6 0 zone)
    else match groups 8 [] ellipsis s1 with
    | None => None
    | Some (ip, e, rest) =>
      match expand ip e rest with
      | Some v => Some (Addr6 v zone)
      | None => None
      end
    end
  end.

(** The first of '.', ':' and '%' decides the family. *)
Fixpoint family (s : string) : option ascii :=
  match s with
  | EmptyString => None
  | String a s' => if Ascii.eqb a "." || Ascii.eqb a ":" || Ascii.eqb a "%" then Some a else family s'
  end.

Definition ParseAddr (s : string) : option Addr :=
  match family s with
  | Some a =>
    if Ascii.eqb a "." then
      match parseIPv4Fields s with Some f => Some (Addr4 (bytes_val f)) | None => None end
    else if Ascii.eqb a ":" then parseIPv6 s
    else None
  | None => None
  end.

Definition Zone (a : Addr) : string := match a with Addr4 _ => "" | Addr6 _ z => z end.

(** [Unmap]: ::ffff:0:0/96 as IPv4. *)
Definition Unmap (a : Addr) : Addr :=
  match a with
  | Addr6 ip _ => if Z.shiftr ip 32 =? 65535 then Addr4 (ip mod 2 ^ 32) else a
  | _ => a
  end.

(** Byte [i] of an IPv4 address, and 16-bit group [i] of an IPv6 one. *)
Definition v4 (ip i : Z) : Z := Z.shiftr ip (8 * (3 - i)) mod 256.
Definition v6u16 (ip i : Z) : Z := Z.shiftr ip (16 * (7 - i)) mod 65536.

Definition IsLoopback (a : Addr) : bool :=
  match a with Addr4 ip => v4 ip 0 =? 127 | Addr6 ip _ => ip =? 1 end.

Definition IsPrivate (a : Addr) : bool :=
  match a with
  | Addr4 ip => (v4 ip 0 =? 10) || ((v4 ip 0 =? 172) && (Z.land (v4 ip 1) 240 =? 16))
                || ((v4 ip 0 =? 192) && (v4 ip 1 =? 168))
  | Addr6 ip _ => Z.land (v6u16 ip 0 / 256) 254 =? 252
  end.

Definition IsLinkLocalUnicast (a : Addr) : bool :=
  match a with
  | Addr4 ip => (v4 ip 0 =? 169) && (v4 ip 1 =? 254)
  | Addr6 ip _ => Z.land (v6u16 ip 0) 65472 =? 65152
  end.

Definition IsLinkLocalMulticast (a : Addr) : bool :=
  match a with
  | Addr4 ip => (v4 ip 0 =? 224) && (v4 ip 1 =? 0) && (v4 ip 2 =? 0)
  | Addr6 ip _ => Z.land (v6u16 ip 0) 65295 =? 65282
  end.

Definition IsInterfaceLocalMulticast (a : Addr) : bool :=
  match a with Addr4 _ => false | Addr6 ip _ => Z.land (v6u16 ip 0) 65295 =? 65281 end.

Definition IsMulticast (a : Addr) : bool :=
  match a with
  | Addr4 ip => Z.land (v4 ip 0) 240 =? 224
  | Addr6 ip _ => v6u16 ip 0 / 256 =? 255
  end.

(** Equality with 0.0.0.0 or ::, zone included. *)
Definition IsUnspecified (a : Addr) : bool :=
  match a with
  | Addr4 ip => ip =? 0
  | Addr6 ip zone => (ip =? 0) && String.eqb zone ""
  end.

(** [netip.Prefix] and [Contains]: an address with a zone is in no prefix. *)
Record Prefix := mkPrefix { prefix_addr : Addr; prefix_bits : Z }.

Definition Contains (p : Prefix) (a : Addr) : bool :=
  match prefix_addr p, a with
  | Addr4 b, Addr4 ip => Z.shiftr (Z.lxor ip b) (32 - prefix_bits p) =? 0
  | Addr6 b _, Addr6 ip zone =>
    String.eqb zone "" && (Z.shiftr (Z.lxor ip b) (128 - prefix_bits p) =? 0)
  | _, _ => false
  end.

(** ** alerting/safehttp.go *)

Definition ip4 (a b c d : Z) : Addr := Addr4 (bytes_val [a; b; c; d]).

Definition cgnat : Prefix := mkPrefix (ip4 100 64 0 0) 10.
Definition nat64 : Prefix := mkPrefix (Addr6 (Z.shiftl 0x64ff9b 96) "") 96.
Definition thisNet : Prefix := mkPrefix (ip4 0 0 0 0) 8.
Definition benchmark : Prefix := mkPrefix (ip4 198 18 0 0) 15.
Definition reserved : Prefix := mkPrefix (ip4 240 0 0 0) 4.
Definition ietf : Prefix := mkPrefix (ip4 192 0 0 0) 24.

Definition IsPublicAddr (addr0 : Addr) : bool :=
  let addr := Unmap addr0 in
  if IsLoopback addr || IsPrivate addr || IsLinkLocalUnicast addr || IsLinkLocalMulticast addr
     || IsInterfaceLocalMulticast addr || IsMulticast addr || IsUnspecified addr
  then false
  else if existsb (fun p => Contains p addr) [cgnat; nat64; thisNet; benchmark; reserved; ietf]
  then false
  else match addr with
       | Addr4 ip => negb (ip =? bytes_val [255; 255; 255; 255])
       | Addr6 _ _ => true
       end.

Definition ErrInvalidWebhookURL : error := ErrNew "invalid webhook url".

Definition discordWebhookHosts : list string :=
  ["discord.com"; "discordapp.com"; "ptb.discord.com"; "canary.discord.com"].

(** What the checks read of a [url.URL]. *)
Record URL := mkURL {
  url_Scheme : string;
  url_HasUser : bool;
  url_Hostname : string;
  url_Port : string;
  url_EscapedPath : string;
  url_Host : string;
  url_Path : string
}.

Definition str_contains (c : ascii) (s : string) : bool :=
  negb (bool_decide (cut c s = None)).

Definition ValidateWebhookURL `{Unicode} (url_parse : string -> option URL)
    (raw : string) (channels : list string) : res error unit :=
  let needsWebhook := contains channels "webhook" in
  let needsDiscord := contains channels "discord" in
  let bad_ why := Err (ErrDetail ErrInvalidWebhookURL why) in
  if String.eqb raw "" then
    if needsWebhook || needsDiscord
    then bad_ "webhook_url is required for webhook/discord channels" else Ok tt
  else if 2048 <? len raw then bad_ "too long"
  else match url_parse raw with
  | None => bad_ "unparseable"
  | Some u =>
    if negb (String.eqb (url_Scheme u) "https") then bad_ "only https URLs are allowed"
    else if url_HasUser u then bad_ "credentials in URL are not allowed"
    else
      let host := ToLower (url_Hostname u) in
      if String.eqb host "" then bad_ "missing host"
      else if negb (String.eqb (url_Port u) "") && negb (String.eqb (url_Port u) "443")
      then bad_ "only the default https port is allowed"
      else match
        match ParseAddr host with
        | Some addr => if negb (IsPublicAddr addr) then Some "address is not public" else None
        | None =>
          if String.eqb host "localhost" || HasSuffix host ".localhost"
             || negb (str_contains "." host)
          then Some "host is not public" else None
        end with
      | Some why => bad_ why
      | None =>
        if needsDiscord
           && (negb (contains discordWebhookHosts host)
               || negb (HasPrefix (url_EscapedPath u) "/api/webhooks/"))
        then bad_ "discord channel requires a https://discord.com/api/webhooks/... URL"
        else Ok tt
      end
  end.

(** [net.SplitHostPort]. *)
Fixpoint cut_last (c : ascii) (s : string) : option (string * string) :=
  match s with
  | EmptyString => None
  | String a s' =>
    match cut_last c s' with
    | Some (p, q) => Some (String a p, q)
    | None => if Ascii.eqb a c then Some (EmptyString, s') else None
    end
  end.

Definition SplitHostPort (hostport : string) : option (string * string) :=
  match cut_last ":" hostport with
  | None => None
  | Some (before, port) =>
    if head_is "[" hostport then
      match cut "]" (str_drop 1 hostport) with
      | None => None
      | Some (host, after) =>
        if String.eqb after (":" +:+ port) && negb (str_contains "[" (str_drop 1 hostport))
           && negb (str_contains "]" after)
        then Some (host, port) else None
      end
    else if str_contains ":" before || str_contains "[" hostport || str_contains "]" hostport
    then None else Some (before, port)
  end.

(** The hook of the dialer, on the address after name resolution. *)
Definition safeDialControl (address : string) : res error unit :=
  match SplitHostPort address with
  | None => Err (ErrNew "webhook dial: missing port in address")
  | Some (host, _) =>
    match ParseAddr host with
    | None => Err (ErrNew "webhook dial: unparseable address")
    | Some addr => if negb (IsPublicAddr addr)
                   then Err (ErrNew "webhook dial: refusing non-public address") else Ok tt
    end
  end.

(** ** daemon/host.go *)

Definition ErrInvalidNodeAddress : error := ErrNew "invalid node address".

Definition label_rune (r : Z) : bool :=
  in_range 97 122 r || in_range 65 90 r || in_range 48 57 r || (r =? 45) || (r =? 95).

Definition last_byte (s : string) : option ascii :=
  String.get (String.length s - 1) s.

Definition valid_label (label : string) : bool :=
  negb (String.eqb label "" || (63 <? len label) || head_is "-" label
        || bool_decide (last_byte label = Some "-"%char))
  && forallb (fun r => label_rune (rune_val r)) (runes label).

Definition ValidateNodeHost (host0 : string) : res error unit :=
  if String.eqb host0 "" || (253 <? len host0) then Err ErrInvalidNodeAddress
  else
    let host := if HasPrefix host0 "[" && HasSuffix host0 "]"
                then str_take (String.length host0 - 2) (str_drop 1 host0) else host0 in
    match ParseAddr host with
    | Some addr => if negb (String.eqb (Zone addr) "") then Err ErrInvalidNodeAddress else Ok tt
    | None => if forallb valid_label (Split "." host) then Ok tt else Err ErrInvalidNodeAddress
    end.

Definition ValidateNodePort (port : Z) : res error unit :=
  if (port <? 1) || (65535 <? port) then Err ErrInvalidNodeAddress else Ok tt.

(** [strconv.Itoa]. *)
Definition Itoa (z : Z) : string := NilZero.string_of_int (Z.to_int z).

(** [net.JoinHostPort]. *)
Definition JoinHostPort (host port : string) : string :=
  if str_contains ":" host then "[" +:+ host +:+ "]:" +:+ port else host +:+ ":" +:+ port.

(** [url.URL{Scheme, Host}.String()]; a validated host has no byte that
    [String] would escape. *)
Definition baseURLWithScheme (scheme host0 : string) (port : Z) : res error string :=
  match ValidateNodeHost host0 with
  | Err e => Err e
  | Ok _ =>
    match ValidateNodePort port with
    | Err e => Err e
    | Ok _ =>
      let host := TrimSuffix (TrimPrefix host0 "[") "]" in
      Ok (scheme +:+ "://" +:+ JoinHostPort host (Itoa port))
    end
  end.

Definition BaseURL (host : string) (port : Z) : res error string :=
  baseURLWithScheme "http" host port.

(** [path.Base]. *)
Fixpoint strip_slashes (s : string) : string :=
  match s with
  | EmptyString => EmptyString
  | String a s' =>
    match strip_slashes s' with
    | EmptyString => if Ascii.eqb a "/" then EmptyString else String a EmptyString
    | t => String a t
    end
  end.

Definition path_Base (p : string) : string :=
  if String.eqb p "" then "."
  else
    let p1 := strip_slashes p in
    let p2 := match cut_last "/" p1 with Some (_, q) => q | None => p1 end in
    if String.eqb p2 "" then "/" else p2.

(** [strings.ReplaceAll] of one byte. *)
Fixpoint replace_byte (a b : ascii) (s : string) : string :=
  match s with
  | EmptyString => EmptyString
  | String c s' => String (if Ascii.eqb c a then b else c) (replace_byte a b s')
  end.

Definition SanitizeFilename (name0 : string) : string :=
  let name := Map (fun r => if (r <? 32) || (r =? 127) then None else Some r) name0 in
  let name := path_Base (replace_byte "\" "/" name) in
  if String.eqb name "." || String.eqb name "/" || String.eqb name ".." then "" else name.

(** ** Theorems: public addresses *)

(** The special-purpose blocks a webhook must not reach, as (IPv6?, base,
    bits). *)
Definition special_blocks : list (bool * Z * Z) :=
  [(false, bytes_val [0; 0; 0; 0], 8); (false, bytes_val [10; 0; 0; 0], 8);
   (false, bytes_val [100; 64; 0; 0], 10); (false, bytes_val [127; 0; 0; 0], 8);
   (false, bytes_val [169; 254; 0; 0], 16); (false, bytes_val [172; 16; 0; 0], 12);
   (false, bytes_val [192; 0; 0; 0], 24); (false, bytes_val [192; 168; 0; 0], 16);
   (false, bytes_val [198; 18; 0; 0], 15); (false, bytes_val [224; 0; 0; 0], 4);
   (false, bytes_val [240; 0; 0; 0], 4);
   (true, 0, 128); (true, 1, 128); (true, Z.shiftl 0x64ff9b 96, 96);
   (true, Z.shiftl 0xfc 120, 7); (true, Z.shiftl 0xfe80 112, 10); (true, Z.shiftl 0xff 120, 8)].

(** The addresses of a block share their first bits. *)
Definition in_block (a : Addr) (b : bool * Z * Z) : bool :=
  match a, b with
  | Addr4 ip, (false, base, bits) => ip / 2 ^ (32 - bits) =? base / 2 ^ (32 - bits)
  | Addr6 ip _, (true, base, bits) => ip / 2 ^ (128 - bits) =? base / 2 ^ (128 - bits)
  | _, _ => false
  end.

Definition special (a : Addr) : bool := existsb (in_block a) special_blocks.

(** An address as [netip] builds it. *)
Definition wf_addr (a : Addr) : Prop :=
  match a with Addr4 ip => 0 <= ip < 2 ^ 32 | Addr6 ip _ => 0 <= ip < 2 ^ 128 end.

(** The mask tests of [netip] as divisions. *)
Lemma byte_table (f g : Z -> bool) (b : Z) :
  forallb (fun n => Bool.eqb (f (Z.of_nat n)) (g (Z.of_nat n))) (seq 0 256) = true ->
  0 <= b < 256 -> f b = g b.
Proof.
  intros H Hb. rewrite forallb_forall in H. specialize (H (Z.to_nat b)).
  rewrite Z2Nat.id in H by lia. apply eqb_prop, H, in_seq. lia.
Qed.

Lemma shift_xor_block ip base k :
  0 <= k -> (Z.shiftr (Z.lxor ip base) k =? 0) = (ip / 2 ^ k =? base / 2 ^ k).
Proof.
  intros Hk. rewrite Z.shiftr_lxor, !Z.shiftr_div_pow2 by done.
  destruct (Z.eqb_spec (ip / 2 ^ k) (base / 2 ^ k)) as [-> | Hne].
  - by rewrite Z.lxor_nilpotent.
  - apply Z.eqb_neq. intros H%Z.lxor_eq. done.
Qed.

Lemma v4_first ip : 0 <= ip < 2 ^ 32 -> v4 ip 0 = ip / 2 ^ 24.
Proof.
  intros H. unfold v4. rewrite Z.shiftr_div_pow2 by lia. apply Z.mod_small.
  change (8 * (3 - 0)) with 24. split; [apply Z.div_pos; lia | apply Z.div_lt_upper_bound; lia].
Qed.

Lemma v4_next ip i : 0 <= ip -> 0 <= i <= 3 -> v4 ip i = ip / 2 ^ (24 - 8 * i) mod 256.
Proof.
  intros H Hi. unfold v4. rewrite Z.shiftr_div_pow2 by lia. do 2 f_equal. f_equal. lia.
Qed.

Lemma land_240_16 b : 0 <= b < 256 -> (Z.land b 240 =? 16) = (b / 16 =? 1).
Proof. apply (byte_table (fun b => Z.land b 240 =? 16) (fun b => b / 16 =? 1)). by vm_compute. Qed.

Lemma land_240_224 b : 0 <= b < 256 -> (Z.land b 240 =? 224) = (b / 16 =? 14).
Proof. apply (byte_table (fun b => Z.land b 240 =? 224) (fun b => b / 16 =? 14)). by vm_compute. Qed.

Lemma land_254_252 b : 0 <= b < 256 -> (Z.land b 254 =? 252) = (b / 2 =? 126).
Proof. apply (byte_table (fun b => Z.land b 254 =? 252) (fun b => b / 2 =? 126)). by vm_compute. Qed.

Lemma if_or3 (a b c : bool) :
  (if a then false else if b then false else negb c) = negb (a || b || c).
Proof. by destruct a, b, c. Qed.

Lemma if_or2 (a b : bool) : (if a then false else if b then false else true) = negb (a || b).
Proof. by destruct a, b. Qed.

(** Concrete powers and quotients. *)
Ltac eval_blocks w :=
  unfold bytes_val; cbn [fold_left];
  repeat match goal with |- context [2 ^ (w - ?b)] =>
    let v := eval vm_compute in (2 ^ (w - b)) in change (2 ^ (w - b)) with v end;
  repeat match goal with |- context [?a / ?b =? ?c / ?d] =>
    let v := eval vm_compute in (c / d) in change (c / d) with v end.

(** Linear arithmetic with division by constants. *)
Ltac div_lia := zify; Z.to_euclidean_division_equations; lia.

Lemma public_v4 ip :
  0 <= ip < 2 ^ 32 -> IsPublicAddr (Addr4 ip) = negb (special (Addr4 ip)).
Proof.
  intros H. unfold IsPublicAddr, special. cbn [Unmap IsLoopback IsPrivate IsLinkLocalUnicast
    IsLinkLocalMulticast IsInterfaceLocalMulticast IsMulticast IsUnspecified existsb special_blocks
    Contains cgnat nat64 thisNet benchmark reserved ietf prefix_addr prefix_bits ip4 in_block].
  rewrite !shift_xor_block, if_or3 by lia. f_equal.
  rewrite v4_first, !v4_next by lia. rewrite land_240_16, land_240_224; cycle 1.
  { split; [apply Z.div_pos; lia | apply Z.div_lt_upper_bound; lia]. }
  { apply Z.mod_pos_bound; lia. }
  change (24 - 8 * 1) with 16. change (24 - 8 * 2) with 8. eval_blocks 32.
  change (2 ^ 24) with 16777216. change (2 ^ 16) with 65536.
  assert (E1 : (ip / 16777216 =? 172) && ((ip / 65536) mod 256 / 16 =? 1) = (ip / 1048576 =? 2753)) by (clear - H; div_lia).
  assert (E2 : (ip / 16777216 =? 192) && ((ip / 65536) mod 256 =? 168) = (ip / 65536 =? 49320)) by (clear - H; div_lia).
  assert (E3 : (ip / 16777216 =? 169) && ((ip / 65536) mod 256 =? 254) = (ip / 65536 =? 43518)) by (clear - H; div_lia).
  assert (E4 : (ip / 16777216 / 16 =? 14) = (ip / 268435456 =? 14)) by (clear - H; div_lia).
  assert (E5 : (ip / 16777216 =? 224) && ((ip / 65536) mod 256 =? 0) && ((ip / 2 ^ 8) mod 256 =? 0)
               = true -> (ip / 268435456 =? 14) = true) by (clear - H; div_lia).
  assert (E6 : (ip =? 0) = true -> (ip / 16777216 =? 0) = true) by (clear - H; div_lia).
  assert (E7 : (ip =? 256 * (256 * (256 * (256 * 0 + 255) + 255) + 255) + 255) = true ->
               (ip / 268435456 =? 15) = true) by (clear - H; div_lia).
  rewrite E1, E2, E3, E4. clear E1 E2 E3 E4. apply eq_iff_eq_true. rewrite !orb_true_iff.
  intuition congruence.
Qed.

(** Masks of a 16-bit group. *)
Lemma land_shift u m k : 0 <= k -> Z.land u m / 2 ^ k = Z.land (u / 2 ^ k) (m / 2 ^ k).
Proof. intros Hk. by rewrite <- !Z.shiftr_div_pow2, Z.shiftr_land by done. Qed.

Lemma land_small u k : 0 <= k -> 0 <= u < 2 ^ k -> Z.land u (Z.ones k) = u.
Proof. intros Hk Hu. rewrite Z.land_ones by done. by apply Z.mod_small. Qed.

Lemma fe80_mask u : 0 <= u < 65536 -> (Z.land u 65472 =? 65152) = (u / 64 =? 1018).
Proof.
  intros Hu. apply eq_iff_eq_true. rewrite !Z.eqb_eq. split.
  - intros H%(f_equal (fun x => x / 2 ^ 6)). rewrite land_shift in H by lia.
    change (65472 / 2 ^ 6) with (Z.ones 10) in H. rewrite land_small in H; [exact H | lia|].
    split; [apply Z.div_pos; lia | apply Z.div_lt_upper_bound; lia].
  - intros H.
    assert (Hr : exists r, u = 65152 + Z.of_nat r /\ (r < 64)%nat).
    { exists (Z.to_nat (u - 65152)). pose proof (Z.div_mod u 64). pose proof (Z.mod_pos_bound u 64). lia. }
    destruct Hr as (r & -> & Hr). do 64 (destruct r as [|r]; [by vm_compute|]). lia.
Qed.

Lemma ff_mask u v : 0 <= u < 65536 -> v / 256 = 255 -> Z.land u 65295 = v -> u / 256 = 255.
Proof.
  intros Hu Hv H%(f_equal (fun x => x / 2 ^ 8)). rewrite land_shift in H by lia.
  change (65295 / 2 ^ 8) with (Z.ones 8) in H. rewrite land_small in H; [|lia|].
  - change (2 ^ 8) with 256 in H. congruence.
  - split; [apply Z.div_pos; lia | apply Z.div_lt_upper_bound; lia].
Qed.

Lemma v6_first ip : 0 <= ip < 2 ^ 128 -> v6u16 ip 0 = ip / 2 ^ 112 /\ 0 <= ip / 2 ^ 112 < 65536.
Proof.
  intros H. unfold v6u16. rewrite Z.shiftr_div_pow2 by lia. change (16 * (7 - 0)) with 112.
  assert (0 <= ip / 2 ^ 112 < 65536) by (split; [apply Z.div_pos; lia | apply Z.div_lt_upper_bound; lia]).
  split; [by apply Z.mod_small | done].
Qed.

Lemma public_v6 ip :
  0 <= ip < 2 ^ 128 -> ip / 2 ^ 32 <> 65535 ->
  IsPublicAddr (Addr6 ip "") = negb (special (Addr6 ip "")).
Proof.
  intros H Hm. unfold IsPublicAddr, special, Unmap.
  rewrite Z.shiftr_div_pow2 by lia. apply Z.eqb_neq in Hm. rewrite Hm.
  cbn [IsLoopback IsPrivate IsLinkLocalUnicast
    IsLinkLocalMulticast IsInterfaceLocalMulticast IsMulticast IsUnspecified existsb special_blocks
    Contains cgnat nat64 thisNet benchmark reserved ietf prefix_addr prefix_bits ip4 in_block].
  rewrite !shift_xor_block by lia. rewrite if_or2. f_equal.
  destruct (v6_first ip H) as [-> Hu].
  assert (Hb : 0 <= ip / 2 ^ 112 / 256 < 256)
    by (split; [apply Z.div_pos; lia | apply Z.div_lt_upper_bound; lia]).
  rewrite fe80_mask, land_254_252 by done.
  change (String.eqb "" "") with true.
  assert (E1 : ip / 2 ^ 112 / 256 / 2 = ip / 2 ^ 121) by (rewrite !Z.div_div by lia; done).
  assert (E2 : ip / 2 ^ 112 / 64 = ip / 2 ^ 118) by (rewrite !Z.div_div by lia; done).
  assert (E3 : ip / 2 ^ 112 / 256 = ip / 2 ^ 120) by (rewrite !Z.div_div by lia; done).
  assert (E4 : (Z.land (ip / 2 ^ 112) 65295 =? 65282) = true -> (ip / 2 ^ 112 / 256 =? 255) = true).
  { rewrite !Z.eqb_eq. by apply ff_mask. }
  assert (E5 : (Z.land (ip / 2 ^ 112) 65295 =? 65281) = true -> (ip / 2 ^ 112 / 256 =? 255) = true).
  { rewrite !Z.eqb_eq. by apply ff_mask. }
  rewrite E1, E2. rewrite E3 in *. clear E1 E2 E3.
  change (128 - 128) with 0. change (128 - 7) with 121. change (128 - 10) with 118.
  change (128 - 8) with 120. rewrite !Z.div_1_r.
  change (Z.shiftl 252 120 / 2 ^ 121) with 126. change (Z.shiftl 65152 112 / 2 ^ 118) with 1018.
  change (Z.shiftl 255 120 / 2 ^ 120) with 255. cbn [andb].
  apply eq_iff_eq_true. rewrite !orb_true_iff, !andb_true_iff. intuition congruence.
Qed.

(** For an address without a zone the check is membership in no block of the
    table, an IPv4-mapped address being judged by its IPv4 form. *)
Lemma public_exact a :
  wf_addr a -> Zone a = "" -> IsPublicAddr a = negb (special (Unmap a)).
Proof.
  destruct a as [ip|ip z]; cbn [wf_addr Zone]; intros H Hz; [by apply public_v4|]. subst z.
  destruct (Z.shiftr ip 32 =? 65535) eqn:Hm.
  - assert (E : Unmap (Addr6 ip "") = Addr4 (ip mod 2 ^ 32)) by (unfold Unmap; by rewrite Hm).
    rewrite E, <- public_v4 by (apply Z.mod_pos_bound; lia).
    unfold IsPublicAddr. rewrite E. reflexivity.
  - assert (E : Unmap (Addr6 ip "") = Addr6 ip "") by (unfold Unmap; by rewrite Hm).
    rewrite E. apply public_v6; [done|]. rewrite Z.shiftr_div_pow2 in Hm by lia. by apply Z.eqb_neq.
Qed.

(** The hole of the check: [netip] compares an address with a zone to :: and to
    64:ff9b::/96 and never finds it equal or contained. *)
Definition zone_hole (a : Addr) : Prop :=
  Zone a <> "" /\ exists ip, (a = Addr6 ip (Zone a)) /\ (ip = 0 \/ ip / 2 ^ 32 = 0x64ff9b * 2 ^ 64).

(** An address that passes lies in no block, its zone not regarded, or in the
    hole. *)
Lemma public_strict a : wf_addr a -> IsPublicAddr a = true -> special (Unmap a) = false \/ zone_hole a.
Proof.
  destruct a as [ip|ip z]; intros Hwf Hp.
  { left. rewrite public_exact in Hp by done. by apply negb_true_iff. }
  assert (Hs : special (Unmap (Addr6 ip z)) = special (Unmap (Addr6 ip ""))) by (unfold Unmap; by destruct (_ =? 65535)).
  assert (Hx : IsPublicAddr (Addr6 ip "") = true -> special (Unmap (Addr6 ip z)) = false).
  { intros H. rewrite public_exact in H by done. rewrite Hs. by apply negb_true_iff. }
  destruct (String.eqb_spec z "") as [->|Hz]; [left; by apply Hx|].
  destruct (Z.eqb_spec ip 0) as [->|H0]; [right; split; [done|]; exists 0; auto|].
  destruct (Z.eqb_spec (ip / 2 ^ 32) (0x64ff9b * 2 ^ 64)) as [Hn|Hn]; [right; split; [done|]; exists ip; auto|].
  left. apply Hx. apply Z.eqb_neq in H0, Hn.
  assert (Hnat : (Z.shiftr (Z.lxor ip (Z.shiftl 0x64ff9b 96)) 32 =? 0) = false) by (by rewrite shift_xor_block by lia).
  unfold IsPublicAddr, Unmap in *. destruct (Z.shiftr ip 32 =? 65535); [exact Hp|].
  cbn [existsb Contains cgnat nat64 thisNet benchmark reserved ietf prefix_addr prefix_bits ip4 IsUnspecified] in *.
  change (128 - 96) with 32 in *. rewrite Hnat, H0, !andb_false_r in *. exact Hp.
Qed.

(** ** Parsed addresses are well formed *)

Definition bytes (l : list Z) : Prop := Forall (fun b => 0 <= b < 256) l.

Lemma bytes_val_bound l : bytes l -> 0 <= bytes_val l < 256 ^ Z.of_nat (length l).
Proof.
  unfold bytes_val. intros H.
  assert (G : forall l acc k, bytes l -> 0 <= k -> 0 <= acc < 256 ^ k ->
    0 <= fold_left (fun a b => 256 * a + b) l acc < 256 ^ (k + Z.of_nat (length l))).
  { clear. induction l as [|b l IH]; simpl; intros acc k Hl Hk Ha.
    - by rewrite Z.add_0_r.
    - inversion Hl as [|? ? Hb Hl']; subst.
      replace (k + Z.of_nat (S (length l))) with (Z.succ k + Z.of_nat (length l)) by lia.
      apply IH; [done | lia|]. rewrite Z.pow_succ_r by lia. lia. }
  specialize (G l 0 0 H). rewrite Z.add_0_l in G. apply G; lia.
Qed.

Lemma octet_byte s v : octet s = Some v -> 0 <= v < 256.
Proof.
  assert (D : forall s acc v, 0 <= acc -> digits_val acc s = Some v -> 0 <= v).
  { clear. induction s as [|a s IH]; cbn [digits_val]; intros acc v Ha H; [congruence|].
    destruct (in_range 0 9 _) eqn:E; [|done]. unfold in_range in E. breflect.
    eapply IH; [|exact H]. lia. }
  assert (P : forall s v, parse_digits s = Some v -> 0 <= v).
  { intros t u H. unfold parse_digits in H. destruct t; [done|]. eapply D; [|exact H]. lia. }
  unfold octet. intros H.
  assert (Hp : exists u, parse_digits s = Some u /\ (if u <=? 255 then Some u else None) = Some v).
  { destruct s as [|a [|b s]]; [done|..]; [|destruct (Ascii.eqb a "0"); [done|]];
      destruct (parse_digits _) as [u|] eqn:Hu; eauto; done. }
  destruct Hp as (u & Hu%P & Hv). destruct (u <=? 255) eqn:E; [|done]. injection Hv as <-. breflect. lia.
Qed.

Lemma parseIPv4Fields_bytes s f : parseIPv4Fields s = Some f -> bytes f /\ length f = 4%nat.
Proof.
  unfold parseIPv4Fields. destruct (Split "." s) as [|a [|b [|c [|d []]]]]; try done.
  destruct (octet a) eqn:Ha, (octet b) eqn:Hb, (octet c) eqn:Hc, (octet d) eqn:Hd; try done.
  intros [= <-]. split; [|done]. repeat constructor; by eapply octet_byte.
Qed.

Lemma hex_group_bound s off acc off' acc' r :
  0 <= acc < 65536 -> hex_group off acc s = Some (off', acc', r) -> 0 <= acc' < 65536.
Proof.
  revert off acc. induction s as [|a s IH]; cbn [hex_group]; intros off acc Ha H; [congruence|].
  destruct (hex_val a) as [d|] eqn:Hd; [|congruence].
  destruct (_ || _) eqn:E; [done|]. breflect. apply IH in H; [done|].
  assert (0 <= d) by (unfold hex_val, in_range in Hd; case_ifs; simplify_eq; breflect; lia). lia.
Qed.

Lemma bytes_app l l' : bytes l -> bytes l' -> bytes (l ++ l').
Proof. intros. by apply Forall_app. Qed.

Lemma group_bytes acc : 0 <= acc < 65536 -> bytes [acc / 256; acc mod 256].
Proof.
  intros H. repeat constructor; try apply Z.mod_pos_bound; try lia;
    [apply Z.div_pos; lia | apply Z.div_lt_upper_bound; lia].
Qed.

Lemma groups_bytes fuel ip e s ip' e' r :
  bytes ip -> (length ip + 2 * fuel = 16)%nat -> groups fuel ip e s = Some (ip', e', r) ->
  bytes ip' /\ (length ip' <= 16)%nat.
Proof.
  revert ip e s. induction fuel as [|fuel IH]; cbn [groups]; intros ip e s Hb Hl H.
  { assert (ip' = ip) as -> by congruence. split; [done | lia]. }
  destruct (hex_group 0 0 s) as [[[off acc] rest]|] eqn:Hg; [|done].
  apply hex_group_bound in Hg; [|lia]. destruct (off =? 0)%nat; [done|].
  destruct (head_is "." rest).
  { destruct (_ && _); [done|]. destruct (16 <? length ip + 4)%nat eqn:H16; [done|].
    destruct (parseIPv4Fields s) as [f|] eqn:Hf; [|done].
    apply parseIPv4Fields_bytes in Hf as [Hf Hlf]. assert (ip' = ip ++ f) as -> by congruence.
    apply Nat.ltb_ge in H16. rewrite length_app. split; [by apply bytes_app | lia]. }
  cbv zeta in H. remember (ip ++ [acc / 256; acc mod 256]) as ip1 eqn:E1.
  assert (Hb1 : bytes ip1) by (subst ip1; apply bytes_app, group_bytes; done).
  assert (Hl1 : length ip1 = (length ip + 2)%nat) by (subst ip1; by rewrite length_app).
  assert (Hdone : forall x y, Some (ip1, x, y) = Some (ip', e', r) -> bytes ip' /\ (length ip' <= 16)%nat).
  { intros x y Hx. assert (ip' = ip1) as -> by congruence. split; [done | lia]. }
  destruct rest as [|c s1]; [by eapply Hdone|]. destruct (negb _); [done|].
  destruct s1 as [|c2 s2]; [done|]. destruct (Ascii.eqb c2 ":").
  - destruct e; [done|]. destruct (String.eqb s2 ""); [by eapply Hdone|].
    eapply IH; [exact Hb1 | lia | exact H].
  - eapply IH; [exact Hb1 | lia | exact H].
Qed.

Lemma expand_bound ip e r v :
  bytes ip -> (length ip <= 16)%nat -> expand ip e r = Some v -> 0 <= v < 2 ^ 128.
Proof.
  intros Hb Hl H. unfold expand in H. change (2 ^ 128) with (256 ^ Z.of_nat 16).
  assert (G : forall l, bytes l -> length l = 16%nat -> Some (bytes_val l) = Some v ->
                        0 <= v < 256 ^ Z.of_nat 16).
  { intros l Hbl Hll [= <-]. rewrite <- Hll. by apply bytes_val_bound. }
  destruct (negb _); [done|]. destruct (length ip <? 16)%nat eqn:E.
  - destruct e as [k|]; [|done]. eapply G; [| |exact H].
    + apply bytes_app; [by apply Forall_take|].
      apply bytes_app; [|by apply Forall_drop].
      generalize (16 - length ip)%nat. intros j. induction j; constructor; [lia | done].
    + apply Nat.ltb_lt in E. rewrite !length_app, repeat_length, length_take, length_drop. lia.
  - destruct e; [done|]. apply Nat.ltb_ge in E. eapply G; [done | lia | exact H].
Qed.

Lemma parseIPv6_wf s a : parseIPv6 s = Some a -> wf_addr a.
Proof.
  unfold parseIPv6. intros H.
  destruct (match cut "%" s with Some _ => _ | None => _ end) as [[t zone]|]; [|done].
  destruct (if HasPrefix t "::" then _ else _) as [e s1].
  destruct (_ && _); [injection H as <-; simpl; lia|].
  destruct (groups 8 [] e s1) as [[[ip e'] r]|] eqn:Hg; [|done].
  apply groups_bytes in Hg as [Hb Hl]; [|constructor | done].
  destruct (expand ip e' r) as [v|] eqn:He; [|done]. injection H as <-.
  by eapply expand_bound.
Qed.

Lemma ParseAddr_wf s a : ParseAddr s = Some a -> wf_addr a.
Proof.
  unfold ParseAddr. destruct (family s) as [c|]; [|done].
  destruct (Ascii.eqb c "."); [|destruct (Ascii.eqb c ":"); [apply parseIPv6_wf | done]].
  destruct (parseIPv4Fields s) as [f|] eqn:Hf; [|done]. intros [= <-].
  apply parseIPv4Fields_bytes in Hf as [Hb Hl]. apply bytes_val_bound in Hb. rewrite Hl in Hb. exact Hb.
Qed.

(** The webhook guards.  The dialer lets a connection through only to an
    address that parses and lies in no special-purpose block: loopback,
    private, shared, link-local (cloud metadata), multicast, benchmark, NAT64
    or reserved, an IPv4-mapped address being judged by its IPv4 form; the
    exceptions are :: and a NAT64 address with a zone.  A stored webhook URL is an https URL without credentials on
    the default port, an IP literal in it obeys the same rule, and a Discord
    channel gets only a webhook path on a Discord host. *)
Theorem webhook_target_guard `{Unicode} (url_parse : string -> option URL) :
  (forall address, safeDialControl address = Ok tt ->
     exists host port a, SplitHostPort address = Some (host, port) /\ ParseAddr host = Some a
       /\ (special (Unmap a) = false \/ zone_hole a))
  /\ (forall raw channels, raw <> "" -> ValidateWebhookURL url_parse raw channels = Ok tt ->
     exists u, url_parse raw = Some u /\ url_Scheme u = "https" /\ url_HasUser u = false
       /\ (url_Port u = "" \/ url_Port u = "443") /\ ToLower (url_Hostname u) <> ""
       /\ (forall a, ParseAddr (ToLower (url_Hostname u)) = Some a ->
             special (Unmap a) = false \/ zone_hole a)
       /\ ("discord" ∈ channels -> ToLower (url_Hostname u) ∈ discordWebhookHosts
             /\ HasPrefix (url_EscapedPath u) "/api/webhooks/" = true)).
Proof.
  assert (G : forall s a, ParseAddr s = Some a -> IsPublicAddr a = true -> special (Unmap a) = false \/ zone_hole a).
  { intros s a Ha%ParseAddr_wf Hp. by apply public_strict. }
  split.
  - intros address Hok. unfold safeDialControl in Hok.
    destruct (SplitHostPort address) as [[host port]|]; [|done].
    destruct (ParseAddr host) as [a|] eqn:Ha; [|done].
    destruct (IsPublicAddr a) eqn:Hp; [|done]. eauto 10.
  - intros raw channels Hraw%String.eqb_neq Hok. unfold ValidateWebhookURL in Hok. rewrite Hraw in Hok.
    destruct (2048 <? len raw); [done|]. destruct (url_parse raw) as [u|]; [|done].
    destruct (String.eqb (url_Scheme u) "https") eqn:Hs; [|done].
    destruct (url_HasUser u) eqn:Hu; [done|]. cbn [negb] in Hok. cbv zeta in Hok.
    destruct (String.eqb (ToLower (url_Hostname u)) "") eqn:Hh; [done|].
    destruct (negb (String.eqb (url_Port u) "") && _) eqn:Hport; [done|].
    destruct (match ParseAddr _ with Some _ => _ | None => _ end) eqn:Haddr; [done|].
    destruct (_ && _) eqn:Hd in Hok; [done|]. exists u. breflect.
    split_and!; try done.
    + destruct Hport as [Hp|Hp]; breflect; auto.
    + intros a Ha. eapply G; [exact Ha|]. rewrite Ha in Haddr. by destruct (IsPublicAddr a).
    + intros Hin%contains_spec. rewrite Hin in Hd. destruct Hd as [?|Hd]; [done|]. breflect.
      split; [by apply contains_spec | done].
Qed.

(** The guard at work: the metadata address, a private address behind the
    IPv4-mapped form, and a public one. *)
Lemma webhook_target_guard_witness :
  is_ok (safeDialControl "169.254.169.254:443") = false
  /\ is_ok (safeDialControl "[::ffff:10.0.0.1]:443") = false
  /\ exists host port a, SplitHostPort "93.184.216.34:443" = Some (host, port)
       /\ ParseAddr host = Some a /\ (special (Unmap a) = false \/ zone_hole a).
Proof.
  split_and!; [by vm_compute..|].
  apply (proj1 (webhook_target_guard (H := ascii_tables) (fun _ => None))). by vm_compute.
Defined.

(** The prefix test and the unspecified test of [netip] never match an address
    with a zone, so a zone takes an address past the guard: the unspecified
    address, which a host connects to as itself, and the NAT64 form of a
    private address are refused without a zone and accepted with one. *)
Theorem zone_passes_guard :
  (safeDialControl "[::]:443" <> Ok tt /\ safeDialControl "[::%eth0]:443" = Ok tt)
  /\ (safeDialControl "[64:ff9b::a00:1]:443" <> Ok tt
      /\ safeDialControl "[64:ff9b::a00:1%eth0]:443" = Ok tt).
Proof. vm_compute. done. Qed.

(** ** Theorems: node URLs *)

(** Bytes of a host: letters, digits, '-', '_', '.', ':'. *)
Definition host_char (a : ascii) : bool :=
  label_rune (byte_of a) || Ascii.eqb a "." || Ascii.eqb a ":".

Lemma label_rune_char a : label_rune (byte_of a) = true -> host_char a = true.
Proof. intros H. unfold host_char. by rewrite H. Qed.

Lemma digit_host_char a : in_range 0 9 (byte_of a - 48) = true -> host_char a = true.
Proof.
  intros H. apply label_rune_char. unfold label_rune, in_range in *. breflect.
  rewrite !orb_true_iff. left. left. right. lia.
Qed.

Lemma hex_host_char a d : hex_val a = Some d -> host_char a = true.
Proof.
  unfold hex_val. intros H. apply label_rune_char. unfold label_rune.
  destruct (in_range 48 57 (byte_of a)); [by rewrite orb_true_r|].
  destruct (in_range 97 102 (byte_of a)) eqn:E1; [|destruct (in_range 65 70 (byte_of a)) eqn:E2; [|done]];
    unfold in_range in *; breflect; rewrite !orb_true_iff; [left; left; left; left | left; left; left; right]; lia.
Qed.

Lemma digits_chars s acc v : digits_val acc s = Some v -> str_forallb host_char s = true.
Proof.
  revert acc. induction s as [|a s IH]; cbn [digits_val str_forallb]; intros acc H; [done|].
  destruct (in_range 0 9 _) eqn:E; [|done]. by rewrite (digit_host_char a E), (IH _ H).
Qed.

Lemma octet_chars s v : octet s = Some v -> str_forallb host_char s = true.
Proof.
  intros H. assert (Hp : exists u, parse_digits s = Some u).
  { unfold octet in H. destruct s as [|a [|b s]]; [done|..]; [|destruct (Ascii.eqb a "0"); [done|]];
      destruct (parse_digits _) as [u|]; eauto; done. }
  destruct Hp as [u Hu]. destruct s as [|a s]; [done|]. by eapply digits_chars.
Qed.

(** A split text is made of its parts and the separator. *)
Lemma Split_chars (f : ascii -> bool) c s :
  f c = true -> forallb (str_forallb f) (Split c s) = true -> str_forallb f s = true.
Proof.
  intros Hc. induction s as [|a s IH]; [done|]. cbn [Split str_forallb].
  destruct (Ascii.eqb_spec a c) as [-> | Hne].
  - cbn [forallb str_forallb]. rewrite Hc. auto.
  - destruct (Split c s) as [|p ps] eqn:E; cbn [forallb str_forallb] in *.
    + destruct s; [by destruct (f a)|]. exfalso. clear - E. cbn [Split] in E. case_ifs; done.
    + rewrite !andb_true_iff. intros [[Ha Hp] Hps]. split; [done|]. apply IH. by rewrite Hp, Hps.
Qed.

Lemma fields_chars s f : parseIPv4Fields s = Some f -> str_forallb host_char s = true.
Proof.
  unfold parseIPv4Fields. intros H. apply (Split_chars _ "."%char); [done|].
  destruct (Split "." s) as [|a [|b [|c [|d []]]]]; try done.
  destruct (octet a) eqn:Ha, (octet b) eqn:Hb, (octet c) eqn:Hc, (octet d) eqn:Hd; try done.
  simpl. by rewrite (octet_chars _ _ Ha), (octet_chars _ _ Hb), (octet_chars _ _ Hc), (octet_chars _ _ Hd).
Qed.

Lemma hex_group_chars s off acc off' acc' r :
  hex_group off acc s = Some (off', acc', r) ->
  str_forallb host_char r = true -> str_forallb host_char s = true.
Proof.
  revert off acc. induction s as [|a s IH]; cbn [hex_group]; intros off acc H Hr; [done|].
  destruct (hex_val a) as [d|] eqn:Hd; [|assert (r = String a s) as -> by congruence; done].
  destruct (_ || _); [done|]. cbn [str_forallb]. by rewrite (hex_host_char a d Hd), (IH _ _ H Hr).
Qed.

Lemma groups_chars fuel ip e s ip' e' :
  groups fuel ip e s = Some (ip', e', "") -> str_forallb host_char s = true.
Proof.
  revert ip e s. induction fuel as [|fuel IH]; cbn [groups]; intros ip e s H; [by assert (s = "") as -> by congruence|].
  destruct (hex_group 0 0 s) as [[[off acc] rest]|] eqn:Hg; [|done]. destruct (off =? 0)%nat; [done|].
  destruct (head_is "." rest).
  { destruct (_ && _); [done|]. destruct (16 <? length ip + 4)%nat; [done|].
    destruct (parseIPv4Fields s) as [f|] eqn:Hf; [|done]. by eapply fields_chars. }
  eapply hex_group_chars; [exact Hg|]. cbv zeta in H. destruct rest as [|c s1]; [done|].
  destruct (Ascii.eqb_spec c ":") as [-> | Hne]; cbn [negb] in H; [|done].
  destruct s1 as [|c2 s2]; [done|]. destruct (Ascii.eqb_spec c2 ":") as [-> | Hne2].
  - cbn [str_forallb]. destruct e; [done|]. destruct (String.eqb_spec s2 "") as [-> | ?]; [done|].
    rewrite (IH _ _ _ H). done.
  - apply IH in H. change (str_forallb host_char (String ":" (String c2 s2)))
      with (str_forallb host_char (String c2 s2)). done.
Qed.

Lemma parseIPv6_chars s a :
  parseIPv6 s = Some a -> Zone a = "" -> str_forallb host_char s = true.
Proof.
  unfold parseIPv6. intros H Hz.
  destruct (cut "%" s) as [[t zone]|].
  { destruct (String.eqb zone "") eqn:Hne; [done|]. apply String.eqb_neq in Hne. exfalso. cbv zeta in H.
    destruct (if HasPrefix t "::" then _ else _) as [e s1].
    destruct (_ && _); [injection H as <-; done|].
    destruct (groups 8 [] e s1) as [[[ip e'] r]|]; [|done].
    destruct (expand ip e' r); [|done]. injection H as <-. done. }
  assert (P : HasPrefix s "::" = true -> s = "::" +:+ str_drop 2 s).
  { unfold HasPrefix. clear. destruct s as [|x [|y s]]; cbn [String.prefix str_drop].
    - done.
    - by destruct (Ascii.ascii_dec ":" x).
    - destruct (Ascii.ascii_dec ":" x) as [<- | ?], (Ascii.ascii_dec ":" y) as [<- | ?]; done. }
  assert (E : exists e s1, (s = s1 \/ s = "::" +:+ s1) /\
    (s1 = "" \/ exists ip e', groups 8 [] e s1 = Some (ip, e', ""))).
  { destruct (HasPrefix s "::") eqn:Hp; cbv zeta in H; [specialize (P eq_refl)|clear P].
    - exists (Some 0%nat), (str_drop 2 s). split; [by right|].
      destruct (String.eqb_spec (str_drop 2 s) "") as [-> | Hne]; [by left | right]. cbn [andb] in H.
      destruct (groups 8 [] (Some 0%nat) (str_drop 2 s)) as [[[ip e'] r]|]; [|done].
      unfold expand in H. destruct (String.eqb r "") eqn:Hr; [|done]. apply String.eqb_eq in Hr. subst r. eauto.
    - exists None, s. split; [by left|]. right. cbn [andb] in H.
      destruct (groups 8 [] None s) as [[[ip e'] r]|]; [|done].
      unfold expand in H. destruct (String.eqb r "") eqn:Hr; [|done]. apply String.eqb_eq in Hr. subst r. eauto. }
  destruct E as (e & s1 & Hs & [-> | (ip & e' & Hg%groups_chars)]); destruct Hs as [-> | ->]; done.
Qed.

Lemma ParseAddr_chars s a : ParseAddr s = Some a -> Zone a = "" -> str_forallb host_char s = true.
Proof.
  unfold ParseAddr. destruct (family s) as [c|]; [|done].
  destruct (Ascii.eqb c "."); [|destruct (Ascii.eqb c ":"); [apply parseIPv6_chars | done]].
  destruct (parseIPv4Fields s) as [f|] eqn:Hf; [|done]. intros _ _. by eapply fields_chars.
Qed.

Lemma label_rune_ascii r : label_rune r = true -> r < 128.
Proof.
  unfold label_rune, in_range. intros H. rewrite !orb_true_iff, !andb_true_iff in H. lia.
Qed.

Lemma labels_chars s : forallb valid_label (Split "." s) = true -> str_forallb host_char s = true.
Proof.
  intros H. apply (Split_chars _ "."%char); [done|]. rewrite forallb_forall in *. intros l Hl%H.
  unfold valid_label in Hl. apply andb_true_iff in Hl as [_ Hr].
  rewrite runes_ascii_test in Hr by apply label_rune_ascii.
  eapply str_forallb_impl; [|exact Hr]. apply label_rune_char.
Qed.

(** The host between the brackets, however it is cut out. *)
Lemma unbracket s :
  HasPrefix s "[" && HasSuffix s "]" = true ->
  str_take (String.length s - 2) (str_drop 1 s) = TrimSuffix (TrimPrefix s "[") "]".
Proof.
  intros [Hp Hs]%andb_true_iff. unfold TrimPrefix. rewrite Hp. unfold HasPrefix in Hp.
  destruct s as [|a rest]; [done|]. cbn [String.length str_drop] in *.
  unfold HasSuffix in Hs. apply andb_true_iff in Hs as [_ Hs]. apply String.eqb_eq in Hs.
  destruct rest as [|b rest].
  { exfalso. simpl in Hs, Hp. injection Hs as ->. by vm_compute in Hp. }
  replace (String.length (String a (String b rest)) - String.length "]")%nat
    with (S (String.length rest)) in Hs by (simpl; lia).
  cbn [str_drop] in Hs. unfold TrimSuffix, HasSuffix.
  replace (String.length (String b rest) - String.length "]")%nat with (String.length rest) by (simpl; lia).
  cbn [str_drop]. rewrite Hs. simpl. by rewrite Nat.sub_0_r.
Qed.

Lemma no_bracket_trim s : str_forallb host_char s = true -> TrimSuffix (TrimPrefix s "[") "]" = s.
Proof.
  intros H. assert (Hp : HasPrefix s "[" = false).
  { unfold HasPrefix. destruct s as [|a s]; [done|]. cbn [String.prefix].
    destruct (Ascii.ascii_dec "[" a) as [<- | ?]; [by vm_compute in H | done]. }
  unfold TrimPrefix. rewrite Hp. unfold TrimSuffix, HasSuffix.
  destruct (_ && _) eqn:E; [|done]. exfalso. apply andb_true_iff in E as [_ E%String.eqb_eq].
  assert (G : forall n t, str_forallb host_char t = true -> str_forallb host_char (str_drop n t) = true).
  { clear. induction n as [|n IH]; intros [|a t]; cbn [str_drop str_forallb]; try done.
    intros [_ ?]%andb_true_iff. auto. }
  specialize (G (String.length s - String.length "]")%nat s H). rewrite E in G. by vm_compute in G.
Qed.

(** The URL of a node is scheme, host and port and nothing else: whatever text
    an operator stores as the host of a node, a URL is built only when the
    host is made of letters, digits, '-', '_', '.' and ':' (put in brackets
    when it has a colon) and the port is a port, so the text cannot add a
    path, a query, credentials or another port. *)
Theorem base_url_safe (scheme host u : string) (port : Z) :
  baseURLWithScheme scheme host port = Ok u ->
  exists h, str_forallb host_char h = true /\ h <> "" /\ 1 <= port <= 65535
    /\ u = scheme +:+ "://" +:+ JoinHostPort h (Itoa port).
Proof.
  unfold baseURLWithScheme. intros H.
  destruct (ValidateNodeHost host) as [[]|e] eqn:Hh; [|done].
  destruct (ValidateNodePort port) as [[]|e] eqn:Hp; [|done].
  exists (TrimSuffix (TrimPrefix host "[") "]"). cbv zeta in H.
  assert (Hport : 1 <= port <= 65535).
  { unfold ValidateNodePort in Hp. destruct (_ || _) eqn:E; [done|]. breflect. lia. }
  unfold ValidateNodeHost in Hh. destruct (_ || _); [done|]. cbv zeta in Hh.
  assert (G : forall t, match ParseAddr t with
      | Some addr => if negb (String.eqb (Zone addr) "") then Err ErrInvalidNodeAddress else Ok tt
      | None => if forallb valid_label (Split "." t) then Ok tt else Err ErrInvalidNodeAddress
      end = Ok tt -> str_forallb host_char t = true /\ t <> "").
  { clear. intros t Ht. split; [|intros ->; by vm_compute in Ht].
    destruct (ParseAddr t) as [a|] eqn:Ha.
    - destruct (String.eqb (Zone a) "") eqn:Hz; [|done]. apply String.eqb_eq in Hz. by eapply ParseAddr_chars.
    - destruct (forallb _ _) eqn:Hl; [|done]. by apply labels_chars. }
  destruct (HasPrefix host "[" && HasSuffix host "]") eqn:Hb.
  - rewrite unbracket in Hh by done. apply G in Hh as [Hc Hn]. split_and!; [done | done | lia | lia | congruence].
  - apply G in Hh as [Hc Hn]. rewrite no_bracket_trim in * by done. split_and!; [done | done | lia | lia | congruence].
Qed.

Lemma base_url_safe_witness :
  (exists h, str_forallb host_char h = true /\ "http://[fd00::1]:8444" = "http" +:+ "://" +:+ JoinHostPort h (Itoa 8444))
  /\ is_ok (BaseURL "evil.example/x@10.0.0.9" 8444) = false.
Proof.
  split; [|by vm_compute].
  destruct (base_url_safe "http" "[fd00::1]" "http://[fd00::1]:8444" 8444) as (h & Hc & _ & _ & Hu);
    [by vm_compute|]. exists h. split; [exact Hc | exact Hu].
Defined.

(** ** Theorems: download names *)

(** A byte a download name may hold: no control character. *)
Definition printable (a : ascii) : bool := (32 <=? byte_of a) && negb (byte_of a =? 127).

Definition path_sep (a : ascii) : bool := Ascii.eqb a "/" || Ascii.eqb a "\".

(** The bytes of a rune above the control range. *)
Lemma high_byte (m k x : Z) :
  forallb (fun n => printable (ascii_of (Z.lor m (Z.of_nat n)))) (seq 0 (Z.to_nat k)) = true ->
  0 <= x < k -> printable (ascii_of (Z.lor m x)) = true.
Proof.
  intros H Hx. rewrite forallb_forall in H. specialize (H (Z.to_nat x)).
  rewrite Z2Nat.id in H by lia. apply H, in_seq. lia.
Qed.

Lemma tail_byte (r : Z) : printable (ascii_of (Z.lor 128 (Z.land r 63))) = true.
Proof.
  apply (high_byte _ 64); [by vm_compute|]. change 63 with (Z.ones 6).
  rewrite Z.land_ones by lia. by apply Z.mod_pos_bound.
Qed.

Lemma encode_rune_printable (r : Z) :
  (r <? 32) || (r =? 127) = false -> str_forallb printable (encode_rune r) = true.
Proof.
  intros H. breflect. unfold encode_rune, in_range.
  repeat (match goal with |- context [if ?b then _ else _] => destruct b eqn:? end);
    breflect; cbn [str_forallb]; rewrite ?tail_byte, ?andb_true_r; try (by vm_compute).
  - unfold printable. rewrite byte_of_ascii_of by lia. apply andb_true_iff. split; [lia|].
    apply negb_true_iff, Z.eqb_neq. lia.
  - apply (high_byte _ 32); [by vm_compute|]. rewrite Z.shiftr_div_pow2 by lia.
    split; [apply Z.div_pos | apply Z.div_lt_upper_bound]; lia.
  - apply (high_byte _ 16); [by vm_compute|]. rewrite Z.shiftr_div_pow2 by lia.
    split; [apply Z.div_pos | apply Z.div_lt_upper_bound]; lia.
  - apply (high_byte _ 32); [by vm_compute|]. rewrite Z.shiftr_div_pow2 by lia.
    split; [apply Z.div_pos | apply Z.div_lt_upper_bound]; lia.
Qed.

Lemma Map_printable (s : string) :
  str_forallb printable
    (Map (fun r => if (r <? 32) || (r =? 127) then None else Some r) s) = true.
Proof.
  unfold Map. induction (runes s) as [|r l IH]; [done|]. cbn [fold_right].
  destruct (_ || _) eqn:E; [done|]. by rewrite str_forallb_app, encode_rune_printable, IH.
Qed.

Lemma replace_printable (s : string) :
  str_forallb printable s = true ->
  str_forallb (fun a => printable a && negb (Ascii.eqb a "\")) (replace_byte "\" "/" s) = true.
Proof.
  induction s as [|a s IH]; cbn [str_forallb replace_byte]; [done|]. intros H. breflect.
  rewrite (IH H0), andb_true_r. destruct (Ascii.eqb a "\") eqn:E; [by vm_compute|]. by rewrite H, E.
Qed.

Lemma strip_slashes_forallb f s : str_forallb f s = true -> str_forallb f (strip_slashes s) = true.
Proof.
  induction s as [|a s IH]; cbn [str_forallb strip_slashes]; [done|]. intros H. breflect.
  specialize (IH H0). destruct (strip_slashes s) as [|b t].
  - destruct (Ascii.eqb a "/"); [done|]. cbn. by rewrite H.
  - cbn in *. by rewrite H.
Qed.

Definition differs (c a : ascii) : bool := negb (Ascii.eqb a c).

Lemma cut_last_none c s : cut_last c s = None -> str_forallb (differs c) s = true.
Proof.
  induction s as [|a s IH]; cbn [cut_last str_forallb]; [done|].
  destruct (cut_last c s) as [[p q]|]; [done|]. destruct (Ascii.eqb a c) eqn:E; [done|].
  intros _. rewrite (IH eq_refl). unfold differs. by rewrite E.
Qed.

(** What follows the last separator has none, and keeps a test of the whole. *)
Lemma cut_last_tail c f s p q :
  cut_last c s = Some (p, q) -> str_forallb f s = true ->
  str_forallb f q = true /\ str_forallb (differs c) q = true.
Proof.
  revert p q. induction s as [|a s IH]; cbn [cut_last str_forallb]; intros p q H Hf; [done|].
  breflect. destruct (cut_last c s) as [[p' q']|] eqn:E.
  - simplify_eq. by apply (IH p').
  - destruct (Ascii.eqb a c); simplify_eq. split; [done | by apply cut_last_none].
Qed.

(** The base of a path is one element of it, the lone [/] and [.] apart. *)
Lemma path_Base_element f s :
  str_forallb f s = true ->
  path_Base s = "." \/ path_Base s = "/"
  \/ (str_forallb f (path_Base s) = true /\ str_forallb (differs "/") (path_Base s) = true
      /\ path_Base s <> "").
Proof.
  intros H. unfold path_Base. destruct (String.eqb s ""); [by left|]. right. cbv zeta.
  apply strip_slashes_forallb in H. destruct (cut_last "/" (strip_slashes s)) as [[p q]|] eqn:E.
  - destruct (String.eqb_spec q "") as [->|Hq]; [by left | right].
    by destruct (cut_last_tail _ _ _ _ _ E H).
  - destruct (String.eqb_spec (strip_slashes s) "") as [Hs|Hq]; [by left | right].
    split_and!; [done | by apply cut_last_none | done].
Qed.

(** A sanitised name is empty or one path element: it has no separator and no
    control character, and it is neither [.] nor [..]. *)
Theorem sanitize_filename_element (name : string) :
  let r := SanitizeFilename name in
  str_forallb (fun a => printable a && negb (path_sep a)) r = true /\ r <> "." /\ r <> "..".
Proof.
  cbv zeta. unfold SanitizeFilename. cbv zeta. set (b := path_Base _).
  destruct (String.eqb_spec b ".") as [|H1]; [by vm_compute|].
  destruct (String.eqb_spec b "/") as [|H2]; [by vm_compute|].
  destruct (String.eqb_spec b "..") as [|H3]; [by vm_compute|]. cbn [orb]. split; [|done].
  destruct (path_Base_element _ _ (replace_printable _ (Map_printable name))) as [?|[?|(Ha & Hd & _)]];
    [done | done |]. fold b in Ha, Hd. clear -Ha Hd.
  induction b as [|a b IH]; cbn [str_forallb] in *; [done|]. breflect.
  rewrite IH by done. unfold path_sep. unfold differs in *. breflect.
  repeat match goal with H : _ = _ |- _ => rewrite H end. done.
Qed.
