(* ===== verification/Alerts.v ===== *)
(** * Alert rules and events

    Models [services/alert_service.go] and the fan-out of
    [alerting/notifier.go]: who may create which rule, the events a report
    raises, their deduplication, who sees and resolves them, and which
    deliveries they cause.  Theorems: events reach only staff and people with
    access to the server; open events of a rule are fifteen minutes apart;
    and the node metrics never raise an event. *)

From stdpp Require Import base numbers list strings option gmap relations.
From Stdlib Require Import QArith_base.
From S2P Require Import Prelude GoStrings Store Roles Permissions Platform Servers Net.

Local Open Scope Z_scope.

Definition ErrAlertRuleNotFound : error := ErrNew "alert rule not found".
Definition ErrAlertEventNotFound : error := ErrNew "alert event not found".
Definition ErrAlertRuleInvalid : error := ErrNew "invalid alert rule".
Definition ErrAlertRuleForbidden : error :=
  ErrNew "only admins can create global or node alert rules; server rules require access to the server".

(** services.CreateAlertRuleRequest. *)
Record CreateAlertRuleRequest := mkCreateAlertRuleRequest {
  car_ServerID : option uuid;
  car_Type : string;
  car_Threshold : option Q;
  car_Channels : list string;
  car_WebhookURL : string
}.

Definition alertRuleTypes : list string :=
  ["cpu_high"; "ram_high"; "disk_high"; "server_crashed"; "node_offline"; "ddos"].

Definition alertNodeRuleTypes : list string :=
  ["cpu_high"; "ram_high"; "disk_high"; "node_offline"; "ddos"].

Definition alertChannels : list string := ["email"; "webhook"; "discord"].

(** ** Rules *)

Definition ListRules (userID : uuid) : M (list AlertRule) :=
  wrap "querying alert rules" (query (fun d =>
    Ok (order_by (fun a b => rule_CreatedAt b <=? rule_CreatedAt a)
          (rows (alert_rules d) (fun r => (rule_UserID r =? userID)%N))))).

(** [INSERT INTO alert_rules ... RETURNING]. *)
Definition insert_rule (r : AlertRule) (d : DB) : res error (AlertRule * DB) :=
  if match rule_ServerID r with
     | Some s => bool_decide (servers d !! s = None)
     | None => false
     end then Err (ErrConstraint "alert_rules_server_id_fkey")
  else if bool_decide (users d !! rule_UserID r = None)
  then Err (ErrConstraint "alert_rules_user_id_fkey")
  else match insert_row (rule_ID r) r (alert_rules d) with
       | Ok t => Ok (r, with_alert_rules t d)
       | Err e => Err e
       end.

Section create.
Context `{U : Unicode} `{P : Platform} (url_parse : string -> option URL).

Definition CreateRule (caller : User) (req : CreateAlertRuleRequest) : M AlertRule :=
  if negb (contains alertRuleTypes (car_Type req))
  then fail (ErrDetail ErrAlertRuleInvalid "unknown alert type")
  else match List.find (fun ch => negb (contains alertChannels ch)) (car_Channels req) with
  | Some ch => fail (ErrDetail ErrAlertRuleInvalid ("unknown channel " +:+ ch))
  | None =>
    match ValidateWebhookURL url_parse (car_WebhookURL req) (car_Channels req) with
    | Err e => fail (ErrDetail ErrAlertRuleInvalid (error_Error e))
    | Ok _ =>
      run* (if is_staff (user_Role caller) then ret tt
            else match car_ServerID req with
            | None => fail ErrAlertRuleForbidden
            | Some sid =>
              if contains alertNodeRuleTypes (car_Type req) then fail ErrAlertRuleForbidden
              else
                let* ok := wrap "checking server permission"
                             (HasServerPermission caller sid "server.view") in
                if ok then ret tt else fail ErrAlertRuleForbidden
            end) in
      let* id := new_uuid in
      let* t := now in
      wrap "creating alert rule" (exec (insert_rule
        (mkAlertRule id (car_ServerID req) (user_ID caller) (car_Type req) (car_Threshold req)
           (car_Channels req) true t (car_WebhookURL req))))
    end
  end.
End create.

(** [... WHERE id = $1 AND user_id = $2]. *)
Definition own_rule (userID : uuid) (r : AlertRule) : bool := (rule_UserID r =? userID)%N.

(** A statement on one rule of the caller, with the number of rows. *)
Definition change_rule (ruleID userID : uuid) (f : gmap uuid AlertRule -> DB -> DB) (d : DB)
  : res error (nat * DB) :=
  match alert_rules d !! ruleID with
  | Some r => if own_rule userID r then Ok (1%nat, f (alert_rules d) d) else Ok (0%nat, d)
  | None => Ok (0%nat, d)
  end.

Definition ToggleRule (ruleID userID : uuid) (enabled : bool) : M unit :=
  let* n := wrap "toggling rule" (exec (change_rule ruleID userID (fun t d =>
    with_alert_rules (alter (rule_with_Enabled enabled) ruleID t) d))) in
  if (n =? 0)%nat then fail ErrAlertRuleNotFound else ret tt.

(** The events of a deleted rule lose the reference. *)
Definition DeleteRule (ruleID userID : uuid) : M unit :=
  let* n := wrap "deleting rule" (exec (change_rule ruleID userID (fun t d =>
    with_alert_rules (delete ruleID t)
      (with_alert_events (update_where (event_with_RuleID None)
         (fun e => bool_decide (event_RuleID e = Some ruleID)) (alert_events d)) d)))) in
  if (n =? 0)%nat then fail ErrAlertRuleNotFound else ret tt.

(** ** Events *)

(** The rule of an event belongs to the user. *)
Definition owned_event (d : DB) (userID : uuid) (e : AlertEvent) : bool :=
  match event_RuleID e with
  | Some rid => match alert_rules d !! rid with
                | Some r => own_rule userID r
                | None => false
                end
  | None => false
  end.

Definition ListEvents (caller : User) (limit0 : Z) : M (list AlertEvent) :=
  let limit := if (limit0 <=? 0) || (200 <? limit0) then 50 else limit0 in
  let isStaff := is_staff (user_Role caller) in
  wrap "querying alert events" (query (fun d =>
    Ok (take (Z.to_nat limit)
          (order_by (fun a b => event_CreatedAt b <=? event_CreatedAt a)
             (rows (alert_events d) (fun e => owned_event d (user_ID caller) e
                || (bool_decide (event_RuleID e = None) && isStaff))))))).

Definition resolve_event (t : Z) (e : AlertEvent) : AlertEvent :=
  event_with_ResolvedAt (Some t) (event_with_Resolved true e).

Definition ResolveEvent (caller : User) (eventID : uuid) : M unit :=
  let isStaff := is_staff (user_Role caller) in
  let* t := now in
  let* n := wrap "resolving event" (exec (fun d =>
    match alert_events d !! eventID with
    | Some e =>
      if isStaff || owned_event d (user_ID caller) e
      then Ok (1%nat, with_alert_events (alter (resolve_event t) eventID (alert_events d)) d)
      else Ok (0%nat, d)
    | None => Ok (0%nat, d)
    end)) in
  if (n =? 0)%nat then fail ErrAlertEventNotFound else ret tt.

(** ** Firing *)

(** alerting.NotificationPayload. *)
Record NotificationPayload := mkNotificationPayload {
  np_RuleType : string;
  np_Severity : string;
  np_Message : string;
  np_FiredAt : Z;
  np_SubjectID : uuid
}.

(** The arguments of one [notifier.Dispatch]. *)
Record Notification := mkNotification {
  nt_payload : NotificationPayload;
  nt_channels : list string;
  nt_email : string;
  nt_webhook : string
}.

Definition defaultThreshold (ruleType : string) : Q :=
  if contains ["cpu_high"; "ram_high"; "disk_high"] ruleType then (90 # 1)%Q else 0%Q.

Definition Qlt_bool (a b : Q) : bool := negb (Qle_bool b a).

(** The user may get events about the server. *)
Definition server_audience (d : DB) (subject : uuid) (userID : uuid) (u : User) : bool :=
  contains ["admin"; "owner"] (user_Role u)
  || (match servers d !! subject with
      | Some s => (server_OwnerID s =? userID)%N
      | None => false
      end)
  || negb (bool_decide (server_members d !! (subject, userID) = None)).

(** The WHERE clause of the rules that apply, joined with their users. *)
Definition rule_applies (d : DB) (ruleType : string) (subject : uuid) (r : AlertRule) : bool :=
  match users d !! rule_UserID r with
  | None => false
  | Some u =>
    String.eqb (rule_Type r) ruleType && rule_Enabled r
    && match rule_ServerID r with
       | None => contains ["admin"; "owner"] (user_Role u)
       | Some s => (s =? subject)%N && server_audience d subject (rule_UserID r) u
       end
  end.

Definition matching_rules (ruleType : string) (subject : uuid) (d : DB) : list (uuid * AlertRule) :=
  List.filter (fun kv => rule_applies d ruleType subject (snd kv)) (map_to_list (alert_rules d)).

(** [INTERVAL '15 minutes'] in nanoseconds. *)
Definition dedup_window : Z := 15 * 60 * 1000000000.

Definition open_duplicate (rid : uuid) (t : Z) (e : AlertEvent) : bool :=
  bool_decide (event_RuleID e = Some rid) && negb (event_Resolved e)
  && (t - dedup_window <? event_CreatedAt e).

(** The subject is a node for two of the rule types and a server for the rest. *)
Definition event_subject (ruleType : string) (subject : uuid) : option uuid * option uuid :=
  if contains ["node_offline"; "ddos"] ruleType then (None, Some subject) else (Some subject, None).

Definition event_severity (ruleType : string) : string :=
  if contains ["node_offline"; "server_crashed"; "ddos"] ruleType then "critical" else "warning".

Definition dangling {A} (t : gmap uuid A) (k : option uuid) : bool :=
  match k with Some k => bool_decide (t !! k = None) | None => false end.

(** [INSERT INTO alert_events ... RETURNING id]. *)
Definition insert_event (id : uuid) (e : AlertEvent) (d : DB) : res error (unit * DB) :=
  if dangling (alert_rules d) (event_RuleID e) then Err (ErrConstraint "alert_events_rule_id_fkey")
  else if dangling (servers d) (event_ServerID e) then Err (ErrConstraint "alert_events_server_id_fkey")
  else if dangling (nodes d) (event_NodeID e) then Err (ErrConstraint "alert_events_node_id_fkey")
  else match insert_row id e (alert_events d) with
       | Ok t => Ok (tt, with_alert_events t d)
       | Err e' => Err e'
       end.

Definition fired_event (id rid : uuid) (ruleType : string) (subject : uuid) (t : Z) : AlertEvent :=
  mkAlertEvent id (Some rid) (fst (event_subject ruleType subject)) (snd (event_subject ruleType subject))
    ruleType (event_severity ruleType) ("Alert: " +:+ ruleType) false None t.

(** One turn of the loop over the rules; every failure moves on to the next. *)
Definition fire_rule (notify : bool) (ruleType : string) (subject : uuid) (value : Q)
    (rid : uuid) (rule : AlertRule) : M (list Notification) :=
  if Qlt_bool value (default (defaultThreshold ruleType) (rule_Threshold rule)) then ret []
  else
    let* t := now in
    let* dedup := attempt (query (fun d => Ok (count_rows (alert_events d) (open_duplicate rid t)))) in
    match dedup with
    | Err _ => ret []
    | Ok n =>
      if (0 <? n)%nat then ret []
      else
        let* id := new_uuid in
        let* ins := attempt (exec (insert_event id (fired_event id rid ruleType subject t))) in
        match ins with
        | Err _ => ret []
        | Ok _ =>
          if negb notify then ret []
          else
            let* em := attempt (query (fun d => get_key (users d) (rule_UserID rule))) in
            ret [mkNotification
                   (mkNotificationPayload ruleType (event_severity ruleType) ("Alert: " +:+ ruleType) t subject)
                   (rule_Channels rule)
                   (match em with Ok u => user_Email u | Err _ => "" end)
                   (rule_WebhookURL rule)]
        end
    end.

Fixpoint fire_loop (notify : bool) (ruleType : string) (subject : uuid) (value : Q)
    (rules : list (uuid * AlertRule)) : M (list Notification) :=
  match rules with
  | [] => ret []
  | (rid, rule) :: rules' =>
    let* ns := fire_rule notify ruleType subject value rid rule in
    let* ns' := fire_loop notify ruleType subject value rules' in
    ret (ns ++ ns')
  end.

(** [notify] says whether a notifier is configured; the result lists its calls. *)
Definition EvaluateAndFire (notify : bool) (ruleType : string) (subject : uuid) (value : Q)
  : M (list Notification) :=
  let* rules := wrap ("querying alert rules for type " +:+ ruleType)
                  (query (fun d => Ok (matching_rules ruleType subject d))) in
  fire_loop notify ruleType subject value rules.

(** [INTERVAL '5 minutes']. *)
Definition stale_after : Z := 5 * 60 * 1000000000.

Definition stale_node (t : Z) (n : Node) : bool :=
  String.eqb (node_Status n) "online"
  && match node_LastHeartbeat n with Some h => h <? t - stale_after | None => false end.

Fixpoint offline_loop (notify : bool) (ids : list uuid) : M (list Notification) :=
  match ids with
  | [] => ret []
  | id :: ids' =>
    let* r := attempt (EvaluateAndFire notify "node_offline" id 0%Q) in
    let* ns := offline_loop notify ids' in
    ret (match r with Ok l => l | Err _ => [] end ++ ns)
  end.

Definition EvaluateNodeOffline (notify : bool) : M (list Notification) :=
  let* t := now in
  let* ids := wrap "querying stale nodes" (query (fun d =>
    Ok (map fst (List.filter (fun kv => stale_node t (snd kv)) (map_to_list (nodes d)))))) in
  offline_loop notify ids.

(** ** Fan-out *)

(** alerting.MultiNotifier: which of its notifiers are configured. *)
Record MultiNotifier := mkMultiNotifier {
  mn_smtp : bool;
  mn_webhook : bool;
  mn_discord : bool
}.

Inductive Delivery :=
| SendEmail (payload : NotificationPayload) (to : string)
| PostWebhook (payload : NotificationPayload) (url : string)
| PostDiscord (payload : NotificationPayload) (url : string).

Definition Dispatch (m : MultiNotifier) (payload : NotificationPayload) (channels : list string)
    (targetEmail webhookURL : string) : list Delivery :=
  flat_map (fun ch =>
    if String.eqb ch "email" then
      if mn_smtp m && negb (String.eqb targetEmail "") then [SendEmail payload targetEmail] else []
    else if String.eqb ch "webhook" then
      if mn_webhook m && negb (String.eqb webhookURL "") then [PostWebhook payload webhookURL] else []
    else if String.eqb ch "discord" then
      if mn_discord m && negb (String.eqb webhookURL "") then [PostDiscord payload webhookURL] else []
    else []) channels.

(** ** One rule *)

Lemma insert_event_ok id e d u d' :
  insert_event id e d = Ok (u, d') ->
  d' = with_alert_events (<[id := e]> (alert_events d)) d /\ alert_events d !! id = None
  /\ dangling (servers d) (event_ServerID e) = false.
Proof.
  unfold insert_event. intros H. destruct (dangling (alert_rules d) _); [done|].
  destruct (dangling (servers d) _) eqn:Hs; [done|]. destruct (dangling (nodes d) _); [done|].
  destruct (insert_row _ _ _) as [t'|] eqn:Ei; [|done]. apply insert_row_ok in Ei as [Hn ->].
  by injection H as <- <-.
Qed.

(** A notification about the subject goes where the rule says, to the address
    of its user. *)
Definition note_of (ty : string) (subj : uuid) (t : Z) (d : DB) (rule : AlertRule) (n : Notification) : Prop :=
  np_RuleType (nt_payload n) = ty /\ np_SubjectID (nt_payload n) = subj /\ np_FiredAt (nt_payload n) = t
  /\ nt_webhook n = rule_WebhookURL rule /\ nt_channels n = rule_Channels rule
  /\ (nt_email n = "" \/ exists u, users d !! rule_UserID rule = Some u /\ nt_email n = user_Email u).

(** The rule raised one event. *)
Definition fired (ty : string) (subj : uuid) (v : Q) (rid : uuid) (rule : AlertRule)
    (t : Z) (d d' : DB) : Prop :=
  exists id, d' = with_alert_events (<[id := fired_event id rid ty subj t]> (alert_events d)) d
    /\ alert_events d !! id = None
    /\ (forall k e, alert_events d !! k = Some e -> open_duplicate rid t e = false)
    /\ (default (defaultThreshold ty) (rule_Threshold rule) <= v)%Q
    /\ dangling (servers d) (fst (event_subject ty subj)) = false.

(** Reading the address and handing the notification over. *)
Lemma notify_spec (notify : bool) pl rule w r w' :
  (if negb notify then ret []
   else let* em := attempt (query (fun d => get_key (users d) (rule_UserID rule))) in
        ret [mkNotification pl (rule_Channels rule)
               (match em with Ok u => user_Email u | Err _ => "" end) (rule_WebhookURL rule)]) w = (r, w') ->
  exists ns, r = Ok ns /\ w_now w' = w_now w /\ w_db w' = w_db w
    /\ forall n, n ∈ ns -> note_of (np_RuleType pl) (np_SubjectID pl) (np_FiredAt pl) (w_db w) rule n.
Proof.
  destruct notify; cbn [negb]; intros H.
  - apply bind_inv in H as [(em & w4 & H4 & H)|(e & H & _)]; [|by apply attempt_inv in H as (? & ? & _)].
    apply attempt_inv in H4 as (em' & [= ->] & (Hd & Hn & _ & _ & _ & Hem)%query_inv).
    apply ret_inv in H as [-> ->]. eexists. split_and!; [done | done | done|].
    intros n ->%list_elem_of_singleton. split_and!; [done..|]. destruct em' as [u|]; [|by left].
    right. exists u. split; [|done]. destruct Hem as [?|Hem]; [done|]. unfold get_key in Hem.
    destruct (users (w_db w) !! _); congruence.
  - apply ret_inv in H as [-> ->]. exists []. split_and!; [done | done | done|].
    intros n Hin. by apply not_elem_of_nil in Hin.
Qed.

Lemma fire_rule_spec notify ty subj v rid rule w r w' :
  fire_rule notify ty subj v rid rule w = (r, w') ->
  exists ns, r = Ok ns /\ w_now w' = w_now w
    /\ ((w_db w' = w_db w /\ ns = [])
        \/ (fired ty subj v rid rule (w_now w) (w_db w) (w_db w')
            /\ forall n, n ∈ ns -> note_of ty subj (w_now w) (w_db w) rule n)).
Proof.
  unfold fire_rule, Qlt_bool. intros H. destruct (Qle_bool _ v) eqn:Hq; cbn [negb] in H; cycle 1.
  { apply ret_inv in H as [-> ->]. eauto 10. }
  apply Qle_bool_iff in Hq.
  rewrite (bind_run _ _ _ (Ok (w_now w)) w) in H by done. cbv beta iota in H.
  apply bind_inv in H as [(q & w1 & H1 & H)|(e & H & _)];
    [|by apply attempt_inv in H as (? & ? & _)].
  apply attempt_inv in H1 as (q' & [= ->] & (Hd & Hn & _ & _ & _ & Hq')%query_inv).
  destruct q' as [n|e]; [|apply ret_inv in H as [-> ->]; eauto 10].
  destruct (0 <? n)%nat eqn:Hc; [apply ret_inv in H as [-> ->]; eauto 10|].
  destruct Hq' as [?|[= Hcount]]; [done|]. rewrite Hcount in Hc. apply Nat.ltb_ge in Hc.
  assert (Hz : count_rows (alert_events (w_db w)) (open_duplicate rid (w_now w)) = 0%nat) by lia.
  rewrite count_rows_zero in Hz.
  apply bind_inv in H as [(id & w2 & (_ & Hd2 & Hn2 & _)%rand_inv & H)|(e & H & _)]; [|done].
  apply bind_inv in H as [(i & w3 & H3 & H)|(e & H & _)]; [|by apply attempt_inv in H as (? & ? & _)].
  apply attempt_inv in H3 as (i' & [= ->] & (Hn3 & _ & _ & _ & Hex)%exec_inv).
  destruct i' as [[]|e].
  2: { apply ret_inv in H as [-> ->]. destruct Hex as [(? & ? & ? & _)|(? & _ & Hd3 & _)]; [done|].
       exists []. split; [done|]. split; [congruence|]. left. split; [congruence | done]. }
  destruct Hex as [(u & d' & _ & Hins & Hd3)|(? & ? & _)]; [|done].
  rewrite Hd2, Hd in Hins. apply insert_event_ok in Hins as (-> & Hnone & Hdg).
  apply notify_spec in H as (ns & -> & Hn4 & Hd4 & Hns). exists ns. split; [done|]. split; [congruence|].
  right. split; [exists id; rewrite Hd4, Hd3; by split_and!|].
  intros n' Hin. apply Hns in Hin. unfold note_of in *. by rewrite Hd3 in Hin.
Qed.

(** A notification tells of an event that its rule has just raised. *)
Definition note_raised (ty : string) (subj : uuid) (v : Q) (t : Z) (rules : list (uuid * AlertRule)) (d d' : DB)
    (n : Notification) : Prop :=
  exists rid rule id, (rid, rule) ∈ rules /\ note_of ty subj t d rule n
    /\ (default (defaultThreshold ty) (rule_Threshold rule) <= v)%Q
    /\ alert_events d !! id = None /\ alert_events d' !! id = Some (fired_event id rid ty subj t).

(** ** All rules of a report *)

(** The rules are visited in turn; each raises one event or none. *)
Inductive fire_steps (ty : string) (subj : uuid) (v : Q) (t : Z)
  : list (uuid * AlertRule) -> DB -> DB -> Prop :=
| steps_done d : fire_steps ty subj v t [] d d
| steps_skip rid rule rules d d' :
    fire_steps ty subj v t rules d d' -> fire_steps ty subj v t ((rid, rule) :: rules) d d'
| steps_fire rid rule rules d d1 d' :
    fired ty subj v rid rule t d d1 -> fire_steps ty subj v t rules d1 d' ->
    fire_steps ty subj v t ((rid, rule) :: rules) d d'.

(** Only events are added. *)
Lemma fire_steps_grow ty subj v t rules d d' :
  fire_steps ty subj v t rules d d' ->
  d' = with_alert_events (alert_events d') d /\ alert_events d ⊆ alert_events d'.
Proof.
  induction 1 as [d|rid rule rules d d' _ IH|rid rule rules d d1 d' Hf _ IH]; [by destruct d | done |].
  destruct Hf as (id & -> & Hnone & _). destruct IH as [-> Hsub]. split; [done|].
  etrans; [|exact Hsub]. by apply insert_subseteq.
Qed.

Lemma fire_loop_steps notify ty subj v rules w r w' :
  fire_loop notify ty subj v rules w = (r, w') ->
  exists ns, r = Ok ns /\ w_now w' = w_now w /\ fire_steps ty subj v (w_now w) rules (w_db w) (w_db w')
    /\ (w_db w' = w_db w -> ns = [])
    /\ (forall n, n ∈ ns -> note_raised ty subj v (w_now w) rules (w_db w) (w_db w') n).
Proof.
  revert w r w'. induction rules as [|[rid rule] rules IH]; simpl; intros w r w' H.
  { apply ret_inv in H as [-> ->]. exists []. split_and!; try done; [constructor|].
    intros n Hn. by apply not_elem_of_nil in Hn. }
  apply bind_inv in H as [(ns & w1 & H1 & H)|(e & H & _)]; [|by apply fire_rule_spec in H as (? & ? & _)].
  apply fire_rule_spec in H1 as (ns1 & [= ->] & Hn1 & H1).
  apply bind_inv in H as [(ns2 & w2 & H2 & H)|(e & H & _)]; [|by apply IH in H as (? & ? & _)].
  apply IH in H2 as (ns2' & [= ->] & Hn2 & Hst & Hnil & Hnotes). apply ret_inv in H as [-> ->].
  exists (ns1 ++ ns2'). split; [done|]. split; [congruence|]. rewrite Hn1 in Hst, Hnotes.
  destruct H1 as [[Hd ->]|[Hf Hns]].
  - rewrite Hd in Hst, Hnil, Hnotes. split_and!; [by constructor | by auto|].
    intros n (rid' & rule' & id & Hin & Hno)%Hnotes. exists rid', rule', id. split; [by right | done].
  - pose proof Hf as (id & Hd & Hnone & _ & Hq & _). pose proof Hst as [_ Hsub]%fire_steps_grow.
    assert (Hid : alert_events (w_db w2) !! id = Some (fired_event id rid ty subj (w_now w)))
      by (eapply lookup_weaken; [|exact Hsub]; rewrite Hd; apply lookup_insert_eq).
    split_and!; [by eapply steps_fire | |].
    + intros Heq. rewrite Heq in Hid. congruence.
    + intros n [Hin|Hin]%elem_of_app.
      * exists rid, rule, id. split_and!; [by left | by apply Hns | done..].
      * apply Hnotes in Hin as (rid' & rule' & id' & Hin & Hno & Hq' & Hnew & Hev). exists rid', rule', id'.
        rewrite Hd in Hno, Hnew. split_and!; [by right | exact Hno | done | | done].
        cbn in Hnew. by apply lookup_insert_None in Hnew as [? _].
Qed.

Lemma matching_rules_elem ty subj d rid rule :
  (rid, rule) ∈ matching_rules ty subj d ->
  alert_rules d !! rid = Some rule /\ rule_applies d ty subj rule = true.
Proof.
  unfold matching_rules. rewrite list_elem_of_In, filter_In, <- list_elem_of_In, elem_of_map_to_list. done.
Qed.

Lemma EvaluateAndFire_steps notify ty subj v w r w' :
  EvaluateAndFire notify ty subj v w = (r, w') ->
  w_now w' = w_now w
  /\ fire_steps ty subj v (w_now w) (matching_rules ty subj (w_db w)) (w_db w) (w_db w')
  /\ forall ns, r = Ok ns -> (w_db w' = w_db w -> ns = [])
       /\ forall n, n ∈ ns -> note_raised ty subj v (w_now w) (matching_rules ty subj (w_db w)) (w_db w) (w_db w') n.
Proof.
  unfold EvaluateAndFire. intros H.
  assert (Hskip : forall l d, fire_steps ty subj v (w_now w) l d d).
  { intros l d. induction l as [|[? ?] l IH]; by constructor. }
  apply bind_inv in H as [(rules & w1 & H1%wrap_ok & H)|(e & H & ->)].
  - pose proof (query_inv _ _ _ _ H1) as (_ & Hn & _). apply query_ok in H1 as [[= <-] Hd].
    apply fire_loop_steps in H as (ns & -> & Hn' & Hst & Hnil & Hnotes).
    rewrite Hd, Hn in Hst, Hnotes. rewrite Hd in Hnil. split_and!; [congruence | done|].
    by intros ns' [= <-].
  - apply wrap_inv in H as [(? & ? & _)|(e' & _ & (Hd & Hn & _)%query_inv)]; [done|].
    rewrite Hd. split_and!; [done | apply Hskip | done].
Qed.

(** The rule is about the subject and its user may know about it: panel staff
    with a rule for everything or for that server, others only with a rule for
    that server, as its owner or as a member. *)
Definition in_scope (d : DB) (subj : uuid) (rule : AlertRule) : Prop :=
  exists u, users d !! rule_UserID rule = Some u
    /\ ((is_staff (user_Role u) = true /\ (rule_ServerID rule = None \/ rule_ServerID rule = Some subj))
        \/ (rule_ServerID rule = Some subj
            /\ ((exists s, servers d !! subj = Some s /\ server_OwnerID s = rule_UserID rule)
                \/ is_Some (server_members d !! (subj, rule_UserID rule))))).

Lemma staff_roles role : contains ["admin"; "owner"] role = true -> is_staff role = true.
Proof. intros H%contains_spec. apply is_staff_spec. unfold RoleOwner, RoleAdmin. set_solver. Qed.

Lemma rule_applies_scope d ty subj rule :
  rule_applies d ty subj rule = true ->
  rule_Type rule = ty /\ rule_Enabled rule = true /\ in_scope d subj rule.
Proof.
  unfold rule_applies, in_scope. destruct (users d !! _) as [u|] eqn:Hu; [|done].
  rewrite !andb_true_iff, String.eqb_eq. intros [[Ht He] Hs]. split_and!; [done | done|].
  exists u. split; [done|]. destruct (rule_ServerID rule) as [s|]; [|left; split; [by apply staff_roles | by left]].
  rewrite andb_true_iff, N.eqb_eq in Hs. destruct Hs as [-> Hs]. unfold server_audience in Hs.
  rewrite !orb_true_iff in Hs. destruct Hs as [[Hs|Ho]|Hm]; [left; split; [by apply staff_roles | by right] | right; split; [done|]..].
  - left. destruct (servers d !! subj) as [sv|]; [|done]. apply N.eqb_eq in Ho. eauto.
  - right. breflect. by apply not_eq_None_Some.
Qed.

(** The value reaches the threshold of the rule: its own, or 90 for the load of
    a machine and 0 for the rest. *)
Definition reaches (ty : string) (rule : AlertRule) (v : Q) : Prop :=
  match rule_Threshold rule with
  | Some q => (q <= v)%Q
  | None => if decide (ty = "cpu_high" \/ ty = "ram_high" \/ ty = "disk_high") then (90 <= v)%Q else (0 <= v)%Q
  end.

Lemma reaches_threshold ty rule v :
  (default (defaultThreshold ty) (rule_Threshold rule) <= v)%Q -> reaches ty rule v.
Proof.
  unfold reaches. destruct (rule_Threshold rule); [done|]. cbn. unfold defaultThreshold.
  destruct (contains _ ty) eqn:Hc; destruct (decide _) as [Ht|Ht]; try done; exfalso.
  - apply contains_spec in Hc. apply Ht. set_solver.
  - assert (Hin : ty ∈ ["cpu_high"; "ram_high"; "disk_high"]) by set_solver. apply contains_spec in Hin. congruence.
Qed.

(** The event says what happened: its rule and type, that it is open since
    [t], and its subject, which is a node for a node that is offline or under
    attack and a server for the rest. *)
Definition event_about (id rid : uuid) (ty : string) (subj : uuid) (t : Z) (e : AlertEvent) : Prop :=
  event_ID e = id /\ event_RuleID e = Some rid /\ event_Type e = ty
  /\ event_Resolved e = false /\ event_ResolvedAt e = None /\ event_CreatedAt e = t
  /\ (if decide (ty = "node_offline" \/ ty = "ddos")
      then event_ServerID e = None /\ event_NodeID e = Some subj
      else event_ServerID e = Some subj /\ event_NodeID e = None)
  /\ event_Severity e
     = (if decide (ty = "node_offline" \/ ty = "ddos" \/ ty = "server_crashed") then "critical" else "warning").

Lemma fired_event_about id rid ty subj t : event_about id rid ty subj t (fired_event id rid ty subj t).
Proof.
  unfold event_about, fired_event, event_subject, event_severity. cbn [event_ServerID event_NodeID event_Severity].
  split_and!; try done.
  - destruct (contains ["node_offline"; "ddos"] ty) eqn:Hc; destruct (decide _) as [Ht|Ht]; try done; exfalso.
    + apply contains_spec in Hc. apply Ht. set_solver.
    + assert (Hin : ty ∈ ["node_offline"; "ddos"]) by set_solver. apply contains_spec in Hin. congruence.
  - destruct (contains ["node_offline"; "server_crashed"; "ddos"] ty) eqn:Hc; destruct (decide _) as [Ht|Ht]; try done; exfalso.
    + apply contains_spec in Hc. apply Ht. set_solver.
    + assert (Hin : ty ∈ ["node_offline"; "server_crashed"; "ddos"]) by set_solver. apply contains_spec in Hin. congruence.
Qed.

(** Every new event is of a visited rule. *)
Lemma fire_steps_new ty subj v t rules d d' k e :
  fire_steps ty subj v t rules d d' -> alert_events d' !! k = Some e ->
  alert_events d !! k = Some e
  \/ exists rid rule, (rid, rule) ∈ rules /\ e = fired_event k rid ty subj t
       /\ (default (defaultThreshold ty) (rule_Threshold rule) <= v)%Q.
Proof.
  induction 1 as [d|rid rule rules d d' _ IH|rid rule rules d d1 d' Hf _ IH]; intros He; [by left | |].
  - apply IH in He as [?|(r0 & u0 & ? & ?)]; [by left|]. right. exists r0, u0. split; [by right | done].
  - apply IH in He as [He|(r0 & u0 & ? & ?)]; [|right; exists r0, u0; split; [by right | done]].
    destruct Hf as (id & -> & _ & _ & Hq & _). cbn in He.
    apply lookup_insert_Some in He as [[<- <-]|[_ He]]; [|by left].
    right. exists rid, rule. split; [by left | done].
Qed.

(** The rule answers a report: it is stored, enabled, of the reported type and
    about the subject, its user may know, and the value reaches it. *)
Definition answers (d : DB) (ty : string) (subj : uuid) (v : Q) (rid : uuid) (rule : AlertRule) : Prop :=
  alert_rules d !! rid = Some rule /\ rule_Type rule = ty /\ rule_Enabled rule = true
  /\ in_scope d subj rule /\ reaches ty rule v.

(** C14. Whatever database calls fail, an event is raised only for an enabled rule
    of the reported type whose threshold the value reaches, that is about
    everything or the reported server, and whose user may know: panel staff,
    or, with a rule for that server, its owner or a member.  The event names
    the rule, the type, the time and the subject, a node for node_offline and
    ddos and a server otherwise.  A notification is about an event so raised:
    it names the type, the subject and the time and goes through the rule's
    channels to its user's address and the rule's webhook.  Nothing else in
    the database changes. *)
Theorem alert_scope (notify : bool) (ty : string) (subj : uuid) (v : Q) (w w' : World)
    (r : res error (list Notification)) :
  EvaluateAndFire notify ty subj v w = (r, w') ->
  w_db w' = with_alert_events (alert_events (w_db w')) (w_db w)
  /\ (forall k e, alert_events (w_db w') !! k = Some e ->
        alert_events (w_db w) !! k = Some e
        \/ exists rid rule, answers (w_db w) ty subj v rid rule /\ event_about k rid ty subj (w_now w) e)
  /\ (forall ns n, r = Ok ns -> n ∈ ns -> exists rid rule k e, answers (w_db w) ty subj v rid rule
        /\ note_of ty subj (w_now w) (w_db w) rule n /\ event_about k rid ty subj (w_now w) e
        /\ alert_events (w_db w) !! k = None /\ alert_events (w_db w') !! k = Some e).
Proof.
  intros H. apply EvaluateAndFire_steps in H as (_ & Hst & Hns). split_and!.
  - by apply fire_steps_grow in Hst as [Hd _].
  - intros k e He. eapply fire_steps_new in He; [|exact Hst].
    destruct He as [?|(rid & rule & Hin & -> & Hq%reaches_threshold)]; [by left|]. right. exists rid, rule.
    split; [|apply fired_event_about]. by apply matching_rules_elem in Hin as [Hl (? & ? & ?)%rule_applies_scope].
  - intros ns n Hr Hn. destruct (Hns ns Hr) as [_ Hnotes].
    apply Hnotes in Hn as (rid & rule & id & Hin & Hno & Hq%reaches_threshold & Hnew & Hev).
    exists rid, rule, id, (fired_event id rid ty subj (w_now w)). split_and!; [|done | apply fired_event_about | done | done].
    by apply matching_rules_elem in Hin as [Hl (? & ? & ?)%rule_applies_scope].
Qed.

(** Server 3 of user 5 has crashed; users 5 (its owner) and 6 (a stranger with
    a rule from an earlier membership) watch it. *)
Definition alert_user (id : uuid) (role mail : string) : User :=
  mkUser id mail "u" "" role "" false 0 None true None None "en" "UTC".

Definition alert_world : World :=
  mkWorld
    (with_alert_rules {[ 31%N := mkAlertRule 31 (Some 3%N) 5 "server_crashed" None ["email"] true 0 "";
                         32%N := mkAlertRule 32 (Some 3%N) 6 "server_crashed" None ["email"] true 0 "";
                         33%N := mkAlertRule 33 None 7 "cpu_high" None ["email"] true 0 "" ]}
    (with_users {[ 5%N := alert_user 5 RoleUser "o@x.de"; 6%N := alert_user 6 RoleUser "s@x.de";
                   7%N := alert_user 7 RoleAdmin "a@x.de" ]}
    (with_servers {[3%N := sample_server 3 9 5]}
    (with_nodes {[9%N := sample_node 9]} empty_db)))) ∅ 5000 [] (fun n => N.of_nat (100 + n)) 0.

Lemma alert_scope_witness :
  let w' := snd (EvaluateAndFire true "server_crashed" 3 0%Q alert_world) in
  exists e rid rule, alert_events (w_db w') !! 100%N = Some e /\ event_about 100 rid "server_crashed" 3 5000 e
    /\ answers (w_db alert_world) "server_crashed" 3 0%Q rid rule /\ size (alert_events (w_db w')) = 1%nat.
Proof.
  cbv zeta. destruct (EvaluateAndFire true "server_crashed" 3 0%Q alert_world) as [r w'] eqn:E.
  destruct (alert_scope true "server_crashed" 3 0%Q alert_world w' r E) as (_ & Hev & _). cbn [snd].
  assert (Hw : w' = snd (EvaluateAndFire true "server_crashed" 3 0%Q alert_world)) by (by rewrite E).
  rewrite Hw in Hev |- *.
  destruct (Hev 100%N (fired_event 100 31 "server_crashed" 3 5000)) as [H|(rid & rule & Hans & Hab)];
    [by vm_compute | by vm_compute in H|].
  exists (fired_event 100 31 "server_crashed" 3 5000), rid, rule.
  split_and!; [by vm_compute | exact Hab | exact Hans | by vm_compute].
Defined.

(** ** Deduplication *)

(** At time [t] no event is from the future, and the open events of a rule are
    at least fifteen minutes apart. *)
Definition spaced (t : Z) (d : DB) : Prop :=
  (forall k e, alert_events d !! k = Some e -> event_CreatedAt e <= t)
  /\ (forall k1 k2 e1 e2 rid, k1 <> k2 ->
        alert_events d !! k1 = Some e1 -> alert_events d !! k2 = Some e2 ->
        event_RuleID e1 = Some rid -> event_RuleID e2 = Some rid ->
        event_Resolved e1 = false -> event_Resolved e2 = false ->
        dedup_window <= Z.abs (event_CreatedAt e1 - event_CreatedAt e2)).

Lemma fired_spaced ty subj v rid rule t d d' :
  fired ty subj v rid rule t d d' -> spaced t d -> spaced t d'.
Proof.
  intros (id & -> & Hnone & Hdup & _) [Hpast Hsp]. split; cbn.
  - intros k e [[_ <-]|[_ He]]%lookup_insert_Some; [cbn; lia | eauto].
  - assert (G : forall k e, alert_events d !! k = Some e -> event_RuleID e = Some rid ->
      event_Resolved e = false -> event_CreatedAt e <= t - dedup_window).
    { intros k e He Hr Hres. apply Hdup in He. unfold open_duplicate in He. rewrite Hres in He.
      rewrite bool_decide_true in He by done. cbn in He. by apply Z.ltb_ge in He. }
    intros k1 k2 e1 e2 rid' Hne He1 He2 Hr1 Hr2 Hu1 Hu2.
    apply lookup_insert_Some in He1 as [[<- <-]|[Hn1 He1]], He2 as [[<- <-]|[Hn2 He2]]; [done | | |by eauto];
      cbn in *; simplify_eq; [specialize (G _ _ He2 Hr2 Hu2) | specialize (G _ _ He1 Hr1 Hu1)];
      unfold dedup_window in *; lia.
Qed.

Lemma fire_steps_spaced ty subj v t rules d d' :
  fire_steps ty subj v t rules d d' -> spaced t d -> spaced t d'.
Proof. induction 1; eauto using fired_spaced. Qed.

(** What happens to alerts over time: reports, resolutions, changes of rules,
    and the clock, which only moves forward. *)
Inductive alert_step `{U : Unicode} `{P : Platform} (url_parse : string -> option URL)
  : World -> World -> Prop :=
| step_fire notify ty subj v w :
    alert_step url_parse w (snd (EvaluateAndFire notify ty subj v w))
| step_resolve caller id w : alert_step url_parse w (snd (ResolveEvent caller id w))
| step_create caller req w : alert_step url_parse w (snd (CreateRule url_parse caller req w))
| step_toggle rid uid b w : alert_step url_parse w (snd (ToggleRule rid uid b w))
| step_delete rid uid w : alert_step url_parse w (snd (DeleteRule rid uid w))
| step_clock t w : w_now w <= t -> alert_step url_parse w (with_now t w).

Lemma spaced_weaken t d (m : gmap uuid AlertEvent) :
  (forall k e', m !! k = Some e' -> exists e, alert_events d !! k = Some e
     /\ event_CreatedAt e' = event_CreatedAt e
     /\ (forall rid, event_RuleID e' = Some rid -> event_RuleID e = Some rid)
     /\ (event_Resolved e' = false -> event_Resolved e = false)) ->
  spaced t d -> spaced t (with_alert_events m d).
Proof.
  intros Hm [Hp Hs]. split; cbn.
  - intros k e' (e & He & -> & _)%Hm. eauto.
  - intros k1 k2 e1 e2 rid Hne (a & Ha & -> & Ra & Ua)%Hm (b & Hb & -> & Rb & Ub)%Hm H1 H2 H3 H4.
    eapply (Hs k1 k2); eauto.
Qed.

Lemma ResolveEvent_spaced caller id t : preserves (spaced t) (ResolveEvent caller id).
Proof.
  unfold ResolveEvent. solve_preserves. apply preserves_exec. intros d n d' Hs H.
  destruct (alert_events d !! id) as [e0|] eqn:E; [|by injection H as <- <-].
  destruct (_ || _); injection H as <- <-; [|done]. apply spaced_weaken; [|done].
  intros k e' He. apply lookup_alter_Some in He as [(-> & e & He & ->)|[_ He]]; eauto 10.
  exists e. split_and!; done.
Qed.

Lemma change_rule_spaced msg rid uid f t :
  (forall d, spaced t d -> spaced t (f (alert_rules d) d)) ->
  preserves (spaced t) (wrap msg (exec (change_rule rid uid f))).
Proof.
  intros Hf. apply preserves_wrap, preserves_exec. intros d n d' Hs H. unfold change_rule in H.
  destruct (alert_rules d !! rid) as [r|]; [|by injection H as <- <-].
  destruct (own_rule uid r); injection H as <- <-; auto.
Qed.

Lemma CreateRule_spaced `{U : Unicode} `{P : Platform} url_parse caller req t :
  preserves (spaced t) (CreateRule url_parse caller req).
Proof.
  unfold CreateRule. solve_preserves; try apply HasServerPermission_reads.
  apply preserves_exec. intros d r d' Hs H. unfold insert_rule in H. destruct (match _ with Some _ => _ | None => _ end); [done|].
  case_bool_decide; [done|]. destruct (insert_row _ _ _); [|done]. by injection H as <- <-.
Qed.

Lemma alert_step_spaced `{U : Unicode} `{P : Platform} url_parse w w' :
  alert_step url_parse w w' -> spaced (w_now w) (w_db w) -> spaced (w_now w') (w_db w').
Proof.
  assert (G : forall A (m : M A) w, timeless m -> preserves (spaced (w_now w)) m ->
    spaced (w_now w) (w_db w) -> spaced (w_now (snd (m w))) (w_db (snd (m w)))).
  { intros A m w0 Ht Hp Hs. rewrite Ht. by apply Hp. }
  intros Hst. destruct Hst as [notify ty subj v w|caller id w|caller req w|rid uid b w|rid uid w|t w Ht].
  - destruct (EvaluateAndFire notify ty subj v w) as [r w'] eqn:E.
    apply EvaluateAndFire_steps in E as (Hn & Hst & _). cbn [snd]. rewrite Hn. by eapply fire_steps_spaced.
  - apply G; [unfold ResolveEvent; solve_timeless | apply ResolveEvent_spaced].
  - apply G; [|apply CreateRule_spaced].
    unfold CreateRule, HasServerPermission, HasPermission. solve_timeless.
  - apply G; [unfold ToggleRule; solve_timeless|]. unfold ToggleRule.
    apply preserves_bind; [by apply change_rule_spaced | intros; solve_preserves].
  - apply G; [unfold DeleteRule; solve_timeless|]. unfold DeleteRule.
    apply preserves_bind; [apply change_rule_spaced; intros d Hs | intros; solve_preserves].
    refine (spaced_weaken _ (with_alert_rules (delete rid (alert_rules d)) d)
      (update_where (event_with_RuleID None) (fun e => bool_decide (event_RuleID e = Some rid))
         (alert_events d)) _ Hs).
    intros k e' He. rewrite lookup_update_where in He. apply fmap_Some in He as (e & He & ->). exists e.
    destruct (bool_decide _); split_and!; done.
  - intros [Hp Hs]. split; [|done]. cbn. intros k e He. specialize (Hp k e He). lia.
Qed.

(** No storm of alerts: over any sequence of reports, resolutions and changes
    of rules, with any failing database calls, the open events of a rule stay
    at least fifteen minutes apart. *)
Theorem alert_dedup `{U : Unicode} `{P : Platform} (url_parse : string -> option URL) (w w' : World) :
  spaced (w_now w) (w_db w) -> rtc (alert_step url_parse) w w' -> spaced (w_now w') (w_db w').
Proof. intros Hs Hst. induction Hst; eauto using alert_step_spaced. Qed.

(** Twenty minutes after the first report a second one raises a second event;
    a report in between raises none. *)
Lemma alert_dedup_witness :
  let fire w := snd (EvaluateAndFire false "server_crashed" 3 0%Q w) in
  let w1 := fire alert_world in
  let w2 := fire (with_now (w_now w1 + 60 * 1000000000) w1) in
  let w3 := fire (with_now (w_now w2 + 19 * 60 * 1000000000) w2) in
  spaced (w_now w3) (w_db w3)
  /\ size (alert_events (w_db w1)) = 1%nat /\ size (alert_events (w_db w2)) = 1%nat
  /\ size (alert_events (w_db w3)) = 2%nat.
Proof.
  cbv zeta. split; [|by vm_compute].
  eapply (alert_dedup (U := ascii_tables) (P := sample_platform) (fun _ => None) alert_world).
  - split; intros *; cbn; rewrite lookup_empty; done.
  - do 2 (eapply rtc_r; [|apply step_fire]; eapply rtc_r; [|apply step_clock; lia]).
    eapply rtc_r; [apply rtc_refl | apply step_fire].
Defined.

(** ** Where the code and its intent part *)

(** The reports about a node's processor, memory and disk name the node, but
    their events are stored with the subject as a server: no row of servers
    has that id, the insert is refused, and neither an event nor a
    notification comes of it, whatever the value. *)
Theorem node_metrics_never_alert (notify : bool) (ty : string) (node : uuid) (v : Q) (w w' : World)
    (r : res error (list Notification)) :
  ty ∈ ["cpu_high"; "ram_high"; "disk_high"] -> servers (w_db w) !! node = None ->
  EvaluateAndFire notify ty node v w = (r, w') ->
  w_db w' = w_db w /\ forall ns, r = Ok ns -> ns = [].
Proof.
  intros Hty Hno H. apply EvaluateAndFire_steps in H as (_ & Hst & Hns).
  assert (Hd : w_db w' = w_db w).
  { clear Hns. induction Hst as [d|rid rule rules d d' _ IH|rid rule rules d d1 d' Hf _ IH]; [done | auto |].
    destruct Hf as (id & _ & _ & _ & _ & Hdg). exfalso.
    assert (Hs : fst (event_subject ty node) = Some node).
    { repeat (apply elem_of_cons in Hty as [-> | Hty]; [done|]). by apply not_elem_of_nil in Hty. }
    rewrite Hs in Hdg. cbn in Hdg. by rewrite bool_decide_true in Hdg. }
  split; [done|]. intros ns Hr. by apply Hns.
Qed.

Lemma node_metrics_never_alert_witness :
  length (matching_rules "cpu_high" 9 (w_db alert_world)) = 1%nat
  /\ is_ok (fst (EvaluateAndFire true "cpu_high" 9 (99 # 1) alert_world)) = true
  /\ w_db (snd (EvaluateAndFire true "cpu_high" 9 (99 # 1) alert_world)) = w_db alert_world.
Proof.
  split; [by vm_compute|]. split; [by vm_compute|].
  destruct (EvaluateAndFire true "cpu_high" 9 (99 # 1) alert_world) as [r w'] eqn:E.
  apply (node_metrics_never_alert true "cpu_high" 9 (99 # 1) alert_world w' r); [set_solver | done | exact E].
Defined.

(** A rule has one open event in the window, whatever its subject: after one
    node went offline, a second one going offline stays silent. *)
Theorem second_node_is_silent :
  let w0 := with_db (with_nodes {[9%N := sample_node 9; 10%N := sample_node 10]}
      (with_alert_rules {[34%N := mkAlertRule 34 None 7 "node_offline" None ["email"] true 0 ""]}
         (w_db alert_world))) alert_world in
  let w1 := snd (EvaluateAndFire true "node_offline" 9 0%Q w0) in
  is_ok (fst (EvaluateAndFire true "node_offline" 9 0%Q w0)) = true
  /\ size (alert_events (w_db w1)) = 1%nat
  /\ fst (EvaluateAndFire true "node_offline" 10 0%Q w1) = Ok [].
Proof. split_and!; by vm_compute. Qed.

(** ** Who sees and resolves an event *)

(** A user who is not staff lists only events of their own rules and resolves
    only those: an attempt on another event reports that there is none and
    changes nothing. *)
Theorem events_private (caller : User) (limit : Z) (id : uuid) (w w1 w2 : World)
    (l : list AlertEvent) (r : res error unit) :
  is_staff (user_Role caller) = false ->
  ListEvents caller limit w = (Ok l, w1) -> ResolveEvent caller id w = (r, w2) ->
  (forall e, e ∈ l -> owned_event (w_db w) (user_ID caller) e = true)
  /\ (length l <= 200)%nat
  /\ (w_db w2 = w_db w \/ exists e, alert_events (w_db w) !! id = Some e
        /\ owned_event (w_db w) (user_ID caller) e = true
        /\ w_db w2 = with_alert_events (<[id := resolve_event (w_now w) e]> (alert_events (w_db w))) (w_db w)).
Proof.
  intros Hs Hl Hr. unfold ListEvents in Hl. cbv zeta in Hl. apply wrap_ok, query_ok in Hl as [[= <-] _].
  rewrite Hs. split_and!.
  - intros e He. apply elem_of_take in He as (i & He & _). apply list_elem_of_lookup_2 in He.
    rewrite order_by_perm in He. apply elem_of_rows in He as [_ He].
    rewrite andb_false_r, orb_false_r in He. done.
  - rewrite length_take. case_ifs; breflect; lia.
  - unfold ResolveEvent in Hr. cbv zeta in Hr. rewrite Hs in Hr. cbn [orb] in Hr.
    rewrite (bind_run _ _ _ (Ok (w_now w)) w) in Hr by done. cbv beta iota in Hr.
    apply bind_inv in Hr as [(n & w3 & Hx%wrap_ok%exec_ok & Hr)|(e & Hx & _)].
    + assert (w_db w2 = w_db w3) as -> by
        (destruct (n =? 0)%nat; [by apply fail_inv in Hr as [_ ->] | by apply ret_inv in Hr as [_ ->]]).
      destruct (alert_events (w_db w) !! id) as [e|] eqn:He; [|left; congruence].
      destruct (owned_event _ _ e) eqn:Ho; [|left; congruence]. right. exists e. split_and!; [done | done|].
      injection Hx as _ <-. f_equal. apply map_eq. intros k. destruct (decide (k = id)) as [->|Hne].
      * by rewrite lookup_alter_eq, lookup_insert_eq, He.
      * by rewrite lookup_alter_ne, lookup_insert_ne by done.
    + left. apply wrap_inv in Hx as [(? & ? & _)|(e' & _ & Hx)]; [done|].
      by apply exec_inv in Hx as (_ & _ & _ & _ & [(? & ? & ? & _)|(? & _ & ? & _)]).
Qed.
