(* ===== verification/Daemon.v ===== *)
(** * The HTTP client of the node daemons

    Models [daemon/client.go] and [daemon/rclone.go]: the request each method
    sends, what it makes of the answer, and the pool that holds one client per
    node.  A method is a function in [M] that sends through the link of the
    world and returns the daemon's answer or a [DaemonError] as a value.  The
    daemon itself is the network of the link; decoding its JSON is the class
    [DaemonJson].  A UUID in a path is its text, which [url.PathEscape] leaves
    as it is.

    A call ends with an answer, a transport error (the 30 seconds of the short
    client included) or, as the long client waits without a limit of its own,
    with the end of the context it was given; [derr_Expired] tells the last.
    A job or handler that goes on with that context sends nothing more on it
    ([call_on]) and has its statements refused ([stmt_on]). *)

From stdpp Require Import base numbers list strings option gmap.
From S2P Require Import Prelude GoStrings Store Platform Net.

Local Open Scope Z_scope.

(** An error of a call: its text, the option updates of a
    [*daemon.RemoteError], and whether it says that the context ended. *)
Record DaemonError := mkDaemonError {
  derr_Error : string;
  derr_ConfigUpdates : option (gmap string string);
  derr_Expired : bool
}.

Definition plain {A} (msg : string) : res DaemonError A := Err (mkDaemonError msg None false).
Definition expired {A} (msg : string) : res DaemonError A := Err (mkDaemonError msg None true).

(** Did the context of a call end in it? *)
Definition ctx_ended {A} (r : res DaemonError A) : bool :=
  match r with Ok _ => false | Err e => derr_Expired e end.

(** A call and a statement on a context that has ended or not: [http.Client]
    and [pgx] refuse an ended one before anything is sent. *)
Definition ErrDeadlineExceeded : error := ErrNew "context deadline exceeded".

Definition call_on {A} (ended : bool) (m : M (res DaemonError A)) : M (res DaemonError A) :=
  if ended then ret (expired "context deadline exceeded") else m.

Definition stmt_on {A} (ended : bool) (m : M A) : M A :=
  if ended then fail ErrDeadlineExceeded else m.

(** ** Request and response types *)

(** daemon.ServerConfig; the CPU limit is a number of percent. *)
Record ServerConfig := mkServerConfig {
  sc_ServerID : string;
  sc_Name : string;
  sc_DataPath : string;
  sc_Port : Z;
  sc_RAMLimitMB : Z;
  sc_CPULimit : Z;
  sc_AutoRestart : bool;
  sc_CrashLimit : Z;
  sc_CrashWindowS : Z;
  sc_LaunchFlags : list string
}.

(** daemon.ActionResponse. *)
Record ActionResponse := mkActionResponse {
  act_Success : bool;
  act_Message : string
}.

(** daemon.ServerStatus and daemon.ServerMetrics. *)
Record ServerStatus := mkServerStatus {
  ss_ServerID : string;
  ss_Status : string
}.

Record ServerMetrics := mkServerMetrics {
  sm_ServerID : string;
  sm_CPUPercent : string;
  sm_RAMMB : Z;
  sm_UptimeS : Z
}.

(** daemon.BackupCreatedResponse. *)
Record BackupCreatedResponse := mkBackupCreatedResponse {
  bcr_SizeBytes : Z;
  bcr_StoragePath : string
}.

(** daemon.EncKey. *)
Record EncKey := mkEncKey {
  enc_Key : string;
  enc_KeyID : Z
}.

(** daemon.RemoteSpec. *)
Record RemoteSpec := mkRemoteSpec {
  spec_Backend : string;
  spec_Options : gmap string string;
  spec_Obscure : list string;
  spec_BasePath : string
}.

(** daemon.DaemonHealth. *)
Record DaemonHealth := mkDaemonHealth {
  dh_Status : string;
  dh_Version : string;
  dh_NodeID : string
}.

(** daemon.RemoteResult. *)
Record RemoteResult := mkRemoteResult {
  rr_Success : bool;
  rr_Error : string;
  rr_RemotePath : string;
  rr_ConfigUpdates : gmap string string
}.

(** The decoders of [encoding/json] at these types.  Decoding a remote result
    fills what it can and says whether it succeeded. *)
Class DaemonJson := {
  decode_ActionResponse : string -> option ActionResponse;
  decode_ServerStatus : string -> option ServerStatus;
  decode_ServerMetrics : string -> option ServerMetrics;
  decode_RawMessage : string -> option json;
  decode_DaemonHealth : string -> option DaemonHealth;
  decode_BackupCreatedResponse : string -> option BackupCreatedResponse;
  decode_RemoteResult : string -> RemoteResult * bool
}.

(** The JSON of a request body. *)
Definition json_strings (m : list (string * string)) : json :=
  JObj (map (fun kv => (fst kv, JStr (snd kv))) m).

Definition spec_json (s : RemoteSpec) : json :=
  JObj [("backend", JStr (spec_Backend s));
        ("options", json_strings (map_to_list (spec_Options s)));
        ("obscure", JArr (map JStr (spec_Obscure s)));
        ("base_path", JStr (spec_BasePath s))].

Definition JInt (z : Z) : json := JNum (Itoa z).

Definition config_json (c : ServerConfig) : json :=
  JObj [("config", JObj
    [("server_id", JStr (sc_ServerID c)); ("name", JStr (sc_Name c)); ("data_path", JStr (sc_DataPath c));
     ("port", JInt (sc_Port c)); ("ram_limit_mb", JInt (sc_RAMLimitMB c));
     ("cpu_limit", JInt (sc_CPULimit c)); ("auto_restart", JBool (sc_AutoRestart c));
     ("crash_limit", JInt (sc_CrashLimit c)); ("crash_window_s", JInt (sc_CrashWindowS c));
     ("launch_flags", JArr (map JStr (sc_LaunchFlags c)))])].

Section client.
Context `{P : Platform} `{J : DaemonJson}.
Implicit Types (c : Client) (serverID backupID : uuid).

(** ** HTTP helpers *)

Definition request (c : Client) (method path : string) (query : list (string * string)) (body : Body) : Request :=
  mkRequest method (client_baseURL c) path query body (client_nodeToken c).

(** [doRequest]: the answer is the daemon's success or error envelope. *)
Definition doRequest (c : Client) (method path : string) (query : list (string * string)) (body : Body)
  : M (res DaemonError unit) :=
  let* resp := send (request c method path query body) in
  ret match resp with
      | NoResponse e => plain ("daemon: " +:+ method +:+ " " +:+ path +:+ ": " +:+ e)
      | Expired e => expired ("daemon: " +:+ method +:+ " " +:+ path +:+ ": " +:+ e)
      | HTTPResponse status b =>
        match decode_ActionResponse b with
        | None => plain "daemon: decode response"
        | Some result =>
          if negb (act_Success result) || (400 <=? status)
          then plain ("daemon: " +:+ path +:+ " failed: " +:+ act_Message result)
          else Ok tt
        end
      end.

Definition postAction (c : Client) (path : string) (body : Body) : M (res DaemonError unit) :=
  doRequest c "POST" path [] body.

(** [getWithQuery] and [get], which has no query. *)
Definition getWithQuery {A} (decode : string -> option A) (c : Client) (path : string)
    (query : list (string * string)) : M (res DaemonError A) :=
  let* resp := send (request c "GET" path query NoBody) in
  ret match resp with
      | NoResponse e => plain ("daemon: GET " +:+ path +:+ ": " +:+ e)
      | Expired e => expired ("daemon: GET " +:+ path +:+ ": " +:+ e)
      | HTTPResponse status b =>
        if 400 <=? status
        then plain ("daemon: GET " +:+ path +:+ " returned " +:+ Itoa status +:+ ": " +:+ b)
        else match decode b with Some a => Ok a | None => plain "daemon: decode response" end
      end.

Definition get {A} (decode : string -> option A) (c : Client) (path : string) : M (res DaemonError A) :=
  getWithQuery decode c path [].

(** A request whose answer is its status, or its raw body. *)
Definition raw_call (c : Client) (method path : string) (query : list (string * string)) (body : Body)
    (what failed : string) : M (res DaemonError string) :=
  let* resp := send (request c method path query body) in
  ret match resp with
      | NoResponse e => plain ("daemon: " +:+ what +:+ ": " +:+ e)
      | Expired e => expired ("daemon: " +:+ what +:+ ": " +:+ e)
      | HTTPResponse status b =>
        if 400 <=? status
        then plain ("daemon: " +:+ failed +:+ " failed (" +:+ Itoa status +:+ "): " +:+ b)
        else Ok b
      end.

Definition discard {A} (m : M (res DaemonError A)) : M (res DaemonError unit) :=
  let* r := m in ret match r with Ok _ => Ok tt | Err e => Err e end.

Definition server_path (serverID : uuid) (rest : string) : string :=
  "/servers/" +:+ uuid_string serverID +:+ rest.

(** ** Power actions *)

Definition client_StartServer c (cfg : ServerConfig) :=
  postAction c ("/servers/" +:+ sc_ServerID cfg +:+ "/start") (JSONBody (config_json cfg)).

Definition client_StopServer c serverID := postAction c (server_path serverID "/stop") NoBody.
Definition client_RestartServer c serverID := postAction c (server_path serverID "/restart") NoBody.
Definition client_KillServer c serverID := postAction c (server_path serverID "/kill") NoBody.

Definition client_DeleteServerData c serverID := doRequest c "DELETE" (server_path serverID "") [] NoBody.

Definition client_SendCommand c serverID (command : string) :=
  postAction c (server_path serverID "/command") (JSONBody (json_strings [("command", command)])).

Definition client_ProvisionServer c serverID (version dataPath : string) :=
  postAction c (server_path serverID "/provision")
    (JSONBody (json_strings [("version", version); ("data_path", dataPath)])).

Definition client_ReinstallServer c serverID (version dataPath : string) :=
  postAction c (server_path serverID "/provision")
    (JSONBody (JObj [("version", JStr version); ("data_path", JStr dataPath); ("reinstall", JBool true)])).

(** ** Observability *)

Definition client_GetServerStatus c serverID :=
  get decode_ServerStatus c (server_path serverID "/status").
Definition client_GetServerMetrics c serverID :=
  get decode_ServerMetrics c (server_path serverID "/metrics").
Definition client_GetNetworkStats c := get decode_RawMessage c "/network-stats".
Definition client_Health c := get decode_DaemonHealth c "/health".

(** ** Files *)

Definition client_ListFiles c serverID (path : string) :=
  getWithQuery decode_RawMessage c (server_path serverID "/files") [("path", path)].
Definition client_GetFileContent c serverID (path : string) :=
  getWithQuery decode_RawMessage c (server_path serverID "/files/content") [("path", path)].
Definition client_WriteFileContent c serverID (path content : string) :=
  doRequest c "PUT" (server_path serverID "/files/content") []
    (JSONBody (json_strings [("path", path); ("content", content)])).
Definition client_DeleteFile c serverID (path : string) :=
  doRequest c "DELETE" (server_path serverID "/files") [("path", path)] NoBody.
Definition client_CreateDirectory c serverID (path : string) :=
  doRequest c "POST" (server_path serverID "/files/directory") [] (JSONBody (json_strings [("path", path)])).
Definition client_RenameFile c serverID (path newName : string) :=
  doRequest c "POST" (server_path serverID "/files/rename") []
    (JSONBody (json_strings [("path", path); ("new_name", newName)])).
Definition client_UploadStream c serverID (dir contentType body : string) :=
  discard (raw_call c "POST" (server_path serverID "/files/upload") [("path", dir)]
             (StreamBody contentType body) "upload" "upload").
(** The form has one file part, [file], under the given name. *)
Definition client_UploadFile c serverID (dir fileName data : string) :=
  discard (raw_call c "POST" (server_path serverID "/files/upload") [("path", dir)]
             (FormBody fileName data) "upload" "upload").
Definition client_DownloadFile c serverID (path : string) :=
  raw_call c "GET" (server_path serverID "/files/download") [("path", path)] NoBody "download" "download".
Definition client_ExtractArchive c serverID (path : string) :=
  doRequest c "POST" (server_path serverID "/files/extract") [] (JSONBody (json_strings [("path", path)])).
Definition client_CreateArchive c serverID (path : string) :=
  doRequest c "POST" (server_path serverID "/files/archive") [] (JSONBody (json_strings [("path", path)])).

(** ** Backups on the node *)

Definition backupBody (backupID : uuid) (enc : option EncKey) : Body :=
  JSONBody (JObj (("backup_id", JStr (uuid_string backupID)) ::
    match enc with
    | Some k => [("encryption_key", JStr (enc_Key k)); ("key_id", JInt (enc_KeyID k))]
    | None => []
    end)).

Definition client_CreateBackup c serverID backupID (enc : option EncKey)
  : M (res DaemonError BackupCreatedResponse) :=
  let* r := raw_call c "POST" (server_path serverID "/backup") [] (backupBody backupID enc)
              "create backup" "create backup" in
  ret match r with
      | Err e => Err e
      | Ok b => match decode_BackupCreatedResponse b with
                | Some out => Ok out
                | None => plain "daemon: decode backup response"
                end
      end.

Definition client_RestoreBackup c serverID backupID (enc : option EncKey) :=
  discard (raw_call c "POST" (server_path serverID "/backup/restore") [] (backupBody backupID enc)
             "restore backup" "restore backup").

Definition client_DownloadBackup c serverID backupID :=
  raw_call c "GET" (server_path serverID "/backup/download") [("backup_id", uuid_string backupID)] NoBody
    "download backup" "download backup".

Definition client_DeleteBackupArchive c serverID backupID :=
  doRequest c "DELETE" (server_path serverID "/backup") [("backup_id", uuid_string backupID)] NoBody.

(** The archive is streamed as the file of a multipart form. *)
Definition client_ImportServer c serverID (data : string) :=
  discard (raw_call c "POST" (server_path serverID "/import") []
             (StreamBody "multipart/form-data" data) "import server" "import server").

(** ** Off-site copies *)

(** [remoteBackupRequest], with the key [withEnc] adds. *)
Definition remoteBackupRequest (backupID : uuid) (remote : option RemoteSpec) (enc : option EncKey) : Body :=
  JSONBody (JObj (("backup_id", JStr (uuid_string backupID)) ::
    match remote with Some s => [("remote", spec_json s)] | None => [] end ++
    match enc with
    | Some k => (if String.eqb (enc_Key k) "" then [] else [("encryption_key", JStr (enc_Key k))])
                ++ [("key_id", JInt (enc_KeyID k))]
    | None => []
    end)).

(** [io.ReadAll(io.LimitReader(body, n))]. *)
Definition limit_read (n : Z) (s : string) : string :=
  if len s <=? n then s else str_take (Z.to_nat n) s.

Definition postRemote (c : Client) (path : string) (body : Body) : M (res DaemonError RemoteResult) :=
  let* resp := send (request c "POST" path [] body) in
  ret match resp with
      | NoResponse e => plain ("daemon: POST " +:+ path +:+ ": " +:+ e)
      | Expired e => expired ("daemon: POST " +:+ path +:+ ": " +:+ e)
      | HTTPResponse status b =>
        let raw := limit_read 1048576 b in
        let (out, decoded) := decode_RemoteResult raw in
        if (status =? 404) && negb decoded
        then Err (mkDaemonError "this node's daemon does not support off-site backups yet — update the daemon on the node"
                    (Some ∅) false)
        else if (400 <=? status) || negb (rr_Success out)
        then Err (mkDaemonError
               (if String.eqb (rr_Error out) ""
                then "daemon returned " +:+ Itoa status +:+ ": " +:+ TrimSpace raw else rr_Error out)
               (Some (rr_ConfigUpdates out)) false)
        else if negb decoded then plain ("daemon: decode " +:+ path +:+ " response")
        else Ok out
      end.

Definition client_UploadBackup c serverID backupID (remote : RemoteSpec) :=
  postRemote c (server_path serverID "/backup/upload") (remoteBackupRequest backupID (Some remote) None).

Definition client_DeleteRemoteBackup c serverID backupID (remote : RemoteSpec) :=
  postRemote c (server_path serverID "/backup/remote-delete") (remoteBackupRequest backupID (Some remote) None).

Definition client_TestRemote c (remote : RemoteSpec) :=
  postRemote c "/rclone/test" (JSONBody (JObj [("remote", spec_json remote)])).

Definition client_RestoreBackupFrom c serverID backupID (remote : option RemoteSpec) (enc : option EncKey) :=
  discard (postRemote c (server_path serverID "/backup/restore") (remoteBackupRequest backupID remote enc)).

(** The error keeps the first 64 KB of the body. *)
Definition client_DownloadBackupFrom c serverID backupID (remote : option RemoteSpec) (enc : option EncKey)
  : M (res DaemonError string) :=
  let* resp := send (request c "POST" (server_path serverID "/backup/download") []
                       (remoteBackupRequest backupID remote enc)) in
  ret match resp with
      | NoResponse e => plain ("daemon: download backup: " +:+ e)
      | Expired e => expired ("daemon: download backup: " +:+ e)
      | HTTPResponse status b =>
        if 400 <=? status
        then plain ("daemon: download backup failed (" +:+ Itoa status +:+ "): " +:+ limit_read 65536 b)
        else Ok b
      end.

(** ** The pool *)

(** [ClientPool.Get] and [ClientPool.Remove]. *)
Definition pool_Get (nodeID : uuid) : M (res DaemonError Client) :=
  let* l := get_link in
  ret match pool_clients l !! uuid_string nodeID with
      | Some c => Ok c
      | None => plain ("no daemon client registered for node " +:+ uuid_string nodeID)
      end.

Definition pool_Remove (nodeID : uuid) : M unit :=
  let* l := get_link in
  put_link (link_with_clients (delete (uuid_string nodeID) (pool_clients l)) l).
End client.

(** crypto/tls and crypto/x509: does the PEM text hold a CA certificate, is the
    pair a certificate and its key, and does a chain of certificates verify for
    server authentication at a time; and the common name of a certificate. *)
Class X509 := {
  cert : Type;
  ca_pem : string -> bool;
  key_pair : string -> string -> bool;
  verify_chain : string -> Z -> list cert -> bool;
  common_name : cert -> string
}.

Section pool.
Context `{P : Platform} `{X : X509}.

(** [BuildPanelTLSConfig] without the config it returns. *)
Definition BuildPanelTLSConfig (caPEM panelCertPEM panelKeyPEM expectedCN : string) : res error unit :=
  if String.eqb expectedCN "" then Err (ErrNew "daemon tls: empty expected node CN")
  else if negb (ca_pem caPEM) then Err (ErrNew "daemon tls: no valid CA certificate")
  else if negb (key_pair panelCertPEM panelKeyPEM) then Err (ErrNew "daemon tls: panel client certificate")
  else Ok tt.

(** [VerifyConnection] of that config: [verifyNodeCert]. *)
Definition verifyNodeCert (caPEM : string) (t : Z) (certs : list cert) (expectedCN : string) : res error unit :=
  match certs with
  | [] => Err (ErrNew "daemon tls: no peer certificate")
  | leaf :: _ =>
    if negb (verify_chain caPEM t certs) then Err (ErrNew "daemon tls: peer certificate rejected")
    else if negb (String.eqb (common_name leaf) expectedCN)
    then Err (ErrNew "daemon tls: peer certificate CN does not match node")
    else Ok tt
  end.

Definition pool_SetTLSMaterial (caPEM certPEM keyPEM : string) : M unit :=
  match BuildPanelTLSConfig caPEM certPEM keyPEM "validate" with
  | Err e => fail e
  | Ok _ => let* l := get_link in put_link (link_with_tls (Some (caPEM, certPEM, keyPEM)) l)
  end.

Definition tls_for (l : Link) (nodeID : uuid) (mtls : bool) : bool :=
  mtls && match pool_tls l with
          | Some (ca, crt, key) => is_ok (BuildPanelTLSConfig ca crt key (uuid_string nodeID))
          | None => false
          end.

Definition pool_Register (nodeID : uuid) (fqdn : string) (port : Z) (token : string) (mtls : bool) : M unit :=
  let* l := get_link in
  let tls := tls_for l nodeID mtls in
  match baseURLWithScheme (if tls then "https" else "http") fqdn port with
  | Err e => fail e
  | Ok baseURL =>
    match pool_clients l !! uuid_string nodeID with
    | Some old =>
      if String.eqb (client_baseURL old) baseURL && String.eqb (client_nodeToken old) token
         && Bool.eqb (client_tls old) tls
      then ret tt
      else put_link (link_with_clients (<[uuid_string nodeID := mkClient baseURL token tls]> (pool_clients l)) l)
    | None =>
      put_link (link_with_clients (<[uuid_string nodeID := mkClient baseURL token tls]> (pool_clients l)) l)
    end
  end.
End pool.

(** ** Theorems: what a call sends *)

(** The run sends one request, with the address and the token of the client,
    and does nothing else. *)
Definition sends (c : Client) (q : Request -> Prop) {A} (m : M A) : Prop :=
  forall w, exists req, req_Base req = client_baseURL c /\ req_Token req = client_nodeToken c /\ q req
    /\ snd (m w) = with_link (link_with_sent (link_sent (w_link w) ++ [req]) (w_link w)) w.

Section sends.
Context `{P : Platform} `{J : DaemonJson}.

Lemma sends_request c (q : Request -> Prop) method path query body {A} (f : Response -> A) :
  q (request c method path query body) ->
  sends c q (let* resp := send (request c method path query body) in ret (f resp)).
Proof. intros Hq w. exists (request c method path query body). split_and!; done. Qed.

Lemma sends_map c q {A B} (m : M A) (f : A -> B) : sends c q m -> sends c q (let* r := m in ret (f r)).
Proof.
  intros H w. destruct (H w) as (req & H1 & H2 & H3 & H4). exists req. split_and!; [done..|].
  unfold bind, ret. destruct (m w) as [[a|e] w1]; done.
Qed.

(** The methods that carry a backup key or the options of a remote. *)
Inductive secret_call (c : Client) : forall {A}, M A -> Prop :=
| call_CreateBackup s b k : secret_call c (client_CreateBackup c s b k)
| call_RestoreBackup s b k : secret_call c (client_RestoreBackup c s b k)
| call_UploadBackup s b r : secret_call c (client_UploadBackup c s b r)
| call_DeleteRemoteBackup s b r : secret_call c (client_DeleteRemoteBackup c s b r)
| call_TestRemote r : secret_call c (client_TestRemote c r)
| call_RestoreBackupFrom s b r k : secret_call c (client_RestoreBackupFrom c s b r k)
| call_DownloadBackupFrom s b r k : secret_call c (client_DownloadBackupFrom c s b r k).

(** Every method of the client. *)
Inductive client_call (c : Client) : forall {A}, M A -> Prop :=
| call_secret A (m : M A) : secret_call c m -> client_call c m
| call_StartServer cfg : client_call c (client_StartServer c cfg)
| call_StopServer s : client_call c (client_StopServer c s)
| call_RestartServer s : client_call c (client_RestartServer c s)
| call_KillServer s : client_call c (client_KillServer c s)
| call_DeleteServerData s : client_call c (client_DeleteServerData c s)
| call_SendCommand s l : client_call c (client_SendCommand c s l)
| call_ProvisionServer s v p : client_call c (client_ProvisionServer c s v p)
| call_ReinstallServer s v p : client_call c (client_ReinstallServer c s v p)
| call_GetServerStatus s : client_call c (client_GetServerStatus c s)
| call_GetServerMetrics s : client_call c (client_GetServerMetrics c s)
| call_GetNetworkStats : client_call c (client_GetNetworkStats c)
| call_Health : client_call c (client_Health c)
| call_UploadFile s p n t : client_call c (client_UploadFile c s p n t)
| call_ListFiles s p : client_call c (client_ListFiles c s p)
| call_GetFileContent s p : client_call c (client_GetFileContent c s p)
| call_WriteFileContent s p t : client_call c (client_WriteFileContent c s p t)
| call_DeleteFile s p : client_call c (client_DeleteFile c s p)
| call_CreateDirectory s p : client_call c (client_CreateDirectory c s p)
| call_RenameFile s p n : client_call c (client_RenameFile c s p n)
| call_UploadStream s p t b : client_call c (client_UploadStream c s p t b)
| call_DownloadFile s p : client_call c (client_DownloadFile c s p)
| call_ExtractArchive s p : client_call c (client_ExtractArchive c s p)
| call_CreateArchive s p : client_call c (client_CreateArchive c s p)
| call_DownloadBackup s b : client_call c (client_DownloadBackup c s b)
| call_DeleteBackupArchive s b : client_call c (client_DeleteBackupArchive c s b)
| call_ImportServer s b : client_call c (client_ImportServer c s b).
End sends.

Ltac solve_sends := repeat (apply sends_request || apply sends_map); done.

(** The path of a request names no more than the server. *)
Definition plain_path `{P : Platform} (req : Request) : Prop :=
  req_Path req = "/rclone/test" \/ exists s rest, req_Path req = server_path s rest
    /\ rest ∈ ["/backup"; "/backup/restore"; "/backup/upload"; "/backup/remote-delete"; "/backup/download"].

Lemma secret_call_sends `{P : Platform} `{J : DaemonJson} (c : Client) (A : Type) (m : M A) :
  secret_call c m ->
  sends c (fun req => req_Query req = [] /\ plain_path req /\ req_Method req = "POST") m.
Proof.
  intros H. destruct H; repeat (apply sends_request || apply sends_map); (split; [done|]); (split; [|done]);
    unfold plain_path; ((by left) || (right; eexists _, _; split; [done|])); set_solver.
Qed.

(** Every call to a node is one request to the address of that node's client,
    with that node's token, and touches nothing else in the panel; a backup
    key and the options of a remote, passwords included, travel in the body
    only: the path names the server and the query is empty. *)
Theorem node_calls_confined `{P : Platform} `{J : DaemonJson} (c : Client) (A : Type) (m : M A) :
  (client_call c m -> sends c (fun _ => True) m)
  /\ (secret_call c m -> sends c (fun req => req_Query req = [] /\ plain_path req
                                              /\ req_Method req = "POST") m).
Proof.
  split; [|apply secret_call_sends]. intros H. destruct H; try solve_sends.
  intros w. destruct (secret_call_sends c A m H w) as (req & H1 & H2 & _ & H4). eauto.
Qed.

(** ** Calls that are cut off *)

(** On the way from [w] to [w'] the request was sent, and the context of the
    call ended before the node answered. *)
Definition ran_out (w w' : World) (req : Request) : Prop :=
  exists n text, (length (link_sent (w_link w)) <= n)%nat
    /\ link_sent (w_link w') !! n = Some req /\ link_net (w_link w') n req = Expired text.

Lemma ran_out_earlier w0 w w' req : sending (w_link w0) (w_link w) -> ran_out w w' req -> ran_out w0 w' req.
Proof.
  intros (_ & _ & reqs & Hs) (n & text & Hn & H). exists n, text. split; [|done].
  rewrite Hs, length_app in Hn. lia.
Qed.

(** The last request was cut off. *)
Lemma ran_out_last w req text :
  link_net (w_link w) (length (link_sent (w_link w))) req = Expired text ->
  ran_out w (with_link (link_with_sent (link_sent (w_link w) ++ [req]) (w_link w)) w) req.
Proof.
  intros H. exists (length (link_sent (w_link w))), text. split_and!; [done | | exact H].
  cbn. by rewrite list_lookup_middle.
Qed.

Lemma raw_call_run `{P : Platform} c method path query body what failed w :
  let req := request c method path query body in
  let w' := with_link (link_with_sent (link_sent (w_link w) ++ [req]) (w_link w)) w in
  exists r, raw_call c method path query body what failed w = (Ok r, w') /\ (ctx_ended r = true -> ran_out w w' req).
Proof.
  cbv zeta. eexists. split; [reflexivity|]. intros Hx.
  destruct (link_net _ _ _) as [?|?|? ?] eqn:En; [done | by eapply ran_out_last | by destruct (400 <=? _)].
Qed.

(** ** The pool *)

Lemma get_link_run {B} (k : Link -> M B) w : bind get_link k w = k (w_link w) w.
Proof. done. Qed.

(** A node with a bad address gets no client and the pool stays as it is.
    Otherwise the node has one client with its token, on a URL that is nothing
    but scheme, host and port, and no other entry changes; it speaks TLS
    exactly when the node is ready for it and the panel has the material.
    Registering the same again keeps the world, so open connections survive
    heartbeats. *)
Theorem pool_register `{P : Platform} `{X : X509} (nodeID : uuid) (fqdn : string) (port : Z)
    (token : string) (mtls : bool) (w w' : World) (r : res error unit) :
  pool_Register nodeID fqdn port token mtls w = (r, w') ->
  (is_ok r = false /\ w' = w) \/
  (r = Ok tt /\ exists h c, str_forallb host_char h = true /\ h <> "" /\ 1 <= port <= 65535
   /\ client_tls c = tls_for (w_link w) nodeID mtls /\ client_nodeToken c = token
   /\ client_baseURL c = (if client_tls c then "https" else "http") +:+ "://" +:+ JoinHostPort h (Itoa port)
   /\ pool_clients (w_link w') = <[uuid_string nodeID := c]> (pool_clients (w_link w))
   /\ w_db w' = w_db w /\ link_sent (w_link w') = link_sent (w_link w)
   /\ pool_Register nodeID fqdn port token mtls w' = (Ok tt, w')).
Proof.
  unfold pool_Register. rewrite get_link_run. cbv beta iota zeta. intros H.
  set (tls := tls_for (w_link w) nodeID mtls) in *.
  destruct (baseURLWithScheme _ fqdn port) as [u|e] eqn:Eu; [|apply fail_inv in H as [-> ->]; by left].
  right. pose proof Eu as Hu. apply base_url_safe in Hu as (h & Hc & Hne & Hp & Hu).
  assert (G : forall c, client_tls c = tls -> client_nodeToken c = token -> client_baseURL c = u ->
    String.eqb (client_baseURL c) u && String.eqb (client_nodeToken c) token && Bool.eqb (client_tls c) tls = true).
  { intros c -> -> ->. rewrite !String.eqb_refl. by destruct tls. }
  destruct (pool_clients (w_link w) !! uuid_string nodeID) as [old|] eqn:Eo.
  - destruct (_ && _ && _) eqn:Ek.
    + apply ret_inv in H as [-> ->]. split; [done|]. exists h, old.
      assert (client_baseURL old = u /\ client_nodeToken old = token /\ client_tls old = tls) as (-> & -> & ->)
        by (breflect; split_and!; try done; by apply eqb_prop).
      split_and!; try done; try lia. { by rewrite insert_id. }
      rewrite get_link_run. cbv beta iota zeta. fold tls. rewrite Eu, Eo, Ek. done.
    + injection H as <- <-. split; [done|]. exists h, (mkClient u token tls). split_and!; try done; try lia.
      rewrite get_link_run. cbv beta iota zeta. cbn [w_link with_link].
      change (tls_for _ nodeID mtls) with tls. rewrite Eu. cbn [pool_clients link_with_clients].
      rewrite lookup_insert_eq, G by done. done.
  - injection H as <- <-. split; [done|]. exists h, (mkClient u token tls). split_and!; try done; try lia.
    rewrite get_link_run. cbv beta iota zeta. cbn [w_link with_link].
    change (tls_for _ nodeID mtls) with tls. rewrite Eu. cbn [pool_clients link_with_clients].
    rewrite lookup_insert_eq, G by done. done.
Qed.

(** ** A concrete decoder and certificate library *)

Definition sample_daemon_json : DaemonJson := {|
  decode_ActionResponse s := Some (mkActionResponse (String.eqb s "ok") s);
  decode_ServerStatus s := Some (mkServerStatus "" s);
  decode_ServerMetrics s := Some (mkServerMetrics "" "0" 0 0);
  decode_RawMessage s := Some (JStr s);
  decode_DaemonHealth s := Some (mkDaemonHealth "ok" s "");
  decode_BackupCreatedResponse s := Some (mkBackupCreatedResponse (len s) s);
  decode_RemoteResult s := (mkRemoteResult (String.eqb s "ok") s "remote" ∅, true)
|}.

Definition sample_x509 : X509 := {|
  cert := string;
  ca_pem s := negb (String.eqb s "");
  key_pair a b := String.eqb a b;
  verify_chain ca t l := forallb (fun c => negb (String.eqb c "")) l;
  common_name c := c
|}.

Lemma pool_register_witness :
  let register := @pool_Register sample_platform sample_x509 in
  exists w' c, register 9%N "10.0.0.9" 8444 "tok" true empty_world = (Ok tt, w')
    /\ client_tls c = false /\ client_baseURL c = "http://10.0.0.9:8444"
    /\ pool_clients (w_link w') !! @uuid_string sample_platform 9 = Some c
    /\ register 9%N "10.0.0.9" 8444 "tok" true w' = (Ok tt, w')
    /\ is_ok (fst (register 9%N "evil.example/x@" 8444 "tok" true empty_world)) = false.
Proof.
  cbv zeta. destruct (@pool_Register sample_platform sample_x509 9%N "10.0.0.9" 8444 "tok" true empty_world)
    as [r w'] eqn:E.
  destruct (@pool_register sample_platform sample_x509 9%N "10.0.0.9" 8444 "tok" true empty_world w' r E)
    as [[Hr _]|(-> & h & c & _ & _ & _ & Htls & Htok & _ & Hcl & _ & _ & Hagain)].
  { change r with (fst (r, w')) in Hr. rewrite <- E in Hr. by vm_compute in Hr. }
  exists w', c. split_and!; [done | exact Htls | | by rewrite Hcl, lookup_insert_eq | exact Hagain | by vm_compute].
  assert (Hl : client_baseURL <$> pool_clients (w_link w') !! @uuid_string sample_platform 9 = Some "http://10.0.0.9:8444").
  { change w' with (snd (Ok (E := error) tt, w')). rewrite <- E. by vm_compute. }
  rewrite Hcl, lookup_insert_eq in Hl. by injection Hl.
Defined.

Lemma node_calls_confined_witness :
  let c := mkClient "http://10.0.0.9:8444" "tok" false in
  sends c (fun req => req_Query req = [] /\ @plain_path sample_platform req /\ req_Method req = "POST")
    (@client_CreateBackup sample_platform sample_daemon_json c 3 41 (Some (mkEncKey "k" 0))).
Proof.
  cbv zeta. apply (@node_calls_confined sample_platform sample_daemon_json). constructor.
Defined.
