(* ===== verification/Middleware.v ===== *)
(** * Request middleware

    Models [middleware/auth.go], [require_permission.go], [daemon_auth.go],
    [bodylimit.go], [ratelimit.go] and [audit.go], and the logout handler of
    [handlers/auth.go] with [extractJTI]: what stands between a request and
    its handler. *)

From stdpp Require Import base numbers list strings option gmap.
From Stdlib Require Import Ascii DecimalString DecimalFacts DecimalPos DecimalZ.
From S2P Require Import Prelude GoStrings Store Roles Permissions Platform Auth AuthTheorems Net.

Local Open Scope Z_scope.

(** A middleware lets a request pass, with what it stores in the context, or
    aborts it with a status and an error text. *)
Inductive Gate (A : Type) :=
| Pass (a : A)
| Abort (status : Z) (msg : string).
Arguments Pass {A} a.
Arguments Abort {A} status msg.

(** What the middleware reads of a request. *)
Record Request := mkRequest {
  req_Method : string;
  req_Path : string;
  req_FullPath : string;
  req_Authorization : string;
  req_ContentType : string;
  req_ClientIP : string;
  req_ContentLength : Z;
  req_Body : option string;
  req_Cap : option Z
}.

Definition req_with_Body (v : option string) (r : Request) : Request :=
  mkRequest (req_Method r) (req_Path r) (req_FullPath r) (req_Authorization r) (req_ContentType r)
    (req_ClientIP r) (req_ContentLength r) v None.

Definition req_with_Cap (v : option Z) (r : Request) : Request :=
  mkRequest (req_Method r) (req_Path r) (req_FullPath r) (req_Authorization r) (req_ContentType r)
    (req_ClientIP r) (req_ContentLength r) (req_Body r) v.

(** ** bodylimit.go *)

Definition DefaultBodyLimit : Z := Z.shiftl 1 20.
Definition DaemonBodyLimit : Z := Z.shiftl 8 20.
Definition FileContentBodyLimit : Z := Z.shiftl 8 20.
Definition ModUploadBodyLimit : Z := Z.shiftl 512 20.
Definition NoBodyLimit : Z := -1.

Definition bodyLimitFor (fullPath : string) : Z :=
  if String.eqb fullPath "/api/v1/servers/:id/files/upload" then NoBodyLimit
  else if String.eqb fullPath "/api/v1/servers/:id/mods/upload" then ModUploadBodyLimit
  else if String.eqb fullPath "/api/v1/servers/:id/files/content" then FileContentBodyLimit
  else if contains ["/api/v1/nodes/:id/register"; "/api/v1/nodes/:id/heartbeat";
                    "/api/v1/nodes/:id/commands/:cmd_id/ack"; "/api/v1/nodes/:id/ddos"] fullPath
  then DaemonBodyLimit
  else if HasPrefix fullPath "/api/v1/servers/:id/daemon/" then DaemonBodyLimit
  else DefaultBodyLimit.

(** The request the handlers see: its body reads up to the cap. *)
Definition BodyLimit (r : Request) : Gate Request :=
  let limit := bodyLimitFor (req_FullPath r) in
  if (limit =? NoBodyLimit) || bool_decide (req_Body r = None) then Pass r
  else if limit <? req_ContentLength r then Abort 413 "request body too large"
  else Pass (req_with_Cap (Some limit) r).

(** Reading at most [n] bytes of a body; past the cap the read fails. *)
Definition read_limited (n : Z) (r : Request) : string :=
  let n' := match req_Cap r with Some c => Z.min n c | None => n end in
  str_take (Z.to_nat n') (default "" (req_Body r)).

(** ** auth.go *)

Section auth.
Context `{U : Unicode} `{P : Platform} (jwtSecret : string).

(** The columns [loadUserByID] reads. *)
Definition load_user (u : User) : User :=
  mkUser (user_ID u) (user_Email u) (user_Username u) (user_PasswordHash u) (user_Role u) ""
    (user_TOTPEnabled u) (user_CreatedAt u) (user_LastLoginAt u) (user_IsActive u) None None "" "".

Definition loadUserByID (id : uuid) : M User :=
  query (fun d => match users d !! id with
                  | Some u => Ok (load_user u)
                  | None => Err ErrNoRows
                  end).

Definition AuthRequired (authHeader : string) : M (Gate User) :=
  if String.eqb authHeader "" then ret (Abort 401 "authorization header required")
  else match cut " " authHeader with
  | None => ret (Abort 401 "authorization header must be Bearer <token>")
  | Some (scheme, tokenStr) =>
    if negb (EqualFold scheme "Bearer")
    then ret (Abort 401 "authorization header must be Bearer <token>")
    else
      let* t := now in
      match jwt_parse jwtSecret (unix t) tokenStr with
      | None => ret (Abort 401 "invalid or expired token")
      | Some claims =>
        let jti := default "" (claim_string "jti" claims) in
        if String.eqb jti "" then ret (Abort 401 "token missing jti claim")
        else
          let* exists_ := attempt (redis_get (blacklist_key jti)) in
          match exists_ with
          | Err _ => ret (Abort 500 "could not validate token")
          | Ok (Some _) => ret (Abort 401 "token has been revoked")
          | Ok None =>
            let sub := match claim "sub" claims with Some (inl s) => s | _ => "" end in
            if String.eqb sub "" then ret (Abort 401 "token missing sub claim")
            else match uuid_parse sub with
            | None => ret (Abort 401 "invalid user ID in token")
            | Some userID =>
              let* user := attempt (loadUserByID userID) in
              match user with
              | Err e => if error_Is e ErrNoRows then ret (Abort 401 "user not found")
                         else ret (Abort 500 "could not load user")
              | Ok user =>
                if negb (user_IsActive user) then ret (Abort 403 "account is disabled")
                else ret (Pass user)
              end
            end
          end
      end
  end.

Definition RequireRole (minRole : string) (user : option User) : Gate unit :=
  match user with
  | None => Abort 401 "authentication required"
  | Some u => if RoleWeight (user_Role u) <? RoleWeight minRole
              then Abort 403 "insufficient permissions" else Pass tt
  end.

Definition RequirePermission (perm : string) (user : option User) : M (Gate unit) :=
  match user with
  | None => ret (Abort 401 "authentication required")
  | Some u =>
    let* has := attempt (HasPermission u perm) in
    match has with
    | Err _ => ret (Abort 500 "permission check failed")
    | Ok false => ret (Abort 403 "insufficient permissions")
    | Ok true => ret (Pass tt)
    end
  end.

Definition RequireServerPermission (perm idParam : string) (user : option User) : M (Gate unit) :=
  match user with
  | None => ret (Abort 401 "authentication required")
  | Some u =>
    if String.eqb idParam "" then ret (Abort 400 "missing server ID")
    else match uuid_parse idParam with
    | None => ret (Abort 400 "invalid server ID")
    | Some serverID =>
      let* has := attempt (HasServerPermission u serverID perm) in
      match has with
      | Err _ => ret (Abort 500 "permission check failed")
      | Ok false => ret (Abort 403 "insufficient permissions")
      | Ok true => ret (Pass tt)
      end
    end
  end.

(** ** daemon_auth.go *)

Definition DaemonNodeAuth (authHeader : string) : M (Gate uuid) :=
  if negb (HasPrefix authHeader "Bearer ") then ret (Abort 401 "unauthorized")
  else
    let token := str_drop (String.length "Bearer ") authHeader in
    if String.eqb token "" then ret (Abort 401 "unauthorized")
    else
      let* r := attempt (query (fun d =>
        match find_key (nodes d) (fun n => String.eqb (node_TokenHash n) (hashToken token)) with
        | Ok (id, _) => Ok id
        | Err e => Err e
        end)) in
      match r with
      | Err _ => ret (Abort 401 "unauthorized")
      | Ok nodeID => ret (Pass nodeID)
      end.

(** ** The logout handler *)

(** [extractJTI]: the id of the token and the nanoseconds it still lives. *)
Definition extractJTI (authHeader : string) : M (string * Z) :=
  if len authHeader <? 8 then ret ("", 0)
  else
    let* t := now in
    match jwt_parse jwtSecret (unix t) (str_drop 7 authHeader) with
    | None => ret ("", 0)
    | Some claims =>
      let jti := default "" (claim_string "jti" claims) in
      match claim_number "exp" claims with
      | Some e => ret (jti, Z.max 0 (e * second - t))
      | None => ret (jti, 0)
      end
    end.

(** The result is 200 whatever the service answers. *)
Definition LogoutHandler (authHeader refreshCookie : string) : M unit :=
  let* (jti, remainingTTL) := extractJTI authHeader in
  ignore (Logout jti refreshCookie remainingTTL).
End auth.

(** ** Theorems: the access-token gate *)

Section gate.
Context `{U : Unicode} `{P : Platform} `{L : !PlatformLaws P} (secret : string).

Lemma redis_get_inv k w r w' :
  redis_get k w = (r, w') ->
  w_db w' = w_db w /\ w_now w' = w_now w /\ w_redis w' = w_redis w
  /\ (r = Err ErrDriver \/ r = Ok (redis_live w k)).
Proof.
  unfold redis_get, fault, bind, ret, fail.
  destruct (w_faults w) as [|[|] fs]; simpl; intros [= <- <-]; split_and!; auto.
Qed.

Lemma loadUserByID_ok id w u w' :
  loadUserByID id w = (Ok u, w') ->
  exists row, users (w_db w) !! id = Some row /\ u = load_user row /\ w_db w' = w_db w.
Proof.
  intros [H Hd]%query_ok. destruct (users (w_db w) !! id) as [row|]; [|done]. injection H as <-. eauto.
Qed.

(** What a request that passes has shown. *)
Definition authenticated (w : World) (authHeader : string) (u : User) : Prop :=
  exists scheme tok c jti sub id row,
    cut " " authHeader = Some (scheme, tok) /\ EqualFold scheme "Bearer" = true
    /\ jwt_parse secret (unix (w_now w)) tok = Some c
    /\ claim_string "jti" c = Some jti /\ jti <> "" /\ redis_live w (blacklist_key jti) = None
    /\ claim_string "sub" c = Some sub /\ uuid_parse sub = Some id
    /\ users (w_db w) !! id = Some row /\ user_IsActive row = true /\ u = load_user row.

Lemma AuthRequired_pass h w u w' :
  AuthRequired secret h w = (Ok (Pass u), w') -> authenticated w h u /\ w_db w' = w_db w.
Proof.
  unfold AuthRequired. intros H.
  destruct (String.eqb h ""); [by inv_run|].
  destruct (cut " " h) as [[scheme tok]|] eqn:Hcut; [|by inv_run].
  destruct (EqualFold scheme "Bearer") eqn:Hs; cbn [negb] in H; [|by inv_run].
  apply bind_ok in H as (t & w1 & [[= ->] ->]%now_inv & H). cbv beta in H.
  destruct (jwt_parse secret _ tok) as [c|] eqn:Hc; [|by inv_run].
  destruct (String.eqb (default "" (claim_string "jti" c)) "") eqn:Hj; [by inv_run|].
  apply String.eqb_neq in Hj. destruct (claim_string "jti" c) as [jti|] eqn:Hjti; [|done]. simpl in Hj, H.
  apply bind_ok in H as (r & w2 & (r' & [= ->] & (Hd2 & _ & _ & Hr)%redis_get_inv)%attempt_inv & H).
  cbv beta in H. destruct r' as [[?|]|e]; [by inv_run| |by inv_run].
  destruct Hr as [|Hr]; [done|]. injection Hr as Hr.
  destruct (String.eqb (match claim "sub" c with Some (inl s) => s | _ => "" end) "") eqn:Hsub; [by inv_run|].
  assert (Hs' : exists sub, claim_string "sub" c = Some sub /\
    match claim "sub" c with Some (inl s) => s | _ => "" end = sub).
  { unfold claim_string. destruct (claim "sub" c) as [[sub|?]|]; [eauto | done..]. }
  destruct Hs' as (sub & Hsub' & Es). rewrite Es in H.
  destruct (uuid_parse sub) as [id|] eqn:Hid; [|by inv_run].
  apply bind_ok in H as (r & w3 & (r' & [= ->] & H3)%attempt_inv & H). cbv beta in H.
  destruct r' as [u'|e]; [|by destruct (error_Is _ _); inv_run].
  apply loadUserByID_ok in H3 as (row & Hrow & -> & Hd3). rewrite Hd2 in *.
  destruct (user_IsActive (load_user row)) eqn:Ha; cbn [negb] in H; [|by inv_run].
  apply ret_inv in H as [[= ->] ->]. split; [|congruence].
  exists scheme, tok, c, jti, sub, id, row. split_and!; done.
Qed.

Lemma cut_bearer tok : cut " " ("Bearer " +:+ tok) = Some ("Bearer", tok).
Proof. reflexivity. Qed.

(** C7. A request passes the gate only with a Bearer token that verifies now,
    carries an id that is not revoked and names a user that exists and is
    active; the user the handlers get is that row, and the gate writes
    nothing.  The token of an unfinished two-factor login never passes, under
    any secret. *)
Theorem auth_gate_sound (w w' : World) (h : string) (u : User) :
  (AuthRequired secret h w = (Ok (Pass u), w') -> authenticated w h u /\ w_db w' = w_db w)
  /\ (forall secret' uid t0,
        AuthRequired secret ("Bearer " +:+ jwt_sign secret' (partial_claims uid t0)) w
        <> (Ok (Pass u), w')).
Proof.
  split; [apply AuthRequired_pass|]. intros secret' uid t0 [Ha _]%AuthRequired_pass.
  destruct Ha as (scheme & tok & c & jti & sub & id & row & Hcut & _ & Hp & Hj & _).
  rewrite cut_bearer in Hcut. injection Hcut as <- <-.
  apply jwt_parse_sign in Hp. subst c. done.
Qed.

Lemma redis_px_late ttl : 0 < ttl -> ttl - 1000000 < redis_px ttl.
Proof.
  intros H. unfold redis_px. destruct (_ && _) eqn:E; breflect; [lia|].
  pose proof (Z.div_mod ttl 1000000). pose proof (Z.mod_pos_bound ttl 1000000). lia.
Qed.

Lemma redis_set_healthy k v ttl w :
  healthy w ->
  redis_set k v ttl w =
    (Ok tt, with_redis (<[k := (v, if 0 <? ttl then Some (w_now w + redis_px ttl) else None)]> (w_redis w)) w).
Proof. unfold healthy, redis_set, fault, bind, fail. intros ->. done. Qed.

(** The key a logout leaves behind. *)
Lemma LogoutHandler_blacklists tok cookie c jti e w r w' :
  healthy w -> tok <> "" -> jwt_parse secret (unix (w_now w)) tok = Some c ->
  claim_string "jti" c = Some jti -> jti <> "" -> claim_number "exp" c = Some e ->
  LogoutHandler secret ("Bearer " +:+ tok) cookie w = (r, w') ->
  w_redis w' !! blacklist_key jti = Some ("1", Some (w_now w + redis_px (e * second - w_now w)))
  /\ w_now w < e * second.
Proof.
  intros Hw Htok Hp Hj Hne He H. assert (Hexp : w_now w < e * second).
  { apply (jwt_parse_exp _ _ _ _ _ Hp) in He. unfold unix in He.
    pose proof (Z.div_mod (w_now w) second). pose proof (Z.mod_pos_bound (w_now w) second).
    unfold second in *. lia. }
  split; [|done]. unfold LogoutHandler in H.
  assert (Hx : extractJTI secret ("Bearer " +:+ tok) w = (Ok (jti, e * second - w_now w), w)).
  { unfold extractJTI. destruct (len ("Bearer " +:+ tok) <? 8) eqn:El.
    - exfalso. apply Z.ltb_lt in El. unfold len in El. destruct tok as [|a tok]; [done|]. simpl in El. lia.
    - erewrite bind_run by reflexivity. cbv beta iota. change (str_drop 7 ("Bearer " +:+ tok)) with tok.
      rewrite Hp, Hj, He. simpl. unfold ret. do 2 f_equal. f_equal. lia. }
  erewrite bind_run in H by exact Hx. cbv beta iota in H.
  apply ignore_inv in H as (_ & r0 & H). unfold Logout in H. apply String.eqb_neq in Hne. rewrite Hne in H.
  cbn [negb] in H.
  erewrite bind_run in H by (apply wrap_run, redis_set_healthy; done). cbv beta iota in H.
  assert (E : w_redis w' = <[blacklist_key jti := ("1",
    if 0 <? e * second - w_now w then Some (w_now w + redis_px (e * second - w_now w)) else None)]> (w_redis w)).
  { destruct (negb _); [|by apply ret_inv in H as [_ ->]].
    apply wrap_inv in H as [(? & _ & H)|(? & _ & H)]; apply exec_inv in H as (_ & -> & _); done. }
  rewrite E, lookup_insert_eq. assert (Hpos : (0 <? e * second - w_now w) = true) by lia. by rewrite Hpos.
Qed.

(** Logging out ends the access token: the token is signed, valid and carries
    an id and an expiry when the handler runs; from then on, as long as its
    revocation key is not touched, no request with that token passes the gate
    before the last millisecond of its life, and after that it has expired. *)
Theorem logout_blocks_token (secret' tok cookie jti : string) (c : claims) (e : Z)
    (w w1 w2 : World) (r : res error unit) (u : User) (w3 : World) :
  healthy w -> tok = jwt_sign secret' c -> tok <> "" ->
  jwt_parse secret (unix (w_now w)) tok = Some c ->
  claim_string "jti" c = Some jti -> jti <> "" -> claim_number "exp" c = Some e ->
  LogoutHandler secret ("Bearer " +:+ tok) cookie w = (r, w1) ->
  w_redis w2 !! blacklist_key jti = w_redis w1 !! blacklist_key jti ->
  w_now w2 + 1000000 <= e * second \/ e * second <= w_now w2 ->
  AuthRequired secret ("Bearer " +:+ tok) w2 <> (Ok (Pass u), w3).
Proof.
  intros Hw Ht Hne Hp Hj Hjne He H Hkey Htime [Ha _]%AuthRequired_pass.
  destruct (LogoutHandler_blacklists tok cookie c jti e w r w1 Hw Hne Hp Hj Hjne He H) as [Hk Hpos].
  destruct Ha as (scheme & tok2 & c2 & jti2 & sub & id & row & Hcut & _ & Hp2 & Hj2 & _ & Hlive & _).
  rewrite cut_bearer in Hcut. injection Hcut as <- <-. rewrite Ht in Hp2.
  pose proof (jwt_parse_sign _ _ _ _ _ Hp2) as ->. assert (jti2 = jti) as -> by congruence.
  destruct Htime as [Ht2|Ht2].
  - unfold redis_live in Hlive. rewrite Hkey, Hk in Hlive.
    pose proof (redis_px_late (e * second - w_now w) ltac:(lia)).
    assert (E : (w_now w2 <? w_now w + redis_px (e * second - w_now w)) = true) by lia.
    by rewrite E in Hlive.
  - apply (jwt_parse_exp _ _ _ _ _ Hp2) in He. unfold unix in He. apply Z.lt_nge in He. apply He.
    apply Z.div_le_lower_bound; unfold second in *; lia.
Qed.
End gate.

Definition gate_user : User :=
  mkUser 5 "o@x.io" "olga" "" RoleUser "" false 0 None true None None "en" "UTC".
Definition gate_world (t : Z) (keys : gmap string (string * option Z)) : World :=
  mkWorld (with_users {[5%N := gate_user]} empty_db) keys t [] N.of_nat 0.
Definition gate_claims : claims := @access_claims sample_platform gate_user "j1" 0.
Definition gate_token : string := @jwt_sign sample_platform "s" gate_claims.

Lemma auth_gate_sound_witness :
  exists u w', @AuthRequired ascii_tables sample_platform "s" ("Bearer " +:+ gate_token) (gate_world 1000 ∅)
      = (Ok (Pass u), w')
    /\ @authenticated ascii_tables sample_platform "s" (gate_world 1000 ∅) ("Bearer " +:+ gate_token) u.
Proof.
  destruct (@AuthRequired ascii_tables sample_platform "s" ("Bearer " +:+ gate_token) (gate_world 1000 ∅))
    as [[[u|st m]|e] w'] eqn:E;
    [|apply (f_equal (fun x => match fst x with Ok (Pass _) => true | _ => false end)) in E;
      vm_compute in E; done..].
  exists u, w'. split; [done|].
  apply (proj1 (@auth_gate_sound ascii_tables sample_platform sample_platform_laws "s"
                  (gate_world 1000 ∅) w' ("Bearer " +:+ gate_token) u) E).
Defined.

Lemma logout_blocks_token_witness :
  exists w1, snd (@LogoutHandler sample_platform "s" ("Bearer " +:+ gate_token) "" (gate_world 1000 ∅)) = w1
  /\ forall u w3, @AuthRequired ascii_tables sample_platform "s" ("Bearer " +:+ gate_token)
                    (gate_world (5 * second) (w_redis w1)) <> (Ok (Pass u), w3).
Proof.
  destruct (@LogoutHandler sample_platform "s" ("Bearer " +:+ gate_token) "" (gate_world 1000 ∅))
    as [r w1] eqn:E.
  exists w1. split; [done|]. intros u w3.
  eapply (@logout_blocks_token ascii_tables sample_platform sample_platform_laws "s" "s" gate_token ""
           "j1" gate_claims 900 (gate_world 1000 ∅) w1 _ r u w3); try (by vm_compute); try exact E.
  left. by vm_compute.
Defined.

(** ** ratelimit.go *)

Definition localWhitelist : list string := ["127.0.0.1"; "::1"].

(** A Redis value read as an integer. *)
Definition redis_int (s : string) : option Z :=
  match NilZero.int_of_string s with Some d => Some (Z.of_int d) | None => None end.

(** The pipeline INCR key, EXPIRE key ttl; INCR fails on a value that is not
    an integer. *)
Definition incrementRateLimit (key : string) (ttl : Z) : M Z :=
  wrap "redis pipeline" (
    let* b := fault in
    if b then fail ErrDriver
    else fun w =>
      let expiry := Some (w_now w + redis_px ttl) in
      match redis_live w key with
      | None => (Ok 1, with_redis (<[key := (Itoa 1, expiry)]> (w_redis w)) w)
      | Some s =>
        match redis_int s with
        | Some n => (Ok (n + 1), with_redis (<[key := (Itoa (n + 1), expiry)]> (w_redis w)) w)
        | None => (Err ErrDriver, with_redis (<[key := (s, expiry)]> (w_redis w)) w)
        end
      end).

Definition rate_key (ip : string) (windowMinute : Z) : string :=
  "ratelimit:" +:+ ip +:+ ":" +:+ Itoa windowMinute.

(** The headers set on the response, and whether the request goes on. *)
Definition RateLimit (requestsPerMin : Z) (devMode : bool) (ip : string)
  : M (list (string * string) * Gate unit) :=
  if devMode && contains localWhitelist ip then ret ([], Pass tt)
  else
    let* t := now in
    let windowMinute := unix t / 60 in
    let windowExpiry := 60 - unix t mod 60 in
    let* r := attempt (incrementRateLimit (rate_key ip windowMinute) (windowExpiry * second)) in
    match r with
    | Err _ => ret ([], Pass tt)
    | Ok count =>
      let remaining := if requestsPerMin - count <? 0 then 0 else requestsPerMin - count in
      let headers := [("X-RateLimit-Limit", Itoa requestsPerMin); ("X-RateLimit-Remaining", Itoa remaining);
                      ("X-RateLimit-Reset", Itoa ((windowMinute + 1) * 60))] in
      if requestsPerMin <? count
      then ret (headers ++ [("Retry-After", Itoa windowExpiry)], Abort 429 "rate limit exceeded")
      else ret (headers, Pass tt)
    end.

(** Requests of one client, each after a wait: which of them pass. *)
Fixpoint request_series (limit : Z) (devMode : bool) (ip : string) (waits : list Z) : M (list bool) :=
  match waits with
  | [] => ret []
  | d :: waits' =>
    run* sleep d in
    let* (_, g) := RateLimit limit devMode ip in
    let* rest := request_series limit devMode ip waits' in
    ret (match g with Pass _ => true | Abort _ _ => false end :: rest)
  end.

(** ** Theorems: the rate limit *)

Lemma Itoa_redis_int z : redis_int (Itoa z) = Some z.
Proof.
  unfold redis_int, Itoa. rewrite NilZero.isi.
  - by rewrite DecimalZ.of_to.
  - destruct z; simpl; try done. intros [= H]. by apply DecimalPos.Unsigned.to_uint_nonnil in H.
  - destruct z; simpl; try done. intros [= H]. by apply DecimalPos.Unsigned.to_uint_nonnil in H.
Qed.

(** The counter of a window stands at [c]. *)
Definition counted (w : World) (key : string) (c : Z) : Prop :=
  redis_live w key = if c =? 0 then None else Some (Itoa c).

Lemma increment_counted key ttl c w :
  healthy w -> 0 <= c -> counted w key c ->
  incrementRateLimit key ttl w =
    (Ok (c + 1), with_redis (<[key := (Itoa (c + 1), Some (w_now w + redis_px ttl))]> (w_redis w)) w).
Proof.
  unfold healthy, counted. intros Hw Hc Hk. unfold incrementRateLimit. apply wrap_run_ok.
  unfold fault, bind. rewrite Hw. cbv beta iota. rewrite Hk. destruct (Z.eqb_spec c 0) as [-> | Hne]; [done|].
  by rewrite Itoa_redis_int.
Qed.

(** The end of the minute a time is in, in nanoseconds. *)
Definition window_end (t : Z) : Z := (unix t / 60 + 1) * 60 * second.

Lemma redis_px_seconds k : 1 <= k -> redis_px (k * second) = k * second.
Proof.
  intros Hk. unfold redis_px. change second with (1000 * 1000000).
  destruct (_ && _) eqn:E; [breflect; lia|].
  replace (k * (1000 * 1000000)) with (k * 1000 * 1000000) by lia. by rewrite Z.div_mul.
Qed.

Lemma window_expiry t : window_end t <= t + redis_px ((60 - unix t mod 60) * second).
Proof.
  pose proof (Z.mod_pos_bound (unix t) 60 ltac:(lia)). pose proof (Z.div_mod (unix t) 60 ltac:(lia)).
  rewrite redis_px_seconds by lia. unfold window_end.
  assert (second * unix t <= t) by (apply Z.mul_div_le; done).
  replace ((unix t / 60 + 1) * 60) with (unix t + (60 - unix t mod 60)) by lia. lia.
Qed.

Lemma RateLimit_counted limit ip c w :
  healthy w -> 0 <= c -> counted w (rate_key ip (unix (w_now w) / 60)) c ->
  exists h w', RateLimit limit false ip w = (Ok (h, if limit <? c + 1 then Abort 429 "rate limit exceeded" else Pass tt), w')
    /\ healthy w' /\ w_now w' = w_now w
    /\ exists e, w_redis w' !! rate_key ip (unix (w_now w) / 60) = Some (Itoa (c + 1), Some e)
         /\ window_end (w_now w) <= e.
Proof.
  intros Hw Hc Hk. unfold RateLimit. cbn [andb].
  erewrite bind_run by reflexivity. cbv beta iota zeta.
  erewrite bind_run by (apply attempt_run, increment_counted; [exact Hw | exact Hc | exact Hk]).
  cbv beta iota. destruct (limit <? c + 1); eexists _, _; (split; [reflexivity|]);
    (split_and!; [done | done|]); eexists; (split; [apply lookup_insert_eq | apply window_expiry]).
Qed.

Definition total (waits : list Z) : Z := fold_right Z.add 0 waits.

(** The counter of the minute of [t] as Redis holds it. *)
Definition stored (w : World) (key : string) (c t : Z) : Prop :=
  (c = 0 /\ w_redis w !! key = None)
  \/ (0 < c /\ exists e, w_redis w !! key = Some (Itoa c, Some e) /\ window_end t <= e).

Lemma minute_bound t : t < window_end t.
Proof.
  unfold window_end. pose proof (Z.mod_pos_bound (unix t) 60 ltac:(lia)).
  pose proof (Z.div_mod (unix t) 60 ltac:(lia)).
  assert (t < (unix t + 1) * second).
  { unfold unix. pose proof (Z.mod_pos_bound t second ltac:(done)). pose proof (Z.div_mod t second ltac:(done)). lia. }
  unfold second in *. lia.
Qed.

Lemma stored_counted w key c t :
  window_end (w_now w) = window_end t -> stored w key c t -> counted w key c.
Proof.
  unfold stored, counted, redis_live. intros He [[-> ->]|(Hc & e & -> & Hle)]; [done|].
  pose proof (minute_bound (w_now w)).
  assert (E : (w_now w <? e) = true) by lia. assert (E2 : (c =? 0) = false) by lia. by rewrite E, E2.
Qed.

Lemma same_minute t d x :
  0 <= d -> 0 <= x -> unix (t + (d + x)) / 60 = unix t / 60 -> unix (t + d) / 60 = unix t / 60.
Proof.
  intros Hd Hx H. apply Z.le_antisymm.
  - rewrite <- H. apply Z.div_le_mono; [lia|]. apply Z.div_le_mono; [done | lia].
  - apply Z.div_le_mono; [lia|]. apply Z.div_le_mono; [done | lia].
Qed.

Lemma total_nonneg waits : Forall (fun d => 0 <= d) waits -> 0 <= total waits.
Proof. induction 1; simpl; lia. Qed.

Lemma series_counted limit ip waits c w :
  healthy w -> 0 <= c -> Forall (fun d => 0 <= d) waits ->
  unix (w_now w + total waits) / 60 = unix (w_now w) / 60 ->
  stored w (rate_key ip (unix (w_now w) / 60)) c (w_now w) ->
  exists w', request_series limit false ip waits w
    = (Ok (map (fun i => c + Z.of_nat i <? limit) (seq 0 (length waits))), w').
Proof.
  revert c w. induction waits as [|d waits IH]; intros c w Hw Hc Hf Ht Hs; [by eexists|].
  inversion Hf as [|? ? Hd Hf']; subst. cbn [total fold_right] in Ht. fold (total waits) in Ht.
  pose proof (total_nonneg _ Hf') as Hnn.
  pose proof (same_minute _ _ _ Hd Hnn Ht) as Hmin.
  cbn [request_series]. erewrite bind_run by reflexivity. cbv beta iota.
  set (w1 := with_now (w_now w + d) w).
  assert (Hend : window_end (w_now w1) = window_end (w_now w)) by (unfold window_end; simpl; by rewrite Hmin).
  assert (Hk : counted w1 (rate_key ip (unix (w_now w1) / 60)) c).
  { apply (stored_counted w1 _ c (w_now w)); [done|]. simpl. rewrite Hmin. exact Hs. }
  destruct (RateLimit_counted limit ip c w1 Hw Hc Hk) as (h & w2 & E & Hw2 & Hn2 & e & He & Hle).
  erewrite bind_run by exact E. cbv beta iota.
  destruct (IH (c + 1) w2) as [w3 E3]; [exact Hw2 | lia | exact Hf' | | |].
  { rewrite Hn2. simpl. rewrite <- Z.add_assoc, Ht. by symmetry. }
  { right. split; [lia|]. exists e. rewrite Hn2. split; [exact He | done]. }
  erewrite bind_run by exact E3. cbv beta iota. exists w3. unfold ret. do 2 f_equal.
  cbn [length seq map]. rewrite Z.add_0_r. f_equal.
  - destruct (limit <? c + 1) eqn:El, (c <? limit) eqn:Ec; breflect; done || lia.
  - rewrite <- seq_shift, map_map. apply map_ext. intros i. f_equal. lia.
Qed.

(** Within one minute of the clock, a client whose counter is fresh gets
    exactly its quota: of any number of requests, however they are spread over
    that minute, the first [limit] pass and every later one is refused.
    (Without Redis faults; on a fault the request passes.) *)
Theorem rate_limit_window (limit : Z) (ip : string) (waits : list Z) (w : World) :
  healthy w -> Forall (fun d => 0 <= d) waits ->
  unix (w_now w + total waits) / 60 = unix (w_now w) / 60 ->
  w_redis w !! rate_key ip (unix (w_now w) / 60) = None ->
  exists w', request_series limit false ip waits w
    = (Ok (map (fun i => Z.of_nat i <? limit) (seq 0 (length waits))), w').
Proof. intros Hw Hf Ht Hk. apply (series_counted _ _ _ 0); [done | lia | done | done|]. by left. Qed.

Lemma rate_limit_window_witness :
  exists w', request_series 2 false "10.1.1.1" [0; second; second] (gate_world (7 * second) ∅)
    = (Ok [true; true; false], w').
Proof.
  apply (rate_limit_window 2 "10.1.1.1" [0; second; second] (gate_world (7 * second) ∅));
    [done | repeat constructor; by vm_compute | done | done].
Defined.

(** The window is a fixed minute, not a sliding one: around the turn of a
    minute a client gets two quotas within one second. *)
Theorem rate_limit_double_burst :
  exists w', request_series 3 false "10.1.1.1" [0; 0; 0; second; 0; 0] (gate_world (59 * second) ∅)
    = (Ok [true; true; true; true; true; true], w').
Proof. eexists. by vm_compute. Qed.

(** The limiters of the router count in the same key: requests that the
    general limiter admits use up the quota of the login routes. *)
Theorem limiters_share_counter :
  let run := request_series 120 false "10.1.1.1" (repeat 0 30) (gate_world 0 ∅) in
  fst run = Ok (repeat true 30)
  /\ match fst (RateLimit 30 false "10.1.1.1" (snd run)) with
     | Ok (_, Abort status _) => status = 429
     | _ => False
     end.
Proof. vm_compute. split; reflexivity. Qed.
