(* ===== verification/Words.v ===== *)
(** * Words of concatenated texts

    How decoding UTF-8 and splitting at spaces ([strings.Fields]) commute with
    concatenation.  A malformed byte at the end of a text can join the bytes
    after it, so the lemmas ask for UTF-8 texts or an ASCII byte between. *)

From stdpp Require Import base numbers list strings option.
From Stdlib Require Import Ascii.
From S2P Require Import Prelude GoStrings Regex.

Local Open Scope Z_scope.

(** ** Runes of a concatenation *)

(** Decoding finds this rune first, whatever follows. *)
Definition self_delimited (r : rune) : Prop :=
  rune_raw r <> "" /\ forall t, runes (rune_raw r +:+ t) = r :: runes t.

Definition well_formed (r : rune) : bool := negb ((rune_val r =? RuneError) && (len (rune_raw r) =? 1)).

Lemma bad_not_well_formed a : well_formed (bad a) = false.
Proof. done. Qed.

Lemma runes_self_delimited (s : string) (r : rune) :
  r ∈ runes s -> well_formed r = true -> self_delimited r.
Proof.
  remember (String.length s) as n eqn:Hn. assert (Hle : (String.length s <= n)%nat) by lia. clear Hn.
  revert s Hle. induction n as [|n IH]; intros s Hle.
  { destruct s; [|simpl in Hle; lia]. by intros ?%not_elem_of_nil. }
  destruct s as [|a s1]; [by intros ?%not_elem_of_nil|]. simpl in Hle.
  assert (Hb : forall s', (String.length s' <= n)%nat -> r ∈ bad a :: runes s' -> well_formed r = true -> self_delimited r).
  { intros s' Hs' [->|Hr]%elem_of_cons; [done | by apply (IH s')]. }
  cbn [runes]. destruct (byte_of a <? 128) eqn:E1.
  { intros [->|Hr]%elem_of_cons; [|by apply (IH s1); [lia|]]. intros _. split; [done|]. intros t. simpl. by rewrite E1. }
  destruct s1 as [|b s2]; [apply (Hb ""); simpl; lia|]. simpl in Hle.
  destruct (in_range 194 223 (byte_of a) && _) eqn:E2.
  { intros [->|Hr]%elem_of_cons; [|by apply (IH s2); [lia|]]. intros _. split; [done|]. intros t. simpl. by rewrite E1, E2. }
  destruct s2 as [|c s3]; [apply Hb; simpl; lia|]. simpl in Hle.
  destruct (in_range 224 239 (byte_of a) && _ && _) eqn:E3.
  { intros [->|Hr]%elem_of_cons; [|by apply (IH s3); [lia|]]. intros _. split; [done|]. intros t. simpl. by rewrite E1, E2, E3. }
  destruct s3 as [|d s4]; [apply Hb; simpl; lia|]. simpl in Hle.
  destruct (in_range 240 244 (byte_of a) && _ && _ && _) eqn:E4; [|apply Hb; simpl; lia].
  intros [->|Hr]%elem_of_cons; [|by apply (IH s4); [lia|]]. intros _. split; [done|]. intros t. simpl. by rewrite E1, E2, E3, E4.
Qed.

Lemma valid_runes (s : string) r : ValidUTF8 s = true -> r ∈ runes s -> self_delimited r.
Proof.
  unfold ValidUTF8. rewrite forallb_elem. intros Hv Hr. apply (runes_self_delimited s); [done|]. by apply Hv.
Qed.

Lemma runes_raw_concat (l : list rune) (t : string) :
  (forall r, r ∈ l -> self_delimited r) -> runes (raw_concat l +:+ t) = l ++ runes t.
Proof.
  induction l as [|r l IH]; intros Hl; [done|]. cbn [raw_concat fold_right]. rewrite str_app_assoc.
  destruct (Hl r) as [_ Hr]; [by left|]. rewrite Hr. cbn. f_equal. apply IH. intros x Hx. apply Hl. by right.
Qed.

Lemma runes_app (s t : string) : ValidUTF8 s = true -> runes (s +:+ t) = runes s ++ runes t.
Proof.
  intros Hv. rewrite <- (raw_concat_runes s) at 1. apply runes_raw_concat. intros r. by apply valid_runes.
Qed.

Lemma valid_app (s t : string) : ValidUTF8 s = true -> ValidUTF8 (s +:+ t) = ValidUTF8 t.
Proof. intros Hv. unfold ValidUTF8. rewrite runes_app, forallb_app by done. unfold ValidUTF8 in Hv. by rewrite Hv. Qed.

Lemma runes_raw (l : list rune) : (forall r, r ∈ l -> self_delimited r) -> runes (raw_concat l) = l.
Proof. intros Hl. rewrite <- (str_app_nil_r (raw_concat l)), runes_raw_concat by done. simpl. by rewrite app_nil_r. Qed.

(** An ASCII byte never completes a rune. *)
Lemma runes_app_ascii (s : string) (c : ascii) (t : string) :
  byte_of c < 128 -> runes (s +:+ String c t) = runes s ++ runes (String c t).
Proof.
  intros Hc. remember (String.length s) as n eqn:Hn. assert (Hle : (String.length s <= n)%nat) by lia. clear Hn.
  assert (Hr : forall lo, 128 <= lo -> in_range lo 191 (byte_of c) = false) by (intros lo ?; unfold in_range; lia).
  assert (H0 : in_range 128 191 (byte_of c) = false) by (apply Hr; lia).
  assert (H2 : forall x hi, in_range (if x =? 224 then 160 else 128) hi (byte_of c) = false)
    by (intros; unfold in_range; destruct (_ =? 224); lia).
  assert (H3 : forall x hi, in_range (if x =? 240 then 144 else 128) hi (byte_of c) = false)
    by (intros; unfold in_range; destruct (_ =? 240); lia).
  revert s Hle. induction n as [|n IH]; intros s Hle.
  { destruct s; [done | simpl in Hle; lia]. }
  destruct s as [|a s1]; [done|]. simpl in Hle. change (String a s1 +:+ String c t) with (String a (s1 +:+ String c t)).
  pose proof (IH s1 ltac:(lia)) as IH1. cbn [runes].
  destruct (byte_of a <? 128) eqn:E1; [by rewrite IH1|].
  destruct s1 as [|b s2].
  { change ("" +:+ String c t) with (String c t). cbv beta match. rewrite H0, andb_false_r. destruct t as [|d t]; [done|].
    rewrite H2, andb_false_r. cbn [andb]. destruct t as [|e t]; [done|]. by rewrite H3, andb_false_r. }
  simpl in Hle. change (String b s2 +:+ String c t) with (String b (s2 +:+ String c t)) in *. cbv beta match.
  destruct (in_range 194 223 (byte_of a) && _) eqn:E2; [by rewrite (IH s2) by lia|].
  destruct s2 as [|e s3].
  { change ("" +:+ String c t) with (String c t) in *. cbv beta match. rewrite H0, andb_false_r. destruct t as [|d t]; [by rewrite IH1|].
    by rewrite ?andb_false_r, IH1. }
  simpl in Hle. change (String e s3 +:+ String c t) with (String e (s3 +:+ String c t)) in *. cbv beta match.
  destruct (in_range 224 239 (byte_of a) && _ && _) eqn:E3; [by rewrite (IH s3) by lia|].
  destruct s3 as [|d s4].
  { change ("" +:+ String c t) with (String c t) in *. cbv beta match. by rewrite H0, andb_false_r, IH1. }
  simpl in Hle. change (String d s4 +:+ String c t) with (String d (s4 +:+ String c t)) in *. cbv beta match.
  destruct (in_range 240 244 (byte_of a) && _ && _ && _) eqn:E4; [by rewrite (IH s4) by lia | by rewrite IH1].
Qed.

(** Cutting a UTF-8 text at an ASCII byte. *)
Lemma valid_cut (s : string) (c : ascii) (t : string) :
  byte_of c < 128 -> ValidUTF8 (s +:+ String c t) = ValidUTF8 s && ValidUTF8 t.
Proof.
  intros Hc. unfold ValidUTF8. rewrite runes_app_ascii, forallb_app, (runes_cons_ascii c) by done. cbn [forallb rune_val].
  unfold RuneError. pose proof (byte_of_bounds c). destruct (Z.eqb_spec (byte_of c) 65533); [lia | done].
Qed.

(** ** Words *)

(** A word: not empty, without spaces. *)
Definition word (s : string) : Prop := s <> "" /\ forallb (fun r => negb (IsSpace (rune_val r))) (runes s) = true.

Lemma fields_loop_word (l l' : list rune) (cur : string) :
  forallb (fun r => negb (IsSpace (rune_val r))) l = true ->
  fields_loop (Some cur) (l ++ l') = fields_loop (Some (cur +:+ raw_concat l)) l'.
Proof.
  revert cur. induction l as [|r l IH]; intros cur Hl; [cbn; by rewrite str_app_nil_r|].
  cbn [forallb] in Hl. apply andb_true_iff in Hl as [Hr%negb_true_iff Hl]. cbn [app fields_loop]. rewrite Hr.
  rewrite IH by done. cbn [default raw_concat fold_right]. by rewrite str_app_assoc.
Qed.

Lemma fields_word_then (s : string) (l : list rune) :
  word s -> fields_loop None (runes s ++ l) = fields_loop (Some s) l.
Proof.
  intros [Hne Hs]. rewrite <- (raw_concat_runes s) at 2. destruct (runes s) as [|r rs] eqn:E.
  { exfalso. apply Hne. by rewrite <- (raw_concat_runes s), E. }
  cbn [forallb] in Hs. apply andb_true_iff in Hs as [Hr%negb_true_iff Hs].
  cbn [app fields_loop]. rewrite Hr. rewrite fields_loop_word by done. cbn [default]. done.
Qed.

(** Joining words and splitting again. *)
Lemma Fields_Join (l : list string) : (forall s, s ∈ l -> word s) -> Fields (Join l " ") = l.
Proof.
  unfold Fields, Join. induction l as [|s l IH]; intros Hl; [done|].
  assert (Hs : word s) by (apply Hl; by left). assert (IH' := IH ltac:(intros x Hx; apply Hl; by right)).
  destruct l as [|s' l].
  - cbn [String.concat]. rewrite <- (app_nil_r (runes s)), fields_word_then by done. done.
  - cbn [String.concat]. change (" " +:+ ?x) with (String " " x). rewrite str_app_cons.
    rewrite runes_app_ascii by done. rewrite fields_word_then by done.
    rewrite runes_cons_ascii by done. cbn [fields_loop rune_val]. f_equal. exact IH'.
Qed.

(** The words of a UTF-8 text are UTF-8 words. *)
Lemma Fields_words (s w : string) : ValidUTF8 s = true -> w ∈ Fields s -> word w /\ ValidUTF8 w = true.
Proof.
  intros Hv. unfold ValidUTF8 in Hv. rewrite forallb_elem in Hv.
  assert (Hd : forall r, r ∈ runes s -> self_delimited r) by (intros r Hr; apply (runes_self_delimited s r Hr), (Hv r Hr)).
  unfold Fields.
  enough (G : forall l (cur : option (list rune)),
    (forall r, r ∈ l -> self_delimited r /\ well_formed r = true) ->
    (forall c, cur = Some c -> c <> [] /\ forall r, r ∈ c -> self_delimited r /\ well_formed r = true /\ IsSpace (rune_val r) = false) ->
    w ∈ fields_loop (raw_concat <$> cur) l -> word w /\ ValidUTF8 w = true).
  { apply (G (runes s) None); [|done]. intros r Hr. split; [by apply Hd | by apply Hv]. }
  assert (Hout : forall c, c <> [] ->
    (forall r, r ∈ c -> self_delimited r /\ well_formed r = true /\ IsSpace (rune_val r) = false) ->
    word (raw_concat c) /\ ValidUTF8 (raw_concat c) = true).
  { intros c Hne Hc. unfold word, ValidUTF8. rewrite runes_raw by (intros r Hr; by apply Hc). split_and!.
    - destruct c as [|r c]; [done|]. destruct (Hc r) as [[Hr _] _]; [by left|]. cbn. intros [E _]%str_app_nil. done.
    - apply forallb_elem. intros r Hr. by rewrite (proj2 (proj2 (Hc r Hr))).
    - apply forallb_elem. intros r Hr. by apply Hc. }
  induction l as [|r l IH]; intros cur Hl Hcur Hw.
  - destruct cur as [c|]; [|by apply not_elem_of_nil in Hw]. apply list_elem_of_singleton in Hw as ->.
    destruct (Hcur c eq_refl) as [Hne Hc]. by apply Hout.
  - assert (Hl' : forall r0, r0 ∈ l -> self_delimited r0 /\ well_formed r0 = true) by (intros x Hx; apply Hl; by right).
    destruct (Hl r) as [Hr1 Hr2]; [by left|]. cbn [fields_loop] in Hw. destruct (IsSpace (rune_val r)) eqn:Es.
    + destruct cur as [c|]; [|by apply (IH None)]. cbn in Hw. apply elem_of_cons in Hw as [->|Hw]; [|by apply (IH None)].
      destruct (Hcur c eq_refl) as [Hne Hc]. by apply Hout.
    + apply (IH (Some (default [] cur ++ [r]))); [done | |].
      * intros c [= <-]. split; [by destruct (default [] cur)|]. intros x [Hx|Hx]%elem_of_app.
        -- destruct cur as [c|]; [|by apply not_elem_of_nil in Hx]. by apply (Hcur c eq_refl).
        -- apply list_elem_of_singleton in Hx as ->. done.
      * cbn. assert (E : forall a b, raw_concat (a ++ b) = raw_concat a +:+ raw_concat b).
        { induction a as [|x a IHa]; intros b; [done|]. cbn. by rewrite IHa, str_app_assoc. }
        rewrite E. cbn. rewrite str_app_nil_r. by destruct cur.
Qed.
