(* ===== verification/Http.v ===== *)
(** * What the HTTP handlers share

    Models [parseUUID] and [serverError] of [handlers/servers.go].  A handler
    returns its reply; the body of a request is the decoded value, or [None]
    when [ShouldBindJSON] refuses it.  Logging is left out. *)

From stdpp Require Import base numbers list strings option.
From S2P Require Import Prelude GoStrings Store Platform Servers.

Local Open Scope Z_scope.

Definition reply_message (msg : string) : Reply := mkReply 200 (JObj [("message", JStr msg)]).

Section http.
Context `{P : Platform}.

(** [id, ok := parseUUID(c, param); if !ok { return }]. *)
Definition parseUUID (raw : string) (k : uuid -> M Reply) : M Reply :=
  match uuid_parse raw with
  | None => ret (reply_error 400 "invalid ID format")
  | Some id => k id
  end.

Definition serverError (e : error) : Reply :=
  if error_Is e ErrServerNotFound then reply_error 404 "server not found"
  else if error_Is e ErrServerForbidden then reply_error 403 "access denied"
  else if error_Is e ErrInvalidServerSettings || error_Is e ErrInvalidConsoleCommand
  then reply_error 400 (error_Error e)
  else reply_error 500 "internal server error".
End http.
