(* ===== verification/GameCommands.v ===== *)
(** * Game commands

    Models [services/game_command_service.go] and [handlers/game_commands.go]:
    the stored command templates of a server, and filling one in and sending
    it to the console.  The columns on the plugin a command came from are only
    listed and are left out. *)

From stdpp Require Import base numbers list strings option gmap.
From Stdlib Require Import Ascii.
From S2P Require Import Prelude GoStrings Regex Words Store Roles Platform Servers Http.

Local Open Scope Z_scope.

Definition ErrGameCommandNotFound : error := ErrNew "game command not found".

(** ** Filling a template *)

Definition freeTextParams : list string := ["message"; "reason"].

(** The name of the parameter is not quoted in the texts here. *)
Definition checkCommandValue (name v : string) (freeText : bool) : res error string :=
  if existsb (fun r => IsControl (rune_val r)) (runes v)
  then Err (ErrNew ("parameter " +:+ name +:+ " contains control characters"))
  else
    let v := TrimSpace v in
    if negb freeText && (existsb (fun r => IsSpace (rune_val r)) (runes v) || HasPrefix v "--")
    then Err (ErrNew ("parameter " +:+ name +:+ " must be a single word"))
    else Ok v.

(** The loop of [fillPlaceholders]; every turn drops a placeholder from the
    token, so as many turns as it has bytes are enough. *)
Fixpoint fill_loop (fuel : nat) (tok : string) (values : gmap string string) : string :=
  match fuel with
  | O => tok
  | S n =>
    match cut "{" tok with
    | None => tok
    | Some (before, rest) =>
      match cut "}" rest with
      | None => tok
      | Some (name, after) => before +:+ default "" (values !! name) +:+ fill_loop n after values
      end
    end
  end.

Definition fillPlaceholders (tok : string) (values : gmap string string) : string :=
  fill_loop (String.length tok) tok values.

Fixpoint check_params (l : list (string * string)) (values : gmap string string) : res error (gmap string string) :=
  match l with
  | [] => Ok values
  | (k, v) :: l' =>
    match checkCommandValue k v (contains freeTextParams k) with
    | Err e => Err e
    | Ok v' => check_params l' (<[k := v']> values)
    end
  end.

(** [strings.Contains]. *)
Fixpoint has_text (sub s : string) : bool :=
  HasPrefix s sub || match s with EmptyString => false | String _ s' => has_text sub s' end.

(** [strings.Contains] of one byte. *)
Definition has_byte (c : ascii) (s : string) : bool := match cut c s with Some _ => true | None => false end.

Fixpoint fill_tokens (tokens : list string) (values : gmap string string) : list string :=
  match tokens with
  | [] => []
  | tok :: rest =>
    let plain :=
      let v := fillPlaceholders tok values in
      (if String.eqb v "" then [] else [v]) ++ fill_tokens rest values in
    match rest with
    | next :: rest' =>
      if HasPrefix tok "--" && has_byte "{" next then
        let v := fillPlaceholders next values in
        (if String.eqb v "" then [] else [tok; v]) ++ fill_tokens rest' values
      else plain
    | [] => plain
    end
  end.

Definition resolveCommandTemplate (template : string) (params : gmap string string) (world : string) : res error string :=
  match check_params (map_to_list params) ∅ with
  | Err e => Err e
  | Ok values =>
    match checkCommandValue "world" world false with
    | Err e => Err e
    | Ok w => Ok (Join (fill_tokens (Fields template) (<["world" := w]> values)) " ")
    end
  end.

(** ** The service *)

Definition command_order (a b : GameCommand) : bool :=
  if String.eqb (gcmd_Category a) (gcmd_Category b) then
    if gcmd_SortOrder a =? gcmd_SortOrder b then String.leb (gcmd_Name a) (gcmd_Name b)
    else gcmd_SortOrder a <=? gcmd_SortOrder b
  else String.leb (gcmd_Category a) (gcmd_Category b).

Definition listed_for (serverID : uuid) (d : DB) (c : GameCommand) : bool :=
  match gcmd_ServerID c with
  | Some sid => (sid =? serverID)%N
  | None => negb (exists_row (game_commands d) (fun c' =>
              bool_decide (gcmd_ServerID c' = Some serverID)
              && String.eqb (gcmd_CommandTemplate c') (gcmd_CommandTemplate c)))
  end.

Definition ListForServer (serverID : uuid) : M (list GameCommand) :=
  query (fun d => Ok (order_by command_order (rows (game_commands d) (listed_for serverID d)))).

Definition GetCommand (id : uuid) : M GameCommand := query (fun d => get_key (game_commands d) id).

(** The columns: their lengths, the texts, and the server. *)
Definition insert_command (c : GameCommand) (d : DB) : res error (GameCommand * DB) :=
  if negb (forallb sql_text [gcmd_Category c; gcmd_Name c; gcmd_Description c; gcmd_CommandTemplate c; gcmd_Icon c; gcmd_MinRole c;
                      default "" (gcmd_SourcePlugin c)])
  then Err (ErrConstraint "invalid byte sequence for encoding UTF8")
  else if (100 <? RuneCount (gcmd_Category c)) || (100 <? RuneCount (gcmd_Name c))
       || (500 <? RuneCount (gcmd_CommandTemplate c)) || (50 <? RuneCount (gcmd_Icon c))
       || (20 <? RuneCount (gcmd_MinRole c))
  then Err (ErrConstraint "value too long for type character varying")
  else if match gcmd_ServerID c with Some sid => bool_decide (servers d !! sid = None) | None => false end
  then Err (ErrConstraint "game_commands_server_id_fkey")
  else match insert_row (gcmd_ID c) c (game_commands d) with
       | Err e => Err e
       | Ok t => Ok (c, with_game_commands t d)
       end.

Definition CreateCommand (cmd : GameCommand) : M GameCommand :=
  let role := if String.eqb (gcmd_MinRole cmd) "" then RoleUser else gcmd_MinRole cmd in
  let* id := new_uuid in
  let* t := now in
  exec (insert_command (mkGameCommand id (gcmd_ServerID cmd) (gcmd_Category cmd) (gcmd_Name cmd) (gcmd_Description cmd)
    (gcmd_CommandTemplate cmd) (gcmd_Icon cmd) (gcmd_Params cmd) (gcmd_SortOrder cmd) (gcmd_IsDefault cmd) role t
    "built-in" None)).

Definition DeleteCommand (serverID id : uuid) : M unit :=
  let* n := exec (fun d =>
              match game_commands d !! id with
              | Some c => if bool_decide (gcmd_ServerID c = Some serverID)
                          then Ok (1%nat, with_game_commands (delete id (game_commands d)) d) else Ok (0%nat, d)
              | None => Ok (0%nat, d)
              end) in
  if (n =? 0)%nat then fail ErrGameCommandNotFound else ret tt.

(** [models.CommandParam]: name, type, required, placeholder. *)
Definition param (name type : string) (required : bool) (placeholder : string) : json :=
  JObj [("name", JStr name); ("type", JStr type); ("required", JBool required); ("placeholder", JStr placeholder)].

Definition paramJSON (params : list json) : json := JArr params.

Definition player_param : json := param "player" "string" true "Player name".

Definition default_command (serverID : uuid) (category name description template icon : string) (order : Z)
    (role : string) (params : list json) : GameCommand :=
  mkGameCommand 0 (Some serverID) category name description template icon (paramJSON params) order true role 0 "" None.

Definition defaultHytaleCommands (serverID : uuid) : list GameCommand :=
  let server := default_command serverID "Server Management" in
  let player := default_command serverID "Player Management" in
  let world := default_command serverID "World Management" in
  [server "Save World" "Force-save all world data to disk" "world save --confirm --all" "save" 1 RoleUser [];
   server "Stop Server" "Gracefully shut down the server" "stop" "power" 2 RoleAdmin [];
   player "Kick Player" "Remove a player from the server" "kick {player}" "user-x" 1 RoleModerator [player_param];
   player "Ban Player" "Permanently ban a player" "ban {player}" "shield-off" 2 RoleModerator [player_param];
   player "Unban Player" "Remove a player's ban" "unban {player}" "shield" 3 RoleModerator [player_param];
   player "Whitelist Add" "Add a player to the whitelist" "whitelist add {player}" "user-plus" 4 RoleModerator [player_param];
   player "Whitelist Remove" "Remove a player from the whitelist" "whitelist remove {player}" "user-minus" 5 RoleModerator
     [player_param];
   player "Op Player" "Grant operator privileges" "op add {player}" "star" 6 RoleAdmin [player_param];
   player "Deop Player" "Revoke operator privileges" "op remove {player}" "star-off" 7 RoleAdmin [player_param];
   player "Give Item" "Give an item to a player" "give {player} {item} --quantity {count}" "package" 8 RoleAdmin
     [player_param; param "item" "string" true "item id"; param "count" "number" false "1"];
   world "Set Time Day" "Set world time to day" "time set day --world {world}" "sun" 1 RoleModerator [];
   world "Set Time Night" "Set world time to night" "time set night --world {world}" "moon" 2 RoleModerator [];
   world "Teleport Player" "Teleport a player to coordinates" "teleport {player} {x} {y} {z}" "navigation" 5 RoleModerator
     [player_param; param "x" "number" true "X"; param "y" "number" true "Y"; param "z" "number" true "Z"];
   world "Set Gamemode" "Change a player's gamemode" "gamemode {mode} {player}" "gamepad-2" 6 RoleAdmin
     [param "mode" "string" true "survival|creative|adventure|spectator"; player_param];
   default_command serverID "Chat & Communication" "Broadcast" "Send a message to all players" "say {message}" "megaphone" 1
     RoleModerator [param "message" "string" true "Message to broadcast"]].

Fixpoint seed_loop (l : list GameCommand) : M unit :=
  match l with
  | [] => ret tt
  | c :: l' => let* _ := CreateCommand c in seed_loop l'
  end.

Definition SeedDefaults (serverID : uuid) : M unit :=
  let* count := query (fun d => Ok (count_rows (game_commands d) (fun c => bool_decide (gcmd_ServerID c = Some serverID)))) in
  if (0 <? count)%nat then ret tt else seed_loop (defaultHytaleCommands serverID).

(** ** The handlers *)

Section handlers.
Context `{U : Unicode} `{P : Platform}.

(** The listed commands, or the error reply. *)
Definition ListGameCommands (idParam : string) : M (res Reply (list GameCommand)) :=
  match uuid_parse idParam with
  | None => ret (Err (reply_error 400 "invalid ID format"))
  | Some serverID =>
    run* ignore (SeedDefaults serverID) in
    let* r := attempt (ListForServer serverID) in
    ret match r with Ok cmds => Ok cmds | Err _ => Err (reply_error 500 "failed to list commands") end
  end.

Definition ExecuteGameCommand (idParam : string) (user : option User) (body : option (string * gmap string string)) : M Reply :=
  parseUUID idParam (fun serverID =>
  match body with
  | None => ret (reply_error 400 "invalid request body")
  | Some (commandID, params) =>
    if String.eqb commandID "" then ret (reply_error 400 "invalid request body")
    else match uuid_parse commandID with
    | None => ret (reply_error 400 "invalid command_id")
    | Some cmdUUID =>
      let* r := attempt (GetCommand cmdUUID) in
      match r with
      | Err _ => ret (reply_error 404 "command not found")
      | Ok cmd =>
        if match gcmd_ServerID cmd with Some sid => negb (sid =? serverID)%N | None => false end
        then ret (reply_error 404 "command not found")
        else match user with
        | None => ret (reply_error 401 "authentication required")
        | Some user =>
          let* s := attempt (GetServer serverID (user_ID user) (user_Role user)) in
          match s with
          | Err e => ret (serverError e)
          | Ok server =>
            let role := ConsoleRole user (server_OwnerID server) in
            if RoleWeight role <? RoleWeight (gcmd_MinRole cmd)
            then ret (reply_error 403 "insufficient permissions for this command")
            else
              let* world := if has_text "{world}" (gcmd_CommandTemplate cmd)
                            then let* aw := attempt (ActiveWorld serverID) in
                                 ret (match aw with Ok x => x | Err _ => "" end)
                            else ret "" in
              match resolveCommandTemplate (gcmd_CommandTemplate cmd) params world with
              | Err e => ret (reply_error 400 (error_Error e))
              | Ok resolved =>
                if String.eqb resolved "" then ret (reply_error 400 "resolved command is empty")
                else if negb (CanRunConsoleCommand role resolved)
                then ret (reply_error 403 "insufficient permissions for this command")
                else
                  let* u := attempt (SendConsoleCommand serverID resolved) in
                  match u with
                  | Err _ => ret (reply_error 500 "failed to send command")
                  | Ok _ => ret (mkReply 200 (JObj [("message", JStr "command sent"); ("command", JStr resolved)]))
                  end
              end
          end
        end
      end
    end
  end).

(** The stored command, or the error reply. *)
Definition CreateGameCommand (idParam : string) (body : option GameCommand) : M (res Reply GameCommand) :=
  match uuid_parse idParam with
  | None => ret (Err (reply_error 400 "invalid ID format"))
  | Some serverID =>
    match body with
    | None => ret (Err (reply_error 400 "invalid request body"))
    | Some cmd =>
      let need := ConsoleCommandMinRole (gcmd_CommandTemplate cmd) in
      let role := if RoleWeight (gcmd_MinRole cmd) <? RoleWeight need then need else gcmd_MinRole cmd in
      let* r := attempt (CreateCommand (mkGameCommand 0 (Some serverID) (gcmd_Category cmd) (gcmd_Name cmd)
                  (gcmd_Description cmd) (gcmd_CommandTemplate cmd) (gcmd_Icon cmd) (gcmd_Params cmd) (gcmd_SortOrder cmd)
                  false role 0 "" None)) in
      ret match r with Ok c => Ok c | Err _ => Err (reply_error 500 "failed to create command") end
    end
  end.

Definition DeleteGameCommand (idParam cmdParam : string) : M Reply :=
  parseUUID idParam (fun serverID => parseUUID cmdParam (fun cmdID =>
    let* r := attempt (DeleteCommand serverID cmdID) in
    ret match r with
        | Ok _ => reply_message "command deleted"
        | Err e => if error_Is e ErrGameCommandNotFound then reply_error 404 "command not found"
                   else reply_error 500 "failed to delete command"
        end)).
End handlers.

(** ** Filling is a single pass *)

(** The pieces of a token: text and placeholders.  Reading them does not look
    at any value. *)
Inductive piece := Lit (s : string) | Hole (name : string).

Fixpoint pieces (acc : string) (open : option string) (s : string) : list piece :=
  match s, open with
  | EmptyString, None => [Lit acc]
  | EmptyString, Some name => [Lit (acc +:+ "{" +:+ name)]
  | String c s', None => if Ascii.eqb c "{" then pieces acc (Some "") s' else pieces (acc +:+ String c "") None s'
  | String c s', Some name =>
    if Ascii.eqb c "}" then Lit acc :: Hole name :: pieces "" None s'
    else pieces acc (Some (name +:+ String c "")) s'
  end.

Definition render (values : gmap string string) (l : list piece) : string :=
  fold_right (fun p acc => match p with Lit s => s | Hole name => default "" (values !! name) end +:+ acc) "" l.

(** The placeholders of a token. *)
Definition holes (tok : string) : list string :=
  omap (fun p => match p with Hole name => Some name | Lit _ => None end) (pieces "" None tok).

Lemma cut_some c s p q : cut c s = Some (p, q) -> s = p +:+ String c q /\ cut c p = None.
Proof.
  revert p q. induction s as [|a s IH]; intros p q; [done|]. cbn [cut].
  destruct (Ascii.eqb a c) eqn:E; [intros [= <- <-]; apply Ascii.eqb_eq in E as ->; done|].
  destruct (cut c s) as [[p' q']|]; [|done]. intros [= <- <-]. destruct (IH p' q' eq_refl) as [-> H].
  split; [done|]. cbn [cut]. by rewrite E, H.
Qed.

Lemma pieces_plain acc s t : cut "{" s = None -> pieces acc None (s +:+ t) = pieces (acc +:+ s) None t.
Proof.
  revert acc. induction s as [|a s IH]; intros acc; [by rewrite str_app_nil_r|]. cbn [cut].
  destruct (Ascii.eqb a "{") eqn:E; [done|]. destruct (cut "{" s) as [[]|]; [done|]. intros _.
  rewrite str_app_cons. cbn [pieces]. rewrite E, IH by done. by rewrite str_app_assoc.
Qed.

Lemma pieces_name acc name s t :
  cut "}" s = None -> pieces acc (Some name) (s +:+ t) = pieces acc (Some (name +:+ s)) t.
Proof.
  revert name. induction s as [|a s IH]; intros name; [by rewrite str_app_nil_r|]. cbn [cut].
  destruct (Ascii.eqb a "}") eqn:E; [done|]. destruct (cut "}" s) as [[]|]; [done|]. intros _.
  rewrite str_app_cons. cbn [pieces]. rewrite E, IH by done. by rewrite str_app_assoc.
Qed.

(** The first placeholder of a token. *)
Lemma pieces_first before name after :
  cut "{" before = None -> cut "}" name = None ->
  pieces "" None (before +:+ String "{" (name +:+ String "}" after)) = Lit before :: Hole name :: pieces "" None after.
Proof.
  intros H1 H2. rewrite pieces_plain by done. cbn [pieces]. change (Ascii.eqb "{" "{") with true. cbv match.
  rewrite pieces_name by done. cbn [pieces]. change (Ascii.eqb "}" "}") with true. cbv match. done.
Qed.

Lemma fill_loop_render n tok values :
  (String.length tok <= n)%nat -> fill_loop n tok values = render values (pieces "" None tok).
Proof.
  revert tok. induction n as [|n IH]; intros tok Hn.
  { destruct tok; [done | simpl in Hn; lia]. }
  cbn [fill_loop]. destruct (cut "{" tok) as [[before rest]|] eqn:E1.
  - apply cut_some in E1 as [-> H1]. destruct (cut "}" rest) as [[name after]|] eqn:E2.
    + apply cut_some in E2 as [-> H2]. rewrite pieces_first by done. cbn [render fold_right]. rewrite IH; [done|].
      rewrite !str_length_app in Hn. simpl in Hn. rewrite str_length_app in Hn. simpl in Hn. lia.
    + rewrite pieces_plain by done. cbn [pieces]. change (Ascii.eqb "{" "{") with true. cbv match.
      rewrite <- (str_app_nil_r rest) at 2. rewrite pieces_name by done. cbn [pieces render fold_right].
      rewrite str_app_nil_r. done.
  - rewrite <- (str_app_nil_r tok) at 2. rewrite pieces_plain by done. cbn. by rewrite str_app_nil_r.
Qed.

(** C20. Filling is one pass over the template: the scan loop, with all the turns
    it needs, computes exactly the pieces of the token with each placeholder
    replaced by its value, where the pieces are read off the token alone; so
    an inserted value is never scanned, and no turn is missing. *)
Theorem fill_single_pass (tok : string) (values : gmap string string) (n : nat) :
  (String.length tok <= n)%nat ->
  fill_loop n tok values = fillPlaceholders tok values
  /\ fillPlaceholders tok values = render values (pieces "" None tok).
Proof. intros Hn. unfold fillPlaceholders. rewrite !fill_loop_render by lia. done. Qed.

Lemma fill_single_pass_witness :
  let values : gmap string string := {["player" := "{reason}"; "reason" := "x --all"]} in
  fillPlaceholders "<{player}>{nobody}" values = render values (pieces "" None "<{player}>{nobody}")
  /\ fillPlaceholders "<{player}>{nobody}" values = "<{reason}>" /\ pieces "" None "a{b" = [Lit "a{b"].
Proof.
  cbv zeta. split; [|split; vm_compute; reflexivity].
  apply (fill_single_pass "<{player}>{nobody}" {["player" := "{reason}"; "reason" := "x --all"]} 18). vm_compute. lia.
Defined.

(** ** A filled command has no extra words *)

(** UTF-8 without spaces. *)
Definition solid (s : string) : Prop :=
  ValidUTF8 s = true /\ forallb (fun r => negb (IsSpace (rune_val r))) (runes s) = true.

Lemma solid_app s t : solid s -> solid t -> solid (s +:+ t).
Proof.
  intros [H1 H2] [H3 H4]. split; [by rewrite valid_app|]. by rewrite runes_app, forallb_app, H2, H4.
Qed.

Lemma solid_cut s c t : byte_of c < 128 -> IsSpace (byte_of c) = false -> solid (s +:+ String c t) -> solid s /\ solid t.
Proof.
  unfold solid. intros Hc Hs. rewrite valid_cut, runes_app_ascii, forallb_app, runes_cons_ascii by done.
  cbn [forallb rune_val]. rewrite Hs. cbn [negb andb]. rewrite !andb_true_iff. tauto.
Qed.

Lemma fill_loop_solid n tok values :
  solid tok -> (forall name, name ∈ holes tok -> solid (default "" (values !! name))) -> solid (fill_loop n tok values).
Proof.
  revert tok. induction n as [|n IH]; intros tok Ht Hh; [done|]. cbn [fill_loop].
  destruct (cut "{" tok) as [[before rest]|] eqn:E1; [|done]. destruct (cut "}" rest) as [[name after]|] eqn:E2; [|done].
  apply cut_some in E1 as [-> H1]. apply cut_some in E2 as [-> H2].
  apply solid_cut in Ht as [Hb Ht]; [|done..]. apply solid_cut in Ht as [_ Ha]; [|done..].
  unfold holes in Hh. rewrite pieces_first in Hh by done. cbn in Hh.
  apply solid_app; [done|]. apply solid_app; [apply Hh; by left|]. apply IH; [done|]. intros x Hx. apply Hh. by right.
Qed.

Lemma drop_space_sub l : drop_space l ⊆ l.
Proof.
  induction l as [|r l IH]; [done|]. cbn. destruct (IsSpace _); [|done]. intros x Hx. right. by apply IH.
Qed.

Lemma TrimSpace_valid s : ValidUTF8 s = true -> ValidUTF8 (TrimSpace s) = true.
Proof.
  intros Hv. assert (Hl : forall r, r ∈ rev (drop_space (rev (drop_space (runes s)))) -> r ∈ runes s).
  { intros r Hr. apply list_elem_of_In, in_rev, list_elem_of_In, drop_space_sub, list_elem_of_In, in_rev, list_elem_of_In,
      drop_space_sub in Hr. done. }
  unfold TrimSpace, ValidUTF8. rewrite runes_raw by (intros r Hr; by apply (valid_runes s), Hl).
  apply forallb_elem. intros r Hr%Hl. unfold ValidUTF8 in Hv. rewrite forallb_elem in Hv. by apply Hv.
Qed.

(** A value for a slot that is no free text. *)
Definition single_word (v : string) : Prop := solid v /\ HasPrefix v "--" = false.

Lemma checkCommandValue_ok k v free v' :
  ValidUTF8 v = true -> checkCommandValue k v free = Ok v' ->
  ValidUTF8 v' = true /\ (free = false -> single_word v').
Proof.
  unfold checkCommandValue. intros Hv. destruct (existsb _ (runes v)); [done|].
  destruct (negb free && _) eqn:E; [done|]. intros [= <-]. pose proof (TrimSpace_valid v Hv) as Ht. split; [done|].
  intros ->. cbn [negb andb] in E. apply orb_false_iff in E as [E1 E2]. split; [split; [done|] | done].
  apply forallb_elem. intros r Hr. apply negb_true_iff, not_true_is_false. intros Hs.
  rewrite <- not_true_iff_false, existsb_elem in E1. apply E1. by exists r.
Qed.

Lemma check_params_ok l m values :
  (forall k v, (k, v) ∈ l -> ValidUTF8 v = true) -> check_params l m = Ok values ->
  (forall k v, m !! k = Some v -> contains freeTextParams k = false -> single_word v) ->
  forall k v, values !! k = Some v -> contains freeTextParams k = false -> single_word v.
Proof.
  revert m. induction l as [|[k v] l IH]; intros m Hl H Hm; cbn [check_params] in H; [by injection H as <-|].
  destruct (checkCommandValue k v _) as [v'|e] eqn:E; [|done].
  eapply IH; [|exact H|]; [intros ? ? ?; eapply Hl; right; done|].
  intros k' x [[-> <-]|[_ Hk]]%lookup_insert_Some Hf; [|by eapply Hm].
  eapply checkCommandValue_ok; [eapply Hl; by left | exact E | done].
Qed.

(** What a word of the filled command is: a word of the template, or one with
    its placeholders filled. *)
Definition filled (values : gmap string string) (tok w : string) : Prop := w = tok \/ w = fillPlaceholders tok values.

Lemma fill_tokens_words tokens values :
  exists kept, kept `sublist_of` tokens /\ Forall2 (filled values) kept (fill_tokens tokens values)
    /\ (forall s, s ∈ fill_tokens tokens values -> s <> "" \/ s ∈ tokens).
Proof.
  remember (length tokens) as n eqn:Hn. assert (Hle : (length tokens <= n)%nat) by lia. clear Hn.
  revert tokens Hle. induction n as [|n IH]; intros tokens Hle.
  { destruct tokens; [|simpl in Hle; lia]. exists []. split_and!; [done | by constructor|]. by intros s ?%not_elem_of_nil. }
  destruct tokens as [|tok rest]; [exists []; split_and!; [done | by constructor|]; by intros s ?%not_elem_of_nil|].
  assert (Hplain : exists kept, kept `sublist_of` tok :: rest
    /\ Forall2 (filled values) kept ((if String.eqb (fillPlaceholders tok values) "" then []
         else [fillPlaceholders tok values]) ++ fill_tokens rest values)
    /\ (forall s, s ∈ (if String.eqb (fillPlaceholders tok values) "" then []
         else [fillPlaceholders tok values]) ++ fill_tokens rest values -> s <> "" \/ s ∈ tok :: rest)).
  { destruct (IH rest) as (kept & H1 & H2 & H3); [simpl in Hle; lia|].
    destruct (String.eqb_spec (fillPlaceholders tok values) "") as [E|E].
    - exists kept. split_and!; [by apply sublist_cons | done|]. intros s [?|?]%H3; [by left | right; by right].
    - exists (tok :: kept). split_and!; [by apply sublist_skip | constructor; [by right | done]|].
      intros s [->|[?|?]%H3]%elem_of_cons; [by left | by left | right; by right]. }
  cbn [fill_tokens]. destruct rest as [|next rest']; [exact Hplain|].
  destruct (HasPrefix tok "--" && _); [|exact Hplain]. clear Hplain.
  destruct (IH rest') as (kept & H1 & H2 & H3); [simpl in Hle; lia|].
  destruct (String.eqb_spec (fillPlaceholders next values) "") as [E|E].
  - exists kept. split_and!; [by do 2 apply sublist_cons | done|]. intros s [?|?]%H3; [by left | right; by do 2 right].
  - exists (tok :: next :: kept). split_and!; [by do 2 apply sublist_skip | |].
    + constructor; [by left|]. constructor; [by right | done].
    + intros s [->|[->|[?|?]%H3]%elem_of_cons]%elem_of_cons;
        [right; by left | by left | by left | right; by do 2 right].
Qed.

(** A filled command has no words the template has not: when the stored
    template has no free-text placeholder, each word of the line sent is a
    word of the template, in order, with its placeholders replaced; every
    value inserted is one word that does not start a flag, so no parameter
    adds an argument. *)
Theorem no_extra_arguments (template world line : string) (params : gmap string string) :
  ValidUTF8 template = true -> ValidUTF8 world = true ->
  (forall k v, params !! k = Some v -> ValidUTF8 v = true) ->
  (forall tok name, tok ∈ Fields template -> name ∈ holes tok -> name ∉ freeTextParams) ->
  resolveCommandTemplate template params world = Ok line ->
  exists values kept, kept `sublist_of` Fields template
    /\ Forall2 (filled values) kept (Fields line)
    /\ forall name v, values !! name = Some v -> name ∉ freeTextParams -> single_word v.
Proof.
  intros Ht Hw Hp Hfree H. unfold resolveCommandTemplate in H.
  destruct (check_params _ _) as [values0|e] eqn:E1; [|done].
  destruct (checkCommandValue "world" world false) as [w|e] eqn:E2; [|done]. injection H as <-.
  apply checkCommandValue_ok in E2 as [_ E2]; [|done]. specialize (E2 eq_refl).
  set (values := <["world" := w]> values0).
  assert (Hv : forall name v, values !! name = Some v -> name ∉ freeTextParams -> single_word v).
  { intros name v [[<- <-]|[_ Hn]]%lookup_insert_Some Hnf; [done|].
    eapply (check_params_ok _ ∅); [|exact E1|done|exact Hn|].
    - intros k x Hkx%elem_of_map_to_list. by eapply Hp.
    - apply not_true_is_false. intros Hc%contains_spec. done. }
  destruct (fill_tokens_words (Fields template) values) as (kept & Hsub & Hfill & Hne).
  exists values, kept. split_and!; [done | | done]. rewrite Fields_Join; [done|].
  assert (Hsolid : forall s, s ∈ fill_tokens (Fields template) values -> solid s).
  { intros s Hs. apply list_elem_of_lookup in Hs as [i Hs].
    destruct (Forall2_lookup_r _ _ _ _ _ Hfill Hs) as (tok & Hk & Hf).
    pose proof (list_elem_of_lookup_2 _ _ _ Hk) as Hk'. apply (sublist_subseteq _ _ Hsub) in Hk'.
    destruct (Fields_words template tok Ht Hk') as [[_ Hsp] Hval].
    destruct Hf as [->| ->]; [done|]. apply fill_loop_solid; [done|]. intros name Hn.
    destruct (values !! name) as [v|] eqn:Ev; [|done]. cbn. apply (Hv name v Ev). by eapply Hfree. }
  intros s Hs. split; [|by apply Hsolid]. destruct (Hne s Hs) as [|Hin]; [done|]. by apply (Fields_words template s Ht).
Qed.

Lemma no_extra_arguments_witness :
  let params : gmap string string := {["player" := " Eve "; "item" := "Rock"]} in
  exists values kept, kept `sublist_of` Fields "give {player} {item} --quantity {count}"
    /\ Forall2 (filled values) kept (Fields "give Eve Rock")
    /\ forall name v, values !! name = Some v -> name ∉ freeTextParams -> single_word v.
Proof.
  cbv zeta. apply (no_extra_arguments "give {player} {item} --quantity {count}" "" "give Eve Rock"
    {["player" := " Eve "; "item" := "Rock"]}).
  - reflexivity.
  - reflexivity.
  - intros k v [[<- <-]|[_ [<- <-]%lookup_singleton_Some]]%lookup_insert_Some; reflexivity.
  - intros tok name Ht Hn. apply (bool_decide_unpack (name ∉ freeTextParams)).
    change (tok ∈ ["give"; "{player}"; "{item}"; "--quantity"; "{count}"]) in Ht.
    repeat (apply elem_of_cons in Ht as [->|Ht]; [vm_compute in Hn;
      repeat (apply elem_of_cons in Hn as [->|Hn]; [exact Logic.I|]); by apply not_elem_of_nil in Hn|]).
    by apply not_elem_of_nil in Ht.
  - vm_compute. reflexivity.
Defined.

(** ** Who may run a command *)

Section gate.
Context `{U : Unicode} `{P : Platform}.

Lemma ActiveWorld_reads sid I : preserves I (ActiveWorld sid).
Proof. unfold ActiveWorld. solve_preserves. Qed.

Lemma GetCommand_reads id I : preserves I (GetCommand id).
Proof. unfold GetCommand. solve_preserves. Qed.

(** The world a template asks for; a failed lookup gives none. *)
Lemma world_run (b : bool) sid w r w' :
  (if b then let* aw := attempt (ActiveWorld sid) in ret (match aw with Ok x => x | Err _ => "" end) else ret "") w = (r, w') ->
  w_db w' = w_db w /\ is_ok r = true.
Proof.
  destruct b; [|intros [-> ->]%ret_inv; done]. intros H. split.
  - apply (reads_same (let* aw := attempt (ActiveWorld sid) in ret (match aw with Ok x => x | Err _ => "" end)) w r w'); [|done].
    intros I. solve_preserves. apply ActiveWorld_reads.
  - apply bind_inv in H as [(aw & w1 & _ & [-> _]%ret_inv)|(e & (? & ? & _)%attempt_inv & _)]; done.
Qed.
End gate.

(** A branch that ends with a reply and the database as it was. *)
Ltac unchanged H := apply ret_inv in H as [_ ->]; left; congruence.

(** Running a stored command queues at most one line, and only this one: the
    stored template of a command of that server (or a global one) filled with
    the parameters, a single line, for a user who sees the server and whose
    role on its console reaches both the role of the command and the role the
    line itself needs; every other outcome changes nothing. *)
Theorem game_command_gate `{U : Unicode} `{P : Platform} (idParam : string) (user : option User)
    (body : option (string * gmap string string)) (w w' : World) (rep : res error Reply) :
  ExecuteGameCommand idParam user body w = (rep, w') ->
  w_db w' = w_db w \/
  exists serverID u sv cid cmd params world line id t,
    user = Some u /\ body = Some (cid, params)
    /\ servers (w_db w) !! serverID = Some sv /\ is_ok (server_view (w_db w) serverID (user_ID u) (user_Role u)) = true
    /\ (exists k, game_commands (w_db w) !! k = Some cmd) /\ gcmd_ServerID cmd ∈ [None; Some serverID]
    /\ resolveCommandTemplate (gcmd_CommandTemplate cmd) params world = Ok line /\ one_line line = true
    /\ RoleWeight (gcmd_MinRole cmd) <= RoleWeight (ConsoleRole u (server_OwnerID sv))
    /\ CanRunConsoleCommand (ConsoleRole u (server_OwnerID sv)) line = true
    /\ w_db w' = with_node_commands (node_commands (w_db w) ++
         [mkNodeCommand id (server_NodeID sv) (Some serverID) "send_command" [("cmd", line)] "pending" t None]) (w_db w).
Proof.
  unfold ExecuteGameCommand, parseUUID. intros H.
  destruct (uuid_parse idParam) as [serverID|]; [|unchanged H].
  destruct body as [[cid params]|]; [|unchanged H].
  destruct (String.eqb cid ""); [unchanged H|].
  destruct (uuid_parse cid) as [cmdUUID|]; [|unchanged H].
  apply bind_inv in H as [(rc & w1 & (rc' & [= <-] & Hq)%attempt_inv & H)|(e & (? & ? & _)%attempt_inv & _)]; [|done].
  pose proof (reads_same _ _ _ _ (GetCommand_reads _) Hq) as Hd1.
  destruct rc as [cmd|e]; [|unchanged H]. apply query_ok in Hq as [Hcmd _].
  unfold get_key in Hcmd. destruct (game_commands (w_db w) !! cmdUUID) as [cmd'|] eqn:Ek; [|done]. injection Hcmd as ->.
  destruct (match gcmd_ServerID cmd with Some _ => _ | None => _ end) eqn:Esid; [unchanged H|].
  destruct user as [u|]; [|unchanged H].
  apply bind_inv in H as [(rs & w2 & (rs' & [= <-] & Hs)%attempt_inv & H)|(e & (? & ? & _)%attempt_inv & _)]; [|done].
  pose proof (reads_same _ _ _ _ (GetServer_reads _ _ _) Hs) as Hd2.
  destruct rs as [server|e]; [|unchanged H].
  apply GetServer_ok in Hs as [Hview _].
  destruct (RoleWeight _ <? _) eqn:Erole; [unchanged H|].
  apply bind_inv in H as [(world & w3 & Hw & H)|(e & Hw & ->)]; apply world_run in Hw as [Hd3 Hok]; [|done].
  assert (Hd : w_db w3 = w_db w) by congruence.
  destruct (resolveCommandTemplate _ params world) as [line|e] eqn:Er; [|unchanged H].
  destruct (String.eqb line ""); [unchanged H|].
  destruct (CanRunConsoleCommand _ line) eqn:Ecan; cbn [negb] in H; [|unchanged H].
  apply bind_inv in H as [(ru & w4 & (ru' & [= <-] & Hu)%attempt_inv & H)|(e & (? & ? & _)%attempt_inv & _)]; [|done].
  assert (w' = w4) as -> by (destruct ru; by apply ret_inv in H as [_ ->]).
  apply SendConsoleCommand_inv in Hu as [[_ ->]|(_ & Hl & sv & id & t & Hsv & Hd4)]; [by left|]. right.
  rewrite Hd in Hsv, Hd4. rewrite Hd1 in Hview. pose proof Hview as Hview'.
  unfold server_view in Hview'. rewrite Hsv in Hview'.
  assert (Hown : server_OwnerID server = server_OwnerID sv)
    by (case_match; [by injection Hview' as <- | done]).
  exists serverID, u, sv, cid, cmd, params, world, line, id, t. rewrite <- Hown, Hview.
  split_and!; try done; [by eexists | | by apply Z.ltb_ge].
  destruct (gcmd_ServerID cmd) as [s|]; [|by left]. apply negb_false_iff, N.eqb_eq in Esid as ->. right. by left.
Qed.

(** ** The role a stored command asks for *)

Section clamp.
Context `{U : Unicode} `{P : Platform}.

(** A command of a server asks for at least the role its template needs. *)
Definition clamped (c : GameCommand) : Prop :=
  RoleWeight (ConsoleCommandMinRole (gcmd_CommandTemplate c)) <= RoleWeight (gcmd_MinRole c).

Definition commands_clamped (d : DB) : Prop :=
  forall id c, game_commands d !! id = Some c -> is_Some (gcmd_ServerID c) -> clamped c.

Lemma RoleWeight_need (cmd : string) : 1 <= RoleWeight (ConsoleCommandMinRole cmd).
Proof.
  unfold ConsoleCommandMinRole. destruct (Fields _) as [|f l]; [done|]. cbv zeta. case_ifs; done.
Qed.

Lemma insert_command_ok c d c' d' :
  insert_command c d = Ok (c', d') -> d' = with_game_commands (<[gcmd_ID c := c]> (game_commands d)) d.
Proof.
  unfold insert_command. destruct (negb _); [done|]. destruct (_ || _); [done|].
  destruct (match gcmd_ServerID c with Some _ => _ | None => _ end); [done|].
  destruct (insert_row _ _ _) as [tb|e] eqn:E; [|done]. apply insert_row_ok in E as [_ ->]. by intros [= _ <-].
Qed.

Lemma CreateCommand_clamped cmd : clamped cmd -> preserves commands_clamped (CreateCommand cmd).
Proof.
  intros Hc. unfold CreateCommand. cbv zeta. solve_preserves. apply preserves_exec. intros d c d' Hd. intros H%insert_command_ok. subst d'.
 
  intros id x. cbn. intros [[_ <-]|[_ Hx]]%lookup_insert_Some Hs; [|by eapply Hd].
  unfold clamped in *. cbn. destruct (String.eqb_spec (gcmd_MinRole cmd) "") as [E|]; [|done].
  rewrite E in Hc. pose proof (RoleWeight_need (gcmd_CommandTemplate cmd)). cbn in Hc. lia.
Qed.

Lemma defaults_clamped sid c : c ∈ defaultHytaleCommands sid -> clamped c.
Proof.
  intros Hc. assert (H : forallb (fun c => RoleWeight (ConsoleCommandMinRole (gcmd_CommandTemplate c)) <=? RoleWeight (gcmd_MinRole c))
    (defaultHytaleCommands sid) = true) by (vm_compute; reflexivity).
  rewrite forallb_elem in H. apply Z.leb_le, H, Hc.
Qed.

Lemma SeedDefaults_clamped sid : preserves commands_clamped (SeedDefaults sid).
Proof.
  assert (H : forall l, (forall c, c ∈ l -> clamped c) -> preserves commands_clamped (seed_loop l)).
  { induction l as [|c l IH]; intros Hl; cbn [seed_loop]; [apply preserves_ret|].
    apply preserves_bind; [apply CreateCommand_clamped, Hl; by left|]. intros _. apply IH. intros x Hx. apply Hl. by right. }
  unfold SeedDefaults. solve_preserves. apply H, defaults_clamped.
Qed.

(** A request to one of the four handlers. *)
Inductive command_step : World -> World -> Prop :=
| step_list idParam w : command_step w (snd (ListGameCommands idParam w))
| step_create idParam body w : command_step w (snd (CreateGameCommand idParam body w))
| step_execute idParam user body w : command_step w (snd (ExecuteGameCommand idParam user body w))
| step_delete idParam cmdParam w : command_step w (snd (DeleteGameCommand idParam cmdParam w)).

Lemma SendConsoleCommand_clamped sid cmd : preserves commands_clamped (SendConsoleCommand sid cmd).
Proof.
  intros w Hw. destruct (SendConsoleCommand sid cmd w) as [r w'] eqn:E. cbn.
  apply SendConsoleCommand_inv in E as [[_ ->]|(_ & _ & sv & id & t & _ & ->)]; done.
Qed.

Lemma command_step_clamped w w' : command_step w w' -> commands_clamped (w_db w) -> commands_clamped (w_db w').
Proof.
  intros [i w0|i b w0|i u b w0|i c w0]; revert w0.
  - change (preserves commands_clamped (ListGameCommands i)). unfold ListGameCommands, ListForServer. solve_preserves. apply SeedDefaults_clamped.
  - change (preserves commands_clamped (CreateGameCommand i b)). unfold CreateGameCommand. solve_preserves. apply CreateCommand_clamped. unfold clamped. cbn.
    case_ifs; breflect; lia.
  - change (preserves commands_clamped (ExecuteGameCommand i u b)). unfold ExecuteGameCommand, parseUUID. solve_preserves;
      auto using GetCommand_reads, GetServer_reads, ActiveWorld_reads, SendConsoleCommand_clamped.
  - change (preserves commands_clamped (DeleteGameCommand i c)). unfold DeleteGameCommand, DeleteCommand, parseUUID. solve_preserves.
    apply preserves_exec. intros d k d' Hd Hk. repeat case_match; simplify_eq; try done.
    intros id x. cbn. intros [_ Hx]%lookup_delete_Some. by eapply Hd.
Qed.
End clamp.

(** C21. Stored commands are well formed: after any sequence of requests of this
    file, with any faults of the database, every command of a server asks for at least the
    role the console allowlist demands of its template, also the seeded
    defaults and the custom ones whatever role was sent.  (The commands a
    plugin scan adds always ask for a moderator, whatever their template;
    [game_command_gate] checks the template again when one is run.) *)
Theorem stored_commands_clamped `{U : Unicode} `{P : Platform} (w w' : World) :
  commands_clamped (w_db w) -> rtc command_step w w' -> commands_clamped (w_db w').
Proof. intros Hw Hs. induction Hs as [w|w1 w2 w3 H _ IH]; [done|]. by eapply IH, command_step_clamped. Qed.

(** ** A concrete installation *)

#[local] Existing Instances ascii_tables sample_platform.

Definition owner_user : User := sample_user 5 RoleUser.

(** The commands of server 4 after they were listed once. *)
Definition seeded_world : World := snd (ListGameCommands (uuid_string 4) farm_world).

Definition kick_id : uuid := 102.

Lemma stored_commands_clamped_witness :
  commands_clamped (w_db seeded_world) /\ length (map_to_list (game_commands (w_db seeded_world))) = 15%nat.
Proof.
  split; [|vm_compute; reflexivity]. apply (stored_commands_clamped farm_world).
  - intros id c H. vm_compute in H. discriminate H.
  - apply rtc_once. apply (step_list (uuid_string 4) farm_world).
Defined.

Lemma game_command_gate_witness :
  let run user := ExecuteGameCommand (uuid_string 4) (Some user) (Some (uuid_string kick_id, {["player" := "Eve"]})) seeded_world in
  w_db (snd (run (sample_user 6 RoleUser))) = w_db seeded_world
  /\ (exists t id, node_commands (w_db (snd (run owner_user))) = node_commands (w_db seeded_world) ++
        [mkNodeCommand id 9 (Some 4%N) "send_command" [("cmd", "kick Eve")] "pending" t None]).
Proof.
  cbv zeta. set (run user := ExecuteGameCommand (uuid_string 4) (Some user) _ seeded_world). split.
  - destruct (game_command_gate (uuid_string 4) (Some (sample_user 6 RoleUser)) (Some (uuid_string kick_id, {["player" := "Eve"]}))
      seeded_world _ _ (surjective_pairing _)) as [H|(serverID & u & sv & cid & cmd & params & world & line & id & t & _ & _ & _ & _ & _ & _ & _ & _ & _ & _ & H)];
      [exact H|].
    exfalso. assert (E : length (node_commands (w_db (snd (run (sample_user 6 RoleUser))))) = length (node_commands (w_db seeded_world)))
      by (vm_compute; reflexivity).
    unfold run in E. rewrite H in E. cbn in E. rewrite length_app in E. cbn in E. lia.
  - exists 1000, 115%N. vm_compute. reflexivity.
Defined.

(** A fault while the defaults are stored: the few that were stored stop any
    later attempt, so the rest never appear. *)
Example partial_seed_is_final :
  let w1 := snd (ListGameCommands (uuid_string 4) (with_faults [false; false; false; true] farm_world)) in
  let w2 := snd (ListGameCommands (uuid_string 4) (with_faults [] w1)) in
  length (map_to_list (game_commands (w_db w2))) = 2%nat.
Proof. vm_compute. reflexivity. Qed.
