(* ===== verification/ServerHandlers.v ===== *)
(** * The server handlers

    Models [handlers/servers.go]: the requests on game servers, the goroutines
    that talk to the node about them, and the callbacks of the nodes.  A
    goroutine a handler starts is the job in its result.  [dispatchStart]
    waits for the node to report over another request, so it is a machine
    whose steps interleave with the rest of the system.  The body of a request
    is its decoded value or the text of the binding error; headers of the
    replies are left out, and [Ok] of a value is the success reply that
    carries it. *)

From stdpp Require Import base numbers list strings option gmap relations.
From Stdlib Require Import QArith_base.
From S2P Require Import Prelude GoStrings Store Roles Platform Players Servers Net Alerts Daemon Http.

Local Open Scope Z_scope.

Definition maxLogLinesPerPush : nat := 5000.
Definition gameSessionInterval : Z := 10 * 1000000000.

(** A reply with a message and the status the server is given. *)
Definition reply_accepted (msg status : string) : Reply :=
  mkReply 202 (JObj [("message", JStr msg); ("status", JStr status)]).

(** [c.Status(http.StatusNoContent)]. *)
Definition reply_none : Reply := mkReply 204 JNull.

(** ** The throttle of game sessions *)

(** [allowGameSession]: the decision and the new map. *)
Definition allowGameSession (serverID : uuid) (t : Z) (lastSessions : gmap uuid Z) : bool * gmap uuid Z :=
  if match lastSessions !! serverID with Some last => t - last <? gameSessionInterval | None => false end
  then (false, lastSessions)
  else (true, <[serverID := t]> (filter (fun kv => (gameSessionInterval <=? t - snd kv) = false) lastSessions)).

(** The jobs of the handlers. *)
Inductive ServerJob :=
| DispatchStart (server : Server)
| DispatchStop (nodeID serverID : uuid)
| DispatchRestart (server : Server)
| DispatchKill (nodeID serverID : uuid)
| DispatchProvision (server : Server)
| DispatchReinstall (server : Server).

Section handlers.
Context `{U : Unicode} `{P : Platform} `{J : DaemonJson} (serversBaseDir : string).

(** What every handler on one server begins with. *)
Definition with_server {A} (idParam : string) (user : User) (k : uuid -> Server -> M (res Reply A)) : M (res Reply A) :=
  match uuid_parse idParam with
  | None => ret (Err (reply_error 400 "invalid ID format"))
  | Some serverID =>
    let* r := attempt (GetServer serverID (user_ID user) (user_Role user)) in
    match r with
    | Err e => ret (Err (serverError e))
    | Ok server => k serverID server
    end
  end.

Definition refuse {A} (status : Z) (msg : string) : M (res Reply A) := ret (Err (reply_error status msg)).

(** ** Listing, creating, changing *)

Definition ListServersHandler (user : User) : M (res Reply (list Server)) :=
  let* r := attempt (ListServers (user_ID user) (user_Role user)) in
  match r with Err _ => refuse 500 "could not list servers" | Ok l => ret (Ok l) end.

Definition CreateServerHandler (user : User) (body : res string CreateServerRequest) : M (res Reply (Server * ServerJob)) :=
  match body with
  | Err e => refuse 400 e
  | Ok req =>
    let* r := attempt (CreateServer req (user_ID user)) in
    match r with
    | Err e => if error_Is e ErrNoAvailableNode then refuse 503 "no available node to host the server"
               else refuse 400 (error_Error e)
    | Ok server =>
      let dataPath := serversBaseDir +:+ "/" +:+ uuid_string (server_ID server) in
      let* u := attempt (UpdateServerDataPath (server_ID server) dataPath) in
      let server := match u with Ok _ => server_with_DataPath dataPath server | Err _ => server end in
      ret (Ok (server, DispatchProvision server))
    end
  end.

Definition GetServerHandler (idParam : string) (user : User) : M (res Reply Server) :=
  with_server idParam user (fun _ server => ret (Ok server)).

Definition UpdateServerHandler (idParam : string) (user : User) (body : res string UpdateServerRequest) : M (res Reply Server) :=
  match uuid_parse idParam with
  | None => refuse 400 "invalid ID format"
  | Some serverID =>
    match body with
    | Err e => refuse 400 e
    | Ok req =>
      let* r := attempt (UpdateServer serverID (user_ID user) (user_Role user) req) in
      match r with Err e => ret (Err (serverError e)) | Ok server => ret (Ok server) end
    end
  end.

(** The result is the warning of the reply, "" for none. *)
Definition DeleteServerHandler (idParam : string) (user : User) : M (res Reply string) :=
  with_server idParam user (fun serverID server =>
    let* c := pool_Get (server_NodeID server) in
    let* warning :=
      match c with
      | Ok client =>
        let* r := client_DeleteServerData client serverID in
        ret match r with
            | Err _ => "daemon cleanup failed; " +:+ server_DataPath server +:+ " may still exist on disk"
            | Ok _ => ""
            end
      | Err _ => ret ("daemon offline; " +:+ server_DataPath server +:+ " will be left on disk")
      end in
    let* d := attempt (DeleteServer serverID (user_ID user) (user_Role user)) in
    match d with
    | Err e => ret (Err (serverError e))
    | Ok _ => ret (Ok warning)
    end).

(** ** Power *)

Definition StartServerHandler (idParam : string) (user : User) : M (res Reply ServerJob) :=
  with_server idParam user (fun serverID server =>
    if String.eqb (server_Status server) StatusRunning || String.eqb (server_Status server) StatusStarting
    then refuse 409 "server is already running or starting"
    else
      let* u := attempt (UpdateServerStatus serverID StatusStarting) in
      match u with
      | Err _ => refuse 500 "failed to update status"
      | Ok _ => ret (Ok (DispatchStart server))
      end).

Definition StopServerHandler (idParam : string) (user : User) : M (res Reply ServerJob) :=
  with_server idParam user (fun serverID server =>
    run* ignore (UpdateServerStatus serverID StatusStopping) in
    ret (Ok (DispatchStop (server_NodeID server) (server_ID server)))).

Definition RestartServerHandler (idParam : string) (user : User) : M (res Reply ServerJob) :=
  with_server idParam user (fun serverID server =>
    run* ignore (UpdateServerStatus serverID StatusStopping) in
    ret (Ok (DispatchRestart server))).

Definition KillServerHandler (idParam : string) (user : User) : M (res Reply ServerJob) :=
  with_server idParam user (fun serverID server =>
    run* ignore (UpdateServerStatus serverID StatusStopped) in
    ret (Ok (DispatchKill (server_NodeID server) (server_ID server)))).

Definition ReinstallServerHandler (idParam : string) (user : User) : M (res Reply ServerJob) :=
  with_server idParam user (fun serverID server =>
    if negb (String.eqb (server_Status server) StatusStopped) && negb (String.eqb (server_Status server) StatusCrashed)
    then refuse 409 "stop the server before reinstalling"
    else
      let* u := attempt (UpdateServerStatus serverID StatusInstalling) in
      match u with
      | Err _ => refuse 500 "failed to update status"
      | Ok _ => ret (Ok (DispatchReinstall server))
      end).

(** ** The jobs *)

(** The failure of a job is recorded on the context of its call to the node,
    which may be what ended. *)
Definition crash_server (ended : bool) (id : uuid) : M unit := ignore (stmt_on ended (UpdateServerStatus id StatusCrashed)).

Definition uint (w n : Z) : Z := n mod 2 ^ w.

Definition start_config (server : Server) : ServerConfig :=
  mkServerConfig (uuid_string (server_ID server)) (server_Name server) (server_DataPath server)
    (uint 16 (server_Port server)) (uint 32 (server_RAMLimitMB server)) (Z.max (server_CPULimit server) 0)
    (server_AutoRestart server) (uint 32 (Z.max (server_CrashLimit server) 0))
    (uint 32 (Z.max (server_CrashWindowS server) 0)) (server_LaunchFlags server).

(** Where [dispatchStart] stands: at its beginning, waiting for the node to
    report that the files are there, or returned. *)
Inductive StartState := StartBegin | StartWaiting (client : Client) | StartDone.

Definition start_begin (server : Server) : M StartState :=
  let* c := pool_Get (server_NodeID server) in
  match c with
  | Err _ => run* crash_server false (server_ID server) in ret StartDone
  | Ok client =>
    run* ignore (UpdateServerStatus (server_ID server) StatusInstalling) in
    let* r := client_ProvisionServer client (server_ID server) (server_HytaleVersion server) (server_DataPath server) in
    match r with
    | Err e => run* crash_server (derr_Expired e) (server_ID server) in ret StartDone
    | Ok _ => ret (StartWaiting client)
    end
  end.

Definition start_launch (server : Server) (client : Client) : M StartState :=
  run* ignore (UpdateServerStatus (server_ID server) StatusStarting) in
  let* r := client_StartServer client (start_config server) in
  run* match r with Err e => crash_server (derr_Expired e) (server_ID server) | Ok _ => ret tt end in
  ret StartDone.

(** [case <-ticker.C]. *)
Definition start_tick (server : Server) (client : Client) : M StartState :=
  let* r := attempt (GetServerStatus (server_ID server)) in
  match r with
  | Err _ => ret (StartWaiting client)
  | Ok status =>
    if String.eqb status StatusCrashed then ret StartDone
    else if String.eqb status StatusStopped then start_launch server client
    else ret (StartWaiting client)
  end.

(** [case <-timeout]. *)
Definition start_timeout (server : Server) : M StartState :=
  run* crash_server false (server_ID server) in ret StartDone.

Definition dispatchStop (nodeID serverID : uuid) : M unit :=
  let* c := pool_Get nodeID in
  match c with Err _ => ret tt | Ok client => let* _ := client_StopServer client serverID in ret tt end.

Definition dispatchRestart (server : Server) : M unit :=
  let* c := pool_Get (server_NodeID server) in
  match c with
  | Err _ => ret tt
  | Ok client =>
    let* r := client_RestartServer client (server_ID server) in
    match r with Err e => crash_server (derr_Expired e) (server_ID server) | Ok _ => ret tt end
  end.

Definition dispatchKill (nodeID serverID : uuid) : M unit :=
  let* c := pool_Get nodeID in
  match c with Err _ => ret tt | Ok client => let* _ := client_KillServer client serverID in ret tt end.

Definition dispatchProvision (server : Server) : M unit :=
  let* c := pool_Get (server_NodeID server) in
  match c with
  | Err _ => crash_server false (server_ID server)
  | Ok client =>
    let* r := client_ProvisionServer client (server_ID server) (server_HytaleVersion server) (server_DataPath server) in
    match r with Err e => crash_server (derr_Expired e) (server_ID server) | Ok _ => ret tt end
  end.

Definition dispatchReinstall (server : Server) : M unit :=
  let* c := pool_Get (server_NodeID server) in
  match c with
  | Err _ => crash_server false (server_ID server)
  | Ok client =>
    let* r := client_ReinstallServer client (server_ID server) (server_HytaleVersion server) (server_DataPath server) in
    match r with Err e => crash_server (derr_Expired e) (server_ID server) | Ok _ => ret tt end
  end.

(** ** Console, logs, metrics *)

(** [cmd] is required. *)
Definition SendConsoleCommandHandler (idParam : string) (user : User) (body : res string string) : M Reply :=
  let* r := with_server idParam user (fun serverID server =>
    match body with
    | Err e => refuse 400 e
    | Ok cmd =>
      if negb (CanRunConsoleCommand (ConsoleRole user (server_OwnerID server)) cmd)
      then refuse 403 ("this command needs the " +:+ ConsoleCommandMinRole cmd +:+ " role")
      else
        let* s := attempt (SendConsoleCommand serverID cmd) in
        match s with
        | Err e => ret (Err (serverError e))
        | Ok _ => ret (Ok tt)
        end
    end) in
  ret match r with Err rep => rep | Ok _ => mkReply 202 (JObj [("message", JStr "command queued")]) end.

(** The memory limit, and the metrics of the node or the note why there are none. *)
Definition GetMetrics (idParam : string) (user : User) : M (res Reply (Z * res string ServerMetrics)) :=
  with_server idParam user (fun serverID server =>
    let* c := pool_Get (server_NodeID server) in
    match c with
    | Err _ => ret (Ok (server_RAMLimitMB server, Err "daemon not connected"))
    | Ok client =>
      let* m := client_GetServerMetrics client serverID in
      ret (Ok (server_RAMLimitMB server, match m with Ok m => Ok m | Err _ => Err "daemon unreachable" end))
    end).

Definition GetLogsHandler (idParam : string) (user : User) : M (res Reply (list ServerLog)) :=
  with_server idParam user (fun serverID _ =>
    let* r := attempt (GetLogs serverID 200) in
    match r with Err _ => refuse 500 "could not fetch logs" | Ok l => ret (Ok l) end).

(** ** Files *)

(** The node of a server, for the file browser. *)
Definition with_node {A} (idParam : string) (user : User) (k : uuid -> Client -> M (res Reply A)) : M (res Reply A) :=
  with_server idParam user (fun serverID server =>
    let* c := pool_Get (server_NodeID server) in
    match c with
    | Err _ => refuse 502 "daemon not connected"
    | Ok client => k serverID client
    end).

(** The answer of the node, or 502 with the message. *)
Definition relay {A} (m : M (res DaemonError A)) (msg : string) : M (res Reply A) :=
  let* r := m in match r with Err _ => refuse 502 msg | Ok a => ret (Ok a) end.

(** A query parameter that must be there. *)
Definition with_path {A} (path : string) (k : string -> M (res Reply A)) : M (res Reply A) :=
  if String.eqb path "" then refuse 400 "path query parameter is required" else k path.

(** A body that must bind. *)
Definition with_body {A B} (body : res string B) (k : B -> M (res Reply A)) : M (res Reply A) :=
  match body with Err e => refuse 400 e | Ok b => k b end.

Definition ListFiles (idParam : string) (user : User) (path : option string) :=
  with_node idParam user (fun serverID client =>
    relay (client_ListFiles client serverID (default "/" path)) "failed to list files from daemon").

Definition GetFileContent (idParam : string) (user : User) (path : string) :=
  with_node idParam user (fun serverID client => with_path path (fun path =>
    relay (client_GetFileContent client serverID path) "failed to read file from daemon")).

Definition WriteFileContent (idParam : string) (user : User) (body : res string (string * string)) :=
  with_node idParam user (fun serverID client => with_body body (fun '(path, content) =>
    relay (client_WriteFileContent client serverID path content) "failed to write file to daemon")).

Definition DeleteFile (idParam : string) (user : User) (path : string) :=
  with_node idParam user (fun serverID client => with_path path (fun path =>
    relay (client_DeleteFile client serverID path) "failed to delete file on daemon")).

Definition CreateDirectory (idParam : string) (user : User) (body : res string string) :=
  with_node idParam user (fun serverID client => with_body body (fun path =>
    relay (client_CreateDirectory client serverID path) "failed to create directory on daemon")).

Definition RenameFile (idParam : string) (user : User) (body : res string (string * string)) :=
  with_node idParam user (fun serverID client => with_body body (fun '(path, newName) =>
    relay (client_RenameFile client serverID path newName) "failed to rename file on daemon")).

Definition UploadFile (idParam : string) (user : User) (contentType : string) (path : option string) (data : string) :=
  with_node idParam user (fun serverID client =>
    if negb (HasPrefix contentType "multipart/") then refuse 400 "multipart/form-data body required"
    else relay (client_UploadStream client serverID (default "/" path) contentType data) "failed to upload file to daemon").

Definition DownloadFile (idParam : string) (user : User) (path : string) :=
  with_node idParam user (fun serverID client => with_path path (fun path =>
    relay (client_DownloadFile client serverID path) "failed to download file from daemon")).

Definition ExtractArchive (idParam : string) (user : User) (body : res string string) :=
  with_node idParam user (fun serverID client => with_body body (fun path =>
    relay (client_ExtractArchive client serverID path) "failed to extract archive")).

Definition CreateArchive (idParam : string) (user : User) (body : res string string) :=
  with_node idParam user (fun serverID client => with_body body (fun path =>
    relay (client_CreateArchive client serverID path) "failed to create archive")).

(** ** Callbacks of the nodes *)

(** [if !h.daemonOwnsServer(c, serverID) { return }]; [nodeID] is what the node
    gate set. *)
Definition daemonOwnsServer {A} (nodeID : option string) (serverID : uuid) (k : M (res Reply A)) : M (res Reply A) :=
  match nodeID with
  | None => refuse 401 "node authentication required"
  | Some s =>
    match uuid_parse s with
    | None => refuse 401 "invalid node identity"
    | Some node =>
      let* owns := attempt (ServerBelongsToNode serverID node) in
      match owns with
      | Err _ => refuse 500 "ownership check failed"
      | Ok false => refuse 403 "server not hosted on this node"
      | Ok true => k
      end
    end
  end.

Definition callback {A} (idParam : string) (nodeID : option string) (k : uuid -> M (res Reply A)) : M (res Reply A) :=
  match uuid_parse idParam with
  | None => refuse 400 "invalid ID format"
  | Some serverID => daemonOwnsServer nodeID serverID (k serverID)
  end.

(** The body has a required status and an exit code; the result lists the
    notifications of the alert. *)
Definition DaemonStatusUpdate (notify : bool) (idParam : string) (nodeID : option string)
    (body : res string (string * option Z)) : M (res Reply (list Notification)) :=
  callback idParam nodeID (fun serverID => with_body body (fun '(status, exitCode) =>
    if negb (contains server_statuses status) then refuse 400 "unknown status value"
    else
      let* u := attempt (UpdateServerStatus serverID status) in
      match u with
      | Err _ => refuse 500 "failed to update status"
      | Ok _ =>
        run* (if String.eqb status StatusCrashed then
                match exitCode with
                | Some _ => ignore (SetLastExitCode serverID exitCode)
                | None => ret tt
                end
              else if contains [StatusStarting; StatusRunning; StatusStopped] status
              then ignore (SetLastExitCode serverID None)
              else ret tt) in
        if String.eqb status StatusCrashed then
          let* a := attempt (EvaluateAndFire notify "server_crashed" serverID 0%Q) in
          ret (Ok match a with Ok ns => ns | Err _ => [] end)
        else ret (Ok [])
      end)).

(** The number of lines taken. *)
Definition DaemonLogsIngest (idParam : string) (nodeID : option string) (body : res string (list LogLineInput)) : M (res Reply nat) :=
  callback idParam nodeID (fun serverID => with_body body (fun lines =>
    if (maxLogLinesPerPush <? length lines)%nat then refuse 413 "too many log lines in one push"
    else if (length lines =? 0)%nat then ret (Ok 0%nat)
    else
      run* ignore (IngestLogs serverID lines) in
      ret (Ok (length lines)))).

(** [mint] is [NewGameSession] of the linked account, [None] for no service;
    it answers a session, nothing when no account is linked, or its error. *)
Definition DaemonGameSession {S} (mint : option (M (res string (option S)))) (idParam : string) (nodeID : option string)
    (lastSessions : gmap uuid Z) : M (res Reply (option S) * gmap uuid Z) :=
  let* r := callback idParam nodeID (fun serverID =>
    match mint with
    | None => ret (Ok (Ok None, lastSessions))
    | Some mint =>
      let* use := attempt (UsesHytaleAccount serverID) in
      match use with
      | Err _ => refuse 500 "loading server settings failed"
      | Ok false => ret (Ok (Ok None, lastSessions))
      | Ok true =>
        let* t := now in
        let (ok, last) := allowGameSession serverID t lastSessions in
        if negb ok then refuse 429 "game session requested too often"
        else
          let* s := mint in
          ret (Ok (match s with Ok o => Ok o | Err e => Err (reply_error 502 e) end, last))
      end
    end) in
  ret match r with Err rep => (Err rep, lastSessions) | Ok x => x end.

(** ** Migration *)

Definition migrate_error (e : error) : Reply :=
  if error_Is e ErrServerForbidden then reply_error 403 "only administrators can migrate servers"
  else if error_Is e ErrServerNotFound then reply_error 404 "server not found"
  else if error_Is e ErrNodeNotFound then reply_error 422 "target node not found"
  else if error_Is e ErrMigrationTarget then reply_error 422 (error_Error e)
  else reply_error 400 (error_Error e).

(** From the archive on: the transfer and the new node in the record, and the
    cleanup, deferred to the end, on the same context of 30 minutes: when it
    ended in the download or in the import, the cleanup is not sent. *)
Definition transfer (src tgt : Client) (serverID target migrationID : uuid) : M Reply :=
  let* (r, ended) :=
    (let* body := client_DownloadBackup src serverID migrationID in
     match body with
     | Err e => ret (reply_error 502 "failed to read archive from source node", derr_Expired e)
     | Ok data =>
       let* i := client_ImportServer tgt serverID data in
       match i with
       | Err e => ret (reply_error 502 "failed to transfer server to target node", derr_Expired e)
       | Ok _ =>
         let* m := attempt (CompleteMigration serverID target) in
         match m with
         | Err _ => ret (reply_error 500 "transfer succeeded but re-pointing the server failed", false)
         | Ok _ => ret (reply_message "server migrated", false)
         end
       end
     end) in
  let* _ := call_on ended (client_DeleteBackupArchive src serverID migrationID) in
  ret r.

Definition MigrateServer (idParam : string) (body : res string uuid) (caller : option User) : M Reply :=
  match uuid_parse idParam with
  | None => ret (reply_error 400 "invalid ID format")
  | Some serverID =>
    match body with
    | Err e => ret (reply_error 400 e)
    | Ok target =>
      match caller with
      | None => ret (reply_error 401 "unauthorized")
      | Some caller =>
        let* p := attempt (MigratePreflight (user_Role caller) serverID target) in
        match p with
        | Err e => ret (migrate_error e)
        | Ok sourceNodeID =>
          let* s := pool_Get sourceNodeID in
          match s with
          | Err _ => ret (reply_error 502 "source node is not reachable")
          | Ok src =>
            let* t := pool_Get target in
            match t with
            | Err _ => ret (reply_error 502 "target node is not reachable")
            | Ok tgt =>
              let* migrationID := new_uuid in
              let* a := client_CreateBackup src serverID migrationID None in
              match a with
              | Err _ => ret (reply_error 502 "failed to archive server on source node")
              | Ok _ => transfer src tgt serverID target migrationID
              end
            end
          end
        end
      end
    end
  end.
End handlers.

(** ** The throttle *)

(** The mints granted to a sequence of calls. *)
Fixpoint grants (calls : list (uuid * Z)) (last : gmap uuid Z) : list (uuid * Z) :=
  match calls with
  | [] => []
  | (s, t) :: calls' =>
    let (ok, last') := allowGameSession s t last in
    if ok then (s, t) :: grants calls' last' else grants calls' last'
  end.

(** The clock does not run backwards. *)
Fixpoint in_order (t0 : Z) (calls : list (uuid * Z)) : Prop :=
  match calls with
  | [] => True
  | (_, t) :: calls' => t0 <= t /\ in_order t calls'
  end.

(** A mint of [s] at [t0] is remembered, or long ago. *)
Definition remembered (s : uuid) (t0 now : Z) (last : gmap uuid Z) : Prop :=
  (exists t1, last !! s = Some t1 /\ t0 <= t1) \/ t0 + gameSessionInterval <= now.

Lemma allowGameSession_remembers s t0 x t last :
  remembered s t0 t last -> remembered s t0 t (snd (allowGameSession x t last)).
Proof.
  intros [(t1 & Hl & Ht)|]; [|by right]. unfold allowGameSession. destruct (match last !! x with Some _ => _ | None => _ end) eqn:E.
  { left. by exists t1. }
  cbn [snd]. destruct (decide (x = s)) as [->|Hne].
  - rewrite Hl in E. right. lia.
  - unfold remembered. rewrite lookup_insert_ne by done. destruct (gameSessionInterval <=? t - t1) eqn:Eo; [right; lia|].
    left. exists t1. split; [|done]. apply map_lookup_filter_Some. done.
Qed.

Lemma grants_spaced s t0 calls now last :
  in_order now calls -> remembered s t0 now last -> forall t, (s, t) ∈ grants calls last -> t0 + gameSessionInterval <= t.
Proof.
  revert now last. induction calls as [|[x tx] calls IH]; intros now last Ho Hr t Ht; [by apply not_elem_of_nil in Ht|].
  destruct Ho as [Hnow Ho]. cbn [grants] in Ht.
  assert (Hr' : remembered s t0 tx last) by (destruct Hr as [?|?]; [by left | right; lia]).
  pose proof (allowGameSession_remembers s t0 x tx last Hr') as Hr2.
  destruct (allowGameSession x tx last) as [ok last'] eqn:Ea. cbn [snd] in Hr2.
  destruct ok; [|by eapply IH]. apply elem_of_cons in Ht as [[= -> ->]|Ht]; [|by eapply IH].
  destruct Hr' as [(t1 & Hl & Hle)|]; [|lia]. unfold allowGameSession in Ea. rewrite Hl in Ea.
  destruct (tx - t1 <? gameSessionInterval) eqn:E; [done|]. lia.
Qed.

(** Game sessions of one server are minted at least ten seconds apart,
    however the calls for the servers interleave, although the map forgets
    old entries; and at any grant the map holds only mints of the last ten
    seconds, so it does not grow without bound. *)
Theorem game_sessions_spaced (calls : list (uuid * Z)) (t0 : Z) (last : gmap uuid Z) :
  in_order t0 calls ->
  (forall l1 l2 s t t', grants calls last = l1 ++ (s, t) :: l2 -> (s, t') ∈ l2 -> t + gameSessionInterval <= t')
  /\ (forall s t m m', allowGameSession s t m = (true, m') -> forall k x, m' !! k = Some x -> t - x < gameSessionInterval).
Proof.
  intros Ho. split.
  - revert t0 last Ho. induction calls as [|[x tx] calls IH]; intros t0 last Ho l1 l2 s t t' Hg Ht'; [by destruct l1|].
    destruct Ho as [Hn Ho]. cbn [grants] in Hg. destruct (allowGameSession x tx last) as [ok last'] eqn:Ea.
    destruct ok; [|by eapply IH]. destruct l1 as [|g l1]; [|injection Hg as _ Hg; by eapply IH].
    injection Hg as <- <- <-. apply (grants_spaced x tx calls tx last'); [done | | done]. left. exists tx. split; [|lia].
    unfold allowGameSession in Ea. destruct (match last !! x with Some _ => _ | None => _ end); [done|].
    injection Ea as <-. by rewrite lookup_insert_eq.
  - intros s t m m'. unfold allowGameSession. destruct (match m !! s with Some _ => _ | None => _ end); [done|].
    intros [= <-] k x [[_ <-]|[_ [_ Hf]%map_lookup_filter_Some]]%lookup_insert_Some; [unfold gameSessionInterval; lia|].
    cbn in Hf. lia.
Qed.

Lemma game_sessions_spaced_witness :
  let s := 1000000000 in
  let calls : list (uuid * Z) := [(4%N, 0); (4%N, 5 * s); (7%N, 6 * s); (4%N, 11 * s)] in
  grants calls ∅ = [(4%N, 0); (7%N, 6 * s); (4%N, 11 * s)] /\ 0 + gameSessionInterval <= 11 * s.
Proof.
  cbv zeta. split; [vm_compute; reflexivity|].
  apply (proj1 (game_sessions_spaced [(4%N, 0); (4%N, 5 * 1000000000); (7%N, 6 * 1000000000); (4%N, 11 * 1000000000)] 0 ∅
    ltac:(cbn; lia)) [] [(7%N, 6 * 1000000000); (4%N, 11 * 1000000000)] 4%N 0); [vm_compute; reflexivity|].
  right. left.
Defined.

(** ** What a node may change *)

(** The row of the server changes at most its status, its exit code and its
    time of change; no other server and none of these tables change. *)
Definition server_scope (sid : uuid) (d d' : DB) : Prop :=
  (forall k, k <> sid -> servers d' !! k = servers d !! k)
  /\ (forall s', servers d' !! sid = Some s' -> exists s, servers d !! sid = Some s
        /\ s' = server_with_LastExitCode (server_LastExitCode s') (server_with_UpdatedAt (server_UpdatedAt s')
                  (server_with_Status (server_Status s') s)))
  /\ users d' = users d /\ server_members d' = server_members d /\ nodes d' = nodes d
  /\ node_commands d' = node_commands d /\ app_settings d' = app_settings d /\ backups d' = backups d
  /\ game_commands d' = game_commands d /\ worlds d' = worlds d
  /\ exists more, server_logs d' = server_logs d ++ more /\ forall l, l ∈ more -> slog_ServerID l = sid.

#[export] Instance server_scope_preorder sid : PreOrder (server_scope sid).
Proof.
  split.
  - intros d. split_and!; try done; [intros s0 Hs0; exists s0; split; [done | by destruct s0]|]. exists [].
    split; [by rewrite app_nil_r | by intros ? ?%not_elem_of_nil].
  - intros a b c (A1 & A2 & A3 & A4 & A5 & A6 & A7 & A8 & A9 & A10 & la & A11 & A12)
      (B1 & B2 & B3 & B4 & B5 & B6 & B7 & B8 & B9 & B10 & lb & B11 & B12).
    split_and!; try congruence.
    + intros k Hk. rewrite B1, A1 by done. done.
    + intros s' (s1 & H1 & E1)%B2. destruct (A2 s1 H1) as (s & H & E). exists s. split; [done|].
      rewrite E1, E. by destruct s.
    + exists (la ++ lb). split; [by rewrite B11, A11, app_assoc|]. intros l [?|?]%elem_of_app; auto.
Qed.

Section callbacks.
Context `{U : Unicode} `{P : Platform} `{J : DaemonJson}.

Lemma touch_scope sid (f : Server -> Server) d :
  (forall s, f s = server_with_LastExitCode (server_LastExitCode (f s)) (server_with_UpdatedAt (server_UpdatedAt (f s))
                     (server_with_Status (server_Status (f s)) s))) ->
  server_scope sid d (with_servers (alter f sid (servers d)) d).
Proof.
  intros Hf. split_and!; try done.
  - intros k Hk. cbn. by rewrite lookup_alter_ne.
  - intros s'. cbn. rewrite lookup_alter_eq. destruct (servers d !! sid) as [s|]; [|done]. intros [= <-].
    exists s. split; [done | apply Hf].
  - exists []. split; [by rewrite app_nil_r | by intros ? ?%not_elem_of_nil].
Qed.

Lemma same_scope sid d d' :
  servers d' = servers d -> users d' = users d -> server_members d' = server_members d -> nodes d' = nodes d ->
  node_commands d' = node_commands d -> app_settings d' = app_settings d -> backups d' = backups d ->
  game_commands d' = game_commands d -> worlds d' = worlds d -> server_logs d' = server_logs d -> server_scope sid d d'.
Proof.
  intros H1 ? ? ? ? ? ? ? ? H2. split_and!; try done; [by rewrite H1 | |].
  - rewrite H1. intros s0 Hs0. exists s0. split; [done | by destruct s0].
  - exists []. split; [by rewrite H2, app_nil_r | by intros ? ?%not_elem_of_nil].
Qed.

Lemma UpdateServerStatus_scope sid st : frames eq (server_scope sid) (UpdateServerStatus sid st).
Proof.
  unfold UpdateServerStatus, closeOpenSessions. solve_frames.
  - intros d1 u d2. destruct (negb _); [done|]. intros [= _ <-]. apply touch_scope. by intros [].
  - intros d1 u d2. case_ifs; intros [= _ <-]; by apply same_scope.
Qed.

Lemma SetLastExitCode_scope sid c : frames eq (server_scope sid) (SetLastExitCode sid c).
Proof. unfold SetLastExitCode, touch_server. solve_frames. intros d1 u d2 [= _ <-]. apply touch_scope. by intros []. Qed.

Lemma IngestLogs_scope sid lines : frames eq (server_scope sid) (IngestLogs sid lines).
Proof.
  assert (Hc : forall l, frames eq (server_scope sid) (insertLogChunk sid l)).
  { intros l. unfold insertLogChunk. solve_frames. intros d1 u d2. case_ifs; intros [= _ <-]; try done.
    split_and!; try done; [intros s0 Hs0; exists s0; split; [done | by destruct s0]|].
    eexists. split; [reflexivity|]. intros x (y & -> & _)%list_elem_of_fmap. done. }
  unfold IngestLogs. generalize (length lines) as n. intros n. revert lines. induction n as [|n IH]; intros lines;
    cbn [ingest_loop]; destruct lines as [|x lines]; solve_frames; [apply Hc | apply IH].
Qed.

Lemma EvaluateAndFire_scope sid notify ty subj v : frames eq (server_scope sid) (EvaluateAndFire notify ty subj v).
Proof.
  assert (Hr : forall rid rule, frames eq (server_scope sid) (fire_rule notify ty subj v rid rule)).
  { intros rid rule. unfold fire_rule. solve_frames. intros d1 u d2 [-> _]%insert_event_ok. by apply same_scope. }
  assert (Hl : forall l, frames eq (server_scope sid) (fire_loop notify ty subj v l)).
  { induction l as [|[rid rule] l IH]; cbn [fire_loop]; solve_frames; auto. }
  unfold EvaluateAndFire. solve_frames. apply Hl.
Qed.

(** The node that called hosts the server. *)
Definition hosted (idParam : string) (nodeID : option string) (d : DB) (sid : uuid) : Prop :=
  uuid_parse idParam = Some sid /\ exists ns node s, nodeID = Some ns /\ uuid_parse ns = Some node
    /\ servers d !! sid = Some s /\ server_NodeID s = node.

(** A callback refuses, or goes on for a server of the node. *)
Lemma callback_inv {A} idParam nodeID (k : uuid -> M (res Reply A)) w r w' :
  callback idParam nodeID k w = (r, w') ->
  (w_db w' = w_db w /\ w_link w' = w_link w /\ exists rep, r = Ok (Err rep))
  \/ exists sid w1, hosted idParam nodeID (w_db w) sid /\ w_db w1 = w_db w /\ w_link w1 = w_link w
       /\ w_now w1 = w_now w /\ k sid w1 = (r, w').
Proof.
  unfold callback, daemonOwnsServer, refuse. intros H.
  destruct (uuid_parse idParam) as [sid|] eqn:Eid; [|apply ret_inv in H as [-> ->]; left; eauto].
  destruct nodeID as [ns|]; [|apply ret_inv in H as [-> ->]; left; eauto].
  destruct (uuid_parse ns) as [node|] eqn:En; [|apply ret_inv in H as [-> ->]; left; eauto].
  apply bind_inv in H as [(o & w1 & (o' & [= <-] & Hq)%attempt_inv & H)|(e & (? & ? & _)%attempt_inv & _)]; [|done].
  assert (Hf : frames eq eq (ServerBelongsToNode sid node)) by (unfold ServerBelongsToNode; solve_frames).
  specialize (Hf w). rewrite Hq in Hf. destruct Hf as (_ & Ht & Hk & Hd). cbn in Ht, Hk, Hd.
  destruct o as [[|]|e]; [|apply ret_inv in H as [-> ->]; left; eauto..].
  apply wrap_ok, query_ok in Hq as [Hown _]. destruct (servers (w_db w) !! sid) as [sv|] eqn:Es; [|done].
  injection Hown as Hown. apply N.eqb_eq in Hown. right. exists sid, w1. split_and!; try done.
  split; [done|]. by exists ns, node, sv.
Qed.

Lemma DaemonStatusUpdate_scope notify sid (body : res string (string * option Z)) :
  frames eq (server_scope sid) (with_body body (fun '(status, exitCode) =>
    if negb (contains server_statuses status) then refuse 400 "unknown status value"
    else
      let* u := attempt (UpdateServerStatus sid status) in
      match u with
      | Err _ => refuse 500 "failed to update status"
      | Ok _ =>
        run* (if String.eqb status StatusCrashed then
                match exitCode with
                | Some _ => ignore (SetLastExitCode sid exitCode)
                | None => ret tt
                end
              else if contains [StatusStarting; StatusRunning; StatusStopped] status
              then ignore (SetLastExitCode sid None)
              else ret tt) in
        if String.eqb status StatusCrashed then
          let* a := attempt (EvaluateAndFire notify "server_crashed" sid 0%Q) in
          ret (Ok match a with Ok ns => ns | Err _ => [] end)
        else ret (Ok [])
      end)).
Proof.
  unfold with_body, refuse. destruct body as [[st x]|e]; solve_frames;
    auto using UpdateServerStatus_scope, SetLastExitCode_scope, EvaluateAndFire_scope.
Qed.

(** The minting itself: it needs the setting of the server and the throttle. *)
Lemma game_session_inv {S} (mint : option (M (res string (option S)))) sid last w r w' :
  match mint with
  | None => ret (Ok (Ok None, last))
  | Some mint =>
    let* use := attempt (UsesHytaleAccount sid) in
    match use with
    | Err _ => refuse 500 "loading server settings failed"
    | Ok false => ret (Ok (Ok None, last))
    | Ok true =>
      let* t := now in
      let (ok, last') := allowGameSession sid t last in
      if negb ok then refuse 429 "game session requested too often"
      else
        let* s := mint in
        ret (Ok (match s with Ok o => Ok o | Err e => Err (reply_error 502 e) end, last'))
    end
  end w = (r, w') ->
  (w_db w' = w_db w /\ w_link w' = w_link w /\ forall o, r = Ok o -> (exists rep, o = Err rep) \/ exists y, o = Ok (y, last))
  \/ exists s, servers (w_db w) !! sid = Some s /\ server_UseHytaleAccount s = true
      /\ fst (allowGameSession sid (w_now w) last) = true.
Proof.
  intros H. destruct mint as [mint|]; [|apply ret_inv in H as [-> ->]; left; split_and!; [done.. |]; intros o [= <-]; eauto].
  apply bind_inv in H as [(o & w1 & (o' & [= <-] & Hq)%attempt_inv & H)|(e & (? & ? & _)%attempt_inv & _)]; [|done].
  assert (Hf : frames eq eq (UsesHytaleAccount sid)) by (unfold UsesHytaleAccount; solve_frames).
  specialize (Hf w). rewrite Hq in Hf. destruct Hf as (_ & Ht & Hk & Hd). cbn in Ht, Hk, Hd. unfold refuse in H.
  destruct o as [[|]|e]; [|apply ret_inv in H as [-> ->]; left; split_and!; [done.. |]; intros o [= <-]; eauto..].
  apply query_ok in Hq as [Hu _]. destruct (servers (w_db w) !! sid) as [s|] eqn:Es; [|done]. injection Hu as Hu.
  rewrite (bind_run _ _ _ (Ok (w_now w1)) w1) in H by done. cbv beta iota in H. rewrite Ht in H.
  destruct (allowGameSession sid (w_now w) last) as [ok last'] eqn:Ea.
  destruct ok; [right; by exists s|]. apply ret_inv in H as [-> ->]. left. split_and!; [done.. |]. intros o [= <-]. eauto.
Qed.
End callbacks.

(** A node acts on its own servers only: a status report or a push of logs
    either changes nothing and is refused, or the node that sent it hosts the
    server, and then only the status, exit code and time of change of that
    server, its sessions, logs and alerts change, and nothing is sent; a game
    session is minted only for a server the node hosts that uses the linked
    account. *)
Theorem callbacks_isolated `{U : Unicode} `{P : Platform} (notify : bool) (idParam : string) (nodeID : option string) (w : World) :
  (forall body r w', DaemonStatusUpdate notify idParam nodeID body w = (r, w') ->
     w_link w' = w_link w /\
     ((w_db w' = w_db w /\ exists rep, r = Ok (Err rep))
      \/ exists sid, hosted idParam nodeID (w_db w) sid /\ server_scope sid (w_db w) (w_db w')))
  /\ (forall body r w', DaemonLogsIngest idParam nodeID body w = (r, w') ->
     w_link w' = w_link w /\
     ((w_db w' = w_db w /\ exists rep, r = Ok (Err rep))
      \/ exists sid, hosted idParam nodeID (w_db w) sid /\ server_scope sid (w_db w) (w_db w')))
  /\ (forall S (mint : option (M (res string (option S)))) last r w',
     DaemonGameSession mint idParam nodeID last w = (r, w') ->
     (w_db w' = w_db w /\ w_link w' = w_link w /\ forall x, r = Ok x -> snd x = last)
     \/ exists sid s, hosted idParam nodeID (w_db w) sid /\ servers (w_db w) !! sid = Some s
         /\ server_UseHytaleAccount s = true /\ fst (allowGameSession sid (w_now w) last) = true).
Proof.
  assert (Hgen : forall A (k : uuid -> M (res Reply A)) r w', (forall sid, frames eq (server_scope sid) (k sid)) ->
    callback idParam nodeID k w = (r, w') -> w_link w' = w_link w /\
    ((w_db w' = w_db w /\ exists rep, r = Ok (Err rep))
      \/ exists sid, hosted idParam nodeID (w_db w) sid /\ server_scope sid (w_db w) (w_db w'))).
  { intros A k r w' Hk [(Hd & Hl & Hr)|(sid & w1 & Hh & Hd & Hl & _ & H)]%callback_inv; [by split; [|left]|].
    specialize (Hk sid w1). rewrite H in Hk. destruct Hk as (_ & _ & Hl' & Hs). cbn in Hl', Hs. rewrite Hd in Hs.
    split; [congruence|]. right. by exists sid. }
  split_and!.
  - intros body r w'. apply Hgen. intros sid. apply DaemonStatusUpdate_scope.
  - intros body r w'. apply Hgen. intros sid. unfold with_body, refuse. solve_frames. apply IngestLogs_scope.
  - intros S mint last r w' H.
    apply bind_inv in H as [(o & w2 & H & [-> ->]%ret_inv)|(e & H & ->)];
      apply callback_inv in H as [(Hd & Hl & rep & Hr)|(sid & w1 & Hh & Hd & Hl & Ht & H)];
      try (left; split_and!; [done | done|]; intros x Hx; by simplify_eq/=).
    + rewrite <- Hd. apply game_session_inv in H as [(Hd' & Hl' & Ho)|(s & Hs & Hu & Ha)].
      * left. split_and!; [done | congruence|]. intros x [= <-]. destruct (Ho o eq_refl) as [[rep ->]|(y & ->)]; done.
      * right. exists sid, s. rewrite <- Ht, Hd. rewrite Hd in Hs. by split_and!.
    + rewrite <- Hd. apply game_session_inv in H as [(Hd' & Hl' & _)|(s & Hs & Hu & Ha)].
      * left. split_and!; [done | congruence | done].
      * right. exists sid, s. rewrite <- Ht, Hd. rewrite Hd in Hs. by split_and!.
Qed.

(** ** Requests to the nodes *)

(** The world after one more request. *)
Definition sent (req : Request) (w : World) : World :=
  with_link (link_with_sent (link_sent (w_link w) ++ [req]) (w_link w)) w.

Lemma pool_Get_eq `{Platform} id w :
  pool_Get id w = (Ok (match pool_clients (w_link w) !! uuid_string id with
                       | Some c => Ok c
                       | None => plain ("no daemon client registered for node " +:+ uuid_string id)
                       end), w).
Proof. done. Qed.

(** What goes out when a server is started. *)
Definition provision_request `{Platform} (server : Server) (c : Client) : Request :=
  request c "POST" (server_path (server_ID server) "/provision") []
    (JSONBody (json_strings [("version", server_HytaleVersion server); ("data_path", server_DataPath server)])).

Definition start_request `{Platform} (server : Server) (c : Client) : Request :=
  request c "POST" ("/servers/" +:+ uuid_string (server_ID server) +:+ "/start") [] (JSONBody (config_json (start_config server))).

Section start.
Context `{U : Unicode} `{P : Platform} `{J : DaemonJson} (server : Server).

(** The status of the server in the database. *)
Definition status_of (w : World) : option string := server_Status <$> servers (w_db w) !! server_ID server.

(** The job, the requests it has sent, each with the status of the server
    when its step began, and the world. *)
Definition start_conf : Type := StartState * list (Request * option string) * World.

(** Steps of the job, and of everything else, which may do anything to the
    world. *)
Inductive start_step : start_conf -> start_conf -> Prop :=
| step_begin tr w w' s reqs :
    start_begin server w = (Ok s, w') -> link_sent (w_link w') = link_sent (w_link w) ++ reqs ->
    start_step (StartBegin, tr, w) (s, tr ++ map (fun r => (r, status_of w)) reqs, w')
| step_tick c tr w w' s reqs :
    start_tick server c w = (Ok s, w') -> link_sent (w_link w') = link_sent (w_link w) ++ reqs ->
    start_step (StartWaiting c, tr, w) (s, tr ++ map (fun r => (r, status_of w)) reqs, w')
| step_timeout c tr w w' s reqs :
    start_timeout server w = (Ok s, w') -> link_sent (w_link w') = link_sent (w_link w) ++ reqs ->
    start_step (StartWaiting c, tr, w) (s, tr ++ map (fun r => (r, status_of w)) reqs, w')
| step_other s tr w w' : start_step (s, tr, w) (s, tr, w').

(** The requests so far fit the state. *)
Definition start_inv (conf : start_conf) : Prop :=
  let '(s, tr, _) := conf in
  match s with
  | StartBegin => tr = []
  | StartWaiting c => map fst tr = [provision_request server c]
  | StartDone => tr = [] \/ exists c, map fst tr = [provision_request server c]
      \/ exists st, tr = [(provision_request server c, st); (start_request server c, Some StatusStopped)]
  end.

(** A change of status whose failure is ignored sends nothing. *)
Lemma set_status_run sid st w :
  exists w', ignore (UpdateServerStatus sid st) w = (Ok tt, w') /\ w_link w' = w_link w.
Proof.
  destruct (ignore (UpdateServerStatus sid st) w) as [r w'] eqn:E. exists w'.
  pose proof E as E'. apply ignore_inv in E' as [-> _]. split; [done|].
  assert (Hf : frames eq (server_scope sid) (ignore (UpdateServerStatus sid st)))
    by (apply frames_ignore; [tc_solve..|]; apply UpdateServerStatus_scope).
  specialize (Hf w). rewrite E in Hf. by destruct Hf as (_ & _ & -> & _).
Qed.

Lemma crash_server_run ended sid w : exists w', crash_server ended sid w = (Ok tt, w') /\ w_link w' = w_link w.
Proof. destruct ended; [by exists w | apply set_status_run]. Qed.

Lemma no_more_sent (w w' : World) reqs :
  w_link w' = w_link w -> link_sent (w_link w') = link_sent (w_link w) ++ reqs -> reqs = [].
Proof.
  intros -> H. assert (E : length (link_sent (w_link w)) = length (link_sent (w_link w) ++ reqs)) by (by rewrite <- H).
  rewrite length_app in E. destruct reqs; [done | simpl in E; lia].
Qed.

Lemma one_more_sent req (w w0 w' : World) reqs :
  w_link w0 = w_link w -> w_link w' = w_link (sent req w0) ->
  link_sent (w_link w') = link_sent (w_link w) ++ reqs -> reqs = [req].
Proof. intros H0 -> H. cbn in H. rewrite H0 in H. by apply app_inv_head in H. Qed.

Lemma doRequest_run c method path query body w :
  exists r, doRequest c method path query body w = (Ok r, sent (request c method path query body) w).
Proof. unfold doRequest, send, bind, ret, sent. eauto. Qed.

Lemma start_begin_inv w s w' reqs :
  start_begin server w = (Ok s, w') -> link_sent (w_link w') = link_sent (w_link w) ++ reqs ->
  (s = StartDone /\ reqs = []) \/
  exists c, pool_clients (w_link w) !! uuid_string (server_NodeID server) = Some c /\ reqs = [provision_request server c]
    /\ (s = StartDone \/ s = StartWaiting c).
Proof.
  unfold start_begin. intros H Hs. rewrite (bind_run _ _ _ _ _ (pool_Get_eq _ w)) in H. cbv beta iota in H.
  destruct (pool_clients (w_link w) !! uuid_string (server_NodeID server)) as [c|] eqn:Ec.
  - right. exists c. split; [done|].
    destruct (set_status_run (server_ID server) StatusInstalling w) as (w1 & E1 & Hl1).
    erewrite bind_run in H by exact E1. cbv beta iota in H.
    destruct (doRequest_run c "POST" (server_path (server_ID server) "/provision") []
      (JSONBody (json_strings [("version", server_HytaleVersion server); ("data_path", server_DataPath server)])) w1) as [r E2].
    erewrite bind_run in H by exact E2. cbv beta iota in H. destruct r as [[]|e].
    + apply ret_inv in H as [[= ->] ->]. split; [by apply (one_more_sent _ w w1 _ _ Hl1 eq_refl Hs) | by right].
    + destruct (crash_server_run (derr_Expired e) (server_ID server) (sent (provision_request server c) w1)) as (w3 & E3 & Hl3).
      erewrite bind_run in H by exact E3. apply ret_inv in H as [[= ->] ->].
      split; [by apply (one_more_sent _ w w1 _ _ Hl1 Hl3 Hs) | by left].
  - left. destruct (crash_server_run false (server_ID server) w) as (w1 & E1 & Hl1).
    unfold plain in H. cbv beta iota in H. erewrite bind_run in H by exact E1. apply ret_inv in H as [[= ->] ->]. split; [done|]. by eapply no_more_sent.
Qed.

Lemma start_tick_inv c w s w' reqs :
  start_tick server c w = (Ok s, w') -> link_sent (w_link w') = link_sent (w_link w) ++ reqs ->
  (reqs = [] /\ (s = StartWaiting c \/ s = StartDone)) \/
  (reqs = [start_request server c] /\ s = StartDone /\ status_of w = Some StatusStopped).
Proof.
  unfold start_tick. intros H Hs.
  apply bind_inv in H as [(o & w1 & (o' & [= <-] & Hq)%attempt_inv & H)|(e & (? & ? & _)%attempt_inv & _)]; [|done].
  assert (Hf : frames eq eq (GetServerStatus (server_ID server))) by (unfold GetServerStatus; solve_frames).
  specialize (Hf w). rewrite Hq in Hf. destruct Hf as (_ & _ & Hk & Hd). cbn in Hk, Hd.
  destruct o as [status|e]; [|apply ret_inv in H as [[= ->] ->]; left; split; [by apply (no_more_sent w w1) | by left]].
  destruct (String.eqb status StatusCrashed);
    [apply ret_inv in H as [[= ->] ->]; left; split; [by apply (no_more_sent w w1) | by right]|].
  destruct (String.eqb_spec status StatusStopped) as [->|];
    [|apply ret_inv in H as [[= ->] ->]; left; split; [by apply (no_more_sent w w1) | by left]].
  right. apply query_ok in Hq as [Hst _]. unfold start_launch in H.
  destruct (set_status_run (server_ID server) StatusStarting w1) as (w2 & E2 & Hl2).
  erewrite bind_run in H by exact E2. cbv beta iota in H.
  destruct (doRequest_run c "POST" ("/servers/" +:+ uuid_string (server_ID server) +:+ "/start") []
    (JSONBody (config_json (start_config server))) w2) as [r E3].
  erewrite bind_run in H by exact E3. cbv beta iota in H.
  assert (Hst' : status_of w = Some StatusStopped)
    by (unfold status_of; destruct (servers (w_db w) !! server_ID server); [by injection Hst as Hst; cbn; rewrite Hst | done]).
  apply bind_ok in H as ([] & w3 & H3 & H). apply ret_inv in H as [[= ->] ->]. split_and!; [|done | done].
  apply one_more_sent with (w := w) (w0 := w2) (w' := w3); [congruence | | done]. destruct r as [[]|e].
  - by apply ret_inv in H3 as [_ ->].
  - destruct (crash_server_run (derr_Expired e) (server_ID server) (sent (start_request server c) w2)) as (w4 & E4 & Hl4).
    unfold start_request in *. rewrite E4 in H3. by injection H3 as <-.
Qed.

Lemma start_step_inv conf conf' : start_step conf conf' -> start_inv conf -> start_inv conf'.
Proof.
  intros [tr w w' s reqs H Hs|c tr w w' s reqs H Hs|c tr w w' s reqs H Hs|s tr w w'] Hi; cbn in Hi |- *; [| | |done].
  - subst tr. destruct (start_begin_inv _ _ _ _ H Hs) as [[-> ->]|(c & _ & -> & [-> | ->])]; cbn; eauto.
  - destruct (start_tick_inv _ _ _ _ _ H Hs) as [[-> [-> | ->]]|(-> & -> & ->)]; cbn; rewrite ?app_nil_r; eauto.
    right. exists c. right. destruct tr as [|[r st] [|]]; try done. cbn in Hi. injection Hi as ->. by exists st.
  - assert (reqs = [] /\ s = StartDone) as [-> ->].
    { unfold start_timeout in H. destruct (crash_server_run false (server_ID server) w) as (w1 & E1 & Hl1).
      erewrite bind_run in H by exact E1. apply ret_inv in H as [[= ->] ->]. split; [by eapply no_more_sent | done]. }
    cbn. rewrite app_nil_r. eauto.
Qed.
End start.

(** C22. Starting a server, whatever else happens in between: the job asks the
    node to provision the files at most once, before anything else, and to
    start the process at most once, after that, with the configuration of the
    record, and only in a step that found the server reported stopped; a
    timeout, a crash report or a refused provisioning ends it without a
    start. *)
Theorem start_protocol `{U : Unicode} `{P : Platform} `{J : DaemonJson} (server : Server) (w w' : World) (s : StartState)
    (tr : list (Request * option string)) :
  rtc (start_step server) (StartBegin, [], w) (s, tr, w') ->
  (exists rest c, [provision_request server c; start_request server c] = map fst tr ++ rest)
  /\ (forall req st, (req, st) ∈ tail tr -> s = StartDone /\ st = Some StatusStopped)
  /\ (s = StartBegin -> tr = []).
Proof.
  intros Hr. assert (Hi : start_inv server (s, tr, w')).
  { remember (StartBegin, [], w) as c0 eqn:E0. assert (H0 : start_inv server c0) by (by subst).
    clear E0. induction Hr as [|c1 c2 c3 H _ IH]; [done|]. by eapply IH, start_step_inv. }
  destruct s as [|c|]; cbn in Hi.
  - subst. split_and!; [by exists [provision_request server (mkClient "" "" false); start_request server (mkClient "" "" false)], (mkClient "" "" false)
      | by intros ? ? ?%not_elem_of_nil | done].
  - destruct tr as [|[r st] [|]]; try done. injection Hi as ->.
    split_and!; [by exists [start_request server c], c | by intros ? ? ?%not_elem_of_nil | done].
  - destruct Hi as [->|(c & [Hi|(st & ->)])].
    + split_and!; [by eexists _, (mkClient "" "" false) | by intros ? ? ?%not_elem_of_nil | done].
    + destruct tr as [|[r st] [|]]; try done. injection Hi as ->.
      split_and!; [by exists [start_request server c], c | by intros ? ? ?%not_elem_of_nil | done].
    + split_and!; [by exists [], c | | done]. cbn. by intros ? ? [= -> ->]%list_elem_of_singleton.
Qed.

(** ** Migration *)

Section migration.
Context `{U : Unicode} `{P : Platform} `{J : DaemonJson}.

Definition archive_request (src : Client) (sid mid : uuid) : Request :=
  request src "POST" (server_path sid "/backup") [] (backupBody mid None).
Definition download_request (src : Client) (sid mid : uuid) : Request :=
  request src "GET" (server_path sid "/backup/download") [("backup_id", uuid_string mid)] NoBody.
Definition import_request (tgt : Client) (sid : uuid) (data : string) : Request :=
  request tgt "POST" (server_path sid "/import") [] (StreamBody "multipart/form-data" data).
Definition cleanup_request (src : Client) (sid mid : uuid) : Request :=
  request src "DELETE" (server_path sid "/backup") [("backup_id", uuid_string mid)] NoBody.

Lemma CompleteMigration_inv sid target w r w' :
  CompleteMigration sid target w = (r, w') ->
  w_link w' = w_link w /\
  ((is_ok r = false /\ w_db w' = w_db w) \/
   (r = Ok tt /\ exists s, servers (w_db w) !! sid = Some s
      /\ w_db w' = with_servers (<[sid := server_with_NodeID target s]> (servers (w_db w))) (w_db w))).
Proof.
  intros H. split.
  - assert (Hf : frames eq (fun _ _ => True) (CompleteMigration sid target)).
    { assert (PreOrder (fun _ _ : DB => True)) by (split; done). unfold CompleteMigration. by solve_frames. }
    specialize (Hf w). rewrite H in Hf. by destruct Hf as (_ & _ & -> & _).
  - apply bind_inv in H as [(n & w1 & Hx%wrap_ok & H)|(e & Hx & ->)].
    + apply exec_ok in Hx. destruct (servers (w_db w) !! sid) as [s|] eqn:Es.
      * case_bool_decide; [done|]. injection Hx as <- Hd. apply ret_inv in H as [-> ->]. right. split; [done|]. exists s. split; [done | by symmetry].
      * injection Hx as <- Hd. apply fail_inv in H as [-> ->]. left. split; [done | by symmetry].
    + apply wrap_inv in Hx as [(? & ? & _)|(e' & _ & Hx)]; [done|].
      apply exec_inv in Hx as (_ & _ & _ & _ & [(? & ? & ? & _)|(? & _ & Hd & _)]); [done|]. by left.
Qed.

(** How a transfer that sent [tried] ends: the last request asks the source to
    remove the archive, or nothing follows [tried], as the context ended in
    its last request. *)
Definition cleaned_up (src : Client) (sid mid : uuid) (w w' : World) (tried reqs : list Request) : Prop :=
  reqs = tried ++ [cleanup_request src sid mid]
  \/ (reqs = tried /\ exists req, last tried = Some req /\ ran_out w w' req).

(** The deferred cleanup. *)
Lemma cleanup_run src sid mid ended (rep : Reply) w r w' :
  (let* _ := call_on ended (client_DeleteBackupArchive src sid mid) in ret rep) w = (r, w') ->
  w_db w' = w_db w /\ link_net (w_link w') = link_net (w_link w)
  /\ link_sent (w_link w') = link_sent (w_link w) ++ (if ended then [] else [cleanup_request src sid mid]).
Proof.
  destruct ended; cbn [call_on]; intros H.
  - erewrite bind_run in H by reflexivity. apply ret_inv in H as [_ ->]. by rewrite app_nil_r.
  - destruct (doRequest_run src "DELETE" (server_path sid "/backup") [("backup_id", uuid_string mid)] NoBody w) as [x Hx].
    unfold client_DeleteBackupArchive in H. rewrite (bind_run _ _ _ _ _ Hx) in H. by apply ret_inv in H as [_ ->].
Qed.

(** A failed transfer is cleaned up, or its last call was cut off. *)
Lemma cleaned_up_after src sid mid ended (rep : Reply) tried req w w0 w1 r w' :
  link_sent (w_link w1) = link_sent (w_link w) ++ tried -> last tried = Some req ->
  sending (w_link w) (w_link w0) -> (ended = true -> ran_out w0 w1 req) ->
  (let* _ := call_on ended (client_DeleteBackupArchive src sid mid) in ret rep) w1 = (r, w') ->
  w_db w' = w_db w1 /\ exists reqs, link_sent (w_link w') = link_sent (w_link w) ++ reqs
    /\ cleaned_up src sid mid w w' tried reqs.
Proof.
  intros Hs Hlast Hw Hx (Hd & Hn & Hl)%cleanup_run. split; [done|]. destruct ended.
  - exists tried. rewrite app_nil_r in Hl. split; [congruence|]. right. split; [done|]. exists req. split; [done|].
    destruct (ran_out_earlier _ _ _ _ Hw (Hx eq_refl)) as (n & text & Hle & H1 & H2). exists n, text.
    by rewrite Hl, Hn.
  - eexists. split; [by rewrite Hl, Hs, <- app_assoc|]. by left.
Qed.

(** What the transfer sends and when the record moves. *)
Lemma transfer_inv src tgt sid target mid w r w' :
  transfer src tgt sid target mid w = (r, w') ->
  exists reqs, link_sent (w_link w') = link_sent (w_link w) ++ reqs
  /\ ((w_db w' = w_db w /\ (cleaned_up src sid mid w w' [download_request src sid mid] reqs
        \/ exists data, cleaned_up src sid mid w w' [download_request src sid mid; import_request tgt sid data] reqs))
      \/ exists data s, servers (w_db w) !! sid = Some s
          /\ w_db w' = with_servers (<[sid := server_with_NodeID target s]> (servers (w_db w))) (w_db w)
          /\ reqs = [download_request src sid mid; import_request tgt sid data; cleanup_request src sid mid]
          /\ fst (client_DownloadBackup src sid mid w) = Ok (Ok data)
          /\ fst (client_ImportServer tgt sid data (sent (download_request src sid mid) w)) = Ok (Ok tt)).
Proof.
  unfold transfer. intros H.
  assert (Ed : exists x, client_DownloadBackup src sid mid w = (Ok x, sent (download_request src sid mid) w)
      /\ (ctx_ended x = true -> ran_out w (sent (download_request src sid mid) w) (download_request src sid mid)))
    by apply raw_call_run.
  destruct Ed as (x & Ed & Hxd). set (w1 := sent (download_request src sid mid) w) in *.
  assert (Hw1 : sending (w_link w) (w_link w1)) by apply sending_send.
  destruct x as [data|e].
  2:{ erewrite bind_run in H by (by erewrite bind_run by exact Ed). cbv beta iota in H.
      eapply (cleaned_up_after _ _ _ _ _ [_] _ w w w1) in H as (Hd & reqs & Hl & Hc); try done.
      exists reqs. split; [done|]. left. split; [done|]. by left. }
  assert (Ei : exists y, client_ImportServer tgt sid data w1 = (Ok y, sent (import_request tgt sid data) w1)
      /\ (ctx_ended y = true -> ran_out w1 (sent (import_request tgt sid data) w1) (import_request tgt sid data))).
  { unfold client_ImportServer, discard.
    destruct (raw_call_run tgt "POST" (server_path sid "/import") [] (StreamBody "multipart/form-data" data)
      "import server" "import server" w1) as (y & Ey & Hy). erewrite bind_run by exact Ey. eexists. split; [reflexivity|].
    intros Hx. apply Hy. by destruct y. }
  destruct Ei as (y & Ei & Hxi). set (w2 := sent (import_request tgt sid data) w1) in *.
  destruct y as [[]|e].
  2:{ erewrite bind_run in H by (erewrite bind_run by exact Ed; cbv beta iota; by erewrite bind_run by exact Ei).
      cbv beta iota in H.
      eapply (cleaned_up_after _ _ _ _ _ [_; _] _ w w1 w2) in H as (Hd & reqs & Hl & Hc); try done.
      - exists reqs. split; [done|]. left. split; [done|]. right. by exists data.
      - cbn. by rewrite <- app_assoc. }
  destruct (CompleteMigration sid target w2) as [rm w3] eqn:Em.
  assert (Hb : exists rep, (let* _ := call_on false (client_DeleteBackupArchive src sid mid) in ret rep) w3 = (r, w')).
  { destruct rm; (erewrite bind_run in H by (erewrite bind_run by exact Ed; cbv beta iota; erewrite bind_run by exact Ei;
      cbv beta iota; by erewrite bind_run by (apply attempt_run, Em))); cbv beta iota in H; eauto. }
  destruct Hb as [rep (Hd & _ & Hl)%cleanup_run].
  apply CompleteMigration_inv in Em as [Hlink Hm]. eexists. split; [rewrite Hl, Hlink; cbn; by rewrite <- !app_assoc|].
  destruct Hm as [[_ Hm]|(_ & s & Hs & Hm)]; rewrite Hm in Hd.
  - left. split; [done|]. right. exists data. by left.
  - right. exists data, s. rewrite Ed, Ei. done.
Qed.
End migration.


(** ** Requests on one server *)

Section scoped.
Context `{U : Unicode} `{P : Platform} `{J : DaemonJson}.

(** A handler refuses, or goes on with a server the user may see. *)
Lemma with_server_inv {A} idParam user (k : uuid -> Server -> M (res Reply A)) w r w' :
  with_server idParam user k w = (r, w') ->
  (w_db w' = w_db w /\ w_link w' = w_link w /\ exists rep, r = Ok (Err rep))
  \/ exists sid sv w1, uuid_parse idParam = Some sid /\ server_view (w_db w) sid (user_ID user) (user_Role user) = Ok sv
     /\ w_db w1 = w_db w /\ w_link w1 = w_link w /\ (healthy w -> healthy w1) /\ k sid sv w1 = (r, w').
Proof.
  unfold with_server. intros H. destruct (uuid_parse idParam) as [sid|]; [|apply ret_inv in H as [-> ->]; left; eauto].
  apply bind_inv in H as [(o & w1 & (o' & [= <-] & Hg)%attempt_inv & H)|(e & (? & ? & _)%attempt_inv & _)]; [|done].
  assert (Hf : frames eq eq (GetServer sid (user_ID user) (user_Role user))) by (unfold GetServer; solve_frames).
  specialize (Hf w). rewrite Hg in Hf. destruct Hf as (Hh & _ & Hk & Hd). cbn in Hk, Hd.
  destruct o as [sv|e]; [|apply ret_inv in H as [-> ->]; left; eauto].
  apply GetServer_ok in Hg as [Hv _]. right. by exists sid, sv, w1.
Qed.

(** The handlers of the file browser. *)
Inductive file_handler (idParam : string) (user : User) : forall {A : Type}, M (res Reply A) -> Prop :=
| file_list path : file_handler idParam user (ListFiles idParam user path)
| file_read path : file_handler idParam user (GetFileContent idParam user path)
| file_write body : file_handler idParam user (WriteFileContent idParam user body)
| file_delete path : file_handler idParam user (DeleteFile idParam user path)
| file_mkdir body : file_handler idParam user (CreateDirectory idParam user body)
| file_rename body : file_handler idParam user (RenameFile idParam user body)
| file_upload ty path data : file_handler idParam user (UploadFile idParam user ty path data)
| file_download path : file_handler idParam user (DownloadFile idParam user path)
| file_extract body : file_handler idParam user (ExtractArchive idParam user body)
| file_archive body : file_handler idParam user (CreateArchive idParam user body).

(** Nothing, or one request to the node of the server, about its files. *)
Definition file_request (sid : uuid) (c : Client) (w w' : World) : Prop :=
  w' = w \/ exists req rest, req_Base req = client_baseURL c /\ req_Token req = client_nodeToken c
    /\ req_Path req = server_path sid ("/files" +:+ rest) /\ w' = sent req w.

Lemma relay_file sid c {A} (m : M (res DaemonError A)) msg :
  sends c (fun req => exists rest, req_Path req = server_path sid ("/files" +:+ rest)) m ->
  forall w, file_request sid c w (snd (relay m msg w)).
Proof.
  intros Hm w. destruct (Hm w) as (req & H1 & H2 & [rest H3] & H4). right. exists req, rest. split_and!; [done..|].
  unfold relay, bind, refuse, ret. destruct (m w) as [[[a|e]|e] w1]; exact H4.
Qed.

Lemma with_node_file {A} idParam user (k : uuid -> Client -> M (res Reply A)) w :
  (forall sid c w, file_request sid c w (snd (k sid c w))) ->
  let w' := snd (with_node idParam user k w) in
  w_db w' = w_db w /\
  (w_link w' = w_link w \/ exists sid sv c, uuid_parse idParam = Some sid
     /\ server_view (w_db w) sid (user_ID user) (user_Role user) = Ok sv
     /\ pool_clients (w_link w) !! uuid_string (server_NodeID sv) = Some c
     /\ exists w1, w_link w1 = w_link w /\ file_request sid c w1 w').
Proof.
  intros Hk w'. destruct (with_node idParam user k w) as [r w0] eqn:E. cbn in w'. subst w'.
  apply with_server_inv in E as [(Hd & Hl & _)|(sid & sv & w1 & Hid & Hv & Hd & Hl & _ & H)]; [by split; [|left]|].
  rewrite (bind_run _ _ _ _ _ (pool_Get_eq _ w1)) in H. cbv beta iota in H. rewrite Hl in H.
  destruct (pool_clients (w_link w) !! uuid_string (server_NodeID sv)) as [c|] eqn:Ec.
  - specialize (Hk sid c w1). rewrite H in Hk. cbn in Hk. split.
    + destruct Hk as [-> |(req & rest & _ & _ & _ & ->)]; done.
    + right. exists sid, sv, c. split_and!; [done..|]. by exists w1.
  - apply ret_inv in H as [_ ->]. split; [done | by left].
Qed.

Lemma same_file sid c w : file_request sid c w w.
Proof. by left. Qed.

(** A file call of the client. *)
Lemma file_calls sid c (path content : string) (w : World) :
  (forall ty msg, file_request sid c w (snd (relay (client_UploadStream c sid path ty content) msg w)))
  /\ forall msg, file_request sid c w (snd (relay (client_ListFiles c sid path) msg w))
  /\ file_request sid c w (snd (relay (client_GetFileContent c sid path) msg w))
  /\ file_request sid c w (snd (relay (client_WriteFileContent c sid path content) msg w))
  /\ file_request sid c w (snd (relay (client_DeleteFile c sid path) msg w))
  /\ file_request sid c w (snd (relay (client_CreateDirectory c sid path) msg w))
  /\ file_request sid c w (snd (relay (client_RenameFile c sid path content) msg w))
  /\ file_request sid c w (snd (relay (client_DownloadFile c sid path) msg w))
  /\ file_request sid c w (snd (relay (client_ExtractArchive c sid path) msg w))
  /\ file_request sid c w (snd (relay (client_CreateArchive c sid path) msg w)).
Proof.
  split_and!; intros; split_and?; apply relay_file; repeat (apply sends_request || apply sends_map);
    first [exists ""; reflexivity | exists "/content"; reflexivity | exists "/directory"; reflexivity
      | exists "/rename"; reflexivity | exists "/upload"; reflexivity | exists "/download"; reflexivity
      | exists "/extract"; reflexivity | exists "/archive"; reflexivity].
Qed.
End scoped.

(** The file browser stays on one server: every handler of it leaves the
    database alone and sends nothing, unless the caller may see the server,
    and then at most one request, to the node of that server, under the path
    of its files. *)
Theorem file_browser_scoped `{U : Unicode} `{P : Platform} `{J : DaemonJson} (idParam : string) (user : User) (A : Type)
    (m : M (res Reply A)) (w : World) :
  file_handler idParam user m ->
  let w' := snd (m w) in
  w_db w' = w_db w /\
  (w_link w' = w_link w \/ exists sid sv c, uuid_parse idParam = Some sid
     /\ server_view (w_db w) sid (user_ID user) (user_Role user) = Ok sv
     /\ pool_clients (w_link w) !! uuid_string (server_NodeID sv) = Some c
     /\ exists w1, w_link w1 = w_link w /\ file_request sid c w1 w').
Proof.
  intros Hm. destruct Hm; apply with_node_file; intros sid c w0; unfold with_path, with_body, refuse;
    repeat match goal with |- context [match ?x with _ => _ end] => destruct x end;
    first [apply same_file | apply (file_calls sid c _ "" w0) | apply (file_calls sid c _ _ w0)].
Qed.

(** ** A concrete installation *)

#[local] Existing Instances ascii_tables sample_platform sample_daemon_json.

(** Both nodes of the farm are connected and answer "ok". *)
Definition farm_client (n : N) : Client := mkClient ("http://10.0.0." +:+ Itoa (Z.of_N n) +:+ ":8444") "tok" false.

Definition connected_farm : World :=
  with_link (mkLink {[uuid_string 9 := farm_client 9; uuid_string 10 := farm_client 10]} None []
               (fun _ _ => HTTPResponse 200 "ok")) farm_world.

Definition farm_owner : User := sample_user 5 RoleUser.
Definition farm_admin : User := sample_user 1 RoleAdmin.

Lemma file_browser_scoped_witness :
  let w' := snd (DeleteFile (uuid_string 4) farm_owner "/mods/a.jar" connected_farm) in
  w_db w' = w_db connected_farm /\ length (link_sent (w_link w')) = 1%nat
  /\ link_sent (w_link (snd (DeleteFile (uuid_string 4) (sample_user 6 RoleUser) "/mods/a.jar" connected_farm))) = [].
Proof.
  cbv zeta. split; [|split; vm_compute; reflexivity].
  apply (file_browser_scoped (uuid_string 4) farm_owner _ (DeleteFile (uuid_string 4) farm_owner "/mods/a.jar") connected_farm).
  constructor.
Defined.

Lemma callbacks_isolated_witness :
  let report node := DaemonStatusUpdate false (uuid_string 4) (Some (uuid_string node)) (Ok ("crashed", Some 8)) connected_farm in
  w_db (snd (report 10%N)) = w_db connected_farm
  /\ server_Status <$> servers (w_db (snd (report 9%N))) !! 4%N = Some "crashed"
  /\ (servers (w_db (snd (report 9%N))) !! 4%N) ≫= server_LastExitCode = Some 8.
Proof.
  cbv zeta. split; [|split; vm_compute; reflexivity].
  destruct (proj1 (callbacks_isolated false (uuid_string 4) (Some (uuid_string 10)) connected_farm)
    (Ok ("crashed", Some 8)) _ _ (surjective_pairing _)) as [_ [[H _]|(sid & (Hid & ns & node & s & Hns & Hn & Hs & Hh) & _)]]; [exact H|].
  exfalso. injection Hns as <-. vm_compute in Hid. injection Hid as <-. vm_compute in Hn. injection Hn as <-.
  vm_compute in Hs. injection Hs as <-. discriminate Hh.
Defined.


(** The import outlives the migration: the archive stays on the source. *)
Example expired_migration_leaves_archive :
  let w := with_link (mkLink (pool_clients (w_link connected_farm)) None []
             (fun _ req => if String.eqb (req_Path req) (server_path 4 "/import") then Expired "context deadline exceeded"
                           else HTTPResponse 200 "ok")) connected_farm in
  let p := MigrateServer (uuid_string 4) (Ok 10%N) (Some farm_admin) w in
  map (fun q => (req_Method q, req_Path q)) (link_sent (w_link (snd p)))
  = [("POST", server_path 4 "/backup"); ("GET", server_path 4 "/backup/download"); ("POST", server_path 4 "/import")]
  /\ w_db (snd p) = w_db connected_farm.
Proof. split; vm_compute; reflexivity. Qed.

(** Server 4 with the status its row has after provisioning. *)
Definition start_server_4 : Server := sample_server 4 9 5.

Lemma start_protocol_witness :
  let w1 := snd (start_begin start_server_4 connected_farm) in
  let w2 := snd (ignore (UpdateServerStatus 4 StatusStopped) w1) in
  exists tr w3, rtc (start_step start_server_4) (StartBegin, [], connected_farm) (StartDone, tr, w3)
    /\ length tr = 2%nat /\ exists rest c, [provision_request start_server_4 c; start_request start_server_4 c] = map fst tr ++ rest.
Proof.
  cbv zeta. set (w1 := snd (start_begin start_server_4 connected_farm)).
  set (w2 := snd (ignore (UpdateServerStatus 4 StatusStopped) w1)). set (w3 := snd (start_tick start_server_4 (farm_client 9) w2)).
  set (reqs1 := link_sent (w_link w1)). set (reqs2 := drop 1 (link_sent (w_link w3))).
  set (tr := ([] ++ map (fun r => (r, status_of start_server_4 connected_farm)) reqs1)
             ++ map (fun r => (r, status_of start_server_4 w2)) reqs2).
  assert (Hr : rtc (start_step start_server_4) (StartBegin, [], connected_farm) (StartDone, tr, w3)).
  { eapply rtc_l; [apply (step_begin _ [] connected_farm w1 (StartWaiting (farm_client 9)) reqs1); vm_compute; reflexivity|].
    eapply rtc_l; [apply step_other with (w' := w2)|].
    apply rtc_once. apply (step_tick start_server_4 (farm_client 9) _ w2 w3 StartDone reqs2); vm_compute; reflexivity. }
  exists tr, w3. split; [exact Hr|]. split; [vm_compute; reflexivity|].
  apply (start_protocol start_server_4 connected_farm w3 StartDone tr Hr).
Defined.

(** ** The data goes before the decision *)

(** A member of a server with the right to delete servers, who is not its
    owner: the node is asked to wipe the data, then the request is refused and
    the server stays. *)
Example delete_wipes_then_refuses :
  let w := with_db (with_server_members {[(4%N, 6%N) := mkServerMember "member" {["server.delete" := true]}]} (w_db connected_farm))
             connected_farm in
  let p := DeleteServerHandler (uuid_string 4) (sample_user 6 RoleUser) w in
  fst p = Ok (Err (reply_error 403 "access denied"))
  /\ map req_Method (link_sent (w_link (snd p))) = ["DELETE"] /\ is_Some (servers (w_db (snd p)) !! 4%N).
Proof. vm_compute. split_and!; try reflexivity. by eexists. Qed.
