(* ===== verification/Mods.v ===== *)
(** * Mods and plugins

    Models [services/mod_service.go], [handlers/plugins.go] and the handlers
    of [handlers/mods.go] that change state: the table [server_mods], the
    commands it sends to the nodes, and the reports of the scanner.

    [url.Parse] is the parameter [url_parse], as for the webhook addresses. *)

From stdpp Require Import base numbers list strings option gmap.
From Stdlib Require Import Ascii.
From S2P Require Import Prelude GoStrings Store Roles Platform Players Servers Net Daemon Http GameCommands ServerHandlers.

Local Open Scope Z_scope.

Definition ErrModNotFound : error := ErrNew "mod not found".
Definition ErrModURLNotAllowed : error := ErrNew "mod download URL not allowed".

Definition curseForgeCDNHosts : list string :=
  ["edge.forgecdn.net"; "mediafilez.forgecdn.net"; "media.forgecdn.net"].

(** The plugin scanner's report on one file. *)
Record DetectedPlugin := mkDetectedPlugin {
  dp_Filename : string;
  dp_PluginName : string;
  dp_Version : string;
  dp_Author : string;
  dp_Description : string;
  dp_Commands : list string;
  dp_ConfigFiles : list string;
  dp_FileHash : string;
  dp_Enabled : bool;
  dp_SourceDir : string
}.

Definition modDirs : list string := ["mods"; "plugins"].

Definition normalizeModDir (dir : string) : string := if contains modDirs dir then dir else "mods".

Record InstallModRequest := mkInstallModRequest {
  im_Filename : string;
  im_DisplayName : string;
  im_Version : string;
  im_DownloadURL : string;
  im_CFModID : option Z;
  im_CFFileID : option Z
}.

Record ModVersionSwitchRequest := mkModVersionSwitchRequest {
  mvs_FileID : Z;
  mvs_FileURL : string;
  mvs_DisplayName : string;
  mvs_Version : string
}.

(** ** The table *)

(** [WHERE server_id = $1 AND filename = $2]. *)
Definition mod_named (serverID : uuid) (filename : string) (m : ServerMod) : bool :=
  (mod_ServerID m =? serverID)%N && String.eqb (mod_Filename m) filename.

(** The row a conflict on [(server_id, mod_dir, filename)] is with. *)
Definition mod_at (serverID : uuid) (dir filename : string) (m : ServerMod) : bool :=
  mod_named serverID filename m && String.eqb (mod_ModDir m) dir.

(** [INSERT ... ON CONFLICT (server_id, mod_dir, filename) DO UPDATE]: the
    new row, or the old one under [change]. *)
Definition upsert_mod (fresh : ServerMod) (change : ServerMod -> ServerMod) (texts : list string) (d : DB)
  : res error (ServerMod * DB) :=
  if negb (forallb sql_text texts) then Err (ErrConstraint "invalid byte sequence for encoding UTF8")
  else match find_key (server_mods d) (mod_at (mod_ServerID fresh) (mod_ModDir fresh) (mod_Filename fresh)) with
  | Ok (k, m) => Ok (change m, with_server_mods (<[k := change m]> (server_mods d)) d)
  | Err _ =>
    if bool_decide (servers d !! mod_ServerID fresh = None) then Err (ErrConstraint "server_mods_server_id_fkey")
    else match insert_row (mod_ID fresh) fresh (server_mods d) with
         | Ok t => Ok (fresh, with_server_mods t d)
         | Err e => Err e
         end
  end.

(** [INSERT] alone: a row under the same key is an error. *)
Definition insert_mod (fresh : ServerMod) (texts : list string) (d : DB) : res error (ServerMod * DB) :=
  if negb (forallb sql_text texts) then Err (ErrConstraint "invalid byte sequence for encoding UTF8")
  else if bool_decide (servers d !! mod_ServerID fresh = None) then Err (ErrConstraint "server_mods_server_id_fkey")
  else match find_key (server_mods d) (mod_at (mod_ServerID fresh) (mod_ModDir fresh) (mod_Filename fresh)) with
  | Ok _ => Err (ErrConstraint "server_mods_server_id_mod_dir_filename_key")
  | Err _ => match insert_row (mod_ID fresh) fresh (server_mods d) with
             | Ok t => Ok (fresh, with_server_mods t d)
             | Err e => Err e
             end
  end.

(** [DELETE FROM server_mods WHERE server_id = $1 AND filename = $2] and the
    number of rows. *)
Definition delete_mods (serverID : uuid) (filename : string) (d : DB) : res error (nat * DB) :=
  text_param filename (Ok (count_rows (server_mods d) (mod_named serverID filename),
    with_server_mods (delete_where (mod_named serverID filename) (server_mods d)) d)).

Definition queue_command (node server : uuid) (kind : string) (payload : list (string * string)) : M unit :=
  let* id := new_uuid in
  let* t := now in
  exec (fun d => match enqueue_node_command id node server kind payload t d with
                 | Ok d' => Ok (tt, d')
                 | Err e => Err e
                 end).

Definition install_payload (dataPath filename url : string) : list (string * string) :=
  [("data_path", dataPath); ("filename", filename); ("download_url", url)].

Definition remove_payload (dataPath filename : string) : list (string * string) :=
  [("data_path", dataPath); ("filename", filename)].

Section mods.
Context `{U : Unicode} `{P : Platform} (url_parse : string -> option URL).

Definition ValidateModDownloadURL (raw callerRole : string) : res error unit :=
  match url_parse raw with
  | None => Err (ErrDetail ErrModURLNotAllowed "must be an https URL")
  | Some u =>
    if negb (String.eqb (url_Scheme u) "https") || String.eqb (url_Host u) "" || url_HasUser u
    then Err (ErrDetail ErrModURLNotAllowed "must be an https URL")
    else if is_staff callerRole then Ok tt
    else if negb (String.eqb (url_Port u) "") && negb (String.eqb (url_Port u) "443")
    then Err (ErrDetail ErrModURLNotAllowed "only CurseForge downloads are allowed")
    else if negb (contains curseForgeCDNHosts (ToLower (url_Hostname u)))
    then Err (ErrDetail ErrModURLNotAllowed "only CurseForge downloads (forgecdn.net) are allowed")
    else Ok tt
  end.

(** The columns read; the others of [models.ServerMod] stay empty. *)
Definition listed_mod (m : ServerMod) : ServerMod :=
  mkServerMod (mod_ID m) (mod_ServerID m) (mod_Filename m) (mod_DisplayName m) (mod_Version m) (mod_DownloadURL m)
    (mod_CFModID m) (mod_CFFileID m) (mod_InstalledAt m) (mod_Source m) None None None [] [] None None
    (mod_IsPresent m) (mod_ModDir m).

Definition ListMods (serverID : uuid) : M (list ServerMod) :=
  wrap "querying mods" (query (fun d =>
    Ok (map listed_mod (order_by (fun a b => mod_InstalledAt b <=? mod_InstalledAt a)
          (rows (server_mods d) (fun m => (mod_ServerID m =? serverID)%N)))))).

(** [SELECT node_id, data_path FROM servers WHERE id = $1]. *)
Definition mod_server (msg : string) (serverID : uuid) : M Server :=
  let* r := attempt (query (fun d => get_key (servers d) serverID)) in
  match r with
  | Ok s => ret s
  | Err e => if error_Is e ErrNoRows then fail ErrServerNotFound else fail (ErrWrap msg e)
  end.

Definition InstallMod (callerRole : string) (serverID : uuid) (req : InstallModRequest) : M ServerMod :=
  match ValidateModDownloadURL (im_DownloadURL req) callerRole with
  | Err e => fail e
  | Ok _ =>
    let* s := mod_server "fetching server" serverID in
    let* id := new_uuid in
    let* t := now in
    let set (m : ServerMod) :=
      mkServerMod (mod_ID m) (mod_ServerID m) (mod_Filename m) (im_DisplayName req) (im_Version req)
        (im_DownloadURL req) (im_CFModID req) (im_CFFileID req) t (mod_Source m) (mod_PluginName m)
        (mod_Author m) (mod_Description m) (mod_DetectedCommands m) (mod_ConfigFiles m) (mod_FileHash m)
        (mod_LastScannedAt m) (mod_IsPresent m) (mod_ModDir m) in
    let fresh := mkServerMod id serverID (im_Filename req) (im_DisplayName req) (im_Version req)
        (im_DownloadURL req) (im_CFModID req) (im_CFFileID req) t "manual" None None None [] [] None None true "mods" in
    let* m := wrap "inserting mod" (exec (upsert_mod fresh set
                [im_Filename req; im_DisplayName req; im_Version req; im_DownloadURL req])) in
    run* wrap "enqueuing install command" (queue_command (server_NodeID s) serverID "install_mod"
           (install_payload (server_DataPath s) (im_Filename req) (im_DownloadURL req))) in
    ret m
  end.

Definition RemoveMod (serverID : uuid) (filename : string) : M unit :=
  let* s := mod_server "fetching server" serverID in
  let* n := wrap "deleting mod" (exec (delete_mods serverID filename)) in
  if (n =? 0)%nat then fail ErrModNotFound
  else wrap "enqueuing remove command" (queue_command (server_NodeID s) serverID "remove_mod"
         (remove_payload (server_DataPath s) filename)).

(** All rows of that name are set; the directory returned is that of the
    first row. *)
Definition toggle_rows (serverID : uuid) (filename : string) (enabled : bool) (d : DB) : res error (string * DB) :=
  text_param filename
    match row (server_mods d) (mod_named serverID filename) with
    | Err e => Err e
    | Ok m => Ok (mod_ModDir m, with_server_mods
                (update_where (mod_with_IsPresent enabled) (mod_named serverID filename) (server_mods d)) d)
    end.

Definition ToggleMod (serverID : uuid) (filename : string) (enabled : bool) : M unit :=
  let* s := mod_server "toggle mod: fetch server" serverID in
  let* r := attempt (exec (toggle_rows serverID filename enabled)) in
  match r with
  | Err e => if error_Is e ErrNoRows then fail ErrModNotFound else fail (ErrWrap "toggle mod: update" e)
  | Ok modDir =>
    let cmdType := if enabled then "enable_mod" else "disable_mod" in
    wrap ("toggle mod: enqueue " +:+ cmdType) (queue_command (server_NodeID s) serverID cmdType
      [("data_path", server_DataPath s); ("filename", filename); ("dir", normalizeModDir modDir)])
  end.

Definition SwitchModVersion (callerRole : string) (serverID : uuid) (oldFilename : string)
    (req : ModVersionSwitchRequest) : M unit :=
  match ValidateModDownloadURL (mvs_FileURL req) callerRole with
  | Err e => fail e
  | Ok _ =>
    let* s := wrap "switch mod version: fetch server" (query (fun d => get_key (servers d) serverID)) in
    tx "switch mod version: begin tx" id (
      run* wrap "switch mod version: delete old" (exec (delete_mods serverID oldFilename)) in
      run* wrap "switch mod version: enqueue remove" (queue_command (server_NodeID s) serverID "remove_mod"
             (remove_payload (server_DataPath s) oldFilename)) in
      let newFilename := path_Base (match url_parse (mvs_FileURL req) with Some u => url_Path u | None => "" end) in
      let* id := new_uuid in
      let* t := now in
      run* wrap "switch mod version: insert new mod" (exec (insert_mod
             (mkServerMod id serverID newFilename (mvs_DisplayName req) (mvs_Version req) (mvs_FileURL req)
                None (Some (mvs_FileID req)) t "curseforge" None None None [] [] None None true "mods")
             [newFilename; mvs_DisplayName req; mvs_Version req; mvs_FileURL req])) in
      wrap "switch mod version: enqueue install" (queue_command (server_NodeID s) serverID "install_mod"
        (install_payload (server_DataPath s) newFilename (mvs_FileURL req))))
  end.

Definition ServerNode (serverID : uuid) : M uuid :=
  let* s := mod_server "fetching server node" serverID in ret (server_NodeID s).

Definition RecordUpload (serverID : uuid) (filename displayName : string) : M unit :=
  let* id := new_uuid in
  let* t := now in
  let set (m : ServerMod) :=
    mkServerMod (mod_ID m) (mod_ServerID m) (mod_Filename m) displayName (mod_Version m)
      (mod_DownloadURL m) (mod_CFModID m) (mod_CFFileID m) t "custom" (mod_PluginName m)
      (mod_Author m) (mod_Description m) (mod_DetectedCommands m) (mod_ConfigFiles m) (mod_FileHash m)
      (mod_LastScannedAt m) true (mod_ModDir m) in
  run* wrap "upload mod: insert record" (exec (upsert_mod
         (mkServerMod id serverID filename displayName "" "" None None t "custom" None None None [] [] None None
            true "mods") set [filename; displayName])) in
  ret tt.

(** ** Reports of the scanner *)

Definition is_detected (serverID : uuid) (m : ServerMod) : bool :=
  (mod_ServerID m =? serverID)%N && String.eqb (mod_Source m) "detected".

Definition detected_row (id serverID : uuid) (t : Z) (p : DetectedPlugin) : ServerMod :=
  mkServerMod id serverID (dp_Filename p) (dp_PluginName p) (dp_Version p) "" None None t "detected"
    (Some (dp_PluginName p)) (Some (dp_Author p)) (Some (dp_Description p)) (dp_Commands p) (dp_ConfigFiles p)
    (Some (dp_FileHash p)) (Some t) (dp_Enabled p) (normalizeModDir (dp_SourceDir p)).

Definition redetect (t : Z) (p : DetectedPlugin) (m : ServerMod) : ServerMod :=
  mkServerMod (mod_ID m) (mod_ServerID m) (mod_Filename m) (dp_PluginName p) (dp_Version p)
    (mod_DownloadURL m) (mod_CFModID m) (mod_CFFileID m) (mod_InstalledAt m) "detected" (Some (dp_PluginName p))
    (Some (dp_Author p)) (Some (dp_Description p)) (dp_Commands p) (dp_ConfigFiles p) (Some (dp_FileHash p))
    (Some t) (dp_Enabled p) (normalizeModDir (dp_SourceDir p)).

Definition plugin_texts (p : DetectedPlugin) : list string :=
  [dp_Filename p; dp_PluginName p; dp_Version p; dp_Author p; dp_Description p; dp_FileHash p]
  ++ dp_Commands p ++ dp_ConfigFiles p.

(** [ON CONFLICT DO NOTHING]: the table has no key but its id. *)
Definition plugin_command (serverID : uuid) (pluginName cmd : string) : M unit :=
  let* id := new_uuid in
  let* t := now in
  ignore (exec (insert_command (mkGameCommand id (Some serverID) "Plugin Commands" cmd
    ("Command from " +:+ pluginName) cmd "plug" (JArr []) 99 false "moderator" t "plugin" (Some pluginName)))).

Fixpoint plugin_commands (serverID : uuid) (pluginName : string) (cmds : list string) : M unit :=
  match cmds with
  | [] => ret tt
  | cmd :: cmds' => run* plugin_command serverID pluginName cmd in plugin_commands serverID pluginName cmds'
  end.

Fixpoint sync_plugins (serverID : uuid) (plugins : list DetectedPlugin) : M unit :=
  match plugins with
  | [] => ret tt
  | p :: plugins' =>
    let* id := new_uuid in
    let* t := now in
    run* wrap ("upserting plugin " +:+ dp_Filename p)
           (exec (upsert_mod (detected_row id serverID t p) (redetect t p) (plugin_texts p))) in
    run* plugin_commands serverID (dp_PluginName p) (dp_Commands p) in
    sync_plugins serverID plugins'
  end.

Definition mark_absent (serverID : uuid) (d : DB) : DB :=
  with_server_mods (update_where (mod_with_IsPresent false) (is_detected serverID) (server_mods d)) d.

Definition SyncDetectedPlugins (serverID : uuid) (plugins : list DetectedPlugin) : M unit :=
  run* wrap "marking plugins absent" (exec (fun d => Ok (tt, mark_absent serverID d))) in
  sync_plugins serverID plugins.
End mods.

(** ** Handlers *)

Section mod_handlers.
Context `{U : Unicode} `{P : Platform} `{J : DaemonJson} (url_parse : string -> option URL).

Definition with_id {A} (idParam : string) (k : uuid -> M (res Reply A)) : M (res Reply A) :=
  match uuid_parse idParam with
  | None => refuse 400 "invalid ID format"
  | Some serverID => k serverID
  end.

(** A service error as an answer: the known errors, then the default. *)
Definition mod_failure (e : error) (table : list (error * Reply)) (default : Reply) : Reply :=
  match List.find (fun kv => error_Is e (fst kv)) table with
  | Some (_, r) => r
  | None => default
  end.

Definition ListModsHandler (idParam : string) : M (res Reply (list ServerMod)) :=
  with_id idParam (fun serverID =>
    let* r := attempt (ListMods serverID) in
    match r with Err _ => refuse 500 "could not list mods" | Ok l => ret (Ok l) end).

Definition InstallModHandler (idParam : string) (caller : User) (body : res string InstallModRequest)
  : M (res Reply ServerMod) :=
  with_id idParam (fun serverID => with_body body (fun req =>
    let* r := attempt (InstallMod url_parse (user_Role caller) serverID req) in
    ret match r with
        | Ok m => Ok m
        | Err e => Err (mod_failure e [(ErrModURLNotAllowed, reply_error 400 (error_Error e));
                                       (ErrServerNotFound, reply_error 404 "server not found")]
                          (reply_error 500 (error_Error e)))
        end)).

Definition RemoveModHandler (idParam filename : string) : M (res Reply unit) :=
  with_id idParam (fun serverID =>
    if String.eqb filename "" then refuse 400 "filename is required"
    else
      let* r := attempt (RemoveMod serverID filename) in
      ret match r with
          | Ok _ => Ok tt
          | Err e => Err (mod_failure e [(ErrModNotFound, reply_error 404 "mod not found");
                                         (ErrServerNotFound, reply_error 404 "server not found")]
                            (reply_error 500 (error_Error e)))
          end).

(** [ToggleMod] of mods.go and [TogglePlugin] of plugins.go, which differ in a
    word. *)
Definition toggle_handler (what idParam filename : string) (body : res string bool) : M (res Reply unit) :=
  with_id idParam (fun serverID =>
    if String.eqb filename "" then refuse 400 "filename required"
    else with_body body (fun enabled =>
      let* r := attempt (ToggleMod serverID filename enabled) in
      ret match r with
          | Ok _ => Ok tt
          | Err e => Err (mod_failure e [(ErrModNotFound, reply_error 404 (what +:+ " not found"));
                                         (ErrServerNotFound, reply_error 404 "server not found")]
                            (reply_error 500 "toggle failed"))
          end)).

Definition ToggleModHandler := toggle_handler "mod".
Definition TogglePlugin := toggle_handler "plugin".

Definition SwitchModVersionHandler (idParam filename : string) (caller : User)
    (body : res string ModVersionSwitchRequest) : M (res Reply unit) :=
  with_id idParam (fun serverID => with_body body (fun req =>
    if String.eqb (mvs_FileURL req) "" then refuse 400 "file_url required"
    else
      let* r := attempt (SwitchModVersion url_parse (user_Role caller) serverID filename req) in
      ret match r with
          | Ok _ => Ok tt
          | Err e => Err (mod_failure e [(ErrModURLNotAllowed, reply_error 400 (error_Error e))]
                            (reply_error 500 "switch failed"))
          end)).

(** [file]: the name and the content of the part of the form; the result is
    the name and the display name. *)
Definition UploadMod (idParam : string) (file : option (string * string)) (display_name : string)
  : M (res Reply (string * string)) :=
  with_id idParam (fun serverID =>
    match file with
    | None => refuse 400 "file field is required"
    | Some (name, data) =>
      let filename := path_Base name in
      if String.eqb filename "" || String.eqb filename "." || String.eqb filename ".."
      then refuse 400 "invalid filename"
      else
        let displayName := if String.eqb display_name "" then filename else display_name in
        let* r := attempt (ServerNode serverID) in
        match r with
        | Err e => if error_Is e ErrServerNotFound then refuse 404 "server not found" else refuse 500 "upload failed"
        | Ok nodeID =>
          let* c := pool_Get nodeID in
          match c with
          | Err _ => refuse 502 "daemon not connected"
          | Ok client =>
            let* _ := client_CreateDirectory client serverID "mods" in
            let* u := client_UploadFile client serverID "mods" filename data in
            match u with
            | Err _ => refuse 502 "failed to upload mod to daemon"
            | Ok _ =>
              let* r := attempt (RecordUpload serverID filename displayName) in
              match r with
              | Err _ => refuse 500 "upload failed"
              | Ok _ => ret (Ok (filename, displayName))
              end
            end
          end
        end
    end).

(** The result is the number of plugins taken over. *)
Definition DaemonPluginReport (idParam : string) (nodeID : option string) (body : res string (list DetectedPlugin))
  : M (res Reply nat) :=
  callback idParam nodeID (fun serverID => with_body body (fun plugins =>
    let* r := attempt (SyncDetectedPlugins serverID plugins) in
    match r with
    | Err _ => refuse 500 "failed to sync plugins"
    | Ok _ => ret (Ok (length plugins))
    end)).

Definition ListPlugins (idParam : string) : M (res Reply (list ServerMod)) :=
  with_id idParam (fun serverID =>
    let* r := attempt (ListMods serverID) in
    match r with
    | Err _ => refuse 500 "could not list plugins"
    | Ok mods => ret (Ok (List.filter (fun m => String.eqb (mod_ModDir m) "plugins") mods))
    end).
End mod_handlers.

(** ** Theorems: what is sent to the nodes *)

Section sent.
Context `{U : Unicode} `{P : Platform} (url_parse : string -> option URL).

(** A download a caller of that role may have fetched. *)
Definition url_allowed (role raw : string) : Prop :=
  exists u, url_parse raw = Some u /\ url_Scheme u = "https" /\ url_Host u <> "" /\ url_HasUser u = false
    /\ (is_staff role = false ->
        ToLower (url_Hostname u) ∈ curseForgeCDNHosts /\ (url_Port u = "" \/ url_Port u = "443")).

Lemma ValidateModDownloadURL_ok raw role :
  ValidateModDownloadURL url_parse raw role = Ok tt <-> url_allowed role raw.
Proof.
  unfold ValidateModDownloadURL, url_allowed. split.
  - destruct (url_parse raw) as [u|]; [|done]. intros H. exists u. split; [done|].
    destruct (String.eqb_spec (url_Scheme u) "https"); [|done].
    destruct (String.eqb_spec (url_Host u) ""); [done|]. destruct (url_HasUser u); [done|]. simpl in H.
    split_and!; [done..|]. intros Hs. rewrite Hs in H.
    destruct (String.eqb_spec (url_Port u) ""), (String.eqb_spec (url_Port u) "443"); simpl in H; try done;
      (destruct (contains _ _) eqn:E; [|done]); apply contains_spec in E; auto.
  - intros (u & -> & -> & Hh%String.eqb_neq & Hu & Hr). rewrite Hh, Hu. simpl.
    destruct (is_staff role); [done|]. destruct (Hr eq_refl) as [Hin%contains_spec Hp]. rewrite Hin.
    destruct Hp as [-> | ->]; done.
Qed.

(** The commands these operations may add, for a server of [svs]. *)
Definition mod_command_ok (role : string) (sid : uuid) (svs : gmap uuid Server) (c : NodeCommand) : Prop :=
  ncmd_ServerID c = Some sid
  /\ exists s, svs !! sid = Some s /\ ncmd_NodeID c = server_NodeID s
  /\ ((exists f url, ncmd_CommandType c = "install_mod" /\ url_allowed role url
         /\ ncmd_Payload c = install_payload (server_DataPath s) f url)
      \/ (exists f, ncmd_CommandType c = "remove_mod" /\ ncmd_Payload c = remove_payload (server_DataPath s) f)
      \/ (exists f dir, ncmd_CommandType c ∈ ["enable_mod"; "disable_mod"] /\ dir ∈ modDirs
         /\ ncmd_Payload c = [("data_path", server_DataPath s); ("filename", f); ("dir", dir)])).

(** Since [d0], only such commands were added. *)
Definition only_mod_commands (role : string) (sid : uuid) (d0 d : DB) : Prop :=
  servers d = servers d0
  /\ exists cs, node_commands d = node_commands d0 ++ cs /\ Forall (mod_command_ok role sid (servers d0)) cs.

Section inv.
Context (role : string) (sid : uuid) (d0 : DB).
Local Abbreviation I := (only_mod_commands role sid d0).

Lemma mod_server_preserves msg : preserves I (mod_server msg sid).
Proof. unfold mod_server. solve_preserves. Qed.

Lemma mod_server_found msg w s w' :
  I (w_db w) -> mod_server msg sid w = (Ok s, w') -> servers d0 !! sid = Some s.
Proof.
  intros [Hsv _] (r & w1 & (r' & [= ->] & Hr)%attempt_inv & H)%bind_ok.
  destruct r' as [s'|e]; [|destruct (error_Is e ErrNoRows); by apply fail_inv in H as [? _]].
  apply ret_inv in H as [[= ->] _]. apply query_ok in Hr as [Hr _]. unfold get_key in Hr. rewrite Hsv in Hr.
  destruct (servers d0 !! sid); [|done]. by injection Hr as ->.
Qed.

Lemma queue_command_preserves s kind payload :
  servers d0 !! sid = Some s ->
  (forall id t, mod_command_ok role sid (servers d0)
     (mkNodeCommand id (server_NodeID s) (Some sid) kind payload "pending" t None)) ->
  preserves I (queue_command (server_NodeID s) sid kind payload).
Proof.
  intros Hs Hok. unfold queue_command. solve_preserves. apply preserves_exec.
  intros d u d' [Hsv (cs & Hc & Hcs)]. unfold enqueue_node_command. case_ifs; intros [= _ <-].
  split; [done|]. simpl. rewrite Hc, <- app_assoc. eexists. split; [reflexivity|].
  apply Forall_app. split; [done|]. by constructor.
Qed.

Lemma mods_exec_preserves {A} (f : DB -> res error (A * DB)) :
  (forall d a d', f d = Ok (a, d') -> servers d' = servers d /\ node_commands d' = node_commands d) ->
  preserves I (exec f).
Proof.
  intros Hf. apply preserves_exec. intros d a d' [Hsv (cs & Hc & Hcs)] [E1 E2]%Hf.
  split; [congruence|]. exists cs. split; [congruence | done].
Qed.
End inv.

Lemma upsert_mod_frame fresh change texts d a d' :
  upsert_mod fresh change texts d = Ok (a, d') -> servers d' = servers d /\ node_commands d' = node_commands d.
Proof.
  unfold upsert_mod. destruct (negb _); [done|]. destruct (find_key _ _) as [[k m]|e].
  - by intros [= _ <-].
  - destruct (bool_decide _); [done|]. destruct (insert_row _ _ _); [|done]. by intros [= _ <-].
Qed.

Lemma insert_mod_frame fresh texts d a d' :
  insert_mod fresh texts d = Ok (a, d') -> servers d' = servers d /\ node_commands d' = node_commands d.
Proof.
  unfold insert_mod. destruct (negb _); [done|]. destruct (bool_decide _); [done|].
  destruct (find_key _ _); [done|]. destruct (insert_row _ _ _); [|done]. by intros [= _ <-].
Qed.

Lemma delete_mods_frame sid f d a d' :
  delete_mods sid f d = Ok (a, d') -> servers d' = servers d /\ node_commands d' = node_commands d.
Proof. unfold delete_mods, text_param. case_ifs; by intros [= _ <-]. Qed.

Lemma toggle_rows_frame sid f b d a d' :
  toggle_rows sid f b d = Ok (a, d') -> servers d' = servers d /\ node_commands d' = node_commands d.
Proof. unfold toggle_rows, text_param. destruct (sql_text f); [|done]. destruct (row _ _); [|done]. by intros [= _ <-]. Qed.

Lemma insert_command_frame c d a d' :
  insert_command c d = Ok (a, d') -> servers d' = servers d /\ node_commands d' = node_commands d.
Proof.
  unfold insert_command. case_ifs; try done; destruct (insert_row _ _ _); try done; by intros [= _ <-].
Qed.

Lemma normalizeModDir_listed dir : normalizeModDir dir ∈ modDirs.
Proof. unfold normalizeModDir. destruct (contains _ _) eqn:E; [by apply contains_spec | left]. Qed.

(** The operations of this file, for a caller of role [role] on the server
    [sid]. *)
Inductive mod_op (role : string) (sid : uuid) : forall {A : Type}, M A -> Prop :=
| op_install req : mod_op role sid (InstallMod url_parse role sid req)
| op_remove f : mod_op role sid (RemoveMod sid f)
| op_toggle f b : mod_op role sid (ToggleMod sid f b)
| op_switch f req : mod_op role sid (SwitchModVersion url_parse role sid f req)
| op_upload f n : mod_op role sid (RecordUpload sid f n)
| op_sync l : mod_op role sid (SyncDetectedPlugins sid l).

Lemma queue_install_preserves role sid d0 s f url :
  servers d0 !! sid = Some s -> url_allowed role url ->
  preserves (only_mod_commands role sid d0)
    (queue_command (server_NodeID s) sid "install_mod" (install_payload (server_DataPath s) f url)).
Proof.
  intros Hs Hu. apply queue_command_preserves; [done|]. intros id t. split; [done|]. exists s.
  split_and!; [done | done|]. left. eauto.
Qed.

Lemma queue_remove_preserves role sid d0 s f :
  servers d0 !! sid = Some s ->
  preserves (only_mod_commands role sid d0)
    (queue_command (server_NodeID s) sid "remove_mod" (remove_payload (server_DataPath s) f)).
Proof.
  intros Hs. apply queue_command_preserves; [done|]. intros id t. split; [done|]. exists s.
  split_and!; [done | done|]. right; left. eauto.
Qed.

Lemma sync_preserves role sid d0 l : preserves (only_mod_commands role sid d0) (SyncDetectedPlugins sid l).
Proof.
  unfold SyncDetectedPlugins. solve_preserves; [apply mods_exec_preserves; by intros d a d' [= _ <-]|].
  induction l as [|p l IH]; simpl; solve_preserves; [apply mods_exec_preserves, upsert_mod_frame| |exact IH].
  induction (dp_Commands p) as [|cmd cmds IHc]; simpl; unfold plugin_command; solve_preserves; [|exact IHc].
  apply mods_exec_preserves, insert_command_frame.
Qed.

Lemma mod_op_preserves role sid d0 {A} (m : M A) :
  mod_op role sid m -> preserves (only_mod_commands role sid d0) m.
Proof.
  destruct 1.
  - unfold InstallMod. destruct (ValidateModDownloadURL _ _ _) as [[]|e] eqn:E; [|solve_preserves].
    apply ValidateModDownloadURL_ok in E.
    eapply preserves_bind_inv; [apply mod_server_found | apply mod_server_preserves|]. intros s Hs.
    solve_preserves; [apply mods_exec_preserves, upsert_mod_frame | by apply queue_install_preserves].
  - unfold RemoveMod.
    eapply preserves_bind_inv; [apply mod_server_found | apply mod_server_preserves|]. intros s Hs.
    solve_preserves; [apply mods_exec_preserves, delete_mods_frame | by apply queue_remove_preserves].
  - unfold ToggleMod.
    eapply preserves_bind_inv; [apply mod_server_found | apply mod_server_preserves|]. intros s Hs.
    solve_preserves; [apply mods_exec_preserves, toggle_rows_frame|].
    destruct b;
      (apply queue_command_preserves; [done|]; intros id t; split; [done|]; exists s; split_and!; [done | done|];
       right; right; eexists _, _; split_and!; [|apply normalizeModDir_listed | done]; apply contains_spec; by vm_compute).
  - unfold SwitchModVersion. destruct (ValidateModDownloadURL _ _ _) as [[]|e] eqn:E; [|solve_preserves].
    apply ValidateModDownloadURL_ok in E.
    eapply (preserves_bind_inv _ (fun s => servers d0 !! sid = Some s)); [|solve_preserves|].
    { intros w s w' [Hsv _] [Hq _]%wrap_ok%query_ok. unfold get_key in Hq. rewrite Hsv in Hq.
      destruct (servers d0 !! sid); [|done]. by injection Hq as ->. }
    intros s Hs. solve_preserves; [apply mods_exec_preserves, delete_mods_frame | by apply queue_remove_preserves
      | apply mods_exec_preserves, insert_mod_frame | by apply queue_install_preserves].
  - unfold RecordUpload. solve_preserves. apply mods_exec_preserves, upsert_mod_frame.
  - apply sync_preserves.
Qed.

(** Whatever these operations do, succeed or fail, they leave the queued
    commands and the servers as they are and add only commands for the server
    in question, to the node that hosts it and with its data directory; a
    directory named in one is [mods] or [plugins], and a download goes to an
    https address without credentials, which for a caller who is not staff is
    a CurseForge host on the default port. *)
Theorem mod_commands_confined (role : string) (sid : uuid) {A} (m : M A) (w : World) :
  mod_op role sid m -> only_mod_commands role sid (w_db w) (w_db (snd (m w))).
Proof.
  intros Hm. apply (mod_op_preserves role sid (w_db w) m Hm w). split; [done|].
  exists []. by rewrite app_nil_r.
Qed.
End sent.

(** ** Theorems: the reports of the scanner *)

Section sync.
Context `{U : Unicode} `{P : Platform}.

(** The report names the file of that row. *)
Definition reported (serverID : uuid) (plugins : list DetectedPlugin) (m : ServerMod) : bool :=
  existsb (fun p => mod_at serverID (normalizeModDir (dp_SourceDir p)) (dp_Filename p) m) plugins.

(** The row says what the scanner said of [p]. *)
Definition reflects (serverID : uuid) (p : DetectedPlugin) (m : ServerMod) : Prop :=
  mod_at serverID (normalizeModDir (dp_SourceDir p)) (dp_Filename p) m = true
  /\ mod_IsPresent m = dp_Enabled p /\ mod_Source m = "detected" /\ mod_Version m = dp_Version p
  /\ mod_PluginName m = Some (dp_PluginName p) /\ mod_FileHash m = Some (dp_FileHash p)
  /\ mod_DetectedCommands m = dp_Commands p /\ mod_ConfigFiles m = dp_ConfigFiles p.

Lemma plugin_commands_mods sid n cmds w r w' :
  plugin_commands sid n cmds w = (r, w') -> server_mods (w_db w') = server_mods (w_db w).
Proof.
  intros H. assert (Hp : forall t, preserves (fun d => server_mods d = t) (plugin_commands sid n cmds)).
  { intros t. clear. induction cmds as [|c cmds IH]; simpl; unfold plugin_command; solve_preserves; [|exact IH].
    apply preserves_exec. intros d c' d' <-. unfold insert_command.
    case_ifs; try done; destruct (insert_row _ _ _); try done; by intros [= _ <-]. }
  specialize (Hp _ w eq_refl). by rewrite H in Hp.
Qed.

Lemma upsert_mod_spec fresh change texts d a d' :
  upsert_mod fresh change texts d = Ok (a, d') ->
  exists k, server_mods d' = <[k := a]> (server_mods d)
    /\ (forall m, server_mods d !! k = Some m ->
          mod_at (mod_ServerID fresh) (mod_ModDir fresh) (mod_Filename fresh) m = true)
    /\ (a = fresh \/ exists m, a = change m
          /\ mod_at (mod_ServerID fresh) (mod_ModDir fresh) (mod_Filename fresh) m = true).
Proof.
  unfold upsert_mod. destruct (negb _); [done|]. destruct (find_key _ _) as [[k m]|e] eqn:Ef.
  - intros [= <- <-]. apply find_key_ok in Ef as [Hk Hm]. exists k. split_and!; [done | |eauto].
    intros m'. rewrite Hk. by intros [= <-].
  - destruct (bool_decide _); [done|]. destruct (insert_row _ _ _) as [t|] eqn:Ei; [|done]. intros [= <- <-].
    apply insert_row_ok in Ei as [Hn ->]. exists (mod_ID fresh). split_and!; [done | |by left].
    intros m. by rewrite Hn.
Qed.

Lemma mod_at_iff sid dir f m :
  mod_at sid dir f m = true <-> mod_ServerID m = sid /\ mod_Filename m = f /\ mod_ModDir m = dir.
Proof.
  unfold mod_at, mod_named. rewrite !andb_true_iff, N.eqb_eq, !String.eqb_eq. tauto.
Qed.

Lemma detected_reflects id sid t p : reflects sid p (detected_row id sid t p).
Proof. split; [by apply mod_at_iff | done]. Qed.

Lemma redetect_reflects sid t p m :
  mod_at sid (normalizeModDir (dp_SourceDir p)) (dp_Filename p) m = true -> reflects sid p (redetect t p m).
Proof. intros (H1 & H2 & H3)%mod_at_iff. split; [by apply mod_at_iff | done]. Qed.

Lemma sync_plugins_spec sid plugins w w' :
  sync_plugins sid plugins w = (Ok tt, w') ->
  (forall k m, server_mods (w_db w) !! k = Some m -> reported sid plugins m = false ->
     server_mods (w_db w') !! k = Some m)
  /\ (forall l1 p l2, plugins = l1 ++ p :: l2 ->
        existsb (fun q => String.eqb (normalizeModDir (dp_SourceDir q)) (normalizeModDir (dp_SourceDir p))
                          && String.eqb (dp_Filename q) (dp_Filename p)) l2 = false ->
        exists k m, server_mods (w_db w') !! k = Some m /\ reflects sid p m).
Proof.
  revert w. induction plugins as [|p ps IH]; intros w H.
  { apply ret_inv in H as [_ ->]. split; [done|]. by intros [] ? ?. }
  simpl in H. apply bind_ok in H as (id & w1 & (_ & Hd1 & _)%rand_inv & H).
  apply bind_ok in H as (t & w2 & [_ ->]%now_inv & H).
  apply bind_ok in H as (a & w3 & Hu%wrap_ok%exec_ok & H).
  apply bind_ok in H as (u & w4 & Hc%plugin_commands_mods & H).
  rewrite Hd1 in Hu. apply upsert_mod_spec in Hu as (k0 & Hm3 & Hold & Ha).
  assert (Hr : reflects sid p a).
  { destruct Ha as [->|(m & -> & Hm)]; [apply detected_reflects | by apply redetect_reflects]. }
  rewrite Hm3 in Hc. apply IH in H as [Hkeep Hrep]. rewrite Hc in Hkeep. split.
  - intros k m Hk [Hp Hps]%orb_false_iff. apply Hkeep; [|done].
    rewrite lookup_insert_ne; [done|]. intros ->. apply Hold in Hk. simpl in Hk. congruence.
  - intros [|p0 l1] p' l2 [= -> ->] Hl; [|by eapply Hrep].
    exists k0, a. split; [|done]. apply Hkeep; [by rewrite lookup_insert_eq|].
    destruct Hr as [(Hs & Hf & Hdir)%mod_at_iff _]. unfold reported. apply not_true_iff_false.
    intros (q & Hq & (_ & Hf' & Hdir')%mod_at_iff)%existsb_elem. apply not_true_iff_false in Hl. apply Hl.
    apply existsb_elem. exists q. split; [done|]. rewrite <- Hf', <- Hdir', Hf, Hdir, !String.eqb_refl. done.
Qed.

(** A report that is taken over is what the table says afterwards: the
    last entry on a file decides its row, present exactly if the file is
    enabled; a row of that server that the report does not name keeps all its
    columns, except that a detected one is marked absent; rows of other
    servers are untouched. *)
Theorem plugin_report_taken_over (sid : uuid) (plugins : list DetectedPlugin) (w w' : World) :
  SyncDetectedPlugins sid plugins w = (Ok tt, w') ->
  (forall l1 p l2, plugins = l1 ++ p :: l2 ->
     existsb (fun q => String.eqb (normalizeModDir (dp_SourceDir q)) (normalizeModDir (dp_SourceDir p))
                       && String.eqb (dp_Filename q) (dp_Filename p)) l2 = false ->
     exists k m, server_mods (w_db w') !! k = Some m /\ reflects sid p m)
  /\ (forall k m, server_mods (w_db w) !! k = Some m -> reported sid plugins m = false ->
        server_mods (w_db w') !! k = Some (if is_detected sid m then mod_with_IsPresent false m else m))
  /\ (forall k m, server_mods (w_db w) !! k = Some m -> mod_ServerID m <> sid ->
        server_mods (w_db w') !! k = Some m).
Proof.
  intros (u & w1 & Hm%wrap_ok%exec_ok & H)%bind_ok. apply sync_plugins_spec in H as [Hkeep Hrep].
  injection Hm as _ Hm. rewrite <- Hm in Hkeep. unfold mark_absent in Hkeep. simpl in Hkeep.
  assert (H2 : forall k m, server_mods (w_db w) !! k = Some m -> reported sid plugins m = false ->
     server_mods (w_db w') !! k = Some (if is_detected sid m then mod_with_IsPresent false m else m)).
  { intros k m Hk Hr. apply Hkeep; [by rewrite lookup_update_where, Hk|].
    destruct (is_detected sid m); [|done]. exact Hr. }
  split_and!; [done | done|]. intros k m Hk Hne.
  assert (Hr : reported sid plugins m = false).
  { apply not_true_iff_false. intros (p & _ & (Hs & _)%mod_at_iff)%existsb_elem. done. }
  rewrite (H2 k m Hk Hr). unfold is_detected. apply N.eqb_neq in Hne. by rewrite Hne.
Qed.
End sync.

(** ** Theorem: switching a version *)

Section switch.
Context `{U : Unicode} `{P : Platform} (url_parse : string -> option URL).

Lemma queue_command_ok node sid kind payload w u w' :
  queue_command node sid kind payload w = (Ok u, w') ->
  w_now w' = w_now w /\ exists id, w_db w' = with_node_commands (node_commands (w_db w) ++
    [mkNodeCommand id node (Some sid) kind payload "pending" (w_now w) None]) (w_db w).
Proof.
  intros (id & w1 & (_ & Hd1 & Hn1 & _)%rand_inv & H)%bind_ok.
  apply bind_ok in H as (t & w2 & [[= ->] ->]%now_inv & H).
  pose proof H as (Hn & _)%exec_inv. apply exec_ok in H. split; [congruence|]. exists id.
  unfold enqueue_node_command in H. rewrite Hd1, Hn1 in H. case_ifs; by simplify_eq.
Qed.

(** C26. A version switch happens as a whole or not at all: if it fails, the
    database is as before; if it succeeds, every row of the old name is gone,
    the new row stands, and the removal of the old file and the installation
    of the new one are queued in this order, at the same time. *)
Theorem switch_atomic (role : string) (sid : uuid) (old : string) (req : ModVersionSwitchRequest)
    (r : res error unit) (w w' : World) :
  SwitchModVersion url_parse role sid old req w = (r, w') ->
  (exists e, r = Err e /\ w_db w' = w_db w)
  \/ (r = Ok tt /\ exists s u id1 id2 id3 t,
        servers (w_db w) !! sid = Some s /\ url_parse (mvs_FileURL req) = Some u
        /\ let new := path_Base (url_Path u) in
           (forall m, m ∈ map snd (map_to_list (server_mods (w_db w'))) -> mod_named sid old m = true -> new = old)
           /\ (exists m, server_mods (w_db w') !! id2 = Some m /\ mod_named sid new m = true
                 /\ mod_IsPresent m = true /\ mod_DownloadURL m = mvs_FileURL req)
           /\ node_commands (w_db w') = node_commands (w_db w) ++
                [mkNodeCommand id1 (server_NodeID s) (Some sid) "remove_mod"
                   (remove_payload (server_DataPath s) old) "pending" t None;
                 mkNodeCommand id3 (server_NodeID s) (Some sid) "install_mod"
                   (install_payload (server_DataPath s) new (mvs_FileURL req)) "pending" t None]).
Proof.
  unfold SwitchModVersion. destruct (ValidateModDownloadURL _ _ _) as [[]|e] eqn:Ev.
  2:{ intros [-> ->]%fail_inv. left. eauto. }
  apply ValidateModDownloadURL_ok in Ev as (u & Hu & _).
  intros [(s & w1 & Hs%wrap_ok & H)|(e & H & ->)]%bind_inv.
  2:{ apply wrap_inv in H as [(? & ? & _)|(e' & [= ->] & H)]; [done|].
      apply query_inv in H as (Hd & _). left. eauto. }
  apply query_ok in Hs as [Hs Hd1]. unfold get_key in Hs.
  destruct (servers (w_db w) !! sid) as [s'|] eqn:Es; [|done]. injection Hs as ->.
  apply tx_inv in H as [([] & -> & w2 & w3 & H & Hd2 & _ & Hd')|(e & -> & Hd')]; [|left; exists e; split; congruence].
  right. split; [done|]. rewrite Hu in H. cbv zeta in H.
  apply bind_ok in H as (n & w4 & Hdel%wrap_ok & H). pose proof Hdel as (Hn4 & _)%exec_inv. apply exec_ok in Hdel.
  apply bind_ok in H as ([] & w5 & Hq1%wrap_ok & H). apply queue_command_ok in Hq1 as (Hn5 & id1 & Hq1).
  apply bind_ok in H as (id2 & w6 & (_ & Hd6 & Hn6 & _)%rand_inv & H).
  apply bind_ok in H as (t & w7 & [[= ->] ->]%now_inv & H).
  apply bind_ok in H as (m & w8 & Hins%wrap_ok & H). pose proof Hins as (Hn8 & _)%exec_inv. apply exec_ok in Hins.
  apply wrap_ok, queue_command_ok in H as (_ & id3 & Hq2).
  exists s, u, id1, id2, id3, (w_now w4). split; [done|]. split; [done|]. cbv zeta.
  unfold delete_mods, text_param in Hdel. destruct (sql_text old); [|done]. injection Hdel as _ Hdel.
  rewrite Hd6, Hq1, <- Hdel in Hins. unfold insert_mod in Hins.
  destruct (negb _); [done|]. destruct (bool_decide _); [done|]. destruct (find_key _ _) as [?|?]; [done|].
  destruct (insert_row _ _ _) as [tbl|] eqn:Ei; [|done]. injection Hins as _ Hins.
  apply insert_row_ok in Ei as [Hfresh ->]. rewrite Hd', Hq2, <- Hins. simpl in *. split_and!.
  - intros m0 (kv & -> & Hin)%list_elem_of_fmap Hm0. destruct kv as [k m1]. apply elem_of_map_to_list in Hin.
    simpl in Hm0. destruct (decide (k = id2)) as [->|Hne]; simpl in Hin.
    + rewrite lookup_insert_eq in Hin. injection Hin as <-. unfold mod_named in Hm0. simpl in Hm0.
      apply andb_true_iff in Hm0 as [_ Hm0]. by apply String.eqb_eq in Hm0.
    + rewrite lookup_insert_ne in Hin by done. apply lookup_delete_where in Hin as [_ Hin]. congruence.
  - eexists. rewrite lookup_insert_eq. split_and!; [reflexivity | | done | done].
    unfold mod_named. simpl. by rewrite N.eqb_refl, String.eqb_refl.
  - rewrite <- app_assoc. simpl. rewrite Hd2, Hd1.
    replace (w_now w8) with (w_now w4) by congruence. reflexivity.
Qed.
End switch.

(** ** Witnesses *)

Definition cdn_parse (raw : string) : option URL :=
  if String.eqb raw "https://edge.forgecdn.net/files/1/Map.jar"
  then Some (mkURL "https" false "edge.forgecdn.net" "" "/files/1/Map.jar" "edge.forgecdn.net" "/files/1/Map.jar")
  else None.

Definition map_request : InstallModRequest :=
  mkInstallModRequest "Map.jar" "Map" "1.0" "https://edge.forgecdn.net/files/1/Map.jar" None None.

Definition map_switch : ModVersionSwitchRequest :=
  mkModVersionSwitchRequest 1 "https://edge.forgecdn.net/files/1/Map.jar" "Map" "1.1".

Definition map_plugin (dir : string) (enabled : bool) : DetectedPlugin :=
  mkDetectedPlugin "Map.jar" "Map" "1.0" "me" "" ["map"] [] "h" enabled dir.

Lemma mod_commands_confined_witness :
  @only_mod_commands ascii_tables cdn_parse RoleUser 4 (w_db farm_world)
    (w_db (snd (@InstallMod ascii_tables cdn_parse RoleUser 4 map_request farm_world)))
  /\ length (node_commands (w_db (snd (@InstallMod ascii_tables cdn_parse RoleUser 4 map_request farm_world))))
     = S (length (node_commands (w_db farm_world))).
Proof.
  split; [|by vm_compute].
  apply (@mod_commands_confined ascii_tables cdn_parse RoleUser 4 ServerMod _ farm_world).
  apply op_install.
Defined.

Lemma plugin_report_taken_over_witness :
  exists w', @SyncDetectedPlugins 4 [map_plugin "plugins" true] farm_world = (Ok tt, w')
    /\ exists k m, server_mods (w_db w') !! k = Some m /\ reflects 4 (map_plugin "plugins" true) m.
Proof.
  destruct (SyncDetectedPlugins 4 [map_plugin "plugins" true] farm_world) as [[[]|e] w'] eqn:E;
    [|by apply (f_equal (fun x => is_ok (fst x))) in E; vm_compute in E].
  exists w'. split; [done|].
  apply (proj1 (plugin_report_taken_over 4 [map_plugin "plugins" true] farm_world w' E) [] _ []); done.
Defined.

Lemma switch_atomic_witness :
  exists r w', @SwitchModVersion ascii_tables cdn_parse RoleUser 4 "Old.jar" map_switch farm_world = (r, w')
    /\ r = Ok tt.
Proof.
  destruct (@SwitchModVersion ascii_tables cdn_parse RoleUser 4 "Old.jar" map_switch farm_world) as [r w'] eqn:E.
  exists r, w'. split; [done|].
  destruct (@switch_atomic ascii_tables cdn_parse RoleUser 4 "Old.jar" map_switch r farm_world w' E)
    as [(e & -> & _)|[-> _]]; [|done].
  apply (f_equal (fun x => is_ok (fst x))) in E. by vm_compute in E.
Defined.

(** ** Findings *)

Definition scanned (dirs : list string) : World :=
  snd (SyncDetectedPlugins 4 (map (fun d => map_plugin d true) dirs) farm_world).

(** Every scan adds the commands of a plugin once more. *)
Example plugin_commands_pile_up :
  count_rows (game_commands (w_db (scanned ["plugins"]))) (fun c => String.eqb (gcmd_CommandTemplate c) "map") = 1%nat
  /\ count_rows (game_commands (w_db (snd (SyncDetectedPlugins 4 [map_plugin "plugins" true] (scanned ["plugins"])))))
       (fun c => String.eqb (gcmd_CommandTemplate c) "map") = 2%nat.
Proof. split; by vm_compute. Qed.

(** With a file of one name in both directories, switching it off marks both
    rows and tells the node about one. *)
Example toggle_same_name :
  let w := snd (ToggleMod 4 "Map.jar" false (scanned ["mods"; "plugins"])) in
  count_rows (server_mods (w_db w)) (fun m => negb (mod_IsPresent m)) = 2%nat
  /\ length (node_commands (w_db w)) = S (length (node_commands (w_db (scanned ["mods"; "plugins"])))).
Proof. split; by vm_compute. Qed.

(** Removing a file of [plugins] drops its row; the command names no
    directory. *)
Example remove_plugin_file :
  let w := snd (RemoveMod 4 "Map.jar" (scanned ["plugins"])) in
  count_rows (server_mods (w_db w)) (fun _ => true) = 0%nat
  /\ ncmd_Payload <$> last (node_commands (w_db w))
     = Some [("data_path", server_DataPath (sample_server 4 9 5)); ("filename", "Map.jar")].
Proof. split; by vm_compute. Qed.
