(* ===== verification/Databases.v ===== *)
(** * Databases of servers

    Models [services/database_service.go] and [handlers/databases.go]: the
    MariaDB database a server may have, its credentials in [server_databases],
    and the statements sent to MariaDB.

    MariaDB is the class [MariaDB]: its states and the effect of one statement,
    [None] when it answers with an error. *)

From stdpp Require Import base numbers list strings option gmap.
From Stdlib Require Import Ascii.
From S2P Require Import Prelude GoStrings Regex Store Platform Crypto Players Servers Net Http ServerHandlers.

Local Open Scope Z_scope.

Class MariaDB := {
  md_state : Type;
  (* sql.Open with a data source name *)
  md_open : string -> bool;
  (* conn.Exec *)
  md_exec : string -> md_state -> option md_state
}.

Definition ErrDatabaseExists : error := ErrNew "database already exists for this server".
Definition ErrDatabaseNotFound : error := ErrNew "database not found for this server".

(** ** Names and passwords *)

Definition hex_class : list (ascii * ascii) := [("0", "9"); ("a", "f")]%char.

(** [^tp_[0-9a-f]{8,29}$] and [^[0-9a-f]{32}$]. *)
Definition mysqlIdentRe : re := Cat (Chr "t") (Cat (Chr "p") (Cat (Chr "_") (rep_range 8 29 (Cls hex_class)))).
Definition mysqlPasswordRe : re := rep_range 32 32 (Cls hex_class).

Fixpoint checkMySQLIdents (idents : list string) : res error unit :=
  match idents with
  | [] => Ok tt
  | id :: idents' =>
    if negb (MatchString mysqlIdentRe id) then Err (ErrDetail (ErrNew "refusing unsafe MariaDB identifier") id)
    else checkMySQLIdents idents'
  end.

Definition checkMySQLPassword (pw : string) : res error unit :=
  if negb (MatchString mysqlPasswordRe pw)
  then Err (ErrNew "refusing MariaDB password outside the generated charset") else Ok tt.

Definition generateDBPassword : M string := rand_hex 16.

(** [strings.ReplaceAll(s, "-", "")]. *)
Fixpoint drop_dashes (s : string) : string :=
  match s with
  | EmptyString => EmptyString
  | String a s' => if Ascii.eqb a "-" then drop_dashes s' else String a (drop_dashes s')
  end.

(** The text of a UUID has 32 digits besides its dashes; the slice of the
    source needs 29 of them. *)
Definition mysqlIdentForServer `{Platform} (id : uuid) : string :=
  "tp_" +:+ str_take 29 (drop_dashes (uuid_string id)).

(** ** Statements *)

Definition create_database (n : string) : string := "CREATE DATABASE `" +:+ n +:+ "`".
Definition create_user (u p : string) : string := "CREATE USER '" +:+ u +:+ "'@'%' IDENTIFIED BY '" +:+ p +:+ "'".
Definition grant_all (n u : string) : string := "GRANT ALL PRIVILEGES ON `" +:+ n +:+ "`.* TO '" +:+ u +:+ "'@'%'".
Definition flush_privileges : string := "FLUSH PRIVILEGES".
Definition alter_user (u p : string) : string := "ALTER USER '" +:+ u +:+ "'@'%' IDENTIFIED BY '" +:+ p +:+ "'".
Definition drop_database (n : string) : string := "DROP DATABASE IF EXISTS `" +:+ n +:+ "`".
Definition drop_user (u : string) : string := "DROP USER IF EXISTS '" +:+ u +:+ "'@'%'".

Section mysql.
Context `{MD : MariaDB} (mysqlDSN : string).

(** The loop over the statements: the first error ends it. *)
Fixpoint run_statements (l : list (string * string)) (s : md_state) : res error unit * md_state :=
  match l with
  | [] => (Ok tt, s)
  | (desc, stmt) :: l' =>
    match md_exec stmt s with
    | None => (Err (ErrWrap desc (ErrNew "mysql")), s)
    | Some s' => run_statements l' s'
    end
  end.

(** A statement whose error is ignored. *)
Definition try_statement (stmt : string) (s : md_state) : md_state := default s (md_exec stmt s).

Definition provisionMySQL (dbName dbUser dbPassword : string) (s : md_state) : res error unit * md_state :=
  if String.eqb mysqlDSN "" then (Err (ErrNew "MariaDB not configured"), s)
  else match checkMySQLIdents [dbName; dbUser] with
  | Err e => (Err e, s)
  | Ok _ =>
    match checkMySQLPassword dbPassword with
    | Err e => (Err e, s)
    | Ok _ =>
      if negb (md_open mysqlDSN) then (Err (ErrWrap "connecting to MariaDB" (ErrNew "mysql")), s)
      else run_statements [("creating database", create_database dbName);
                           ("creating user", create_user dbUser dbPassword);
                           ("granting privileges", grant_all dbName dbUser);
                           ("flushing privileges", flush_privileges)] s
    end
  end.

Definition resetMySQLPassword (dbUser newPassword : string) (s : md_state) : res error unit * md_state :=
  if String.eqb mysqlDSN "" then (Err (ErrNew "MariaDB not configured"), s)
  else match checkMySQLIdents [dbUser] with
  | Err e => (Err e, s)
  | Ok _ =>
    match checkMySQLPassword newPassword with
    | Err e => (Err e, s)
    | Ok _ =>
      if negb (md_open mysqlDSN) then (Err (ErrWrap "connecting to MariaDB" (ErrNew "mysql")), s)
      else match md_exec (alter_user dbUser newPassword) s with
           | None => (Err (ErrWrap "altering user password" (ErrNew "mysql")), s)
           | Some s' => (Ok tt, try_statement flush_privileges s')
           end
    end
  end.

(** Its result is ignored by the caller. *)
Definition dropMySQL (dbName dbUser : string) (s : md_state) : md_state :=
  if String.eqb mysqlDSN "" then s
  else match checkMySQLIdents [dbName; dbUser] with
  | Err _ => s
  | Ok _ =>
    if negb (md_open mysqlDSN) then s
    else try_statement (drop_user dbUser) (try_statement (drop_database dbName) s)
  end.
End mysql.

(** ** The service *)

Section databases.
Context `{P : Platform} `{MD : MariaDB} (mysqlDSN dbHost : string) (dbPort : Z).

Definition of_server (serverID : uuid) (b : ServerDatabase) : bool := (sdb_ServerID b =? serverID)%N.

Definition GetCredentials (serverID : uuid) : M ServerDatabase :=
  let* r := attempt (query (fun d => row (server_databases d) (of_server serverID))) in
  match r with
  | Ok sdb => ret sdb
  | Err e => if error_Is e ErrNoRows then fail ErrDatabaseNotFound
             else fail (ErrWrap "fetching database credentials" e)
  end.

(** [server_id] is unique and refers to a server. *)
Definition insert_database (b : ServerDatabase) (d : DB) : res error (ServerDatabase * DB) :=
  if exists_row (server_databases d) (of_server (sdb_ServerID b))
  then Err (ErrConstraint "server_databases_server_id_key")
  else if bool_decide (servers d !! sdb_ServerID b = None)
  then Err (ErrConstraint "server_databases_server_id_fkey")
  else match insert_row (sdb_ID b) b (server_databases d) with
       | Ok t => Ok (b, with_server_databases t d)
       | Err e => Err e
       end.

(** Each operation gives its result and the state of MariaDB, also when it
    fails. *)
Definition CreateDatabase (serverID : uuid) (s : md_state) : M (res error ServerDatabase * md_state) :=
  let* c := attempt (wrap "checking existing database" (query (fun d =>
              Ok (count_rows (server_databases d) (of_server serverID))))) in
  match c with
  | Err e => ret (Err e, s)
  | Ok count =>
    if (0 <? count)%nat then ret (Err ErrDatabaseExists, s)
    else
      let dbName := mysqlIdentForServer serverID in
      let* dbPassword := generateDBPassword in
      match provisionMySQL mysqlDSN dbName dbName dbPassword s with
      | (Err e, s') => ret (Err (ErrWrap "provisioning MySQL database" e), s')
      | (Ok _, s') =>
        let* id := new_uuid in
        let* t := now in
        let* r := attempt (wrap "recording database" (exec (insert_database
                    (mkServerDatabase id serverID dbName dbName dbPassword dbHost dbPort t)))) in
        ret (r, s')
      end
  end.

Definition ResetPassword (serverID : uuid) (s : md_state) : M (res error ServerDatabase * md_state) :=
  let* c := attempt (GetCredentials serverID) in
  match c with
  | Err e => ret (Err e, s)
  | Ok sdb =>
    let* newPassword := generateDBPassword in
    match resetMySQLPassword mysqlDSN (sdb_DBUser sdb) newPassword s with
    | (Err e, s') => ret (Err (ErrWrap "resetting MySQL password" e), s')
    | (Ok _, s') =>
      let* r := attempt (wrap "updating password in DB" (exec (fun d =>
                  Ok (tt, with_server_databases (update_where (sdb_with_DBPassword newPassword)
                            (of_server serverID) (server_databases d)) d)))) in
      ret (match r with Err e => Err e | Ok _ => Ok (sdb_with_DBPassword newPassword sdb) end, s')
    end
  end.

Definition DeleteDatabase (serverID : uuid) (s : md_state) : M (res error unit * md_state) :=
  let* c := attempt (GetCredentials serverID) in
  match c with
  | Err e => ret (Err e, s)
  | Ok sdb =>
    let s' := dropMySQL mysqlDSN (sdb_DBName sdb) (sdb_DBUser sdb) s in
    let* r := attempt (wrap "deleting database record" (exec (fun d =>
                Ok (tt, with_server_databases (delete_where (of_server serverID) (server_databases d)) d)))) in
    ret (r, s')
  end.

(** ** Handlers *)

Definition GetDatabaseHandler (idParam : string) : M (res Reply ServerDatabase) :=
  match uuid_parse idParam with
  | None => refuse 400 "invalid ID format"
  | Some serverID =>
    let* r := attempt (GetCredentials serverID) in
    ret match r with
        | Ok b => Ok b
        | Err e => Err (if error_Is e ErrDatabaseNotFound
                        then reply_error 404 "no database provisioned for this server"
                        else reply_error 500 "could not fetch database")
        end
  end.

Definition CreateDatabaseHandler (idParam : string) (s : md_state) : M (res Reply ServerDatabase * md_state) :=
  match uuid_parse idParam with
  | None => ret (Err (reply_error 400 "invalid ID format"), s)
  | Some serverID =>
    let* (r, s') := CreateDatabase serverID s in
    ret (match r with
         | Ok b => Ok b
         | Err e => Err (if error_Is e ErrDatabaseExists
                         then reply_error 409 "database already exists for this server"
                         else reply_error 500 (error_Error e))
         end, s')
  end.

Definition DeleteDatabaseHandler (idParam : string) (s : md_state) : M (res Reply unit * md_state) :=
  match uuid_parse idParam with
  | None => ret (Err (reply_error 400 "invalid ID format"), s)
  | Some serverID =>
    let* (r, s') := DeleteDatabase serverID s in
    ret (match r with
         | Ok _ => Ok tt
         | Err e => Err (if error_Is e ErrDatabaseNotFound
                         then reply_error 404 "no database found for this server"
                         else reply_error 500 "could not delete database")
         end, s')
  end.

Definition ResetPasswordHandler (idParam : string) (s : md_state) : M (res Reply ServerDatabase * md_state) :=
  match uuid_parse idParam with
  | None => ret (Err (reply_error 400 "invalid ID format"), s)
  | Some serverID =>
    let* (r, s') := ResetPassword serverID s in
    ret (match r with
         | Ok b => Ok b
         | Err e => Err (if error_Is e ErrDatabaseNotFound
                         then reply_error 404 "no database found for this server"
                         else reply_error 500 "could not reset password")
         end, s')
  end.
End databases.

(** ** Theorems *)

(** The statements MariaDB may be sent: names and passwords are hex text of
    bounded length, so nothing in them ends the quotes around them. *)
Definition ident (n : string) : Prop :=
  exists h, n = "tp_" +:+ h /\ (8 <= String.length h <= 29)%nat /\ all_cls hex_class h = true.

Definition password (p : string) : Prop := String.length p = 32%nat /\ all_cls hex_class p = true.

Inductive statement : string -> Prop :=
| st_create_database n : ident n -> statement (create_database n)
| st_create_user u p : ident u -> password p -> statement (create_user u p)
| st_grant n u : ident n -> ident u -> statement (grant_all n u)
| st_flush : statement flush_privileges
| st_alter u p : ident u -> password p -> statement (alter_user u p)
| st_drop_database n : ident n -> statement (drop_database n)
| st_drop_user u : ident u -> statement (drop_user u).

Lemma in_cls_chr c a : in_cls [(c, c)] a = true -> a = c.
Proof.
  unfold in_cls, in_range. simpl. rewrite orb_false_r. intros H. breflect. apply byte_of_inj. lia.
Qed.

Lemma ident_match n : MatchString mysqlIdentRe n = true -> ident n.
Proof.
  unfold mysqlIdentRe, Chr. intros H%MatchString_lang.
  apply lang_cat_cls_inv in H as (a & s1 & -> & ->%in_cls_chr & H).
  apply lang_cat_cls_inv in H as (b & s2 & -> & ->%in_cls_chr & H).
  apply lang_cat_cls_inv in H as (c & s3 & -> & ->%in_cls_chr & H).
  apply MatchString_lang, match_rep_range_cls in H as [Hl Ha]; [|lia]. by exists s3.
Qed.

Lemma idents_ok l : checkMySQLIdents l = Ok tt -> Forall ident l.
Proof.
  induction l as [|n l IH]; simpl; [constructor|]. destruct (MatchString _ n) eqn:E; simpl; [|done].
  intros H. constructor; [by apply ident_match | by apply IH].
Qed.

Lemma password_ok p : checkMySQLPassword p = Ok tt -> password p.
Proof.
  unfold checkMySQLPassword. destruct (MatchString _ p) eqn:E; simpl; [|done]. intros _.
  apply match_rep_range_cls in E as [Hl Ha]; [|lia]. split; [lia | done].
Qed.

Section statements.
Context `{P : Platform} `{MD : MariaDB} (dsn host : string) (port : Z).

Definition md_step (s s' : md_state) : Prop := exists st, statement st /\ md_exec st s = Some s'.

Lemma run_statements_steps l s :
  Forall (fun ds => statement (snd ds)) l -> rtc md_step s (snd (run_statements l s)).
Proof.
  revert s. induction l as [|[desc st] l IH]; intros s Hl; simpl; [constructor|].
  apply Forall_cons in Hl as [Hst Hl]. destruct (md_exec st s) as [s'|] eqn:E; [|constructor].
  eapply rtc_l; [|by apply IH]. by exists st.
Qed.

Lemma try_statement_steps st s : statement st -> rtc md_step s (try_statement st s).
Proof.
  intros Hst. unfold try_statement. destruct (md_exec st s) eqn:E; simpl; [|constructor].
  apply rtc_once. by exists st.
Qed.

Lemma provisionMySQL_steps n p s : rtc md_step s (snd (provisionMySQL dsn n n p s)).
Proof.
  unfold provisionMySQL. destruct (String.eqb dsn ""); [constructor|].
  destruct (checkMySQLIdents _) as [[]|e] eqn:Ei; [|constructor]. apply idents_ok in Ei.
  apply Forall_cons in Ei as [Hn _].
  destruct (checkMySQLPassword _) as [[]|e] eqn:Ep; [|constructor]. apply password_ok in Ep.
  destruct (negb _); [constructor|]. apply run_statements_steps.
  repeat (constructor; [simpl; by constructor|]). constructor.
Qed.

Lemma resetMySQLPassword_steps u p s : rtc md_step s (snd (resetMySQLPassword dsn u p s)).
Proof.
  unfold resetMySQLPassword. destruct (String.eqb dsn ""); [constructor|].
  destruct (checkMySQLIdents _) as [[]|e] eqn:Ei; [|constructor]. apply idents_ok in Ei.
  apply Forall_cons in Ei as [Hu _].
  destruct (checkMySQLPassword _) as [[]|e] eqn:Ep; [|constructor]. apply password_ok in Ep.
  destruct (negb _); [constructor|]. destruct (md_exec _ s) as [s'|] eqn:E; [|constructor]. simpl.
  eapply rtc_l; [exists (alter_user u p); split; [by constructor | exact E]|].
  apply try_statement_steps. constructor.
Qed.

Lemma dropMySQL_steps n u s : rtc md_step s (dropMySQL dsn n u s).
Proof.
  unfold dropMySQL. destruct (String.eqb dsn ""); [constructor|].
  destruct (checkMySQLIdents _) as [[]|e] eqn:Ei; [|constructor]. apply idents_ok in Ei.
  apply Forall_cons in Ei as [Hn Ei]. apply Forall_cons in Ei as [Hu _]. destruct (negb _); [constructor|].
  etrans; apply try_statement_steps; by constructor.
Qed.

(** The operations that reach MariaDB from the state [s]. *)
Inductive db_op (s : md_state) : forall {A : Type}, M (A * md_state) -> Prop :=
| op_create sid : db_op s (CreateDatabase dsn host port sid s)
| op_reset sid : db_op s (ResetPassword dsn sid s)
| op_delete sid : db_op s (DeleteDatabase dsn sid s).

(** C27. No injection: whatever the tables hold and whatever MariaDB answers,
    every statement it is sent is one of the seven forms, with names and
    passwords that are hex text of bounded length. *)
Theorem mariadb_statements_safe {A} (m : M (A * md_state)) (s s' : md_state) (a : A) (w w' : World) :
  db_op s m -> m w = (Ok (a, s'), w') -> rtc md_step s s'.
Proof.
  destruct 1 as [sid|sid|sid]; intros (c & w1 & _ & H)%bind_ok; destruct c as [x|e];
    try (apply ret_inv in H as [[= _ ->] _]; constructor).
  - destruct (0 <? x)%nat; [apply ret_inv in H as [[= _ ->] _]; constructor|].
    apply bind_ok in H as (p & w2 & _ & H).
    pose proof (provisionMySQL_steps (mysqlIdentForServer sid) p s) as Hs.
    destruct (provisionMySQL _ _ _ _ _) as [[u|e] s1]; simpl in Hs.
    + repeat (apply bind_ok in H as (? & ? & _ & H)). by apply ret_inv in H as [[= _ ->] _].
    + by apply ret_inv in H as [[= _ ->] _].
  - apply bind_ok in H as (p & w2 & _ & H).
    pose proof (resetMySQLPassword_steps (sdb_DBUser x) p s) as Hs.
    destruct (resetMySQLPassword _ _ _ _) as [[u|e] s1]; simpl in Hs.
    + apply bind_ok in H as (? & ? & _ & H). by apply ret_inv in H as [[= _ ->] _].
    + by apply ret_inv in H as [[= _ ->] _].
  - apply bind_ok in H as (? & ? & _ & H). apply ret_inv in H as [[= _ ->] _]. apply dropMySQL_steps.
Qed.
End statements.

(** What is relied on of MariaDB: which password opens an account. *)
Class MariaDBLaws (MD : MariaDB) := {
  md_password : md_state -> string -> option string;
  md_create_user u p s s' :
    md_exec (create_user u p) s = Some s' -> md_password s' u = Some p;
  md_alter_user u p s s' :
    md_exec (alter_user u p) s = Some s' -> md_password s' u = Some p;
  md_keeps_passwords st s s' u :
    md_exec st s = Some s' ->
    (st = flush_privileges \/ exists n v, st = grant_all n v) -> md_password s' u = md_password s u
}.

Section credentials.
Context `{P : Platform} `{MD : MariaDB} `{ML : !MariaDBLaws MD} (dsn host : string) (port : Z).

Lemma provisionMySQL_password n p s s' :
  provisionMySQL dsn n n p s = (Ok tt, s') -> md_password s' n = Some p.
Proof.
  unfold provisionMySQL. destruct (String.eqb dsn ""); [done|]. destruct (checkMySQLIdents _); [|done].
  destruct (checkMySQLPassword _); [|done]. destruct (negb _); [done|]. simpl.
  destruct (md_exec (create_database n) s) as [s1|]; [|done].
  destruct (md_exec (create_user n p) s1) as [s2|] eqn:E2; [|done].
  destruct (md_exec (grant_all n n) s2) as [s3|] eqn:E3; [|done].
  destruct (md_exec flush_privileges s3) as [s4|] eqn:E4; [|done]. intros [= <-].
  rewrite (md_keeps_passwords _ _ _ n E4) by auto. rewrite (md_keeps_passwords _ _ _ n E3) by eauto.
  by eapply md_create_user.
Qed.

Lemma resetMySQLPassword_password u p s s' :
  resetMySQLPassword dsn u p s = (Ok tt, s') -> md_password s' u = Some p.
Proof.
  unfold resetMySQLPassword. destruct (String.eqb dsn ""); [done|]. destruct (checkMySQLIdents _); [|done].
  destruct (checkMySQLPassword _); [|done]. destruct (negb _); [done|].
  destruct (md_exec (alter_user u p) s) as [s1|] eqn:E1; [|done]. intros [= <-].
  apply md_alter_user in E1. unfold try_statement. destruct (md_exec flush_privileges s1) as [s2|] eqn:E2; [|done].
  simpl. rewrite (md_keeps_passwords _ _ _ u E2) by auto. done.
Qed.

Lemma GetCredentials_ok sid w b w' :
  GetCredentials sid w = (Ok b, w') ->
  w_db w' = w_db w /\ exists k, server_databases (w_db w) !! k = Some b /\ sdb_ServerID b = sid.
Proof.
  intros (r & w1 & (r' & [= ->] & Hr)%attempt_inv & H)%bind_ok.
  destruct r' as [b'|e]; [|destruct (error_Is e ErrNoRows); by apply fail_inv in H as [? _]].
  apply ret_inv in H as [[= ->] ->]. apply query_ok in Hr as [Hr Hd]. split; [done|].
  apply row_ok in Hr as [[k Hk] Hs%N.eqb_eq]. eauto.
Qed.

(** The credentials that are shown work: when a database was created or a
    password reset, what the caller gets is the stored row of that server,
    and MariaDB accepts that password for that user. *)
Theorem credentials_work (sid : uuid) (b : ServerDatabase) (s s' : md_state) (w w' : World) :
  CreateDatabase dsn host port sid s w = (Ok (Ok b, s'), w')
  \/ ResetPassword dsn sid s w = (Ok (Ok b, s'), w') ->
  (exists k, server_databases (w_db w') !! k = Some b) /\ sdb_ServerID b = sid
  /\ md_password s' (sdb_DBUser b) = Some (sdb_DBPassword b).
Proof.
  intros [(c & w1 & _ & H)%bind_ok|(c & w1 & (c' & [= ->] & Hc)%attempt_inv & H)%bind_ok].
  - destruct c as [n|e]; [|by apply ret_inv in H as [? _]].
    destruct (0 <? n)%nat; [by apply ret_inv in H as [? _]|].
    apply bind_ok in H as (p & w2 & _ & H).
    destruct (provisionMySQL _ _ _ _ _) as [[[]|e] s1] eqn:Ep; [|by apply ret_inv in H as [? _]].
    apply bind_ok in H as (id & w3 & _ & H). apply bind_ok in H as (t & w4 & _ & H).
    apply bind_ok in H as (r & w5 & (r' & [= ->] & Hr)%attempt_inv & [[= <- ->] ->]%ret_inv).
    apply wrap_ok, exec_ok in Hr. unfold insert_database in Hr.
    destruct (exists_row _ _); [done|]. destruct (bool_decide _); [done|].
    destruct (insert_row _ _ _) as [tbl|] eqn:Ei; [|done]. injection Hr as <- <-.
    apply insert_row_ok in Ei as [_ ->]. simpl. split_and!; [|done | by eapply provisionMySQL_password].
    exists id. by rewrite lookup_insert_eq.
  - destruct c' as [b0|e]; [|by apply ret_inv in H as [? _]].
    apply GetCredentials_ok in Hc as [Hd1 (k & Hk & Hs)].
    apply bind_ok in H as (p & w2 & Hp%rand_hex_inv & H).
    destruct (resetMySQLPassword _ _ _ _) as [[[]|e] s1] eqn:Ep; [|by apply ret_inv in H as [? _]].
    apply bind_ok in H as (r & w3 & (r' & [= ->] & Hr)%attempt_inv & H).
    destruct r' as [[]|e]; [|by apply ret_inv in H as [? _]]. apply ret_inv in H as [[= -> ->] ->].
    apply wrap_ok, exec_ok in Hr. injection Hr as Hr. rewrite <- Hr. simpl.
    split_and!; [|done | by eapply resetMySQLPassword_password].
    exists k. rewrite lookup_update_where. destruct Hp as [-> _]. rewrite Hd1, Hk. simpl.
    unfold of_server. by rewrite Hs, N.eqb_refl.
Qed.
End credentials.

(** ** Witnesses *)

(** A MariaDB that keeps what it did, refuses a database it has, and refuses
    new users while it is broken. *)
Definition sample_mariadb : MariaDB := {|
  md_state := list string * bool;
  md_open _ := true;
  md_exec st s :=
    if (HasPrefix st "CREATE DATABASE" && contains (fst s) st) || (HasPrefix st "CREATE USER" && snd s)
    then None else Some (st :: fst s, snd s)
|}.

(** The password in a statement that sets one. *)
Definition password_in (verb u st : string) : option string :=
  let start := verb +:+ " USER '" +:+ u +:+ "'@'%' IDENTIFIED BY '" in
  if HasPrefix st start
  then Some (str_take (String.length st - String.length start - 1) (str_drop (String.length start) st))
  else None.

Fixpoint log_password (log : list string) (u : string) : option string :=
  match log with
  | [] => None
  | st :: log' =>
    match password_in "CREATE" u st with
    | Some p => Some p
    | None => match password_in "ALTER" u st with Some p => Some p | None => log_password log' u end
    end
  end.

Lemma prefix_self (a b : string) : String.prefix a (a +:+ b) = true.
Proof.
  induction a as [|c a IH]; [by destruct b|]. rewrite str_app_cons. simpl.
  by destruct (ascii_dec c c).
Qed.

Lemma password_in_text verb u p :
  password_in verb u ((verb +:+ " USER '" +:+ u +:+ "'@'%' IDENTIFIED BY '") +:+ (p +:+ "'")) = Some p.
Proof.
  unfold password_in. cbv zeta. set (start := verb +:+ " USER '" +:+ u +:+ "'@'%' IDENTIFIED BY '").
  unfold HasPrefix. rewrite prefix_self, str_drop_app, !str_length_app. simpl.
  replace (_ - _ - 1)%nat with (String.length p) by lia. by rewrite str_take_app.
Qed.

Lemma create_user_text u p :
  create_user u p = ("CREATE" +:+ " USER '" +:+ u +:+ "'@'%' IDENTIFIED BY '") +:+ (p +:+ "'").
Proof. unfold create_user. by rewrite !str_app_assoc. Qed.

Lemma alter_user_text u p :
  alter_user u p = ("ALTER" +:+ " USER '" +:+ u +:+ "'@'%' IDENTIFIED BY '") +:+ (p +:+ "'").
Proof. unfold alter_user. by rewrite !str_app_assoc. Qed.

#[export] Instance sample_mariadb_laws : MariaDBLaws sample_mariadb.
Proof.
  refine (Build_MariaDBLaws sample_mariadb (fun s : list string * bool => log_password (fst s)) _ _ _).
  - intros u p s s'. cbn [md_exec sample_mariadb]. destruct (_ || _); [done|]. intros [= <-]. cbn [fst log_password].
    by rewrite create_user_text, password_in_text.
  - intros u p s s'. cbn [md_exec sample_mariadb]. destruct (_ || _); [done|]. intros [= <-]. cbn [fst log_password].
    rewrite alter_user_text, password_in_text. by destruct (password_in "CREATE" _ _) eqn:E.
  - intros st s s' u. cbn [md_exec sample_mariadb]. destruct (_ || _); [done|]. intros [= <-]. cbn [fst log_password].
    by intros [->|(n & v & ->)].
Defined.

(** A server whose id is long enough to name a database. *)
Definition db_server : uuid := 1000.
Definition db_world : World :=
  with_db (with_nodes {[9%N := sample_node 9]} (with_servers {[db_server := sample_server db_server 9 5]} empty_db)) empty_world.

#[local] Existing Instances sample_platform sample_mariadb.

(** The sample service's state as its log and whether it refuses new users. *)
Definition mariadb_log (log : list string) (no_users : bool) : @md_state sample_mariadb := (log, no_users).
Definition log_of (s : @md_state sample_mariadb) : list string := fst s.

Lemma credentials_work_witness :
  exists b s' w', CreateDatabase "dsn" "mariadb" 3306 db_server (mariadb_log [] false) db_world = (Ok (Ok b, s'), w')
    /\ md_password s' (sdb_DBUser b) = Some (sdb_DBPassword b).
Proof.
  destruct (CreateDatabase "dsn" "mariadb" 3306 db_server (mariadb_log [] false) db_world) as [[[[b|e] s']|e] w'] eqn:E;
    [|apply (f_equal (fun x => match fst x with Ok (r, _) => is_ok r | _ => false end)) in E;
      vm_compute in E; done..].
  exists b, s', w'. split; [done|].
  apply (credentials_work "dsn" "mariadb" 3306 db_server b (mariadb_log [] false) s' db_world w'). by left.
Defined.

Lemma mariadb_statements_safe_witness :
  exists s', rtc md_step (mariadb_log [] false) s' /\ length (log_of s') = 4%nat.
Proof.
  destruct (CreateDatabase "dsn" "mariadb" 3306 db_server (mariadb_log [] false) db_world) as [[[r s']|e] w'] eqn:E;
    [|apply (f_equal (fun x => is_ok (fst x))) in E; vm_compute in E; done].
  exists s'. split.
  - apply (mariadb_statements_safe "dsn" "mariadb" 3306 _ (mariadb_log [] false) s' r db_world w'
             (op_create "dsn" "mariadb" 3306 _ db_server) E).
  - apply (f_equal (fun x => match fst x with Ok (_, t) => length (log_of t) | _ => 0%nat end)) in E.
    vm_compute in E. by symmetry.
Defined.

(** ** Findings *)

(** MariaDB fails after it created the database: no later attempt succeeds,
    and there is no record to delete. *)
Example half_provisioned_is_stuck :
  match CreateDatabase "dsn" "mariadb" 3306 db_server (mariadb_log [] true) db_world with
  | (Ok (Err _, s1), w1) =>
    let log := log_of s1 in
    match fst (CreateDatabase "dsn" "mariadb" 3306 db_server (mariadb_log log false) w1),
          fst (DeleteDatabase "dsn" db_server (mariadb_log log false) w1) with
    | Ok (Err _, s2), Ok (Err e, _) => log_of s2 = log /\ e = ErrDatabaseNotFound
    | _, _ => False
    end
  | _ => False
  end.
Proof. vm_compute. done. Qed.
