(* ===== verification/AccountHandlers.v ===== *)
(** * The account handlers

    Models [handlers/auth.go], [handlers/setup.go], [handlers/admin.go],
    [handlers/profile.go] and [handlers/invitations.go], with
    [services/profile_service.go] and [GetUserPermissions] of
    [services/permission_service.go].

    [Ok] of a value is the success reply that carries it.  A handler that
    touches the session cookie gives the [Set-Cookie] headers of its reply as
    well.  The user in the request's context is [option User]. *)

From stdpp Require Import base numbers list strings option gmap relations.
From Stdlib Require Import Ascii.
From S2P Require Import Prelude GoStrings Regex Store Roles Permissions Invitations Platform Crypto Auth Setup AuthTheorems Servers Middleware Http ServerHandlers.

Local Open Scope Z_scope.

(** ** Cookies *)

Definition refreshCookieName : string := "refresh_token".
Definition refreshCookiePath : string := "/api/v1/auth".
Definition refreshCookieMaxAge : Z := 7 * 24 * 60 * 60.

(** The arguments of gin's [SetCookie]. *)
Record Cookie := mkCookie {
  ck_Name : string;
  ck_Value : string;
  ck_MaxAge : Z;
  ck_Path : string;
  ck_Domain : string;
  ck_Secure : bool;
  ck_HttpOnly : bool
}.

(** The header line gin writes for a cookie. *)
Class Gin := { cookie_line : Cookie -> string }.

(** A header line starts with the name of the cookie, then [=]. *)
Class GinLaws (G : Gin) := {
  cookie_line_name c : HasPrefix (cookie_line c) (ck_Name c +:+ "=") = true
}.

Section cookies.
Context `{G : Gin} (secureCookie : bool).

Definition refresh_cookie (token : string) (maxAge : Z) : Cookie :=
  mkCookie refreshCookieName token maxAge refreshCookiePath "" secureCookie true.

(** The attribute is appended to every header of a cookie of that name. *)
Definition same_site (v : string) : string :=
  if (len refreshCookieName <? len v) && String.eqb (str_take (String.length refreshCookieName) v) refreshCookieName
  then v +:+ "; SameSite=Strict" else v.

Definition setRefreshCookie (token : string) (headers : list string) : list string :=
  map same_site (headers ++ [cookie_line (refresh_cookie token refreshCookieMaxAge)]).

Definition clearRefreshCookie (headers : list string) : list string :=
  headers ++ [cookie_line (refresh_cookie "" (-1))].
End cookies.

(** ** Signing in *)

(** The success replies of the handlers that sign a user in. *)
Inductive SignIn :=
| RequiresTOTP (partial_token : string)
| SignedIn (access_token : string) (user : option User).

Section auth_handlers.
Context `{U : Unicode} `{P : Platform} `{J : Json LoginResult} `{G : Gin} (cfg : Config) (secureCookie : bool).

Definition refuse_bare {A} (status : Z) (msg : string) : M (res Reply A * list string) :=
  ret (Err (reply_error status msg), []).

(** [h.setRefreshCookie(c, result.RefreshToken); c.JSON(http.StatusOK, ...)]. *)
Definition sign_in (result : LoginResult) : M (res Reply SignIn * list string) :=
  ret (Ok (SignedIn (lr_AccessToken result) (lr_User result)),
       setRefreshCookie secureCookie (lr_RefreshToken result) []).

Definition RegisterHandler (body : res string (string * string * string)) : M (res Reply User) :=
  match body with
  | Err e => refuse 400 e
  | Ok (email, username, password) =>
    let* r := attempt (Register email username password) in
    match r with
    | Ok user => ret (Ok user)
    | Err e => if error_Is e ErrEmailTaken then refuse 409 "email already in use"
               else if error_Is e ErrUsernameTaken then refuse 409 "username already in use"
               else refuse 400 (error_Error e)
    end
  end.

Definition LoginHandler (body : res string (string * string)) (ip ua : string) : M (res Reply SignIn * list string) :=
  match body with
  | Err e => refuse_bare 400 e
  | Ok (email, password) =>
    let* r := attempt (Login cfg email password ip ua) in
    match r with
    | Err e => if error_Is e ErrInvalidCreds then refuse_bare 401 "invalid email or password"
               else if error_Is e ErrUserInactive then refuse_bare 403 "account is disabled"
               else refuse_bare 500 "login failed"
    | Ok result =>
      if lr_RequiresTOTP result then ret (Ok (RequiresTOTP (lr_PartialToken result)), [])
      else sign_in result
    end
  end.

(** [cookie] is what [c.Cookie] gives, [None] for its error. *)
Definition RefreshHandler (wait : nat -> option (M unit)) (cookie : option string) (ip ua : string)
  : M (res Reply SignIn * list string) :=
  match cookie with
  | None | Some "" => refuse_bare 401 "missing refresh token"
  | Some refreshToken =>
    let* r := attempt (RefreshToken cfg wait refreshToken ip ua) in
    match r with
    | Err e => if error_Is e ErrSessionExpired
               then ret (Err (reply_error 401 "session expired, please log in again"), clearRefreshCookie secureCookie [])
               else refuse_bare 500 "could not refresh token"
    | Ok result => sign_in result
    end
  end.

Definition LogoutReply (authHeader : string) (cookie : option string) : M (Reply * list string) :=
  run* LogoutHandler (cfg_JWTSecret cfg) authHeader (default "" cookie) in
  ret (reply_message "logged out", clearRefreshCookie secureCookie []).

Definition VerifyTOTPHandler (body : res string (string * string)) (ip ua : string)
  : M (res Reply SignIn * list string) :=
  match body with
  | Err e => refuse_bare 400 e
  | Ok (code, partialToken) =>
    let* r := attempt (VerifyTOTP cfg partialToken code ip ua) in
    match r with
    | Err e => if error_Is e ErrTOTPInvalid then refuse_bare 401 "invalid TOTP code"
               else refuse_bare 401 "TOTP verification failed"
    | Ok result => sign_in result
    end
  end.

(** [errors.As(err, &inputErr)], with the text of the error. *)
Definition as_SetupInputError (e : error) : option string :=
  match e with
  | ErrWrap kind (ErrNew msg) => if decide (e = SetupInputError msg) then Some msg else None
  | _ => None
  end.

(** The body is the setup code, the email, the username and the password. *)
Definition CompleteSetupHandler (body : option (string * string * string * string)) (ip ua : string)
  : M (res Reply SignIn * list string) :=
  if negb (SetupCodeEnabled cfg) then refuse_bare 404 "not found"
  else match body with
  | None => refuse_bare 400 "setup_code, email, username and password are required"
  | Some (code, email, username, password) =>
    let* r := attempt (CompleteSetup cfg code email username password ip ua) in
    match r with
    | Ok result => sign_in result
    | Err e =>
      if error_Is e ErrSetupCodeInvalid then refuse_bare 403 "invalid setup code"
      else if error_Is e ErrSetupCompleted then refuse_bare 409 "setup already completed"
      else match as_SetupInputError e with
      | Some msg => refuse_bare 400 msg
      | None => if error_Is e ErrSetupLoginFailed
             then refuse_bare 500 "your account was created, but signing in failed; please sign in"
             else refuse_bare 500 "setup failed"
      end
    end
  end.

(** ** The signed-in user *)

(** [user, ok := middleware.GetUserFromCtx(c); if !ok {...}]. *)
Definition with_user {A} (user : option User) (k : User -> M (res Reply A)) : M (res Reply A) :=
  match user with None => refuse 401 "not authenticated" | Some u => k u end.

Definition MeHandler (user : option User) : M (res Reply User) :=
  with_user user (fun u =>
    let* r := attempt (GetMe cfg (user_ID u)) in
    match r with Err _ => refuse 500 "could not load profile" | Ok fresh => ret (Ok fresh) end).

Definition ChangePasswordHandler (user : option User) (body : res string (string * string)) : M (res Reply unit) :=
  with_user user (fun u =>
    match body with
    | Err e => refuse 400 e
    | Ok (oldPassword, newPassword) =>
      let* r := attempt (ChangePassword cfg (user_ID u) oldPassword newPassword) in
      match r with Err e => refuse 400 (error_Error e) | Ok _ => ret (Ok tt) end
    end).

(** The secret, the URI and the base64 text of the image. *)
Definition SetupTOTPHandler (user : option User) : M (res Reply (string * string * string)) :=
  with_user user (fun u =>
    let* r := attempt (SetupTOTP cfg (user_ID u)) in
    match r with
    | Err e => refuse 400 (error_Error e)
    | Ok t => ret (Ok (ts_Secret t, ts_OtpauthURI t, b64_encode (ts_QRCodePNG t)))
    end).

Definition ConfirmTOTPHandler (user : option User) (body : res string string) : M (res Reply unit) :=
  with_user user (fun u =>
    match body with
    | Err e => refuse 400 e
    | Ok code =>
      let* r := attempt (ConfirmTOTP cfg (user_ID u) code) in
      match r with
      | Err e => if error_Is e ErrTOTPInvalid then refuse 401 "invalid TOTP code" else refuse 400 (error_Error e)
      | Ok _ => ret (Ok tt)
      end
    end).

Definition DisableTOTPHandler (user : option User) (body : res string string) : M (res Reply unit) :=
  with_user user (fun u =>
    match body with
    | Err e => refuse 400 e
    | Ok password =>
      let* r := attempt (DisableTOTP cfg (user_ID u) password) in
      match r with
      | Err e => if error_Is e ErrInvalidCreds then refuse 401 "password incorrect"
                 else refuse 500 "could not disable 2FA"
      | Ok _ => ret (Ok tt)
      end
    end).

Definition GetActivityHandler (user : option User) : M (res Reply (list ActivityLog)) :=
  with_user user (fun u =>
    let* r := attempt (GetUserActivity (user_ID u) 50) in
    match r with Err _ => refuse 500 "could not fetch activity" | Ok l => ret (Ok l) end).

Definition GetSessionsHandler (user : option User) : M (res Reply (list Session)) :=
  with_user user (fun u =>
    let* r := attempt (GetUserSessions (user_ID u)) in
    match r with Err _ => refuse 500 "could not fetch sessions" | Ok l => ret (Ok l) end).

Definition RevokeSessionHandler (user : option User) (idParam : string) : M (res Reply unit) :=
  with_user user (fun u =>
    match uuid_parse idParam with
    | None => refuse 400 "invalid ID format"
    | Some sessionID =>
      let* r := attempt (RevokeSession (user_ID u) sessionID) in
      match r with Err e => refuse 400 (error_Error e) | Ok _ => ret (Ok tt) end
    end).
End auth_handlers.

(** ** Profiles *)

Record UpdateProfileRequest := mkUpdateProfileRequest {
  upr_DisplayName : option string;
  upr_AvatarURL : option string;
  upr_Language : option string;
  upr_Timezone : option string
}.

Record NotificationPref := mkNotificationPref {
  npref_UserID : uuid;
  npref_AlertType : string;
  npref_Email : bool;
  npref_Discord : bool;
  npref_Telegram : bool
}.

Record SetNotificationPrefRequest := mkSetNotificationPrefRequest {
  snp_AlertType : string;
  snp_Email : bool;
  snp_Discord : bool;
  snp_Telegram : bool
}.

(** The columns [GetProfile] selects: all but the TOTP secret. *)
Definition profile_of (u : User) : User := user_with_TOTPSecret "" u.

Definition GetProfile (userID : uuid) : M User :=
  wrap "fetching profile" (query (fun d =>
    match users d !! userID with Some u => Ok (profile_of u) | None => Err ErrNoRows end)).

(** The SET clauses of the statement, one per field that is given. *)
Definition set_clauses (req : UpdateProfileRequest) : list (User -> User) :=
  omap id [
    (fun v => user_with_DisplayName (Some v)) <$> upr_DisplayName req;
    (fun v => user_with_AvatarURL (Some v)) <$> upr_AvatarURL req;
    user_with_Language <$> upr_Language req;
    user_with_Timezone <$> upr_Timezone req].

Definition apply_clauses (l : list (User -> User)) (u : User) : User := fold_left (fun u f => f u) l u.

Definition UpdateProfile (userID : uuid) (req : UpdateProfileRequest) : M User :=
  let setClauses := set_clauses req in
  if (length setClauses =? 0)%nat then fail (ErrNew "no fields to update")
  else
    run* wrap "updating profile" (update_user userID (apply_clauses setClauses)) in
    GetProfile userID.

(** The row of a preference, its id left out. *)
Definition pref_row (kv : (uuid * string) * (bool * bool * bool)) : NotificationPref :=
  let '((u, t), (e, d, g)) := kv in mkNotificationPref u t e d g.

Definition GetNotificationPrefs (userID : uuid) : M (list NotificationPref) :=
  wrap "querying notification prefs" (query (fun d =>
    Ok (order_by (fun a b => String.leb (npref_AlertType a) (npref_AlertType b))
          (List.filter (fun p => (npref_UserID p =? userID)%N)
             (map pref_row (map_to_list (notification_prefs d))))))).

Definition SetNotificationPref (userID : uuid) (req : SetNotificationPrefRequest) : M unit :=
  wrap "setting notification pref" (exec (fun d =>
    if decide (is_Some (users d !! userID))
    then Ok (tt, with_notification_prefs
           (<[(userID, snp_AlertType req) := (snp_Email req, snp_Discord req, snp_Telegram req)]> (notification_prefs d)) d)
    else Err (ErrConstraint "user_notification_prefs_user_id_fkey"))).

Section profile_handlers.
Context `{P : Platform}.

Definition GetProfileHandler (user : User) : M (res Reply User) :=
  let* r := attempt (GetProfile (user_ID user)) in
  match r with Err _ => refuse 500 "could not fetch profile" | Ok p => ret (Ok p) end.

Definition UpdateProfileHandler (user : User) (body : res string UpdateProfileRequest) : M (res Reply User) :=
  match body with
  | Err e => refuse 400 e
  | Ok req =>
    let* r := attempt (UpdateProfile (user_ID user) req) in
    match r with Err e => refuse 400 (error_Error e) | Ok p => ret (Ok p) end
  end.

Definition GetNotificationPrefsHandler (user : User) : M (res Reply (list NotificationPref)) :=
  let* r := attempt (GetNotificationPrefs (user_ID user)) in
  match r with Err _ => refuse 500 "could not fetch notification preferences" | Ok l => ret (Ok l) end.

Definition SetNotificationPrefsHandler (user : User) (body : res string SetNotificationPrefRequest) : M (res Reply unit) :=
  match body with
  | Err e => refuse 400 e
  | Ok req =>
    let* r := attempt (SetNotificationPref (user_ID user) req) in
    match r with Err _ => refuse 500 "could not save notification preference" | Ok _ => ret (Ok tt) end
  end.
End profile_handlers.

(** ** Administration *)

(** The overrides of a user: key and whether it is granted. *)
Definition GetUserPermissions (userID : uuid) : M (list (string * bool)) :=
  wrap "querying user permissions" (query (fun d =>
    Ok (order_by (fun a b => String.leb (fst a) (fst b))
          (map (fun kv => (snd (fst kv), snd kv))
             (List.filter (fun kv => (fst (fst kv) =? userID)%N) (map_to_list (user_permissions d))))))).

Section admin_handlers.
Context `{U : Unicode} `{P : Platform}.

Record createUserRequest := mkcreateUserRequest {
  cur_Email : string;
  cur_Username : string;
  cur_Password : string;
  cur_Role : string
}.

Definition invalid_role : string := "invalid role; must be user, moderator, admin, or owner".

Definition CreateUser (caller : option User) (body : res string createUserRequest) : M (res Reply User) :=
  match body with
  | Err e => refuse 400 e
  | Ok req =>
    if RoleWeight (cur_Role req) =? 0 then refuse 400 invalid_role
    else if String.eqb (cur_Role req) RoleOwner
            && match caller with None => true | Some c => negb (String.eqb (user_Role c) RoleOwner) end
    then refuse 403 "only owners can create owner accounts"
    else
      let* r := attempt (CreateUserByAdmin (cur_Email req) (cur_Username req) (cur_Password req) (cur_Role req)) in
      match r with Err e => refuse 400 (error_Error e) | Ok user => ret (Ok user) end
  end.

Definition ListUsersHandler : M (res Reply (list User)) :=
  let* r := attempt ListUsers in
  match r with Err _ => refuse 500 "could not list users" | Ok l => ret (Ok l) end.

Definition respondUserChangeError (e : error) : Reply :=
  if error_Is e ErrUserNotFound then reply_error 404 (error_Error e)
  else if error_Is e ErrOwnerProtected then reply_error 403 (error_Error e)
  else if error_Is e ErrLastOwner then reply_error 409 (error_Error e)
  else reply_error 500 "could not update user".

(** The guard on the caller, and the answer to the change. *)
Definition user_change (caller : option User) (targetID : uuid) (own : string) (k : User -> M (res Reply unit))
  : M (res Reply unit) :=
  match caller with
  | None => refuse 401 "unauthorized"
  | Some c => if (user_ID c =? targetID)%N then refuse 400 own else k c
  end.

Definition answer_change (m : M unit) : M (res Reply unit) :=
  let* r := attempt m in
  ret match r with Err e => Err (respondUserChangeError e) | Ok _ => Ok tt end.

Definition UpdateUserRoleHandler (idParam : string) (caller : option User) (body : res string string) : M (res Reply unit) :=
  match uuid_parse idParam with
  | None => refuse 400 "invalid ID format"
  | Some targetID =>
    match body with
    | Err e => refuse 400 e
    | Ok role =>
      if RoleWeight role =? 0 then refuse 400 invalid_role
      else user_change caller targetID "cannot change your own role" (fun c =>
        if String.eqb role RoleOwner && negb (String.eqb (user_Role c) RoleOwner)
        then refuse 403 "only owners can promote to owner"
        else answer_change (UpdateUserRole (user_Role c) targetID role))
    end
  end.

Definition ToggleUserActive (idParam : string) (caller : option User) (body : res string bool) : M (res Reply unit) :=
  match uuid_parse idParam with
  | None => refuse 400 "invalid ID format"
  | Some targetID =>
    match body with
    | Err e => refuse 400 e
    | Ok isActive => user_change caller targetID "cannot disable your own account" (fun c =>
        answer_change (SetUserActive (user_Role c) targetID isActive))
    end
  end.

Definition DeleteUserHandler (idParam : string) (caller : option User) : M (res Reply unit) :=
  match uuid_parse idParam with
  | None => refuse 400 "invalid ID format"
  | Some targetID => user_change caller targetID "cannot delete your own account" (fun c =>
      answer_change (DeleteUser (user_Role c) targetID))
  end.

Definition GetActivityLogsHandler : M (res Reply (list ActivityLog)) :=
  let* r := attempt (GetActivityLogs 100) in
  match r with Err _ => refuse 500 "could not fetch activity logs" | Ok l => ret (Ok l) end.

Definition GetUserPermissionsHandler (idParam : string) : M (res Reply (list (string * bool))) :=
  match uuid_parse idParam with
  | None => refuse 400 "invalid ID format"
  | Some targetID =>
    let* r := attempt (GetUserPermissions targetID) in
    match r with Err _ => refuse 500 "could not fetch permissions" | Ok l => ret (Ok l) end
  end.

(** The loop over the overrides: the first error ends it, and what came before
    stays. *)
Fixpoint set_permissions (targetID : uuid) (l : list (string * bool)) : M (res Reply unit) :=
  match l with
  | [] => ret (Ok tt)
  | (permKey, granted) :: l' =>
    let* r := attempt (SetUserPermission targetID permKey granted) in
    match r with Err e => refuse 400 (error_Error e) | Ok _ => set_permissions targetID l' end
  end.

Definition SetUserPermissions (idParam : string) (body : res string (list (string * bool))) : M (res Reply unit) :=
  match uuid_parse idParam with
  | None => refuse 400 "invalid ID format"
  | Some targetID => match body with Err e => refuse 400 e | Ok l => set_permissions targetID l end
  end.
End admin_handlers.

(** ** Invitations *)

Section invitation_handlers.
Context `{U : Unicode} `{P : Platform}.

Definition CreateInvitationHandler (user : User) (idParam : string) (body : res string CreateInvitationRequest)
  : M (res Reply ServerInvitation) :=
  match uuid_parse idParam with
  | None => refuse 400 "invalid ID format"
  | Some serverID =>
    match body with
    | Err e => refuse 400 e
    | Ok req =>
      let* r := attempt (CreateInvitation serverID user req) in
      match r with
      | Err e => if error_Is e ErrInvalidMemberRole then refuse 400 (error_Error e)
                 else if error_Is e ErrInvitationExceedsInviter then refuse 403 (error_Error e)
                 else refuse 500 "could not create invitation"
      | Ok inv => ret (Ok inv)
      end
    end
  end.

Definition ListInvitationsHandler (idParam : string) : M (res Reply (list ServerInvitation)) :=
  match uuid_parse idParam with
  | None => refuse 400 "invalid ID format"
  | Some serverID =>
    let* r := attempt (ListInvitations serverID) in
    match r with Err _ => refuse 500 "could not list invitations" | Ok l => ret (Ok l) end
  end.

Definition RevokeInvitationHandler (idParam invParam : string) : M (res Reply unit) :=
  match uuid_parse idParam with
  | None => refuse 400 "invalid ID format"
  | Some serverID =>
    match uuid_parse invParam with
    | None => refuse 400 "invalid ID format"
    | Some invID =>
      let* r := attempt (RevokeInvitation serverID invID) in
      match r with
      | Err e => if error_Is e ErrInvitationNotFound then refuse 404 "invitation not found"
                 else refuse 500 "could not revoke invitation"
      | Ok _ => ret (Ok tt)
      end
    end
  end.

Definition AcceptInvitationHandler (user : User) (token : string) : M (res Reply unit) :=
  let* r := attempt (AcceptInvitation token (user_ID user) (user_Email user)) in
  match r with
  | Err e => if error_Is e ErrInvitationNotFound then refuse 404 "invitation not found"
             else if error_Is e ErrInvitationForbidden then refuse 403 "invitation was issued to a different account"
             else if error_Is e ErrInvitationExpired then refuse 410 "invitation has expired"
             else if error_Is e ErrInvitationUsed then refuse 409 "invitation already used or revoked"
             else refuse 500 "could not accept invitation"
  | Ok _ => ret (Ok tt)
  end.

Definition DeclineInvitationHandler (token : string) : M (res Reply unit) :=
  let* r := attempt (DeclineInvitation token) in
  match r with
  | Err e => if error_Is e ErrInvitationNotFound then refuse 404 "invitation not found"
             else refuse 500 "could not decline invitation"
  | Ok _ => ret (Ok tt)
  end.

Definition ListMyInvitationsHandler (user : User) : M (res Reply (list ServerInvitation)) :=
  let* r := attempt (ListMyInvitations (user_Email user)) in
  match r with Err _ => refuse 500 "could not list invitations" | Ok l => ret (Ok l) end.
End invitation_handlers.

(** ** Theorems: the session cookie *)

Lemma HasPrefix_split (s p : string) : HasPrefix s p = true -> exists t, s = p +:+ t.
Proof.
  revert s. induction p as [|c p IH]; intros s; [by exists s|]. destruct s as [|a s]; [done|].
  unfold HasPrefix. simpl. destruct (Ascii.ascii_dec c a) as [->|]; [|done].
  intros H. destruct (IH s H) as [t ->]. by exists t.
Qed.

Section session_cookie.
Context `{U : Unicode} `{P : Platform} `{J : Json LoginResult} `{G : Gin} `{GL : !GinLaws G} (cfg : Config) (secure : bool).

(** One new session row of [user] for [token]. *)
Definition opens_session (user : User) (token : string) (w w' : World) : Prop :=
  exists id ip ua, sessions (w_db w) !! id = None
  /\ sessions (w_db w') = <[id := issued_session id user token ip ua (w_now w)]> (sessions (w_db w))
  /\ is_Some (users (w_db w') !! user_ID user).

(** A method that opens one session or none; it may stop at the second factor
    if [partial]. *)
Definition signs (partial : bool) (m : M LoginResult) : Prop :=
  forall w r w', m w = (r, w') ->
  match r with
  | Err _ => sessions (w_db w') = sessions (w_db w)
  | Ok r => if lr_RequiresTOTP r then partial = true /\ sessions (w_db w') = sessions (w_db w)
            else exists user, lr_User r = Some user /\ opens_session user (lr_RefreshToken r) w w'
  end.

(** What keeps the sessions and the clock. *)
Definition keeps_sessions {A} (m : M A) : Prop := timeless m /\ forall t, preserves (fun d => sessions d = t) m.

Lemma keeps_sessions_run {A} (m : M A) w r w' : keeps_sessions m -> m w = (r, w') ->
  sessions (w_db w') = sessions (w_db w) /\ w_now w' = w_now w.
Proof.
  intros [Ht Hp] E. specialize (Ht w). specialize (Hp (sessions (w_db w)) w eq_refl). by rewrite E in Ht, Hp.
Qed.

Lemma signs_bind b {A} (m : M A) (k : A -> M LoginResult) :
  keeps_sessions m -> (forall a, signs b (k a)) -> signs b (bind m k).
Proof.
  intros Hm Hk w r w' [(a & w1 & E & H)|(e & E & ->)]%bind_inv; apply keeps_sessions_run in E as [Es En]; try done.
  specialize (Hk a w1 r w' H). destruct r as [r|e]; [|congruence].
  destruct (lr_RequiresTOTP r); [destruct Hk; split; congruence|]. destruct Hk as (u & Hu & id & ip & ua & Hs).
  exists u. split; [done|]. exists id, ip, ua. by rewrite <- En, <- Es.
Qed.

Lemma signs_fail b e : signs b (fail e).
Proof. by intros w r w' [-> ->]%fail_inv. Qed.

Lemma issueFullTokens_fail user ip ua w e w' :
  issueFullTokens cfg user ip ua w = (Err e, w') -> w_db w' = w_db w.
Proof.
  unfold issueFullTokens, signAccessToken, generateSecureToken, new_uuid.
  intros [(? & w1 & (_ & D1 & _)%rand_inv & H)|(? & (? & _)%rand_inv & _)]%bind_inv; [|done].
  apply bind_inv in H as [(? & w2 & Hw%wrap_ok & H)|(? & [(? & ? & _)|(? & _ & Hw)]%wrap_inv & _)];
    [|done|by apply bind_inv in Hw as [(? & ? & _ & (? & _)%ret_inv)|(? & (? & _)%now_inv & _)]].
  apply bind_ok in Hw as (? & w2' & (_ & ->)%now_inv & (_ & ->)%ret_inv).
  apply bind_inv in H as [(? & w3 & (D3 & _)%wrap_ok%rand_hex_inv & H)|(? & [(? & ? & _)|(? & _ & Hw)]%wrap_inv & _)];
    [|done|by unfold rand_hex in Hw; apply bind_inv in Hw as [(? & ? & _ & (? & _)%ret_inv)|(? & (? & _)%rand_inv & _)]].
  apply bind_inv in H as [(? & w4 & (_ & ->)%now_inv & H)|(? & (? & _)%now_inv & _)]; [|done].
  apply bind_inv in H as [(? & w5 & (_ & D5 & _)%rand_inv & H)|(? & (? & _)%rand_inv & _)]; [|done].
  apply bind_inv in H as [(? & w6 & _ & H)|(? & [(? & ? & _)|(? & _ & He)]%wrap_inv & _)]; [|done|].
  - apply bind_inv in H as [(? & ? & _ & (? & _)%ret_inv)|(? & (? & _)%ignore_inv & _)]; done.
  - apply exec_inv in He as (_ & _ & _ & _ & [(? & ? & ? & _)|(? & _ & -> & _)]); [done|congruence].
Qed.

Lemma signs_issue b user ip ua : signs b (issueFullTokens cfg user ip ua).
Proof.
  intros w [r|e] w' H; [|by rewrite (issueFullTokens_fail _ _ _ _ _ _ H)].
  apply issueFullTokens_ok in H as (Hu & -> & _ & [v Hv] & id & Hn & _ & Hs & Husers).
  exists user. split; [done|]. exists id, ip, ua. split_and!; [done | done |].
  destruct Husers as [->| ->]; [by exists v|]. rewrite lookup_alter_eq, Hv. by eexists.
Qed.

Lemma signs_Login e p ip ua : signs true (Login cfg e p ip ua).
Proof.
  unfold Login. apply signs_bind; [split; [unfold findUserByEmail; solve_timeless | intros t; unfold findUserByEmail; solve_preserves]|].
  intros [user|er]; [|destruct (error_Is _ _); apply signs_fail].
  destruct (negb _); [apply signs_fail|]. destruct (negb _); [apply signs_fail|].
  destruct (user_TOTPEnabled user); [|apply signs_issue].
  apply signs_bind; [unfold issuePartialToken; split; [solve_timeless | intros t; solve_preserves]|].
  intros tok. by intros w r w' [-> ->]%ret_inv.
Qed.

Lemma findUserByID_keeps_sessions msg id : keeps_sessions (wrap msg (findUserByID cfg id)).
Proof. unfold findUserByID. split; [solve_timeless | intros t; solve_preserves]. Qed.

Lemma signs_VerifyTOTP t c ip ua : signs false (VerifyTOTP cfg t c ip ua).
Proof.
  unfold VerifyTOTP. apply signs_bind; [split; [done | intros t'; solve_preserves]|]. intros t0.
  repeat lazymatch goal with
  | |- signs _ (fail _) => apply signs_fail
  | |- signs _ (issueFullTokens _ _ _ _) => apply signs_issue
  | |- signs _ (bind (wrap _ _) _) =>
    apply signs_bind; [apply findUserByID_keeps_sessions|intros]
  | |- signs _ (bind now _) => apply signs_bind; [split; [done | intros; solve_preserves]|intros]
  | |- signs _ (match ?x with _ => _ end) => destruct x eqn:?
  end.
Qed.

Lemma signs_CompleteSetup code e u p ip ua : signs false (CompleteSetup cfg code e u p ip ua).
Proof.
  unfold CompleteSetup. destruct (negb _); [apply signs_fail|].
  apply signs_bind; [unfold users_exist; split; [solve_timeless | intros; solve_preserves]|]. intros [|]; [apply signs_fail|].
  destruct (negb _); [apply signs_fail|]. cbv zeta. destruct (negb _); [apply signs_fail|].
  destruct (negb _); [apply signs_fail|]. destruct (validatePasswordForRole _ _); [|apply signs_fail].
  apply signs_bind; [unfold hash_password; split; [solve_timeless | intros; solve_preserves]|]. intros h.
  apply signs_bind.
  { unfold create_owner, users_exist, create_user, log_setup. split; [solve_timeless | intros t; solve_preserves].
    - apply preserves_exec. intros d ? d' <- H. unfold insert_user in H. cbv zeta in H.
      repeat (destruct (exists_row _ _) in H; [done|]). repeat (destruct (negb _) in H; [done|]).
      destruct (_ =? 0) in H; [done|]. destruct (insert_row _ _ _) in H; [|done]. by injection H as _ <-.
    - apply preserves_exec. intros d ? d' <- H. destruct (_ && _) in H; [done|]. by injection H as _ <-. }
  intros user w r w' H. apply bind_inv in H as [(x & w1 & (r0 & [= ->] & E)%attempt_inv & H)|(x & (? & ? & _)%attempt_inv & _)]; [|done].
  apply (signs_issue false) in E. destruct r0 as [r0|er].
  - by apply ret_inv in H as [-> ->].
  - by apply fail_inv in H as [-> ->].
Qed.

Lemma setRefreshCookie_fresh token :
  setRefreshCookie secure token []
  = [cookie_line (refresh_cookie secure token refreshCookieMaxAge) +:+ "; SameSite=Strict"].
Proof.
  unfold setRefreshCookie. simpl. f_equal. unfold same_site.
  pose proof (cookie_line_name (refresh_cookie secure token refreshCookieMaxAge)) as H.
  cbn [ck_Name refresh_cookie] in H. apply HasPrefix_split in H as [s ->].
  rewrite str_app_assoc, str_take_app, String.eqb_refl, andb_true_r.
  replace (_ <? _) with true; [done|]. symmetry. apply Z.ltb_lt. unfold len. rewrite str_length_app. simpl. lia.
Qed.

(** The handlers that sign a user in from credentials. *)
Inductive sign_in_request : M (res Reply SignIn * list string) -> Prop :=
| req_login body ip ua : sign_in_request (LoginHandler cfg secure body ip ua)
| req_totp body ip ua : sign_in_request (VerifyTOTPHandler cfg secure body ip ua)
| req_setup body ip ua : sign_in_request (CompleteSetupHandler cfg secure body ip ua).

Definition signed_reply (r : res Reply SignIn) (cookies : list string) (w w' : World) : Prop :=
  match r with
  | Ok (SignedIn _ user) =>
    exists u token, user = Some u
    /\ cookies = [cookie_line (mkCookie "refresh_token" token 604800 "/api/v1/auth" "" secure true)
                  +:+ "; SameSite=Strict"]
    /\ opens_session u token w w'
  | _ => cookies = [] /\ sessions (w_db w') = sessions (w_db w)
  end.

Lemma refused_quietly st msg r cookies w w1 w' :
  refuse_bare st msg w1 = (Ok (r, cookies), w') -> sessions (w_db w1) = sessions (w_db w) ->
  signed_reply r cookies w w'.
Proof. by intros [[= -> ->] ->]%ret_inv ?. Qed.

Lemma signed_in b res r cookies w w1 w' :
  (if lr_RequiresTOTP res then b = true /\ sessions (w_db w1) = sessions (w_db w)
   else exists user, lr_User res = Some user /\ opens_session user (lr_RefreshToken res) w w1) ->
  b = false \/ lr_RequiresTOTP res = false ->
  sign_in secure res w1 = (Ok (r, cookies), w') -> signed_reply r cookies w w'.
Proof.
  intros H Hb [[= -> ->] ->]%ret_inv. destruct (lr_RequiresTOTP res); [destruct H as [-> _]; by destruct Hb|].
  destruct H as (u & Hu & Ho). simpl. rewrite setRefreshCookie_fresh, Hu. by exists u, (lr_RefreshToken res).
Qed.

(** Signing in: a reply that signs a user in carries exactly one cookie,
    marked HttpOnly, SameSite=Strict, for the path of the auth routes and
    secure as configured, and its token is that of one new session of that
    user, stored for as long as the cookie lives; a reply that refuses or asks
    for the second factor carries no cookie and opens no session. *)
Theorem session_cookie (m : M (res Reply SignIn * list string)) (w w' : World)
    (r : res Reply SignIn) (cookies : list string) :
  sign_in_request m -> m w = (Ok (r, cookies), w') -> signed_reply r cookies w w'.
Proof.
  intros Hm. destruct Hm as [body ip ua|body ip ua|body ip ua].
  - unfold LoginHandler. destruct body as [[e p]|e]; [|by intros [[= -> ->] ->]%ret_inv].
    intros (r0 & w1 & (r1 & [= ->] & E%signs_Login)%attempt_inv & H)%bind_ok.
    destruct r1 as [res|er]; [|repeat destruct (error_Is er _); by eapply refused_quietly].
    destruct (lr_RequiresTOTP res) eqn:Et; [by destruct E; apply ret_inv in H as [[= -> ->] ->]|].
    eapply (signed_in true); rewrite ?Et; eauto.
  - unfold VerifyTOTPHandler. destruct body as [[c t]|e]; [|by intros [[= -> ->] ->]%ret_inv].
    intros (r0 & w1 & (r1 & [= ->] & E%signs_VerifyTOTP)%attempt_inv & H)%bind_ok.
    destruct r1 as [res|er]; [|destruct (error_Is er _); by eapply refused_quietly].
    eapply (signed_in false); eauto.
  - unfold CompleteSetupHandler. destruct (negb _); [by intros [[= -> ->] ->]%ret_inv|].
    destruct body as [[[[c e] u] p]|]; [|by intros [[= -> ->] ->]%ret_inv].
    intros (r0 & w1 & (r1 & [= ->] & E%signs_CompleteSetup)%attempt_inv & H)%bind_ok.
    destruct r1 as [res|er]; [eapply (signed_in false); eauto|].
    destruct (error_Is er _); [by eapply refused_quietly|]. destruct (error_Is er _); [by eapply refused_quietly|].
    destruct (as_SetupInputError er); [by eapply refused_quietly|].
    destruct (error_Is er _); by eapply refused_quietly.
Qed.
End session_cookie.

(** ** Theorems: administration *)

Section administration.
Context `{U : Unicode} `{P : Platform}.

(** The requests of [handlers/admin.go] on accounts. *)
Inductive admin_request (caller : option User) : forall {A}, M (res Reply A) -> Prop :=
| req_create body : admin_request caller (CreateUser caller body)
| req_role i body : admin_request caller (UpdateUserRoleHandler i caller body)
| req_active i body : admin_request caller (ToggleUserActive i caller body)
| req_delete i : admin_request caller (DeleteUserHandler i caller)
| req_permissions i body : admin_request caller (SetUserPermissions i body)
| req_list : admin_request caller ListUsersHandler
| req_logs : admin_request caller GetActivityLogsHandler
| req_overrides i : admin_request caller (GetUserPermissionsHandler i).

(** What a caller may do to the accounts. *)
Definition bounded (c : User) (ok : bool) (w w' : World) : Prop :=
  (user_Role c <> RoleOwner -> forall i u, user_Role u = RoleOwner ->
     users (w_db w') !! i = Some u <-> users (w_db w) !! i = Some u)
  /\ (forall u, users (w_db w) !! user_ID c = Some u -> users (w_db w') !! user_ID c = Some u)
  /\ (ok = false -> users (w_db w') = users (w_db w)).

Lemma bounded_same c ok w w' : users (w_db w') = users (w_db w) -> bounded c ok w w'.
Proof. intros H. unfold bounded. by rewrite H. Qed.

Lemma bounded_preserves c {A} (m : M A) ok w r w' :
  (forall t, preserves (fun d => users d = t) m) -> m w = (r, w') -> bounded c ok w w'.
Proof. intros Hm E. apply bounded_same. specialize (Hm _ w eq_refl). by rewrite E in Hm. Qed.

(** A method that adds one account of that role, or fails and adds none. *)
Definition adds (role : string) {A} (m : M A) : Prop :=
  forall w r w', m w = (r, w') ->
  if is_ok r then exists id v, users (w_db w) !! id = None /\ users (w_db w') = <[id := v]> (users (w_db w)) /\ user_Role v = role
  else users (w_db w') = users (w_db w).

Lemma adds_bind role {A B} (m : M A) (k : A -> M B) :
  (forall t, preserves (fun d => users d = t) m) -> (forall a, adds role (k a)) -> adds role (bind m k).
Proof.
  intros Hm Hk w r w' [(a & w1 & E & H)|(er & E & ->)]%bind_inv; pose proof (Hm _ w eq_refl) as Hu;
    rewrite E in Hu; simpl in Hu; [|done]. rewrite <- Hu. by eapply Hk.
Qed.

Lemma adds_fail role {A} e : adds role (@fail A e).
Proof. by intros w r w' [-> ->]%fail_inv. Qed.

Lemma adds_wrap role {A} msg (m : M A) : adds role m -> adds role (wrap msg m).
Proof. intros Hm w r w' [(a & -> & E)|(e & -> & E)]%wrap_inv; by apply Hm in E. Qed.

Lemma adds_create_user role id e n h : adds role (create_user id e n h role).
Proof.
  unfold create_user. apply adds_bind; [intros; solve_preserves|]. intros t w r w' E.
  apply exec_inv in E as (_ & _ & _ & _ & [(a & d & -> & E & ->)|(er & -> & -> & _)]); [|done].
  destruct (insert_user _ _ _ _ _ _ _) as [d'|] eqn:Ei; [|done]. injection E as _ <-.
  apply insert_user_inv in Ei as (Hn & _ & ->). simpl. eauto.
Qed.

Lemma adds_CreateUserByAdmin e n p role : adds role (CreateUserByAdmin e n p role).
Proof.
  unfold CreateUserByAdmin, count_email, count_username, hash_password. cbv zeta.
  repeat lazymatch goal with
  | |- adds _ (fail _) => apply adds_fail
  | |- adds _ (wrap _ (create_user _ _ _ _ _)) => apply adds_wrap, adds_create_user
  | |- adds _ (bind _ _) => apply adds_bind; [intros; solve_preserves|intros]
  | |- adds _ (match ?x with _ => _ end) => destruct x
  end.
Qed.

(** The changes of account [t] on behalf of role [c]. *)
Definition change_of (c : string) (t : uuid) (m : M unit) : Prop :=
  m = DeleteUser c t \/ (exists r, m = UpdateUserRole c t r) \/ exists a, m = SetUserActive c t a.

(** A change leaves the other accounts alone, and a failed one all. *)
Lemma change_frame c t m i : change_of c t m ->
  i <> t -> forall x, preserves (fun d => users d !! i = x) m.
Proof.
  intros Hm Hi x. destruct Hm as [->|[[r ->]|[a ->]]].
  - unfold DeleteUser, adminTargetChange. solve_preserves; apply preserves_exec; intros d ? d' Hd H.
    + by injection H as _ <-.
    + unfold delete_user in H. destruct (exists_row _ _); [done|]. injection H as _ <-. simpl. by rewrite lookup_delete_ne.
  - unfold UpdateUserRole, adminTargetChange. solve_preserves; apply preserves_exec; intros d ? d' Hd H.
    destruct (_ =? 0); [done|]. injection H as _ <-. simpl. by rewrite lookup_alter_ne.
  - unfold SetUserActive, adminTargetChange, update_user. solve_preserves; apply preserves_exec; intros d ? d' Hd H.
    injection H as _ <-. simpl. by rewrite lookup_alter_ne.
Qed.

Lemma change_fails c t m w e w' : change_of c t m ->
  m w = (Err e, w') -> w_db w' = w_db w.
Proof.
  intros [->|[[r ->]|[a ->]]].
  2: unfold UpdateUserRole; destruct (_ && _); [by intros [_ ->]%fail_inv|].
  all: intros [(? & _ & ->)|(? & ? & ? & ? & _)]%adminTargetChange_inv; done.
Qed.

Lemma answered_change (c : User) t m w r w' :
  change_of (user_Role c) t m ->
  user_ID c <> t -> answer_change m w = (Ok r, w') -> bounded c (is_ok r) w w'.
Proof.
  intros Hm Ht (x & w1 & (r0 & [= ->] & E)%attempt_inv & [[= ->] ->]%ret_inv)%bind_ok. split_and!.
  - intros Hc i u Hu. pose proof (owner_protected (user_Role c) m w i u) as Ho. rewrite E in Ho. apply Ho; [|done..].
    destruct Hm as [->|[[? ->]|[? ->]]]; constructor.
  - intros u Hu. pose proof (change_frame _ _ _ _ Hm Ht (Some u) w Hu) as Hf. by rewrite E in Hf.
  - destruct r0 as [[]|e]; [done|]. intros _. by erewrite (change_fails _ _ _ _ _ _ Hm E).
Qed.

Ltac solve_refused := intros [_ ->]%ret_inv; by apply bounded_same.

(** C28. Administration does not escalate: whatever request a caller sends to
    the account routes and whatever fails on the way, a caller who is not an
    owner neither makes, changes nor removes an owner; nobody changes or
    removes their own account there; and a refused request changes no account. *)
Theorem admin_requests_bounded {A} (c : User) (m : M (res Reply A)) (r : res Reply A) (w w' : World) :
  admin_request (Some c) m -> m w = (Ok r, w') -> bounded c (is_ok r) w w'.
Proof.
  intros Hm. destruct Hm as [body|i body|i body|i|i body| | |i].
  - unfold CreateUser. destruct body as [req|e]; [|solve_refused].
    destruct (_ =? 0); [solve_refused|].
    destruct (_ && _) eqn:Eo; [solve_refused|].
    intros (x & w1 & (r0 & [= ->] & E%adds_CreateUserByAdmin)%attempt_inv & H)%bind_ok.
    destruct r0 as [v0|e]; apply ret_inv in H as [[= ->] ->]; [|by apply bounded_same].
    destruct E as (id & v & Hn & Hu & Hv). unfold bounded. rewrite Hu. split_and!; [| |done].
    + intros Hc k u Ho. destruct (decide (k = id)) as [->|]; [|by rewrite lookup_insert_ne].
      rewrite lookup_insert_eq. split; [|by rewrite Hn]. intros [= ->]. exfalso.
      rewrite <- Hv, Ho in Eo. simpl in Eo. by apply negb_false_iff, String.eqb_eq in Eo.
    + intros u Hl. rewrite lookup_insert_ne; [done|]. intros ->. congruence.
  - unfold UpdateUserRoleHandler. destruct (uuid_parse i) as [t|]; [|solve_refused].
    destruct body as [role|e]; [|solve_refused].
    destruct (_ =? 0); [solve_refused|]. unfold user_change.
    destruct (_ =? _)%N eqn:Et; [solve_refused|].
    destruct (_ && _); [solve_refused|].
    eapply answered_change; [unfold change_of; eauto | by apply N.eqb_neq].
  - unfold ToggleUserActive. destruct (uuid_parse i) as [t|]; [|solve_refused].
    destruct body as [a|e]; [|solve_refused]. unfold user_change.
    destruct (_ =? _)%N eqn:Et; [solve_refused|].
    eapply answered_change; [unfold change_of; eauto | by apply N.eqb_neq].
  - unfold DeleteUserHandler. destruct (uuid_parse i) as [t|]; [|solve_refused].
    unfold user_change. destruct (_ =? _)%N eqn:Et; [solve_refused|].
    eapply answered_change; [unfold change_of; eauto | by apply N.eqb_neq].
  - apply bounded_preserves. intros t. unfold SetUserPermissions, refuse. solve_preserves.
    match goal with l : list _ |- _ => induction l as [|[k g] l IH] end; cbn [set_permissions]; [solve_preserves|].
    unfold refuse, SetUserPermission. solve_preserves; [|done]. apply preserves_exec. intros d ? d' Hd H.
    repeat (destruct (decide _) in H; [|done]). by injection H as _ <-.
  - apply bounded_preserves. intros t. unfold ListUsersHandler, ListUsers, refuse. solve_preserves.
  - apply bounded_preserves. intros t. unfold GetActivityLogsHandler, GetActivityLogs, refuse. solve_preserves.
  - apply bounded_preserves. intros t. unfold GetUserPermissionsHandler, GetUserPermissions, refuse. solve_preserves.
Qed.
End administration.

(** ** Theorems: the user's own account *)

Section self_service.
Context `{U : Unicode} `{P : Platform} `{J : Json LoginResult} (cfg : Config).

(** The requests of a signed-in user about their own account. *)
Inductive self_request (u : User) : forall {A}, M A -> Prop :=
| req_me : self_request u (MeHandler cfg (Some u))
| req_password body : self_request u (ChangePasswordHandler cfg (Some u) body)
| req_setup_totp : self_request u (SetupTOTPHandler cfg (Some u))
| req_confirm_totp body : self_request u (ConfirmTOTPHandler cfg (Some u) body)
| req_disable_totp body : self_request u (DisableTOTPHandler cfg (Some u) body)
| req_activity : self_request u (GetActivityHandler (Some u))
| req_sessions : self_request u (GetSessionsHandler (Some u))
| req_revoke i : self_request u (RevokeSessionHandler (Some u) i)
| req_profile : self_request u (GetProfileHandler u)
| req_update body : self_request u (UpdateProfileHandler u body)
| req_prefs : self_request u (GetNotificationPrefsHandler u)
| req_set_prefs body : self_request u (SetNotificationPrefsHandler u body).

(** Who an account is and what it may do. *)
Definition identity (u : User) : uuid * string * string * string * bool * Z :=
  (user_ID u, user_Email u, user_Username u, user_Role u, user_IsActive u, user_CreatedAt u).

(** A session is kept, or is one of [uid] that is now revoked. *)
Definition own_session (uid : uuid) (s0 s : Session) : Prop :=
  s = s0 \/ (session_UserID s0 = uid /\ s = session_with_Revoked true s0).

(** From [d0] to [d], at most what is [uid]'s own has changed: their row but
    for their identity, their sessions by revocation, their preferences. *)
Definition own_change (uid : uuid) (d0 d : DB) : Prop :=
  exists us ss ps, d = with_users us (with_sessions ss (with_notification_prefs ps d0))
  /\ (forall i, i <> uid -> us !! i = users d0 !! i)
  /\ identity <$> us !! uid = identity <$> users d0 !! uid
  /\ (forall i, option_relation (own_session uid) (fun _ => False) (fun _ => False) (sessions d0 !! i) (ss !! i))
  /\ (forall k, fst k <> uid -> ps !! k = notification_prefs d0 !! k).

Lemma own_refl uid d : own_change uid d d.
Proof.
  exists (users d), (sessions d), (notification_prefs d). split_and!; try done; [by destruct d|].
  intros i. destruct (sessions d !! i); simpl; [by left | done].
Qed.

Lemma own_update uid f d0 d : (forall u, identity (f u) = identity u) ->
  own_change uid d0 d -> own_change uid d0 (with_users (alter f uid (users d)) d).
Proof.
  intros Hf (us & ss & ps & -> & Hu & Hi & Hs & Hp). exists (alter f uid us), ss, ps. split_and!; try done.
  - intros i Hn. rewrite lookup_alter_ne by done. by apply Hu.
  - rewrite lookup_alter_eq, <- Hi. destruct (us !! uid) as [u|]; simpl; [|done]. by rewrite Hf.
Qed.

Lemma own_update_user uid f d0 : (forall u, identity (f u) = identity u) ->
  preserves (own_change uid d0) (update_user uid f).
Proof. intros Hf. apply preserves_exec. intros d x d' Hd [= _ <-]. by apply own_update. Qed.

(** Sessions of [uid] may be revoked. *)
Lemma own_sessions uid (ss' : gmap uuid Session) d0 d :
  (forall i, ss' !! i = sessions d !! i
     \/ exists s, sessions d !! i = Some s /\ session_UserID s = uid /\ ss' !! i = Some (session_with_Revoked true s)) ->
  own_change uid d0 d -> own_change uid d0 (with_sessions ss' d).
Proof.
  intros Hn (us & ss & ps & -> & Hu & Hi & Hs & Hp). exists us, ss', ps. split_and!; try done.
  intros i. specialize (Hs i). simpl in Hn. destruct (Hn i) as [->|(s & Es & Hid & ->)]; [done|].
  rewrite Es in Hs. destruct (sessions d0 !! i) as [s0|]; simpl in *; [|done].
  destruct Hs as [->|[H0 ->]]; right; by split.
Qed.

Lemma own_revoke_all uid d0 : preserves (own_change uid d0) (exec (fun d =>
  Ok (tt, revoke_where (fun s => (session_UserID s =? uid)%N) d))).
Proof.
  apply preserves_exec. intros d x d' Hd [= _ <-]. apply own_sessions; [|done]. intros i.
  rewrite lookup_update_where. destruct (sessions d !! i) as [s|]; simpl; [|by left].
  destruct (_ =? _)%N eqn:E; [|by left]. right. exists s. split_and!; [done | by apply N.eqb_eq | done].
Qed.

Lemma own_revoke_one uid sid d0 : preserves (own_change uid d0) (exec (fun d =>
  match sessions d !! sid with
  | Some s => if (session_UserID s =? uid)%N
              then Ok (1, with_sessions (<[sid := session_with_Revoked true s]> (sessions d)) d) else Ok (0, d)
  | None => Ok (0, d)
  end)).
Proof.
  apply preserves_exec. intros d x d' Hd. destruct (sessions d !! sid) as [s|] eqn:Es; [|by intros [= _ <-]].
  destruct (_ =? _)%N eqn:E; [|by intros [= _ <-]]. intros [= _ <-]. apply own_sessions; [|done]. intros i.
  destruct (decide (i = sid)) as [->|]; [|left; by rewrite lookup_insert_ne].
  right. exists s. rewrite lookup_insert_eq. split_and!; [done | by apply N.eqb_eq | done].
Qed.

Lemma own_set_pref uid t v d0 : preserves (own_change uid d0) (exec (fun d =>
  if decide (is_Some (users d !! uid))
  then Ok (tt, with_notification_prefs (<[(uid, t) := v]> (notification_prefs d)) d)
  else Err (ErrConstraint "user_notification_prefs_user_id_fkey"))).
Proof.
  apply preserves_exec. intros d x d' (us & ss & ps & -> & Hu & Hi & Hs & Hp). destruct (decide _); [|done].
  intros [= _ <-]. exists us, ss, (<[(uid, t) := v]> ps). split_and!; try done. intros k Hk. rewrite lookup_insert_ne; [by apply Hp|].
  by intros <-.
Qed.

Lemma set_clauses_identity req u : identity (apply_clauses (set_clauses req) u) = identity u.
Proof. by destruct req as [[] [] [] []], u. Qed.

Lemma own_request {A} u (m : M A) d0 : self_request u m -> preserves (own_change (user_ID u) d0) m.
Proof.
  intros Hm. destruct Hm;
    unfold MeHandler, ChangePasswordHandler, SetupTOTPHandler, ConfirmTOTPHandler, DisableTOTPHandler,
      GetActivityHandler, GetSessionsHandler, RevokeSessionHandler, GetProfileHandler, UpdateProfileHandler,
      GetNotificationPrefsHandler, SetNotificationPrefsHandler, with_user, refuse, GetMe, ChangePassword, SetupTOTP,
      ConfirmTOTP, DisableTOTP, GetUserActivity, GetUserSessions, RevokeSession, GetProfile, UpdateProfile,
      GetNotificationPrefs, SetNotificationPref, findUserByID, hash_password; cbv zeta;
    solve_preserves; auto using Encrypt_preserves.
  all: try (apply own_update_user; by intros []).
  - apply own_revoke_all.
  - apply own_revoke_one.
  - apply own_update_user. intros v. apply set_clauses_identity.
  - unfold GetProfile. solve_preserves.
  - apply own_set_pref.
Qed.

(** Self-service is confined: a request of a signed-in user about their
    own account, whether it succeeds or fails, changes nothing but their own
    row, where identity, role and status stay, their own notification
    preferences, and their own sessions, which it can only revoke. *)
Theorem self_service_confined {A} (u : User) (m : M A) (w : World) :
  self_request u m -> own_change (user_ID u) (w_db w) (w_db (snd (m w))).
Proof. intros Hm. by apply (own_request u m (w_db w) Hm), own_refl. Qed.
End self_service.

(** ** Witnesses *)

(** The header lines of a browser cookie. *)
Definition sample_gin : Gin := {|
  cookie_line c := (ck_Name c +:+ "=") +:+ (ck_Value c +:+ "; Path=" +:+ ck_Path c
    +:+ (if ck_HttpOnly c then "; HttpOnly" else "") +:+ (if ck_Secure c then "; Secure" else ""))
|}.

#[export] Instance sample_gin_laws : GinLaws sample_gin.
Proof.
  constructor. intros c. unfold HasPrefix. cbn [cookie_line sample_gin].
  generalize (ck_Name c +:+ "="). intros s. generalize (ck_Value c +:+ "; Path=" +:+ ck_Path c
    +:+ (if ck_HttpOnly c then "; HttpOnly" else "") +:+ (if ck_Secure c then "; Secure" else "")). intros t.
  induction s as [|a s IH]; [by destruct t|]. rewrite str_app_cons. simpl. by destruct (Ascii.ascii_dec a a).
Qed.

#[local] Existing Instances ascii_tables sample_platform sample_json sample_gin.

Lemma session_cookie_witness :
  exists r cookies w',
    LoginHandler sample_cfg true (Ok ("root@example.com", "correct-horse-7")) "10.0.0.1" "ua" sample_world = (Ok (r, cookies), w')
    /\ length cookies = 1%nat /\ signed_reply true r cookies sample_world w'.
Proof.
  destruct (LoginHandler sample_cfg true (Ok ("root@example.com", "correct-horse-7")) "10.0.0.1" "ua" sample_world)
    as [[[r cookies]|e] w'] eqn:E;
    [|apply (f_equal (fun x => is_ok (fst x))) in E; vm_compute in E; done].
  exists r, cookies, w'. split_and!; [done| |].
  - apply (f_equal (fun x => match fst x with Ok (_, l) => length l | _ => 0%nat end)) in E. vm_compute in E. by symmetry.
  - apply (session_cookie sample_cfg true
      (LoginHandler sample_cfg true (Ok ("root@example.com", "correct-horse-7")) "10.0.0.1" "ua") sample_world w' r cookies);
      [constructor | exact E].
Defined.

(** The admin 2 tries to delete the owner 1. *)
Lemma admin_requests_bounded_witness :
  exists r w', DeleteUserHandler (uuid_string 1) (Some (sample_account 2 "adm" RoleAdmin)) sample_world = (Ok r, w')
    /\ is_ok r = false /\ users (w_db w') = users (w_db sample_world).
Proof.
  destruct (DeleteUserHandler (uuid_string 1) (Some (sample_account 2 "adm" RoleAdmin)) sample_world)
    as [[r|e] w'] eqn:E; [|apply (f_equal (fun x => is_ok (fst x))) in E; vm_compute in E; done].
  assert (Hr : is_ok r = false).
  { apply (f_equal (fun x => match fst x with Ok r => is_ok r | _ => true end)) in E. vm_compute in E. by symmetry. }
  exists r, w'. split_and!; [done | done|].
  destruct (admin_requests_bounded (sample_account 2 "adm" RoleAdmin)
    (DeleteUserHandler (uuid_string 1) (Some (sample_account 2 "adm" RoleAdmin))) r sample_world w'
    (req_delete _ _) E) as (_ & _ & H). by apply H.
Defined.

Lemma self_service_confined_witness :
  let w' := snd (UpdateProfileHandler (sample_account 2 "adm" RoleAdmin)
                   (Ok (mkUpdateProfileRequest (Some "Ada") None None None)) sample_world) in
  own_change 2 (w_db sample_world) (w_db w')
  /\ match users (w_db w') !! 2%N with Some u => user_DisplayName u = Some "Ada" | None => False end.
Proof.
  split; [|vm_compute; done].
  apply (self_service_confined sample_cfg (sample_account 2 "adm" RoleAdmin)
    (UpdateProfileHandler (sample_account 2 "adm" RoleAdmin) (Ok (mkUpdateProfileRequest (Some "Ada") None None None)))
    sample_world). constructor.
Defined.

(** ** Findings *)

(** The overrides before the one that is refused stay. *)
Definition override_world : World :=
  with_db (with_permissions {["server.start"]} (w_db sample_world)) sample_world.

Example permissions_partly_applied :
  match SetUserPermissions (uuid_string 2) (Ok [("server.start", true); ("no.such.key", true)]) override_world with
  | (Ok (Err r), w') => reply_Status r = 400 /\ user_permissions (w_db w') !! (2%N, "server.start") = Some true
  | _ => False
  end.
Proof. vm_compute. done. Qed.

(** A disabled account that refreshes gets a server error, and keeps its
    cookie. *)
Definition disabled_world : World :=
  with_db (with_users (alter (user_with_IsActive false) 1%N (users (w_db sample_world))) (w_db sample_world)) sample_world.

Example disabled_refresh_is_a_server_error :
  fst (RefreshHandler sample_cfg true (fun _ => None) (Some "tok") "10.0.0.1" "ua" disabled_world)
  = Ok (Err (reply_error 500 "could not refresh token"), []).
Proof. vm_compute. done. Qed.
