(* ===== verification/PlayerHandlers.v ===== *)
(** * The player handlers

    Models [handlers/players.go] and [handlers/network_players.go], with
    [PlayerActivity] of [services/player_service.go]. *)

From stdpp Require Import base numbers list strings option gmap sets.
From Stdlib Require Import Ascii.
From S2P Require Import Prelude GoStrings Regex Store Roles Platform Players Servers Net Http ServerHandlers.

Local Open Scope Z_scope.

(** ** The dashboard *)

Definition hour : Z := 3600 * 10 ^ 9.

Record PlayerActivity := mkPlayerActivity {
  pa_OnlineByServer : gmap uuid nat;
  pa_OnlinePlayers : nat;
  (* the start of the hour and the number of players *)
  pa_Last24h : list (Z * nat)
}.

(** The server of a session's player. *)
Definition session_server (d : DB) (s : PlayerSessionRow) : option uuid :=
  player_ServerID <$> players d !! psession_PlayerID s.

(** [p.server_id = ANY($1)]. *)
Definition on_servers (ids : list uuid) (d : DB) (s : PlayerSessionRow) : bool :=
  match session_server d s with Some sid => bool_decide (sid ∈ ids) | None => false end.

(** [SELECT server_id, COUNT(...) ... GROUP BY server_id]. *)
Definition group_count (l : list uuid) : gmap uuid nat :=
  fold_right (fun k m => <[k := S (default O (m !! k))]> m) ∅ l.

Definition open_sessions (ids : list uuid) (d : DB) : list PlayerSessionRow :=
  rows (player_sessions d) (fun s => is_open s && on_servers ids d s).

Definition online_by_server (ids : list uuid) (d : DB) : gmap uuid nat :=
  group_count (omap (session_server d) (open_sessions ids d)).

(** The loop that sums the rows of the first query. *)
Definition total (m : gmap uuid nat) : nat := sum_list (map snd (map_to_list m)).

(** [generate_series(date_trunc('hour', NOW()) - INTERVAL '23 hours', ...)]. *)
Definition hours (t : Z) : list Z :=
  map (fun k => t / hour * hour - (23 - Z.of_nat k) * hour) (seq 0 24).

(** The join condition of a session and an hour. *)
Definition overlaps (t h : Z) (s : PlayerSessionRow) : bool :=
  (psession_JoinedAt s <? h + hour) && (h <=? default t (psession_LeftAt s)).

Definition players_in_hour (ids : list uuid) (t h : Z) (d : DB) : nat :=
  length (remove_dups (map psession_PlayerID
    (rows (player_sessions d) (fun s => overlaps t h s && on_servers ids d s)))).

Definition PlayerActivityOf (serverIDs : list uuid) : M PlayerActivity :=
  let* online := wrap "querying online players" (query (fun d => Ok (online_by_server serverIDs d))) in
  let* t := now in
  let* buckets := wrap "querying hourly players" (query (fun d =>
                    Ok (map (fun h => (h, players_in_hour serverIDs t h d)) (hours t)))) in
  ret (mkPlayerActivity online (total online) buckets).

(** ** Names *)

(** The loop runs over runes; the length counts bytes. *)
Definition username_rune (r : Z) : bool :=
  in_range 97 122 r || in_range 65 90 r || in_range 48 57 r || (r =? 95).

Definition isValidHytaleUsername (s : string) : bool :=
  if String.eqb s "" || (32 <? len s) then false
  else forallb (fun r => username_rune (rune_val r)) (runes s).

Section handlers.
Context `{U : Unicode} `{P : Platform}.

(** The report of a node: action, username and account. *)
Definition DaemonPlayerReport (idParam : string) (nodeID : option string)
    (body : res string (string * string * uuid)) : M (res Reply unit) :=
  callback idParam nodeID (fun serverID => with_body body (fun '(action, username, hytaleUUID) =>
    if negb (isValidHytaleUsername username) then refuse 400 "invalid username"
    else
      let* r := attempt (RecordPlayerEvent serverID action username hytaleUUID) in
      match r with Err _ => refuse 500 "could not record player event" | Ok _ => ret (Ok tt) end)).

Definition DashboardActivity (user : User) : M (res Reply PlayerActivity) :=
  let* r := attempt (ListServers (user_ID user) (user_Role user)) in
  match r with
  | Err _ => refuse 500 "could not load activity"
  | Ok servers =>
    let* a := attempt (PlayerActivityOf (map server_ID servers)) in
    match a with Err _ => refuse 500 "could not load activity" | Ok activity => ret (Ok activity) end
  end.

Definition ListPlayersHandler (idParam : string) : M (res Reply (list Player)) :=
  match uuid_parse idParam with
  | None => refuse 400 "invalid ID format"
  | Some serverID =>
    let* r := attempt (ListPlayers serverID) in
    match r with Err _ => refuse 500 "could not list players" | Ok l => ret (Ok l) end
  end.

(** The two ids of the routes on one player. *)
Definition with_player {A} (idParam playerParam : string) (k : uuid -> uuid -> M (res Reply A)) : M (res Reply A) :=
  match uuid_parse idParam with
  | None => refuse 400 "invalid ID format"
  | Some serverID =>
    match uuid_parse playerParam with
    | None => refuse 400 "invalid ID format"
    | Some playerID => k serverID playerID
    end
  end.

(** The answer of the handlers that pass on every error. *)
Definition answer_400 (m : M unit) : M (res Reply unit) :=
  let* r := attempt m in
  match r with Err e => refuse 400 (error_Error e) | Ok _ => ret (Ok tt) end.

(** The answer of the handlers that tell the errors apart. *)
Definition answer_player {A} (m : M A) (msg : string) : M (res Reply A) :=
  let* r := attempt m in
  match r with
  | Ok a => ret (Ok a)
  | Err e => if error_Is e ErrPlayerNotFound then refuse 404 "player not found"
             else if error_Is e ErrUnsafePlayerName then refuse 422 (error_Error e)
             else refuse 500 msg
  end.

(** The body is optional: a reason that cannot be read is empty. *)
Definition BanPlayerHandler (idParam playerParam : string) (caller : option User) (reason : res string string) : M (res Reply unit) :=
  with_player idParam playerParam (fun serverID playerID =>
    match caller with
    | None => refuse 401 "unauthorized"
    | Some c => answer_400 (BanPlayer serverID playerID (user_ID c) (match reason with Ok r => r | Err _ => "" end))
    end).

Definition UnbanPlayerHandler (idParam playerParam : string) : M (res Reply unit) :=
  with_player idParam playerParam (fun serverID playerID => answer_400 (UnbanPlayer serverID playerID)).

Definition SetWhitelistHandler (idParam playerParam : string) (body : res string bool) : M (res Reply unit) :=
  with_player idParam playerParam (fun serverID playerID =>
    match body with
    | Err e => refuse 400 e
    | Ok whitelisted => answer_400 (SetWhitelist serverID playerID whitelisted)
    end).

Definition KickPlayerHandler (idParam playerParam : string) (caller : option User) (reason : res string string) : M (res Reply unit) :=
  with_player idParam playerParam (fun serverID playerID =>
    answer_player (KickPlayer serverID playerID (match reason with Ok r => r | Err _ => "" end)
                     (match caller with Some c => user_Username c | None => "" end))
      "could not kick player").

Definition SetOpHandler (idParam playerParam : string) (user : User) (body : res string bool) : M (res Reply unit) :=
  with_player idParam playerParam (fun serverID playerID =>
    match body with
    | Err e => refuse 400 e
    | Ok op =>
      let* r := attempt (GetServer serverID (user_ID user) (user_Role user)) in
      match r with
      | Err e => ret (Err (serverError e))
      | Ok server =>
        if negb (CanRunConsoleCommand (ConsoleRole user (server_OwnerID server)) "op")
        then refuse 403 "changing op status needs the admin role"
        else answer_player (SetOp serverID playerID op) "could not update op status"
      end
    end).

Definition SetMuteHandler (idParam playerParam : string) (body : res string bool) : M (res Reply unit) :=
  with_player idParam playerParam (fun serverID playerID =>
    match body with
    | Err e => refuse 400 e
    | Ok muted => answer_player (SetMute serverID playerID muted) "could not update mute status"
    end).

Definition GetPlayerHandler (idParam playerParam : string) : M (res Reply Player) :=
  with_player idParam playerParam (fun serverID playerID =>
    answer_player (GetPlayer serverID playerID) "could not fetch player").

Definition GetPlayerSessionsHandler (idParam playerParam : string) : M (res Reply (list PlayerSessionRow)) :=
  with_player idParam playerParam (fun serverID playerID =>
    answer_player (GetPlayerSessions serverID playerID) "could not fetch sessions").

(** ** The whole installation *)

Definition ListNetworkPlayersHandler (caller : option User) : M (res Reply (list NetworkPlayer)) :=
  match caller with
  | None => refuse 401 "unauthorized"
  | Some c =>
    let* r := attempt (ListNetworkPlayers (user_ID c) (user_Role c)) in
    match r with Err _ => refuse 500 "could not list players" | Ok l => ret (Ok l) end
  end.

Definition network_change (uuidParam : string) (caller : option User) (m : uuid -> uuid -> M unit)
    (not_found msg : string) : M (res Reply unit) :=
  match uuid_parse uuidParam with
  | None => refuse 400 "invalid player uuid"
  | Some hytaleUUID =>
    match caller with
    | None => refuse 401 "unauthorized"
    | Some c =>
      let* r := attempt (m hytaleUUID (user_ID c)) in
      match r with
      | Ok _ => ret (Ok tt)
      | Err e => if error_Is e ErrPlayerNotFound then refuse 404 not_found else refuse 500 msg
      end
    end
  end.

Definition BanNetworkPlayerHandler (uuidParam : string) (caller : option User) (reason : res string string) : M (res Reply unit) :=
  network_change uuidParam caller
    (fun h by_ => BanNetworkPlayer h by_ (match reason with Ok r => r | Err _ => "" end))
    "player not found on any server" "could not ban player".

Definition UnbanNetworkPlayerHandler (uuidParam : string) (caller : option User) : M (res Reply unit) :=
  network_change uuidParam caller UnbanNetworkPlayer "no network ban for this player" "could not unban player".
End handlers.

(** ** Theorems: names *)

Lemma str_forallb_ext (f g : ascii -> bool) (s : string) :
  (forall a, f a = g a) -> str_forallb f s = str_forallb g s.
Proof. intros H. induction s as [|a s IH]; simpl; [done|]. by rewrite H, IH. Qed.

Lemma username_byte (a : ascii) : username_rune (byte_of a) = in_cls name_class a.
Proof. by destruct a as [[] [] [] [] [] [] [] []]. Qed.

(** The name check of the reports accepts exactly the names that the
    moderation of players puts into console lines: no player can be recorded
    whom a moderator cannot kick or ban. *)
Theorem username_checks_agree (s : string) : isValidHytaleUsername s = isSafePlayerName s.
Proof.
  assert (Hc : forallb (fun r => username_rune (rune_val r)) (runes s) = all_cls name_class s).
  { rewrite runes_ascii_test by (unfold username_rune, in_range; intros r ?; breflect; lia).
    apply str_forallb_ext, username_byte. }
  unfold isValidHytaleUsername, isSafePlayerName, playerNameRe. rewrite Hc. apply eq_true_iff_eq.
  rewrite match_rep_range_cls by lia. unfold len. destruct s as [|a s]; simpl String.eqb.
  - simpl. split; [done|]. simpl. lia.
  - cbn [orb]. destruct (_ <? _) eqn:E; breflect; [split; [done|lia]|].
    split; [intros ->; split; [simpl in *; lia | done] | by intros [_ ->]].
Qed.

(** ** Theorems: the dashboard *)

Lemma sum_list_perm (l l' : list nat) : l ≡ₚ l' -> sum_list l = sum_list l'.
Proof. induction 1; simpl in *; lia. Qed.

Lemma total_insert (m : gmap uuid nat) k n : total (<[k := n]> m) = (n + total (delete k m))%nat.
Proof.
  unfold total. rewrite <- insert_delete_eq.
  erewrite (sum_list_perm (map _ (map_to_list (<[k := n]> _))))
    by (apply Permutation_map, map_to_list_insert, lookup_delete_eq). done.
Qed.

Lemma sum_group_count l : total (group_count l) = length l.
Proof.
  induction l as [|k l IH]; simpl; [unfold total; by rewrite map_to_list_empty|].
  rewrite total_insert, <- IH. destruct (group_count l !! k) as [n|] eqn:E; simpl.
  - rewrite <- (insert_id _ _ _ E) at 2. by rewrite total_insert.
  - by rewrite delete_id.
Qed.

Lemma NoDup_map_filter (f : PlayerSessionRow -> uuid) (l : list PlayerSessionRow) :
  (forall k, (length (List.filter (fun s => (f s =? k)%N) l) <= 1)%nat) -> NoDup (map f l).
Proof.
  induction l as [|s l IH]; intros H; simpl; [constructor|]. constructor.
  - intros (s' & Hs' & Hin)%list_elem_of_fmap. specialize (H (f s)). simpl in H. rewrite N.eqb_refl in H. simpl in H.
    assert (Hf : s' ∈ List.filter (fun s0 => (f s0 =? f s)%N) l).
    { apply list_elem_of_In, filter_In. split; [by apply list_elem_of_In|]. by apply N.eqb_eq. }
    destruct (List.filter _ l); [by apply not_elem_of_nil in Hf|]. simpl in H. lia.
  - apply IH. intros k. specialize (H k). simpl in H. destruct (_ =? _)%N; simpl in H; lia.
Qed.

Section dashboard.
Context `{P : Platform}.

Lemma open_sessions_distinct ids d : ledger d -> NoDup (map psession_PlayerID (open_sessions ids d)).
Proof.
  intros HL. apply NoDup_map_filter. intros k. etrans; [|apply (ledger_one _ HL k)].
  unfold open_sessions, rows. rewrite filter_filter. apply length_filter_le.
  intros s Hs. unfold open_of. breflect. rewrite andb_true_iff. split; [done|]. by apply N.eqb_eq.
Qed.

Lemma open_sessions_servers ids d : length (omap (session_server d) (open_sessions ids d)) = length (open_sessions ids d).
Proof.
  assert (H : Forall (fun s => is_Some (session_server d s)) (open_sessions ids d)).
  { apply Forall_forall. intros s (_ & Hs)%elem_of_rows. breflect. unfold on_servers in *. by destruct (session_server d s). }
  induction H as [|s l [x Hx] _ IH]; [done|]. simpl. rewrite Hx. simpl. f_equal. exact IH.
Qed.

Lemma group_count_keys l k n : group_count l !! k = Some n -> k ∈ l.
Proof.
  revert n. induction l as [|a l IH]; intros n; simpl; [by rewrite lookup_empty|].
  destruct (decide (k = a)) as [->|]; [by left|]. rewrite lookup_insert_ne by done. right. by eapply IH.
Qed.

Lemma last_hour t : last (hours t) = Some (t / hour * hour) /\ length (hours t) = 24%nat.
Proof. unfold hours. simpl. split; [|done]. f_equal. lia. Qed.

Lemma current_hour t : t / hour * hour <= t < t / hour * hour + hour.
Proof. pose proof (Z.div_mod t hour). pose proof (Z.mod_pos_bound t hour). unfold hour in *. lia. Qed.

(** Every open session counts in the current hour. *)
Lemma online_in_current_hour ids t d : ledger d ->
  (forall i s, player_sessions d !! i = Some s -> psession_JoinedAt s <= t) ->
  (length (open_sessions ids d) <= players_in_hour ids t (t / hour * hour) d)%nat.
Proof.
  intros HL Hj. rewrite <- (length_fmap psession_PlayerID). apply submseteq_length, NoDup_submseteq.
  - by apply open_sessions_distinct.
  - intros k. rewrite elem_of_remove_dups, !list_elem_of_fmap. intros (s & -> & [[i Hi] Hs]%elem_of_rows).
    exists s. split; [done|]. apply elem_of_rows. split; [by exists i|]. breflect.
    apply andb_true_iff. split; [|done]. unfold overlaps, is_open in *.
    match goal with H : bool_decide _ = true |- _ => apply bool_decide_eq_true in H as -> end.
    pose proof (current_hour t). specialize (Hj i s Hi). simpl. apply andb_true_iff. split; [apply Z.ltb_lt | apply Z.leb_le]; lia.
Qed.

(** The dashboard agrees with itself and with the caller's rights: the
    servers it counts are visible to the caller, the players online are the
    open sessions on those servers, the chart has the 24 hours that end with
    the current one, and the current hour counts at least everyone online. *)
Theorem dashboard_consistent (user : User) (w w' : World) (a : PlayerActivity) :
  ledger (w_db w) ->
  (forall i s, player_sessions (w_db w) !! i = Some s -> psession_JoinedAt s <= w_now w) ->
  (forall k sv, servers (w_db w) !! k = Some sv -> server_ID sv = k) ->
  DashboardActivity user w = (Ok (Ok a), w') ->
  (forall sid n, pa_OnlineByServer a !! sid = Some n ->
     visible_server (w_db w) (user_ID user) (user_Role user) sid = true)
  /\ (exists ids, (forall sid, sid ∈ ids <-> visible_server (w_db w) (user_ID user) (user_Role user) sid = true)
      /\ pa_OnlinePlayers a = length (open_sessions ids (w_db w)))
  /\ map fst (pa_Last24h a) = hours (w_now w) /\ length (pa_Last24h a) = 24%nat
  /\ exists n, last (pa_Last24h a) = Some (w_now w / hour * hour, n) /\ (pa_OnlinePlayers a <= n)%nat.
Proof.
  intros HL Hj Hk (r & w1 & (r0 & [= ->] & E)%attempt_inv & H)%bind_ok.
  destruct r0 as [l|e]; [|by apply ret_inv in H as [? _]].
  assert (Hd1 : w_db w1 = w_db w /\ w_now w1 = w_now w).
  { apply wrap_ok, query_inv in E as (? & ? & _). done. }
  pose proof (ListServers_elem _ _ _ _ _ E) as Hl.
  set (ids := map server_ID l) in *.
  assert (Hids : forall sid, sid ∈ ids <-> visible_server (w_db w) (user_ID user) (user_Role user) sid = true).
  { intros sid. unfold ids. rewrite list_elem_of_fmap. split.
    - intros (sv & -> & (id & row & Hrow & Hv & ->)%Hl). simpl. by rewrite (Hk _ _ Hrow).
    - intros Hv. destruct (servers (w_db w) !! sid) as [row|] eqn:Hrow; [|unfold visible_server in Hv; by rewrite Hrow in Hv].
      exists (scan_server row). split; [simpl; by rewrite (Hk _ _ Hrow)|]. apply Hl. eauto. }
  apply bind_ok in H as (r & w2 & (r0 & [= ->] & E2)%attempt_inv & H).
  destruct r0 as [pa|e]; apply ret_inv in H as [[= ->] ->].
  apply bind_ok in E2 as (online & w3 & (D3 & N3 & _ & _ & _ & [|[= ->]])%wrap_ok%query_inv & E2); [done|].
  apply bind_ok in E2 as (t & w4 & [[= ->] ->]%now_inv & E2).
  apply bind_ok in E2 as (bs & w5 & [Hbs _]%wrap_ok%query_ok & [Ha _]%ret_inv).
  assert (bs = map (fun h => (h, players_in_hour ids (w_now w3) h (w_db w3))) (hours (w_now w3))) as -> by congruence.
  assert (pa = mkPlayerActivity (online_by_server ids (w_db w1)) (total (online_by_server ids (w_db w1)))
    (map (fun h => (h, players_in_hour ids (w_now w3) h (w_db w3))) (hours (w_now w3)))) as -> by congruence.
  destruct Hd1 as [D1 N1]. rewrite D3, N3, D1, N1. cbn [pa_OnlineByServer pa_OnlinePlayers pa_Last24h].
  assert (Ht : total (online_by_server ids (w_db w)) = length (open_sessions ids (w_db w)))
    by (unfold online_by_server; by rewrite sum_group_count, open_sessions_servers).
  destruct (last_hour (w_now w)) as [Hlast Hlen]. split_and!.
  - intros sid n Hn%group_count_keys. apply Hids. apply list_elem_of_omap in Hn as (s & [_ Hs]%elem_of_rows & Hsid).
    breflect. unfold on_servers in *. rewrite Hsid in *. by apply bool_decide_eq_true in H0.
  - by exists ids.
  - rewrite map_map. apply map_id.
  - by rewrite length_map.
  - rewrite Ht. eexists. split; [|by apply online_in_current_hour]. rewrite fmap_last. by rewrite Hlast.
Qed.
End dashboard.

(** ** Theorems: the requests on one server *)

Section scope.
Context `{U : Unicode} `{P : Platform}.

(** From [d0] to [d], players of other servers stay, and the queue gained only
    console lines for [sid], at its node. *)
Definition scoped (sid : uuid) (d0 d : DB) : Prop :=
  servers d = servers d0
  /\ (forall pid p, player_ServerID p <> sid -> players d !! pid = Some p <-> players d0 !! pid = Some p)
  /\ exists l, node_commands d = node_commands d0 ++ l
     /\ Forall (fun c => ncmd_ServerID c = Some sid
                /\ (exists sv, servers d0 !! sid = Some sv /\ ncmd_NodeID c = server_NodeID sv) /\ console_safe c) l.

Definition op_of (t : gmap uuid Player) (pid : uuid) : bool :=
  match t !! pid with Some p => player_IsOp p | None => false end.

(** Operator status stays; a new player has none. *)
Definition ops_kept (d0 d : DB) : Prop := forall pid, op_of (players d) pid = op_of (players d0) pid.

(** Panel staff and the owner of the server. *)
Definition may_op (user : User) (sid : uuid) (d : DB) : Prop :=
  exists sv, servers d !! sid = Some sv
  /\ (user_Role user = RoleOwner \/ user_Role user = RoleAdmin \/ user_ID user = server_OwnerID sv).

Context (user : User) (sid : uuid) (d0 : DB).

Definition inside (d : DB) : Prop := scoped sid d0 d /\ (ops_kept d0 d \/ may_op user sid d0).

Lemma inside_refl : inside d0.
Proof. split; [|by left]. split_and!; [done | done|]. exists []. by rewrite app_nil_r. Qed.

(** A player of this server, or none yet. *)
Definition local (pid : uuid) : Prop := forall p, players d0 !! pid = Some p -> player_ServerID p = sid.

Lemma local_of d pid : inside d ->
  (players d !! pid = None \/ exists p, players d !! pid = Some p /\ player_ServerID p = sid) -> local pid.
Proof.
  intros [(_ & Hp & _) _] H p Hp0. destruct (decide (player_ServerID p = sid)) as [|Hn]; [done|].
  apply (Hp pid p Hn) in Hp0. destruct H as [H|(p' & H & Hs)]; congruence.
Qed.

Lemma inside_players d t : inside d ->
  (forall pid, t !! pid = players d !! pid
     \/ (local pid /\ forall p, t !! pid = Some p -> player_ServerID p = sid)) ->
  may_op user sid d0 \/ (forall pid, op_of t pid = op_of (players d) pid) ->
  inside (with_players t d).
Proof.
  intros [(Hsv & Hp & Hc) Ho] Ht Hop. split; [split_and!; [done| |done]|].
  - intros pid p Hn. simpl. rewrite <- Hp by done. destruct (Ht pid) as [->|[Hl Hs]]; [done|].
    split; intros H; exfalso; apply Hn; [by apply Hs|]. by apply Hl, (Hp pid p Hn).
  - destruct Ho as [Ho|]; [|by right]. destruct Hop as [|Hop]; [by right|]. left. intros pid.
    rewrite <- Ho. apply Hop.
Qed.

(** The row of a player of this server changes, but for its server. *)
Lemma inside_alter f pid d : inside d -> local pid ->
  (forall p, player_ServerID (f p) = player_ServerID p) ->
  may_op user sid d0 \/ (forall p, player_IsOp (f p) = player_IsOp p) ->
  inside (with_players (alter f pid (players d)) d).
Proof.
  intros Hd Hl Hf Hop. apply inside_players; [done| |].
  - intros k. destruct (decide (k = pid)) as [->|]; [|left; by rewrite lookup_alter_ne].
    right. split; [done|]. rewrite lookup_alter_eq. intros p (p1 & H1 & ->)%fmap_Some. rewrite Hf.
    destruct (decide (player_ServerID p1 = sid)) as [|Hn]; [done|].
    destruct Hd as [(_ & Hp & _) _]. apply (Hp pid p1 Hn) in H1. by apply Hl.
  - destruct Hop as [|Hop]; [by left|]. right. intros k. unfold op_of.
    destruct (decide (k = pid)) as [->|]; [|by rewrite lookup_alter_ne].
    rewrite lookup_alter_eq. by destruct (players d !! pid); simpl; rewrite ?Hop.
Qed.

Lemma alter_insert (f : Player -> Player) pid p (t : gmap uuid Player) :
  t !! pid = Some p -> <[pid := f p]> t = alter f pid t.
Proof.
  intros H. apply map_eq. intros k. destruct (decide (k = pid)) as [->|].
  - by rewrite lookup_insert_eq, lookup_alter_eq, H.
  - by rewrite lookup_insert_ne, lookup_alter_ne.
Qed.

Lemma inside_line id verb name t d d' node sv :
  inside d -> verb ∈ console_verbs -> isSafePlayerName name = true ->
  servers d0 !! sid = Some sv -> node = server_NodeID sv ->
  enqueue_node_command id node sid "send_command" [("cmd", verb +:+ " " +:+ name)] t d = Ok d' -> inside d'.
Proof.
  intros [(Hsv & Hp & l & Hl & Hc) Ho] Hv Hn Hs -> ->%enqueue_inv. split; [split_and!; [done | done|] | done].
  eexists (l ++ [_]). simpl. rewrite Hl, app_assoc. split; [done|]. apply Forall_app. split; [done|].
  apply Forall_singleton. simpl. split_and!; [done | by exists sv|].
  destruct (console_line_safe verb name Hv Hn) as [H1 H2]. by exists (verb +:+ " " +:+ name).
Qed.

(** What [playerTarget] gives. *)
Lemma playerTarget_host pid w name node w' : inside (w_db w) ->
  playerTarget sid pid w = (Ok (name, node), w') ->
  isSafePlayerName name = true /\ local pid /\ exists sv, servers d0 !! sid = Some sv /\ node = server_NodeID sv.
Proof.
  intros Hd H. split; [by eapply playerTarget_safe|].
  unfold playerTarget in H. apply bind_ok in H as (r & w1 & (r' & [= ->] & Hq)%attempt_inv & H).
  destruct r' as [[n nd]|e]; [|by destruct (error_Is e ErrNoRows)].
  destruct (negb _); [done|]. apply ret_inv in H as [[= -> ->] _]. apply query_ok in Hq as [Hq _].
  destruct (players (w_db w) !! pid) as [p|] eqn:Ep; [|done]. destruct (_ =? _)%N eqn:Es; [|done].
  destruct (servers (w_db w) !! sid) as [sv|] eqn:Esv; [|done]. injection Hq as _ <-. split.
  - eapply local_of; [done|]. right. exists p. split; [done|]. by apply N.eqb_eq.
  - exists sv. destruct Hd as [(<- & _) _]. done.
Qed.

Lemma inside_queue_line verb name node sv :
  verb ∈ console_verbs -> isSafePlayerName name = true -> servers d0 !! sid = Some sv -> node = server_NodeID sv ->
  preserves inside (queue_line node sid (verb +:+ " " +:+ name)).
Proof.
  intros. unfold queue_line. solve_preserves. apply preserves_exec. intros d x d' Hd H'.
  destruct (enqueue_node_command _ _ _ _ _ _ _) eqn:E; [|done]. injection H' as _ <-. by eapply inside_line.
Qed.

Lemma inside_queue verb name node sv :
  verb ∈ console_verbs -> isSafePlayerName name = true -> servers d0 !! sid = Some sv -> node = server_NodeID sv ->
  preserves inside (enqueueConsoleCommand node sid (verb +:+ " " +:+ name)).
Proof. intros. apply preserves_ignore. by eapply inside_queue_line. Qed.

Lemma inside_target {A} pid (k : string * uuid -> M A) :
  (forall name node sv, isSafePlayerName name = true -> local pid -> servers d0 !! sid = Some sv ->
     node = server_NodeID sv -> preserves inside (k (name, node))) ->
  preserves inside (bind (playerTarget sid pid) k).
Proof.
  intros Hk. apply (preserves_bind_inv inside (fun nn => isSafePlayerName (fst nn) = true /\ local pid
    /\ exists sv, servers d0 !! sid = Some sv /\ snd nn = server_NodeID sv)).
  - intros w [n nd] w' Hd H. by eapply playerTarget_host.
  - unfold playerTarget. solve_preserves.
  - intros [name node] (Hn & Hl & sv & Hs & Hnode). eauto.
Qed.

Lemma inside_moderate pid what f verb :
  verb ∈ console_verbs ->
  (forall p, player_ServerID (f p) = player_ServerID p) ->
  may_op user sid d0 \/ (forall p, player_IsOp (f p) = player_IsOp p) ->
  preserves inside (moderate sid pid what f verb).
Proof.
  intros Hv Hf Hop. unfold moderate.
  apply inside_target. intros name node sv Hn Hl Hs Hnode. solve_preserves.
  - unfold update_player. apply preserves_exec. intros d x d' Hd. destruct (players d !! pid) as [p|] eqn:E; [|by intros [= _ <-]].
    destruct (_ =? _)%N; [|by intros [= _ <-]]. intros [= _ <-]. erewrite alter_insert by done. by apply inside_alter.
  - by eapply inside_queue.
Qed.

Lemma inside_ban pid by_ reason : preserves inside (BanPlayer sid pid by_ reason).
Proof.
  unfold BanPlayer.
  apply inside_target. intros name node sv Hn Hl Hs Hnode. solve_preserves.
  - apply preserves_exec. intros d x d' Hd. destruct (players d !! pid) as [p|] eqn:E; [|by intros [= _ <-]].
    destruct (_ =? _)%N; [|by intros [= _ <-]]. destruct (bool_decide _); [done|]. intros [= _ <-].
    erewrite (alter_insert (player_with_ban _ _ _ _)) by done. apply inside_alter; auto.
  - eapply inside_queue; [|done..]. set_solver.
Qed.

Lemma inside_kick pid reason actor : preserves inside (KickPlayer sid pid reason actor).
Proof.
  unfold KickPlayer.
  apply inside_target. intros name node sv Hn Hl Hs Hnode. solve_preserves.
  - eapply inside_queue_line; [|done..]. set_solver.
  - unfold log_activity. solve_preserves. apply preserves_exec. by intros d x d' Hd [= _ <-].
Qed.

(** Closing the sessions of one player credits that player only. *)
Lemma inside_close pid : local pid -> preserves inside (closeOpenSessions (of_player pid)).
Proof.
  intros Hl. unfold closeOpenSessions. solve_preserves. apply preserves_exec. intros d x d' Hd H.
  destruct (existsb _ _); [done|]. injection H as _ <-. unfold close_sessions. cbv zeta.
  set (closed := rows _ _). set (d1 := with_player_sessions _ d).
  assert (Hd1 : inside d1) by done.
  assert (Hc : forall k, k <> pid -> credit a closed k = 0).
  { intros k Hk. unfold credit. destruct (List.filter _ closed) as [|s l] eqn:E; [done|]. exfalso.
    assert (Hs : s ∈ List.filter (fun s => (psession_PlayerID s =? k)%N) closed) by (rewrite E; left).
    apply list_elem_of_In, filter_In in Hs as [[_ Hs]%list_elem_of_In%elem_of_rows Hk'].
    unfold of_player in Hs. breflect. congruence. }
  apply (inside_players d1); [done| |right; intros k; unfold op_of; rewrite map_lookup_imap; simpl; by destruct (players d !! k)].
  intros k. rewrite map_lookup_imap. destruct (decide (k = pid)) as [->|Hk].
  - right. split; [done|]. intros p. destruct (players d !! pid) as [p1|] eqn:E; [|done]. intros [= <-]. simpl.
    destruct (decide (player_ServerID p1 = sid)) as [|Hn]; [done|].
    destruct Hd as [(_ & Hp & _) _]. apply (Hp pid p1 Hn) in E. by apply Hl.
  - left. simpl. destruct (players d !! k) as [p|] eqn:E; [|done]. simpl. rewrite Hc, Z.add_0_r by done. by destruct p.
Qed.

Lemma inside_upsert fresh h name t d pid d' : inside d ->
  upsert_player fresh sid h name t d = Ok (pid, d') -> local pid /\ inside d'.
Proof.
  intros Hd. unfold upsert_player. destruct (find_player sid h d) as [[k p]|] eqn:Ef.
  - intros [= -> <-]. apply find_key_ok in Ef as [Hk Hp]. breflect.
    assert (Hl : local pid) by (eapply local_of; [done|]; right; by exists p).
    split; [done|]. apply inside_alter; auto.
  - destruct (bool_decide _); [done|]. destruct (insert_row _ _ _) as [tbl|] eqn:Ei; [|done]. intros [= <- <-].
    apply insert_row_ok in Ei as [Hn ->]. assert (Hl : local fresh) by (eapply local_of; eauto).
    split; [done|]. apply inside_players; [done| |right].
    + intros k. destruct (decide (k = fresh)) as [->|]; [right | left; by rewrite lookup_insert_ne].
      split; [done|]. rewrite lookup_insert_eq. by intros p [= <-].
    + intros k. unfold op_of. destruct (decide (k = fresh)) as [->|]; [|by rewrite lookup_insert_ne].
      by rewrite lookup_insert_eq, Hn.
Qed.

Lemma inside_touch h t d pid d' : inside d -> touch_player sid h t d = Ok (pid, d') -> local pid /\ inside d'.
Proof.
  intros Hd. unfold touch_player. destruct (find_player sid h d) as [[k p]|] eqn:Ef; [|done].
  intros [= -> <-]. apply find_key_ok in Ef as [Hk Hp]. breflect.
  assert (Hl : local pid) by (eapply local_of; [done|]; right; by exists p).
  split; [done|]. apply inside_alter; auto.
Qed.

(** A statement that gives a player of this server. *)
Lemma inside_pid {A} f (k : uuid -> M A) msg :
  (forall d pid d', inside d -> f d = Ok (pid, d') -> local pid /\ inside d') ->
  (forall pid, local pid -> preserves inside (k pid)) ->
  preserves inside (bind (wrap msg (exec f)) k).
Proof.
  intros Hf Hk. apply (preserves_bind_inv inside local); [| |done].
  - intros w pid w' Hd H%wrap_ok%exec_ok. by eapply Hf.
  - apply preserves_wrap, preserves_exec. intros d pid d' Hd H. by eapply Hf.
Qed.

Lemma inside_record action name h : preserves inside (RecordPlayerEvent sid action name h).
Proof.
  unfold RecordPlayerEvent. destruct (negb _); [solve_preserves|]. apply preserves_tx_if.
  destruct (String.eqb action "join").
  - unfold record_join. apply preserves_bind; [solve_preserves|]. intros fresh. apply preserves_bind; [solve_preserves|].
    intros t. apply inside_pid; [by intros; eapply inside_upsert|]. intros pid Hl.
    solve_preserves; [by apply inside_close| |].
    + apply preserves_exec. intros d x d' Hd H. unfold open_session in H.
      destruct (bool_decide _); [done|]. destruct (exists_row _ _); [done|]. destruct (insert_row _ _ _); [|done].
      by injection H as _ <-.
    + unfold enforceNetworkBanOnJoin. destruct (isSafePlayerName name) eqn:En; simpl; solve_preserves.
      apply preserves_exec. intros d x d' Hd H. destruct (servers d !! sid) as [sv|] eqn:Es; [|by injection H as _ <-].
      destruct (bool_decide _); [by injection H as _ <-|].
      destruct (enqueue_node_command _ _ _ _ _ _ _) eqn:E; [|done]. injection H as _ <-.
      eapply (inside_line _ "kick" name); [done | set_solver | done | | done | exact E]. destruct Hd as [(<- & _) _]. done.
  - unfold record_leave. apply preserves_bind; [solve_preserves|]. intros t.
    apply (preserves_bind_inv inside (fun r => match r with Ok pid => local pid | Err _ => True end)).
    + intros w r w' Hd (r' & [= ->] & H)%attempt_inv. destruct r' as [pid|e]; [|done]. apply exec_ok in H. by eapply inside_touch.
    + apply preserves_attempt, preserves_exec. intros d pid d' Hd H. by eapply inside_touch.
    + intros [pid|e] Hl; solve_preserves. by apply inside_close.
Qed.
End scope.

Section requests.
Context `{U : Unicode} `{P : Platform}.

(** The requests on the players of the server in the path. *)
Inductive player_request (user : User) (i : string) : forall {A}, M (res Reply A) -> Prop :=
| req_report node body : player_request user i (DaemonPlayerReport i node body)
| req_list : player_request user i (ListPlayersHandler i)
| req_ban p reason : player_request user i (BanPlayerHandler i p (Some user) reason)
| req_unban p : player_request user i (UnbanPlayerHandler i p)
| req_whitelist p body : player_request user i (SetWhitelistHandler i p body)
| req_kick p reason : player_request user i (KickPlayerHandler i p (Some user) reason)
| req_op p body : player_request user i (SetOpHandler i p user body)
| req_mute p body : player_request user i (SetMuteHandler i p body)
| req_player p : player_request user i (GetPlayerHandler i p)
| req_sessions p : player_request user i (GetPlayerSessionsHandler i p).

Lemma console_op_role (user : User) owner :
  CanRunConsoleCommand (ConsoleRole user owner) "op" = true ->
  user_Role user = RoleOwner \/ user_Role user = RoleAdmin \/ user_ID user = owner.
Proof.
  unfold ConsoleRole. destruct (_ || _) eqn:E.
  - intros _. apply orb_true_iff in E as [E|E]; [apply orb_true_iff in E as [E|E]|].
    + left. by apply String.eqb_eq.
    + right; left. by apply String.eqb_eq.
    + right; right. by apply N.eqb_eq.
  - unfold CanRunConsoleCommand. change (RoleWeight (ConsoleCommandMinRole "op")) with (RoleWeight RoleAdmin).
    apply orb_false_iff in E as [[E1 E2]%orb_false_iff _]. change (RoleWeight RoleAdmin) with 3.
    unfold RoleWeight. rewrite E1, E2. destruct (String.eqb (user_Role user) RoleModerator), (String.eqb (user_Role user) RoleUser); discriminate.
Qed.

(** The order of the guards of [SetOp]. *)
Lemma inside_set_op user i p body sid d0 : uuid_parse i = Some sid ->
  preserves (inside user sid d0) (SetOpHandler i p user body).
Proof.
  intros Hi. unfold SetOpHandler, with_player. rewrite Hi. destruct (uuid_parse p) as [pid|]; [|unfold refuse; solve_preserves].
  destruct body as [op|e]; [|unfold refuse; solve_preserves].
  apply (preserves_bind_inv _ (fun r => match r with
    | Ok sv => exists row, servers d0 !! sid = Some row /\ server_OwnerID sv = server_OwnerID row
    | Err _ => True end)).
  - intros w r w' Hd (r' & [= ->] & H)%attempt_inv. destruct r' as [sv|e]; [|done].
    apply GetServer_ok in H as [H _]. unfold server_view in H. destruct Hd as [(Hs & _) _]. rewrite Hs in H.
    destruct (servers d0 !! sid) as [row|]; [|done]. exists row. split; [done|]. by case_ifs; simplify_eq.
  - apply preserves_attempt, GetServer_reads.
  - intros [sv|e] Hq; [|solve_preserves]. destruct Hq as (row & Hrow & Ho).
    destruct (negb _) eqn:E; [unfold refuse; solve_preserves|]. unfold answer_player, refuse. solve_preserves.
    apply negb_false_iff, console_op_role in E. apply inside_moderate; [destruct op; set_solver | done|].
    left. exists row. by rewrite <- Ho.
Qed.

(** C29. Requests on players stay inside: whatever a request on the players of a
    server does, and whatever fails, the players of other servers keep their
    rows, every command it queues is a console line of safe characters for
    that server at the node that hosts it, and operator status changes only
    on behalf of panel staff or the owner of the server. *)
Theorem player_requests_scoped {A} (user : User) (i : string) (sid : uuid) (m : M (res Reply A)) (w : World) :
  uuid_parse i = Some sid -> player_request user i m ->
  scoped sid (w_db w) (w_db (snd (m w)))
  /\ (ops_kept (w_db w) (w_db (snd (m w))) \/ may_op user sid (w_db w)).
Proof.
  intros Hi Hm. enough (preserves (inside user sid (w_db w)) m) as Hp by apply (Hp w), inside_refl.
  destruct Hm; try (by apply inside_set_op);
    unfold DaemonPlayerReport, ListPlayersHandler, BanPlayerHandler, UnbanPlayerHandler, SetWhitelistHandler, KickPlayerHandler,
      SetMuteHandler, GetPlayerHandler, GetPlayerSessionsHandler, callback, daemonOwnsServer, with_body, with_player,
      answer_400, answer_player, refuse; rewrite Hi.
  all: solve_preserves.
  - unfold ServerBelongsToNode. solve_preserves.
  - apply inside_record.
  - unfold ListPlayers. solve_preserves.
  - apply inside_ban.
  - apply inside_moderate; [set_solver | done | by right].
  - apply inside_moderate; [case_match; set_solver | done | by right].
  - apply inside_kick.
  - apply inside_moderate; [case_match; set_solver | done | by right].
  - unfold GetPlayer. solve_preserves.
  - unfold GetPlayerSessions. solve_preserves.
Qed.
End requests.

(** ** Witnesses *)

#[local] Existing Instances ascii_tables sample_platform.

(** Player 8 of server 4, which user 5 owns; user 6 is a moderator of the
    panel and a member of the server. *)
Definition player_world : World :=
  with_db (with_players {[8%N := mkPlayer 8 4 77 "steve" 0 None 0 false false None None None false false]}
          (with_server_members {[(4%N, 6%N) := mkServerMember "viewer" ∅]} (w_db farm_world))) farm_world.

Definition moderator : User := mkUser 6 "m@x.io" "mo" "" RoleModerator "" false 0 None true None None "en" "UTC".

Lemma player_requests_scoped_witness :
  let m := SetOpHandler (uuid_string 4) (uuid_string 8) moderator (Ok true) in
  fst (m player_world) = Ok (Err (reply_error 403 "changing op status needs the admin role"))
  /\ scoped 4 (w_db player_world) (w_db (snd (m player_world))).
Proof.
  split; [vm_compute; done|].
  apply (player_requests_scoped moderator (uuid_string 4) 4 (SetOpHandler (uuid_string 4) (uuid_string 8) moderator (Ok true))
    player_world); [vm_compute; done | constructor].
Defined.

(** Player 20 is on server 3 of user 1. *)
Definition online_world : World :=
  with_db (with_players {[20%N := mkPlayer 20 3 77 "steve" 0 (Some 5) 0 false false None None None false false]}
          (with_player_sessions {[30%N := mkPlayerSessionRow 30 20 5 None None]} (w_db play_world))) play_world.

Lemma online_ledger : ledger (w_db online_world).
Proof.
  split.
  - intros i s. simpl. intros [<- <-]%lookup_singleton_Some. by eexists.
  - intros pid. unfold rows. simpl. rewrite map_to_list_singleton. simpl. destruct (open_of _ _); simpl; lia.
  - intros i s. simpl. by intros [<- <-]%lookup_singleton_Some.
  - intros pid p. simpl. by intros [<- <-]%lookup_singleton_Some.
Qed.

Lemma dashboard_consistent_witness :
  exists a w', DashboardActivity (sample_user 1 RoleUser) online_world = (Ok (Ok a), w')
  /\ pa_OnlinePlayers a = 1%nat
  /\ exists n, last (pa_Last24h a) = Some (w_now online_world / hour * hour, n) /\ (pa_OnlinePlayers a <= n)%nat.
Proof.
  destruct (DashboardActivity (sample_user 1 RoleUser) online_world) as [[[a|r]|e] w'] eqn:E;
    [|apply (f_equal (fun x => match fst x with Ok (Ok _) => true | _ => false end)) in E; vm_compute in E; done..].
  exists a, w'. split_and!; [done | |].
  - apply (f_equal (fun x => match fst x with Ok (Ok a) => pa_OnlinePlayers a | _ => 0%nat end)) in E. vm_compute in E. by symmetry.
  - apply (dashboard_consistent (sample_user 1 RoleUser) online_world w' a online_ledger); [| |exact E].
    + intros i s. simpl. intros [<- <-]%lookup_singleton_Some. vm_compute. done.
    + intros k sv. simpl. by intros [<- <-]%lookup_singleton_Some.
Defined.
