(* ===== verification/Settings.v ===== *)
(** * Settings, the backup key ring and the stored certificate pairs

    Models [services/app_settings_service.go], [services/backup_keyring.go],
    [services/backup_key_store.go] and [loadOrCreatePair] of
    [services/mtls_ca_store.go].  A setting is an envelope under a key of
    [app_settings]; the columns that say who wrote it when, which nothing
    reads, are not kept. *)

From stdpp Require Import base numbers list strings option gmap relations.
From Stdlib Require Import Ascii.
From S2P Require Import Prelude GoStrings Store Platform Crypto Net.

Local Open Scope Z_scope.

(** ** AppSettingsService *)

Section settings.
Context `{P : Platform} (encKey : string).

Definition setting_Get (key : string) : M string :=
  let* r := attempt (query (fun d => get_key (app_settings d) key)) in
  match r with
  | Err e => if error_Is e ErrNoRows then ret ""
             else fail (ErrWrap ("loading setting " +:+ key) e)
  | Ok enc =>
    match Decrypt encKey enc with
    | Err e => fail (ErrWrap ("decrypting setting " +:+ key) e)
    | Ok plain => ret plain
    end
  end.

(** The author of a change must be a user. *)
Definition upsert_setting (key enc : string) (updatedBy : option uuid) (d : DB) : res error (unit * DB) :=
  if match updatedBy with Some u => bool_decide (users d !! u = None) | None => false end
  then Err (ErrConstraint "app_settings_updated_by_fkey")
  else Ok (tt, with_app_settings (<[key := enc]> (app_settings d)) d).

Definition setting_Set (key value : string) (updatedBy : option uuid) : M unit :=
  if String.eqb value "" then
    exec (fun d => Ok (tt, with_app_settings (delete key (app_settings d)) d))
  else
    let* enc := wrap ("encrypting setting " +:+ key) (Encrypt encKey value) in
    exec (upsert_setting key enc updatedBy).

(** [ON CONFLICT (key) DO NOTHING], with the number of rows. *)
Definition insert_setting (key enc : string) (d : DB) : res error (nat * DB) :=
  match app_settings d !! key with
  | Some _ => Ok (0%nat, d)
  | None => Ok (1%nat, with_app_settings (<[key := enc]> (app_settings d)) d)
  end.

Definition setting_SetIfAbsent (key value : string) : M bool :=
  let* enc := wrap ("encrypting setting " +:+ key) (Encrypt encKey value) in
  let* tag := wrap ("storing setting " +:+ key) (exec (insert_setting key enc)) in
  ret (tag =? 1)%nat.

(** What the store holds under a key. *)
Definition setting (key : string) (d : DB) : option string :=
  match app_settings d !! key with
  | Some enc => match Decrypt encKey enc with Ok v => Some v | Err _ => None end
  | None => None
  end.
End settings.

(** ** Keyring *)

(** Keyring; the active id is a byte. *)
Record Keyring := mkKeyring {
  kr_Active : Z;
  kr_Keys : gmap string string
}.

Definition generateKey : M string :=
  let* n := rand in ret (b64_encode (rand_bytes 32 (Z.of_N n))).

Definition newKeyring : M Keyring :=
  let* k := generateKey in ret (mkKeyring 0 {["0" := k]}).

(** ActiveKey and KeyByID. *)
Definition KeyByID (k : Keyring) (id : Z) : option string := kr_Keys k !! Itoa id.
Definition ActiveKey (k : Keyring) : option (Z * string) :=
  match KeyByID k (kr_Active k) with Some v => Some (kr_Active k, v) | None => None end.

(** The loop of [rotate] over the ids. *)
Definition highest_id (keys : gmap string string) : Z :=
  fold_right (fun kv highest =>
      match Atoi (fst kv) with
      | Some id => if (id <? 0) || (255 <? id) then highest
                   else if highest <? id then id else highest
      | None => highest
      end) (-1) (map_to_list keys).

Definition rotate (k : Keyring) : M (Z * Keyring) :=
  let highest := highest_id (kr_Keys k) in
  if 255 <=? highest then fail (ErrNew "backup keyring is full (255 keys)")
  else
    let next := (highest + 1) mod 256 in
    let* nk := generateKey in
    ret (next, mkKeyring next (<[Itoa next := nk]> (kr_Keys k))).

(** ** The stored key ring *)

Definition backupKeyringKey : string := "backup_encryption_keyring".

Section keys.
Context `{P : Platform} `{J : Json Keyring} (encKey : string).

Definition saveKeyring (kr : Keyring) (by_ : option uuid) : M unit :=
  match json_marshal kr with
  | None => fail (ErrNew "encoding backup keyring")
  | Some data => setting_Set encKey backupKeyringKey data by_
  end.

(** The first use, after the read found nothing. *)
Definition create_keyring : M Keyring :=
  let* kr := newKeyring in
  run* saveKeyring kr None in
  ret kr.

Definition BackupKeyring : M Keyring :=
  let* raw := setting_Get encKey backupKeyringKey in
  if String.eqb raw "" then create_keyring
  else match json_unmarshal raw with
       | None => fail (ErrNew "parsing backup keyring")
       | Some kr => ret kr
       end.

Definition RotateBackupKey (by_ : option uuid) : M Z :=
  let* kr := BackupKeyring in
  let* (id, kr') := rotate kr in
  run* saveKeyring kr' by_ in
  ret id.

Definition ExportActiveBackupKey : M (Z * string) :=
  let* kr := BackupKeyring in
  match ActiveKey kr with
  | None => fail (ErrNew "keyring has no active key")
  | Some (id, key) => ret (id, key)
  end.

(** The ring the store holds. *)
Definition ring (d : DB) : option Keyring :=
  setting encKey backupKeyringKey d ≫= json_unmarshal.
End keys.

(** ** Certificate pairs *)

(** pemPair. *)
Record pemPair := mkPemPair {
  pair_CertPEM : string;
  pair_KeyPEM : string
}.

Section pairs.
Context `{P : Platform} `{J : Json pemPair} (encKey : string).

(** The [read] closure of [loadOrCreatePair]. *)
Definition read_pair (key : string) : M (option pemPair) :=
  let* raw := setting_Get encKey key in
  if String.eqb raw "" then ret None
  else match json_unmarshal raw with
       | None => fail (ErrNew ("parsing " +:+ key))
       | Some p => ret (Some p)
       end.

(** Creating the pair, after the first read found nothing. *)
Definition create_pair (key : string) (gen : M pemPair) : M pemPair :=
  let* fresh := gen in
  match json_marshal fresh with
  | None => fail (ErrNew ("encoding " +:+ key))
  | Some data =>
    run* setting_SetIfAbsent encKey key data in
    let* p := read_pair key in
    match p with
    | None => fail (ErrNew (key +:+ " missing after store"))
    | Some p => ret p
    end
  end.

Definition loadOrCreatePair (key : string) (gen : M pemPair) : M pemPair :=
  let* p := read_pair key in
  match p with
  | Some p => ret p
  | None => create_pair key gen
  end.

Definition pair_of (key : string) (d : DB) : option pemPair :=
  setting encKey key d ≫= json_unmarshal.
End pairs.

(** ** Lemmas: the store *)

Section settings_lemmas.
Context `{P : Platform} `{L : !PlatformLaws P} (encKey : string).

Lemma setting_Get_inv key w r w' :
  setting_Get encKey key w = (r, w') ->
  w_db w' = w_db w /\ forall v, r = Ok v ->
    (v = "" /\ app_settings (w_db w) !! key = None) \/ setting encKey key (w_db w) = Some v.
Proof.
  unfold setting_Get, setting. intros [(q & w1 & Hq & H)|(e & Hq & ->)]%bind_inv;
    apply attempt_inv in Hq as (r0 & Hr0 & Hq); [injection Hr0 as <- | done].
  apply query_inv in Hq as (Hd & _ & _ & _ & _ & Hq). unfold get_key in Hq.
  assert (Hw : w_db w' = w_db w1 /\ (r = Ok "" \/ forall v, r = Ok v -> exists enc, q = Ok enc /\ Decrypt encKey enc = Ok v)).
  { destruct q as [enc|e].
    - destruct (Decrypt encKey enc) eqn:E; [apply ret_inv in H as [-> ->] | apply fail_inv in H as [-> ->]];
        (split; [done|]); right; intros v [= <-]; eauto.
    - destruct (error_Is e ErrNoRows); [apply ret_inv in H as [-> ->] | apply fail_inv in H as [-> ->]];
        (split; [done|]); [by left | by right]. }
  destruct Hw as [-> Hv]. split; [done|]. intros v Hr.
  destruct (app_settings (w_db w) !! key) as [enc|] eqn:Ek.
  - right. destruct Hq as [-> | ->].
    + cbn in H. by apply fail_inv in H as [-> _].
    + destruct (Decrypt encKey enc); [apply ret_inv in H as [-> _] | apply fail_inv in H as [-> _]]; congruence.
  - left. destruct Hq as [-> | ->]; cbn in H;
      [by apply fail_inv in H as [-> _] | apply ret_inv in H as [-> _]; by injection Hr].
Qed.

Lemma wrap_Encrypt_ok msg value w enc w' :
  wrap msg (Encrypt encKey value) w = (Ok enc, w') -> Decrypt encKey enc = Ok value /\ w_db w' = w_db w.
Proof. intros (_ & H & ->)%wrap_ok%Encrypt_ok. done. Qed.

Lemma wrap_Encrypt_err msg value w (e : error) w' :
  wrap msg (Encrypt encKey value) w = (Err e, w') -> w_db w' = w_db w.
Proof.
  intros H. pose proof (preserves_wrap (fun d => d = w_db w) msg _ (Encrypt_preserves encKey value _) w eq_refl) as Hp.
  by rewrite H in Hp.
Qed.

(** A change of a setting is refused, or removes the row, or stores an
    envelope of the value. *)
Lemma setting_Set_inv key value by_ w r w' :
  setting_Set encKey key value by_ w = (r, w') ->
  (w_db w' = w_db w /\ is_ok r = false)
  \/ (r = Ok tt /\ ((value = "" /\ w_db w' = with_app_settings (delete key (app_settings (w_db w))) (w_db w))
      \/ (value <> "" /\ exists enc, Decrypt encKey enc = Ok value
          /\ w_db w' = with_app_settings (<[key := enc]> (app_settings (w_db w))) (w_db w)))).
Proof.
  unfold setting_Set. destruct (String.eqb_spec value "") as [-> | Hv]; intros H.
  - apply exec_inv in H as (_ & _ & _ & _ & [([] & d & -> & [= <-] & ->)|(e & -> & -> & _)]); [right | by left].
    split; [done|]. by left.
  - apply bind_inv in H as [(enc & w1 & He & H)|(e & He & ->)]; [|left; split; [|done]; by eapply wrap_Encrypt_err].
    apply wrap_Encrypt_ok in He as [He Hd].
    apply exec_inv in H as (_ & _ & _ & _ & [([] & d & -> & Hu & ->)|(e & -> & -> & _)]); [right | by left].
    split; [done|]. right. split; [done|]. exists enc. split; [done|]. rewrite Hd in Hu. unfold upsert_setting in Hu.
    case_match; [done|]. by injection Hu as <-.
Qed.

Lemma setting_SetIfAbsent_inv key value w r w' :
  setting_SetIfAbsent encKey key value w = (r, w') ->
  w_db w' = w_db w \/
  (app_settings (w_db w) !! key = None /\ exists enc, Decrypt encKey enc = Ok value
     /\ w_db w' = with_app_settings (<[key := enc]> (app_settings (w_db w))) (w_db w)).
Proof.
  unfold setting_SetIfAbsent.
  intros [(enc & w1 & [He Hd]%wrap_Encrypt_ok & H)|(e & He%wrap_Encrypt_err & ->)]%bind_inv; [|by left].
  assert (Hw : exists r0, exec (insert_setting key enc) w1 = (r0, w')).
  { apply bind_inv in H as [(n & w2 & H1%wrap_ok & H2)|(e & H1 & ->)].
    - apply ret_inv in H2 as [_ ->]. eauto.
    - apply wrap_inv in H1 as [(? & ? & _)|(e' & _ & H1)]; [done | eauto]. }
  destruct Hw as [r0 Hw]. unfold insert_setting in Hw.
  apply exec_inv in Hw as (_ & _ & _ & _ & [(n & d & -> & Hi & ->)|(e & -> & -> & _)]); [|by left].
  rewrite <- Hd. destruct (app_settings (w_db w1) !! key) eqn:Ek; injection Hi as <- <-; [by left|].
  right. rewrite Hd in *. eauto.
Qed.

Lemma setting_insert key k enc d v :
  Decrypt encKey enc = Ok v ->
  setting encKey k (with_app_settings (<[key := enc]> (app_settings d)) d)
  = if bool_decide (k = key) then Some v else setting encKey k d.
Proof.
  intros Hd. unfold setting. cbn [app_settings with_app_settings].
  case_bool_decide as Hk; [subst; by rewrite lookup_insert_eq, Hd | by rewrite lookup_insert_ne by congruence].
Qed.
End settings_lemmas.

(** ** Lemmas: the key ring *)

Lemma byte_text (n : Z) : 0 <= n <= 255 -> Atoi (Itoa n) = Some n /\ is_ascii (Itoa n) = true.
Proof.
  intros Hn.
  assert (H : forallb (fun k => let n := Z.of_nat k in
    bool_decide (Atoi (Itoa n) = Some n) && is_ascii (Itoa n)) (seq 0 256) = true) by (vm_compute; reflexivity).
  rewrite forallb_elem in H. specialize (H (Z.to_nat n)). rewrite elem_of_seq in H. cbv beta zeta in H.
  rewrite Z2Nat.id in H by lia. assert (Hi : (0 <= Z.to_nat n < 0 + 256)%nat) by lia.
  apply H, andb_true_iff in Hi as [Ha Hb]. apply bool_decide_eq_true in Ha. done.
Qed.

Lemma b64_char_ascii (i : Z) : 0 <= i < 64 -> (byte_of (b64_char i) <? 128) = true.
Proof.
  intros Hi. assert (H : forallb (fun n => (byte_of (b64_char (Z.of_nat n)) <? 128)) (seq 0 64) = true)
    by (vm_compute; reflexivity).
  rewrite forallb_elem in H. specialize (H (Z.to_nat i)). rewrite elem_of_seq, Z2Nat.id in H by lia.
  apply H. lia.
Qed.

Lemma b64_encode_ascii (s : string) : is_ascii (b64_encode s) = true.
Proof.
  unfold is_ascii.
  induction s as [|a|a b|a b c s IH] using string_ind3; [done|..];
    pose proof (byte_of_bounds a); try pose proof (byte_of_bounds b); try pose proof (byte_of_bounds c);
    cbn [b64_encode str_forallb]; rewrite ?b64_char_ascii, ?IH by euclid; done.
Qed.

(** An id above every valid id of the ring is new. *)
Lemma highest_id_ge keys k v id :
  keys !! k = Some v -> Atoi k = Some id -> 0 <= id <= 255 -> id <= highest_id keys.
Proof.
  intros Hk%elem_of_map_to_list Ha Hid. unfold highest_id.
  induction (map_to_list keys) as [|[k' v'] l IH]; [by apply not_elem_of_nil in Hk|]. cbn [fold_right fst].
  apply elem_of_cons in Hk as [[= <- <-]|Hk].
  - rewrite Ha. case_ifs; breflect; lia.
  - specialize (IH Hk). case_ifs; breflect; lia.
Qed.

Lemma highest_id_bounds keys : -1 <= highest_id keys <= 255.
Proof.
  unfold highest_id. induction (map_to_list keys) as [|[k v] l IH]; cbn [fold_right fst]; [lia|].
  case_ifs; breflect; lia.
Qed.

Lemma generateKey_inv w k w' : generateKey w = (Ok k, w') -> w_db w' = w_db w /\ is_ascii k = true.
Proof.
  intros (n & w1 & (_ & Hd & _)%rand_inv & Hr)%bind_ok. apply ret_inv in Hr as [Hk ->].
  split; [done|]. remember (rand_bytes 32 (Z.of_N n)) as raw eqn:E. injection Hk as ->. apply b64_encode_ascii.
Qed.

Lemma rotate_inv kr w id kr' w' :
  rotate kr w = (Ok (id, kr'), w') ->
  w_db w' = w_db w /\ 0 <= id <= 255 /\ id = highest_id (kr_Keys kr) + 1 /\ KeyByID kr id = None
  /\ exists nk, is_ascii nk = true /\ kr' = mkKeyring id (<[Itoa id := nk]> (kr_Keys kr)).
Proof.
  unfold rotate. pose proof (highest_id_bounds (kr_Keys kr)) as Hb.
  destruct (Z.leb_spec 255 (highest_id (kr_Keys kr))) as [?|Hlt]; [by intros [? _]%fail_inv|].
  rewrite Z.mod_small by lia. intros (nk & w1 & Hg & H)%bind_ok. apply ret_inv in H as [[= -> ->] ->].
  apply generateKey_inv in Hg as [Hd Hk].
  split_and!; [done | lia | lia | done | |by exists nk].
  unfold KeyByID. destruct (kr_Keys kr !! _) eqn:E; [|done].
  pose proof (byte_text (highest_id (kr_Keys kr) + 1)) as [Ha _]; [lia|].
  pose proof (highest_id_ge _ _ _ _ E Ha). lia.
Qed.

(** A ring whose texts survive JSON. *)
Definition ring_wf (kr : Keyring) : Prop :=
  0 <= kr_Active kr <= 255
  /\ forall k v, kr_Keys kr !! k = Some v -> ValidUTF8 k = true /\ ValidUTF8 v = true.

Lemma ring_wf_insert kr id nk :
  ring_wf kr -> 0 <= id <= 255 -> is_ascii nk = true -> ring_wf (mkKeyring id (<[Itoa id := nk]> (kr_Keys kr))).
Proof.
  intros [_ Hk] Hid Hn. split; [done|]. cbn [kr_Keys]. intros k v [[<- <-]|[_ H]]%lookup_insert_Some; [|eauto].
  split; apply ascii_valid_utf8; [by apply byte_text | done].
Qed.

Lemma newKeyring_inv w kr w' : newKeyring w = (Ok kr, w') -> w_db w' = w_db w /\ ring_wf kr /\ is_Some (ActiveKey kr).
Proof.
  intros (k & w1 & Hg & H)%bind_ok. apply ret_inv in H as [[= ->] ->].
  apply generateKey_inv in Hg as [Hd Hk]. split_and!; [done | | by eexists].
  split; [cbn; lia|]. cbn [kr_Keys]. intros k' v [<- <-]%lookup_singleton_Some. split; [done|]. by apply ascii_valid_utf8.
Qed.

Section ring.
Context `{P : Platform} `{L : !PlatformLaws P} `{J : Json Keyring} `{JL : !JsonLaws Keyring ring_wf} (encKey : string).

Lemma saveKeyring_inv kr by_ w r w' :
  ring_wf kr -> saveKeyring encKey kr by_ w = (r, w') ->
  (w_db w' = w_db w /\ is_ok r = false) \/ (r = Ok tt /\ ring encKey (w_db w') = Some kr).
Proof.
  unfold saveKeyring, ring. intros Hwf H. destruct (json_marshal kr) as [data|] eqn:Ej.
  - apply setting_Set_inv in H as [H|(-> & [(-> & _)|(_ & enc & Hd & ->)])]; [by left | | right].
    + apply json_unmarshal_marshal in Ej; [|done]. by rewrite json_unmarshal_empty in Ej.
    + split; [done|]. erewrite setting_insert by exact Hd. rewrite bool_decide_true by done. cbn.
      by apply json_unmarshal_marshal.
  - apply fail_inv in H as [-> ->]. by left.
Qed.

Lemma ring_none d : (app_settings d !! backupKeyringKey = None \/ setting encKey backupKeyringKey d = Some "") ->
  ring encKey d = None.
Proof.
  unfold ring. intros [H|H]; [unfold setting; by rewrite H | rewrite H; apply json_unmarshal_empty].
Qed.

Lemma BackupKeyring_inv w r w' :
  BackupKeyring encKey w = (r, w') ->
  (w_db w' = w_db w \/ (ring encKey (w_db w) = None /\ exists kr, ring encKey (w_db w') = Some kr /\ is_Some (ActiveKey kr)))
  /\ forall kr, r = Ok kr -> ring encKey (w_db w') = Some kr /\ ring_wf kr.
Proof.
  unfold BackupKeyring. intros [(raw & w1 & Hg & H)|(e & Hg & ->)]%bind_inv; [|apply setting_Get_inv in Hg as [-> _]; split; [by left | done]].
  apply setting_Get_inv in Hg as [Hd Hg]. specialize (Hg raw eq_refl). rewrite <- Hd in Hg |- *.
  destruct (String.eqb_spec raw "") as [-> | Hne].
  - assert (Hnone : ring encKey (w_db w1) = None) by (apply ring_none; tauto).
    apply bind_inv in H as [(kr & w2 & Hk & H)|(e & Hk & ->)].
    + apply newKeyring_inv in Hk as (Hd2 & Hwf & Ha). rewrite <- Hd2 in Hnone |- *.
      apply bind_inv in H as [([] & w3 & Hs & H)|(e & Hs & ->)];
        apply (saveKeyring_inv _ _ _ _ _ Hwf) in Hs as [[Hs ?]|[? Hs]]; try done; [|split; [by left | done]].
      apply ret_inv in H as [-> ->]. split; [|by intros kr' [= <-]]. right. eauto.
    + by apply bind_inv in Hk as [(k & w3 & _ & Hk)|(e' & Hk & _)].
  - destruct Hg as [[-> _]|Hs]; [done|]. unfold ring. destruct (json_unmarshal raw) as [kr|] eqn:E.
    + apply ret_inv in H as [-> ->]. split; [by left|]. intros kr' [= <-].
      rewrite Hs. cbn. split; [done|]. by eapply json_unmarshal_wf.
    + apply fail_inv in H as [-> ->]. split; [by left | done].
Qed.

(** What happens to the stored ring: a use, a rotation, an export, or anything
    that leaves the row of the ring alone. *)
Inductive keyring_step : World -> World -> Prop :=
| step_use r w w' : BackupKeyring encKey w = (r, w') -> keyring_step w w'
| step_rotate by_ r w w' : RotateBackupKey encKey by_ w = (r, w') -> keyring_step w w'
| step_export r w w' : ExportActiveBackupKey encKey w = (r, w') -> keyring_step w w'
| step_other w w' : app_settings (w_db w') !! backupKeyringKey = app_settings (w_db w) !! backupKeyringKey ->
    keyring_step w w'.

(** The ring has every key of [kr] under its id, and an active key if [kr]
    had one. *)
Definition keeps (kr : Keyring) (d : DB) : Prop :=
  exists kr', ring encKey d = Some kr' /\ kr_Keys kr ⊆ kr_Keys kr'
    /\ (is_Some (ActiveKey kr) -> is_Some (ActiveKey kr')).

Lemma BackupKeyring_keeps kr w r w' :
  keeps kr (w_db w) -> BackupKeyring encKey w = (r, w') -> w_db w' = w_db w.
Proof.
  intros (kr' & Hr & _) H. apply BackupKeyring_inv in H as [[H|[H _]] _]; [done | congruence].
Qed.

Lemma RotateBackupKey_keeps kr by_ w r w' :
  keeps kr (w_db w) -> RotateBackupKey encKey by_ w = (r, w') -> keeps kr (w_db w').
Proof.
  intros Hk [(kr1 & w1 & H1 & H)|(e & H1 & ->)]%bind_inv; pose proof (BackupKeyring_keeps _ _ _ _ Hk H1) as Hd;
    [|by rewrite Hd]. apply BackupKeyring_inv in H1 as [_ H1]. destruct (H1 _ eq_refl) as [Hr Hwf].
  rewrite Hd in Hr. destruct Hk as (kr' & Hr' & Hsub & Ha). rewrite Hr in Hr'. injection Hr' as <-.
  apply bind_inv in H as [([id kr2] & w2 & Hro & H)|(e & Hro & ->)].
  - apply rotate_inv in Hro as (Hd2 & Hid & _ & Hnew & nk & Hn & ->).
    assert (Hs : exists r0, saveKeyring encKey (mkKeyring id (<[Itoa id := nk]> (kr_Keys kr1))) by_ w2 = (r0, w')).
    { apply bind_inv in H as [([] & w3 & Hs & H)|(e & Hs & ->)]; [apply ret_inv in H as [_ ->]|]; eauto. }
    destruct Hs as [r0 [[Hs _]|[_ Hs]]%saveKeyring_inv]; [| |by apply ring_wf_insert].
    + rewrite Hs, Hd2, Hd. by exists kr1.
    + eexists. split; [exact Hs|]. cbn [kr_Keys]. split.
      * etrans; [exact Hsub|]. by apply insert_subseteq.
      * intros _. unfold ActiveKey, KeyByID. cbn. rewrite lookup_insert_eq. by eexists.
  - assert (w_db w' = w_db w1) as ->.
    { unfold rotate in Hro. destruct (255 <=? _); [by apply fail_inv in Hro as [_ ->]|].
      by apply bind_inv in Hro as [(nk & w2 & _ & Hro)|(e' & Hro & _)]. }
    rewrite Hd. by exists kr1.
Qed.

Lemma keyring_step_keeps kr w w' : keyring_step w w' -> keeps kr (w_db w) -> keeps kr (w_db w').
Proof.
  intros [r w0 w1 H|by_ r w0 w1 H|r w0 w1 H|w0 w1 H] Hk.
  - by rewrite (BackupKeyring_keeps _ _ _ _ Hk H).
  - by eapply RotateBackupKey_keeps.
  - assert (exists r0, BackupKeyring encKey w0 = (r0, w1)) as [r0 H0].
    { apply bind_inv in H as [(kr1 & w2 & H1 & H)|(e & H1 & ->)]; [|by eauto]. exists (Ok kr1).
      destruct (ActiveKey kr1) as [[id key]|]; [apply ret_inv in H as [_ ->] | apply fail_inv in H as [_ ->]]; done. }
    by rewrite (BackupKeyring_keeps _ _ _ _ Hk H0).
  - destruct Hk as (kr' & Hr & Hk). exists kr'. split; [|done]. unfold ring, setting in *. by rewrite H.
Qed.
End ring.

Lemma setting_Get_run `{P : Platform} encKey key w :
  healthy w ->
  setting_Get encKey key w =
    (match app_settings (w_db w) !! key with
     | None => Ok ""
     | Some enc => match Decrypt encKey enc with
                   | Ok v => Ok v
                   | Err e => Err (ErrWrap ("decrypting setting " +:+ key) e)
                   end
     end, w).
Proof.
  intros Hw. unfold setting_Get. erewrite bind_run by (apply attempt_run, query_healthy, Hw). cbv beta iota.
  unfold get_key. destruct (app_settings (w_db w) !! key) as [enc|]; [|done]. by destruct (Decrypt encKey enc).
Qed.

(** ** Theorems *)

(** A stored setting reads back as it was written, the empty value included,
    and no other setting changes; a value that is there is not replaced by
    [SetIfAbsent]. *)
Theorem setting_roundtrip `{P : Platform} `{L : !PlatformLaws P} (encKey key value : string)
    (by_ : option uuid) (w : World) :
  healthy w -> len encKey = 32 -> (forall u, by_ = Some u -> is_Some (users (w_db w) !! u)) ->
  exists w', setting_Set encKey key value by_ w = (Ok tt, w') /\ healthy w'
  /\ fst (setting_Get encKey key w') = Ok value
  /\ (forall k, k <> key -> fst (setting_Get encKey k w') = fst (setting_Get encKey k w))
  /\ forall v r w2, setting encKey key (w_db w) = Some v ->
       setting_SetIfAbsent encKey key value w = (r, w2) -> setting encKey key (w_db w2) = Some v.
Proof.
  intros Hw Hlen Hby.
  assert (Hset : exists w', setting_Set encKey key value by_ w = (Ok tt, w') /\ healthy w').
  { unfold setting_Set. destruct (String.eqb value ""); [by rewrite exec_healthy; eauto|].
    pose proof (Encrypt_total encKey value w Hlen) as Ht.
    destruct (Encrypt encKey value w) as [[enc|e] w1] eqn:E; [|done].
    pose proof (Encrypt_ok _ _ _ _ _ E) as (_ & _ & ->).
    erewrite bind_run by (by apply wrap_run_ok, E). cbv beta iota.
    rewrite exec_healthy by done. unfold upsert_setting. destruct by_ as [u|]; [|by eauto].
    destruct (Hby u eq_refl) as [x Hx]. cbn [with_ctr w_db]. rewrite bool_decide_false by congruence. by eauto. }
  destruct Hset as (w' & Hs & Hw'). exists w'. split_and!; [done | done | | |].
  - apply setting_Set_inv in Hs as [[_ ?]|(_ & [(-> & Hd)|(_ & enc & Hde & Hd)])]; [done|..];
      rewrite setting_Get_run, Hd by done; cbn [app_settings with_app_settings fst];
      [by rewrite lookup_delete_eq | by rewrite lookup_insert_eq, Hde].
  - intros k Hk.
    apply setting_Set_inv in Hs as [[_ ?]|(_ & [(-> & Hd)|(_ & enc & Hde & Hd)])]; [done|..];
      rewrite !setting_Get_run, Hd by done; cbn [app_settings with_app_settings fst];
      [by rewrite lookup_delete_ne | by rewrite lookup_insert_ne].
  - intros v r w2 Hv H. apply setting_SetIfAbsent_inv in H as [->|(Hn & _)]; [done|].
    unfold setting in Hv. by rewrite Hn in Hv.
Qed.

Lemma setting_roundtrip_witness :
  let key := hex_bytes 16 7 in
  exists w', @setting_Set sample_platform key "curseforge" "abc" None empty_world = (Ok tt, w')
    /\ fst (@setting_Get sample_platform key "curseforge" w') = Ok "abc".
Proof.
  cbv zeta. destruct (setting_roundtrip (P := sample_platform) (hex_bytes 16 7) "curseforge" "abc" None empty_world)
    as (w' & H1 & _ & H2 & _); [done | done | done | eauto].
Defined.

(** C19. The keys of the backups survive: the ring a caller gets, whose active key
    encrypts a backup, is in the store when the call returns, and after any
    sequence of uses, rotations and exports by the panel, with any faults of
    the database, the store still has every one of those keys under its id,
    and an active key. *)
Theorem backup_keys_survive `{P : Platform} `{L : !PlatformLaws P} `{J : Json Keyring}
    `{JL : !JsonLaws Keyring ring_wf} (encKey : string) (w w1 w2 w3 : World) (kr : Keyring) (r : res error Keyring) :
  BackupKeyring encKey w = (Ok kr, w1) -> rtc (keyring_step encKey) w1 w2 ->
  BackupKeyring encKey w2 = (r, w3) ->
  keeps encKey kr (w_db w2) /\ w_db w3 = w_db w2
  /\ forall kr2, r = Ok kr2 -> forall id key, KeyByID kr id = Some key -> KeyByID kr2 id = Some key.
Proof.
  intros H Hst H2. apply BackupKeyring_inv in H as [_ H]. destruct (H _ eq_refl) as [Hr Hwf].
  assert (Hk : keeps encKey kr (w_db w2)).
  { assert (Hk : keeps encKey kr (w_db w1)) by (by exists kr). clear -Hk Hst L JL.
    induction Hst as [w|wa wb wc Hs _ IH]; [done|]. apply IH. by eapply keyring_step_keeps. }
  pose proof (BackupKeyring_keeps _ _ _ _ _ Hk H2) as Hd. split_and!; [done | done|].
  intros kr2 -> id key Hkey. apply BackupKeyring_inv in H2 as [_ H2]. destruct (H2 _ eq_refl) as [Hr2 _].
  destruct Hk as (kr' & Hr' & Hsub & _). rewrite Hd, Hr' in Hr2. injection Hr2 as <-.
  by eapply lookup_weaken.
Qed.

(** A concrete encoding of the ring. *)
Definition ring_wfb (kr : Keyring) : bool :=
  (0 <=? kr_Active kr) && (kr_Active kr <=? 255)
  && forallb (fun kv => ValidUTF8 (fst kv) && ValidUTF8 (snd kv)) (map_to_list (kr_Keys kr)).

Lemma ring_wfb_spec kr : ring_wfb kr = true <-> ring_wf kr.
Proof.
  unfold ring_wfb, ring_wf. rewrite !andb_true_iff, !Z.leb_le, forallb_elem. split.
  - intros [? H]. split; [done|]. intros k v Hk. apply elem_of_map_to_list in Hk. apply H in Hk.
    by apply andb_true_iff in Hk.
  - intros [? H]. split; [done|]. intros [k v] Hk%elem_of_map_to_list. apply andb_true_iff. by apply H.
Qed.

Definition sample_ring_json : Json Keyring := {|
  json_marshal kr := Some (String "k" (to_text (kr_Active kr, kr_Keys kr)));
  json_unmarshal s :=
    match s with
    | String _ s' =>
      match of_text (A := Z * gmap string string) s' with
      | Some (a, m) => if ring_wfb (mkKeyring a m) then Some (mkKeyring a m) else None
      | None => None
      end
    | EmptyString => None
    end
|}.

#[export] Instance sample_ring_json_laws : @JsonLaws Keyring sample_ring_json ring_wf.
Proof.
  split; [|intros [|c s] kr; simpl; [done|] | done].
  - intros [a m] s Hwf [= <-]. cbn. rewrite of_to_text. apply ring_wfb_spec in Hwf. by rewrite Hwf.
  - destruct (of_text s) as [[a m]|]; [|done]. destruct (ring_wfb _) eqn:E; [|done]. intros [= <-].
    by apply ring_wfb_spec.
Qed.

Definition sample_use : M Keyring := @BackupKeyring sample_platform sample_ring_json (hex_bytes 16 7).
Definition sample_rotate : M Z := @RotateBackupKey sample_platform sample_ring_json (hex_bytes 16 7) None.

Lemma backup_keys_survive_witness :
  let w1 := snd (sample_use empty_world) in
  let w2 := snd (sample_rotate w1) in
  exists kr kr2 key, fst (sample_use empty_world) = Ok kr /\ KeyByID kr 0 = Some key
    /\ fst (sample_use w2) = Ok kr2 /\ KeyByID kr2 0 = Some key /\ kr_Active kr2 = 1 /\ KeyByID kr2 1 <> Some key.
Proof.
  cbv zeta. set (w1 := snd (sample_use empty_world)). set (w2 := snd (sample_rotate w1)).
  set (ring_at w := match fst (sample_use w) with Ok k => k | Err _ => mkKeyring 0 ∅ end).
  assert (H1 : sample_use empty_world = (Ok (ring_at empty_world), w1)) by (vm_compute; reflexivity).
  assert (H2 : sample_use w2 = (Ok (ring_at w2), snd (sample_use w2))) by (vm_compute; reflexivity).
  exists (ring_at empty_world), (ring_at w2), (default "" (KeyByID (ring_at empty_world) 0)).
  split; [by rewrite H1|]. split; [vm_compute; reflexivity|]. split; [by rewrite H2|]. split_and!.
  - destruct (backup_keys_survive (JL := sample_ring_json_laws) (hex_bytes 16 7) empty_world w1 w2 _ _ _ H1
      (rtc_once _ _ (step_rotate _ _ _ _ _ (surjective_pairing (sample_rotate w1)))) H2)
      as (_ & _ & Hk).
    apply (Hk _ eq_refl 0). vm_compute. reflexivity.
  - vm_compute. reflexivity.
  - vm_compute. intros H. discriminate H.
Defined.

(** Two first uses at once: both found no ring, and the second to save
    replaces the ring of the first, whose key is then in no store. *)
Theorem first_use_race `{P : Platform} `{L : !PlatformLaws P} `{J : Json Keyring}
    `{JL : !JsonLaws Keyring ring_wf} (encKey : string) (w w1 w2 : World) (krA krB : Keyring) :
  create_keyring encKey w = (Ok krA, w1) -> create_keyring encKey w1 = (Ok krB, w2) ->
  ring encKey (w_db w2) = Some krB /\ kr_Active krA = 0 /\ kr_Active krB = 0
  /\ exists k k', ActiveKey krA = Some (0, k) /\ KeyByID krB 0 = Some k'.
Proof.
  intros HA HB.
  assert (G : forall u kr u', create_keyring encKey u = (Ok kr, u') ->
    ring encKey (w_db u') = Some kr /\ kr_Active kr = 0 /\ exists k, ActiveKey kr = Some (0, k)).
  { intros u kr u' (kr' & u1 & Hk & ([] & u2 & Hs & H)%bind_ok)%bind_ok. apply ret_inv in H as [[= ->] ->].
    pose proof (newKeyring_inv _ _ _ Hk) as (_ & Hwf & [[i k] Ha]).
    apply saveKeyring_inv in Hs as [[_ ?]|[_ Hs]]; [done | | done]. split; [done|].
    apply bind_ok in Hk as (k' & u3 & _ & Hk). apply ret_inv in Hk as [[= ->] _]. cbn. eauto. }
  destruct (G _ _ _ HA) as (_ & HA0 & k & Hk). destruct (G _ _ _ HB) as (HrB & HB0 & k' & Hk').
  split_and!; [done..|]. exists k, k'. split; [done|]. unfold ActiveKey in Hk'. rewrite HB0 in Hk'.
  destruct (KeyByID krB 0); [congruence | done].
Qed.

(** ** The certificate pairs *)

Section pair_lemmas.
Context `{P : Platform} `{L : !PlatformLaws P} `{J : Json pemPair} `{JL : !JsonLaws pemPair (fun _ => True)} (encKey : string).

Lemma read_pair_inv key w r w' :
  read_pair encKey key w = (r, w') ->
  w_db w' = w_db w /\ forall o, r = Ok o -> o = pair_of encKey key (w_db w).
Proof.
  unfold read_pair, pair_of. intros [(raw & w1 & Hg & H)|(e & Hg & ->)]%bind_inv;
    apply setting_Get_inv in Hg as [Hd Hg]; [|by split].
  specialize (Hg raw eq_refl). destruct (String.eqb_spec raw "") as [-> | Hne].
  - apply ret_inv in H as [-> ->]. split; [done|]. intros o [= <-].
    destruct Hg as [[_ Hg]|Hg]; [unfold setting; by rewrite Hg | by rewrite Hg; cbn; rewrite json_unmarshal_empty].
  - destruct Hg as [[-> _]|Hs]; [done|]. rewrite Hs. cbn. destruct (json_unmarshal raw) as [p|].
    + apply ret_inv in H as [-> ->]. split; [done|]. by intros o [= <-].
    + apply fail_inv in H as [-> ->]. by split.
Qed.

(** A caller that found no pair gets the one in the store: its own, or the one
    another caller stored in the meantime, which it leaves alone. *)
Lemma create_pair_inv key gen w r w' :
  (forall I, preserves I gen) -> create_pair encKey key gen w = (r, w') ->
  (w_db w' = w_db w \/ (app_settings (w_db w) !! key = None
     /\ exists enc, w_db w' = with_app_settings (<[key := enc]> (app_settings (w_db w))) (w_db w)))
  /\ forall p, r = Ok p -> pair_of encKey key (w_db w') = Some p.
Proof.
  intros Hgen [(p & w1 & Hg & H)|(e & Hg & ->)]%bind_inv;
    pose proof (Hgen (fun d => d = w_db w) w eq_refl) as Hd; rewrite Hg in Hd; cbn [snd] in Hd; [|split; [by left | done]].
  rewrite <- Hd in *. clear Hg Hd w Hgen. rename w1 into w.
  destruct (json_marshal p) as [data|]; [|apply fail_inv in H as [-> ->]; split; [by left | done]].
  assert (Hset : forall r0 w1, setting_SetIfAbsent encKey key data w = (r0, w1) ->
    w_db w1 = w_db w \/ (app_settings (w_db w) !! key = None
      /\ exists enc, w_db w1 = with_app_settings (<[key := enc]> (app_settings (w_db w))) (w_db w))).
  { intros r0 w1 [?|(Hn & enc & _ & ?)]%setting_SetIfAbsent_inv; eauto. }
  apply bind_inv in H as [(b & w1 & Hs & H)|(e & Hs & ->)]; apply Hset in Hs; [|by split].
  apply bind_inv in H as [(o & w2 & Ho & H)|(e & Ho & ->)]; apply read_pair_inv in Ho as [Hd Ho]; [|by rewrite Hd].
  rewrite <- Hd in Hs. specialize (Ho o eq_refl).
  destruct o as [q|]; [apply ret_inv in H as [-> ->] | apply fail_inv in H as [-> ->]]; (split; [done|]); [|done].
  intros q' [= <-]. by rewrite Hd.
Qed.
End pair_lemmas.

(** Concurrent first callers converge: whoever gets a pair gets the one in the
    store, also when another caller stored its own between the first read and
    the insert, and once a pair is stored no caller changes it. *)
Theorem pair_converges `{P : Platform} `{L : !PlatformLaws P} `{J : Json pemPair}
    `{JL : !JsonLaws pemPair (fun _ => True)} (encKey key : string) (gen : M pemPair) (m : M pemPair)
    (w w' : World) (r : res error pemPair) :
  (forall I, preserves I gen) ->
  m = loadOrCreatePair encKey key gen \/ m = create_pair encKey key gen ->
  m w = (r, w') ->
  (forall p, r = Ok p -> pair_of encKey key (w_db w') = Some p)
  /\ (forall q, pair_of encKey key (w_db w) = Some q -> w_db w' = w_db w /\ forall p, r = Ok p -> p = q).
Proof.
  intros Hgen Hm H.
  assert (Hc : forall u u' r, create_pair encKey key gen u = (r, u') ->
    (forall p, r = Ok p -> pair_of encKey key (w_db u') = Some p)
    /\ (forall q, pair_of encKey key (w_db u) = Some q -> w_db u' = w_db u /\ forall p, r = Ok p -> p = q)).
  { intros u u' r0 Hu. apply create_pair_inv in Hu as [Hd Hp]; [|done]. split; [done|]. intros q Hq.
    destruct Hd as [Hd|[Hn _]].
    - split; [done|]. intros p Hr. apply Hp in Hr. rewrite Hd in Hr. congruence.
    - unfold pair_of, setting in Hq. by rewrite Hn in Hq. }
  destruct Hm as [-> | ->]; [|by apply Hc].
  apply bind_inv in H as [(o & w1 & Ho & H)|(e & Ho & ->)]; apply read_pair_inv in Ho as [Hd Ho]; [|by split].
  specialize (Ho o eq_refl). destruct o as [p|].
  - apply ret_inv in H as [-> ->]. rewrite Hd. split; [intros ? [= <-]; done|]. intros q Hq.
    split; [done|]. intros ? [= <-]. congruence.
  - rewrite <- Hd. by apply Hc.
Qed.

(** A concrete encoding of a pair. *)
Definition sample_pair_json : Json pemPair := {|
  json_marshal p := Some (String "p" (to_text (pair_CertPEM p, pair_KeyPEM p)));
  json_unmarshal s :=
    match s with
    | String _ s' =>
      match of_text (A := string * string) s' with
      | Some (c, k) => Some (mkPemPair c k)
      | None => None
      end
    | EmptyString => None
    end
|}.

#[export] Instance sample_pair_json_laws : @JsonLaws pemPair sample_pair_json (fun _ => True).
Proof.
  split; [|done | done]. intros [c k] s _ [= <-]. cbn. by rewrite of_to_text.
Qed.

Lemma pair_converges_witness :
  let load k := @loadOrCreatePair sample_platform sample_pair_json (hex_bytes 16 7) "ca" (ret (mkPemPair k k)) in
  let create k := @create_pair sample_platform sample_pair_json (hex_bytes 16 7) "ca" (ret (mkPemPair k k)) in
  let w1 := snd (load "first" empty_world) in
  fst (load "first" empty_world) = Ok (mkPemPair "first" "first")
  /\ fst (create "second" w1) = Ok (mkPemPair "first" "first") /\ w_db (snd (create "second" w1)) = w_db w1.
Proof.
  cbv zeta. split; [vm_compute; reflexivity|]. set (w1 := snd _).
  destruct (@create_pair sample_platform sample_pair_json (hex_bytes 16 7) "ca" (ret (mkPemPair "second" "second")) w1)
    as [r w2] eqn:E.
  destruct (pair_converges (P := sample_platform) (JL := sample_pair_json_laws) (hex_bytes 16 7) "ca"
    (ret (mkPemPair "second" "second")) _ w1 w2 r (fun I => preserves_ret I _) (or_intror eq_refl) E) as [_ H].
  destruct (H (mkPemPair "first" "first")) as [Hd Hr]; [vm_compute; reflexivity|]. split; [|exact Hd].
  assert (Hok : is_ok (fst (r, w2)) = true) by (rewrite <- E; vm_compute; reflexivity).
  destruct r as [p|e]; [cbn [fst]; by rewrite (Hr p eq_refl) | discriminate Hok].
Defined.
