(* ===== verification/HytaleAuth.v ===== *)
(** * The linked Hytale account

    Models [services/hytale_auth_service.go] and the account part of
    [handlers/hytale.go]: linking an account through the OAuth device flow,
    the rotating refresh token in the settings, and the sessions minted for
    server starts.

    The Hytale services are the class [Provider]: their states and the answer
    to one call.  The service keeps the cached access token and the pending
    login in memory, the rest in the settings.  Each method holds the mutex
    where the source does, so a method is one step. *)

From stdpp Require Import base numbers list strings option gmap relations.
From S2P Require Import Prelude GoStrings Regex Store Platform Crypto Auth Net Daemon Http ServerHandlers Settings.

Local Open Scope Z_scope.

(** ** The provider *)

Inductive HytaleBody :=
| NoBody
| FormBody (form : list (string * string))
| ObjectBody (fields : list (string * string)).

Record HytaleCall := mkHytaleCall {
  hc_Method : string;
  hc_URL : string;
  hc_Bearer : option string;
  hc_Body : HytaleBody
}.

(** A failed call, or the status and the body. *)
Inductive HytaleAnswer :=
| HFailed (msg : string)
| HAnswered (status : Z) (body : string).

Class Provider := {
  pv_state : Type;
  pv_call : HytaleCall -> pv_state -> HytaleAnswer * pv_state
}.

Record HytaleAuthEndpoints := mkHytaleAuthEndpoints {
  ep_OAuth : string;
  ep_AccountData : string;
  ep_Sessions : string
}.

Definition DefaultHytaleAuthEndpoints : HytaleAuthEndpoints :=
  mkHytaleAuthEndpoints "https://oauth.accounts.hytale.com" "https://account-data.hytale.com" "https://sessions.hytale.com".

Definition hytaleClientID : string := "hytale-server".
Definition hytaleScopes : string := "openid offline auth:server".
Definition hytaleRefreshTokenKey : string := "hytale_refresh_token".
Definition hytaleProfileKey : string := "hytale_profile_uuid".
Definition hytaleProfilesKey : string := "hytale_profiles".
Definition hytaleLinkedAtKey : string := "hytale_linked_at".
Definition hytaleAuthKeys : list string := [hytaleRefreshTokenKey; hytaleProfileKey; hytaleProfilesKey; hytaleLinkedAtKey].

Definition ErrHytaleNotLinked : error := ErrNew "no Hytale account linked".
Definition ErrHytaleRelinkRequired : error := ErrNew "Hytale login expired; link the account again".
Definition ErrNoDeviceLogin : error := ErrNew "no Hytale device login in progress".

Inductive DeviceLoginState := DeviceLoginPending | DeviceLoginLinked | DeviceLoginExpired | DeviceLoginDenied.

Record DeviceLogin := mkDeviceLogin {
  dl_UserCode : string;
  dl_VerificationURI : string;
  dl_VerificationURIComplete : string;
  dl_ExpiresIn : Z;
  dl_Interval : Z
}.

Record HytaleProfile := mkHytaleProfile {
  hp_UUID : string;
  hp_Username : string
}.

Record HytaleAuthStatus := mkHytaleAuthStatus {
  has_Linked : bool;
  has_ProfileUUID : string;
  has_ProfileName : string;
  has_Profiles : list HytaleProfile;
  has_LinkedAt : string;
  has_LoginPending : bool
}.

Record GameSession := mkGameSession {
  gs_SessionToken : string;
  gs_IdentityToken : string;
  gs_OwnerUUID : string;
  gs_ExpiresAt : string
}.

Record oauthToken := mkoauthToken {
  ot_AccessToken : string;
  ot_RefreshToken : string;
  ot_ExpiresIn : Z
}.

(** [json.Unmarshal] into the types the service reads, and the text of a
    time and of a status. *)
Class HytaleJson := {
  dec_device : string -> option (string * DeviceLogin);
  dec_token : string -> option oauthToken;
  dec_profiles : string -> option (list HytaleProfile);
  dec_session : string -> option (string * string * string);
  (* the "error" field, "" when there is none *)
  dec_error : string -> string;
  StatusText : Z -> string;
  rfc3339 : Z -> string
}.

(** ** The service *)

Section service.
Context `{U : Unicode} `{P : Platform} `{V : Provider} `{J : HytaleJson} `{JP : Json (list HytaleProfile)}.
Context (encKey : string) (ep : HytaleAuthEndpoints).

(** The fields behind the mutex, with the provider. *)
Record HytaleState := mkHytaleState {
  hs_accessToken : string;
  hs_accessExp : Z;
  hs_device : option (string * Z);
  hs_provider : pv_state
}.

(** A method: the state it leaves also when it fails. *)
Definition H (A : Type) : Type := HytaleState -> M (res error A * HytaleState).

Definition hret {A} (a : A) : H A := fun s => ret (Ok a, s).
Definition hfail {A} (e : error) : H A := fun s => ret (Err e, s).
Definition hbind {A B} (m : H A) (k : A -> H B) : H B := fun s =>
  let* (r, s') := m s in
  match r with Ok a => k a s' | Err e => ret (Err e, s') end.
Definition lift_M {A} (m : M A) : H A := fun s => let* r := attempt m in ret (r, s).
Definition hget : H HytaleState := fun s => ret (Ok s, s).

Notation "'let!' x := m 'in' k" := (hbind m (fun x => k)) (at level 10, x name, m at level 100, k at level 200).
Notation "'run!' m 'in' k" := (hbind m (fun _ => k)) (at level 10, m at level 100, k at level 200).

Definition setting_get (key : string) : H string := lift_M (setting_Get encKey key).
Definition setting_set (key value : string) (by_ : option uuid) : H unit := lift_M (setting_Set encKey key value by_).

Definition call (c : HytaleCall) : H HytaleAnswer := fun s =>
  let (a, p) := pv_call c (hs_provider s) in
  ret (Ok a, mkHytaleState (hs_accessToken s) (hs_accessExp s) (hs_device s) p).

Definition set_device (d : option (string * Z)) : H unit := fun s =>
  ret (Ok tt, mkHytaleState (hs_accessToken s) (hs_accessExp s) d (hs_provider s)).

(** An answer of [postForm] that is not a value: the [oauthError] of a status
    of 300 and more, or another error. *)
Inductive PostError :=
| OAuthError (code : string)
| OtherError (e : error).

Definition post_error (status : Z) (e : PostError) : error :=
  match e with
  | OAuthError code => ErrNew ("HTTP " +:+ Itoa status +:+ ": " +:+ code)
  | OtherError e => e
  end.

Definition postForm {A} (endpoint : string) (form : list (string * string)) (decode : string -> option A)
  : H (Z * res PostError A) :=
  let! a := call (mkHytaleCall "POST" endpoint None (FormBody form)) in
  hret match a with
       | HFailed msg => (0, Err (OtherError (ErrNew msg)))
       | HAnswered status body0 =>
         let body := limit_read (2 ^ 20) body0 in
         (status,
          if 300 <=? status then
            Err (OAuthError (if String.eqb (dec_error body) "" then StatusText status else dec_error body))
          else match decode body with
               | Some x => Ok x
               | None => Err (OtherError (ErrNew "json"))
               end)
       end.

Definition doJSON {A} (c : HytaleCall) (decode : string -> option A) : H A :=
  let! a := call c in
  match a with
  | HFailed msg => hfail (ErrNew msg)
  | HAnswered status body0 =>
    let body := limit_read (2 ^ 20) body0 in
    if 300 <=? status then hfail (ErrNew ("HTTP " +:+ Itoa status +:+ ": " +:+ TrimSpace body))
    else match decode body with Some x => hret x | None => hfail (ErrNew "json") end
  end.

(** An OAuth error of the client is the second result, "" for none. *)
Definition tokenRequest (form : list (string * string)) : H (option oauthToken * string) :=
  let! r := postForm (ep_OAuth ep +:+ "/oauth2/token") form dec_token in
  match r with
  | (_, Ok tok) => hret (Some tok, "")
  | (status, Err e) =>
    match e with
    | OAuthError code => if (400 <=? status) && (status <? 500) then hret (None, code)
                         else hfail (ErrWrap "Hytale token request" (post_error status e))
    | OtherError e' => hfail (ErrWrap "Hytale token request" e')
    end
  end.

Definition wrap_h {A} (msg : string) (m : H A) : H A := fun s =>
  let* (r, s') := m s in
  ret (match r with Ok a => Ok a | Err e => Err (ErrWrap msg e) end, s').

Definition fetchProfiles (access : string) : H (list HytaleProfile) :=
  wrap_h "fetching Hytale profiles"
    (doJSON (mkHytaleCall "GET" (ep_AccountData ep +:+ "/my-account/get-profiles") (Some access) NoBody) dec_profiles).

Definition profiles : H (list HytaleProfile) :=
  let! raw := setting_get hytaleProfilesKey in
  if String.eqb raw "" then hret []
  else match json_unmarshal raw with
  | Some out => hret out
  | None => hfail (ErrWrap "decoding stored Hytale profiles" (ErrNew "json"))
  end.

(** The token is cached with a minute of slack; durations are int64. *)
Definition setAccessToken (tok : oauthToken) : H unit := fun s =>
  let* t := now in
  ret (Ok tt, mkHytaleState (ot_AccessToken tok)
                (t + int64_wrap (int64_wrap (ot_ExpiresIn tok * second) - 60 * second)) (hs_device s) (hs_provider s)).

Definition StartDeviceLogin : H DeviceLogin :=
  let! r := postForm (ep_OAuth ep +:+ "/oauth2/device/auth")
              [("client_id", hytaleClientID); ("scope", hytaleScopes)] dec_device in
  match r with
  | (status, Err e) => hfail (ErrWrap "starting Hytale device login" (post_error status e))
  | (_, Ok (code, login)) =>
    if String.eqb code "" then hfail (ErrNew "starting Hytale device login: no device code returned")
    else
      let! t := lift_M now in
      run! set_device (Some (code, t + int64_wrap (dl_ExpiresIn login * second))) in
      hret login
  end.

(** The writes of a completed login, in order: the first failure ends them. *)
Fixpoint store_all (l : list (string * string)) (by_ : option uuid) : H unit :=
  match l with
  | [] => hret tt
  | (k, v) :: l' =>
    run! wrap_h "storing Hytale login" (setting_set k v by_) in
    store_all l' by_
  end.

(** [tokenRequest] gives no token and no error text when a 4xx answer has no
    error field and a status without a text; the code then reads the token
    through a nil pointer. *)
Definition ErrNilDereference : error := ErrNew "runtime error: invalid memory address or nil pointer dereference".

(** From the granted token on. *)
Definition complete_login (tok : oauthToken) (updatedBy : option uuid) : H DeviceLoginState :=
  let! ps := fetchProfiles (ot_AccessToken tok) in
  match ps with
  | [] => hfail (ErrNew "the Hytale account has no game profile")
  | p :: _ =>
    if String.eqb (ot_RefreshToken tok) "" then hfail (ErrNew "the Hytale login returned no refresh token")
    else
      let! t := lift_M now in
      run! store_all [(hytaleProfileKey, hp_UUID p);
                      (hytaleProfilesKey, default "" (json_marshal ps));
                      (hytaleLinkedAtKey, rfc3339 t);
                      (hytaleRefreshTokenKey, ot_RefreshToken tok)] updatedBy in
      run! set_device None in
      run! setAccessToken tok in
      hret DeviceLoginLinked
  end.

Definition PollDeviceLogin (updatedBy : option uuid) : H DeviceLoginState :=
  let! s := hget in
  match hs_device s with
  | None => hfail ErrNoDeviceLogin
  | Some (code, expires) =>
    let! t := lift_M now in
    if expires <? t then run! set_device None in hret DeviceLoginExpired
    else
      let! r := tokenRequest [("client_id", hytaleClientID);
                              ("grant_type", "urn:ietf:params:oauth:grant-type:device_code");
                              ("device_code", code)] in
      match r with
      | (Some tok, oauthErr) => complete_login tok updatedBy
      | (None, oauthErr) =>
        if String.eqb oauthErr "" then hfail ErrNilDereference
        else if contains ["authorization_pending"; "slow_down"] oauthErr then hret DeviceLoginPending
        else if contains ["expired_token"; "invalid_grant"] oauthErr then
          run! set_device None in hret DeviceLoginExpired
        else if String.eqb oauthErr "access_denied" then
          run! set_device None in hret DeviceLoginDenied
        else hfail (ErrNew ("Hytale device login failed: " +:+ oauthErr))
      end
  end.

(** The name of the last profile with the selected id. *)
Definition profile_name (id : string) (ps : list HytaleProfile) : string :=
  fold_left (fun name p => if String.eqb (hp_UUID p) id then hp_Username p else name) ps "".

Definition Status : H HytaleAuthStatus :=
  let! refresh := setting_get hytaleRefreshTokenKey in
  let! s := hget in
  let! t := lift_M now in
  let linked := negb (String.eqb refresh "") in
  let pending := match hs_device s with Some (_, expires) => t <? expires | None => false end in
  if negb linked then hret (mkHytaleAuthStatus linked "" "" [] "" pending)
  else
    let! ps := profiles in
    let! id := setting_get hytaleProfileKey in
    let! at_ := setting_get hytaleLinkedAtKey in
    hret (mkHytaleAuthStatus linked id (profile_name id ps) ps at_ pending).

Definition SelectProfile (profileUUID : string) : H unit :=
  let! ps := profiles in
  if existsb (fun p => String.eqb (hp_UUID p) profileUUID) ps
  then setting_set hytaleProfileKey profileUUID None
  else hfail (ErrNew ("the linked Hytale account has no profile " +:+ profileUUID)).

Fixpoint clear_all (keys : list string) : H unit :=
  match keys with
  | [] => hret tt
  | k :: keys' => run! setting_set k "" None in clear_all keys'
  end.

(** [s.accessToken, s.accessExp, s.device = "", time.Time{}, nil]. *)
Definition forget : H unit := fun s => ret (Ok tt, mkHytaleState "" 0 None (hs_provider s)).

Definition Unlink : H unit :=
  run! clear_all hytaleAuthKeys in
  forget.

Definition currentAccessToken : H string :=
  let! s := hget in
  let! t := lift_M now in
  if negb (String.eqb (hs_accessToken s) "") && (t <? hs_accessExp s) then hret (hs_accessToken s)
  else
    let! refresh := setting_get hytaleRefreshTokenKey in
    if String.eqb refresh "" then hfail ErrHytaleNotLinked
    else
      let! r := tokenRequest [("client_id", hytaleClientID); ("grant_type", "refresh_token"); ("refresh_token", refresh)] in
      match r with
      | (None, oauthErr) =>
        if String.eqb oauthErr "" then hfail ErrNilDereference
        else if String.eqb oauthErr "invalid_grant" then hfail ErrHytaleRelinkRequired
        else hfail (ErrNew ("refreshing Hytale login: " +:+ oauthErr))
      | (Some tok, _) =>
        run! (if negb (String.eqb (ot_RefreshToken tok) "")
              then wrap_h "storing rotated Hytale refresh token" (setting_set hytaleRefreshTokenKey (ot_RefreshToken tok) None)
              else hret tt) in
        run! setAccessToken tok in
        hret (ot_AccessToken tok)
      end.

Definition NewGameSession : H GameSession :=
  let! access := currentAccessToken in
  let! profile := setting_get hytaleProfileKey in
  let! r := wrap_h "creating Hytale game session"
              (doJSON (mkHytaleCall "POST" (ep_Sessions ep +:+ "/game-session/new") (Some access)
                         (ObjectBody [("uuid", profile)])) dec_session) in
  let '(session, identity, expires) := r in
  hret (mkGameSession session identity profile expires).

(** ** Handlers *)

Definition answer_h {A} (m : H A) (onErr : error -> Reply) : HytaleState -> M (res Reply A * HytaleState) := fun s =>
  let* (r, s') := m s in
  ret (match r with Ok a => Ok a | Err e => Err (onErr e) end, s').

Definition AuthStatus := answer_h Status (fun _ => reply_error 500 "could not read Hytale login").

Definition StartDeviceLoginHandler := answer_h StartDeviceLogin (fun e => reply_error 502 (error_Error e)).

(** A panic is answered 500 by gin's recovery. *)
Definition poll_error (e : error) : Reply :=
  if error_Is e ErrNoDeviceLogin then reply_error 409 (error_Error e)
  else if error_Is e ErrNilDereference then mkReply 500 JNull
  else reply_error 502 (error_Error e).

Definition PollDeviceLoginHandler (user : option User) := answer_h (PollDeviceLogin (user_ID <$> user)) poll_error.

Definition SelectProfileHandler (body : option string) : HytaleState -> M (res Reply HytaleAuthStatus * HytaleState) := fun s =>
  match body with
  | None | Some "" => ret (Err (reply_error 400 "profile_uuid is required"), s)
  | Some profileUUID =>
    let* (r, s') := SelectProfile profileUUID s in
    match r with Err e => ret (Err (reply_error 400 (error_Error e)), s') | Ok _ => AuthStatus s' end
  end.

Definition UnlinkHandler := answer_h Unlink (fun _ => reply_error 500 "could not unlink").
End service.

(** ** A program logic for the methods *)

Section triples.
Context `{V : Provider}.

(** From [pre], the method ends with a result and a state that satisfy [post];
    it always ends. *)
Definition htriple {A} (pre : DB -> HytaleState -> Prop) (m : H A)
    (post : res error A -> DB -> HytaleState -> Prop) : Prop :=
  forall s w, pre (w_db w) s -> exists r s' w', m s w = (Ok (r, s'), w') /\ post r (w_db w') s'.

(** An invariant, whatever the outcome. *)
Definition hkeeps {A} (I : DB -> HytaleState -> Prop) (m : H A) : Prop := htriple I m (fun _ => I).

Lemma htriple_ret {A} (pre : DB -> HytaleState -> Prop) (a : A) post :
  (forall d s, pre d s -> post (Ok a) d s) -> htriple pre (hret a) post.
Proof. intros H s w Hp. exists (Ok a), s, w. split; [done|]. by apply H. Qed.

Lemma htriple_fail {A} (pre : DB -> HytaleState -> Prop) e (post : res error A -> DB -> HytaleState -> Prop) :
  (forall d s, pre d s -> post (Err e) d s) -> htriple pre (hfail e) post.
Proof. intros H s w Hp. exists (Err e), s, w. split; [done|]. by apply H. Qed.

Lemma htriple_bind {A B} pre (m : H A) (k : A -> H B) (mid : A -> DB -> HytaleState -> Prop) post :
  htriple pre m (fun r => match r with Ok a => mid a | Err e => post (Err e) end) ->
  (forall a, htriple (mid a) (k a) post) -> htriple pre (hbind m k) post.
Proof.
  intros Hm Hk s w Hp. destruct (Hm s w Hp) as (r & s1 & w1 & E & Hr). unfold hbind, bind. rewrite E.
  destruct r as [a|e]; [by apply Hk|]. by exists (Err e), s1, w1.
Qed.

Lemma htriple_conseq {A} (pre pre' : DB -> HytaleState -> Prop) (m : H A) (post post' : res error A -> DB -> HytaleState -> Prop) :
  htriple pre' m post' -> (forall d s, pre d s -> pre' d s) -> (forall r d s, post' r d s -> post r d s) -> htriple pre m post.
Proof. intros Hm Hpre Hpost s w Hp. destruct (Hm s w (Hpre _ _ Hp)) as (r & s' & w' & E & Hr). exists r, s', w'. auto. Qed.

Lemma hkeeps_bind {A B} I (m : H A) (k : A -> H B) : hkeeps I m -> (forall a, hkeeps I (k a)) -> hkeeps I (hbind m k).
Proof. intros Hm Hk. eapply (htriple_bind _ _ _ (fun _ => I)); [|exact Hk]. eapply htriple_conseq; [exact Hm | done|]. by intros []. Qed.

Lemma hkeeps_ret {A} I (a : A) : hkeeps I (hret a).
Proof. by apply htriple_ret. Qed.

Lemma hkeeps_fail {A} I e : hkeeps I (@hfail _ A e).
Proof. by apply htriple_fail. Qed.

Lemma hkeeps_lift {A} I (m : M A) : (forall s, preserves (fun d => I d s) m) -> hkeeps I (lift_M m).
Proof.
  intros Hm s w Hp. specialize (Hm s w Hp). unfold lift_M, attempt, bind. destruct (m w) as [r w']. by exists r, s, w'.
Qed.

Lemma hkeeps_get I : hkeeps I hget.
Proof. intros s w Hp. by exists (Ok s), s, w. Qed.

Lemma htriple_wrap {A} pre msg (m : H A) (post : res error A -> DB -> HytaleState -> Prop) :
  htriple pre m (fun r => match r with Ok a => post (Ok a) | Err e => post (Err (ErrWrap msg e)) end) ->
  htriple pre (wrap_h msg m) post.
Proof.
  intros Hm s w Hp. destruct (Hm s w Hp) as (r & s1 & w1 & E & Hr). unfold wrap_h, bind. rewrite E.
  eexists _, s1, w1. split; [done|]. by destruct r.
Qed.

Lemma hkeeps_wrap {A} I msg (m : H A) : hkeeps I m -> hkeeps I (wrap_h msg m).
Proof. intros Hm. apply htriple_wrap. eapply htriple_conseq; [exact Hm | done|]. by intros []. Qed.

Lemma hkeeps_device I d : (forall db s, I db s -> I db (mkHytaleState (hs_accessToken s) (hs_accessExp s) d (hs_provider s))) ->
  hkeeps I (set_device d).
Proof. intros Hd s w Hp. eexists (Ok tt), _, w. split; [done|]. by apply Hd. Qed.

Lemma hkeeps_call I c :
  (forall db s, I db s -> I db (mkHytaleState (hs_accessToken s) (hs_accessExp s) (hs_device s) (snd (pv_call c (hs_provider s))))) ->
  hkeeps I (call c).
Proof.
  intros Hc s w Hp. unfold call. specialize (Hc _ _ Hp). destruct (pv_call c (hs_provider s)) as [a p]. by eexists (Ok a), _, w.
Qed.
End triples.

Ltac solve_hkeeps :=
  repeat lazymatch goal with
  | |- hkeeps _ (hbind _ _) => apply hkeeps_bind; [|intros]
  | |- hkeeps _ (hret _) => apply hkeeps_ret
  | |- hkeeps _ (hfail _) => apply hkeeps_fail
  | |- hkeeps _ hget => apply hkeeps_get
  | |- hkeeps _ (wrap_h _ _) => apply hkeeps_wrap
  | |- hkeeps _ (lift_M _) => apply hkeeps_lift; intros; unfold setting_Get; solve_preserves
  | |- hkeeps _ (match ?x with _ => _ end) => destruct x
  end.

(** ** Theorems: the refresh token *)

Section laws.
Context `{J : HytaleJson} (ep : HytaleAuthEndpoints).

Definition token_call (form : list (string * string)) : HytaleCall :=
  mkHytaleCall "POST" (ep_OAuth ep +:+ "/oauth2/token") None (FormBody form).
Definition refresh_form (r : string) : list (string * string) :=
  [("client_id", hytaleClientID); ("grant_type", "refresh_token"); ("refresh_token", r)].
Definition device_form (code : string) : list (string * string) :=
  [("client_id", hytaleClientID); ("grant_type", "urn:ietf:params:oauth:grant-type:device_code"); ("device_code", code)].

(** What is relied on of the provider: [pv_live] says which refresh tokens it
    accepts.  Only the use of a refresh token takes one away, and the answer
    to it brings the next; an error answer takes none away; a granted login
    brings a token that is accepted. *)
Class ProviderLaws (V : Provider) := {
  pv_live : pv_state -> string -> Prop;
  pv_keeps c st r : (forall r', c <> token_call (refresh_form r')) -> pv_live st r -> pv_live (snd (pv_call c st)) r;
  pv_refused r' st status body st' r :
    pv_call (token_call (refresh_form r')) st = (HAnswered status body, st') -> 300 <= status -> pv_live st r -> pv_live st' r;
  pv_rotates r st status body st' tok :
    pv_call (token_call (refresh_form r)) st = (HAnswered status body, st') -> status < 300 ->
    dec_token (limit_read (2 ^ 20) body) = Some tok -> pv_live st r ->
    pv_live st' (if String.eqb (ot_RefreshToken tok) "" then r else ot_RefreshToken tok);
  pv_granted code st status body st' tok :
    pv_call (token_call (device_form code)) st = (HAnswered status body, st') -> status < 300 ->
    dec_token (limit_read (2 ^ 20) body) = Some tok -> ot_RefreshToken tok <> "" -> pv_live st' (ot_RefreshToken tok)
}.
End laws.

Section live.
Context `{U : Unicode} `{P : Platform} `{L : !PlatformLaws P} `{V : Provider} `{J : HytaleJson} `{JP : Json (list HytaleProfile)}.
Context (encKey : string) (ep : HytaleAuthEndpoints) `{VL : !ProviderLaws ep V}.

(** The text stored under a key, "" for none. *)
Definition stored (key : string) (d : DB) : string := default "" (setting encKey key d).

Lemma set_triple (pre : DB -> HytaleState -> Prop) k v by_ :
  htriple pre (setting_set encKey k v by_) (fun r d s =>
    (is_ok r = false /\ pre d s)
    \/ (r = Ok tt /\ exists d0, pre d0 s /\ stored k d = v /\ forall k', k' <> k -> stored k' d = stored k' d0)).
Proof.
  intros s w Hp. unfold setting_set, lift_M, attempt, bind. destruct (setting_Set encKey k v by_ w) as [r w'] eqn:E.
  exists r, s, w'. split; [done|]. apply setting_Set_inv in E as [[-> ?]|[-> Hs]]; [left; by split|]. right. split; [done|].
  exists (w_db w). split; [done|]. destruct Hs as [[-> ->]|(Hv & enc & Hd & ->)].
  - unfold stored, setting. simpl. split; [by rewrite lookup_delete_eq|]. intros k' Hk. by rewrite lookup_delete_ne.
  - unfold stored. split.
    + erewrite setting_insert by done. by rewrite bool_decide_true.
    + intros k' Hk. erewrite setting_insert by done. by rewrite bool_decide_false.
Qed.

Definition live_link (d : DB) (s : HytaleState) : Prop :=
  stored hytaleRefreshTokenKey d = "" \/ pv_live ep (hs_provider s) (stored hytaleRefreshTokenKey d).

Lemma live_set k v by_ (I := live_link) :
  (k = hytaleRefreshTokenKey -> v = "") -> hkeeps I (setting_set encKey k v by_).
Proof.
  intros Hk. eapply htriple_conseq; [apply set_triple | done|]. intros r d s [[_ ?]|(_ & d0 & Hl & Hs & Ho)]; [done|].
  unfold I, live_link in *. destruct (decide (k = hytaleRefreshTokenKey)) as [->|Hn]; [left; by rewrite Hs, Hk|].
  by rewrite Ho by congruence.
Qed.

Lemma live_call c : (forall r', c <> token_call ep (refresh_form r')) -> hkeeps live_link (call c).
Proof. intros Hc. apply hkeeps_call. intros d s [H|H]; [by left | right]. by apply pv_keeps. Qed.

Lemma live_doJSON {A} c (dec : string -> option A) : (forall r', c <> token_call ep (refresh_form r')) ->
  hkeeps live_link (doJSON c dec).
Proof. intros Hc. unfold doJSON. solve_hkeeps. by apply live_call. Qed.

Lemma live_profiles : hkeeps live_link (profiles encKey).
Proof. unfold profiles, setting_get. solve_hkeeps. Qed.

Lemma live_access tok : hkeeps live_link (setAccessToken tok).
Proof. intros s w Hp. unfold setAccessToken, bind, now. by eexists (Ok tt), _, w. Qed.

Lemma live_start : hkeeps live_link (StartDeviceLogin ep).
Proof.
  unfold StartDeviceLogin, postForm. solve_hkeeps; [apply live_call; intros r' [=] | by apply hkeeps_device].
Qed.

Lemma live_select p : hkeeps live_link (SelectProfile encKey p).
Proof. unfold SelectProfile. solve_hkeeps; [apply live_profiles | by apply live_set]. Qed.

Lemma live_unlink : hkeeps live_link (Unlink encKey).
Proof.
  unfold Unlink, hytaleAuthKeys. cbn [clear_all]. solve_hkeeps; try by apply live_set.
  intros s w Hp. by eexists (Ok tt), _, w.
Qed.

Lemma live_status : hkeeps live_link (Status encKey).
Proof. unfold Status, setting_get. solve_hkeeps. apply live_profiles. Qed.

(** With a token the provider granted: it stays accepted until it is stored. *)
Definition live_with (tok : oauthToken) (d : DB) (s : HytaleState) : Prop :=
  live_link d s /\ pv_live ep (hs_provider s) (ot_RefreshToken tok).

Lemma live_with_set tok k v by_ : (k = hytaleRefreshTokenKey -> v = ot_RefreshToken tok) ->
  hkeeps (live_with tok) (setting_set encKey k v by_).
Proof.
  intros Hk. eapply htriple_conseq; [apply set_triple | done|]. intros r d s [[_ ?]|(_ & d0 & [Hl Ht] & Hs & Ho)]; [done|].
  split; [|done]. unfold live_link in *. destruct (decide (k = hytaleRefreshTokenKey)) as [->|Hn]; [right; by rewrite Hs, Hk|].
  by rewrite Ho by congruence.
Qed.

Lemma live_complete tok by_ : hkeeps (live_with tok) (complete_login encKey ep tok by_).
Proof.
  unfold complete_login, fetchProfiles, doJSON. cbn [store_all]. solve_hkeeps; try by apply live_with_set.
  - apply hkeeps_call. intros d s [Hl Ht]. split; [|by apply pv_keeps].
    destruct Hl as [?|?]; [by left | right]. by apply pv_keeps.
  - by apply hkeeps_device.
  - intros s w Hp. unfold setAccessToken, bind, now. by eexists (Ok tt), _, w.
Qed.

(** The state with the provider moved on. *)
Definition with_provider (p : pv_state) (s : HytaleState) : HytaleState :=
  mkHytaleState (hs_accessToken s) (hs_accessExp s) (hs_device s) p.

(** A call was answered with success, and this is what it decodes to. *)
Definition answered {X} (c : HytaleCall) (decode : string -> option X) (p : pv_state) (x : X) (p' : pv_state) : Prop :=
  exists status body, pv_call c p = (HAnswered status body, p') /\ status < 300
    /\ decode (limit_read (2 ^ 20) body) = Some x.

(** A token request makes one call and leaves the world as it is. *)
Lemma tokenRequest_run form s w :
  exists r a p, tokenRequest ep form s w = (Ok (r, with_provider p s), w)
    /\ pv_call (token_call ep form) (hs_provider s) = (a, p)
    /\ match r with
       | Ok (Some tok, _) => answered (token_call ep form) dec_token (hs_provider s) tok p
       | Ok (None, _) => exists status body, a = HAnswered status body /\ 300 <= status
       | Err e => exists e', e = ErrWrap "Hytale token request" e'
       end.
Proof.
  unfold tokenRequest, postForm, hbind, call, bind, hret, ret, answered, token_call.
  destruct (pv_call _ (hs_provider s)) as [a p] eqn:E. destruct a as [msg|status body].
  - eexists _, _, p. split_and!; [reflexivity | done | by eexists].
  - destruct (Z.leb_spec 300 status); cbn.
    + destruct ((400 <=? status) && (status <? 500)) eqn:Er; eexists _, _, p; (split_and!; [reflexivity | done|]);
        [by exists status, body | by eexists].
    + destruct (dec_token _) as [tok|] eqn:Ed; eexists _, _, p; (split_and!; [reflexivity | done|]);
        [by exists status, body | by eexists].
Qed.

(** The outcome of a token request. *)
Lemma token_triple form (pre : DB -> HytaleState -> Prop) :
  htriple pre (tokenRequest ep form) (fun r d s => exists s0, pre d s0
    /\ hs_device s = hs_device s0
    /\ exists a, pv_call (token_call ep form) (hs_provider s0) = (a, hs_provider s)
    /\ match r with
       | Ok (Some tok, _) => exists status body, a = HAnswered status body /\ status < 300
           /\ dec_token (limit_read (2 ^ 20) body) = Some tok
       | Ok (None, _) => exists status body, a = HAnswered status body /\ 300 <= status
       | Err e => exists e', e = ErrWrap "Hytale token request" e'
       end).
Proof.
  intros s w Hp. destruct (tokenRequest_run form s w) as (r & a & p & E & Ec & Hr).
  exists r, (with_provider p s), w. split; [done|]. exists s. split_and!; [done | done|]. exists a. split; [done|].
  destruct r as [[[tok|] oe]|e]; [|done | done]. destruct Hr as (status & body & Ec' & Hr).
  exists status, body. split; [congruence | done].
Qed.

Lemma live_complete_unused tok by_ : ot_RefreshToken tok = "" -> hkeeps live_link (complete_login encKey ep tok by_).
Proof. intros Ht. unfold complete_login, fetchProfiles. rewrite Ht, String.eqb_refl. solve_hkeeps. by apply live_doJSON. Qed.

Lemma live_poll by_ : hkeeps live_link (PollDeviceLogin encKey ep by_).
Proof.
  unfold PollDeviceLogin. apply hkeeps_bind; [apply hkeeps_get|]. intros s0. destruct (hs_device s0) as [[code exp]|]; [|apply hkeeps_fail].
  apply hkeeps_bind; [solve_hkeeps|]. intros t. destruct (exp <? t); [solve_hkeeps; by apply hkeeps_device|].
  apply (htriple_bind _ _ _ (fun r d s => match fst r with
    | Some tok => if String.eqb (ot_RefreshToken tok) "" then live_link d s else live_with tok d s
    | None => live_link d s end)).
  - eapply htriple_conseq; [apply (token_triple (device_form code) live_link) | done|].
    intros r d s (s1 & Hl & _ & a & E & Hr).
    assert (Hl' : live_link d s).
    { destruct Hl as [?|Hl]; [by left | right]. eapply (pv_keeps ep (token_call ep (device_form code))) in Hl; [|intros r' [=]].
      by rewrite E in Hl. }
    destruct r as [[[tok|] oe]|e]; [|done..]. simpl. destruct Hr as (status & body & -> & Hs & Hd).
    destruct (String.eqb_spec (ot_RefreshToken tok) ""); [done|]. split; [done|]. by eapply pv_granted.
  - intros [[tok|] oe]; simpl.
    + destruct (String.eqb_spec (ot_RefreshToken tok) ""); [by apply live_complete_unused|].
      eapply htriple_conseq; [apply live_complete | done|]. by intros r d s [].
    + change (hkeeps live_link (if String.eqb oe "" then hfail ErrNilDereference
        else if contains ["authorization_pending"; "slow_down"] oe then hret DeviceLoginPending
        else if contains ["expired_token"; "invalid_grant"] oe then hbind (set_device None) (fun _ => hret DeviceLoginExpired)
        else if String.eqb oe "access_denied" then hbind (set_device None) (fun _ => hret DeviceLoginDenied)
        else hfail (ErrNew ("Hytale device login failed: " +:+ oe)))).
      solve_hkeeps; by apply hkeeps_device.
Qed.

Lemma get_triple (pre : DB -> HytaleState -> Prop) k :
  htriple pre (setting_get encKey k) (fun r d s => pre d s /\ forall v, r = Ok v -> v = stored k d).
Proof.
  intros s w Hp. unfold setting_get, lift_M, attempt, bind. destruct (setting_Get encKey k w) as [r w'] eqn:E.
  exists r, s, w'. split; [done|]. apply setting_Get_inv in E as [-> Hv]. split; [done|].
  intros v ->. unfold stored. destruct (Hv v eq_refl) as [[-> Hn]|Hs]; [unfold setting; by rewrite Hn | by rewrite Hs].
Qed.

(** The errors after which a rotated token may be lost: its answer never came,
    or it could not be stored. *)
Definition token_lost {A} (r : res error A) : Prop :=
  exists e, r = Err (ErrWrap "Hytale token request" e) \/ r = Err (ErrWrap "storing rotated Hytale refresh token" e).

Lemma live_current : htriple live_link (currentAccessToken encKey ep) (fun r d s => live_link d s \/ token_lost r).
Proof.
  unfold currentAccessToken. eapply (htriple_bind _ _ _ (fun _ => live_link)).
  { eapply htriple_conseq; [apply (hkeeps_get live_link) | done|]. intros []; auto. }
  intros s0. eapply (htriple_bind _ _ _ (fun _ => live_link)).
  { eapply htriple_conseq; [apply (hkeeps_lift live_link now); intros; solve_preserves | done|]. intros []; auto. }
  intros t. destruct (_ && _); [apply htriple_ret; auto|].
  eapply (htriple_bind _ _ _ (fun v d s => live_link d s /\ v = stored hytaleRefreshTokenKey d)).
  { eapply htriple_conseq; [apply (get_triple live_link) | done|]. intros [v|e] d s [Hl Hv]; auto. }
  intros refresh. destruct (String.eqb_spec refresh "") as [->|Hne]; [apply htriple_fail; intros d s []; auto|].
  eapply (htriple_bind _ _ _ (fun r d s => match fst r with
    | Some tok => stored hytaleRefreshTokenKey d = refresh
        /\ pv_live ep (hs_provider s) (if String.eqb (ot_RefreshToken tok) "" then refresh else ot_RefreshToken tok)
    | None => live_link d s end)).
  - eapply htriple_conseq; [apply (token_triple (refresh_form refresh) (fun d s => live_link d s /\ refresh = stored hytaleRefreshTokenKey d)) | done|].
    intros r d s (s1 & [Hl Hr] & _ & a & E & Ha). destruct Hl as [Hl|Hl]; [congruence|]. rewrite <- Hr in Hl.
    destruct r as [[[tok|] oe]|e]; simpl.
    + destruct Ha as (status & body & -> & Hs & Hd). split; [done|]. by eapply pv_rotates.
    + destruct Ha as (status & body & -> & Hs). right. rewrite <- Hr. by eapply pv_refused.
    + right. destruct Ha as [e' ->]. exists e'. by left.
  - intros [[tok|] oe]; simpl.
    + apply (htriple_bind _ _ _ (fun _ => live_link)).
      * destruct (String.eqb_spec (ot_RefreshToken tok) "") as [Ht|Ht]; simpl.
        -- apply htriple_ret. intros d s [<- Hl]. by right.
        -- apply htriple_wrap. eapply htriple_conseq; [apply set_triple | intros d s Hp; exact Hp|].
           intros r d s [[Hr Hp]|(-> & d0 & [_ Hl] & Hs & _)].
           ++ destruct r as [|e]; [done|]. right. exists e. by right.
           ++ right. by rewrite Hs.
      * intros _. apply (htriple_bind _ _ _ (fun _ => live_link)); [|intros _; apply htriple_ret; auto].
        eapply htriple_conseq; [apply live_access | done|]. intros []; auto.
    + change (htriple live_link (if String.eqb oe "" then hfail ErrNilDereference
        else if String.eqb oe "invalid_grant" then hfail ErrHytaleRelinkRequired
        else hfail (ErrNew ("refreshing Hytale login: " +:+ oe))) (fun r d s => live_link d s \/ token_lost (A := string) r)).
      repeat (destruct (String.eqb _ _); [apply htriple_fail; auto|]). apply htriple_fail; auto.
Qed.

Lemma live_session : htriple live_link (NewGameSession encKey ep) (fun r d s => live_link d s \/ token_lost r).
Proof.
  unfold NewGameSession. apply (htriple_bind _ _ _ (fun _ => live_link)).
  { eapply htriple_conseq; [apply live_current | done|]. intros [v|e] d s [?|[e' He]]; auto.
    - by destruct He.
    - right. exists e'. by destruct He as [[= ->]|[= ->]]; [left | right]. }
  intros access. apply (htriple_conseq _ live_link _ _ (fun _ => live_link)); [|done | auto].
  change (hkeeps live_link (hbind (setting_get encKey hytaleProfileKey) (fun profile =>
    hbind (wrap_h "creating Hytale game session"
      (doJSON (mkHytaleCall "POST" (ep_Sessions ep +:+ "/game-session/new") (Some access) (ObjectBody [("uuid", profile)])) dec_session))
      (fun r => let '(session, identity, expires) := r in hret (mkGameSession session identity profile expires))))).
  unfold setting_get. solve_hkeeps. by apply live_doJSON.
Qed.

(** The methods of the service; [uses] for those that use the refresh token. *)
Inductive hytale_op : bool -> forall {A}, H A -> Prop :=
| op_start : hytale_op false (StartDeviceLogin ep)
| op_poll by_ : hytale_op false (PollDeviceLogin encKey ep by_)
| op_status : hytale_op false (Status encKey)
| op_select p : hytale_op false (SelectProfile encKey p)
| op_unlink : hytale_op false (Unlink encKey)
| op_token : hytale_op true (currentAccessToken encKey ep)
| op_session : hytale_op true (NewGameSession encKey ep).


(** ** Theorems: linking and unlinking *)

Definition unlinked (d : DB) : Prop := stored hytaleRefreshTokenKey d = "".

(** What a completed login stores. *)
Definition linked_as (tok : oauthToken) (p : HytaleProfile) (ps : list HytaleProfile) (t : Z) (d : DB) : Prop :=
  stored hytaleProfileKey d = hp_UUID p /\ stored hytaleProfilesKey d = default "" (json_marshal (p :: ps))
  /\ stored hytaleLinkedAtKey d = rfc3339 t /\ stored hytaleRefreshTokenKey d = ot_RefreshToken tok.

(** One of the writes before the last. *)
Lemma store_step (pre : DB -> HytaleState -> Prop) msg k v by_ (post : res error unit -> DB -> HytaleState -> Prop) :
  (forall e d s, pre d s -> post (Err e) d s) ->
  (forall d0 d s, pre d0 s -> stored k d = v -> (forall k', k' <> k -> stored k' d = stored k' d0) -> post (Ok tt) d s) ->
  htriple pre (wrap_h msg (setting_set encKey k v by_)) post.
Proof.
  intros He Ho. apply htriple_wrap. eapply htriple_conseq; [apply set_triple | intros d s Hp; exact Hp|].
  intros r d s [[Hr Hp]|(-> & d0 & Hp & Hs & Hk)]; [|by eapply Ho]. destruct r as [|e]; [done|]. by apply He.
Qed.

Lemma store_login tok p ps t by_ s1 :
  htriple (fun d s => unlinked d /\ s = s1)
    (store_all encKey [(hytaleProfileKey, hp_UUID p); (hytaleProfilesKey, default "" (json_marshal (p :: ps)));
       (hytaleLinkedAtKey, rfc3339 t); (hytaleRefreshTokenKey, ot_RefreshToken tok)] by_)
    (fun r d s => if is_ok r then linked_as tok p ps t d /\ s = s1 else unlinked d).
Proof.
  unfold unlinked, linked_as. cbn [store_all].
  eapply (htriple_bind _ _ _ (fun _ d s => unlinked d /\ s = s1 /\ stored hytaleProfileKey d = hp_UUID p)).
  { apply store_step; [by intros ? ? ? []|]. unfold unlinked. intros d0 d s [Hu He] Hs Hk. by rewrite Hk. }
  intros _. eapply (htriple_bind _ _ _ (fun _ d s => unlinked d /\ s = s1 /\ stored hytaleProfileKey d = hp_UUID p
    /\ stored hytaleProfilesKey d = default "" (json_marshal (p :: ps)))).
  { apply store_step; [by intros ? ? ? []|]. unfold unlinked. intros d0 d s (Hu & He & Hp) Hs Hk. split_and!; first [done | by rewrite Hk]. }
  intros _. eapply (htriple_bind _ _ _ (fun _ d s => unlinked d /\ s = s1 /\ stored hytaleProfileKey d = hp_UUID p
    /\ stored hytaleProfilesKey d = default "" (json_marshal (p :: ps)) /\ stored hytaleLinkedAtKey d = rfc3339 t)).
  { apply store_step; [by intros ? ? ? []|]. unfold unlinked. intros d0 d s (Hu & He & Hp & Hq) Hs Hk. split_and!; first [done | by rewrite Hk]. }
  intros _. eapply (htriple_bind _ _ _ (fun _ d s => s = s1 /\ stored hytaleProfileKey d = hp_UUID p
    /\ stored hytaleProfilesKey d = default "" (json_marshal (p :: ps)) /\ stored hytaleLinkedAtKey d = rfc3339 t
    /\ stored hytaleRefreshTokenKey d = ot_RefreshToken tok)).
  { apply store_step; [by intros ? ? ? []|]. intros d0 d s (Hu & He & Hp & Hq & Ht) Hs Hk. split_and!; first [done | by rewrite Hk]. }
  intros _. apply htriple_ret. by intros d s (-> & Hl).
Qed.

Definition profiles_call (access : string) : HytaleCall :=
  mkHytaleCall "GET" (ep_AccountData ep +:+ "/my-account/get-profiles") (Some access) NoBody.

(** So does fetching the profiles. *)
Lemma fetchProfiles_run access s w :
  exists r p, fetchProfiles ep access s w = (Ok (r, with_provider p s), w)
    /\ forall ps, r = Ok ps -> answered (profiles_call access) dec_profiles (hs_provider s) ps p.
Proof.
  unfold fetchProfiles, wrap_h, doJSON, hbind, call, bind, hret, hfail, ret, answered. fold (profiles_call access).
  destruct (pv_call _ (hs_provider s)) as [[msg|status body] p] eqn:E; [by eexists _, p|].
  destruct (Z.leb_spec 300 status); [by eexists _, p|].
  destruct (dec_profiles _) as [ps|] eqn:Ed; [|by eexists _, p].
  eexists _, p. split; [reflexivity|]. intros ps' [= <-]. by exists status, body.
Qed.

Lemma hbind_run {A B} (m : H A) (k : A -> H B) s w r s1 w1 :
  m s w = (Ok (r, s1), w1) ->
  hbind m k s w = match r with Ok a => k a s1 w1 | Err e => (Ok (Err e, s1), w1) end.
Proof. intros E. unfold hbind, bind. rewrite E. by destruct r. Qed.

(** The login whose device code is [code], granted as [tok], with the profiles
    of its account: what the store and the service hold once it is linked at
    [t]. *)
Definition login_stored (code : string) (s : HytaleState) (t : Z) (d' : DB) (s' : HytaleState) : Prop :=
  exists tok p ps p1,
    answered (token_call ep (device_form code)) dec_token (hs_provider s) tok p1
    /\ answered (profiles_call (ot_AccessToken tok)) dec_profiles p1 (p :: ps) (hs_provider s')
    /\ ot_RefreshToken tok <> "" /\ linked_as tok p ps t d'
    /\ hs_device s' = None /\ hs_accessToken s' = ot_AccessToken tok.

Definition poll_post (s : HytaleState) (t : Z) (r : res error DeviceLoginState) (d' : DB) (s' : HytaleState) : Prop :=
  match r with
  | Ok DeviceLoginLinked =>
    exists code expires, hs_device s = Some (code, expires) /\ t <= expires /\ login_stored code s t d' s'
  | _ => unlinked d'
  end.

(** From the granted token on. *)
Lemma complete_run tok by_ s w :
  unlinked (w_db w) ->
  exists r s' w', complete_login encKey ep tok by_ s w = (Ok (r, s'), w')
    /\ match r with
       | Ok DeviceLoginLinked => exists p ps,
           answered (profiles_call (ot_AccessToken tok)) dec_profiles (hs_provider s) (p :: ps) (hs_provider s')
           /\ ot_RefreshToken tok <> "" /\ linked_as tok p ps (w_now w) (w_db w')
           /\ hs_device s' = None /\ hs_accessToken s' = ot_AccessToken tok
       | _ => unlinked (w_db w')
       end.
Proof.
  intros Hu. unfold complete_login.
  destruct (fetchProfiles_run (ot_AccessToken tok) s w) as (rp & p1 & E & Hps). rewrite (hbind_run _ _ _ _ _ _ _ E).
  destruct rp as [[|p ps]|e]; [by eexists _, _, w | | by eexists _, _, w]. specialize (Hps _ eq_refl).
  destruct (String.eqb_spec (ot_RefreshToken tok) "") as [|Hne]; [by eexists _, _, w|].
  erewrite hbind_run by reflexivity. set (s1 := with_provider p1 s) in *. cbv beta iota.
  match goal with |- exists r s' w', ?m s1 w = _ /\ _ =>
    assert (Ht : htriple (fun d s => unlinked d /\ s = s1) m (fun r d s => match r with
      | Ok DeviceLoginLinked => linked_as tok p ps (w_now w) d /\ hs_provider s = p1 /\ hs_device s = None
                                /\ hs_accessToken s = ot_AccessToken tok
      | _ => unlinked d end)) end.
  { apply (htriple_bind _ _ _ (fun _ d s => linked_as tok p ps (w_now w) d /\ s = s1)).
    { eapply htriple_conseq; [apply (store_login tok p ps (w_now w) by_ s1) | done|]. by intros []. }
    intros _. apply (htriple_bind _ _ _ (fun _ d s => linked_as tok p ps (w_now w) d /\ hs_provider s = p1 /\ hs_device s = None)).
    { intros s0 w0 [Hl ->]. by eexists (Ok tt), _, w0. }
    intros _. apply (htriple_bind _ _ _ (fun _ d s => linked_as tok p ps (w_now w) d /\ hs_provider s = p1 /\ hs_device s = None
                                                  /\ hs_accessToken s = ot_AccessToken tok)).
    { intros s0 w0 (Hl & Hp & Hd). unfold setAccessToken, bind, now. by eexists (Ok tt), _, w0. }
    intros _. by apply htriple_ret. }
  destruct (Ht s1 w (conj Hu eq_refl)) as (r & s' & w' & Er & Hr). exists r, s', w'. split; [exact Er|].
  destruct r as [[]|e]; try done. destruct Hr as (Hl & Hp & Hd & Ha). exists p, ps. rewrite Hp. done.
Qed.

Lemma poll_run by_ s w :
  unlinked (w_db w) ->
  exists r s' w', PollDeviceLogin encKey ep by_ s w = (Ok (r, s'), w') /\ poll_post s (w_now w) r (w_db w') s'.
Proof.
  intros Hu. unfold PollDeviceLogin. erewrite hbind_run by reflexivity. cbv beta iota.
  destruct (hs_device s) as [[code exp]|] eqn:Edev; [|eexists _, _, w; by split; [reflexivity|]].
  erewrite hbind_run by reflexivity. cbv beta iota. destruct (Z.ltb_spec exp (w_now w)) as [Hx|Hx]; [eexists _, _, w; by split; [reflexivity|]|].
  destruct (tokenRequest_run (device_form code) s w) as (rt & a & p1 & E & _ & Ht). rewrite (hbind_run _ _ _ _ _ _ _ E). cbv beta iota.
  destruct rt as [[[tok|] oe]|e]; [| |eexists _, _, w; by split; [reflexivity|]].
  - destruct (complete_run tok by_ (with_provider p1 s) w Hu) as (r & s' & w' & Er & Hr).
    exists r, s', w'. split; [exact Er|]. unfold poll_post. destruct r as [[]|e]; try done.
    destruct Hr as (p & ps & Hps & Hne & Hl & Hd & Ha). exists code, exp. split_and!; [done | done|]. exists tok, p, ps, p1. done.
  - destruct (String.eqb oe ""); [eexists _, _, w; by split; [reflexivity|]|]. destruct (contains _ oe); [eexists _, _, w; by split; [reflexivity|]|].
    destruct (contains _ oe); [eexists _, _, w; by split; [reflexivity|]|]. destruct (String.eqb oe _); (eexists _, _, w; by split; [reflexivity|]).
Qed.

Definition cleared (ks : list string) (d : DB) : Prop := forall k, k ∈ ks -> stored k d = "".

Lemma clear_step ks k : htriple (fun d _ => cleared ks d) (setting_set encKey k "" None)
  (fun r d _ => match r with Ok _ => cleared (k :: ks) d | Err _ => cleared ks d end).
Proof.
  eapply htriple_conseq; [apply set_triple | intros d s Hp; exact Hp|].
  intros r d s [[Hr Hp]|(-> & d1 & Hp & Hs & Hk)]; [by destruct r|].
  intros k' Hin. destruct (decide (k' = k)) as [->|Hn]; [done|]. rewrite Hk by done. apply Hp. set_solver.
Qed.

Lemma clear_rest todo ks : htriple (fun d _ => cleared ks d) (clear_all encKey todo)
  (fun r d _ => match r with Ok _ => cleared (todo ++ ks) d | Err _ => cleared ks d end).
Proof.
  revert ks. induction todo as [|k todo IH]; intros ks; [by apply htriple_ret|].
  apply (htriple_bind _ _ _ (fun _ d _ => cleared (k :: ks) d)); [eapply htriple_conseq; [apply (clear_step ks) | done|]; by intros []|].
  intros _. eapply htriple_conseq; [apply (IH (k :: ks)) | done|]. intros [] d _ Hc k' Hin; apply Hc; set_solver.
Qed.

Lemma unlink_triple d0 : htriple (fun d _ => d = d0) (Unlink encKey) (fun r d s =>
  if is_ok r then cleared hytaleAuthKeys d /\ hs_accessToken s = "" /\ hs_device s = None
  else unlinked d \/ forall k, stored k d = stored k d0).
Proof.
  apply (htriple_bind _ _ _ (fun _ d _ => cleared hytaleAuthKeys d)); [|intros _ s w Hc; by eexists (Ok tt), _, w].
  apply (htriple_bind _ _ _ (fun _ d _ => cleared [hytaleRefreshTokenKey] d)).
  - eapply htriple_conseq; [apply set_triple | intros d s Hp; exact Hp|].
    intros r d s [[Hr ->]|(-> & d1 & _ & Hs & _)]; [destruct r; [done | by right]|]. intros k Hk. by apply list_elem_of_singleton in Hk as ->.
  - intros _. eapply htriple_conseq; [apply (clear_rest [hytaleProfileKey; hytaleProfilesKey; hytaleLinkedAtKey] [hytaleRefreshTokenKey]) | done|]. intros [] d s Hc; [intros k Hk; apply Hc; set_solver|].
    left. apply Hc. set_solver.
Qed.

(** C32. Linking and unlinking are all or nothing: from an unlinked account, a
    poll that reports a link had a device login under way that had not
    expired, and stored what the provider answered to it: the refresh token
    granted for its device code, the profiles the provider lists for the
    access token granted with it, the first of them as the selected one, and
    the time of the poll; and the login is over.  Any other outcome, failed
    writes included, leaves the account unlinked; an unlink that reports success forgot
    everything, and one that fails left the account as it was or unlinked. *)
Theorem link_all_or_nothing (by_ : option uuid) (s s' : HytaleState) (w w' : World) :
  (forall r, unlinked (w_db w) -> PollDeviceLogin encKey ep by_ s w = (Ok (r, s'), w') ->
     poll_post s (w_now w) r (w_db w') s')
  /\ (forall r, Unlink encKey s w = (Ok (r, s'), w') ->
     if is_ok r then cleared hytaleAuthKeys (w_db w') /\ hs_accessToken s' = "" /\ hs_device s' = None
     else unlinked (w_db w') \/ forall k, stored k (w_db w') = stored k (w_db w)).
Proof.
  split.
  - intros r Hu E.
    destruct (poll_run by_ s w Hu) as (r0 & s0 & w0 & E0 & H0). rewrite E in E0. by injection E0 as -> -> ->.
  - intros r E. destruct (unlink_triple (w_db w) s w eq_refl) as (r0 & s0 & w0 & E0 & H0).
    rewrite E in E0. by injection E0 as -> -> ->.
Qed.
End live.

(** ** Examples *)

#[local] Instance HytaleBody_eq : EqDecision HytaleBody.
Proof. solve_decision. Defined.
#[local] Instance HytaleCall_eq : EqDecision HytaleCall.
Proof. solve_decision. Defined.

Definition ep0 : HytaleAuthEndpoints := DefaultHytaleAuthEndpoints.

(** A provider whose state is the refresh tokens it accepts: a use replaces
    the token, a device code is always granted. *)
Definition fresh_token (st : list string) : string := if decide ("t" ∈ st) then "u" else "t".
Definition sample_call (c : HytaleCall) (st : list string) : HytaleAnswer * list string :=
  match hc_Body c with
  | FormBody [_; _; (_, x)] =>
    if decide (c = token_call ep0 (refresh_form x)) then
      if decide (x ∈ st) then (HAnswered 200 (fresh_token st), fresh_token st :: filter (fun y => y <> x) st)
      else (HAnswered 400 "invalid_grant", st)
    else if decide (c = token_call ep0 (device_form x)) then (HAnswered 200 (fresh_token st), fresh_token st :: st)
    else (HFailed "refused", st)
  | _ => (HAnswered 200 "body", st)
  end.
#[local] Instance sample_provider : Provider := {| pv_state := list string; pv_call := sample_call |}.

#[local] Instance sample_hytale_json : HytaleJson := {|
  dec_device _ := Some ("code", mkDeviceLogin "ABCD" "https://hytale/device" "https://hytale/device?c=ABCD" 600 5);
  dec_token s := Some (mkoauthToken "access" s 3600);
  dec_profiles _ := Some [mkHytaleProfile "p-new" "Steve"];
  dec_session s := Some ("session", "identity", "later");
  dec_error s := s;
  StatusText _ := "";
  rfc3339 t := Itoa t
|}.

#[local] Instance sample_profiles_json : Json (list HytaleProfile) := {|
  json_marshal ps := Some (to_text ((fun p => (hp_UUID p, hp_Username p)) <$> ps));
  json_unmarshal s := fmap (fun l => (fun x => mkHytaleProfile x.1 x.2) <$> l) (of_text (A := list (string * string)) s)
|}.

#[local] Instance sample_provider_laws : ProviderLaws ep0 sample_provider.
Proof.
  refine {| pv_live := fun (st : @pv_state sample_provider) r => r ∈ (st : list string) |}; cbn; unfold sample_call.
  - intros c st r Hc Hr. destruct (hc_Body c) as [|[|? [|? [|[? x] []]]]|]; try done.
    rewrite decide_False by done. destruct (decide _); [set_solver | done].
  - intros r' st status body st' r. cbn. rewrite decide_True by done. destruct (decide _); intros [= <- <- <-]; [lia | done].
  - intros r st status body st' tok. cbn. rewrite decide_True by done.
    destruct (decide (r ∈ st)); intros [= <- <- <-] Hs [= <-] Hr; [|lia].
    unfold fresh_token. destruct (decide _); cbn; set_solver.
  - intros code st status body st' tok. cbn. rewrite decide_False by done. rewrite decide_True by done.
    intros [= <- <- <-] _ [= <-] _. unfold fresh_token. destruct (decide _); cbn; set_solver.
Defined.

Definition hkey : string := hex_bytes 16 7.
Definition hs0 : HytaleState := mkHytaleState "" 0 (Some ("code", 10)) [].

(** Linking, then using the token once. *)
Definition after_link := @PollDeviceLogin sample_platform _ _ _ hkey ep0 None hs0 empty_world.
Definition linked_state : HytaleState := match after_link with (Ok (_, s), _) => s | _ => hs0 end.
Definition linked_world : World := snd after_link.
Definition expired_state : HytaleState :=
  mkHytaleState (hs_accessToken linked_state) 0 None (hs_provider linked_state).

Lemma link_all_or_nothing_witness :
  unlinked hkey (w_db empty_world) (P := sample_platform)
  /\ poll_post (P := sample_platform) hkey ep0 hs0 (w_now empty_world) (Ok DeviceLoginLinked) (w_db linked_world) linked_state.
Proof.
  split; [reflexivity|]. unfold linked_world, linked_state.
  destruct after_link as [r w'] eqn:E.
  assert (Hr : exists s', r = Ok (Ok DeviceLoginLinked, s')).
  { replace r with (fst after_link) by by rewrite E. eexists. vm_compute. reflexivity. }
  destruct Hr as [s' ->]. unfold after_link in E.
  by apply (link_all_or_nothing (P := sample_platform) hkey ep0 None hs0 s' empty_world w') in E.
Defined.

Definition used := @currentAccessToken sample_platform _ _ hkey ep0 expired_state linked_world.
Definition used_state : HytaleState := match used with (Ok (_, s), _) => s | _ => hs0 end.


(** A second login whose last write fails: the new profile with the token of
    the old account, although the writes are ordered so that a failure
    part-way leaves the account unlinked. *)
Example relink_can_mix_accounts :
  let w := with_faults [false; false; false; true]
    (snd (setting_Set (P := sample_platform) hkey hytaleProfileKey "p-old" None
      (snd (setting_Set (P := sample_platform) hkey hytaleRefreshTokenKey "old" None empty_world)))) in
  let '(r, w') := @PollDeviceLogin sample_platform _ _ _ hkey ep0 None hs0 w in
  (exists e s', r = Ok (Err e, s'))
  /\ stored (P := sample_platform) hkey hytaleProfileKey (w_db w') = "p-new"
  /\ stored (P := sample_platform) hkey hytaleRefreshTokenKey (w_db w') = "old".
Proof. vm_compute. split; [by eexists _, _ | done]. Qed.

(** A provider that answers a status without a text and no error field: the
    poll reads the token through a nil pointer. *)
Example bare_refusal_panics :
  let V := {| pv_state := list string; pv_call := fun _ st => (HAnswered 499 "", st) |} in
  fst (@PollDeviceLogin sample_platform V _ _ hkey ep0 None (@mkHytaleState V "" 0 (Some ("code", 10)) []) empty_world)
  = Ok (Err ErrNilDereference, @mkHytaleState V "" 0 (Some ("code", 10)) []).
Proof. vm_compute. reflexivity. Qed.
