(* ===== verification/Registries.v ===== *)
(** * CurseForge, game versions and releases

    Models [services/curseforge_service.go], [services/hytale_version_service.go]
    and [services/update_service.go] with their handlers in [handlers/mods.go],
    [handlers/hytale.go], [handlers/admin.go], [handlers/health.go] and
    [handlers/admin_integrations.go].

    The web is a function from a GET request and the number of requests made
    before to the answer; JSON and XML documents are decoded by [RegistryDocs]. *)

From stdpp Require Import base numbers list strings option gmap relations.
From Stdlib Require Import Ascii.
From S2P Require Import Prelude GoStrings Store Roles Platform Crypto Auth Net Servers Daemon Http ServerHandlers Settings.

Local Open Scope Z_scope.

Inductive WebAnswer :=
| Unreachable (msg : string)
| WebResponse (status : Z) (body : string).

(** A GET: the address, the query in the order of [Encode], the API key. *)
Record WebRequest := mkWebRequest {
  wr_URL : string;
  wr_Query : list (string * string);
  wr_Key : option string
}.

Definition Web : Type := nat -> WebRequest -> WebAnswer.

Record CFPagination := mkCFPagination {
  cfp_Index : Z; cfp_PageSize : Z; cfp_ResultCount : Z; cfp_TotalCount : Z
}.

Record cfGame := mkcfGame { cfg_ID : Z; cfg_Slug : string }.
Record cfGamesResult := mkcfGamesResult { cgr_Data : list cfGame; cgr_Pagination : CFPagination }.

Record CFFile := mkCFFile {
  cff_ID : Z; cff_DisplayName : string; cff_FileName : string; cff_DownloadURL : string;
  cff_GameVersions : list string; cff_FileDate : string
}.

(** A mod without its logo, its links and its counter. *)
Record CFMod := mkCFMod { cfm_ID : Z; cfm_Name : string; cfm_Summary : string; cfm_LatestFiles : list CFFile }.
Record CFSearchResult := mkCFSearchResult { csr_Data : list CFMod; csr_Pagination : CFPagination }.

Record HytalePatchline := mkHytalePatchline { hpl_Patchline : string; hpl_Latest : string; hpl_UpdatedAt : string }.
Record HytaleVersions := mkHytaleVersions { hv_Patchlines : list HytalePatchline; hv_CheckedAt : Z }.

Record mavenMetadata := mkMavenMetadata { mv_Latest : string; mv_Release : string; mv_LastUpdated : string }.

Record UpdateInfo := mkUpdateInfo {
  ui_CurrentVersion : string; ui_LatestVersion : string; ui_HasUpdate : bool; ui_ReleaseURL : string; ui_PublishedAt : string
}.
Record githubRelease := mkGithubRelease { gr_TagName : string; gr_HTMLURL : string; gr_PublishedAt : string }.

Class RegistryDocs := {
  dec_games : string -> option cfGamesResult;
  dec_search : string -> option CFSearchResult;
  dec_files : string -> option (list CFFile);
  dec_maven : string -> option mavenMetadata;
  (* time.Parse("20060102150405", _), as RFC 3339 *)
  maven_time : string -> option string;
  dec_release : string -> option githubRelease
}.

(** ** CurseForge *)

Definition curseForgeAPIBase : string := "https://api.curseforge.com/v1".
Definition hytaleSlug : string := "hytale".

Inductive CFError :=
| CurseForgeError (status : Z)
| CFOther (e : error).

Definition cf_error_text `{P : Platform} (e : CFError) : string :=
  match e with
  | CurseForgeError s =>
    if (s =? 401) || (s =? 403) then "CurseForge API key is invalid or not configured"
    else if s =? 404 then "CurseForge rejected the game ID"
    else "CurseForge returned HTTP " +:+ Itoa s
  | CFOther e => error_Error e
  end.

(** The key, the override and the id found, with the requests made so far. *)
Record CFState := mkCFState {
  cf_apiKey : string;
  cf_gameID : Z;
  cf_resolvedID : Z;
  cf_sent : nat
}.

Section curseforge.
Context `{U : Unicode} `{P : Platform} `{D : RegistryDocs} (web : Web).

Definition cf_get (url : string) (query : list (string * string)) (s : CFState) : WebAnswer * CFState :=
  (web (cf_sent s) (mkWebRequest url query (Some (cf_apiKey s))),
   mkCFState (cf_apiKey s) (cf_gameID s) (cf_resolvedID s) (S (cf_sent s))).

(** A GET of a document: its decoded body or the error, [what] names it. *)
Definition cf_document {A} (url : string) (query : list (string * string)) (what decoding : string) (decode : string -> option A)
    (s : CFState) : res CFError A * CFState :=
  let (a, s') := cf_get url query s in
  (match a with
   | Unreachable msg => Err (CFOther (ErrWrap what (ErrNew msg)))
   | WebResponse status body =>
     if negb (status =? 200) then Err (CurseForgeError status)
     else match decode body with Some x => Ok x | None => Err (CFOther (ErrWrap decoding (ErrNew "json"))) end
   end, s').

Definition pageSize : Z := 50.

Definition games_page (index : Z) : CFState -> res CFError cfGamesResult * CFState :=
  cf_document (curseForgeAPIBase +:+ "/games") [("index", Itoa index); ("pageSize", Itoa pageSize)]
    "curseforge games request" "decoding games response" dec_games.

Definition ErrNoSlug : error :=
  ErrNew "CurseForge does not list a game with slug hytale - set CURSEFORGE_GAME_ID to override".

(** The loop over the pages; [None] when the fuel is used up.  The index grows
    by a page at a time and stays below the reported total, so Go's [int] does
    not wrap. *)
Fixpoint search_pages (fuel : nat) (index : Z) (s : CFState) : option (res CFError Z * CFState) :=
  match fuel with
  | O => None
  | S fuel' =>
    match games_page index s with
    | (Err e, s') => Some (Err e, s')
    | (Ok result, s') =>
      match List.find (fun g => EqualFold (cfg_Slug g) hytaleSlug) (cgr_Data result) with
      | Some g => Some (Ok (cfg_ID g), mkCFState (cf_apiKey s') (cf_gameID s') (cfg_ID g) (cf_sent s'))
      | None =>
        if (Z.of_nat (length (cgr_Data result)) <? pageSize) || (cfp_TotalCount (cgr_Pagination result) <=? index + pageSize)
        then Some (Err (CFOther ErrNoSlug), s')
        else search_pages fuel' (index + pageSize) s'
      end
    end
  end.

Definition resolveGameID (fuel : nat) (s : CFState) : option (res CFError Z * CFState) :=
  if negb (cf_gameID s =? 0) then Some (Ok (cf_gameID s), s)
  else if negb (cf_resolvedID s =? 0) then Some (Ok (cf_resolvedID s), s)
  else search_pages fuel 0 s.

Definition SetAPIKey (key : string) (s : CFState) : CFState := mkCFState key (cf_gameID s) (cf_resolvedID s) (cf_sent s).
Definition HasAPIKey (s : CFState) : bool := negb (String.eqb (cf_apiKey s) "").

Definition SearchMods (fuel : nat) (query : string) (page size : Z) (s : CFState) : option (res CFError CFSearchResult * CFState) :=
  if String.eqb (cf_apiKey s) "" then Some (Err (CurseForgeError 403), s)
  else match resolveGameID fuel s with
  | None => None
  | Some (Err e, s') => Some (Err e, s')
  | Some (Ok gameID, s') =>
    Some (cf_document (curseForgeAPIBase +:+ "/mods/search")
            [("gameId", Itoa gameID); ("index", Itoa (int64_wrap (page * size))); ("pageSize", Itoa size); ("searchFilter", query)]
            "curseforge request" "decoding response" dec_search s')
  end.

Definition GetModFiles (modID : Z) (s : CFState) : res CFError (list CFFile) * CFState :=
  cf_document (curseForgeAPIBase +:+ "/mods/" +:+ Itoa modID +:+ "/files") [] "curseforge request" "decoding response" dec_files s.

(** *** Handlers *)

Definition cfErrStatus (e : CFError) : Z :=
  match e with
  | CurseForgeError s => if (s =? 401) || (s =? 403) then 403 else if s =? 404 then 404 else 502
  | CFOther _ => 502
  end.

Definition cf_reply {A} (r : res CFError A * CFState) : res Reply A * CFState :=
  (match fst r with Ok a => Ok a | Err e => Err (reply_error (cfErrStatus e) (cf_error_text e)) end, snd r).

(** A parameter that is no number is 0. *)
Definition SearchModsHandler (fuel : nat) (q page size : string) (s : CFState) : option (res Reply CFSearchResult * CFState) :=
  let page := default 0 (Atoi page) in
  let size0 := default 0 (Atoi size) in
  let size := if (size0 <? 1) || (50 <? size0) then 20 else size0 in
  cf_reply <$> SearchMods fuel q page size s.

Definition GetModFilesHandler (modParam : string) (s : CFState) : res Reply (list CFFile) * CFState :=
  match Atoi modParam with
  | None => (Err (reply_error 400 "invalid mod_id"), s)
  | Some modID => cf_reply (GetModFiles modID s)
  end.
End curseforge.

(** ** The stored key *)

Definition curseforge_key : string := "curseforge_api_key".

Section integrations.
Context `{P : Platform} (encKey : string).

(** Four bullets. *)
Definition bullet : string := String "226" (String "128" (String "162" "")).
Definition masked_key (key : string) : string :=
  if 4 <? len key then bullet +:+ bullet +:+ bullet +:+ bullet +:+ str_drop (Z.to_nat (len key - 4)) key else "".

Definition GetCurseForge (s : CFState) : M (res Reply (bool * string)) :=
  let* r := attempt (setting_Get encKey curseforge_key) in
  ret match r with
      | Err e => Err (reply_error 500 (error_Error e))
      | Ok key => Ok (HasAPIKey s, masked_key key)
      end.

Definition UpdateCurseForge (user : User) (body : option string) (s : CFState) : M (res Reply bool * CFState) :=
  match body with
  | None => ret (Err (reply_error 400 "invalid request body"), s)
  | Some key =>
    let* r := attempt (setting_Set encKey curseforge_key key (Some (user_ID user))) in
    ret match r with
        | Err e => (Err (reply_error 500 (error_Error e)), s)
        | Ok _ => (Ok (negb (String.eqb key "")), SetAPIKey key s)
        end
  end.

(** The key at a start: the stored one wins over the environment's. *)
Definition start_curseforge (envKey : string) (envID : Z) : M CFState :=
  let* r := attempt (setting_Get encKey curseforge_key) in
  let s := mkCFState envKey envID 0 0 in
  ret match r with
      | Ok dbKey => if negb (String.eqb dbKey "") then SetAPIKey dbKey s else s
      | Err _ => s
      end.
End integrations.

(** ** Game versions *)

Definition HytaleMavenBaseURL : string := "https://maven.hytale.com".
Definition hytaleVersionsCacheKey : string := "hytale:versions".
Definition hytaleVersionsCacheTTL : Z := 6 * 3600 * second.
Definition hytalePatchlines : list string := ["release"; "pre-release"].

Section versions.
Context `{P : Platform} `{D : RegistryDocs} `{J : Json HytaleVersions} (maven : string -> WebAnswer).

(** The body is cut at a megabyte. *)
Definition fetchLatest (patchline : string) : res error (string * string) :=
  match maven (HytaleMavenBaseURL +:+ "/" +:+ patchline +:+ "/com/hypixel/hytale/Server/maven-metadata.xml") with
  | Unreachable msg => Err (ErrNew msg)
  | WebResponse status body =>
    if negb (status =? 200) then Err (ErrNew ("maven returned " +:+ Itoa status))
    else match dec_maven (limit_read (2 ^ 20) body) with
    | None => Err (ErrWrap "parsing maven metadata" (ErrNew "xml"))
    | Some meta =>
      let latest := if String.eqb (mv_Latest meta) "" then mv_Release meta else mv_Latest meta in
      if String.eqb latest "" then Err (ErrNew "maven metadata has no latest version")
      else Ok (latest, default "" (maven_time (mv_LastUpdated meta)))
    end
  end.

Definition version_entry (p : string) : HytalePatchline :=
  match fetchLatest p with
  | Err _ => mkHytalePatchline p "" ""
  | Ok (latest, updated) => mkHytalePatchline p latest updated
  end.

Definition redis_text (key : string) : M (option string) :=
  let* r := attempt (redis_get key) in ret match r with Ok o => o | Err _ => None end.

Definition Versions : M HytaleVersions :=
  let* cached := redis_text hytaleVersionsCacheKey in
  match cached ≫= json_unmarshal with
  | Some v => ret v
  | None =>
    let* t := now in
    let out := mkHytaleVersions (map version_entry hytalePatchlines) t in
    run* (if forallb (fun p => is_ok (fetchLatest p)) hytalePatchlines then
            match json_marshal out with
            | Some data => ignore (redis_set hytaleVersionsCacheKey data hytaleVersionsCacheTTL)
            | None => ret tt
            end
          else ret tt) in
    ret out
  end.
End versions.

(** ** Releases of the panel *)

Definition updateCacheKey : string := "update:latest_release".
Definition updateCacheTTL : Z := 24 * 3600 * second.

Section update.
Context `{P : Platform} `{D : RegistryDocs} `{J : Json UpdateInfo} (github : WebAnswer) (currentVersion : string).

Definition fetchFromGitHub : res error UpdateInfo :=
  match github with
  | Unreachable msg => Err (ErrNew msg)
  | WebResponse status body =>
    if negb (status =? 200) then Err (ErrNew ("github API returned " +:+ Itoa status))
    else match dec_release body with
    | None => Err (ErrNew "json")
    | Some release =>
      let hasUpdate := negb (String.eqb (gr_TagName release) "") && negb (String.eqb (gr_TagName release) currentVersion)
                       && negb (String.eqb currentVersion "dev") in
      Ok (mkUpdateInfo currentVersion (gr_TagName release) hasUpdate (gr_HTMLURL release) (gr_PublishedAt release))
    end
  end.

Definition CheckForUpdate : M UpdateInfo :=
  let* cached := redis_text updateCacheKey in
  match cached ≫= json_unmarshal with
  | Some info => ret info
  | None =>
    match fetchFromGitHub with
    | Err _ => ret (mkUpdateInfo currentVersion currentVersion false "" "")
    | Ok info =>
      run* match json_marshal info with
           | Some data => ignore (redis_set updateCacheKey data updateCacheTTL)
           | None => ret tt
           end in
      ret info
    end
  end.

(** [CheckUpdate] and [PublicConfig]: the version it names and what it says of
    the latest release. *)
Definition CheckUpdateHandler : M (res Reply UpdateInfo) :=
  let* r := attempt CheckForUpdate in
  match r with Err _ => refuse 500 "update check failed" | Ok info => ret (Ok info) end.

Definition PublicConfig (deploymentProfile : string) : M (string * string * option (string * bool * string * string)) :=
  let* r := attempt CheckForUpdate in
  ret (deploymentProfile, currentVersion,
       match r with
       | Ok info => Some (ui_LatestVersion info, ui_HasUpdate info, ui_ReleaseURL info, ui_PublishedAt info)
       | Err _ => None
       end).
End update.

(** ** Theorems *)

Section lookup.
Context `{U : Unicode} `{P : Platform} `{D : RegistryDocs} (web : Web).

(** No page the registry answers with claims more games than [N]. *)
Definition bounded_registry (N : Z) : Prop :=
  forall n req body result, web n req = WebResponse 200 body -> dec_games body = Some result ->
    cfp_TotalCount (cgr_Pagination result) <= N.

(** A page of the registry lists a game under this id and the slug. *)
Definition listed_game (id : Z) : Prop :=
  exists n req body result g, web n req = WebResponse 200 body /\ dec_games body = Some result
    /\ g ∈ cgr_Data result /\ cfg_ID g = id /\ EqualFold (cfg_Slug g) hytaleSlug = true.

Lemma games_page_inv index s r s' : games_page web index s = (r, s') ->
  s' = mkCFState (cf_apiKey s) (cf_gameID s) (cf_resolvedID s) (S (cf_sent s))
  /\ forall result, r = Ok result -> exists n req body, web n req = WebResponse 200 body /\ dec_games body = Some result.
Proof.
  unfold games_page, cf_document, cf_get. intros [= <- <-]. split; [done|]. intros result.
  destruct (web _ _) as [msg|status body] eqn:E; [done|]. destruct (Z.eqb_spec status 200) as [->|]; [|done]. cbn.
  destruct (dec_games body) as [x|] eqn:Ed; [|done]. intros [= ->]. by eauto.
Qed.

Lemma search_pages_ends N fuel index s : bounded_registry N -> (0 < fuel)%nat -> N <= index + pageSize * Z.of_nat fuel ->
  exists r s', search_pages web fuel index s = Some (r, s')
  /\ cf_apiKey s' = cf_apiKey s /\ cf_gameID s' = cf_gameID s /\ (cf_sent s' <= cf_sent s + fuel)%nat
  /\ match r with Ok id => listed_game id /\ cf_resolvedID s' = id | Err _ => cf_resolvedID s' = cf_resolvedID s end.
Proof.
  intros HN. revert index s. induction fuel as [|fuel IH]; intros index s Hf Hi; [lia|]. cbn [search_pages].
  destruct (games_page web index s) as [[result|e] s1] eqn:E; apply games_page_inv in E as [-> Hp];
    [|by eexists _, _; split; [done|]; cbn; split_and!; try done; lia].
  destruct (Hp result eq_refl) as (n & req & body & Hw & Hd).
  destruct (List.find _ (cgr_Data result)) as [g|] eqn:Eg.
  { apply List.find_some in Eg as [Hin Hs]. eexists _, _. split; [done|]. cbn. split_and!; try done; [lia|].
    exists n, req, body, result, g. apply list_elem_of_In in Hin. by split_and!. }
  destruct (_ || _) eqn:Eb; [by eexists _, _; split; [done|]; cbn; split_and!; try done; lia|].
  apply orb_false_iff in Eb as [_ Ht%Z.leb_gt]. specialize (HN _ _ _ _ Hw Hd).
  destruct (IH (index + pageSize) (mkCFState (cf_apiKey s) (cf_gameID s) (cf_resolvedID s) (S (cf_sent s))))
    as (r & s' & Hr & Hk & Hg & Hs & Hres); [unfold pageSize in *; lia.. |].
  exists r, s'. cbn in *. split_and!; try done. lia.
Qed.

(** C37. Looking up the game ends: when the registry claims at most [N] games,
    the lookup makes at most [N / 50 + 1] requests and returns, whatever the
    registry answers otherwise; the id it returns is the operator's, the one
    found before, or one the registry lists under the slug, and a found id is
    kept, so that the next lookup makes no request. *)
Theorem game_lookup_ends (N : Z) (s : CFState) :
  0 <= N -> bounded_registry N ->
  let fuel := S (Z.to_nat (N / pageSize)) in
  exists r s', resolveGameID web fuel s = Some (r, s')
  /\ cf_apiKey s' = cf_apiKey s /\ (cf_sent s' <= cf_sent s + fuel)%nat
  /\ forall id, r = Ok id ->
     ((id = cf_gameID s /\ id <> 0) \/ (id = cf_resolvedID s /\ id <> 0) \/ listed_game id)
     /\ (id <> 0 -> resolveGameID web 0 s' = Some (Ok id, s')).
Proof.
  intros HN Hb. cbv zeta. set (fuel := S _). unfold resolveGameID at 1.
  destruct (Z.eqb_spec (cf_gameID s) 0) as [Hg|Hg]; [cbn [negb]; destruct (Z.eqb_spec (cf_resolvedID s) 0) as [Hr|Hr]; cbn [negb]|cbn [negb]].
  - destruct (search_pages_ends N fuel 0 s) as (r & s' & E & Hk & Hg' & Hs & Hres); [done | unfold fuel; lia | |].
    { unfold fuel, pageSize. pose proof (Z.div_mod N 50 ltac:(lia)). pose proof (Z.mod_pos_bound N 50 ltac:(lia)).
      pose proof (Z.div_pos N 50 HN ltac:(lia)). lia. }
    exists r, s'. split_and!; [done..|]. intros id ->. destruct Hres as [Hl Hr']. split; [auto|]. intros Hid.
    unfold resolveGameID. rewrite Hg', Hg, Hr'. cbn. by apply Z.eqb_neq in Hid as ->.
  - exists (Ok (cf_resolvedID s)), s. split_and!; [done | done | lia|]. intros id [= <-]. split; [auto|]. intros _.
    unfold resolveGameID. rewrite Hg. cbn. by apply Z.eqb_neq in Hr as ->.
  - exists (Ok (cf_gameID s)), s. split_and!; [done | done | lia|]. intros id [= <-]. split; [auto|]. intros _.
    unfold resolveGameID. by apply Z.eqb_neq in Hg as ->.
Qed.
End lookup.

(** ** Examples *)

#[local] Existing Instances ascii_tables sample_platform.

(** A registry with two pages; the game is on the second. *)
Definition page_of (l : list cfGame) : cfGamesResult := mkcfGamesResult l (mkCFPagination 0 50 50 51).
#[local] Instance sample_docs : RegistryDocs := {|
  dec_games s := Some (if String.eqb s "first" then page_of (replicate 50 (mkcfGame 1 "minecraft")) else page_of [mkcfGame 70216 "Hytale"]);
  dec_search _ := None;
  dec_files _ := None;
  dec_maven _ := None;
  maven_time _ := None;
  dec_release s := Some (mkGithubRelease s "https://github.com/BitaceS/talepanel/releases" "")
|}.
Definition sample_web : Web := fun n req =>
  WebResponse 200 (if bool_decide (("index", "0") ∈ wr_Query req) then "first" else "second").

Lemma game_lookup_ends_witness :
  bounded_registry sample_web 51
  /\ exists s', resolveGameID sample_web 2 (mkCFState "key" 0 0 0) = Some (Ok 70216, s') /\ cf_sent s' = 2%nat
     /\ resolveGameID sample_web 0 s' = Some (Ok 70216, s').
Proof.
  assert (Hb : bounded_registry sample_web 51).
  { intros n req body result _ [= <-]. by destruct (String.eqb body "first"). }
  split; [exact Hb|]. destruct (game_lookup_ends sample_web 51 (mkCFState "key" 0 0 0)) as (r & s' & E & _ & _ & H); [lia | exact Hb|].
  assert (Hr : exists s0, Some (r, s') = Some (Ok 70216, s0) /\ cf_sent s0 = 2%nat).
  { rewrite <- E. eexists. split; [vm_compute; reflexivity | reflexivity]. }
  destruct Hr as (s0 & [= -> <-] & Hs). exists s'. split; [exact E|]. split; [exact Hs|]. by apply H.
Defined.

#[local] Instance sample_update_json : Json UpdateInfo := {|
  json_marshal i := Some (to_text (ui_CurrentVersion i, ui_LatestVersion i, ui_HasUpdate i, ui_ReleaseURL i, ui_PublishedAt i));
  json_unmarshal s :=
    match of_text (A := string * string * bool * string * string) s with
    | Some (c, l, h, u, p) => Some (mkUpdateInfo c l h u p)
    | None => None
    end
|}.

(** The panel at v1 sees the release v2; updated to v2, it still reports v1 and
    an update to v2, until the cached answer expires a day later. *)
Example update_info_outlives_update :
  let w := snd (CheckForUpdate (WebResponse 200 "v2") "v1" empty_world) in
  fst (CheckForUpdate (WebResponse 200 "v2") "v2" w)
  = Ok (mkUpdateInfo "v1" "v2" true "https://github.com/BitaceS/talepanel/releases" "")
  /\ fst (PublicConfig (WebResponse 200 "v2") "v2" "standalone" w)
     = Ok ("standalone", "v2", Some ("v2", true, "https://github.com/BitaceS/talepanel/releases", "")).
Proof. vm_compute. split; reflexivity. Qed.
