(* ===== verification/Pki.v ===== *)
(** * Certificates

    Models [pki/pki.go], the certificate part of [services/mtls_ca_store.go]
    and [handlers/node_csr.go]: the panel's certificate authority, its own
    client certificate and the signing of the requests of the daemons.
    [crypto/ecdsa], [crypto/x509] and [encoding/pem] are the class [CertLib]. *)

From stdpp Require Import base numbers list strings option gmap.
From Stdlib Require Import Ascii HexadecimalString HexadecimalN.
From S2P Require Import Prelude GoStrings Regex Store Platform Crypto Net Settings Auth Middleware.

Local Open Scope Z_scope.

(** ** The certificate library *)

Inductive KeyUsage := KeyUsageDigitalSignature | KeyUsageCertSign | KeyUsageCRLSign.
Inductive ExtKeyUsage := ExtKeyUsageClientAuth | ExtKeyUsageServerAuth.

(** x509.Certificate, the fields the code sets or reads. *)
Record Certificate := mkCertificate {
  crt_SerialNumber : Z;
  crt_CommonName : string;
  crt_Organization : list string;
  crt_DNSNames : list string;
  crt_IPAddresses : list Addr;
  crt_NotBefore : Z;
  crt_NotAfter : Z;
  crt_KeyUsage : list KeyUsage;
  crt_ExtKeyUsage : list ExtKeyUsage;
  crt_IsCA : bool;
  crt_MaxPathLenZero : bool
}.

(** Keys, DER and PEM.  A certificate request is its public key; what it says
    of its subject is never read. *)
Class CertLib := {
  private_key : Type;
  public_key : Type;
  public_of : private_key -> public_key;
  is_ecdsa : private_key -> bool;
  is_p256 : public_key -> bool;
  GenerateKey : N -> res error private_key;
  (* randomness, template, parent, key of the subject, key of the issuer *)
  CreateCertificate : N -> Certificate -> Certificate -> public_key -> private_key -> res error string;
  ParseCertificate : string -> res error Certificate;
  MarshalPKCS8PrivateKey : private_key -> res error string;
  ParsePKCS8PrivateKey : string -> res error private_key;
  pem_Encode : string -> string -> string;
  pem_Decode : string -> option (string * string);
  ParseCertificateRequest : string -> res error public_key;
  CheckSignature : string -> bool;
  (* does the PEM text hold a root, and does a certificate verify for client
     authentication against it at a time *)
  AppendCertsFromPEM : string -> bool;
  verify_client : string -> Z -> string -> bool
}.

(** ** pki.go *)

Definition hour : Z := 3600 * second.
Definition caValidity : Z := 10 * 365 * 24 * hour.
Definition leafValidity : Z := 2 * 365 * 24 * hour.
Definition clockSkew : Z := 5 * 60 * second.

(** CA. *)
Record CA := mkCA {
  ca_CertPEM : string;
  ca_KeyPEM : string
}.

(** A number below 2^128. *)
Definition randomSerial : M Z :=
  let* n := rand in ret (Z.of_N n mod 2 ^ 128).

(** [big.Int.Text(16)]. *)
Definition text16 (z : Z) : string := NilZero.string_of_uint (N.to_hex_uint (Z.to_N z)).

(** [net.ParseIP]: an address without a zone. *)
Definition ParseIP (s : string) : option Addr :=
  match ParseAddr s with
  | Some a => if String.eqb (Zone a) "" then Some a else None
  | None => None
  end.

(** [Truncate(time.Second)]. *)
Definition truncate_second (t : Z) : Z := t / second * second.

Definition lift {A} (msg : string) (r : res error A) : M A :=
  match r with Ok a => ret a | Err e => fail (ErrWrap msg e) end.

Section pki.
Context `{X : CertLib}.

Definition encodeKey (key : private_key) : M string :=
  let* der := lift "marshaling key" (MarshalPKCS8PrivateKey key) in
  ret (pem_Encode "PRIVATE KEY" der).

Definition ca_template (serial t validFor : Z) : Certificate :=
  mkCertificate serial "TalePanel Root CA" ["TalePanel"] [] [] (t - clockSkew) (t + validFor)
    [KeyUsageCertSign; KeyUsageCRLSign] [] true true.

Definition generateCA (validFor : Z) : M CA :=
  let* r := rand in
  let* key := lift "generating CA key" (GenerateKey r) in
  let* serial := randomSerial in
  let* t := now in
  let tmpl := ca_template serial t validFor in
  let* r' := rand in
  let* der := lift "creating CA certificate" (CreateCertificate r' tmpl tmpl (public_of key) key) in
  let* keyPEM := encodeKey key in
  ret (mkCA (pem_Encode "CERTIFICATE" der) keyPEM).

Definition GenerateCA : M CA := generateCA caValidity.

Definition ParseCSR (pemBytes : string) : res error public_key :=
  match pem_Decode pemBytes with
  | None => Err (ErrNew "no CERTIFICATE REQUEST PEM block")
  | Some (ty, b) =>
    if negb (String.eqb ty "CERTIFICATE REQUEST") then Err (ErrNew "no CERTIFICATE REQUEST PEM block")
    else match ParseCertificateRequest b with
         | Err e => Err (ErrWrap "parsing CSR" e)
         | Ok k => if CheckSignature b then Ok k
                   else Err (ErrWrap "CSR signature invalid" (ErrNew "x509: signature"))
         end
  end.

Definition ca_parse (ca : CA) : res error (Certificate * private_key) :=
  match pem_Decode (ca_CertPEM ca) with
  | None => Err (ErrNew "invalid CA certificate PEM")
  | Some (_, cb) =>
    match ParseCertificate cb with
    | Err e => Err (ErrWrap "parsing CA certificate" e)
    | Ok cert =>
      match pem_Decode (ca_KeyPEM ca) with
      | None => Err (ErrNew "invalid CA key PEM")
      | Some (_, kb) =>
        match ParsePKCS8PrivateKey kb with
        | Err e => Err (ErrWrap "parsing CA key" e)
        | Ok k => if is_ecdsa k then Ok (cert, k) else Err (ErrNew "CA key is not ECDSA")
        end
      end
    end
  end.

(** The split of the alternative names in [sign]. *)
Definition san_ips (sans : list string) : list Addr := omap ParseIP sans.
Definition san_dns (sans : list string) : list string :=
  List.filter (fun s => match ParseIP s with Some _ => false | None => true end) sans.

Definition leaf_template (serial : Z) (cn : string) (sans : list string) (t validFor : Z) : Certificate :=
  mkCertificate serial cn [] (san_dns sans) (san_ips sans) (t - clockSkew) (truncate_second (t + validFor))
    [KeyUsageDigitalSignature] [ExtKeyUsageClientAuth; ExtKeyUsageServerAuth] false false.

Definition sign (ca : CA) (pub : public_key) (cn : string) (sans : list string) (validFor : Z)
  : M (string * string * Z) :=
  match ca_parse ca with
  | Err e => fail e
  | Ok (caCert, caKey) =>
    let* serial := randomSerial in
    let* t := now in
    let tmpl := leaf_template serial cn sans t validFor in
    let* r := rand in
    let* der := lift "signing certificate" (CreateCertificate r tmpl caCert pub caKey) in
    ret (pem_Encode "CERTIFICATE" der, text16 serial, crt_NotAfter tmpl)
  end.

Definition SignCSR (ca : CA) (csrPEM cn : string) (sans : list string) (validFor : Z)
  : M (string * string * Z) :=
  if String.eqb cn "" then fail (ErrNew "empty certificate CN")
  else if validFor <=? 0 then fail (ErrNew "certificate validity must be positive")
  else match ParseCSR csrPEM with
       | Err e => fail e
       | Ok pub => if negb (is_p256 pub) then fail (ErrNew "CSR key must be ECDSA P-256")
                   else sign ca pub cn sans validFor
       end.

Definition IssueClientCert (ca : CA) (cn : string) : M (string * string) :=
  let* r := rand in
  let* key := lift "generating key" (GenerateKey r) in
  let* (certPEM, _, _) := sign ca (public_of key) cn [] leafValidity in
  let* keyPEM := encodeKey key in
  ret (certPEM, keyPEM).

(** ** mtls_ca_store.go *)

Context `{P : Platform} `{J : Json pemPair} (encKey : string).

Definition mtlsCAKey : string := "daemon_mtls_ca".
Definition mtlsPanelCertKey : string := "daemon_mtls_panel_cert".
Definition panelClientCN : string := "panel".
Definition panelCertMinRemaining : Z := 30 * 24 * hour.

Definition MTLSCA : M CA :=
  let* p := loadOrCreatePair encKey mtlsCAKey
              (let* ca := GenerateCA in ret (mkPemPair (ca_CertPEM ca) (ca_KeyPEM ca))) in
  ret (mkCA (pair_CertPEM p) (pair_KeyPEM p)).

Definition CACertPEM : M string :=
  let* ca := MTLSCA in ret (ca_CertPEM ca).

Definition usablePanelCert (caPEM certPEM : string) (t : Z) : bool :=
  if negb (AppendCertsFromPEM caPEM) then false
  else match pem_Decode certPEM with
       | None => false
       | Some (_, b) =>
         match ParseCertificate b with
         | Err _ => false
         | Ok cert => if negb (verify_client caPEM t b) then false
                      else panelCertMinRemaining <=? crt_NotAfter cert - t
         end
       end.

Definition issue_panel (ca : CA) : M pemPair :=
  let* (c, k) := IssueClientCert ca panelClientCN in ret (mkPemPair c k).

Definition PanelClientCert : M (string * string) :=
  let* ca := MTLSCA in
  let* p := loadOrCreatePair encKey mtlsPanelCertKey (issue_panel ca) in
  let* t := now in
  if usablePanelCert (ca_CertPEM ca) (pair_CertPEM p) t then ret (pair_CertPEM p, pair_KeyPEM p)
  else
    let* fresh := issue_panel ca in
    match json_marshal fresh with
    | None => fail (ErrNew ("encoding " +:+ mtlsPanelCertKey))
    | Some data =>
      run* setting_Set encKey mtlsPanelCertKey data None in
      ret (pair_CertPEM fresh, pair_KeyPEM fresh)
    end.

(** ** node_csr.go *)

Definition nodeCertValidity : Z := 2 * 365 * 24 * hour.

Definition decodeCSRField (s0 : string) : string :=
  let s := TrimSpace s0 in
  if HasPrefix s "-----BEGIN" then s
  else match b64_decode s with Some b => b | None => s end.

Definition nodeLookupStatus (e : error) : Z := if error_Is e ErrNoRows then 404 else 500.

Definition sanFromFQDN (fqdn : string) : string :=
  if HasPrefix fqdn "[" && HasSuffix fqdn "]"
  then str_take (String.length fqdn - 2) (str_drop 1 fqdn) else fqdn.

Definition record_cert (nodeID : uuid) (serial : string) (notAfter : Z) (d : DB) : DB :=
  with_nodes (alter (fun n => node_with_CertSerial (Some serial) (node_with_CertNotAfter (Some notAfter) n))
                nodeID (nodes d)) d.

(** POST /nodes/:id/csr, behind [DaemonNodeAuth], which set [authedID]; the
    body is its [csr_pem] field, when it is JSON. *)
Definition SignCSRHandler (idParam : string) (authedID : uuid) (body : option string) : M Reply :=
  match uuid_parse idParam with
  | None => ret (reply_error 400 "invalid ID format")
  | Some nodeID =>
    if negb (String.eqb (uuid_string authedID) (uuid_string nodeID))
    then ret (reply_error 403 "token does not match node")
    else match body with
    | None => ret (reply_error 400 "invalid request body")
    | Some field =>
      let csrPEM := decodeCSRField field in
      match ParseCSR csrPEM with
      | Err _ => ret (reply_error 400 "invalid CSR")
      | Ok _ =>
        let* q := attempt (query (fun d => get_key (nodes d) nodeID)) in
        match q with
        | Err e => if nodeLookupStatus e =? 404 then ret (reply_error 404 "node not found")
                   else ret (reply_error (nodeLookupStatus e) "could not load node")
        | Ok n =>
          let* rca := attempt MTLSCA in
          match rca with
          | Err _ => ret (reply_error 500 "could not load CA")
          | Ok ca =>
            let* signed := attempt (SignCSR ca csrPEM (uuid_string nodeID) [sanFromFQDN (node_FQDN n)] nodeCertValidity) in
            match signed with
            | Err _ => ret (reply_error 500 "could not sign certificate")
            | Ok (certPEM, serial, notAfter) =>
              let* u := attempt (exec (fun d => Ok (tt, record_cert nodeID serial notAfter d))) in
              match u with
              | Err _ => ret (reply_error 500 "could not record certificate")
              | Ok _ => ret (mkReply 200 (JObj [("ca_cert_pem", JStr (ca_CertPEM ca));
                                                ("node_cert_pem", JStr certPEM)]))
              end
            end
          end
        end
      end
    end
  end.
End pki.

(** ** Lemmas *)

Section pki_lemmas.
Context `{X : CertLib} `{P : Platform} `{L : !PlatformLaws P} `{J : Json pemPair}
  `{JL : !JsonLaws pemPair (fun _ => True)} (encKey : string).

Lemma lift_preserves {A} msg (r : res error A) I : preserves I (lift msg r).
Proof. unfold lift. solve_preserves. Qed.

Lemma generateCA_preserves v I : preserves I (generateCA v).
Proof. unfold generateCA, randomSerial, encodeKey. solve_preserves; apply lift_preserves. Qed.

Lemma ca_gen_preserves I :
  preserves I (let* ca := GenerateCA in ret (mkPemPair (ca_CertPEM ca) (ca_KeyPEM ca))).
Proof. apply preserves_bind; [apply generateCA_preserves|]. intros; apply preserves_ret. Qed.

Lemma lift_timeless {A} msg (r : res error A) : timeless (lift msg r).
Proof. unfold lift. by destruct r. Qed.

Lemma setting_Get_timeless key : timeless (setting_Get encKey key).
Proof. unfold setting_Get. solve_timeless. Qed.

Lemma MTLSCA_timeless : timeless (MTLSCA encKey).
Proof.
  unfold MTLSCA, loadOrCreatePair, create_pair, read_pair, setting_SetIfAbsent, Encrypt, GenerateCA, generateCA,
    randomSerial, encodeKey.
  repeat (solve_timeless; try apply setting_Get_timeless; try apply lift_timeless).
Qed.

(** The authority is the stored one, and getting it touches settings only. *)
Lemma MTLSCA_inv w r w' :
  MTLSCA encKey w = (r, w') ->
  nodes (w_db w') = nodes (w_db w) /\ w_now w' = w_now w
  /\ forall ca, r = Ok ca ->
       pair_of encKey mtlsCAKey (w_db w') = Some (mkPemPair (ca_CertPEM ca) (ca_KeyPEM ca)).
Proof.
  intros H. pose proof (MTLSCA_timeless w) as Ht. rewrite H in Ht. cbn [snd] in Ht.
  assert (Hr : exists r0, loadOrCreatePair encKey mtlsCAKey (let* ca := GenerateCA in
      ret (mkPemPair (ca_CertPEM ca) (ca_KeyPEM ca))) w = (r0, w')
    /\ forall ca, r = Ok ca -> r0 = Ok (mkPemPair (ca_CertPEM ca) (ca_KeyPEM ca))).
  { apply bind_inv in H as [([c k] & w1 & H1 & H)|(e & H1 & ->)]; [apply ret_inv in H as [-> ->]|]; eexists;
      (split; [exact H1|]); [by intros ca [= <-] | done]. }
  destruct Hr as (r0 & Hl & Hr). apply bind_inv in Hl as [(o & w1 & Ho & Hl)|(e & Ho & ->)];
    apply read_pair_inv in Ho as [Hd Ho].
  - specialize (Ho o eq_refl). destruct o as [p|].
    + apply ret_inv in Hl as [-> ->]. rewrite Hd. split_and!; [done | done|]. intros ca Hca%Hr.
      by injection Hca as <-.
    + apply create_pair_inv in Hl as [Hw Hp]; [|apply ca_gen_preserves]. split_and!; [| done|].
      * destruct Hw as [->|(_ & enc & ->)]; by rewrite Hd.
      * intros ca Hca%Hr. by apply Hp.
  - split_and!; [by rewrite Hd | done|]. intros ca Hca%Hr. done.
Qed.

Lemma pki_lift_ok {A} msg (r : res error A) w a w' : lift msg r w = (Ok a, w') -> r = Ok a /\ w' = w.
Proof. destruct r as [x|e]; [intros [H ->]%ret_inv; by injection H as -> | by intros [? _]%fail_inv]. Qed.

Lemma sign_inv ca pub cn sans v w r w' :
  sign ca pub cn sans v w = (r, w') ->
  w_db w' = w_db w /\ forall crt sn na, r = Ok (crt, sn, na) ->
    exists cc ck serial rnd der, ca_parse ca = Ok (cc, ck) /\ 0 <= serial < 2 ^ 128
    /\ CreateCertificate rnd (leaf_template serial cn sans (w_now w) v) cc pub ck = Ok der
    /\ crt = pem_Encode "CERTIFICATE" der /\ sn = text16 serial /\ na = truncate_second (w_now w + v).
Proof.
  unfold sign. intros H. split.
  - assert (Hp : preserves (fun d => d = w_db w) (sign ca pub cn sans v)).
    { unfold sign, randomSerial. solve_preserves. apply lift_preserves. }
    specialize (Hp w eq_refl). unfold sign in Hp. by rewrite H in Hp.
  - intros crt sn na ->. destruct (ca_parse ca) as [[cc ck]|e]; [|by apply fail_inv in H as [? _]].
    apply bind_ok in H as (serial & w1 & Hs & H). apply bind_ok in Hs as (n & w2 & (_ & _ & Ht & _)%rand_inv & Hs).
    apply ret_inv in Hs as [Hs ->]. apply bind_ok in H as (t & w3 & Hn & H). apply now_inv in Hn as [[= ->] ->].
    cbv zeta in H. apply bind_ok in H as (rnd & w4 & Hr & H). apply bind_ok in H as (der & w5 & [Hd ->]%pki_lift_ok & H).
    apply ret_inv in H as [H _]. rewrite Ht in *. inversion H; subst. exists cc, ck, serial, rnd, der.
    split_and!; try done; injection Hs as ->; apply Z.mod_pos_bound; lia.
Qed.

Lemma SignCSR_inv ca csr cn sans v w r w' :
  SignCSR ca csr cn sans v w = (r, w') ->
  w_db w' = w_db w /\ forall crt sn na, r = Ok (crt, sn, na) ->
    exists pub w0, ParseCSR csr = Ok pub /\ is_p256 pub = true /\ w_now w0 = w_now w
    /\ sign ca pub cn sans v w0 = (Ok (crt, sn, na), w').
Proof.
  unfold SignCSR. destruct (String.eqb cn ""); [by intros [-> ->]%fail_inv|].
  destruct (v <=? 0); [by intros [-> ->]%fail_inv|].
  destruct (ParseCSR csr) as [pub|e]; [|by intros [-> ->]%fail_inv].
  destruct (is_p256 pub) eqn:Ep; [|by intros [-> ->]%fail_inv]. cbn [negb]. intros H.
  pose proof H as Hs. apply sign_inv in H as [Hd _]. split; [done|]. intros crt sn na ->. eauto 10.
Qed.
End pki_lemmas.

(** An answer other than 200 that changed nothing. *)
Ltac refused H := apply ret_inv in H as [[= ->] ->]; by left.

Lemma uuid_string_inj `{P : Platform} `{L : !PlatformLaws P} (a b : uuid) : uuid_string a = uuid_string b -> a = b.
Proof. intros H. pose proof (uuid_parse_string a) as Ha. rewrite H, uuid_parse_string in Ha. by injection Ha. Qed.

Lemma prefix_app (p s : string) : String.prefix p s = true -> s = p +:+ str_drop (String.length p) s.
Proof.
  revert s. induction p as [|a p IH]; intros s H; [by destruct s|]. destruct s as [|b s]; [done|]. simpl in H.
  destruct (ascii_dec a b) as [->|]; [|done]. cbn [String.length str_drop]. rewrite str_app_cons. f_equal. by apply IH.
Qed.

Lemma DaemonNodeAuth_pass `{P : Platform} hdr w id w' :
  DaemonNodeAuth hdr w = (Ok (Pass id), w') ->
  exists tok n, hdr = "Bearer " +:+ tok /\ nodes (w_db w) !! id = Some n
    /\ node_TokenHash n = hashToken tok /\ w_db w' = w_db w.
Proof.
  unfold DaemonNodeAuth. destruct (HasPrefix hdr "Bearer ") eqn:Ep; cbn [negb]; [|by intros [? _]%ret_inv].
  destruct (String.eqb _ ""); [by intros [? _]%ret_inv|].
  intros (q & w1 & Hq & H)%bind_ok. apply attempt_inv in Hq as (r & [= <-] & Hq).
  destruct q as [k|e]; apply ret_inv in H as [H ->]; [|done]. injection H as <-.
  apply query_ok in Hq as [Hq Hd]. destruct (find_key _ _) as [[k' n]|e] eqn:Ef; [|done]. injection Hq as <-.
  apply find_key_ok in Ef as [Hn Ht%String.eqb_eq]. exists (str_drop (String.length "Bearer ") hdr), n.
  split_and!; try done. by apply prefix_app.
Qed.

(** ** Theorem: the identity of a node certificate *)

(** A certificate goes only to the daemon that showed the token of the node in
    the path, for the P-256 key its request is signed with; the name in it is
    the id of that node and the alternative name the address it is registered
    under, whatever the request says, it expires two years on, and it is
    signed with the stored authority.  Its serial and expiry are recorded on
    that node.  Any other answer leaves the nodes as they were. *)
Theorem node_cert_identity `{X : CertLib} `{U : Unicode} `{P : Platform} `{L : !PlatformLaws P} `{J : Json pemPair}
    `{JL : !JsonLaws pemPair (fun _ => True)} (encKey authHeader idParam : string) (body : option string)
    (authed : uuid) (w w0 w' : World) (rep : Reply) :
  DaemonNodeAuth authHeader w = (Ok (Pass authed), w0) ->
  SignCSRHandler encKey idParam authed body w0 = (Ok rep, w') ->
  (reply_Status rep <> 200 /\ nodes (w_db w') = nodes (w_db w)) \/
  (reply_Status rep = 200 /\ exists n tok field pub ca cc ck serial rnd der,
    let tmpl := leaf_template serial (uuid_string authed) [sanFromFQDN (node_FQDN n)] (w_now w0) nodeCertValidity in
    nodes (w_db w) !! authed = Some n /\ authHeader = "Bearer " +:+ tok /\ node_TokenHash n = hashToken tok
    /\ uuid_parse idParam = Some authed
    /\ body = Some field /\ ParseCSR (decodeCSRField field) = Ok pub /\ is_p256 pub = true
    /\ pair_of encKey mtlsCAKey (w_db w') = Some (mkPemPair (ca_CertPEM ca) (ca_KeyPEM ca))
    /\ ca_parse ca = Ok (cc, ck)
    /\ CreateCertificate rnd tmpl cc pub ck = Ok der
    /\ reply_Body rep = JObj [("ca_cert_pem", JStr (ca_CertPEM ca)); ("node_cert_pem", JStr (pem_Encode "CERTIFICATE" der))]
    /\ nodes (w_db w') = <[authed := node_with_CertSerial (Some (text16 serial))
                                       (node_with_CertNotAfter (Some (crt_NotAfter tmpl)) n)]> (nodes (w_db w))).
Proof.
  intros Ha H. apply DaemonNodeAuth_pass in Ha as (tok & n & Hhdr & Hn & Htok & Hd0).
  unfold SignCSRHandler in H. rewrite <- Hd0 in Hn |- *.
  destruct (uuid_parse idParam) as [nodeID|] eqn:Eid; [|refused H].
  destruct (String.eqb_spec (uuid_string authed) (uuid_string nodeID)) as [Heq|Hne]; cbn [negb] in H; [|refused H].
  apply uuid_string_inj in Heq as <-.
  destruct body as [field|]; [|refused H].
  destruct (ParseCSR (decodeCSRField field)) as [pub|e] eqn:Ecsr; [|refused H].
  apply bind_ok in H as (q & w1 & Hq & H). apply attempt_inv in Hq as (q' & [= <-] & Hq).
  apply query_inv in Hq as (Hd1 & Ht1 & _ & _ & _ & Hq). rewrite <- Hd1 in Hn |- *.
  destruct q as [n'|e]; [|destruct (nodeLookupStatus e =? 404);
    [refused H | unfold nodeLookupStatus in H; destruct (error_Is e ErrNoRows); refused H]].
  assert (n' = n) as ->.
  { destruct Hq as [Hq|Hq]; [done|]. unfold get_key in Hq. rewrite <- Hd1, Hn in Hq. by injection Hq. }
  apply bind_ok in H as (rca & w2 & Hca & H). apply attempt_inv in Hca as (r' & [= <-] & Hca).
  apply MTLSCA_inv in Hca as (Hd2 & Ht2 & Hpair). rewrite <- Hd2 in Hn |- *.
  destruct rca as [ca|e]; [|refused H]. specialize (Hpair ca eq_refl).
  apply bind_ok in H as (sg & w3 & Hs & H). apply attempt_inv in Hs as (r' & [= <-] & Hs).
  apply SignCSR_inv in Hs as [Hd3 Hs]. rewrite <- Hd3 in Hn, Hpair |- *.
  destruct sg as [[[crt sn] na]|e]; [|refused H].
  destruct (Hs _ _ _ eq_refl) as (pub' & w4 & Ep & H256 & Ht4 & Hsign). rewrite Ecsr in Ep. injection Ep as <-.
  apply sign_inv in Hsign as [_ Hsign].
  destruct (Hsign _ _ _ eq_refl) as (cc & ck & serial & rnd & der & Hcp & _ & Hder & -> & -> & ->).
  assert (Ht : w_now w4 = w_now w0) by congruence. rewrite Ht in Hder, H.
  apply bind_ok in H as (u & w5 & Hu & H). apply attempt_inv in Hu as (r' & [= <-] & Hu).
  apply exec_inv in Hu as (_ & _ & _ & _ & [([] & d & -> & [= <-] & Hd5)|(e & -> & Hd5 & _)]); rewrite ?Hd5;
    [|rewrite <- Hd5 in *; refused H].
  apply ret_inv in H as [[= ->] ->]. right. split; [done|].
  exists n, tok, field, pub, ca, cc, ck, serial, rnd, der. cbv zeta. rewrite Hd5.
  split_and!; try done. cbn. apply map_eq. intros k. destruct (decide (k = authed)) as [->|Hk].
  - by rewrite lookup_alter_eq, lookup_insert_eq, Hn.
  - by rewrite lookup_alter_ne, lookup_insert_ne.
Qed.

(** A concrete library: keys are numbers, a certificate is the text of its
    names and key. *)
Definition sample_certs : CertLib := {|
  private_key := N;
  public_key := N;
  public_of k := k;
  is_ecdsa k := true;
  is_p256 k := true;
  GenerateKey n := Ok n;
  CreateCertificate r tmpl parent pub key :=
    Ok (crt_CommonName tmpl +:+ Join (crt_DNSNames tmpl) "," +:+ to_text pub);
  ParseCertificate der := Ok (ca_template 0 0 0);
  MarshalPKCS8PrivateKey k := Ok (to_text k);
  ParsePKCS8PrivateKey s := match of_text s with Some k => Ok k | None => Err (ErrNew "x509") end;
  pem_Encode ty b := ty +:+ "|" +:+ b;
  pem_Decode s := cut "|" s;
  ParseCertificateRequest s := Ok 77%N;
  CheckSignature s := true;
  AppendCertsFromPEM s := true;
  verify_client ca t s := true
|}.

Definition csr_world : World :=
  with_db (with_nodes {[9%N := node_with_TokenHash (@hashToken sample_platform "tok")
                                 (node_with_FQDN "node.example" (sample_node 9))]} empty_db) empty_world.

Definition sample_csr (id : uuid) : M Reply :=
  @SignCSRHandler sample_certs sample_platform sample_pair_json (hex_bytes 16 7)
    (@uuid_string sample_platform id) 9 (Some "CERTIFICATE REQUEST|x").

Lemma node_cert_identity_witness :
  exists n serial, reply_Status (match fst (sample_csr 9 csr_world) with Ok r => r | Err _ => reply_error 0 "" end) = 200
    /\ nodes (w_db (snd (sample_csr 9 csr_world))) !! 9%N = Some n /\ node_CertSerial n = Some serial
    /\ fst (sample_csr 10 csr_world) = Ok (reply_error 403 "token does not match node").
Proof.
  destruct (sample_csr 9 csr_world) as [r w'] eqn:E.
  assert (Hr : exists rep, r = Ok rep /\ reply_Status rep = 200).
  { change r with (fst (r, w')). rewrite <- E. eexists. split; vm_compute; reflexivity. }
  destruct Hr as (rep & -> & Hrep).
  destruct (node_cert_identity (X := sample_certs) (U := ascii_tables) (P := sample_platform)
    (JL := sample_pair_json_laws) (hex_bytes 16 7) "Bearer tok" (@uuid_string sample_platform 9)
    (Some "CERTIFICATE REQUEST|x") 9 csr_world csr_world w' rep) as [[? _]|(_ & n & H)];
    [vm_compute; reflexivity | exact E | done|].
  destruct H as (? & ? & ? & ? & ? & ? & serial & ? & ? & _ & _ & _ & _ & _ & _ & _ & _ & _ & _ & _ & Hn).
  eexists _, (text16 serial). split_and!; [exact Hrep | cbn [snd]; rewrite Hn; by apply lookup_insert_eq | done |].
  vm_compute. reflexivity.
Defined.
