(* ===== verification/Destinations.v ===== *)
(** * Off-site backup destinations

    Models [services/backup_destination_providers.go] and
    [services/backup_destination_service.go]: the providers and the options
    they take, the validation of what an administrator enters, the stored
    destinations with their encrypted secrets, and the remote a daemon is
    told to use.  Of the provider table the texts only the interface shows
    are left out, and so are the quoted values in error texts.  A Go map is
    walked in the order of [map_to_list]: only which of several errors is
    reported depends on it. *)

From stdpp Require Import base numbers list strings option gmap.
From Stdlib Require Import Ascii.
From S2P Require Import Prelude GoStrings Store Platform Crypto Net Daemon.

Local Open Scope Z_scope.

(** ** More of package strings *)

(** [strings.Index] and [strings.LastIndex] of a byte. *)
Fixpoint IndexByte (c : ascii) (s : string) : option nat :=
  match s with
  | EmptyString => None
  | String a s' => if Ascii.eqb a c then Some O else S <$> IndexByte c s'
  end.

Fixpoint LastIndexByte (c : ascii) (s : string) : option nat :=
  match s with
  | EmptyString => None
  | String a s' =>
    match LastIndexByte c s' with
    | Some n => Some (S n)
    | None => if Ascii.eqb a c then Some O else None
    end
  end.

(** [strings.ReplaceAll] of a text that is not empty; [skip] counts the bytes
    of the last match still to pass. *)
Fixpoint replace_from (old new : string) (skip : nat) (s : string) : string :=
  match s with
  | EmptyString => ""
  | String a s' =>
    match skip with
    | S k => replace_from old new k s'
    | O => if String.prefix old s
           then new +:+ replace_from old new (String.length old - 1) s'
           else String a (replace_from old new 0 s')
    end
  end.

Definition ReplaceAll (s old new : string) : string := replace_from old new 0 s.

(** Carriage return, line feed and NUL. *)
Definition break_byte (a : ascii) : bool :=
  (byte_of a =? 13) || (byte_of a =? 10) || (byte_of a =? 0).

(** [!strings.ContainsAny(s, "\r\n\x00")]. *)
Definition one_line (s : string) : bool := str_forallb (fun a => negb (break_byte a)) s.

Definition CRLF : string := String "013" (String "010" "").
Definition LF : string := String "010" "".
(** The two characters backslash and n. *)
Definition escaped_LF : string := String "092" "n".

(** ** Providers *)

(** DestinationField; [Help], [Placeholder], [Multiline] and [Advanced] are for
    the interface only. *)
Record DestinationField := mkField {
  fld_Key : string;
  fld_Label : string;
  fld_Secret : bool;
  fld_Required : bool;
  fld_Choices : list string;
  fld_Default : string;
  fld_obscure : bool;
  fld_token : bool;
  fld_pem : bool
}.

(** DestinationProvider. *)
Record DestinationProvider := mkProvider {
  prov_ID : string;
  prov_Label : string;
  prov_Backend : string;
  prov_Fields : list DestinationField;
  prov_fixed : gmap string string
}.

Definition opt (key label : string) : DestinationField := mkField key label false false [] "" false false false.
Definition opt_required (key label : string) : DestinationField := mkField key label false true [] "" false false false.
Definition opt_choice (key label : string) (choices : list string) (dflt : string) : DestinationField :=
  mkField key label false false choices dflt false false false.
Definition secret (key label : string) : DestinationField := mkField key label true true [] "" false false false.
Definition oauth_token : DestinationField :=
  mkField "token" "Token from rclone authorize" true true [] "" false true false.

Definition destinationProviders : list DestinationProvider :=
  [ mkProvider "onedrive" "Microsoft OneDrive" "onedrive"
      [ oauth_token; opt "drive_id" "Drive ID";
        opt_choice "drive_type" "Drive type" ["personal"; "business"; "documentLibrary"] "";
        opt_choice "region" "Region" ["global"; "us"; "de"; "cn"] "global" ] ∅;
    mkProvider "gdrive" "Google Drive" "drive"
      [ oauth_token; opt "root_folder_id" "Root folder ID"; opt "team_drive" "Shared drive ID" ]
      {["scope" := "drive"]};
    mkProvider "dropbox" "Dropbox" "dropbox" [ oauth_token ] ∅;
    mkProvider "s3" "S3-compatible (AWS, Wasabi, Cloudflare R2, ...)" "s3"
      [ mkField "provider" "Provider" false true ["AWS"; "Wasabi"; "Cloudflare"; "Other"] "AWS" false false false;
        secret "access_key_id" "Access key ID"; secret "secret_access_key" "Secret access key";
        opt "region" "Region"; opt "endpoint" "Endpoint" ] ∅;
    mkProvider "b2" "Backblaze B2" "b2"
      [ secret "account" "Application key ID"; secret "key" "Application key" ] ∅;
    mkProvider "sftp" "SFTP server" "sftp"
      [ opt_required "host" "Host"; opt_choice "port" "Port" [] "22"; opt_required "user" "User";
        mkField "pass" "Password" true false [] "" true false false;
        mkField "key_pem" "Private key (PEM)" true false [] "" false false true ] ∅;
    mkProvider "webdav" "WebDAV / Nextcloud / ownCloud" "webdav"
      [ opt_required "url" "WebDAV URL";
        opt_choice "vendor" "Vendor" ["nextcloud"; "owncloud"; "sharepoint"; "other"] "nextcloud";
        opt_required "user" "User";
        mkField "pass" "Password" true true [] "" true false false ] ∅ ].

Definition findProvider (id : string) : option DestinationProvider :=
  List.find (fun p => String.eqb (prov_ID p) id) destinationProviders.

Definition prov_field (p : DestinationProvider) (key : string) : option DestinationField :=
  List.find (fun f => String.eqb (fld_Key f) key) (prov_Fields p).

Definition ErrInvalidDestination : error := ErrNew "invalid backup destination".
Definition invalidf {A} (msg : string) : res error A := Err (ErrDetail ErrInvalidDestination msg).

Definition maxOptionValueLen : Z := 16 * 1024.

(** ** Validation *)

(** The runes no segment of a path may have. *)
Definition forbidden_rune (r : Z) : bool :=
  IsControl r || contains [92; 58; 42; 63; 34; 60; 62; 124] r.

Definition check_segment (seg : string) : res error unit :=
  if String.eqb seg "" then invalidf "base path must not contain empty segments or a trailing /"
  else if String.eqb seg "." || String.eqb seg ".." then invalidf "base path must not contain . or .."
  else if HasPrefix seg "-" then invalidf "base path segments must not start with -"
  else if negb (String.eqb (TrimSpace seg) seg)
  then invalidf "base path segments must not start or end with spaces"
  else if existsb (fun r => forbidden_rune (rune_val r)) (runes seg)
  then invalidf "base path contains a forbidden character"
  else Ok tt.

Fixpoint check_segments (l : list string) : res error unit :=
  match l with
  | [] => Ok tt
  | seg :: l' => match check_segment seg with Ok _ => check_segments l' | Err e => Err e end
  end.

Definition ValidateRemoteBasePath (p : string) : res error unit :=
  if String.eqb p "" then invalidf "base path is required"
  else if 512 <? len p then invalidf "base path is too long"
  else
    let rest := TrimPrefix p "/" in
    if String.eqb rest "" then invalidf "base path must name a folder"
    else check_segments (Split "/" rest).

Section options.
Context `{T : Json json}.

(** The value of a member; the last one of a repeated key counts. *)
Definition member (k : string) (fields : list (string * json)) : option json :=
  fold_left (fun acc kv => if String.eqb (fst kv) k then Some (snd kv) else acc) fields None.

Definition normalizeOAuthToken (raw : string) : res error string :=
  match IndexByte "{" raw, LastIndexByte "}" raw with
  | Some start, Some stop =>
    if (stop <? start)%nat then invalidf "token must be the JSON printed by rclone authorize"
    else
      match json_unmarshal (str_take (stop + 1 - start) (str_drop start raw)) with
      | Some (JObj tok) =>
        match member "access_token" tok with
        | Some (JStr at_) =>
          if String.eqb at_ "" then invalidf "token JSON has no access_token"
          else match json_marshal (JObj tok) with
               | Some compact => Ok compact
               | None => invalidf "token"
               end
        | _ => invalidf "token JSON has no access_token"
        end
      | _ => invalidf "token is not valid JSON"
      end
  | _, _ => invalidf "token must be the JSON printed by rclone authorize"
  end.

(** [fmt.Sscanf(value, "%d", &port)] succeeds on a number and [fmt.Sprint]
    gives the value back exactly when the value is the decimal text of the
    port. *)
Definition port_text (value : string) : bool :=
  match Atoi value with
  | Some port => (1 <=? port) && (port <=? 65535) && String.eqb (Itoa port) value
  | None => false
  end.

Definition normalizeOption (f : DestinationField) (value0 : string) : res error string :=
  if fld_token f then normalizeOAuthToken value0
  else
    let value :=
      if fld_pem f then ReplaceAll (TrimSpace (ReplaceAll value0 CRLF LF)) LF escaped_LF
      else TrimSpace value0 in
    if maxOptionValueLen <? len value then invalidf (fld_Label f +:+ " is too long")
    else if negb (one_line value) then invalidf (fld_Label f +:+ " must be a single line")
    else if (0 <? length (fld_Choices f))%nat && negb (String.eqb value "")
            && negb (contains (fld_Choices f) value)
    then invalidf (fld_Label f +:+ " must be one of " +:+ Join (fld_Choices f) ", ")
    else if String.eqb (fld_Key f) "port" && negb (String.eqb value "") && negb (port_text value)
    then invalidf "port must be a number between 1 and 65535"
    else if (String.eqb (fld_Key f) "url" || String.eqb (fld_Key f) "endpoint")
            && negb (String.eqb value "") && negb (HasPrefix value "https://") && negb (HasPrefix value "http://")
    then invalidf (fld_Label f +:+ " must start with https:// or http://")
    else Ok value.

(** The loops of [splitDestinationOptions]: the stored secrets that are still
    fields, the options, and the secrets of the request. *)
Definition secret_key (p : DestinationProvider) (k : string) : bool :=
  match prov_field p k with Some f => fld_Secret f | None => false end.

Definition kept_secrets (p : DestinationProvider) (existing : gmap string string) : gmap string string :=
  filter (fun kv => secret_key p (fst kv) = true) existing.

Fixpoint split_plain (p : DestinationProvider) (l : list (string * string)) (plain : gmap string string)
  : res error (gmap string string) :=
  match l with
  | [] => Ok plain
  | (k, v) :: l' =>
    match prov_field p k with
    | None => invalidf ("unknown option for " +:+ prov_Label p)
    | Some f =>
      if fld_Secret f then invalidf (fld_Label f +:+ " must be sent as a secret")
      else match normalizeOption f v with
           | Err e => Err e
           | Ok nv => split_plain p l' (if String.eqb nv "" then plain else <[k := nv]> plain)
           end
    end
  end.

Fixpoint split_secret (p : DestinationProvider) (l : list (string * string)) (sec : gmap string string)
  : res error (gmap string string) :=
  match l with
  | [] => Ok sec
  | (k, v) :: l' =>
    match prov_field p k with
    | Some f =>
      if negb (fld_Secret f) then invalidf ("unknown secret for " +:+ prov_Label p)
      else if String.eqb (TrimSpace v) "" then split_secret p l' sec
      else match normalizeOption f v with
           | Err e => Err e
           | Ok nv => split_secret p l' (<[k := nv]> sec)
           end
    | None => invalidf ("unknown secret for " +:+ prov_Label p)
    end
  end.

(** [m[k]], empty when the key is missing. *)
Definition at_key (m : gmap string string) (k : string) : string := default "" (m !! k).

Fixpoint check_required (fields : list DestinationField) (plain sec : gmap string string) : res error unit :=
  match fields with
  | [] => Ok tt
  | f :: l' =>
    if fld_Required f
       && ((fld_Secret f && String.eqb (at_key sec (fld_Key f)) "")
           || (negb (fld_Secret f) && String.eqb (at_key plain (fld_Key f)) "" && String.eqb (fld_Default f) ""))
    then invalidf (fld_Label f +:+ " is required")
    else check_required l' plain sec
  end.

Definition splitDestinationOptions (p : DestinationProvider) (options secrets existing : gmap string string)
  : res error (gmap string string * gmap string string) :=
  (plain <-? split_plain p (map_to_list options) ∅ ;;
   sec <-? split_secret p (map_to_list secrets) (kept_secrets p existing) ;;
   _ <-? check_required (prov_Fields p) plain sec ;;
   if String.eqb (prov_ID p) "sftp" && String.eqb (at_key sec "pass") "" && String.eqb (at_key sec "key_pem") ""
   then invalidf "SFTP needs a password or a private key"
   else
     let prov := if String.eqb (at_key plain "provider") "" then "AWS" else at_key plain "provider" in
     if String.eqb (prov_ID p) "s3" && negb (String.eqb prov "AWS") && String.eqb (at_key plain "endpoint") ""
     then invalidf ("Endpoint is required for " +:+ prov)
     else if String.eqb (prov_ID p) "onedrive"
             && negb (Bool.eqb (String.eqb (at_key plain "drive_id") "") (String.eqb (at_key plain "drive_type") ""))
     then invalidf "Drive ID and Drive type must be set together (or both left empty)"
     else Ok (plain, sec))%res.
End options.

(** The loop of [rcloneOptions] over the fields. *)
Fixpoint rclone_fields (fields : list DestinationField) (plain secrets out : gmap string string)
    (obscure : list string) : gmap string string * list string :=
  match fields with
  | [] => (out, obscure)
  | f :: l' =>
    let v0 := at_key (if fld_Secret f then secrets else plain) (fld_Key f) in
    let v := if String.eqb v0 "" then fld_Default f else v0 in
    if String.eqb v "" then rclone_fields l' plain secrets out obscure
    else rclone_fields l' plain secrets (<[fld_Key f := v]> out)
           (if fld_obscure f then obscure ++ [fld_Key f] else obscure)
  end.

Definition rcloneOptions (p : DestinationProvider) (plain secrets : gmap string string)
  : gmap string string * list string :=
  let '(out, obscure) := rclone_fields (prov_Fields p) plain secrets ∅ [] in
  (prov_fixed p ∪ out, obscure).

Definition writableConfigKeys : list string := ["token"; "drive_id"; "drive_type"].

(** ** BackupDestinationService *)

Definition ErrDestinationNotFound : error := ErrNew "backup destination not found".
Definition ErrDestinationInUse : error :=
  ErrNew "backup destination still holds backups that exist only off-site; delete those backups first".
Definition ErrNoNodeForTest : error :=
  ErrNew "no online node is connected — a node is needed to run the connection test".

(** BackupDestination: what a client sees, with the names of the stored secrets. *)
Record BackupDestination := mkBackupDestination {
  bd_ID : uuid;
  bd_Name : string;
  bd_Provider : string;
  bd_BasePath : string;
  bd_Options : gmap string string;
  bd_SecretsSet : gset string;
  bd_KeepLocal : bool;
  bd_RetentionCount : option Z;
  bd_CreatedAt : Z;
  bd_UpdatedAt : Z
}.

(** BackupDestinationSummary. *)
Record BackupDestinationSummary := mkSummary {
  sum_ID : uuid;
  sum_Name : string;
  sum_Provider : string;
  sum_KeepLocal : bool
}.

(** SaveDestinationRequest. *)
Record SaveDestinationRequest := mkSaveDestinationRequest {
  sdr_Name : string;
  sdr_Provider : string;
  sdr_BasePath : string;
  sdr_Options : gmap string string;
  sdr_Secrets : gmap string string;
  sdr_KeepLocal : option bool;
  sdr_RetentionCount : option Z
}.

Definition by_name (a b : DestinationRow) : bool := String.leb (dest_Name a) (dest_Name b).

(** [validateDestinationMeta]: the provider, and the request with its name and
    path trimmed and a retention that is not positive removed. *)
Definition validateDestinationMeta (req : SaveDestinationRequest)
  : res error (DestinationProvider * SaveDestinationRequest) :=
  let name := TrimSpace (sdr_Name req) in
  if String.eqb name "" || (64 <? len name) then invalidf "name is required (at most 64 characters)"
  else if negb (one_line name) then invalidf "name must be a single line"
  else match findProvider (sdr_Provider req) with
       | None => invalidf "unknown provider"
       | Some p =>
         let basePath := TrimSpace (sdr_BasePath req) in
         match ValidateRemoteBasePath basePath with
         | Err e => Err e
         | Ok _ =>
           let retention := match sdr_RetentionCount req with
                            | Some n => if n <=? 0 then None else Some n
                            | None => None
                            end in
           if match retention with Some n => 10000 <? n | None => false end
           then invalidf "retention must be at most 10000 backups"
           else Ok (p, mkSaveDestinationRequest name (sdr_Provider req) basePath (sdr_Options req)
                         (sdr_Secrets req) (sdr_KeepLocal req) retention)
         end
       end.

(** A unique violation, SQL state 23505. *)
Definition mapUniqueViolation (e : error) : error :=
  match e with
  | ErrConstraint "backup_destinations_name_key" | ErrConstraint "primary key" =>
    ErrDetail ErrInvalidDestination "a destination with this name already exists"
  | _ => e
  end.

Definition map_err {A} (f : error -> error) (m : M A) : M A :=
  let* r := attempt m in match r with Ok a => ret a | Err e => fail (f e) end.

Definition of_res {A} (r : res error A) : M A := match r with Ok a => ret a | Err e => fail e end.

Section service.
Context `{P : Platform} `{T : Json json} `{S : Json (gmap string string)} (encKey : string).

(** [scan]: the view of a row and its secrets in clear. *)
Definition scan (r : DestinationRow) : res error (BackupDestination * gmap string string) :=
  (secrets <-? (if String.eqb (dest_Secrets r) "" then Ok ∅
                else match Decrypt encKey (dest_Secrets r) with
                     | Err e => Err (ErrWrap "decrypting destination secrets" e)
                     | Ok plain => match json_unmarshal plain with
                                   | None => Err (ErrNew "decoding destination secrets")
                                   | Some m => Ok m
                                   end
                     end) ;;
   Ok (mkBackupDestination (dest_ID r) (dest_Name r) (dest_Provider r) (dest_BasePath r) (dest_Options r)
         (dom (filter (fun kv => snd kv <> "") secrets)) (dest_KeepLocal r) (dest_RetentionCount r)
         (dest_CreatedAt r) (dest_UpdatedAt r), secrets))%res.

(** [get]; the row is locked inside a transaction. *)
Definition get_destination (id : uuid) : M (BackupDestination * gmap string string) :=
  map_err (fun e => if error_Is e ErrNoRows then ErrDestinationNotFound else e)
    (let* r := query (fun d => get_key (backup_destinations d) id) in of_res (scan r)).

Fixpoint scan_all (l : list DestinationRow) : res error (list BackupDestination) :=
  match l with
  | [] => Ok []
  | r :: l' => (d <-? scan r ;; ds <-? scan_all l' ;; Ok (fst d :: ds))%res
  end.

Definition ListDestinations : M (list BackupDestination) :=
  let* l := wrap "querying backup destinations"
              (query (fun d => Ok (order_by by_name (rows (backup_destinations d) (fun _ => true))))) in
  of_res (scan_all l).

Definition ListSummaries : M (list BackupDestinationSummary) :=
  let* l := wrap "querying backup destinations"
              (query (fun d => Ok (order_by by_name (rows (backup_destinations d) (fun _ => true))))) in
  ret (map (fun r => mkSummary (dest_ID r) (dest_Name r) (dest_Provider r) (dest_KeepLocal r)) l).

Definition GetDestination (id : uuid) : M BackupDestination :=
  let* (d, _) := get_destination id in ret d.

Definition DestinationExists (id : uuid) : M bool :=
  query (fun d => Ok (bool_decide (is_Some (backup_destinations d !! id)))).

Definition encryptSecrets (sec : gmap string string) : M string :=
  if bool_decide (sec = ∅) then ret ""
  else match json_marshal sec with
       | None => fail (ErrNew "json")
       | Some raw => Encrypt encKey raw
       end.

(** INSERT and UPDATE with the unique name. *)
Definition name_taken (id : uuid) (name : string) (d : DB) : bool :=
  exists_row (backup_destinations d) (fun r => String.eqb (dest_Name r) name && negb (dest_ID r =? id)%N).

Definition insert_destination (r : DestinationRow) (createdBy : option uuid) (d : DB) : res error (DestinationRow * DB) :=
  if name_taken (dest_ID r) (dest_Name r) d then Err (ErrConstraint "backup_destinations_name_key")
  else if match createdBy with Some u => bool_decide (users d !! u = None) | None => false end
  then Err (ErrConstraint "backup_destinations_created_by_fkey")
  else match insert_row (dest_ID r) r (backup_destinations d) with
       | Err e => Err e
       | Ok t => Ok (r, with_backup_destinations t d)
       end.

Definition update_destination (id : uuid) (f : DestinationRow -> DestinationRow) (d : DB)
  : res error (DestinationRow * DB) :=
  match backup_destinations d !! id with
  | None => Err ErrNoRows
  | Some r => if name_taken id (dest_Name (f r)) d then Err (ErrConstraint "backup_destinations_name_key")
              else Ok (f r, with_backup_destinations (<[id := f r]> (backup_destinations d)) d)
  end.

Definition CreateDestination (req0 : SaveDestinationRequest) (createdBy : option uuid) : M BackupDestination :=
  let* (p, req) := of_res (validateDestinationMeta req0) in
  let* (plain, sec) := of_res (splitDestinationOptions p (sdr_Options req) (sdr_Secrets req) ∅) in
  let* encSec := wrap "encrypting destination secrets" (encryptSecrets sec) in
  let* id := new_uuid in
  let* t := now in
  let r := mkDestinationRow id (sdr_Name req) (prov_ID p) (sdr_BasePath req) plain encSec
             (default true (sdr_KeepLocal req)) (sdr_RetentionCount req) t t in
  let* d := map_err mapUniqueViolation
              (let* r' := exec (insert_destination r createdBy) in of_res (scan r')) in
  ret (fst d).

(** The UPDATE of [Update]. *)
Definition save_row (req : SaveDestinationRequest) (p : DestinationProvider) (plain : gmap string string)
    (encSec : string) (keepLocal : bool) (t : Z) (r : DestinationRow) : DestinationRow :=
  mkDestinationRow (dest_ID r) (sdr_Name req) (prov_ID p) (sdr_BasePath req) plain encSec keepLocal
    (sdr_RetentionCount req) (dest_CreatedAt r) t.

Definition UpdateDestination (id : uuid) (req0 : SaveDestinationRequest) : M BackupDestination :=
  let* (p, req) := of_res (validateDestinationMeta req0) in
  bare_tx
    (let* (cur, secrets) := get_destination id in
     let existing := if String.eqb (bd_Provider cur) (prov_ID p) then secrets else ∅ in
     let* (plain, sec) := of_res (splitDestinationOptions p (sdr_Options req) (sdr_Secrets req) existing) in
     let* encSec := wrap "encrypting destination secrets" (encryptSecrets sec) in
     let* t := now in
     let* d := map_err mapUniqueViolation
                 (let* r' := exec (update_destination id
                                     (save_row req p plain encSec (default (bd_KeepLocal cur) (sdr_KeepLocal req)) t)) in
                  of_res (scan r')) in
     ret (fst d)).

(** Backups that exist only at the destination. *)
Definition remote_only (id : uuid) (b : Backup) : bool :=
  bool_decide (backup_DestinationID b = Some id) && negb (backup_LocalPresent b)
  && bool_decide (backup_UploadStatus b = Some "done").

(** [ON DELETE SET NULL] on backups and schedules. *)
Definition drop_destination (id : uuid) (d : DB) : DB :=
  with_backup_schedules
    (update_where (schedule_with_DestinationID None)
       (fun s => bool_decide (schedule_DestinationID s = Some id)) (backup_schedules d))
  (with_backups
    (update_where (backup_with_DestinationID None)
       (fun b => bool_decide (backup_DestinationID b = Some id)) (backups d))
  (with_backup_destinations (delete id (backup_destinations d)) d)).

Definition DeleteDestination (id : uuid) : M unit :=
  let* n := wrap "checking destination usage" (query (fun d => Ok (count_rows (backups d) (remote_only id)))) in
  if (0 <? n)%nat then fail ErrDestinationInUse
  else
    let* n := wrap "deleting destination" (exec (fun d =>
                match backup_destinations d !! id with
                | None => Ok (0%nat, d)
                | Some _ => Ok (1%nat, drop_destination id d)
                end)) in
    if (n =? 0)%nat then fail ErrDestinationNotFound else ret tt.

Definition remoteSpec (id : uuid) : M (RemoteSpec * BackupDestination) :=
  let* (d, secrets) := get_destination id in
  match findProvider (bd_Provider d) with
  | None => of_res (invalidf "unknown provider")
  | Some p =>
    let '(opts, obscure) := rcloneOptions p (bd_Options d) secrets in
    ret (mkRemoteSpec (prov_Backend p) opts obscure (bd_BasePath d), d)
  end.

(** The loop of [applyConfigUpdates]: options, secrets, and whether one
    changed. *)
Definition apply_update (p : DestinationProvider) (k v0 : string)
    (st : gmap string string * gmap string string * bool) : gmap string string * gmap string string * bool :=
  match prov_field p k with
  | None => st
  | Some f =>
    if negb (contains writableConfigKeys k) || String.eqb v0 "" || (maxOptionValueLen <? len v0)
       || negb (one_line v0)
    then st
    else
      match (if fld_token f then normalizeOAuthToken v0 else Ok v0) with
      | Err _ => st
      | Ok v =>
        let '(options, secrets, changed) := st in
        if fld_Secret f then
          if String.eqb (at_key secrets k) v then st else (options, <[k := v]> secrets, true)
        else if String.eqb (at_key options k) v then st else (<[k := v]> options, secrets, true)
      end
  end.

Definition applyConfigUpdates (id : uuid) (updates : gmap string string) : M unit :=
  run* bare_tx_if (fun changed => changed)
    (let* (d, secrets) := get_destination id in
     match findProvider (bd_Provider d) with
     | None => ret false
     | Some p =>
       let '(options, secrets', changed) :=
         fold_left (fun st kv => apply_update p (fst kv) (snd kv) st) (map_to_list updates)
           (bd_Options d, secrets, false) in
       if negb changed then ret false
       else
         let* encSec := encryptSecrets secrets' in
         let* t := now in
         run* exec (fun d => Ok (tt, with_backup_destinations
                (alter (fun r => dest_with_UpdatedAt t (dest_with_Secrets encSec (dest_with_Options options r)))
                   id (backup_destinations d)) d)) in
         ret true
     end) in
  ret tt.

(** A failure is only logged. *)
Definition ApplyConfigUpdates (id : uuid) (updates : gmap string string) : M unit :=
  if bool_decide (updates = ∅) then ret tt else ignore (applyConfigUpdates id updates).

Definition saveUpdatesFromErr (id : uuid) (e : DaemonError) : M unit :=
  match derr_ConfigUpdates e with
  | Some updates => ApplyConfigUpdates id updates
  | None => ret tt
  end.

(** The first connected node of a list. *)
Fixpoint first_client (ids : list uuid) : M (option Client) :=
  match ids with
  | [] => ret None
  | id :: ids' =>
    let* r := pool_Get id in
    match r with Ok c => ret (Some c) | Err _ => first_client ids' end
  end.

(** [ORDER BY last_heartbeat DESC NULLS LAST]. *)
Definition fresher (a b : Node) : bool :=
  match node_LastHeartbeat a, node_LastHeartbeat b with
  | Some x, Some y => y <=? x
  | Some _, None => true
  | None, Some _ => false
  | None, None => true
  end.

Definition pickTestClient (nodeID : option uuid) : M Client :=
  match nodeID with
  | Some id =>
    let* r := pool_Get id in
    match r with Ok c => ret c | Err _ => fail ErrNoNodeForTest end
  | None =>
    let* l := wrap "listing nodes" (query (fun d =>
                Ok (map node_ID (order_by fresher (rows (nodes d) (fun n => String.eqb (node_Status n) "online")))))) in
    let* c := first_client l in
    match c with Some c => ret c | None => fail ErrNoNodeForTest end
  end.

Context `{J : DaemonJson}.

Definition TestDestination (id : uuid) (nodeID : option uuid) : M unit :=
  let* (spec, _) := remoteSpec id in
  let* client := pickTestClient nodeID in
  let* res := client_TestRemote client spec in
  match res with
  | Err e => run* saveUpdatesFromErr id e in fail (ErrNew (derr_Error e))
  | Ok r => ApplyConfigUpdates id (rr_ConfigUpdates r)
  end.
End service.

(** ** Lemmas: lines *)

(** What JSON makes of a text: bytes that are not UTF-8 become U+FFFD. *)
Definition to_valid (s : string) : string := Map (fun r => Some r) s.

Ltac split_test H := match type of H with context [if ?b then _ else _] => destruct b end.

Lemma runes_forallb (f : ascii -> bool) (s : string) :
  str_forallb f s = true -> forall r, r ∈ runes s -> rune_val r < 128 -> f (ascii_of (rune_val r)) = true.
Proof.
  remember (String.length s) as n eqn:Hn. assert (Hle : (String.length s <= n)%nat) by lia. clear Hn.
  revert s Hle. induction n as [|n IH]; intros s Hle Hs r Hr Hlt.
  { destruct s; simpl in *; [by apply not_elem_of_nil in Hr | lia]. }
  destruct s as [|a s1]; [by apply not_elem_of_nil in Hr|]. simpl in Hle. apply andb_true_iff in Hs as [Ha Hs].
  destruct (Z.lt_ge_cases (byte_of a) 128) as [Hlt'|Hge].
  - rewrite runes_cons_ascii in Hr by done. apply elem_of_cons in Hr as [-> | Hr]; [|apply (IH s1); [lia | done..]].
    cbn. by rewrite ascii_of_byte_of.
  - destruct (runes_cons_other a s1 Hge) as (h & l & El & Hh). rewrite El in Hr.
    apply elem_of_cons in Hr as [-> | Hr]; [lia|].
    assert (Hl : exists t, l = runes t /\ (String.length t <= n)%nat /\ str_forallb f t = true).
    { cbn [runes] in El. apply Z.ltb_ge in Hge. rewrite Hge in El.
      destruct s1 as [|b s2]; [injection El as <- <-; exists ""; split_and!; [done | simpl; lia | done]|]. simpl in Hle.
      pose proof Hs as [Hb Hs2]%andb_true_iff.
      split_test El; [injection El as <- <-; exists s2; split_and!; [done | lia | done]|].
      destruct s2 as [|c s3]; [injection El as <- <-; exists (String b ""); split_and!; [reflexivity | simpl; lia | done]|].
      simpl in Hle. pose proof Hs2 as [Hc Hs3]%andb_true_iff.
      split_test El; [injection El as <- <-; exists s3; split_and!; [done | lia | done]|].
      destruct s3 as [|d s4];
        [injection El as <- <-; exists (String b (String c "")); split_and!; [reflexivity | simpl; lia | done]|].
      simpl in Hle. pose proof Hs3 as [Hd Hs4]%andb_true_iff.
      split_test El; [injection El as <- <-; exists s4; split_and!; [done | lia | done]|].
      injection El as <- <-. exists (String b (String c (String d s4))). split_and!; [reflexivity | simpl; lia | done]. }
    destruct Hl as (t & -> & Hlt' & Ht). by apply (IH t).
Qed.

(** [encode_rune] writes an ASCII byte only for an ASCII rune. *)
Lemma dest_high_byte (c y : Z) : c ∈ [128; 192; 224; 240] -> 0 <= y < 64 -> 128 <= byte_of (ascii_of (Z.lor c y)).
Proof.
  intros Hc Hy.
  assert (H : forallb (fun c => forallb (fun n => 128 <=? byte_of (ascii_of (Z.lor c (Z.of_nat n)))) (seq 0 64))
                [128; 192; 224; 240] = true) by (vm_compute; reflexivity).
  rewrite forallb_elem in H. apply H in Hc. cbv beta in Hc. rewrite forallb_elem in Hc.
  specialize (Hc (Z.to_nat y)). rewrite elem_of_seq, Z2Nat.id in Hc by lia. apply Z.leb_le, Hc. lia.
Qed.

Lemma land63 z : 0 <= Z.land z 63 < 64.
Proof. change 63 with (Z.ones 6). rewrite Z.land_ones by lia. apply Z.mod_pos_bound. lia. Qed.

Lemma shiftr_small z k : 0 <= z < 64 * 2 ^ k -> 0 <= k -> 0 <= Z.shiftr z k < 64.
Proof.
  intros Hz Hk. rewrite Z.shiftr_div_pow2 by done. split; [apply Z.div_pos; lia|].
  apply Z.div_lt_upper_bound; lia.
Qed.

Lemma encode_rune_forallb (f : ascii -> bool) (r : Z) :
  (forall a, 128 <= byte_of a -> f a = true) ->
  (r < 128 -> f (ascii_of r) = true) -> str_forallb f (encode_rune r) = true.
Proof.
  intros Hf Hr. unfold encode_rune, in_range.
  destruct ((0 <=? r) && (r <=? 127)) eqn:E1; [breflect; cbn [str_forallb]; rewrite Hr by lia; done|].
  destruct ((128 <=? r) && _) eqn:E2.
  { breflect. cbn [str_forallb]. rewrite !Hf; [done | apply dest_high_byte; [set_solver | apply land63]
      | apply dest_high_byte; [set_solver | apply shiftr_small; lia]]. }
  destruct ((2048 <=? r) && _ && _) eqn:E3.
  { breflect. cbn [str_forallb]. rewrite !Hf; [done | apply dest_high_byte; [set_solver | apply land63]..
      | apply dest_high_byte; [set_solver | apply shiftr_small; lia]]. }
  destruct ((65536 <=? r) && _) eqn:E4.
  { breflect. cbn [str_forallb]. rewrite !Hf; [done | apply dest_high_byte; [set_solver | apply land63]..
      | apply dest_high_byte; [set_solver | apply shiftr_small; lia]]. }
  cbn [str_forallb]. rewrite !Hf; [done | by vm_compute..].
Qed.

Lemma to_valid_forallb (f : ascii -> bool) (s : string) :
  (forall a, 128 <= byte_of a -> f a = true) -> str_forallb f s = true -> str_forallb f (to_valid s) = true.
Proof.
  intros Hf Hs. unfold to_valid, Map. pose proof (runes_forallb f s Hs) as Hr.
  induction (runes s) as [|r l IH]; [done|]. cbn [fold_right]. rewrite str_forallb_app.
  apply andb_true_iff. split; [apply encode_rune_forallb; [done | apply Hr; left]|].
  apply IH. intros r' H'. apply Hr. by right.
Qed.

Lemma to_valid_one_line s : one_line s = true -> one_line (to_valid s) = true.
Proof.
  apply to_valid_forallb. intros a Ha. unfold break_byte.
  destruct (Z.eqb_spec (byte_of a) 13), (Z.eqb_spec (byte_of a) 10), (Z.eqb_spec (byte_of a) 0); done || lia.
Qed.

Class DestinationJson `{T : Json json} `{S : Json (gmap string string)} := {
  (* json.Marshal writes one line, with control characters escaped *)
  marshal_one_line (j : json) s : json_marshal j = Some s -> one_line s = true;
  (* a map with ASCII keys comes back with its texts made valid *)
  strings_roundtrip (m : gmap string string) s :
    (forall k v, m !! k = Some v -> is_ascii k = true) ->
    json_marshal m = Some s -> json_unmarshal s = Some (to_valid <$> m)
}.

(** ** The provider table *)

(** The options that make rclone run a command or read a file of the node. *)
Definition runs_or_reads (k : string) : bool :=
  String.eqb k "ssh" || HasSuffix k "_command" || HasSuffix k "_file" || HasSuffix k "_path".

(** Every key of a provider is ASCII and harmless, and defaults and fixed
    values are single lines. *)
Definition provider_ok (p : DestinationProvider) : bool :=
  forallb (fun f => is_ascii (fld_Key f) && negb (runs_or_reads (fld_Key f)) && one_line (fld_Default f)) (prov_Fields p)
  && forallb (fun kv => negb (runs_or_reads (fst kv)) && one_line (snd kv)) (map_to_list (prov_fixed p)).

Lemma providers_ok p : p ∈ destinationProviders -> provider_ok p = true.
Proof.
  assert (H : forallb provider_ok destinationProviders = true) by (vm_compute; reflexivity).
  rewrite forallb_elem in H. apply H.
Qed.

Lemma findProvider_some id p : findProvider id = Some p -> p ∈ destinationProviders /\ prov_ID p = id.
Proof. intros [H Hid%String.eqb_eq]%find_some. split; [by apply list_elem_of_In | done]. Qed.

Lemma prov_field_some p k f : prov_field p k = Some f -> f ∈ prov_Fields p /\ fld_Key f = k.
Proof. intros [H Hid%String.eqb_eq]%find_some. split; [by apply list_elem_of_In | done]. Qed.

Lemma prov_field_ok p k f :
  p ∈ destinationProviders -> prov_field p k = Some f -> is_ascii k = true /\ runs_or_reads k = false.
Proof.
  intros [H _]%providers_ok%andb_true_iff [Hf <-]%prov_field_some. rewrite forallb_elem in H.
  apply H in Hf. breflect. done.
Qed.

(** ** What is stored *)

(** [v] is a stored value of the field [k], secret or not. *)
Definition entry_ok (p : DestinationProvider) (sec : bool) (m : gmap string string) : Prop :=
  forall k v, m !! k = Some v -> (exists f, prov_field p k = Some f /\ fld_Secret f = sec) /\ one_line v = true.

Section stored.
Context `{P : Platform} `{L : !PlatformLaws P} `{T : Json json} `{S : Json (gmap string string)}
  `{DJ : !DestinationJson} (encKey : string).

Definition row_ok (r : DestinationRow) : Prop :=
  exists p, findProvider (dest_Provider r) = Some p
    /\ ValidateRemoteBasePath (dest_BasePath r) = Ok tt
    /\ entry_ok p false (dest_Options r)
    /\ forall v sec, scan encKey r = Ok (v, sec) -> entry_ok p true sec.

Definition destinations_ok (d : DB) : Prop :=
  forall id r, backup_destinations d !! id = Some r -> row_ok r.

Lemma entry_ok_insert p s m k v f :
  entry_ok p s m -> prov_field p k = Some f -> fld_Secret f = s -> one_line v = true -> entry_ok p s (<[k := v]> m).
Proof.
  intros Hm Hf Hs Hv k' v' [[<- <-]|[_ H]]%lookup_insert_Some; [split; [by eauto | done] | by apply Hm].
Qed.

Lemma normalizeOAuthToken_line v nv : normalizeOAuthToken v = Ok nv -> one_line nv = true.
Proof.
  unfold normalizeOAuthToken. intros H. case_ifs; try discriminate H. injection H as <-. by eapply marshal_one_line.
Qed.

Lemma normalizeOption_line f v nv : normalizeOption f v = Ok nv -> one_line nv = true.
Proof.
  unfold normalizeOption. destruct (fld_token f); [apply normalizeOAuthToken_line|]. cbv zeta.
  set (value := if fld_pem f then _ else _). destruct (_ <? len value); [done|].
  destruct (one_line value) eqn:E; [|done]. cbn [negb]. intros H.
  repeat (match type of H with (if ?b then _ else _) = _ => destruct b; [discriminate H|] end).
  by injection H as <-.
Qed.

Lemma split_plain_ok p l plain plain' :
  split_plain p l plain = Ok plain' -> entry_ok p false plain -> entry_ok p false plain'.
Proof.
  revert plain. induction l as [|[k v] l IH]; simpl; intros plain H Hp; [by injection H as <-|].
  destruct (prov_field p k) as [f|] eqn:Ef; [|done]. destruct (fld_Secret f) eqn:Es; [done|].
  destruct (normalizeOption f v) as [nv|e] eqn:En; [|done]. apply IH in H; [done|].
  destruct (String.eqb nv ""); [done|]. by eapply entry_ok_insert, normalizeOption_line.
Qed.

Lemma split_secret_ok p l sec sec' :
  split_secret p l sec = Ok sec' -> entry_ok p true sec -> entry_ok p true sec'.
Proof.
  revert sec. induction l as [|[k v] l IH]; simpl; intros sec H Hp; [by injection H as <-|].
  destruct (prov_field p k) as [f|] eqn:Ef; [|done]. destruct (fld_Secret f) eqn:Es; [|done]. cbn [negb] in H.
  destruct (String.eqb (TrimSpace v) ""); [by eapply IH|].
  destruct (normalizeOption f v) as [nv|e] eqn:En; [|done]. apply IH in H; [done|].
  by eapply entry_ok_insert, normalizeOption_line.
Qed.

Lemma kept_secrets_ok p existing :
  (forall k v, existing !! k = Some v -> one_line v = true) -> entry_ok p true (kept_secrets p existing).
Proof.
  intros H k v [Hk Hs]%map_lookup_filter_Some. unfold secret_key in Hs. cbn in Hs.
  destruct (prov_field p k) as [f|]; [|done]. split; [eauto | by eapply H].
Qed.

Lemma splitDestinationOptions_ok p options secrets existing plain sec :
  (forall k v, existing !! k = Some v -> one_line v = true) ->
  splitDestinationOptions p options secrets existing = Ok (plain, sec) ->
  entry_ok p false plain /\ entry_ok p true sec.
Proof.
  intros Hex. unfold splitDestinationOptions.
  intros (pl & H1 & (se & H2 & (u & _ & H)%res_bind_ok)%res_bind_ok)%res_bind_ok. cbv zeta in H.
  repeat (match type of H with (if ?b then _ else _) = _ => destruct b; [discriminate H|] end).
  injection H as <- <-. split.
  - by eapply split_plain_ok.
  - eapply split_secret_ok; [done|]. by apply kept_secrets_ok.
Qed.

Lemma validateDestinationMeta_ok req p req' :
  validateDestinationMeta req = Ok (p, req') ->
  findProvider (prov_ID p) = Some p /\ p ∈ destinationProviders /\ ValidateRemoteBasePath (sdr_BasePath req') = Ok tt.
Proof.
  unfold validateDestinationMeta. intros H. cbv zeta in H. destruct (_ || _); [done|]. destruct (negb _); [done|].
  destruct (findProvider (sdr_Provider req)) as [q|] eqn:Ef; [|done].
  destruct (ValidateRemoteBasePath _) as [[]|e] eqn:Ev; [|done].
  destruct (match (match sdr_RetentionCount req with Some n => _ | None => _ end) with Some n => _ | None => _ end); [done|].
  injection H as <- <-. pose proof (findProvider_some _ _ Ef) as [Hin Hid]. split_and!; [|done | done].
  by rewrite Hid.
Qed.

(** Encrypted secrets come back as good as they were. *)
Lemma encryptSecrets_ok p sec w enc w' r v sec' :
  p ∈ destinationProviders -> entry_ok p true sec -> encryptSecrets encKey sec w = (Ok enc, w') ->
  dest_Secrets r = enc -> scan encKey r = Ok (v, sec') -> entry_ok p true sec'.
Proof.
  intros Hp Hsec He Hr Hs. apply res_bind_ok in Hs as (m & Hm & Hs). injection Hs as _ <-.
  unfold encryptSecrets in He. rewrite Hr in Hm. destruct (String.eqb_spec enc "") as [-> | Hne].
  { injection Hm as <-. by intros k x Hk. }
  case_bool_decide; [by apply ret_inv in He as [[= ->] _]|].
  destruct (json_marshal sec) as [raw|] eqn:Ej; [|by apply fail_inv in He as [? _]].
  apply Encrypt_ok in He as (_ & Hd & _). rewrite Hd in Hm.
  rewrite (strings_roundtrip sec raw) in Hm; [|intros k x [[f [Hf _]] _]%Hsec; by eapply prov_field_ok | done].
  injection Hm as <-. intros k x Hk. rewrite lookup_fmap in Hk. destruct (sec !! k) as [y|] eqn:Ey; [|done].
  injection Hk as <-. apply Hsec in Ey as [Hf Hy]. split; [done|]. by apply to_valid_one_line.
Qed.

Lemma of_res_ok {A} (r : res error A) w a w' : of_res r w = (Ok a, w') -> r = Ok a /\ w' = w.
Proof. destruct r; [intros [[= ->] ->]%ret_inv | intros [? _]%fail_inv]; done. Qed.

Lemma of_res_preserves {A} (r : res error A) I : preserves I (of_res r).
Proof. unfold of_res. solve_preserves. Qed.

Lemma map_err_preserves {A} f (m : M A) I : preserves I m -> preserves I (map_err f m).
Proof. intros H. unfold map_err. solve_preserves. done. Qed.

Lemma map_err_ok {A} f (m : M A) w a w' : map_err f m w = (Ok a, w') -> m w = (Ok a, w').
Proof.
  intros (r & w1 & H1 & H2)%bind_ok. apply attempt_inv in H1 as (r' & [= <-] & H1).
  destruct r as [x|e]; [apply ret_inv in H2 as [[= ->] ->] | apply fail_inv in H2 as [? _]]; done.
Qed.

Lemma encryptSecrets_preserves sec I : preserves I (encryptSecrets encKey sec).
Proof. unfold encryptSecrets. solve_preserves. apply Encrypt_preserves. Qed.

Lemma get_destination_preserves id I : preserves I (get_destination encKey id).
Proof. apply map_err_preserves. solve_preserves. apply of_res_preserves. Qed.

Lemma get_destination_ok id w d sec w' :
  get_destination encKey id w = (Ok (d, sec), w') ->
  exists r, backup_destinations (w_db w) !! id = Some r /\ scan encKey r = Ok (d, sec) /\ w_db w' = w_db w.
Proof.
  intros (r & w1 & [Hq Hd]%query_ok & [Hs ->]%of_res_ok)%map_err_ok%bind_ok. unfold get_key in Hq.
  destruct (backup_destinations (w_db w) !! id) as [r'|]; [|done]. injection Hq as ->. eauto.
Qed.

Lemma scan_view r d sec :
  scan encKey r = Ok (d, sec) ->
  bd_Provider d = dest_Provider r /\ bd_Options d = dest_Options r /\ bd_BasePath d = dest_BasePath r
  /\ bd_KeepLocal d = dest_KeepLocal r /\ bd_ID d = dest_ID r.
Proof. intros (m & _ & H)%res_bind_ok. by injection H as <- <-. Qed.

Lemma insert_destination_ok r by_ d r' d' :
  row_ok r -> destinations_ok d -> insert_destination r by_ d = Ok (r', d') -> destinations_ok d'.
Proof.
  intros Hr Hd. unfold insert_destination. destruct (name_taken _ _ _); [done|]. case_match; [done|].
  destruct (insert_row _ _ _) as [t|e] eqn:Ei; [|done]. intros [= _ <-]. apply insert_row_ok in Ei as [_ ->].
  unfold destinations_ok. cbn [backup_destinations with_backup_destinations].
  intros id x [[_ <-]|[_ Hx]]%lookup_insert_Some; [done | by eapply Hd].
Qed.

Lemma update_destination_ok id f d r' d' :
  (forall r, backup_destinations d !! id = Some r -> row_ok (f r)) -> destinations_ok d ->
  update_destination id f d = Ok (r', d') -> destinations_ok d'.
Proof.
  intros Hf Hd. unfold update_destination. destruct (backup_destinations d !! id) as [r|]; [|done].
  destruct (name_taken _ _ _); [done|]. intros [= _ <-]. unfold destinations_ok.
  cbn [backup_destinations with_backup_destinations].
  intros k x [[_ <-]|[_ Hx]]%lookup_insert_Some; [by apply Hf | by eapply Hd].
Qed.

Lemma saved_row_ok p req sec plain encSec w w' id keep ret_ t0 t :
  findProvider (prov_ID p) = Some p -> p ∈ destinationProviders ->
  ValidateRemoteBasePath (sdr_BasePath req) = Ok tt -> entry_ok p false plain -> entry_ok p true sec ->
  encryptSecrets encKey sec w = (Ok encSec, w') ->
  row_ok (mkDestinationRow id (sdr_Name req) (prov_ID p) (sdr_BasePath req) plain encSec keep ret_ t0 t).
Proof.
  intros Hf Hin Hb Hpl Hsec He. exists p. split_and!; [done..|]. intros v sec' Hs.
  eapply (encryptSecrets_ok p sec w encSec w' _ v sec' Hin Hsec He); [|exact Hs]. done.
Qed.

Lemma CreateDestination_ok req by_ : preserves destinations_ok (CreateDestination encKey req by_).
Proof.
  unfold CreateDestination. eapply preserves_bind_post; [intros w a w' H; exact (proj1 (of_res_ok _ _ _ _ H))|
    apply of_res_preserves|]. intros [p req'] (Hf & Hin & Hb)%validateDestinationMeta_ok.
  eapply preserves_bind_post; [intros w a w' H; exact (proj1 (of_res_ok _ _ _ _ H))| apply of_res_preserves|].
  intros [plain sec] [Hpl Hsec]%splitDestinationOptions_ok; [|by intros k v Hk].
  eapply (preserves_bind_post _ (fun enc => exists w w', encryptSecrets encKey sec w = (Ok enc, w'))).
  { intros w a w' H%wrap_ok. eauto. }
  { apply preserves_wrap, encryptSecrets_preserves. }
  intros enc (w & w' & He). apply preserves_bind; [apply preserves_rand|]. intros id.
  apply preserves_bind; [apply preserves_now|]. intros t. cbv zeta.
  apply preserves_bind; [|intros; apply preserves_ret]. apply map_err_preserves.
  apply preserves_bind; [|intros; apply of_res_preserves]. apply preserves_exec. intros d1 a1 d2 Hd.
  apply insert_destination_ok; [|done]. by eapply saved_row_ok.
Qed.

Lemma UpdateDestination_ok id req : preserves destinations_ok (UpdateDestination encKey id req).
Proof.
  unfold UpdateDestination. eapply preserves_bind_post; [intros w a w' H; exact (proj1 (of_res_ok _ _ _ _ H))|
    apply of_res_preserves|]. intros [p req'] (Hf & Hin & Hb)%validateDestinationMeta_ok.
  apply preserves_bare_tx_if.
  eapply (preserves_bind_inv _ (fun '(cur, secrets) => forall k v, secrets !! k = Some v -> one_line v = true)).
  { intros w [cur sec] w' Hok (r & Hr & Hs & _)%get_destination_ok k v Hk.
    destruct (Hok _ _ Hr) as (q & _ & _ & _ & Hsec). by eapply (Hsec _ _ Hs). }
  { apply get_destination_preserves. }
  intros [cur secrets] Hline. cbv zeta.
  eapply preserves_bind_post; [intros w a w' H; exact (proj1 (of_res_ok _ _ _ _ H))| apply of_res_preserves|].
  intros [plain sec] [Hpl Hsec]%splitDestinationOptions_ok; [|by destruct (String.eqb _ _)].
  eapply (preserves_bind_post _ (fun enc => exists w w', encryptSecrets encKey sec w = (Ok enc, w'))).
  { intros w a w' H%wrap_ok. eauto. }
  { apply preserves_wrap, encryptSecrets_preserves. }
  intros enc (w & w' & He). apply preserves_bind; [apply preserves_now|]. intros t.
  apply preserves_bind; [|intros; apply preserves_ret]. apply map_err_preserves.
  apply preserves_bind; [|intros; apply of_res_preserves]. apply preserves_exec. intros d1 a1 d2 Hd.
  apply update_destination_ok; [|done]. intros r _. by eapply saved_row_ok.
Qed.

Lemma DeleteDestination_ok id : preserves destinations_ok (DeleteDestination id).
Proof.
  unfold DeleteDestination. solve_preserves. apply preserves_exec. intros d a0 d' Hd.
  destruct (backup_destinations d !! id); intros [= _ <-]; [|done].
  intros k r Hk. cbn in Hk. apply lookup_delete_Some in Hk as [_ Hk]. by eapply Hd.
Qed.

Lemma apply_update_ok p k v st :
  entry_ok p false st.1.1 -> entry_ok p true st.1.2 ->
  entry_ok p false (apply_update p k v st).1.1 /\ entry_ok p true (apply_update p k v st).1.2.
Proof.
  intros Ho Hs. unfold apply_update. destruct (prov_field p k) as [f|] eqn:Ef; [|done].
  destruct (_ || _ || _ || _) eqn:Ec; [done|]. breflect.
  destruct (if fld_token f then _ else _) as [nv|e] eqn:En; [|done].
  assert (Hline : one_line nv = true).
  { destruct (fld_token f); [by apply normalizeOAuthToken_line in En | by injection En as <-]. }
  destruct st as [[o se] ch]. cbn [fst snd] in *.
  destruct (fld_Secret f) eqn:Es; destruct (String.eqb _ _); cbn [fst snd]; (split; [|]); try done;
    by eapply entry_ok_insert.
Qed.

Lemma apply_updates_ok p l st :
  entry_ok p false st.1.1 -> entry_ok p true st.1.2 ->
  let st' := fold_left (fun st kv => apply_update p (fst kv) (snd kv) st) l st in
  entry_ok p false st'.1.1 /\ entry_ok p true st'.1.2.
Proof.
  cbv zeta. revert st. induction l as [|[k v] l IH]; intros st Ho Hs; [done|]. cbn [fold_left fst snd].
  destruct (apply_update_ok p k v st Ho Hs). by apply IH.
Qed.

Lemma applyConfigUpdates_ok id updates : preserves destinations_ok (applyConfigUpdates encKey id updates).
Proof.
  unfold applyConfigUpdates. apply preserves_bind; [|intros; apply preserves_ret]. apply preserves_bare_tx_if.
  intros w Hw. unfold bind at 1. destruct (get_destination encKey id w) as [[[d sec]|e] w1] eqn:Eg; cbn [snd];
    [|pose proof (get_destination_preserves id destinations_ok w Hw) as Hp; by rewrite Eg in Hp].
  apply get_destination_ok in Eg as (r & Hr & Hs & Hd1). rewrite <- Hd1 in Hw, Hr. clear Hd1 w. revert w1 Hw Hr.
  assert (G : row_ok r -> leads (fun d => destinations_ok d /\ backup_destinations d !! id = Some r) destinations_ok
    (match findProvider (bd_Provider d) with
     | None => ret false
     | Some p =>
       let '(options, secrets', changed) :=
         fold_left (fun st kv => apply_update p (fst kv) (snd kv) st) (map_to_list updates) (bd_Options d, sec, false) in
       if negb changed then ret false
       else
         let* encSec := encryptSecrets encKey secrets' in
         let* t := now in
         run* exec (fun d => Ok (tt, with_backup_destinations
                (alter (fun r => dest_with_UpdatedAt t (dest_with_Secrets encSec (dest_with_Options options r)))
                   id (backup_destinations d)) d)) in
         ret true
     end)); [|intros w1 Hw Hr; apply G; [by eapply Hw | done]].
  intros (p & Hp & Hb & Hopt & Hsec). pose proof (scan_view _ _ _ Hs) as (Hpr & Ho & _). apply Hsec in Hs.
  rewrite Hpr, Hp, Ho. pose proof (findProvider_some _ _ Hp) as [Hin _].
  pose proof (apply_updates_ok p (map_to_list updates) (dest_Options r, sec, false) Hopt Hs) as Hu. cbv zeta in Hu.
  destruct (fold_left _ _ _) as [[options secrets'] changed]. cbn [fst snd] in Hu. destruct Hu as [Hu1 Hu2].
  destruct (negb changed); [by intros w [? _]|].
  eapply (leads_bind _ _ (fun enc => exists w w', encryptSecrets encKey secrets' w = (Ok enc, w')));
    [by intros ? [? _] | by eauto | apply encryptSecrets_preserves|].
  intros enc (w & w' & He). eapply (leads_bind _ _ (fun _ => True)); [by intros ? [? _] | done | apply preserves_now|].
  intros t _ w2 Hw2. unfold bind. pose proof (leads_exec (fun d => destinations_ok d /\ backup_destinations d !! id = Some r)
    destinations_ok (fun d => Ok (tt, with_backup_destinations
       (alter (fun r => dest_with_UpdatedAt t (dest_with_Secrets enc (dest_with_Options options r))) id (backup_destinations d)) d))) as Hx.
  unfold leads in Hx. specialize (Hx (fun d H => proj1 H)).
  assert (Hx' : destinations_ok (w_db (snd (exec (fun d => Ok (tt, with_backup_destinations
       (alter (fun r => dest_with_UpdatedAt t (dest_with_Secrets enc (dest_with_Options options r))) id (backup_destinations d)) d)) w2)))).
  { apply Hx; [|done]. intros dd a dd' [Hdd Hrr] [= _ <-] k x Hk. cbn in Hk.
    destruct (decide (k = id)) as [->|Hne]; [|rewrite lookup_alter_ne in Hk by done; by eapply Hdd].
    rewrite lookup_alter_eq, Hrr in Hk. injection Hk as <-. exists p. split_and!; [done | done | done|].
    intros v sec' Hsc. 
    eapply (encryptSecrets_ok p secrets' w enc w' _ v sec' Hin Hu2 He); [|exact Hsc]. done. }
  destruct (exec _ w2) as [[a|e] w3]; exact Hx'.
Qed.

Lemma ApplyConfigUpdates_ok id updates : preserves destinations_ok (ApplyConfigUpdates encKey id updates).
Proof. unfold ApplyConfigUpdates. solve_preserves. apply applyConfigUpdates_ok. Qed.

Lemma pool_Get_preserves id I : preserves I (pool_Get id).
Proof. unfold pool_Get. solve_preserves. Qed.

Lemma pickTestClient_preserves nodeID I : preserves I (pickTestClient nodeID).
Proof.
  assert (H : forall l, preserves I (first_client l)).
  { induction l as [|id l IH]; cbn [first_client]; solve_preserves; [apply pool_Get_preserves | done]. }
  unfold pickTestClient. solve_preserves; [apply pool_Get_preserves | apply H].
Qed.

Lemma TestDestination_ok `{J : DaemonJson} id nodeID : preserves destinations_ok (TestDestination encKey id nodeID).
Proof.
  unfold TestDestination, remoteSpec, saveUpdatesFromErr, client_TestRemote, postRemote.
  solve_preserves; first [apply get_destination_preserves | apply of_res_preserves | apply pickTestClient_preserves
    | apply ApplyConfigUpdates_ok].
Qed.

(** ** What a daemon is told *)

Lemma rclone_fields_inv (good : string -> string -> Prop) fields plain sec out obs k v :
  (forall f, f ∈ fields -> let v0 := at_key (if fld_Secret f then sec else plain) (fld_Key f) in
     (v0 <> "" -> good (fld_Key f) v0) /\ good (fld_Key f) (fld_Default f)) ->
  (forall k v, out !! k = Some v -> good k v) ->
  fst (rclone_fields fields plain sec out obs) !! k = Some v -> good k v.
Proof.
  revert out obs. induction fields as [|f fields IH]; intros out obs Hf Hout; cbn [rclone_fields fst]; [apply Hout|].
  pose proof (Hf f ltac:(left)) as [H1 H2]. cbv zeta.
  assert (Hf' : forall f, f ∈ fields -> let v0 := at_key (if fld_Secret f then sec else plain) (fld_Key f) in
     (v0 <> "" -> good (fld_Key f) v0) /\ good (fld_Key f) (fld_Default f)) by (intros f' ?; apply Hf; by right).
  set (v0 := at_key _ _) in *.
  destruct (String.eqb (if String.eqb v0 "" then fld_Default f else v0) ""); [by apply IH|].
  apply IH; [done|]. intros k' v' [[<- <-]|[_ H]]%lookup_insert_Some; [|by apply Hout].
  destruct (String.eqb_spec v0 ""); [done | by apply H1].
Qed.

(** The remote of [p]: its backend, options it lists, none of which runs a
    command or reads a file of the node, each on one line, and a path whose
    segments are plain names. *)
Definition spec_confined (spec : RemoteSpec) : Prop :=
  exists p, p ∈ destinationProviders /\ spec_Backend spec = prov_Backend p
  /\ (forall k v, spec_Options spec !! k = Some v ->
        ((exists f, f ∈ prov_Fields p /\ fld_Key f = k) \/ is_Some (prov_fixed p !! k))
        /\ runs_or_reads k = false /\ one_line v = true)
  /\ (forall seg, seg ∈ Split "/" (TrimPrefix (spec_BasePath spec) "/") ->
        seg <> "" /\ seg <> "." /\ seg <> ".." /\ HasPrefix seg "-" = false
        /\ forall r, r ∈ runes seg -> forbidden_rune (rune_val r) = false).

Lemma check_segments_ok l seg : check_segments l = Ok tt -> seg ∈ l -> check_segment seg = Ok tt.
Proof.
  induction l as [|s l IH]; simpl; intros H Hin; [by apply not_elem_of_nil in Hin|].
  destruct (check_segment s) as [[]|e] eqn:E; [|done]. apply elem_of_cons in Hin as [-> | Hin]; auto.
Qed.

Lemma base_path_segments p seg :
  ValidateRemoteBasePath p = Ok tt -> seg ∈ Split "/" (TrimPrefix p "/") ->
  seg <> "" /\ seg <> "." /\ seg <> ".." /\ HasPrefix seg "-" = false
  /\ forall r, r ∈ runes seg -> forbidden_rune (rune_val r) = false.
Proof.
  unfold ValidateRemoteBasePath. intros H Hin. destruct (String.eqb p ""); [done|]. destruct (512 <? len p); [done|].
  cbv zeta in H. destruct (String.eqb _ ""); [done|]. pose proof (check_segments_ok _ _ H Hin) as Hs.
  unfold check_segment in Hs. destruct (String.eqb_spec seg ""); [done|].
  destruct (String.eqb_spec seg "."); [done|]. destruct (String.eqb_spec seg ".."); [done|]. cbn [orb] in Hs.
  destruct (HasPrefix seg "-"); [done|]. destruct (negb _); [done|].
  destruct (existsb _ _) eqn:E; [done|]. split_and!; try done. intros r Hr.
  destruct (forbidden_rune (rune_val r)) eqn:Ef; [|done].
  assert (existsb (fun r => forbidden_rune (rune_val r)) (runes seg) = true) by (apply existsb_elem; eauto). congruence.
Qed.

Lemma remoteSpec_confined id w spec view w' :
  destinations_ok (w_db w) -> remoteSpec encKey id w = (Ok (spec, view), w') -> spec_confined spec.
Proof.
  intros Hok ([d sec] & w1 & (r & Hr & Hs & _)%get_destination_ok & H)%bind_ok.
  destruct (Hok _ _ Hr) as (p & Hp & Hb & Hopt & Hsec). pose proof (scan_view _ _ _ Hs) as (Hpr & Ho & Hbp & _).
  apply Hsec in Hs. rewrite Hpr, Hp in H. pose proof (findProvider_some _ _ Hp) as [Hin _].
  pose proof (providers_ok _ Hin) as Hpo. unfold provider_ok in Hpo. apply andb_true_iff in Hpo as [Hf Hx].
  rewrite forallb_elem in Hf. pose proof (proj1 (forallb_elem _ _) Hx) as Hx'.
  unfold rcloneOptions in H. destruct (rclone_fields _ _ _ _ _) as [out obs] eqn:Eo.
  apply ret_inv in H as [[= -> ->] _]. exists p. cbn [spec_Backend spec_Options spec_BasePath].
  split_and!; [done | done | | rewrite Hbp; by intros seg; apply base_path_segments].
  intros k v [Hk|[_ Hk]]%lookup_union_Some_raw.
  - apply elem_of_map_to_list in Hk as Hk'. apply Hx' in Hk'. cbn in Hk'. breflect. split_and!; [by right; eexists | done | done].
  - change out with (fst (out, obs)) in Hk. rewrite <- Eo in Hk.
    apply (rclone_fields_inv (fun k v => ((exists f, f ∈ prov_Fields p /\ fld_Key f = k) \/ is_Some (prov_fixed p !! k))
        /\ runs_or_reads k = false /\ one_line v = true)) in Hk; [done | | by intros ? ? ?%lookup_empty_Some].
    intros f Hfin. cbv zeta. apply Hf in Hfin as Hff. breflect.
    split; [|split_and!; [by left; eauto | done | done]]. intros Hne. split_and!; [by left; eauto | done|].
    unfold at_key in *. destruct (_ !! fld_Key f) as [x|] eqn:Ex; [|done]. cbn.
    destruct (fld_Secret f); [by eapply Hs | rewrite Ho in Ex; by eapply Hopt].
Qed.
End stored.

(** What changes the destinations of an installation: the administrator's
    operations, the updates a daemon reports, and nothing else. *)
Inductive destination_step `{P : Platform} `{T : Json json} `{S : Json (gmap string string)} `{J : DaemonJson}
    (encKey : string) : World -> World -> Prop :=
| step_create req by_ w : destination_step encKey w (snd (CreateDestination encKey req by_ w))
| step_update id req w : destination_step encKey w (snd (UpdateDestination encKey id req w))
| step_delete id w : destination_step encKey w (snd (DeleteDestination id w))
| step_test id node w : destination_step encKey w (snd (TestDestination encKey id node w))
| step_refresh id updates w : destination_step encKey w (snd (ApplyConfigUpdates encKey id updates w))
| step_else w w' : backup_destinations (w_db w') = backup_destinations (w_db w) -> destination_step encKey w w'.

(** A destination cannot be made to run a command on a node or to read its
    files: starting from an installation without destinations, whatever
    requests are made, whatever the daemons report and whatever faults occur,
    the remote a daemon is told to use is one of the seven providers with
    options of its table only, no option that runs a command or names a file,
    every value on one line, and a path of plain segments. *)
Theorem destinations_confined `{P : Platform} `{L : !PlatformLaws P} `{T : Json json} `{S : Json (gmap string string)}
    `{DJ : !DestinationJson} `{J : DaemonJson} (encKey : string) (w0 w w' : World) (id : uuid)
    (spec : RemoteSpec) (view : BackupDestination) :
  backup_destinations (w_db w0) = ∅ -> rtc (destination_step encKey) w0 w ->
  remoteSpec encKey id w = (Ok (spec, view), w') -> spec_confined spec.
Proof.
  intros H0 Hst Hs. eapply remoteSpec_confined; [|exact Hs].
  assert (Hok : destinations_ok encKey (w_db w0)) by (intros k r Hk; by rewrite H0 in Hk). clear H0 Hs.
  induction Hst as [w0|w0 w1 w2 Hstep _ IH]; [done|]. apply IH. clear IH.
  destruct Hstep; [by apply CreateDestination_ok | by apply UpdateDestination_ok | by apply DeleteDestination_ok
    | by apply TestDestination_ok | by apply ApplyConfigUpdates_ok | ].
  unfold destinations_ok. rewrite H. exact Hok.
Qed.

(** The secrets left by a list of entries with distinct keys. *)
Lemma split_secret_spec `{T : Json json} p l sec sec' :
  NoDup (map fst l) -> split_secret p l sec = Ok sec' ->
  (forall k v, (k, v) ∈ l -> exists f, prov_field p k = Some f /\ fld_Secret f = true
     /\ (if String.eqb (TrimSpace v) "" then sec' !! k = sec !! k
         else exists nv, normalizeOption f v = Ok nv /\ sec' !! k = Some nv))
  /\ (forall k, k ∉ map fst l -> sec' !! k = sec !! k).
Proof.
  revert sec. induction l as [|[k v] l IH]; intros sec Hnd H.
  { injection H as <-. split; [by intros k v Hk%not_elem_of_nil | done]. }
  cbn [map fst] in Hnd. apply NoDup_cons in Hnd as [Hk Hnd]. cbn [split_secret] in H.
  destruct (prov_field p k) as [f|] eqn:Ef; [|done]. destruct (fld_Secret f) eqn:Es; [|done]. cbn [negb] in H.
  destruct (String.eqb (TrimSpace v) "") eqn:Et.
  - destruct (IH _ Hnd H) as [H1 H2]. split.
    + intros k' v' [[= -> ->]|Hin]%elem_of_cons; [|by apply H1]. exists f. rewrite Et. auto.
    + cbn [map fst]. intros k' [_ Hk']%not_elem_of_cons. auto.
  - destruct (normalizeOption f v) as [nv|e] eqn:En; [|done]. destruct (IH _ Hnd H) as [H1 H2]. split.
    + intros k' v' [[= -> ->]|Hin]%elem_of_cons.
      * exists f. rewrite Et. split_and!; [done | done|]. exists nv. split; [done|].
        rewrite H2 by done. apply lookup_insert_eq.
      * destruct (H1 _ _ Hin) as (f' & Hf' & Hs' & Hx). exists f'. split_and!; [done | done|].
        destruct (String.eqb (TrimSpace v') ""); [|done]. rewrite Hx. apply lookup_insert_ne. intros ->.
        apply Hk. apply list_elem_of_fmap. by exists (k', v').
    + cbn [map fst]. intros k' [Hne Hk']%not_elem_of_cons. rewrite H2 by done. by apply lookup_insert_ne.
Qed.

(** Secrets never travel back to the browser, so a form sends them empty to
    keep them: of the accepted secrets one that was sent blank or not at all
    is the stored one, if the provider still has it, and one that was sent is
    its normalized value, on one line; an option that is not of the provider,
    or a secret sent as an option, refuses the whole form. *)
Theorem secrets_kept `{T : Json json} `{S : Json (gmap string string)} `{DJ : !DestinationJson}
    (p : DestinationProvider) (options secrets existing plain sec : gmap string string) :
  splitDestinationOptions p options secrets existing = Ok (plain, sec) ->
  (forall k, match secrets !! k with
     | Some v => if String.eqb (TrimSpace v) "" then sec !! k = (if secret_key p k then existing !! k else None)
                 else exists f nv, prov_field p k = Some f /\ normalizeOption f v = Ok nv
                        /\ sec !! k = Some nv /\ one_line nv = true
     | None => sec !! k = (if secret_key p k then existing !! k else None)
     end)
  /\ (forall k v, options !! k = Some v -> exists f, prov_field p k = Some f /\ fld_Secret f = false)
  /\ dom plain ⊆ dom options.
Proof.
  unfold splitDestinationOptions.
  intros (pl & H1 & (se & H2 & (u & _ & H)%res_bind_ok)%res_bind_ok)%res_bind_ok. cbv zeta in H.
  repeat (match type of H with (if ?b then _ else _) = _ => destruct b; [discriminate H|] end).
  injection H as -> ->.
  assert (Hk : forall k, kept_secrets p existing !! k = if secret_key p k then existing !! k else None).
  { intros k. unfold kept_secrets. destruct (secret_key p k) eqn:E.
    - destruct (existing !! k) as [v|] eqn:Ev; [apply map_lookup_filter_Some; done|].
      apply map_lookup_filter_None. by left.
    - apply map_lookup_filter_None. right. intros v _. cbn. congruence. }
  apply split_secret_spec in H2 as [Hin Hout]; [|apply NoDup_fst_map_to_list].
  split_and!.
  - intros k. destruct (secrets !! k) as [v|] eqn:Ev.
    + apply elem_of_map_to_list in Ev. destruct (Hin _ _ Ev) as (f & Hf & _ & Hx).
      destruct (String.eqb (TrimSpace v) ""); [by rewrite Hx|]. destruct Hx as (nv & Hn & Hx). exists f, nv.
      split_and!; try done. by eapply normalizeOption_line.
    + rewrite Hout, Hk; [done|]. intros (kv & -> & Hkv)%list_elem_of_fmap. destruct kv as [k v].
      apply elem_of_map_to_list in Hkv. cbn in Ev. congruence.
  - intros k v Hkv%elem_of_map_to_list. revert H1 Hkv. generalize (∅ : gmap string string).
    induction (map_to_list options) as [|[k' v'] l IH]; intros m Hm Hkv; [by apply not_elem_of_nil in Hkv|].
    cbn [split_plain] in Hm. destruct (prov_field p k') as [f|] eqn:Ef; [|done].
    destruct (fld_Secret f) eqn:Es; [done|]. destruct (normalizeOption f v'); [|done].
    apply elem_of_cons in Hkv as [[= -> ->]|Hkv]; [by eauto | by eapply IH].
  - assert (G : forall l m m', split_plain p l m = Ok m' -> dom m' ⊆ dom m ∪ list_to_set (map fst l)).
    { induction l as [|[k' v'] l IH]; intros m m' Hm; cbn [split_plain] in Hm; [injection Hm as <-; set_solver|].
      destruct (prov_field p k') as [f|]; [|done]. destruct (fld_Secret f); [done|].
      destruct (normalizeOption f v') as [nv|]; [|done]. apply IH in Hm. destruct (String.eqb nv ""); [set_solver|].
      rewrite dom_insert in Hm. set_solver. }
    apply G in H1. rewrite dom_empty_L in H1. intros k Hkd%H1. apply elem_of_union in Hkd as [?|Hkd]; [set_solver|].
    apply elem_of_list_to_set, list_elem_of_fmap in Hkd as ([k' v'] & -> & Hkv%elem_of_map_to_list).
    by apply elem_of_dom_2 in Hkv.
Qed.

(** ** A concrete instance *)

(** Only objects with one text member are texts here: its value after a mark. *)
Definition sample_token_json : Json json := {|
  json_marshal j :=
    match j with
    | JObj [(k, JStr v)] => if one_line v then Some ("{" +:+ v +:+ "}") else None
    | _ => None
    end;
  json_unmarshal s := Some (JObj [("access_token", JStr (str_take (String.length s - 2) (str_drop 1 s)))])
|}.

Definition sample_strings_json : Json (gmap string string) := {|
  json_marshal m := Some (to_text (to_valid <$> m));
  json_unmarshal s := of_text s
|}.

#[export] Instance sample_destination_json : @DestinationJson sample_token_json sample_strings_json.
Proof.
  split.
  - intros j s. cbn. destruct j as [| | | | |[|[k [| | |v| |]] [|]]]; try done.
    destruct (one_line v) eqn:E; [|done]. intros [= <-]. unfold one_line in *.
    change ("{" +:+ v +:+ "}") with (String "{" (v +:+ "}")). cbn [str_forallb]. rewrite str_forallb_app, E. done.
  - intros m s _ [= <-]. cbn. by rewrite of_to_text.
Qed.

Definition sftp_request : SaveDestinationRequest :=
  mkSaveDestinationRequest " office " "sftp" "backups/tale" {["host" := "h.example"; "user" := "u"; "port" := "2222"]}
    {["pass" := "hunter2"]} None (Some 5).

Definition sample_create : M BackupDestination :=
  @CreateDestination sample_platform sample_token_json sample_strings_json (hex_bytes 16 7) sftp_request None.

Definition sample_spec (id : uuid) : M (RemoteSpec * BackupDestination) :=
  @remoteSpec sample_platform sample_strings_json (hex_bytes 16 7) id.

Lemma destinations_confined_witness :
  exists spec view w', sample_spec 1 (snd (sample_create empty_world)) = (Ok (spec, view), w')
    /\ spec_confined spec /\ spec_Options spec !! "pass" = Some "hunter2" /\ spec_Options spec !! "port" = Some "2222"
    /\ spec_Obscure spec = ["pass"].
Proof.
  destruct (sample_spec 1 (snd (sample_create empty_world))) as [r w'] eqn:E.
  assert (Hr : r = fst (sample_spec 1 (snd (sample_create empty_world)))) by (by rewrite E).
  destruct r as [[spec view]|e]; [|vm_compute in Hr; discriminate Hr].
  exists spec, view, w'. split; [done|]. split.
  - apply (@destinations_confined sample_platform sample_platform_laws sample_token_json sample_strings_json
      sample_destination_json sample_daemon_json (hex_bytes 16 7) empty_world (snd (sample_create empty_world)) w' 1
      spec view); [done | | exact E].
    apply rtc_once. apply (step_create (hex_bytes 16 7) sftp_request None empty_world).
  - vm_compute in Hr. injection Hr as -> _. split_and!; vm_compute; reflexivity.
Defined.

Lemma secrets_kept_witness :
  let sec := {["pass" := "old"]} : gmap string string in
  exists p plain sec', findProvider "sftp" = Some p
    /\ @splitDestinationOptions sample_token_json p (sdr_Options sftp_request) {["pass" := " "]} sec = Ok (plain, sec')
    /\ sec' !! "pass" = Some "old".
Proof.
  cbv zeta. destruct (findProvider "sftp") as [p|] eqn:Ep; [|discriminate Ep].
  destruct (@splitDestinationOptions sample_token_json p (sdr_Options sftp_request) {["pass" := " "]} {["pass" := "old"]})
    as [[plain sec']|e] eqn:E; [|injection Ep as <-; vm_compute in E; discriminate E].
  exists p, plain, sec'. split_and!; [done | done|].
  pose proof (@secrets_kept sample_token_json sample_strings_json sample_destination_json p _ _ _ plain sec' E) as (H & _).
  specialize (H "pass"). injection Ep as <-. exact H.
Defined.
