(* ===== verification/Mail.v ===== *)
(** * Outgoing mail and its settings

    Models [alerting/smtp.go], [services/smtp_settings.go],
    [handlers/admin_smtp.go], the posts of [alerting/notifier.go] and
    [envSMTPConfig] with the start-up of the notifier in [router/router.go].

    [net/mail] and the go-mail package are the class [MailLibrary].  The
    notifier keeps its configuration behind a lock, so a handler takes it and
    returns the one it leaves. *)

From stdpp Require Import base numbers list strings option gmap relations.
From Stdlib Require Import Ascii.
From S2P Require Import Prelude GoStrings Regex Store Roles Platform Crypto Auth Net Alerts Daemon Words Http GameCommands ServerHandlers Settings Destinations.

Local Open Scope Z_scope.

(** ** Configuration *)

Definition SMTPTLSStartTLS : string := "starttls".
Definition SMTPTLSImplicit : string := "tls".
Definition SMTPTLSNone : string := "none".
Definition smtpConnTimeout : Z := 10 * second.

Record SMTPConfig := mkSMTPConfig {
  smtp_Host : string;
  smtp_Port : Z;
  smtp_Username : string;
  smtp_Password : string;
  smtp_From : string;
  smtp_TLSMode : string
}.

Definition smtp_Enabled (c : SMTPConfig) : bool := negb (String.eqb (smtp_Host c) "").

Definition DefaultSMTPTLSMode (port : Z) : string := if port =? 465 then SMTPTLSImplicit else SMTPTLSStartTLS.

Definition Normalize `{U : Unicode} (c : SMTPConfig) : SMTPConfig :=
  let user := TrimSpace (smtp_Username c) in
  let mode := ToLower (TrimSpace (smtp_TLSMode c)) in
  let port := if smtp_Port c =? 0 then 587 else smtp_Port c in
  mkSMTPConfig (TrimSpace (smtp_Host c)) port user
    (if String.eqb user "" then "" else smtp_Password c)
    (TrimSpace (smtp_From c))
    (if String.eqb mode "" then DefaultSMTPTLSMode port else mode).

(** [strings.ContainsAny(s, "\r\n")]. *)
Definition hasCRLF (s : string) : bool := negb (str_forallb (fun a => negb (bool_decide (a ∈ ["013"; "010"]%char))) s).

(** [net/mail.ParseAddress] gives a name and an address.  A go-mail message
    refuses an address, a client its options, and a delivery can fail. *)
Class MailLibrary := {
  ParseAddress : string -> res error (string * string);
  FromFormat : string -> string -> res error unit;
  mail_To : string -> res error unit;
  mail_rfc3339 : Z -> string
}.

Definition parseFromAddress `{L : MailLibrary} (from : string) : res error (string * string) :=
  if String.eqb from "" then Err (ErrNew "from address is required")
  else if hasCRLF from then Err (ErrNew "from address must not contain line breaks")
  else match ParseAddress from with
       | Err e => Err (ErrWrap "from address is invalid" e)
       | Ok a => Ok a
       end.

Definition host_breaks : list ascii := [" "; "009"; "013"; "010"; "/"; "@"; ":"]%char.
Definition tls_modes : list string := [SMTPTLSStartTLS; SMTPTLSImplicit; SMTPTLSNone].

Definition Validate `{L : MailLibrary} (c : SMTPConfig) : res error unit :=
  if String.eqb (smtp_Host c) "" then Err (ErrNew "host is required")
  else if (253 <? len (smtp_Host c)) || negb (str_forallb (fun a => negb (bool_decide (a ∈ host_breaks))) (smtp_Host c))
  then Err (ErrNew "host must be a plain hostname or IPv4 address (no scheme, port or spaces)")
  else if (smtp_Port c <? 1) || (65535 <? smtp_Port c) then Err (ErrNew "port must be between 1 and 65535")
  else if negb (contains tls_modes (smtp_TLSMode c)) then Err (ErrNew "tls_mode")
  else if hasCRLF (smtp_Username c) || hasCRLF (smtp_Password c)
  then Err (ErrNew "username and password must not contain line breaks")
  else match parseFromAddress (smtp_From c) with Err e => Err e | Ok _ => Ok tt end.

(** ** Sending *)

(** [string(r[:n])] of a rune slice. *)
Definition encode_runes (l : list Z) : string := fold_right (fun r acc => encode_rune r +:+ acc) "" l.

Definition sanitizeHeader (s0 : string) : string :=
  let s := Map (fun r => Some (if (r <? 32) || (r =? 127) then 32 else r)) s0 in
  let s := Join (Fields s) " " in
  if 200 <? RuneCount s then encode_runes (take 200 (map rune_val (runes s))) else s.

Inductive TLSPolicy := NoTLS | TLSMandatory.

Definition tlsSettings (mode : string) : res error (bool * TLSPolicy) :=
  if String.eqb mode SMTPTLSImplicit then Ok (true, NoTLS)
  else if String.eqb mode SMTPTLSStartTLS then Ok (false, TLSMandatory)
  else if String.eqb mode SMTPTLSNone then Ok (false, NoTLS)
  else Err (ErrNew "unknown tls mode").

(** The options of the go-mail client; with authentication when there is a
    user name. *)
Record MailOptions := mkMailOptions {
  mo_Port : Z;
  mo_Timeout : Z;
  mo_TLSPolicy : TLSPolicy;
  mo_SSL : bool;
  mo_Auth : option (string * string)
}.

Definition clientOptions (cfg : SMTPConfig) : res error MailOptions :=
  match tlsSettings (smtp_TLSMode cfg) with
  | Err e => Err e
  | Ok (implicitTLS, policy) =>
    Ok (mkMailOptions (smtp_Port cfg) smtpConnTimeout policy implicitTLS
          (if negb (String.eqb (smtp_Username cfg) "") then Some (smtp_Username cfg, smtp_Password cfg) else None))
  end.

Record MailMsg := mkMailMsg {
  msg_FromName : string;
  msg_FromAddress : string;
  msg_To : string;
  msg_Subject : string;
  msg_Body : string
}.

Section send.
Context `{U : Unicode} `{P : Platform} `{L : MailLibrary}.
(** [mail.NewClient] and [DialAndSendWithContext]. *)
Context (NewClient : string -> MailOptions -> res error unit) (DialAndSend : string -> MailOptions -> MailMsg -> res error unit).

(** The result, and the delivery the client was asked for. *)
Definition smtp_send (cfg : SMTPConfig) (to subject body : string) : res error unit * option (string * MailOptions * MailMsg) :=
  match Validate cfg with
  | Err e => (Err (ErrWrap "invalid smtp settings" e), None)
  | Ok _ =>
    match parseFromAddress (smtp_From cfg) with
    | Err e => (Err e, None)
    | Ok (name, address) =>
      if hasCRLF to then (Err (ErrNew "recipient address must not contain line breaks"), None)
      else match FromFormat (sanitizeHeader name) address with
      | Err e => (Err (ErrWrap "invalid from address" e), None)
      | Ok _ =>
        match mail_To to with
        | Err e => (Err (ErrWrap "invalid recipient address" e), None)
        | Ok _ =>
          let m := mkMailMsg (sanitizeHeader name) address to (sanitizeHeader subject) body in
          match clientOptions cfg with
          | Err e => (Err e, None)
          | Ok opts =>
            match NewClient (smtp_Host cfg) opts with
            | Err e => (Err (ErrWrap "smtp client" e), None)
            | Ok _ => (DialAndSend (smtp_Host cfg) opts m, Some (smtp_Host cfg, opts, m))
            end
          end
        end
      end
    end
  end.

(** The bytes of the em dash. *)
Definition em_dash : string := String "226" (String "128" (String "148" "")).

Definition alert_subject (p : NotificationPayload) : string :=
  "[TalePanel Alert] " +:+ np_Severity p +:+ " " +:+ em_dash +:+ " " +:+ np_RuleType p.
Definition alert_body (p : NotificationPayload) : string :=
  "Alert: " +:+ np_RuleType p +:+ LF +:+ "Severity: " +:+ np_Severity p +:+ LF +:+ "Message: " +:+ np_Message p +:+ LF
  +:+ "Fired at: " +:+ mail_rfc3339 (np_FiredAt p) +:+ LF +:+ "Subject: " +:+ uuid_string (np_SubjectID p).

(** A failure is only logged. *)
Definition smtp_Send (cfg : SMTPConfig) (payload : NotificationPayload) (to : string) : option (string * MailOptions * MailMsg) :=
  if negb (smtp_Enabled cfg) then None
  else snd (smtp_send cfg to (alert_subject payload) (alert_body payload)).

Definition SendTest (cfg : SMTPConfig) (to : string) : res error unit * option (string * MailOptions * MailMsg) :=
  if negb (smtp_Enabled cfg) then (Err (ErrNew "email is not configured"), None)
  else smtp_send cfg to "[TalePanel] Test email"
         ("This is a test email from TalePanel." +:+ LF +:+ LF
          +:+ "If you can read this, email alerts are set up correctly.").

(** *** Webhooks *)

Definition discord_color (severity : string) : Z := if String.eqb severity "critical" then 15158332 else 15105570.

Definition DiscordPost (p : NotificationPayload) : json :=
  JObj [("embeds", JArr [JObj
    [("title", JStr ("[" +:+ np_Severity p +:+ "] " +:+ np_RuleType p));
     ("description", JStr (np_Message p));
     ("color", JInt (discord_color (np_Severity p)));
     ("fields", JArr
       [JObj [("name", JStr "Subject"); ("value", JStr (uuid_string (np_SubjectID p))); ("inline", JBool true)];
        JObj [("name", JStr "Fired at"); ("value", JStr (mail_rfc3339 (np_FiredAt p))); ("inline", JBool true)]])]])].

Definition WebhookPost (p : NotificationPayload) : json :=
  JObj [("rule_type", JStr (np_RuleType p)); ("severity", JStr (np_Severity p)); ("message", JStr (np_Message p));
        ("fired_at", JStr (mail_rfc3339 (np_FiredAt p))); ("subject_id", JStr (uuid_string (np_SubjectID p)))].
End send.

(** ** Settings *)

Definition smtpSettingsKey : string := "smtp_config".

Record smtpSettingsResponse := mkSmtpSettingsResponse {
  ssr_Source : string;
  ssr_Configured : bool;
  ssr_Host : string;
  ssr_Port : Z;
  ssr_Username : string;
  ssr_PasswordSet : bool;
  ssr_From : string;
  ssr_TLSMode : string
}.

Record updateSMTPRequest := mkUpdateSMTPRequest {
  usr_Host : string;
  usr_Port : Z;
  usr_Username : string;
  usr_Password : option string;
  usr_From : string;
  usr_TLSMode : string
}.

Section settings.
Context `{U : Unicode} `{P : Platform} `{L : MailLibrary} `{J : Json SMTPConfig} (encKey : string).
Context (NewClient : string -> MailOptions -> res error unit) (DialAndSend : string -> MailOptions -> MailMsg -> res error unit).

Definition GetSMTP : M (option SMTPConfig) :=
  let* raw := setting_Get encKey smtpSettingsKey in
  if String.eqb raw "" then ret None
  else match json_unmarshal raw with
       | None => fail (ErrWrap "decoding smtp settings" (ErrNew "json"))
       | Some cfg => ret (Some (Normalize cfg))
       end.

Definition SetSMTP (cfg : option SMTPConfig) (updatedBy : option uuid) : M unit :=
  match cfg with
  | None => setting_Set encKey smtpSettingsKey "" updatedBy
  | Some cfg =>
    match json_marshal cfg with
    | None => fail (ErrWrap "encoding smtp settings" (ErrNew "json"))
    | Some raw => setting_Set encKey smtpSettingsKey raw updatedBy
    end
  end.

(** [NewSMTPNotifier(env)], then the stored settings; an error keeps [env]. *)
Definition start_smtp (env : SMTPConfig) : M SMTPConfig :=
  let* r := attempt GetSMTP in
  ret match r with
      | Ok (Some stored) => Normalize stored
      | _ => Normalize env
      end.

(** [status] of the handler, for the active configuration. *)
Definition smtp_status (cfg : SMTPConfig) : M smtpSettingsResponse :=
  let* stored := GetSMTP in
  ret (mkSmtpSettingsResponse
    (match stored with Some _ => "panel" | None => if smtp_Enabled cfg then "env" else "none" end)
    (smtp_Enabled cfg) (smtp_Host cfg) (smtp_Port cfg) (smtp_Username cfg)
    (negb (String.eqb (smtp_Password cfg) "")) (smtp_From cfg) (smtp_TLSMode cfg)).

Definition GetSMTPHandler (active : SMTPConfig) : M (res Reply smtpSettingsResponse) :=
  let* r := attempt (smtp_status active) in
  match r with Err _ => refuse 500 "failed to load email settings" | Ok resp => ret (Ok resp) end.

(** The reply and the configuration that is active afterwards. *)
Definition UpdateSMTPHandler (env active : SMTPConfig) (user : User) (body : option updateSMTPRequest)
  : M (res Reply smtpSettingsResponse * SMTPConfig) :=
  let respond (active' : SMTPConfig) := let* r := GetSMTPHandler active' in ret (r, active') in
  let refused (status : Z) (msg : string) := ret (Err (reply_error status msg), active) in
  match body with
  | None => refused 400 "invalid request body"
  | Some req =>
    let cfg := Normalize (mkSMTPConfig (usr_Host req) (usr_Port req) (usr_Username req) "" (usr_From req) (usr_TLSMode req)) in
    if String.eqb (smtp_Host cfg) "" then
      let* r := attempt (SetSMTP None (Some (user_ID user))) in
      match r with
      | Err _ => refused 500 "failed to clear email settings"
      | Ok _ => respond (Normalize env)
      end
    else
      let password := match usr_Password req with
                      | Some p => if negb (String.eqb p "") then p else smtp_Password active
                      | None => smtp_Password active
                      end in
      let cfg := Normalize (mkSMTPConfig (smtp_Host cfg) (smtp_Port cfg) (smtp_Username cfg) password (smtp_From cfg) (smtp_TLSMode cfg)) in
      match Validate cfg with
      | Err e => refused 400 (error_Error e)
      | Ok _ =>
        let* r := attempt (SetSMTP (Some cfg) (Some (user_ID user))) in
        match r with
        | Err _ => refused 500 "failed to save email settings"
        | Ok _ => respond (Normalize cfg)
        end
      end
  end.

(** The address of the test mail, with the delivery. *)
Definition TestSMTPHandler (active : SMTPConfig) (user : User) : res Reply string * option (string * MailOptions * MailMsg) :=
  if String.eqb (user_Email user) "" then (Err (reply_error 400 "your account has no email address"), None)
  else if negb (smtp_Enabled active)
  then (Err (reply_error 400 ("email is not configured yet " +:+ em_dash +:+ " save the settings first")), None)
  else match SendTest NewClient DialAndSend active (user_Email user) with
       | (Err e, d) => (Err (reply_error 422 ("sending failed: " +:+ error_Error e)), d)
       | (Ok _, d) => (Ok (user_Email user), d)
       end.
End settings.

(** ** Theorems: headers *)

Lemma raw_forallb (f : ascii -> bool) (l : list rune) :
  str_forallb f (raw_concat l) = forallb (fun r => str_forallb f (rune_raw r)) l.
Proof. induction l as [|r l IH]; [done|]. change (raw_concat (r :: l)) with (rune_raw r +:+ raw_concat l). rewrite str_forallb_app, IH. done. Qed.

Lemma fields_forallb (f : ascii -> bool) (l : list rune) (cur : option string) :
  str_forallb f (default "" cur) = true -> forallb (fun r => str_forallb f (rune_raw r)) l = true ->
  Forall (fun w => str_forallb f w = true) (fields_loop cur l).
Proof.
  revert cur. induction l as [|r l IH]; intros cur Hc Hl; cbn [fields_loop].
  - destruct cur; [by apply Forall_singleton | done].
  - cbn [forallb] in Hl. apply andb_true_iff in Hl as [Hr Hl]. destruct (IsSpace _).
    + destruct cur; [constructor; [done|]|]; by apply IH.
    + apply IH; [|done]. change (str_forallb f (default "" cur +:+ rune_raw r) = true). by rewrite str_forallb_app, Hc.
Qed.

Lemma Join_forallb (f : ascii -> bool) (l : list string) (sep : string) :
  str_forallb f sep = true -> Forall (fun w => str_forallb f w = true) l -> str_forallb f (Join l sep) = true.
Proof.
  intros Hs. unfold Join. induction 1 as [|w l Hw Hl IH]; [done|]. destruct l as [|w' l]; [exact Hw|].
  change (str_forallb f (w +:+ (sep +:+ String.concat sep (w' :: l))) = true). by rewrite !str_forallb_app, Hw, Hs, IH.
Qed.

Lemma rune_raw_len (s : string) : Forall (fun r => len (rune_raw r) <= 4) (runes s).
Proof.
  remember (String.length s) as n eqn:Hn. assert (Hle : (String.length s <= n)%nat) by lia. clear Hn.
  revert s Hle. induction n as [|n IH]; intros s Hle; [by destruct s; [constructor | simpl in Hle; lia]|].
  assert (Hl : forall r s', len (rune_raw r) <= 4 -> (String.length s' <= n)%nat -> Forall (fun r => len (rune_raw r) <= 4) (r :: runes s')).
  { intros r s' Hr Hs'. constructor; [done | by apply IH]. }
  destruct s as [|a s1]; [constructor|]. simpl in Hle. cbn [runes].
  destruct (byte_of a <? 128); [apply Hl; [done | lia]|].
  destruct s1 as [|b s2]; [apply (Hl _ ""); [done | simpl; lia]|]. simpl in Hle.
  destruct (_ && _); [apply Hl; [done | lia]|].
  destruct s2 as [|c s3]; [apply Hl; [done | simpl; lia]|]. simpl in Hle.
  destruct (_ && _); [apply Hl; [done | lia]|].
  destruct s3 as [|d s4]; [apply Hl; [done | simpl; lia]|]. simpl in Hle.
  destruct (_ && _); [apply Hl; [done | lia]|]. apply Hl; [done | simpl; lia].
Qed.

Lemma len_app (s t : string) : len (s +:+ t) = len s + len t.
Proof. unfold len. induction s as [|a s IH]; [done|]. change (String a s +:+ t) with (String a (s +:+ t)). simpl String.length in *. lia. Qed.

Lemma raw_concat_len (l : list rune) : Forall (fun r => len (rune_raw r) <= 4) l -> len (raw_concat l) <= 4 * Z.of_nat (length l).
Proof.
  induction 1 as [|r l Hr Hl IH]; [done|]. change (raw_concat (r :: l)) with (rune_raw r +:+ raw_concat l). rewrite len_app. simpl length. lia.
Qed.

Lemma encode_rune_len (r : Z) : len (encode_rune r) <= 4.
Proof. unfold encode_rune. repeat destruct (_ : bool); by vm_compute. Qed.

Lemma encode_runes_len (l : list Z) : len (encode_runes l) <= 4 * Z.of_nat (length l).
Proof.
  induction l as [|r l IH]; [done|]. change (encode_runes (r :: l)) with (encode_rune r +:+ encode_runes l). rewrite len_app.
  pose proof (encode_rune_len r). simpl length. lia.
Qed.

(** A header value: one line without control characters, of bounded length. *)
Definition header_safe (s : string) : Prop := str_forallb printable s = true /\ len s <= 800.

Lemma sanitizeHeader_safe (s : string) : header_safe (sanitizeHeader s).
Proof.
  unfold sanitizeHeader. cbv zeta. set (m := Map _ s). set (j := Join (Fields m) " ").
  assert (Hm : str_forallb printable m = true).
  { unfold m, Map. induction (runes s) as [|r l IH]; [done|]. cbn [fold_right]. rewrite str_forallb_app, IH, andb_true_r.
    apply encode_rune_printable. destruct ((rune_val r <? 32) || (rune_val r =? 127)) eqn:E; [done | exact E]. }
  assert (Hj : str_forallb printable j = true).
  { apply Join_forallb; [done|]. apply fields_forallb; [done|]. by rewrite <- raw_forallb, raw_concat_runes. }
  destruct (Z.ltb_spec 200 (RuneCount j)) as [Hlt|Hge].
  - split.
    + pose proof (runes_forallb printable j Hj) as Hr.
      assert (Ht : forall v, v ∈ take 200 (map rune_val (runes j)) -> v < 128 -> printable (ascii_of v) = true).
      { intros v Hv. assert (Hv' : v ∈ map rune_val (runes j)) by (rewrite <- (take_drop 200); apply elem_of_app; by left).
        apply list_elem_of_fmap in Hv' as (r & -> & Hin). by apply Hr. }
      induction (take 200 _) as [|v l IH]; [done|]. cbn [encode_runes fold_right]. rewrite str_forallb_app. apply andb_true_iff. split.
      * apply encode_rune_forallb; [|apply Ht; by left]. intros a Ha. unfold printable.
        destruct (Z.leb_spec 32 (byte_of a)); [|lia]. destruct (Z.eqb_spec (byte_of a) 127); [lia | done].
      * apply IH. intros v' Hv'. apply Ht. by right.
    + etrans; [apply encode_runes_len|]. rewrite length_take, length_map. lia.
  - split; [done|]. rewrite <- (raw_concat_runes j). etrans; [apply raw_concat_len, rune_raw_len|]. unfold RuneCount in Hge. lia.
Qed.

(** What a delivery may look like for a configuration. *)
Definition delivery_safe (cfg : SMTPConfig) (d : string * MailOptions * MailMsg) : Prop :=
  let '(host, opts, m) := d in
  host = smtp_Host cfg /\ str_forallb (fun a => negb (bool_decide (a ∈ host_breaks))) host = true
  /\ mo_Port opts = smtp_Port cfg /\ 1 <= mo_Port opts <= 65535
  /\ header_safe (msg_Subject m) /\ header_safe (msg_FromName m) /\ hasCRLF (msg_To m) = false
  /\ mo_Auth opts = (if String.eqb (smtp_Username cfg) "" then None else Some (smtp_Username cfg, smtp_Password cfg))
  /\ hasCRLF (smtp_Username cfg) = false /\ hasCRLF (smtp_Password cfg) = false
  /\ (smtp_TLSMode cfg = SMTPTLSNone \/ mo_SSL opts = true \/ mo_TLSPolicy opts = TLSMandatory).

Lemma Validate_ok `{L : MailLibrary} (c : SMTPConfig) : Validate c = Ok tt ->
  str_forallb (fun a => negb (bool_decide (a ∈ host_breaks))) (smtp_Host c) = true /\ 1 <= smtp_Port c <= 65535
  /\ smtp_TLSMode c ∈ tls_modes /\ hasCRLF (smtp_Username c) = false /\ hasCRLF (smtp_Password c) = false.
Proof.
  unfold Validate. intros H.
  destruct (String.eqb _ _); [done|]. destruct ((253 <? _) || _) eqn:E1; [done|]. destruct ((smtp_Port c <? 1) || _) eqn:E2; [done|].
  destruct (negb (contains _ _)) eqn:E3; [done|]. destruct (hasCRLF _ || _) eqn:E4; [done|].
  apply orb_false_iff in E1 as [_ E1%negb_false_iff]. apply orb_false_iff in E2 as [E2 E2'].
  apply negb_false_iff, contains_spec in E3. apply orb_false_iff in E4 as [? ?]. split_and!; try done; lia.
Qed.

Section deliveries.
Context `{U : Unicode} `{P : Platform} `{L : MailLibrary}.
Context (NewClient : string -> MailOptions -> res error unit) (DialAndSend : string -> MailOptions -> MailMsg -> res error unit).

Lemma smtp_send_safe cfg to subject body r d :
  smtp_send NewClient DialAndSend cfg to subject body = (r, Some d) -> delivery_safe cfg d /\ msg_To (snd d) = to.
Proof.
  unfold smtp_send. intros H. destruct (Validate cfg) as [[]|e] eqn:Ev; [|done].
  destruct (parseFromAddress _) as [[name address]|e]; [|done]. destruct (hasCRLF to) eqn:Et; [done|].
  destruct (FromFormat _ _); [|done]. destruct (mail_To to); [|done]. destruct (clientOptions cfg) as [opts|e] eqn:Eo; [|done].
  destruct (NewClient _ _); [|done]. injection H as _ <-. split; [|done].
  apply Validate_ok in Ev as (Hh & Hp & Hm & Hu & Hpw). unfold clientOptions, tlsSettings in Eo.
  assert (Ho : mo_Port opts = smtp_Port cfg
    /\ mo_Auth opts = (if String.eqb (smtp_Username cfg) "" then None else Some (smtp_Username cfg, smtp_Password cfg))
    /\ (smtp_TLSMode cfg = SMTPTLSNone \/ mo_SSL opts = true \/ mo_TLSPolicy opts = TLSMandatory)).
  { destruct (String.eqb_spec (smtp_TLSMode cfg) SMTPTLSImplicit); [|destruct (String.eqb_spec (smtp_TLSMode cfg) SMTPTLSStartTLS);
      [|destruct (String.eqb_spec (smtp_TLSMode cfg) SMTPTLSNone); [|done]]]; injection Eo as <-; cbn;
      (split_and!; [done | by destruct (String.eqb (smtp_Username cfg) "") | auto]). }
  destruct Ho as (Hport & Hauth & Htls). cbn. split_and!; try done; try (rewrite Hport; lia); apply sanitizeHeader_safe.
Qed.

(** C35. Whatever an alert says, whatever the recipient and the settings are,
    and whatever the mail library answers: a delivery goes to the configured
    host and port only, its subject and sender name are one line of at most
    800 bytes without control characters, its recipient and the credentials
    have no line break, the password travels only with its user name, and the
    connection is encrypted unless the operator chose not to. *)
Theorem mail_safe (cfg : SMTPConfig) (payload : NotificationPayload) (to : string) (d : string * MailOptions * MailMsg) :
  smtp_Send NewClient DialAndSend cfg payload to = Some d \/ snd (SendTest NewClient DialAndSend cfg to) = Some d ->
  delivery_safe cfg d /\ msg_To (snd d) = to.
Proof.
  unfold smtp_Send, SendTest. destruct (negb (smtp_Enabled cfg)); [by intros [|]|].
  intros [H|H]; (destruct (smtp_send _ _ _ _ _) as [r o] eqn:E in H); cbn in H; subst o; by eapply smtp_send_safe.
Qed.
End deliveries.

(** ** Theorems: a restart keeps the settings *)

(** The texts of a configuration are UTF-8, and its port fits an int. *)
Definition smtp_utf8 (c : SMTPConfig) : Prop :=
  ValidUTF8 (smtp_Host c) = true /\ ValidUTF8 (smtp_Username c) = true /\ ValidUTF8 (smtp_Password c) = true
  /\ ValidUTF8 (smtp_From c) = true /\ ValidUTF8 (smtp_TLSMode c) = true.

Lemma drop_space_fixed l : drop_space (drop_space l) = drop_space l.
Proof. induction l as [|r l IH]; [done|]. cbn. destruct (IsSpace _) eqn:E; [done|]. cbn. by rewrite E. Qed.

(** The head of a trimmed list is no space, also after trimming its end. *)
Lemma drop_space_head l : drop_space l = l <-> match l with r :: _ => IsSpace (rune_val r) = false | [] => True end.
Proof.
  destruct l as [|r l]; [done|]. cbn. destruct (IsSpace _) eqn:E; [|done]. split; [|done]. intros H. exfalso.
  assert (Hl : forall l, (length (drop_space l) <= length l)%nat) by (clear; induction l; cbn; [lia|]; destruct (IsSpace _); cbn; lia).
  specialize (Hl l). rewrite H in Hl. cbn in Hl. lia.
Qed.

Lemma drop_space_suffix l : exists p, l = p ++ drop_space l.
Proof.
  induction l as [|r l [p IH]]; [by exists []|]. cbn. destruct (IsSpace _); [|by exists []]. exists (r :: p). cbn. by f_equal.
Qed.

Lemma trimmed_fixed l : let t := rev (drop_space (rev (drop_space l))) in rev (drop_space (rev (drop_space t))) = t.
Proof.
  cbv zeta. set (m := drop_space l). assert (Hm : drop_space m = m) by apply drop_space_fixed.
  assert (Ht : drop_space (rev (drop_space (rev m))) = rev (drop_space (rev m))).
  { apply drop_space_head. destruct (drop_space_suffix (rev m)) as [p Hp].
    assert (Hr : m = rev (drop_space (rev m)) ++ rev p) by (rewrite <- rev_app_distr, <- Hp; by rewrite rev_involutive).
    destruct (rev (drop_space (rev m))) as [|r t]; [done|]. apply drop_space_head in Hm. by rewrite Hr in Hm. }
  rewrite Ht, rev_involutive. by rewrite drop_space_fixed.
Qed.

Lemma TrimSpace_fixed s : ValidUTF8 s = true -> TrimSpace (TrimSpace s) = TrimSpace s.
Proof.
  intros Hv. unfold TrimSpace at 1. assert (Hr : runes (TrimSpace s) = rev (drop_space (rev (drop_space (runes s))))).
  { unfold TrimSpace. apply runes_raw. intros r Hr. apply (valid_runes s); [done|].
    apply list_elem_of_In, in_rev, list_elem_of_In, drop_space_sub, list_elem_of_In, in_rev, list_elem_of_In,
      drop_space_sub in Hr. done. }
  rewrite Hr, trimmed_fixed. done.
Qed.

Section restart.
Context `{U : Unicode} `{P : Platform} `{PL : !PlatformLaws P} `{L : MailLibrary} `{J : Json SMTPConfig}
  `{JL : !JsonLaws SMTPConfig smtp_utf8} (encKey : string).

Lemma Normalize_mode_fixed (m : string) : m ∈ tls_modes -> ToLower (TrimSpace m) = m /\ m <> "" /\ ValidUTF8 m = true.
Proof. unfold tls_modes. rewrite !elem_of_cons. intros [->|[->|[->|H]]]; [split_and!; done..|]. by apply not_elem_of_nil in H. Qed.

(** The mode need not be UTF-8 before it is checked. *)
Definition texts_utf8 (c : SMTPConfig) : Prop :=
  ValidUTF8 (smtp_Host c) = true /\ ValidUTF8 (smtp_Username c) = true /\ ValidUTF8 (smtp_Password c) = true
  /\ ValidUTF8 (smtp_From c) = true.

Lemma Normalize_fixed c : texts_utf8 c -> smtp_TLSMode (Normalize c) ∈ tls_modes ->
  Normalize (Normalize c) = Normalize c /\ smtp_utf8 (Normalize c).
Proof.
  intros (Hh & Hu & Hp & Hf) Hm. apply Normalize_mode_fixed in Hm as (Hm & Hne & Hv). split.
  - unfold Normalize at 1. rewrite Hm. apply String.eqb_neq in Hne as ->. revert Hm Hv.
    unfold Normalize. cbn [smtp_Host smtp_Port smtp_Username smtp_Password smtp_From smtp_TLSMode]. intros _ _.
    rewrite !TrimSpace_fixed by done. f_equal.
    + destruct (Z.eqb_spec (smtp_Port c) 0) as [|Hn]; [done|]. by destruct (Z.eqb_spec (smtp_Port c) 0).
    + by destruct (String.eqb (TrimSpace (smtp_Username c)) "").
  - revert Hv. unfold smtp_utf8, Normalize. cbn [smtp_Host smtp_Port smtp_Username smtp_Password smtp_From smtp_TLSMode]. intros Hv.
    split_and!; [by apply TrimSpace_valid | by apply TrimSpace_valid | destruct (String.eqb (TrimSpace (smtp_Username c)) EmptyString); [vm_compute; reflexivity | exact Hp] | by apply TrimSpace_valid | done].
Qed.

(** What a start reads from the stored settings. *)
Definition loaded (env : SMTPConfig) (d : DB) : SMTPConfig :=
  match setting encKey smtpSettingsKey d with
  | Some raw => if String.eqb raw "" then Normalize env
                else match json_unmarshal raw with Some c => Normalize (Normalize c) | None => Normalize env end
  | None => Normalize env
  end.

Lemma start_smtp_run env w : healthy w -> fst (start_smtp encKey env w) = Ok (loaded env (w_db w)).
Proof.
  intros Hw. unfold start_smtp, loaded, setting.
  assert (Hg : GetSMTP encKey w = (match setting_Get encKey smtpSettingsKey w with
    | (Ok raw, w1) => if String.eqb raw "" then ret None w1
        else match json_unmarshal raw with None => fail (ErrWrap "decoding smtp settings" (ErrNew "json")) w1
             | Some cfg => ret (Some (Normalize cfg)) w1 end
    | (Err e, w1) => (Err e, w1) end)).
  { unfold GetSMTP, bind. destruct (setting_Get _ _ _) as [[raw|e] w1]; [|done]. destruct (String.eqb raw ""); [done|].
    by destruct (json_unmarshal raw). }
  unfold bind, attempt. rewrite Hg, setting_Get_run by done. clear Hg.
  destruct (app_settings (w_db w) !! smtpSettingsKey) as [enc|]; [|done].
  destruct (Decrypt encKey enc) as [raw|e]; [|done].
  destruct (String.eqb raw ""); [done|]. by destruct (json_unmarshal raw).
Qed.

Definition request_utf8 (req : updateSMTPRequest) : Prop :=
  smtp_utf8 (mkSMTPConfig (usr_Host req) (usr_Port req) (usr_Username req) (default "" (usr_Password req)) (usr_From req) (usr_TLSMode req)).

Lemma SetSMTP_inv cfg by_ w r w' : SetSMTP encKey cfg by_ w = (r, w') ->
  (is_ok r = false /\ w_db w' = w_db w)
  \/ (r = Ok tt /\ match cfg with
      | None => setting encKey smtpSettingsKey (w_db w') = None
      | Some c => exists raw, json_marshal c = Some raw
          /\ (setting encKey smtpSettingsKey (w_db w') = Some raw \/ raw = "" /\ setting encKey smtpSettingsKey (w_db w') = None)
      end).
Proof.
  unfold SetSMTP. intros H. assert (Hset : forall v r w', setting_Set encKey smtpSettingsKey v by_ w = (r, w') ->
    (is_ok r = false /\ w_db w' = w_db w) \/ (r = Ok tt
      /\ (v = "" /\ setting encKey smtpSettingsKey (w_db w') = None \/ v <> "" /\ setting encKey smtpSettingsKey (w_db w') = Some v))).
  { intros v r0 w0 [[? ?]|[-> [[-> Hd]|(Hv & enc & He & Hd)]]]%setting_Set_inv; [by left|right; split; [done|]..].
    - left. split; [done|]. rewrite Hd. unfold setting. cbn. by rewrite lookup_delete_eq.
    - right. split; [done|]. rewrite Hd. erewrite setting_insert by done. by rewrite bool_decide_true. }
  destruct cfg as [c|].
  - destruct (json_marshal c) as [raw|] eqn:Em; [|apply fail_inv in H as [-> ->]; by left].
    apply Hset in H as [?|[-> [[-> Hn]|[_ Hs]]]]; [by left | right; split; [done|]; by exists ""; auto | right; split; [done|]].
    exists raw. auto.
  - apply Hset in H as [?|[-> [[_ Hn]|[Hne _]]]]; [by left | by right | done].
Qed.

(** Storing, then answering with the configuration that is active then. *)
Lemma save_inv (active next active' : SMTPConfig) cfg by_ status msg (r : res Reply smtpSettingsResponse) w w' :
  bind (attempt (SetSMTP encKey cfg by_)) (fun x => match x with
    | Err _ => ret (Err (reply_error status msg), active)
    | Ok _ => let* r := GetSMTPHandler encKey next in ret (r, next) end) w = (Ok (r, active'), w') ->
  (active' = active /\ w_db w' = w_db w)
  \/ (exists w1, SetSMTP encKey cfg by_ w = (Ok tt, w1) /\ active' = next /\ w_db w' = w_db w1).
Proof.
  intros (x & w1 & (x' & [= ->] & Hm)%attempt_inv & H)%bind_ok. destruct x' as [[]|e].
  - right. exists w1. apply bind_ok in H as (r1 & w2 & Hr & [Hq ->]%ret_inv). injection Hq as -> ->. split_and!; [done..|].
    assert (Hf : frames eq eq (GetSMTPHandler encKey next)) by (unfold GetSMTPHandler, smtp_status, GetSMTP, setting_Get, refuse; solve_frames).
    specialize (Hf w1). rewrite Hr in Hf. destruct Hf as (_ & _ & _ & Hf). by symmetry.
  - left. apply ret_inv in H as [[= -> ->] ->]. split; [done|]. by apply SetSMTP_inv in Hm as [[_ ?]|[? _]].
Qed.

(** C36. A restart keeps the mail settings: as long as the active configuration
    is the one a restart would load, it still is after every update, accepted
    or refused, whatever the database does, provided that the texts of the
    request are UTF-8, as those of decoded JSON are, and so is the password in
    use, which the environment may have set.  A save without a password keeps
    the one in use when the saved settings have a user name; without a user
    name they have no password. *)
Theorem smtp_survives_restart (env active active' : SMTPConfig) (user : User) (body : option updateSMTPRequest)
    (r : res Reply smtpSettingsResponse) (w w' : World) :
  ValidUTF8 (smtp_Password active) = true -> (forall req, body = Some req -> request_utf8 req) ->
  UpdateSMTPHandler encKey env active user body w = (Ok (r, active'), w') ->
  (forall w0, healthy w0 -> w_db w0 = w_db w -> fst (start_smtp encKey env w0) = Ok active) ->
  (forall w0, healthy w0 -> w_db w0 = w_db w' -> fst (start_smtp encKey env w0) = Ok active')
  /\ (active' = active \/ active' = Normalize env
      \/ (smtp_utf8 active' /\ Validate active' = Ok tt
          /\ forall req, body = Some req -> default "" (usr_Password req) = "" ->
             smtp_Password active' = (if String.eqb (smtp_Username active') "" then "" else smtp_Password active))).
Proof.
  intros Ha Hb H Hbefore.
  assert (Hsame : w_db w' = w_db w -> forall w0, healthy w0 -> w_db w0 = w_db w' -> fst (start_smtp encKey env w0) = Ok active).
  { intros Hd w0 Hw0 E. apply Hbefore; [done | congruence]. }
  unfold UpdateSMTPHandler in H. destruct body as [req|]; [|apply ret_inv in H as [[= -> ->] ->]; split; [by apply Hsame | by left]].
  destruct (Hb req eq_refl) as (Hh & Hu & Hp & Hf & _). cbv zeta in H.
  set (cfg0 := Normalize (mkSMTPConfig _ _ _ "" _ _)) in H. destruct (String.eqb (smtp_Host cfg0) "").
  { apply save_inv in H as [(-> & Hd)|(w1 & Hset & -> & Hd)]; [split; [by apply Hsame | by left]|].
    apply SetSMTP_inv in Hset as [[? _]|[_ Hn]]; [done|]. split; [|by auto]. intros w0 Hw0 E. rewrite start_smtp_run by done.
    unfold loaded. by rewrite E, Hd, Hn. }
  set (pw := match usr_Password req with Some _ => _ | None => _ end) in H. set (X := mkSMTPConfig _ _ _ pw _ _) in H.
  destruct (Validate (Normalize X)) as [[]|e] eqn:Ev; [|apply ret_inv in H as [[= -> ->] ->]; split; [by apply Hsame | by left]].
  assert (HX : texts_utf8 X).
  { unfold texts_utf8, X, cfg0, pw. cbn [smtp_Host smtp_Username smtp_Password smtp_From Normalize].
    split_and!; [by apply TrimSpace_valid.. | | by apply TrimSpace_valid]. cbn [smtp_Password] in Hp.
    destruct (usr_Password req) as [p|]; [|exact Ha]. destruct (String.eqb p ""); [exact Ha | exact Hp]. }
  pose proof (Validate_ok _ Ev) as (_ & _ & Hm & _). destruct (Normalize_fixed X HX Hm) as [Hfix Hutf].
  apply save_inv in H as [(-> & Hd)|(w1 & Hset & -> & Hd)]; [split; [by apply Hsame | by left]|].
  rewrite Hfix. apply SetSMTP_inv in Hset as [[? _]|[_ (raw & Hraw & Hs)]]; [done|].
  pose proof (json_unmarshal_marshal _ _ Hutf Hraw) as Hun. split.
  - intros w0 Hw0 E. rewrite start_smtp_run by done. unfold loaded. rewrite E, Hd.
    destruct Hs as [->|[-> _]]; [|by rewrite json_unmarshal_empty in Hun].
    destruct (String.eqb_spec raw "") as [->|_]; [by rewrite json_unmarshal_empty in Hun|]. by rewrite Hun, !Hfix.
  - right; right. split_and!; [done | done|]. intros req' [= <-] Hpw. unfold X, pw, Normalize.
    cbn [smtp_Username smtp_Password]. destruct (String.eqb (TrimSpace (smtp_Username cfg0)) ""); [done|].
    destruct (usr_Password req) as [p|]; [|done]. cbn in Hpw. by subst p.
Qed.
End restart.

(** ** Witnesses *)

#[local] Existing Instances ascii_tables sample_platform sample_platform_laws.

#[local] Instance sample_mail : MailLibrary := {|
  ParseAddress s := Ok ("Panel", s);
  FromFormat _ _ := Ok tt;
  mail_To _ := Ok tt;
  mail_rfc3339 t := Itoa t
|}.

Definition smtp_utf8b (c : SMTPConfig) : bool :=
  ValidUTF8 (smtp_Host c) && ValidUTF8 (smtp_Username c) && ValidUTF8 (smtp_Password c) && ValidUTF8 (smtp_From c)
  && ValidUTF8 (smtp_TLSMode c).

Lemma smtp_utf8b_spec c : smtp_utf8b c = true <-> smtp_utf8 c.
Proof. unfold smtp_utf8b, smtp_utf8. rewrite !andb_true_iff. tauto. Qed.

Definition smtp_fields (c : SMTPConfig) : string * Z * string * string * string * string :=
  (smtp_Host c, smtp_Port c, smtp_Username c, smtp_Password c, smtp_From c, smtp_TLSMode c).

#[local] Instance sample_smtp_json : Json SMTPConfig := {|
  json_marshal c := Some (String "s" (to_text (smtp_fields c)));
  json_unmarshal s :=
    match s with
    | String _ s' =>
      match of_text (A := string * Z * string * string * string * string) s' with
      | Some (h, p, u, pw, f, t) =>
        let c := mkSMTPConfig h p u pw f t in if smtp_utf8b c then Some c else None
      | None => None
      end
    | EmptyString => None
    end
|}.

#[local] Instance sample_smtp_json_laws : JsonLaws SMTPConfig smtp_utf8.
Proof.
  split; [|  | done].
  - intros c s Hc [= <-]. cbn [json_unmarshal sample_smtp_json]. rewrite of_to_text. destruct c. cbn.
    apply smtp_utf8b_spec in Hc. cbn in Hc. by rewrite Hc.
  - intros s c. cbn [json_unmarshal sample_smtp_json]. destruct s as [|a s]; [done|].
    destruct (of_text s) as [[[[[[h p] u] pw] f] t]|]; [|done]. cbv zeta.
    destruct (smtp_utf8b _) eqn:E; [|done]. intros [= <-]. by apply smtp_utf8b_spec.
Qed.

Definition sample_smtp : SMTPConfig := mkSMTPConfig "mail.example.com" 587 "panel" "pw" "panel@example.com" "starttls".
Definition hostile_payload : NotificationPayload :=
  mkNotificationPayload ("cpu_high" +:+ CRLF +:+ "Bcc: x@evil.example") "critical" "m" 0 4.

(** The line break in the rule type does not reach the header. *)
Lemma mail_safe_witness :
  exists d, smtp_Send (fun _ _ => Ok tt) (fun _ _ _ => Ok tt) sample_smtp hostile_payload "admin@example.com" = Some d
  /\ delivery_safe sample_smtp d
  /\ msg_Subject (snd d) = "[TalePanel Alert] critical " +:+ em_dash +:+ " cpu_high Bcc: x@evil.example".
Proof.
  eexists. split; [vm_compute; reflexivity|]. split; [|vm_compute; reflexivity].
  apply (mail_safe (fun _ _ => Ok tt) (fun _ _ _ => Ok tt) sample_smtp hostile_payload "admin@example.com").
  left. vm_compute. reflexivity.
Defined.

Definition smtp_request : updateSMTPRequest := mkUpdateSMTPRequest " mail.example.com " 0 "panel" (Some "pw") "panel@example.com" "".
Definition smtp_world : World := with_db (with_users {[7%N := sample_user 7 RoleAdmin]} empty_db) empty_world.
Definition no_smtp : SMTPConfig := mkSMTPConfig "" 587 "" "" "" "starttls".
Definition smtp_update := UpdateSMTPHandler (hex_bytes 16 7) no_smtp no_smtp (sample_user 7 RoleAdmin) (Some smtp_request) smtp_world.

(** The saved settings are active at once and after a restart. *)
Lemma smtp_survives_restart_witness :
  exists r w', smtp_update = (Ok (r, sample_smtp), w')
  /\ fst (start_smtp (hex_bytes 16 7) no_smtp w') = Ok sample_smtp.
Proof.
  destruct smtp_update as [x w'] eqn:E.
  assert (Hx : exists r, x = Ok (r, sample_smtp)).
  { replace x with (fst smtp_update) by by rewrite E. eexists. vm_compute. reflexivity. }
  destruct Hx as [r ->]. exists r, w'. split; [done|]. unfold smtp_update in E.
  pose proof E as E0. eapply (smtp_survives_restart (hex_bytes 16 7)) in E as [H _].
  - apply H; [|done]. change w' with (snd (Ok (E := error) (r, sample_smtp), w')). rewrite <- E0. vm_compute. reflexivity.
  - reflexivity.
  - intros req [= <-]. by apply smtp_utf8b_spec.
  - intros w0 Hw0 Hd. rewrite start_smtp_run by done. rewrite Hd. vm_compute. reflexivity.
Defined.
