(* ===== verification/Webhooks.v ===== *)
(** * Delivery of webhooks

    Models the posts of [alerting/notifier.go], the client of
    [alerting/safehttp.go] they use and the loop of [alerting/evaluator.go].

    Of [net/http] the model has what the client's settings decide: the target
    of a connection (the proxy, or the host and port of the URL), the dialer
    that tries the resolved addresses one after the other with its [Control]
    hook before each, and the redirect loop with [CheckRedirect].  What the
    resolver, the network and the receiver answer is the record [Net_], and
    [net/url] is given by [url_parse] and [url_resolve] ([URL.Parse]).  Two
    address families race in the dialer; [net_lookup] gives the addresses in
    the order they are tried.  A request travels on a fresh connection. *)

From stdpp Require Import base numbers list strings option gmap relations.
From Stdlib Require Import Ascii QArith_base.
From S2P Require Import Prelude GoStrings Store Roles Platform Permissions Servers Net Alerts Daemon Mail.

Local Open Scope Z_scope.

(** ** The client *)

Record HttpResponse := mkHttpResponse { resp_StatusCode : Z; resp_Location : string }.

(** What [CheckRedirect] answers: [http.ErrUseLastResponse], [nil] or another error. *)
Inductive Redirect := UseLastResponse | Follow | Stop (e : error).

Record HttpClient := mkHttpClient {
  cl_Timeout : Z;
  cl_Proxy : option (string * string);
  cl_Control : string -> res error unit;
  cl_CheckRedirect : nat -> Redirect
}.

Definition NewSafeHTTPClient (timeout : Z) : HttpClient :=
  mkHttpClient timeout None safeDialControl (fun _ => UseLastResponse).

Record Net_ := mkNet {
  net_lookup : string -> res error (list string);
  net_connect : string -> res error unit;
  net_exchange : string -> bool -> string -> URL -> string -> res error HttpResponse
}.

(** A [*url.Error], and any other error. *)
Inductive goerr :=
| EUrl (Op URL : string) (Err : error)
| EPlain (e : error).

(** What the client did: the connections it opened and the requests it sent,
    with TLS or without. *)
Inductive Act :=
| Connect (address : string)
| Sent (address : string) (tls : bool) (method : string) (u : URL) (body : string).

(** [sysDialer.dialSerial]: the first address that connects; otherwise the
    first error. *)
Fixpoint dialSerial (control : string -> res error unit) (net : Net_) (firstErr : option error)
    (addresses : list string) : list Act * res error string :=
  match addresses with
  | [] => ([], Err (default (ErrNew "missing address") firstErr))
  | a :: rest =>
    let failed e := Some (default (ErrWrap ("dial tcp " +:+ a) e) firstErr) in
    match control a with
    | Err e => dialSerial control net (failed e) rest
    | Ok _ =>
      match net_connect net a with
      | Ok _ => ([Connect a], Ok a)
      | Err e => let '(acts, r) := dialSerial control net (failed e) rest in (Connect a :: acts, r)
      end
    end
  end.

Definition canonicalPort (u : URL) : string :=
  if negb (String.eqb (url_Port u) "") then url_Port u
  else if String.eqb (url_Scheme u) "https" then "443" else "80".

(** [Transport.roundTrip] on a fresh connection. *)
Definition roundTrip (cl : HttpClient) (net : Net_) (method : string) (u : URL) (body : string)
    : list Act * res error HttpResponse :=
  let https := String.eqb (url_Scheme u) "https" in
  if negb (https || String.eqb (url_Scheme u) "http") then ([], Err (ErrNew "unsupported protocol scheme"))
  else if String.eqb (url_Host u) "" then ([], Err (ErrNew "http: no Host in request URL"))
  else
    let '(host, port) := default (url_Hostname u, canonicalPort u) (cl_Proxy cl) in
    match net_lookup net host with
    | Err e => ([], Err (ErrWrap "dial tcp" e))
    | Ok ips =>
      let '(acts, r) := dialSerial (cl_Control cl) net None (map (fun ip => JoinHostPort ip port) ips) in
      match r with
      | Err e => (acts, Err e)
      | Ok a => (acts ++ [Sent a https method u body], net_exchange net a https method u body)
      end
    end.

Section do.
Context (url_resolve : URL -> string -> option URL).

Definition redirects (status : Z) : bool :=
  bool_decide (status ∈ [301; 302; 303; 307; 308]).

(** [redirectBehavior]: the method and whether the body goes along. *)
Definition redirectMethod (method : string) (status : Z) : string :=
  if bool_decide (status ∈ [307; 308]) || String.eqb method "GET" || String.eqb method "HEAD" then method else "GET".

(** [Client.do]; [via] counts the requests made so far.  The default policy of
    a client stops after ten, and so does [fuel]. *)
Fixpoint do_loop (cl : HttpClient) (net : Net_) (fuel via : nat) (method : string) (u : URL) (body : string)
    : list Act * res error HttpResponse :=
  let '(acts, r) := roundTrip cl net method u body in
  match r with
  | Err e => (acts, Err e)
  | Ok resp =>
    if negb (redirects (resp_StatusCode resp)) || String.eqb (resp_Location resp) "" then (acts, Ok resp)
    else match url_resolve u (resp_Location resp) with
    | None => (acts, Err (ErrNew "failed to parse Location header"))
    | Some u' =>
      match cl_CheckRedirect cl (S via) with
      | UseLastResponse => (acts, Ok resp)
      | Stop e => (acts, Err e)
      | Follow =>
        match fuel with
        | O => (acts, Err (ErrNew "stopped after 10 redirects"))
        | S fuel' =>
          let method' := redirectMethod method (resp_StatusCode resp) in
          let '(acts', r') := do_loop cl net fuel' (S via) method' u'
            (if bool_decide (resp_StatusCode resp ∈ [307; 308]) then body else "") in
          (acts ++ acts', r')
        end
      end
    end
  end.

(** [Client.Do]: every error is a [*url.Error] of the first request. *)
Definition Do (cl : HttpClient) (net : Net_) (op method raw : string) (u : URL) (body : string)
    : list Act * res goerr HttpResponse :=
  let '(acts, r) := do_loop cl net 10 0 method u body in
  (acts, match r with Ok resp => Ok resp | Err e => Err (EUrl op raw e) end).
End do.

(** ** The notifiers *)

Record LogEntry := mkLogEntry { log_Msg : string; log_Error : option goerr; log_Status : option Z }.

(** [redactURLError]. *)
Definition redactURLError (err : goerr) : goerr :=
  match err with
  | EUrl op _ e => EPlain (ErrWrap op e)
  | EPlain e => EPlain e
  end.

Section post.
Context `{P : Platform} `{L : MailLibrary} (marshal : json -> res error string) (url_parse : string -> option URL)
        (url_resolve : URL -> string -> option URL).

(** The part the two [Post] methods share; [name] is the prefix of their log lines. *)
Definition post (name : string) (client : HttpClient) (net : Net_) (payload : json) (url : string) : list Act * list LogEntry :=
  match marshal payload with
  | Err e => ([], [mkLogEntry (name +:+ ": marshal failed") (Some (EPlain e)) None])
  | Ok body =>
    match url_parse url with
    | None => ([], [mkLogEntry (name +:+ ": request creation failed")
                      (Some (EUrl "parse" url (ErrNew "invalid URL"))) None])
    | Some u =>
      let '(acts, r) := Do url_resolve client net "Post" "POST" url u body in
      (acts, match r with
             | Err err => [mkLogEntry (name +:+ ": post failed") (Some (redactURLError err)) None]
             | Ok resp =>
               if 300 <=? resp_StatusCode resp
               then [mkLogEntry (name +:+ ": non-2xx response") None (Some (resp_StatusCode resp))] else []
             end)
    end
  end.

(** [NewDiscordNotifier], [NewWebhookNotifier]: their client. *)
Definition NewDiscordNotifier : HttpClient := NewSafeHTTPClient (10 * 1000000000).
Definition NewWebhookNotifier : HttpClient := NewSafeHTTPClient (10 * 1000000000).

Definition DiscordNotifier_Post (net : Net_) (payload : NotificationPayload) (url : string) :=
  post "alert discord" NewDiscordNotifier net (DiscordPost payload) url.

Definition WebhookNotifier_Post (net : Net_) (payload : NotificationPayload) (url : string) :=
  post "alert webhook" NewWebhookNotifier net (WebhookPost payload) url.

(** The goroutines of [Dispatch] that post. *)
Definition deliver (net : Net_) (d : Delivery) : list Act * list LogEntry :=
  match d with
  | SendEmail _ _ => ([], [])
  | PostWebhook p url => WebhookNotifier_Post net p url
  | PostDiscord p url => DiscordNotifier_Post net p url
  end.
End post.

(** ** The evaluator *)

Definition evaluator_interval : Z := 60 * 1000000000.

(** [AlertEvaluator.Start] until its context ends after [ticks] ticks; a
    failed check is logged and the next tick tries again. *)
Fixpoint Start (notify : bool) (ticks : nat) : M (list Notification) :=
  match ticks with
  | O => ret []
  | S n =>
    run* (sleep evaluator_interval) in
    let* r := attempt (EvaluateNodeOffline notify) in
    let* ns := Start notify n in
    ret (match r with Ok l => l | Err _ => [] end ++ ns)
  end.

(** ** Theorems: what a post does *)

Lemma dialSerial_acts control net fe addrs acts r :
  dialSerial control net fe addrs = (acts, r) ->
  (forall x, x ∈ acts -> exists a, x = Connect a /\ a ∈ addrs /\ control a = Ok tt)
  /\ (forall a, r = Ok a -> Connect a ∈ acts).
Proof.
  revert fe acts r. induction addrs as [|a addrs IH]; intros fe acts r H; cbn in H.
  { injection H as <- <-. split; [set_solver | done]. }
  destruct (control a) as [[]|e] eqn:Hc.
  - destruct (net_connect net a).
    + injection H as <- <-. split; [|intros ? [= ->]; set_solver].
      intros x ->%list_elem_of_singleton. exists a. set_solver.
    + destruct (dialSerial _ _ _ addrs) as [acts' r'] eqn:E. injection H as <- <-. apply IH in E as [H1 H2].
      split; [|intros ? ?%H2; set_solver].
      intros x [->|(b & -> & ? & ?)%H1]%elem_of_cons; [exists a | exists b]; set_solver.
  - apply IH in H as [H1 H2]. split; [|done]. intros x (b & -> & ? & ?)%H1. exists b. set_solver.
Qed.

(** An address outside every special-purpose block, whatever its zone. *)
Definition public_address (address : string) : Prop :=
  exists host port a, SplitHostPort address = Some (host, port) /\ ParseAddr host = Some a /\ special (Unmap a) = false.

(** The two addresses the guard takes for public although they are not, as it
    does not see through a zone: :: and those of 64:ff9b::/96. *)
Definition zoned_exception (address : string) : Prop :=
  exists host port a, SplitHostPort address = Some (host, port) /\ ParseAddr host = Some a /\ zone_hole a.

(** Connections to public addresses on port 443, but for the exceptions, and
    then at most one request, a POST over TLS to the given URL on one of them. *)
Definition confined (u : URL) (acts : list Act) : Prop :=
  exists conns last, acts = map Connect conns ++ last
    /\ (forall a, a ∈ conns -> (public_address a \/ zoned_exception a) /\ exists ip, a = JoinHostPort ip "443")
    /\ (last = [] \/ exists a body, a ∈ conns /\ last = [Sent a true "POST" u body]).

Lemma connects (P : string -> Prop) acts :
  (forall x, x ∈ acts -> exists a, x = Connect a /\ P a) -> exists conns, acts = map Connect conns /\ forall a, a ∈ conns -> P a.
Proof.
  induction acts as [|x acts IH]; intros H; [by exists []; set_solver|].
  destruct IH as (conns & -> & Hc); [set_solver|]. destruct (H x) as (a & -> & Ha); [set_solver|].
  exists (a :: conns). set_solver.
Qed.

Section webhook_theorems.
Context `{U : Unicode} `{P : Platform} `{L : MailLibrary}.
Context (marshal : json -> res error string) (url_parse : string -> option URL) (url_resolve : URL -> string -> option URL).

Lemma roundTrip_confined t net u body acts r :
  url_Scheme u = "https" -> url_Port u = "" \/ url_Port u = "443" ->
  roundTrip (NewSafeHTTPClient t) net "POST" u body = (acts, r) -> confined u acts.
Proof.
  intros Hs Hp H. unfold roundTrip in H. rewrite Hs in H. cbn in H.
  assert (Hport : canonicalPort u = "443") by (unfold canonicalPort; rewrite Hs; by destruct Hp as [->| ->]).
  assert (Hnone : confined u []) by (exists [], []; set_solver).
  destruct (String.eqb (url_Host u) ""); [by injection H as <- <-|].
  destruct (net_lookup net _) as [ips|e]; [|by injection H as <- <-]. rewrite Hport in H.
  destruct (dialSerial _ _ _ _) as [acts' r'] eqn:E. apply dialSerial_acts in E as [Hc Hr].
  destruct (connects (fun a => (public_address a \/ zoned_exception a) /\ exists ip, a = JoinHostPort ip "443") acts') as (conns & -> & Hin).
  { intros x (a & -> & Ha & Hok)%Hc. exists a. split_and!; [done | |].
    - destruct (proj1 (webhook_target_guard url_parse) a Hok) as (h & p & ad & H1 & H2 & [H3|H3]);
        [left | right]; by exists h, p, ad.
    - apply list_elem_of_fmap in Ha as (ip & -> & _). by exists ip. }
  destruct r' as [a|e]; injection H as <- <-.
  - exists conns. eexists. split; [done|]. split; [done|]. right. exists a, body. split; [|done].
    specialize (Hr a eq_refl). by apply list_elem_of_fmap in Hr as (? & [= ->] & ?).
  - exists conns, []. rewrite app_nil_r. auto.
Qed.

(** Since the client follows no redirect, its requests are those of one round trip. *)
Lemma Do_once t net op raw u body acts r :
  Do url_resolve (NewSafeHTTPClient t) net op "POST" raw u body = (acts, r) ->
  exists r0, roundTrip (NewSafeHTTPClient t) net "POST" u body = (acts, r0)
    /\ (forall err, r = Err err -> exists e, err = EUrl op raw e).
Proof.
  unfold Do. intros H. cbn [do_loop] in H. destruct (roundTrip _ _ _ _ _) as [acts0 r0]. exists r0.
  destruct r0 as [resp|e]; [|injection H as <- <-; split; [done | intros ? [= <-]; eauto]].
  destruct (negb _ || _); [injection H as <- <-; split; done|].
  destruct (url_resolve u _); injection H as <- <-; split; try done. intros ? [= <-]. eauto.
Qed.

(** A line that carries no URL: no error, or one that is no [*url.Error]. *)
Definition redacted (l : LogEntry) : Prop := forall op url e, log_Error l <> Some (EUrl op url e).

Lemma post_safe name t net payload url u :
  url_parse url = Some u -> url_Scheme u = "https" -> url_Port u = "" \/ url_Port u = "443" ->
  confined u (fst (post marshal url_parse url_resolve name (NewSafeHTTPClient t) net payload url))
  /\ Forall redacted (snd (post marshal url_parse url_resolve name (NewSafeHTTPClient t) net payload url)).
Proof.
  intros Hu Hs Hp. unfold post. destruct (marshal payload) as [body|e].
  2:{ split; [exists [], []; set_solver|]. apply Forall_singleton. by intros ???. }
  rewrite Hu. destruct (Do _ _ _ _ _ _ _ _) as [acts r] eqn:E. cbn. apply Do_once in E as (r0 & E & Hr).
  split; [by eapply roundTrip_confined|]. destruct r as [resp|err].
  - destruct (300 <=? _); [|done]. apply Forall_singleton. by intros ???.
  - destruct (Hr err eq_refl) as [e ->]. apply Forall_singleton. by intros ???.
Qed.

(** The log depends on the URL only through the target and the answers. *)
Lemma post_log_same name t net payload url1 url2 u1 u2 :
  url_parse url1 = Some u1 -> url_parse url2 = Some u2 -> url_Scheme u1 = "https" -> url_Scheme u2 = "https" ->
  url_Port u1 = "" \/ url_Port u1 = "443" -> url_Port u2 = "" \/ url_Port u2 = "443" ->
  url_Host u1 = url_Host u2 -> url_Hostname u1 = url_Hostname u2 ->
  (forall a body, net_exchange net a true "POST" u1 body = net_exchange net a true "POST" u2 body) ->
  (forall loc, is_Some (url_resolve u1 loc) <-> is_Some (url_resolve u2 loc)) ->
  snd (post marshal url_parse url_resolve name (NewSafeHTTPClient t) net payload url1)
  = snd (post marshal url_parse url_resolve name (NewSafeHTTPClient t) net payload url2).
Proof.
  intros Hu1 Hu2 Hs1 Hs2 Hp1 Hp2 Hh Hn Hx Hl. unfold post. destruct (marshal payload) as [body|]; [|done].
  rewrite Hu1, Hu2. unfold Do. cbn [do_loop].
  assert (Hport : canonicalPort u1 = canonicalPort u2).
  { unfold canonicalPort. rewrite Hs1, Hs2. by destruct Hp1 as [->| ->], Hp2 as [->| ->]. }
  assert (Hr : snd (roundTrip (NewSafeHTTPClient t) net "POST" u1 body) = snd (roundTrip (NewSafeHTTPClient t) net "POST" u2 body)).
  { unfold roundTrip. rewrite Hs1, Hs2, Hh, Hn, Hport. cbn. destruct (String.eqb _ _); [done|].
    destruct (net_lookup net _); [|done]. destruct (dialSerial _ _ _ _) as [? [?|?]]; [apply Hx | done]. }
  destruct (roundTrip _ _ _ u1 _) as [a1 r1], (roundTrip _ _ _ u2 _) as [a2 r2]. cbn in Hr. subst r2.
  destruct r1 as [resp|e]; [|done]. destruct (negb _ || _); [done|]. specialize (Hl (resp_Location resp)).
  destruct (url_resolve u1 _) eqn:E1, (url_resolve u2 _) eqn:E2; try done;
    exfalso; [destruct (proj1 Hl) | destruct (proj2 Hl)]; done.
Qed.

(** ** Theorems: from a rule to its webhook *)

(** Every stored rule has no URL or one that the check accepts for its channels. *)
Definition valid_rules (d : DB) : Prop :=
  forall k r, alert_rules d !! k = Some r -> ValidateWebhookURL url_parse (rule_WebhookURL r) (rule_Channels r) = Ok tt.

(** Alerts over time: the operations of the alert service, and deletions of
    users and servers, which take rules with them. *)
Inductive rule_step : World -> World -> Prop :=
| rule_alert w w' : alert_step url_parse w w' -> rule_step w w'
| rule_cascade w w' : alert_rules (w_db w') ⊆ alert_rules (w_db w) -> rule_step w w'.

Lemma valid_rules_sub d d' : alert_rules d' ⊆ alert_rules d -> valid_rules d -> valid_rules d'.
Proof. intros Hs Hv k r Hk. eapply Hv, lookup_weaken; eauto. Qed.

Lemma alert_step_valid w w' : alert_step url_parse w w' -> valid_rules (w_db w) -> valid_rules (w_db w').
Proof.
  intros Hst Hv. destruct Hst as [notify ty subj v w|caller id w|caller req w|rid uid b w|rid uid w|t w Ht].
  - destruct (EvaluateAndFire notify ty subj v w) as [r w'] eqn:E.
    apply EvaluateAndFire_steps in E as (_ & [Hd _]%fire_steps_grow & _). cbn [snd]. rewrite Hd. exact Hv.
  - revert w Hv. change (preserves valid_rules (ResolveEvent caller id)). unfold ResolveEvent. solve_preserves.
    apply preserves_exec. intros d n d' Hd H. destruct (alert_events d !! id); [|by injection H as <- <-].
    destruct (_ || _); by injection H as <- <-.
  - revert w Hv. change (preserves valid_rules (CreateRule url_parse caller req)).
    unfold CreateRule. destruct (ValidateWebhookURL _ _ _) as [[]|] eqn:Hval; [|solve_preserves].
    solve_preserves; try apply HasServerPermission_reads.
    apply preserves_exec. intros d r d' Hd H. unfold insert_rule in H.
    destruct (match _ with Some _ => _ | None => _ end); [done|]. case_bool_decide; [done|].
    destruct (insert_row _ _ _) eqn:Ei; [|done]. apply insert_row_ok in Ei as [_ ->]. injection H as <- <-.
    intros k r' Hk. cbn in Hk. apply lookup_insert_Some in Hk as [[_ <-]|[_ Hk]]; [done | by eapply Hd].
  - revert w Hv. change (preserves valid_rules (ToggleRule rid uid b)). unfold ToggleRule. solve_preserves.
    apply preserves_exec. intros d n d' Hd H. unfold change_rule in H.
    destruct (alert_rules d !! rid); [|by injection H as <- <-]. destruct (own_rule _ _); injection H as <- <-; [|done].
    intros k r' Hk. cbn in Hk. apply lookup_alter_Some in Hk as [(-> & r0 & Hk & ->)|[_ Hk]]; by eapply Hd in Hk.
  - revert w Hv. change (preserves valid_rules (DeleteRule rid uid)). unfold DeleteRule. solve_preserves.
    apply preserves_exec. intros d n d' Hd H. unfold change_rule in H.
    destruct (alert_rules d !! rid); [|by injection H as <- <-]. destruct (own_rule _ _); injection H as <- <-; [|done].
    eapply valid_rules_sub; [|exact Hd]. apply delete_subseteq.
  - done.
Qed.

Lemma rule_steps_valid w w' : rtc rule_step w w' -> valid_rules (w_db w) -> valid_rules (w_db w').
Proof.
  induction 1 as [|w1 w2 w3 Hs _ IH]; [done|]. intros Hv. apply IH.
  destruct Hs; [by eapply alert_step_valid | by eapply valid_rules_sub].
Qed.

(** The notifications of a run name webhooks the check accepts. *)
Definition valid_note (n : Notification) : Prop := ValidateWebhookURL url_parse (nt_webhook n) (nt_channels n) = Ok tt.

Definition notifies (m : M (list Notification)) : Prop :=
  forall w r w', valid_rules (w_db w) -> m w = (r, w') -> valid_rules (w_db w') /\ forall ns, r = Ok ns -> Forall valid_note ns.

Lemma EvaluateAndFire_notifies notify ty subj v : notifies (EvaluateAndFire notify ty subj v).
Proof.
  intros w r w' Hv H. pose proof (step_fire url_parse notify ty subj v w) as Hst. rewrite H in Hst. split; [by eapply alert_step_valid|].
  apply EvaluateAndFire_steps in H as (_ & _ & Hns). intros ns Hr. apply Forall_forall. intros n Hn.
  apply (Hns ns Hr) in Hn as (rid & rule & _ & [Hl _]%matching_rules_elem & (_ & _ & _ & Hw & Hc & _) & _).
  unfold valid_note. rewrite Hw, Hc. by eapply Hv.
Qed.

(** A run that goes on after a failed part. *)
Lemma notifies_then m k :
  notifies m -> notifies k ->
  notifies (let* r := attempt m in let* ns := k in ret (match r with Ok l => l | Err _ => [] end ++ ns)).
Proof.
  intros Hm Hk w r w' Hv [(x & w1 & (r1 & [= ->] & H1)%attempt_inv & H)|(e & (? & ? & ?)%attempt_inv & _)]%bind_inv; [|done].
  apply Hm in H1 as [Hv1 H1]; [|done].
  apply bind_inv in H as [(ns & w2 & H2 & [-> ->]%ret_inv)|(e & H2 & ->)]; apply Hk in H2 as [Hv2 H2]; try done.
  split; [done|]. intros ? [= <-]. apply Forall_app. split; [|by apply H2]. destruct r1; [by apply H1 | done].
Qed.

Lemma offline_loop_notifies notify ids : notifies (offline_loop notify ids).
Proof.
  induction ids as [|id ids IH]; cbn [offline_loop]; [|by apply notifies_then; [apply EvaluateAndFire_notifies|]].
  intros w r w' Hv [-> ->]%ret_inv. split; [done|]. by intros ? [= <-].
Qed.

Lemma EvaluateNodeOffline_notifies notify : notifies (EvaluateNodeOffline notify).
Proof.
  intros w r w' Hv [(t & w1 & [_ ->]%now_inv & H)|(e & [? _]%now_inv & _)]%bind_inv; [|done].
  assert (Hq : forall A msg (f : DB -> res error A) w r w', wrap msg (query f) w = (r, w') -> w_db w' = w_db w).
  { intros A msg f w0 r0 w0' H0. by apply wrap_inv in H0 as [(a & _ & [-> _]%query_inv)|(e & _ & [-> _]%query_inv)]. }
  apply bind_inv in H as [(ids & w2 & H2%Hq & H)|(e & H2%Hq & ->)].
  - eapply offline_loop_notifies; [|exact H]. by rewrite H2.
  - rewrite H2. done.
Qed.

Lemma Start_notifies notify ticks : notifies (Start notify ticks).
Proof.
  induction ticks as [|n IH]; cbn [Start].
  - intros w r w' Hv [-> ->]%ret_inv. split; [done|]. by intros ? [= <-].
  - intros w r w' Hv H. unfold sleep, bind at 1 in H. cbn in H. eapply notifies_then in H; [exact H | | exact IH | exact Hv].
    apply EvaluateNodeOffline_notifies.
Qed.

(** What sends notifications: a report, and the evaluator over some ticks. *)
Inductive alert_source : M (list Notification) -> Prop :=
| source_report notify ty subj v : alert_source (EvaluateAndFire notify ty subj v)
| source_evaluator notify ticks : alert_source (Start notify ticks).

Lemma source_notifies m : alert_source m -> notifies m.
Proof. intros []; [apply EvaluateAndFire_notifies | apply Start_notifies]. Qed.

Lemma Dispatch_web (mn : MultiNotifier) p chs to url dl :
  dl ∈ Dispatch mn p chs to url ->
  (exists q, dl = SendEmail q to) \/ url <> "" /\ (dl = PostWebhook p url \/ dl = PostDiscord p url /\ "discord" ∈ chs).
Proof.
  unfold Dispatch. rewrite list_elem_of_In, in_flat_map. intros (ch & Hch%list_elem_of_In & H).
  destruct (String.eqb ch "email") eqn:E1.
  { destruct (_ && _); cbn in H; [|done]. destruct H as [<-|[]]. left. by eexists. }
  right. destruct (String.eqb ch "webhook") eqn:E2; [|destruct (String.eqb ch "discord") eqn:E3; [|done]];
    (destruct (_ && _) eqn:E; cbn in H; [|done]; destruct H as [<-|[]]; breflect; (split; [by intros ->|])); [by left|].
  right. split; [done|]. by subst.
Qed.

(** C11. However rules were created, switched and deleted before and whatever a
    rule says, an alert that fires, from a report or from the evaluator,
    connects for its webhook only to public addresses on port 443, whatever
    the name of the host resolves to at that moment, with one exception: an
    IPv6 address that carries a zone passes as public also when it is :: or
    lies in 64:ff9b::/96.  It sends at most one request, a POST over TLS to the URL of the rule: an answer that redirects
    is not followed.  A Discord channel is posted to a webhook path on a
    Discord host only.  No line of the log carries the URL of the request. *)
Theorem webhooks_confined (net : Net_) (m : M (list Notification)) (mn : MultiNotifier) (w w' w2 : World)
    (ns : list Notification) (n : Notification) (dl : Delivery) :
  valid_rules (w_db w) -> rtc rule_step w w' -> alert_source m -> m w' = (Ok ns, w2) -> n ∈ ns ->
  dl ∈ Dispatch mn (nt_payload n) (nt_channels n) (nt_email n) (nt_webhook n) ->
  Forall redacted (snd (deliver marshal url_parse url_resolve net dl))
  /\ (fst (deliver marshal url_parse url_resolve net dl) = []
      \/ exists u, url_parse (nt_webhook n) = Some u /\ url_HasUser u = false
           /\ confined u (fst (deliver marshal url_parse url_resolve net dl))
           /\ (dl = PostDiscord (nt_payload n) (nt_webhook n) ->
                 ToLower (url_Hostname u) ∈ discordWebhookHosts /\ HasPrefix (url_EscapedPath u) "/api/webhooks/" = true)).
Proof.
  intros Hv Hst Hm Hrun Hn Hdl. eapply rule_steps_valid in Hv; [|exact Hst].
  apply source_notifies in Hm. apply Hm in Hrun as [_ Hns]; [|done].
  specialize (Hns ns eq_refl). rewrite Forall_forall in Hns. specialize (Hns n Hn).
  apply Dispatch_web in Hdl as [[q ->]|[Hne Hdl]]; [by split; [|left]|].
  destruct (proj2 (webhook_target_guard url_parse) _ _ Hne Hns) as (u & Hu & Hs & Hus & Hp & _ & _ & Hd).
  destruct Hdl as [->|[-> Hch]]; cbn [deliver];
    (edestruct post_safe as [Hc Hl]; [exact Hu | exact Hs | exact Hp |]); (split; [exact Hl|]); right; exists u;
    split_and!; try done; intros _; by apply Hd.
Qed.

(** C40. The log of a post says nothing of the secret part of the webhook's URL:
    two accepted URLs with the same host, for which the receiver answers
    alike, leave the same lines. *)
Theorem webhook_log_hides_secret (net : Net_) (payload : NotificationPayload) (url1 url2 : string) (u1 u2 : URL) (chs : list string) :
  url1 <> "" -> ValidateWebhookURL url_parse url1 chs = Ok tt -> url_parse url1 = Some u1 ->
  url2 <> "" -> ValidateWebhookURL url_parse url2 chs = Ok tt -> url_parse url2 = Some u2 ->
  url_Host u1 = url_Host u2 -> url_Hostname u1 = url_Hostname u2 ->
  (forall a body, net_exchange net a true "POST" u1 body = net_exchange net a true "POST" u2 body) ->
  (forall loc, is_Some (url_resolve u1 loc) <-> is_Some (url_resolve u2 loc)) ->
  snd (WebhookNotifier_Post marshal url_parse url_resolve net payload url1)
  = snd (WebhookNotifier_Post marshal url_parse url_resolve net payload url2)
  /\ snd (DiscordNotifier_Post marshal url_parse url_resolve net payload url1)
  = snd (DiscordNotifier_Post marshal url_parse url_resolve net payload url2).
Proof.
  intros H1 V1 P1 H2 V2 P2 Hh Hn Hx Hl.
  destruct (proj2 (webhook_target_guard url_parse) _ _ H1 V1) as (u & Hu & Hs1 & _ & Hp1 & _). simplify_eq.
  destruct (proj2 (webhook_target_guard url_parse) _ _ H2 V2) as (u & Hu & Hs2 & _ & Hp2 & _). simplify_eq.
  split; by eapply post_log_same.
Qed.
End webhook_theorems.

(** A Discord webhook whose host resolves to a metadata address first and to a
    public one second, and that answers with a redirect to the inside. *)
Definition hook_url (secret : string) : string := "https://discord.com/api/webhooks/1/" +:+ secret.

Definition hook_parse (raw : string) : option URL :=
  Some (mkURL "https" false "discord.com" "" (str_drop 19 raw) "discord.com" (str_drop 19 raw)).

Definition rebinding : Net_ :=
  mkNet (fun _ => Ok ["169.254.169.254"; "93.184.216.34"]) (fun _ => Ok tt)
    (fun _ _ _ _ _ => Ok (mkHttpResponse 302 "http://10.0.0.1/")).

Definition hook_request : CreateAlertRuleRequest := mkCreateAlertRuleRequest (Some 3%N) "server_crashed" None ["discord"] (hook_url "s3cret").

Definition no_rules : World := with_db (with_alert_rules ∅ (w_db alert_world)) alert_world.

Lemma webhooks_confined_witness :
  let w' := snd (CreateRule (U := ascii_tables) (P := sample_platform) hook_parse (alert_user 5 RoleUser "o@x.de") hook_request no_rules) in
  let note := mkNotification (mkNotificationPayload "server_crashed" "critical" "Alert: server_crashed" 5000 3) ["discord"] "o@x.de" (hook_url "s3cret") in
  let dl := PostDiscord (nt_payload note) (hook_url "s3cret") in
  let acts := fst (deliver (P := sample_platform) (L := sample_mail) (fun _ => Ok "{}") hook_parse (fun _ _ => Some (mkURL "http" false "10.0.0.1" "" "/" "10.0.0.1" "/")) rebinding dl) in
  fst (EvaluateAndFire true "server_crashed" 3 0%Q w') = Ok [note]
  /\ acts = [Connect "93.184.216.34:443";
             Sent "93.184.216.34:443" true "POST" (default (mkURL "" false "" "" "" "" "") (hook_parse (hook_url "s3cret"))) "{}"]
  /\ exists u, hook_parse (nt_webhook note) = Some u /\ confined u acts.
Proof.
  intros w' note dl acts. split; [vm_compute; reflexivity|]. split; [vm_compute; reflexivity|].
  destruct (EvaluateAndFire true "server_crashed" 3 0%Q w') as [r w2] eqn:E.
  assert (Hr : r = Ok [note]) by (replace r with (fst (EvaluateAndFire true "server_crashed" 3 0%Q w')) by (by rewrite E); vm_compute; reflexivity).
  subst r.
  destruct (webhooks_confined (U := ascii_tables) (P := sample_platform) (L := sample_mail) (fun _ => Ok "{}") hook_parse
    (fun _ _ => Some (mkURL "http" false "10.0.0.1" "" "/" "10.0.0.1" "/")) rebinding
    (EvaluateAndFire true "server_crashed" 3 0%Q) (mkMultiNotifier true true true) no_rules w' w2 [note] note dl) as [_ [H|(u & Hu & _ & Hc & _)]].
  - intros k rule H. vm_compute in H. by destruct k.
  - apply rtc_once, rule_alert, step_create.
  - apply source_report.
  - exact E.
  - by left.
  - by left.
  - exfalso. revert H. vm_compute. done.
  - exists u. done.
Defined.

(** Two secrets, one log: a lost connection is reported without the URL. *)
Lemma webhook_log_hides_secret_witness :
  let log secret := snd (WebhookNotifier_Post (P := sample_platform) (L := sample_mail) (fun _ => Ok "{}") hook_parse (fun _ _ => None)
    (mkNet (fun _ => Ok ["93.184.216.34"]) (fun _ => Ok tt) (fun _ _ _ _ _ => Err (ErrNew "connection reset")))
    (mkNotificationPayload "server_crashed" "critical" "" 5000 3) (hook_url secret)) in
  log "one" = log "two"
  /\ log "one" = [mkLogEntry "alert webhook: post failed" (Some (EPlain (ErrWrap "Post" (ErrNew "connection reset")))) None].
Proof.
  intros log. split; [|vm_compute; reflexivity].
  eapply (webhook_log_hides_secret (U := ascii_tables) (P := sample_platform) (L := sample_mail) _ hook_parse _ _ _ (hook_url "one") (hook_url "two")
    _ _ ["discord"]); try reflexivity; try (vm_compute; reflexivity); done.
Defined.

(** ** Where the code and its intent part *)

(** The error of a URL that does not parse is logged as it is, with the URL in
    it; the URL of a rule always parses, since the check parsed it. *)
Theorem unparsed_url_is_logged `{P : Platform} `{L : MailLibrary} (marshal : json -> res error string) (url_parse : string -> option URL)
    (url_resolve : URL -> string -> option URL) (net : Net_) (payload : NotificationPayload) (url body : string) :
  marshal (WebhookPost payload) = Ok body -> url_parse url = None ->
  exists l e, snd (WebhookNotifier_Post marshal url_parse url_resolve net payload url) = [l] /\ log_Error l = Some (EUrl "parse" url e).
Proof. intros Hm Hu. unfold WebhookNotifier_Post, post. rewrite Hm, Hu. cbn. eauto. Qed.
