(* ===== verification/Backups.v ===== *)
(** * Backups

    Models [services/backup_service.go]: the records of backups, the jobs that
    archive a server on its node and copy the archive off site, restoring and
    downloading, retention, and the schedules.  A goroutine the code starts is
    a [Job] in the result of the method that starts it, and [run_job] runs it.
    The service always has its settings and destinations, as the router
    constructs it.  The archive job and the copy run on contexts of 30 minutes
    and six hours; when one ends in a call to the node, what follows on it is
    neither sent nor stored.  A text parameter of a statement must be UTF-8 without a
    NUL byte, or PostgreSQL refuses the statement. *)

From stdpp Require Import base numbers list strings option gmap relations sorting.
From Stdlib Require Import Ascii.
From S2P Require Import Prelude GoStrings Cron Store Platform Crypto Net Servers Daemon Settings Destinations.

Local Open Scope Z_scope.

Definition ErrBackupNotFound : error := ErrNew "backup not found".
Definition ErrScheduleNotFound : error := ErrNew "backup schedule not found".

(** The world name of a request is only listed and is left out. *)
Record CreateBackupRequest := mkCreateBackupRequest {
  cbr_ServerID : uuid;
  cbr_Type : string;
  cbr_Storage : string;
  cbr_DestinationID : option uuid
}.

Record CreateScheduleRequest := mkCreateScheduleRequest {
  csr_ServerID : uuid;
  csr_CronExpr : string;
  csr_Type : string;
  csr_Storage : string;
  csr_RetentionCount : option Z;
  csr_RetentionDays : option Z;
  csr_DestinationID : option uuid
}.

Definition maxUploadErrorLen : Z := 2000.

(** A goroutine of the service; the node is the id the pool is asked for. *)
Inductive Job :=
| JobBackup (backupID serverID nodeID : uuid) (destinationID : option uuid) (enc : option EncKey)
| JobUpload (backupID serverID nodeID destinationID : uuid)
| JobRestore (backupID serverID nodeID : uuid) (destinationID : option uuid) (remote : option RemoteSpec)
    (enc : option EncKey).

Definition truncateError (msg : string) : string :=
  if maxUploadErrorLen <? len msg then str_take (Z.to_nat maxUploadErrorLen) msg +:+ "..." else msg.

(** [UPDATE backups SET ... WHERE id = $1]. *)
Definition update_backup (id : uuid) (f : Backup -> Backup) (d : DB) : DB :=
  with_backups (alter f id (backups d)) d.

Definition exec_backup (id : uuid) (f : Backup -> Backup) : M unit :=
  exec (fun d => Ok (tt, update_backup id f d)).

(** Newest first. *)
Definition newer (a b : Backup) : bool := backup_CreatedAt b <=? backup_CreatedAt a.

Section service.
Context `{P : Platform} `{T : Json json} `{S : Json (gmap string string)} `{K : Json Keyring} `{J : DaemonJson}
  `{Loc : Location} (encKey : string).

(** ** Keys *)

Definition activeEncKey : M EncKey :=
  let* kr := BackupKeyring encKey in
  match ActiveKey kr with
  | None => fail (ErrNew "backup keyring has no active key")
  | Some (id, key) => ret (mkEncKey key id)
  end.

Definition encKeyForBackup (backupID : uuid) : M (option EncKey) :=
  let* b := wrap "loading backup key id" (query (fun d => get_key (backups d) backupID)) in
  match backup_EncKeyID b with
  | None => ret None
  | Some id =>
    let* kr := BackupKeyring encKey in
    match KeyByID kr (id mod 256) with
    | None => fail (ErrNew ("the key that encrypted this backup (id " +:+ Itoa id +:+ ") is missing from the keyring"))
    | Some key => ret (Some (mkEncKey key (id mod 256)))
    end
  end.

(** ** Records *)

Definition backup_node (serverID : uuid) : M uuid :=
  let* r := attempt (query (fun d => get_key (servers d) serverID)) in
  match r with
  | Ok s => ret (server_NodeID s)
  | Err e => if error_Is e ErrNoRows then fail ErrServerNotFound else fail (ErrWrap "resolving server node" e)
  end.

Definition getBackup (backupID : uuid) : M Backup :=
  let* r := attempt (query (fun d => get_key (backups d) backupID)) in
  match r with
  | Ok b => ret b
  | Err e => if error_Is e ErrNoRows then fail ErrBackupNotFound else fail (ErrWrap "fetching backup" e)
  end.

Definition ListBackups (serverID : option uuid) : M (list Backup) :=
  wrap "querying backups" (query (fun d => Ok (take 100 (order_by newer (rows (backups d) (fun b =>
    match serverID with
    | Some sid => bool_decide (backup_ServerID b = Some sid)
    | None => true
    end)))))).

Definition checkDestination (id : option uuid) : M unit :=
  match id with
  | None => ret tt
  | Some id =>
    let* ok := wrap "checking destination" (DestinationExists id) in
    if ok then ret tt else fail ErrDestinationNotFound
  end.

Definition dangling_ref {A} (t : gmap uuid A) (k : option uuid) : bool :=
  match k with Some k => bool_decide (t !! k = None) | None => false end.

Definition backup_types : list string := ["full"; "world"; "files"].

Definition insert_backup (b : Backup) (d : DB) : res error (unit * DB) :=
  if negb (contains backup_types (backup_Type b)) then Err (ErrConstraint "backup_type")
  else if dangling_ref (servers d) (backup_ServerID b) then Err (ErrConstraint "backups_server_id_fkey")
  else if dangling_ref (backup_destinations d) (backup_DestinationID b)
  then Err (ErrConstraint "backups_destination_id_fkey")
  else match insert_row (backup_ID b) b (backups d) with
       | Err e => Err e
       | Ok t => Ok (tt, with_backups t d)
       end.

Definition createBackup (req : CreateBackupRequest) (triggeredBy : string) : M (Backup * Job) :=
  let type := if String.eqb (cbr_Type req) "" then "full" else cbr_Type req in
  run* checkDestination (cbr_DestinationID req) in
  let* nodeID := backup_node (cbr_ServerID req) in
  let storagePath := "backups/" +:+ uuid_string (cbr_ServerID req) in
  let uploadStatus := match cbr_DestinationID req with Some _ => Some "pending" | None => None end in
  let* enc := activeEncKey in
  let* id := new_uuid in
  let* t := now in
  run* wrap "creating backup" (exec (insert_backup
         (mkBackup id (Some (cbr_ServerID req)) type "local" storagePath None "pending" triggeredBy t None None
            (cbr_DestinationID req) None uploadStatus None true (Some (enc_KeyID enc))))) in
  let* b := getBackup id in
  ret (b, JobBackup (backup_ID b) (cbr_ServerID req) nodeID (cbr_DestinationID req) (Some enc)).

Definition CreateBackup (req : CreateBackupRequest) : M (Backup * Job) := createBackup req "manual".

(** ** The archive job *)

(** The row a failed archive leaves. *)
Definition failed_backup (msg : string) (b : Backup) : Backup :=
  backup_with_UploadStatus (match backup_UploadStatus b with None => None | Some _ => Some "failed" end)
  (backup_with_UploadError (match backup_UploadStatus b with None => None | Some _ => Some "backup archive failed" end)
  (backup_with_Error (Some msg) (backup_with_Status "failed" b))).

(** [failBackup] and [failUpload] run on the context of their job, which has
    [ended] when the call that failed was cut off by it. *)
Definition failBackup (ended : bool) (backupID : uuid) (msg : string) : M unit :=
  ignore (stmt_on ended (exec (fun d => text_param msg (Ok (tt, update_backup backupID (failed_backup msg) d))))).

Definition failUpload (ended : bool) (backupID : uuid) (msg : string) : M unit :=
  ignore (stmt_on ended (exec (fun d => text_param (truncateError msg) (Ok (tt, update_backup backupID (fun b =>
    backup_with_UploadStatus (Some "failed") (backup_with_UploadError (Some (truncateError msg)) b)) d))))).

(** One copy beyond the retention of a destination, and whether the context of
    the job has ended by then. *)
Definition prune_copy (ended : bool) (client : Client) (spec : RemoteSpec) (serverID destinationID : uuid) (o : Backup)
  : M bool :=
  let* res := call_on ended (client_DeleteRemoteBackup client serverID (backup_ID o) spec) in
  match res with
  | Err e => run* saveUpdatesFromErr encKey destinationID e in ret (derr_Expired e)
  | Ok r =>
    run* ApplyConfigUpdates encKey destinationID (rr_ConfigUpdates r) in
    run* (if backup_LocalPresent o then
            ignore (exec_backup (backup_ID o) (fun b =>
              backup_with_UploadStatus None (backup_with_UploadError None (backup_with_RemotePath None b))))
          else ignore (exec (fun d => Ok (tt, with_backups (delete (backup_ID o) (backups d)) d)))) in
    ret false
  end.

Fixpoint prune_copies (ended : bool) (client : Client) (spec : RemoteSpec) (serverID destinationID : uuid) (l : list Backup)
  : M unit :=
  match l with
  | [] => ret tt
  | o :: l' =>
    let* ended' := prune_copy ended client spec serverID destinationID o in
    prune_copies ended' client spec serverID destinationID l'
  end.

Definition uploaded_to (serverID destinationID : uuid) (b : Backup) : bool :=
  bool_decide (backup_ServerID b = Some serverID) && bool_decide (backup_DestinationID b = Some destinationID)
  && bool_decide (backup_UploadStatus b = Some "done").

Definition pruneRemote (ended : bool) (client : Client) (spec : RemoteSpec) (serverID destinationID : uuid) (keep : Z)
  : M unit :=
  let* r := attempt (stmt_on ended (query (fun d => Ok (drop (Z.to_nat keep)
              (order_by newer (rows (backups d) (uploaded_to serverID destinationID))))))) in
  match r with
  | Err _ => ret tt
  | Ok olds => prune_copies ended client spec serverID destinationID olds
  end.

(** After the copy is recorded: the local archive and the older copies. *)
Definition after_upload (client : Client) (spec : RemoteSpec) (dest : BackupDestination)
    (backupID serverID destinationID : uuid) : M unit :=
  let* ended := (if negb (bd_KeepLocal dest) then
                   let* r := client_DeleteBackupArchive client serverID backupID in
                   match r with
                   | Err e => ret (derr_Expired e)
                   | Ok _ => run* ignore (exec_backup backupID (backup_with_LocalPresent false)) in ret false
                   end
                 else ret false) in
  match bd_RetentionCount dest with
  | Some n => if 0 <? n then pruneRemote ended client spec serverID destinationID n else ret tt
  | None => ret tt
  end.

(** The copy has a context of its own, of six hours; the archive job before it
    one of 30 minutes. *)
Definition uploadBackup (backupID serverID nodeID destinationID : uuid) : M unit :=
  let* sd := attempt (remoteSpec encKey destinationID) in
  match sd with
  | Err e => failUpload false backupID ("backup destination is no longer available: " +:+ error_Error e)
  | Ok (spec, dest) =>
    let* c := pool_Get nodeID in
    match c with
    | Err _ => failUpload false backupID "daemon not connected"
    | Ok client =>
      run* ignore (exec_backup backupID (fun b => backup_with_UploadStatus (Some "uploading") (backup_with_UploadError None b))) in
      let* res := client_UploadBackup client serverID backupID spec in
      match res with
      | Err e =>
        run* saveUpdatesFromErr encKey destinationID e in
        failUpload (derr_Expired e) backupID (derr_Error e)
      | Ok r =>
        run* ApplyConfigUpdates encKey destinationID (rr_ConfigUpdates r) in
        let* u := attempt (exec (fun d => text_param (rr_RemotePath r) (Ok (tt, update_backup backupID (fun b =>
                    backup_with_UploadStatus (Some "done") (backup_with_UploadError None
                      (backup_with_RemotePath (Some (rr_RemotePath r)) b))) d)))) in
        match u with
        | Err _ => ret tt
        | Ok _ => after_upload client spec dest backupID serverID destinationID
        end
      end
    end
  end.

Definition runBackup (backupID serverID nodeID : uuid) (destinationID : option uuid) (enc : option EncKey) : M unit :=
  let* c := pool_Get nodeID in
  match c with
  | Err _ => failBackup false backupID "daemon not connected"
  | Ok client =>
    run* ignore (exec_backup backupID (backup_with_Status "running")) in
    let* res := client_CreateBackup client serverID backupID enc in
    match res with
    | Err e => failBackup (derr_Expired e) backupID (derr_Error e)
    | Ok r =>
      let* t := now in
      let* u := attempt (exec (fun d => text_param (bcr_StoragePath r) (Ok (tt, update_backup backupID (fun b =>
                  backup_with_Status "completed" (backup_with_SizeBytes (Some (bcr_SizeBytes r))
                    (backup_with_StoragePath (bcr_StoragePath r) (backup_with_CompletedAt (Some t)
                      (backup_with_Error None b))))) d)))) in
      match u with
      | Err _ => ret tt
      | Ok _ => match destinationID with
                | Some dest => uploadBackup backupID serverID nodeID dest
                | None => ret tt
                end
      end
    end
  end.

Definition RetryUpload (backupID : uuid) : M (Backup * Job) :=
  let* b := getBackup backupID in
  match backup_DestinationID b, backup_ServerID b with
  | Some dest, Some serverID =>
    if negb (String.eqb (backup_Status b) "completed") then fail (ErrNew "backup has no off-site copy to upload")
    else if match backup_UploadStatus b with
            | Some s => String.eqb s "done" || String.eqb s "uploading"
            | None => false
            end
    then fail (ErrNew ("upload is already " +:+ default "" (backup_UploadStatus b)))
    else if negb (backup_LocalPresent b) then fail (ErrNew "the local archive is gone; nothing to upload")
    else
      let* nodeID := backup_node serverID in
      run* ignore (exec_backup backupID (fun b => backup_with_UploadStatus (Some "pending") (backup_with_UploadError None b))) in
      ret (backup_with_UploadStatus (Some "pending") (backup_with_UploadError None b),
           JobUpload backupID serverID nodeID dest)
  | _, _ => fail (ErrNew "backup has no off-site copy to upload")
  end.

(** ** Ownership, deletion, restoring, downloading *)

(** A NULL server_id cannot be scanned into a UUID. *)
Definition BackupServerID (backupID : uuid) : M uuid :=
  let* r := attempt (query (fun d => get_key (backups d) backupID)) in
  match r with
  | Ok b => match backup_ServerID b with Some sid => ret sid | None => fail (ErrNew "cannot scan NULL into uuid") end
  | Err e => if error_Is e ErrNoRows then fail ErrBackupNotFound else fail e
  end.

Definition ScheduleServerID (scheduleID : uuid) : M uuid :=
  let* r := attempt (query (fun d => get_key (backup_schedules d) scheduleID)) in
  match r with
  | Ok s => ret (schedule_ServerID s)
  | Err e => if error_Is e ErrNoRows then fail ErrBackupNotFound else fail e
  end.

(** The connected node of a server, if there is one. *)
Definition node_client (serverID : uuid) : M (option Client) :=
  let* n := attempt (backup_node serverID) in
  match n with
  | Err _ => ret None
  | Ok nodeID => let* c := pool_Get nodeID in ret (match c with Ok c => Some c | Err _ => None end)
  end.

(** The off-site copy of a backup that is deleted. *)
Definition delete_copy (b : Backup) (serverID : uuid) (client : option Client) : M unit :=
  match backup_DestinationID b with
  | Some dest =>
    if bool_decide (backup_UploadStatus b = Some "done") then
      let* s := attempt (remoteSpec encKey dest) in
      match s with
      | Err e => if error_Is e ErrDestinationNotFound then ret tt else fail e
      | Ok (spec, _) =>
        match client with
        | None => fail (ErrNew "daemon not connected; cannot delete the off-site copy")
        | Some c =>
          let* res := client_DeleteRemoteBackup c serverID (backup_ID b) spec in
          match res with
          | Err e =>
            run* saveUpdatesFromErr encKey dest e in
            fail (ErrWrap "could not delete the off-site copy" (ErrNew (derr_Error e)))
          | Ok r => ApplyConfigUpdates encKey dest (rr_ConfigUpdates r)
          end
        end
      end
    else ret tt
  | None => ret tt
  end.

Definition DeleteBackup (backupID : uuid) : M unit :=
  let* b := getBackup backupID in
  let* ended :=
    match backup_ServerID b with
    | None => ret false
    | Some serverID =>
      let* client := node_client serverID in
      run* delete_copy b serverID client in
      match client with
      | Some c => if backup_LocalPresent b
                  then let* r := client_DeleteBackupArchive c serverID backupID in ret (ctx_ended r)
                  else ret false
      | None => ret false
      end
    end in
  let* n := wrap "deleting backup" (stmt_on ended (exec (fun d =>
              match backups d !! backupID with
              | None => Ok (0%nat, d)
              | Some _ => Ok (1%nat, with_backups (delete backupID (backups d)) d)
              end))) in
  if (n =? 0)%nat then fail ErrBackupNotFound else ret tt.

Definition remoteSourceFor (b : Backup) : M (option RemoteSpec) :=
  if backup_LocalPresent b then ret None
  else match backup_DestinationID b with
       | Some dest =>
         if bool_decide (backup_UploadStatus b = Some "done") then
           let* (spec, _) := wrap "off-site destination unavailable" (remoteSpec encKey dest) in ret (Some spec)
         else fail (ErrNew "the local archive was removed and no off-site copy is available")
       | None => fail (ErrNew "the local archive was removed and no off-site copy is available")
       end.

Definition RestoreBackup (backupID : uuid) : M (Backup * Job) :=
  let* b := getBackup backupID in
  if negb (String.eqb (backup_Status b) "completed")
  then fail (ErrNew ("backup is not restorable (status: " +:+ backup_Status b +:+ ")"))
  else match backup_ServerID b with
       | None => fail (ErrNew "backup has no associated server")
       | Some serverID =>
         let* nodeID := backup_node serverID in
         let* remote := remoteSourceFor b in
         let* enc := encKeyForBackup backupID in
         ret (b, JobRestore backupID serverID nodeID (backup_DestinationID b) remote enc)
       end.

Definition runRestore (backupID serverID nodeID : uuid) (destinationID : option uuid) (remote : option RemoteSpec)
    (enc : option EncKey) : M unit :=
  let* c := pool_Get nodeID in
  match c with
  | Err _ => ret tt
  | Ok client =>
    match remote with
    | Some spec =>
      let* r := client_RestoreBackupFrom client serverID backupID (Some spec) enc in
      match r, destinationID with
      | Err e, Some dest => saveUpdatesFromErr encKey dest e
      | _, _ => ret tt
      end
    | None => let* _ := client_RestoreBackup client serverID backupID enc in ret tt
    end
  end.

Definition run_job (j : Job) : M unit :=
  match j with
  | JobBackup b s n d e => runBackup b s n d e
  | JobUpload b s n d => uploadBackup b s n d
  | JobRestore b s n d r e => runRestore b s n d r e
  end.

(** The archive and the name it is offered under. *)
Definition DownloadBackup (backupID : uuid) : M (string * string) :=
  let* b := getBackup backupID in
  if negb (String.eqb (backup_Status b) "completed")
  then fail (ErrNew ("backup is not downloadable (status: " +:+ backup_Status b +:+ ")"))
  else match backup_ServerID b with
       | None => fail (ErrNew "backup has no associated server")
       | Some serverID =>
         let* nodeID := backup_node serverID in
         let* remote := remoteSourceFor b in
         let* enc := encKeyForBackup backupID in
         let* c := pool_Get nodeID in
         match c with
         | Err _ => fail (ErrNew "daemon not connected")
         | Ok client =>
           let* r := match remote, enc with
                     | None, None => client_DownloadBackup client serverID backupID
                     | _, _ => client_DownloadBackupFrom client serverID backupID remote enc
                     end in
           match r with
           | Err e => fail (ErrNew (derr_Error e))
           | Ok body => ret (body, uuid_string backupID +:+ ".zip")
           end
         end
       end.

(** ** Schedules *)

Definition schedule_newer (a b : BackupSchedule) : bool := schedule_CreatedAt b <=? schedule_CreatedAt a.

Definition ListSchedules (serverID : uuid) : M (list BackupSchedule) :=
  wrap "querying schedules" (query (fun d =>
    Ok (order_by schedule_newer (rows (backup_schedules d) (fun s => bool_decide (schedule_ServerID s = serverID)))))).

Definition insert_schedule (s : BackupSchedule) (d : DB) : res error (BackupSchedule * DB) :=
  if negb (contains backup_types (schedule_Type s)) then Err (ErrConstraint "backup_type")
  else if bool_decide (servers d !! schedule_ServerID s = None)
  then Err (ErrConstraint "backup_schedules_server_id_fkey")
  else if dangling_ref (backup_destinations d) (schedule_DestinationID s)
  then Err (ErrConstraint "backup_schedules_destination_id_fkey")
  else match insert_row (schedule_ID s) s (backup_schedules d) with
       | Err e => Err e
       | Ok t => Ok (s, with_backup_schedules t d)
       end.

Definition CreateSchedule (req : CreateScheduleRequest) : M BackupSchedule :=
  let type := if String.eqb (csr_Type req) "" then "full" else csr_Type req in
  run* checkDestination (csr_DestinationID req) in
  let* t := now in
  match nextCronTime (csr_CronExpr req) t with
  | Err _ => fail (ErrNew "invalid cron expression")
  | Ok next =>
    let* id := new_uuid in
    wrap "creating schedule" (exec (insert_schedule
      (mkBackupSchedule id (csr_ServerID req) (csr_CronExpr req) type "local" (csr_RetentionCount req)
         (csr_RetentionDays req) true None (Some next) t (csr_DestinationID req))))
  end.

(** A change of one schedule that must exist. *)
Definition change_schedule (msg : string) (id : uuid) (f : gmap uuid BackupSchedule -> gmap uuid BackupSchedule) : M unit :=
  let* n := wrap msg (exec (fun d =>
              match backup_schedules d !! id with
              | None => Ok (0%nat, d)
              | Some _ => Ok (1%nat, with_backup_schedules (f (backup_schedules d)) d)
              end)) in
  if (n =? 0)%nat then fail ErrScheduleNotFound else ret tt.

Definition ToggleSchedule (id : uuid) (enabled : bool) : M unit :=
  change_schedule "toggling schedule" id (alter (schedule_with_Enabled enabled) id).

Definition DeleteSchedule (id : uuid) : M unit :=
  change_schedule "deleting schedule" id (delete id).

(** ** Retention of the schedules *)

Definition day : Z := 24 * 3600 * 1000000000.

Definition too_old (serverID : uuid) (days t : Z) (b : Backup) : bool :=
  bool_decide (backup_ServerID b = Some serverID) && (backup_CreatedAt b <? t - days * day).

Definition completed_of (serverID : uuid) (b : Backup) : bool :=
  bool_decide (backup_ServerID b = Some serverID) && String.eqb (backup_Status b) "completed".

Definition beyond_count (serverID : uuid) (n : Z) (d : DB) : list Backup :=
  drop (Z.to_nat n) (order_by newer (rows (backups d) (completed_of serverID))).

(** The context of the schedule runner has no deadline and ends with the panel
    only, so every backup is looked at on a context that has not ended. *)
Fixpoint delete_all (ids : list uuid) : M unit :=
  match ids with
  | [] => ret tt
  | id :: ids' => run* ignore (DeleteBackup id) in delete_all ids'
  end.

(** The ids a positive limit selects; a failed query selects none. *)
Definition retention_query (limit : option Z) (select : Z -> DB -> list Backup) : M (list uuid) :=
  match limit with
  | Some n =>
    if 0 <? n then
      let* r := attempt (query (fun d => Ok (select n d))) in
      ret (match r with Ok l => map backup_ID l | Err _ => [] end)
    else ret []
  | None => ret []
  end.

Definition pruneBackups (serverID : uuid) (retentionCount retentionDays : option Z) : M unit :=
  let* t := now in
  let* old := retention_query retentionDays (fun n d => rows (backups d) (too_old serverID n t)) in
  let* over := retention_query retentionCount (beyond_count serverID) in
  delete_all (old ++ over).

(** ** The schedule runner *)

(** What a restart does to uploads it interrupted. *)
Definition interrupted (b : Backup) : bool :=
  match backup_UploadStatus b with
  | Some s => contains ["pending"; "uploading"] s && contains ["completed"; "failed"] (backup_Status b)
  | None => false
  end.

Definition reset_uploads : M unit :=
  ignore (exec (fun d => Ok (tt, with_backups (update_where (fun b =>
    backup_with_UploadStatus (Some "failed") (backup_with_UploadError
      (Some "interrupted: the panel restarted during the upload — retry it") b)) interrupted (backups d)) d))).

Definition schedule_due (t : Z) (s : BackupSchedule) : bool :=
  schedule_Enabled s && match schedule_NextRun s with Some n => n <=? t | None => false end.

Definition exec_schedule (id : uuid) (f : BackupSchedule -> BackupSchedule) : M unit :=
  exec (fun d => Ok (tt, with_backup_schedules (alter f id (backup_schedules d)) d)).

(** One turn of the loop over the due schedules, with the job it starts. *)
Definition run_due (t : Z) (id : uuid) (s : BackupSchedule) : M (list Job) :=
  match nextCronTime (schedule_CronExpr s) t with
  | Err _ => run* ignore (exec_schedule id (schedule_with_Enabled false)) in ret []
  | Ok next =>
    let* t' := now in
    run* ignore (exec_schedule id (fun s => schedule_with_LastRun (Some t') (schedule_with_NextRun (Some next) s))) in
    let* b := attempt (createBackup (mkCreateBackupRequest (schedule_ServerID s) (schedule_Type s) (schedule_Storage s)
                         (schedule_DestinationID s)) "schedule") in
    match b with
    | Err _ => ret []
    | Ok (_, job) =>
      run* pruneBackups (schedule_ServerID s) (schedule_RetentionCount s) (schedule_RetentionDays s) in
      ret [job]
    end
  end.

Fixpoint run_dues (t : Z) (l : list (uuid * BackupSchedule)) : M (list Job) :=
  match l with
  | [] => ret []
  | (id, s) :: l' =>
    let* js := run_due t id s in
    let* js' := run_dues t l' in
    ret (js ++ js')
  end.

Definition runDueSchedules : M (list Job) :=
  let* t0 := now in
  let* r := attempt (query (fun d =>
              Ok (List.filter (fun kv => schedule_due t0 (snd kv)) (map_to_list (backup_schedules d))))) in
  match r with
  | Err _ => ret []
  | Ok dues => let* t := now in run_dues t dues
  end.
End service.

(** ** Framing of what the jobs call *)

(** All tables but backups, schedules, settings and destinations. *)
Definition other_tables (d : DB) : DB :=
  with_backups ∅ (with_backup_schedules ∅ (with_app_settings ∅ (with_backup_destinations ∅ d))).

(** At most settings and destinations change. *)
Definition quiet (d d' : DB) : Prop :=
  backups d' = backups d /\ backup_schedules d' = backup_schedules d /\ servers d' = servers d
  /\ other_tables d' = other_tables d.

#[export] Instance quiet_preorder : PreOrder quiet.
Proof. split; [by repeat split|]. intros a b c (? & ? & ? & ?) (? & ? & ? & ?). repeat split; congruence. Qed.

Section frame_lemmas.
Context `{P : Platform} `{T : Json json} `{S : Json (gmap string string)} `{K : Json Keyring} `{J : DaemonJson}
  `{Loc : Location} (L : Link -> Link -> Prop) `{!PreOrder L} (encKey : string).

Lemma of_res_frames {A} (r : res error A) : frames L quiet (of_res r).
Proof. unfold of_res. solve_frames. Qed.

Lemma get_destination_frames id : frames L quiet (get_destination encKey id).
Proof. unfold get_destination, map_err. solve_frames. apply of_res_frames. Qed.

Lemma remoteSpec_frames id : frames L quiet (remoteSpec encKey id).
Proof. unfold remoteSpec. solve_frames; [apply get_destination_frames | apply of_res_frames]. Qed.

Lemma Encrypt_frames key v : frames L quiet (Encrypt key v).
Proof. unfold Encrypt. solve_frames. Qed.

Lemma applyConfigUpdates_frames id u : frames L quiet (applyConfigUpdates encKey id u).
Proof.
  unfold applyConfigUpdates, encryptSecrets. solve_frames; [apply get_destination_frames | apply Encrypt_frames|].
  by intros d1 a1 d2 [= _ <-].
Qed.

Lemma ApplyConfigUpdates_frames id u : frames L quiet (ApplyConfigUpdates encKey id u).
Proof. unfold ApplyConfigUpdates. solve_frames. apply applyConfigUpdates_frames. Qed.

Lemma saveUpdatesFromErr_frames id e : frames L quiet (saveUpdatesFromErr encKey id e).
Proof. unfold saveUpdatesFromErr. solve_frames. apply ApplyConfigUpdates_frames. Qed.

Lemma pool_Get_frames id : frames L quiet (pool_Get id).
Proof. unfold pool_Get. solve_frames. Qed.

Lemma BackupKeyring_frames : frames L quiet (BackupKeyring encKey).
Proof.
  unfold BackupKeyring, create_keyring, newKeyring, generateKey, saveKeyring, setting_Set, setting_Get.
  solve_frames; try apply Encrypt_frames; intros d1 u d2; [by intros [= _ <-]|].
  unfold upsert_setting. by intros [= _ <-].
Qed.

Lemma client_DeleteRemoteBackup_frames c s b r : frames sending quiet (client_DeleteRemoteBackup c s b r).
Proof. unfold client_DeleteRemoteBackup, postRemote. solve_frames. Qed.

Lemma client_DeleteBackupArchive_frames c s b : frames sending quiet (client_DeleteBackupArchive c s b).
Proof. unfold client_DeleteBackupArchive, doRequest. solve_frames. Qed.

Lemma backup_node_frames s : frames L quiet (backup_node s).
Proof. unfold backup_node. solve_frames. Qed.
End frame_lemmas.

(** ** A backup job settles *)

(** Neither the archive nor the copy is left in progress. *)
Definition settled (b : Backup) : Prop :=
  backup_Status b ∈ ["completed"; "failed"] /\ backup_UploadStatus b ∈ [None; Some "done"; Some "failed"].

Definition row_settled (id : uuid) (d : DB) : Prop := forall b, backups d !! id = Some b -> settled b.
Definition row_completed (id : uuid) (d : DB) : Prop :=
  forall b, backups d !! id = Some b -> backup_Status b = "completed".

Section settle.
Context `{P : Platform} `{T : Json json} `{S : Json (gmap string string)} `{K : Json Keyring} `{J : DaemonJson}
  `{Loc : Location} (encKey : string).

(** What the daemon answers about a backup can be stored as text. *)
Definition storable_answers (net : nat -> Request -> Response) (serverID backupID : uuid) : Prop :=
  forall c w, link_net (w_link w) = net ->
  (forall enc, match fst (client_CreateBackup c serverID backupID enc w) with
     | Ok (Ok r) => sql_text (bcr_StoragePath r) = true
     | Ok (Err e) => sql_text (derr_Error e) = true
     | Err _ => True
     end)
  /\ forall spec, match fst (client_UploadBackup c serverID backupID spec w) with
     | Ok (Ok r) => sql_text (rr_RemotePath r) = true
     | Ok (Err e) => sql_text (truncateError (derr_Error e)) = true
     | Err _ => True
     end.

Lemma lookup_alter_backup (id : uuid) f d b :
  backups (update_backup id f d) !! id = Some b -> exists b0, backups d !! id = Some b0 /\ b = f b0.
Proof.
  unfold update_backup. cbn. rewrite lookup_alter_eq. destruct (backups d !! id) as [b0|]; [|done].
  intros [= <-]. eauto.
Qed.

Lemma exec_backup_run id f w :
  healthy w -> ignore (exec_backup id f) w = (Ok tt, with_db (update_backup id f (w_db w)) w).
Proof. intros Hw. unfold ignore, exec_backup. 
  by erewrite bind_run by (apply attempt_run; by rewrite exec_healthy). Qed.

Lemma text_exec_run {A} s (f : DB -> A * DB) w :
  healthy w -> sql_text s = true ->
  exec (fun d => text_param s (Ok (f d))) w = (Ok (fst (f (w_db w))), with_db (snd (f (w_db w))) w).
Proof. intros Hw Hs. rewrite exec_healthy by done. unfold text_param. rewrite Hs. by destruct (f (w_db w)). Qed.

Lemma failBackup_settles id msg w :
  healthy w -> sql_text msg = true -> row_settled id (w_db (snd (failBackup false id msg w))).
Proof.
  intros Hw Hm. unfold failBackup, ignore, stmt_on.
  erewrite bind_run by (apply attempt_run, (text_exec_run msg (fun d => (tt, update_backup id (failed_backup msg) d))); done).
  cbn. intros b (b0 & _ & ->)%lookup_alter_backup. split; [cbn; set_solver|]. cbn.
  destruct (backup_UploadStatus b0); set_solver.
Qed.

Lemma failUpload_settles id msg w :
  healthy w -> sql_text (truncateError msg) = true -> row_completed id (w_db w) ->
  row_settled id (w_db (snd (failUpload false id msg w))).
Proof.
  intros Hw Hm Hc. unfold failUpload, ignore, stmt_on.
  erewrite bind_run by (apply attempt_run, (text_exec_run (truncateError msg) (fun d => (tt, update_backup id (fun b =>
    backup_with_UploadStatus (Some "failed") (backup_with_UploadError (Some (truncateError msg)) b)) d))); done).
  cbn. intros b (b0 & H0%Hc & ->)%lookup_alter_backup. split; cbn; [rewrite H0; set_solver | set_solver].
Qed.

(** Removing older copies leaves no row in progress. *)
Lemma prune_copy_settled ended c spec sid did o id : preserves (row_settled id) (prune_copy encKey ended c spec sid did o).
Proof.
  assert (Hq : forall A (m : M A), frames sending quiet m -> preserves (row_settled id) m).
  { intros A m Hm w Hw. destruct (Hm w) as (_ & _ & _ & Hb & _). unfold row_settled. by rewrite Hb. }
  unfold prune_copy. apply preserves_bind.
  { destruct ended; [apply preserves_ret | apply Hq, client_DeleteRemoteBackup_frames]. }
  intros [r|e]; (apply preserves_bind; [|intros _]).
  - apply Hq, (ApplyConfigUpdates_frames sending).
  - apply preserves_bind; [|intros _; apply preserves_ret].
    destruct (backup_LocalPresent o); apply preserves_ignore, preserves_exec; intros d a d' Hd [= _ <-] b.
    + destruct (decide (backup_ID o = id)) as [->|Hne].
      * intros (b0 & [Hs _]%Hd & ->)%lookup_alter_backup. split; [done | cbn; set_solver].
      * cbn. rewrite lookup_alter_ne by done. apply Hd.
    + cbn. intros [_ H]%lookup_delete_Some. by apply Hd.
  - apply Hq, (saveUpdatesFromErr_frames sending).
  - apply preserves_ret.
Qed.

Lemma pruneRemote_settled ended c spec sid did n id : preserves (row_settled id) (pruneRemote encKey ended c spec sid did n).
Proof.
  assert (Hl : forall l ended, preserves (row_settled id) (prune_copies encKey ended c spec sid did l)).
  { induction l as [|o l IH]; intros e0; cbn [prune_copies]; [apply preserves_ret|].
    apply preserves_bind; [apply prune_copy_settled | done]. }
  unfold pruneRemote, stmt_on. solve_preserves. apply Hl.
Qed.

Lemma after_upload_settled c spec dest bid sid did : preserves (row_settled bid) (after_upload encKey c spec dest bid sid did).
Proof.
  unfold after_upload. apply preserves_bind; [|intros ended; solve_preserves; apply pruneRemote_settled].
  destruct (negb _); [|apply preserves_ret]. apply preserves_bind.
  - intros w Hw. destruct (client_DeleteBackupArchive_frames c sid bid w) as (_ & _ & _ & Hb & _).
    unfold row_settled. by rewrite Hb.
  - intros [r|e]; [|apply preserves_ret]. apply preserves_bind; [|intros _; apply preserves_ret].
    apply preserves_ignore, preserves_exec. intros d a d' Hd [= _ <-] b.
    intros (b0 & [Hs Hu]%Hd & ->)%lookup_alter_backup. done.
Qed.

(** The errors of looking a destination up, and their texts. *)
Definition destination_errors : list error :=
  [ErrDestinationNotFound; ErrNew "decoding destination secrets"; ErrDetail ErrInvalidDestination "unknown provider";
   ErrWrap "decrypting destination secrets" ErrInvalidKey;
   ErrWrap "decrypting destination secrets" (ErrWrap "base64" (ErrNew "illegal base64 data"));
   ErrWrap "decrypting destination secrets" (ErrNew "ciphertext too short");
   ErrWrap "decrypting destination secrets" (ErrWrap "gcm.Open" (ErrNew "cipher: message authentication failed"))].

Lemma scan_errors r e : scan encKey r = Err e -> e ∈ destination_errors.
Proof.
  unfold scan. destruct (String.eqb _ ""); [done|]. unfold Decrypt. intros H.
  repeat (case_match; simplify_eq/=); unfold destination_errors; set_solver.
Qed.

Lemma remoteSpec_errors id w e w' :
  healthy w -> remoteSpec encKey id w = (Err e, w') -> e ∈ destination_errors.
Proof.
  intros Hw [([d sec] & w1 & _ & H)|(e' & H & [= <-])]%bind_inv.
  - destruct (findProvider (bd_Provider d)) as [p|]; [by destruct (rcloneOptions _ _ _)|].
    apply fail_inv in H as [[= ->] _]. unfold destination_errors. set_solver.
  - unfold get_destination, map_err in H. apply bind_inv in H as [(r & w1 & Hr & H)|(e' & Hr & [= <-])].
    + apply attempt_inv in Hr as (r' & [= <-] & Hr). destruct r as [x|e1]; [done|]. apply fail_inv in H as [[= ->] _].
      apply bind_inv in Hr as [(x & w2 & _ & Hs)|(e2 & Hq & [= <-])].
      * unfold of_res in Hs. destruct (scan encKey x) as [y|e2] eqn:Es; [done|]. apply fail_inv in Hs as [[= ->] _].
        apply scan_errors in Es. destruct (error_Is e2 ErrNoRows); [unfold destination_errors; set_solver | done].
      * rewrite query_healthy in Hq by done. unfold get_key in Hq.
        destruct (backup_destinations (w_db w) !! id); [done|]. injection Hq as <- _. unfold destination_errors. set_solver.
    + by apply attempt_inv in Hr as (r' & ? & _).
Qed.

Lemma destination_errors_storable e :
  e ∈ destination_errors ->
  sql_text (truncateError ("backup destination is no longer available: " +:+ error_Error e)) = true.
Proof.
  intros He. unfold destination_errors in He.
  repeat (apply elem_of_cons in He as [-> | He]; [vm_compute; reflexivity|]). by apply not_elem_of_nil in He.
Qed.

Lemma row_completed_quiet id d d' : quiet d d' -> row_completed id d -> row_completed id d'.
Proof. intros (H & _) Hc. unfold row_completed. by rewrite H. Qed.

Definition upload_request (c : Client) (sid bid : uuid) (spec : RemoteSpec) : Request :=
  request c "POST" (server_path sid "/backup/upload") [] (remoteBackupRequest bid (Some spec) None).
Definition backup_request (c : Client) (sid bid : uuid) (enc : option EncKey) : Request :=
  request c "POST" (server_path sid "/backup") [] (backupBody bid enc).

Lemma client_UploadBackup_run c s b spec w :
  exists r w', client_UploadBackup c s b spec w = (Ok r, w') /\ framed sending quiet w w'
    /\ forall e, r = Err e -> derr_Expired e = true ->
         derr_ConfigUpdates e = None /\ ran_out w w' (upload_request c s b spec).
Proof.
  unfold client_UploadBackup, postRemote. eexists _, _. split; [reflexivity|].
  split; [repeat split; try done; by eexists|]. fold (upload_request c s b spec).
  destruct (link_net _ _ _) as [?|?|? ?] eqn:En.
  - by intros e [= <-].
  - intros e [= <-] _. split; [done|]. by eapply ran_out_last.
  - destruct (decode_RemoteResult _) as [out decoded]. intros e He Hx. unfold plain in He. repeat case_match; simplify_eq; by simpl in Hx.
Qed.

Lemma client_CreateBackup_run c s b enc w :
  exists r w', client_CreateBackup c s b enc w = (Ok r, w') /\ framed sending quiet w w'
    /\ forall e, r = Err e -> derr_Expired e = true -> ran_out w w' (backup_request c s b enc).
Proof.
  unfold client_CreateBackup, raw_call. eexists _, _. split; [reflexivity|].
  split; [repeat split; try done; by eexists|]. fold (backup_request c s b enc).
  destruct (link_net _ _ _) as [?|?|? ?] eqn:En.
  - by intros e [= <-].
  - intros e [= <-] _. by eapply ran_out_last.
  - intros e He Hx. unfold plain in He. repeat case_match; simplify_eq; by simpl in Hx.
Qed.

Lemma pool_Get_run nodeID w : exists r, pool_Get nodeID w = (Ok r, w).
Proof. unfold pool_Get, bind, get_link, ret. eauto. Qed.

Lemma quiet_run {A} (m : M A) w r w' : frames sending quiet m -> m w = (r, w') -> framed sending quiet w w'.
Proof. intros Hm H. specialize (Hm w). by rewrite H in Hm. Qed.

(** The copy was cut off: the record says it is still uploading. *)
Definition upload_cut_off (bid sid : uuid) (w w' : World) : Prop :=
  (forall b, backups (w_db w') !! bid = Some b -> backup_Status b = "completed" /\ backup_UploadStatus b = Some "uploading")
  /\ exists c spec, ran_out w w' (upload_request c sid bid spec).

Lemma upload_settles net bid sid nid did w :
  healthy w -> link_net (w_link w) = net -> storable_answers net sid bid -> row_completed bid (w_db w) ->
  let w' := snd (uploadBackup encKey bid sid nid did w) in
  row_settled bid (w_db w') \/ upload_cut_off bid sid w w'.
Proof.
  intros Hw Hnet Hst Hc. cbv zeta. unfold uploadBackup.
  destruct (remoteSpec encKey did w) as [rs w1] eqn:Ers. pose proof (quiet_run _ _ _ _ (remoteSpec_frames sending encKey did) Ers)
    as (Hh1 & _ & Hsend1 & Hq1). pose proof Hsend1 as (_ & Hn1 & _). specialize (Hh1 Hw). apply (row_completed_quiet _ _ _ Hq1) in Hc.
  erewrite bind_run by (by apply attempt_run). cbv beta iota. destruct rs as [[spec dest]|e].
  2:{ left. apply failUpload_settles; [done | | done]. apply destination_errors_storable. exact (remoteSpec_errors did w e w1 Hw Ers). }
  destruct (pool_Get_run nid w1) as [rc Hrc]. erewrite bind_run by exact Hrc. cbv beta iota.
  destruct rc as [c|e]; [|left; by apply failUpload_settles].
  erewrite bind_run by (by apply exec_backup_run). cbv beta iota. set (w2 := with_db _ w1).
  assert (Hu2 : forall b, backups (w_db w2) !! bid = Some b -> backup_UploadStatus b = Some "uploading")
    by (intros b (b0 & _ & ->)%lookup_alter_backup; done).
  assert (Hc2 : row_completed bid (w_db w2)) by (intros b (b0 & H0%Hc & ->)%lookup_alter_backup; done).
  destruct (client_UploadBackup_run c sid bid spec w2) as (r & w3 & Hu & (Hh3 & _ & (_ & Hn3 & _) & Hq3) & Hcut).
  specialize (Hst c w2 ltac:(cbn; congruence)) as [_ Hst]. specialize (Hst spec). rewrite Hu in Hst. cbn [fst] in Hst.
  erewrite bind_run by exact Hu. cbv beta iota. apply (row_completed_quiet _ _ _ Hq3) in Hc2. specialize (Hh3 Hh1).
  destruct r as [r|e].
  - destruct (ApplyConfigUpdates encKey did (rr_ConfigUpdates r) w3) as [ru w4] eqn:Ea.
    pose proof (quiet_run _ _ _ _ (ApplyConfigUpdates_frames sending encKey did _) Ea) as (Hh4 & _ & _ & Hq4).
    specialize (Hh4 Hh3). apply (row_completed_quiet _ _ _ Hq4) in Hc2.
    erewrite bind_run by exact Ea. destruct ru as [[]|e].
    + erewrite bind_run by (apply attempt_run, (text_exec_run (rr_RemotePath r) (fun d => (tt, update_backup bid (fun b =>
        backup_with_UploadStatus (Some "done") (backup_with_UploadError None
          (backup_with_RemotePath (Some (rr_RemotePath r)) b))) d))); done). cbv beta iota.
      left. apply after_upload_settled. cbn. intros b (b0 & H0%Hc2 & ->)%lookup_alter_backup.
      split; cbn; [rewrite H0; set_solver | set_solver].
    + exfalso. unfold ApplyConfigUpdates in Ea. case_bool_decide; [done|]. by apply ignore_inv in Ea as [? _].
  - destruct (derr_Expired e) eqn:Ex.
    { right. destruct (Hcut e eq_refl Ex) as [Hnone Hran]. unfold saveUpdatesFromErr. rewrite Hnone.
      erewrite bind_run by reflexivity.
      assert (Hf : failUpload true bid (derr_Error e) w3 = (Ok tt, w3)) by done. rewrite Hf. cbn [snd]. split.
      - intros b Hb. split; [by apply Hc2|]. destruct Hq3 as (Hb3 & _). rewrite Hb3 in Hb. by apply Hu2.
      - exists c, spec. by apply (ran_out_earlier w w2). }
    left. destruct (saveUpdatesFromErr encKey did e w3) as [ru w4] eqn:Ea.
    pose proof (quiet_run _ _ _ _ (saveUpdatesFromErr_frames sending encKey did e) Ea) as (Hh4 & _ & _ & Hq4).
    specialize (Hh4 Hh3). apply (row_completed_quiet _ _ _ Hq4) in Hc2.
    erewrite bind_run by exact Ea. destruct ru as [[]|e']; [by apply failUpload_settles|].
    exfalso. unfold saveUpdatesFromErr, ApplyConfigUpdates in Ea. destruct (derr_ConfigUpdates e); [|done].
    case_bool_decide; [done|]. by apply ignore_inv in Ea as [? _].
Qed.
End settle.

(** C15. A backup job settles its record unless its context runs out: when no
    database call fails, what the daemon answers can be stored, and a job
    without a destination has a record without a copy, then whatever the node
    answers, and whether or not it is connected, the destination exists and
    its secrets open, the record ends completed or failed and its copy done,
    failed or absent.  There are two exceptions, each with the request at
    fault: the context ended while the node was archiving, and the record
    stays running; or it ended while the node was uploading, and the record
    stays completed and uploading, since the update that should mark the
    failure runs on the same context.  (The record may be gone, when the
    retention of the destination removed it.) *)
Theorem backup_job_settles `{P : Platform} `{T : Json json} `{S : Json (gmap string string)} `{K : Json Keyring}
    `{J : DaemonJson} (encKey : string) (bid sid nid : uuid) (did : option uuid) (enc : option EncKey) (w : World) :
  healthy w -> storable_answers (link_net (w_link w)) sid bid ->
  (did = None -> forall b, backups (w_db w) !! bid = Some b -> backup_UploadStatus b = None) ->
  let w' := snd (run_job encKey (JobBackup bid sid nid did enc) w) in
  forall b, backups (w_db w') !! bid = Some b ->
  settled b
  \/ (backup_Status b = "running" /\ exists c, ran_out w w' (backup_request c sid bid enc))
  \/ (backup_Status b = "completed" /\ backup_UploadStatus b = Some "uploading"
      /\ exists c spec, ran_out w w' (upload_request c sid bid spec)).
Proof.
  intros Hw Hst Hdid. cbn [run_job]. cbv zeta. unfold runBackup.
  destruct (pool_Get_run nid w) as [rc Hrc]. erewrite bind_run by exact Hrc. cbv beta iota.
  destruct rc as [c|e]; [|intros b Hb; left; by apply (failBackup_settles bid "daemon not connected" w Hw eq_refl b Hb)].
  erewrite bind_run by (by apply exec_backup_run). cbv beta iota. set (w1 := with_db _ w).
  destruct (client_CreateBackup_run c sid bid enc w1) as (r & w2 & Hu & (Hh2 & _ & Hsend & Hq2) & Hcut). specialize (Hh2 Hw).
  pose proof Hsend as (_ & Hn2 & _).
  destruct (Hst c w1 eq_refl) as [Hc _]. specialize (Hc enc). rewrite Hu in Hc. cbn [fst] in Hc.
  erewrite bind_run by exact Hu. cbv beta iota.
  destruct r as [r|e].
  2:{ intros b Hb. destruct (derr_Expired e) eqn:Ex;
        [right; left | left; by apply (failBackup_settles _ _ _ Hh2 Hc _ Hb)].
      assert (Hf : failBackup true bid (derr_Error e) w2 = (Ok tt, w2)) by done. rewrite Hf in Hb |- *. cbn [snd] in *.
      split; [|exists c; by apply (Hcut e)]. destruct Hq2 as (Hb2 & _). rewrite Hb2 in Hb.
      by apply lookup_alter_backup in Hb as (b0 & _ & ->). }
  erewrite bind_run by reflexivity. cbv beta iota.
  erewrite bind_run by (apply attempt_run, (text_exec_run (bcr_StoragePath r) (fun d => (tt, update_backup bid (fun b =>
      backup_with_Status "completed" (backup_with_SizeBytes (Some (bcr_SizeBytes r))
        (backup_with_StoragePath (bcr_StoragePath r) (backup_with_CompletedAt (Some (w_now w2))
          (backup_with_Error None b))))) d))); done).
  cbv beta iota. cbn [fst snd]. set (w3 := with_db _ w2).
  assert (Hc3 : row_completed bid (w_db w3)) by (intros b (b0 & _ & ->)%lookup_alter_backup; done).
  destruct did as [did|].
  - intros b Hb. destruct (upload_settles encKey (link_net (w_link w)) bid sid nid did w3) as [Hs|[Hs (c' & spec & Hran)]];
      try done; [by left; apply Hs | right; right]. destruct (Hs b Hb). split_and!; [done | done|].
    exists c', spec. by apply (ran_out_earlier w w3).
  - cbn [snd ret]. intros b Hb. left. split; [rewrite (Hc3 b Hb); set_solver|].
    apply lookup_alter_backup in Hb as (b0 & H0 & ->). cbn. destruct Hq2 as (Hb2 & _). rewrite Hb2 in H0.
    apply lookup_alter_backup in H0 as (b1 & H1 & ->). cbn. rewrite (Hdid eq_refl b1 H1). set_solver.
Qed.

(** ** A failed upload never touches the local archive *)

(** The same backups are recorded as present on their nodes. *)
Definition local_same (d d' : DB) : Prop :=
  forall id, backup_LocalPresent <$> backups d' !! id = backup_LocalPresent <$> backups d !! id.

#[export] Instance local_same_preorder : PreOrder local_same.
Proof. split; [by intros d id|]. intros a b c H1 H2 id. by rewrite H2, H1. Qed.

Lemma frames_weaken {A} (L L' : Link -> Link -> Prop) (Q Q' : DB -> DB -> Prop) (m : M A) :
  (forall l l', L l l' -> L' l l') -> (forall d d', Q d d' -> Q' d d') -> frames L Q m -> frames L' Q' m.
Proof. intros HL HQ Hm w. destruct (Hm w) as (? & ? & ? & ?). repeat split; auto. Qed.

Lemma quiet_local d d' : quiet d d' -> local_same d d'.
Proof. intros (H & _) id. by rewrite H. Qed.

Lemma update_backup_local id f d :
  (forall b, backup_LocalPresent (f b) = backup_LocalPresent b) -> local_same d (update_backup id f d).
Proof.
  intros Hf k. cbn. destruct (decide (k = id)) as [->|Hne]; [|by rewrite lookup_alter_ne].
  rewrite lookup_alter_eq. destruct (backups d !! id); cbn; [by rewrite Hf | done].
Qed.

Section upload.
Context `{P : Platform} `{T : Json json} `{S : Json (gmap string string)} `{K : Json Keyring} `{J : DaemonJson} (encKey : string).

Lemma failUpload_local ended id msg : frames eq local_same (failUpload ended id msg).
Proof.
  unfold failUpload, stmt_on. solve_frames. intros d a d'. unfold text_param. destruct (sql_text _); [|done].
  intros [= _ <-]. by apply update_backup_local.
Qed.

Lemma exec_backup_local id f :
  (forall b, backup_LocalPresent (f b) = backup_LocalPresent b) -> frames eq local_same (ignore (exec_backup id f)).
Proof. intros Hf. unfold exec_backup. solve_frames. intros d a d' [= _ <-]. by apply update_backup_local. Qed.

Lemma local_run {A} (m : M A) w r w' :
  frames eq local_same m -> m w = (r, w') -> w_link w' = w_link w /\ local_same (w_db w) (w_db w').
Proof. intros Hm H. specialize (Hm w). rewrite H in Hm. destruct Hm as (_ & _ & Hk & Hq). cbn [snd] in *. by rewrite Hk. Qed.

Lemma quiet_is_local {A} (m : M A) : frames eq quiet m -> frames eq local_same m.
Proof. apply frames_weaken; [done | apply quiet_local]. Qed.

(** From [w] the job came to [w'] by way of a world [w1] with the same local
    archives, sending at most the upload; it ends there, or the copy is
    recorded and it goes on. *)
Definition kept_until_recorded (bid sid did : uuid) (w : World) (r : res error unit) (w' : World) : Prop :=
  exists w1 reqs, local_same (w_db w) (w_db w1) /\ link_sent (w_link w1) = link_sent (w_link w) ++ reqs
  /\ (length reqs <= 1)%nat /\ (forall q, q ∈ reqs -> req_Path q = server_path sid "/backup/upload")
  /\ ((r = Ok tt /\ w' = w1) \/
      exists c spec dest res wu,
        after_upload encKey c spec dest bid sid did w1 = (r, w')
        /\ fst (client_UploadBackup c sid bid spec wu) = Ok (Ok res)
        /\ forall b, backups (w_db w1) !! bid = Some b ->
             backup_UploadStatus b = Some "done" /\ backup_RemotePath b = Some (rr_RemotePath res)).

Lemma kept_failUpload ended bid sid did w w0 msg reqs r w' :
  local_same (w_db w) (w_db w0) -> link_sent (w_link w0) = link_sent (w_link w) ++ reqs ->
  (length reqs <= 1)%nat -> (forall q, q ∈ reqs -> req_Path q = server_path sid "/backup/upload") ->
  failUpload ended bid msg w0 = (r, w') -> kept_until_recorded bid sid did w r w'.
Proof.
  intros Hl Hs Hn Hp Hf. exists w', reqs. pose proof (local_run _ _ _ _ (failUpload_local ended bid msg) Hf) as [Hk Hl'].
  split_and!; [by etrans | by rewrite Hk | done | done|]. left. by apply ignore_inv in Hf as [-> _].
Qed.

Lemma ApplyConfigUpdates_run did u w :
  exists w', ApplyConfigUpdates encKey did u w = (Ok tt, w') /\ w_link w' = w_link w /\ local_same (w_db w) (w_db w').
Proof.
  destruct (ApplyConfigUpdates encKey did u w) as [ra w'] eqn:Ea. exists w'.
  pose proof (local_run _ _ _ _ (quiet_is_local _ (ApplyConfigUpdates_frames eq encKey did u)) Ea) as [Hk Hl].
  unfold ApplyConfigUpdates in Ea. case_bool_decide; [apply ret_inv in Ea as [-> _] | apply ignore_inv in Ea as [-> _]]; done.
Qed.

Lemma saveUpdatesFromErr_run did e w :
  exists w', saveUpdatesFromErr encKey did e w = (Ok tt, w') /\ w_link w' = w_link w /\ local_same (w_db w) (w_db w').
Proof.
  unfold saveUpdatesFromErr. destruct (derr_ConfigUpdates e); [apply ApplyConfigUpdates_run|].
  exists w. split_and!; done.
Qed.

(** The statement that records the copy. *)
Lemma record_copy bid path w u w' :
  exec (fun d => text_param path (Ok (tt, update_backup bid (fun b => backup_with_UploadStatus (Some "done")
    (backup_with_UploadError None (backup_with_RemotePath (Some path) b))) d))) w = (u, w') ->
  w_link w' = w_link w /\ local_same (w_db w) (w_db w')
  /\ (u = Ok tt -> forall b, backups (w_db w') !! bid = Some b ->
        backup_UploadStatus b = Some "done" /\ backup_RemotePath b = Some path).
Proof.
  intros Hu. set (m := exec _) in Hu. assert (Hfr : frames eq local_same m).
  { unfold m. solve_frames. intros d1 a1 d2. unfold text_param. destruct (sql_text _); [|done]. intros [= _ <-].
    by apply update_backup_local. }
  destruct (local_run _ _ _ _ Hfr Hu) as [? ?]. split_and!; [done | done|]. intros -> b.
  unfold m in Hu. apply exec_ok in Hu. unfold text_param in Hu. destruct (sql_text _); [|done]. injection Hu as <-.
  intros (b0 & _ & ->)%lookup_alter_backup. done.
Qed.
End upload.

(** Up to the moment the copy is recorded the job sends at most the upload
    itself and leaves every local archive recorded as it was, also when the
    destination is gone, the node is away or the upload fails; only then, with
    the daemon's success answered and the record saying where the copy is,
    does it go on to remove the local archive and older copies. *)
Theorem failed_upload_keeps_archive `{P : Platform} `{T : Json json} `{S : Json (gmap string string)} `{K : Json Keyring}
    `{J : DaemonJson} (encKey : string) (bid sid nid did : uuid) (w w' : World) (r : res error unit) :
  uploadBackup encKey bid sid nid did w = (r, w') -> kept_until_recorded encKey bid sid did w r w'.
Proof.
  unfold uploadBackup. intros [(sd & w1 & Hsd & H)|(e & Hsd & _)]%bind_inv; apply attempt_inv in Hsd as (r0 & Hr0 & Hsd);
    [injection Hr0 as <- | done].
  pose proof (local_run _ _ _ _ (quiet_is_local _ (remoteSpec_frames eq encKey did)) Hsd) as [Hk1 Hl1].
  assert (Hfail : forall msg, failUpload false bid msg w1 = (r, w') -> kept_until_recorded encKey bid sid did w r w').
  { intros msg. apply kept_failUpload with (ended := false) (reqs := []);
      [done | by rewrite Hk1, app_nil_r | simpl; lia | by intros ? ?%not_elem_of_nil]. }
  destruct sd as [[spec dest]|e]; [|by eapply Hfail].
  destruct (pool_Get_run nid w1) as [rc Hrc]. rewrite (bind_run _ _ _ _ _ Hrc) in H. cbv beta iota in H.
  destruct rc as [c|e]; [|by eapply Hfail]. clear Hfail.
  apply bind_inv in H as [([] & w2 & Hx & H)|(e & Hx & _)]; [|by apply ignore_inv in Hx as [? _]].
  apply local_run in Hx as [Hk2 Hl2]; [|by apply exec_backup_local].
  destruct (client_UploadBackup c sid bid spec w2) as [ru w3] eqn:Eu.
  set (req := request c "POST" (server_path sid "/backup/upload") [] (remoteBackupRequest bid (Some spec) None)).
  assert (H3 : exists x, ru = Ok x /\ w_db w3 = w_db w2 /\ link_sent (w_link w3) = link_sent (w_link w) ++ [req]).
  { unfold client_UploadBackup, postRemote, send, bind, ret in Eu. injection Eu as <- <-. eexists. cbn. by rewrite Hk2, Hk1. }
  destruct H3 as (x & -> & Hd3 & Hs3). rewrite (bind_run _ _ _ _ _ Eu) in H. cbv beta iota in H.
  assert (Hl3 : local_same (w_db w) (w_db w3)) by (rewrite Hd3; etrans; [exact Hl1 | exact Hl2]).
  assert (Hreq : forall q, q ∈ [req] -> req_Path q = server_path sid "/backup/upload") by (by intros q ->%list_elem_of_singleton).
  destruct x as [res|e].
  - destruct (ApplyConfigUpdates_run encKey did (rr_ConfigUpdates res) w3) as (w4 & Ea & Hk4 & Hl4).
    rewrite (bind_run _ _ _ _ _ Ea) in H. cbv beta iota in H.
    apply bind_inv in H as [(u & w5 & Hu & H)|(e & Hu & _)]; [|by apply attempt_inv in Hu as (? & ? & _)].
    apply attempt_inv in Hu as (r1 & [= <-] & Hu). apply record_copy in Hu as (Hk5 & Hl5 & Hdone). exists w5, [req].
    split_and!; [etrans; [exact Hl3|]; by etrans | by rewrite Hk5, Hk4 | simpl; lia | done|].
    destruct u as [[]|e]; [|apply ret_inv in H as [-> ->]; by left].
    right. exists c, spec, dest, res, w2. split_and!; [done | by rewrite Eu | by apply Hdone].
  - destruct (saveUpdatesFromErr_run encKey did e w3) as (w4 & Ea & Hk4 & Hl4).
    rewrite (bind_run _ _ _ _ _ Ea) in H. cbv beta iota in H.
    apply kept_failUpload with (ended := derr_Expired e) (w0 := w4) (msg := derr_Error e) (reqs := [req]); [by etrans | by rewrite Hk4 | simpl; lia | done | exact H].
Qed.

(** ** Retention removes only what is beyond it *)

(** Rows stay, except those of [ids], which may go. *)
Definition only_removes (ids : list uuid) (d d' : DB) : Prop :=
  forall k, backups d' !! k = backups d !! k \/ (k ∈ ids /\ backups d' !! k = None).

#[export] Instance only_removes_preorder ids : PreOrder (only_removes ids).
Proof.
  split; [by left|]. intros a b c H1 H2 k. destruct (H2 k) as [E|]; [rewrite E; apply H1 | by right].
Qed.

Lemma only_removes_weaken ids ids' d d' : ids ⊆ ids' -> only_removes ids d d' -> only_removes ids' d d'.
Proof. intros Hs H k. destruct (H k) as [|[]]; [by left | right; auto]. Qed.

Lemma quiet_only_removes ids d d' : quiet d d' -> only_removes ids d d'.
Proof. intros (H & _) k. left. by rewrite H. Qed.

(** A method that leaves backups, schedules and servers alone, in any frame
    that allows it. *)
Lemma frames_quiet {A} (Q : DB -> DB -> Prop) (m : M A) :
  (forall d d', quiet d d' -> Q d d') -> frames sending quiet m -> frames sending Q m.
Proof. intros HQ. by apply frames_weaken. Qed.

Section retention.
Context `{P : Platform} `{T : Json json} `{S : Json (gmap string string)} `{K : Json Keyring} `{J : DaemonJson} (encKey : string).

Lemma node_client_frames sid : frames sending quiet (node_client sid).
Proof. unfold node_client. solve_frames; [apply backup_node_frames | apply pool_Get_frames]; tc_solve. Qed.

Lemma delete_copy_frames b sid c : frames sending quiet (delete_copy encKey b sid c).
Proof.
  unfold delete_copy. solve_frames; first [apply remoteSpec_frames; tc_solve | apply client_DeleteRemoteBackup_frames
    | apply ApplyConfigUpdates_frames; tc_solve | apply saveUpdatesFromErr_frames; tc_solve].
Qed.

(** What [DeleteBackup] may change, in a frame that allows removing the row. *)
Lemma DeleteBackup_frames (Q : DB -> DB -> Prop) `{!PreOrder Q} id :
  (forall d d', quiet d d' -> Q d d') ->
  (forall d, Q d (with_backups (delete id (backups d)) d)) -> frames sending Q (DeleteBackup encKey id).
Proof.
  intros HQ Hdel. unfold DeleteBackup, getBackup, stmt_on. solve_frames.
  - apply frames_quiet; [done | apply node_client_frames].
  - apply frames_quiet; [done | apply delete_copy_frames].
  - apply frames_quiet; [done | apply client_DeleteBackupArchive_frames].
  - intros d1 a1 d2. destruct (backups d1 !! id); intros [= _ <-]; [apply Hdel | done].
Qed.

Lemma delete_all_frames (Q : DB -> DB -> Prop) `{!PreOrder Q} ids :
  (forall d d', quiet d d' -> Q d d') ->
  (forall d id, id ∈ ids -> Q d (with_backups (delete id (backups d)) d)) -> frames sending Q (delete_all encKey ids).
Proof.
  intros HQ. induction ids as [|id ids IH]; intros Hdel; cbn [delete_all]; solve_frames.
  - apply DeleteBackup_frames; [done | done|]. intros d. apply Hdel. by left.
  - apply IH. intros d k Hk. apply Hdel. by right.
Qed.

(** The n newest completed backups of a server come before a row that is
    beyond the count. *)
Lemma beyond_count_inv sid n d b :
  b ∈ beyond_count sid n d ->
  completed_of sid b = true /\ exists kept, length kept = Z.to_nat n /\ kept ⊆ rows (backups d) (completed_of sid)
    /\ forall x, x ∈ kept -> backup_CreatedAt b <= backup_CreatedAt x.
Proof.
  unfold beyond_count. set (l := rows _ _). intros Hb. split.
  - assert (b ∈ order_by newer l) as Hin by (rewrite <- (take_drop (Z.to_nat n)); apply elem_of_app; by right).
    rewrite order_by_perm in Hin. by apply elem_of_rows in Hin as [_ Hin].
  - exists (take (Z.to_nat n) (order_by newer l)). split_and!.
    + rewrite length_take. apply list_elem_of_lookup in Hb as [i Hi]. apply lookup_lt_Some in Hi.
      rewrite length_drop in Hi. lia.
    + intros x Hx. rewrite <- (order_by_perm newer l), <- (take_drop (Z.to_nat n) (order_by newer l)).
      apply elem_of_app. by left.
    + intros x Hx.
      assert (Hs : StronglySorted (fun a b => newer a b = true) (order_by newer l))
        by (apply order_by_sorted; unfold newer; intros; lia).
      rewrite <- (take_drop (Z.to_nat n)) in Hs.
      pose proof (StronglySorted_app_1_elem_of _ _ _ _ _ Hs Hx Hb) as Hn. unfold newer in Hn. cbv beta in Hn. lia.
Qed.

Lemma retention_query_run limit select w :
  exists ids w', retention_query limit select w = (Ok ids, w') /\ w_db w' = w_db w
  /\ forall x, x ∈ ids -> exists n y, limit = Some n /\ 0 < n /\ x = backup_ID y /\ y ∈ select n (w_db w).
Proof.
  unfold retention_query. destruct limit as [n|]; [|exists [], w; split_and!; try done; by intros ? ?%not_elem_of_nil].
  destruct (Z.ltb_spec 0 n); [|exists [], w; split_and!; try done; by intros ? ?%not_elem_of_nil].
  destruct (query (fun d => Ok (select n d)) w) as [q w'] eqn:Eq. eexists _, w'.
  split; [by erewrite bind_run by (by apply attempt_run)|].
  apply query_inv in Eq as (Hd & _ & _ & _ & _ & [-> | ->]); (split; [done|]); [by intros ? ?%not_elem_of_nil|].
  intros x (y & -> & Hy)%list_elem_of_fmap. by exists n, y.
Qed.

Lemma beyond_count_row sid n d b : b ∈ beyond_count sid n d -> exists i, backups d !! i = Some b.
Proof.
  unfold beyond_count. intros Hb. assert (Hy : b ∈ order_by newer (rows (backups d) (completed_of sid)))
    by (rewrite <- (take_drop (Z.to_nat n)); apply elem_of_app; by right).
  rewrite order_by_perm in Hy. by apply elem_of_rows in Hy as [Hy _].
Qed.
End retention.


(** ** Due schedules *)

Definition same_schedules (d d' : DB) : Prop := backup_schedules d' = backup_schedules d.

#[export] Instance same_schedules_preorder : PreOrder same_schedules.
Proof. split; [done|]. unfold same_schedules. intros a b c. congruence. Qed.

Lemma quiet_same_schedules d d' : quiet d d' -> same_schedules d d'.
Proof. by intros (_ & H & _). Qed.

Section due.
Context `{P : Platform} `{T : Json json} `{S : Json (gmap string string)} `{K : Json Keyring} `{J : DaemonJson}
  `{Loc : Location} (encKey : string).

Lemma activeEncKey_frames : frames sending quiet (activeEncKey encKey).
Proof. unfold activeEncKey. solve_frames. apply BackupKeyring_frames; tc_solve. Qed.

Lemma checkDestination_frames id : frames sending quiet (checkDestination id).
Proof. unfold checkDestination, DestinationExists. solve_frames. Qed.

Lemma insert_backup_inv b d u d' :
  insert_backup b d = Ok (u, d') ->
  backups d !! backup_ID b = None /\ d' = with_backups (<[backup_ID b := b]> (backups d)) d.
Proof.
  unfold insert_backup. destruct (negb _); [done|]. destruct (dangling_ref _ _); [done|].
  destruct (dangling_ref _ _); [done|]. destruct (insert_row _ _ _) as [t|e] eqn:E; [|done].
  apply insert_row_ok in E as [? ->]. by intros [= _ <-].
Qed.

(** A new backup is recorded with the id of the key its job has. *)
Lemma createBackup_inv req trig w b job w' :
  createBackup encKey req trig w = (Ok (b, job), w') ->
  exists w1 w2 kr enc nid, BackupKeyring encKey w1 = (Ok kr, w2) /\ ActiveKey kr = Some (enc_KeyID enc, enc_Key enc)
    /\ job = JobBackup (backup_ID b) (cbr_ServerID req) nid (cbr_DestinationID req) (Some enc)
    /\ backup_EncKeyID b = Some (enc_KeyID enc) /\ backup_LocalPresent b = true
    /\ backups (w_db w') !! backup_ID b = Some b
    /\ w_db w' = with_backups (<[backup_ID b := b]> (backups (w_db w2))) (w_db w2).
Proof.
  unfold createBackup. cbv zeta. intros H. apply bind_ok in H as (_ & wa & _ & H). apply bind_ok in H as (nid & wb & _ & H).
  apply bind_ok in H as (enc & wc & He & H). apply bind_ok in He as (kr & wd & Hk & He).
  destruct (ActiveKey kr) as [[kid key]|] eqn:Ea; [|by apply fail_inv in He as [? _]].
  apply ret_inv in He as [[= ->] ->]. apply bind_ok in H as (id & we & (_ & Hde & _)%rand_inv & H).
  apply bind_ok in H as (t & wf & Hn & H). apply now_inv in Hn as [[= ->] ->].
  apply bind_ok in H as (u & wg & Hi%wrap_ok%exec_ok & H). apply insert_backup_inv in Hi as [_ Hdg]. rewrite Hde in Hdg.
  apply bind_ok in H as (b' & wh & Hg & H). apply ret_inv in H as [[= -> ->] ->].
  apply bind_ok in Hg as (q & wi & Hq & Hg). apply attempt_inv in Hq as (r & [= <-] & Hq).
  destruct q as [b0|e]; [|destruct (error_Is e ErrNoRows); by apply fail_inv in Hg as [? _]].
  apply ret_inv in Hg as [[= ->] ->]. apply query_ok in Hq as [Hq Hdi]. unfold get_key in Hq. rewrite Hdg in Hq.
  cbn in Hq. rewrite lookup_insert_eq in Hq. injection Hq as <-. cbn in *.
  exists wb, wd, kr, (mkEncKey key kid), nid. rewrite Hdi, Hdg. cbn. rewrite lookup_insert_eq. done.
Qed.

Lemma pruneBackups_ok sid c days w : exists w', pruneBackups encKey sid c days w = (Ok tt, w').
Proof.
  assert (Hd : forall ids w, exists w', delete_all encKey ids w = (Ok tt, w')).
  { induction ids as [|id ids IH]; intros w0; cbn [delete_all]; [by exists w0|].
    destruct (ignore (DeleteBackup encKey id) w0) as [r w1] eqn:E. pose proof E as E'. apply ignore_inv in E' as [-> _].
    erewrite bind_run by exact E. apply IH. }
  unfold pruneBackups. rewrite (bind_run _ _ _ (Ok (w_now w)) w) by done. cbv beta iota.
  destruct (retention_query_run days (fun n d => rows (backups d) (too_old sid n (w_now w))) w) as (old & w1 & H1 & _).
  rewrite (bind_run _ _ _ _ _ H1). destruct (retention_query_run c (beyond_count sid) w1) as (over & w2 & H2 & _).
  rewrite (bind_run _ _ _ _ _ H2). apply Hd.
Qed.

Lemma createBackup_schedules req trig : frames sending same_schedules (createBackup encKey req trig).
Proof.
  unfold createBackup, getBackup. cbv zeta. solve_frames.
  - apply frames_quiet; [apply quiet_same_schedules | apply checkDestination_frames].
  - apply frames_quiet; [apply quiet_same_schedules | apply backup_node_frames; tc_solve].
  - apply frames_quiet; [apply quiet_same_schedules | apply activeEncKey_frames].
  - by intros d1 u d2 (_ & ->)%insert_backup_inv.
Qed.

Lemma pruneBackups_schedules sid c days : frames sending same_schedules (pruneBackups encKey sid c days).
Proof.
  unfold pruneBackups, retention_query. solve_frames; apply delete_all_frames; try tc_solve;
    try apply quiet_same_schedules; done.
Qed.

(** What a turn of the loop does to its schedule: disable it when its
    expression no longer has a next run, else set the next one. *)
Definition rescheduled (t : Z) (s : BackupSchedule) : BackupSchedule :=
  match nextCronTime (schedule_CronExpr s) t with
  | Ok next => schedule_with_LastRun (Some t) (schedule_with_NextRun (Some next) s)
  | Err _ => schedule_with_Enabled false s
  end.

Lemma rescheduled_not_due t s : schedule_due t (rescheduled t s) = false.
Proof.
  unfold rescheduled, schedule_due. destruct (nextCronTime _ _) as [next|e] eqn:E; cbn; [|done].
  apply nextCronTime_after in E. destruct (schedule_Enabled s); [cbn; lia | done].
Qed.

Lemma exec_schedule_run id f w :
  healthy w ->
  ignore (exec_schedule id f) w = (Ok tt, with_db (with_backup_schedules (alter f id (backup_schedules (w_db w))) (w_db w)) w).
Proof.
  intros Hw. unfold ignore, exec_schedule. by erewrite bind_run by (apply attempt_run; by rewrite exec_healthy).
Qed.

(** The job of a due schedule: a backup of its server to its destination. *)
Definition job_of (s : BackupSchedule) (j : Job) : Prop :=
  exists b n e, j = JobBackup b (schedule_ServerID s) n (schedule_DestinationID s) e.

(** The row may have changed since it was selected, by a turn before. *)
Lemma run_due_run t id s w :
  healthy w -> w_now w = t -> backup_schedules (w_db w) !! id = Some s ->
  exists jobs w', run_due encKey t id s w = (Ok jobs, w') /\ healthy w' /\ w_now w' = t
    /\ backup_schedules (w_db w') = <[id := rescheduled t s]> (backup_schedules (w_db w))
    /\ (jobs = [] \/ exists j, jobs = [j] /\ job_of s j).
Proof.
  intros Hw Ht Hs. unfold run_due.
  assert (Hal : forall f, alter f id (backup_schedules (w_db w)) = <[id := f s]> (backup_schedules (w_db w))).
  { intros f. apply map_eq. intros k. destruct (decide (k = id)) as [->|Hne].
    - by rewrite lookup_alter_eq, lookup_insert_eq, Hs.
    - by rewrite lookup_alter_ne, lookup_insert_ne. }
  unfold rescheduled. destruct (nextCronTime (schedule_CronExpr s) t) as [next|e] eqn:En.
  2:{ erewrite bind_run by (by apply exec_schedule_run). eexists [], _. split; [done|]. split_and!; try done.
      - cbn. by rewrite Hal. - by left. }
  rewrite (bind_run _ _ _ (Ok t) w) by (by rewrite <- Ht). cbv beta iota.
  erewrite bind_run by (by apply exec_schedule_run). cbv beta iota. set (w1 := with_db _ w).
  set (req := mkCreateBackupRequest _ _ _ _). destruct (createBackup encKey req "schedule" w1) as [rb w2] eqn:Eb.
  pose proof (createBackup_schedules req "schedule" w1) as (Hh2 & Hn2 & _ & Hq2). rewrite Eb in Hh2, Hn2, Hq2. cbn [snd] in *.
  specialize (Hh2 Hw). erewrite bind_run by (apply attempt_run, Eb). cbv beta iota. destruct rb as [[b job]|e].
  - destruct (pruneBackups encKey (schedule_ServerID s) (schedule_RetentionCount s) (schedule_RetentionDays s) w2) as [rp w3] eqn:Ep.
    pose proof (pruneBackups_schedules (schedule_ServerID s) (schedule_RetentionCount s) (schedule_RetentionDays s) w2)
      as (Hh3 & Hn3 & _ & Hq3). rewrite Ep in Hh3, Hn3, Hq3. cbn [snd] in *. specialize (Hh3 Hh2).
    destruct (pruneBackups_ok (schedule_ServerID s) (schedule_RetentionCount s) (schedule_RetentionDays s) w2) as [w3' Ep'].
    rewrite Ep in Ep'. injection Ep' as -> _.
    erewrite bind_run by exact Ep. eexists _, _. split; [done|]. split_and!; [done | | |].
    + rewrite Hn3, Hn2. cbn. done.
    + rewrite Hq3, Hq2. cbn. by rewrite Hal.
    + right. exists job. split; [done|]. apply createBackup_inv in Eb as (_ & _ & _ & enc & nid & _ & _ & -> & _).
      by eexists _, _, _.
  - eexists [], _. split; [done|]. split_and!; [done | | | by left].
    + rewrite Hn2. done.
    + rewrite Hq2. cbn. by rewrite Hal.
Qed.

Lemma run_dues_run t l w :
  healthy w -> w_now w = t -> NoDup (map fst l) ->
  (forall id s, (id, s) ∈ l -> backup_schedules (w_db w) !! id = Some s) ->
  exists jobs w', run_dues encKey t l w = (Ok jobs, w') /\ w_now w' = t
    /\ (forall id s, (id, s) ∈ l -> backup_schedules (w_db w') !! id = Some (rescheduled t s))
    /\ (forall id, id ∉ map fst l -> backup_schedules (w_db w') !! id = backup_schedules (w_db w) !! id)
    /\ exists picks, NoDup picks.*1 /\ picks ⊆ l /\ Forall2 (fun p j => job_of p.2 j) picks jobs.
Proof.
  revert w. induction l as [|[id s] l IH]; intros w Hw Ht Hnd Hl.
  { exists [], w. split_and!; try done; [by intros * ?%not_elem_of_nil|]. exists []. split_and!; [constructor | done | done]. }
  cbn [map fst] in Hnd. apply NoDup_cons in Hnd as [Hni Hnd]. cbn [run_dues].
  destruct (run_due_run t id s w Hw Ht (Hl id s ltac:(left))) as (js & w1 & E1 & Hw1 & Ht1 & Hs1 & Hj).
  erewrite bind_run by exact E1. cbv beta iota.
  destruct (IH w1 Hw1 Ht1 Hnd) as (js' & w2 & E2 & Ht2 & Hin & Hout & picks & Hpn & Hpl & Hpj).
  { intros k x Hk. rewrite Hs1, lookup_insert_ne; [apply Hl; by right|]. intros ->. apply Hni.
    apply list_elem_of_fmap. by exists (k, x). }
  erewrite bind_run by exact E2. exists (js ++ js'), w2. split_and!; [done | done | | |].
  - intros k x [[= -> ->]|Hk]%elem_of_cons; [|by apply Hin]. by rewrite Hout, Hs1, lookup_insert_eq.
  - cbn [map fst]. intros k [Hne Hk]%not_elem_of_cons. by rewrite Hout, Hs1, lookup_insert_ne.
  - destruct Hj as [->|(j & -> & Hj)].
    + exists picks. split_and!; [done | by intros x Hx; right; apply Hpl | done].
    + exists ((id, s) :: picks). split_and!; [| |by constructor].
      * cbn. apply NoDup_cons. split; [|done]. intros (x & -> & Hx%Hpl)%list_elem_of_fmap. apply Hni, list_elem_of_fmap. eauto.
      * intros x [->|Hx]%elem_of_cons; [left | right; by apply Hpl].
Qed.
End due.

Lemma nodup_fst_filter {A B} (p : A * B -> bool) (l : list (A * B)) : NoDup l.*1 -> NoDup (map fst (List.filter p l)).
Proof.
  induction l as [|[a b] l IH]; [done|]. cbn. rewrite NoDup_cons. intros [Hni Hnd]. destruct (p (a, b)); [|by apply IH].
  cbn. apply NoDup_cons. split; [|by apply IH]. intros (x & -> & Hx)%list_elem_of_fmap. apply Hni, list_elem_of_fmap.
  exists x. split; [done|]. apply list_elem_of_In in Hx. apply filter_In in Hx as [Hx _]. by apply list_elem_of_In.
Qed.

(** C17. A tick of the scheduler fires a due schedule at most once, when no
    database call fails: the tick ends, each due schedule has its next run,
    which lies ahead, or is disabled when its expression has none; afterwards
    none is due, so the next tick does not fire it again, and the other
    schedules are as they were.  The jobs it starts belong to distinct due
    schedules, one job to each, and each backs up the server of its schedule
    to the destination of its schedule. *)
Theorem due_schedules_fire_once `{P : Platform} `{T : Json json} `{S : Json (gmap string string)} `{K : Json Keyring}
    `{J : DaemonJson} `{Loc : Location} (encKey : string) (w : World) :
  healthy w ->
  let due id s := backup_schedules (w_db w) !! id = Some s /\ schedule_due (w_now w) s = true in
  exists jobs w', runDueSchedules encKey w = (Ok jobs, w') /\ w_now w' = w_now w
  /\ (forall id s, due id s -> backup_schedules (w_db w') !! id = Some (rescheduled (w_now w) s))
  /\ (forall id, (forall s, ~ due id s) -> backup_schedules (w_db w') !! id = backup_schedules (w_db w) !! id)
  /\ (forall id s, backup_schedules (w_db w') !! id = Some s -> schedule_due (w_now w) s = false)
  /\ exists picks, NoDup picks.*1 /\ (forall id s, (id, s) ∈ picks -> due id s)
       /\ Forall2 (fun p j => job_of p.2 j) picks jobs.
Proof.
  intros Hw due. unfold runDueSchedules. rewrite (bind_run _ _ _ (Ok (w_now w)) w) by done. cbv beta iota.
  set (l := List.filter (fun kv => schedule_due (w_now w) (snd kv)) (map_to_list (backup_schedules (w_db w)))).
  erewrite bind_run by (apply attempt_run, query_healthy, Hw). cbv beta iota. fold l.
  rewrite (bind_run _ _ _ (Ok (w_now w)) w) by done. cbv beta iota.
  assert (Hdue : forall id s, (id, s) ∈ l <-> due id s).
  { intros id s. unfold l. rewrite list_elem_of_In, filter_In, <- list_elem_of_In, elem_of_map_to_list. done. }
  assert (Hnd : NoDup (map fst l)).
  { apply nodup_fst_filter, NoDup_fst_map_to_list. }
  destruct (run_dues_run encKey (w_now w) l w Hw eq_refl Hnd) as (jobs & w' & E & Ht & Hin & Hout & picks & Hpn & Hpl & Hpj).
  { by intros id s [H _]%Hdue. }
  exists jobs, w'. split_and!; [done | done | | | |].
  - intros id s Hd%Hdue. by apply Hin.
  - intros id Hno. apply Hout. intros ([k s] & -> & Hk)%list_elem_of_fmap. by apply (Hno s), Hdue.
  - intros id s Hs. destruct (decide (id ∈ map fst l)) as [Hd|Hd].
    + apply list_elem_of_fmap in Hd as ([k x] & -> & Hk). cbn in Hs. rewrite (Hin _ _ Hk) in Hs. injection Hs as <-.
      apply rescheduled_not_due.
    + destruct (schedule_due (w_now w) s) eqn:Ed; [|done]. exfalso. apply Hd. rewrite (Hout _ Hd) in Hs.
      apply list_elem_of_fmap. exists (id, s). split; [done|]. by apply Hdue.
  - exists picks. split_and!; [done | | done]. intros id s Hp%Hpl. by apply Hdue.
Qed.

(** ** The key of a backup *)

Section keys.
Context `{P : Platform} `{L : !PlatformLaws P} `{T : Json json} `{S : Json (gmap string string)} `{K : Json Keyring}
  `{KL : !JsonLaws Keyring ring_wf} (encKey : string).

Lemma BackupKeyring_healthy kr w :
  healthy w -> ring encKey (w_db w) = Some kr -> BackupKeyring encKey w = (Ok kr, w).
Proof.
  intros Hw Hr. unfold BackupKeyring. unfold ring, setting in Hr.
  erewrite bind_run by (by apply setting_Get_run).
  destruct (app_settings (w_db w) !! backupKeyringKey) as [enc|]; [|done].
  destruct (Decrypt encKey enc) as [v|e]; [|done]. cbn in Hr. cbv beta iota.
  destruct (String.eqb_spec v "") as [->|_]; [by rewrite json_unmarshal_empty in Hr|]. by rewrite Hr.
Qed.

Lemma backup_node_reads sid : frames eq eq (backup_node sid).
Proof. unfold backup_node. solve_frames. Qed.

Lemma remoteSourceFor_reads b : frames eq eq (remoteSourceFor encKey b).
Proof.
  unfold remoteSourceFor, remoteSpec, get_destination, map_err, of_res. solve_frames.
Qed.

(** The key a record names is the one its ring had. *)
Lemma encKeyForBackup_inv kr kid key bid b w r w' :
  keeps encKey kr (w_db w) -> KeyByID kr kid = Some key -> 0 <= kid <= 255 ->
  backups (w_db w) !! bid = Some b -> backup_EncKeyID b = Some kid ->
  encKeyForBackup encKey bid w = (r, w') ->
  (forall o, r = Ok o -> o = Some (mkEncKey key kid)) /\ (healthy w -> is_ok r = true).
Proof.
  intros Hk Hkey Hid Hb He H. unfold encKeyForBackup in H.
  apply bind_inv in H as [(b' & w1 & Hq%wrap_ok & H)|(e & Hq & ->)].
  - pose proof (query_ok _ _ _ _ Hq) as [Hq' Hd]. unfold get_key in Hq'. rewrite Hb in Hq'. injection Hq' as <-.
    rewrite He, Z.mod_small in H by lia. rewrite <- Hd in Hk.
    pose proof Hk as (kr' & Hr' & Hsub & _).
    assert (Hkey' : KeyByID kr' kid = Some key) by (by eapply lookup_weaken).
    assert (Hkr : forall kr2 w2, BackupKeyring encKey w1 = (Ok kr2, w2) -> kr2 = kr').
    { intros kr2 w2 Hu. pose proof (BackupKeyring_keeps _ _ _ _ _ Hk Hu) as Hd2.
      apply BackupKeyring_inv in Hu as [_ Hu]. destruct (Hu _ eq_refl) as [Hu' _]. rewrite Hd2 in Hu'. congruence. }
    split.
    + intros o ->. apply bind_ok in H as (kr2 & w2 & Hu & H). rewrite (Hkr _ _ Hu), Hkey' in H. by apply ret_inv in H as [[= ->] _].
    + intros Hw. assert (Hw1 : w1 = w) by (rewrite query_healthy in Hq by done; by injection Hq). subst w1.
      rewrite (bind_run _ _ _ _ _ (BackupKeyring_healthy kr' w Hw Hr')) in H. cbv beta iota in H. rewrite Hkey' in H.
      by apply ret_inv in H as [-> _].
  - split; [done|]. intros Hw. exfalso. unfold wrap, map_err in Hq.
    erewrite bind_run in Hq by (apply attempt_run, query_healthy, Hw). unfold get_key in Hq. by rewrite Hb in Hq.
Qed.
End keys.

Definition job_key (j : Job) : option EncKey :=
  match j with
  | JobBackup _ _ _ _ enc | JobRestore _ _ _ _ _ enc => enc
  | JobUpload _ _ _ _ => None
  end.

(** C18. A backup is restored with the key that encrypted it: after any sequence of
    uses, rotations and exports of the key ring, with any faults, as long as
    the record still has its key id, a restore that starts carries the key the
    archive job was given, and with no fault the key is found. *)
Theorem restore_key_matches `{P : Platform} `{L : !PlatformLaws P} `{T : Json json} `{S : Json (gmap string string)}
    `{K : Json Keyring} `{KL : !JsonLaws Keyring ring_wf} (encKey : string) (req : CreateBackupRequest)
    (trig : string) (b b2 : Backup) (job : Job) (w w1 w2 : World) :
  createBackup encKey req trig w = (Ok (b, job), w1) ->
  rtc (keyring_step encKey) w1 w2 ->
  backups (w_db w2) !! backup_ID b = Some b2 -> backup_EncKeyID b2 = backup_EncKeyID b ->
  is_Some (job_key job)
  /\ (forall b' job' w3, RestoreBackup encKey (backup_ID b) w2 = (Ok (b', job'), w3) -> job_key job' = job_key job)
  /\ (healthy w2 -> fst (encKeyForBackup encKey (backup_ID b) w2) = Ok (job_key job)).
Proof.
  intros Hc Hst Hb2 He2. apply createBackup_inv in Hc as (wa & wb & kr & enc & nid & Hk & Ha & -> & He & _ & _ & Hd).
  assert (Hact : KeyByID kr (enc_KeyID enc) = Some (enc_Key enc) /\ kr_Active kr = enc_KeyID enc).
  { unfold ActiveKey in Ha. destruct (KeyByID kr (kr_Active kr)) eqn:E; [|done]. injection Ha as <- <-. done. }
  destruct Hact as [Hkey Hid]. apply BackupKeyring_inv in Hk as [_ Hk]. destruct (Hk _ eq_refl) as [Hr Hwf].
  assert (Hr1 : keeps encKey kr (w_db w1)) by (exists kr; rewrite Hd; done).
  assert (Hk2 : keeps encKey kr (w_db w2)).
  { clear -Hr1 Hst L KL. induction Hst as [?|? ? ? Hs _ IH]; [done|]. apply IH. by eapply keyring_step_keeps. }
  assert (Hbound : 0 <= enc_KeyID enc <= 255) by (rewrite <- Hid; apply Hwf).
  rewrite He in He2. cbn [job_key]. destruct enc as [key kid]. cbn in *. split_and!; [done | |].
  - intros b' job' w3 H. unfold RestoreBackup in H. apply bind_ok in H as (b0 & wc & Hg & H).
    apply bind_ok in Hg as (q & wd & Hq & Hg). apply attempt_inv in Hq as (rq & [= <-] & Hq).
    destruct q as [bq|e]; [|destruct (error_Is e ErrNoRows); by apply fail_inv in Hg as [? _]].
    apply ret_inv in Hg as [[= ->] ->]. apply query_ok in Hq as [_ Hdd].
    destruct (negb _); [by apply fail_inv in H as [? _]|]. destruct (backup_ServerID bq) as [sid|]; [|by apply fail_inv in H as [? _]].
    apply bind_ok in H as (n & we & Hn & H). apply bind_ok in H as (rem & wf & Hrem & H).
    apply bind_ok in H as (o & wg & Ho & H). apply ret_inv in H as [[= -> ->] _].
    assert (Hf : w_db wf = w_db w2).
    { pose proof (backup_node_reads sid wd) as (_ & _ & _ & H1). rewrite Hn in H1.
      pose proof (remoteSourceFor_reads encKey bq we) as (_ & _ & _ & H2). rewrite Hrem in H2. cbn in H1, H2. congruence. }
    rewrite <- Hf in Hk2, Hb2. cbn [job_key].
    destruct (encKeyForBackup_inv _ _ _ _ _ _ _ _ _ Hk2 Hkey Hbound Hb2 He2 Ho) as [H1 _]. by apply H1.
  - intros Hw. destruct (encKeyForBackup encKey (backup_ID b) w2) as [r w'] eqn:E.
    destruct (encKeyForBackup_inv _ _ _ _ _ _ _ _ _ Hk2 Hkey Hbound Hb2 He2 E) as [H1 H2].
    destruct r as [o|e]; [|by specialize (H2 Hw)]. cbn. by rewrite (H1 o).
Qed.

(** ** A concrete installation *)

#[local] Existing Instances sample_platform sample_token_json sample_strings_json sample_ring_json sample_daemon_json UTC.

(** Node 9 is connected and answers every request with "ok"; server 4 runs
    on it. *)
Definition backup_node_client : Client := mkClient "http://10.0.0.9:8444" "tok" false.

Definition backup_world : World :=
  with_link (mkLink {[uuid_string 9 := backup_node_client]} None [] (fun _ _ => HTTPResponse 200 "ok"))
    (with_db (with_nodes {[9%N := sample_node 9]} (with_servers {[4%N := sample_server 4 9 5]} empty_db)) empty_world).

Definition backup_key : string := hex_bytes 16 7.

(** The destination, a backup to it, and its job. *)
Definition stored_world : World := snd (sample_create backup_world).
Definition office_request : CreateBackupRequest := mkCreateBackupRequest 4 "" "" (Some 1%N).
Definition sample_backup : M (Backup * Job) := createBackup backup_key office_request "manual".
Definition sample_job : Job := JobBackup 4 4 9 (Some 1%N) (Some (mkEncKey "AgAAAAAAAAAAAAAAAAAAAAAAAAAAAAAAAAAAAAAAAAA=" 0)).
Definition created_world : World := snd (sample_backup stored_world).

Lemma created_run : fst (sample_backup stored_world) = Ok (default (mkBackup 0 None "" "" "" None "" "" 0 None None None None None None false None)
  (backups (w_db created_world) !! 4%N), sample_job).
Proof. vm_compute. reflexivity. Qed.

Lemma storable_ok : storable_answers (link_net (w_link created_world)) 4 4.
Proof.
  intros c w Hn. split; [intros enc | intros spec];
    unfold client_CreateBackup, client_UploadBackup, postRemote, raw_call, send, bind, ret; cbn [fst]; rewrite Hn; vm_compute; reflexivity.
Qed.

Lemma created_healthy : healthy created_world.
Proof. vm_compute. reflexivity. Qed.

#[local] Opaque created_world.

Lemma backup_job_settles_witness :
  exists b, backups (w_db (snd (run_job backup_key sample_job created_world))) !! 4%N = Some b /\ settled b
    /\ backup_UploadStatus b = Some "done".
Proof.
  destruct (backups (w_db (snd (run_job backup_key sample_job created_world))) !! 4%N) as [b|] eqn:E.
  - assert (Hs : backup_Status <$> backups (w_db (snd (run_job backup_key sample_job created_world))) !! 4%N = Some "completed")
      by (vm_compute; reflexivity).
    assert (Hu : (backups (w_db (snd (run_job backup_key sample_job created_world))) !! 4%N) ≫= backup_UploadStatus = Some "done")
      by (vm_compute; reflexivity).
    rewrite E in Hs, Hu. injection Hs as Hs. cbn in Hu. exists b. split_and!; [done | | done].
    assert (Hd : Some 1%N = None -> forall b, backups (w_db created_world) !! 4%N = Some b -> backup_UploadStatus b = None)
      by (intros H; discriminate H).
    pose proof (backup_job_settles backup_key 4 4 9 (Some 1%N) (Some (mkEncKey "AgAAAAAAAAAAAAAAAAAAAAAAAAAAAAAAAAAAAAAAAAA=" 0))
        created_world created_healthy storable_ok Hd b E) as [H|[[H _]|(_ & H & _)]]; [exact H | |].
    + rewrite Hs in H. discriminate H.
    + rewrite Hu in H. discriminate H.
  - assert (H : is_Some (backups (w_db (snd (run_job backup_key sample_job created_world))) !! 4%N))
      by (vm_compute; by eexists). rewrite E in H. by destruct H.
Defined.

(** The node refuses the upload. *)
Definition refusing_world : World :=
  with_link (mkLink (pool_clients (w_link created_world)) None [] (fun _ _ => HTTPResponse 500 "disk full")) created_world.

Lemma failed_upload_keeps_archive_witness :
  let p := uploadBackup backup_key 4 4 9 1 refusing_world in
  kept_until_recorded backup_key 4 4 1 refusing_world (fst p) (snd p)
  /\ (backups (w_db (snd p)) !! 4%N) ≫= backup_UploadStatus = Some "failed".
Proof.
  cbv zeta. split; [|vm_compute; reflexivity].
  apply (failed_upload_keeps_archive backup_key 4 4 9 1 refusing_world). apply surjective_pairing.
Defined.

(** Two completed backups of server 4, of which one is kept. *)
Definition old_backup (id : uuid) (t : Z) : Backup :=
  mkBackup id (Some 4%N) "full" "local" "p" None "completed" "schedule" t None None None None None None true None.

Definition two_backups : World :=
  with_db (with_backups {[21%N := old_backup 21 10; 22%N := old_backup 22 20]} (w_db backup_world)) backup_world.


(** A schedule that is due. *)
Definition due_schedule : BackupSchedule :=
  mkBackupSchedule 6 4 "0 3 * * *" "full" "local" (Some 1) None true None (Some 0) 0 None.

Definition due_world : World :=
  with_db (with_backup_schedules {[6%N := due_schedule]} (w_db two_backups)) two_backups.

Lemma due_schedules_fire_once_witness :
  exists jobs w', runDueSchedules backup_key due_world = (Ok jobs, w') /\ length jobs = 1%nat
    /\ backup_schedules (w_db w') !! 6%N = Some (rescheduled 0 due_schedule)
    /\ (rescheduled 0 due_schedule).(schedule_NextRun) = Some (3 * 3600 * 1000000000)
    /\ backups (w_db w') !! 21%N = None.
Proof.
  destruct (due_schedules_fire_once backup_key due_world eq_refl) as (jobs & w' & E & _ & Hdue & _).
  exists jobs, w'. split; [exact E|].
  assert (Hw : forall A (f : res error (list Job) * World -> A), f (runDueSchedules backup_key due_world) = f (Ok jobs, w'))
    by (intros A f; by rewrite E).
  split_and!; [| |vm_compute; reflexivity|].
  - pose proof (Hw _ (fun p => match fst p with Ok l => length l | Err _ => 0%nat end)) as H. cbn [fst] in H.
    rewrite <- H. vm_compute. reflexivity.
  - apply (Hdue 6%N due_schedule). split; vm_compute; reflexivity.
  - pose proof (Hw _ (fun p => backups (w_db (snd p)) !! 21%N)) as H. cbn [snd] in H. rewrite <- H. vm_compute. reflexivity.
Defined.

Lemma restore_key_matches_witness :
  let w2 := snd (sample_rotate (snd (run_job backup_key sample_job created_world))) in
  let w1 := snd (run_job backup_key sample_job created_world) in
  fst (encKeyForBackup backup_key 4 w2) = Ok (job_key sample_job) /\ fst (activeEncKey backup_key w2) <> fst (activeEncKey backup_key w1).
Proof.
  cbv zeta. set (w1 := snd (run_job _ _ _)). set (w2 := snd (sample_rotate w1)).
  split; [|vm_compute; discriminate].
  destruct (backups (w_db w2) !! 4%N) as [b2|] eqn:E2; [|vm_compute in E2; discriminate E2].
  destruct (restore_key_matches (L := sample_platform_laws) (KL := sample_ring_json_laws) backup_key office_request "manual"
    (default (mkBackup 0 None "" "" "" None "" "" 0 None None None None None None false None)
      (backups (w_db created_world) !! 4%N)) b2 sample_job stored_world created_world w2) as (_ & _ & H).
  - rewrite <- created_run. apply surjective_pairing.
  - eapply rtc_l; [apply step_other with (w' := w1); vm_compute; reflexivity|].
    apply rtc_once. apply step_rotate with (by_ := None) (r := fst (sample_rotate w1)). apply surjective_pairing.
  - exact E2.
  - assert (H : (backups (w_db w2) !! 4%N) ≫= backup_EncKeyID = Some 0) by (vm_compute; reflexivity). rewrite E2 in H. exact H.
  - apply H. reflexivity.
Defined.

(** ** Two retries of one upload *)

(** The destination keeps no local archive; the node uploads and deletes the
    archive once, and then has nothing to upload. *)
Definition dropping_destination : M BackupDestination :=
  CreateDestination backup_key
    (mkSaveDestinationRequest "office" "sftp" "backups/tale" {["host" := "h.example"; "user" := "u"]}
       {["pass" := "hunter2"]} (Some false) None) None.

Definition retry_world : World :=
  let w := snd (dropping_destination backup_world) in
  with_link (mkLink (pool_clients (w_link w)) None []
               (fun n _ => if (n <? 2)%nat then HTTPResponse 200 "ok" else HTTPResponse 500 "archive not found"))
    (with_db (with_backups {[21%N := backup_with_DestinationID (Some 1%N)
       (backup_with_UploadStatus (Some "failed") (old_backup 21 10))]} (w_db w)) w).

(** A retry that has not started uploading does not stop a second one; the
    second finds no archive and marks the copy the first made as failed, and
    then the backup can neither be restored nor uploaded again. *)
Example retry_twice_loses_copy :
  let job := JobUpload 21 4 9 1 in
  let w1 := snd (RetryUpload 21 retry_world) in
  let w2 := snd (RetryUpload 21 w1) in
  let w3 := snd (run_job backup_key job w2) in
  let w4 := snd (run_job backup_key job w3) in
  match fst (RetryUpload 21 retry_world), fst (RetryUpload 21 w1) with
  | Ok (_, j1), Ok (_, j2) => j1 = job /\ j2 = job
  | _, _ => False
  end
  /\ (backups (w_db w3) !! 21%N) ≫= backup_UploadStatus = Some "done"
  /\ (backups (w_db w4) !! 21%N) ≫= backup_UploadStatus = Some "failed"
  /\ backup_LocalPresent <$> backups (w_db w4) !! 21%N = Some false
  /\ fst (RestoreBackup backup_key 21 w4) = Err (ErrNew "the local archive was removed and no off-site copy is available")
  /\ fst (RetryUpload 21 w4) = Err (ErrNew "the local archive is gone; nothing to upload").
Proof. vm_compute. repeat split. Qed.

(** A node that hangs: the context of the job ends, and the update that should
    record the failure with it; the record stays as it was before the call. *)
Example expired_job_stays_open :
  let hang path := with_link (mkLink (pool_clients (w_link created_world)) None []
        (fun _ req => if String.eqb (req_Path req) (server_path 4 path) then Expired "context deadline exceeded"
                      else HTTPResponse 200 "ok")) created_world in
  let row path := backups (w_db (snd (run_job backup_key sample_job (hang path)))) !! 4%N in
  backup_Status <$> row "/backup" = Some "running"
  /\ backup_Status <$> row "/backup/upload" = Some "completed"
  /\ row "/backup/upload" ≫= backup_UploadStatus = Some "uploading"
  /\ is_ok (fst (RetryUpload 4 (snd (run_job backup_key sample_job (hang "/backup/upload"))))) = false.
Proof. vm_compute. repeat split. Qed.

(** An answer that is no text: the record stays as the job found it. *)
Example unstorable_answer_stays_running :
  let w := with_link (mkLink (pool_clients (w_link created_world)) None []
             (fun _ _ => HTTPResponse 500 (String (ascii_of_nat 255) ""))) created_world in
  backup_Status <$> backups (w_db (snd (run_job backup_key sample_job w))) !! 4%N = Some "running".
Proof. vm_compute. reflexivity. Qed.
