(* ===== verification/ResourceHandlers.v ===== *)
(** * The handlers of backups, worlds and alerts

    Models [handlers/backups.go], [handlers/backup_destinations.go],
    [handlers/backup_key.go], [handlers/worlds.go], [handlers/alerts.go] and
    the download header of [daemon/host.go].  A handler returns its value or
    the reply that ends it; the jobs it starts are part of the value. *)

From stdpp Require Import base numbers list strings option gmap relations.
From Stdlib Require Import Ascii.
From S2P Require Import Prelude GoStrings Cron Store Roles Permissions Platform Crypto Net Servers Worlds Alerts Daemon Http ServerHandlers Settings Destinations Backups.

Local Open Scope Z_scope.

(** ** The name of a download *)

(** Package [mime]: tokens and what must be encoded. *)
Definition tspecials : list ascii :=
  ["("; ")"; "<"; ">"; "@"; ","; ";"; ":"; "\"; "034"; "/"; "["; "]"; "?"; "="]%char.
Definition isTSpecial (a : ascii) : bool := bool_decide (a ∈ tspecials).
Definition isTokenChar (a : ascii) : bool := (32 <? byte_of a) && (byte_of a <? 127) && negb (isTSpecial a).
Definition isToken (s : string) : bool := negb (String.eqb s "") && str_forallb isTokenChar s.
Definition needsEncoding (s : string) : bool :=
  negb (str_forallb (fun a => ((32 <=? byte_of a) && (byte_of a <=? 126)) || (byte_of a =? 9)) s).

Definition upperhex (n : Z) : ascii := ascii_of (if n <? 10 then 48 + n else 55 + n).

(** RFC 2231: the bytes that are percent-encoded. *)
Definition percent_encoded (a : ascii) : bool :=
  (byte_of a <=? 32) || (127 <=? byte_of a) || bool_decide (a ∈ ["*"; "'"; "%"]%char) || isTSpecial a.
Fixpoint percent (s : string) : string :=
  match s with
  | EmptyString => EmptyString
  | String a s' =>
    if percent_encoded a
    then String "%" (String (upperhex (byte_of a / 16)) (String (upperhex (byte_of a mod 16)) (percent s')))
    else String a (percent s')
  end.

(** The body of a quoted string, with its closing quote. *)
Fixpoint quoted (s : string) : string :=
  match s with
  | EmptyString => String "034" EmptyString
  | String a s' =>
    if Ascii.eqb a "034" || Ascii.eqb a "\" then String "\" (String a (quoted s')) else String a (quoted s')
  end.

(** [mime.FormatMediaType("attachment", {"filename": name})]. *)
Definition FormatMediaType (name : string) : string :=
  "attachment; filename" +:+
  (if needsEncoding name then "*=utf-8''" +:+ percent name
   else if isToken name then "=" +:+ name
   else "=" +:+ String "034" (quoted name)).

Definition AttachmentDisposition (name0 : string) : string :=
  let name := SanitizeFilename name0 in
  if String.eqb name "" then "attachment" else FormatMediaType name.

(** ** Handlers *)

Section handlers.
Context `{U : Unicode} `{P : Platform} `{T : Json json} `{S : Json (gmap string string)} `{K : Json Keyring} `{J : DaemonJson}
  `{Loc : Location} (encKey : string).

(** [id, ok := parseUUID(c, param); if !ok { return }]. *)
Definition with_uuid {A} (param : string) (k : uuid -> M (res Reply A)) : M (res Reply A) :=
  match uuid_parse param with None => refuse 400 "invalid ID format" | Some id => k id end.

(** A call whose error is answered by [onErr]. *)
Definition answer {A} (m : M A) (onErr : error -> Reply) : M (res Reply A) :=
  let* r := attempt m in ret match r with Ok a => Ok a | Err e => Err (onErr e) end.

Definition bad_request (e : error) : Reply := reply_error 400 (error_Error e).

(** *** Backups *)

Definition requireServerPerm {A} (user : User) (serverID : uuid) (perm : string) (k : M (res Reply A)) : M (res Reply A) :=
  let* r := attempt (HasServerPermission user serverID perm) in
  match r with
  | Err _ => refuse 500 "permission check failed"
  | Ok false => refuse 403 "insufficient permissions"
  | Ok true => k
  end.

Definition ListBackupsHandler (user : User) (sid : string) : M (res Reply (list Backup)) :=
  if String.eqb sid "" then refuse 400 "server_id is required"
  else match uuid_parse sid with
  | None => refuse 400 "invalid server_id"
  | Some serverID =>
    requireServerPerm user serverID "server.view"
      (answer (ListBackups (Some serverID)) (fun _ => reply_error 500 "could not list backups"))
  end.

Definition CreateBackupHandler (user : User) (body : res string CreateBackupRequest) : M (res Reply (Backup * Job)) :=
  with_body body (fun req =>
    requireServerPerm user (cbr_ServerID req) "backup.create" (answer (CreateBackup encKey req) bad_request)).

(** A handler on one backup: its server decides the permission. *)
Definition with_backup {A} (user : User) (backupParam perm : string) (k : uuid -> M (res Reply A)) : M (res Reply A) :=
  with_uuid backupParam (fun backupID =>
    let* r := attempt (BackupServerID backupID) in
    match r with
    | Err _ => refuse 404 "backup not found"
    | Ok serverID => requireServerPerm user serverID perm (k backupID)
    end).

Definition DeleteBackupHandler (user : User) (backupParam : string) : M (res Reply unit) :=
  with_backup user backupParam "backup.create" (fun id => answer (DeleteBackup encKey id) bad_request).

Definition RestoreBackupHandler (user : User) (backupParam : string) : M (res Reply (Backup * Job)) :=
  with_backup user backupParam "backup.restore" (fun id => answer (RestoreBackup encKey id) bad_request).

Definition RetryUploadHandler (user : User) (backupParam : string) : M (res Reply (Backup * Job)) :=
  with_backup user backupParam "backup.create" (fun id => answer (RetryUpload id) bad_request).

(** The body with the header that names it. *)
Definition DownloadBackupHandler (user : User) (backupParam : string) : M (res Reply (string * string)) :=
  with_backup user backupParam "server.view" (fun id =>
    let* r := answer (DownloadBackup encKey id) (fun _ => reply_error 502 "could not download backup") in
    ret match r with Ok (body, filename) => Ok (body, AttachmentDisposition filename) | Err e => Err e end).

(** *** Schedules *)

Definition ListSchedulesHandler (idParam : string) : M (res Reply (list BackupSchedule)) :=
  with_uuid idParam (fun serverID => answer (ListSchedules serverID) (fun _ => reply_error 500 "could not list schedules")).

Definition CreateScheduleHandler (user : User) (body : res string CreateScheduleRequest) : M (res Reply BackupSchedule) :=
  with_body body (fun req =>
    requireServerPerm user (csr_ServerID req) "backup.create" (answer (CreateSchedule req) bad_request)).

Definition with_schedule {A} (user : User) (scheduleParam : string) (k : uuid -> M (res Reply A)) : M (res Reply A) :=
  with_uuid scheduleParam (fun scheduleID =>
    let* r := attempt (ScheduleServerID scheduleID) in
    match r with
    | Err _ => refuse 404 "schedule not found"
    | Ok serverID => requireServerPerm user serverID "backup.create" (k scheduleID)
    end).

Definition ToggleScheduleHandler (user : User) (scheduleParam : string) (body : res string bool) : M (res Reply unit) :=
  with_schedule user scheduleParam (fun id => with_body body (fun enabled => answer (ToggleSchedule id enabled) bad_request)).

Definition DeleteScheduleHandler (user : User) (scheduleParam : string) : M (res Reply unit) :=
  with_schedule user scheduleParam (fun id => answer (DeleteSchedule id) bad_request).

(** *** Destinations *)

Definition writeErr (e : error) : Reply :=
  if error_Is e ErrDestinationNotFound then reply_error 404 (error_Error e)
  else if error_Is e ErrInvalidDestination || error_Is e ErrDestinationInUse then reply_error 400 (error_Error e)
  else reply_error 500 "backup destination operation failed".

Definition Providers : list DestinationProvider := destinationProviders.

Definition ListDestinationsHandler : M (res Reply (list BackupDestination)) := answer (ListDestinations encKey) writeErr.
Definition ListSummariesHandler : M (res Reply (list BackupDestinationSummary)) := answer ListSummaries writeErr.

Definition CreateDestinationHandler (user : User) (body : option SaveDestinationRequest) : M (res Reply BackupDestination) :=
  match body with
  | None => refuse 400 "invalid request body"
  | Some req => answer (CreateDestination encKey req (Some (user_ID user))) writeErr
  end.

Definition UpdateDestinationHandler (idParam : string) (body : option SaveDestinationRequest) : M (res Reply BackupDestination) :=
  with_uuid idParam (fun id =>
    match body with
    | None => refuse 400 "invalid request body"
    | Some req => answer (UpdateDestination encKey id req) writeErr
    end).

Definition DeleteDestinationHandler (idParam : string) : M (res Reply unit) :=
  with_uuid idParam (fun id => answer (DeleteDestination id) writeErr).

(** The value is the [ok] of the reply with the error text. *)
Definition TestDestinationHandler (idParam : string) (nodeID : option uuid) : M (res Reply (bool * string)) :=
  with_uuid idParam (fun id =>
    let* r := attempt (TestDestination encKey id nodeID) in
    ret match r with
        | Ok _ => Ok (true, "")
        | Err e => if error_Is e ErrDestinationNotFound || error_Is e ErrInvalidDestination then Err (writeErr e)
                   else Ok (false, error_Error e)
        end).

(** *** The backup key *)

Definition BackupKeyStatus : M (res Reply Z) :=
  let* r := answer (ExportActiveBackupKey encKey) (fun _ => reply_error 500 "could not load backup key status") in
  ret match r with Ok (id, _) => Ok id | Err e => Err e end.

Definition BackupKeyExport : M (res Reply (Z * string)) :=
  answer (ExportActiveBackupKey encKey) (fun _ => reply_error 500 "could not export backup key").

Definition BackupKeyRotate (user : option User) : M (res Reply Z) :=
  answer (RotateBackupKey encKey (user_ID <$> user)) (fun _ => reply_error 500 "could not rotate backup key").

(** *** Worlds *)

Definition DaemonWorldReport (idParam : string) (nodeID : option string)
    (body : res string (list ScannedWorld * string)) : M (res Reply unit) :=
  callback idParam nodeID (fun serverID => with_body body (fun '(worlds, activeWorld) =>
    answer (SyncWorlds serverID worlds activeWorld) (fun _ => reply_error 500 "could not sync worlds"))).

Definition ListWorldsHandler (idParam : string) : M (res Reply (list World_)) :=
  with_uuid idParam (fun serverID => answer (ListWorlds serverID) (fun _ => reply_error 500 "could not list worlds")).

Definition CreateWorldHandler : Reply :=
  reply_error 501 "TalePanel cannot create Hytale worlds. Worlds are generated by the Hytale server itself under universe/worlds and appear here automatically once the daemon finds them on disk.".

Definition world_error (conflict : bool) (msg : string) (e : error) : Reply :=
  if error_Is e ErrWorldNotFound then reply_error 404 "world not found"
  else if error_Is e ErrServerNotFound then reply_error 404 "server not found"
  else if conflict && error_Is e ErrWorldActive then reply_error 409 (error_Error e)
  else if error_Is e ErrUnsafeWorldName then reply_error 400 (error_Error e)
  else reply_error 500 msg.

Definition SetActiveWorldHandler (idParam worldParam : string) : M (res Reply unit) :=
  with_uuid idParam (fun serverID => with_uuid worldParam (fun worldID =>
    answer (SetActiveWorld serverID worldID) (world_error false "could not set active world"))).

Definition DeleteWorldHandler (idParam worldParam : string) : M (res Reply unit) :=
  with_uuid idParam (fun serverID => with_uuid worldParam (fun worldID =>
    answer (DeleteWorld serverID worldID) (world_error true "could not delete world"))).

(** *** Alerts *)

Definition with_caller {A} (caller : option User) (k : User -> M (res Reply A)) : M (res Reply A) :=
  match caller with None => refuse 401 "unauthorized" | Some u => k u end.

Definition ListRulesHandler (caller : option User) : M (res Reply (list AlertRule)) :=
  with_caller caller (fun u => answer (ListRules (user_ID u)) (fun _ => reply_error 500 "could not list alert rules")).

Definition rule_error (e : error) : Reply :=
  if error_Is e ErrAlertRuleForbidden then reply_error 403 (error_Error e)
  else if error_Is e ErrAlertRuleInvalid then reply_error 400 (error_Error e)
  else reply_error 500 "could not create alert rule".

Definition CreateRuleHandler (url_parse : string -> option URL) (caller : option User) (body : res string CreateAlertRuleRequest) : M (res Reply AlertRule) :=
  with_caller caller (fun user => with_body body (fun req => answer (CreateRule url_parse user req) rule_error)).

Definition ToggleRuleHandler (caller : option User) (ruleParam : string) (body : res string bool) : M (res Reply unit) :=
  with_caller caller (fun u => with_uuid ruleParam (fun ruleID => with_body body (fun enabled =>
    answer (ToggleRule ruleID (user_ID u) enabled) bad_request))).

Definition DeleteRuleHandler (caller : option User) (ruleParam : string) : M (res Reply unit) :=
  with_caller caller (fun u => with_uuid ruleParam (fun ruleID => answer (DeleteRule ruleID (user_ID u)) bad_request)).

Definition ListEventsHandler (caller : option User) : M (res Reply (list AlertEvent)) :=
  with_caller caller (fun u => answer (ListEvents u 50) (fun _ => reply_error 500 "could not list alert events")).

Definition ResolveEventHandler (caller : option User) (eventParam : string) : M (res Reply unit) :=
  with_caller caller (fun u => with_uuid eventParam (fun eventID =>
    answer (ResolveEvent u eventID) (fun e =>
      if error_Is e ErrAlertEventNotFound then reply_error 404 (error_Error e)
      else reply_error 500 "could not resolve alert event"))).
End handlers.

(** ** Theorems: downloads *)

(** What a client reads from the header: the name of the attachment. *)
Definition unhex (a : ascii) : Z := if byte_of a <? 58 then byte_of a - 48 else byte_of a - 55.
Fixpoint unpercent (s : string) : string :=
  match s with
  | String a s' =>
    if Ascii.eqb a "%" then
      match s' with
      | String h (String l s'') => String (ascii_of (16 * unhex h + unhex l)) (unpercent s'')
      | _ => s'
      end
    else String a (unpercent s')
  | EmptyString => EmptyString
  end.
Fixpoint unquote (s : string) : option string :=
  match s with
  | EmptyString => None
  | String a s' =>
    if Ascii.eqb a "034" then (if String.eqb s' "" then Some "" else None)
    else if Ascii.eqb a "\" then
      match s' with String b s'' => String b <$> unquote s'' | EmptyString => None end
    else String a <$> unquote s'
  end.
Fixpoint strip_prefix (p s : string) : option string :=
  match p, s with
  | EmptyString, _ => Some s
  | String a p', String b s' => if Ascii.eqb a b then strip_prefix p' s' else None
  | _, _ => None
  end.
Definition attachment_name (h : string) : option string :=
  if String.eqb h "attachment" then Some ""
  else match strip_prefix "attachment; filename*=utf-8''" h with
  | Some enc => Some (unpercent enc)
  | None =>
    match strip_prefix "attachment; filename=" h with
    | Some (String a s) => if Ascii.eqb a "034" then unquote s
                           else if str_forallb isTokenChar (String a s) then Some (String a s) else None
    | _ => None
    end
  end.

Lemma strip_prefix_app p s : strip_prefix p (p +:+ s) = Some s.
Proof. induction p as [|a p IH]; [by destruct s|]. simpl. destruct (Ascii.eqb_spec a a); [exact IH | done]. Qed.

Lemma unpercent_percent s : unpercent (percent s) = s.
Proof.
  induction s as [|a s IH]; [done|]. cbn [percent]. destruct (percent_encoded a) eqn:E; cbn [unpercent].
  - cbn. rewrite IH. f_equal. clear. by destruct a as [[] [] [] [] [] [] [] []].
  - rewrite IH. destruct (Ascii.eqb_spec a "%") as [->|]; [done|]. done.
Qed.

Lemma unquote_quoted s : unquote (quoted s) = Some s.
Proof.
  induction s as [|a s IH]; [done|]. cbn [quoted]. destruct (_ || _) eqn:E; cbn [unquote].
  - cbn. by rewrite IH.
  - apply orb_false_iff in E as [-> ->]. by rewrite IH.
Qed.

(** The bytes a header value may have. *)
Definition header_byte (a : ascii) : bool := ((32 <=? byte_of a) && (byte_of a <=? 126)) || (byte_of a =? 9).

Lemma percent_header s : str_forallb header_byte (percent s) = true.
Proof.
  induction s as [|a s IH]; [done|]. cbn [percent]. destruct (percent_encoded a) eqn:E; cbn [str_forallb]; rewrite IH, ?andb_true_r.
  - clear. by destruct a as [[] [] [] [] [] [] [] []].
  - revert E. clear. by destruct a as [[] [] [] [] [] [] [] []].
Qed.

Lemma quoted_header s : str_forallb header_byte s = true -> str_forallb header_byte (quoted s) = true.
Proof.
  induction s as [|a s IH]; [done|]. cbn [quoted str_forallb]. intros [Ha Hs]%andb_true_iff.
  destruct (_ || _); cbn [str_forallb]; rewrite Ha, IH by done; done.
Qed.

(** C34. A download is offered under the sanitised name and nothing else: the
    header a name is put into reads back as exactly that name, whatever bytes
    it has, and is one line of printable characters, so that a name from a
    node can neither add a parameter nor a header. *)
Theorem attachment_roundtrip (name : string) :
  attachment_name (AttachmentDisposition name) = Some (SanitizeFilename name)
  /\ str_forallb header_byte (AttachmentDisposition name) = true.
Proof.
  unfold AttachmentDisposition. cbv zeta. generalize (SanitizeFilename name) as n. intros n.
  destruct (String.eqb_spec n "") as [->|Hn]; [done|]. unfold FormatMediaType, attachment_name.
  destruct (needsEncoding n) eqn:En; [|destruct (isToken n) eqn:Et].
  - split; [change (Some (unpercent (percent n)) = Some n); by rewrite unpercent_percent|]. rewrite !str_forallb_app, percent_header. done.
  - unfold isToken in Et. apply andb_true_iff in Et as [_ Et]. apply negb_false_iff in En.
    split; [|rewrite !str_forallb_app; unfold header_byte at 3; by rewrite En].
    destruct n as [|a n]; [done|]. simpl. simpl in Et. rewrite Et.
    destruct (Ascii.eqb_spec a "034") as [->|]; done.
  - apply negb_false_iff in En. split; [change (unquote (quoted n) = Some n); apply unquote_quoted|].
    rewrite !str_forallb_app. simpl. by rewrite quoted_header.
Qed.

(** ** Theorems: who reaches a backup *)

(** A value a method can return. *)
Definition yields {A} (Φ : A -> Prop) (m : M A) : Prop := forall w a w', m w = (Ok a, w') -> Φ a.

Lemma yields_ret {A} (Φ : A -> Prop) a : Φ a -> yields Φ (ret a).
Proof. by intros H w a' w' [= -> _]. Qed.
Lemma yields_fail {A} (Φ : A -> Prop) e : yields Φ (fail e).
Proof. by intros w a w' [=]. Qed.
Lemma yields_bind {A B} (Φ : B -> Prop) (m : M A) (k : A -> M B) : (forall a, yields Φ (k a)) -> yields Φ (bind m k).
Proof. intros Hk w b w' (a & w1 & _ & H)%bind_ok. by eapply Hk. Qed.

Ltac solve_yields :=
  repeat lazymatch goal with
  | |- yields _ (bind _ _) => apply yields_bind; intros
  | |- yields _ (ret _) => apply yields_ret
  | |- yields _ (fail _) => apply yields_fail
  | |- yields _ (match ?x with _ => _ end) => destruct x
  end.

(** The permission check passed on the data the request found. *)
Definition granted (user : User) (sid : uuid) (perm : string) (w : World) : Prop :=
  exists w1 w2, w_db w1 = w_db w /\ HasServerPermission user sid perm w1 = (Ok true, w2).

(** Of a table, only rows of one server change. *)
Definition rows_of {A} (owner : A -> option uuid) (sid : uuid) (t t' : gmap uuid A) : Prop :=
  forall k, t' !! k = t !! k \/ forall x, t !! k = Some x \/ t' !! k = Some x -> owner x = Some sid.

Definition schedule_owner (s : BackupSchedule) : option uuid := Some (schedule_ServerID s).

Definition backup_scope (sid : uuid) (d d' : DB) : Prop :=
  rows_of backup_ServerID sid (backups d) (backups d')
  /\ rows_of schedule_owner sid (backup_schedules d) (backup_schedules d')
  /\ other_tables d' = other_tables d.

(** Everything sent names the server in its path. *)
Definition sent_about `{P : Platform} (sid : uuid) (l l' : Link) : Prop :=
  exists reqs, l' = link_with_sent (link_sent l ++ reqs) l
  /\ Forall (fun r => exists rest, req_Path r = server_path sid rest) reqs.

Lemma rows_of_refl {A} (owner : A -> option uuid) sid t : rows_of owner sid t t.
Proof. by left. Qed.
Lemma rows_of_trans {A} (owner : A -> option uuid) sid t1 t2 t3 :
  rows_of owner sid t1 t2 -> rows_of owner sid t2 t3 -> rows_of owner sid t1 t3.
Proof.
  intros H1 H2 k. destruct (H1 k) as [E1|E1], (H2 k) as [E2|E2]; [left; congruence | right | right | right].
  - intros x [Hx|Hx]; apply E2; rewrite ?E1; auto.
  - intros x [Hx|Hx]; apply E1; rewrite <- ?E2; auto.
  - intros x [Hx|Hx]; [apply E1 | apply E2]; auto.
Qed.

#[export] Instance backup_scope_preorder sid : PreOrder (backup_scope sid).
Proof.
  split.
  - intros d. split_and!; [apply rows_of_refl.. | done].
  - intros a b c (H1 & H2 & H3) (G1 & G2 & G3). split_and!; [by eapply rows_of_trans.. | congruence].
Qed.

#[export] Instance sent_about_preorder `{P : Platform} sid : PreOrder (sent_about sid).
Proof.
  split.
  - intros l. exists []. rewrite app_nil_r. split; [by destruct l | done].
  - intros a b c (r1 & -> & H1) (r2 & -> & H2). exists (r1 ++ r2). rewrite app_assoc. split; [done|]. by apply Forall_app.
Qed.

Lemma quiet_scope sid d d' : quiet d d' -> backup_scope sid d d'.
Proof. intros (Hb & Hs & _ & Ho). split_and!; [rewrite Hb; apply rows_of_refl | rewrite Hs; apply rows_of_refl | done]. Qed.

Lemma alter_rows {A} (owner : A -> option uuid) sid (t : gmap uuid A) k f :
  (forall x, t !! k = Some x -> owner x = Some sid) -> (forall x, owner (f x) = owner x) ->
  rows_of owner sid t (alter f k t).
Proof.
  intros Hk Hf j. destruct (decide (j = k)) as [->|Hn]; [|left; by rewrite lookup_alter_ne]. right.
  intros x [Hx|Hx]; [by apply Hk|]. rewrite lookup_alter_eq in Hx. destruct (t !! k) as [y|] eqn:E; [|done].
  injection Hx as <-. rewrite Hf. by apply Hk.
Qed.

Lemma delete_rows {A} (owner : A -> option uuid) sid (t : gmap uuid A) k :
  (forall x, t !! k = Some x -> owner x = Some sid) -> rows_of owner sid t (delete k t).
Proof.
  intros Hk j. destruct (decide (j = k)) as [->|Hn]; [|left; by rewrite lookup_delete_ne]. right.
  intros x [Hx|Hx]; [by apply Hk|]. by rewrite lookup_delete_eq in Hx.
Qed.

Lemma insert_rows {A} (owner : A -> option uuid) sid (t : gmap uuid A) k x :
  t !! k = None -> owner x = Some sid -> rows_of owner sid t (<[k := x]> t).
Proof.
  intros Hk Ho j. destruct (decide (j = k)) as [->|Hn]; [|left; by rewrite lookup_insert_ne]. right.
  intros y [Hy|Hy]; [congruence|]. rewrite lookup_insert_eq in Hy. by injection Hy as <-.
Qed.

(** For a change of one row whose server is known. *)
Definition owns_row (id sid : uuid) (d : DB) : Prop := forall b, backups d !! id = Some b -> backup_ServerID b = Some sid.
Definition owns_schedule (id sid : uuid) (d : DB) : Prop :=
  forall x, backup_schedules d !! id = Some x -> schedule_owner x = Some sid.
Definition scope_if (O : DB -> Prop) (sid : uuid) (d d' : DB) : Prop := O d -> backup_scope sid d d' /\ O d'.

#[export] Instance scope_if_preorder O sid : PreOrder (scope_if O sid).
Proof.
  split; [by intros d Hd|]. intros a b c H1 H2 Ha. destruct (H1 Ha) as [S1 Hb]. destruct (H2 Hb) as [S2 Hc].
  split; [by etrans | done].
Qed.

Lemma quiet_row_scope id sid d d' : quiet d d' -> scope_if (owns_row id sid) sid d d'.
Proof. intros Hq Hd. split; [by apply quiet_scope|]. intros b. destruct Hq as (-> & _). apply Hd. Qed.

Section authorized.
Context `{U : Unicode} `{P : Platform} `{T : Json json} `{S : Json (gmap string string)} `{K : Json Keyring} `{J : DaemonJson}
  `{Loc : Location} (encKey : string).

Lemma frames_quiet_scope {A} (L : Link -> Link -> Prop) id sid (m : M A) : frames L quiet m -> frames L (scope_if (owns_row id sid) sid) m.
Proof. apply frames_weaken; [done | apply quiet_row_scope]. Qed.

Lemma send_about sid c meth rest query body l :
  sent_about sid l (link_with_sent (link_sent l ++ [request c meth (server_path sid rest) query body]) l).
Proof. exists [request c meth (server_path sid rest) query body]. split; [done|]. apply Forall_singleton. by exists rest. Qed.

Lemma node_client_about sid : frames (sent_about sid) quiet (node_client sid).
Proof. unfold node_client. solve_frames; [apply backup_node_frames | apply pool_Get_frames]; tc_solve. Qed.

Lemma delete_copy_about b sid c : frames (sent_about sid) quiet (delete_copy encKey b sid c).
Proof.
  unfold delete_copy, client_DeleteRemoteBackup, postRemote.
  solve_frames; first [intros l; apply send_about | apply remoteSpec_frames; tc_solve
    | apply ApplyConfigUpdates_frames; tc_solve | apply saveUpdatesFromErr_frames; tc_solve].
Qed.

Lemma encKey_about sid id : frames (sent_about sid) quiet (encKeyForBackup encKey id).
Proof. unfold encKeyForBackup. solve_frames. apply BackupKeyring_frames; tc_solve. Qed.

Lemma remoteSource_about sid b : frames (sent_about sid) quiet (remoteSourceFor encKey b).
Proof. unfold remoteSourceFor. solve_frames. apply remoteSpec_frames; tc_solve. Qed.

Lemma getBackup_run id w r w' : getBackup id w = (r, w') ->
  w_db w' = w_db w /\ w_link w' = w_link w /\ forall b, r = Ok b -> backups (w_db w) !! id = Some b.
Proof.
  intros H. assert (Hf : frames eq eq (getBackup id)) by (unfold getBackup; solve_frames).
  specialize (Hf w). rewrite H in Hf. destruct Hf as (_ & _ & Hl & Hd). split_and!; [done..|]. intros b ->.
  apply bind_ok in H as (q & w1 & (q' & [= ->] & Hq)%attempt_inv & H). apply query_inv in Hq as (_ & _ & _ & _ & _ & Hq).
  destruct q' as [b'|e]; [|by destruct (error_Is e _)]. apply ret_inv in H as [[= ->] _].
  destruct Hq as [Hq|Hq]; [done|]. unfold get_key in Hq. by case_match; simplify_eq.
Qed.

(** What a request may have done for a server; the outcome of a service call. *)
Definition done_for {A} (about : A -> uuid -> Prop) (sid : uuid) (w : World) (r : res error A) (w' : World) : Prop :=
  backup_scope sid (w_db w) (w_db w') /\ sent_about sid (w_link w) (w_link w') /\ forall a, r = Ok a -> about a sid.

Lemma on_backup {A} (about : A -> uuid -> Prop) id (rest : Backup -> M A) sid w r w' :
  owns_row id sid (w_db w) ->
  (forall b, backup_ServerID b = Some sid ->
     frames (sent_about sid) (scope_if (owns_row id sid) sid) (rest b) /\ yields (fun a => about a sid) (rest b)) ->
  bind (getBackup id) rest w = (r, w') -> done_for about sid w r w'.
Proof.
  intros Ho Hrest [(b & w1 & Hg & H)|(e & Hg & ->)]%bind_inv; apply getBackup_run in Hg as (Hd & Hl & Hb); unfold done_for.
  - destruct (Hrest b) as [Hf Hy]; [by eapply Ho, Hb|]. specialize (Hf w1). rewrite H in Hf. destruct Hf as (_ & _ & Hf1 & Hf2).
    cbn [snd] in *. rewrite Hd in Hf2. rewrite Hl in Hf1.
    split_and!; [by apply Hf2 | done|]. intros a ->. by eapply Hy.
  - rewrite Hd, Hl. by split_and!.
Qed.

Lemma delete_on sid id w r w' : owns_row id sid (w_db w) -> DeleteBackup encKey id w = (r, w') -> done_for (fun _ _ => True) sid w r w'.
Proof.
  intros Ho. apply on_backup; [done|]. intros b Hb. split; [|by intros ? ? ? ?]. rewrite Hb.
  unfold client_DeleteBackupArchive, doRequest, stmt_on. solve_frames; try (intros l; apply send_about).
  - apply frames_quiet_scope, node_client_about.
  - apply frames_quiet_scope, delete_copy_about.
  - intros d1 a1 d2 Hd Hd1. destruct (backups d1 !! id) as [b1|] eqn:E; injection Hd as _ <-; [|by split].
    split; [|by intros b2; cbn; rewrite lookup_delete_eq]. split_and!; [|apply rows_of_refl | done]. by apply delete_rows.
Qed.

(** The server a job works on. *)
Definition job_server (j : Job) : uuid :=
  match j with JobBackup _ s _ _ _ | JobUpload _ s _ _ | JobRestore _ s _ _ _ _ => s end.

Lemma restore_on sid id w r w' : owns_row id sid (w_db w) -> RestoreBackup encKey id w = (r, w') ->
  done_for (fun x sid => job_server (snd x) = sid) sid w r w'.
Proof.
  intros Ho. apply on_backup; [done|]. intros b Hb. rewrite Hb. split; [|by solve_yields].
  apply frames_quiet_scope. solve_frames; [apply backup_node_frames; tc_solve | apply remoteSource_about | apply encKey_about].
Qed.

Lemma retry_on sid id w r w' : owns_row id sid (w_db w) -> RetryUpload id w = (r, w') ->
  done_for (fun x sid => job_server (snd x) = sid) sid w r w'.
Proof.
  intros Ho. apply on_backup; [done|]. intros b Hb. rewrite Hb. split; [|destruct (backup_DestinationID b); by solve_yields].
  solve_frames; [apply frames_quiet_scope, backup_node_frames; tc_solve|].
  unfold exec_backup. solve_frames. intros d1 a1 d2 [= _ <-] Hd1. split.
  - split_and!; [by apply alter_rows | apply rows_of_refl | done].
  - intros b1. cbn. rewrite lookup_alter_eq. destruct (backups d1 !! id) as [b2|] eqn:E; [|done]. intros [= <-]. exact (Hd1 b2 E).
Qed.

Lemma download_on sid id w r w' : owns_row id sid (w_db w) -> DownloadBackup encKey id w = (r, w') ->
  done_for (fun _ _ => True) sid w r w'.
Proof.
  intros Ho. apply on_backup; [done|]. intros b Hb. rewrite Hb. split; [|by intros ? ? ? ?].
  apply frames_quiet_scope. unfold client_DownloadBackup, client_DownloadBackupFrom, raw_call.
  solve_frames; first [intros l; apply send_about | apply backup_node_frames; tc_solve | apply remoteSource_about | apply encKey_about
    | apply pool_Get_frames; tc_solve].
Qed.

Lemma frames_done {A} (about : A -> uuid -> Prop) (m : M A) sid w r w' :
  frames (sent_about sid) (backup_scope sid) m -> yields (fun a => about a sid) m -> m w = (r, w') -> done_for about sid w r w'.
Proof.
  intros Hf Hy H. specialize (Hf w). rewrite H in Hf. destruct Hf as (_ & _ & Hl & Hd). split_and!; [done..|].
  intros a ->. by eapply Hy.
Qed.

Lemma frames_scope {A} sid (m : M A) : frames (sent_about sid) quiet m -> frames (sent_about sid) (backup_scope sid) m.
Proof. apply frames_weaken; [done | apply quiet_scope]. Qed.

Lemma create_on req w r w' : CreateBackup encKey req w = (r, w') ->
  done_for (fun x sid => job_server (snd x) = sid) (cbr_ServerID req) w r w'.
Proof.
  apply frames_done; unfold CreateBackup, createBackup; [|by solve_yields]. solve_frames.
  - apply frames_scope. unfold checkDestination, DestinationExists. solve_frames.
  - apply frames_scope, backup_node_frames; tc_solve.
  - apply frames_scope. unfold activeEncKey. solve_frames. apply BackupKeyring_frames; tc_solve.
  - intros d1 u d2 Hd. unfold insert_backup, insert_row in Hd. repeat case_match; simplify_eq;
      (split_and!; [by apply insert_rows | apply rows_of_refl | done]).
  - unfold getBackup. solve_frames.
Qed.

Lemma schedule_on req w r w' : CreateSchedule req w = (r, w') ->
  done_for (fun _ _ => True) (csr_ServerID req) w r w'.
Proof.
  apply frames_done; [|by intros ? ? ? ?]. unfold CreateSchedule. solve_frames.
  - apply frames_scope. unfold checkDestination, DestinationExists. solve_frames.
  - intros d1 u d2 Hd. unfold insert_schedule, insert_row in Hd. repeat case_match; simplify_eq;
      (split_and!; [apply rows_of_refl | by apply insert_rows | done]).
Qed.

Lemma elem_of_take_sub {A} n (l : list A) x : x ∈ take n l -> x ∈ l.
Proof. intros H. rewrite <- (take_drop n l). apply elem_of_app. by left. Qed.

Lemma list_on sid w r w' : ListBackups (Some sid) w = (r, w') ->
  done_for (fun l sid => Forall (fun b => backup_ServerID b = Some sid) l) sid w r w'.
Proof.
  intros H. apply frames_done with (m := ListBackups (Some sid)); [unfold ListBackups; solve_frames | | done]. clear.
  intros w l w' H%wrap_ok%query_ok. destruct H as [[= <-] _]. apply Forall_forall. intros b Hb.
  apply elem_of_take_sub in Hb. rewrite order_by_perm in Hb. apply elem_of_rows in Hb as [_ Hb].
  by apply bool_decide_eq_true in Hb.
Qed.

Lemma change_schedule_on msg f sid id w r w' :
  (forall t, (forall x, t !! id = Some x -> schedule_owner x = Some sid) ->
     rows_of schedule_owner sid t (f t) /\ (forall x, f t !! id = Some x -> schedule_owner x = Some sid)) ->
  owns_schedule id sid (w_db w) -> change_schedule msg id f w = (r, w') -> done_for (fun _ _ => True) sid w r w'.
Proof.
  intros Hf Ho H. assert (Hm : frames (sent_about sid) (scope_if (owns_schedule id sid) sid) (change_schedule msg id f)).
  { unfold change_schedule. solve_frames. intros d1 n d2 Hd Hd1. destruct (backup_schedules d1 !! id); injection Hd as _ <-; [|by split].
    destruct (Hf _ Hd1). split; [|done]. split_and!; [apply rows_of_refl | done | done]. }
  specialize (Hm w). rewrite H in Hm. destruct Hm as (_ & _ & Hl & Hd). split_and!; [by apply Hd | done | done].
Qed.

(** ** Theorems: requests *)

(** The routes that name a backup or a schedule, the permission each asks for
    and what its answer says of a server. *)
Inductive backups_request (user : User) : string -> forall {A}, (A -> uuid -> Prop) -> M (res Reply A) -> Prop :=
| req_list sid : backups_request user "server.view" (fun l sid => Forall (fun b => backup_ServerID b = Some sid) l)
    (ListBackupsHandler user sid)
| req_create body : backups_request user "backup.create" (fun x sid => job_server (snd x) = sid) (CreateBackupHandler encKey user body)
| req_delete p : backups_request user "backup.create" (fun _ _ => True) (DeleteBackupHandler encKey user p)
| req_restore p : backups_request user "backup.restore" (fun x sid => job_server (snd x) = sid) (RestoreBackupHandler encKey user p)
| req_retry p : backups_request user "backup.create" (fun x sid => job_server (snd x) = sid) (RetryUploadHandler user p)
| req_download p : backups_request user "server.view" (fun _ _ => True) (DownloadBackupHandler encKey user p)
| req_schedule body : backups_request user "backup.create" (fun _ _ => True) (CreateScheduleHandler user body)
| req_toggle p body : backups_request user "backup.create" (fun _ _ => True) (ToggleScheduleHandler user p body)
| req_unschedule p : backups_request user "backup.create" (fun _ _ => True) (DeleteScheduleHandler user p).

(** Refused without a trace, or done for one server the user may act on. *)
Definition authorized {A} (user : User) (perm : string) (about : A -> uuid -> Prop) (w : World)
    (r : res error (res Reply A)) (w' : World) : Prop :=
  ((exists reply, r = Ok (Err reply)) /\ w_db w' = w_db w /\ w_link w' = w_link w)
  \/ exists sid, granted user sid perm w
     /\ (is_staff (user_Role user) = true \/ owns_server (w_db w) (user_ID user) sid = true
         \/ is_Some (server_members (w_db w) !! (sid, user_ID user)))
     /\ backup_scope sid (w_db w) (w_db w') /\ sent_about sid (w_link w) (w_link w')
     /\ forall a, r = Ok (Ok a) -> about a sid.

Definition served {A} (about : A -> uuid -> Prop) (sid : uuid) (w : World) (r : res error (res Reply A)) (w' : World) : Prop :=
  backup_scope sid (w_db w) (w_db w') /\ sent_about sid (w_link w) (w_link w') /\ forall a, r = Ok (Ok a) -> about a sid.

Lemma refuse_authorized {A} user perm (about : A -> uuid -> Prop) st msg w r w' : refuse st msg w = (r, w') -> authorized user perm about w r w'.
Proof. intros [-> ->]%ret_inv. left. split_and!; [by eexists | done | done]. Qed.

Lemma require_authorized {A} user perm (about : A -> uuid -> Prop) sid (k : M (res Reply A)) w0 w r w' :
  w_db w = w_db w0 -> w_link w = w_link w0 ->
  (forall w1, w_db w1 = w_db w0 -> k w1 = (r, w') -> served about sid w1 r w') ->
  requireServerPerm user sid perm k w = (r, w') -> authorized user perm about w0 r w'.
Proof.
  intros Hd0 Hl0 Hk [(b & w1 & Hb & H)|(e & Hb & ->)]%bind_inv; [|by destruct (attempt_inv _ _ _ _ Hb) as (? & [=] & _)].
  apply attempt_inv in Hb as (r0 & [= ->] & Hp).
  assert (Hf : frames eq eq (HasServerPermission user sid perm)) by (unfold HasServerPermission, HasPermission; solve_frames).
  specialize (Hf w). rewrite Hp in Hf. destruct Hf as (_ & _ & Hl & Hd). cbn [snd] in *.
  assert (Hno : forall st msg, refuse st msg w1 = (r, w') -> authorized user perm about w0 r w').
  { intros st msg [-> ->]%ret_inv. left. split_and!; [by eexists | congruence | congruence]. }
  destruct r0 as [[]|e]; [|by eapply Hno..]. right. exists sid. split; [by exists w, w1|].
  rewrite <- Hd0. split; [by eapply HasServerPermission_granted|].
  rewrite <- Hl0, Hd, Hl. apply (Hk w1); [congruence | done].
Qed.

Lemma answer_authorized {A} (about : A -> uuid -> Prop) (m : M A) onErr sid w r w' :
  (forall r0, m w = (r0, w') -> done_for about sid w r0 w') -> answer m onErr w = (r, w') -> served about sid w r w'.
Proof.
  intros Hm [(b & w1 & Hb & H)|(e & Hb & ->)]%bind_inv; [|by destruct (attempt_inv _ _ _ _ Hb) as (? & [=] & _)].
  apply attempt_inv in Hb as (r0 & [= ->] & Hp). apply ret_inv in H as [-> ->]. destruct (Hm _ Hp) as (H1 & H2 & H3).
  split_and!; [done..|]. intros a [= Ha]. destruct r0; [|done]. injection Ha as ->. by apply H3.
Qed.

Lemma get_key_row {A} (t : gmap uuid A) id x : get_key t id = Ok x -> t !! id = Some x.
Proof. unfold get_key. by case_match; intros [= ->]. Qed.

Lemma BackupServerID_owns id w sid w1 : BackupServerID id w = (Ok sid, w1) -> owns_row id sid (w_db w).
Proof.
  intros (q & w2 & (q' & [= ->] & Hq)%attempt_inv & H)%bind_ok b Hb. apply query_inv in Hq as (_ & _ & _ & _ & _ & [Hq|Hq]).
  - subst q'. by destruct (error_Is _ _).
  - destruct q' as [b'|e]; [|by destruct (error_Is e _)]. symmetry in Hq. apply get_key_row in Hq. assert (b' = b) as -> by congruence.
    destruct (backup_ServerID b) as [s|]; [|done]. by apply ret_inv in H as [[= ->] _].
Qed.

Lemma ScheduleServerID_owns id w sid w1 : ScheduleServerID id w = (Ok sid, w1) -> owns_schedule id sid (w_db w).
Proof.
  intros (q & w2 & (q' & [= ->] & Hq)%attempt_inv & H)%bind_ok b Hb. apply query_inv in Hq as (_ & _ & _ & _ & _ & [Hq|Hq]).
  - subst q'. by destruct (error_Is _ _).
  - destruct q' as [b'|e]; [|by destruct (error_Is e _)]. symmetry in Hq. apply get_key_row in Hq. assert (b' = b) as -> by congruence.
    by apply ret_inv in H as [[= ->] _].
Qed.

(** The handlers that find the server of the row first. *)
Lemma lookup_authorized {A} user perm (about : A -> uuid -> Prop) (O : uuid -> DB -> Prop) (find : M uuid) notFound
    (k : M (res Reply A)) w r w' :
  frames eq eq find -> (forall w sid w1, find w = (Ok sid, w1) -> O sid (w_db w)) ->
  (forall sid w1, O sid (w_db w1) -> k w1 = (r, w') ->
     served about sid w1 r w') ->
  bind (attempt find) (fun x => match x with Err _ => refuse 404 notFound | Ok sid => requireServerPerm user sid perm k end) w = (r, w') ->
  authorized user perm about w r w'.
Proof.
  intros Hf HO Hk [(b & w1 & Hb & H)|(e & Hb & ->)]%bind_inv; [|by destruct (attempt_inv _ _ _ _ Hb) as (? & [=] & _)].
  apply attempt_inv in Hb as (r0 & [= ->] & Hp). specialize (Hf w). rewrite Hp in Hf. destruct Hf as (_ & _ & Hl & Hd).
  cbn [snd] in *. destruct r0 as [sid|e].
  - eapply require_authorized; [by symmetry.. | | exact H]. intros w2 Hd2. apply Hk. rewrite Hd2. by eapply HO.
  - apply ret_inv in H as [-> ->]. left. split_and!; [by eexists | congruence | congruence].
Qed.

Lemma with_backup_authorized {A} user p perm (about : A -> uuid -> Prop) (k : uuid -> M (res Reply A)) w r w' :
  (forall id sid w1, owns_row id sid (w_db w1) -> k id w1 = (r, w') ->
     served about sid w1 r w') ->
  with_backup user p perm k w = (r, w') -> authorized user perm about w r w'.
Proof.
  unfold with_backup, with_uuid. intros Hk. destruct (uuid_parse p) as [id|]; [|apply refuse_authorized].
  apply lookup_authorized with (O := owns_row id); [unfold BackupServerID; solve_frames | apply BackupServerID_owns | apply Hk].
Qed.

Lemma with_schedule_authorized {A} user p (about : A -> uuid -> Prop) (k : uuid -> M (res Reply A)) w r w' :
  (forall id sid w1, owns_schedule id sid (w_db w1) -> k id w1 = (r, w') ->
     served about sid w1 r w') ->
  with_schedule user p k w = (r, w') -> authorized user "backup.create" about w r w'.
Proof.
  unfold with_schedule, with_uuid. intros Hk. destruct (uuid_parse p) as [id|]; [|apply refuse_authorized].
  apply lookup_authorized with (O := owns_schedule id); [unfold ScheduleServerID; solve_frames | apply ScheduleServerID_owns | apply Hk].
Qed.

(** C33. Backups are reached only through their server: a request that names a
    backup or a schedule is refused and leaves no trace, or the permission
    check passed on the server the row belongs to; then only rows of that
    server change, settings and destinations aside, every call to a node is
    about that server, and the job it starts and the backups it shows are
    that server's, whatever fails on the way. *)
Theorem backup_requests_authorized {A} (user : User) (perm : string) (about : A -> uuid -> Prop) (m : M (res Reply A))
    (w w' : World) (r : res error (res Reply A)) :
  backups_request user perm about m -> m w = (r, w') -> authorized user perm about w r w'.
Proof.
  intros Hm. destruct Hm.
  - unfold ListBackupsHandler. destruct (String.eqb sid ""); [apply refuse_authorized|].
    destruct (uuid_parse sid) as [id|]; [|apply refuse_authorized].
    apply require_authorized; [done..|]. intros w1 _. apply answer_authorized. intros r0. apply list_on.
  - unfold CreateBackupHandler, with_body. destruct body as [req|e]; [|apply refuse_authorized].
    apply require_authorized; [done..|]. intros w1 _. apply answer_authorized. intros r0. apply create_on.
  - apply with_backup_authorized. intros id sid w1 Ho. apply answer_authorized. intros r0. by apply delete_on.
  - apply with_backup_authorized. intros id sid w1 Ho. apply answer_authorized. intros r0. by apply restore_on.
  - apply with_backup_authorized. intros id sid w1 Ho. apply answer_authorized. intros r0. by apply retry_on.
  - apply with_backup_authorized. intros id sid w1 Ho [(x & w2 & Hx & H)|(e & Hx & ->)]%bind_inv.
    + apply ret_inv in H as [-> ->]. apply (answer_authorized (fun _ _ => True) _ _ sid) in Hx as (? & ? & _); [done|].
      intros r0. by apply download_on.
    + apply (answer_authorized (fun _ _ => True) _ _ sid) in Hx as (? & ? & _); [done|]. intros r0. by apply download_on.
  - unfold CreateScheduleHandler, with_body. destruct body as [req|e]; [|apply refuse_authorized].
    apply require_authorized; [done..|]. intros w1 _. apply answer_authorized. intros r0. apply schedule_on.
  - apply with_schedule_authorized. intros id sid w1 Ho. unfold with_body. destruct body as [b|e].
    + apply answer_authorized. intros r0. apply change_schedule_on; [|done]. intros t Ht. split; [by apply alter_rows|].
      intros x. rewrite lookup_alter_eq. destruct (t !! id) as [y|] eqn:E; [|done]. intros [= <-]. exact (Ht y eq_refl).
    + intros [-> ->]%ret_inv. by split_and!.
  - apply with_schedule_authorized. intros id sid w1 Ho. apply answer_authorized. intros r0. apply change_schedule_on; [|done].
    intros t Ht. split; [by apply delete_rows|]. intros x. by rewrite lookup_delete_eq.
Qed.
End authorized.

(** ** Witnesses *)

#[local] Existing Instances ascii_tables sample_platform sample_token_json sample_strings_json sample_ring_json sample_daemon_json UTC.

(** The owner of server 4 deletes a backup of it; user 6 may not. *)
Lemma backup_requests_authorized_witness :
  let ask id := DeleteBackupHandler backup_key (sample_user id RoleUser) (uuid_string 21) in
  authorized (sample_user 5 RoleUser) "backup.create" (fun _ _ => True) two_backups (fst (ask 5%N two_backups)) (snd (ask 5%N two_backups))
  /\ fst (ask 5%N two_backups) = Ok (Ok tt) /\ backups (w_db (snd (ask 5%N two_backups))) !! 21%N = None
  /\ fst (ask 6%N two_backups) = Ok (Err (reply_error 403 "insufficient permissions")).
Proof.
  cbv zeta. split; [|vm_compute; split_and!; reflexivity].
  apply (backup_requests_authorized backup_key _ _ _ _ _ _ _ (req_delete backup_key (sample_user 5 RoleUser) (uuid_string 21))).
  apply surjective_pairing.
Defined.
