(* ===== verification/Activity.v ===== *)
(** * The audit log

    Models [middleware/audit.go]: what it records of a request, how it cleans
    the payload, and what it does to the body the handlers read. *)

From stdpp Require Import base numbers list strings option gmap.
From Stdlib Require Import Ascii.
From S2P Require Import Prelude GoStrings Store Platform Players Net Middleware.

Local Open Scope Z_scope.

Definition sensitiveFields : list string :=
  ["password"; "password_confirm"; "new_password"; "old_password"; "totp_secret"; "token";
   "refresh_token"; "access_token"; "secret"; "setup_code"; "api_key"; "secrets"].

(** ** Strings *)

(** A byte that is no part of a rune. *)
Definition invalid (r : rune) : bool :=
  (rune_val r =? RuneError) && (String.length (rune_raw r) =? 1)%nat.

(** [strings.ToValidUTF8(s, rep)]: each run of invalid bytes becomes [rep]. *)
Fixpoint valid_loop (rep : string) (in_run : bool) (l : list rune) : string :=
  match l with
  | [] => ""
  | r :: l' =>
    if invalid r then (if in_run then "" else rep) +:+ valid_loop rep true l'
    else rune_raw r +:+ valid_loop rep false l'
  end.

Definition ToValidUTF8 (s rep : string) : string := valid_loop rep false (runes s).

(** [strings.ReplaceAll(s, c, "")] for one byte. *)
Fixpoint remove_byte (c : ascii) (s : string) : string :=
  match s with
  | EmptyString => EmptyString
  | String a s' => if Ascii.eqb a c then remove_byte c s' else String a (remove_byte c s')
  end.

Definition cleanPayloadString (s : string) : string :=
  remove_byte "000"%char (ToValidUTF8 s (encode_rune RuneError)).

(** ** The payload *)

(** [out[k] = v] on a Go map. *)
Fixpoint put (k : string) (v : json) (out : list (string * json)) : list (string * json) :=
  match out with
  | [] => [(k, v)]
  | (k', v') :: out' => if String.eqb k k' then (k, v) :: out' else (k', v') :: put k v out'
  end.

Definition redacted : json := JStr "[REDACTED]".

Section audit.
Context `{U : Unicode}.

Definition sensitive (key : string) : bool := contains sensitiveFields (ToLower key).

Fixpoint cleanPayloadValue (v : json) : json :=
  match v with
  | JObj fields =>
    JObj ((fix walk (l out : list (string * json)) {struct l} : list (string * json) :=
             match l with
             | [] => out
             | (k, val) :: l' =>
               let key := cleanPayloadString k in
               if sensitive key then walk l' (put key redacted out)
               else walk l' (put key (cleanPayloadValue val) out)
             end) fields [])
  | JArr l => JArr (map cleanPayloadValue l)
  | JStr s => JStr (cleanPayloadString s)
  | _ => v
  end.

(** [json.Unmarshal] into a map accepts objects (and null, an empty map). *)
Definition sanitizePayload `{Json json} (body : string) : json :=
  if len body =? 0 then JNull
  else match json_unmarshal body with
  | Some (JObj fields) => cleanPayloadValue (JObj fields)
  | Some JNull => cleanPayloadValue (JObj [])
  | _ => JNull
  end.

(** ** Names *)

(** [multiSlash.ReplaceAllString(path, "/")]. *)
Fixpoint collapse_slashes (after_slash : bool) (s : string) : string :=
  match s with
  | EmptyString => EmptyString
  | String a s' =>
    if Ascii.eqb a "/" then
      if after_slash then collapse_slashes true s' else String a (collapse_slashes true s')
    else String a (collapse_slashes false s')
  end.

Fixpoint trim_left_slash (s : string) : string :=
  match s with
  | String a s' => if Ascii.eqb a "/" then trim_left_slash s' else s
  | EmptyString => EmptyString
  end.

(** [strings.Trim(s, "/")]. *)
Definition trim_slashes (s : string) : string := strip_slashes (trim_left_slash s).

Definition toSnake (s : string) : string :=
  let result := Map (fun r =>
    if unicode_IsLetter r || unicode_IsDigit r then Some (unicode_ToLower r)
    else if (r =? 45) || (r =? 32) then Some 95 else None) s in
  if String.eqb result "" then "seg_" +:+ s else result.

Definition is_segment `{Platform} (p : string) : bool :=
  negb (String.eqb p "") && bool_decide (uuid_parse p = None).

Definition buildActionName `{Platform} (method path0 : string) : string :=
  let path := trim_slashes (collapse_slashes false (TrimPrefix path0 "/api/v1")) in
  Join (ToLower method :: map toSnake (List.filter is_segment (Split "/" path))) "_".

Definition extractTargetType `{Platform} (path0 : string) : string :=
  match List.filter is_segment (Split "/" (trim_slashes (TrimPrefix path0 "/api/v1"))) with
  | p :: _ => p
  | [] => "unknown"
  end.

(** ** The middleware *)

Definition reads_only (method : string) : bool := String.eqb method "GET" || String.eqb method "HEAD".

Definition audit_cap : Z := 64 * 1024.

(** The body is buffered up to 64 KB, and what was buffered replaces it. *)
Definition audit_buffer (r : Request) : option string * Request :=
  if negb (reads_only (req_Method r)) && negb (bool_decide (req_Body r = None))
     && negb (HasPrefix (req_ContentType r) "multipart/")
  then let bodyBytes := read_limited audit_cap r in
       (Some bodyBytes, req_with_Body (Some bodyBytes) r)
  else (None, r).

(** The rest of the chain runs on the buffered request and says who the caller
    was; the record is written afterwards, a second time without its payload
    when the first insert fails.  The row of the model has no payload column:
    the two inserts differ in nothing else. *)
Definition AuditLog `{Platform} {A} (next : Request -> M (option uuid * A)) (r : Request) : M A :=
  let '(_, r') := audit_buffer r in
  let* (userID, a) := next r' in
  if reads_only (req_Method r) then ret a
  else
    let insert := log_activity (mkActivityLog userID None (buildActionName (req_Method r) (req_Path r))
                    (extractTargetType (req_Path r)) None) in
    let* first := attempt insert in
    run* match first with Ok _ => ret tt | Err _ => ignore insert end in
    ret a.
End audit.

(** ** Theorems: the payload *)

(** Induction on values with their parts. *)
Lemma json_induction (Q : json -> Prop) :
  Q JNull -> (forall b, Q (JBool b)) -> (forall t, Q (JNum t)) -> (forall s, Q (JStr s)) ->
  (forall l, Forall Q l -> Q (JArr l)) ->
  (forall l, Forall (fun kv => Q (snd kv)) l -> Q (JObj l)) -> forall v, Q v.
Proof.
  intros Hn Hb Ht Hs Ha Ho. fix IH 1. intros [|b|t|s|l|l];
    [exact Hn | exact (Hb b) | exact (Ht t) | exact (Hs s) | |].
  - apply Ha. induction l as [|v l IHl]; constructor; [apply IH | exact IHl].
  - apply Ho. induction l as [|[k v] l IHl]; constructor; [apply IH | exact IHl].
Qed.

Definition no_nul (s : string) : bool := str_forallb (fun a => negb (Ascii.eqb a "000"%char)) s.

Definition is_redacted (v : json) : bool :=
  match v with JStr s => String.eqb s "[REDACTED]" | _ => false end.

Section payload.
Context `{U : Unicode}.

(** A value that may be stored: no text has a NUL byte, and at every depth a
    sensitive field holds nothing but the mark. *)
Fixpoint storable_json (v : json) : bool :=
  match v with
  | JStr s => no_nul s
  | JArr l => forallb storable_json l
  | JObj l => forallb (fun kv => match kv with (k, x) =>
                no_nul k && if sensitive k then is_redacted x else storable_json x end) l
  | _ => true
  end.

Definition storable_field (kv : string * json) : bool :=
  no_nul (fst kv) && if sensitive (fst kv) then is_redacted (snd kv) else storable_json (snd kv).

Lemma storable_obj l : storable_json (JObj l) = forallb storable_field l.
Proof. simpl. induction l as [|[k x] l IH]; simpl; [done|]. by rewrite IH. Qed.

Lemma remove_no_nul s : no_nul (remove_byte "000"%char s) = true.
Proof.
  unfold no_nul. induction s as [|a s IH]; [done|]. cbn [remove_byte].
  destruct (Ascii.eqb a "000"%char) eqn:E; [done|]. cbn [str_forallb]. by rewrite E.
Qed.

Lemma put_storable k v out :
  storable_field (k, v) = true -> forallb storable_field out = true ->
  forallb storable_field (put k v out) = true.
Proof.
  intros Hf. induction out as [|[k' v'] out IH]; cbn [put forallb]; [by rewrite Hf|].
  intros [H1 H2]%andb_true_iff. destruct (String.eqb k k'); cbn [forallb].
  - by rewrite Hf, H2.
  - by rewrite H1, IH.
Qed.

(** Whatever a request body decodes to, in whatever order its fields are
    walked: in the value the audit log stores, every field whose name is
    sensitive (in any case, at any depth, after cleaning the name) holds only
    the mark "[REDACTED]", and no text contains a NUL byte. *)
Theorem audit_redacts (v : json) : storable_json (cleanPayloadValue v) = true.
Proof.
  induction v as [|b|t|s|l IH|l IH] using json_induction; try done.
  - apply remove_no_nul.
  - cbn [cleanPayloadValue storable_json]. induction IH as [|x l Hx _ IHl]; [done|].
    cbn [map forallb]. by rewrite Hx, IHl.
  - cbn [cleanPayloadValue]. rewrite storable_obj.
    assert (G : forallb storable_field [] = true) by done. revert G. generalize (@nil (string * json)).
    induction IH as [|[k x] l Hx _ IHl]; intros out Hout; [done|]. cbn [snd] in Hx.
    cbv zeta. destruct (sensitive (cleanPayloadString k)) eqn:E; apply IHl, put_storable; try done;
      unfold storable_field; cbn [fst snd]; rewrite E; unfold cleanPayloadString; rewrite remove_no_nul; [done|].
    by rewrite Hx.
Qed.

(** The fields of the second login step are not on the list: the partial token
    and the code are recorded as they came. *)
Theorem totp_step_recorded (tok code : string) :
  cleanPayloadString tok = tok -> cleanPayloadString code = code ->
  cleanPayloadValue (JObj [("code", JStr code); ("partial_token", JStr tok)])
  = JObj [("code", JStr code); ("partial_token", JStr tok)].
Proof.
  intros Ht Hc. cbn [cleanPayloadValue]. rewrite Ht, Hc.
  change (cleanPayloadString "code") with "code". change (cleanPayloadString "partial_token") with "partial_token".
  assert (E : sensitive "code" = false /\ sensitive "partial_token" = false) by (split; by vm_compute).
  destruct E as [-> ->]. reflexivity.
Qed.
End payload.

(** ** Theorems: the body *)

Lemma str_take_length n s : (String.length (str_take n s) <= n)%nat.
Proof. revert s. induction n as [|n IH]; intros [|a s]; simpl; try lia. specialize (IH s). lia. Qed.

Lemma str_take_all n s : (String.length s <= n)%nat -> str_take n s = s.
Proof.
  revert s. induction n as [|n IH]; intros [|a s] H; simpl in *; try done; [lia|].
  rewrite IH; [done | lia].
Qed.

Lemma bodyLimitFor_large p : bodyLimitFor p = NoBodyLimit \/ audit_cap < bodyLimitFor p.
Proof. unfold bodyLimitFor. case_ifs; (by left) || (right; by vm_compute). Qed.

(** The handler of a request that changes something sees the first 64 KB of
    the body: a body up to that size reaches it whole, and of a longer one
    (which the body limit admits, up to 8 MiB for the file editor and the
    daemon reports) it sees a part only.  Reads and multipart uploads are
    left alone. *)
Theorem audit_body_prefix (r0 r : Request) (body : string) :
  BodyLimit r0 = Pass r -> req_Body r0 = Some body -> req_Cap r0 = None ->
  if reads_only (req_Method r0) || HasPrefix (req_ContentType r0) "multipart/"
  then snd (audit_buffer r) = r
  else req_Body (snd (audit_buffer r)) = Some (str_take (Z.to_nat audit_cap) body)
       /\ (len body <= audit_cap -> req_Body (snd (audit_buffer r)) = Some body)
       /\ (audit_cap < len body -> req_Body (snd (audit_buffer r)) <> Some body).
Proof.
  intros H Hb Hcap.
  assert (Hr : req_Method r = req_Method r0 /\ req_ContentType r = req_ContentType r0
               /\ req_Body r = Some body
               /\ (req_Cap r = None \/ exists c, req_Cap r = Some c /\ audit_cap < c)).
  { unfold BodyLimit in H. rewrite Hb in H. rewrite orb_false_r in H.
    destruct (bodyLimitFor_large (req_FullPath r0)) as [El|El].
    - rewrite El in H. injection H as <-. auto.
    - destruct (_ =? NoBodyLimit); [injection H as <-; auto|].
      destruct (_ <? req_ContentLength r0); [done|]. injection H as <-. simpl. split_and!; eauto. }
  destruct Hr as (Hm & Hct & Hbr & Hc). unfold audit_buffer. rewrite Hm, Hct, Hbr.
  destruct (reads_only _); [done|]. destruct (HasPrefix _ _); [done|]. cbn [negb orb andb bool_decide].
  rewrite (bool_decide_eq_false_2 (Some body = None)) by done. cbn [negb andb snd req_Body req_with_Body].
  assert (Hread : read_limited audit_cap r = str_take (Z.to_nat audit_cap) body).
  { unfold read_limited. rewrite Hbr. cbn [default from_option id].
    destruct Hc as [-> | (c & -> & Hlt)]; [reflexivity|]. rewrite Z.min_l by lia. reflexivity. }
  rewrite Hread. clear - Hread. assert (Hn : Z.of_nat (Z.to_nat audit_cap) = audit_cap) by (by apply Z2Nat.id).
  revert Hn. generalize (Z.to_nat audit_cap). generalize audit_cap. clear. intros cap n Hn. split_and!; [done | |].
  - intros Hlen. unfold len in Hlen. rewrite str_take_all; [done | lia].
  - intros Hlen [= E]. pose proof (str_take_length n body) as Hl.
    rewrite E in Hl. unfold len in Hlen. lia.
Qed.

(** A file of 64 KB and one byte, saved in the editor. *)
Fixpoint filler (n : nat) : string := match n with O => "" | S n' => String "a" (filler n') end.
Definition big_save : Request :=
  mkRequest "PUT" "/api/v1/servers/4/files/content" "/api/v1/servers/:id/files/content" "" "application/json"
    "10.1.1.1" 65537 (Some (filler 65537)) None.

Lemma audit_body_prefix_witness :
  exists r, BodyLimit big_save = Pass r /\ req_Body (snd (audit_buffer r)) <> Some (filler 65537).
Proof.
  exists (req_with_Cap (Some FileContentBodyLimit) big_save). split; [reflexivity|].
  pose proof (audit_body_prefix big_save (req_with_Cap (Some FileContentBodyLimit) big_save) (filler 65537)
                eq_refl eq_refl eq_refl) as H.
  apply H. vm_compute. reflexivity.
Defined.
