(* ===== verification/Router.v ===== *)
(** * The route table

    Models [router/router.go]: the groups, every registered route with the
    middleware in front of it, and a request's way through that middleware to
    its handler, with [middleware/security.go] and [middleware/audit.go] around
    it.

    Gin itself (matching a path to a route, combining handlers) is not part of
    the repository: a route is given with the value of its [:id] parameter,
    and the table keeps to what Gin documents about registration.  The CORS
    handler is left out: the requests are same-origin ones. *)

From stdpp Require Import base numbers list strings option gmap.
From Stdlib Require Import Ascii.
From S2P Require Import Prelude GoStrings Store Roles Permissions Platform Auth AuthTheorems Players Net Middleware Pki Activity.

Local Open Scope Z_scope.

(** ** Groups and routes *)

(** The handlers [SetupRouter] puts in front of others. *)
Inductive Handler :=
| authRequired
| generalLimiter
| authLimiter
| requireRole (role : string)
| requirePermission (perm : string)
| rsp (perm : string)
| daemonNodeAuth.

#[export] Instance Handler_eq_dec : EqDecision Handler.
Proof. solve_decision. Defined.

Record Group := mkGroup {
  grp_Prefix : string;
  grp_Handlers : list Handler
}.

(** [parent.Group(prefix)] followed by [Use(handlers)]. *)
Definition group (parent : Group) (prefix : string) (handlers : list Handler) : Group :=
  mkGroup (grp_Prefix parent +:+ prefix) (grp_Handlers parent ++ handlers).

(** The chain of a route ends in its own handler, given by its name. *)
Record Route := mkRoute {
  rt_Method : string;
  rt_Path : string;
  rt_Chain : list Handler;
  rt_Handler : string
}.

#[export] Instance Route_eq_dec : EqDecision Route.
Proof. solve_decision. Defined.

Definition handle (method : string) (g : Group) (path : string) (hs : list Handler) (h : string) : Route :=
  mkRoute method (grp_Prefix g +:+ path) (grp_Handlers g ++ hs) h.

Definition GET := handle "GET".
Definition POST := handle "POST".
Definition PUT := handle "PUT".
Definition PATCH := handle "PATCH".
Definition DELETE := handle "DELETE".

(** Every route lies under [v1], which adds the audit log; see [serve]. *)
Definition v1 : Group := mkGroup "/api/v1" [].

Definition healthGroup : Group := group v1 "/health" [].
Definition healthGroup_routes : list Route := [
  GET healthGroup "" [] "healthH.Liveness";
  GET healthGroup "/ready" [] "healthH.Readiness";
  GET healthGroup "/setup" [] "healthH.SetupStatus";
  GET healthGroup "/config" [] "healthH.PublicConfig"].

Definition setupGroup : Group := group v1 "/setup" [authLimiter].
Definition setupGroup_routes : list Route := [
  POST setupGroup "/complete" [] "authH.CompleteSetup"].

Definition authGroup : Group := group v1 "/auth" [authLimiter].
Definition authGroup_routes : list Route := [
  POST authGroup "/register" [] "authH.Register";
  POST authGroup "/login" [] "authH.Login";
  POST authGroup "/refresh" [] "authH.Refresh";
  POST authGroup "/totp/verify" [] "authH.VerifyTOTP"].

Definition authProtected : Group := group authGroup "" [authRequired].
Definition authProtected_routes : list Route := [
  POST authProtected "/logout" [] "authH.Logout";
  GET authProtected "/me" [] "authH.Me";
  PATCH authProtected "/password" [] "authH.ChangePassword";
  POST authProtected "/totp/setup" [] "authH.SetupTOTP";
  POST authProtected "/totp/confirm" [] "authH.ConfirmTOTP";
  POST authProtected "/totp/disable" [] "authH.DisableTOTP";
  GET authProtected "/profile" [] "profileH.GetProfile";
  PATCH authProtected "/profile" [] "profileH.UpdateProfile";
  GET authProtected "/profile/notifications" [] "profileH.GetNotificationPrefs";
  PUT authProtected "/profile/notifications" [] "profileH.SetNotificationPrefs";
  GET authProtected "/activity" [] "authH.GetActivity";
  GET authProtected "/sessions" [] "authH.GetSessions";
  DELETE authProtected "/sessions/:id" [] "authH.RevokeSession"].

Definition hytaleGroup : Group := group v1 "/hytale" [authRequired; generalLimiter].
Definition hytaleGroup_routes : list Route := [
  GET hytaleGroup "/versions" [] "hytaleH.Versions"].

Definition serverGroup : Group := group v1 "/servers" [authRequired; generalLimiter].
Definition serverGroup_routes : list Route := [
  GET serverGroup "" [] "serverH.ListServers";
  GET serverGroup "/activity" [] "playerH.DashboardActivity";
  POST serverGroup "" [requirePermission "server.create"] "serverH.CreateServer";
  GET serverGroup "/:id" [rsp "server.view"] "serverH.GetServer";
  PATCH serverGroup "/:id" [rsp "server.manage"] "serverH.UpdateServer";
  DELETE serverGroup "/:id" [rsp "server.delete"] "serverH.DeleteServer";
  POST serverGroup "/:id/start" [rsp "server.start"] "serverH.StartServer";
  POST serverGroup "/:id/stop" [rsp "server.stop"] "serverH.StopServer";
  POST serverGroup "/:id/restart" [rsp "server.start"] "serverH.RestartServer";
  POST serverGroup "/:id/kill" [rsp "server.stop"] "serverH.KillServer";
  POST serverGroup "/:id/reinstall" [rsp "server.manage"] "serverH.ReinstallServer";
  GET serverGroup "/:id/metrics" [rsp "server.view"] "serverH.GetMetrics";
  GET serverGroup "/:id/logs" [rsp "server.view"] "serverH.GetLogs";
  POST serverGroup "/:id/console" [rsp "server.console"] "serverH.SendConsoleCommand";
  POST serverGroup "/:id/migrate" [requireRole RoleAdmin; rsp "server.manage"] "serverH.MigrateServer";
  GET serverGroup "/:id/files" [rsp "server.files"] "serverH.ListFiles";
  GET serverGroup "/:id/files/content" [rsp "server.files"] "serverH.GetFileContent";
  PUT serverGroup "/:id/files/content" [rsp "server.files"] "serverH.WriteFileContent";
  DELETE serverGroup "/:id/files" [rsp "server.files"] "serverH.DeleteFile";
  POST serverGroup "/:id/files/directory" [rsp "server.files"] "serverH.CreateDirectory";
  POST serverGroup "/:id/files/rename" [rsp "server.files"] "serverH.RenameFile";
  POST serverGroup "/:id/files/upload" [rsp "server.files"] "serverH.UploadFile";
  GET serverGroup "/:id/files/download" [rsp "server.files"] "serverH.DownloadFile";
  POST serverGroup "/:id/files/extract" [rsp "server.files"] "serverH.ExtractArchive";
  POST serverGroup "/:id/files/archive" [rsp "server.files"] "serverH.CreateArchive";
  GET serverGroup "/:id/mods" [rsp "server.view"] "modH.ListMods";
  POST serverGroup "/:id/mods/upload" [rsp "mod.install"] "modH.UploadMod";
  POST serverGroup "/:id/mods" [rsp "mod.install"] "modH.InstallMod";
  DELETE serverGroup "/:id/mods/:filename" [rsp "mod.remove"] "modH.RemoveMod";
  PATCH serverGroup "/:id/mods/:filename/toggle" [rsp "mod.install"] "modH.ToggleMod";
  PATCH serverGroup "/:id/mods/:filename" [rsp "mod.install"] "modH.SwitchModVersion";
  GET serverGroup "/:id/plugins" [rsp "server.view"] "pluginH.ListPlugins";
  PATCH serverGroup "/:id/plugins/:filename/toggle" [rsp "mod.install"] "pluginH.TogglePlugin";
  GET serverGroup "/:id/game-commands" [rsp "server.view"] "gameCmdH.ListGameCommands";
  POST serverGroup "/:id/game-commands" [rsp "server.console"] "gameCmdH.CreateGameCommand";
  POST serverGroup "/:id/game-commands/execute" [rsp "server.console"] "gameCmdH.ExecuteGameCommand";
  DELETE serverGroup "/:id/game-commands/:cmdId" [rsp "server.console"] "gameCmdH.DeleteGameCommand";
  GET serverGroup "/:id/worlds" [rsp "server.view"] "worldH.ListWorlds";
  POST serverGroup "/:id/worlds" [rsp "server.manage"] "worldH.CreateWorld";
  POST serverGroup "/:id/worlds/:worldId/activate" [rsp "server.manage"] "worldH.SetActiveWorld";
  DELETE serverGroup "/:id/worlds/:worldId" [rsp "server.manage"] "worldH.DeleteWorld";
  GET serverGroup "/:id/players" [rsp "server.view"] "playerH.ListPlayers";
  GET serverGroup "/:id/players/:playerId" [rsp "server.view"] "playerH.GetPlayer";
  GET serverGroup "/:id/players/:playerId/sessions" [rsp "server.view"] "playerH.GetPlayerSessions";
  POST serverGroup "/:id/players/:playerId/ban" [rsp "player.ban"] "playerH.BanPlayer";
  POST serverGroup "/:id/players/:playerId/unban" [rsp "player.ban"] "playerH.UnbanPlayer";
  POST serverGroup "/:id/players/:playerId/kick" [rsp "player.ban"] "playerH.KickPlayer";
  PATCH serverGroup "/:id/players/:playerId/whitelist" [rsp "player.whitelist"] "playerH.SetWhitelist";
  PATCH serverGroup "/:id/players/:playerId/op" [rsp "player.ban"] "playerH.SetOp";
  PATCH serverGroup "/:id/players/:playerId/mute" [rsp "player.ban"] "playerH.SetMute";
  GET serverGroup "/:id/backup-schedules" [rsp "server.view"] "backupH.ListSchedules";
  POST serverGroup "/:id/invitations" [rsp "server.manage"] "invH.CreateInvitation";
  GET serverGroup "/:id/invitations" [rsp "server.manage"] "invH.ListInvitations";
  DELETE serverGroup "/:id/invitations/:invId" [rsp "server.manage"] "invH.RevokeInvitation";
  GET serverGroup "/:id/database" [rsp "database.view"] "dbH.GetDatabase";
  POST serverGroup "/:id/database" [rsp "database.reset"] "dbH.CreateDatabase";
  DELETE serverGroup "/:id/database" [rsp "database.reset"] "dbH.DeleteDatabase";
  POST serverGroup "/:id/database/reset-password" [rsp "database.reset"] "dbH.ResetPassword"].

Definition invGroup : Group := group v1 "/invitations" [authRequired; generalLimiter].
Definition invGroup_routes : list Route := [
  GET invGroup "/mine" [] "invH.ListMyInvitations";
  POST invGroup "/:token/accept" [] "invH.AcceptInvitation";
  POST invGroup "/:token/decline" [] "invH.DeclineInvitation"].

Definition cfGroup : Group := group v1 "/curseforge" [authRequired; generalLimiter].
Definition cfGroup_routes : list Route := [
  GET cfGroup "/search" [] "modH.SearchMods";
  GET cfGroup "/mods/:mod_id/files" [] "modH.GetModFiles"].

Definition backupGroup : Group := group v1 "/backups" [authRequired; generalLimiter].
Definition backupGroup_routes : list Route := [
  GET backupGroup "" [] "backupH.ListBackups";
  POST backupGroup "" [] "backupH.CreateBackup";
  DELETE backupGroup "/:backupId" [] "backupH.DeleteBackup";
  POST backupGroup "/:backupId/restore" [] "backupH.RestoreBackup";
  GET backupGroup "/:backupId/download" [] "backupH.DownloadBackup";
  POST backupGroup "/:backupId/upload" [] "backupH.RetryUpload"].

(** The destinations picker is registered on [v1] itself. *)
Definition v1_routes : list Route := [
  GET v1 "/backup-destinations" [authRequired; generalLimiter] "backupDestH.ListSummaries"].

Definition scheduleGroup : Group := group v1 "/backup-schedules" [authRequired; generalLimiter].
Definition scheduleGroup_routes : list Route := [
  POST scheduleGroup "" [] "backupH.CreateSchedule";
  PATCH scheduleGroup "/:scheduleId" [] "backupH.ToggleSchedule";
  DELETE scheduleGroup "/:scheduleId" [] "backupH.DeleteSchedule"].

Definition alertGroup : Group := group v1 "/alerts" [authRequired; generalLimiter].
Definition alertGroup_routes : list Route := [
  GET alertGroup "/rules" [] "alertH.ListRules";
  POST alertGroup "/rules" [] "alertH.CreateRule";
  PATCH alertGroup "/rules/:ruleId" [] "alertH.ToggleRule";
  DELETE alertGroup "/rules/:ruleId" [] "alertH.DeleteRule";
  GET alertGroup "/events" [] "alertH.ListEvents";
  POST alertGroup "/events/:eventId/resolve" [] "alertH.ResolveEvent"].

Definition adminGroup : Group := group v1 "/admin" [authRequired; requireRole RoleAdmin; generalLimiter].
Definition adminGroup_routes : list Route := [
  POST adminGroup "/users" [] "adminH.CreateUser";
  GET adminGroup "/users" [] "adminH.ListUsers";
  PATCH adminGroup "/users/:id/role" [] "adminH.UpdateUserRole";
  PATCH adminGroup "/users/:id/active" [] "adminH.ToggleUserActive";
  DELETE adminGroup "/users/:id" [] "adminH.DeleteUser";
  PATCH adminGroup "/nodes/:id/status" [] "adminH.UpdateNodeStatus";
  GET adminGroup "/activity-logs" [] "adminH.GetActivityLogs";
  GET adminGroup "/users/:id/permissions" [] "adminH.GetUserPermissions";
  PUT adminGroup "/users/:id/permissions" [] "adminH.SetUserPermissions";
  POST adminGroup "/nodes/enroll" [] "enrollmentH.CreateEnrollment";
  GET adminGroup "/update/check" [] "adminH.CheckUpdate";
  GET adminGroup "/integrations/curseforge" [] "integrationsH.GetCurseForge";
  PUT adminGroup "/integrations/curseforge" [] "integrationsH.UpdateCurseForge";
  GET adminGroup "/integrations/smtp" [] "smtpH.GetSMTP";
  PUT adminGroup "/integrations/smtp" [] "smtpH.UpdateSMTP";
  POST adminGroup "/integrations/smtp/test" [] "smtpH.TestSMTP";
  GET adminGroup "/backup-key" [] "backupKeyH.Status";
  GET adminGroup "/backup-key/export" [requireRole RoleOwner] "backupKeyH.Export";
  POST adminGroup "/backup-key/rotate" [requireRole RoleOwner] "backupKeyH.Rotate";
  GET adminGroup "/backup-destinations/providers" [] "backupDestH.Providers";
  GET adminGroup "/backup-destinations" [] "backupDestH.List";
  POST adminGroup "/backup-destinations" [] "backupDestH.Create";
  PUT adminGroup "/backup-destinations/:id" [] "backupDestH.Update";
  DELETE adminGroup "/backup-destinations/:id" [] "backupDestH.Delete";
  POST adminGroup "/backup-destinations/:id/test" [] "backupDestH.Test";
  GET adminGroup "/hytale-auth" [] "hytaleH.AuthStatus";
  POST adminGroup "/hytale-auth/device" [] "hytaleH.StartDeviceLogin";
  POST adminGroup "/hytale-auth/device/poll" [] "hytaleH.PollDeviceLogin";
  PUT adminGroup "/hytale-auth/profile" [] "hytaleH.SelectProfile";
  DELETE adminGroup "/hytale-auth" [] "hytaleH.Unlink"].

Definition enrollGroup : Group := group v1 "/nodes" [authLimiter].
Definition enrollGroup_routes : list Route := [
  POST enrollGroup "/enroll" [] "enrollmentH.Redeem"].

Definition daemonGroup : Group := group v1 "/servers" [daemonNodeAuth].
Definition daemonGroup_routes : list Route := [
  POST daemonGroup "/:id/daemon/status" [] "serverH.DaemonStatusUpdate";
  POST daemonGroup "/:id/daemon/logs" [] "serverH.DaemonLogsIngest";
  POST daemonGroup "/:id/daemon/plugins" [] "pluginH.DaemonPluginReport";
  POST daemonGroup "/:id/daemon/players" [] "playerH.DaemonPlayerReport";
  POST daemonGroup "/:id/daemon/worlds" [] "worldH.DaemonWorldReport";
  POST daemonGroup "/:id/daemon/game-session" [] "serverH.DaemonGameSession"].

Definition networkGroup : Group := group v1 "/network" [authRequired; generalLimiter].
Definition networkGroup_routes : list Route := [
  GET networkGroup "/players" [] "playerH.ListNetworkPlayers";
  POST networkGroup "/players/:hytaleUuid/ban" [requirePermission "player.network_ban"] "playerH.BanNetworkPlayer";
  POST networkGroup "/players/:hytaleUuid/unban"
    [requirePermission "player.network_ban"] "playerH.UnbanNetworkPlayer";
  POST networkGroup "/servers/:id/role" [requirePermission "network.manage"] "networkRoutingH.SetServerRole";
  POST networkGroup "/distribute" [requirePermission "network.manage"] "networkRoutingH.Distribute"].

Definition nodeGroup : Group := group v1 "/nodes" [authRequired; requireRole RoleAdmin; generalLimiter].
Definition nodeGroup_routes : list Route := [
  GET nodeGroup "" [] "nodeH.ListNodes";
  POST nodeGroup "" [] "nodeH.RegisterNode";
  GET nodeGroup "/cluster-stats" [] "nodeH.GetClusterStats";
  GET nodeGroup "/:id" [] "nodeH.GetNode";
  GET nodeGroup "/:id/metrics" [] "nodeH.GetNodeMetrics";
  GET nodeGroup "/:id/network-stats" [] "nodeH.GetNetworkStats";
  PATCH nodeGroup "/:id" [] "nodeH.UpdateNode";
  DELETE nodeGroup "/:id" [requireRole RoleOwner] "nodeH.DeleteNode"].

Definition daemonNodeGroup : Group := group v1 "/nodes" [daemonNodeAuth].
Definition daemonNodeGroup_routes : list Route := [
  POST daemonNodeGroup "/:id/register" [] "nodeH.DaemonSelfRegister";
  POST daemonNodeGroup "/:id/heartbeat" [] "nodeH.NodeHeartbeat";
  POST daemonNodeGroup "/:id/csr" [] "nodeCSRH.SignCSR";
  GET daemonNodeGroup "/:id/commands/pending" [] "nodeH.GetPendingCommands";
  POST daemonNodeGroup "/:id/commands/:cmd_id/ack" [] "nodeH.AckCommand";
  POST daemonNodeGroup "/:id/ddos" [] "nodeH.ReportDDoS"].

(** The table, in the order of registration. *)
Definition SetupRouter : list Route :=
  healthGroup_routes ++ setupGroup_routes ++ authGroup_routes ++ authProtected_routes ++ hytaleGroup_routes ++ serverGroup_routes
  ++ invGroup_routes ++ cfGroup_routes ++ backupGroup_routes ++ v1_routes ++ scheduleGroup_routes ++ alertGroup_routes
  ++ adminGroup_routes ++ enrollGroup_routes ++ daemonGroup_routes ++ networkGroup_routes ++ nodeGroup_routes ++ daemonNodeGroup_routes.

(** ** A request on its way *)

(** What the middleware has put into the request's context. *)
Record Ctx := mkCtx {
  ctx_User : option User;
  ctx_Node : option uuid;
  ctx_Headers : list (string * string)
}.

(** [middleware.SecurityHeaders(hsts)]. *)
Definition SecurityHeaders (hsts : bool) : list (string * string) :=
  [("X-Frame-Options", "DENY"); ("X-Content-Type-Options", "nosniff");
   ("X-XSS-Protection", "1; mode=block"); ("Referrer-Policy", "strict-origin-when-cross-origin");
   ("Content-Security-Policy", "default-src 'self'");
   ("Permissions-Policy", "geolocation=(), microphone=(), camera=()")]
  ++ (if hsts then [("Strict-Transport-Security", "max-age=31536000; includeSubDomains; preload")] else []).

Section serve.
Context `{U : Unicode} `{P : Platform} (jwtSecret : string) (devMode : bool).

(** What one middleware leaves in the context, and the answer it aborts with. *)
Definition run_handler (r : Request) (idParam : string) (h : Handler) (c : Ctx)
  : M (Ctx * option (Z * string)) :=
  let gate {A} (g : Gate A) (k : A -> Ctx) :=
    match g with Pass a => ret (k a, None) | Abort s msg => ret (c, Some (s, msg)) end in
  let limit n :=
    let* (hdrs, g) := RateLimit n devMode (req_ClientIP r) in
    let c' := mkCtx (ctx_User c) (ctx_Node c) (ctx_Headers c ++ hdrs) in
    match g with Pass _ => ret (c', None) | Abort s msg => ret (c', Some (s, msg)) end in
  match h with
  | authRequired =>
    let* g := AuthRequired jwtSecret (req_Authorization r) in
    gate g (fun u => mkCtx (Some u) (ctx_Node c) (ctx_Headers c))
  | generalLimiter => limit 120
  | authLimiter => limit 30
  | requireRole role => gate (RequireRole role (ctx_User c)) (fun _ => c)
  | requirePermission perm => let* g := RequirePermission perm (ctx_User c) in gate g (fun _ => c)
  | rsp perm => let* g := RequireServerPermission perm idParam (ctx_User c) in gate g (fun _ => c)
  | daemonNodeAuth =>
    let* g := DaemonNodeAuth (req_Authorization r) in
    gate g (fun n => mkCtx (ctx_User c) (Some n) (ctx_Headers c))
  end.

(** The chain in order, up to the first abort. *)
Fixpoint run_chain (r : Request) (idParam : string) (hs : list Handler) (c : Ctx)
  : M (Ctx * option (Z * string)) :=
  match hs with
  | [] => ret (c, None)
  | h :: hs' =>
    let* (c', aborted) := run_handler r idParam h c in
    match aborted with
    | Some _ => ret (c', aborted)
    | None => run_chain r idParam hs' c'
    end
  end.

(** A request for the route [rt]: the global handlers, the audit log of [v1],
    the chain, then [handler]. *)
Definition serve (rt : Route) (handler : Ctx -> Request -> M Reply) (idParam : string) (r : Request)
  : M (list (string * string) * Reply) :=
  let headers := SecurityHeaders (negb devMode) in
  match BodyLimit r with
  | Abort s msg => ret (headers, reply_error s msg)
  | Pass r1 =>
    AuditLog (fun r2 =>
      let* (c, aborted) := run_chain r2 idParam (rt_Chain rt) (mkCtx None None headers) in
      let caller := user_ID <$> ctx_User c in
      match aborted with
      | Some (s, msg) => ret (caller, (ctx_Headers c, reply_error s msg))
      | None => let* reply := handler c r2 in ret (caller, (ctx_Headers c, reply))
      end) r1
  end.
End serve.

(** ** The table *)

Definition is_param (seg : string) : bool := HasPrefix seg ":".

(** Two paths of one method that Gin refuses to register together: the same
    path, or two names for the parameter at one place. *)
Fixpoint clash (p q : list string) : bool :=
  match p, q with
  | [], [] => true
  | a :: p', b :: q' => if String.eqb a b then clash p' q' else is_param a && is_param b
  | _, _ => false
  end.

Definition routes_clash (a b : Route) : bool :=
  String.eqb (rt_Method a) (rt_Method b) && clash (Split "/" (rt_Path a)) (Split "/" (rt_Path b)).

Fixpoint clash_free (l : list Route) : bool :=
  match l with
  | [] => true
  | a :: l' => forallb (fun b => negb (routes_clash a b)) l' && clash_free l'
  end.

(** The routes anyone may call. *)
Definition public (rt : Route) : bool :=
  contains ["healthH.Liveness"; "healthH.Readiness"; "healthH.SetupStatus"; "healthH.PublicConfig";
            "authH.CompleteSetup"; "authH.Register"; "authH.Login"; "authH.Refresh"; "authH.VerifyTOTP";
            "enrollmentH.Redeem"] (rt_Handler rt).

(** The routes the nodes call. *)
Definition from_daemon (rt : Route) : bool := contains (rt_Chain rt) daemonNodeAuth.

(** ** What the chain leaves alone *)

(** The middleware moves neither the clock nor the database, and no revocation
    key in Redis: only the counters of the limiter change. *)
Definition kept (w w' : World) : Prop :=
  w_db w' = w_db w /\ w_now w' = w_now w
  /\ forall jti, redis_live w' (blacklist_key jti) = redis_live w (blacklist_key jti).

#[export] Instance kept_preorder : PreOrder kept.
Proof.
  split; [by intros w; split_and!|].
  intros w1 w2 w3 (A1 & B1 & C1) (A2 & B2 & C2). split_and!; [congruence..|].
  intros jti. by rewrite C2.
Qed.

Definition keeps {A} (m : M A) : Prop := forall w, kept w (snd (m w)).

Lemma kept_same_store w w' :
  w_db w' = w_db w -> w_now w' = w_now w -> w_redis w' = w_redis w -> kept w w'.
Proof. intros Hd Hn Hr. split_and!; [done..|]. intros jti. unfold redis_live. by rewrite Hr, Hn. Qed.

Lemma keeps_ret {A} (a : A) : keeps (ret a).
Proof. by intros w. Qed.

Lemma keeps_fail {A} e : keeps (@fail A e).
Proof. by intros w. Qed.

Lemma keeps_bind {A B} (m : M A) (k : A -> M B) : keeps m -> (forall a, keeps (k a)) -> keeps (bind m k).
Proof.
  intros Hm Hk w. unfold bind. specialize (Hm w). destruct (m w) as [[a|e] w1]; simpl in *; [|done].
  etrans; [exact Hm | apply Hk].
Qed.

Lemma keeps_attempt {A} (m : M A) : keeps m -> keeps (attempt m).
Proof. intros Hm w. unfold attempt. specialize (Hm w). by destruct (m w). Qed.

Lemma keeps_wrap {A} msg (m : M A) : keeps m -> keeps (wrap msg m).
Proof.
  intros Hm. apply keeps_bind; [by apply keeps_attempt|].
  intros [a|e]; [apply keeps_ret | apply keeps_fail].
Qed.

Lemma keeps_query {A} (f : DB -> res error A) : keeps (query f).
Proof.
  intros w. destruct (query f w) as [r w'] eqn:E.
  apply query_inv in E as (Hd & Hn & Hr & _). by apply kept_same_store.
Qed.

Lemma keeps_now : keeps now.
Proof. by intros w. Qed.

Lemma keeps_redis_get k : keeps (redis_get k).
Proof.
  intros w. destruct (redis_get k w) as [r w'] eqn:E.
  apply redis_get_inv in E as (Hd & Hn & Hr & _). by apply kept_same_store.
Qed.

Ltac solve_keeps :=
  repeat lazymatch goal with
  | |- keeps (bind _ _) => apply keeps_bind; [|intros]
  | |- keeps (ret _) => apply keeps_ret
  | |- keeps (fail _) => apply keeps_fail
  | |- keeps now => apply keeps_now
  | |- keeps (query _) => apply keeps_query
  | |- keeps (redis_get _) => apply keeps_redis_get
  | |- keeps (attempt _) => apply keeps_attempt
  | |- keeps (wrap _ _) => apply keeps_wrap
  | |- keeps (match ?x with _ => _ end) => destruct x
  end.

Lemma keeps_HasPermission u perm : keeps (HasPermission u perm).
Proof. unfold HasPermission. solve_keeps. Qed.

Lemma keeps_HasServerPermission u sid perm : keeps (HasServerPermission u sid perm).
Proof. unfold HasServerPermission. solve_keeps. all: try apply keeps_HasPermission. Qed.

Lemma rate_key_fresh ip m jti : rate_key ip m <> blacklist_key jti.
Proof. done. Qed.

Lemma keeps_increment ip m ttl : keeps (incrementRateLimit (rate_key ip m) ttl).
Proof.
  apply keeps_wrap, keeps_bind.
  { intros w. unfold fault. destruct (w_faults w) as [|b fs]; by apply kept_same_store. }
  intros []; [apply keeps_fail|]. intros w.
  assert (H : forall v, kept w (with_redis (<[rate_key ip m := v]> (w_redis w)) w)).
  { intros v. split_and!; [done..|]. intros jti. unfold redis_live. simpl.
    rewrite lookup_insert_ne by apply rate_key_fresh. done. }
  destruct (redis_live w _) as [s|]; [destruct (redis_int s)|]; apply H.
Qed.

Section chain.
Context `{U : Unicode} `{P : Platform} (secret : string) (devMode : bool).

Lemma keeps_RateLimit n ip : keeps (RateLimit n devMode ip).
Proof. unfold RateLimit. solve_keeps. apply keeps_increment. Qed.

Lemma keeps_run_handler r id h c : keeps (run_handler secret devMode r id h c).
Proof.
  destruct h; unfold run_handler, AuthRequired, RequirePermission, RequireServerPermission, DaemonNodeAuth;
    solve_keeps; first [apply keeps_RateLimit | apply keeps_HasPermission | apply keeps_HasServerPermission
                       | unfold loadUserByID; solve_keeps].
Qed.

Lemma keeps_run_chain r id hs c : keeps (run_chain secret devMode r id hs c).
Proof.
  revert c. induction hs as [|h hs IH]; intros c; simpl; [apply keeps_ret|].
  apply keeps_bind; [apply keeps_run_handler|]. intros [c' [x|]]; [apply keeps_ret | apply IH].
Qed.

(** The middleware always answers. *)
Definition answers {A} (m : M A) : Prop := forall w, exists a, fst (m w) = Ok a.

Lemma answers_ret {A} (a : A) : answers (ret a).
Proof. intros w. by exists a. Qed.

Lemma answers_attempt {A} (m : M A) : answers (attempt m).
Proof. intros w. unfold attempt. destruct (m w). simpl. eauto. Qed.

Lemma answers_bind {A B} (m : M A) (k : A -> M B) :
  answers m -> (forall a, answers (k a)) -> answers (bind m k).
Proof.
  intros Hm Hk w. destruct (Hm w) as [a Ha]. unfold bind. destruct (m w) as [r w1]. simpl in Ha. subst r.
  apply Hk.
Qed.

Lemma answers_now : answers now.
Proof. intros w. by exists (w_now w). Qed.

Lemma answers_run_handler r id h c : answers (run_handler secret devMode r id h c).
Proof.
  destruct h; unfold run_handler, AuthRequired, RequirePermission, RequireServerPermission, DaemonNodeAuth,
    RateLimit;
    repeat lazymatch goal with
    | |- answers (bind _ _) => apply answers_bind; [|intros]
    | |- answers (ret _) => apply answers_ret
    | |- answers (attempt _) => apply answers_attempt
    | |- answers now => apply answers_now
    | |- answers (match ?x with _ => _ end) => destruct x
    end.
Qed.

Lemma answers_run_chain r id hs c : answers (run_chain secret devMode r id hs c).
Proof.
  revert c. induction hs as [|h hs IH]; intros c; simpl; [apply answers_ret|].
  apply answers_bind; [apply answers_run_handler|]. intros [c' [x|]]; [apply answers_ret | apply IH].
Qed.

(** ** What the chain has shown when the handler runs *)

(** The bearer token in the header is the node's. *)
Definition node_authenticated (d : DB) (authHeader : string) (n : uuid) : Prop :=
  exists tok row, authHeader = "Bearer " +:+ tok /\ nodes d !! n = Some row
    /\ node_TokenHash row = hashToken tok.

(** What [h] has checked of the caller in [c]. *)
Definition shown (w : World) (r : Request) (idParam : string) (h : Handler) (c : Ctx) : Prop :=
  match h with
  | authRequired => exists u, ctx_User c = Some u /\ authenticated secret w (req_Authorization r) u
  | generalLimiter | authLimiter => True
  | requireRole role => exists u, ctx_User c = Some u /\ RoleWeight role <= RoleWeight (user_Role u)
  | requirePermission perm =>
    exists u w1 w2, ctx_User c = Some u /\ kept w w1 /\ HasPermission u perm w1 = (Ok true, w2)
  | rsp perm =>
    exists u sid w1 w2, ctx_User c = Some u /\ uuid_parse idParam = Some sid /\ kept w w1
      /\ HasServerPermission u sid perm w1 = (Ok true, w2)
  | daemonNodeAuth => exists n, ctx_Node c = Some n /\ node_authenticated (w_db w) (req_Authorization r) n
  end.

Lemma authenticated_kept w w' h u :
  kept w w' -> authenticated secret w' h u -> authenticated secret w h u.
Proof.
  intros (Hd & Hn & Hr) (scheme & tok & c & jti & sub & id & row & H).
  rewrite Hd, Hn, Hr in H. by exists scheme, tok, c, jti, sub, id, row.
Qed.

Lemma authenticated_unique w h u u' :
  authenticated secret w h u -> authenticated secret w h u' -> u = u'.
Proof.
  intros (? & ? & ? & ? & ? & ? & ? & ? & ? & ? & ? & ? & ? & ? & ? & ? & ? & ->)
         (? & ? & ? & ? & ? & ? & ? & ? & ? & ? & ? & ? & ? & ? & ? & ? & ? & ->).
  by simplify_eq.
Qed.

Definition ctx_sound (w : World) (r : Request) (c : Ctx) : Prop :=
  forall u, ctx_User c = Some u -> authenticated secret w (req_Authorization r) u.

Lemma shown_mono w r id h c c' :
  (forall u, ctx_User c = Some u -> ctx_User c' = Some u) ->
  (shown w r id daemonNodeAuth c -> shown w r id daemonNodeAuth c') ->
  shown w r id h c -> shown w r id h c'.
Proof.
  intros Hu Hn. destruct h; simpl; try done.
  - intros (u & ? & ?). eauto.
  - intros (u & ? & ?). eauto.
  - intros (u & w1 & w2 & ? & ? & ?). eauto 10.
  - intros (u & sid & w1 & w2 & ? & ? & ? & ?). eauto 10.
Qed.

(** A step that keeps the caller: it only has to show its own check. *)
Lemma step_same (w0 : World) r id (h : Handler) c c' :
  ctx_sound w0 r c -> ctx_User c' = ctx_User c -> ctx_Node c' = ctx_Node c ->
  shown w0 r id h c' ->
  ctx_sound w0 r c' /\ shown w0 r id h c' /\ forall h0, shown w0 r id h0 c -> shown w0 r id h0 c'.
Proof.
  intros Hs Hu Hn Hh. split_and!; [|done|].
  - intros u. rewrite Hu. apply Hs.
  - intros h0. apply shown_mono; [by rewrite Hu|]. simpl. by rewrite Hn.
Qed.

Lemma limit_pass n ip c w c' w' :
  (let* (hdrs, g) := RateLimit n devMode ip in
   let c' := mkCtx (ctx_User c) (ctx_Node c) (ctx_Headers c ++ hdrs) in
   match g with Pass _ => ret (c', None) | Abort s msg => ret (c', Some (s, msg)) end) w
  = (Ok (c', @None (Z * string)), w') ->
  ctx_User c' = ctx_User c /\ ctx_Node c' = ctx_Node c.
Proof. intros ([hdrs [[]|]] & w1 & _ & H)%bind_ok; by apply ret_inv in H as [[= ->] _]. Qed.

Lemma run_handler_pass r id h c w0 w c' w' :
  kept w0 w -> ctx_sound w0 r c ->
  run_handler secret devMode r id h c w = (Ok (c', None), w') ->
  ctx_sound w0 r c' /\ shown w0 r id h c' /\ forall h0, shown w0 r id h0 c -> shown w0 r id h0 c'.
Proof.
  intros Hk Hs H. destruct h as [| | |role|perm|perm|]; simpl in H.
  - apply bind_ok in H as ([u|] & w1 & Ha & H); apply ret_inv in H as [[= ->] _].
    apply AuthRequired_pass in Ha as [Ha%(authenticated_kept _ _ _ _ Hk) _].
    assert (Hu : forall u', ctx_User c = Some u' -> Some u = Some u').
    { intros u' Hu'%Hs. f_equal. by eapply authenticated_unique. }
    split_and!; [by intros u' [= <-] | by exists u|].
    intros h0. apply shown_mono; [|done]. intros u' Hu'. by apply Hu.
  - apply limit_pass in H as [Hu Hn]. by apply step_same.
  - apply limit_pass in H as [Hu Hn]. by apply step_same.
  - unfold RequireRole in H. destruct (ctx_User c) as [u|] eqn:Hu; [|by apply ret_inv in H as [? _]].
    destruct (_ <? _) eqn:E; apply ret_inv in H as [[= ->] _]. apply step_same; [done..|].
    exists u. split; [done|]. breflect. lia.
  - apply bind_ok in H as (g & w1 & Hg & H). unfold RequirePermission in Hg.
    destruct (ctx_User c) as [u|] eqn:Hu; [|by repeat inv_run].
    apply bind_ok in Hg as (r0 & w2 & (r1 & [= ->] & Hp)%attempt_inv & Hg).
    destruct r1 as [[|]|e]; apply ret_inv in Hg as [[= ->] ->]; apply ret_inv in H as [[= ->] _].
    apply step_same; [done..|]. by exists u, w, w2.
  - apply bind_ok in H as (g & w1 & Hg & H). unfold RequireServerPermission in Hg.
    destruct (ctx_User c) as [u|] eqn:Hu; [|by repeat inv_run].
    destruct (String.eqb id ""); [by repeat inv_run|].
    destruct (uuid_parse id) as [sid|] eqn:Hid; [|by repeat inv_run].
    apply bind_ok in Hg as (r0 & w2 & (r1 & [= ->] & Hp)%attempt_inv & Hg).
    destruct r1 as [[|]|e]; apply ret_inv in Hg as [[= ->] ->]; apply ret_inv in H as [[= ->] _].
    apply step_same; [done..|]. by exists u, sid, w, w2.
  - apply bind_ok in H as ([n|] & w1 & Ha & H); apply ret_inv in H as [[= ->] _].
    apply DaemonNodeAuth_pass in Ha as (tok & row & Hh & Hrow & Htok & _).
    assert (Hn : shown w0 r id daemonNodeAuth (mkCtx (ctx_User c) (Some n) (ctx_Headers c))).
    { exists n. split; [done|]. exists tok, row. destruct Hk as [<- _]. done. }
    split_and!; [done | done|]. intros h0. by apply shown_mono.
Qed.

Lemma run_chain_pass r id hs c w0 w c' w' :
  kept w0 w -> ctx_sound w0 r c ->
  run_chain secret devMode r id hs c w = (Ok (c', None), w') ->
  forall h, (h ∈ hs \/ shown w0 r id h c) -> shown w0 r id h c'.
Proof.
  revert c w. induction hs as [|h hs IH]; intros c w Hk Hs H h0 Hh0.
  { apply ret_inv in H as [[= ->] _]. destruct Hh0 as [Hh0|Hh0]; [|done]. by apply not_elem_of_nil in Hh0. }
  simpl in H. apply bind_ok in H as ([c1 [x|]] & w1 & H1 & H); [by apply ret_inv in H as [? _]|].
  pose proof (keeps_run_handler r id h c w) as Hk1. rewrite H1 in Hk1. simpl in Hk1.
  apply (run_handler_pass _ _ _ _ w0) in H1 as (Hs1 & Hh & Hm); [|done..].
  apply (IH c1 w1); [by etrans | done | done|].
  destruct Hh0 as [[->|Hh0]%elem_of_cons|Hh0]; [by right | by left | right; by apply Hm].
Qed.
End chain.

(** ** Theorems *)

(** The routes of cluster staff. *)
Definition staff_path (rt : Route) : bool :=
  HasPrefix (rt_Path rt) "/api/v1/admin/"
  || (HasPrefix (rt_Path rt) "/api/v1/nodes" && negb (from_daemon rt) && negb (public rt)).

(** The routes of users on one server. *)
Definition server_path (rt : Route) : bool :=
  HasPrefix (rt_Path rt) "/api/v1/servers/:id" && negb (from_daemon rt).

Definition server_check (h : Handler) : bool :=
  match h with rsp perm => contains ServerScopedPermissions perm | _ => false end.

(** The checks of the table, route by route. *)
Definition route_checked (rt : Route) : bool :=
  (public rt || from_daemon rt || contains (rt_Chain rt) authRequired)
  && (negb (staff_path rt) || contains (rt_Chain rt) (requireRole RoleAdmin))
  && (negb (server_path rt) || contains (rt_Chain rt) authRequired && existsb server_check (rt_Chain rt)).

Lemma table_checked rt : rt ∈ SetupRouter -> route_checked rt = true.
Proof.
  assert (H : forallb route_checked SetupRouter = true) by (vm_compute; reflexivity).
  rewrite forallb_elem in H. apply H.
Qed.

Lemma chain_has rt h : contains (rt_Chain rt) h = true <-> h ∈ rt_Chain rt.
Proof. apply contains_spec. Qed.

Section served.
Context `{U : Unicode} `{P : Platform} (secret : string) (devMode : bool).

(** Who a handler of the table answers to. *)
Definition known_caller (w : World) (r : Request) (rt : Route) (c : Ctx) : Prop :=
  public rt = true
  \/ (from_daemon rt = true
      /\ exists n, ctx_Node c = Some n /\ node_authenticated (w_db w) (req_Authorization r) n)
  \/ (exists u, ctx_User c = Some u /\ authenticated secret w (req_Authorization r) u
        /\ (staff_path rt = true -> is_staff (user_Role u) = true)).

Lemma reached_known rt r id hdrs w c w' :
  rt ∈ SetupRouter ->
  run_chain secret devMode r id (rt_Chain rt) (mkCtx None None hdrs) w = (Ok (c, None), w') ->
  known_caller w r rt c.
Proof.
  intros Ht%table_checked H. assert (Hs : forall h, h ∈ rt_Chain rt -> shown secret w r id h c).
  { intros h Hh. eapply run_chain_pass; [reflexivity|  | exact H | by left]. by intros u. }
  unfold route_checked in Ht. rewrite !andb_true_iff, !orb_true_iff, !negb_true_iff in Ht.
  destruct Ht as [[[[Hp|Hd]|Ha] Hst] _]; [by left | |].
  - right; left. split; [done|]. apply chain_has, Hs in Hd. exact Hd.
  - right; right. apply chain_has, Hs in Ha as (u & Hu & Ha). exists u. split_and!; [done..|].
    intros Hst'. destruct Hst as [|Hst]; [congruence|]. apply chain_has, Hs in Hst as (u' & Hu' & Hw).
    unfold is_staff. apply Z.leb_le. simplify_eq. done.
Qed.

(** At most one record is added to the activity log. *)
Definition same_but_log (d d' : DB) : Prop :=
  d' = d \/ exists l, d' = with_activity_logs (l :: activity_logs d) d.

Lemma log_activity_same l w r w' : log_activity l w = (r, w') ->
  (exists a, r = Ok a) /\ same_but_log (w_db w) (w_db w') \/ (exists e, r = Err e) /\ w_db w' = w_db w.
Proof.
  intros H. unfold log_activity in H. apply bind_inv in H as [(t & w1 & [_ ->]%now_inv & H)|(e & H & _)]; [|done].
  apply exec_inv in H as (_ & _ & _ & _ & [(a & d & -> & [= <- <-] & Hd)|(e & -> & Hd & _)]).
  - left. split; [eauto|]. right. eauto.
  - right. eauto.
Qed.

Lemma AuditLog_inv {A} (next : Request -> M (option uuid * A)) r w res w' :
  AuditLog next r w = (res, w') ->
  let r' := snd (audit_buffer r) in
  (exists e, next r' w = (Err e, w') /\ res = Err e)
  \/ (exists u a w1, next r' w = (Ok (u, a), w1) /\ res = Ok a /\ same_but_log (w_db w1) (w_db w')).
Proof.
  unfold AuditLog. destruct (audit_buffer r) as [b r']. simpl. intros H.
  apply bind_inv in H as [([u a] & w1 & Hn & H)|(e & Hn & ->)]; [right|left; eauto].
  exists u, a, w1. split; [done|]. destruct (reads_only _).
  { apply ret_inv in H as [-> ->]. split; [done | by left]. }
  apply bind_inv in H as [(f & w2 & (f' & [= ->] & H2)%attempt_inv & H)|(e & (f' & ? & _)%attempt_inv & _)]; [|done].
  apply log_activity_same in H2 as [[[x ->] H2]|[[e ->] H2]]; cbv beta iota in H.
  - apply bind_inv in H as [(x' & w3 & [_ ->]%ret_inv & [-> ->]%ret_inv)|(e & [? _]%ret_inv & _)]; done.
  - apply bind_inv in H as [(x' & w3 & [_ (r0 & H3)]%ignore_inv & [-> ->]%ret_inv)|(e' & [? _]%ignore_inv & _)]; [|done].
    rewrite <- H2. apply log_activity_same in H3 as [[_ H3]|[_ H3]]; [done | split; [done | by left]].
Qed.

(** The route's handler ran on [r'] with the context [c], from the world
    [w1], and its answer is the answer. *)
Definition handler_ran (handler : Ctx -> Request -> M Reply) (c : Ctx) (r' : Request) (w1 : World)
    (res : Prelude.res error (list (string * string) * Reply)) (w' : World) : Prop :=
  match handler c r' w1 with
  | (Ok reply, w2) => res = Ok (ctx_Headers c, reply) /\ same_but_log (w_db w2) (w_db w')
  | (Err e, w2) => res = Err e /\ w' = w2
  end.

Lemma audit_buffer_auth r : req_Authorization (snd (audit_buffer r)) = req_Authorization r.
Proof. unfold audit_buffer. by destruct (_ && _). Qed.

Lemma BodyLimit_auth r r1 : BodyLimit r = Pass r1 -> req_Authorization r1 = req_Authorization r.
Proof. unfold BodyLimit. case_ifs; by intros [= <-]. Qed.

(** C3. Whatever the handlers do: a request for a route of the table is either
    answered by a middleware, with an error and with nothing in the database
    changed but at most one record in the activity log, or it reaches the
    handler, with the database and the clock as they were, and then the route
    is one of the ten public ones, or its caller is a node that showed its
    own token, or a user whose token [auth_gate_sound] describes; on the
    routes of staff that user is an administrator or the owner. *)
Theorem handlers_gated (rt : Route) (handler : Ctx -> Request -> M Reply) (idParam : string) (r : Request)
    (w w' : World) (res : Prelude.res error (list (string * string) * Reply)) :
  rt ∈ SetupRouter -> serve secret devMode rt handler idParam r w = (res, w') ->
  (exists hdrs status msg, res = Ok (hdrs, reply_error status msg) /\ same_but_log (w_db w) (w_db w'))
  \/ (exists c r' w1, kept w w1 /\ known_caller w r rt c /\ handler_ran handler c r' w1 res w').
Proof.
  intros Ht H. unfold serve in H. destruct (BodyLimit r) as [r1|s msg] eqn:Hb.
  2:{ apply ret_inv in H as [-> ->]. left. exists (SecurityHeaders (negb devMode)), s, msg. split; [done | by left]. }
  apply BodyLimit_auth in Hb. apply AuditLog_inv in H. set (r2 := snd (audit_buffer r1)) in H.
  assert (Hr : req_Authorization r2 = req_Authorization r) by (unfold r2; by rewrite audit_buffer_auth).
  destruct (answers_run_chain secret devMode r2 idParam (rt_Chain rt)
              (mkCtx None None (SecurityHeaders (negb devMode))) w) as [[c ab] Hc].
  pose proof (keeps_run_chain secret devMode r2 idParam (rt_Chain rt)
                (mkCtx None None (SecurityHeaders (negb devMode))) w) as Hk.
  destruct (run_chain _ _ _ _ _ _ w) as [rc w1] eqn:Erun. simpl in Hc, Hk. subst rc.
  cbv zeta in H. rewrite (bind_run _ _ _ _ _ Erun) in H. cbv beta iota zeta in H.
  destruct ab as [[s msg]|].
  - left. destruct H as [(e & H & _)|(u & a & w2 & H & -> & Hl)]; apply ret_inv in H as [H ->]; [done|].
    injection H as -> ->. destruct Hk as [<- _]. eauto.
  - right. apply reached_known in Erun; [|done]. exists c, r2, w1. split_and!; [done| |].
    { unfold known_caller in *. by rewrite <- Hr. }
    unfold handler_ran. destruct (handler c r2 w1) as [[reply|e] w2] eqn:Eh;
      rewrite (bind_run _ _ _ _ _ Eh) in H; unfold ret in H.
    + destruct H as [(e & H & _)|(u & a & w3 & H & -> & Hl)]; simplify_eq. done.
    + destruct H as [(e' & H & ->)|(u & a & w3 & H & _)]; by simplify_eq.
Qed.

(** C4. The handler of a user route under [/servers/:id] runs only for a
    parameter that is a server id and a caller whose token passed, and who is
    cluster staff, owns that server or is a member of it; the permission the
    route asks for is one a member role can decide. *)
Theorem server_routes_isolated (rt : Route) (idParam : string) (r : Request)
    (hdrs : list (string * string)) (c : Ctx) (w w' : World) :
  rt ∈ SetupRouter -> server_path rt = true ->
  run_chain secret devMode r idParam (rt_Chain rt) (mkCtx None None hdrs) w = (Ok (c, None), w') ->
  exists u sid perm, ctx_User c = Some u /\ authenticated secret w (req_Authorization r) u
    /\ uuid_parse idParam = Some sid
    /\ (is_staff (user_Role u) = true \/ owns_server (w_db w) (user_ID u) sid = true
        \/ is_Some (server_members (w_db w) !! (sid, user_ID u)))
    /\ rsp perm ∈ rt_Chain rt /\ perm ∈ ServerScopedPermissions.
Proof.
  intros Ht%table_checked Hp H. assert (Hs : forall h, h ∈ rt_Chain rt -> shown secret w r idParam h c).
  { intros h Hh. eapply run_chain_pass; [reflexivity|  | exact H | by left]. by intros u. }
  unfold route_checked in Ht. rewrite Hp, !andb_true_iff in Ht. simpl in Ht.
  destruct Ht as [_ [Ha Hr]%andb_true_iff]. apply chain_has, Hs in Ha as (u & Hu & Ha).
  apply existsb_elem in Hr as (h & Hh & Hsc). destruct h as [| | |?|?|perm|]; try done.
  pose proof (Hs _ Hh) as (u' & sid & w1 & w2 & Hu' & Hid & (Hd & _) & Hg). simplify_eq.
  apply HasServerPermission_granted in Hg. rewrite Hd in Hg. apply contains_spec in Hsc.
  eauto 10.
Qed.
End served.

Lemma clash_sym p q : clash p q = clash q p.
Proof.
  revert q. induction p as [|a p IH]; intros [|b q]; simpl; try done.
  rewrite String.eqb_sym, IH. destruct (String.eqb b a); [done | apply andb_comm].
Qed.

Lemma routes_clash_sym a b : routes_clash a b = routes_clash b a.
Proof. unfold routes_clash. by rewrite String.eqb_sym, clash_sym. Qed.

Lemma clash_free_spec l i j a b :
  clash_free l = true -> i <> j -> l !! i = Some a -> l !! j = Some b -> routes_clash a b = false.
Proof.
  revert i j. induction l as [|c l IH]; intros i j H Hij Ha Hb; [done|].
  simpl in H. apply andb_true_iff in H as [Hc Hl]. rewrite forallb_elem in Hc.
  assert (Hl' : forall k d, l !! k = Some d -> routes_clash c d = false).
  { intros k d Hd%list_elem_of_lookup_2. apply negb_true_iff. by apply Hc. }
  destruct i as [|i], j as [|j]; simpl in Ha, Hb; simplify_eq; [eauto | rewrite routes_clash_sym; eauto|].
  apply (IH i j); [done | congruence | done..].
Qed.

(** No two routes of the table are ones Gin refuses to register together,
    so that the panel starts: no method and path is taken twice, and no two
    names stand for one path parameter.  The paths with a body limit of their
    own are paths of the table. *)
Theorem routes_register :
  (forall i j a b, i <> j -> SetupRouter !! i = Some a -> SetupRouter !! j = Some b ->
     routes_clash a b = false)
  /\ (forall path, bodyLimitFor path <> DefaultBodyLimit ->
        (exists rt, rt ∈ SetupRouter /\ rt_Path rt = path)
        \/ HasPrefix path "/api/v1/servers/:id/daemon/" = true).
Proof.
  split.
  - intros i j a b. apply clash_free_spec. vm_compute. reflexivity.
  - intros path H. unfold bodyLimitFor in H.
    destruct (HasPrefix path "/api/v1/servers/:id/daemon/"); [by right|left].
    assert (Hin : path ∈ map rt_Path SetupRouter).
    { repeat match type of H with context [String.eqb path ?q] =>
        destruct (String.eqb_spec path q) as [Ep|_]; [rewrite Ep; apply contains_spec; vm_compute; reflexivity|] end.
      destruct (contains _ path) eqn:E; [|exfalso; apply H; reflexivity]. apply contains_spec in E.
      repeat (apply elem_of_cons in E as [->|E]; [apply contains_spec; vm_compute; reflexivity|]).
      by apply not_elem_of_nil in E. }
    apply list_elem_of_fmap in Hin as (rt & -> & Hrt). eauto.
Qed.

Definition router_request (auth : string) : Request :=
  mkRequest "GET" "/api/v1/servers/7" "/api/v1/servers/:id" auth "" "10.0.0.1" 0 None None.

Definition get_server_route : Route :=
  GET serverGroup "/:id" [rsp "server.view"] "serverH.GetServer".

Lemma get_server_registered : get_server_route ∈ SetupRouter.
Proof. apply contains_spec. vm_compute. reflexivity. Qed.

Lemma routes_register_witness :
  (exists rt, rt ∈ SetupRouter /\ rt_Path rt = "/api/v1/nodes/:id/heartbeat")
  \/ HasPrefix "/api/v1/nodes/:id/heartbeat" "/api/v1/servers/:id/daemon/" = true.
Proof. apply (proj2 routes_register). by vm_compute. Defined.

Lemma handlers_gated_witness :
  exists res w', @serve ascii_tables sample_platform "s" false get_server_route
      (fun _ _ => ret (mkReply 200 JNull)) "7" (router_request "") (gate_world 1000 ∅) = (res, w')
    /\ ((exists hdrs status msg, res = Ok (hdrs, reply_error status msg)
           /\ same_but_log (w_db (gate_world 1000 ∅)) (w_db w'))
        \/ (exists c r' w1, kept (gate_world 1000 ∅) w1
             /\ @known_caller ascii_tables sample_platform "s" (gate_world 1000 ∅) (router_request "") get_server_route c
             /\ handler_ran (fun _ _ => ret (mkReply 200 JNull)) c r' w1 res w')).
Proof.
  destruct (@serve ascii_tables sample_platform "s" false get_server_route
      (fun _ _ => ret (mkReply 200 JNull)) "7" (router_request "") (gate_world 1000 ∅)) as [res w'] eqn:E.
  exists res, w'. split; [done|].
  apply (@handlers_gated ascii_tables sample_platform "s" false _ _ _ _ _ _ _ get_server_registered E).
Defined.

(** A world in which the caller owns server 7. *)
Definition router_world : World :=
  mkWorld (with_servers {[7%N := sample_server 7 9 5]} (w_db (gate_world 1000 ∅))) ∅ 1000 [] N.of_nat 0.

Lemma server_routes_isolated_witness :
  exists c w', @run_chain ascii_tables sample_platform "s" false (router_request ("Bearer " +:+ gate_token))
      (to_text 7%N) (rt_Chain get_server_route) (mkCtx None None []) router_world = (Ok (c, None), w')
    /\ exists u, ctx_User c = Some u.
Proof.
  destruct (@run_chain ascii_tables sample_platform "s" false (router_request ("Bearer " +:+ gate_token))
      (to_text 7%N) (rt_Chain get_server_route) (mkCtx None None []) router_world) as [[[c [a|]]|e] w'] eqn:E;
    [apply (f_equal (fun x => match fst x with Ok (_, None) => true | _ => false end)) in E;
      vm_compute in E; done| |
     apply (f_equal (fun x => match fst x with Ok (_, None) => true | _ => false end)) in E;
      vm_compute in E; done].
  exists c, w'. split; [done|].
  destruct (@server_routes_isolated ascii_tables sample_platform "s" false get_server_route _ _ _ _ _ _
    get_server_registered eq_refl E) as (u & _ & _ & Hu & _).
  by exists u.
Defined.
