(* ===== verification/NetworkRouting.v ===== *)
(** * Network routing

    Models [services/network_routing_service.go] and
    [handlers/network_routing.go]: the master secret of the installation, the
    ticket key each server derives from it, the roles of servers in the
    network, and the configuration written to every networked server.

    A command's payload holds texts; the configuration in it is held as its
    JSON text. *)

From stdpp Require Import base numbers list strings option gmap.
From Stdlib Require Import Ascii.
From S2P Require Import Prelude GoStrings Regex Store Roles Platform Crypto Auth Players Net Http.

Local Open Scope Z_scope.

(** ** Hex text *)

Definition hex_value (a : ascii) : option Z :=
  let b := byte_of a in
  if in_range 48 57 b then Some (b - 48)
  else if in_range 97 102 b then Some (b - 87)
  else if in_range 65 70 b then Some (b - 55)
  else None.

(** [hex.DecodeString]. *)
Fixpoint hex_decode (s : string) : option string :=
  match s with
  | EmptyString => Some EmptyString
  | String a (String b s') =>
    match hex_value a, hex_value b, hex_decode s' with
    | Some x, Some y, Some t => Some (String (ascii_of (16 * x + y)) t)
    | _, _, _ => None
    end
  | String _ EmptyString => None
  end.

Record ModGamemode := mkModGamemode {
  mg_ServerID : uuid;
  mg_Name : string;
  mg_Address : string;
  mg_Secret : string
}.

Record ModNetworkConfig := mkModNetworkConfig {
  mnc_Version : Z;
  mnc_Role : string;
  mnc_ServerID : uuid;
  mnc_RequireReferral : bool;
  mnc_Secrets : list string;
  mnc_Gamemodes : list ModGamemode
}.

Definition ErrInvalidNetworkRole : error := ErrNew "invalid network role".
Definition serverKeyLabel : string := "talepanel-network-v2:".
Definition modConfigVersion : Z := 2.

Section routing.
Context `{P : Platform} `{J : Json ModNetworkConfig}.

(** ** The secret *)

(** Columns [hmac_secret_current] and [hmac_secret_previous]. *)
Definition readSecrets : M (string * option string) :=
  query (fun d => match network_settings d with Some s => Ok s | None => Err ErrNoRows end).

(** [INSERT INTO network_settings ... ON CONFLICT (id) DO NOTHING]. *)
Definition insert_secret (fresh : string) : M unit :=
  exec (fun d => Ok (tt, match network_settings d with
                         | Some _ => d
                         | None => with_network_settings (Some (fresh, None)) d
                         end)).

(** From the answer of the first read on. *)
Definition finish_secrets (first : res error (string * option string)) : M (list string) :=
  let* r :=
    match first with
    | Err e =>
      if error_Is e ErrNoRows then
        let* n := rand in
        run* wrap "persisting network secret" (insert_secret (rand_bytes 32 (Z.of_N n))) in
        attempt readSecrets
      else ret first
    | Ok _ => ret first
    end in
  match r with
  | Err e => fail (ErrWrap "reading network secret" e)
  | Ok (cur, prev) =>
    ret (hex_string cur ::
         match prev with
         | Some p => if String.eqb p "" then [] else [hex_string p]
         | None => []
         end)
  end.

Definition GetOrCreateSecrets : M (list string) :=
  let* first := attempt readSecrets in finish_secrets first.

Definition deriveServerKey (master : string) (serverID : uuid) : string :=
  hmac_sha256 master (serverKeyLabel +:+ uuid_string serverID).

Fixpoint derive_keys (masters : list string) (serverID : uuid) : res error (list string) :=
  match masters with
  | [] => Ok []
  | m :: masters' =>
    match hex_decode m with
    | None => Err (ErrWrap "decoding network secret" (ErrNew "encoding/hex"))
    | Some raw =>
      match derive_keys masters' serverID with
      | Err e => Err e
      | Ok out => Ok (hex_string (deriveServerKey raw serverID) :: out)
      end
    end
  end.

Definition serverKeys (serverID : uuid) : M (list string) :=
  let* masters := GetOrCreateSecrets in
  match derive_keys masters serverID with Ok out => ret out | Err e => fail e end.

(** ** Roles *)

Definition SetServerRole (serverID : uuid) (role : string) : M unit :=
  let set value :=
    let* n := wrap "setting network role" (exec (fun d =>
      match servers d !! serverID with
      | Some s => Ok (1, with_servers (<[serverID := server_with_NetworkRole value s]> (servers d)) d)
      | None => Ok (0, d)
      end)) in
    if n =? 0 then fail ErrPlayerNotFound else ret tt in
  if String.eqb role "hub" || String.eqb role "gamemode" then set (Some role)
  else if String.eqb role "none" || String.eqb role "" then set None
  else fail ErrInvalidNetworkRole.

(** ** The configuration of a server *)

Definition is_gamemode (s : Server) : bool := bool_decide (server_NetworkRole s = Some "gamemode").

Definition server_name_order (a b : uuid * Server) : bool :=
  String.leb (server_Name (snd a)) (server_Name (snd b)).

(** [COALESCE(n.public_address, n.fqdn) || ':' || sv.port]. *)
Definition gamemode_address (s : Server) (n : Node) : string :=
  default (node_FQDN n) (node_PublicAddress n) +:+ ":" +:+ Itoa (server_Port s).

(** The join drops a server whose node is gone. *)
Definition gamemode_rows (d : DB) : list ModGamemode :=
  omap (fun '(id, s) => match nodes d !! server_NodeID s with
                        | Some n => Some (mkModGamemode id (server_Name s) (gamemode_address s n) "")
                        | None => None
                        end)
    (order_by server_name_order (List.filter (fun kv => is_gamemode (snd kv)) (map_to_list (servers d)))).

Definition listGamemodes : M (list ModGamemode) :=
  let* out := wrap "listing gamemodes" (query (fun d => Ok (gamemode_rows d))) in
  let* masters := GetOrCreateSecrets in
  match hex_decode (default "" (head masters)) with
  | None => fail (ErrWrap "decoding network secret" (ErrNew "encoding/hex"))
  | Some current =>
    ret (map (fun g => mkModGamemode (mg_ServerID g) (mg_Name g) (mg_Address g)
                         (hex_string (deriveServerKey current (mg_ServerID g)))) out)
  end.

Definition BuildServerConfig (serverID : uuid) : M ModNetworkConfig :=
  let* r := attempt (query (fun d => get_key (servers d) serverID)) in
  match r with
  | Err e => if error_Is e ErrNoRows then fail ErrPlayerNotFound
             else fail (ErrWrap "loading server for config" e)
  | Ok s =>
    match server_NetworkRole s with
    | None => fail ErrPlayerNotFound
    | Some role =>
      let* secrets := serverKeys serverID in
      let* gamemodes := if String.eqb role "hub" then listGamemodes else ret [] in
      ret (mkModNetworkConfig modConfigVersion role serverID (server_RequireReferral s) secrets gamemodes)
    end
  end.

(** ** Distribution *)

Definition delivered (serverID : uuid) (c : NodeCommand) : bool :=
  bool_decide (ncmd_ServerID c = Some serverID) && String.eqb (ncmd_CommandType c) "write_mod_config"
  && (String.eqb (ncmd_Status c) "acked" || String.eqb (ncmd_Status c) "failed").

Definition prune_delivered (serverID : uuid) : M unit :=
  exec (fun d => Ok (tt, with_node_commands (List.filter (fun c => negb (delivered serverID c)) (node_commands d)) d)).

Definition enqueue_config (nodeID serverID : uuid) (dataPath text : string) : M unit :=
  let* id := new_uuid in
  let* t := now in
  exec (fun d => match enqueue_node_command id nodeID serverID "write_mod_config"
                         [("data_path", dataPath); ("config", text)] t d with
                 | Ok d' => Ok (tt, d')
                 | Err e => Err e
                 end).

Definition DistributeConfig (serverID : uuid) : M unit :=
  let* cfg := BuildServerConfig serverID in
  let* s := wrap "loading server node for distribution" (query (fun d => get_key (servers d) serverID)) in
  run* wrap "pruning delivered mod config commands" (prune_delivered serverID) in
  match json_marshal cfg with
  | None => fail (ErrWrap "marshalling mod config" (ErrNew "json"))
  | Some text => wrap "enqueuing mod config write" (enqueue_config (server_NodeID s) serverID (server_DataPath s) text)
  end.

Definition networked (s : Server) : bool := negb (bool_decide (server_NetworkRole s = None)).

Fixpoint distribute_loop (ids : list uuid) : M unit :=
  match ids with
  | [] => ret tt
  | id :: ids' => run* ignore (DistributeConfig id) in distribute_loop ids'
  end.

Definition DistributeAll : M unit :=
  let* ids := wrap "listing networked servers" (query (fun d =>
    Ok (map fst (List.filter (fun kv => networked (snd kv)) (map_to_list (servers d)))))) in
  distribute_loop ids.

(** ** Handlers *)

Definition SetServerRoleHandler (idParam : string) (body : option string) : M Reply :=
  match uuid_parse idParam with
  | None => ret (reply_error 400 "invalid server id")
  | Some serverID =>
    match body with
    | None => ret (reply_error 400 "invalid body")
    | Some role =>
      let* r := attempt (SetServerRole serverID role) in
      match r with
      | Err e =>
        ret (if error_Is e ErrInvalidNetworkRole then reply_error 400 "role must be hub, gamemode or none"
             else if error_Is e ErrPlayerNotFound then reply_error 404 "server not found"
             else reply_error 500 "internal error")
      | Ok _ =>
        let* r := attempt DistributeAll in
        ret match r with
            | Err _ => reply_error 500 "role set but distribution failed"
            | Ok _ => reply_message "role updated and config distributed"
            end
      end
    end
  end.

Definition DistributeHandler : M Reply :=
  let* r := attempt DistributeAll in
  ret match r with
      | Err _ => reply_error 500 "distribution failed"
      | Ok _ => reply_message "config distributed"
      end.
End routing.

(** ** What a configuration holds *)

Section config.
Context `{P : Platform}.

(** The key of a server under a master secret, as text. *)
Definition key_text (serverID : uuid) (master : string) : string :=
  hex_string (deriveServerKey master serverID).

(** The master secrets in use, the current one first. *)
Definition master_keys (sec : string * option string) : list string :=
  fst sec :: match snd sec with
             | Some p => if String.eqb p "" then [] else [p]
             | None => []
             end.

Definition config_of (sec : string * option string) (d : DB) (id : uuid) (s : Server) (role : string)
  : ModNetworkConfig :=
  mkModNetworkConfig modConfigVersion role id (server_RequireReferral s)
    (map (key_text id) (master_keys sec))
    (if String.eqb role "hub"
     then map (fun g => mkModGamemode (mg_ServerID g) (mg_Name g) (mg_Address g)
                          (key_text (mg_ServerID g) (fst sec))) (gamemode_rows d)
     else []).

Lemma hex_pair a : exists x y vx vy,
  hex_bytes 1 (byte_of a) = String x (String y "") /\ hex_value x = Some vx /\ hex_value y = Some vy
  /\ ascii_of (16 * vx + vy) = a.
Proof.
  exists (hex_digit (byte_of a / 16)), (hex_digit (byte_of a mod 16)), (byte_of a / 16), (byte_of a mod 16).
  destruct a as [[] [] [] [] [] [] [] []]; vm_compute; done.
Qed.

Lemma hex_decode_cons a s : hex_decode (hex_bytes 1 (byte_of a) +:+ s) =
  match hex_decode s with Some t => Some (String a t) | None => None end.
Proof.
  destruct (hex_pair a) as (x & y & vx & vy & -> & Hx & Hy & Ha).
  rewrite !str_app_cons. change ("" +:+ s) with s. cbn [hex_decode]. rewrite Hx, Hy, Ha. by destruct (hex_decode s).
Qed.

Lemma hex_decode_string s : hex_decode (hex_string s) = Some s.
Proof. induction s as [|a s IH]; [done|]. cbn [hex_string]. by rewrite hex_decode_cons, IH. Qed.

Lemma derive_keys_hex ms id : derive_keys (map hex_string ms) id = Ok (map (key_text id) ms).
Proof. induction ms as [|m ms IH]; [done|]. simpl. by rewrite hex_decode_string, IH. Qed.

Lemma secrets_text cur prev :
  hex_string cur :: match prev with Some p => if String.eqb p "" then [] else [hex_string p] | None => [] end
  = map hex_string (master_keys (cur, prev)).
Proof. unfold master_keys. simpl. destruct prev as [p|]; [|done]. by destruct (String.eqb p ""). Qed.

(** The secret is stored when it is handed out, and only a missing one is
    made. *)
Definition secret_kept (d d' : DB) (sec : string * option string) : Prop :=
  network_settings d' = Some sec
  /\ (network_settings d = Some sec /\ d' = d
      \/ network_settings d = None /\ snd sec = None /\ d' = with_network_settings (Some sec) d).

Lemma readSecrets_inv w r w' : readSecrets w = (r, w') ->
  w_db w' = w_db w /\ (forall sec, r = Ok sec -> network_settings (w_db w) = Some sec)
  /\ (forall e, r = Err e -> error_Is e ErrNoRows = true -> network_settings (w_db w) = None).
Proof.
  intros (Hd & _ & _ & _ & _ & H)%query_inv. split; [done|].
  destruct (network_settings (w_db w)) as [s|]; destruct H as [-> | ->]; split; intros ? [= <-]; done.
Qed.

(** Also when another request stored a secret after the first read. *)
Lemma finish_secrets_inv first w ms w' :
  (forall sec, first = Ok sec -> network_settings (w_db w) = Some sec) ->
  finish_secrets first w = (Ok ms, w') ->
  exists sec, secret_kept (w_db w) (w_db w') sec /\ ms = map hex_string (master_keys sec).
Proof.
  intros Hok (r2 & w2 & H2 & H)%bind_ok.
  assert (Hs : forall sec, r2 = Ok sec -> secret_kept (w_db w) (w_db w2) sec).
  { destruct first as [sec0|e].
    - apply ret_inv in H2 as [[= ->] ->]. intros sec [= ->]. specialize (Hok _ eq_refl).
      unfold secret_kept. auto.
    - destruct (error_Is e ErrNoRows) eqn:Ee; [|by apply ret_inv in H2 as [[= ->] _]].
      apply bind_ok in H2 as (n & w3 & (_ & Hd3 & _)%rand_inv & H2).
      apply bind_ok in H2 as (u & w4 & Hi%wrap_ok & (r & [= ->] & Hr)%attempt_inv).
      apply exec_ok in Hi. apply readSecrets_inv in Hr as (Hd5 & Hr & _). rewrite Hd3 in Hi.
      intros sec ->. specialize (Hr _ eq_refl). unfold secret_kept. rewrite Hd5. split; [done|].
      destruct (network_settings (w_db w)) as [sec0|] eqn:E0; injection Hi as _ Hi; rewrite <- Hi in Hr |- *.
      + left. rewrite E0 in Hr. auto.
      + right. simpl in Hr. injection Hr as <-. done. }
  destruct r2 as [[cur prev]|e]; [|by apply fail_inv in H as [? _]].
  apply ret_inv in H as [[= ->] ->]. exists (cur, prev). split; [by apply Hs | apply secrets_text].
Qed.

Lemma GetOrCreateSecrets_inv w ms w' :
  GetOrCreateSecrets w = (Ok ms, w') ->
  exists sec, secret_kept (w_db w) (w_db w') sec /\ ms = map hex_string (master_keys sec).
Proof.
  intros (first & w1 & (r & [= ->] & Hr)%attempt_inv & H)%bind_ok.
  apply readSecrets_inv in Hr as (Hd & Hok & _). apply finish_secrets_inv in H; [by rewrite <- Hd | by rewrite Hd].
Qed.

Lemma serverKeys_inv id w ks w' :
  serverKeys id w = (Ok ks, w') ->
  exists sec, secret_kept (w_db w) (w_db w') sec /\ ks = map (key_text id) (master_keys sec).
Proof.
  intros (ms & w1 & (sec & Hs & ->)%GetOrCreateSecrets_inv & H)%bind_ok. rewrite derive_keys_hex in H.
  apply ret_inv in H as [[= ->] ->]. eauto.
Qed.

Lemma secret_kept_trans d1 d2 d3 sec sec' :
  secret_kept d1 d2 sec -> secret_kept d2 d3 sec' -> sec' = sec /\ d3 = d2.
Proof. intros [H1 _] [H3 [[H ->]|(H & _)]]; rewrite H1 in H; [|done]. by injection H as <-. Qed.

Lemma gamemode_rows_secret d v : gamemode_rows (with_network_settings v d) = gamemode_rows d.
Proof. done. Qed.

Lemma listGamemodes_inv w out w' :
  listGamemodes w = (Ok out, w') ->
  exists sec, secret_kept (w_db w) (w_db w') sec
    /\ out = map (fun g => mkModGamemode (mg_ServerID g) (mg_Name g) (mg_Address g)
                             (key_text (mg_ServerID g) (fst sec))) (gamemode_rows (w_db w)).
Proof.
  intros (gs & w1 & [[= <-] Hd]%wrap_ok%query_ok & H)%bind_ok.
  apply bind_ok in H as (ms & w2 & (sec & Hs & ->)%GetOrCreateSecrets_inv & H).
  simpl in H. rewrite hex_decode_string in H. apply ret_inv in H as [[= ->] ->].
  exists sec. rewrite <- Hd. done.
Qed.

Lemma BuildServerConfig_inv id w cfg w' :
  BuildServerConfig id w = (Ok cfg, w') ->
  exists sec s role, secret_kept (w_db w) (w_db w') sec /\ servers (w_db w) !! id = Some s
    /\ server_NetworkRole s = Some role /\ cfg = config_of sec (w_db w) id s role.
Proof.
  intros (r & w1 & (r' & [= ->] & Hr)%attempt_inv & H)%bind_ok.
  destruct r' as [s|e]; [|destruct (error_Is e ErrNoRows); by apply fail_inv in H as [? _]].
  apply query_ok in Hr as [Hr Hd]. unfold get_key in Hr.
  destruct (servers (w_db w) !! id) as [s'|] eqn:Es; [|done]. injection Hr as ->.
  destruct (server_NetworkRole s) as [role|] eqn:Er; [|by apply fail_inv in H as [? _]].
  apply bind_ok in H as (ks & w2 & (sec & Hs & ->)%serverKeys_inv & H).
  apply bind_ok in H as (gs & w3 & Hg & [[= ->] ->]%ret_inv). rewrite Hd in Hs.
  exists sec, s, role. unfold config_of. destruct (String.eqb role "hub").
  - apply listGamemodes_inv in Hg as (sec' & Hs' & ->).
    destruct (secret_kept_trans _ _ _ _ _ Hs Hs') as [-> ->]. split_and!; [done..|].
    destruct Hs as [_ [[_ ->]|(_ & _ & ->)]]; done.
  - apply ret_inv in Hg as [[= ->] ->]. done.
Qed.
End config.

(** ** Runs without faults *)

(** [m] comes to a result and leaves no fault behind. *)
Definition succeeds {A} (m : M A) (w : World) : Prop := exists a w', m w = (Ok a, w') /\ healthy w'.

Lemma succeeds_bind {A B} (m : M A) (k : A -> M B) w :
  succeeds m w -> (forall a w', m w = (Ok a, w') -> healthy w' -> succeeds (k a) w') -> succeeds (bind m k) w.
Proof. intros (a & w1 & Hm & Hh) Hk. unfold succeeds. rewrite (bind_run _ _ _ _ _ Hm). by apply Hk. Qed.

Lemma succeeds_ret {A} (a : A) w : healthy w -> succeeds (ret a) w.
Proof. intros Hw. by exists a, w. Qed.

Lemma succeeds_rand w : healthy w -> succeeds rand w.
Proof. intros Hw. by eexists _, _. Qed.

Lemma succeeds_wrap {A} msg (m : M A) w : succeeds m w -> succeeds (wrap msg m) w.
Proof. intros (a & w1 & Hm & Hh). exists a, w1. split; [by apply wrap_run_ok | done]. Qed.

Lemma succeeds_attempt {A} (m : M A) w r w' : m w = (r, w') -> healthy w' -> succeeds (attempt m) w.
Proof. intros Hm Hh. exists r, w'. split; [by apply attempt_run | done]. Qed.

Lemma succeeds_query {A} (f : DB -> res error A) a w : healthy w -> f (w_db w) = Ok a -> succeeds (query f) w.
Proof. intros Hw Hf. exists a, w. by rewrite query_healthy, Hf. Qed.

Lemma succeeds_exec {A} (f : DB -> res error (A * DB)) a d w :
  healthy w -> f (w_db w) = Ok (a, d) -> succeeds (exec f) w.
Proof. intros Hw Hf. exists a, (with_db d w). split; [by apply exec_healthy_ok | done]. Qed.

Section distribution.
Context `{P : Platform} `{J : Json ModNetworkConfig}.

Lemma readSecrets_healthy w : healthy w ->
  readSecrets w = (match network_settings (w_db w) with Some s => Ok s | None => Err ErrNoRows end, w).
Proof. intros Hw. unfold readSecrets. by rewrite query_healthy. Qed.

Lemma GetOrCreateSecrets_healthy w : healthy w -> succeeds GetOrCreateSecrets w.
Proof.
  intros Hw. unfold GetOrCreateSecrets, succeeds.
  erewrite bind_run by (apply attempt_run, readSecrets_healthy, Hw). cbv beta iota. unfold finish_secrets.
  destruct (network_settings (w_db w)) as [[cur prev]|] eqn:Es; [by eexists _, _|].
  erewrite bind_run.
  2:{ change (error_Is ErrNoRows ErrNoRows) with true. cbv iota. erewrite bind_run by reflexivity. cbv beta iota.
      erewrite bind_run by (apply wrap_run_ok, exec_healthy_ok; [exact Hw | reflexivity]). cbv beta iota.
      apply attempt_run, readSecrets_healthy. exact Hw. }
  simpl. rewrite Es. simpl. by eexists _, _.
Qed.

Lemma serverKeys_healthy id w : healthy w -> succeeds (serverKeys id) w.
Proof.
  intros Hw. apply succeeds_bind; [by apply GetOrCreateSecrets_healthy|].
  intros ms w1 (sec & _ & ->)%GetOrCreateSecrets_inv Hw1. rewrite derive_keys_hex. by apply succeeds_ret.
Qed.

Lemma listGamemodes_healthy w : healthy w -> succeeds listGamemodes w.
Proof.
  intros Hw. apply succeeds_bind; [by eapply succeeds_wrap, succeeds_query|]. intros gs w1 _ Hw1.
  apply succeeds_bind; [by apply GetOrCreateSecrets_healthy|].
  intros ms w2 (sec & _ & ->)%GetOrCreateSecrets_inv Hw2. simpl. rewrite hex_decode_string. by apply succeeds_ret.
Qed.

Lemma BuildServerConfig_healthy id s role w :
  healthy w -> servers (w_db w) !! id = Some s -> server_NetworkRole s = Some role ->
  succeeds (BuildServerConfig id) w.
Proof.
  intros Hw Hs Hr.
  apply succeeds_bind; [eapply succeeds_attempt; [by apply query_healthy | done]|].
  intros r w1 (r' & [= ->] & H)%attempt_inv Hw1. rewrite query_healthy in H by done. injection H as <- <-.
  unfold get_key. rewrite Hs, Hr. apply succeeds_bind; [by apply serverKeys_healthy|]. intros ks w2 _ Hw2.
  apply succeeds_bind; [destruct (String.eqb role "hub"); [by apply listGamemodes_healthy | by apply succeeds_ret]|].
  intros gs w3 _ Hw3. by apply succeeds_ret.
Qed.

(** The configuration commands of a server. *)
Definition mod_config (id : uuid) (c : NodeCommand) : bool :=
  bool_decide (ncmd_ServerID c = Some id) && String.eqb (ncmd_CommandType c) "write_mod_config".

(** The last configuration command of the server [id] waits to be picked up
    by its node and carries the configuration the database calls for; none
    that was delivered is left. *)
Definition config_queued (d : DB) (id : uuid) : Prop :=
  exists sec s role text c, network_settings d = Some sec /\ servers d !! id = Some s
    /\ server_NetworkRole s = Some role /\ json_marshal (config_of sec d id s role) = Some text
    /\ last (List.filter (mod_config id) (node_commands d)) = Some c
    /\ ncmd_NodeID c = server_NodeID s /\ ncmd_Status c = "pending"
    /\ ncmd_Payload c = [("data_path", server_DataPath s); ("config", text)]
    /\ forallb (fun c => negb (delivered id c)) (List.filter (mod_config id) (node_commands d)) = true.

Lemma config_of_ext sec d d' id s role :
  servers d' = servers d -> nodes d' = nodes d -> config_of sec d' id s role = config_of sec d id s role.
Proof. intros Hs Hn. unfold config_of, gamemode_rows. by rewrite Hs, Hn. Qed.

(** What the database keeps while configurations are handed out. *)
Definition same_network (d d' : DB) : Prop :=
  servers d' = servers d /\ nodes d' = nodes d
  /\ (is_Some (network_settings d) -> network_settings d' = network_settings d).

Lemma config_queued_frame d d' id :
  same_network d d' ->
  List.filter (mod_config id) (node_commands d') = List.filter (mod_config id) (node_commands d) ->
  config_queued d id -> config_queued d' id.
Proof.
  intros (Hs & Hn & Hk) Hf (sec & s & role & text & c & Hsec & Hid & Hr & Ht & Hl & Hrest).
  exists sec, s, role, text, c. rewrite Hs, Hf, (config_of_ext sec d) by done.
  rewrite Hk by (by rewrite Hsec). done.
Qed.

Lemma delivered_mod_config id c : delivered id c = true -> mod_config id c = true.
Proof. unfold delivered, mod_config. by intros [-> _]%andb_true_iff. Qed.

Lemma filter_other_config id id' l :
  id' <> id ->
  List.filter (mod_config id) (List.filter (fun c => negb (delivered id' c)) l) = List.filter (mod_config id) l.
Proof.
  intros Hne. induction l as [|c l IH]; simpl; [done|].
  destruct (delivered id' c) eqn:E; simpl; [|by rewrite IH].
  apply delivered_mod_config in E. unfold mod_config in *. apply andb_true_iff in E as [E _]. breflect.
  rewrite bool_decide_eq_false_2 by congruence. simpl. done.
Qed.

Lemma DistributeConfig_healthy id s role w :
  healthy w -> servers (w_db w) !! id = Some s -> server_NetworkRole s = Some role ->
  is_Some (nodes (w_db w) !! server_NodeID s) -> (forall cfg, is_Some (json_marshal cfg)) ->
  exists w' cid t sec text, DistributeConfig id w = (Ok tt, w') /\ healthy w'
    /\ same_network (w_db w) (w_db w') /\ network_settings (w_db w') = Some sec
    /\ json_marshal (config_of sec (w_db w) id s role) = Some text
    /\ node_commands (w_db w') = List.filter (fun c => negb (delivered id c)) (node_commands (w_db w))
         ++ [mkNodeCommand cid (server_NodeID s) (Some id) "write_mod_config"
               [("data_path", server_DataPath s); ("config", text)] "pending" t None].
Proof.
  intros Hw Hs Hr Hn Hj. destruct (BuildServerConfig_healthy id s role w Hw Hs Hr) as (cfg & w1 & Hb & Hw1).
  pose proof Hb as (sec & s' & role' & (Hsec & Hk) & Hs' & Hr' & ->)%BuildServerConfig_inv. simplify_eq.
  assert (Hd : servers (w_db w1) = servers (w_db w) /\ nodes (w_db w1) = nodes (w_db w)
               /\ node_commands (w_db w1) = node_commands (w_db w))
    by (destruct Hk as [[_ ->]|(_ & _ & ->)]; done).
  destruct Hd as (Hd1 & Hd2 & Hd3). destruct (Hj (config_of sec (w_db w) id s role)) as [text Ht].
  unfold DistributeConfig. rewrite (bind_run _ _ _ _ _ Hb). cbv beta iota.
  erewrite bind_run by (apply wrap_run_ok; rewrite query_healthy by done; unfold get_key; by rewrite Hd1, Hs).
  cbv beta iota. erewrite bind_run by (apply wrap_run_ok, exec_healthy_ok; [done | reflexivity]).
  cbv beta iota. rewrite Ht. unfold enqueue_config. eexists _, _, _, sec, text. split; [|split].
  - apply wrap_run_ok. erewrite bind_run by reflexivity. cbv beta iota. erewrite bind_run by reflexivity.
    cbv beta iota. apply exec_healthy_ok; [done|]. unfold enqueue_node_command. simpl. rewrite Hd1, Hd2.
    rewrite bool_decide_eq_false_2 by (destruct Hn as [? ->]; done).
    rewrite bool_decide_eq_false_2 by (by rewrite Hs). reflexivity.
  - done.
  - simpl. rewrite Hd3. split_and!; try done. split_and!; try done. simpl. rewrite Hsec.
    intros [sec0 Hsec0]. destruct Hk as [[Hk _]|(Hk & _)]; rewrite Hk in *; done.
Qed.

Lemma distributed_queued id s role sec text cid t d d' :
  servers d !! id = Some s -> server_NetworkRole s = Some role -> same_network d d' ->
  network_settings d' = Some sec -> json_marshal (config_of sec d id s role) = Some text ->
  node_commands d' = List.filter (fun c => negb (delivered id c)) (node_commands d)
    ++ [mkNodeCommand cid (server_NodeID s) (Some id) "write_mod_config"
          [("data_path", server_DataPath s); ("config", text)] "pending" t None] ->
  config_queued d' id.
Proof.
  intros Hs Hr (Hsv & Hn & _) Hsec Ht Hc.
  set (c := mkNodeCommand cid _ _ _ _ _ _ _) in Hc.
  assert (Hm : mod_config id c = true) by (unfold mod_config; simpl; by rewrite bool_decide_eq_true_2).
  exists sec, s, role, text, c. rewrite Hsv, (config_of_ext sec d) by done.
  rewrite Hc, List.filter_app. simpl. rewrite Hm. split_and!; try done; [by rewrite last_snoc|].
  rewrite forallb_app. apply andb_true_iff. split.
  - apply forallb_elem. intros c' Hc'. rewrite list_elem_of_In, filter_In in Hc'. destruct Hc' as [Hc' _].
    apply filter_In in Hc' as [_ Hc']. exact Hc'.
  - simpl. unfold delivered. simpl. by rewrite andb_false_r.
Qed.

Lemma same_network_trans d1 d2 d3 : same_network d1 d2 -> same_network d2 d3 -> same_network d1 d3.
Proof.
  intros (A1 & B1 & C1) (A2 & B2 & C2). split_and!; [congruence..|]. intros H. rewrite C2; [by apply C1|].
  by rewrite C1.
Qed.

Lemma distribute_loop_healthy ids w :
  healthy w -> (forall cfg, is_Some (json_marshal cfg)) ->
  (forall id s, servers (w_db w) !! id = Some s -> is_Some (nodes (w_db w) !! server_NodeID s)) ->
  Forall (fun id => exists s, servers (w_db w) !! id = Some s /\ networked s = true) ids ->
  exists w', distribute_loop ids w = (Ok tt, w') /\ healthy w' /\ same_network (w_db w) (w_db w')
    /\ (forall id, id ∈ ids -> config_queued (w_db w') id)
    /\ (forall id, id ∉ ids -> List.filter (mod_config id) (node_commands (w_db w'))
                              = List.filter (mod_config id) (node_commands (w_db w))).
Proof.
  intros Hw Hj. revert w Hw. induction ids as [|id ids IH]; intros w Hw Hn Hids.
  { exists w. split_and!; try done. intros id Hid. by apply not_elem_of_nil in Hid. }
  apply Forall_cons in Hids as [(s & Hs & Hnet) Hids].
  destruct (server_NetworkRole s) as [role|] eqn:Hr; [|unfold networked in Hnet; by rewrite Hr in Hnet].
  destruct (DistributeConfig_healthy id s role w Hw Hs Hr (Hn _ _ Hs) Hj)
    as (w1 & cid & t & sec & text & H1 & Hw1 & Hsame & Hsec & Ht & Hc).
  pose proof (distributed_queued _ _ _ _ _ _ _ _ _ Hs Hr Hsame Hsec Ht Hc) as Hq.
  destruct Hsame as (A & B & C).
  destruct (IH w1 Hw1) as (w' & H' & Hw' & Hsame' & Hq' & Hf'); [by rewrite A, B | by rewrite A|].
  exists w'. simpl. unfold ignore. erewrite bind_run.
  2:{ erewrite bind_run by (apply attempt_run; exact H1). reflexivity. }
  assert (Hf : forall id', id' <> id -> List.filter (mod_config id') (node_commands (w_db w1))
                                    = List.filter (mod_config id') (node_commands (w_db w))).
  { intros id' Hne. rewrite Hc, List.filter_app, filter_other_config by done. simpl.
    unfold mod_config at 2. simpl. rewrite bool_decide_eq_false_2 by congruence. apply app_nil_r. }
  split_and!; [done | done | by eapply same_network_trans | |].
  - intros id' Hin. destruct (decide (id' ∈ ids)) as [Hin'|Hnin]; [by apply Hq'|].
    apply elem_of_cons in Hin as [->|]; [|done].
    eapply config_queued_frame; [exact Hsame' | by apply Hf' | done].
  - intros id' [Hne Hnin]%not_elem_of_cons. by rewrite Hf', Hf.
Qed.

Lemma DistributeAll_healthy w :
  healthy w -> (forall cfg, is_Some (json_marshal cfg)) ->
  (forall id s, servers (w_db w) !! id = Some s -> is_Some (nodes (w_db w) !! server_NodeID s)) ->
  exists w', DistributeAll w = (Ok tt, w') /\ same_network (w_db w) (w_db w')
    /\ (forall id s, servers (w_db w) !! id = Some s ->
          if networked s then config_queued (w_db w') id
          else List.filter (mod_config id) (node_commands (w_db w'))
               = List.filter (mod_config id) (node_commands (w_db w))).
Proof.
  intros Hw Hj Hn. set (ids := map fst (List.filter (fun kv => networked (snd kv)) (map_to_list (servers (w_db w))))).
  assert (Hids : forall id, id ∈ ids <-> exists s, servers (w_db w) !! id = Some s /\ networked s = true).
  { intros id. unfold ids. rewrite list_elem_of_fmap. setoid_rewrite list_elem_of_In.
    setoid_rewrite filter_In. setoid_rewrite <- list_elem_of_In. split.
    - intros ([k s] & -> & Hin & Hk). apply elem_of_map_to_list in Hin. eauto.
    - intros (s & Hin & Hk). exists (id, s). split_and!; [done | by apply elem_of_map_to_list | done]. }
  destruct (distribute_loop_healthy ids w Hw Hj Hn) as (w' & H & Hw' & Hsame & Hq & Hf).
  { apply Forall_forall. intros id Hid. by apply Hids. }
  exists w'. split_and!; [|done|].
  - unfold DistributeAll. erewrite bind_run by (apply wrap_run_ok; by rewrite query_healthy). exact H.
  - intros id s Hs. destruct (networked s) eqn:E; [apply Hq, Hids; eauto|].
    apply Hf. rewrite Hids. intros (s' & Hs' & E'). simplify_eq. congruence.
Qed.
End distribution.

(** ** Theorems *)

Section network_theorems.
Context `{P : Platform} `{J : Json ModNetworkConfig}.

(** What requests do to the network, in any order and with any faults; the
    second half of [GetOrCreateSecrets] may run after another request stored
    a secret. *)
Inductive routing_step : World -> World -> Prop :=
| step_role id role w : routing_step w (snd (SetServerRole id role w))
| step_distribute w : routing_step w (snd (DistributeAll w))
| step_build id w : routing_step w (snd (BuildServerConfig id w))
| step_first_use e w : routing_step w (snd (finish_secrets (Err e) w)).

(** A stored secret is never replaced. *)
Definition secret_is (sec : string * option string) (d : DB) : Prop := network_settings d = Some sec.

Lemma insert_secret_keeps sec fresh : preserves (secret_is sec) (insert_secret fresh).
Proof.
  apply preserves_exec. intros d u d' Hd [= _ <-]. unfold secret_is in *. by rewrite Hd.
Qed.

Lemma finish_secrets_keeps sec first : preserves (secret_is sec) (finish_secrets first).
Proof.
  unfold finish_secrets, readSecrets. solve_preserves. apply insert_secret_keeps.
Qed.

Lemma BuildServerConfig_keeps sec id : preserves (secret_is sec) (BuildServerConfig id).
Proof.
  unfold BuildServerConfig, serverKeys, listGamemodes, GetOrCreateSecrets, readSecrets.
  solve_preserves; apply finish_secrets_keeps.
Qed.

Lemma DistributeConfig_keeps sec id : preserves (secret_is sec) (DistributeConfig id).
Proof.
  unfold DistributeConfig, prune_delivered, enqueue_config. solve_preserves; [apply BuildServerConfig_keeps| |];
    apply preserves_exec; intros d u d' Hd H; [by simplify_eq|].
  unfold enqueue_node_command in H. case_ifs; by simplify_eq.
Qed.

Lemma SetServerRole_keeps sec id role : preserves (secret_is sec) (SetServerRole id role).
Proof.
  unfold SetServerRole. solve_preserves; apply preserves_exec; intros d u d' Hd H;
    destruct (servers d !! id); by simplify_eq.
Qed.

Lemma DistributeAll_keeps sec : preserves (secret_is sec) DistributeAll.
Proof.
  unfold DistributeAll. solve_preserves.
  match goal with |- preserves _ (distribute_loop ?l) => induction l as [|id ids IH] end; simpl;
    solve_preserves; [apply DistributeConfig_keeps | done].
Qed.

Lemma routing_steps_keep sec w w' :
  rtc routing_step w w' -> secret_is sec (w_db w) -> secret_is sec (w_db w').
Proof.
  induction 1 as [w|w w1 w' Hstep _ IH]; [done|]. intros Hs. apply IH.
  destruct Hstep; [by apply SetServerRole_keeps | by apply DistributeAll_keeps
                  | by apply BuildServerConfig_keeps | by apply finish_secrets_keeps].
Qed.

(** C24. Tickets verify: after a hub got its configuration, and whatever
    requests run then with whatever faults, the key a gamemode is given first
    is the key the hub signs tickets for that gamemode with; and a gamemode's
    configuration holds keys derived for its own id only, and no other
    server's address or key. *)
Theorem tickets_verify (hub g : uuid) (cfg cfg' : ModNetworkConfig) (w w1 w2 w3 : World) :
  BuildServerConfig hub w = (Ok cfg, w1) -> rtc routing_step w1 w2 ->
  BuildServerConfig g w2 = (Ok cfg', w3) ->
  (forall gm, gm ∈ mnc_Gamemodes cfg -> mg_ServerID gm = g -> head (mnc_Secrets cfg') = Some (mg_Secret gm))
  /\ (forall k, k ∈ mnc_Secrets cfg' -> exists master, k = key_text g master)
  /\ (mnc_Role cfg' <> "hub" -> mnc_Gamemodes cfg' = []).
Proof.
  intros (sec & s & role & [Hsec _] & Hs & Hr & ->)%BuildServerConfig_inv Hsteps
    (sec' & s' & role' & [_ Hk] & Hs' & Hr' & ->)%BuildServerConfig_inv.
  apply (routing_steps_keep sec) in Hsteps; [|done].
  destruct Hk as [[Hk _]|(Hk & _)]; unfold secret_is in Hsteps; rewrite Hsteps in Hk; [|done].
  injection Hk as <-. split_and!.
  - intros gm Hgm <-. simpl in Hgm |- *. destruct (String.eqb role "hub"); [|by apply not_elem_of_nil in Hgm].
    apply list_elem_of_fmap in Hgm as (g0 & -> & _). done.
  - intros k (master & -> & _)%list_elem_of_fmap. eauto.
  - simpl. intros Hne%String.eqb_neq. by rewrite Hne.
Qed.

(** The role a request sets. *)
Definition role_value (role : string) : option string :=
  if String.eqb role "hub" || String.eqb role "gamemode" then Some role else None.

(** C25. A role change reaches the whole network: for a known role and server,
    with no fault, the handler answers 200, the server has that role and
    nothing else of the servers changed, and every server of the network has
    as its last configuration command one that waits at its node with the
    configuration the new state calls for, with the delivered ones removed;
    a server outside the network gets none. *)
Theorem role_change_distributed (idParam role : string) (sid : uuid) (s : Server) (w : World) :
  healthy w -> (forall cfg, is_Some (json_marshal cfg)) ->
  (forall id s, servers (w_db w) !! id = Some s -> is_Some (nodes (w_db w) !! server_NodeID s)) ->
  uuid_parse idParam = Some sid -> servers (w_db w) !! sid = Some s ->
  contains ["hub"; "gamemode"; "none"; ""] role = true ->
  exists w', SetServerRoleHandler idParam (Some role) w
      = (Ok (reply_message "role updated and config distributed"), w')
    /\ servers (w_db w') = <[sid := server_with_NetworkRole (role_value role) s]> (servers (w_db w))
    /\ (forall id s', servers (w_db w') !! id = Some s' ->
          if networked s' then config_queued (w_db w') id
          else List.filter (mod_config id) (node_commands (w_db w'))
               = List.filter (mod_config id) (node_commands (w_db w))).
Proof.
  intros Hw Hj Hn Hid Hs Hrole.
  set (d1 := with_servers (<[sid := server_with_NetworkRole (role_value role) s]> (servers (w_db w))) (w_db w)).
  assert (H1 : SetServerRole sid role w = (Ok tt, with_db d1 w)).
  { unfold SetServerRole, d1, role_value. apply contains_spec in Hrole.
    repeat (apply elem_of_cons in Hrole as [->|Hrole];
      [simpl; erewrite bind_run by (apply wrap_run_ok, exec_healthy_ok; [done | by rewrite Hs]); reflexivity|]).
    by apply not_elem_of_nil in Hrole. }
  destruct (DistributeAll_healthy (with_db d1 w)) as (w' & H2 & (Hsv & Hnd & _) & Hq); [done | done | |].
  { simpl. intros id s'. destruct (decide (id = sid)) as [->|Hne].
    - rewrite lookup_insert_eq. intros [= <-]. exact (Hn sid s Hs).
    - rewrite lookup_insert_ne by done. apply Hn. }
  exists w'. unfold SetServerRoleHandler. rewrite Hid.
  erewrite bind_run by (apply attempt_run; exact H1). cbv beta iota.
  erewrite bind_run by (apply attempt_run; exact H2). cbv beta iota.
  split_and!; [done | by rewrite Hsv|]. intros id s' Hs'. apply Hq. by rewrite <- Hsv.
Qed.
End network_theorems.

(** ** Witnesses *)

(** The text of a configuration as its role and keys. *)
Definition sample_config_json : Json ModNetworkConfig := {|
  json_marshal cfg := Some (Join (mnc_Role cfg :: mnc_Secrets cfg ++ map mg_Secret (mnc_Gamemodes cfg)) ",");
  json_unmarshal _ := None
|}.

(** A hub and a gamemode on one node. *)
Definition network_world : World :=
  with_db (with_nodes {[9%N := sample_node 9]}
    (with_servers {[4%N := server_with_NetworkRole (Some "hub") (sample_server 4 9 5);
                    7%N := server_with_NetworkRole (Some "gamemode") (sample_server 7 9 5)]} empty_db)) empty_world.

Lemma tickets_verify_witness :
  exists cfg cfg' w1 w2,
    @BuildServerConfig sample_platform 4 network_world = (Ok cfg, w1)
    /\ @BuildServerConfig sample_platform 7 w1 = (Ok cfg', w2)
    /\ length (mnc_Gamemodes cfg) = 1%nat
    /\ (forall gm, gm ∈ mnc_Gamemodes cfg -> mg_ServerID gm = 7%N -> head (mnc_Secrets cfg') = Some (mg_Secret gm)).
Proof.
  destruct (@BuildServerConfig sample_platform 4 network_world) as [[cfg|e] w1] eqn:E1;
    [|by apply (f_equal (fun x => is_ok (fst x))) in E1; vm_compute in E1].
  destruct (@BuildServerConfig sample_platform 7 w1) as [[cfg'|e] w2] eqn:E2.
  2:{ replace w1 with (snd (@BuildServerConfig sample_platform 4 network_world)) in E2 by (by rewrite E1).
      apply (f_equal (fun x => is_ok (fst x))) in E2. vm_compute in E2. done. }
  exists cfg, cfg', w1, w2. split_and!; [done | done | |].
  - apply (f_equal (fun x => match fst x with Ok c => length (mnc_Gamemodes c) | _ => 0%nat end)) in E1.
    vm_compute in E1. by symmetry.
  - apply (@tickets_verify sample_platform sample_config_json 4 7 cfg cfg' network_world w1 w1 w2 E1 (rtc_refl _ _) E2).
Defined.

Lemma role_change_distributed_witness :
  exists w', @SetServerRoleHandler sample_platform sample_config_json (to_text 7%N) (Some "none") network_world
    = (Ok (reply_message "role updated and config distributed"), w').
Proof.
  destruct (@role_change_distributed sample_platform sample_config_json (to_text 7%N) "none" 7
              (server_with_NetworkRole (Some "gamemode") (sample_server 7 9 5)) network_world)
    as (w' & H & _); [done | by intros cfg; eexists | | by vm_compute | by vm_compute | by vm_compute | by exists w'].
  intros id s Hs. simpl in Hs |- *.
  destruct (decide (id = 4%N)) as [->|H4]; [vm_compute in Hs; injection Hs as <-; by eexists|].
  destruct (decide (id = 7%N)) as [->|H7]; [vm_compute in Hs; injection Hs as <-; by eexists|].
  by rewrite lookup_insert_ne, lookup_singleton_ne in Hs.
Defined.

(** A server that is taken out of the network is told nothing: the
    configuration with its old role and keys stays where it is. *)
Example leaving_the_network_is_silent :
  let w1 := snd (@SetServerRoleHandler sample_platform sample_config_json (to_text 7%N) (Some "none") network_world) in
  length (List.filter (mod_config 4) (node_commands (w_db w1))) = 1%nat
  /\ List.filter (mod_config 7) (node_commands (w_db w1)) = [].
Proof. split; by vm_compute. Qed.
