(* ===== verification/Nodes.v ===== *)
(** * Nodes and their enrolment

    Models [services/node_service.go] (GetClusterStats is in [NodeHandlers]) and
    [services/enrollment_service.go]: registering and
    enrolling daemon nodes, what a daemon reports, its command queue, and
    changing and removing a node. *)

From stdpp Require Import base numbers list strings option gmap sets.
From Stdlib Require Import QArith_base.
From S2P Require Import Prelude GoStrings Store Roles Platform Auth AuthTheorems Players Net Middleware Servers.

Local Open Scope Z_scope.

Section nodes.
Context `{P : Platform}.

Definition validateNodeAddress (fqdn : string) (port : Z) (publicAddress : string) : res error unit :=
  match ValidateNodeHost fqdn with
  | Err _ => Err (ErrWrap "fqdn must be a hostname or IP address" ErrInvalidNodeAddress)
  | Ok _ =>
    match ValidateNodePort port with
    | Err _ => Err (ErrWrap "port must be between 1 and 65535" ErrInvalidNodeAddress)
    | Ok _ =>
      if negb (String.eqb publicAddress "") then
        match ValidateNodeHost publicAddress with
        | Err _ => Err (ErrWrap "public_address must be a hostname or IP address" ErrInvalidNodeAddress)
        | Ok _ => Ok tt
        end
      else Ok tt
    end
  end.

Record RegisterNodeRequest := mkRegisterNodeRequest {
  rnr_Name : string;
  rnr_FQDN : string;
  rnr_Port : Z;
  rnr_Location : string;
  rnr_CertThumbprint : string;
  rnr_TotalCPU : Z;
  rnr_TotalRAMMB : Z;
  rnr_TotalDiskMB : Z;
  rnr_MaxServers : Z
}.

(** models.NodeHeartbeatRequest, without the Metrics blob and the NodeToken,
    which the service does not read. *)
Record NodeHeartbeatRequest := mkNodeHeartbeatRequest {
  hb_Status : string;
  hb_CPUPercent : Q;
  hb_RAMUsedMB : Z;
  hb_DiskUsedMB : Z;
  hb_MTLSReady : bool;
  hb_CertSerial : string;
  hb_CertNotAfter : option Z
}.

(** ** The table *)

Definition node_statuses : list string := ["online"; "offline"; "draining"].

Definition int8 (z : Z) : bool := (int64_min <=? z) && (z <=? int64_max).

Definition node_checks (n : Node) : res error unit :=
  if negb (in_range 1 100 (RuneCount (node_Name n))) then Err (ErrConstraint "name_length")
  else if negb (in_range 1 65535 (node_Port n)) then Err (ErrConstraint "port_range")
  else if negb (0 <? node_MaxServers n) then Err (ErrConstraint "max_servers_positive")
  else if negb (int4 (node_TotalCPU n) && int8 (node_TotalRAMMB n) && int8 (node_TotalDiskMB n)
                && int4 (node_MaxServers n))
  then Err (ErrConstraint "integer out of range")
  else if negb (contains node_statuses (node_Status n)) then Err (ErrConstraint "node_status")
  else Ok tt.

Definition insert_node (n : Node) (d : DB) : res error (unit * DB) :=
  match node_checks n with
  | Err e => Err e
  | Ok _ =>
    if exists_row (nodes d) (fun n' => String.eqb (node_TokenHash n') (node_TokenHash n))
    then Err (ErrConstraint "nodes_token_hash_key")
    else match insert_row (node_ID n) n (nodes d) with
         | Ok t => Ok (tt, with_nodes t d)
         | Err e => Err e
         end
  end.

(** [UPDATE nodes SET ... WHERE id = $n]: the number of rows. *)
Definition update_node (id : uuid) (f : Node -> Node) (d : DB) : res error (Z * DB) :=
  match nodes d !! id with
  | None => Ok (0, d)
  | Some n =>
    match node_checks (f n) with
    | Err e => Err e
    | Ok _ => Ok (1, with_nodes (<[id := f n]> (nodes d)) d)
    end
  end.

(** ** Reading *)

(** [ORDER BY name], in byte order. *)
Definition name_asc (a b : Node) : bool := String.leb (node_Name a) (node_Name b).

(** The columns of the queries: everything but the token hash. *)
Definition scan_node (n : Node) : Node :=
  mkNode (node_ID n) (node_Name n) (node_FQDN n) (node_PublicAddress n) (node_Port n) (node_Location n)
    (node_CertThumbprint n) (node_TotalCPU n) (node_TotalRAMMB n) (node_TotalDiskMB n) (node_MaxServers n)
    (node_Status n) (node_LastHeartbeat n) (node_CreatedAt n) (node_Metadata n) (node_MTLSEnabled n)
    (node_CertSerial n) (node_CertNotAfter n) "".

Definition ListNodes : M (list Node) :=
  wrap "querying nodes" (query (fun d =>
    Ok (map scan_node (order_by name_asc (rows (nodes d) (fun _ => true)))))).

Definition GetNode (nodeID : uuid) : M Node :=
  let* r := attempt (query (fun d => get_key (nodes d) nodeID)) in
  match r with
  | Ok n => ret (scan_node n)
  | Err e => if error_Is e ErrNoRows then fail ErrNodeNotFound else fail (ErrWrap "fetching node" e)
  end.

(** ** Registration *)

(** 32 random bytes in hex and their hash. *)
Definition generateNodeToken : M (string * string) :=
  let* plain := rand_hex 32 in ret (plain, hashToken plain).

Definition RegisterNode (req : RegisterNodeRequest) : M (Node * string) :=
  match validateNodeAddress (rnr_FQDN req) (rnr_Port req) "" with
  | Err e => fail e
  | Ok _ =>
    let* (plainToken, tokenHash) := generateNodeToken in
    let* id := new_uuid in
    let* t := now in
    let n := mkNode id (rnr_Name req) (rnr_FQDN req) None (rnr_Port req) (Some (rnr_Location req))
               (Some (rnr_CertThumbprint req)) (rnr_TotalCPU req) (rnr_TotalRAMMB req)
               (rnr_TotalDiskMB req) (rnr_MaxServers req) "offline" None t "{}" false None None tokenHash in
    run* wrap "inserting node" (exec (insert_node n)) in
    ret (scan_node n, plainToken)
  end.

(** ** What a daemon reports *)

Definition DaemonSelfRegister (nodeID : uuid) (cpu ram disk : Z) : M unit :=
  let* t := now in
  let* _ := wrap "daemon self-register" (exec (update_node nodeID (fun n =>
    node_with_TotalCPU cpu (node_with_TotalRAMMB ram (node_with_TotalDiskMB disk
      (node_with_Status "online" (node_with_LastHeartbeat (Some t) n))))))) in
  run* wrap "daemon self-register: reset server statuses" (exec (fun d =>
    Ok (tt, with_servers (update_where (server_with_Status "stopped")
              (fun s => (server_NodeID s =? nodeID)%N && negb (String.eqb (server_Status s) "stopped"))
              (servers d)) d))) in
  wrap "daemon self-register: close player sessions" (closeOpenSessions (fun d s =>
    match players d !! psession_PlayerID s with
    | Some p => match servers d !! player_ServerID p with
                | Some sv => (server_NodeID sv =? nodeID)%N
                | None => false
                end
    | None => false
    end)).

(** [COALESCE($4 AND cert_serial = NULLIF($5, ''), false)]. *)
Definition serial_matches (req : NodeHeartbeatRequest) (n : Node) : bool :=
  hb_MTLSReady req && negb (String.eqb (hb_CertSerial req) "")
  && bool_decide (node_CertSerial n = Some (hb_CertSerial req)).

Definition UpdateNodeHeartbeat (nodeID : uuid) (req : NodeHeartbeatRequest) : M bool :=
  let status := if String.eqb (hb_Status req) "" then "online" else hb_Status req in
  let* t := now in
  let* r := attempt (exec (fun d =>
    match nodes d !! nodeID with
    | None => Err ErrNoRows
    | Some n =>
      let ok := serial_matches req n in
      let n' := node_with_Status status (node_with_LastHeartbeat (Some t)
                  (node_with_MTLSEnabled (node_MTLSEnabled n || ok)
                     (if ok then node_with_CertNotAfter (hb_CertNotAfter req) n else n))) in
      match node_checks n' with
      | Err e => Err e
      | Ok _ => Ok (ok, with_nodes (<[nodeID := n']> (nodes d)) d)
      end
    end)) in
  match r with
  | Err e => if error_Is e ErrNoRows then fail ErrNodeNotFound
             else fail (ErrWrap "updating node heartbeat" e)
  | Ok accepted => ret (hb_MTLSReady req && negb accepted)
  end.

Definition SetNodeStatus (nodeID : uuid) (status : string) : M unit :=
  let* n := wrap "setting node status" (exec (update_node nodeID (node_with_Status status))) in
  if n =? 0 then fail ErrNodeNotFound else ret tt.

Definition RecordHeartbeatMetrics (nodeID : uuid) (req : NodeHeartbeatRequest) : M unit :=
  let* t := now in
  wrap "recording heartbeat metrics" (exec (fun d =>
    if bool_decide (nodes d !! nodeID = None) then Err (ErrConstraint "node_metrics_node_id_fkey")
    else Ok (tt, with_node_metrics (node_metrics d ++
           [mkNodeMetric nodeID t (hb_CPUPercent req) (hb_RAMUsedMB req) (hb_DiskUsedMB req)
              (Z.of_nat (active_on d nodeID))]) d))).

Definition GetNodeMetrics (nodeID : uuid) (hours : Z) : M (list NodeMetric) :=
  let* t := now in
  wrap "querying node metrics" (query (fun d =>
    Ok (order_by (fun a b => metric_SampledAt a <=? metric_SampledAt b)
          (List.filter (fun m => (metric_NodeID m =? nodeID)%N
                          && (t - hours * 3600 * second <? metric_SampledAt m)) (node_metrics d))))).

(** ** Removal *)

(** [DELETE FROM nodes]: refused while a server refers to the node. *)
Definition delete_node (id : uuid) (d : DB) : res error (Z * DB) :=
  if bool_decide (nodes d !! id = None) then Ok (0, d)
  else if exists_row (servers d) (fun s => (server_NodeID s =? id)%N)
  then Err (ErrConstraint "servers_node_id_fkey")
  else Ok (1,
    with_nodes (delete id (nodes d))
   (with_node_commands (List.filter (fun c => negb (ncmd_NodeID c =? id)%N) (node_commands d))
   (with_node_metrics (List.filter (fun m => negb (metric_NodeID m =? id)%N) (node_metrics d))
   (with_node_enrollments (update_where (enrollment_with_NodeID None)
      (fun e => bool_decide (enrollment_NodeID e = Some id)) (node_enrollments d))
   (with_alert_events (update_where (event_with_NodeID None)
      (fun e => bool_decide (event_NodeID e = Some id)) (alert_events d)) d))))).

Definition DeleteNode (nodeID : uuid) : M unit :=
  let* activeCount := wrap "checking active servers" (query (fun d => Ok (active_on d nodeID))) in
  if (0 <? activeCount)%nat
  then fail (ErrNew "node still has active server(s); stop them before deleting the node")
  else
    let* n := wrap "deleting node" (exec (delete_node nodeID)) in
    if n =? 0 then fail ErrNodeNotFound else ret tt.

(** ** The command queue *)

Definition GetPendingCommands (nodeID : uuid) : M (list NodeCommand) :=
  wrap "querying pending commands" (query (fun d =>
    Ok (order_by (fun a b => ncmd_CreatedAt a <=? ncmd_CreatedAt b)
          (List.filter (fun c => (ncmd_NodeID c =? nodeID)%N && String.eqb (ncmd_Status c) "pending")
             (node_commands d))))).

Definition pending_command (nodeID commandID : uuid) (c : NodeCommand) : bool :=
  (ncmd_ID c =? commandID)%N && (ncmd_NodeID c =? nodeID)%N && String.eqb (ncmd_Status c) "pending".

Definition AckCommand (nodeID commandID : uuid) (success : bool) : M unit :=
  let status := if success then "acked" else "failed" in
  let* t := now in
  let* n := wrap "acking command" (exec (fun d =>
    Ok (length (List.filter (pending_command nodeID commandID) (node_commands d)),
        with_node_commands (map (fun c => if pending_command nodeID commandID c
                                          then ncmd_with_Status status (ncmd_with_AckedAt (Some t) c)
                                          else c) (node_commands d)) d))) in
  if (n =? 0)%nat then fail (ErrNew "command not found or already acked") else ret tt.

(** ** UpdateNode *)

Record UpdateNodeRequest := mkUpdateNodeRequest {
  unr_Name : option string;
  unr_Location : option string;
  unr_MaxServers : option Z;
  unr_PublicAddress : option string
}.

Definition apply_node (req : UpdateNodeRequest) (n : Node) : Node :=
  let n := match unr_Name req with Some v => node_with_Name v n | None => n end in
  let n := match unr_Location req with Some v => node_with_Location (Some v) n | None => n end in
  let n := match unr_MaxServers req with Some v => node_with_MaxServers v n | None => n end in
  match unr_PublicAddress req with
  | Some v => node_with_PublicAddress (if String.eqb v "" then None else Some v) n
  | None => n
  end.

Definition UpdateNode (nodeID : uuid) (req : UpdateNodeRequest) : M Node :=
  if is_none (unr_Name req) && is_none (unr_Location req) && is_none (unr_MaxServers req)
     && is_none (unr_PublicAddress req)
  then GetNode nodeID
  else match unr_PublicAddress req with
  | Some a =>
    if negb (String.eqb a "") && negb (is_ok (ValidateNodeHost a))
    then fail (ErrWrap "public_address must be a hostname or IP address" ErrInvalidNodeAddress)
    else run* wrap "updating node" (exec (update_node nodeID (apply_node req))) in GetNode nodeID
  | None => run* wrap "updating node" (exec (update_node nodeID (apply_node req))) in GetNode nodeID
  end.

(** ** enrollment_service.go *)

Definition ErrEnrollmentNotFound : error := ErrNew "enrollment not found or already redeemed".
Definition ErrEnrollmentExpired : error := ErrNew "enrollment token expired".

Record CreateEnrollmentRequest := mkCreateEnrollmentRequest {
  cer_NodeName : string;
  cer_TotalCPU : Z;
  cer_TotalRAMMB : Z;
  cer_TotalDiskMB : Z;
  cer_MaxServers : Z;
  cer_CreatedBy : uuid;
  cer_TTL : Z
}.

Record RedeemPayload := mkRedeemPayload {
  rp_FQDN : string;
  rp_Port : Z;
  rp_PublicAddress : string
}.

Definition nullableInt (v : Z) : option Z := if v =? 0 then None else Some v.

Definition fits_int4 (v : option Z) : bool := match v with Some z => int4 z | None => true end.

(** [INSERT INTO node_enrollments], with the constraints. *)
Definition insert_enrollment (e : Enrollment) (d : DB) : res error (unit * DB) :=
  if negb (fits_int4 (enrollment_TotalCPU e) && fits_int4 (enrollment_TotalRAMMB e)
           && fits_int4 (enrollment_TotalDiskMB e) && int4 (enrollment_MaxServers e))
  then Err (ErrConstraint "integer out of range")
  else if match enrollment_CreatedBy e with
          | Some u => bool_decide (users d !! u = None)
          | None => false
          end
  then Err (ErrConstraint "node_enrollments_created_by_fkey")
  else if exists_row (node_enrollments d)
            (fun e' => String.eqb (enrollment_TokenHash e') (enrollment_TokenHash e))
  then Err (ErrConstraint "node_enrollments_token_hash_key")
  else match insert_row (enrollment_ID e) e (node_enrollments d) with
       | Ok t => Ok (tt, with_node_enrollments t d)
       | Err x => Err x
       end.

(** The returned enrollment leaves the totals empty, as the code does. *)
Definition Create (req : CreateEnrollmentRequest) : M (Enrollment * string) :=
  if String.eqb (cer_NodeName req) "" then fail (ErrNew "node_name is required")
  else
    let maxServers := if cer_MaxServers req <=? 0 then 10 else cer_MaxServers req in
    let ttl := if cer_TTL req =? 0 then 15 * 60 * second else cer_TTL req in
    let* plain := rand_hex 32 in
    let* id := new_uuid in
    let* t := now in
    let by_ := if (cer_CreatedBy req =? uuid_Nil)%N then None else Some (cer_CreatedBy req) in
    let row cpu ram disk := mkEnrollment id (hashToken plain) (cer_NodeName req) cpu ram disk
                              maxServers by_ t (t + ttl) None None in
    run* wrap "insert enrollment" (exec (insert_enrollment
      (row (nullableInt (cer_TotalCPU req)) (nullableInt (cer_TotalRAMMB req))
           (nullableInt (cer_TotalDiskMB req))))) in
    ret (row None None None, plain).

(** The node a token stands for. *)
Definition enrolled_node (id : uuid) (enr : Enrollment) (p : RedeemPayload) (t : Z) (tokenHash : string) : Node :=
  mkNode id (enrollment_NodeName enr) (rp_FQDN p)
    (if String.eqb (rp_PublicAddress p) "" then None else Some (rp_PublicAddress p)) (rp_Port p) None None
    (default 0 (enrollment_TotalCPU enr)) (default 0 (enrollment_TotalRAMMB enr))
    (default 0 (enrollment_TotalDiskMB enr)) (enrollment_MaxServers enr) "offline" None t "{}" false None None
    tokenHash.

(** What Redeem answers: the fields it has set, zero values elsewhere. *)
Definition answer_node (n : Node) : Node :=
  mkNode (node_ID n) (node_Name n) (node_FQDN n) (node_PublicAddress n) (node_Port n) None None
    (node_TotalCPU n) (node_TotalRAMMB n) (node_TotalDiskMB n) (node_MaxServers n) (node_Status n) None
    0 "" false None None "".

Definition use_enrollment (id node : uuid) (t : Z) (d : DB) : DB :=
  with_node_enrollments (alter (fun e => enrollment_with_UsedAt (Some t) (enrollment_with_NodeID (Some node) e))
    id (node_enrollments d)) d.

(** The transaction of Redeem: the row lock serialises the redemptions of one
    token. *)
Definition redeem_tx (tokenHash : string) (p : RedeemPayload) : M (Node * string) :=
  let* r := attempt (query (fun d =>
    find_key (node_enrollments d) (fun e => String.eqb (enrollment_TokenHash e) tokenHash))) in
  match r with
  | Err e => if error_Is e ErrNoRows then fail ErrEnrollmentNotFound
             else fail (ErrWrap "select enrollment" e)
  | Ok (id, enr) =>
    if negb (is_none (enrollment_UsedAt enr)) then fail ErrEnrollmentNotFound
    else
      let* t := now in
      if enrollment_ExpiresAt enr <? t then fail ErrEnrollmentExpired
      else
        let* plainNodeToken := rand_hex 32 in
        let* nodeID := new_uuid in
        let n := enrolled_node nodeID enr p t (hashToken plainNodeToken) in
        run* wrap "insert node" (exec (insert_node n)) in
        run* wrap "mark enrollment used" (exec (fun d => Ok (tt, use_enrollment id nodeID t d))) in
        ret (answer_node n, plainNodeToken)
  end.

Definition Redeem (plainToken : string) (p : RedeemPayload) : M (Node * string) :=
  if String.eqb (rp_FQDN p) "" || (rp_Port p =? 0)
  then fail (ErrWrap "fqdn and port are required" ErrInvalidNodeAddress)
  else match validateNodeAddress (rp_FQDN p) (rp_Port p) (rp_PublicAddress p) with
  | Err e => fail e
  | Ok _ => tx "begin" (ErrWrap "commit") (redeem_tx (hashToken plainToken) p)
  end.
End nodes.

(** ** Theorems: enrolment *)

Definition tokens_unique (d : DB) : Prop :=
  forall i j e e', node_enrollments d !! i = Some e -> node_enrollments d !! j = Some e' ->
    enrollment_TokenHash e = enrollment_TokenHash e' -> i = j.

(** The token with hash [h] has been redeemed. *)
Definition spent (h : string) (d : DB) : Prop :=
  tokens_unique d /\ exists id e, node_enrollments d !! id = Some e
    /\ enrollment_TokenHash e = h /\ enrollment_UsedAt e <> None.

Section enrolment.
Context `{P : Platform}.

Lemma insert_node_ok n d d' :
  insert_node n d = Ok (tt, d') ->
  d' = with_nodes (<[node_ID n := n]> (nodes d)) d /\ nodes d !! node_ID n = None
  /\ (forall i n', nodes d !! i = Some n' -> node_TokenHash n' <> node_TokenHash n) /\ node_checks n = Ok tt.
Proof.
  unfold insert_node. destruct (node_checks n) as [[]|e] eqn:Hc; [|done].
  destruct (exists_row _ _) eqn:Hx; [done|]. destruct (insert_row _ _ _) as [t|e] eqn:Hi; [|done].
  intros [= <-]. apply insert_row_ok in Hi as [Hn ->]. split_and!; [done | done | | done].
  intros i n' Hi. rewrite exists_row_false in Hx. apply String.eqb_neq, (Hx i n' Hi).
Qed.

Lemma rand_hex_nonempty w s w' : rand_hex 32 w = (Ok s, w') -> s <> "".
Proof.
  intros (n & w1 & _ & [Hs _]%ret_inv)%bind_ok E. rewrite E in Hs.
  assert (Hl : String.length (hex_bytes 32 (Z.of_N n)) = 0%nat).
  { generalize (hex_bytes 32 (Z.of_N n)), Hs. intros x [= <-]. done. }
  rewrite hex_bytes_length in Hl. done.
Qed.

Lemma redeem_tx_ok h p w n tok w' :
  redeem_tx h p w = (Ok (n, tok), w') ->
  exists id enr nodeID,
    node_enrollments (w_db w) !! id = Some enr /\ enrollment_TokenHash enr = h
    /\ enrollment_UsedAt enr = None /\ w_now w <= enrollment_ExpiresAt enr
    /\ let row := enrolled_node nodeID enr p (w_now w) (hashToken tok) in
       n = answer_node row /\ nodes (w_db w) !! nodeID = None /\ node_checks row = Ok tt
       /\ (forall i n', nodes (w_db w) !! i = Some n' -> node_TokenHash n' <> hashToken tok)
       /\ w_db w' = use_enrollment id nodeID (w_now w)
                      (with_nodes (<[nodeID := row]> (nodes (w_db w))) (w_db w))
       /\ tok <> "".
Proof.
  unfold redeem_tx. intros (r & w1 & (r' & [= ->] & H1)%attempt_inv & H)%bind_ok. cbv beta in H.
  pose proof H1 as Hq. apply query_inv in Hq as (Hd1 & Hn1 & _).
  destruct r' as [[id enr]|e]; [|by destruct (error_Is _ _); inv_run].
  apply query_ok in H1 as [[Hid Hh]%find_key_ok _].
  destruct (enrollment_UsedAt enr) eqn:Hu; cbn [is_none negb] in H; [by inv_run|].
  apply bind_ok in H as (t & w2 & [[= ->] ->]%now_inv & H). cbv beta in H.
  destruct (enrollment_ExpiresAt enr <? w_now w1) eqn:He; [by inv_run|].
  apply bind_ok in H as (plain & w3 & H3 & H). pose proof (rand_hex_nonempty _ _ _ H3) as Hplain.
  apply rand_hex_inv in H3 as [Hd3 Hn3].
  apply bind_ok in H as (nodeID & w4 & (_ & Hd4 & _)%rand_inv & H). cbv beta zeta in H.
  apply bind_ok in H as ([] & w5 & Hi%wrap_ok%exec_ok%insert_node_ok & H). cbv beta in H.
  apply bind_ok in H as ([] & w6 & Hx%wrap_ok%exec_ok & [Hr ->]%ret_inv). injection Hx as Hx.
  injection Hr as -> ->. rewrite Hd4, Hd3, Hd1, Hn1 in *. destruct Hi as (Hd5 & Hnone & Huniq & Hc).
  exists id, enr, nodeID. breflect. cbn [node_ID enrolled_node] in *.
  split_and!; [done | done | done | lia | done | done | done | exact Huniq | congruence | done].
Qed.

Lemma Redeem_ok tok p w n tok' w' :
  Redeem tok p w = (Ok (n, tok'), w') ->
  validateNodeAddress (rp_FQDN p) (rp_Port p) (rp_PublicAddress p) = Ok tt
  /\ exists w0 w1, redeem_tx (hashToken tok) p w0 = (Ok (n, tok'), w1) /\ w_db w0 = w_db w
       /\ w_now w0 = w_now w /\ w_db w' = w_db w1.
Proof.
  unfold Redeem. destruct (_ || _); [by intros; inv_run|].
  destruct (validateNodeAddress _ _ _) as [[]|e]; [|by intros; inv_run].
  intros [(a & [= <-] & w0 & w1 & H)|(e & ? & _)]%tx_inv; [|done]. split; [done|]. by exists w0, w1.
Qed.

Lemma Redeem_err tok p w e w' : Redeem tok p w = (Err e, w') -> w_db w' = w_db w.
Proof.
  unfold Redeem. destruct (_ || _); [by intros [_ ->]%fail_inv|].
  destruct (validateNodeAddress _ _ _) as [[]|e']; [|by intros [_ ->]%fail_inv].
  by intros [(a & ? & _)|(e' & _ & ?)]%tx_inv.
Qed.

Lemma use_enrollment_lookup id node t d i e :
  node_enrollments (use_enrollment id node t d) !! i = Some e ->
  exists e0, node_enrollments d !! i = Some e0 /\ enrollment_TokenHash e = enrollment_TokenHash e0
    /\ (enrollment_UsedAt e0 <> None -> enrollment_UsedAt e <> None).
Proof.
  unfold use_enrollment. cbn [node_enrollments with_node_enrollments]. intros H.
  destruct (decide (i = id)) as [-> | Hne].
  - rewrite lookup_alter_eq in H. apply fmap_Some in H as (e0 & H0 & ->). exists e0. done.
  - rewrite lookup_alter_ne in H by done. exists e. done.
Qed.

Lemma use_enrollment_has id node t d i e0 :
  node_enrollments d !! i = Some e0 ->
  exists e, node_enrollments (use_enrollment id node t d) !! i = Some e.
Proof.
  intros H. unfold use_enrollment. cbn [node_enrollments with_node_enrollments].
  destruct (decide (i = id)) as [-> | Hne]; [rewrite lookup_alter_eq, H; eauto|].
  rewrite lookup_alter_ne by done. eauto.
Qed.

Lemma use_enrollment_spent h id node t d : spent h d -> spent h (use_enrollment id node t d).
Proof.
  intros [Hu (j & e & Hj & Hh & Hused)]. split.
  - intros i k a b Ha Hb Hab. apply use_enrollment_lookup in Ha as (a0 & Ha & Eha & _).
    apply use_enrollment_lookup in Hb as (b0 & Hb & Ehb & _). eapply Hu; [exact Ha | exact Hb | congruence].
  - destruct (use_enrollment_has id node t d j e Hj) as [e1 He1]. exists j, e1.
    pose proof He1 as He2. apply use_enrollment_lookup in He2 as (e2 & He2 & Hh2 & Hu2).
    assert (e2 = e) as -> by congruence. split_and!; [done | congruence | auto].
Qed.

Lemma insert_enrollment_spent h e d d' :
  insert_enrollment e d = Ok (tt, d') -> spent h d -> spent h d'.
Proof.
  unfold insert_enrollment. destruct (negb _); [done|]. 
  destruct (match enrollment_CreatedBy e with Some u => bool_decide (users d !! u = None) | None => false end);
    [done|].
  destruct (exists_row _ _) eqn:Hx; [done|]. destruct (insert_row _ _ _) as [t|x] eqn:Hi; [|done].
  intros [= <-] [Hu (j & e0 & Hj & Hh & Hused)]. apply insert_row_ok in Hi as [Hn ->].
  rewrite exists_row_false in Hx.
  assert (Hne : forall i a, node_enrollments d !! i = Some a -> enrollment_TokenHash a <> enrollment_TokenHash e).
  { intros i a Ha. apply String.eqb_neq, (Hx i a Ha). }
  cbn [node_enrollments with_node_enrollments]. split.
  - intros i k a b. cbn [node_enrollments with_node_enrollments]. rewrite !lookup_insert_Some.
    intros [[<- <-]|[Hi Ha]] [[<- <-]|[Hk Hb]] Hab; [done | | |by eapply Hu].
    + by apply Hne in Hb.
    + by apply Hne in Ha.
  - exists j, e0. cbn [node_enrollments with_node_enrollments].
    rewrite lookup_insert_ne by (intros <-; congruence). done.
Qed.

Lemma Create_spent h req : preserves (spent h) (Create req).
Proof.
  unfold Create. destruct (String.eqb _ _); [apply preserves_fail|]. cbv zeta. solve_preserves.
  apply preserves_exec. intros d [] d' Hd Hi. by eapply insert_enrollment_spent.
Qed.

Lemma Redeem_spent h tok p : preserves (spent h) (Redeem tok p).
Proof.
  intros w Hw. destruct (Redeem tok p w) as [[[n tok']|e] w'] eqn:E; simpl.
  - apply Redeem_ok in E as (_ & w0 & w1 & H & Hd & _ & ->).
    apply redeem_tx_ok in H as (id & enr & nodeID & _ & _ & _ & _ & _ & _ & _ & _ & -> & _).
    apply use_enrollment_spent. rewrite Hd. exact Hw.
  - apply Redeem_err in E. by rewrite E.
Qed.

Lemma DeleteNode_spent h id : preserves (spent h) (DeleteNode id).
Proof.
  unfold DeleteNode. solve_preserves. apply preserves_exec. intros d n d' Hd H. unfold delete_node in H.
  destruct (bool_decide _); [by injection H as _ <-|]. destruct (exists_row _ _); [done|].
  injection H as _ <-. destruct Hd as [Hu (j & e & Hj & Hh & Hused)].
  assert (L : forall i e', update_where (enrollment_with_NodeID None)
      (fun e => bool_decide (enrollment_NodeID e = Some id)) (node_enrollments d) !! i = Some e' ->
    exists e0, node_enrollments d !! i = Some e0 /\ enrollment_TokenHash e' = enrollment_TokenHash e0
      /\ enrollment_UsedAt e' = enrollment_UsedAt e0).
  { intros i e'. rewrite lookup_update_where. intros (e0 & H0 & ->)%fmap_Some. exists e0.
    by destruct (bool_decide _). }
  split; cbn [node_enrollments with_nodes with_node_commands with_node_metrics with_node_enrollments].
  - intros i k ea eb (a0 & Ha & Eha & _)%L (b0 & Hb & Ehb & _)%L Hab. eapply Hu; [exact Ha | exact Hb | congruence].
  - eexists j, _. split; [rewrite lookup_update_where, Hj; reflexivity|]. by destruct (bool_decide _).
Qed.

(** A later moment of the installation: enrolments are created, redeemed and
    their nodes removed in any order, and time passes. *)
Inductive later : World -> World -> Prop :=
| later_refl w : later w w
| later_create w req w2 : later (snd (Create req w)) w2 -> later w w2
| later_redeem w tok p w2 : later (snd (Redeem tok p w)) w2 -> later w w2
| later_delete w id w2 : later (snd (DeleteNode id w)) w2 -> later w w2
| later_time w w1 w2 : w_db w1 = w_db w -> later w1 w2 -> later w w2.

Lemma later_spent h w w2 : later w w2 -> spent h (w_db w) -> spent h (w_db w2).
Proof.
  induction 1 as [w|w req w2 _ IH|w tok p w2 _ IH|w id w2 _ IH|w w1 w2 Hd _ IH]; intros Hw; [done | apply IH..].
  - by apply Create_spent.
  - by apply Redeem_spent.
  - by apply DeleteNode_spent.
  - by rewrite Hd.
Qed.

Lemma spent_refused tok p w : spent (hashToken tok) (w_db w) -> is_ok (fst (Redeem tok p w)) = false.
Proof.
  intros [Hu (j & e & Hj & Hh & Hused)]. destruct (Redeem tok p w) as [[[n t]|x] w'] eqn:E; [|done].
  apply Redeem_ok in E as (_ & w0 & w1 & H & Hd & _).
  apply redeem_tx_ok in H as (id & enr & nodeID & Hid & Hh' & Hnone & _). rewrite Hd in Hid.
  assert (id = j) as -> by (eapply Hu; [exact Hid | exact Hj | congruence]). congruence.
Qed.

(** The new node is the one its token authenticates. *)
Lemma node_token_authenticates tok id w :
  healthy w -> tok <> "" ->
  (exists row, nodes (w_db w) !! id = Some row /\ node_TokenHash row = hashToken tok) ->
  (forall i row, nodes (w_db w) !! i = Some row -> node_TokenHash row = hashToken tok -> i = id) ->
  DaemonNodeAuth ("Bearer " +:+ tok) w = (Ok (Pass id), w).
Proof.
  intros Hw Ht%String.eqb_neq (row & Hrow & Hh) Hu. unfold DaemonNodeAuth.
  assert (HasPrefix ("Bearer " +:+ tok) "Bearer " = true) as -> by (clear; by destruct tok).
  change (str_drop (String.length "Bearer ") ("Bearer " +:+ tok)) with tok. cbn [negb]. rewrite Ht.
  erewrite bind_run by (apply attempt_run, query_healthy; done). cbv beta iota.
  destruct (find_key (nodes (w_db w)) _) as [[i n]|e] eqn:E.
  - apply find_key_ok in E as [Hi Hn%String.eqb_eq]. by rewrite (Hu i n Hi Hn).
  - apply find_key_err in E as [_ E]. apply E in Hrow. rewrite Hh, String.eqb_refl in Hrow. done.
Qed.
End enrolment.

Section enrolment_theorems.
Context `{P : Platform}.

(** C9. Redeeming an enrolment token.  A redemption succeeds only for the token of
    an enrolment that is unused and not expired and with a valid address; it
    adds one node, with the limits of the enrolment and a fresh token whose
    hash is all that is stored, and that token authenticates exactly this
    node.  Afterwards the enrolment token is spent: whatever enrolments are
    created, redeemed or removed, it never redeems again.  A failed redemption
    changes nothing. *)
Theorem enrollment_single_use (tok : string) (p : RedeemPayload) (w w' : World)
    (r : res error (Node * string)) :
  Redeem tok p w = (r, w') ->
  match r with
  | Err _ => w_db w' = w_db w
  | Ok (n, nodeTok) =>
    validateNodeAddress (rp_FQDN p) (rp_Port p) (rp_PublicAddress p) = Ok tt
    /\ (exists id enr row, node_enrollments (w_db w) !! id = Some enr
          /\ enrollment_TokenHash enr = hashToken tok /\ enrollment_UsedAt enr = None
          /\ w_now w <= enrollment_ExpiresAt enr
          /\ nodes (w_db w) !! node_ID n = None
          /\ nodes (w_db w') = <[node_ID n := row]> (nodes (w_db w))
          /\ n = answer_node row /\ node_TokenHash row = hashToken nodeTok
          /\ node_MaxServers row = enrollment_MaxServers enr)
    /\ (healthy w' -> DaemonNodeAuth ("Bearer " +:+ nodeTok) w' = (Ok (Pass (node_ID n)), w'))
    /\ (tokens_unique (w_db w) -> forall w2 p2, later w' w2 -> is_ok (fst (Redeem tok p2 w2)) = false)
  end.
Proof.
  intros E. destruct r as [[n nodeTok]|e]; [|by eapply Redeem_err].
  apply Redeem_ok in E as (Hv & w0 & w1 & H & Hd & Hn & Hd').
  apply redeem_tx_ok in H as (id & enr & nodeID & Hid & Hh & Hu & He & -> & Hnone & Hc & Huniq & Hw1 & Hne).
  rewrite Hd, Hn in *. rewrite <- Hd' in Hw1.
  remember (enrolled_node nodeID enr p (w_now w) (hashToken nodeTok)) as row eqn:Er.
  assert (Hnodes : nodes (w_db w') = <[nodeID := row]> (nodes (w_db w))) by (rewrite Hw1; done).
  assert (node_ID (answer_node row) = nodeID /\ node_TokenHash row = hashToken nodeTok
          /\ node_MaxServers row = enrollment_MaxServers enr) as (-> & Hth & Hmax) by by subst row.
  split_and!; [done | exists id, enr, row; by split_and! | |].
  - intros Hw. apply node_token_authenticates; [done | done | |].
    + exists row. by rewrite Hnodes, lookup_insert_eq.
    + intros i row' Hi Hrow'. rewrite Hnodes in Hi. apply lookup_insert_Some in Hi as [[-> _]|[_ Hi]]; [done|].
      by apply Huniq in Hi.
  - intros Ht w2 p2 Hl. apply spent_refused. eapply later_spent; [exact Hl|]. rewrite Hw1.
    assert (Ht' : forall d, node_enrollments d = node_enrollments (w_db w) -> tokens_unique d)
      by (intros d Ed i j; rewrite Ed; apply Ht).
    split.
    + intros i j a b Ha Hb Hab. apply use_enrollment_lookup in Ha as (a0 & Ha & Eha & _).
      apply use_enrollment_lookup in Hb as (b0 & Hb & Ehb & _).
      eapply (Ht' _ eq_refl); [exact Ha | exact Hb | congruence].
    + unfold use_enrollment. cbn [node_enrollments with_node_enrollments with_nodes].
      eexists id, _. rewrite lookup_alter_eq, Hid. split; [reflexivity|]. done.
Qed.
End enrolment_theorems.

Definition enroll_world : World :=
  mkWorld (with_node_enrollments {[3%N := mkEnrollment 3 (@hashToken sample_platform "tk") "edge" None None None 4
             None 0 (10 * second) None None]} empty_db) ∅ second [] (fun n => N.of_nat (50 + n)) 0.

Lemma enrollment_single_use_witness :
  exists n nodeTok w', @Redeem sample_platform "tk" (mkRedeemPayload "10.0.0.9" 8444 "") enroll_world
      = (Ok (n, nodeTok), w')
    /\ @DaemonNodeAuth sample_platform ("Bearer " +:+ nodeTok) w' = (Ok (Pass (node_ID n)), w')
    /\ is_ok (fst (@Redeem sample_platform "tk" (mkRedeemPayload "10.0.0.9" 8444 "") w')) = false.
Proof.
  destruct (@Redeem sample_platform "tk" (mkRedeemPayload "10.0.0.9" 8444 "") enroll_world)
    as [[[n nodeTok]|e] w'] eqn:E;
    [|apply (f_equal (fun x => is_ok (fst x))) in E; vm_compute in E; done].
  destruct (@enrollment_single_use sample_platform "tk" _ enroll_world w' (Ok (n, nodeTok)) E)
    as (_ & _ & Hauth & Hspent).
  exists n, nodeTok, w'. split_and!; [done | apply Hauth | apply Hspent; [|constructor]].
  - change w' with (snd (Ok (E := error) (n, nodeTok), w')). rewrite <- E. by vm_compute.
  - intros i j a b Ha Hb _. cbn in Ha, Hb. apply lookup_singleton_Some in Ha as [<- _], Hb as [<- _]. done.
Defined.

(** ** Theorems: reports and removal *)

(** A heartbeat touches one node.  mTLS is never switched off by it, and is
    switched on only when the advertised serial is the one the panel recorded
    when it issued the certificate; an advert that does not match is reported
    and leaves the certificate's expiry alone. *)
Theorem heartbeat_mtls_guard (id : uuid) (req : NodeHeartbeatRequest) (w w' : World) (rejected : bool) :
  UpdateNodeHeartbeat id req w = (Ok rejected, w') ->
  exists n n', nodes (w_db w) !! id = Some n
    /\ w_db w' = with_nodes (<[id := n']> (nodes (w_db w))) (w_db w)
    /\ (node_MTLSEnabled n' = true <-> node_MTLSEnabled n = true \/ serial_matches req n = true)
    /\ rejected = hb_MTLSReady req && negb (serial_matches req n)
    /\ (serial_matches req n = false -> node_CertNotAfter n' = node_CertNotAfter n)
    /\ node_TokenHash n' = node_TokenHash n /\ node_CertSerial n' = node_CertSerial n.
Proof.
  unfold UpdateNodeHeartbeat. cbv zeta.
  intros (t & w1 & [_ ->]%now_inv & H)%bind_ok. cbv beta in H.
  apply bind_ok in H as (r & w2 & (r' & [= ->] & H2)%attempt_inv & H). cbv beta in H.
  destruct r' as [ok|e]; [|by destruct (error_Is _ _); inv_run].
  apply ret_inv in H as [[= ->] ->]. apply exec_ok in H2.
  destruct (nodes (w_db w) !! id) as [n|]; [|done].
  destruct (node_checks _) as [[]|e]; [|done]. injection H2 as <- <-. eexists n, _.
  split_and!; [done | reflexivity | | done | | |]; cbn [node_MTLSEnabled node_with_Status node_with_LastHeartbeat
    node_with_MTLSEnabled node_CertNotAfter node_TokenHash node_CertSerial]; destruct (serial_matches req n); try done.
  all: rewrite ?orb_true_r, ?orb_false_r; naive_solver.
Qed.

Definition plain_heartbeat : NodeHeartbeatRequest := mkNodeHeartbeatRequest "online" 0 0 0 false "" None.

Lemma heartbeat_mtls_guard_witness :
  exists n n', nodes farm_db !! 9%N = Some n /\ node_MTLSEnabled n' = node_MTLSEnabled n
    /\ node_TokenHash n' = node_TokenHash n.
Proof.
  destruct (UpdateNodeHeartbeat 9 plain_heartbeat farm_world) as [[rj|e] w'] eqn:E;
    [|apply (f_equal (fun x => is_ok (fst x))) in E; vm_compute in E; done].
  destruct (heartbeat_mtls_guard 9 plain_heartbeat farm_world w' rj E)
    as (n & n' & Hn & _ & Hm & _ & _ & Ht & _).
  exists n, n'. split_and!; [exact Hn | | exact Ht].
  assert (Hs : serial_matches plain_heartbeat n = false) by reflexivity. rewrite Hs in Hm.
  destruct (node_MTLSEnabled n'), (node_MTLSEnabled n); naive_solver.
Defined.

(** An operator drains a node; its next heartbeat, which always says "online",
    puts it back into service. *)
Theorem heartbeat_ends_draining :
  let w1 := snd (SetNodeStatus 9 "draining" farm_world) in
  let w2 := snd (UpdateNodeHeartbeat 9 plain_heartbeat w1) in
  node_Status <$> nodes (w_db w1) !! 9%N = Some "draining"
  /\ node_Status <$> nodes (w_db w2) !! 9%N = Some "online".
Proof. vm_compute. split; reflexivity. Qed.

(** The guard of DeleteNode lets a node with stopped servers through, and the
    foreign key then refuses it: such a node cannot be removed, and the error
    is not the one the guard gives. *)
Theorem delete_node_with_stopped_server :
  fst (DeleteNode 9 farm_world)
  = Err (ErrWrap "deleting node" (ErrConstraint "servers_node_id_fkey")).
Proof. by vm_compute. Qed.

(** A daemon that registers again has nobody online: its sessions are closed
    and the playtime ledger still balances, also when a statement fails. *)
Theorem self_register_ledger (id : uuid) (cpu ram disk : Z) :
  preserves ledger (DaemonSelfRegister id cpu ram disk).
Proof.
  unfold DaemonSelfRegister. solve_preserves.
  - apply preserves_exec. intros d n d' Hd H. unfold update_node in H.
    destruct (nodes d !! id) as [x|]; [|by injection H as _ <-].
    destruct (node_checks _) as [[]|e]; [|done]. injection H as _ <-. by apply (ledger_frame d).
  - apply preserves_exec. intros d [] d' Hd [= <-]. by apply (ledger_frame d).
  - apply closeOpenSessions_preserves, ledger_stable.
Qed.
