(* ===== verification/NodeHandlers.v ===== *)
(** * The node handlers

    Models [handlers/nodes.go], [handlers/enrollment.go], [UpdateNodeStatus] of
    [handlers/admin.go], [SetupStatus] and [Readiness] of [handlers/health.go],
    and [GetClusterStats] of [services/node_service.go]; the theorem on the
    requests of a daemon takes in the certificate requests of [Pki].

    [authedID] is the node the gate of the daemon routes put into the context.
    The goroutine a heartbeat starts is the job in its result.  Percentages
    are exact quotients. *)

From stdpp Require Import base numbers list strings option gmap.
From Stdlib Require Import QArith_base.
From S2P Require Import Prelude GoStrings Store Roles Platform Crypto Auth Players Servers Net Alerts Daemon Http ServerHandlers Settings Pki Nodes.

Local Open Scope Z_scope.

(** ** The cluster *)

Record ClusterStats := mkClusterStats {
  cs_TotalNodes : nat;
  cs_OnlineNodes : nat;
  cs_TotalServers : nat;
  cs_RunningServers : nat;
  cs_AvgCPUPct : Q;
  cs_TotalRAMMB : Z;
  cs_UsedRAMMB : Z;
  cs_TotalDiskMB : Z;
  cs_UsedDiskMB : Z
}.

(** A sum that is scanned into an int64. *)
Definition sum_int8 (l : list Z) : res error Z :=
  if int8 (sumZ l) then Ok (sumZ l) else Err (ErrConstraint "integer out of range").

(** [SELECT DISTINCT ON (node_id) ... ORDER BY node_id, sampled_at DESC]. *)
Definition latest_metrics (l : list NodeMetric) : list NodeMetric :=
  omap (fun id => head (order_by (fun a b => metric_SampledAt b <=? metric_SampledAt a)
                          (List.filter (fun m => (metric_NodeID m =? id)%N) l)))
    (remove_dups (map metric_NodeID l)).

(** [COALESCE(AVG(cpu_pct), 0)]. *)
Definition average (l : list Q) : Q :=
  match length l with
  | O => 0%Q
  | S n => (fold_right Qplus 0%Q l / inject_Z (Z.of_nat (S n)))%Q
  end.

Definition GetClusterStats : M ClusterStats :=
  let* (total, online, ram, disk) := wrap "querying cluster node stats" (query (fun d =>
    let ns := rows (nodes d) (fun _ => true) in
    match sum_int8 (map node_TotalRAMMB ns), sum_int8 (map node_TotalDiskMB ns) with
    | Ok ram, Ok disk =>
      Ok (length ns, count_rows (nodes d) (fun n => String.eqb (node_Status n) "online"), ram, disk)
    | Err e, _ | _, Err e => Err e
    end)) in
  let* servers_ := wrap "querying total servers" (query (fun d => Ok (count_rows (servers d) (fun _ => true)))) in
  let* running := wrap "querying running servers" (query (fun d =>
    Ok (count_rows (servers d) (fun s => String.eqb (server_Status s) "running")))) in
  let* (cpu, usedRAM, usedDisk) := wrap "querying cluster metric stats" (query (fun d =>
    let l := latest_metrics (node_metrics d) in
    match sum_int8 (map metric_RAMUsedMB l), sum_int8 (map metric_DiskUsedMB l) with
    | Ok ram, Ok disk => Ok (average (map metric_CPUPct l), ram, disk)
    | Err e, _ | _, Err e => Err e
    end)) in
  ret (mkClusterStats total online servers_ running cpu ram usedRAM disk usedDisk).

(** ** Handlers for the panel *)

Definition nodeError `{P : Platform} (e : error) : Reply :=
  if error_Is e ErrNodeNotFound then reply_error 404 "node not found"
  else if error_Is e ErrInvalidNodeAddress then reply_error 400 (error_Error e)
  else reply_error 500 (error_Error e).

(** The job of a heartbeat. *)
Inductive NodeJob := RecordMetrics (nodeID : uuid) (req : NodeHeartbeatRequest).

Section handlers.
Context `{P : Platform} `{X : X509} `{J : DaemonJson} (devMode : bool) (alerts notify : bool).

Definition answer_node {A} (m : M A) : M (res Reply A) :=
  let* r := attempt m in
  ret match r with Err e => Err (nodeError e) | Ok a => Ok a end.

Definition with_id {A} (idParam : string) (k : uuid -> M (res Reply A)) : M (res Reply A) :=
  match uuid_parse idParam with None => refuse 400 "invalid ID format" | Some id => k id end.

Definition ListNodesHandler : M (res Reply (list Node)) :=
  let* r := attempt ListNodes in
  match r with Err _ => refuse 500 "could not list nodes" | Ok l => ret (Ok l) end.

Definition RegisterNodeHandler (body : res string RegisterNodeRequest) : M (res Reply (Node * string)) :=
  with_body body (fun req =>
    let* r := attempt (RegisterNode req) in
    match r with Err e => refuse 400 (error_Error e) | Ok x => ret (Ok x) end).

Definition GetNodeHandler (idParam : string) : M (res Reply Node) :=
  with_id idParam (fun nodeID => answer_node (GetNode nodeID)).

Definition DeleteNodeHandler (idParam : string) : M (res Reply unit) :=
  with_id idParam (fun nodeID =>
    let* r := attempt (DeleteNode nodeID) in
    match r with
    | Err e => ret (Err (nodeError e))
    | Ok _ => run* pool_Remove nodeID in ret (Ok tt)
    end).

Definition UpdateNodeHandler (idParam : string) (body : res string UpdateNodeRequest) : M (res Reply Node) :=
  with_id idParam (fun nodeID => with_body body (fun req => answer_node (UpdateNode nodeID req))).

Definition UpdateNodeStatus (idParam : string) (body : res string string) : M (res Reply unit) :=
  with_id idParam (fun nodeID => with_body body (fun status =>
    if negb (contains ["online"; "offline"; "draining"] status)
    then refuse 400 "invalid status; must be online, offline, or draining"
    else
      let* r := attempt (SetNodeStatus nodeID status) in
      match r with Err e => refuse 400 (error_Error e) | Ok _ => ret (Ok tt) end)).

Definition GetNetworkStats (idParam : string) : M (res Reply json) :=
  with_id idParam (fun nodeID =>
    let* c := pool_Get nodeID in
    match c with
    | Err _ => refuse 503 "daemon not available for this node"
    | Ok client =>
      let* r := client_GetNetworkStats client in
      match r with Err _ => refuse 502 "failed to fetch network stats from daemon" | Ok stats => ret (Ok stats) end
    end).

(** The [hours] parameter: 1 to 168, otherwise 24. *)
Definition metric_hours (q : string) : Z :=
  if String.eqb q "" then 24
  else match Atoi q with
  | Some h => if (0 <? h) && (h <=? 168) then h else 24
  | None => 24
  end.

Definition GetNodeMetricsHandler (idParam q : string) : M (res Reply (list NodeMetric)) :=
  with_id idParam (fun nodeID => answer_node (GetNodeMetrics nodeID (metric_hours q))).

Definition GetClusterStatsHandler : M (res Reply ClusterStats) :=
  let* r := attempt GetClusterStats in
  match r with Err _ => refuse 500 "could not compute cluster stats" | Ok s => ret (Ok s) end.

(** ** Handlers for the daemons *)

(** [if authedID != nodeID.String() {...}]. *)
Definition own_node {A} (authedID : option string) (nodeID : uuid) (k : M (res Reply A)) : M (res Reply A) :=
  if negb (String.eqb (default "" authedID) (uuid_string nodeID))
  then refuse 403 "token does not match node" else k.

(** Cores, memory and disk of the body. *)
Definition DaemonSelfRegisterHandler (idParam : string) (authedID : option string)
    (body : res string (Z * Z * Z)) : M (res Reply unit) :=
  if negb devMode
  then refuse 410 "static-token node registration is disabled in production; use POST /api/v1/nodes/enroll with an enrollment token"
  else with_id idParam (fun nodeID => own_node authedID nodeID (with_body body (fun '(cpu, ram, disk) =>
    let* r := attempt (DaemonSelfRegister nodeID cpu ram disk) in
    match r with Err _ => refuse 500 "failed to register daemon" | Ok _ => ret (Ok tt) end))).

(** An alert whose error is dropped. *)
Definition try_fire (ty : string) (nodeID : uuid) (value : Q) : M (list Notification) :=
  let* r := attempt (EvaluateAndFire notify ty nodeID value) in
  ret (match r with Ok l => l | Err _ => [] end).

Definition percent (used total : Z) : Q := (inject_Z used / inject_Z total * inject_Z 100)%Q.

Definition threshold_alerts (nodeID : uuid) (node : Node) (req : NodeHeartbeatRequest) : M (list Notification) :=
  if negb alerts then ret []
  else
    let* a := (if Qle_bool (hb_CPUPercent req) 0 then ret [] else try_fire "cpu_high" nodeID (hb_CPUPercent req)) in
    let* b := (if (0 <? node_TotalRAMMB node) && (0 <? hb_RAMUsedMB req)
               then try_fire "ram_high" nodeID (percent (hb_RAMUsedMB req) (node_TotalRAMMB node)) else ret []) in
    let* c := (if (0 <? node_TotalDiskMB node) && (0 <? hb_DiskUsedMB req)
               then try_fire "disk_high" nodeID (percent (hb_DiskUsedMB req) (node_TotalDiskMB node)) else ret []) in
    ret (a ++ b ++ c).

Definition NodeHeartbeat (idParam : string) (authedID : option string) (authHeader : string)
    (body : res string NodeHeartbeatRequest) : M (res Reply (list Notification * NodeJob)) :=
  with_id idParam (fun nodeID => own_node authedID nodeID (with_body body (fun req =>
    let* r := attempt (UpdateNodeHeartbeat nodeID req) in
    match r with
    | Err e => ret (Err (nodeError e))
    | Ok _ =>
      let rawToken := TrimPrefix authHeader "Bearer " in
      let* n := attempt (GetNode nodeID) in
      match n with
      | Err _ => ret (Ok ([], RecordMetrics nodeID req))
      | Ok node =>
        run* ignore (pool_Register nodeID (node_FQDN node) (node_Port node) rawToken (node_MTLSEnabled node)) in
        let* ns := threshold_alerts nodeID node req in
        ret (Ok (ns, RecordMetrics nodeID req))
      end
    end))).

Definition run_job (j : NodeJob) : M unit :=
  match j with RecordMetrics nodeID req => ignore (RecordHeartbeatMetrics nodeID req) end.

(** The body has to be readable; what it says is not used. *)
Definition ReportDDoS (idParam : string) (authedID : option string) (body : res string unit) : M (res Reply (list Notification)) :=
  with_id idParam (fun nodeID => own_node authedID nodeID (with_body body (fun _ =>
    let* ns := (if alerts then try_fire "ddos" nodeID 0%Q else ret []) in
    ret (Ok ns)))).

Definition GetPendingCommandsHandler (idParam : string) (authedID : option string) : M (res Reply (list NodeCommand)) :=
  with_id idParam (fun nodeID => own_node authedID nodeID (
    let* r := attempt (GetPendingCommands nodeID) in
    match r with Err _ => refuse 500 "could not fetch commands" | Ok l => ret (Ok l) end)).

Definition AckCommandHandler (idParam cmdParam : string) (authedID : option string) (body : res string bool) : M (res Reply unit) :=
  with_id idParam (fun nodeID => with_id cmdParam (fun cmdID => own_node authedID nodeID (with_body body (fun success =>
    let* r := attempt (AckCommand nodeID cmdID success) in
    match r with Err e => refuse 400 (error_Error e) | Ok _ => ret (Ok tt) end)))).

(** ** Enrolment *)

Record createEnrollmentBody := mkcreateEnrollmentBody {
  ceb_NodeName : string;
  ceb_TotalCPU : Z;
  ceb_TotalRAMMB : Z;
  ceb_TotalDiskMB : Z;
  ceb_MaxServers : Z
}.

Definition CreateEnrollment (caller : option User) (body : res string createEnrollmentBody) : M (res Reply (Enrollment * string)) :=
  with_body body (fun b =>
    match caller with
    | None => refuse 401 "unauthenticated"
    | Some c =>
      let* r := attempt (Create (mkCreateEnrollmentRequest (ceb_NodeName b) (ceb_TotalCPU b) (ceb_TotalRAMMB b)
                                   (ceb_TotalDiskMB b) (ceb_MaxServers b) (user_ID c) (15 * 60 * second))) in
      match r with Err _ => refuse 500 "could not create enrollment" | Ok x => ret (Ok x) end
    end).

(** The token and where the node is reached; the port is bound to 1..65535. *)
Definition RedeemHandler (body : res string (string * RedeemPayload)) : M (res Reply (Node * string)) :=
  with_body body (fun '(token, payload) =>
    let* r := attempt (Redeem token payload) in
    match r with
    | Ok x => ret (Ok x)
    | Err e => if error_Is e ErrEnrollmentNotFound then refuse 404 "enrollment not found or already used"
               else if error_Is e ErrEnrollmentExpired then refuse 410 "enrollment token expired"
               else if error_Is e ErrInvalidNodeAddress then refuse 400 (error_Error e)
               else refuse 500 "could not redeem enrollment"
    end).
End handlers.

(** ** Health *)

(** [needs_setup] and the status of the reply. *)
Definition SetupStatus : M (Z * bool) :=
  let* r := attempt (query (fun d => Ok (count_rows (users d) (fun _ => true)))) in
  ret match r with Err _ => (500, false) | Ok count => (200, (count =? 0)%nat) end.

(** A ping of a store: it fails when the store cannot be reached. *)
Definition Ping : M unit := let* b := fault in if b then fail ErrDriver else ret tt.

(** The status: both stores answer a ping. *)
Definition Readiness : M Z :=
  let* dbErr := attempt Ping in
  let* redisErr := attempt Ping in
  ret (if is_ok dbErr && is_ok redisErr then 200 else 503).

(** ** Theorems *)

(** Server [sid] is on node [nid], and player [pid] on such a server. *)
Definition on_node (d : DB) (nid sid : uuid) : Prop := server_NodeID <$> servers d !! sid = Some nid.

Definition player_on (d : DB) (nid pid : uuid) : Prop :=
  exists sid, player_ServerID <$> players d !! pid = Some sid /\ on_node d nid sid.

Definition of_other_node (nid : uuid) (c : NodeCommand) : bool := negb (ncmd_NodeID c =? nid)%N.
Definition metric_of_other (nid : uuid) (m : NodeMetric) : bool := negb (metric_NodeID m =? nid)%N.

(** The tables a daemon route never writes. *)
Definition other_tables (d : DB) : DB :=
  with_nodes ∅ (with_node_commands [] (with_node_metrics [] (with_servers ∅ (with_players ∅
    (with_player_sessions ∅ (with_alert_events ∅ (with_app_settings ∅ d))))))).

(** From [d] to [d'], at most what belongs to node [nid] has changed; with
    [csr], the certificate authority of the panel may have been stored, where
    none was. *)
Record node_change (csr : bool) (nid : uuid) (d d' : DB) : Prop := {
  nc_hosts i : server_NodeID <$> servers d' !! i = server_NodeID <$> servers d !! i;
  nc_homes i : player_ServerID <$> players d' !! i = player_ServerID <$> players d !! i;
  nc_nodes i : i <> nid -> nodes d' !! i = nodes d !! i;
  nc_commands : List.filter (of_other_node nid) (node_commands d') = List.filter (of_other_node nid) (node_commands d);
  nc_metrics : List.filter (metric_of_other nid) (node_metrics d') = List.filter (metric_of_other nid) (node_metrics d);
  nc_servers i : ~ on_node d nid i -> servers d' !! i = servers d !! i;
  nc_players i : ~ player_on d nid i -> players d' !! i = players d !! i;
  nc_sessions i s : player_sessions d !! i = Some s -> ~ player_on d nid (psession_PlayerID s) ->
    player_sessions d' !! i = Some s;
  nc_events k e : alert_events d !! k = Some e -> alert_events d' !! k = Some e;
  nc_settings : app_settings d' = app_settings d
    \/ (csr = true /\ app_settings d !! mtlsCAKey = None
        /\ exists v, app_settings d' = <[mtlsCAKey := v]> (app_settings d));
  nc_rest : other_tables d' = other_tables d
}.

#[export] Instance node_change_preorder csr nid : PreOrder (node_change csr nid).
Proof.
  split.
  - intros d. split; try done. by left.
  - intros a b c Hab Hbc.
    assert (Hs : forall i, on_node b nid i <-> on_node a nid i) by (intros i; unfold on_node; by rewrite (nc_hosts _ _ _ _ Hab)).
    assert (Hp : forall i, player_on b nid i <-> player_on a nid i).
    { intros i. unfold player_on. rewrite (nc_homes _ _ _ _ Hab). by setoid_rewrite Hs. }
    split.
    + intros i. by rewrite (nc_hosts _ _ _ _ Hbc), (nc_hosts _ _ _ _ Hab).
    + intros i. by rewrite (nc_homes _ _ _ _ Hbc), (nc_homes _ _ _ _ Hab).
    + intros i Hi. by rewrite (nc_nodes _ _ _ _ Hbc), (nc_nodes _ _ _ _ Hab).
    + by rewrite (nc_commands _ _ _ _ Hbc), (nc_commands _ _ _ _ Hab).
    + by rewrite (nc_metrics _ _ _ _ Hbc), (nc_metrics _ _ _ _ Hab).
    + intros i Hi. rewrite (nc_servers _ _ _ _ Hbc), (nc_servers _ _ _ _ Hab); [done | done | by rewrite Hs].
    + intros i Hi. rewrite (nc_players _ _ _ _ Hbc), (nc_players _ _ _ _ Hab); [done | done | by rewrite Hp].
    + intros i s Hi Hn. eapply (nc_sessions _ _ _ _ Hbc); [by eapply (nc_sessions _ _ _ _ Hab) | by rewrite Hp].
    + intros k e Hk. by eapply (nc_events _ _ _ _ Hbc), (nc_events _ _ _ _ Hab).
    + destruct (nc_settings _ _ _ _ Hbc) as [->|(Hc & Hn & v & ->)]; [apply (nc_settings _ _ _ _ Hab)|].
      destruct (nc_settings _ _ _ _ Hab) as [E|(_ & _ & v' & E)]; rewrite E in Hn |- *; [right; eauto|].
      by rewrite lookup_insert_eq in Hn.
    + by rewrite (nc_rest _ _ _ _ Hbc), (nc_rest _ _ _ _ Hab).
Qed.

Section confined.
Context `{P : Platform} `{X : X509} `{J : DaemonJson} (devMode alerts notify csr : bool) (nid : uuid).

(** The pool changes at most at the node's own entry, and nothing is sent. *)
Definition own_client (l l' : Link) : Prop :=
  link_net l' = link_net l /\ link_sent l' = link_sent l
  /\ forall k, k <> uuid_string nid -> pool_clients l' !! k = pool_clients l !! k.

#[export] Instance own_client_preorder : PreOrder own_client.
Proof.
  split; [by intros l|]. intros a b c (? & ? & H1) (? & ? & H2). repeat split; [congruence..|].
  intros k Hk. by rewrite H2, H1.
Qed.

Lemma change_node n d : node_change csr nid d (with_nodes (<[nid := n]> (nodes d)) d).
Proof. split; try done; try (by left). intros i Hi. simpl. by rewrite lookup_insert_ne. Qed.

Lemma change_event id e d d' : insert_event id e d = Ok (tt, d') -> node_change csr nid d d'.
Proof.
  unfold insert_event. repeat (destruct (dangling _ _); [done|]). destruct (insert_row _ _ _) as [t|] eqn:E; [|done].
  intros [= <-]. apply insert_row_ok in E as [Hn ->]. split; try done; try (by left).
  intros k e' Hk. simpl in *. rewrite lookup_insert_ne; [done|]. by intros <-; congruence.
Qed.

Lemma frames_register fqdn port tok mtls :
  frames own_client (node_change csr nid) (pool_Register nid fqdn port tok mtls).
Proof.
  intros w. unfold pool_Register. rewrite get_link_run. cbv zeta. destruct (baseURLWithScheme _ _ _) as [u|e]; [|by apply framed_refl; tc_solve].
  assert (H : forall c, framed own_client (node_change csr nid) w
    (snd (put_link (link_with_clients (<[uuid_string nid := c]> (pool_clients (w_link w))) (w_link w)) w))).
  { intros c. repeat split; try done; try (by left); [|reflexivity..]. intros k Hk. simpl. by rewrite lookup_insert_ne. }
  destruct (pool_clients _ !! _) as [old|]; [|apply H]. destruct (_ && _); [by apply framed_refl; tc_solve | apply H].
Qed.

Lemma change_update f d x d' : update_node nid f d = Ok (x, d') -> node_change csr nid d d'.
Proof.
  unfold update_node. destruct (nodes d !! nid); [|by intros [= _ <-]]. destruct (node_checks _); [|done].
  intros [= _ <-]. apply change_node.
Qed.

Lemma filter_map_id {A} (p : A -> bool) (f : A -> A) l :
  (forall c, p (f c) = p c) -> (forall c, p c = true -> f c = c) -> List.filter p (map f l) = List.filter p l.
Proof.
  intros Hp Hf. induction l as [|c l IH]; simpl; [done|]. rewrite Hp, IH. destruct (p c) eqn:E; [|done]. by rewrite Hf.
Qed.

Lemma change_ack cid status t d : node_change csr nid d (with_node_commands
  (map (fun c => if pending_command nid cid c then ncmd_with_Status status (ncmd_with_AckedAt (Some t) c) else c)
     (node_commands d)) d).
Proof.
  split; try done; try (by left). apply filter_map_id.
  - intros c. by destruct (pending_command nid cid c).
  - intros c Hc. destruct (pending_command nid cid c) eqn:E; [|done]. unfold pending_command, of_other_node in *.
    breflect. by subst.
Qed.

Lemma change_metric m d : metric_NodeID m = nid -> node_change csr nid d (with_node_metrics (node_metrics d ++ [m]) d).
Proof.
  intros Hm. split; try done; try (by left). simpl. rewrite List.filter_app. simpl. unfold metric_of_other at 2. rewrite Hm, N.eqb_refl.
  simpl. by rewrite app_nil_r.
Qed.

Lemma change_servers f d : (forall s, server_NodeID (f s) = server_NodeID s) ->
  node_change csr nid d (with_servers (update_where f
    (fun s => (server_NodeID s =? nid)%N && negb (String.eqb (server_Status s) "stopped")) (servers d)) d).
Proof.
  intros Hf. split; try done; try (by left); simpl; intros i; rewrite lookup_update_where.
  - destruct (servers d !! i) as [s|]; simpl; [|done]. destruct (_ && _); by rewrite ?Hf.
  - unfold on_node. destruct (servers d !! i) as [s|]; simpl; [|done]. intros Hn.
    destruct (server_NodeID s =? nid)%N eqn:E; [|done]. breflect. by subst.
Qed.

(** [WHERE player_id IN (SELECT ... WHERE s.node_id = $1)]. *)
Definition session_on (d : DB) (s : PlayerSessionRow) : bool :=
  match players d !! psession_PlayerID s with
  | Some p => match servers d !! player_ServerID p with Some sv => (server_NodeID sv =? nid)%N | None => false end
  | None => false
  end.

Lemma session_on_player d s : session_on d s = true -> player_on d nid (psession_PlayerID s).
Proof.
  unfold session_on, player_on, on_node. destruct (players d !! _) as [p|]; [|done]. intros H. exists (player_ServerID p).
  split; [done|]. destruct (servers d !! _) as [sv|]; [|done]. breflect. by subst.
Qed.

Lemma change_close t d : node_change csr nid d (close_sessions (session_on d) t d).
Proof.
  unfold close_sessions. cbv zeta. set (closed := rows _ _).
  assert (Hc : forall k, ~ player_on d nid k -> credit t closed k = 0).
  { intros k Hk. unfold credit. destruct (List.filter _ closed) as [|s l] eqn:E; [done|]. exfalso. apply Hk.
    assert (Hs : s ∈ List.filter (fun s => (psession_PlayerID s =? k)%N) closed) by (rewrite E; left).
    apply list_elem_of_In, filter_In in Hs as [[_ Hs]%list_elem_of_In%elem_of_rows Hk'%N.eqb_eq]. breflect.
    subst k. by apply session_on_player. }
  split; try done; try (by left); simpl.
  - intros i. rewrite map_lookup_imap. by destruct (players d !! i).
  - intros i Hi. rewrite map_lookup_imap. destruct (players d !! i) as [p|] eqn:E; simpl; [|done].
    rewrite Hc, Z.add_0_r by done. by destruct p.
  - intros i s Hi Hn. rewrite lookup_update_where, Hi. simpl.
    destruct (is_open s && session_on d s) eqn:E; [|done]. breflect. exfalso. by apply Hn, session_on_player.
Qed.

Lemma frames_close : frames own_client (node_change csr nid) (closeOpenSessions session_on).
Proof.
  unfold closeOpenSessions. solve_frames. intros d x d' H. destruct (existsb _ _); [done|].
  injection H as _ <-. apply change_close.
Qed.

Lemma frames_self_register cpu ram disk : frames own_client (node_change csr nid) (DaemonSelfRegister nid cpu ram disk).
Proof.
  unfold DaemonSelfRegister. solve_frames.
  - intros d x d' H. by eapply change_update.
  - intros d x d' [= _ <-]. by apply change_servers.
  - apply frames_close.
Qed.

Lemma frames_heartbeat req : frames own_client (node_change csr nid) (UpdateNodeHeartbeat nid req).
Proof.
  unfold UpdateNodeHeartbeat. cbv zeta. solve_frames. intros d x d' H. destruct (nodes d !! nid); [|done].
  destruct (node_checks _); [|done]. injection H as _ <-. apply change_node.
Qed.

Lemma frames_fire ty v : frames own_client (node_change csr nid) (try_fire notify ty nid v).
Proof.
  unfold try_fire, EvaluateAndFire. solve_frames. generalize a. intros rules.
  induction rules as [|[rid rule] rules IH]; cbn [fire_loop]; [solve_frames|].
  unfold fire_rule. solve_frames; [|done..]. intros d [] d' H. by eapply change_event.
Qed.

Lemma frames_ack cid ok : frames own_client (node_change csr nid) (AckCommand nid cid ok).
Proof. unfold AckCommand. cbv zeta. solve_frames. intros d x d' [= _ <-]. apply change_ack. Qed.

Lemma frames_job req : frames own_client (node_change csr nid) (run_job (RecordMetrics nid req)).
Proof.
  unfold run_job, RecordHeartbeatMetrics. solve_frames. intros d x d' H. destruct (bool_decide _); [done|].
  injection H as _ <-. by apply change_metric.
Qed.
End confined.

(** Loading the authority of the panel stores one where there is none. *)
Lemma frames_ca `{C : CertLib} `{P : Platform} `{K : Json pemPair} (encKey : string) nid :
  frames (own_client nid) (node_change true nid) (MTLSCA encKey).
Proof.
  unfold MTLSCA, loadOrCreatePair, create_pair, read_pair, setting_SetIfAbsent, setting_Get, Encrypt, GenerateCA, generateCA,
    randomSerial, encodeKey, Pki.lift.
  solve_frames. intros d x d'. unfold insert_setting. destruct (app_settings d !! mtlsCAKey) eqn:E; intros [= _ <-]; [done|].
  split; try done. right. eauto.
Qed.

Lemma frames_sign `{C : CertLib} `{P : Platform} csr nid ca t cn sans v :
  frames (own_client nid) (node_change csr nid) (SignCSR ca t cn sans v).
Proof. unfold SignCSR, sign, randomSerial, Pki.lift. solve_frames. Qed.

Section daemon_requests.
Context `{P : Platform} `{L : !PlatformLaws P} `{X : X509} `{J : DaemonJson} `{C : CertLib} `{K : Json pemPair}
  (encKey : string) (devMode alerts notify : bool).

(** The requests of a daemon that the gate let in as [authed], on whatever
    path, the job of an accepted heartbeat included, and whether it asks for a
    certificate. *)
Inductive daemon_request (authed : uuid) : bool -> forall {A}, M A -> Prop :=
| req_self_register i body :
    daemon_request authed false (DaemonSelfRegisterHandler devMode i (Some (uuid_string authed)) body)
| req_heartbeat i hdr body :
    daemon_request authed false (NodeHeartbeat alerts notify i (Some (uuid_string authed)) hdr body)
| req_job req : daemon_request authed false (run_job (RecordMetrics authed req))
| req_csr i body : daemon_request authed true (SignCSRHandler encKey i authed body)
| req_ddos i body : daemon_request authed false (ReportDDoS alerts notify i (Some (uuid_string authed)) body)
| req_pending i : daemon_request authed false (GetPendingCommandsHandler i (Some (uuid_string authed)))
| req_ack i c body : daemon_request authed false (AckCommandHandler i c (Some (uuid_string authed)) body).

(** Behind the check of the path, the node in the path is the one let in. *)
Lemma own_node_frames {A} csr nid node (k : M (res Reply A)) :
  (node = nid -> frames (own_client nid) (node_change csr nid) k) ->
  frames (own_client nid) (node_change csr nid) (own_node (Some (uuid_string nid)) node k).
Proof.
  intros Hk. unfold own_node, refuse. simpl. destruct (String.eqb _ _) eqn:E; simpl; [|apply frames_ret; apply _].
  apply String.eqb_eq in E. apply Hk. apply (f_equal uuid_parse) in E. rewrite !uuid_parse_string in E. congruence.
Qed.

(** A certificate request: the check of the path, the authority, the
    certificate and its record. *)
Lemma frames_csr nid i body : frames (own_client nid) (node_change true nid) (SignCSRHandler encKey i nid body).
Proof.
  unfold SignCSRHandler. destruct (uuid_parse i) as [node|]; [|solve_frames].
  destruct (String.eqb (uuid_string nid) (uuid_string node)) eqn:E; cbn [negb]; [|solve_frames].
  apply String.eqb_eq, (f_equal uuid_parse) in E. rewrite !uuid_parse_string in E. injection E as <-.
  cbv zeta. solve_frames; [apply frames_ca | apply frames_sign|].
  intros d x d' [= _ <-]. split; try done; try (by left). intros k Hk. cbn. by rewrite lookup_alter_ne.
Qed.

(** C30. A daemon reaches only its own node: whatever a daemon with a valid
    token sends on its routes of nodes, on whatever path (registering,
    heartbeats and their metrics, certificate requests, attack reports, its
    command queue and its acknowledgements), at most its own node's row,
    commands, metrics and client entry, the servers it hosts and the players
    on them change; alert events are only added, nothing is sent to other
    nodes, and no other table changes, but for one case: a certificate request
    that finds no certificate authority stores a new one under its setting. *)
Theorem node_requests_confined {A} (nid : uuid) (csr : bool) (m : M A) (w : World) :
  daemon_request nid csr m ->
  node_change csr nid (w_db w) (w_db (snd (m w))) /\ own_client nid (w_link w) (w_link (snd (m w))).
Proof.
  intros Hm. enough (frames (own_client nid) (node_change csr nid) m) as Hf
    by (destruct (Hf w) as (_ & _ & Hl & Hd); by split).
  destruct Hm;
    unfold DaemonSelfRegisterHandler, NodeHeartbeat, ReportDDoS, GetPendingCommandsHandler, AckCommandHandler, with_id, with_body, refuse;
    solve_frames; try (apply own_node_frames; intros ->; solve_frames).
  - apply frames_self_register.
  - apply frames_heartbeat.
  - unfold GetNode. solve_frames.
  - apply frames_register.
  - unfold threshold_alerts. solve_frames; apply frames_fire.
  - apply frames_job.
  - apply frames_csr.
  - apply frames_fire.
  - unfold GetPendingCommands. solve_frames.
  - apply frames_ack.
Qed.
End daemon_requests.

(** ** Witnesses *)

#[local] Existing Instances sample_platform sample_platform_laws sample_x509 sample_daemon_json sample_certs sample_pair_json.

(** Node 9 sends a heartbeat for itself and is refused on the path of node
    10. *)
Lemma node_requests_confined_witness :
  let m := NodeHeartbeat true true (uuid_string 10) (Some (uuid_string 9)) "Bearer t" (Ok plain_heartbeat) in
  let m' := NodeHeartbeat true true (uuid_string 9) (Some (uuid_string 9)) "Bearer t" (Ok plain_heartbeat) in
  fst (m farm_world) = Ok (Err (reply_error 403 "token does not match node"))
  /\ match fst (m' farm_world) with Ok (Ok _) => True | _ => False end
  /\ node_change false 9 (w_db farm_world) (w_db (snd (m' farm_world))).
Proof.
  split_and!; [vm_compute; done | vm_compute; done|].
  apply (node_requests_confined (hex_bytes 16 7) true true true 9 false
    (NodeHeartbeat true true (uuid_string 9) (Some (uuid_string 9)) "Bearer t" (Ok plain_heartbeat)) farm_world).
  constructor.
Defined.
