(* ===== verification/Startup.v ===== *)
(** * Configuration, migrations and the command line

    Models [config/config.go], [db/migrate.go], [cmd/talecli] and the session
    cleanup of [cmd/server/main.go].  The environment is a map of variables;
    PostgreSQL's execution of a migration is a parameter. *)

From stdpp Require Import base numbers list strings option gmap sets relations.
From Stdlib Require Import Ascii.
From S2P Require Import Prelude GoStrings Regex Store Roles Platform Crypto Auth AuthTheorems Net Words GameCommands Mail NetworkRouting Nodes.

Local Open Scope Z_scope.

(** ** Configuration *)

Record PanelConfig := mkPanelConfig {
  pc_ServerPort : Z;
  pc_Env : string;
  pc_LogLevel : string;
  pc_AppVersion : string;
  pc_DeploymentProfile : string;
  pc_SetupCodeHash : string;
  pc_DatabaseURL : string;
  pc_RedisURL : string;
  pc_JWTSecret : string;
  pc_JWTRefreshSecret : string;
  pc_TOTPEncKey : string;
  pc_CORSOrigins : list string;
  pc_TrustedProxies : list string;
  pc_DaemonServersDir : string;
  pc_CurseForgeAPIKey : string;
  pc_CurseForgeGameID : Z;
  pc_MariaDBDSN : string;
  pc_MariaDBHost : string;
  pc_MariaDBPort : Z;
  pc_SMTPHost : string;
  pc_SMTPPort : Z;
  pc_SMTPUser : string;
  pc_SMTPPassword : string;
  pc_SMTPFrom : string;
  pc_SMTPTLSMode : string
}.

Definition isPlaceholderSecret (v : string) : bool :=
  String.eqb v "CHANGEME_GENERATED_BY_INSTALLER" || HasPrefix v "replace-with-".

Local Open Scope res_scope.

Section config.
Context `{U : Unicode} (env : gmap string string).

(** [os.Getenv]. *)
Definition Getenv (k : string) : string := default "" (env !! k).
Definition getenv_or (k dflt : string) : string := if String.eqb (Getenv k) "" then dflt else Getenv k.

(** An optional number. *)
Definition getenv_int (k : string) (dflt : Z) : res error Z :=
  if String.eqb (Getenv k) "" then Ok dflt
  else match Atoi (Getenv k) with
       | Some n => Ok n
       | None => Err (ErrNew (k +:+ " must be an integer"))
       end.

Definition server_port : res error Z :=
  if String.eqb (Getenv "SERVER_PORT") "" then Ok 8080
  else match Atoi (Getenv "SERVER_PORT") with
       | None => Err (ErrNew "SERVER_PORT must be a valid integer")
       | Some port =>
         if (port <? 1) || (65535 <? port)
         then Err (ErrNew ("SERVER_PORT must be between 1 and 65535, got " +:+ Itoa port))
         else Ok port
       end.

Definition run_env : res error string :=
  let v := getenv_or "ENV" "production" in
  if negb (String.eqb v "development") && negb (String.eqb v "production")
  then Err (ErrNew "ENV must be 'development' or 'production'") else Ok v.

Definition deployment_profile : string :=
  let v := ToLower (TrimSpace (Getenv "DEPLOYMENT_PROFILE")) in
  if negb (String.eqb v "solo") && negb (String.eqb v "hoster") then "solo" else v.

Definition setup_code_hash : res error string :=
  let v := ToLower (TrimSpace (Getenv "SETUP_CODE_HASH")) in
  if String.eqb v "" then Ok v
  else match hex_decode v with
       | Some b => if len b =? 32 then Ok v else Err (ErrNew "SETUP_CODE_HASH must be a hex-encoded SHA-256 (64 hex chars)")
       | None => Err (ErrNew "SETUP_CODE_HASH must be a hex-encoded SHA-256 (64 hex chars)")
       end.

Definition required (k : string) : res error string :=
  if String.eqb (Getenv k) "" then Err (ErrNew (k +:+ " is required")) else Ok (Getenv k).

(** A secret that is set, and no placeholder. *)
Definition secret_text (k : string) : res error string :=
  v <-? required k ;;
  if isPlaceholderSecret v then Err (ErrNew (k +:+ " is still set to a placeholder value")) else Ok v.

Definition jwt_secret (k : string) : res error string :=
  v <-? secret_text k ;;
  if len v <? 32 then Err (ErrNew (k +:+ " must be at least 32 characters long, got " +:+ Itoa (len v))) else Ok v.

Definition totp_key : res error string :=
  v <-? secret_text "TOTP_ENC_KEY" ;;
  match hex_decode v with
  | None => Err (ErrNew "TOTP_ENC_KEY must be hex-encoded")
  | Some key => if negb (len key =? 32) then Err (ErrNew ("TOTP_ENC_KEY must decode to exactly 32 bytes, got " +:+ Itoa (len key)))
                else Ok key
  end.

(** A comma-separated list without empty entries. *)
Definition comma_list (k : string) : list string :=
  if String.eqb (Getenv k) "" then []
  else List.filter (fun p => negb (String.eqb p "")) (map TrimSpace (Split "," (Getenv k))).

Definition Load : res error PanelConfig :=
  port <-? server_port ;;
  run <-? run_env ;;
  codeHash <-? setup_code_hash ;;
  db <-? required "DATABASE_URL" ;;
  redis <-? required "REDIS_URL" ;;
  jwt <-? jwt_secret "JWT_SECRET" ;;
  jwtRefresh <-? jwt_secret "JWT_REFRESH_SECRET" ;;
  totp <-? totp_key ;;
  gameID <-? getenv_int "CURSEFORGE_GAME_ID" 0 ;;
  mariaPort <-? getenv_int "MARIADB_PORT" 3306 ;;
  smtpPort <-? getenv_int "SMTP_PORT" 587 ;;
  Ok (mkPanelConfig port run (getenv_or "LOG_LEVEL" "info") (getenv_or "APP_VERSION" "dev") deployment_profile codeHash
        db redis jwt jwtRefresh totp (comma_list "CORS_ORIGINS") (comma_list "TRUSTED_PROXIES")
        (getenv_or "DAEMON_SERVERS_DIR" "/srv/taledaemon/servers") (Getenv "CURSEFORGE_API_KEY") gameID
        (Getenv "MARIADB_DSN") (getenv_or "MARIADB_HOST" "mariadb") mariaPort
        (Getenv "SMTP_HOST") smtpPort (Getenv "SMTP_USER") (Getenv "SMTP_PASSWORD") (Getenv "SMTP_FROM") (Getenv "SMTP_TLS_MODE")).
End config.

Definition IsDevelopment (c : PanelConfig) : bool := String.eqb (pc_Env c) "development".

(** [envSMTPConfig]. *)
Definition envSMTPConfig `{U : Unicode} (c : PanelConfig) : SMTPConfig :=
  Normalize (mkSMTPConfig (pc_SMTPHost c) (pc_SMTPPort c) (pc_SMTPUser c) (pc_SMTPPassword c) (pc_SMTPFrom c) (pc_SMTPTLSMode c)).

(** ** Migrations *)

Section migrate.
(** The schema, and what PostgreSQL makes of a script: the new schema or an
    SQLSTATE. *)
Context {Schema : Type} (pg_exec : string -> Schema -> res string Schema).

(** The migrations in the binary, by path. *)
Context (FS : gmap string string).

Record MigState := mkMigState {
  mig_schema : Schema;
  mig_versions : gset string;     (* schema_migrations *)
  mig_faults : list bool
}.

Definition alreadyExistsCodes : list string := ["42710"; "42P07"; "42701"; "42723"; "42P06"].

Definition listMigrationFiles : list string :=
  order_by String.leb (List.filter (fun p => HasSuffix p ".sql") (map fst (map_to_list FS))).

(** A call that fails or goes on. *)
Definition db_call {A} (msg : string) (k : MigState -> res error A * MigState) (s : MigState) : res error A * MigState :=
  match mig_faults s with
  | true :: fs => (Err (ErrWrap msg ErrDriver), mkMigState (mig_schema s) (mig_versions s) fs)
  | false :: fs => k (mkMigState (mig_schema s) (mig_versions s) fs)
  | [] => k s
  end.

(** Recording and committing; a failure undoes the transaction. *)
Definition record_version (name : string) (executed : bool) (schema : Schema) : MigState -> res error bool * MigState :=
  db_call ("recording " +:+ name) (fun s =>
    if bool_decide (name ∈ mig_versions s) then (Err (ErrWrap ("recording " +:+ name) (ErrConstraint "schema_migrations_pkey")), s)
    else db_call ("commit " +:+ name) (fun s =>
      (Ok executed, mkMigState schema ({[name]} ∪ mig_versions s) (mig_faults s))) s).

Definition applyOne (name body : string) : MigState -> res error bool * MigState :=
  db_call ("begin tx for " +:+ name) (db_call ("executing " +:+ name) (fun s =>
    match pg_exec body (mig_schema s) with
    | Ok schema => record_version name true schema s
    | Err code =>
      if contains alreadyExistsCodes code
      then db_call ("begin tx for " +:+ name +:+ " after recovery") (fun s => record_version name false (mig_schema s) s) s
      else (Err (ErrWrap ("executing " +:+ name) (ErrNew code)), s)
    end)).

Fixpoint migrate_loop (applied : gset string) (files : list string) (s : MigState) : res error unit * MigState :=
  match files with
  | [] => (Ok tt, s)
  | name :: files' =>
    if bool_decide (name ∈ applied) then migrate_loop applied files' s
    else match applyOne name (default "" (FS !! name)) s with
         | (Err e, s') => (Err e, s')
         | (Ok _, s') => migrate_loop applied files' s'
         end
  end.

Definition RunMigrations : MigState -> res error unit * MigState :=
  db_call "creating schema_migrations" (db_call "loading applied versions" (fun s =>
    migrate_loop (mig_versions s) listMigrationFiles s)).
End migrate.

(** ** Commands *)

Section commands.
Context `{U : Unicode} `{P : Platform}.

Definition validateOwnerPassword (password : string) : res error unit :=
  if Z.of_nat (length (runes password)) <? 12 then Err (ErrNew "password must be at least 12 characters long")
  else
    let digit r := in_range 48 57 (rune_val r) in
    let letter r := in_range 97 122 (rune_val r) || in_range 65 90 (rune_val r) in
    let hasDigit := existsb digit (runes password) in
    let hasSymbol := existsb (fun r => negb (digit r) && negb (letter r)) (runes password) in
    if negb hasDigit || negb hasSymbol
    then Err (ErrNew "password must contain at least one digit and one non-alphanumeric symbol") else Ok tt.

(** [ON CONFLICT (email) DO NOTHING]. *)
Definition insert_owner (id : uuid) (email username hash : string) (t : Z) (d : DB) : res error (unit * DB) :=
  if exists_row (users d) (fun v => citext_eq (user_Email v) email) then Ok (tt, d)
  else match insert_user id email username hash RoleOwner t d with
       | Ok d' => Ok (tt, d')
       | Err e => Err e
       end.

(** The fields as given or prompted for; [migrate] brings the schema up. *)
Definition admin_create (databaseURL : string) (migrate : M unit) (interactive : option (string * string * string))
    (email0 username0 password0 : string) : M unit :=
  let prompt (v answer : string) := if String.eqb v "" then answer else v in
  let email1 := ToLower (TrimSpace email0) in
  let username1 := TrimSpace username0 in
  let '(email, username, password) :=
    match interactive with
    | None => (email1, username1, password0)
    | Some (e, u, p) => (prompt email1 e, prompt username1 u, prompt password0 p)
    end in
  if String.eqb email "" || String.eqb username "" || String.eqb password ""
  then fail (ErrNew "--email, --username, and --password are all required in non-interactive mode")
  else match validateOwnerPassword password with
  | Err e => fail e
  | Ok _ =>
    if String.eqb databaseURL "" then fail (ErrNew "DATABASE_URL is not set")
    else
      run* wrap "run migrations" migrate in
      let* salt := rand in
      match bcrypt_generate password salt with
      | Err e => fail (ErrWrap "hash" e)
      | Ok hash =>
        let* id := new_uuid in
        let* t := now in
        run* wrap "insert user" (exec (insert_owner id email username hash t)) in
        let* existing := wrap "verify" (query (fun d => find_key (users d) (fun v => citext_eq (user_Email v) email))) in
        if negb (fst existing =? id)%N then fail (ErrNew ("a user with email " +:+ email +:+ " already exists")) else ret tt
      end
  end.

Definition node_enroll (databaseURL : string) (migrate : M unit) (name0 : string) (maxServers ttl : Z) : M string :=
  let name := TrimSpace name0 in
  if String.eqb name "" then fail (ErrNew "--name is required")
  else if maxServers <? 1 then fail (ErrNew "--max-servers must be at least 1")
  else if (ttl <? 60 * second) || (24 * 3600 * second <? ttl) then fail (ErrNew "--ttl must be between 1m and 24h")
  else if String.eqb databaseURL "" then fail (ErrNew "DATABASE_URL is not set")
  else
    run* wrap "run migrations" migrate in
    let* r := Create (mkCreateEnrollmentRequest name 0 0 0 maxServers uuid_Nil ttl) in
    ret (snd r).
End commands.

(** [cleanupOnce]: sessions that expired more than 30 days ago. *)
Definition cleanupOnce : M unit :=
  let* t := now in
  ignore (exec (fun d => Ok (tt, with_sessions (filter (fun kv => ~ session_ExpiresAt (snd kv) < t - 30 * 24 * 3600 * second) (sessions d)) d))).

(** ** Theorems: configuration *)

Lemma hex_decode_len v b : hex_decode v = Some b -> len v = 2 * len b.
Proof.
  assert (G : forall n v b, (String.length v <= n)%nat -> hex_decode v = Some b -> len v = 2 * len b).
  { clear. induction n as [|n IH]; intros v b Hn H; destruct v as [|x [|y v]];
      [by injection H as <- | done | simpl in Hn; lia | by injection H as <- | done|]. simpl in Hn. cbn [hex_decode] in H. destruct (hex_value x), (hex_value y), (hex_decode v) as [t|] eqn:E; simplify_eq.
    apply IH in E; [|lia]. unfold len in *. cbn [String.length]. lia. }
  by apply (G (String.length v)).
Qed.

(** A secret of the panel. *)
Definition strong_secret (v : string) : Prop := 32 <= len v /\ isPlaceholderSecret v = false.

Lemma secret_text_ok env k v : secret_text env k = Ok v -> v <> "" /\ isPlaceholderSecret v = false.
Proof.
  unfold secret_text, required. intros (x & H1 & H2)%res_bind_ok. destruct (String.eqb_spec (Getenv env k) ""); [done|].
  injection H1 as <-. destruct (isPlaceholderSecret _) eqn:E; [done|]. by injection H2 as <-.
Qed.

Lemma jwt_secret_ok env k v : jwt_secret env k = Ok v -> strong_secret v.
Proof.
  unfold jwt_secret. intros (x & H1 & H2)%res_bind_ok. apply secret_text_ok in H1 as [_ H1].
  destruct (Z.ltb_spec (len x) 32); [done|]. injection H2 as <-. by split.
Qed.

Lemma comma_list_ok `{U : Unicode} env k x : x ∈ comma_list env k -> x <> "".
Proof.
  unfold comma_list. destruct (String.eqb _ _); [by intros ?%not_elem_of_nil|].
  rewrite list_elem_of_In, filter_In. intros [_ H]. by apply negb_true_iff, String.eqb_neq in H.
Qed.

(** C39. A panel that starts has a sound configuration: a port in range, a known
    mode and profile, both token secrets of 32 bytes and more and no
    placeholder, an encryption key of exactly 32 bytes, a setup code that is
    absent or the hex of 32 bytes, the two required URLs, and no empty origin
    or proxy. *)
Theorem config_sound `{U : Unicode} (env : gmap string string) (c : PanelConfig) :
  Load env = Ok c ->
  1 <= pc_ServerPort c <= 65535 /\ (pc_Env c = "development" \/ pc_Env c = "production")
  /\ (pc_DeploymentProfile c = "solo" \/ pc_DeploymentProfile c = "hoster")
  /\ strong_secret (pc_JWTSecret c) /\ strong_secret (pc_JWTRefreshSecret c) /\ len (pc_TOTPEncKey c) = 32
  /\ (pc_SetupCodeHash c = "" \/ exists b, hex_decode (pc_SetupCodeHash c) = Some b /\ len b = 32 /\ len (pc_SetupCodeHash c) = 64)
  /\ pc_DatabaseURL c <> "" /\ pc_RedisURL c <> ""
  /\ forall x, x ∈ pc_CORSOrigins c \/ x ∈ pc_TrustedProxies c -> x <> "".
Proof.
  unfold Load. intros (port & Hport & H)%res_bind_ok. apply res_bind_ok in H as (run & Hrun & H).
  apply res_bind_ok in H as (code & Hcode & H). apply res_bind_ok in H as (db & Hdb & H). apply res_bind_ok in H as (redis & Hredis & H).
  apply res_bind_ok in H as (jwt & Hjwt & H). apply res_bind_ok in H as (jwtr & Hjwtr & H). apply res_bind_ok in H as (totp & Htotp & H).
  apply res_bind_ok in H as (g & _ & H). apply res_bind_ok in H as (mp & _ & H). apply res_bind_ok in H as (sp & _ & [= <-]).
  cbn [pc_ServerPort pc_Env pc_DeploymentProfile pc_JWTSecret pc_JWTRefreshSecret pc_TOTPEncKey pc_SetupCodeHash pc_DatabaseURL
    pc_RedisURL pc_CORSOrigins pc_TrustedProxies]. split_and!.
  1-2: unfold server_port in Hport; destruct (String.eqb _ _); [simplify_eq; lia|]; destruct (Atoi _) as [n|]; [|done];
    destruct ((n <? 1) || _) eqn:E; [done|]; simplify_eq; lia.
  - unfold run_env in Hrun. cbv zeta in Hrun. destruct (String.eqb_spec (getenv_or env "ENV" "production") "development"); cbn [negb andb] in Hrun; [left; congruence|].
    destruct (String.eqb_spec (getenv_or env "ENV" "production") "production"); cbn [negb andb] in Hrun; [right; congruence | done].
  - unfold deployment_profile. cbv zeta. generalize (ToLower (TrimSpace (Getenv env "DEPLOYMENT_PROFILE"))) as v. intros v.
    destruct (String.eqb_spec v "solo") as [->|]; [by left|].
    destruct (String.eqb_spec v "hoster") as [->|]; [by right | by left].
  - by eapply jwt_secret_ok.
  - by eapply jwt_secret_ok.
  - unfold totp_key in Htotp. apply res_bind_ok in Htotp as (v & _ & Htotp). destruct (hex_decode v) as [key|]; [|done].
    destruct (Z.eqb_spec (len key) 32); [by simplify_eq/= | done].
  - unfold setup_code_hash in Hcode. cbv zeta in Hcode. set (v := ToLower _) in Hcode. destruct (String.eqb_spec v "") as [|_]; [left; congruence|].
    right. destruct (hex_decode v) as [b|] eqn:E; [|done]. destruct (Z.eqb_spec (len b) 32) as [Hb|]; [|done]. injection Hcode as <-.
    exists b. split_and!; [done..|]. apply hex_decode_len in E. lia.
  - unfold required in Hdb. destruct (String.eqb_spec (Getenv env "DATABASE_URL") ""); congruence.
  - unfold required in Hredis. destruct (String.eqb_spec (Getenv env "REDIS_URL") ""); congruence.
  - intros x [Hx|Hx]; by eapply comma_list_ok.
Qed.

(** ** Theorems: migrations *)

Section migrate_theorems.
Context {Schema : Type} (pg_exec : string -> Schema -> res string Schema) (FS : gmap string string).

(** What became of a file: its script ran, or it was rolled back and passed
    over. *)
Inductive Outcome := Ran | PassedOver.

(** PostgreSQL refused the script as an object of it exists: an object, a
    table, a column, a function or a schema. *)
Definition duplicate_object (code : string) : Prop :=
  code = "42710" \/ code = "42P07" \/ code = "42701" \/ code = "42723" \/ code = "42P06".

(** What a file makes of a schema: the result of its script, or nothing. *)
Inductive file_step (name : string) (sch : Schema) : Outcome -> Schema -> Prop :=
| step_ran sch' : pg_exec (default "" (FS !! name)) sch = Ok sch' -> file_step name sch Ran sch'
| step_passed_over code :
    pg_exec (default "" (FS !! name)) sch = Err code -> duplicate_object code -> file_step name sch PassedOver sch.

(** The files in [l], one after the other. *)
Inductive migrated : list (string * Outcome) -> Schema -> Schema -> Prop :=
| migrated_nil sch : migrated [] sch sch
| migrated_cons name o l sch sch1 sch' :
    file_step name sch o sch1 -> migrated l sch1 sch' -> migrated ((name, o) :: l) sch sch'.

Lemma db_call_inv {A} msg (k : MigState -> res error A * MigState) (s s' : MigState (Schema := Schema)) r :
  db_call msg k s = (r, s') ->
  (exists e, r = Err e /\ mig_schema s' = mig_schema s /\ mig_versions s' = mig_versions s)
  \/ exists s1, mig_schema s1 = mig_schema s /\ mig_versions s1 = mig_versions s /\ k s1 = (r, s').
Proof.
  unfold db_call. destruct (mig_faults s) as [|[] fs].
  - intros H. right. by exists s.
  - intros [= <- <-]. left. by eexists.
  - intros H. right. by eexists _; split_and!; [..| exact H].
Qed.

Lemma record_inv name executed (sch : Schema) (s : MigState) r s' : record_version name executed sch s = (r, s') ->
  (is_ok r = false /\ mig_schema s' = mig_schema s /\ mig_versions s' = mig_versions s)
  \/ (is_ok r = true /\ mig_schema s' = sch /\ mig_versions s' = {[name]} ∪ mig_versions s).
Proof.
  unfold record_version. intros [(e & -> & ?)|(s1 & H1 & H2 & H)]%db_call_inv; [by left|].
  destruct (bool_decide _); [injection H as <- <-; by left|].
  apply db_call_inv in H as [(e & -> & ? & ?)|(s2 & H3 & H4 & [= <- <-])]; [left; split_and!; [done | congruence..]|].
  right. cbn. split_and!; [done..|]. congruence.
Qed.

Lemma applyOne_inv name (s : MigState) r s' : applyOne pg_exec name (default "" (FS !! name)) s = (r, s') ->
  (is_ok r = false /\ mig_schema s' = mig_schema s /\ mig_versions s' = mig_versions s)
  \/ (is_ok r = true /\ (exists o, file_step name (mig_schema s) o (mig_schema s'))
      /\ mig_versions s' = {[name]} ∪ mig_versions s).
Proof.
  unfold applyOne.
  intros [(e & -> & ?)|(s1 & H1 & H2 & H)]%db_call_inv; [by left|].
  apply db_call_inv in H as [(e & -> & ? & ?)|(s2 & H3 & H4 & H)]; [left; split_and!; [done | congruence..]|].
  rewrite <- H1, <- H2, <- H3, <- H4. clear H1 H2 H3 H4 s1 s.
  destruct (pg_exec _ (mig_schema s2)) as [sch|code] eqn:Ex.
  { apply record_inv in H as [?|(? & Hs & ?)]; [by left | right]. split_and!; [done | | done].
    exists Ran. rewrite Hs. by constructor. }
  destruct (contains alreadyExistsCodes code) eqn:E; [|injection H as <- <-; by left]. apply contains_spec in E.
  assert (Hdup : duplicate_object code) by (unfold alreadyExistsCodes, duplicate_object in *; set_solver).
  apply db_call_inv in H as [(e & -> & ? & ?)|(s3 & H3 & H4 & H)]; [by left|].
  apply record_inv in H as [(? & ? & ?)|(? & Hs & ?)]; [left; split_and!; [done | congruence..] | right].
  split_and!; [done | | congruence]. exists PassedOver.
  replace (mig_schema s') with (mig_schema s2) by congruence. by eapply step_passed_over.
Qed.

Lemma migrate_loop_inv rec files (s : MigState) r s' : migrate_loop pg_exec FS rec files s = (r, s') ->
  exists done_ rest, List.filter (fun f => negb (bool_decide (f ∈ rec))) files = done_.*1 ++ rest
  /\ migrated done_ (mig_schema s) (mig_schema s') /\ mig_versions s' = list_to_set done_.*1 ∪ mig_versions s
  /\ (is_ok r = true -> rest = []).
Proof.
  revert s. induction files as [|f files IH]; intros s H; cbn [migrate_loop List.filter] in *.
  - injection H as <- <-. exists [], []. split_and!; [done | constructor | cbn; set_solver | done].
  - destruct (bool_decide (f ∈ rec)); cbn [negb]; [by apply IH|].
    destruct (applyOne _ _ _ s) as [[b|e] s1] eqn:E; apply applyOne_inv in E as [(Hk & Hs & Hv)|(Hk & [o Hs] & Hv)]; try done.
    + apply IH in H as (d & rest & -> & Ha & Hv' & Hr). exists ((f, o) :: d), rest. split_and!; [done| | |done].
      * by eapply migrated_cons.
      * rewrite Hv', Hv. cbn. set_solver.
    + injection H as <- <-. eexists [], _. split_and!; [done| | |done]; [rewrite Hs; constructor | rewrite Hv; cbn; set_solver].
Qed.

(** C38. Migrations are taken in order, each at most once, and none by halves: of
    the files not yet recorded, in the order of their names, a first part was
    taken one after the other and recorded, and the rest was not touched,
    whatever fails.  A file that was taken ran, its script succeeding as a
    whole on the schema left by the files before it, or it was passed over
    without any effect, PostgreSQL having refused its script because one of
    its objects exists (one of five error codes).  After a success every file
    is recorded, and nothing is left for the next start. *)
Theorem migrations_in_order (s s' : MigState) (r : res error unit) :
  RunMigrations pg_exec FS s = (r, s') ->
  exists done_ rest,
    List.filter (fun f => negb (bool_decide (f ∈ mig_versions s))) (listMigrationFiles FS) = done_.*1 ++ rest
    /\ migrated done_ (mig_schema s) (mig_schema s') /\ mig_versions s' = list_to_set done_.*1 ∪ mig_versions s
    /\ (r = Ok tt -> rest = [] /\ forall f, f ∈ listMigrationFiles FS -> f ∈ mig_versions s').
Proof.
  unfold RunMigrations. intros [(e & -> & Hs & Hv)|(s1 & H1 & H2 & H)]%db_call_inv.
  { eexists [], _. split_and!; [done | rewrite Hs; constructor | rewrite Hv; cbn; set_solver | done]. }
  apply db_call_inv in H as [(e & -> & Hs & Hv)|(s2 & H3 & H4 & H)].
  { eexists [], _. split_and!; [done | rewrite Hs, H1; constructor | rewrite Hv, H2; cbn; set_solver | done]. }
  apply migrate_loop_inv in H as (d & rest & Hf & Ha & Hv & Hr).
  rewrite H3, H1 in Ha. rewrite H4, H2 in Hf, Hv. exists d, rest. split_and!; [done..|]. intros ->.
  rewrite (Hr eq_refl), app_nil_r in Hf. split; [by apply Hr|]. intros f Hin. rewrite Hv.
  destruct (decide (f ∈ mig_versions s)) as [|Hn]; [set_solver|]. apply elem_of_union_l, elem_of_list_to_set.
  rewrite <- Hf, list_elem_of_In, filter_In, <- list_elem_of_In. split; [done|]. by rewrite bool_decide_false.
Qed.
End migrate_theorems.

(** ** Theorems: the first owner *)

Lemma password_scan_exists l : password_scan l =
  (existsb (fun r => is_digit (rune_val r)) l, existsb (fun r => negb (is_digit (rune_val r)) && negb (is_alpha (rune_val r))) l).
Proof.
  unfold password_scan. enough (G : forall d y, fold_left (fun '(hasDigit, hasSymbol) r =>
    if is_digit (rune_val r) then (true, hasSymbol) else if is_alpha (rune_val r) then (hasDigit, hasSymbol) else (hasDigit, true)) l (d, y)
    = (d || existsb (fun r => is_digit (rune_val r)) l,
       y || existsb (fun r => negb (is_digit (rune_val r)) && negb (is_alpha (rune_val r))) l)) by apply (G false false).
  induction l as [|r l IH]; intros d y; cbn [fold_left existsb]; [by rewrite !orb_false_r|].
  destruct (is_digit (rune_val r)), (is_alpha (rune_val r)); rewrite IH; cbn; by rewrite ?orb_true_r.
Qed.

(** The rules for an owner's password are the panel's, in its own words. *)
Lemma owner_password_mirrors (password : string) :
  is_ok (validateOwnerPassword password) = is_ok (validatePasswordForRole RoleOwner password).
Proof.
  unfold validateOwnerPassword, validatePasswordForRole, RuneCount. rewrite String.eqb_refl. cbn [orb negb].
  destruct (_ <? 12); [done|]. rewrite password_scan_exists. unfold is_digit, is_alpha. cbv zeta. by destruct (_ || _).
Qed.

Section first_owner.
Context `{U : Unicode} `{P : Platform} `{L : !PlatformLaws P}.

Lemma find_key_row (t : gmap uuid User) p k v : find_key t p = Ok (k, v) -> t !! k = Some v /\ p v = true.
Proof.
  unfold find_key. destruct (List.filter _ _) as [|kv l] eqn:E; [done|]. intros [= ->].
  assert (Hin : In (k, v) (List.filter (fun kv => p (snd kv)) (map_to_list t))) by (rewrite E; by left).
  apply filter_In in Hin as [Hin Hp]. apply list_elem_of_In, elem_of_map_to_list in Hin. done.
Qed.

(** Every account of before is as it was. *)
Definition accounts_kept (d d' : DB) : Prop := forall k u, users d !! k = Some u -> users d' !! k = Some u.

Lemma insert_owner_inv id e n h t d x d' : insert_owner id e n h t d = Ok (x, d') ->
  accounts_kept d d' /\ forall k u, users d' !! k = Some u ->
    users d !! k = Some u \/ (k = id /\ users d !! id = None /\ u = mkUser id e n h RoleOwner "" false t None true None None "en" "UTC").
Proof.
  unfold insert_owner. destruct (exists_row _ _); [intros [= _ <-]; split; [by intros k u | by left]|].
  destruct (insert_user _ _ _ _ _ _ _) as [d1|e1] eqn:E; [|done]. intros [= _ <-].
  apply insert_user_inv in E as (Hn & _ & ->). split; intros k u; cbn.
  - intros Hk. rewrite lookup_insert_ne; [done|]. congruence.
  - intros [[<- <-]|[_ Hk]]%lookup_insert_Some; [by right | by left].
Qed.

(** The command that creates the first owner: whatever the outcome, every
    account of before stays as it was; a success means there is an account
    with that email, new unless the identifier was drawn before, and a new one
    is an active owner with that name whose password passes the rules of the
    panel for owners and opens it. *)
Theorem cli_owner (databaseURL : string) (migrate : M unit) (email username password : string) (w w' : World) (r : res error unit) :
  (forall d0, preserves (fun d => users d = users d0) migrate) ->
  admin_create databaseURL migrate None email username password w = (r, w') ->
  accounts_kept (w_db w) (w_db w')
  /\ (r = Ok tt -> exists k u, users (w_db w') !! k = Some u /\ citext_eq (user_Email u) (ToLower (TrimSpace email)) = true
      /\ (users (w_db w) !! k = None -> user_Role u = RoleOwner /\ user_IsActive u = true /\ user_Username u = TrimSpace username
          /\ is_ok (validatePasswordForRole RoleOwner password) = true /\ bcrypt_compare (user_PasswordHash u) password = true)).
Proof.
  intros Hmig H. unfold admin_create in H. cbv zeta in H. destruct (_ || _); [apply fail_inv in H as [-> ->]; split; [by intros k u | done]|].
  destruct (validateOwnerPassword password) as [[]|e] eqn:Ev; [|apply fail_inv in H as [-> ->]; split; [by intros k u | done]].
  destruct (String.eqb databaseURL ""); [apply fail_inv in H as [-> ->]; split; [by intros k u | done]|].
  assert (Hm : forall x w1, wrap "run migrations" migrate w = (x, w1) -> users (w_db w1) = users (w_db w)).
  { intros x w1 Hx. pose proof (preserves_wrap _ "run migrations" _ (Hmig (w_db w)) w eq_refl) as Hp. by rewrite Hx in Hp. }
  apply bind_inv in H as [([] & w1 & H1 & H)|(e & H1 & ->)]; [|apply Hm in H1; split; [intros k u; by rewrite H1 | done]].
  apply Hm in H1. apply bind_inv in H as [(salt & w2 & H2 & H)|(e & H2 & ->)]; [|done].
  apply rand_inv in H2 as (_ & H2 & _).
  destruct (bcrypt_generate password salt) as [hash|e] eqn:Eb; [|apply fail_inv in H as [-> ->]; split; [intros k u; by rewrite H2, H1 | done]].
  apply bind_inv in H as [(id & w3 & H3 & H)|(e & H3 & ->)]; [|done]. apply rand_inv in H3 as (_ & H3 & _).
  apply bind_inv in H as [(t & w4 & H4 & H)|(e & H4 & ->)]; [|done]. apply now_inv in H4 as [_ ->].
  assert (Hu : users (w_db w3) = users (w_db w)) by congruence. clear H1 H2 H3.
  apply bind_inv in H as [([] & w5 & H5 & H)|(e & H5 & ->)]; apply wrap_inv in H5 as [(? & [=] & H5)|(? & [=] & H5)]; subst;
    apply exec_inv in H5 as (_ & _ & _ & _ & [(? & d & [=] & Hins & <-)|(? & [=] & Hd & _)]); subst.
  - apply insert_owner_inv in Hins as [Hk Hall].
    apply bind_inv in H as [([k u] & w6 & H6 & H)|(e & H6 & ->)]; apply wrap_inv in H6 as [(? & [=] & H6)|(? & [=] & H6)]; subst;
      apply query_inv in H6 as (Hd6 & _ & _ & _ & _ & H6).
    + destruct H6 as [?|H6]; [done|]. symmetry in H6. apply find_key_row in H6 as [Hrow Hmail]. cbn [fst] in H.
      assert (Hacc : accounts_kept (w_db w) (w_db w')).
      { destruct (negb _); [apply fail_inv in H as [_ ->] | apply ret_inv in H as [_ ->]]; intros k0 u0 H0; rewrite Hd6; apply Hk; by rewrite Hu. }
      split; [done|]. intros ->. exists k, u. destruct (negb _); [done|]. apply ret_inv in H as [_ ->]. rewrite Hd6.
      split_and!; [done..|]. intros Hn. apply Hall in Hrow as [Hold|(-> & _ & ->)]; [rewrite Hu, Hn in Hold; done|].
      rewrite <- owner_password_mirrors, Ev. split_and!; try done. by eapply bcrypt_compare_generate.
    + split; [|done]. intros k u H0. rewrite Hd6. apply Hk. by rewrite Hu.
  - split; [|done]. intros k u H0. by rewrite Hd, Hu.
Qed.
End first_owner.

(** ** Witnesses *)

#[local] Existing Instances ascii_tables sample_platform sample_platform_laws.

Definition sample_env : gmap string string :=
  {["DATABASE_URL" := "postgres://db"; "REDIS_URL" := "redis://r"; "JWT_SECRET" := hex_bytes 16 1; "JWT_REFRESH_SECRET" := hex_bytes 16 2;
    "TOTP_ENC_KEY" := hex_bytes 32 3; "SERVER_PORT" := "9090"; "CORS_ORIGINS" := "https://a.example, ,https://b.example"]}.

Lemma config_sound_witness :
  exists c, Load sample_env = Ok c /\ pc_CORSOrigins c = ["https://a.example"; "https://b.example"]
  /\ strong_secret (pc_JWTSecret c) /\ len (pc_TOTPEncKey c) = 32.
Proof.
  destruct (Load sample_env) as [c|e] eqn:E; [|vm_compute in E; discriminate E]. exists c. split; [done|].
  pose proof (config_sound sample_env c E) as (_ & _ & _ & H1 & _ & H2 & _). split; [|by split].
  change c with (match Ok (E := error) c with Ok c => c | Err _ => c end). rewrite <- E. vm_compute. reflexivity.
Defined.

(** A schema is the set of its objects; a script creates its objects and fails
    at the first that is there. *)
Definition create_objects (script : string) (sch : gset string) : res string (gset string) :=
  fold_left (fun r o => match r with
    | Ok s => if bool_decide (o ∈ s) then Err "42P07" else Ok ({[o]} ∪ s)
    | Err e => Err e
    end) (Split ";" script) (Ok sch).

Definition sample_FS : gmap string string := {["001_a.sql" := "users"; "002_b.sql" := "idx_email;idx_role"; "readme.txt" := "x"]}.

(** The second file fails to commit: only the first is recorded. *)
Lemma migrations_in_order_witness :
  exists r s', RunMigrations create_objects sample_FS (mkMigState ∅ ∅ [false; false; false; false; false; false; false; false; false; true]) = (r, s')
  /\ is_ok r = false /\ mig_versions s' = {["001_a.sql"]} /\ mig_schema s' = {["users"]}
  /\ exists done_ rest, ["001_a.sql"; "002_b.sql"] = done_.*1 ++ rest /\ migrated create_objects sample_FS done_ ∅ (mig_schema s').
Proof.
  destruct (RunMigrations _ _ _) as [r s'] eqn:E. exists r, s'. split; [done|].
  pose proof (migrations_in_order create_objects sample_FS _ _ _ E) as (d & rest & Hf & Ha & _).
  assert (H1 : is_ok (fst (r, s')) = false) by (rewrite <- E; vm_compute; reflexivity).
  assert (H2 : bool_decide (mig_versions (snd (r, s')) = {["001_a.sql"]}) = true) by (rewrite <- E; vm_compute; reflexivity).
  assert (H3 : bool_decide (mig_schema (snd (r, s')) = {["users"]}) = true) by (rewrite <- E; vm_compute; reflexivity).
  apply bool_decide_eq_true in H2, H3. split_and!; [exact H1 | exact H2 | exact H3|]. exists d, rest. split; [|done]. rewrite <- Hf. vm_compute. reflexivity.
Defined.

(** On a database where one of the two indexes exists, the file is recorded as
    applied and the other index is never created. *)
Example partial_object_skips_file :
  let '(r, s') := RunMigrations create_objects sample_FS (mkMigState {["users"; "idx_email"]} {["001_a.sql"]} []) in
  r = Ok tt /\ "002_b.sql" ∈ mig_versions s' /\ "idx_role" ∉ mig_schema s'.
Proof.
  destruct (RunMigrations _ _ _) as [r s'] eqn:E.
  assert (H1 : fst (r, s') = Ok tt) by (rewrite <- E; vm_compute; reflexivity).
  assert (H2 : bool_decide ("002_b.sql" ∈ mig_versions (snd (r, s'))) = true) by (rewrite <- E; vm_compute; reflexivity).
  assert (H3 : bool_decide ("idx_role" ∈ mig_schema (snd (r, s'))) = false) by (rewrite <- E; vm_compute; reflexivity).
  split; [exact H1|]. split; [by apply bool_decide_eq_true in H2 | by apply bool_decide_eq_false in H3].
Qed.

Definition cli_run := admin_create "postgres://db" (ret tt) None " Owner@Example.com" "owner_1" "correct-horse-7" empty_world.

Lemma cli_owner_witness :
  fst cli_run = Ok tt /\ accounts_kept (w_db empty_world) (w_db (snd cli_run))
  /\ exists k u, users (w_db (snd cli_run)) !! k = Some u /\ citext_eq (user_Email u) "owner@example.com" = true
     /\ user_Role u = RoleOwner /\ bcrypt_compare (user_PasswordHash u) "correct-horse-7" = true.
Proof.
  split; [vm_compute; reflexivity|]. destruct cli_run as [r w'] eqn:E.
  assert (Hr : r = Ok tt) by (change r with (fst (r, w')); rewrite <- E; vm_compute; reflexivity). unfold cli_run in E.
  apply (cli_owner "postgres://db" (ret tt)) in E as [Hk Hok]; [|intros d0; apply preserves_ret]. split; [exact Hk|].
  destruct (Hok Hr) as (k & u & H1 & H2 & H3). exists k, u. split; [exact H1|]. split; [exact H2|].
  destruct (H3 ltac:(reflexivity)) as (? & _ & _ & _ & ?). by split.
Defined.
