(* ===== verification/Panel.v ===== *)
(** * The panel as a whole

    Every route of [router/router.go] with the handler that answers it, the
    jobs and loops that run beside the requests, and the panel as a transition
    system over them.

    [endpoint name i c m]: [m] is a run of the handler registered as [name],
    with [i] for the path parameter [:id] and the context [c] the middleware
    left; bodies, queries and further path parameters are arguments of their
    own, and so is what the process keeps in memory (the CurseForge key, the
    active mail configuration, the login to the game account, the throttle of
    game sessions), since each request finds it as some earlier one left it. *)

From stdpp Require Import base numbers list strings option gmap relations.
From S2P Require Import Prelude GoStrings Store Roles Platform Cron Auth Net Daemon Middleware Http GameCommands ServerHandlers Mods Databases AccountHandlers PlayerHandlers Settings HytaleAuth Registries Pki Destinations Mail Webhooks Backups ResourceHandlers Router NetworkRouting Nodes NodeHandlers Startup.

Local Open Scope Z_scope.

Section panel.
Context `{U : Unicode} `{P : Platform} `{G : Gin} `{L : Location} `{X : X509} `{CL : CertLib} `{ML : MailLibrary}
  `{MD : MariaDB} `{V : Provider} `{D : RegistryDocs}.
Context `{J1 : Json LoginResult} `{J2 : Json json} `{J3 : Json (gmap string string)} `{J4 : Json Keyring} `{J5 : DaemonJson}
  `{J6 : HytaleJson} `{J7 : Json (list HytaleProfile)} `{J8 : Json UpdateInfo} `{J9 : Json HytaleVersions}
  `{J10 : Json ModNetworkConfig} `{J11 : Json pemPair} `{J12 : Json SMTPConfig}.

(** The configuration: secrets, mode, directories, the MariaDB server and the
    mail settings of the environment. *)
Context (cfg : Config) (devMode : bool) (serversBaseDir appVersion dsn host : string) (port : Z) (smtpEnv : SMTPConfig)
  (url_parse : string -> option URL).

(** The accounts that act: the restriction under which the panel is looked at. *)
Context (may : User -> Prop).

Abbreviation encKey := (cfg_TOTPEncKey cfg).
Abbreviation secure := (negb devMode).

(** [NewGameSession] as [DaemonGameSession] uses it: no session while no
    account is linked. *)
Definition mint_session (s : HytaleState) : M (res string (option GameSession)) :=
  let* (r, s') := NewGameSession encKey DefaultHytaleAuthEndpoints s in
  ret match r with
      | Ok g => Ok (Some g)
      | Err e => if error_Is e ErrHytaleNotLinked then Ok None else Err (error_Error e)
      end.

(** The certificates for calls to nodes, at the start of [SetupRouter]: on any
    failure the calls stay without them. *)
Definition start_mtls : M unit :=
  let* ca := attempt (CACertPEM encKey) in
  match ca with
  | Err _ => ret tt
  | Ok caPEM =>
    let* crt := attempt (PanelClientCert encKey) in
    match crt with
    | Err _ => ret tt
    | Ok (certPEM, keyPEM) => ignore (pool_SetTLSMaterial caPEM certPEM keyPEM)
    end
  end.

(** ** Handlers of the routes

    While a refresh waits for a rotated token, other requests run. *)
Definition may_act (c : Ctx) : Prop := forall u, ctx_User c = Some u -> may u.

Inductive endpoint : string -> string -> Ctx -> forall {A}, M A -> Prop :=
| ep_auth_Refresh i c wait cookie ip ua (names params : nat -> string) (ctxs : nat -> Ctx) :
    (forall n, may_act (ctxs n)) -> (forall n m, wait n = Some m -> endpoint (names n) (params n) (ctxs n) m) ->
    endpoint "authH.Refresh" i c (AccountHandlers.RefreshHandler cfg secure wait cookie ip ua)
| ep_health_Liveness i c : endpoint "healthH.Liveness" i c now
| ep_health_Readiness i c : endpoint "healthH.Readiness" i c NodeHandlers.Readiness
| ep_health_SetupStatus i c : endpoint "healthH.SetupStatus" i c NodeHandlers.SetupStatus
| ep_health_PublicConfig i c github profile :
    endpoint "healthH.PublicConfig" i c (Registries.PublicConfig github appVersion profile)
| ep_auth_CompleteSetup i c b ip ua :
    endpoint "authH.CompleteSetup" i c (AccountHandlers.CompleteSetupHandler cfg secure b ip ua)
| ep_auth_Register i c b : endpoint "authH.Register" i c (AccountHandlers.RegisterHandler b)
| ep_auth_Login i c b ip ua : endpoint "authH.Login" i c (AccountHandlers.LoginHandler cfg secure b ip ua)
| ep_auth_VerifyTOTP i c b ip ua :
    endpoint "authH.VerifyTOTP" i c (AccountHandlers.VerifyTOTPHandler cfg secure b ip ua)
| ep_auth_Logout i c hdr cookie :
    endpoint "authH.Logout" i c (Middleware.LogoutHandler (cfg_JWTSecret cfg) hdr cookie)
| ep_auth_Me i c : endpoint "authH.Me" i c (AccountHandlers.MeHandler cfg (ctx_User c))
| ep_auth_ChangePassword i c b :
    endpoint "authH.ChangePassword" i c (AccountHandlers.ChangePasswordHandler cfg (ctx_User c) b)
| ep_auth_SetupTOTP i c : endpoint "authH.SetupTOTP" i c (AccountHandlers.SetupTOTPHandler cfg (ctx_User c))
| ep_auth_ConfirmTOTP i c b : endpoint "authH.ConfirmTOTP" i c (AccountHandlers.ConfirmTOTPHandler cfg (ctx_User c) b)
| ep_auth_DisableTOTP i c b : endpoint "authH.DisableTOTP" i c (AccountHandlers.DisableTOTPHandler cfg (ctx_User c) b)
| ep_profile_GetProfile i c u :
    ctx_User c = Some u -> endpoint "profileH.GetProfile" i c (AccountHandlers.GetProfileHandler u)
| ep_profile_UpdateProfile i c u b :
    ctx_User c = Some u -> endpoint "profileH.UpdateProfile" i c (AccountHandlers.UpdateProfileHandler u b)
| ep_profile_GetNotificationPrefs i c u :
    ctx_User c = Some u -> endpoint "profileH.GetNotificationPrefs" i c (AccountHandlers.GetNotificationPrefsHandler u)
| ep_profile_SetNotificationPrefs i c u b :
    ctx_User c = Some u -> endpoint "profileH.SetNotificationPrefs" i c (AccountHandlers.SetNotificationPrefsHandler u b)
| ep_auth_GetActivity i c : endpoint "authH.GetActivity" i c (AccountHandlers.GetActivityHandler (ctx_User c))
| ep_auth_GetSessions i c : endpoint "authH.GetSessions" i c (AccountHandlers.GetSessionsHandler (ctx_User c))
| ep_auth_RevokeSession i c : endpoint "authH.RevokeSession" i c (AccountHandlers.RevokeSessionHandler (ctx_User c) i)
| ep_hytale_Versions i c maven : endpoint "hytaleH.Versions" i c (Registries.Versions maven)
| ep_server_ListServers i c u :
    ctx_User c = Some u -> endpoint "serverH.ListServers" i c (ServerHandlers.ListServersHandler u)
| ep_player_DashboardActivity i c u :
    ctx_User c = Some u -> endpoint "playerH.DashboardActivity" i c (PlayerHandlers.DashboardActivity u)
| ep_server_CreateServer i c u b :
    ctx_User c = Some u -> endpoint "serverH.CreateServer" i c (ServerHandlers.CreateServerHandler serversBaseDir u b)
| ep_server_GetServer i c u :
    ctx_User c = Some u -> endpoint "serverH.GetServer" i c (ServerHandlers.GetServerHandler i u)
| ep_server_UpdateServer i c u b :
    ctx_User c = Some u -> endpoint "serverH.UpdateServer" i c (ServerHandlers.UpdateServerHandler i u b)
| ep_server_DeleteServer i c u :
    ctx_User c = Some u -> endpoint "serverH.DeleteServer" i c (ServerHandlers.DeleteServerHandler i u)
| ep_server_StartServer i c u :
    ctx_User c = Some u -> endpoint "serverH.StartServer" i c (ServerHandlers.StartServerHandler i u)
| ep_server_StopServer i c u :
    ctx_User c = Some u -> endpoint "serverH.StopServer" i c (ServerHandlers.StopServerHandler i u)
| ep_server_RestartServer i c u :
    ctx_User c = Some u -> endpoint "serverH.RestartServer" i c (ServerHandlers.RestartServerHandler i u)
| ep_server_KillServer i c u :
    ctx_User c = Some u -> endpoint "serverH.KillServer" i c (ServerHandlers.KillServerHandler i u)
| ep_server_ReinstallServer i c u :
    ctx_User c = Some u -> endpoint "serverH.ReinstallServer" i c (ServerHandlers.ReinstallServerHandler i u)
| ep_server_GetMetrics i c u :
    ctx_User c = Some u -> endpoint "serverH.GetMetrics" i c (ServerHandlers.GetMetrics i u)
| ep_server_GetLogs i c u : ctx_User c = Some u -> endpoint "serverH.GetLogs" i c (ServerHandlers.GetLogsHandler i u)
| ep_server_SendConsoleCommand i c u b :
    ctx_User c = Some u -> endpoint "serverH.SendConsoleCommand" i c (ServerHandlers.SendConsoleCommandHandler i u b)
| ep_server_MigrateServer i c b : endpoint "serverH.MigrateServer" i c (ServerHandlers.MigrateServer i b (ctx_User c))
| ep_server_ListFiles i c u p :
    ctx_User c = Some u -> endpoint "serverH.ListFiles" i c (ServerHandlers.ListFiles i u p)
| ep_server_GetFileContent i c u p :
    ctx_User c = Some u -> endpoint "serverH.GetFileContent" i c (ServerHandlers.GetFileContent i u p)
| ep_server_WriteFileContent i c u b :
    ctx_User c = Some u -> endpoint "serverH.WriteFileContent" i c (ServerHandlers.WriteFileContent i u b)
| ep_server_DeleteFile i c u p :
    ctx_User c = Some u -> endpoint "serverH.DeleteFile" i c (ServerHandlers.DeleteFile i u p)
| ep_server_CreateDirectory i c u b :
    ctx_User c = Some u -> endpoint "serverH.CreateDirectory" i c (ServerHandlers.CreateDirectory i u b)
| ep_server_RenameFile i c u b :
    ctx_User c = Some u -> endpoint "serverH.RenameFile" i c (ServerHandlers.RenameFile i u b)
| ep_server_UploadFile i c u ct p data :
    ctx_User c = Some u -> endpoint "serverH.UploadFile" i c (ServerHandlers.UploadFile i u ct p data)
| ep_server_DownloadFile i c u p :
    ctx_User c = Some u -> endpoint "serverH.DownloadFile" i c (ServerHandlers.DownloadFile i u p)
| ep_server_ExtractArchive i c u b :
    ctx_User c = Some u -> endpoint "serverH.ExtractArchive" i c (ServerHandlers.ExtractArchive i u b)
| ep_server_CreateArchive i c u b :
    ctx_User c = Some u -> endpoint "serverH.CreateArchive" i c (ServerHandlers.CreateArchive i u b)
| ep_mod_ListMods i c : endpoint "modH.ListMods" i c (Mods.ListModsHandler i)
| ep_mod_UploadMod i c f name : endpoint "modH.UploadMod" i c (Mods.UploadMod i f name)
| ep_mod_InstallMod i c u b :
    ctx_User c = Some u -> endpoint "modH.InstallMod" i c (Mods.InstallModHandler url_parse i u b)
| ep_mod_RemoveMod i c f : endpoint "modH.RemoveMod" i c (Mods.RemoveModHandler i f)
| ep_mod_ToggleMod i c f b : endpoint "modH.ToggleMod" i c (Mods.ToggleModHandler i f b)
| ep_mod_SwitchModVersion i c u f b :
    ctx_User c = Some u -> endpoint "modH.SwitchModVersion" i c (Mods.SwitchModVersionHandler url_parse i f u b)
| ep_plugin_ListPlugins i c : endpoint "pluginH.ListPlugins" i c (Mods.ListPlugins i)
| ep_plugin_TogglePlugin i c f b : endpoint "pluginH.TogglePlugin" i c (Mods.TogglePlugin i f b)
| ep_gameCmd_ListGameCommands i c : endpoint "gameCmdH.ListGameCommands" i c (GameCommands.ListGameCommands i)
| ep_gameCmd_CreateGameCommand i c b : endpoint "gameCmdH.CreateGameCommand" i c (GameCommands.CreateGameCommand i b)
| ep_gameCmd_ExecuteGameCommand i c b :
    endpoint "gameCmdH.ExecuteGameCommand" i c (GameCommands.ExecuteGameCommand i (ctx_User c) b)
| ep_gameCmd_DeleteGameCommand i c p : endpoint "gameCmdH.DeleteGameCommand" i c (GameCommands.DeleteGameCommand i p)
| ep_world_ListWorlds i c : endpoint "worldH.ListWorlds" i c (ResourceHandlers.ListWorldsHandler i)
| ep_world_CreateWorld i c : endpoint "worldH.CreateWorld" i c (ret ResourceHandlers.CreateWorldHandler)
| ep_world_SetActiveWorld i c p : endpoint "worldH.SetActiveWorld" i c (ResourceHandlers.SetActiveWorldHandler i p)
| ep_world_DeleteWorld i c p : endpoint "worldH.DeleteWorld" i c (ResourceHandlers.DeleteWorldHandler i p)
| ep_player_ListPlayers i c : endpoint "playerH.ListPlayers" i c (PlayerHandlers.ListPlayersHandler i)
| ep_player_GetPlayer i c p : endpoint "playerH.GetPlayer" i c (PlayerHandlers.GetPlayerHandler i p)
| ep_player_GetPlayerSessions i c p :
    endpoint "playerH.GetPlayerSessions" i c (PlayerHandlers.GetPlayerSessionsHandler i p)
| ep_player_BanPlayer i c p b : endpoint "playerH.BanPlayer" i c (PlayerHandlers.BanPlayerHandler i p (ctx_User c) b)
| ep_player_UnbanPlayer i c p : endpoint "playerH.UnbanPlayer" i c (PlayerHandlers.UnbanPlayerHandler i p)
| ep_player_KickPlayer i c p b :
    endpoint "playerH.KickPlayer" i c (PlayerHandlers.KickPlayerHandler i p (ctx_User c) b)
| ep_player_SetWhitelist i c p b : endpoint "playerH.SetWhitelist" i c (PlayerHandlers.SetWhitelistHandler i p b)
| ep_player_SetOp i c u p b :
    ctx_User c = Some u -> endpoint "playerH.SetOp" i c (PlayerHandlers.SetOpHandler i p u b)
| ep_player_SetMute i c p b : endpoint "playerH.SetMute" i c (PlayerHandlers.SetMuteHandler i p b)
| ep_backup_ListSchedules i c : endpoint "backupH.ListSchedules" i c (ResourceHandlers.ListSchedulesHandler i)
| ep_inv_CreateInvitation i c u b :
    ctx_User c = Some u -> endpoint "invH.CreateInvitation" i c (AccountHandlers.CreateInvitationHandler u i b)
| ep_inv_ListInvitations i c : endpoint "invH.ListInvitations" i c (AccountHandlers.ListInvitationsHandler i)
| ep_inv_RevokeInvitation i c p : endpoint "invH.RevokeInvitation" i c (AccountHandlers.RevokeInvitationHandler i p)
| ep_db_GetDatabase i c : endpoint "dbH.GetDatabase" i c (Databases.GetDatabaseHandler i)
| ep_db_CreateDatabase i c s : endpoint "dbH.CreateDatabase" i c (Databases.CreateDatabaseHandler dsn host port i s)
| ep_db_DeleteDatabase i c s : endpoint "dbH.DeleteDatabase" i c (Databases.DeleteDatabaseHandler dsn i s)
| ep_db_ResetPassword i c s : endpoint "dbH.ResetPassword" i c (Databases.ResetPasswordHandler dsn i s)
| ep_inv_ListMyInvitations i c u :
    ctx_User c = Some u -> endpoint "invH.ListMyInvitations" i c (AccountHandlers.ListMyInvitationsHandler u)
| ep_inv_AcceptInvitation i c u tok :
    ctx_User c = Some u -> endpoint "invH.AcceptInvitation" i c (AccountHandlers.AcceptInvitationHandler u tok)
| ep_inv_DeclineInvitation i c tok :
    endpoint "invH.DeclineInvitation" i c (AccountHandlers.DeclineInvitationHandler tok)
| ep_mod_SearchMods i c web fuel q page size s :
    endpoint "modH.SearchMods" i c (ret (Registries.SearchModsHandler web fuel q page size s))
| ep_mod_GetModFiles i c web p s : endpoint "modH.GetModFiles" i c (ret (Registries.GetModFilesHandler web p s))
| ep_backup_ListBackups i c u p :
    ctx_User c = Some u -> endpoint "backupH.ListBackups" i c (ResourceHandlers.ListBackupsHandler u p)
| ep_backup_CreateBackup i c u b :
    ctx_User c = Some u -> endpoint "backupH.CreateBackup" i c (ResourceHandlers.CreateBackupHandler encKey u b)
| ep_backup_DeleteBackup i c u p :
    ctx_User c = Some u -> endpoint "backupH.DeleteBackup" i c (ResourceHandlers.DeleteBackupHandler encKey u p)
| ep_backup_RestoreBackup i c u p :
    ctx_User c = Some u -> endpoint "backupH.RestoreBackup" i c (ResourceHandlers.RestoreBackupHandler encKey u p)
| ep_backup_DownloadBackup i c u p :
    ctx_User c = Some u -> endpoint "backupH.DownloadBackup" i c (ResourceHandlers.DownloadBackupHandler encKey u p)
| ep_backup_RetryUpload i c u p :
    ctx_User c = Some u -> endpoint "backupH.RetryUpload" i c (ResourceHandlers.RetryUploadHandler u p)
| ep_backupDest_ListSummaries i c : endpoint "backupDestH.ListSummaries" i c ResourceHandlers.ListSummariesHandler
| ep_backup_CreateSchedule i c u b :
    ctx_User c = Some u -> endpoint "backupH.CreateSchedule" i c (ResourceHandlers.CreateScheduleHandler u b)
| ep_backup_ToggleSchedule i c u p b :
    ctx_User c = Some u -> endpoint "backupH.ToggleSchedule" i c (ResourceHandlers.ToggleScheduleHandler u p b)
| ep_backup_DeleteSchedule i c u p :
    ctx_User c = Some u -> endpoint "backupH.DeleteSchedule" i c (ResourceHandlers.DeleteScheduleHandler u p)
| ep_alert_ListRules i c : endpoint "alertH.ListRules" i c (ResourceHandlers.ListRulesHandler (ctx_User c))
| ep_alert_CreateRule i c b :
    endpoint "alertH.CreateRule" i c (ResourceHandlers.CreateRuleHandler url_parse (ctx_User c) b)
| ep_alert_ToggleRule i c p b : endpoint "alertH.ToggleRule" i c (ResourceHandlers.ToggleRuleHandler (ctx_User c) p b)
| ep_alert_DeleteRule i c p : endpoint "alertH.DeleteRule" i c (ResourceHandlers.DeleteRuleHandler (ctx_User c) p)
| ep_alert_ListEvents i c : endpoint "alertH.ListEvents" i c (ResourceHandlers.ListEventsHandler (ctx_User c))
| ep_alert_ResolveEvent i c p :
    endpoint "alertH.ResolveEvent" i c (ResourceHandlers.ResolveEventHandler (ctx_User c) p)
| ep_admin_CreateUser i c b : endpoint "adminH.CreateUser" i c (AccountHandlers.CreateUser (ctx_User c) b)
| ep_admin_ListUsers i c : endpoint "adminH.ListUsers" i c AccountHandlers.ListUsersHandler
| ep_admin_UpdateUserRole i c b :
    endpoint "adminH.UpdateUserRole" i c (AccountHandlers.UpdateUserRoleHandler i (ctx_User c) b)
| ep_admin_ToggleUserActive i c b :
    endpoint "adminH.ToggleUserActive" i c (AccountHandlers.ToggleUserActive i (ctx_User c) b)
| ep_admin_DeleteUser i c : endpoint "adminH.DeleteUser" i c (AccountHandlers.DeleteUserHandler i (ctx_User c))
| ep_admin_UpdateNodeStatus i c b : endpoint "adminH.UpdateNodeStatus" i c (NodeHandlers.UpdateNodeStatus i b)
| ep_admin_GetActivityLogs i c : endpoint "adminH.GetActivityLogs" i c AccountHandlers.GetActivityLogsHandler
| ep_admin_GetUserPermissions i c :
    endpoint "adminH.GetUserPermissions" i c (AccountHandlers.GetUserPermissionsHandler i)
| ep_admin_SetUserPermissions i c b :
    endpoint "adminH.SetUserPermissions" i c (AccountHandlers.SetUserPermissions i b)
| ep_enrollment_CreateEnrollment i c b :
    endpoint "enrollmentH.CreateEnrollment" i c (NodeHandlers.CreateEnrollment (ctx_User c) b)
| ep_admin_CheckUpdate i c github :
    endpoint "adminH.CheckUpdate" i c (Registries.CheckUpdateHandler github appVersion)
| ep_integrations_GetCurseForge i c s : endpoint "integrationsH.GetCurseForge" i c (Registries.GetCurseForge encKey s)
| ep_integrations_UpdateCurseForge i c u b s :
    ctx_User c = Some u -> endpoint "integrationsH.UpdateCurseForge" i c (Registries.UpdateCurseForge encKey u b s)
| ep_smtp_GetSMTP i c active : endpoint "smtpH.GetSMTP" i c (Mail.GetSMTPHandler encKey active)
| ep_smtp_UpdateSMTP i c u active b :
    ctx_User c = Some u -> endpoint "smtpH.UpdateSMTP" i c (Mail.UpdateSMTPHandler encKey smtpEnv active u b)
| ep_smtp_TestSMTP i c u dial deliver active :
    ctx_User c = Some u -> endpoint "smtpH.TestSMTP" i c (ret (Mail.TestSMTPHandler dial deliver active u))
| ep_backupKey_Status i c : endpoint "backupKeyH.Status" i c (ResourceHandlers.BackupKeyStatus encKey)
| ep_backupKey_Export i c : endpoint "backupKeyH.Export" i c (ResourceHandlers.BackupKeyExport encKey)
| ep_backupKey_Rotate i c : endpoint "backupKeyH.Rotate" i c (ResourceHandlers.BackupKeyRotate encKey (ctx_User c))
| ep_backupDest_Providers i c : endpoint "backupDestH.Providers" i c (ret ResourceHandlers.Providers)
| ep_backupDest_List i c : endpoint "backupDestH.List" i c (ResourceHandlers.ListDestinationsHandler encKey)
| ep_backupDest_Create i c u b :
    ctx_User c = Some u -> endpoint "backupDestH.Create" i c (ResourceHandlers.CreateDestinationHandler encKey u b)
| ep_backupDest_Update i c b :
    endpoint "backupDestH.Update" i c (ResourceHandlers.UpdateDestinationHandler encKey i b)
| ep_backupDest_Delete i c : endpoint "backupDestH.Delete" i c (ResourceHandlers.DeleteDestinationHandler i)
| ep_backupDest_Test i c node :
    endpoint "backupDestH.Test" i c (ResourceHandlers.TestDestinationHandler encKey i node)
| ep_hytale_AuthStatus i c s : endpoint "hytaleH.AuthStatus" i c (HytaleAuth.AuthStatus encKey s)
| ep_hytale_StartDeviceLogin i c s :
    endpoint "hytaleH.StartDeviceLogin" i c (HytaleAuth.StartDeviceLoginHandler DefaultHytaleAuthEndpoints s)
| ep_hytale_PollDeviceLogin i c s :
    endpoint "hytaleH.PollDeviceLogin" i c (HytaleAuth.PollDeviceLoginHandler encKey DefaultHytaleAuthEndpoints (ctx_User c) s)
| ep_hytale_SelectProfile i c b s : endpoint "hytaleH.SelectProfile" i c (HytaleAuth.SelectProfileHandler encKey b s)
| ep_hytale_Unlink i c s : endpoint "hytaleH.Unlink" i c (HytaleAuth.UnlinkHandler encKey s)
| ep_enrollment_Redeem i c b : endpoint "enrollmentH.Redeem" i c (NodeHandlers.RedeemHandler b)
| ep_server_DaemonStatusUpdate i c b :
    endpoint "serverH.DaemonStatusUpdate" i c (ServerHandlers.DaemonStatusUpdate true i (uuid_string <$> ctx_Node c) b)
| ep_server_DaemonLogsIngest i c b :
    endpoint "serverH.DaemonLogsIngest" i c (ServerHandlers.DaemonLogsIngest i (uuid_string <$> ctx_Node c) b)
| ep_plugin_DaemonPluginReport i c b :
    endpoint "pluginH.DaemonPluginReport" i c (Mods.DaemonPluginReport i (uuid_string <$> ctx_Node c) b)
| ep_player_DaemonPlayerReport i c b :
    endpoint "playerH.DaemonPlayerReport" i c (PlayerHandlers.DaemonPlayerReport i (uuid_string <$> ctx_Node c) b)
| ep_world_DaemonWorldReport i c b :
    endpoint "worldH.DaemonWorldReport" i c (ResourceHandlers.DaemonWorldReport i (uuid_string <$> ctx_Node c) b)
| ep_server_DaemonGameSession i c s last :
    endpoint "serverH.DaemonGameSession" i c (ServerHandlers.DaemonGameSession (Some (mint_session s)) i (uuid_string <$> ctx_Node c) last)
| ep_player_ListNetworkPlayers i c :
    endpoint "playerH.ListNetworkPlayers" i c (PlayerHandlers.ListNetworkPlayersHandler (ctx_User c))
| ep_player_BanNetworkPlayer i c p b :
    endpoint "playerH.BanNetworkPlayer" i c (PlayerHandlers.BanNetworkPlayerHandler p (ctx_User c) b)
| ep_player_UnbanNetworkPlayer i c p :
    endpoint "playerH.UnbanNetworkPlayer" i c (PlayerHandlers.UnbanNetworkPlayerHandler p (ctx_User c))
| ep_networkRouting_SetServerRole i c b :
    endpoint "networkRoutingH.SetServerRole" i c (NetworkRouting.SetServerRoleHandler i b)
| ep_networkRouting_Distribute i c : endpoint "networkRoutingH.Distribute" i c NetworkRouting.DistributeHandler
| ep_node_ListNodes i c : endpoint "nodeH.ListNodes" i c NodeHandlers.ListNodesHandler
| ep_node_RegisterNode i c b : endpoint "nodeH.RegisterNode" i c (NodeHandlers.RegisterNodeHandler b)
| ep_node_GetClusterStats i c : endpoint "nodeH.GetClusterStats" i c NodeHandlers.GetClusterStatsHandler
| ep_node_GetNode i c : endpoint "nodeH.GetNode" i c (NodeHandlers.GetNodeHandler i)
| ep_node_GetNodeMetrics i c q : endpoint "nodeH.GetNodeMetrics" i c (NodeHandlers.GetNodeMetricsHandler i q)
| ep_node_GetNetworkStats i c : endpoint "nodeH.GetNetworkStats" i c (NodeHandlers.GetNetworkStats i)
| ep_node_UpdateNode i c b : endpoint "nodeH.UpdateNode" i c (NodeHandlers.UpdateNodeHandler i b)
| ep_node_DeleteNode i c : endpoint "nodeH.DeleteNode" i c (NodeHandlers.DeleteNodeHandler i)
| ep_node_DaemonSelfRegister i c b :
    endpoint "nodeH.DaemonSelfRegister" i c (NodeHandlers.DaemonSelfRegisterHandler devMode i (uuid_string <$> ctx_Node c) b)
| ep_node_NodeHeartbeat i c hdr b :
    endpoint "nodeH.NodeHeartbeat" i c (NodeHandlers.NodeHeartbeat true true i (uuid_string <$> ctx_Node c) hdr b)
| ep_nodeCSR_SignCSR i c n b :
    ctx_Node c = Some n -> endpoint "nodeCSRH.SignCSR" i c (Pki.SignCSRHandler encKey i n b)
| ep_node_GetPendingCommands i c :
    endpoint "nodeH.GetPendingCommands" i c (NodeHandlers.GetPendingCommandsHandler i (uuid_string <$> ctx_Node c))
| ep_node_AckCommand i c p b :
    endpoint "nodeH.AckCommand" i c (NodeHandlers.AckCommandHandler i p (uuid_string <$> ctx_Node c) b)
| ep_node_ReportDDoS i c b :
    endpoint "nodeH.ReportDDoS" i c (NodeHandlers.ReportDDoS true true i (uuid_string <$> ctx_Node c) b)
| ep_map name i c A B (m : M A) (f : A -> B) : endpoint name i c m -> endpoint name i c (let* a := m in ret (f a)).

(** ** Beside the requests

    The jobs handlers leave behind, the loops and the start-up of the server,
    and [talecli node enroll]. *)
Inductive background : forall {A}, M A -> Prop :=
| bg_backup j : background (Backups.run_job encKey j)
| bg_schedules : background (runDueSchedules encKey)
| bg_reset_uploads : background reset_uploads
| bg_metrics j : background (NodeHandlers.run_job j)
| bg_start_begin s : background (start_begin s)
| bg_start_tick s client : background (start_tick s client)
| bg_start_timeout s : background (start_timeout s)
| bg_stop n s : background (dispatchStop n s)
| bg_restart s : background (dispatchRestart s)
| bg_kill n s : background (dispatchKill n s)
| bg_provision s : background (dispatchProvision s)
| bg_reinstall s : background (dispatchReinstall s)
| bg_evaluator ticks : background (Webhooks.Start true ticks)
| bg_sessions : background cleanupOnce
| bg_distribute : background DistributeAll
| bg_mtls : background start_mtls
| bg_curseforge key id : background (start_curseforge encKey key id)
| bg_smtp : background (start_smtp encKey smtpEnv)
| bg_cli_node url name n ttl : background (node_enroll url (ret tt) name n ttl).

(** ** The transition system *)

(** What the chain of a route leaves in the context of its handler. *)
Definition admitted (rt : Route) (c : Ctx) : Prop :=
  (authRequired ∈ rt_Chain rt -> is_Some (ctx_User c)) /\ (daemonNodeAuth ∈ rt_Chain rt -> is_Some (ctx_Node c)).

(** A request for a route of the table, answered by its handler; a step beside
    the requests; [talecli admin create], which acts as an owner; time. *)
Inductive panel_step : World -> World -> Prop :=
| step_request rt handler i r w :
    rt ∈ SetupRouter ->
    (forall u, authenticated (cfg_JWTSecret cfg) w (req_Authorization r) u -> may u) ->
    (forall c r', admitted rt c -> endpoint (rt_Handler rt) i c (handler c r')) ->
    panel_step w (snd (serve (cfg_JWTSecret cfg) devMode rt handler i r w))
| step_background A (m : M A) w : background m -> panel_step w (snd (m w))
| step_cli u url prompts email name pw w :
    may u -> user_Role u = RoleOwner -> panel_step w (snd (admin_create url (ret tt) prompts email name pw w))
| step_wait t w : panel_step w (snd (sleep t w)).
End panel.
