(* ===== verification/PanelInvariants.v ===== *)
(** * Invariants of the whole panel

    An invariant of the database that survives each kind of statement on the
    tables it reads survives every request, job and loop of the panel: the
    class [PanelInvariant] is what a component promises to the others, and
    [panel_steps_preserve] composes them over [panel_step]. *)

From stdpp Require Import base numbers list strings option gmap relations.
From Stdlib Require Import QArith_base.
From S2P Require Import Prelude GoStrings Store Roles Permissions Invitations Platform Crypto Cron Auth Setup AuthTheorems Players Servers Worlds Net Alerts Daemon Middleware Http GameCommands ServerHandlers Mods Databases AccountHandlers PlayerHandlers Settings HytaleAuth Registries Pki Destinations Mail Webhooks Backups ResourceHandlers Activity Router NetworkRouting Nodes NodeHandlers Startup Panel.

Local Open Scope Z_scope.

(** ** The interface *)

(** The tables the invariants below read: accounts, the playtime ledger, the
    rules of alerts and the ring of backup keys. *)
Definition core (d : DB) :=
  (users d, players d, player_sessions d, alert_rules d, app_settings d !! backupKeyringKey).

(** What a signed-in account is known by. *)
Definition Credentials : Type := string * string * string * string * string * bool * bool.

Definition credentials (u : User) : Credentials :=
  (user_Email u, user_Username u, user_PasswordHash u, user_Role u, user_TOTPSecret u, user_TOTPEnabled u, user_IsActive u).

(** What the owners of these tables promise, for requests of accounts that
    [may] act.  Changes of accounts and uses of the key ring are promised as
    whole methods: their statements depend on what the method read before. *)
Class PanelInvariant `{U : Unicode} `{P : Platform} `{K : Json Keyring} (cfg : Config) (url_parse : string -> option URL)
    (may : User -> Prop) (I : DB -> Prop) : Prop := {
  inv_frame d d' : core d' = core d -> I d -> I d';
  inv_user f id d : (forall u, credentials (f u) = credentials u) -> I d -> I (with_users (alter f id (users d)) d);
  inv_register e n p : preserves I (Register e n p);
  inv_setup code e n p ip ua : preserves I (CompleteSetup cfg code e n p ip ua);
  inv_create e n p r : (r = RoleOwner -> exists u, may u /\ user_Role u = RoleOwner) -> preserves I (CreateUserByAdmin e n p r);
  inv_cli u url prompts e n p :
    may u -> user_Role u = RoleOwner -> preserves I (admin_create url (ret tt) prompts e n p);
  inv_password u old new : may u -> preserves I (ChangePassword cfg (user_ID u) old new);
  inv_totp_setup u : may u -> preserves I (SetupTOTP cfg (user_ID u));
  inv_totp_confirm u code : may u -> preserves I (ConfirmTOTP cfg (user_ID u) code);
  inv_totp_disable u p : may u -> preserves I (DisableTOTP cfg (user_ID u) p);
  inv_role u t r : may u -> preserves I (UpdateUserRole (user_Role u) t r);
  inv_active u t a : may u -> preserves I (SetUserActive (user_Role u) t a);
  inv_delete_user u t : may u -> preserves I (DeleteUser (user_Role u) t);
  inv_close f t d : I d -> I (close_sessions f t d);
  inv_upsert fresh sid h n t d pid d' : upsert_player fresh sid h n t d = Ok (pid, d') -> I d -> I d';
  inv_open id pid t d d' : open_session id pid t d = Ok (tt, d') -> I d -> I d';
  inv_players m d :
    (forall k, fmap player_PlaytimeS (m !! k) = fmap player_PlaytimeS (players d !! k)) -> I d -> I (with_players m d);
  inv_delete_server id d : I d -> I (delete_server id d);
  inv_rule r d x d' : ValidateWebhookURL url_parse (rule_WebhookURL r) (rule_Channels r) = Ok tt ->
    insert_rule r d = Ok (x, d') -> I d -> I d';
  inv_toggle_rule id b d : I d -> I (with_alert_rules (alter (rule_with_Enabled b) id (alert_rules d)) d);
  inv_delete_rule id d : I d -> I (with_alert_rules (delete id (alert_rules d)) d);
  inv_ring : preserves I (BackupKeyring (cfg_TOTPEncKey cfg));
  inv_rotate u : preserves I (RotateBackupKey (cfg_TOTPEncKey cfg) u)
}.

(** ** Automation *)

Ltac head_of t := match t with ?f _ => head_of f | _ => t end.

Create HintDb invariant.

(** The core tables after a statement that writes elsewhere. *)
Ltac same_core :=
  repeat match goal with E : enqueue_node_command _ _ _ _ _ _ _ = Ok _ |- _ => apply enqueue_inv in E; subst end;
  first [reflexivity | unfold core; cbn; rewrite ?lookup_insert_ne, ?lookup_delete_ne by (vm_compute; discriminate); reflexivity].

(** The outcome of a statement, case by case: refused, without effect on the
    core tables, or one of the changes the invariant promises to survive. *)
Ltac statement_cases H :=
  cbv beta iota in H;
  first
  [ discriminate H
  | first [injection H as <- <- | injection H as <-];
    first [assumption | eapply inv_frame; [|eassumption]; same_core | solve [eauto with invariant nocore]]
  | match type of H with context [match ?x with _ => _ end] => destruct x eqn:? end; statement_cases H
  | match type of H with ?l = _ => let h := head_of l in unfold h in H end; statement_cases H ].

(** Proves [preserves I m] from the statements of [m]: known methods by hint,
    others by their definition. *)
Ltac solve_invariant :=
  repeat first
  [ progress solve_preserves
  | solve [eauto with invariant nocore]
  | match goal with
    | |- preserves _ fault => apply preserves_fault
    | |- preserves _ (exec _) =>
      let H := fresh "H" in apply preserves_exec; intros ? ? ? ? H; statement_cases H
    | |- preserves _ (let _ := _ in _) => cbv zeta
    | |- preserves _ ((match ?x with _ => _ end) _) => destruct x
    | |- preserves _ ?m =>
      let h := head_of m in
      lazymatch h with @exec => fail | @query => fail | @fault => fail | _ => progress unfold h end
    end
  | progress cbv beta iota ].

(** A continuation that keeps [I], after a run that did. *)
Lemma preserves_after {A B} (I : DB -> Prop) (m : M A) (k : A -> M B) w :
  (forall a, preserves I (k a)) -> I (w_db (snd (m w))) -> I (w_db (snd (bind m k w))).
Proof. intros Hk Hm. unfold bind. destruct (m w) as [[a|e] w1]; [by apply Hk | done]. Qed.

Section invariants.
Context `{U : Unicode} `{P : Platform} `{G : Gin} `{L : Location} `{X : X509} `{CL : CertLib} `{ML : MailLibrary}
  `{MD : MariaDB} `{V : Provider} `{D : RegistryDocs}.
Context `{J1 : Json LoginResult} `{J2 : Json json} `{J3 : Json (gmap string string)} `{J4 : Json Keyring} `{J5 : DaemonJson}
  `{J6 : HytaleJson} `{J7 : Json (list HytaleProfile)} `{J8 : Json UpdateInfo} `{J9 : Json HytaleVersions}
  `{J10 : Json ModNetworkConfig} `{J11 : Json pemPair} `{J12 : Json SMTPConfig}.
Context (cfg : Config) (devMode : bool) (serversBaseDir appVersion dsn host : string) (port : Z) (smtpEnv : SMTPConfig)
  (url_parse : string -> option URL) (may : User -> Prop).
#[local] Abbreviation encKey := (cfg_TOTPEncKey cfg).

Context (I : DB -> Prop) `{HI : !PanelInvariant cfg url_parse may I}.

(** ** Accounts and players *)

Lemma panel_player_stable : player_stable I.
Proof.
  split.
  - intros. by apply inv_close.
  - intros. by eapply inv_upsert.
  - intros. by eapply inv_open.
  - intros. by apply inv_players.
  - intros b d. by apply inv_frame.
  - intros l d. by apply inv_frame.
  - intros id node sid verb name t d d' _ _ ->%enqueue_inv. by apply inv_frame.
Qed.

Lemma player_preserves m : player_op m -> preserves I m.
Proof. apply player_op_preserves, panel_player_stable. Qed.

#[local] Hint Resolve inv_register inv_setup inv_create inv_password inv_totp_setup inv_totp_confirm inv_totp_disable
  inv_role inv_active inv_delete_user : invariant.
#[local] Hint Extern 1 (I (with_users (alter _ _ _) _)) => apply inv_user; [intros; reflexivity | assumption] : invariant.
#[local] Hint Extern 1 (preserves _ _) => apply player_preserves; solve [constructor] : invariant.
#[local] Hint Extern 1 (preserves _ (BackupKeyring _)) => apply inv_ring : invariant.
#[local] Hint Extern 1 (preserves _ (RotateBackupKey _ _)) => apply inv_rotate : invariant.
#[local] Hint Extern 1 (I (delete_server _ _)) => apply inv_delete_server : invariant.

(** ** Sign-in *)

Lemma issueFullTokens_keeps user ip ua : preserves I (issueFullTokens cfg user ip ua).
Proof. solve_invariant. Qed.
#[local] Hint Resolve issueFullTokens_keeps : invariant.

Lemma rotated_loop_keeps wait h n : rely I wait -> preserves I (rotated_loop wait h n).
Proof. intros Hw. induction n as [|n IH]; cbn [rotated_loop]; [solve_invariant|]. destruct (wait n) eqn:E; solve_invariant. Qed.
#[local] Hint Resolve rotated_loop_keeps : invariant.

Lemma RefreshToken_keeps wait t ip ua : rely I wait -> preserves I (RefreshToken cfg wait t ip ua).
Proof. intros Hw. solve_invariant. Qed.
#[local] Hint Resolve RefreshToken_keeps : invariant.

(** ** Loops and rules *)

Lemma setting_Set_preserves key v u : key <> backupKeyringKey -> preserves I (setting_Set encKey key v u).
Proof.
  intros Hk. unfold setting_Set. solve_invariant; apply preserves_exec; intros d ? d' Hd H; (eapply inv_frame; [|exact Hd]).
  - injection H as _ <-. unfold core. cbn. by rewrite lookup_delete_ne.
  - unfold upsert_setting in H. repeat case_match; simplify_eq; unfold core; cbn; by rewrite lookup_insert_ne.
Qed.

#[local] Hint Extern 1 (_ <> backupKeyringKey) => vm_compute; discriminate : invariant.
#[local] Hint Resolve setting_Set_preserves : invariant.

Lemma clear_all_preserves keys s : Forall (fun k => k <> backupKeyringKey) keys -> preserves I (clear_all encKey keys s).
Proof.
  intros Hk. revert s. induction Hk as [|k keys Hk _ IH]; intros s; cbn [clear_all]; solve_invariant.
Qed.

Lemma store_all_preserves l u s : Forall (fun kv => fst kv <> backupKeyringKey) l -> preserves I (store_all encKey l u s).
Proof.
  intros Hk. revert s. induction Hk as [|[k v] l Hk _ IH]; intros s; cbn [store_all]; solve_invariant.
Qed.

Lemma set_permissions_preserves t l : preserves I (set_permissions t l).
Proof. induction l as [|[k b] l IH]; cbn [set_permissions]; solve_invariant. Qed.

Lemma missing_loop_preserves u s perms keys : preserves I (missing_loop u s perms keys).
Proof. induction keys as [|k keys IH]; cbn [missing_loop]; solve_invariant. Qed.

Lemma first_client_preserves ids : preserves I (first_client ids).
Proof. induction ids as [|id ids IH]; cbn [first_client]; solve_invariant. Qed.

Lemma seed_loop_preserves l : preserves I (seed_loop l).
Proof. induction l as [|c l IH]; cbn [seed_loop]; solve_invariant. Qed.

Lemma distribute_loop_preserves ids : preserves I (distribute_loop ids).
Proof. induction ids as [|id ids IH]; cbn [distribute_loop]; solve_invariant. Qed.

Lemma fire_loop_preserves notify ty s v rules : preserves I (fire_loop notify ty s v rules).
Proof. induction rules as [|[id r] rules IH]; cbn [fire_loop]; solve_invariant. Qed.

Lemma plugin_commands_preserves s n cmds : preserves I (plugin_commands s n cmds).
Proof. induction cmds as [|c cmds IH]; cbn [plugin_commands]; solve_invariant. Qed.
#[local] Hint Resolve plugin_commands_preserves : invariant.

Lemma sync_plugins_preserves s l : preserves I (sync_plugins s l).
Proof. induction l as [|p l IH]; cbn [sync_plugins]; solve_invariant. Qed.

Lemma ingest_loop_preserves n s lines : preserves I (ingest_loop n s lines).
Proof. revert lines. induction n as [|n IH]; intros lines; cbn [ingest_loop]; solve_invariant. Qed.

Lemma sync_loop_preserves s l a : preserves I (sync_loop s l a).
Proof. induction l as [|w l IH]; cbn [sync_loop]; solve_invariant. Qed.

#[local] Hint Resolve set_permissions_preserves missing_loop_preserves first_client_preserves
  seed_loop_preserves distribute_loop_preserves fire_loop_preserves sync_plugins_preserves ingest_loop_preserves
  sync_loop_preserves : invariant.

Lemma UpdateProfile_preserves u req : preserves I (UpdateProfile u req).
Proof.
  unfold UpdateProfile. solve_invariant. apply preserves_exec. intros d x d' Hd [= _ <-]. apply inv_user; [|done]. intros v.
  by destruct req as [[] [] [] []], v.
Qed.

Lemma CreateRule_preserves u req : preserves I (CreateRule url_parse u req).
Proof.
  unfold CreateRule. destruct (ValidateWebhookURL _ _ _) as [[]|] eqn:Hv; solve_invariant.
  apply preserves_exec. intros d x d' Hd H. by eapply inv_rule in H.
Qed.

Lemma ToggleRule_preserves id u b : preserves I (ToggleRule id u b).
Proof.
  unfold ToggleRule. solve_preserves. apply preserves_exec. intros d x d' Hd H. unfold change_rule in H.
  repeat case_match; simplify_eq; [by apply inv_toggle_rule | done..].
Qed.

Lemma DeleteRule_preserves id u : preserves I (DeleteRule id u).
Proof.
  unfold DeleteRule. solve_preserves. apply preserves_exec. intros d x d' Hd H. unfold change_rule in H.
  repeat case_match; simplify_eq; [|done..]. apply (inv_delete_rule id) in Hd. by eapply inv_frame, Hd.
Qed.

#[local] Hint Resolve UpdateProfile_preserves CreateRule_preserves ToggleRule_preserves DeleteRule_preserves : invariant.
#[local] Hint Extern 1 (preserves _ (clear_all _ hytaleAuthKeys _)) =>
  apply clear_all_preserves; repeat constructor; vm_compute; discriminate : invariant.

Lemma prune_copies_preserves ended c spec s dest l : preserves I (prune_copies encKey ended c spec s dest l).
Proof. revert ended. induction l as [|o l IH]; intros ended; cbn [prune_copies]; solve_invariant. Qed.

Lemma delete_all_preserves ids : preserves I (delete_all encKey ids).
Proof. induction ids as [|id ids IH]; cbn [delete_all]; solve_invariant. Qed.
#[local] Hint Resolve prune_copies_preserves delete_all_preserves : invariant.

Lemma run_dues_preserves t l : preserves I (run_dues encKey t l).
Proof. induction l as [|[id s] l IH]; cbn [run_dues]; solve_invariant. Qed.

Lemma offline_loop_preserves notify ids : preserves I (offline_loop notify ids).
Proof. induction ids as [|id ids IH]; cbn [offline_loop]; solve_invariant. Qed.
#[local] Hint Resolve run_dues_preserves offline_loop_preserves : invariant.

Lemma Start_preserves notify n : preserves I (Webhooks.Start notify n).
Proof. induction n as [|n IH]; cbn [Webhooks.Start]; solve_invariant. Qed.

Lemma run_chain_preserves r i hs c : preserves I (run_chain (cfg_JWTSecret cfg) devMode r i hs c).
Proof. intros w Hw. destruct (keeps_run_chain (cfg_JWTSecret cfg) devMode r i hs c w) as [-> _]. exact Hw. Qed.
#[local] Hint Resolve Start_preserves run_chain_preserves : invariant.

(** ** Requests that act as their caller *)

Section caller.
Context (caller : option User) (Hmay : forall u, caller = Some u -> may u).

Ltac as_caller := destruct caller as [u|]; [specialize (Hmay u eq_refl)|]; solve_invariant.

Lemma ChangePasswordHandler_keeps b : preserves I (ChangePasswordHandler cfg caller b).
Proof. as_caller. Qed.
Lemma SetupTOTPHandler_keeps : preserves I (SetupTOTPHandler cfg caller).
Proof. as_caller. Qed.
Lemma ConfirmTOTPHandler_keeps b : preserves I (ConfirmTOTPHandler cfg caller b).
Proof. as_caller. Qed.
Lemma DisableTOTPHandler_keeps b : preserves I (DisableTOTPHandler cfg caller b).
Proof. as_caller. Qed.
Lemma UpdateUserRoleHandler_keeps i b : preserves I (UpdateUserRoleHandler i caller b).
Proof. as_caller. Qed.
Lemma ToggleUserActive_keeps i b : preserves I (ToggleUserActive i caller b).
Proof. as_caller. Qed.
Lemma DeleteUserHandler_keeps i : preserves I (DeleteUserHandler i caller).
Proof. as_caller. Qed.
Lemma CreateUser_keeps b : preserves I (CreateUser caller b).
Proof.
  unfold CreateUser. destruct b as [req|]; [|solve_invariant]. destruct (_ =? _); [solve_invariant|].
  assert (Hc : (cur_Role req = RoleOwner -> exists u, may u /\ user_Role u = RoleOwner) ->
    forall e n p, preserves I (CreateUserByAdmin e n p (cur_Role req))) by eauto with invariant.
  destruct (String.eqb_spec (cur_Role req) RoleOwner) as [Ho|Hn]; cbn [andb].
  - destruct caller as [u|]; [|solve_invariant]. destruct (String.eqb_spec (user_Role u) RoleOwner); cbn [negb]; [|solve_invariant].
    specialize (Hc (fun _ => ex_intro _ u (conj (Hmay u eq_refl) e))). solve_invariant.
  - specialize (Hc (fun H => False_ind _ (Hn H))). solve_invariant.
Qed.
End caller.
#[local] Hint Resolve ChangePasswordHandler_keeps SetupTOTPHandler_keeps ConfirmTOTPHandler_keeps DisableTOTPHandler_keeps
  UpdateUserRoleHandler_keeps ToggleUserActive_keeps DeleteUserHandler_keeps CreateUser_keeps : invariant.

(** ** The panel *)

Lemma endpoint_preserves name i c A (m : M A) :
  endpoint cfg devMode serversBaseDir appVersion dsn host port smtpEnv url_parse may name i c m -> may_act may c -> preserves I m.
Proof.
  intros H. induction H; unfold may_act; intros Hact; [|solve_invariant..|].
  - assert (rely I wait) by (intros n m Hm; eauto). solve_invariant.
  - apply preserves_bind; [eauto | intros; apply preserves_ret].
Qed.

Lemma background_preserves A (m : M A) : background cfg smtpEnv m -> preserves I m.
Proof. intros H. destruct H; solve_invariant. Qed.

(** The handler runs in a context its chain has filled. *)
Lemma chain_sound r i hs c w0 w c' w' :
  kept w0 w -> ctx_sound (cfg_JWTSecret cfg) w0 r c -> run_chain (cfg_JWTSecret cfg) devMode r i hs c w = (Ok (c', None), w') ->
  ctx_sound (cfg_JWTSecret cfg) w0 r c'.
Proof.
  revert c w. induction hs as [|h hs IH]; intros c w Hk Hs H; [by apply ret_inv in H as [[= ->] _]|].
  cbn [run_chain] in H. apply bind_ok in H as ([c1 [x|]] & w1 & H1 & H); [by apply ret_inv in H as [? _]|].
  pose proof (keeps_run_handler (cfg_JWTSecret cfg) devMode r i h c w) as Hk1. rewrite H1 in Hk1.
  apply (run_handler_pass _ _ _ _ _ _ w0) in H1 as [Hs1 _]; [|done..]. eapply IH; [|done..]. by etrans.
Qed.

Lemma chain_admits rt i r hdrs w c w' :
  run_chain (cfg_JWTSecret cfg) devMode r i (rt_Chain rt) (mkCtx None None hdrs) w = (Ok (c, None), w') ->
  admitted rt c /\ ctx_sound (cfg_JWTSecret cfg) w r c.
Proof.
  intros H. assert (Hc : ctx_sound (cfg_JWTSecret cfg) w r (mkCtx None None hdrs)) by done.
  split; [|by eapply chain_sound].
  pose proof (run_chain_pass _ _ _ _ _ _ w w c w' (reflexivity w) Hc H) as Hs.
  split; intros Hin; [destruct (Hs authRequired (or_introl Hin)) as (u & -> & _) | destruct (Hs daemonNodeAuth (or_introl Hin)) as (n & -> & _)];
    by eexists.
Qed.

Lemma serve_preserves rt handler i r w :
  (forall u, authenticated (cfg_JWTSecret cfg) w (req_Authorization r) u -> may u) ->
  (forall c r', admitted rt c -> may_act may c -> preserves I (handler c r')) ->
  I (w_db w) -> I (w_db (snd (serve (cfg_JWTSecret cfg) devMode rt handler i r w))).
Proof.
  intros Hmay Hh Hw. unfold serve. destruct (BodyLimit r) as [r1|] eqn:Eb; [|done]. apply BodyLimit_auth in Eb.
  unfold AuditLog. destruct (audit_buffer r1) as [b r2] eqn:Ea. pose proof (audit_buffer_auth r1) as Er. rewrite Ea in Er. cbn [snd] in Er.
  apply preserves_after; [intros; solve_invariant|]. unfold bind at 1.
  pose proof (run_chain_preserves r2 i (rt_Chain rt) (mkCtx None None (SecurityHeaders (negb devMode))) w Hw) as Hc.
  destruct (run_chain _ _ _ _ _ _ w) as [[[c [[s msg]|]]|e] w1] eqn:E; cbn [snd] in *; [done | | done].
  apply chain_admits in E as [Had Hs]. assert (Hact : may_act may c).
  { intros u Hu%Hs. apply Hmay. congruence. }
  apply preserves_after; [intros; solve_invariant|]. by apply Hh.
Qed.

Lemma panel_steps_preserve w w' :
  rtc (panel_step cfg devMode serversBaseDir appVersion dsn host port smtpEnv url_parse may) w w' -> I (w_db w) -> I (w_db w').
Proof.
  induction 1 as [|w1 w2 w3 Hs _ IH]; [done|]. intros Hi. apply IH.
  destruct Hs as [rt handler i r w1 _ Hmay Hh|A m w1 Hm|u url ps e n p w1 Hu Ho|t w1].
  - apply serve_preserves; [done| |done]. intros c r' Hc Hact. by eapply endpoint_preserves; [apply Hh|].
  - by eapply background_preserves.
  - by eapply inv_cli.
  - done.
Qed.
End invariants.
