(* ===== verification/PanelTheorems.v ===== *)
(** * What always holds of the panel

    The invariants of the components as instances of [PanelInvariant], and
    with them the theorems about everything the panel does over time. *)

From stdpp Require Import base numbers list strings option gmap relations.
From S2P Require Import Prelude GoStrings Store Roles Platform Crypto Cron Auth Setup AuthTheorems Players Servers Net Alerts Daemon Middleware Http AccountHandlers Settings HytaleAuth Registries Pki Databases Destinations Mail Webhooks Router NetworkRouting Startup Panel PanelInvariants.

Local Open Scope Z_scope.

(** ** Reading one part of the database *)

(** An invariant that reads one projection of the database is kept by what
    keeps the projection. *)
Lemma preserves_via {T A} (f : DB -> T) (I : DB -> Prop) (m : M A) :
  (forall d d', f d' = f d -> I d -> I d') -> (forall t, preserves (fun d => f d = t) m) -> preserves I m.
Proof. intros Hf Hm w Hw. eapply Hf, Hw. by apply (Hm (f (w_db w))). Qed.

Section instances.
Context `{U : Unicode} `{P : Platform} `{J : Json LoginResult} `{K : Json Keyring} (cfg : Config) (url_parse : string -> option URL) (may : User -> Prop).
#[local] Abbreviation encKey := (cfg_TOTPEncKey cfg).

(** The ring of keys lives in one table. *)
Lemma saveKeyring_part {T} (f : DB -> T) kr u t :
  (forall d m, f (with_app_settings m d) = f d) -> preserves (fun d => f d = t) (saveKeyring encKey kr u).
Proof.
  intros Hf. unfold saveKeyring, setting_Set, Encrypt. solve_preserves;
    apply preserves_exec; intros d x d' <- H; unfold upsert_setting in H; repeat case_match; simplify_eq; apply Hf.
Qed.

Lemma BackupKeyring_part {T} (f : DB -> T) t :
  (forall d m, f (with_app_settings m d) = f d) -> preserves (fun d => f d = t) (BackupKeyring encKey).
Proof.
  intros Hf. unfold BackupKeyring, create_keyring, newKeyring, generateKey, setting_Get. solve_preserves. by apply saveKeyring_part.
Qed.

Lemma RotateBackupKey_part {T} (f : DB -> T) u t :
  (forall d m, f (with_app_settings m d) = f d) -> preserves (fun d => f d = t) (RotateBackupKey encKey u).
Proof.
  intros Hf. unfold RotateBackupKey, Settings.rotate, generateKey. solve_preserves; auto using BackupKeyring_part, saveKeyring_part.
Qed.

(** The frame of an account change writes nothing itself. *)
Lemma adminTargetChange_preserves I c tid rem fn : preserves I fn -> preserves I (adminTargetChange c tid rem fn).
Proof. intros Hf. unfold adminTargetChange. solve_preserves; exact Hf. Qed.

Lemma DeleteUser_preserves I c tid :
  (forall d, I d -> I (revoke_where (fun s => (session_UserID s =? tid)%N) d)) ->
  (forall d d', delete_user tid d = Ok (tt, d') -> I d -> I d') -> preserves I (DeleteUser c tid).
Proof.
  intros Hr Hd. unfold DeleteUser. apply adminTargetChange_preserves. solve_preserves; apply preserves_exec.
  - intros d x d' Hi [= _ <-]. by apply Hr.
  - intros d [] d' Hi H. by eapply Hd.
Qed.

(** What the promises say of the service for an invariant that survives each
    of its statements. *)
Ltac service HI := by intros; apply (account_op_preserves cfg _ HI); constructor.

(** An invariant that reads nothing of the accounts. *)
Lemma accountless_stable (I : DB -> Prop) :
  (forall d d', core d' = core d -> I d -> I d') -> (forall m d, I d -> I (with_users m d)) -> stable I.
Proof.
  intros Hf Hu. split.
  - intros p d. by apply Hf.
  - intros id s d _. by apply Hf.
  - intros s d d' H. unfold insert_session in H. repeat case_match; simplify_eq; by apply Hf.
  - intros id e u h r t d d' (_ & _ & ->)%insert_user_inv. apply Hu.
  - intros f id d _. apply Hu.
  - intros l d. by apply Hf.
  - intros c t r. unfold UpdateUserRole. destruct (_ && _); [apply preserves_fail|]. apply adminTargetChange_preserves. solve_preserves.
    apply preserves_exec. intros d x d' Hd H. destruct (_ =? _); [done|]. injection H as _ <-. by apply Hu.
  - intros c t a. apply adminTargetChange_preserves. unfold update_user. solve_preserves.
    apply preserves_exec. intros d x d' Hd [= _ <-]. by apply Hu.
Qed.

(** The command line inserts an owner or nothing. *)
Lemma admin_create_preserves I url prompts e n p :
  (forall id e n h t d d', insert_user id e n h RoleOwner t d = Ok d' -> I d -> I d') ->
  preserves I (admin_create url (ret tt) prompts e n p).
Proof.
  intros HI. unfold admin_create. solve_preserves. apply preserves_exec. intros d [] d' Hd H. unfold insert_owner in H.
  destruct (exists_row _ _); [by injection H as <-|]. destruct (insert_user _ _ _ _ _ _ _) eqn:E; [|done].
  injection H as <-. by eapply HI.
Qed.

(** ** An active owner *)

Lemma has_owner_part d d' : users d' = users d -> has_owner d -> has_owner d'.
Proof. unfold has_owner. by intros ->. Qed.

#[export] Instance has_owner_invariant : PanelInvariant cfg url_parse may has_owner.
Proof.
  pose proof has_owner_stable as HI. split; try done; try service HI.
  - intros d d' [=]. by apply has_owner_part.
  - intros f id d Hf. apply HI. intros u. specialize (Hf u). unfold credentials in Hf. by simplify_eq.
  - intros u url ps e n p _ _. apply admin_create_preserves. intros id e' n' h t d d'. by apply HI.
  - intros u t _. apply DeleteUser_owner.
  - intros fresh sid h n t d pid d' H. unfold upsert_player in H. repeat case_match; simplify_eq; done.
  - intros id pid t d d' H. unfold open_session in H. repeat case_match; simplify_eq; done.
  - intros r d x d' _ H. unfold insert_rule in H. repeat case_match; simplify_eq; done.
  - apply (preserves_via users); [apply has_owner_part|]. intros t. by apply BackupKeyring_part.
  - intros u. apply (preserves_via users); [apply has_owner_part|]. intros t. by apply RotateBackupKey_part.
Qed.

(** ** The playtime ledger *)

Lemma rows_delete_where {A} (t : gmap uuid A) (p q : A -> bool) :
  (forall i a, t !! i = Some a -> p a = true -> q a = false) -> rows (delete_where q t) p ≡ₚ rows t p.
Proof.
  unfold delete_where. induction t as [|i a t Hi IH] using map_ind; intros H; [done|].
  assert (Ht : rows (filter (fun kv => q kv.2 = false) t) p ≡ₚ rows t p).
  { apply IH. intros j b Hj. apply (H j). rewrite lookup_insert_ne; [done|]. by intros ->; rewrite Hi in Hj. }
  specialize (H i a (lookup_insert_eq _ _ _)). rewrite rows_insert by done. destruct (q a) eqn:E.
  - rewrite map_filter_insert_False by (cbn; congruence). rewrite delete_id by done. destruct (p a); [by specialize (H eq_refl)|done].
  - rewrite map_filter_insert_True by done. rewrite rows_insert by (apply map_lookup_filter_None; by left). by apply Permutation_app_head.
Qed.

Lemma rows_delete_where_le {A} (t : gmap uuid A) (p q : A -> bool) : (length (rows (delete_where q t) p) <= length (rows t p))%nat.
Proof.
  unfold delete_where. induction t as [|i a t Hi IH] using map_ind; [done|]. rewrite rows_insert by done. destruct (q a) eqn:E.
  - rewrite map_filter_insert_False by (cbn; congruence). rewrite delete_id, length_app by done. lia.
  - rewrite map_filter_insert_True by done. rewrite rows_insert by (apply map_lookup_filter_None; by left).
    rewrite !length_app. lia.
Qed.

(** Removing a server takes its players with all their sessions. *)
Lemma delete_server_ledger id d : ledger d -> ledger (delete_server id d).
Proof.
  intros [Hfk Hone Hopen Hsum]. set (gone := fun s => bool_decide (delete_where (fun p => (player_ServerID p =? id)%N) (players d)
    !! psession_PlayerID s = None)).
  assert (Hs : player_sessions (delete_server id d) = delete_where gone (player_sessions d)) by done.
  assert (Hp : players (delete_server id d) = delete_where (fun p => (player_ServerID p =? id)%N) (players d)) by done.
  assert (Hrows : forall pid, is_Some (players (delete_server id d) !! pid) ->
    rows (delete_where gone (player_sessions d)) (of_player pid d) ≡ₚ rows (player_sessions d) (of_player pid d)).
  { intros pid [p Hpid]. apply rows_delete_where. intros i s _ Hof%N.eqb_eq. unfold gone. rewrite Hof, <- Hp, Hpid. done. }
  split.
  - intros i s. rewrite Hs, lookup_delete_where. intros [_ Hg%bool_decide_eq_false]. rewrite Hp. by apply not_eq_None_Some.
  - intros pid. rewrite Hs. etrans; [|apply (Hone pid)]. apply rows_delete_where_le.
  - intros i s. rewrite Hs, lookup_delete_where. intros [Hi _]. eauto.
  - intros pid p Hpid. unfold played. rewrite Hs. erewrite sumZ_perm by (apply Permutation_map, Hrows; by exists p).
    rewrite Hp, lookup_delete_where in Hpid. by apply Hsum, Hpid.
Qed.

Lemma ledger_users m d : ledger d -> ledger (with_users m d).
Proof. by apply ledger_frame. Qed.

#[export] Instance ledger_invariant : PanelInvariant cfg url_parse may ledger.
Proof.
  pose proof ledger_stable as [Hclose Hup Hopen Hpl _ _ _].
  assert (Hpart : forall d d', (players d', player_sessions d') = (players d, player_sessions d) -> ledger d -> ledger d').
  { intros d d' [= Hp Hs]. apply ledger_frame; [done|]. by rewrite Hp. }
  assert (Hframe : forall d d', core d' = core d -> ledger d -> ledger d').
  { intros d d' [= _ Hp Hs _ _]. apply Hpart. congruence. }
  pose proof (accountless_stable ledger Hframe ledger_users) as HI. split; try done; try service HI.
  - intros f id d _. apply ledger_users.
  - intros u url ps e n p _ _. apply admin_create_preserves. intros id e' n' h t d d'. by apply HI.
  - intros u t _. apply DeleteUser_preserves; [intros d; by apply Hpart|]. intros d d' H. unfold delete_user in H.
    destruct (exists_row _ _); [done|]. injection H as <-. apply ledger_frame; [done|]. intros k. by apply lookup_update_playtime.
  - apply delete_server_ledger.
  - intros r d x d' _ H. unfold insert_rule in H. repeat case_match; simplify_eq; by apply Hpart.
  - intros id b d. by apply Hpart.
  - intros id d. by apply Hpart.
  - eapply preserves_via; [exact Hpart|]. intros t. by apply BackupKeyring_part.
  - intros u. eapply preserves_via; [exact Hpart|]. intros t. by apply RotateBackupKey_part.
Qed.

(** ** The rules of alerts *)

Lemma valid_rules_part d d' : alert_rules d' = alert_rules d -> valid_rules url_parse d -> valid_rules url_parse d'.
Proof. unfold valid_rules. by intros ->. Qed.

Lemma delete_where_sub {A} (p : A -> bool) (t : gmap uuid A) : delete_where p t ⊆ t.
Proof. apply map_filter_subseteq. Qed.

#[export] Instance valid_rules_invariant : PanelInvariant cfg url_parse may (valid_rules url_parse).
Proof.
  assert (Hframe : forall d d', core d' = core d -> valid_rules url_parse d -> valid_rules url_parse d').
  { intros d d' [=]. by apply valid_rules_part. }
  assert (HI : stable (valid_rules url_parse)) by (apply accountless_stable; [exact Hframe | done]). split; try done; try service HI.
  - intros u ? ps e n p _ _. apply admin_create_preserves. intros id e' n' h t d d'. by apply HI.
  - intros u t _. apply DeleteUser_preserves; [done|]. intros d d' H. unfold delete_user in H.
    destruct (exists_row _ _); [done|]. injection H as <-. apply valid_rules_sub, delete_where_sub.
  - intros fresh sid h n t d pid d' H. unfold upsert_player in H. repeat case_match; simplify_eq; done.
  - intros id pid t d d' H. unfold open_session in H. repeat case_match; simplify_eq; done.
  - intros id d. apply valid_rules_sub, delete_where_sub.
  - intros r d x d' Hv H Hd. unfold insert_rule in H. destruct (match _ with Some _ => _ | None => _ end); [done|].
    case_bool_decide; [done|]. destruct (insert_row _ _ _) eqn:E; [|done]. injection H as _ <-. apply insert_row_ok in E as [_ ->].
    intros k y Hk. cbn in Hk. apply lookup_insert_Some in Hk as [[_ <-]|[_ Hk]]; [done | by eapply Hd].
  - intros id b d Hd k r Hk. cbn in Hk. apply lookup_alter_Some in Hk as [(-> & y & Hy & ->)|[_ Hy]]; by eapply Hd in Hy.
  - intros id d. apply valid_rules_sub, delete_subseteq.
  - eapply preserves_via; [exact valid_rules_part|]. intros t. by apply BackupKeyring_part.
  - intros u. eapply preserves_via; [exact valid_rules_part|]. intros t. by apply RotateBackupKey_part.
Qed.

(** ** The accounts of owners *)

Definition owner_credentials (u : User) : option Credentials := if String.eqb (user_Role u) RoleOwner then Some (credentials u) else None.

(** The accounts with the role of an owner, and what they are known by. *)
Definition owner_accounts (d : DB) : gmap uuid Credentials := omap owner_credentials (users d).

Lemma owner_accounts_users d d' : users d' = users d -> owner_accounts d' = owner_accounts d.
Proof. unfold owner_accounts. by intros ->. Qed.

Lemma owner_credentials_same u v : credentials u = credentials v -> owner_credentials u = owner_credentials v.
Proof. intros H. unfold owner_credentials. by assert (user_Role u = user_Role v) as -> by (unfold credentials in H; congruence); rewrite H. Qed.

Lemma not_owner_credentials u : user_Role u <> RoleOwner <-> owner_credentials u = None.
Proof. unfold owner_credentials. by destruct (String.eqb_spec (user_Role u) RoleOwner). Qed.

(** A row changes that was no owner's and is none after. *)
Lemma owner_accounts_row (t t' : gmap uuid User) id :
  (forall i, i <> id -> t' !! i = t !! i) -> t' !! id ≫= owner_credentials = t !! id ≫= owner_credentials ->
  omap owner_credentials t' = omap owner_credentials t.
Proof.
  intros Hne Hid. apply map_eq. intros i. rewrite !lookup_omap. destruct (decide (i = id)) as [->|Hi]; [done|]. by rewrite Hne.
Qed.

Lemma owner_accounts_alter f id d :
  (forall u, users d !! id = Some u -> owner_credentials (f u) = owner_credentials u) ->
  owner_accounts (with_users (alter f id (users d)) d) = owner_accounts d.
Proof.
  intros Hf. apply (owner_accounts_row _ _ id); cbn; [intros i Hi; by rewrite lookup_alter_ne|].
  rewrite lookup_alter_eq. destruct (users d !! id) as [u|] eqn:E; [|done]. by apply Hf.
Qed.

(** Changes of callers who are no owners. *)
Lemma admin_change_owners c m w : admin_change c m -> c <> RoleOwner -> owner_accounts (w_db (snd (m w))) = owner_accounts (w_db w).
Proof.
  intros Hm Hc. unfold owner_accounts. destruct (admin_change_users c m w Hm) as [->|(t & tg & Ht & Ho & Hu)]; [done|].
  assert (Htg : owner_credentials tg = None) by (apply not_owner_credentials; intros H; by apply Hc, Ho).
  destruct Hu as [->|(v & -> & Hv)]; apply (owner_accounts_row _ _ t).
  - intros i Hi. by rewrite lookup_delete_ne.
  - by rewrite lookup_delete_eq, Ht.
  - intros i Hi. by rewrite lookup_insert_ne.
  - rewrite lookup_insert_eq, Ht. cbn. rewrite Htg. apply not_owner_credentials. intros H. by destruct (Hv H) as [|?%Ho].
Qed.

(** With an owner there, nobody but owners makes accounts of owners. *)
Definition owners_are (S : gmap uuid Credentials) (d : DB) : Prop := has_owner d /\ owner_accounts d = S.

(** An account outside [S] that acts. *)
Definition outsider (S : gmap uuid Credentials) (u : User) : Prop := user_Role u <> RoleOwner /\ S !! user_ID u = None.

Section owners.
Context (S : gmap uuid Credentials).

Lemma owners_part d d' : users d' = users d -> owners_are S d -> owners_are S d'.
Proof. intros H [Ho <-]. split; [by eapply has_owner_part | by apply owner_accounts_users]. Qed.

Lemma create_user_owners id e n h r : r <> RoleOwner -> preserves (owners_are S) (Auth.create_user id e n h r).
Proof.
  intros Hr. unfold Auth.create_user. solve_preserves. apply preserves_exec. intros d x d' [Ho <-] H.
  destruct (insert_user _ _ _ _ _ _ d) as [d0|] eqn:E; [|done]. injection H as _ <-.
  split; [by eapply (AuthTheorems.st_insert_user _ has_owner_stable)|]. apply insert_user_inv in E as (Hn & _ & ->). unfold owner_accounts. cbn.
  apply (owner_accounts_row _ _ id); [intros i Hi; by rewrite lookup_insert_ne|].
  rewrite lookup_insert_eq, Hn. by apply not_owner_credentials.
Qed.

Lemma CompleteSetup_owners code e n p ip ua : preserves (owners_are S) (CompleteSetup cfg code e n p ip ua).
Proof.
  intros w Hw. unfold CompleteSetup. destruct (negb _); [done|]. unfold bind at 1.
  destruct (wrap "checking users" users_exist w) as [[b|er] w1] eqn:E.
  - apply wrap_ok, query_inv in E as (Hd & _ & _ & _ & _ & [?|[= Hb]]); [done|].
    destruct Hw as [(i & u & Hi & Hu) Hs]. assert (b = true) as ->.
    { rewrite Hb. apply exists_row_true. eauto. }
    cbn. rewrite Hd. split; [by exists i, u | done].
  - apply wrap_inv in E as [(? & ? & _)|(e0 & _ & E)]; [done|]. apply query_inv in E as [Hd _]. cbn. by rewrite Hd.
Qed.

Lemma admin_change_owners_are u m : outsider S u -> admin_change (user_Role u) m -> preserves has_owner m -> preserves (owners_are S) m.
Proof. intros [Hu _] Hm Hp w [Ho <-]. split; [by apply Hp | by eapply admin_change_owners]. Qed.

(** Self-service of an account outside [S]. *)
Lemma update_user_owners u f :
  outsider S u -> (forall v, user_Role (f v) = user_Role v /\ user_IsActive (f v) = user_IsActive v) ->
  preserves (owners_are S) (update_user (user_ID u) f).
Proof.
  intros [_ Hu] Hf. apply preserves_exec. intros d x d' [Ho Hs] [= _ <-]. split; [by apply (AuthTheorems.st_alter _ has_owner_stable)|].
  rewrite <- Hs. apply owner_accounts_alter. intros v Hv.
  assert (Hn : owner_credentials v = None) by (rewrite <- Hs in Hu; unfold owner_accounts in Hu; by rewrite lookup_omap, Hv in Hu).
  rewrite Hn. apply not_owner_credentials. destruct (Hf v) as [-> _]. by apply not_owner_credentials.
Qed.

Ltac self_service :=
  solve_preserves; auto using findUserByID_preserves, hash_password_preserves, Encrypt_preserves, update_user_owners.

#[export] Instance owners_invariant : PanelInvariant cfg url_parse (outsider S) (owners_are S).
Proof.
  split.
  - intros d d' [=]. by apply owners_part.
  - intros f id d Hf [Ho <-]. split.
    + apply (AuthTheorems.st_alter _ has_owner_stable); [|done]. intros u. specialize (Hf u). unfold credentials in Hf. by simplify_eq.
    + apply owner_accounts_alter. intros u _. by apply owner_credentials_same.
  - intros e n p. unfold Register, count_email, count_username. solve_preserves; [apply hash_password_preserves | by apply create_user_owners].
  - apply CompleteSetup_owners.
  - intros e n p r Hr. unfold CreateUserByAdmin, count_email, count_username. solve_preserves; [apply hash_password_preserves|].
    apply create_user_owners. intros H. destruct (Hr H) as (u & [Hu _] & Hu'). done.
  - intros u url ps e n p [Hu _] Hu'. done.
  - intros u old new Hu. unfold ChangePassword. self_service. apply preserves_exec. intros d x d' Hd [= _ <-]. by eapply owners_part, Hd.
  - intros u Hu. unfold SetupTOTP. self_service.
  - intros u code Hu. unfold ConfirmTOTP. self_service.
  - intros u p Hu. unfold DisableTOTP. self_service.
  - intros u t r Hu. eapply admin_change_owners_are; [done | constructor | apply UpdateUserRole_owner].
  - intros u t a Hu. eapply admin_change_owners_are; [done | constructor | apply SetUserActive_owner].
  - intros u t Hu. eapply admin_change_owners_are; [done | constructor | apply DeleteUser_owner].
  - done.
  - intros fresh sid h n t d pid d' H. unfold upsert_player in H. repeat case_match; simplify_eq; done.
  - intros id pid t d d' H. unfold open_session in H. repeat case_match; simplify_eq; done.
  - done.
  - done.
  - intros r d x d' _ H. unfold insert_rule in H. repeat case_match; simplify_eq; done.
  - done.
  - done.
  - apply (preserves_via users); [apply owners_part|]. intros t. by apply BackupKeyring_part.
  - intros u. apply (preserves_via users); [apply owners_part|]. intros t. by apply RotateBackupKey_part.
Qed.
End owners.

(** ** The ring of backup keys *)

Context `{L : !PlatformLaws P} `{JL : !JsonLaws Keyring ring_wf}.

Lemma keeps_part kr d d' :
  app_settings d' !! backupKeyringKey = app_settings d !! backupKeyringKey -> Settings.keeps encKey kr d -> Settings.keeps encKey kr d'.
Proof. intros H (kr' & Hr & Hk). exists kr'. split; [|done]. unfold ring, setting in *. by rewrite H. Qed.

#[export] Instance ring_invariant kr : PanelInvariant cfg url_parse may (Settings.keeps encKey kr).
Proof.
  assert (Hframe : forall d d', core d' = core d -> Settings.keeps encKey kr d -> Settings.keeps encKey kr d').
  { intros d d' [=]. by apply keeps_part. }
  assert (HI : stable (Settings.keeps encKey kr)) by (apply accountless_stable; [exact Hframe | done]). split; try done; try service HI.
  - intros u ? ps e n p _ _. apply admin_create_preserves. intros id e' n' h t d d'. by apply HI.
  - intros u t _. apply DeleteUser_preserves; [done|]. intros d d' H. unfold delete_user in H.
    destruct (exists_row _ _); [done|]. by injection H as <-.
  - intros fresh sid h n t d pid d' H. unfold upsert_player in H. repeat case_match; simplify_eq; done.
  - intros id pid t d d' H. unfold open_session in H. repeat case_match; simplify_eq; done.
  - intros r d x d' _ H. unfold insert_rule in H. repeat case_match; simplify_eq; done.
  - intros w Hw. destruct (BackupKeyring encKey w) as [r w'] eqn:E. by eapply keyring_step_keeps; [eapply step_use|].
  - intros u w Hw. destruct (RotateBackupKey encKey u w) as [r w'] eqn:E. by eapply keyring_step_keeps; [eapply step_rotate|].
Qed.
End instances.

(** ** The panel over time *)

Section panel.
Context `{U : Unicode} `{P : Platform} `{G : Gin} `{L : Location} `{X : X509} `{CL : CertLib} `{ML : MailLibrary}
  `{MD : MariaDB} `{V : Provider} `{D : RegistryDocs}.
Context `{J1 : Json LoginResult} `{J2 : Json json} `{J3 : Json (gmap string string)} `{J4 : Json Keyring} `{J5 : DaemonJson}
  `{J6 : HytaleJson} `{J7 : Json (list HytaleProfile)} `{J8 : Json UpdateInfo} `{J9 : Json HytaleVersions}
  `{J10 : Json ModNetworkConfig} `{J11 : Json pemPair} `{J12 : Json SMTPConfig}.
Context (cfg : Config) (devMode : bool) (serversBaseDir appVersion dsn host : string) (port : Z) (smtpEnv : SMTPConfig)
  (url_parse : string -> option URL).
#[local] Abbreviation encKey := (cfg_TOTPEncKey cfg).
#[local] Abbreviation step := (panel_step cfg devMode serversBaseDir appVersion dsn host port smtpEnv url_parse).
#[local] Abbreviation answers_as := (endpoint cfg devMode serversBaseDir appVersion dsn host port smtpEnv url_parse (fun _ => True)).

(** *** No route without a handler *)

(** A handler of the model for the route, in each context its chain admits. *)
Definition answered (rt : Route) : Prop :=
  forall i, exists handler : Ctx -> Request -> M Reply,
  forall c r, admitted rt c -> answers_as (rt_Handler rt) i c (handler c r).

Definition no_reply : Reply := reply_error 0 "".

(** Some value for each argument of an endpoint. *)
Ltac inhabit :=
  first [ exact (Err "") | exact None | exact "" | exact false | exact 0 | exact 0%nat | exact (Some (Ok tt)) | exact ∅
        | assumption | intro; inhabit | constructor; inhabit ].

(** The endpoint of the name in the goal, the map apart. *)
Ltac run_endpoint :=
  apply ep_map;
  unshelve (once (econstructor;
    lazymatch goal with |- endpoint _ _ _ _ _ _ _ _ _ _ _ _ _ _ => fail | |- _ = Some _ => eassumption | _ => idtac end));
  inhabit.

Lemma refresh_answered i c cookie ip ua : answers_as "authH.Refresh" i c (RefreshHandler cfg (negb devMode) (fun _ => None) cookie ip ua).
Proof. by apply (ep_auth_Refresh _ _ _ _ _ _ _ _ _ _ _ _ _ _ _ _ (fun _ => "") (fun _ => "") (fun _ => c)). Qed.

(** Every route of the table can be requested in the transition system. *)
Lemma routes_answered (st : md_state) (hs : HytaleState) : Forall answered SetupRouter.
Proof.
  unfold SetupRouter. rewrite !Forall_app. split_and!; repeat first [apply Forall_nil_2 | apply Forall_cons; split];
    intros i; unfold admitted; cbn [rt_Handler].
  all: first
    [ eexists (fun c _ => let* _ := _ in ret no_reply); intros c r _; solve [run_endpoint | apply ep_map, refresh_answered]
    | eexists (fun c _ => match ctx_User c with Some u => let* _ := _ in ret no_reply | None => ret no_reply end);
      intros c r [Hu _]; destruct (ctx_User c) as [u|] eqn:Eu; [run_endpoint | by destruct Hu as [u Hu]; [set_solver+|]]
    | eexists (fun c _ => match ctx_Node c with Some n => let* _ := _ in ret no_reply | None => ret no_reply end);
      intros c r [_ Hn]; destruct (ctx_Node c) as [n|] eqn:En; [run_endpoint | by destruct Hn as [n Hn]; [set_solver+|]] ].
  Unshelve. all: exact None || exact "".
Qed.

(** *** What always holds *)

(** A database before its first use: no player, no rule of alerts. *)
Definition fresh_db (d : DB) : Prop := players d = ∅ /\ player_sessions d = ∅ /\ alert_rules d = ∅.

Lemma fresh_sound d : fresh_db d -> ledger d /\ valid_rules url_parse d.
Proof.
  intros (Hp & Hs & Hr). split; [|intros i r; by rewrite Hr].
  split; intros *; rewrite ?Hp, ?Hs; try done. unfold rows. rewrite map_to_list_empty. cbn. lia.
Qed.

Context `{PL : !PlatformLaws P} `{JL : !JsonLaws Keyring ring_wf}.

Lemma always may (I : DB -> Prop) `{!PanelInvariant cfg url_parse may I} w w' : rtc (step may) w w' -> I (w_db w) -> I (w_db w').
Proof. apply panel_steps_preserve. exact _. Qed.

(** C1. The panel stays sound whatever happens to it.  From a database before
    its first use, through any sequence of requests to any of its routes, each
    run as a whole, with any bodies, callers and tokens, jobs, loops, start-ups, commands of the
    command line and passages of time, with any failure of any statement:
    every player's playtime is the sum of their finished sessions and nobody
    has two open ones; every rule of alerts has a webhook the panel may call;
    from the moment there is an active owner there is one at every later
    moment; and a backup key that was ever in the ring stays under its id. *)
Theorem panel_always_sound (w0 w w' : World) :
  fresh_db (w_db w0) -> rtc (step (fun _ => True)) w0 w -> rtc (step (fun _ => True)) w w' ->
  ledger (w_db w') /\ valid_rules url_parse (w_db w')
  /\ (has_owner (w_db w) -> has_owner (w_db w'))
  /\ (forall kr, Settings.keeps encKey kr (w_db w) -> Settings.keeps encKey kr (w_db w')).
Proof.
  intros [Hl Hr]%fresh_sound H0 H. assert (Hall : rtc (step (fun _ => True)) w0 w') by (by etrans). split_and!.
  - by apply (always (fun _ => True) ledger w0).
  - by apply (always (fun _ => True) (valid_rules url_parse) w0).
  - by apply (always (fun _ => True) has_owner w).
  - intros kr. by apply (always (fun _ => True) (Settings.keeps encKey kr) w).
Qed.

(** C2. Nobody but an owner touches an owner.  Once there is an active owner,
    and as long as no request is made with the token of an account that is an
    owner then or was one at the start, and no owner is made on the command
    line, everything else the panel does (requests of admins and users to any
    route, messages of nodes, sign-ins, refreshes, jobs and loops) leaves the
    set of owners as it is, and with it each owner's e-mail address, name,
    password hash, state, and second factor. *)
Theorem owners_untouched (w w' : World) :
  has_owner (w_db w) -> rtc (step (outsider (owner_accounts (w_db w)))) w w' ->
  owner_accounts (w_db w') = owner_accounts (w_db w).
Proof.
  intros Ho H. assert (Hi : owners_are (owner_accounts (w_db w)) (w_db w)) by done.
  by apply (always _ (owners_are (owner_accounts (w_db w))) w w' H) in Hi as [_ Hi].
Qed.
End panel.

(** ** Concrete runs *)

Definition sample_versions_json : Json HytaleVersions := {| json_marshal _ := None; json_unmarshal _ := None |}.

(** The panel over the sample libraries. *)
Definition sample_step (may : User -> Prop) : World -> World -> Prop :=
  @panel_step ascii_tables sample_platform sample_gin UTC sample_x509 sample_certs sample_mail sample_mariadb sample_provider sample_docs
    sample_json sample_token_json sample_strings_json sample_ring_json sample_daemon_json sample_hytale_json sample_profiles_json
    sample_update_json sample_versions_json sample_config_json sample_pair_json sample_smtp_json
    sample_cfg true "/srv" "1.0.0" "" "" 3306 sample_smtp (fun _ => None) may.

(** A request without a token. *)
Definition public_request (path : string) : Request := mkRequest "POST" path path "" "" "10.0.0.1" 0 None None.

Definition setup_route : Route := POST setupGroup "/complete" [] "authH.CompleteSetup".
Definition register_route : Route := POST authGroup "/register" [] "authH.Register".

Definition setup_handler (_ : Ctx) (_ : Request) : M Reply :=
  let* _ := @CompleteSetupHandler ascii_tables sample_platform sample_gin sample_cfg false
    (Some ("abcd-efgh-jklm", "Me@example.com", "me_1", "correct-horse-7")) "10.0.0.1" "ua" in ret (mkReply 201 JNull).

Definition register_handler (_ : Ctx) (_ : Request) : M Reply :=
  let* _ := @RegisterHandler ascii_tables sample_platform (Ok ("eve@example.com", "eve_1", "battery-staple-9")) in ret (mkReply 201 JNull).

Definition setup_world : World :=
  snd (@serve ascii_tables sample_platform (cfg_JWTSecret sample_cfg) true setup_route setup_handler ""
    (public_request "/api/v1/setup/complete") empty_world).

Definition register_world (w : World) : World :=
  snd (@serve ascii_tables sample_platform (cfg_JWTSecret sample_cfg) true register_route register_handler ""
    (public_request "/api/v1/auth/register") w).

Lemma public_anonymous `{U : Unicode} `{P : Platform} secret w path u : ~ authenticated secret w (req_Authorization (public_request path)) u.
Proof. by intros (? & ? & ? & ? & ? & ? & ? & ? & _). Qed.

Lemma setup_step : sample_step (fun _ => True) empty_world setup_world.
Proof.
  apply step_request; [apply contains_spec; vm_compute; reflexivity | done|]. intros c r' _. apply ep_map, ep_auth_CompleteSetup.
Qed.

Lemma register_step may w : sample_step may w (register_world w).
Proof.
  apply step_request; [apply contains_spec; vm_compute; reflexivity | by intros u ?%public_anonymous|].
  intros c r' _. apply ep_map, ep_auth_Register.
Qed.

Lemma active_owner_row d :
  exists_row (users d) (fun u => String.eqb (user_Role u) RoleOwner && user_IsActive u) = true -> has_owner d.
Proof. intros (i & u & Hi & H)%exists_row_true. breflect. by exists i, u. Qed.

Lemma panel_always_sound_witness :
  has_owner (w_db (register_world setup_world)) /\ ledger (w_db (register_world setup_world)).
Proof.
  destruct (@panel_always_sound ascii_tables sample_platform sample_gin UTC sample_x509 sample_certs sample_mail sample_mariadb
    sample_provider sample_docs sample_json sample_token_json sample_strings_json sample_ring_json sample_daemon_json
    sample_hytale_json sample_profiles_json sample_update_json sample_versions_json sample_config_json sample_pair_json
    sample_smtp_json sample_cfg true "/srv" "1.0.0" "" "" 3306 sample_smtp (fun _ => None) sample_platform_laws sample_ring_json_laws
    empty_world setup_world (register_world setup_world)) as (Hl & _ & Ho & _).
  - done.
  - apply rtc_once, setup_step.
  - apply rtc_once, register_step.
  - split; [|done]. apply Ho, active_owner_row. vm_compute. reflexivity.
Defined.

Lemma owners_untouched_witness :
  owner_accounts (w_db (register_world sample_world)) = owner_accounts (w_db sample_world)
  /\ exists_row (users (w_db (register_world sample_world))) (fun u => String.eqb (user_Email u) "eve@example.com") = true.
Proof.
  split; [|vm_compute; reflexivity].
  apply (@owners_untouched ascii_tables sample_platform sample_gin UTC sample_x509 sample_certs sample_mail sample_mariadb
    sample_provider sample_docs sample_json sample_token_json sample_strings_json sample_ring_json sample_daemon_json
    sample_hytale_json sample_profiles_json sample_update_json sample_versions_json sample_config_json sample_pair_json
    sample_smtp_json sample_cfg true "/srv" "1.0.0" "" "" 3306 sample_smtp (fun _ => None)); [apply sample_has_owner|].
  apply rtc_once, register_step.
Defined.

(** A stranger who registers before the first-run setup makes the setup code
    useless: the request that would have made the first owner is refused, and
    there is no owner. *)
Example registration_blocks_setup :
  let answer := fst (@serve ascii_tables sample_platform (cfg_JWTSecret sample_cfg) true setup_route
    (fun _ _ => let* a := @CompleteSetupHandler ascii_tables sample_platform sample_gin sample_cfg false
       (Some ("abcd-efgh-jklm", "Me@example.com", "me_1", "correct-horse-7")) "10.0.0.1" "ua" in
     ret match fst a with Err r => r | Ok _ => mkReply 201 JNull end)
    "" (public_request "/api/v1/setup/complete") (register_world empty_world)) in
  match answer with Ok (_, r) => r = reply_error 409 "setup already completed" | Err _ => False end
  /\ exists_row (users (w_db (register_world empty_world))) (fun u => String.eqb (user_Role u) RoleOwner) = false.
Proof. split; vm_compute; reflexivity. Qed.
